(* ===== verification/_CoqProject ===== *)
-Q . S2P
Prelude.v
RustStr.v
RustFloat.v
RustNet.v
Json.v
BTree.v
Serde.v
Redaction.v
CoreTypes.v
H2c.v
DeviceFeatures.v
Ams.v
Compatibility.v
CoreRecords.v
Store.v
Tables.v
JobRows.v
Tx.v
AgentSessions.v
PrinterRows.v
LiveStatus.v
PrintState.v
Correlation.v
PrinterOperation.v
OperationWire.v
ProjectFile.v
CommandTransitions.v
SessionLeases.v
Sessions.v
ConnectionLimits.v
FirmwareCommands.v
FirmwareTokens.v
FirmwareUrls.v
JobTables.v
JobCreate.v
JobRecovery.v
JobClear.v
ArtifactQuota.v
DeletionQueue.v
JobSamples.v
PrintCommand.v
Accounts.v
Onboarding.v
Credentials.v
Authorization.v
ExternalIdentity.v
Presets.v
Materials.v
MaterialMerge.v
MaterialCodec.v
MaterialSafety.v
MaterialSamples.v
AccountTables.v
AccountSteps.v
AccountSafety.v
AuthorizationSafety.v
AccountSamples.v
PresetSafety.v
AgentMaterials.v
StudioSequence.v
MqttCommands.v
OperationCommands.v
OperationReports.v
AgentOperations.v
OperationSafety.v
OperationSamples.v
MaterialPipeline.v
Brtc.v
BrtcSafety.v
BrtcSamples.v
PrintDispatch.v
PrintPipeline.v
CommandEvents.v
CommandAnswers.v
HubResults.v
CommandCompletion.v
QueuedDispatch.v
QueuedSafety.v
CommandSamples.v
PipelineSamples.v
