(* ===== verification/Prelude.v ===== *)
(** * Pandar: a verification development of the print-farm hub

    Pandar connects Bambu Lab printers to a multi-tenant hub.  Agents at the
    printers hold gRPC sessions with the hub, execute its commands and send print
    and status reports; the hub keeps printers, jobs, commands and artifacts in a
    SQL database and serves Bambu Studio (through a network plugin) and the app.
    This library models the hub's decision logic, the domain types it shares
    with the other crates ([pandar-core]) and parts of the agent, and proves what
    makes them correct.

    ** Parts, files and sources

    Paths are below [src/crates/]; [hub] abbreviates [pandar-hub/src].

    Foundations:
    - [Prelude]: [result] with its bind, options, boolean reflection and shared
      tactics; [RustStr], [RustFloat]: the standard library's strings, integers
      and floats as far as the source uses them; [Json]: [serde_json] values;
    - [Serde]: what derived decoders do with the fields of a document;
      [BTree]: key-ordered association lists, the model of [BTreeMap]; [Tables]:
      what a transaction keeps of a keyed table;
    - [Store]: the interfaces of the database ([Store]), of UUID texts
      ([UuidText]) and of timestamps ([Rfc3339]), with concrete instances for the
      witnesses; [Tx]: repository functions as state and error transformers, with
      [transaction] rolling back on error.

    Domain types, [pandar-core/src]:
    - [CoreTypes], [CoreRecords]: errors, identifiers, statuses and records;
      [H2c], [DeviceFeatures], [Ams], [Compatibility], [PrinterOperation]: nozzle
      mapping, feature bitmaps, AMS trays, the model catalog, the validator of
      live operations.

    Sessions, [hub/sessions.rs], [hub/sessions/]:
    - [AgentSessions]: the agent row as the register of the current session
      ([hub/repositories/agents/]) and the transaction fences built on it;
    - [SessionLeases]: the per-agent mutexes; [Sessions]: the registry and the
      live commands it dispatches; [ConnectionLimits]: connection and camera
      counters; [FirmwareCommands], [FirmwareTokens], [FirmwareUrls]: the table of
      pending firmware commands, its tokens and its retained URLs.

    Commands, jobs and reports, [hub/repositories/]:
    - [JobRows]: rows, conversions and bulk hydration; [PrinterRows],
      [LiveStatus]: printer rows and the merge of live reports;
    - [CommandTransitions]: every status write of a command and its job, and the
      stale sweep;
    - [PrintState], [Correlation]: what a print report does to a job, and which
      job it is about;
    - [JobTables], [JobCreate], [JobRecovery], [JobClear], [ArtifactQuota],
      [DeletionQueue], [JobSamples]: the life of a print job from its upload's
      reservation to the deletion of its file.

    Accounts, [hub/repositories/tenants.rs], [hub/repositories/auth.rs],
    [hub/repositories/auth/], [hub/repositories/printer_event_tickets.rs],
    [hub/routes/auth.rs], [hub/routes/error.rs]:
    - [Accounts]: tenants, users, roles, external identities; [Onboarding]:
      self-created tenants and join links; [Credentials]: tenant tokens, login
      tickets, the bootstrap and printer event tickets; [Authorization]: the
      principal a request speaks for and the guards of the routes;
      [ExternalIdentity] ([hub/identity/]): the configured provider, its key cache
      and the verification of its tokens, with [RustNet], the IP address texts of
      the standard library;
    - [AccountTables], [AccountSteps]: the invariant of these tables and the
      operations as one transition system; [AccountSafety],
      [AuthorizationSafety]: the theorems; [AccountSamples]: their witnesses.

    Presets: [Presets] ([hub/repositories/personal_presets.rs] and its
    modules, [hub/routes/plugin/personal_presets.rs]): the slicer presets of a
    user, next to the accounts; [PresetSafety]: their theorems and witnesses.

    Materials, [hub/repositories/materials.rs], [hub/repositories/materials/]:
    - [Materials]: the patches an agent reports about the AMS units and spools of
      a printer, their redaction and merge into the snapshot row;
    - [MaterialMerge]: a keyed merge and why it is idempotent; [MaterialCodec]:
      what survives the text of a row; [MaterialSafety], [MaterialSamples]: the
      theorems and their witnesses.

    Secrets: [Redaction] ([hub/redaction.rs]).

    The agent, [agent] abbreviating [pandar-agent/src]:
    - [AgentMaterials] ([agent/machine/materials.rs], [agent/machine/materials/],
      [agent/machine/mqtt/report/materials.rs]): what the agent makes of a
      printer's report of its materials; [MaterialPipeline], [PipelineSamples]:
      the way of a report from the agent's patch to the hub's snapshot;
    - [Brtc] ([agent/machine/brtc.rs], [agent/machine/brtc/]): the upload of a
      file to a printer, byte by byte; [BrtcSafety], [BrtcSamples]: its theorems,
      against a reference printer that takes the stream apart.

    Printer operations, from the hub to the printer:
    - [OperationWire] ([hub/grpc/commands/conversion/operations.rs],
      [agent/commands/operations.rs], [agent/commands/operations/]): the message
      of an operation, how the hub writes it and how the agent reads it;
    - [StudioSequence], [ProjectFile], [MqttCommands]
      ([agent/machine/mqtt/commands.rs], [agent/machine/mqtt/commands/],
      [agent/machine/mqtt/signing.rs]): the sequence counter that concurrent
      callers share, the project file with its signature, and the payload of
      every MQTT command;
    - [OperationCommands] ([agent/machine/operations/mqtt_command.rs], [axis.rs]):
      the command of an operation under the observed device features;
      [OperationReports] ([report.rs], and the light reports of [light.rs]): what a
      report says; [AgentOperations] ([agent/machine/operations.rs], [light.rs]):
      the dispatch, a computation over a link that logs what is subscribed and
      published and yields the reports of each wait; [OperationSafety],
      [OperationSamples]: its theorems and witnesses.

    A command from the hub's queue to its result:
    - [PrintCommand] ([hub/grpc/commands/conversion.rs]): the message of every
      queued command, of a print in particular; [PrintDispatch]
      ([agent/machine/print.rs], [agent/machine/file_transfer.rs]): what the agent
      accepts as a print, the upload and the message that starts it;
      [PrintPipeline]: both composed with the creation of a job;
    - [QueuedDispatch] ([hub/grpc/commands/device_features.rs],
      [agent_capabilities.rs]): the oldest queued command past its gates to the
      session, and the end of a session; [QueuedSafety]: what it sends;
    - [CommandEvents] ([agent/commands.rs], [agent/commands/]): every command as
      the events the agent answers it with, over an interface to the printers
      ([MachineGateway]) and a queue that may break; [CommandAnswers]: what an
      answer is;
    - [HubResults] ([hub/grpc/commands.rs], [hub/grpc/inbound/commands.rs]): what
      the hub makes of an acknowledgement and of a result; [CommandCompletion]: a
      queued command from its message to its result; [CommandSamples]: witnesses.

    ** How the code is modelled

    A [struct] is a [Record] (in a module of its own where field names recur), an
    [enum] an [Inductive]; field updates are written [r <| f := v |>].  Integers
    are [Z] with the wrap-around or saturation of their width written out where a
    value can reach it, and conversions that fail return an error.  A function
    that returns [Result] returns [result]; a panic ([expect], [assert]) is a
    [None] that theorems exclude.  Database code is [tx]: an UPDATE is
    [update_many] with its filter and reports the rows it affected, so the
    compare-and-sets of the source are compare-and-sets here.  Code that is not in
    the repository - SQL, [serde_json], [uuid], [time], [reqwest::Url] - is a
    parameter (a [Class]) with the laws the source relies on, each inhabited by an
    instance.  Drawn identifiers, clock readings and the answers of channels are
    arguments.  Concurrent parts are step relations in which every critical
    section of the source is one step: [SessionLeases], [Sessions],
    [ConnectionLimits], [FirmwareTokens], [StudioSequence].

    ** What the theorems show

    - Commands: a command row only moves forward, under the session that is
      current, the first result wins, and a print command carries its jobs along
      ([CommandTransitions]); the stale sweep fails exactly the abandoned commands.
    - Prints: reports move a print along its lifecycle only, keep its marks
      monotone and its row readable, are idempotent and are never credited to a
      foreign job ([PrintState], [Correlation]).
    - Live status: a new task inherits nothing, redelivery changes nothing visible,
      and what is merged is what is stored ([LiveStatus]).
    - Sessions: the agent row refines a session register; the lease of an agent is
      exclusive; a live command is pending once or settled once, never both;
      expiry is precise; connection counters equal the open connections, which are
      refused exactly at a limit.
    - Firmware: a prepared token admits at most one execution, of what was
      prepared and confirmed, and no operation of the table panics; the signed
      URL of an execution is never shown in a text redacted for its printer.
    - Jobs: a created job reads back; cancelling is final and touches nothing
      else; a retry never prints
      twice; clearing removes only finished jobs and leaves no dangling reference;
      quotas are never exceeded; the deletion queue settles each batch and drains.
    - Accounts: along any operations the tables stay consistent, a tenant keeps an
      administrator, join links admit no more members than they allow, a login or
      event ticket is used once, a revoked token stays dead; a route admits only
      requests entitled to its role in its tenant, and of a removed user's tokens only
      those whose own scopes a guard asks for, never its sessions, get past it; a
      verified external identity is vouched for by the configured provider,
      which is not asked for its keys more often than the cooldown allows.
    - Presets: the tables stay consistent under every operation and cascade, an
      owner's changes carry increasing times, a creation sent twice creates once,
      an owner's presets are its own, and the routes do not panic.
    - Materials: no field of a unit, tray, spool or the active tray that a snapshot
      stores has a sensitive name or text (ids and Studio texts are stored as
      reported), a snapshot never goes back in time, a report delivered twice changes nothing
      (up to the last digits of floats, which the text codec may not keep), and
      only the agent's current session writes.
    - Agent: the hub decodes every material patch an agent sends, and a slot that
      is reported empty is empty in the snapshot, which keeps what else it said of the
      slot; an upload that succeeds goes on from where the printer says it is, is
      assembled by the printer to exactly the file and confirmed by it, every upload ends whatever
      the printer sends, and frames and the JSON text in them are delimited
      exactly.
    - Printer operations: an operation crosses the wire, with the tray and the external
      id of a filament filled in; it is published
      only if it is valid and the features it requires were observed, to its
      printer only; a firmware move is the distance requested; an answer carries
      an id the dispatch published, and ids repeat only after ten thousand others.
    - Prints on their way: a created job's command converts to a message and the
      agent accepts it exactly if it knows the bed type and the calibration mode; a
      print is started only after its whole file is on the printer.
    - Answers: a session is sent the oldest queued command only, with the features
      it needs observed in that session; the command worker of the agent
      answers exactly once every command but those of the camera and the firmware,
      which it leaves to others; and a command that was sent ends succeeded or failed, as the agent
      reported, with its jobs.
    - Secrets: an access code never survives in what a link-printer command stores.
    - Domain: validators accept exactly their specification; the catalog's tables
      agree; the feature parser decides its grammar.

    ** Fuel and bounds

    Fuel appears where the source loops on an index or a cursor, and a lemma
    shows it is enough: [JobRows.hydrate_loop] (one more than the number of jobs),
    [Redaction.redact_key_value_fuel] (one more than the length of the line,
    [redact_key_value_terminates]), [Redaction.str_replace_fuel] (the length of
    the text), the digit loops of [RustStr], the message and chunk loops of [Brtc]
    (the length of the input, the length of the file; [upload_terminates]).

    ** Assumptions

    The laws of the interfaces in [Store]; for quotas, that clock texts do not go
    back and that the database compares them byte by byte
    ([ArtifactQuota.BinaryCollation]); fresh identifiers where an operation draws
    a UUID ([FirmwareTokens.fresh]); keys unique in the tables a statement
    identifies rows by (for the accounts this is proved, [AccountTables.accounts_ok]).
    The account operations are modelled one after the other: what two
    transactions that overlap may do to each other is left to the database.

    ** Not modelled

    Network, file and process I/O (tonic, axum, MQTT, FTPS, TLS, S3, sockets),
    channel wake-ups and timers: they are interfaces or arguments where modelled
    code needs their answers.  SQL text, migrations and connection handling, behind
    [Store]; derived serde formats, behind the classes of readers and writers.  Of
    the hub: the routes beyond their guards, whose bodies shape requests and
    responses; the handlers of printer, feature and firmware snapshots; the
    timeouts of firmware control; cluster coordination and metrics.  Of the agent:
    the tasks that own the printers' connections, the firmware worker, camera and
    discovery, and the reports other than those of materials and operations.  The
    network plugin, the hooks and the app, which are C ABI and user interface code
    around HTTP requests. *)

From stdpp Require Export base tactics option list strings gmap.
From Stdlib Require Export Ascii ZArith Lia.
From coqutil Require Export Datatypes.RecordSettersUsingExistingGetters.
Export RecordSetNotations1.
#[global] Arguments RecordSettersUsingExistingGetters.const {E} _ _ /.

#[global] Set Default Goal Selector "!".

(** ** Results

    Rust's [Result<T, E>].  The error type comes first so that [result E] is a
    monad; the [?] operator is bind. *)
Inductive result (E A : Type) : Type :=
| Ok (a : A)
| Err (e : E).
Arguments Ok {E A} a.
Arguments Err {E A} e.

Declare Scope rust_scope.
Delimit Scope rust_scope with rust.

Definition rbind {E A B} (r : result E A) (k : A -> result E B) : result E B :=
  match r with
  | Ok a => k a
  | Err e => Err e
  end.

Notation "x <-? c ;; k" := (rbind c (fun x => k))
  (at level 100, c at next level, right associativity) : rust_scope.
Notation "c ?;; k" := (rbind c (fun _ => k))
  (at level 100, k at level 200, right associativity) : rust_scope.

(** [Result::ok]. *)
Definition r_ok {E A} (r : result E A) : option A :=
  match r with Ok a => Some a | Err _ => None end.

(** [Option::ok_or]. *)
Definition ok_or {E A} (o : option A) (e : E) : result E A :=
  match o with Some a => Ok a | None => Err e end.

(** [Option<Result<T, E>>::transpose]. *)
Definition r_transpose {E A} (o : option (result E A)) : result E (option A) :=
  match o with
  | None => Ok None
  | Some (Ok a) => Ok (Some a)
  | Some (Err e) => Err e
  end.

(** [Result::map_err]. *)
Definition map_err {E F A} (f : E -> F) (r : result E A) : result F A :=
  match r with Ok a => Ok a | Err e => Err (f e) end.

Definition is_ok {E A} (r : result E A) : bool :=
  match r with Ok _ => true | Err _ => false end.

(** [Option::or]. *)
Definition opt_or {A} (o o' : option A) : option A :=
  match o with Some _ => o | None => o' end.

(** [Option::filter]. *)
Definition opt_filter {A} (p : A -> bool) (o : option A) : option A :=
  match o with Some a => if p a then Some a else None | None => None end.

(** [Option::is_some_and]. *)
Definition is_some_and {A} (p : A -> bool) (o : option A) : bool :=
  match o with Some a => p a | None => false end.

Definition is_some {A} (o : option A) : bool :=
  match o with Some _ => true | None => false end.
Definition is_none {A} (o : option A) : bool := negb (is_some o).

(** A boolean view of decidable equality, for the [==] of derived [PartialEq]. *)
Definition beq {A} `{EqDecision A} (x y : A) : bool := bool_decide (x = y).

#[global] Instance result_eq_dec {E A} `{EqDecision E} `{EqDecision A} :
  EqDecision (result E A).
Proof. solve_decision. Defined.

(** ** Lemmas about results and options *)

Lemma rbind_Ok {E A B} (r : result E A) (k : A -> result E B) b :
  rbind r k = Ok b <-> exists a, r = Ok a /\ k a = Ok b.
Proof.
  destruct r as [x|e]; simpl; split.
  - eauto.
  - intros (a & Ha & Hk). congruence.
  - discriminate.
  - intros (a & Ha & _). discriminate.
Qed.

Lemma ok_or_Ok {E A} (o : option A) (e : E) a : ok_or o e = Ok a <-> o = Some a.
Proof. destruct o; simpl; split; congruence. Qed.

Lemma opt_filter_Some {A} (p : A -> bool) o a :
  opt_filter p o = Some a <-> o = Some a /\ p a = true.
Proof.
  destruct o as [x|]; simpl; [destruct (p x) eqn:E|]; split; intros;
    repeat match goal with H : _ /\ _ |- _ => destruct H end; simplify_eq; eauto; congruence.
Qed.

Lemma is_some_and_true {A} (p : A -> bool) o :
  is_some_and p o = true <-> exists a, o = Some a /\ p a = true.
Proof.
  destruct o as [x|]; simpl; split.
  - eauto.
  - intros (a & Ha & Hp). congruence.
  - discriminate.
  - intros (a & Ha & _). discriminate.
Qed.

Lemma is_some_true {A} (o : option A) : is_some o = true <-> is_Some o.
Proof.
  destruct o as [x|]; simpl; split.
  - intros _. by exists x.
  - done.
  - discriminate.
  - intros [a Ha]. discriminate.
Qed.

Lemma is_none_true {A} (o : option A) : is_none o = true <-> o = None.
Proof. destruct o; unfold is_none; simpl; split; congruence. Qed.

Lemma beq_true {A} `{EqDecision A} (x y : A) : beq x y = true <-> x = y.
Proof. unfold beq. apply bool_decide_eq_true. Qed.

Lemma beq_false {A} `{EqDecision A} (x y : A) : beq x y = false <-> x <> y.
Proof. unfold beq. apply bool_decide_eq_false. Qed.

Lemma beq_refl {A} `{EqDecision A} (x : A) : beq x x = true.
Proof. by apply beq_true. Qed.

Lemma NoDup_map_filter {A B} (f : A -> B) (p : A -> bool) l :
  NoDup (map f l) -> NoDup (map f (List.filter p l)).
Proof.
  induction l as [|x l IH]; simpl; [done|]. rewrite NoDup_cons. intros [Hx Hl].
  destruct (p x); simpl; [|by apply IH]. apply NoDup_cons. split; [|by apply IH].
  intros Hin. apply Hx. apply list_elem_of_In, in_map_iff in Hin as (y & <- & Hy).
  apply filter_In in Hy as [Hy _]. apply list_elem_of_In. by apply in_map.
Qed.

Lemma filter_perm {R} (p : R -> bool) l l' : l ≡ₚ l' -> List.filter p l ≡ₚ List.filter p l'.
Proof.
  induction 1 as [|x l l' _ IH|x y l|l l' l'' _ IH _ IH']; simpl.
  - done.
  - destruct (p x); [by constructor|done].
  - destruct (p x), (p y); by constructor || done.
  - by etrans.
Qed.

Lemma filter_none {R} (p : R -> bool) l : (forall r, In r l -> p r = false) -> List.filter p l = [].
Proof.
  induction l as [|r l IH]; intros Hp; simpl; [done|]. rewrite Hp by (by left). apply IH.
  intros r' Hr'. apply Hp. by right.
Qed.

Lemma Forall2_impl_l {A B} (P Q : A -> B -> Prop) l k :
  Forall2 P l k -> (forall x y, In x l -> P x y -> Q x y) -> Forall2 Q l k.
Proof.
  induction 1 as [|x y l k Hxy Hlk IH]; intros H; constructor.
  - apply H; [by left|done].
  - apply IH. intros x' y' Hx'. apply H. by right.
Qed.

(** [bool_prop] turns the boolean connectives and comparisons of a translated
    guard into propositions, in the goal and in the hypotheses. *)
Create HintDb bool_prop.
#[export] Hint Rewrite andb_true_iff orb_true_iff negb_true_iff negb_false_iff
  andb_false_iff orb_false_iff Z.leb_le Z.ltb_lt Z.eqb_eq Z.leb_gt Z.ltb_ge Z.eqb_neq
  @beq_true @beq_false @is_some_and_true @is_none_true @is_some_true
  @opt_filter_Some Nat.leb_le Nat.ltb_lt Nat.eqb_eq : bool_prop.

Ltac bprop := autorewrite with bool_prop in *.

(** Case analysis on the scrutinee of the first [match] of the goal, keeping
    the equation. *)
Ltac case_goal :=
  match goal with
  | |- context [match ?x with _ => _ end] => destruct x eqn:?
  end.

(** Solve a goal about concrete data by evaluation. *)
Ltac eval_done := vm_compute; first [reflexivity | done | congruence].

(** Break the conjunctions of hypotheses and goal. *)
Ltac split_all :=
  repeat match goal with
         | H : _ /\ _ |- _ => destruct H
         | |- _ /\ _ => split
         end.
