(* ===== verification/RustStr.v ===== *)
(** * Rust strings

    A Rust [str] is a UTF-8 byte string; here a [string] of bytes.  Comparison,
    length and slicing are on bytes, as in Rust.  [str::trim] removes Unicode
    [White_Space] characters, given here by their UTF-8 encodings (one, two or
    three bytes), from both ends.  The file also holds the integer parsing and
    printing of the standard library ([from_str_radix], [parse], [{}], [{:X}])
    and the ASCII case operations. *)

From stdpp Require Export pretty.
From S2P Require Import Prelude.

#[local] Open Scope Z_scope.

Definition byte_val (c : ascii) : Z := Z.of_nat (Ascii.nat_of_ascii c).
Definition byte_in (lo hi : Z) (c : ascii) : bool :=
  (lo <=? byte_val c) && (byte_val c <=? hi).
Definition byte_is (v : Z) (c : ascii) : bool := byte_val c =? v.

(** ** Whitespace and [trim] *)

(** One-byte whitespace: TAB, LF, VT, FF, CR, SPACE. *)
Definition ws1 (a : ascii) : bool := byte_in 9 13 a || byte_is 32 a.
(** U+0085 and U+00A0. *)
Definition ws2 (a b : ascii) : bool := byte_is 194 a && (byte_is 133 b || byte_is 160 b).
(** U+1680, U+2000..200A, U+2028, U+2029, U+202F, U+205F, U+3000. *)
Definition ws3 (a b c : ascii) : bool :=
  (byte_is 225 a && byte_is 154 b && byte_is 128 c)
  || (byte_is 226 a && byte_is 128 b
      && (byte_in 128 138 c || byte_is 168 c || byte_is 169 c || byte_is 175 c))
  || (byte_is 226 a && byte_is 129 b && byte_is 159 c)
  || (byte_is 227 a && byte_is 128 b && byte_is 128 c).

Fixpoint trim_start (s : string) : string :=
  match s with
  | EmptyString => s
  | String a r1 =>
      if ws1 a then trim_start r1
      else match r1 with
           | EmptyString => s
           | String b r2 =>
               if ws2 a b then trim_start r2
               else match r2 with
                    | EmptyString => s
                    | String c r3 => if ws3 a b c then trim_start r3 else s
                    end
           end
  end.

(** The same on a reversed string, whose characters' bytes come last first. *)
Fixpoint trim_start_rev (s : string) : string :=
  match s with
  | EmptyString => s
  | String a r1 =>
      if ws1 a then trim_start_rev r1
      else match r1 with
           | EmptyString => s
           | String b r2 =>
               if ws2 b a then trim_start_rev r2
               else match r2 with
                    | EmptyString => s
                    | String c r3 => if ws3 c b a then trim_start_rev r3 else s
                    end
           end
  end.

Definition str_rev (s : string) : string :=
  String.string_of_list_ascii (List.rev (String.list_ascii_of_string s)).

Definition trim_end (s : string) : string := str_rev (trim_start_rev (str_rev s)).
Definition trim (s : string) : string := trim_end (trim_start s).

(** [s.trim().is_empty()]. *)
Definition blank (s : string) : bool := beq (trim s) EmptyString.

(** ** ASCII operations *)

Definition to_upper (c : ascii) : ascii :=
  if byte_in 97 122 c then Ascii.ascii_of_nat (Ascii.nat_of_ascii c - 32) else c.
Definition to_lower (c : ascii) : ascii :=
  if byte_in 65 90 c then Ascii.ascii_of_nat (Ascii.nat_of_ascii c + 32) else c.

Fixpoint str_map (f : ascii -> ascii) (s : string) : string :=
  match s with
  | EmptyString => EmptyString
  | String c r => String (f c) (str_map f r)
  end.
Definition to_ascii_uppercase : string -> string := str_map to_upper.
Definition to_ascii_lowercase : string -> string := str_map to_lower.

Fixpoint str_forall (p : ascii -> bool) (s : string) : bool :=
  match s with EmptyString => true | String c r => p c && str_forall p r end.
Fixpoint str_exists (p : ascii -> bool) (s : string) : bool :=
  match s with EmptyString => false | String c r => p c || str_exists p r end.

Definition is_digit (c : ascii) : bool := byte_in 48 57 c.
Definition is_hexdigit (c : ascii) : bool :=
  byte_in 48 57 c || byte_in 65 70 c || byte_in 97 102 c.

(** [s.replace(chars, EmptyString)]: every character satisfying [p] removed. *)
Fixpoint remove_chars (p : ascii -> bool) (s : string) : string :=
  match s with
  | EmptyString => EmptyString
  | String c r => if p c then remove_chars p r else String c (remove_chars p r)
  end.

Fixpoint strip_prefix (p s : string) : option string :=
  match p, s with
  | EmptyString, _ => Some s
  | String a p', String b s' => if Ascii.eqb a b then strip_prefix p' s' else None
  | String _ _, EmptyString => None
  end.
Definition starts_with (p s : string) : bool := is_some (strip_prefix p s).

(** [trim_start_matches(p)] for a nonempty [p]: the prefix removed as often as
    it occurs; the length of [s] is enough fuel. *)
Fixpoint trim_start_matches_fuel (n : nat) (p s : string) : string :=
  match n with
  | O => s
  | S n => match strip_prefix p s with
           | Some r => trim_start_matches_fuel n p r
           | None => s
           end
  end.
Definition trim_start_matches (p s : string) : string :=
  trim_start_matches_fuel (String.length s) p s.

Fixpoint str_contains (needle s : string) : bool :=
  starts_with needle s
  || match s with EmptyString => false | String _ r => str_contains needle r end.

(** [s.rsplit(p).next()]: the part after the last character satisfying [p]. *)
Fixpoint after_last (p : ascii -> bool) (s : string) : string :=
  match s with
  | EmptyString => EmptyString
  | String c r => if p c
                  then after_last p r
                  else if str_exists p r then after_last p r else s
  end.

(** [s.rsplit_once(p)]'s first component. *)
Fixpoint before_last (p : ascii -> bool) (s : string) : option string :=
  match s with
  | EmptyString => None
  | String c r => match before_last p r with
                  | Some b => Some (String c b)
                  | None => if p c then Some EmptyString else None
                  end
  end.

(** [s.get(..3)]: [None] when the string is shorter or byte 3 is inside a
    character. *)
Definition get_prefix3 (s : string) : option string :=
  match s with
  | String a (String b (String c r)) =>
      match r with
      | EmptyString => Some (String a (String b (String c EmptyString)))
      | String d _ => if byte_in 128 191 d then None
                      else Some (String a (String b (String c EmptyString)))
      end
  | _ => None
  end.

(** [s.split(sep)] for a character [sep]. *)
Fixpoint split_head (sep : ascii) (s : string) : string * list string :=
  match s with
  | EmptyString => (EmptyString, [])
  | String c r =>
      let '(part, parts) := split_head sep r in
      if Ascii.eqb c sep then (EmptyString, part :: parts) else (String c part, parts)
  end.
Definition split (sep : ascii) (s : string) : list string :=
  let '(part, parts) := split_head sep s in part :: parts.

(** ** Integer parsing and printing *)

Definition digit_val (radix : Z) (c : ascii) : option Z :=
  let v := byte_val c in
  let d := if byte_in 48 57 c then v - 48
           else if byte_in 65 90 c then v - 55
           else if byte_in 97 122 c then v - 87
           else 99 in
  if d <? radix then Some d else None.

(** The digit loop of [from_str_radix], failing when the value passes [max]. *)
Fixpoint parse_digits (radix max acc : Z) (s : string) : option Z :=
  match s with
  | EmptyString => Some acc
  | String c r =>
      match digit_val radix c with
      | None => None
      | Some d => let acc' := acc * radix + d in
                  if acc' <=? max then parse_digits radix max acc' r else None
      end
  end.

(** [uN::from_str_radix]: an optional [+], then at least one digit. *)
Definition parse_unsigned (radix max : Z) (s : string) : option Z :=
  match s with
  | EmptyString => None
  | String c r =>
      if byte_is 43 c then match r with
                           | EmptyString => None
                           | _ => parse_digits radix max 0 r
                           end
      else parse_digits radix max 0 s
  end.

(** [iN::from_str_radix]: also an optional [-]. *)
Definition parse_signed (radix min max : Z) (s : string) : option Z :=
  match s with
  | EmptyString => None
  | String c r =>
      if byte_is 45 c then match r with
                           | EmptyString => None
                           | _ => Z.opp <$> parse_digits radix (- min) 0 r
                           end
      else parse_unsigned radix max s
  end.

Definition u8_max : Z := 255.
Definition u16_max : Z := 65535.
Definition u32_max : Z := 4294967295.
Definition u64_max : Z := 18446744073709551615.
Definition i32_min : Z := -2147483648.
Definition i32_max : Z := 2147483647.
Definition i64_min : Z := -9223372036854775808.
Definition i64_max : Z := 9223372036854775807.

Definition in_range (lo hi z : Z) : bool := (lo <=? z) && (z <=? hi).

(** [TryFrom] between integer types. *)
Definition try_int (lo hi z : Z) : option Z := if in_range lo hi z then Some z else None.

(** [value.to_string()] of an integer. *)
Definition dec (z : Z) : string := pretty z.

Definition hex_digit (d : Z) : ascii :=
  Ascii.ascii_of_nat (Z.to_nat (if d <? 10 then 48 + d else 55 + d)).

(** [format!("{:X}", z)]; sixteen digits are enough for a [u64]. *)
Fixpoint hex_fuel (n : nat) (z : Z) (acc : string) : string :=
  match n with
  | O => acc
  | S n => let acc' := String (hex_digit (z mod 16)) acc in
           if z <? 16 then acc' else hex_fuel n (z / 16) acc'
  end.
Definition to_upper_hex (z : Z) : string := hex_fuel 16 z EmptyString.

(** ** Lemmas *)

Lemma append_nil_r (a : string) : (a ++ EmptyString)%string = a.
Proof. induction a as [|c a IH]; [done|]. change (String c (a ++ EmptyString)%string = String c a). by rewrite IH. Qed.

Lemma str_forall_app p s t : str_forall p (s +:+ t) = str_forall p s && str_forall p t.
Proof. induction s as [|c s IH]; simpl; [done|]. by rewrite IH, andb_assoc. Qed.

Lemma parse_digits_bounds radix max acc s z :
  0 <= radix -> 0 <= acc <= max -> parse_digits radix max acc s = Some z -> acc <= max /\ 0 <= z <= max.
Proof.
  intros Hr. revert acc. induction s as [|c s IH]; simpl; intros acc Hacc H.
  - injection H as <-. lia.
  - destruct (digit_val radix c) as [d|] eqn:Hd; [|done].
    destruct (acc * radix + d <=? max) eqn:Hle; [|done].
    assert (0 <= d).
    { unfold digit_val in Hd. revert Hd.
      unfold byte_in.
      repeat case_match; intros; simplify_eq; bprop; lia. }
    bprop. apply IH in H; [lia|nia].
Qed.

Lemma parse_unsigned_bounds radix max s z :
  0 <= radix -> 0 <= max -> parse_unsigned radix max s = Some z -> 0 <= z <= max.
Proof.
  intros Hr Hm. destruct s as [|c r]; simpl; [done|].
  destruct (byte_is 43 c).
  - destruct r as [|c' r']; [done|]. intros H. eapply parse_digits_bounds in H; lia.
  - intros H. eapply (parse_digits_bounds _ _ _ (String c r)) in H; lia.
Qed.

Lemma hex_digit_val d : 0 <= d < 16 -> digit_val 16 (hex_digit d) = Some d.
Proof.
  intros H.
  assert (d = 0 \/ d = 1 \/ d = 2 \/ d = 3 \/ d = 4 \/ d = 5 \/ d = 6 \/ d = 7 \/ d = 8
          \/ d = 9 \/ d = 10 \/ d = 11 \/ d = 12 \/ d = 13 \/ d = 14 \/ d = 15) as Hd by lia.
  by repeat destruct Hd as [->|Hd]; [..|subst].
Qed.

Lemma hex_digit_is_hexdigit d : 0 <= d < 16 -> is_hexdigit (hex_digit d) = true.
Proof.
  intros H.
  assert (d = 0 \/ d = 1 \/ d = 2 \/ d = 3 \/ d = 4 \/ d = 5 \/ d = 6 \/ d = 7 \/ d = 8
          \/ d = 9 \/ d = 10 \/ d = 11 \/ d = 12 \/ d = 13 \/ d = 14 \/ d = 15) as Hd by lia.
  by repeat destruct Hd as [->|Hd]; [..|subst].
Qed.

(** Parsing the hexadecimal digits of [z] in front of [acc] is parsing [acc]
    from the accumulator [z]. *)
Lemma parse_hex_fuel n z acc max :
  0 <= z < 16 ^ Z.of_nat n -> z <= max ->
  parse_digits 16 max 0 (hex_fuel n z acc) = parse_digits 16 max z acc.
Proof.
  revert z acc. induction n as [|n IH]; intros z acc Hz Hm.
  { simpl in Hz. simpl. by replace z with 0 by lia. }
  simpl hex_fuel. pose proof (Z.mod_pos_bound z 16 ltac:(lia)).
  destruct (z <? 16) eqn:E; bprop.
  - cbn [parse_digits]. rewrite hex_digit_val by lia.
    rewrite Z.mod_small by lia. cbn zeta. rewrite Z.mul_0_l, Z.add_0_l.
    by rewrite (proj2 (Z.leb_le z max)) by lia.
  - rewrite IH.
    + cbn [parse_digits]. rewrite hex_digit_val by lia. cbn zeta.
      replace (z / 16 * 16 + z mod 16) with z by (pose proof (Z.div_mod z 16); lia).
      by rewrite (proj2 (Z.leb_le z max)) by lia.
    + rewrite Nat2Z.inj_succ, Z.pow_succ_r in Hz by lia.
      split; [apply Z.div_pos; lia|]. apply Z.div_lt_upper_bound; lia.
    + assert (z / 16 <= z) by (apply Z.div_le_upper_bound; lia). lia.
Qed.

Lemma hex_fuel_hexdigits n z acc :
  0 <= z -> str_forall is_hexdigit (hex_fuel n z acc) = str_forall is_hexdigit acc.
Proof.
  revert z acc. induction n as [|n IH]; intros z acc Hz; [done|]. simpl.
  pose proof (Z.mod_pos_bound z 16 ltac:(lia)).
  destruct (z <? 16).
  - simpl. by rewrite hex_digit_is_hexdigit by lia.
  - rewrite IH by (apply Z.div_pos; lia). simpl. by rewrite hex_digit_is_hexdigit by lia.
Qed.

Lemma hex_fuel_length n z acc :
  (String.length (hex_fuel n z acc) <= n + String.length acc)%nat.
Proof.
  revert z acc. induction n as [|n IH]; intros z acc; simpl; [lia|].
  destruct (z <? 16); simpl; [lia|]. etrans; [apply IH|]. simpl. lia.
Qed.

Lemma hex_fuel_cons n z acc :
  (0 < n)%nat -> exists c r, hex_fuel n z acc = String c r.
Proof.
  revert z acc. induction n as [|n IH]; intros z acc Hn; [lia|]. simpl.
  destruct (z <? 16); [eauto|].
  destruct n as [|n]; [simpl; eauto|]. apply IH. lia.
Qed.

Lemma dec_inj z z' : dec z = dec z' -> z = z'.
Proof. unfold dec. by apply (inj pretty). Qed.

(** ** Case and [trim] *)

Lemma to_upper_lower c : to_upper (to_lower c) = to_upper c.
Proof. by destruct c as [[] [] [] [] [] [] [] []]. Qed.

Lemma ws1_lower a : ws1 (to_lower a) = ws1 a.
Proof. by destruct a as [[] [] [] [] [] [] [] []]. Qed.

(** Lower-casing leaves the bytes of the other whitespace characters alone. *)
Lemma to_lower_nonletter a :
  byte_in 65 90 a = false -> to_lower a = a.
Proof. unfold to_lower. by intros ->. Qed.

Lemma byte_is_lower v a :
  forallb (fun n => negb (Z.of_nat n =? v)) (seq 65 26 ++ seq 97 26) = true ->
  byte_is v (to_lower a) = byte_is v a.
Proof.
  intros Hv. unfold byte_is. rewrite forallb_forall in Hv.
  unfold to_lower. destruct (byte_in 65 90 a) eqn:E; [|done].
  unfold byte_in, byte_val in *. bprop.
  rewrite nat_ascii_embedding by lia.
  assert (forall n, (65 <= n <= 90 \/ 97 <= n <= 122)%nat -> Z.of_nat n <> v) as Hn.
  { intros n Hn <-. specialize (Hv n). rewrite Z.eqb_refl in Hv.
    discriminate Hv. apply in_app_iff. rewrite !in_seq. lia. }
  rewrite (proj2 (Z.eqb_neq _ v)) by (apply Hn; lia).
  symmetry. rewrite (proj2 (Z.eqb_neq _ v)) by (apply Hn; lia). done.
Qed.

Lemma byte_in_lower lo hi a :
  122 < lo -> byte_in lo hi (to_lower a) = byte_in lo hi a.
Proof.
  intros Hlo. unfold to_lower. destruct (byte_in 65 90 a) eqn:E; [|done].
  unfold byte_in, byte_val in *. bprop. rewrite nat_ascii_embedding by lia.
  rewrite !(proj2 (Z.leb_gt lo _)) by lia. done.
Qed.

Lemma ws2_lower a b : ws2 (to_lower a) (to_lower b) = ws2 a b.
Proof. unfold ws2. by rewrite !byte_is_lower by reflexivity. Qed.

Lemma ws3_lower a b c : ws3 (to_lower a) (to_lower b) (to_lower c) = ws3 a b c.
Proof. unfold ws3. by rewrite !byte_is_lower, byte_in_lower by done. Qed.

Lemma str_map_list f s :
  String.list_ascii_of_string (str_map f s) = map f (String.list_ascii_of_string s).
Proof. induction s as [|c s IH]; simpl; [done|]. by rewrite IH. Qed.

Lemma str_map_of_list f l :
  str_map f (String.string_of_list_ascii l) = String.string_of_list_ascii (map f l).
Proof. induction l as [|c l IH]; simpl; [done|]. by rewrite IH. Qed.

Lemma str_rev_map f s : str_rev (str_map f s) = str_map f (str_rev s).
Proof. unfold str_rev. by rewrite str_map_list, <- map_rev, str_map_of_list. Qed.

(** Induction on strings whose hypothesis reaches the three tails that
    [trim_start] recurs on. *)
Lemma string_ind3 (P : string -> Prop) :
  P EmptyString ->
  (forall a r, P r -> (forall b r2, r = String b r2 -> P r2) ->
               (forall b c r3, r = String b (String c r3) -> P r3) -> P (String a r)) ->
  forall s, P s.
Proof.
  intros H0 H1. cut (forall n s, (String.length s <= n)%nat -> P s); [eauto|].
  induction n as [|n IH]; intros [|a r] Hl; simpl in *; try done; [lia|].
  apply H1; [apply IH; lia|..]; intros; subst; apply IH; simpl in *; lia.
Qed.

Lemma trim_start_lower s : trim_start (to_ascii_lowercase s) = to_ascii_lowercase (trim_start s).
Proof.
  unfold to_ascii_lowercase. induction s as [|a r IH1 IH2 IH3] using string_ind3; [done|].
  simpl. rewrite ws1_lower. destruct (ws1 a); [done|].
  destruct r as [|b r2]; [done|]. simpl. rewrite ws2_lower.
  destruct (ws2 a b); [by eapply IH2|].
  destruct r2 as [|c r3]; [done|]. simpl. rewrite ws3_lower.
  destruct (ws3 a b c); [by eapply IH3|done].
Qed.

Lemma trim_start_rev_lower s :
  trim_start_rev (to_ascii_lowercase s) = to_ascii_lowercase (trim_start_rev s).
Proof.
  unfold to_ascii_lowercase. induction s as [|a r IH1 IH2 IH3] using string_ind3; [done|].
  simpl. rewrite ws1_lower. destruct (ws1 a); [done|].
  destruct r as [|b r2]; [done|]. simpl. rewrite ws2_lower.
  destruct (ws2 b a); [by eapply IH2|].
  destruct r2 as [|c r3]; [done|]. simpl. rewrite ws3_lower.
  destruct (ws3 c b a); [by eapply IH3|done].
Qed.

Lemma trim_lower s : trim (to_ascii_lowercase s) = to_ascii_lowercase (trim s).
Proof.
  unfold trim, trim_end. rewrite trim_start_lower. unfold to_ascii_lowercase at 1.
  rewrite str_rev_map. change (str_map to_lower) with to_ascii_lowercase.
  rewrite trim_start_rev_lower. unfold to_ascii_lowercase at 1. by rewrite str_rev_map.
Qed.

Lemma upper_lower s : to_ascii_uppercase (to_ascii_lowercase s) = to_ascii_uppercase s.
Proof.
  unfold to_ascii_uppercase, to_ascii_lowercase.
  induction s as [|c s IH]; simpl; [done|]. by rewrite to_upper_lower, IH.
Qed.

#[local] Arguments String.append : simpl nomatch.

Lemma strip_prefix_Some p s r : strip_prefix p s = Some r <-> s = (p ++ r)%string.
Proof.
  revert s. induction p as [|a p IH]; intros [|b s]; simpl; split; try congruence.
  - destruct (Ascii.eqb_spec a b) as [->|]; [|done]. by intros ->%IH.
  - intros [= -> ->]. rewrite Ascii.eqb_refl. by apply IH.
Qed.
