(* ===== verification/RustFloat.v ===== *)
(** * IEEE 754 values

    [f32] and [f64] as [SpecFloat.spec_float] at the two formats' parameters:
    constants, the comparisons the source uses, [is_finite], [abs], the
    conversion from integers, and [str::parse::<f32>] with the grammar of the
    standard library and correct rounding (to nearest, ties to even). *)

From Stdlib Require Export SpecFloat.
From S2P Require Import Prelude RustStr.

#[local] Open Scope Z_scope.

Definition float := spec_float.

(** (precision, exponent bound) of the two formats. *)
Definition f32_prec : Z := 24.
Definition f32_emax : Z := 128.
Definition f64_prec : Z := 53.
Definition f64_emax : Z := 1024.

Definition f64_of_Z (z : Z) : float := binary_normalize f64_prec f64_emax z 0 false.

Definition is_finite (x : float) : bool :=
  match x with S754_zero _ | S754_finite _ _ _ => true | _ => false end.

Definition fabs : float -> float := SFabs.
(** [==], [<=], [<] and [>] of [PartialEq]/[PartialOrd]; comparisons with NaN are false. *)
Definition feqb : float -> float -> bool := SFeqb.
Definition fleb : float -> float -> bool := SFleb.
Definition fltb : float -> float -> bool := SFltb.

Definition f64_1 : float := f64_of_Z 1.
Definition f64_10 : float := f64_of_Z 10.
Definition f64_50 : float := f64_of_Z 50.

(** The float nearest to [(-1)^s * m * 10^e]. *)
Definition round_decimal (prec emax : Z) (s : bool) (m e : Z) : float :=
  if m =? 0 then S754_zero s
  else if 0 <=? e then binary_normalize prec emax ((if s then -1 else 1) * (m * 10 ^ e)) 0 false
  else SFdiv prec emax (S754_finite s (Z.to_pos m) 0)
                       (S754_finite false (Z.to_pos (10 ^ (- e))) 0).

(** ** Parsing a decimal float *)

(** A run of digits: its value appended to [acc], its length, the rest. *)
Fixpoint take_digits (acc : Z) (n : nat) (s : string) : Z * nat * string :=
  match s with
  | String c r => if is_digit c then take_digits (acc * 10 + (byte_val c - 48)) (S n) r
                  else (acc, n, s)
  | EmptyString => (acc, n, s)
  end.

Definition parse_exponent (s : string) : option Z :=
  let '(neg, body) :=
    match s with
    | String c r => if byte_is 43 c then (false, r) else if byte_is 45 c then (true, r) else (false, s)
    | EmptyString => (false, s)
    end in
  match take_digits 0 0 body with
  | (v, S _, EmptyString) => Some (if neg : bool then - v else v)
  | _ => None
  end.

(** Mantissa digits, an optional fraction, an optional exponent; at least one
    mantissa digit on either side of the point. *)
Definition parse_decimal (prec emax : Z) (neg : bool) (s : string) : option float :=
  let '(m0, n0, r0) := take_digits 0 0 s in
  let '(m1, n1, r1) :=
    match r0 with
    | String c r => if byte_is 46 c then take_digits m0 0 r else (m0, O, r0)
    | EmptyString => (m0, O, r0)
    end in
  if (n0 + n1 =? 0)%nat then None
  else match r1 with
       | EmptyString => Some (round_decimal prec emax neg m1 (- Z.of_nat n1))
       | String c r =>
           if byte_is 101 c || byte_is 69 c then
             (fun e => round_decimal prec emax neg m1 (e - Z.of_nat n1)) <$> parse_exponent r
           else None
       end.

Definition parse_special (neg : bool) (s : string) : option float :=
  let l := to_ascii_lowercase s in
  if beq l "nan"%string then Some S754_nan
  else if beq l "inf"%string || beq l "infinity"%string then Some (S754_infinity neg)
  else None.

(** [str::parse::<f32>]. *)
Definition parse_float (prec emax : Z) (s : string) : option float :=
  match s with
  | EmptyString => None
  | String c r =>
      let '(neg, body) :=
        if byte_is 45 c then (true, r) else if byte_is 43 c then (false, r) else (false, s) in
      match body with
      | EmptyString => None
      | _ => opt_or (parse_decimal prec emax neg body) (parse_special neg body)
      end
  end.

Definition f32_parse : string -> option float := parse_float f32_prec f32_emax.

Definition f32_lit (m e : Z) : float := round_decimal f32_prec f32_emax false m e.

Example f32_lit_tenths : f32_lit 4 (-1) = S754_finite false 13421773 (-25).
Proof. reflexivity. Qed.

Example f32_parse_examples :
  f32_parse "0.4" = Some (f32_lit 4 (-1)) /\ f32_parse ".4e0" = Some (f32_lit 4 (-1))
  /\ f32_parse "4e-1" = Some (f32_lit 4 (-1)) /\ f32_parse "." = None
  /\ f32_parse "-Inf" = Some (S754_infinity true) /\ f32_parse "0.4 " = None.
Proof. vm_compute. repeat split. Qed.

Lemma feqb_finite x y : feqb x y = true -> is_finite y = true -> is_finite x = true.
Proof. destruct x, y; simpl; try done; by destruct s. Qed.

(** ** Exact values

    The numbers finite floats denote, and comparisons with small integers. *)

(** [x] denotes the rational [n / 2^k], for an exponent [k >= 0]. *)
Definition denotes (x : float) (n k : Z) : Prop :=
  0 <= k /\
  match x with
  | S754_zero _ => n = 0
  | S754_finite s m e =>
      0 <= e + k /\ n = (if s then -1 else 1) * (Z.pos m * 2 ^ (e + k))
  | _ => False
  end.

(** The [f64] values: mantissa and exponent in the format's canonical form. *)
Definition is_f64 (x : float) : bool := valid_binary f64_prec f64_emax x.

Definition magnitude_at_most (x : float) (bound : Z) : Prop :=
  exists n k, denotes x n k /\ Z.abs n <= bound * 2 ^ k.
Definition magnitude_is (x : float) (v : Z) : Prop :=
  exists n k, denotes x n k /\ Z.abs n = v * 2 ^ k.

Lemma digits2_bounds p :
  2 ^ (Z.pos (digits2_pos p) - 1) <= Z.pos p < 2 ^ Z.pos (digits2_pos p).
Proof.
  induction p as [p IH|p IH|]; cbn [digits2_pos]; [| |done].
  all: rewrite Pos2Z.inj_succ;
    replace (Z.succ (Z.pos (digits2_pos p)) - 1) with (Z.succ (Z.pos (digits2_pos p) - 1)) by lia;
    rewrite !Z.pow_succ_r by lia; lia.
Qed.

(** On canonical numbers the exponent decides first. *)
Lemma canonical_lt m1 e1 m2 e2 k :
  bounded f64_prec f64_emax m1 e1 = true -> bounded f64_prec f64_emax m2 e2 = true ->
  0 <= e1 + k -> e1 < e2 -> Z.pos m1 * 2 ^ (e1 + k) < Z.pos m2 * 2 ^ (e2 + k).
Proof.
  unfold bounded, canonical_mantissa, fexp, emin, f64_prec, f64_emax. intros H1 H2 Hk He. bprop.
  pose proof (digits2_bounds m1) as [_ D1]. pose proof (digits2_bounds m2) as [D2 _].
  assert (Z.pos (digits2_pos m1) <= 53) by lia.
  assert (Z.pos (digits2_pos m2) = 53) as E2 by lia. rewrite E2 in D2.
  assert (2 ^ Z.pos (digits2_pos m1) <= 2 ^ 53) by (apply Z.pow_le_mono_r; lia).
  assert (2 ^ (1 + (e1 + k)) <= 2 ^ (e2 + k)) as Hp by (apply Z.pow_le_mono_r; lia).
  rewrite Z.pow_add_r in Hp by lia.
  assert (0 < 2 ^ (e1 + k)) by (apply Z.pow_pos_nonneg; lia).
  change (2 ^ 53) with (2 * 2 ^ 52) in *. change (53 - 1) with 52 in *. nia.
Qed.

Lemma compare_canonical m1 e1 m2 e2 k :
  bounded f64_prec f64_emax m1 e1 = true -> bounded f64_prec f64_emax m2 e2 = true ->
  0 <= e1 + k -> 0 <= e2 + k ->
  SFcompare (S754_finite false m1 e1) (S754_finite false m2 e2)
  = Some (Z.pos m1 * 2 ^ (e1 + k) ?= Z.pos m2 * 2 ^ (e2 + k)).
Proof.
  intros H1 H2 K1 K2. cbn [SFcompare]. destruct (Z.compare_spec e1 e2) as [->|L|G].
  - f_equal. assert (0 < 2 ^ (e2 + k)) by (apply Z.pow_pos_nonneg; lia).
    by rewrite (Z.mul_comm (Z.pos m1)), (Z.mul_comm (Z.pos m2)), <- Zmult_compare_compat_l by lia.
  - f_equal. symmetry. apply Z.compare_lt_iff. by apply canonical_lt.
  - f_equal. symmetry. apply Z.compare_gt_iff. by apply canonical_lt.
Qed.

(** The magnitude of an [f64] against a positive integer it can represent. *)
Lemma compare_magnitude x n k v mv ev :
  is_f64 x = true -> denotes x n k -> bounded f64_prec f64_emax mv ev = true ->
  0 <= ev + 52 -> Z.pos mv * 2 ^ (ev + 52) = v * 2 ^ 52 ->
  SFcompare (fabs x) (S754_finite false mv ev) = Some (Z.abs n ?= v * 2 ^ k).
Proof.
  intros Hx [Hk Hd] Hv He Ev.
  assert (0 < 2 ^ k) as Pk by (apply Z.pow_pos_nonneg; lia).
  assert (0 < 2 ^ (ev + 52)) as Pe by (apply Z.pow_pos_nonneg; lia).
  assert (0 < v) as Pv by nia.
  destruct x as [s|s| |s m e]; try done.
  - cbn. subst n. f_equal. symmetry. apply Z.compare_lt_iff. simpl. nia.
  - destruct Hd as [Hek ->]. assert (0 < 2 ^ (e + k)) as Pek by (apply Z.pow_pos_nonneg; lia).
    cbn [fabs SFabs]. rewrite (compare_canonical _ _ _ _ (k + 52)) by (done || lia). f_equal.
    replace (e + (k + 52)) with (e + k + 52) by lia.
    replace (ev + (k + 52)) with (ev + 52 + k) by lia.
    rewrite !(Z.pow_add_r 2 (e + k) 52), (Z.pow_add_r 2 (ev + 52) k) by lia.
    replace (Z.abs ((if s then -1 else 1) * (Z.pos m * 2 ^ (e + k)))) with (Z.pos m * 2 ^ (e + k))
      by (destruct s; lia).
    rewrite !Z.mul_assoc, Ev.
    replace (v * 2 ^ 52 * 2 ^ k) with (2 ^ 52 * (v * 2 ^ k)) by lia.
    by rewrite (Z.mul_comm _ (2 ^ 52)), <- Zmult_compare_compat_l.
Qed.

Lemma finite_denotes x : is_f64 x = true -> is_finite x = true -> exists n, denotes x n 1074.
Proof.
  destruct x as [s|s| |s m e]; simpl; intros Hx Hf; try done.
  - by exists 0.
  - eexists. split; [done|]. split; [|reflexivity].
    unfold bounded, canonical_mantissa, fexp, emin, f64_prec, f64_emax in Hx. bprop. lia.
Qed.

Lemma denotes_finite x n k : denotes x n k -> is_finite x = true.
Proof. destruct x; simpl; intros [? ?]; done. Qed.

Lemma denotes_zero x n k : denotes x n k -> feqb x (S754_zero false) = true <-> n = 0.
Proof.
  intros [Hk Hd]. destruct x as [s|s| |s m e]; try done.
  destruct Hd as [Hek ->]. assert (0 < 2 ^ (e + k)) by (apply Z.pow_pos_nonneg; lia).
  destruct s; cbn; split; [done|nia|done|nia].
Qed.

(** A float denotes one number. *)
Lemma denotes_unique x n k n' k' : denotes x n k -> denotes x n' k' -> n * 2 ^ k' = n' * 2 ^ k.
Proof.
  intros [Hk Hd] [Hk' Hd']. destruct x as [s|s| |s m e]; try done; [by subst|].
  destruct Hd as [He ->], Hd' as [He' ->].
  assert (2 ^ (e + k) * 2 ^ k' = 2 ^ (e + k') * 2 ^ k) as E.
  { rewrite <- !Z.pow_add_r by lia. f_equal. lia. }
  rewrite <- !Z.mul_assoc. by rewrite E.
Qed.

Lemma magnitude_is_iff x v mv ev :
  is_f64 x = true -> bounded f64_prec f64_emax mv ev = true ->
  0 <= ev + 52 -> Z.pos mv * 2 ^ (ev + 52) = v * 2 ^ 52 ->
  feqb (fabs x) (S754_finite false mv ev) = true <-> magnitude_is x v.
Proof.
  intros Hx Hv He Ev. unfold feqb, SFeqb, magnitude_is. split.
  - intros H. destruct (is_finite x) eqn:F; [|by destruct x as [| [] | | ]].
    destruct (finite_denotes x Hx F) as [n Hn]. exists n, 1074. split; [done|].
    rewrite (compare_magnitude _ _ _ v _ _ Hx Hn Hv He Ev) in H.
    destruct (Z.compare_spec (Z.abs n) (v * 2 ^ 1074)); done.
  - intros (n & k & Hn & E). rewrite (compare_magnitude _ _ _ v _ _ Hx Hn Hv He Ev).
    by rewrite (proj2 (Z.compare_eq_iff _ _) E).
Qed.

Lemma magnitude_at_most_iff x v mv ev :
  is_f64 x = true -> bounded f64_prec f64_emax mv ev = true ->
  0 <= ev + 52 -> Z.pos mv * 2 ^ (ev + 52) = v * 2 ^ 52 ->
  is_finite x = true /\ fltb (S754_finite false mv ev) (fabs x) = false <-> magnitude_at_most x v.
Proof.
  intros Hx Hv He Ev. unfold magnitude_at_most.
  assert (forall n k, denotes x n k ->
    fltb (S754_finite false mv ev) (fabs x) = false <-> Z.abs n <= v * 2 ^ k) as Hlt.
  { intros n k Hn. pose proof (compare_magnitude _ _ _ v _ _ Hx Hn Hv He Ev) as C.
    assert (SFcompare (S754_finite false mv ev) (fabs x) = Some (v * 2 ^ k ?= Z.abs n)) as C'.
    { destruct x as [s|s| |s m e]; [| |done|]; cbn [fabs SFabs SFcompare] in *.
      - injection C as C. f_equal. rewrite Z.compare_antisym, <- C. done.
      - by destruct Hn.
      - injection C as C. f_equal.
        rewrite (Z.compare_antisym (Z.abs n)), <- C, (Z.compare_antisym e ev).
        destruct (e ?= ev); simpl; try done. by rewrite Pos.compare_cont_antisym. }
    unfold fltb, SFltb. rewrite C'.
    destruct (Z.compare_spec (v * 2 ^ k) (Z.abs n)); split; intros; try done; lia. }
  split.
  - intros [F H]. destruct (finite_denotes x Hx F) as [n Hn]. exists n, 1074.
    split; [done|]. by apply (Hlt n 1074 Hn).
  - intros (n & k & Hn & E). split; [by eapply denotes_finite|]. by apply (Hlt n k Hn).
Qed.
