(* ===== verification/RustNet.v ===== *)
(** * IP addresses in texts

    [std::net::IpAddr::from_str] with its parsers of IPv4 and IPv6 texts, and
    [IpAddr::is_loopback].  A parser takes the text it is at and leaves the rest;
    one that fails leaves the text untouched. *)

From S2P Require Import Prelude RustStr.

#[local] Open Scope Z_scope.

Definition parser (A : Type) : Type := string -> option (A * string).

(** [read_given_char]. *)
Definition read_char (c : ascii) : parser unit := fun s =>
  match s with
  | String d r => if Ascii.eqb c d then Some (tt, r) else None
  | EmptyString => None
  end.

(** [read_separator]: the separator from the second element on. *)
Definition read_separator {A} (sep : ascii) (index : nat) (inner : parser A) : parser A := fun s =>
  match index with
  | O => inner s
  | S _ => match read_char sep s with Some (_, r) => inner r | None => None end
  end.

(** The digits at the head, their number and value. *)
Fixpoint read_digits (radix : Z) (count : nat) (value : Z) (s : string) : nat * Z * string :=
  match s with
  | String c r =>
      match digit_val radix c with
      | Some d => read_digits radix (S count) (value * radix + d) r
      | None => (count, value, s)
      end
  | EmptyString => (count, value, s)
  end.

Definition starts_zero (s : string) : bool :=
  match s with String c _ => Ascii.eqb c "0" | EmptyString => false end.

(** [read_number] with a bound on the digits; [max] is the type's. *)
Definition read_number (radix : Z) (max_digits : nat) (allow_zero_prefix : bool) (max : Z)
  : parser Z := fun s =>
  let '(count, value, r) := read_digits radix 0 0 s in
  if (max_digits <? count)%nat || (count =? 0)%nat then None
  else if negb allow_zero_prefix && starts_zero s && (1 <? count)%nat then None
  else if value <=? max then Some (value, r) else None.

(** The [n] last of the four octets. *)
Fixpoint read_octets (n index : nat) : parser (list Z) := fun s =>
  match n with
  | O => Some ([], s)
  | S n =>
      match read_separator "." index (read_number 10 3 false u8_max) s with
      | None => None
      | Some (octet, r) =>
          match read_octets n (S index) r with
          | None => None
          | Some (octets, r) => Some (octet :: octets, r)
          end
      end
  end.

Definition read_ipv4_addr : parser (list Z) := read_octets 4 0.

(** Two groups of an IPv6 address. *)
Definition ipv4_groups (octets : list Z) : list Z :=
  match octets with
  | [a; b; c; d] => [a * 256 + b; c * 256 + d]
  | _ => []
  end.

(** [read_groups] for the [n] groups left, of which the next has the index; [true]
    when an embedded IPv4 address ended them. *)
Fixpoint read_groups (n index : nat) (s : string) : list Z * bool * string :=
  match n with
  | O => ([], false, s)
  | S m =>
      match (if (0 <? m)%nat then read_separator ":" index read_ipv4_addr s else None) with
      | Some (octets, r) => (ipv4_groups octets, true, r)
      | None =>
          match read_separator ":" index (read_number 16 4 true u16_max) s with
          | Some (group, r) =>
              let '(groups, v4, r) := read_groups m (S index) r in (group :: groups, v4, r)
          | None => ([], false, s)
          end
      end
  end.

Definition read_ipv6_addr : parser (list Z) := fun s =>
  let '(head, head_ipv4, r) := read_groups 8 0 s in
  if (length head =? 8)%nat then Some (head, r)
  else if head_ipv4 then None
  else match read_char ":" r with
       | None => None
       | Some (_, r) =>
           match read_char ":" r with
           | None => None
           | Some (_, r) =>
               let '(tail, _, r) := read_groups (8 - (length head + 1)) 0 r in
               Some (head ++ repeat 0 (8 - length head - length tail) ++ tail, r)
           end
       end.

Inductive IpAddr := V4 (octets : list Z) | V6 (groups : list Z).

Definition read_ip_addr : parser IpAddr := fun s =>
  match read_ipv4_addr s with
  | Some (octets, r) => Some (V4 octets, r)
  | None => match read_ipv6_addr s with
            | Some (groups, r) => Some (V6 groups, r)
            | None => None
            end
  end.

(** [IpAddr::from_str]: the whole text. *)
Definition parse_ip_addr (s : string) : option IpAddr :=
  match read_ip_addr s with
  | Some (address, EmptyString) => Some address
  | _ => None
  end.

Definition is_loopback (address : IpAddr) : bool :=
  match address with
  | V4 (first :: _) => first =? 127
  | V4 [] => false
  | V6 groups => beq groups [0; 0; 0; 0; 0; 0; 0; 1]
  end.

Example loopback_texts :
  map (fun s => option_map is_loopback (parse_ip_addr s))
    ["127.0.0.1"; "127.1.2.3"; "10.0.0.1"; "::1"; "0:0:0:0:0:0:0:1"; "::2"; "::ffff:127.0.0.1"]%string
  = [Some true; Some true; Some false; Some true; Some true; Some false; Some false].
Proof. reflexivity. Qed.

Example malformed_addresses :
  map parse_ip_addr
    ["127.0.0"; "127.0.0.01"; "127.0.0.256"; "[::1]"; "1:2:3:4:5:6:7:8:9"; "127.0.0.1 "; "1::2::3"]%string
  = repeat None 7.
Proof. reflexivity. Qed.
