(* ===== verification/Json.v ===== *)
(** * JSON values

    The data type of [serde_json::Value] and of the Hub's own
    [MaterialJsonValue] (which has the same shape): numbers keep serde_json's
    three representations, objects are key-ordered association lists, which is
    how a [BTreeMap] iterates.  Parsing and printing JSON text is serde_json's
    and stays a parameter wherever it is used. *)

From S2P Require Import Prelude RustStr RustFloat.

#[local] Open Scope Z_scope.

Inductive Number :=
| PosInt (n : Z)   (** a [u64] *)
| NegInt (n : Z)   (** a negative [i64] *)
| Float (f : float).

#[export] Instance spec_float_eq_dec : EqDecision spec_float.
Proof. solve_decision. Defined.
#[export] Instance Number_eq_dec : EqDecision Number.
Proof. solve_decision. Defined.

Module Number.
Definition as_u64 (n : Number) : option Z :=
  match n with PosInt n => Some n | NegInt _ => None | Float _ => None end.
End Number.

Inductive json :=
| Object (fields : list (string * json))
| Array (values : list json)
| Str (s : string)
| Num (n : Number)
| Bool (b : bool)
| Null.

(** Induction that reaches the values inside objects and arrays. *)
Section json_ind.
Context (P : json -> Prop).
Hypothesis HObject : forall fields, Forall (fun kv => P kv.2) fields -> P (Object fields).
Hypothesis HArray : forall values, Forall P values -> P (Array values).
Hypothesis HStr : forall s, P (Str s).
Hypothesis HNum : forall n, P (Num n).
Hypothesis HBool : forall b, P (Bool b).
Hypothesis HNull : P Null.

Fixpoint json_nested_ind (j : json) : P j :=
  match j with
  | Object fields =>
      HObject fields
        ((fix go l : Forall (fun kv : string * json => P kv.2) l :=
            match l with
            | [] => List.Forall_nil _
            | kv :: l => List.Forall_cons _ kv l (json_nested_ind kv.2) (go l)
            end) fields)
  | Array values =>
      HArray values
        ((fix go l : Forall P l :=
            match l with
            | [] => List.Forall_nil _
            | v :: l => List.Forall_cons _ v l (json_nested_ind v) (go l)
            end) values)
  | Str s => HStr s
  | Num n => HNum n
  | Bool b => HBool b
  | Null => HNull
  end.
End json_ind.

#[export] Instance json_eq_dec : EqDecision json.
Proof.
  refine (fix go (x y : json) : Decision (x = y) :=
    match x, y with
    | Object a, Object b =>
        match (fix gol (a b : list (string * json)) : Decision (a = b) :=
                 match a, b with
                 | [], [] => left eq_refl
                 | (k, v) :: a, (k', v') :: b =>
                     match decide (k = k'), go v v', gol a b with
                     | left _, left _, left _ => left _
                     | _, _, _ => right _
                     end
                 | _, _ => right _
                 end) a b with left _ => left _ | right _ => right _ end
    | Array a, Array b =>
        match (fix gol (a b : list json) : Decision (a = b) :=
                 match a, b with
                 | [], [] => left eq_refl
                 | v :: a, v' :: b =>
                     match go v v', gol a b with
                     | left _, left _ => left _
                     | _, _ => right _
                     end
                 | _, _ => right _
                 end) a b with left _ => left _ | right _ => right _ end
    | Str a, Str b => match decide (a = b) with left _ => left _ | right _ => right _ end
    | Num a, Num b => match decide (a = b) with left _ => left _ | right _ => right _ end
    | Bool a, Bool b => match decide (a = b) with left _ => left _ | right _ => right _ end
    | Null, Null => left eq_refl
    | _, _ => right _
    end); try congruence.
Defined.

Definition is_null (j : json) : bool := match j with Null => true | _ => false end.

(** [BTreeMap::insert] and [extend] on key-ordered association lists. *)
Fixpoint btree_insert {A} (k : string) (v : A) (m : list (string * A)) : list (string * A) :=
  match m with
  | [] => [(k, v)]
  | (k', v') :: m' =>
      match String.compare k k' with
      | Lt => (k, v) :: m
      | Eq => (k, v) :: m'
      | Gt => (k', v') :: btree_insert k v m'
      end
  end.

Definition btree_extend {A} (m extra : list (string * A)) : list (string * A) :=
  foldl (fun m kv => btree_insert (fst kv) (snd kv) m) m extra.
