(* ===== verification/BTree.v ===== *)
(** * Key-ordered association lists

    Lemmas on the lists that stand for a [BTreeMap] ([btree_insert],
    [btree_extend]): strictly increasing keys, lookup, and equality of maps that
    agree on every key. *)

From Stdlib Require Import Structures.OrdersEx.
From S2P Require Import Prelude RustStr Json.

#[local] Open Scope Z_scope.

(** ** The byte order of strings *)

Definition str_lt (a b : string) : Prop := String.compare a b = Lt.

Lemma compare_OT a b : String.compare a b = String_as_OT.compare a b.
Proof. reflexivity. Qed.

#[export] Instance str_lt_strict : StrictOrder str_lt.
Proof.
  split.
  - intros a E. unfold str_lt in E. rewrite compare_OT in E. by apply String_as_OT.lt_strorder in E.
  - intros a b c. unfold str_lt. rewrite !compare_OT. apply String_as_OT.lt_strorder.
Qed.

Lemma compare_refl a : String.compare a a = Eq.
Proof. rewrite compare_OT. by destruct (String_as_OT.compare_spec a a) as [| E | E]; [done|apply String_as_OT.lt_strorder in E..]. Qed.

Lemma compare_gt a b : String.compare a b = Gt -> str_lt b a.
Proof. intros E. unfold str_lt. by rewrite String.compare_antisym, E. Qed.

Lemma str_lt_ne a b : str_lt a b -> a <> b.
Proof. intros Hlt ->. unfold str_lt in Hlt. by rewrite compare_refl in Hlt. Qed.

(** ** Maps *)

Section Maps.
Context {A : Type}.
Implicit Types (m : list (string * A)).

(** Every key of the list is above [k]. *)
Definition above (k : string) m : Prop := Forall (fun kv => str_lt k kv.1) m.

Inductive increasing : list (string * A) -> Prop :=
| inc_nil : increasing []
| inc_cons k v m : above k m -> increasing m -> increasing ((k, v) :: m).

Fixpoint lookup_key (k : string) m : option A :=
  match m with
  | [] => None
  | (k', v) :: m => if beq k' k then Some v else lookup_key k m
  end.

Lemma above_trans k k' m : str_lt k k' -> above k' m -> above k m.
Proof. intros Hlt Hm. eapply Forall_impl; [exact Hm|]. intros kv Hkv. simpl in *. by etrans. Qed.

Lemma lookup_above k m : above k m -> lookup_key k m = None.
Proof.
  induction m as [|[k' v] m IH]; simpl; [done|]. unfold above. rewrite Forall_cons. intros [Hlt Hm].
  assert (beq k' k = false) as ->; [|by apply IH].
  apply beq_false. intros ->. by apply str_lt_ne in Hlt.
Qed.

Lemma above_insert k k' v m : str_lt k k' -> above k m -> above k (btree_insert k' v m).
Proof.
  intros Hlt. unfold above. induction m as [|[k2 v2] m IH]; simpl; intros Hm.
  - by constructor.
  - apply Forall_cons in Hm as [H2 Hm]. destruct (String.compare k' k2).
    + by constructor.
    + constructor; [done|]. by constructor.
    + constructor; [done|]. by apply IH.
Qed.

Lemma increasing_insert k v m : increasing m -> increasing (btree_insert k v m).
Proof.
  induction 1 as [|k' v' m Hk Hm IH]; simpl; [by repeat constructor|].
  destruct (String.compare k k') eqn:E.
  - apply String.compare_eq_iff in E as ->. by constructor.
  - constructor; [|by constructor]. constructor; [done|]. by apply (above_trans _ k').
  - constructor; [|done]. apply above_insert; [|done]. by apply compare_gt.
Qed.

Lemma lookup_insert k k' v m :
  increasing m -> lookup_key k' (btree_insert k v m) = if beq k k' then Some v else lookup_key k' m.
Proof.
  induction 1 as [|k2 v2 m Hk Hm IH]; simpl; [done|].
  destruct (String.compare k k2) eqn:E; simpl; [| done |].
  - apply String.compare_eq_iff in E as ->. by destruct (beq k2 k').
  - rewrite IH. destruct (beq k2 k') eqn:E2; [|done].
    rewrite beq_true in E2. subst k2. apply compare_gt, str_lt_ne in E.
    assert (beq k k' = false) as ->; [|done]. apply beq_false. congruence.
Qed.

Lemma increasing_filter (p : string * A -> bool) m : increasing m -> increasing (List.filter p m).
Proof.
  induction 1 as [|k v m Hk Hm IH]; simpl; [constructor|]. destruct (p (k, v)); [|done].
  constructor; [|done]. unfold above in *. rewrite Forall_forall in *. intros kv Hin.
  apply Hk. apply list_elem_of_In in Hin. apply filter_In in Hin as [Hin _]. by apply list_elem_of_In.
Qed.

Lemma lookup_filter (p : string -> A -> bool) k m :
  increasing m ->
  lookup_key k (List.filter (fun kv => p kv.1 kv.2) m)
  = match lookup_key k m with Some v => if p k v then Some v else None | None => None end.
Proof.
  induction 1 as [|k' v m Hk Hm IH]; simpl; [done|]. destruct (beq k' k) eqn:E.
  - rewrite beq_true in E. subst k'. destruct (p k v); simpl; [by rewrite beq_refl|].
    by rewrite IH, lookup_above.
  - destruct (p k' v); simpl; [by rewrite E|done].
Qed.

(** Maps that agree on every key are equal. *)
Lemma increasing_ext m m' :
  increasing m -> increasing m' -> (forall k, lookup_key k m = lookup_key k m') -> m = m'.
Proof.
  intros Hm. revert m'. induction Hm as [|k v m Hk Hm IH]; intros m' Hm' E.
  - destruct Hm' as [|k' v' m' _ _]; [done|]. specialize (E k'). simpl in E. by rewrite beq_refl in E.
  - destruct Hm' as [|k' v' m' Hk' Hm']; [specialize (E k); simpl in E; by rewrite beq_refl in E|].
    assert (k = k') as <-.
    { destruct (String.compare k k') eqn:C; [by apply String.compare_eq_iff| |].
      - specialize (E k). simpl in E. rewrite beq_refl in E.
        rewrite (proj2 (beq_false k' k)) in E by (intros ->; by apply str_lt_ne in C).
        by rewrite (lookup_above k m') in E by (by apply (above_trans _ k')).
      - apply compare_gt in C. specialize (E k'). simpl in E. rewrite beq_refl in E.
        rewrite (proj2 (beq_false k k')) in E by (intros ->; by apply str_lt_ne in C).
        by rewrite (lookup_above k' m) in E by (by apply (above_trans _ k)). }
    assert (v = v') as <-. { specialize (E k). simpl in E. rewrite beq_refl in E. congruence. }
    f_equal. apply IH; [done|]. intros k2. specialize (E k2). simpl in E.
    destruct (beq k k2) eqn:E2; [|done]. rewrite beq_true in E2. subst k2.
    by rewrite !lookup_above.
Qed.

Lemma increasing_foldl_insert (l m : list (string * A)) :
  increasing m -> increasing (foldl (fun m kv => btree_insert kv.1 kv.2 m) m l).
Proof. revert m. induction l as [|kv l IH]; intros m Hm; simpl; [done|]. by apply IH, increasing_insert. Qed.

Lemma increasing_extend m extra : increasing m -> increasing (btree_extend m extra).
Proof. apply increasing_foldl_insert. Qed.

Lemma lookup_app k m m' :
  lookup_key k (m ++ m') = match lookup_key k m with Some v => Some v | None => lookup_key k m' end.
Proof. induction m as [|[k' v] m IH]; simpl; [done|]. by destruct (beq k' k). Qed.

Lemma lookup_absent k m : Forall (fun kv => kv.1 <> k) m -> lookup_key k m = None.
Proof.
  induction 1 as [|[k' v] m Hk _ IH]; simpl; [done|]. by rewrite (proj2 (beq_false k' k) Hk).
Qed.

(** The last member of the list with the key wins. *)
Lemma lookup_extend k m extra :
  increasing m ->
  lookup_key k (btree_extend m extra)
  = match lookup_key k (rev extra) with Some v => Some v | None => lookup_key k m end.
Proof.
  unfold btree_extend. revert m. induction extra as [|[k' v] extra IH]; intros m Hm; simpl; [done|].
  rewrite IH by by apply increasing_insert. rewrite lookup_app, lookup_insert by done. simpl.
  destruct (lookup_key k (rev extra)); [done|]. by destruct (beq k' k).
Qed.

Lemma lookup_key_In k v m : lookup_key k m = Some v -> In (k, v) m.
Proof.
  induction m as [|[k' v'] m IH]; simpl; [done|]. destruct (beq k' k) eqn:E; [|by auto].
  rewrite beq_true in E. intros [= ->]. left. by subst.
Qed.

Lemma In_lookup_key k v m : increasing m -> In (k, v) m -> lookup_key k m = Some v.
Proof.
  induction 1 as [|k' v' m Hk Hm IH]; simpl; [done|]. intros [[= -> ->] | Hin]; [by rewrite beq_refl|].
  unfold above in Hk. rewrite Forall_forall in Hk. specialize (Hk (k, v)). simpl in Hk.
  rewrite (proj2 (beq_false k' k)); [by apply IH|].
  intros ->. apply list_elem_of_In, Hk in Hin. by apply str_lt_ne in Hin.
Qed.

(** Extending the empty map with an increasing list gives that list. *)
Lemma btree_insert_last k v m :
  Forall (fun kv => str_lt kv.1 k) m -> btree_insert k v m = m ++ [(k, v)].
Proof.
  induction m as [|[k' v'] m IH]; simpl; [done|]. rewrite Forall_cons. intros [Hlt Hm].
  assert (String.compare k k' = Gt) as ->.
  { rewrite String.compare_antisym. simpl in Hlt. unfold str_lt in Hlt. by rewrite Hlt. }
  by rewrite IH.
Qed.

Lemma btree_extend_increasing m : increasing m -> btree_extend [] m = m.
Proof.
  unfold btree_extend. rewrite <- (app_nil_l m) at 3.
  assert (Forall (fun kv => above kv.1 m) ([] : list (string * A))) as Hp by constructor.
  intros Hm. revert Hp. generalize ([] : list (string * A)) as pre.
  induction Hm as [|k v m Hk Hm IH]; intros pre Hpre; simpl; [by rewrite app_nil_r|].
  rewrite btree_insert_last.
  - rewrite (IH (pre ++ [(k, v)])); [by rewrite <- app_assoc|]. apply Forall_app. split.
    + eapply Forall_impl; [exact Hpre|]. intros kv Hkv. by apply Forall_cons in Hkv as [_ ?].
    + by constructor.
  - eapply Forall_impl; [exact Hpre|]. intros kv Hkv. by apply Forall_cons in Hkv as [? _].
Qed.
End Maps.

Create HintDb btree.
#[export] Hint Resolve increasing_insert increasing_filter increasing_extend inc_nil : btree.

(** What holds of the entries. *)
Lemma btree_insert_Forall {A} (P : string * A -> Prop) k v m :
  P (k, v) -> Forall P m -> Forall P (btree_insert k v m).
Proof.
  intros Hkv. induction m as [|[k' v'] m IH]; simpl; [by repeat constructor|].
  intros [Hk' Hm]%Forall_cons. destruct (String.compare k k'); constructor; auto.
Qed.

(** A map over the values keeps the order. *)
Lemma increasing_map_key {A B} (f : string -> A -> B) (m : list (string * A)) :
  increasing m -> increasing (map (fun kv => (kv.1, f kv.1 kv.2)) m).
Proof.
  induction 1 as [|k v m Hk Hm IH]; simpl; constructor; [|done].
  unfold above in *. by apply Forall_map.
Qed.

Lemma increasing_map {A B} (f : A -> B) (m : list (string * A)) :
  increasing m -> increasing (map (fun kv => (kv.1, f kv.2)) m).
Proof. apply (increasing_map_key (fun _ => f)). Qed.
