(* ===== verification/Serde.v ===== *)
(** * Derived decoders

    How the code that [#[derive(Deserialize)]] generates reads the fields of a
    document; the values of a document keep the order of its text.  Shared by the
    components that decode JSON themselves. *)

From S2P Require Import Prelude RustStr Json.

#[local] Open Scope Z_scope.

(** No floats. *)
Fixpoint exact (j : json) : bool :=
  match j with
  | Object fields => forallb (fun kv => exact kv.2) fields
  | Array values => forallb exact values
  | Num (Float _) => false
  | _ => true
  end.

(** The occurrences of a known field; a second one is an error. *)
Definition field (key : string) (fields : list (string * json)) : option (option json) :=
  match List.filter (fun kv => beq kv.1 key) fields with
  | [] => Some None
  | [kv] => Some (Some kv.2)
  | _ => None
  end.

(** [Option<String>], [Option<bool>] and [bool] with [#[serde(default)]]. *)
Definition opt_string (value : option json) : option (option string) :=
  match value with
  | None | Some Null => Some None
  | Some (Str s) => Some (Some s)
  | _ => None
  end.
Definition opt_bool (value : option json) : option (option bool) :=
  match value with
  | None | Some Null => Some None
  | Some (Bool b) => Some (Some b)
  | _ => None
  end.
Definition bool_or_default (value : option json) : option bool :=
  match value with None => Some false | Some (Bool b) => Some b | _ => None end.
Definition required_string (value : option json) : option string :=
  match value with Some (Str s) => Some s | _ => None end.

Fixpoint decode_all {A} (decode : json -> option A) (values : list json) : option (list A) :=
  match values with
  | [] => Some []
  | value :: values =>
      a ← decode value; rest ← decode_all decode values; Some (a :: rest)
  end.

(** [Vec<T>], and [Option<Vec<T>>] with [#[serde(default)]]. *)
Definition decode_vec {A} (decode : json -> option A) (value : json) : option (list A) :=
  match value with Array values => decode_all decode values | _ => None end.
Definition opt_vec {A} (decode : json -> option A) (value : option json) : option (option (list A)) :=
  match value with
  | None | Some Null => Some None
  | Some value => Some <$> decode_vec decode value
  end.

(** [Option<i64>], [Option<u64>] and [Option<u32>]; an integer out of range, or
    one that is written as a float, is an error. *)
Definition json_int (j : json) : option Z :=
  match j with Num (PosInt n) | Num (NegInt n) => Some n | _ => None end.
Definition opt_int (lo hi : Z) (value : option json) : option (option Z) :=
  match value with
  | None | Some Null => Some None
  | Some j => Some <$> (json_int j ≫= try_int lo hi)
  end.
Definition opt_i64 : option json -> option (option Z) := opt_int i64_min i64_max.
Definition opt_u64 : option json -> option (option Z) := opt_int 0 u64_max.
Definition opt_u32 : option json -> option (option Z) := opt_int 0 u32_max.

(** [Option<T>] with [#[serde(default)]], and [Vec<T>] with it. *)
Definition opt_of {A} (decode : json -> option A) (value : option json) : option (option A) :=
  match value with
  | None | Some Null => Some None
  | Some j => Some <$> decode j
  end.
Definition vec_or_default {A} (decode : json -> option A) (value : option json) : option (list A) :=
  match value with None => Some [] | Some j => decode_vec decode j end.

(** The fields of a struct: of an object by name, of a sequence by position. *)
Definition struct_fields (names : list string) (j : json) : option (string -> option (option json)) :=
  match j with
  | Object fields => Some (fun name => field name fields)
  | Array values =>
      if (length names <? length values)%nat then None
      else Some (fun name => field name (zip names values))
  | _ => None
  end.
