(* ===== verification/Redaction.v ===== *)
(** * Redaction of secrets

    [crates/pandar-hub/src/redaction.rs] and [redaction/json.rs]: secrets are cut
    out of log lines, of the errors of link-printer commands and of their JSON
    results.  Byte offsets into a line become the text before and after them; the
    loop of [redact_key_value] is a recursion on the rest of the line whose fuel,
    one more than the length of the line, is always enough. *)

From S2P Require Import Prelude RustStr Json BTree.

#[local] Open Scope Z_scope.

(** ** Substrings *)

Fixpoint str_take (n : nat) (s : string) : string :=
  match n, s with
  | S n, String c r => String c (str_take n r)
  | _, _ => EmptyString
  end.

Fixpoint str_drop (n : nat) (s : string) : string :=
  match n, s with
  | S n, String _ r => str_drop n r
  | _, _ => s
  end.

(** [s.split_once(needle)]. *)
Fixpoint split_once (needle s : string) : option (string * string) :=
  match strip_prefix needle s with
  | Some after => Some (EmptyString, after)
  | None => match s with
            | EmptyString => None
            | String c r => match split_once needle r with
                            | Some (before, after) => Some (String c before, after)
                            | None => None
                            end
            end
  end.

(** [s.replace(from, to)] for a nonempty [from]; the length of [s] is enough fuel. *)
Fixpoint str_replace_fuel (n : nat) (from to s : string) : string :=
  match n with
  | O => s
  | S n => match split_once from s with
           | None => s
           | Some (before, after) => before ++ to ++ str_replace_fuel n from to after
           end
  end.
Definition str_replace (from to s : string) : string :=
  str_replace_fuel (String.length s) from to s.

(** The text before the first character satisfying [p], and from it on. *)
Fixpoint break_at (p : ascii -> bool) (s : string) : option (string * string) :=
  match s with
  | EmptyString => None
  | String c r => if p c then Some (EmptyString, s)
                  else match break_at p r with
                       | Some (before, after) => Some (String c before, after)
                       | None => None
                       end
  end.

Definition newline : ascii := Ascii.ascii_of_nat 10.
Definition carriage_return : ascii := Ascii.ascii_of_nat 13.
Definition quote : ascii := Ascii.ascii_of_nat 34.
Definition is_char (c d : ascii) : bool := Ascii.eqb c d.

Definition starts_newline (s : string) : bool :=
  match s with String c _ => is_char newline c | EmptyString => false end.

(** [s.lines()]: a newline and a carriage return before it end a line; nothing
    follows a final newline. *)
Fixpoint lines (s : string) : list string :=
  match s with
  | EmptyString => []
  | String c r =>
      if is_char newline c then EmptyString :: lines r
      else if is_char carriage_return c && starts_newline r then lines r
      else match lines r with
           | [] => [String c EmptyString]
           | l :: ls => String c l :: ls
           end
  end.

(** [ls.join(sep)]. *)
Definition join (sep : string) (ls : list string) : string := String.concat sep ls.

(** ** Key-value pairs *)

Definition is_separator (c : ascii) : bool := is_char "="%char c || is_char ":"%char c.
Definition is_delimiter (c : ascii) : bool :=
  is_char quote c || is_char ","%char c || is_char "&"%char c || is_char " "%char c
  || byte_is 9 c || is_char newline c.

(** The text before the first character that is neither white space nor a quote,
    and from it on. *)
Fixpoint skip_to_value (s : string) : option (string * string) :=
  let skip c o := match o with Some (b, a) => Some (String c b, a) | None => None end in
  match s with
  | EmptyString => None
  | String a r1 =>
      if ws1 a || is_char quote a then skip a (skip_to_value r1)
      else match r1 with
           | String b r2 =>
               if ws2 a b then skip a (skip b (skip_to_value r2))
               else match r2 with
                    | String c r3 =>
                        if ws3 a b c then skip a (skip b (skip c (skip_to_value r3)))
                        else Some (EmptyString, s)
                    | EmptyString => Some (EmptyString, s)
                    end
           | EmptyString => Some (EmptyString, s)
           end
  end.

(** The text after a key up to its value, and the text after the value. *)
Definition key_value_bounds (after_key : string) : option (string * string) :=
  match after_key with
  | EmptyString => None
  | String c rest =>
      match (if is_separator c then Some (String c EmptyString, rest)
             else if is_char quote c then
               match split_once ":" rest with
               | Some (before, after) => Some (String c (before ++ ":"), after)
               | None => None
               end
             else None) with
      | None => None
      | Some (kept, bounds) =>
          let '(skipped, value) := default (EmptyString, bounds) (skip_to_value bounds) in
          let tail := match break_at is_delimiter value with
                      | Some (_, tail) => tail
                      | None => EmptyString
                      end in
          Some ((kept ++ skipped)%string, tail)
      end
  end.

Definition mark : string := "[redacted]".

Fixpoint redact_key_value_fuel (n : nat) (key rest : string) : option string :=
  match n with
  | O => None
  | S n =>
      match split_once key (to_ascii_lowercase rest) with
      | None => Some rest
      | Some (before, _) =>
          let key_end := (String.length before + String.length key)%nat in
          let head := str_take key_end rest in
          let after_key := str_drop key_end rest in
          match key_value_bounds after_key with
          | None => option_map (String.append head) (redact_key_value_fuel n key after_key)
          | Some (kept, tail) =>
              option_map (fun r => head ++ kept ++ mark ++ r)%string
                (redact_key_value_fuel n key tail)
          end
      end
  end.

Definition redact_key_value (line key : string) : string :=
  default EmptyString (redact_key_value_fuel (S (String.length line)) key line).

(** ** Lines *)

Definition redacted_keys : list string :=
  ["authorization"; "bearer"; "ticket"; "websocket_ticket"; "plugin_ticket"; "bambu_access_code";
   "access_code"; "agent_credential"; "credential"; "artifact_path"; "storage_path"]%string.

Fixpoint redact_after_marker (line : string) (markers : list string) : string :=
  match markers with
  | [] => line
  | marker :: markers =>
      match split_once marker line with
      | Some (prefix, _) => (prefix ++ marker ++ mark)%string
      | None => redact_after_marker line markers
      end
  end.

Definition redact_line (line : string) : string :=
  let redacted := foldl redact_key_value line redacted_keys in
  let lower := to_ascii_lowercase redacted in
  if str_contains "artifact file " lower || str_contains "artifact directory " lower
     || str_contains "artifact spool " lower || str_contains "artifact storage path " lower
  then redact_after_marker redacted [" file "; " directory "; " spool "; " storage path "]%string
  else if starts_with "authorization:" lower then "Authorization: [redacted]"%string
  else if str_contains "bearer " lower
  then redact_after_marker redacted ["Bearer "; "bearer "]%string
  else if str_contains "agent credential " lower
  then redact_after_marker redacted ["agent credential "]%string
  else if str_contains "plugin ticket " lower
  then redact_after_marker redacted ["plugin ticket "]%string
  else redacted.

Definition redact_secrets (message : string) : string :=
  join (String newline EmptyString) (map redact_line (lines message)).

Definition redact_link_printer_secret (message access_code : string) : string :=
  let redacted := redact_secrets message in
  if beq access_code EmptyString then redacted else str_replace access_code mark redacted.

(** ** JSON results ([redaction/json.rs]) *)

Definition is_ascii_alphanumeric (c : ascii) : bool :=
  byte_in 48 57 c || byte_in 65 90 c || byte_in 97 122 c.

Definition is_credential_key (key : string) : bool :=
  let normalized := to_ascii_lowercase (remove_chars (fun c => negb (is_ascii_alphanumeric c)) key) in
  existsb (fun secret => str_contains secret normalized)
    ["accesscode"; "password"; "token"; "auth"; "credential"; "ticket"; "bearer"]%string.

(** The loop over an array: each item in turn, and whether one changed. *)
Definition redact_items (f : json -> json * bool) : list json -> list json * bool :=
  fix go items := match items with
    | [] => ([], false)
    | item :: items =>
        let '(item, c) := f item in
        let '(rest, changed) := go items in (item :: rest, c || changed)
    end.

(** The loop over the fields of an object in [redact_json_value]. *)
Definition redact_fields (f : json -> json * bool)
  : list (string * json) -> list (string * json) * bool :=
  fix go fields := match fields with
    | [] => ([], false)
    | (key, value) :: fields =>
        let '(value, c) := if is_credential_key key then (Str mark, true) else f value in
        let '(rest, changed) := go fields in ((key, value) :: rest, c || changed)
    end.

(** Each function returns the value it leaves and whether it changed it. *)
Fixpoint redact_json_value (value : json) : json * bool :=
  match value with
  | Object object => let '(fields, changed) := redact_fields redact_json_value object in (Object fields, changed)
  | Array items => let '(items, changed) := redact_items redact_json_value items in (Array items, changed)
  | _ => (value, false)
  end.

(** The loop over the taken entries of an object in [redact_json_string]. *)
Definition redact_entries (secret : string) (f : json -> json * bool)
  : list (string * json) -> list (string * json) -> bool -> list (string * json) * bool :=
  fix go entries object changed := match entries with
    | [] => (object, changed)
    | (key, value) :: entries =>
        let '(redacted_key, c) :=
          if str_contains secret key then (str_replace secret mark key, true) else (key, false) in
        let '(value, c') := f value in
        go entries (btree_insert redacted_key value object) (changed || c || c')
    end.

Section Json.
Context (number_to_string : Number -> string).

Fixpoint redact_json_string (secret : string) (value : json) : json * bool :=
  match value with
  | Str s => if str_contains secret s then (Str (str_replace secret mark s), true) else (value, false)
  | Num n => if beq (number_to_string n) secret then (Str mark, true) else (value, false)
  | Object entries =>
      let '(object, changed) := redact_entries secret (redact_json_string secret) entries [] false in
      (Object object, changed)
  | Array items =>
      let '(items, changed) := redact_items (redact_json_string secret) items in (Array items, changed)
  | _ => (value, false)
  end.
End Json.

Definition redacted_key (index : nat) : string := ("[redacted_" ++ pretty index ++ "]")%string.

Definition redact_all_entries (f : json -> json)
  : nat -> list (string * json) -> list (string * json) -> list (string * json) :=
  fix go index entries object := match entries with
    | [] => object
    | (_, value) :: entries =>
        go (S index) entries (btree_insert (redacted_key index) (f value) object)
    end.

(** Its caller ignores whether anything changed. *)
Fixpoint redact_all_json_strings (value : json) : json :=
  match value with
  | Str _ | Num _ => Str mark
  | Object entries => Object (redact_all_entries redact_all_json_strings 0 entries [])
  | Array items => Array (map redact_all_json_strings items)
  | _ => value
  end.

(** serde_json on [RedactableJson]: an untagged enum over a [BTreeMap]. *)
Class RedactJson := {
  redactable_from_str : string -> option json;
  to_json_string : json -> string;
  json_number_to_string : Number -> string;
}.

Section Results.
Context `{RedactJson}.

Definition redact_result_json (result_json : string) : string :=
  match redactable_from_str result_json with
  | Some value => let '(value, changed) := redact_json_value value in
                  if changed : bool then to_json_string value else result_json
  | None => redact_secrets result_json
  end.

Definition redact_link_printer_result_json_without_secret (result_json : string) : string :=
  match redactable_from_str (redact_result_json result_json) with
  | Some value => to_json_string (redact_all_json_strings value)
  | None => mark
  end.

Definition redact_link_printer_result_json (result_json access_code : string) : string :=
  let redacted := redact_result_json result_json in
  if beq access_code EmptyString then redact_link_printer_result_json_without_secret redacted
  else match redactable_from_str redacted with
       | Some value => let '(value, changed) := redact_json_string json_number_to_string access_code value in
                       if changed : bool then to_json_string value else redacted
       | None => str_replace access_code mark redacted
       end.
End Results.

(** * Lemmas *)

(** ** Substrings *)

#[local] Open Scope string_scope.
#[local] Arguments String.append : simpl nomatch.

Lemma append_assoc (a b c : string) : (a ++ b) ++ c = a ++ (b ++ c).
Proof. induction a as [|x a IH]; simpl; [done|by rewrite IH]. Qed.

Lemma length_append (a b : string) :
  String.length (a ++ b) = (String.length a + String.length b)%nat.
Proof. induction a as [|x a IH]; simpl; [done|by rewrite IH]. Qed.

Lemma str_contains_iff needle s : str_contains needle s = true <-> exists a b, s = a ++ needle ++ b.
Proof.
  split.
  - induction s as [|c s IH]; simpl; unfold starts_with.
    + destruct (strip_prefix _ _) as [r|] eqn:E; [|done]. apply strip_prefix_Some in E. by exists EmptyString, r.
    + destruct (strip_prefix _ _) as [r|] eqn:E.
      * apply strip_prefix_Some in E. by exists EmptyString, r.
      * intros (a & b & ->)%IH. by exists (String c a), b.
  - intros (a & b & ->). induction a as [|c a IH]; cbn [String.append].
    + assert (starts_with needle (needle ++ b) = true) as Hs.
      { unfold starts_with. by rewrite (proj2 (strip_prefix_Some _ _ _) eq_refl). }
      destruct (needle ++ b); simpl; by rewrite Hs.
    + simpl. rewrite IH. apply orb_true_r.
Qed.

Lemma split_once_Some needle s before after :
  split_once needle s = Some (before, after) -> s = before ++ needle ++ after.
Proof.
  revert before. induction s as [|c s IH]; intros before; cbn [split_once].
  - destruct (strip_prefix _ _) as [r|] eqn:E; [|done]. apply strip_prefix_Some in E. by intros [= <- <-].
  - destruct (strip_prefix _ _) as [r|] eqn:E.
    + apply strip_prefix_Some in E. by intros [= <- <-].
    + destruct (split_once needle s) as [[b a]|] eqn:S; [|done]. intros [= <- <-]. simpl. f_equal. by apply IH.
Qed.

Lemma split_once_None needle s : split_once needle s = None -> str_contains needle s = false.
Proof.
  induction s as [|c s IH]; cbn [split_once str_contains]; unfold starts_with.
  - by destruct (strip_prefix _ _).
  - destruct (strip_prefix _ _); [done|]. destruct (split_once needle s) as [[b a]|]; [done|]. simpl. auto.
Qed.

(** Shorter prefixes of a text hold no more than the text. *)
Lemma str_contains_prefix needle a b :
  str_contains needle a = true -> str_contains needle (a ++ b) = true.
Proof.
  intros (x & y & ->)%str_contains_iff. apply str_contains_iff. exists x, (y ++ b).
  by rewrite !append_assoc.
Qed.

(** The needle's first occurrence leaves none before it. *)
Lemma split_once_before needle s before after :
  needle <> EmptyString -> split_once needle s = Some (before, after) -> str_contains needle before = false.
Proof.
  intros Hn. revert before. induction s as [|c s IH]; intros before; cbn [split_once].
  - destruct (strip_prefix _ _); [|done]. intros [= <- _]. by destruct needle.
  - destruct (strip_prefix needle (String c s)) as [r|] eqn:E.
    + intros [= <- _]. by destruct needle.
    + destruct (split_once needle s) as [[b a]|] eqn:S; [|done]. intros [= <- <-].
      cbn [str_contains]. rewrite (IH b eq_refl), orb_false_r. unfold starts_with.
      destruct (strip_prefix needle (String c b)) as [r|] eqn:P; [|done].
      apply strip_prefix_Some in P. apply split_once_Some in S.
      assert (strip_prefix needle (String c s) = Some (r ++ needle ++ a)) as E'; [|congruence].
      apply strip_prefix_Some. rewrite S. change (String c (b ++ needle ++ a)) with (String c b ++ needle ++ a).
      by rewrite P, append_assoc.
Qed.

(** A needle without the character [c] does not reach across one. *)
Lemma contains_around needle a c b :
  str_contains (String c EmptyString) needle = false ->
  str_contains needle a = false -> str_contains needle b = false -> needle <> EmptyString ->
  str_contains needle (a ++ String c b) = false.
Proof.
  intros Hc Ha Hb Hn. induction a as [|d a IH].
  - cbn [String.append str_contains]. rewrite Hb, orb_false_r. unfold starts_with.
    destruct needle as [|n needle]; [done|]. simpl. destruct (Ascii.eqb_spec n c) as [->|]; [|done].
    exfalso. simpl in Hc. unfold starts_with in Hc. simpl in Hc. by rewrite Ascii.eqb_refl in Hc.
  - cbn [str_contains] in Ha. apply orb_false_iff in Ha as [Hs Ha].
    change (String d a ++ String c b) with (String d (a ++ String c b)). cbn [str_contains].
    rewrite IH, orb_false_r by done. unfold starts_with in *.
    destruct (strip_prefix needle (String d (a ++ String c b))) as [r|] eqn:E; [|done]. exfalso.
    apply strip_prefix_Some in E. apply not_true_iff_false in Hc, Hs.
    assert (forall p s, s ++ String c b = p ++ r ->
      (exists t, s = p ++ t) \/ str_contains (String c EmptyString) p = true) as Hsplit.
    { clear. intros p. induction p as [|x p IH]; intros s E; [left; by exists s|].
      destruct s as [|y s].
      - right. injection E as -> _. simpl. unfold starts_with. simpl. by rewrite Ascii.eqb_refl.
      - injection E as -> E. destruct (IH s E) as [(t & ->)|Hp]; [left; by exists t|right].
        simpl. rewrite Hp. apply orb_true_r. }
    destruct (Hsplit needle (String d a) E) as [(t & Et)|Hp]; [|done].
    apply Hs. by rewrite (proj2 (strip_prefix_Some _ _ _) Et).
Qed.

(** ** The mark cannot hide a secret *)

(** A secret that is no part of the mark: it has no bracket and is not a part of
    the word. *)
Definition unmarked (secret : string) : Prop :=
  secret <> EmptyString
  /\ str_contains "[" secret = false /\ str_contains "]" secret = false
  /\ str_contains secret "redacted" = false.

Lemma mark_between secret a b :
  unmarked secret -> str_contains secret a = false -> str_contains secret b = false ->
  str_contains secret (a ++ mark ++ b) = false.
Proof.
  intros (Hn & Hl & Hr & Hm) Ha Hb. change (mark ++ b) with (String "[" ("redacted" ++ String "]" b)).
  apply contains_around; [done|done| |done]. by apply contains_around.
Qed.

Lemma str_replace_fuel_clean n secret s :
  unmarked secret -> (String.length s <= n)%nat ->
  str_contains secret (str_replace_fuel n secret mark s) = false.
Proof.
  intros Hu. revert s. induction n as [|n IH]; intros s Hlen; simpl.
  - destruct s; [|simpl in Hlen; lia]. destruct Hu as (Hn & _). by destruct secret.
  - destruct (split_once secret s) as [[a b]|] eqn:E; [|by apply split_once_None].
    pose proof Hu as (Hn & _). pose proof (split_once_before _ _ _ _ Hn E) as Ha.
    apply split_once_Some in E. apply mark_between; [done|done|]. apply IH.
    rewrite E, !length_append in Hlen. destruct secret; [done|]. simpl in Hlen. lia.
Qed.

Lemma str_replace_clean secret s :
  unmarked secret -> str_contains secret (str_replace secret mark s) = false.
Proof. intros Hu. by apply str_replace_fuel_clean. Qed.

(** ** JSON results *)

Section JsonFacts.
Context (number_to_string : Number -> string).

(** A text or key of the value contains the secret, or a number is it. *)
Fixpoint mentions (secret : string) (value : json) : bool :=
  match value with
  | Object fields => existsb (fun kv => str_contains secret (fst kv) || mentions secret (snd kv)) fields
  | Array items => existsb (mentions secret) items
  | Str s => str_contains secret s
  | Num n => beq (number_to_string n) secret
  | Bool _ | Null => false
  end.

Definition clean_field (secret : string) (kv : string * json) : Prop :=
  str_contains secret (fst kv) = false /\ mentions secret (snd kv) = false.

Lemma mentions_fields secret fields :
  mentions secret (Object fields) = false <-> Forall (clean_field secret) fields.
Proof.
  simpl. induction fields as [|kv fields IH]; simpl; [by split|].
  rewrite !orb_false_iff, IH, Forall_cons. done.
Qed.

Lemma mentions_items secret items :
  mentions secret (Array items) = false <-> Forall (fun v => mentions secret v = false) items.
Proof.
  simpl. induction items as [|v items IH]; simpl; [by split|]. by rewrite orb_false_iff, IH, Forall_cons.
Qed.

(** What one value becomes: free of the secret, and unchanged only if it was. *)
Definition cleans (secret : string) (f : json -> json * bool) (v : json) : Prop :=
  mentions secret (fst (f v)) = false /\ (snd (f v) = false -> mentions secret v = false).

Lemma mark_clean secret : unmarked secret -> str_contains secret mark = false.
Proof.
  intros Hu. change mark with (EmptyString ++ mark ++ EmptyString).
  assert (str_contains secret EmptyString = false) by (destruct Hu as [Hn _]; by destruct secret).
  by apply mark_between.
Qed.

Lemma redact_items_clean secret f items :
  Forall (cleans secret f) items ->
  Forall (fun v => mentions secret v = false) (fst (redact_items f items))
  /\ (snd (redact_items f items) = false -> Forall (fun v => mentions secret v = false) items).
Proof.
  induction 1 as [|v items [Hc Hu] _ [IH1 IH2]]; simpl; [done|].
  destruct (f v) as [v' c], (redact_items f items) as [rest changed]. simpl in *. split; [by constructor|].
  intros [-> ->]%orb_false_iff. constructor; auto.
Qed.

Lemma redact_entries_clean secret f entries :
  unmarked secret -> Forall (fun kv => cleans secret f (snd kv)) entries ->
  forall object changed, Forall (clean_field secret) object ->
    Forall (clean_field secret) (fst (redact_entries secret f entries object changed))
    /\ (snd (redact_entries secret f entries object changed) = false ->
        changed = false /\ Forall (clean_field secret) entries).
Proof.
  intros Hm. induction 1 as [|[k v] entries [Hc Hu] _ IH]; intros object changed Ho; simpl; [done|].
  destruct (f v) as [v' c'] eqn:Ef. simpl in Hc, Hu. rewrite Ef in Hc, Hu. simpl in Hc, Hu.
  destruct (str_contains secret k) eqn:Ek.
  - destruct (IH (btree_insert (str_replace secret mark k) v' object) (changed || true || c')) as [H1 H2].
    { apply btree_insert_Forall; [|done]. split; [by apply str_replace_clean|done]. }
    split; [done|]. intros [[[_ [=]]%orb_false_iff _]%orb_false_iff _]%H2.
  - destruct (IH (btree_insert k v' object) (changed || false || c')) as [H1 H2].
    { by apply btree_insert_Forall. }
    split; [done|]. intros [[[-> _]%orb_false_iff ->]%orb_false_iff He]%H2.
    split; [done|]. constructor; [|done]. split; [done|]. by apply Hu.
Qed.

Lemma redact_json_string_cleans secret v :
  unmarked secret -> cleans secret (redact_json_string number_to_string secret) v.
Proof.
  intros Hm. induction v as [fields IH|items IH|s|n|b|] using json_nested_ind; unfold cleans.
  - cbn [redact_json_string]. destruct (redact_entries_clean secret _ fields Hm IH [] false) as [H1 H2].
    { constructor. }
    destruct (redact_entries _ _ _ _ _) as [object changed]. simpl in H1, H2.
    cbn [fst snd]. rewrite !mentions_fields. split; [done|]. intros Hc. by apply H2.
  - cbn [redact_json_string]. destruct (redact_items_clean secret _ items IH) as [H1 H2].
    destruct (redact_items _ _) as [items' changed]. cbn [fst snd] in *. by rewrite !mentions_items.
  - cbn [redact_json_string]. destruct (str_contains secret s) eqn:E; simpl; [|done].
    split; [by apply str_replace_clean|done].
  - cbn [redact_json_string]. destruct (beq (number_to_string n) secret) eqn:E; simpl; [|done].
    split; [by apply mark_clean|done].
  - done.
  - done.
Qed.
End JsonFacts.

(** ** The loop over a line ends *)

Lemma str_take_drop n s : str_take n s ++ str_drop n s = s.
Proof. revert s. induction n as [|n IH]; intros [|c s]; simpl; [done..|by rewrite IH]. Qed.

Lemma str_drop_length n s : String.length (str_drop n s) = (String.length s - n)%nat.
Proof. revert s. induction n as [|n IH]; intros [|c s]; simpl; [done..|apply IH]. Qed.

Lemma str_map_length f s : String.length (str_map f s) = String.length s.
Proof. induction s as [|c s IH]; simpl; [done|by rewrite IH]. Qed.

Lemma break_at_Some p s before after : break_at p s = Some (before, after) -> s = before ++ after.
Proof.
  revert before. induction s as [|c s IH]; intros before; simpl; [done|]. destruct (p c).
  - by intros [= <- <-].
  - destruct (break_at p s) as [[b a]|]; [|done]. intros [= <- <-]. simpl. f_equal. by apply IH.
Qed.

Lemma skip_to_value_Some s before after : skip_to_value s = Some (before, after) -> s = before ++ after.
Proof.
  revert before. induction s as [|a r IH1 IH2 IH3] using string_ind3; intros before; [done|].
  cbn [skip_to_value]. destruct (_ || _).
  { destruct (skip_to_value r) as [[x y]|]; [|done]. intros [= <- <-]. simpl. f_equal. by apply IH1. }
  destruct r as [|b r]; [by intros [= <- <-]|]. destruct (ws2 a b).
  { destruct (skip_to_value r) as [[x y]|] eqn:E; [|done]. intros [= <- <-]. simpl. do 2 f_equal.
    by apply (IH2 b r). }
  destruct r as [|c r]; [by intros [= <- <-]|]. destruct (ws3 a b c); [|by intros [= <- <-]].
  destruct (skip_to_value r) as [[x y]|] eqn:E; [|done]. intros [= <- <-]. simpl. do 3 f_equal.
  by apply (IH3 b c r).
Qed.

(** A pair's bounds keep a part of the text and cut out a value. *)
Lemma key_value_bounds_Some after_key kept tail :
  key_value_bounds after_key = Some (kept, tail) -> exists value, after_key = kept ++ value ++ tail.
Proof.
  unfold key_value_bounds. destruct after_key as [|c rest]; [done|].
  assert (forall k bounds, String c rest = k ++ bounds ->
    (let '(skipped, value) := default (EmptyString, bounds) (skip_to_value bounds) in
     let tail := match break_at is_delimiter value with
                 | Some (_, tail) => tail | None => EmptyString end in
     Some (k ++ skipped, tail)) = Some (kept, tail) ->
    exists value, String c rest = kept ++ value ++ tail) as Hk.
  { intros k bounds ->. assert (exists skipped value, default (EmptyString, bounds) (skip_to_value bounds)
      = (skipped, value) /\ bounds = skipped ++ value) as (skipped & value & -> & ->).
    { destruct (skip_to_value bounds) as [[x y]|] eqn:E; simpl; [|by exists EmptyString, bounds].
      apply skip_to_value_Some in E. eauto. }
    destruct (break_at is_delimiter value) as [[x y]|] eqn:E; intros [= <- <-].
    - apply break_at_Some in E as ->. exists x. by rewrite !append_assoc.
    - exists value. by rewrite append_nil_r, append_assoc. }
  destruct (is_separator c); [by apply (Hk (String c EmptyString))|].
  destruct (is_char quote c); [|done].
  destruct (split_once ":" rest) as [[b a]|] eqn:E; [|done]. apply split_once_Some in E as ->.
  apply Hk. simpl. by rewrite append_assoc.
Qed.

Lemma redact_key_value_fuel_enough n key rest :
  key <> EmptyString -> (String.length rest < n)%nat -> is_Some (redact_key_value_fuel n key rest).
Proof.
  intros Hk. revert rest. induction n as [|n IH]; intros rest Hlen; [lia|]. simpl.
  destruct (split_once key (to_ascii_lowercase rest)) as [[before after]|] eqn:E; [|done].
  apply split_once_Some, (f_equal String.length) in E. unfold to_ascii_lowercase in E.
  rewrite str_map_length, !length_append in E.
  assert (0 < String.length key)%nat by (destruct key; simpl; [done|lia]).
  assert (String.length (str_drop (String.length before + String.length key) rest) < n)%nat as Hd
    by (rewrite str_drop_length; lia).
  destruct (key_value_bounds _) as [[kept tail]|] eqn:B.
  - apply key_value_bounds_Some in B as (value & B). apply (f_equal String.length) in B.
    rewrite !length_append in B. destruct (IH tail) as [r ->]; [lia|done].
  - destruct (IH _ Hd) as [r ->]. done.
Qed.

Lemma redact_key_value_fuel_same n m key rest :
  key <> EmptyString -> (String.length rest < n)%nat -> (String.length rest < m)%nat ->
  redact_key_value_fuel n key rest = redact_key_value_fuel m key rest.
Proof.
  intros Hk. revert m rest. induction n as [|n IH]; intros [|m] rest Hn Hm; try lia. simpl.
  destruct (split_once key (to_ascii_lowercase rest)) as [[before after]|] eqn:E; [|done].
  apply split_once_Some, (f_equal String.length) in E. unfold to_ascii_lowercase in E.
  rewrite str_map_length, !length_append in E.
  assert (0 < String.length key)%nat by (destruct key; simpl; [done|lia]).
  pose proof (str_drop_length (String.length before + String.length key) rest) as Hd.
  destruct (key_value_bounds _) as [[kept tail]|] eqn:B.
  - apply key_value_bounds_Some in B as (value & B). apply (f_equal String.length) in B.
    rewrite !length_append in B. by rewrite (IH m tail) by lia.
  - by rewrite (IH m _) by lia.
Qed.

(** * Theorems *)

(** the scan of a line for a key always ends, whatever the line: once its fuel
    exceeds the length of the line the result is there and no longer depends on
    the fuel. *)
Theorem redact_key_value_terminates (line key : string) (Hkey : key <> EmptyString) :
  forall n, (String.length line < n)%nat ->
    redact_key_value_fuel n key line = Some (redact_key_value line key).
Proof.
  intros n Hn. unfold redact_key_value.
  destruct (redact_key_value_fuel_enough (S (String.length line)) key line Hkey) as [r Hr]; [lia|].
  rewrite (redact_key_value_fuel_same n (S (String.length line)) key line Hkey Hn) by lia.
  by rewrite Hr.
Qed.

Lemma redact_key_value_terminates_witness :
  redact_key_value_fuel 100 "access_code" "denied access_code=1234, retry"
  = Some "denied access_code=[redacted], retry".
Proof.
  refine (eq_trans (redact_key_value_terminates "denied access_code=1234, retry" "access_code" _ 100 _) _).
  - discriminate.
  - apply (bool_decide_unpack _). vm_compute. exact I.
  - reflexivity.
Defined.

(** an access code never survives in what is stored or logged of a
    link-printer command: the redacted error does not contain it, and the redacted
    result is a JSON value, or a text that parses to one, in which no text, key or
    number is or contains it, or it is no JSON and does not contain it. *)
Theorem link_secret_never_survives `{RedactJson} (access_code : string)
    (Hcode : unmarked access_code) :
  (forall message, str_contains access_code (redact_link_printer_secret message access_code) = false)
  /\ forall result_json, let out := redact_link_printer_result_json result_json access_code in
     (exists v, out = to_json_string v /\ mentions json_number_to_string access_code v = false)
     \/ (exists v, redactable_from_str out = Some v
                   /\ mentions json_number_to_string access_code v = false)
     \/ (redactable_from_str (redact_result_json result_json) = None
         /\ str_contains access_code out = false).
Proof.
  assert (beq access_code EmptyString = false) as Hne by (by apply beq_false; destruct Hcode).
  split.
  - intros message. unfold redact_link_printer_secret. rewrite Hne. by apply str_replace_clean.
  - intros result_json out. unfold out, redact_link_printer_result_json. rewrite Hne.
    destruct (redactable_from_str (redact_result_json result_json)) as [v|] eqn:E.
    + pose proof (redact_json_string_cleans json_number_to_string access_code v Hcode) as [H1 H2].
      destruct (redact_json_string _ _ v) as [v' [|]]; [by left; exists v'|].
      right. left. exists v. split; [done|]. by apply H2.
    + right. right. split; [done|]. by apply str_replace_clean.
Qed.

(** A JSON codec that only knows one message, for the witness. *)
Definition one_message_json : RedactJson := {|
  redactable_from_str := fun s =>
    if beq s "{}"%string then Some (Object [("message", Str "printer rejected 12345678")]) else None;
  to_json_string := fun v => match v with Object [(_, Str s)] => s | _ => EmptyString end;
  json_number_to_string := fun _ => EmptyString;
|}.

Lemma link_secret_never_survives_witness :
  unmarked "12345678"
  /\ redact_link_printer_secret "code 12345678 rejected" "12345678" = "code [redacted] rejected"
  /\ str_contains "12345678" (redact_link_printer_secret "code 12345678 rejected" "12345678") = false.
Proof.
  assert (unmarked "12345678") as Hu.
  { split; [discriminate|]. split; [reflexivity|]. split; reflexivity. }
  split; [exact Hu|]. split; [reflexivity|].
  exact (proj1 (@link_secret_never_survives one_message_json "12345678" Hu) "code 12345678 rejected").
Defined.

(** An [Authorization] header inside a line loses its scheme and keeps its token:
    the value of a key ends at the first blank, and once the scheme is cut out
    nothing marks the token any more. *)
Lemma authorization_token_survives :
  redact_secrets "upstream refused Authorization: Bearer s3cret"
  = "upstream refused Authorization: [redacted] s3cret".
Proof. reflexivity. Qed.
