(* ===== verification/CoreTypes.v ===== *)
(** * pandar-core: errors, identifiers, statuses

    The shared enums of [crates/pandar-core/src]: [CoreError] and [required]
    (lib.rs), the UUID newtypes (ids.rs), the four persisted status enums
    (agent.rs, command.rs, job.rs) behind the interface [StrEnum], the
    calibration mode, and the checked Studio numbers (studio_print.rs). *)

From S2P Require Import Prelude RustStr RustFloat.

#[local] Open Scope Z_scope.

Inductive CoreError : Type :=
| InvalidTenantId | InvalidAgentId | InvalidCommandId | InvalidJobId
| EmptyTenantSlug | EmptyTenantDisplayName | EmptyAgentName
| EmptyPrinterId | EmptyPrinterSerialNumber | EmptyPrinterName | EmptyPrinterStatus
| EmptyCommandKind
| EmptyArtifactId | EmptyArtifactFilename | EmptyArtifactContentType
| EmptyArtifactStoragePath | EmptyJobPrinterId | EmptyJobArtifactId | EmptyArtifactBody
| InvalidAgentStatus (s : string) | InvalidCommandStatus (s : string)
| InvalidJobStatus (s : string) | InvalidPrintStatus (s : string)
| InvalidPrintCalibrationMode (v : Z)
| InvalidStudioSubmissionId (v : Z)
| NonFiniteStudioNumber
| InvalidStudioPrintMetadata (s : string).

#[export] Instance CoreError_eq_dec : EqDecision CoreError.
Proof. solve_decision. Defined.

Definition required (value : string) (error : CoreError) : result CoreError unit :=
  if negb (blank value) then Ok tt else Err error.

(** [parts.x.filter(|value| !value.trim().is_empty())]. *)
Definition non_blank (o : option string) : option string :=
  opt_filter (fun v => negb (blank v)) o.

(** ** Identifiers

    Newtypes over a 128-bit UUID, with derived equality. *)
Record TenantId := mkTenantId { tenant_uuid : N }.
Record AgentId := mkAgentId { agent_uuid : N }.
Record CommandId := mkCommandId { command_uuid : N }.
Record JobId := mkJobId { job_uuid : N }.

#[export] Instance TenantId_eq_dec : EqDecision TenantId.
Proof. solve_decision. Defined.
#[export] Instance AgentId_eq_dec : EqDecision AgentId.
Proof. solve_decision. Defined.
#[export] Instance CommandId_eq_dec : EqDecision CommandId.
Proof. solve_decision. Defined.
#[export] Instance JobId_eq_dec : EqDecision JobId.
Proof. solve_decision. Defined.

#[export] Program Instance TenantId_countable : Countable TenantId :=
  inj_countable' tenant_uuid mkTenantId _.
Next Obligation. by intros []. Qed.
#[export] Program Instance AgentId_countable : Countable AgentId :=
  inj_countable' agent_uuid mkAgentId _.
Next Obligation. by intros []. Qed.
#[export] Program Instance CommandId_countable : Countable CommandId :=
  inj_countable' command_uuid mkCommandId _.
Next Obligation. by intros []. Qed.
#[export] Program Instance JobId_countable : Countable JobId :=
  inj_countable' job_uuid mkJobId _.
Next Obligation. by intros []. Qed.

(** ** Persisted string enums

    What [as_str]/[Display] and [FromStr] of a status promise to the code that
    stores them in a text column. *)
Class StrEnum (A : Type) := {
  as_str : A -> string;
  from_str : string -> result CoreError A;
  from_str_as_str : forall a, from_str (as_str a) = Ok a;
  as_str_from_str : forall s a, from_str s = Ok a -> as_str a = s;
}.

Lemma as_str_inj {A} `{StrEnum A} (a b : A) : as_str a = as_str b -> a = b.
Proof. intros E. pose proof (from_str_as_str a) as Ha. rewrite E, from_str_as_str in Ha. congruence. Qed.

(** Discharges the two laws for a chain of literal comparisons. *)
Ltac str_enum_laws :=
  first
    [ intros []; vm_compute; reflexivity
    | intros ? ?; unfold beq; repeat case_bool_decide; intros; simplify_eq; reflexivity ].

Module AgentStatus.
Inductive t := Offline | Connecting | Online.

Definition as_str (s : t) : string :=
  match s with Offline => "offline" | Connecting => "connecting" | Online => "online" end.

Definition from_str (value : string) : result CoreError t :=
  if beq value "offline" then Ok Offline
  else if beq value "connecting" then Ok Connecting
  else if beq value "online" then Ok Online
  else Err (InvalidAgentStatus value).
End AgentStatus.

#[export] Instance AgentStatus_eq_dec : EqDecision AgentStatus.t.
Proof. solve_decision. Defined.

Module CommandStatus.
Inductive t := Queued | Sent | Acknowledged | Succeeded | Failed | Cancelled.

Definition as_str (s : t) : string :=
  match s with
  | Queued => "queued" | Sent => "sent" | Acknowledged => "acknowledged"
  | Succeeded => "succeeded" | Failed => "failed" | Cancelled => "cancelled"
  end.

Definition from_str (value : string) : result CoreError t :=
  if beq value "queued" then Ok Queued
  else if beq value "sent" then Ok Sent
  else if beq value "acknowledged" then Ok Acknowledged
  else if beq value "succeeded" then Ok Succeeded
  else if beq value "failed" then Ok Failed
  else if beq value "cancelled" then Ok Cancelled
  else Err (InvalidCommandStatus value).
End CommandStatus.

#[export] Instance CommandStatus_eq_dec : EqDecision CommandStatus.t.
Proof. solve_decision. Defined.

Module JobStatus.
Inductive t := Queued | Sent | Acknowledged | Succeeded | Failed | Cancelled.

Definition as_str (s : t) : string :=
  match s with
  | Queued => "queued" | Sent => "sent" | Acknowledged => "acknowledged"
  | Succeeded => "succeeded" | Failed => "failed" | Cancelled => "cancelled"
  end.

Definition from_str (value : string) : result CoreError t :=
  if beq value "queued" then Ok Queued
  else if beq value "sent" then Ok Sent
  else if beq value "acknowledged" then Ok Acknowledged
  else if beq value "succeeded" then Ok Succeeded
  else if beq value "failed" then Ok Failed
  else if beq value "cancelled" then Ok Cancelled
  else Err (InvalidJobStatus value).
End JobStatus.

#[export] Instance JobStatus_eq_dec : EqDecision JobStatus.t.
Proof. solve_decision. Defined.

Module PrintStatus.
Inductive t := Pending | Stalled | Running | Completed | Failed | Cancelled.

Definition as_str (s : t) : string :=
  match s with
  | Pending => "pending" | Stalled => "stalled" | Running => "running"
  | Completed => "completed" | Failed => "failed" | Cancelled => "cancelled"
  end.

Definition from_str (value : string) : result CoreError t :=
  if beq value "pending" then Ok Pending
  else if beq value "stalled" then Ok Stalled
  else if beq value "running" then Ok Running
  else if beq value "completed" then Ok Completed
  else if beq value "failed" then Ok Failed
  else if beq value "cancelled" then Ok Cancelled
  else Err (InvalidPrintStatus value).
End PrintStatus.

#[export] Instance PrintStatus_eq_dec : EqDecision PrintStatus.t.
Proof. solve_decision. Defined.

#[export] Instance AgentStatus_str : StrEnum AgentStatus.t.
Proof. exists AgentStatus.as_str AgentStatus.from_str; unfold AgentStatus.from_str; str_enum_laws. Defined.
#[export] Instance CommandStatus_str : StrEnum CommandStatus.t.
Proof. exists CommandStatus.as_str CommandStatus.from_str; unfold CommandStatus.from_str; str_enum_laws. Defined.
#[export] Instance JobStatus_str : StrEnum JobStatus.t.
Proof. exists JobStatus.as_str JobStatus.from_str; unfold JobStatus.from_str; str_enum_laws. Defined.
#[export] Instance PrintStatus_str : StrEnum PrintStatus.t.
Proof. exists PrintStatus.as_str PrintStatus.from_str; unfold PrintStatus.from_str; str_enum_laws. Defined.

(** ** Calibration mode ([job.rs]) *)
Module PrintCalibrationMode.
Inductive t := Off | On | Auto.

Definition as_u8 (m : t) : Z := match m with Off => 0 | On => 1 | Auto => 2 end.

Definition try_from (value : Z) : result CoreError t :=
  if value =? 0 then Ok Off
  else if value =? 1 then Ok On
  else if value =? 2 then Ok Auto
  else Err (InvalidPrintCalibrationMode value).

Definition is_on (m : t) : bool := match m with On => true | _ => false end.
Definition is_off (m : t) : bool := match m with Off => true | _ => false end.
End PrintCalibrationMode.

#[export] Instance PrintCalibrationMode_eq_dec : EqDecision PrintCalibrationMode.t.
Proof. solve_decision. Defined.

(** ** Checked Studio numbers ([studio_print.rs]) *)
Module StudioSubmissionId.
(** The wrapped [i32]. *)
Record t := mk { get : Z }.

Definition try_from (value : Z) : result CoreError t :=
  match try_int i32_min i32_max value with
  | None => Err (InvalidStudioSubmissionId value)
  | Some v => if v <=? 0 then Err (InvalidStudioSubmissionId v) else Ok (mk v)
  end.

Definition into_i64 (id : t) : Z := get id.
End StudioSubmissionId.

Module StudioFiniteF64.
Record t := mk { get : float }.

Definition try_from (value : float) : result CoreError t :=
  if is_finite value then Ok (mk value) else Err NonFiniteStudioNumber.
End StudioFiniteF64.
