(* ===== verification/H2c.v ===== *)
(** * pandar-core: H2C nozzle mapping

    [crates/pandar-core/src/h2c.rs]: the automatic nozzle mapping request and
    response Studio exchanges with an H2C printer, their validation, and the
    reported nozzle system. *)

From S2P Require Import Prelude RustStr RustFloat Json CoreTypes.

#[local] Open Scope Z_scope.

Definition MAX_MAPPING_ENTRIES : Z := 32.
Definition V0_AMS_MAPPING_ENTRIES : Z := 33.
Definition V0_FILAMENT_INFO_ENTRIES : Z := V0_AMS_MAPPING_ENTRIES * MAX_MAPPING_ENTRIES.

Definition zlen {A} (l : list A) : Z := Z.of_nat (length l).
Definition slen (s : string) : Z := Z.of_nat (String.length s).

Module GroupInfo.
Record t := mk { id : Z; ext : Z; dia : float; vol : string }.
End GroupInfo.

Module FilamentInfo.
Record t := mk {
  id : Z; direction : Z; group : Z; nozzle_d : string; nozzle_v : string;
  cate : string; color : string;
}.
End FilamentInfo.

Module NozzleInfo.
Record t := mk {
  pos : Z; nozzle_d : string; nozzle_v : string; wear : float; cate : string; color : string;
}.
End NozzleInfo.

Module MappingRequest.
Record t := mk {
  command : string;
  sequence_id : string;
  version : option Z;
  calibration : option Z;
  extrude_cali_manual_mode : option Z;
  filament_seq : option (list Z);
  ams_mapping : option (list Z);
  fila_info : option (list FilamentInfo.t);
  nozzle_info : option (list NozzleInfo.t);
  group_info : option (list GroupInfo.t);
}.
End MappingRequest.

#[export] Instance GroupInfo_eq_dec : EqDecision GroupInfo.t.
Proof. solve_decision. Defined.
#[export] Instance FilamentInfo_eq_dec : EqDecision FilamentInfo.t.
Proof. solve_decision. Defined.
#[export] Instance NozzleInfo_eq_dec : EqDecision NozzleInfo.t.
Proof. solve_decision. Defined.
#[export] Instance MappingRequest_eq_dec : EqDecision MappingRequest.t.
Proof. solve_decision. Defined.

(** The [seen] vector of [all_unique], threaded through [Iterator::all]. *)
Fixpoint all_unique_from (seen values : list Z) : bool :=
  match values with
  | [] => true
  | v :: rest => if bool_decide (v ∈ seen) then false else all_unique_from (seen ++ [v]) rest
  end.
Definition all_unique (values : list Z) : bool := all_unique_from [] values.

Definition valid_diameter (value : float) : bool :=
  is_finite value
  && existsb (fun d => feqb value d) [f32_lit 2 (-1); f32_lit 4 (-1); f32_lit 6 (-1); f32_lit 8 (-1)].

Definition valid_diameter_text (value : string) : bool :=
  match f32_parse value with Some d => valid_diameter d | None => false end.

Definition valid_flow (value : string) : bool :=
  bool_decide (value ∈ ["Standard"; "High Flow"; "TPU Flow"; "TPU High Flow"; "E3D High Flow"]%string).

Definition valid_physical_nozzle_id (value : Z) : bool :=
  (value =? 0) || (value =? 1) || in_range 16 21 value.

Definition valid_h2c_nozzle_mapping (mapping : list Z) : bool :=
  negb (zlen mapping =? 0)
  && (zlen mapping <=? MAX_MAPPING_ENTRIES)
  && forallb (fun value => (value =? -1) || valid_physical_nozzle_id value) mapping.

Module H2cAutoMappingGroupInfo.
Definition is_valid (g : GroupInfo.t) : bool :=
  in_range 0 (MAX_MAPPING_ENTRIES - 1) (GroupInfo.id g)
  && in_range 1 2 (GroupInfo.ext g)
  && valid_diameter (GroupInfo.dia g)
  && valid_flow (GroupInfo.vol g).
End H2cAutoMappingGroupInfo.

Module H2cAutoMappingFilamentInfo.
Definition is_valid (f : FilamentInfo.t) : bool :=
  in_range 1 V0_AMS_MAPPING_ENTRIES (FilamentInfo.id f)
  && in_range 1 2 (FilamentInfo.direction f)
  && in_range 0 (MAX_MAPPING_ENTRIES - 1) (FilamentInfo.group f)
  && valid_diameter_text (FilamentInfo.nozzle_d f)
  && valid_flow (FilamentInfo.nozzle_v f)
  && (slen (FilamentInfo.cate f) <=? 128)
  && (slen (FilamentInfo.color f) <=? 16).
End H2cAutoMappingFilamentInfo.

Module H2cAutoMappingNozzleInfo.
Definition is_valid (n : NozzleInfo.t) : bool :=
  valid_physical_nozzle_id (NozzleInfo.pos n)
  && valid_diameter_text (NozzleInfo.nozzle_d n)
  && valid_flow (NozzleInfo.nozzle_v n)
  && is_finite (NozzleInfo.wear n)
  && fleb (S754_zero false) (NozzleInfo.wear n)
  && (slen (NozzleInfo.cate n) <=? 128)
  && (slen (NozzleInfo.color n) <=? 16).
End H2cAutoMappingNozzleInfo.

Module H2cAutoNozzleMappingRequest.
Import MappingRequest.

Definition valid_v1 (r : t) : bool :=
  is_none (calibration r)
  && is_none (extrude_cali_manual_mode r)
  && is_none (filament_seq r)
  && is_none (ams_mapping r)
  && is_none (fila_info r)
  && is_none (nozzle_info r)
  && is_some_and (fun groups =>
       negb (zlen groups =? 0)
       && (zlen groups <=? MAX_MAPPING_ENTRIES)
       && forallb H2cAutoMappingGroupInfo.is_valid groups
       && all_unique (map GroupInfo.id groups)) (group_info r).

Definition valid_v0 (r : t) : bool :=
  is_none (group_info r)
  && is_some_and (in_range 0 2) (calibration r)
  && is_some_and (in_range (-1) 1) (extrude_cali_manual_mode r)
  && is_some_and (fun values =>
       negb (zlen values =? 0)
       && (zlen values <=? V0_AMS_MAPPING_ENTRIES)
       && forallb (fun v => -1 <=? v) values) (filament_seq r)
  && is_some_and (fun values =>
       (zlen values =? V0_AMS_MAPPING_ENTRIES)
       && forallb (in_range 0 65535) values) (ams_mapping r)
  && is_some_and (fun values =>
       (zlen values <=? V0_FILAMENT_INFO_ENTRIES)
       && forallb H2cAutoMappingFilamentInfo.is_valid values) (fila_info r)
  && is_some_and (fun values =>
       (zlen values <=? 8)
       && forallb H2cAutoMappingNozzleInfo.is_valid values) (nozzle_info r).

Definition is_valid (r : t) : bool :=
  if negb (beq (command r) "get_auto_nozzle_mapping"%string)
     || beq (sequence_id r) EmptyString
     || (20 <? slen (sequence_id r))
     || negb (str_forall is_digit (sequence_id r))
  then false
  else match version r with
       | None => valid_v0 r
       | Some v => if v =? 1 then valid_v1 r else if v =? 0 then valid_v0 r else false
       end.
End H2cAutoNozzleMappingRequest.

Module MappingResponse.
Record t := mk {
  command : string;
  sequence_id : string;
  result : option string;
  reason : option string;
  errno : option Z;
  detail : option json;
  kind : option string;
  version : option json;
  mapping : option (list Z);
  extra : list (string * json);
}.
End MappingResponse.

Definition response_version (value : option json) : option Z :=
  match value with
  | None => Some 0
  | Some (Num n) => v ← Number.as_u64 n; try_int 0 u8_max v
  | Some _ => None
  end.

(** [is_valid_for] of the response envelope; only its [print] member is read. *)
Definition is_valid_for (response : MappingResponse.t) (request : MappingRequest.t) : bool :=
  if negb (beq (MappingResponse.command response) "get_auto_nozzle_mapping"%string)
     || negb (beq (MappingResponse.sequence_id response) (MappingRequest.sequence_id request))
  then false
  else match MappingResponse.result response with
       | Some r =>
           if beq r "fail"%string || beq r "failed"%string then true
           else if beq r "success"%string then
             beq (response_version (MappingResponse.version response))
                 (Some (default 0 (MappingRequest.version request)))
             && is_some_and valid_h2c_nozzle_mapping (MappingResponse.mapping response)
           else false
       | None => false
       end.

(** ** The reported nozzle system *)

Module BambuNozzleInfo.
Record t := mk {
  id : Z; diameter : StudioFiniteF64.t; nozzle_type : string; stat : option Z;
  fila_id : option string; wear : option StudioFiniteF64.t; p_t : option Z; color_m : option string;
}.
End BambuNozzleInfo.

Module BambuNozzleDevice.
Record t := mk {
  exist : option Z; state : option Z; src_id : option Z; tar_id : option Z;
  info : list BambuNozzleInfo.t;
}.
End BambuNozzleDevice.

Module BambuNozzleHolder.
Record t := mk { stat : option Z; pos : option Z; info : option Z }.
End BambuNozzleHolder.

Module BambuNozzleSystem.
Record t := mk { nozzle : BambuNozzleDevice.t; holder : option BambuNozzleHolder.t }.
End BambuNozzleSystem.

#[export] Instance StudioFiniteF64_eq_dec : EqDecision StudioFiniteF64.t.
Proof. solve_decision. Defined.
#[export] Instance BambuNozzleInfo_eq_dec : EqDecision BambuNozzleInfo.t.
Proof. solve_decision. Defined.
#[export] Instance BambuNozzleDevice_eq_dec : EqDecision BambuNozzleDevice.t.
Proof. solve_decision. Defined.
#[export] Instance BambuNozzleHolder_eq_dec : EqDecision BambuNozzleHolder.t.
Proof. solve_decision. Defined.
#[export] Instance BambuNozzleSystem_eq_dec : EqDecision BambuNozzleSystem.t.
Proof. solve_decision. Defined.

(** ** Declarative specification *)

Definition nozzle_diameter (d : float) : Prop :=
  is_finite d = true
  /\ Exists (fun c => feqb d c = true)
       [f32_lit 2 (-1); f32_lit 4 (-1); f32_lit 6 (-1); f32_lit 8 (-1)].

Definition group_ok (g : GroupInfo.t) : Prop :=
  0 <= GroupInfo.id g < 32 /\ 1 <= GroupInfo.ext g <= 2
  /\ nozzle_diameter (GroupInfo.dia g) /\ valid_flow (GroupInfo.vol g) = true.

Definition v1_ok (r : MappingRequest.t) : Prop :=
  MappingRequest.calibration r = None /\ MappingRequest.extrude_cali_manual_mode r = None
  /\ MappingRequest.filament_seq r = None /\ MappingRequest.ams_mapping r = None
  /\ MappingRequest.fila_info r = None /\ MappingRequest.nozzle_info r = None
  /\ exists groups, MappingRequest.group_info r = Some groups /\ groups <> []
       /\ Forall group_ok groups /\ NoDup (map GroupInfo.id groups).

Definition v0_ok (r : MappingRequest.t) : Prop :=
  MappingRequest.group_info r = None
  /\ (exists c, MappingRequest.calibration r = Some c /\ 0 <= c <= 2)
  /\ (exists m, MappingRequest.extrude_cali_manual_mode r = Some m /\ -1 <= m <= 1)
  /\ (exists s, MappingRequest.filament_seq r = Some s /\ s <> [] /\ zlen s <= 33
                /\ Forall (fun v => -1 <= v) s)
  /\ (exists a, MappingRequest.ams_mapping r = Some a /\ zlen a = 33
                /\ Forall (fun v => 0 <= v <= 65535) a)
  /\ (exists f, MappingRequest.fila_info r = Some f /\ zlen f <= 1056
                /\ Forall (fun i => H2cAutoMappingFilamentInfo.is_valid i = true) f)
  /\ (exists n, MappingRequest.nozzle_info r = Some n /\ zlen n <= 8
                /\ Forall (fun i => H2cAutoMappingNozzleInfo.is_valid i = true) n).

(** What a mapping request must be to be sent to a printer: a decimal sequence
    id of one to twenty digits and exactly one of the two payload versions. *)
Definition request_ok (r : MappingRequest.t) : Prop :=
  MappingRequest.command r = "get_auto_nozzle_mapping"%string
  /\ 1 <= slen (MappingRequest.sequence_id r) <= 20
  /\ str_forall is_digit (MappingRequest.sequence_id r) = true
  /\ ((MappingRequest.version r = Some 1 /\ v1_ok r)
      \/ (default 0 (MappingRequest.version r) = 0 /\ v0_ok r)).

(** ** Helper lemmas *)

Lemma in_range_true lo hi z : in_range lo hi z = true <-> lo <= z <= hi.
Proof. unfold in_range. bprop. tauto. Qed.

Lemma all_unique_from_spec seen values :
  all_unique_from seen values = true <->
  NoDup values /\ forall v, v ∈ values -> v ∉ seen.
Proof.
  revert seen. induction values as [|v rest IH]; intros seen; simpl.
  { split; [intros _; split; [constructor|intros v Hv; by apply not_elem_of_nil in Hv]|done]. }
  case_bool_decide as Hv.
  - split; [done|]. intros [_ H]. by destruct (H v (list_elem_of_here _ _)).
  - rewrite IH, NoDup_cons. setoid_rewrite elem_of_app. setoid_rewrite list_elem_of_singleton.
    setoid_rewrite elem_of_cons. naive_solver.
Qed.

Lemma all_unique_spec values : all_unique values = true <-> NoDup values.
Proof.
  unfold all_unique. rewrite all_unique_from_spec.
  split; [tauto|]. intros H. split; [done|]. intros v _. apply not_elem_of_nil.
Qed.

Lemma forallb_Forall_iff {A} (p : A -> bool) (P : A -> Prop) l :
  (forall a, p a = true <-> P a) -> forallb p l = true <-> Forall P l.
Proof.
  intros H. rewrite forallb_forall, List.Forall_forall. by setoid_rewrite H.
Qed.

Lemma valid_diameter_spec d : valid_diameter d = true <-> nozzle_diameter d.
Proof.
  unfold valid_diameter, nozzle_diameter. rewrite andb_true_iff, existsb_exists, List.Exists_exists.
  done.
Qed.

Lemma group_valid_spec g : H2cAutoMappingGroupInfo.is_valid g = true <-> group_ok g.
Proof.
  unfold H2cAutoMappingGroupInfo.is_valid, group_ok, MAX_MAPPING_ENTRIES.
  rewrite !andb_true_iff, !in_range_true, valid_diameter_spec. intuition lia.
Qed.

(** The distinct group ids are all below 32, so their number is bounded too:
    the length check of [valid_v1] never rejects by itself. *)
Lemma distinct_ids_bounded (ids : list Z) n :
  NoDup ids -> Forall (fun i => 0 <= i < Z.of_nat n) ids -> (length ids <= n)%nat.
Proof.
  intros Hnd Hr. rewrite <- (length_seq n 0), <- (length_map Z.of_nat).
  apply NoDup_incl_length; [by apply NoDup_ListNoDup|].
  intros i Hi. rewrite List.Forall_forall in Hr. specialize (Hr i Hi).
  apply in_map_iff. exists (Z.to_nat i). split; [lia|]. apply in_seq. lia.
Qed.

Lemma zlen_nonempty {A} (l : list A) : negb (zlen l =? 0) = true <-> l <> [].
Proof. unfold zlen. bprop. destruct l; simpl; split; intros; try done; lia. Qed.

Lemma valid_v1_spec r : H2cAutoNozzleMappingRequest.valid_v1 r = true <-> v1_ok r.
Proof.
  unfold H2cAutoNozzleMappingRequest.valid_v1, v1_ok.
  rewrite !andb_true_iff, !is_none_true, is_some_and_true.
  setoid_rewrite andb_true_iff. setoid_rewrite andb_true_iff. setoid_rewrite andb_true_iff.
  setoid_rewrite zlen_nonempty. setoid_rewrite all_unique_spec.
  setoid_rewrite (forallb_Forall_iff _ _ _ group_valid_spec).
  split; [naive_solver|].
  intros (? & ? & ? & ? & ? & ? & groups & Hg & Hne & Hf & Hnd). split_all; try done.
  exists groups. split_all; try done. unfold MAX_MAPPING_ENTRIES, zlen.
  apply Z.leb_le. rewrite <- (length_map GroupInfo.id).
  assert (length (map GroupInfo.id groups) <= 32)%nat; [|lia].
  apply distinct_ids_bounded; [done|]. apply Forall_map.
  eapply Forall_impl; [exact Hf|]. intros g (? & _). simpl. lia.
Qed.

Lemma is_some_and_iff {A} (p : A -> bool) (P : A -> Prop) o :
  (forall a, p a = true <-> P a) -> is_some_and p o = true <-> exists a, o = Some a /\ P a.
Proof. intros H. rewrite is_some_and_true. by setoid_rewrite H. Qed.

Lemma valid_v0_spec r : H2cAutoNozzleMappingRequest.valid_v0 r = true <-> v0_ok r.
Proof.
  unfold H2cAutoNozzleMappingRequest.valid_v0, v0_ok, V0_FILAMENT_INFO_ENTRIES,
    V0_AMS_MAPPING_ENTRIES, MAX_MAPPING_ENTRIES.
  rewrite !andb_true_iff, is_none_true.
  rewrite (is_some_and_iff _ _ (MappingRequest.calibration r) (in_range_true 0 2)).
  rewrite (is_some_and_iff _ _ (MappingRequest.extrude_cali_manual_mode r) (in_range_true (-1) 1)).
  rewrite (is_some_and_iff _ (fun s => s <> [] /\ zlen s <= 33 /\ Forall (fun v => -1 <= v) s)
             (MappingRequest.filament_seq r)).
  2:{ intros s. rewrite !andb_true_iff, zlen_nonempty, Z.leb_le.
      rewrite (forallb_Forall_iff _ (fun v => -1 <= v) _ (fun a => Z.leb_le _ _)). tauto. }
  rewrite (is_some_and_iff _ (fun s => zlen s = 33 /\ Forall (fun v => 0 <= v <= 65535) s)
             (MappingRequest.ams_mapping r)).
  2:{ intros s. rewrite !andb_true_iff, Z.eqb_eq.
      by rewrite (forallb_Forall_iff _ (fun v => 0 <= v <= 65535) _ (in_range_true 0 65535)). }
  rewrite (is_some_and_iff _ (fun s => zlen s <= 1056
             /\ Forall (fun i => H2cAutoMappingFilamentInfo.is_valid i = true) s)
             (MappingRequest.fila_info r)).
  2:{ intros s. rewrite !andb_true_iff, Z.leb_le.
      by rewrite (forallb_Forall_iff _ _ _ (fun a => iff_refl _)). }
  rewrite (is_some_and_iff _ (fun s => zlen s <= 8
             /\ Forall (fun i => H2cAutoMappingNozzleInfo.is_valid i = true) s)
             (MappingRequest.nozzle_info r)).
  2:{ intros s. rewrite !andb_true_iff, Z.leb_le.
      by rewrite (forallb_Forall_iff _ _ _ (fun a => iff_refl _)). }
  tauto.
Qed.

(** ** Properties *)

(** The request validator implements its specification exactly: it accepts a
    request iff the sequence id is a decimal of one to twenty digits and the
    payload is a well-formed version 1 body (distinct group ids below 32) or a
    well-formed version 0 body, never a mixture of the two. *)
Theorem h2c_request_valid_iff (r : MappingRequest.t) :
  H2cAutoNozzleMappingRequest.is_valid r = true <-> request_ok r.
Proof.
  unfold H2cAutoNozzleMappingRequest.is_valid, request_ok.
  destruct (_ || _) eqn:E.
  - split; [done|]. intros (Hc & Hl & Hd & _). exfalso. revert E.
    rewrite Hc, Hd, (beq_refl _). simpl. rewrite orb_false_r.
    unfold slen in *. rewrite (proj2 (Z.ltb_ge _ _)) by lia. rewrite orb_false_r.
    intros He. bprop. rewrite He in Hl. simpl in Hl. lia.
  - rewrite !orb_false_iff in E. destruct E as (((Hc & Hs) & Hl) & Hd). bprop.
    assert (1 <= slen (MappingRequest.sequence_id r)).
    { unfold slen. destruct (MappingRequest.sequence_id r); [done|]. simpl. lia. }
    destruct (MappingRequest.version r) as [v|]; simpl.
    + destruct (Z.eqb_spec v 1) as [->|?]; [rewrite valid_v1_spec; naive_solver|].
      destruct (Z.eqb_spec v 0) as [->|?]; [rewrite valid_v0_spec; naive_solver|].
      split; [done|]. naive_solver.
    + rewrite valid_v0_spec. naive_solver.
Qed.

(** A printer's successful mapping response is accepted only if it answers
    this request (same sequence id, same payload version) and maps at most 32
    filaments to existing nozzles of the H2C: [-1], 0, 1 or a rack position
    16..21. *)
Theorem h2c_response_accepted (resp : MappingResponse.t) (r : MappingRequest.t) :
  is_valid_for resp r = true ->
  MappingResponse.sequence_id resp = MappingRequest.sequence_id r
  /\ (MappingResponse.result resp = Some "success"%string ->
      response_version (MappingResponse.version resp)
        = Some (default 0 (MappingRequest.version r))
      /\ exists m, MappingResponse.mapping resp = Some m /\ m <> [] /\ (length m <= 32)%nat
           /\ Forall (fun v => v = -1 \/ v = 0 \/ v = 1 \/ 16 <= v <= 21) m).
Proof.
  unfold is_valid_for. destruct (_ || _) eqn:E; [done|].
  rewrite orb_false_iff in E. destruct E as [_ Hs]. bprop.
  intros H. split; [done|]. intros Hr. rewrite Hr in H. simpl in H. bprop.
  destruct H as (Hv & m & Hm & Hok). split; [done|]. exists m.
  unfold valid_h2c_nozzle_mapping, MAX_MAPPING_ENTRIES in Hok.
  rewrite !andb_true_iff, zlen_nonempty in Hok. destruct Hok as ((Hne & Hl) & Hf).
  unfold zlen in Hl. bprop. split_all; [done|done|lia|].
  apply List.Forall_forall. rewrite forallb_forall in Hf. intros v Hv'. specialize (Hf v Hv').
  unfold valid_physical_nozzle_id in Hf. rewrite !orb_true_iff, in_range_true in Hf. bprop.
  intuition lia.
Qed.

Lemma h2c_response_accepted_witness :
  let resp := MappingResponse.mk "get_auto_nozzle_mapping" "7" (Some "success"%string) None None None
                None (Some (Num (PosInt 1))) (Some [0; 16; -1]) [] in
  let r := MappingRequest.mk "get_auto_nozzle_mapping" "7" (Some 1) None None None None None None None in
  is_valid_for resp r = true /\ MappingResponse.sequence_id resp = MappingRequest.sequence_id r.
Proof.
  intros resp r. assert (is_valid_for resp r = true) as H by (vm_compute; reflexivity).
  split; [exact H|]. exact (proj1 (h2c_response_accepted resp r H)).
Defined.
