(* ===== verification/DeviceFeatures.v ===== *)
(** * pandar-core: device feature bitmaps

    [crates/pandar-core/src/device_features.rs].  A bitmap is a [u64]; it
    travels as upper-case hexadecimal text. *)

From S2P Require Import Prelude RustStr.

#[local] Open Scope Z_scope.

Inductive BambuDeviceFeaturesParseError := Empty | TooLong | InvalidHexadecimal.

#[export] Instance ParseError_eq_dec : EqDecision BambuDeviceFeaturesParseError.
Proof. solve_decision. Defined.

Inductive BambuDeviceFeature := MqttHoming | MqttAxisControl.

Module BambuDeviceFeature.
Definition bit (f : BambuDeviceFeature) : Z :=
  match f with MqttHoming => 32 | MqttAxisControl => 38 end.
End BambuDeviceFeature.

(** The wrapped [u64]. *)
Record BambuDeviceFeatures := mkFeatures { bits : Z }.

#[export] Instance BambuDeviceFeatures_eq_dec : EqDecision BambuDeviceFeatures.
Proof. solve_decision. Defined.

(** [trim_ascii] removes ASCII whitespace (without VT) from both ends. *)
Definition ascii_ws (c : ascii) : bool :=
  byte_is 9 c || byte_is 10 c || byte_is 12 c || byte_is 13 c || byte_is 32 c.
Fixpoint trim_ascii_start (s : string) : string :=
  match s with
  | String c r => if ascii_ws c then trim_ascii_start r else s
  | EmptyString => s
  end.
Definition trim_ascii (s : string) : string :=
  str_rev (trim_ascii_start (str_rev (trim_ascii_start s))).

Module BambuDeviceFeatures.
Definition from_hex (value : string)
  : result BambuDeviceFeaturesParseError BambuDeviceFeatures :=
  let value := trim_ascii value in
  if beq value EmptyString then Err Empty
  else if 16 <? Z.of_nat (String.length value) then Err TooLong
  else if negb (str_forall is_hexdigit value) then Err InvalidHexadecimal
  else match parse_unsigned 16 u64_max value with
       | Some b => Ok (mkFeatures b)
       | None => Err InvalidHexadecimal
       end.

Definition to_hex (f : BambuDeviceFeatures) : string := to_upper_hex (bits f).

Definition contains (f : BambuDeviceFeatures) (feature : BambuDeviceFeature) : bool :=
  negb (Z.land (bits f) (Z.shiftl 1 (BambuDeviceFeature.bit feature)) =? 0).
End BambuDeviceFeatures.

Inductive RequiredDeviceFeature := BambuMqttHoming | BambuMqttAxisControl.

#[export] Instance RequiredDeviceFeature_eq_dec : EqDecision RequiredDeviceFeature.
Proof. solve_decision. Defined.

Module RequiredDeviceFeature.
Definition bambu_feature (r : RequiredDeviceFeature) : BambuDeviceFeature :=
  match r with BambuMqttHoming => MqttHoming | BambuMqttAxisControl => MqttAxisControl end.

Definition as_str (r : RequiredDeviceFeature) : string :=
  match r with
  | BambuMqttHoming => "bambu_mqtt_homing"
  | BambuMqttAxisControl => "bambu_mqtt_axis_control"
  end.
End RequiredDeviceFeature.

(** ** Helper lemmas *)

(** Values of the Rust type. *)
Definition features_wf (f : BambuDeviceFeatures) : Prop := 0 <= bits f <= u64_max.

Lemma hexdigit_not_ws c : is_hexdigit c = true -> ascii_ws c = false.
Proof. destruct c as [[] [] [] [] [] [] [] []]; vm_compute; done. Qed.

Lemma hexdigit_not_plus c : is_hexdigit c = true -> byte_is 43 c = false.
Proof. destruct c as [[] [] [] [] [] [] [] []]; vm_compute; done. Qed.

Lemma trim_ascii_start_hex s : str_forall is_hexdigit s = true -> trim_ascii_start s = s.
Proof.
  destruct s as [|c r]; simpl; [done|]. intros H. bprop.
  by rewrite hexdigit_not_ws by apply H.
Qed.

Lemma str_forall_list p s :
  str_forall p s = forallb p (String.list_ascii_of_string s).
Proof. induction s as [|c s IH]; simpl; [done|]. by rewrite IH. Qed.

Lemma str_forall_rev p s : str_forall p (str_rev s) = str_forall p s.
Proof.
  rewrite !str_forall_list. unfold str_rev.
  rewrite String.list_ascii_of_string_of_list_ascii.
  apply eq_true_iff_eq. rewrite !forallb_forall.
  setoid_rewrite <- in_rev. done.
Qed.

Lemma str_rev_involutive s : str_rev (str_rev s) = s.
Proof.
  unfold str_rev. rewrite String.list_ascii_of_string_of_list_ascii, rev_involutive.
  apply String.string_of_list_ascii_of_string.
Qed.

Lemma trim_ascii_hex s : str_forall is_hexdigit s = true -> trim_ascii s = s.
Proof.
  intros H. unfold trim_ascii. rewrite (trim_ascii_start_hex s) by done.
  rewrite trim_ascii_start_hex by by rewrite str_forall_rev.
  apply str_rev_involutive.
Qed.

Lemma land_shiftl_testbit x n :
  0 <= n -> negb (Z.land x (Z.shiftl 1 n) =? 0) = Z.testbit x n.
Proof.
  intros Hn. rewrite Z.shiftl_1_l.
  destruct (Z.testbit x n) eqn:E; bprop.
  - intros H0. assert (Z.testbit (Z.land x (2 ^ n)) n = true) as Ht
      by by rewrite Z.land_spec, E, Z.pow2_bits_true.
    by rewrite H0, Z.bits_0 in Ht.
  - apply Z.bits_inj'. intros i Hi. rewrite Z.land_spec, Z.bits_0, Z.pow2_bits_eqb by lia.
    destruct (Z.eqb_spec n i) as [<-|]; [by rewrite E|by rewrite andb_false_r].
Qed.

Lemma hexdigit_digit_val c :
  is_hexdigit c = true -> exists d, digit_val 16 c = Some d /\ 0 <= d < 16.
Proof.
  intros H. unfold is_hexdigit, byte_in in H. unfold digit_val, byte_in. bprop.
  assert (0 <= byte_val c) by (unfold byte_val; lia).
  repeat case_match; bprop; simplify_eq; try (eexists; split; [done|]); lia.
Qed.

(** Hexadecimal digits always parse while the bound leaves room for them. *)
Lemma parse_hexdigits s acc max :
  0 <= acc -> str_forall is_hexdigit s = true ->
  (acc + 1) * 16 ^ Z.of_nat (String.length s) <= max + 1 ->
  exists z, parse_digits 16 max acc s = Some z.
Proof.
  revert acc. induction s as [|c s IH]; intros acc Hacc Hs Hm; [simpl; eauto|].
  cbn [str_forall] in Hs. bprop. destruct Hs as [Hc Hs].
  destruct (hexdigit_digit_val c Hc) as (d & Hd & Hdb).
  cbn [parse_digits String.length] in *. rewrite Hd. cbn zeta.
  rewrite Nat2Z.inj_succ, Z.pow_succ_r in Hm by lia.
  assert (0 < 16 ^ Z.of_nat (String.length s)) by (apply Z.pow_pos_nonneg; lia).
  rewrite (proj2 (Z.leb_le _ max)) by nia.
  apply IH; [lia|done|nia].
Qed.

Lemma hex_fuel_16_wf z :
  0 <= z <= u64_max ->
  exists c r, to_upper_hex z = String c r /\ is_hexdigit c = true
    /\ str_forall is_hexdigit (to_upper_hex z) = true
    /\ (String.length (to_upper_hex z) <= 16)%nat.
Proof.
  intros Hz. unfold to_upper_hex.
  destruct (hex_fuel_cons 16 z EmptyString ltac:(lia)) as (c & r & E).
  pose proof (hex_fuel_hexdigits 16 z EmptyString ltac:(lia)) as Hh.
  pose proof (hex_fuel_length 16 z EmptyString) as Hl.
  exists c, r. rewrite E in *. cbn [str_forall String.length] in Hh, Hl |- *.
  split; [done|]. split; [by apply andb_true_iff in Hh as [? _]|]. split; [done|lia].
Qed.

Lemma from_hex_of_digits s z :
  str_forall is_hexdigit s = true -> s <> EmptyString -> (String.length s <= 16)%nat ->
  parse_digits 16 u64_max 0 s = Some z ->
  BambuDeviceFeatures.from_hex s = Ok (mkFeatures z).
Proof.
  intros Hh Hne Hl Hp. unfold BambuDeviceFeatures.from_hex. rewrite trim_ascii_hex by done.
  cbn zeta. rewrite (proj2 (beq_false _ _)) by done.
  rewrite (proj2 (Z.ltb_ge _ _)) by lia. rewrite Hh. simpl.
  destruct s as [|c r]; [done|]. unfold parse_unsigned.
  cbn [str_forall] in Hh. bprop. by rewrite hexdigit_not_plus, Hp by apply Hh.
Qed.

(** ** Properties *)

(** The text form of a feature bitmap is lossless and canonical: printing
    any [u64] bitmap and reading it back gives the same bitmap. *)
Theorem device_features_roundtrip (f : BambuDeviceFeatures) :
  features_wf f ->
  BambuDeviceFeatures.from_hex (BambuDeviceFeatures.to_hex f) = Ok f.
Proof.
  destruct f as [z]. intros Hz. unfold features_wf in Hz. simpl in Hz.
  destruct (hex_fuel_16_wf z Hz) as (c & r & E & _ & Hh & Hl).
  apply from_hex_of_digits; unfold BambuDeviceFeatures.to_hex; simpl;
    [done|by rewrite E|done|].
  unfold to_upper_hex. rewrite (parse_hex_fuel 16 z EmptyString u64_max); [done| |lia].
  unfold u64_max in Hz. simpl. lia.
Qed.

Lemma device_features_roundtrip_witness :
  features_wf (mkFeatures 9223372316078243872)
  /\ BambuDeviceFeatures.from_hex (BambuDeviceFeatures.to_hex (mkFeatures 9223372316078243872))
     = Ok (mkFeatures 9223372316078243872).
Proof.
  assert (features_wf (mkFeatures 9223372316078243872)) as H
    by (unfold features_wf, u64_max; simpl; lia).
  split; [exact H|]. apply (device_features_roundtrip (mkFeatures 9223372316078243872) H).
Defined.

(** [from_hex] decides its grammar exactly: after trimming ASCII whitespace it
    accepts the strings of one to sixteen hexadecimal digits and no others, the
    parse never overflows a [u64], each rejection carries the matching error,
    and an accepted bitmap's [contains] is a test of the feature's bit. *)
Theorem from_hex_decides_grammar (value : string) :
  let s := trim_ascii value in
  match BambuDeviceFeatures.from_hex value with
  | Ok f => s <> EmptyString /\ (String.length s <= 16)%nat
            /\ str_forall is_hexdigit s = true /\ features_wf f
            /\ forall feature, BambuDeviceFeatures.contains f feature
                 = Z.testbit (bits f) (BambuDeviceFeature.bit feature)
  | Err Empty => s = EmptyString
  | Err TooLong => (16 < String.length s)%nat
  | Err InvalidHexadecimal => s <> EmptyString /\ (String.length s <= 16)%nat
            /\ str_forall is_hexdigit s = false
  end.
Proof.
  cbn zeta. unfold BambuDeviceFeatures.from_hex. cbn zeta.
  generalize (trim_ascii value) as s. intros s.
  destruct (beq s EmptyString) eqn:He; bprop; [done|].
  destruct (16 <? Z.of_nat (String.length s)) eqn:Hl; bprop; [lia|].
  destruct (str_forall is_hexdigit s) eqn:Hh; simpl; [|split_all; [done|lia|done]].
  destruct s as [|c r]; [done|].
  assert (byte_is 43 c = false) as Hc.
  { apply hexdigit_not_plus. cbn [str_forall] in Hh. bprop. apply Hh. }
  unfold parse_unsigned. rewrite Hc.
  destruct (parse_hexdigits (String c r) 0 u64_max) as (z & Hz); [lia|done| |].
  { rewrite Z.mul_1_l. etrans; [apply Z.pow_le_mono_r with (c := 16); lia|].
    unfold u64_max. lia. }
  rewrite Hz. split_all; [done|lia|done| |].
  - unfold features_wf. simpl. eapply parse_digits_bounds in Hz; [lia|lia|unfold u64_max; lia].
  - intros feature. apply land_shiftl_testbit. by destruct feature.
Qed.
