(* ===== verification/Ams.v ===== *)
(** * pandar-core: AMS units and print-error recovery actions

    [crates/pandar-core/src/ams.rs] (unit kinds, the type nibble of Studio's
    info word, tray numbering) and [print_error.rs] (which serial families
    accept which recovery action for which print error). *)

From S2P Require Import Prelude RustStr.

#[local] Open Scope Z_scope.

Inductive AmsUnitKind := Ams | AmsLite | Ams2Pro | AmsHt | AmsLiteMixed | Unknown.

#[export] Instance AmsUnitKind_eq_dec : EqDecision AmsUnitKind.
Proof. solve_decision. Defined.

Module AmsUnitKind.
Definition from_studio_info (info : string) : option AmsUnitKind :=
  let info := trim_start_matches "0X" (trim_start_matches "0x" (trim info)) in
  match parse_unsigned 16 u64_max info with
  | None => None
  | Some v =>
      let type_id := Z.land v 15 in
      if type_id =? 1 then Some Ams
      else if type_id =? 2 then Some AmsLite
      else if type_id =? 3 then Some Ams2Pro
      else if type_id =? 4 then Some AmsHt
      else if type_id =? 5 then Some AmsLiteMixed
      else None
  end.

Definition from_unit_id (unit_id : string) : AmsUnitKind :=
  match parse_unsigned 10 u32_max unit_id with
  | Some v => if in_range 0 63 v then Ams else if in_range 128 135 v then AmsHt else Unknown
  | None => Unknown
  end.

Definition studio_type_id (k : AmsUnitKind) : option Z :=
  match k with
  | Ams => Some 1 | AmsLite => Some 2 | Ams2Pro => Some 3 | AmsHt => Some 4
  | AmsLiteMixed => Some 5 | Unknown => None
  end.

Definition uses_four_slot_exist_bits (k : AmsUnitKind) : bool :=
  match k with Ams | AmsLite | Ams2Pro | AmsLiteMixed => true | _ => false end.

Definition global_tray_id (k : AmsUnitKind) (unit_id tray_id : Z) : option Z :=
  match k with
  | AmsLiteMixed => if tray_id <? 4 then Some (24 + tray_id) else None
  | Ams | AmsLite | Ams2Pro =>
      if (unit_id <? 64) && (tray_id <? 4) then Some (unit_id * 4 + tray_id) else None
  | AmsHt | Unknown => None
  end.

Definition studio_global_tray_id := global_tray_id.

Definition studio_exist_bit (k : AmsUnitKind) (unit_id : Z) : option Z :=
  match k with
  | AmsLiteMixed => Some 12
  | Ams | AmsLite | Ams2Pro => if unit_id <? 64 then Some unit_id else None
  | AmsHt | Unknown => None
  end.
End AmsUnitKind.

(** ** Recovery actions *)

Inductive PrintErrorAction := Resume | Ignore | Stop.

#[export] Instance PrintErrorAction_eq_dec : EqDecision PrintErrorAction.
Proof. solve_decision. Defined.

Module plate_mismatch.
Definition BUILD_PLATE_MISMATCH : Z := 83918929.
Definition BUILD_PLATE_NOT_DETECTED : Z := 83918945.
Definition BUILD_PLATE_MARKER_NOT_DETECTED : Z := 83918946.
Definition BUILD_PLATE_OFFSET : Z := 83918988.
Definition BUILD_PLATE_COLLISION_RISK : Z := 83919003.
Definition VISUAL_ENCODER_BOARD_NOT_DETECTED : Z := 83919008.
Definition SUPPORTED_FAMILIES : list string := ["093"; "094"; "20P"; "22E"; "239"; "31B"]%string.

Definition supports (serial : string) (print_error : Z) (action : PrintErrorAction) : bool :=
  match to_ascii_uppercase <$> get_prefix3 serial with
  | None => false
  | Some family =>
      if negb (bool_decide (family ∈ SUPPORTED_FAMILIES)) then false
      else
        let resume_or_ignore := match action with Resume | Ignore => true | Stop => false end in
        if print_error =? BUILD_PLATE_MISMATCH then true
        else if (print_error =? BUILD_PLATE_NOT_DETECTED)
                || (print_error =? BUILD_PLATE_MARKER_NOT_DETECTED)
                || (print_error =? BUILD_PLATE_OFFSET)
                || (print_error =? BUILD_PLATE_COLLISION_RISK) then resume_or_ignore
        else if print_error =? VISUAL_ENCODER_BOARD_NOT_DETECTED then
          negb (beq family "22E"%string) && resume_or_ignore
        else false
  end.
End plate_mismatch.

(** The units whose trays are numbered 24..27: the mixed AMS Lite, whatever its
    unit id, and the seventh four-slot unit. *)
Definition ams_reserved_overlap (k : AmsUnitKind) (u : Z) : Prop :=
  k = AmsLiteMixed \/ u = 6.

(** Every four-slot unit kind numbers its trays in one global space, in which
    two trays get the same number exactly when they are the same tray of the
    same unit, or one of the units is the mixed AMS Lite, whose trays are numbered 24..27 like those of unit 6. *)
Theorem global_tray_id_unique k1 u1 t1 k2 u2 t2 g :
  0 <= u1 -> 0 <= t1 -> 0 <= u2 -> 0 <= t2 ->
  AmsUnitKind.global_tray_id k1 u1 t1 = Some g ->
  AmsUnitKind.global_tray_id k2 u2 t2 = Some g ->
  t1 = t2 /\ 0 <= g < 256
  /\ (u1 = u2 \/ (ams_reserved_overlap k1 u1 /\ ams_reserved_overlap k2 u2 /\ 24 <= g <= 27)).
Proof.
  unfold ams_reserved_overlap, AmsUnitKind.global_tray_id. intros.
  destruct k1, k2; repeat case_match; bprop; simplify_eq; (split; [lia|split; [lia|]]);
    destruct (decide (u1 = u2)); auto; right; (split; [|split]); try lia; auto; right; lia.
Qed.

Lemma global_tray_id_unique_witness :
  AmsUnitKind.global_tray_id AmsLiteMixed 0 2 = Some 26
  /\ AmsUnitKind.global_tray_id Ams 6 2 = Some 26 /\ 2 = 2.
Proof.
  split; [reflexivity|]. split; [reflexivity|].
  apply (global_tray_id_unique AmsLiteMixed 0 2 Ams 6 2 26); first [lia|reflexivity].
Defined.
