(* ===== verification/Compatibility.v ===== *)
(** * pandar-core: the printer model catalog

    [crates/pandar-core/src/compatibility.rs]: normalising a model name and the
    per-model capability tables derived from it. *)

From S2P Require Import Prelude RustStr CoreTypes.

#[local] Open Scope Z_scope.

Inductive Capability := Supported | Unsupported | Unknown.
Inductive NozzleLayout := Single | MainAuxiliary | LeftRight | UnknownLayout.

#[export] Instance Capability_eq_dec : EqDecision Capability.
Proof. solve_decision. Defined.
#[export] Instance NozzleLayout_eq_dec : EqDecision NozzleLayout.
Proof. solve_decision. Defined.

Record CompatibilityFeatures := mkCompatFeatures {
  chamber_temperature : Capability;
  drying : Capability;
  dual_nozzle : Capability;
  flow_calibration : Capability;
  vibration_calibration : Capability;
  nozzle_offset_calibration : Capability;
  live_controls : Capability;
}.

Record CalibrationOption := mkCalibrationOption {
  modes : list PrintCalibrationMode.t;
  default_mode : PrintCalibrationMode.t;
}.

Record PrintOptionCapabilities := mkPrintOptions {
  timelapse : bool;
  bed_leveling : option CalibrationOption;
  flow_calibration_option : option CalibrationOption;
  nozzle_offset_calibration_option : option CalibrationOption;
}.

Record DiagnosticCompatibility := mkDiagnostic {
  normalized_model : option string;
  external_storage : Capability;
  ftps_tls_1_2_cap : bool;
  features : CompatibilityFeatures;
  print_options : PrintOptionCapabilities;
  chamber_fan : Capability;
  nozzle_layout : NozzleLayout;
}.

Module PrintOptionCapabilities.
Definition unknown : PrintOptionCapabilities := mkPrintOptions false None None None.
End PrintOptionCapabilities.

Module CompatibilityFeatures.
Definition unknown : CompatibilityFeatures :=
  mkCompatFeatures Unknown Unknown Unknown Unknown Unknown Unknown Unknown.
End CompatibilityFeatures.

(** A model name among the literals of a match arm. *)
Definition one_of (model : option string) (names : list string) : bool :=
  match model with Some m => bool_decide (m ∈ names) | None => false end.

Definition on_off : CalibrationOption :=
  mkCalibrationOption [PrintCalibrationMode.On; PrintCalibrationMode.Off] PrintCalibrationMode.On.
Definition auto_on_off (default_mode : PrintCalibrationMode.t) : CalibrationOption :=
  mkCalibrationOption
    [PrintCalibrationMode.Auto; PrintCalibrationMode.On; PrintCalibrationMode.Off] default_mode.

Definition print_options_for_model (model : option string) : PrintOptionCapabilities :=
  if one_of model ["X2D"] then
    mkPrintOptions true (Some (auto_on_off PrintCalibrationMode.Auto))
      (Some (auto_on_off PrintCalibrationMode.Auto)) (Some (auto_on_off PrintCalibrationMode.Off))
  else if one_of model ["P2S"; "H2S"; "A2L"] then
    mkPrintOptions true (Some (auto_on_off PrintCalibrationMode.Auto))
      (Some (auto_on_off PrintCalibrationMode.Auto)) None
  else if one_of model ["A1"; "A1_MINI"; "X1"; "X1C"; "X1E"] then
    mkPrintOptions true (Some on_off) (Some on_off) None
  else if one_of model ["P1P"; "P1S"] then
    mkPrintOptions true (Some on_off) None None
  else if one_of model ["H2C"; "H2D"; "H2D_PRO"] then
    mkPrintOptions true (Some (auto_on_off PrintCalibrationMode.Auto))
      (Some (auto_on_off PrintCalibrationMode.Auto)) (Some (auto_on_off PrintCalibrationMode.Auto))
  else PrintOptionCapabilities.unknown.

Definition dual_nozzle_capability (model : option string) : Capability :=
  if one_of model ["X2D"; "H2C"; "H2D"; "H2D_PRO"] then Supported
  else if one_of model ["A1"; "A1_MINI"; "A2L"; "X1"; "X1C"; "X1E"; "P1P"; "P1S"; "P2S"; "H2S"]
  then Unsupported
  else Unknown.

Definition chamber_fan_capability (model : option string) : Capability :=
  if one_of model ["A1"; "A1_MINI"; "A2L"; "P1P"] then Unsupported
  else if one_of model ["X1"; "X1C"; "X1E"; "P1S"; "P2S"; "X2D"; "H2C"; "H2D"; "H2D_PRO"; "H2S"]
  then Supported
  else Unknown.

Definition nozzle_layout_for (model : option string) : NozzleLayout :=
  if one_of model ["X2D"] then MainAuxiliary
  else if one_of model ["H2C"; "H2D"; "H2D_PRO"] then LeftRight
  else if one_of model ["A1"; "A1_MINI"; "A2L"; "X1"; "X1C"; "X1E"; "P1P"; "P1S"; "P2S"; "H2S"]
  then Single
  else UnknownLayout.

(** [diagnostic] overwrites [dual_nozzle] from the catalog. *)
Definition diagnostic (model : option string) (external_storage : Capability) (tls_cap : bool)
    (f : CompatibilityFeatures) : DiagnosticCompatibility :=
  let f := mkCompatFeatures (chamber_temperature f) (drying f) (dual_nozzle_capability model)
             (flow_calibration f) (vibration_calibration f) (nozzle_offset_calibration f)
             (live_controls f) in
  mkDiagnostic model external_storage tls_cap f (print_options_for_model model)
    (chamber_fan_capability model) (nozzle_layout_for model).

(** ['-'], ['_'] and the space. *)
Definition separator (c : ascii) : bool := byte_is 32 c || byte_is 45 c || byte_is 95 c.

Definition normalize_model (model : string) : option string :=
  let compact := remove_chars separator (to_ascii_uppercase (trim model)) in
  if beq compact EmptyString then None
  else
    let compact := default compact (strip_prefix "BAMBULAB" compact) in
    let any l := bool_decide (compact ∈ l) in
    Some
      (if any ["N1"] then "A1_MINI"
       else if any ["N2S"] then "A1"
       else if any ["N7"] then "P2S"
       else if any ["N6"] then "X2D"
       else if any ["BLP001"] then "X1C"
       else if any ["BLP002"] then "X1"
       else if any ["C13"] then "X1E"
       else if any ["C11"] then "P1P"
       else if any ["C12"] then "P1S"
       else if any ["N9"] then "A2L"
       else if any ["O1C"; "O1C2"] then "H2C"
       else if any ["O1D"] then "H2D"
       else if any ["O1E"] then "H2D_PRO"
       else if any ["O1S"] then "H2S"
       else if any ["X1"; "3DPRINTERX1"] then "X1"
       else if any ["X1E"] then "X1E"
       else if any ["X1CARBON"; "3DPRINTERX1CARBON"] then "X1C"
       else if any ["A1MINI"; "A1M"; "A1MIN"] then "A1_MINI"
       else if any ["A1"] then "A1"
       else if any ["P1P"; "P1S"; "A2L"; "H2C"; "H2D"; "H2S"] then compact
       else if any ["H2DPRO"] then "H2D_PRO"
       else if any ["P2S"] then "P2S"
       else if any ["X2D"] then "X2D"
       else compact)%string.

Definition compatibility_for_model (model : option string) : DiagnosticCompatibility :=
  match (m ← model; normalize_model m) with
  | None => diagnostic None Unknown false CompatibilityFeatures.unknown
  | Some key =>
      let any l := bool_decide (key ∈ l) in
      let u := Unknown in
      if any ["A1"; "A1_MINI"]%string then
        diagnostic (Some key) Unsupported false
          (mkCompatFeatures u u Unsupported Supported u u Supported)
      else if any ["X1C"; "A2L"]%string then
        diagnostic (Some key) u false (mkCompatFeatures u u u Supported u u Supported)
      else if any ["X1"; "X1E"]%string then
        diagnostic (Some key) u false (mkCompatFeatures u u u Supported u u u)
      else if any ["P1S"]%string then
        diagnostic (Some key) u false (mkCompatFeatures u u u Unsupported u u Supported)
      else if any ["P1P"]%string then
        diagnostic (Some key) u false (mkCompatFeatures u u u Unsupported u u u)
      else if any ["P2S"; "H2S"]%string then
        diagnostic (Some key) u (beq key "P2S"%string)
          (mkCompatFeatures u u u Supported u Unsupported Supported)
      else if any ["X2D"; "H2C"; "H2D"; "H2D_PRO"]%string then
        diagnostic (Some key) u (beq key "X2D"%string)
          (mkCompatFeatures u u u Supported u Supported Supported)
      else diagnostic (Some key) u false CompatibilityFeatures.unknown
  end.

Definition flow_calibration_supported (model : option string) : bool :=
  beq (flow_calibration (features (compatibility_for_model model))) Supported.

Definition auto_flow_calibration_supported (model : option string) : bool :=
  one_of (m ← model; normalize_model m) ["P2S"; "X2D"; "A2L"; "H2C"; "H2D"; "H2D_PRO"; "H2S"].

Definition auto_bed_leveling_supported (model : option string) : bool :=
  one_of (m ← model; normalize_model m) ["P2S"; "X2D"; "A2L"; "H2C"; "H2D"; "H2D_PRO"; "H2S"].

Definition nozzle_offset_calibration_supported (model : option string) : bool :=
  beq (nozzle_offset_calibration (features (compatibility_for_model model))) Supported.

Definition live_controls_supported (model : option string) : bool :=
  beq (live_controls (features (compatibility_for_model model))) Supported.

Definition ftps_tls_1_2_capped (model : option string) : bool :=
  ftps_tls_1_2_cap (compatibility_for_model model).

Definition studio_local_camera_supported (model : option string) : bool :=
  one_of (m ← model; normalize_model m) ["A1"; "A1_MINI"; "P1S"; "A2L"].

(** ** Helper lemmas *)

(** The fourteen models the catalog has entries for. *)
Definition catalog_models : list string :=
  ["A1"; "A1_MINI"; "A2L"; "X1"; "X1C"; "X1E"; "P1P"; "P1S"; "P2S"; "X2D";
   "H2C"; "H2D"; "H2D_PRO"; "H2S"]%string.

(** A table entry for a name outside the catalog falls through every arm. *)
Lemma not_in_sublist (key : string) (l : list string) :
  key ∉ catalog_models -> forallb (fun m => bool_decide (m ∈ catalog_models)) l = true ->
  bool_decide (key ∈ l) = false.
Proof.
  intros Hk Hl. apply bool_decide_eq_false. intros Hin. apply Hk.
  rewrite forallb_forall in Hl. apply list_elem_of_In in Hin.
  apply Hl in Hin. by apply bool_decide_eq_true in Hin.
Qed.

(** Case analysis of a model key: one of the catalog's names, or none. *)
Lemma catalog_cases (P : string -> Prop) :
  Forall P catalog_models ->
  (forall key, (forall l, forallb (fun m => bool_decide (m ∈ catalog_models)) l = true ->
                     bool_decide (key ∈ l) = false) -> P key) ->
  forall key, P key.
Proof.
  intros Hin Hout key. destruct (decide (key ∈ catalog_models)) as [Hk|Hk].
  - by eapply Forall_forall in Hin.
  - apply Hout. intros l. by apply not_in_sublist.
Qed.

Definition option_modes (o : option CalibrationOption) : list PrintCalibrationMode.t :=
  default [] (modes <$> o).
Definition default_allowed (o : option CalibrationOption) : bool :=
  match o with Some c => bool_decide (default_mode c ∈ modes c) | None => true end.

(** What the catalog's tables promise about each other for one model. *)
Definition catalog_consistent (model : option string) : bool :=
  let d := compatibility_for_model model in
  let po := print_options d in
  beq (flow_calibration_supported model) (is_some (flow_calibration_option po))
  && beq (auto_flow_calibration_supported model)
         (bool_decide (PrintCalibrationMode.Auto ∈ option_modes (flow_calibration_option po)))
  && beq (auto_bed_leveling_supported model)
         (bool_decide (PrintCalibrationMode.Auto ∈ option_modes (bed_leveling po)))
  && beq (nozzle_offset_calibration_supported model)
         (is_some (nozzle_offset_calibration_option po))
  && beq (beq (dual_nozzle (features d)) Supported)
         (bool_decide (nozzle_layout d = MainAuxiliary \/ nozzle_layout d = LeftRight))
  && beq (is_some (bed_leveling po)) (timelapse po)
  && default_allowed (bed_leveling po)
  && default_allowed (flow_calibration_option po)
  && default_allowed (nozzle_offset_calibration_option po)
  && (negb (studio_local_camera_supported model) || live_controls_supported model).

(** ** Properties *)

(** The catalog's tables agree with each other for every model text: the
    boolean support queries used when a print is dispatched say exactly what
    the advertised print options offer, dual nozzles are reported exactly for
    the two-nozzle layouts, every advertised default mode is one of the offered
    modes, and a local camera implies live controls. *)
Theorem catalog_tables_agree (model : option string) : catalog_consistent model = true.
Proof.
  unfold catalog_consistent, flow_calibration_supported, auto_flow_calibration_supported,
    auto_bed_leveling_supported, nozzle_offset_calibration_supported,
    studio_local_camera_supported, live_controls_supported, compatibility_for_model.
  destruct (m ← model; normalize_model m) as [key|]; [|reflexivity].
  revert key. apply catalog_cases.
  - repeat constructor.
  - intros key Hk. unfold diagnostic, print_options_for_model, dual_nozzle_capability,
      chamber_fan_capability, nozzle_layout_for, one_of.
    rewrite !Hk by reflexivity. reflexivity.
Qed.

(** A printer model is recognised whatever the case it is written in, and a
    recognised name is a fixed point of the normalisation: looking up the
    capabilities by the stored normalised name gives the entry that the
    printer's own text gave. *)
Theorem normalize_model_stable (model : string) :
  normalize_model (to_ascii_lowercase model) = normalize_model model
  /\ forall key, normalize_model model = Some key -> key ∈ catalog_models ->
       normalize_model key = Some key
       /\ compatibility_for_model (Some key) = compatibility_for_model (Some model).
Proof.
  split.
  - unfold normalize_model. by rewrite trim_lower, upper_lower.
  - intros key Hn Hk.
    assert (normalize_model key = Some key) as Hkey.
    { clear Hn. revert key Hk. apply Forall_forall. repeat constructor. }
    split; [done|]. unfold compatibility_for_model. simpl. by rewrite Hn, Hkey.
Qed.
