(* ===== verification/CoreRecords.v ===== *)
(** * pandar-core: the records the hub stores and serves

    The structs of [tenant.rs], [agent.rs], [printer.rs], [command.rs],
    [job.rs], [studio_print.rs], [cooling.rs], [print_transfer.rs] and
    [firmware.rs], each with its checked constructor [from_parts].  Parsing the
    Studio metadata text is [serde_json] and a parameter; identifiers drawn at
    random and the clock are arguments of the [new] constructors. *)

From S2P Require Import Prelude RustStr RustFloat CoreTypes Json H2c DeviceFeatures.

#[local] Open Scope Z_scope.
#[local] Open Scope rust_scope.

(** ** Tenants and agents *)

Module Tenant.
Record t := mk { id : TenantId; slug : string; display_name : string; created_at : string }.

Definition from_parts (id : TenantId) (slug display_name created_at : string)
  : result CoreError t :=
  if blank slug then Err EmptyTenantSlug
  else if blank display_name then Err EmptyTenantDisplayName
  else Ok (mk id slug display_name created_at).

Definition new (fresh : TenantId) (now : string) (slug display_name : string)
  : result CoreError t :=
  if blank slug then Err EmptyTenantSlug
  else if blank display_name then Err EmptyTenantDisplayName
  else from_parts fresh slug display_name now.
End Tenant.

Module Agent.
Record t := mk {
  id : AgentId; tenant_id : TenantId; name : string; status : AgentStatus.t; created_at : string }.

Definition from_parts (id : AgentId) (tenant_id : TenantId) (name : string)
    (status : AgentStatus.t) (created_at : string) : result CoreError t :=
  if blank name then Err EmptyAgentName
  else Ok (mk id tenant_id name status created_at).

Definition new (fresh : AgentId) (now : string) (tenant_id : TenantId) (name : string)
  : result CoreError t :=
  from_parts fresh tenant_id name AgentStatus.Offline now.
End Agent.

(** ** Cooling and transfer data *)

Inductive PrinterCoolingMode := Cooling | Heating | Exhaust | FullCooling.

Inductive PrinterCoolingFanKind :=
| Hotend | PartCooling | Auxiliary | Chamber | HotendSecond | Controller | InnerLoop
| AuxiliarySecond.

Record PrinterCoolingFan := mkFan { fan_kind : PrinterCoolingFanKind; speed_percent : Z }.

Record PrinterCoolingSystem := mkCooling {
  cooling_mode : option PrinterCoolingMode; cooling_fans : list PrinterCoolingFan }.

#[export] Instance PrinterCoolingMode_eq_dec : EqDecision PrinterCoolingMode.
Proof. solve_decision. Defined.
#[export] Instance PrinterCoolingFanKind_eq_dec : EqDecision PrinterCoolingFanKind.
Proof. solve_decision. Defined.
#[export] Instance PrinterCoolingFan_eq_dec : EqDecision PrinterCoolingFan.
Proof. solve_decision. Defined.
#[export] Instance PrinterCoolingSystem_eq_dec : EqDecision PrinterCoolingSystem.
Proof. solve_decision. Defined.

Module PrintTransferPhase.
Inductive t := Connect | Login | Protection | DataConnection | Write | Finalize | Verify | Timeout.

Definition fmt (p : t) : string :=
  match p with
  | Connect => "FTPS connect phase" | Login => "FTPS login phase"
  | Protection => "FTPS protection phase" | DataConnection => "FTPS data connection phase"
  | Write => "FTPS write phase" | Finalize => "FTPS finalize phase"
  | Verify => "FTPS verify phase" | Timeout => "FTPS timeout phase"
  end.
End PrintTransferPhase.

Record PrintTransferFailure := mkTransferFailure {
  phase : PrintTransferPhase.t; cause : string }.

(** ** Printers *)

Module NozzleTemperature.
Record t := mk {
  label : option string; current_celsius : option string; target_celsius : option string;
  diameter_mm : option string; nozzle_type : option string;
  snow : option Z; hnow : option Z }.
End NozzleTemperature.

#[export] Instance NozzleTemperature_eq_dec : EqDecision NozzleTemperature.t.
Proof. solve_decision. Defined.

Module PrinterParts.
Record t := mk {
  id : string; tenant_id : TenantId; agent_id : AgentId; serial_number : string;
  host : option string; access_code : option string; name : string; model : option string;
  status : string; last_seen_at : string; created_at : string;
  nozzle_temperatures : list NozzleTemperature.t; active_nozzle : option string;
  bed_temperature_celsius : option string; bed_target_temperature_celsius : option string;
  chamber_temperature_celsius : option string;
  chamber_target_temperature_celsius : option string; chamber_light_on : option bool;
  cooling_system : option PrinterCoolingSystem;
  bambu_device_features : option BambuDeviceFeatures;
  bambu_device_features_session_id : option string;
  bambu_device_features2 : option BambuDeviceFeatures;
  bambu_device_features2_session_id : option string;
  bambu_nozzle_system : option BambuNozzleSystem.t;
  bambu_nozzle_system_session_id : option string;
  mqtt_presence_session_id : option string }.
End PrinterParts.

Module Printer.
Record t := mk {
  id : string; tenant_id : TenantId; agent_id : AgentId; serial_number : string;
  host : option string; access_code : option string; name : string; model : option string;
  status : string; last_seen_at : string; created_at : string;
  nozzle_temperatures : list NozzleTemperature.t; active_nozzle : option string;
  bed_temperature_celsius : option string; bed_target_temperature_celsius : option string;
  chamber_temperature_celsius : option string;
  chamber_target_temperature_celsius : option string; chamber_light_on : option bool;
  cooling_system : option PrinterCoolingSystem;
  bambu_device_features : option BambuDeviceFeatures;
  bambu_device_features_session_id : option string;
  bambu_device_features2 : option BambuDeviceFeatures;
  bambu_device_features2_session_id : option string;
  bambu_nozzle_system : option BambuNozzleSystem.t;
  bambu_nozzle_system_session_id : option string;
  mqtt_presence_session_id : option string }.

Definition from_parts (p : PrinterParts.t) : result CoreError t :=
  required (PrinterParts.id p) EmptyPrinterId ?;;
  required (PrinterParts.serial_number p) EmptyPrinterSerialNumber ?;;
  required (PrinterParts.name p) EmptyPrinterName ?;;
  required (PrinterParts.status p) EmptyPrinterStatus ?;;
  Ok {| id := PrinterParts.id p; tenant_id := PrinterParts.tenant_id p;
        agent_id := PrinterParts.agent_id p; serial_number := PrinterParts.serial_number p;
        host := non_blank (PrinterParts.host p);
        access_code := non_blank (PrinterParts.access_code p);
        name := PrinterParts.name p; model := non_blank (PrinterParts.model p);
        status := PrinterParts.status p; last_seen_at := PrinterParts.last_seen_at p;
        created_at := PrinterParts.created_at p;
        nozzle_temperatures := PrinterParts.nozzle_temperatures p;
        active_nozzle := non_blank (PrinterParts.active_nozzle p);
        bed_temperature_celsius := PrinterParts.bed_temperature_celsius p;
        bed_target_temperature_celsius := PrinterParts.bed_target_temperature_celsius p;
        chamber_temperature_celsius := PrinterParts.chamber_temperature_celsius p;
        chamber_target_temperature_celsius := PrinterParts.chamber_target_temperature_celsius p;
        chamber_light_on := PrinterParts.chamber_light_on p;
        cooling_system := PrinterParts.cooling_system p;
        bambu_device_features := PrinterParts.bambu_device_features p;
        bambu_device_features_session_id := PrinterParts.bambu_device_features_session_id p;
        bambu_device_features2 := PrinterParts.bambu_device_features2 p;
        bambu_device_features2_session_id := PrinterParts.bambu_device_features2_session_id p;
        bambu_nozzle_system := PrinterParts.bambu_nozzle_system p;
        bambu_nozzle_system_session_id := PrinterParts.bambu_nozzle_system_session_id p;
        mqtt_presence_session_id := PrinterParts.mqtt_presence_session_id p |}.
End Printer.

(** ** Commands *)

Module CommandRecordParts.
Record t := mk {
  id : CommandId; tenant_id : TenantId; agent_id : AgentId; printer_id : option string;
  kind : string; status : string; payload_json : string; result_json : option string;
  error : option string; created_at : string; updated_at : string }.
End CommandRecordParts.

Module CommandRecord.
Record t := mk {
  id : CommandId; tenant_id : TenantId; agent_id : AgentId; printer_id : option string;
  kind : string; status : CommandStatus.t; payload_json : string; result_json : option string;
  error : option string; created_at : string; updated_at : string }.

Definition from_parts (p : CommandRecordParts.t) : result CoreError t :=
  if blank (CommandRecordParts.kind p) then Err EmptyCommandKind
  else
    status <-? CommandStatus.from_str (CommandRecordParts.status p) ;;
    Ok {| id := CommandRecordParts.id p; tenant_id := CommandRecordParts.tenant_id p;
          agent_id := CommandRecordParts.agent_id p;
          printer_id := CommandRecordParts.printer_id p;
          kind := CommandRecordParts.kind p; status := status;
          payload_json := CommandRecordParts.payload_json p;
          result_json := CommandRecordParts.result_json p;
          error := CommandRecordParts.error p;
          created_at := CommandRecordParts.created_at p;
          updated_at := CommandRecordParts.updated_at p |}.
End CommandRecord.

(** ** Studio print metadata ([studio_print.rs]) *)

Record StudioAmsMappingEntry := mkAmsEntry { entry_ams_id : Z; entry_slot_id : Z }.

Record StudioAmsMappingInfo := mkAmsInfo {
  info_ams : Z; target_color : string; info_filament_id : string; info_filament_type : string;
  nozzle_id : option Z; source_color : option string }.

Record StudioNozzleInfo := mkNozzleInfo {
  nozzle_info_id : Z; studio_nozzle_type : option string; flow_size : option string;
  diameter : option StudioFiniteF64.t }.

Module StudioPrintMetadataV1.
Record t := mk {
  task_name : string; project_name : string; preset_name : string;
  config_plate_index : option Z; nozzle_mapping : list Z; ams_mapping : list Z;
  ams_mapping2 : list StudioAmsMappingEntry; ams_mapping_info : list StudioAmsMappingInfo;
  nozzles_info : list StudioNozzleInfo; connection_type : string; comments : string;
  origin_profile_id : Z; stl_design_id : Z; origin_model_id : string; print_type : string;
  submitted_device_name : string; task_bed_leveling : bool; task_flow_cali : bool;
  task_vibration_cali : bool; task_layer_inspect : bool; task_record_timelapse : bool;
  task_timelapse_use_internal : bool; task_use_ams : bool; task_bed_type : string;
  auto_bed_leveling : PrintCalibrationMode.t; auto_flow_cali : PrintCalibrationMode.t;
  auto_offset_cali : PrintCalibrationMode.t; extruder_cali_manual_mode : Z;
  try_emmc_print : bool; svc_context : string; slicer_uid : string }.
End StudioPrintMetadataV1.

Inductive StudioPrintMetadata := V1 (metadata : StudioPrintMetadataV1.t).

Definition nozzle_mapping (m : StudioPrintMetadata) : list Z :=
  match m with V1 metadata => StudioPrintMetadataV1.nozzle_mapping metadata end.

(** ** Jobs *)

Module JobArtifactParts.
Record t := mk {
  id : string; tenant_id : TenantId; filename : string; content_type : string;
  size_bytes : Z; storage_path : string; metadata_json : option string; created_at : string }.
End JobArtifactParts.

Module JobArtifact.
Record t := mk {
  id : string; tenant_id : TenantId; filename : string; content_type : string;
  size_bytes : Z; storage_path : string; metadata_json : option string; created_at : string }.

Definition from_parts (p : JobArtifactParts.t) : result CoreError t :=
  required (JobArtifactParts.id p) EmptyArtifactId ?;;
  required (JobArtifactParts.filename p) EmptyArtifactFilename ?;;
  required (JobArtifactParts.content_type p) EmptyArtifactContentType ?;;
  required (JobArtifactParts.storage_path p) EmptyArtifactStoragePath ?;;
  if JobArtifactParts.size_bytes p =? 0 then Err EmptyArtifactBody
  else Ok {| id := JobArtifactParts.id p; tenant_id := JobArtifactParts.tenant_id p;
             filename := JobArtifactParts.filename p;
             content_type := JobArtifactParts.content_type p;
             size_bytes := JobArtifactParts.size_bytes p;
             storage_path := JobArtifactParts.storage_path p;
             metadata_json := JobArtifactParts.metadata_json p;
             created_at := JobArtifactParts.created_at p |}.
End JobArtifact.

Module JobPrintState.
Record t := mk {
  status : PrintStatus.t; printer_state : option string; progress_percent : option Z;
  remaining_time_minutes : option Z; current_layer : option Z; total_layers : option Z;
  active_file : option string; last_progress_percent : option Z; last_layer : option Z;
  error : option string; started_at : option string; finished_at : option string;
  updated_at : option string }.

Definition pending : t :=
  mk PrintStatus.Pending None None None None None None None None None None None None.
End JobPrintState.

Module JobFilamentUsage.
Record t := mk {
  id : string; tenant_id : TenantId; job_id : JobId; slot_index : Z; source : string;
  ams_id : option string; tray_id : option string; global_tray_id : option Z;
  external_id : option string; filament_id : option string; setting_id : option string;
  filament_type : option string; color : option string; used_mm : option string;
  used_grams : option string; confidence : string; created_at : string }.
End JobFilamentUsage.

Module JobParts.
Record t := mk {
  id : JobId; tenant_id : TenantId; printer_id : string; agent_id : AgentId;
  artifact_id : string; command_id : CommandId; studio_submission_id : Z; plate_index : Z;
  studio_metadata_json : option string; status : string; error : option string;
  print_status : string; printer_state : option string; progress_percent : option Z;
  remaining_time_minutes : option Z; current_layer : option Z; total_layers : option Z;
  active_file : option string; last_progress_percent : option Z; last_layer : option Z;
  print_error : option string; print_started_at : option string;
  print_finished_at : option string; print_updated_at : option string;
  ams_mapping_json : option string; ams_mapping2_json : option string;
  ams_mapping_info_json : option string; uploaded_url : option string;
  filament_usage : list JobFilamentUsage.t; created_at : string; updated_at : string }.
End JobParts.

Module Job.
Record t := mk {
  id : JobId; tenant_id : TenantId; printer_id : string; agent_id : AgentId;
  artifact_id : string; command_id : CommandId; studio_submission_id : StudioSubmissionId.t;
  plate_index : Z; studio_metadata : option StudioPrintMetadata; status : JobStatus.t;
  error : option string; print : JobPrintState.t; ams_mapping_json : option string;
  ams_mapping2_json : option string; ams_mapping_info_json : option string;
  uploaded_url : option string; filament_usage : list JobFilamentUsage.t;
  created_at : string; updated_at : string }.

(** [parse_metadata] is [serde_json::from_str] at [StudioPrintMetadata]; its
    error is the message. *)
Definition from_parts (parse_metadata : string -> result string StudioPrintMetadata)
    (p : JobParts.t) : result CoreError t :=
  required (JobParts.printer_id p) EmptyJobPrinterId ?;;
  required (JobParts.artifact_id p) EmptyJobArtifactId ?;;
  submission <-? StudioSubmissionId.try_from (JobParts.studio_submission_id p) ;;
  metadata <-? r_transpose
    (option_map (fun value => map_err InvalidStudioPrintMetadata (parse_metadata value))
       (JobParts.studio_metadata_json p)) ;;
  status <-? JobStatus.from_str (JobParts.status p) ;;
  print_status <-? PrintStatus.from_str (JobParts.print_status p) ;;
  Ok {| id := JobParts.id p; tenant_id := JobParts.tenant_id p;
        printer_id := JobParts.printer_id p; agent_id := JobParts.agent_id p;
        artifact_id := JobParts.artifact_id p; command_id := JobParts.command_id p;
        studio_submission_id := submission; plate_index := JobParts.plate_index p;
        studio_metadata := metadata; status := status; error := JobParts.error p;
        print := JobPrintState.mk print_status (JobParts.printer_state p)
          (JobParts.progress_percent p) (JobParts.remaining_time_minutes p)
          (JobParts.current_layer p) (JobParts.total_layers p) (JobParts.active_file p)
          (JobParts.last_progress_percent p) (JobParts.last_layer p) (JobParts.print_error p)
          (JobParts.print_started_at p) (JobParts.print_finished_at p)
          (JobParts.print_updated_at p);
        ams_mapping_json := JobParts.ams_mapping_json p;
        ams_mapping2_json := JobParts.ams_mapping2_json p;
        ams_mapping_info_json := JobParts.ams_mapping_info_json p;
        uploaded_url := JobParts.uploaded_url p;
        filament_usage := JobParts.filament_usage p;
        created_at := JobParts.created_at p; updated_at := JobParts.updated_at p |}.
End Job.

#[export] Instance JobPrintState_eq_dec : EqDecision JobPrintState.t.
Proof. solve_decision. Defined.

(** ** Firmware data ([firmware.rs]) *)

Module PrinterFirmwareModule.
Record t := mk {
  name : string; software_version : option string; software_new_version : option string;
  new_version : option string; visible : option bool; product_name : option string;
  serial_number : option string; hardware_version : option string; firmware_flag : option Z }.
End PrinterFirmwareModule.

Record PrinterFirmwareVersion := mkFirmwareVersion {
  version_name : string; current_version : option string; version_new : option string }.

Record AmsFirmwareDescriptor := mkAmsFirmware {
  ams_firmware_id : Z; ams_firmware_name : string; ams_firmware_version : string }.

Record AmsFirmwareSwitchState := mkAmsSwitch {
  firmware : option (list AmsFirmwareDescriptor); current_firmware_id : option Z;
  current_run_firmware_id : option Z; ams_switch_status : option string }.

Module PrinterUpgradeState.
Record t := mk {
  status : option string; progress : option string; message : option string;
  module_ : option string; error_code : option Z; new_version_state : option Z;
  consistency_request : option bool; force_upgrade : option bool; display_state : option Z;
  ota_new_version_number : option string; ams_new_version_number : option string;
  ahb_new_version_number : option string;
  new_versions : option (list PrinterFirmwareVersion);
  ams_firmware : option AmsFirmwareSwitchState }.
End PrinterUpgradeState.

Record PrinterFirmwareStatus := mkFirmwareStatus {
  status_upgrade_state : option PrinterUpgradeState.t; status_cfg : option string }.

Module PrinterFirmwareState.
Record t := mk {
  session_id : option string; generation : option Z; module_revision : Z;
  status_revision : Z; modules : option (list PrinterFirmwareModule.t);
  upgrade_state : option PrinterUpgradeState.t; cfg : option string }.
End PrinterFirmwareState.

Inductive FirmwareCatalogTarget := TargetPrinter | TargetAms.

Record FirmwareCatalogEntry := mkCatalogEntry {
  catalog_target : FirmwareCatalogTarget; catalog_version : string; catalog_url : string;
  catalog_description : string }.

Module FirmwareCommand.
Inductive t :=
| UpgradeConfirm (sequence_id : string) (src_id : Z)
| ConsistencyConfirm (sequence_id : string) (src_id : Z)
| Start (sequence_id : string) (src_id : Z) (url module_ version : string)
| SwitchAmsFirmware (sequence_id : string) (src_id id : Z).

(** The struct name and fields the [Debug] implementation writes; values as
    text, integers in decimal. *)
Definition fmt (c : t) : string * list (string * string) :=
  match c with
  | UpgradeConfirm sequence_id src_id =>
      ("UpgradeConfirm", [("sequence_id", sequence_id); ("src_id", dec src_id)])
  | ConsistencyConfirm sequence_id src_id =>
      ("ConsistencyConfirm", [("sequence_id", sequence_id); ("src_id", dec src_id)])
  | Start sequence_id src_id _ module_ version =>
      ("Start", [("sequence_id", sequence_id); ("src_id", dec src_id); ("url", "[redacted]");
                 ("module", module_); ("version", version)])
  | SwitchAmsFirmware sequence_id src_id id =>
      ("SwitchAmsFirmware",
       [("sequence_id", sequence_id); ("src_id", dec src_id); ("id", dec id)])
  end%string.
End FirmwareCommand.

Module FirmwareControlMetadata.
Inductive t :=
| UpgradeConfirm (sequence_id : string) (src_id : Z)
| ConsistencyConfirm (sequence_id : string) (src_id : Z)
| Start (sequence_id : string) (src_id : Z) (module_ version : string)
| SwitchAmsFirmware (sequence_id : string) (src_id id : Z).

Definition from (command : FirmwareCommand.t) : t :=
  match command with
  | FirmwareCommand.UpgradeConfirm sequence_id src_id => UpgradeConfirm sequence_id src_id
  | FirmwareCommand.ConsistencyConfirm sequence_id src_id =>
      ConsistencyConfirm sequence_id src_id
  | FirmwareCommand.Start sequence_id src_id _ module_ version =>
      Start sequence_id src_id module_ version
  | FirmwareCommand.SwitchAmsFirmware sequence_id src_id id =>
      SwitchAmsFirmware sequence_id src_id id
  end.
End FirmwareControlMetadata.

Record FirmwareAcknowledgement := mkAck {
  ack_command : string; ack_sequence_id : string; ack_result : option string;
  ack_error_code : option Z; ack_reason : option string; ack_message : option string }.

Inductive FirmwareTerminalOutcome :=
| Acknowledged (acknowledgement : FirmwareAcknowledgement)
| PublishedWithoutAcknowledgement.

(** The persisted metadata and the debug output of a firmware command agree and
    neither depends on the download URL: two commands that differ only in their
    URL (which carries a signed token) are indistinguishable in both. *)
Definition same_but_url (c d : FirmwareCommand.t) : Prop :=
  match c, d with
  | FirmwareCommand.Start s i _ m v, FirmwareCommand.Start s' i' _ m' v' =>
      s = s' /\ i = i' /\ m = m' /\ v = v'
  | _, _ => c = d
  end.
