(* ===== verification/Store.v ===== *)
(** * The database and the identifier codecs the hub repositories rely on

    The repositories of [crates/pandar-hub/src/repositories] talk to SQL tables
    through sea_orm, render identifiers with the uuid crate and timestamps with
    the time crate.  None of that code is in the repository, so each is an
    interface here: a [Class] whose operations stand for the calls the source
    makes and whose laws are what those calls document.  A table is the
    collection of its rows; a statement that fails rolls its transaction back,
    which the error branch of [result] expresses by carrying no new state.
    [list_store], [binary_uuid] and [binary_clock] are concrete instances, used by
    the witnesses. *)

From S2P Require Import Prelude RustStr CoreTypes.

#[local] Open Scope Z_scope.

(** ** Errors ([repositories/mod.rs])

    The text inside an [anyhow::Error] is not modelled. *)
Inductive RepositoryError : Type :=
| DuplicateTenantSlug | DuplicateAgentName | DuplicateTenantTokenHash
| DuplicatePluginLoginTicketHash | DuplicateJoinLinkHash | DuplicateUserEmail
| DuplicateExternalIdentity | DuplicateUserExternalIdentity
| MissingTenant | MissingUser | LastTenantAdmin | MissingTenantToken
| MissingPluginLoginTicket | InvalidJoinLink | JoinLinkEmailMismatch
| MissingAgent | AgentOnline | AgentSessionNotCurrent | MissingPrinter
| MissingPersonalPreset | DuplicatePersonalPresetName | PersonalPresetLimitExceeded
| InvalidPersonalPreset | PersonalPresetTooLarge | PersonalPresetClockExhausted
| InvalidPersistedPersonalPreset
| MissingCommand | MissingJob | ArtifactQuotaExceeded | JobNotClearable
| CommandOwnershipMismatch
| InvalidCommandTransition (from action : string)
| InvalidPersistedStatus (s : string) | InvalidPersistedCommandStatus (s : string)
| InvalidPersistedJobStatus (s : string) | InvalidPersistedPrintStatus (s : string)
| InvalidPersistedArtifactMetadata | InvalidPersistedStudioMetadata
| InvalidPersistedUserRole (s : string) | InvalidTokenScope (s : string)
| InvalidPluginRedirectUrl | RetryNotSafe | H2cNozzleMappingRequired | ReprintNotAllowed
| StudioSubmissionIdExhausted | StudioCancellationTooLate
| PrinterControlUnavailable | InvalidPrinterControl
| Database.

#[export] Instance RepositoryError_eq_dec : EqDecision RepositoryError.
Proof. solve_decision. Defined.

(** ** Statements *)

Class Store := {
  (** [find().filter(p).all()]: the matching rows, in an order the engine picks. *)
  select : forall {R : Type}, (R -> bool) -> list R -> list R;
  (** [find().filter(p).one()]. *)
  select_one : forall {R : Type}, (R -> bool) -> list R -> option R;
  (** [update_many().set(f).filter(p).exec()] with its [rows_affected]. *)
  update_many : forall {R : Type}, (R -> bool) -> (R -> R) -> list R -> list R * Z;
  (** [delete_many().filter(p).exec()] with its [rows_affected]. *)
  delete_many : forall {R : Type}, (R -> bool) -> list R -> list R * Z;
  (** [insert(row)] on a table without a conflicting row. *)
  insert_row : forall {R : Type}, R -> list R -> list R;
  (** [<=] on text columns, in the collation of the database. *)
  text_le : string -> string -> bool;

  select_perm : forall {R} (p : R -> bool) l, select p l ≡ₚ List.filter p l;
  select_one_Some : forall {R} (p : R -> bool) l r,
    select_one p l = Some r -> In r l /\ p r = true;
  select_one_None : forall {R} (p : R -> bool) l r,
    select_one p l = None -> In r l -> p r = false;
  update_many_rows : forall {R} (p : R -> bool) f l,
    fst (update_many p f l) = map (fun r => if p r then f r else r) l;
  update_many_affected : forall {R} (p : R -> bool) f l,
    snd (update_many p f l) = Z.of_nat (length (List.filter p l));
  delete_many_rows : forall {R} (p : R -> bool) l,
    fst (delete_many p l) = List.filter (fun r => negb (p r)) l;
  delete_many_affected : forall {R} (p : R -> bool) l,
    snd (delete_many p l) = Z.of_nat (length (List.filter p l));
  insert_row_perm : forall {R} (r : R) l, insert_row r l ≡ₚ r :: l;
}.

(** [insert().on_conflict_do_nothing_on(key)]: a row whose key is taken is not
    inserted; the flag says whether a row was inserted. *)
Definition insert_on_conflict_do_nothing `{Store} {R} (conflict : R -> R -> bool) (r : R)
    (l : list R) : list R * bool :=
  match select_one (conflict r) l with
  | Some _ => (l, false)
  | None => (insert_row r l, true)
  end.

Section StoreFacts.
Context `{Store} {R : Type}.
Implicit Types (p : R -> bool) (f : R -> R) (l : list R).

Lemma select_In p l r : In r (select p l) <-> In r l /\ p r = true.
Proof. rewrite (select_perm p l). apply filter_In. Qed.

Lemma select_length p l : length (select p l) = length (List.filter p l).
Proof. by rewrite (select_perm p l). Qed.

Lemma select_one_is_Some p l : is_Some (select_one p l) <-> exists r, In r l /\ p r = true.
Proof.
  split.
  - intros [r Hr]. exists r. by apply select_one_Some.
  - intros (r & Hin & Hp). destruct (select_one p l) as [r'|] eqn:E; [by exists r'|].
    by rewrite (select_one_None p l r E Hin) in Hp.
Qed.

(** A row found under a key that names at most one row is that row. *)
Lemma select_one_unique p l r :
  In r l -> p r = true -> (forall r', In r' l -> p r' = true -> r' = r) ->
  select_one p l = Some r.
Proof.
  intros Hin Hp Hu. destruct (select_one p l) as [r'|] eqn:E.
  - destruct (select_one_Some p l r' E) as [Hin' Hp']. f_equal. by apply Hu.
  - by rewrite (select_one_None p l r E Hin) in Hp.
Qed.

Lemma In_update_many p f l r' :
  In r' (fst (update_many p f l)) <->
  exists r, In r l /\ r' = if p r then f r else r.
Proof.
  rewrite update_many_rows, in_map_iff. split.
  - intros (r & <- & Hin). eauto.
  - intros (r & Hin & ->). eauto.
Qed.

(** No row matches: nothing changes. *)
Lemma update_many_none p f l :
  (forall r, In r l -> p r = false) -> update_many p f l = (l, 0).
Proof.
  intros Hp. rewrite (surjective_pairing (update_many p f l)).
  rewrite update_many_rows, update_many_affected. f_equal.
  - rewrite <- (map_id l) at 2. apply map_ext_in. intros r Hr. by rewrite (Hp r Hr).
  - assert (List.filter p l = []) as ->; [|done].
    destruct (List.filter p l) as [|r ?] eqn:E; [done|].
    assert (In r (List.filter p l)) as Hin by (rewrite E; by left).
    apply filter_In in Hin as [Hin Hr]. by rewrite (Hp r Hin) in Hr.
Qed.

Lemma update_many_affected_0 p f l :
  snd (update_many p f l) = 0 -> forall r, In r l -> p r = false.
Proof.
  rewrite update_many_affected. intros E r Hin. destruct (p r) eqn:Hp; [|done].
  assert (In r (List.filter p l)) as Hf by (by apply filter_In).
  destruct (List.filter p l); [done|simpl in E; lia].
Qed.

Lemma update_many_affected_pos p f l :
  0 < snd (update_many p f l) <-> exists r, In r l /\ p r = true.
Proof.
  rewrite update_many_affected. split.
  - intros Hl. destruct (List.filter p l) as [|r ?] eqn:E; [simpl in Hl; lia|].
    exists r. apply filter_In. rewrite E. by left.
  - intros (r & Hr). apply filter_In in Hr. destruct (List.filter p l); [done|simpl; lia].
Qed.

Lemma update_many_affected_nonneg p f l : 0 <= snd (update_many p f l).
Proof. rewrite update_many_affected. lia. Qed.

Lemma update_many_ext p q f l : (forall r, p r = q r) -> update_many p f l = update_many q f l.
Proof.
  intros E. rewrite (surjective_pairing (update_many p f l)),
    (surjective_pairing (update_many q f l)), !update_many_rows, !update_many_affected.
  f_equal; [apply map_ext; intros r; by rewrite E|].
  do 2 f_equal. apply List.filter_ext. done.
Qed.

(** A relation that every update respects holds row by row. *)
Lemma update_many_Forall2 (P : R -> R -> Prop) p f l :
  (forall r, P r r) -> (forall r, In r l -> p r = true -> P r (f r)) ->
  Forall2 P l (fst (update_many p f l)).
Proof.
  intros Hrefl Hf. rewrite update_many_rows.
  induction l as [|r l IH]; simpl; constructor.
  - destruct (p r) eqn:E; [|done]. by apply Hf; [left|].
  - apply IH. intros r' Hr'. apply Hf. by right.
Qed.

(** A row inserted under a key nothing else has is the row found under it. *)
Lemma select_one_inserted p r l :
  p r = true -> (forall r', In r' l -> p r' = false) ->
  select_one p (insert_row r l) = Some r.
Proof.
  intros Hp Hl. apply select_one_unique; [|done|].
  - rewrite (insert_row_perm r l). by left.
  - intros r' Hin Hp'. rewrite (insert_row_perm r l) in Hin. destruct Hin as [->|Hin]; [done|].
    rewrite Hl in Hp'; done.
Qed.

Lemma In_delete_many p l r : In r (fst (delete_many p l)) <-> In r l /\ p r = false.
Proof. rewrite delete_many_rows, filter_In, negb_true_iff. done. Qed.

Lemma In_insert_row (r r' : R) l : In r' (insert_row r l) <-> r' = r \/ In r' l.
Proof. rewrite (insert_row_perm r l). simpl. intuition congruence. Qed.
End StoreFacts.

(** The engine that keeps rows in a list and scans it in order. *)
Program Definition list_store : Store := {|
  select := fun _ p l => List.filter p l;
  select_one := fun _ p l => List.find p l;
  update_many := fun _ p f l =>
    (map (fun r => if p r then f r else r) l, Z.of_nat (length (List.filter p l)));
  delete_many := fun _ p l =>
    (List.filter (fun r => negb (p r)) l, Z.of_nat (length (List.filter p l)));
  insert_row := fun _ r l => r :: l;
  text_le := String.leb;
|}.
Next Obligation. done. Qed.
Next Obligation. simpl. intros R p l r. apply find_some. Qed.
Next Obligation. simpl. intros R p l r E Hin. by apply (find_none p l). Qed.
Next Obligation. done. Qed.
Next Obligation. done. Qed.
Next Obligation. done. Qed.
Next Obligation. done. Qed.
Next Obligation. done. Qed.

(** ** Identifiers

    Columns hold the text of a UUID; [parse] is the crate's parser. *)
Class UuidText := {
  uuid_to_string : N -> string;
  uuid_parse : string -> option N;
  uuid_parse_to_string : forall u, uuid_parse (uuid_to_string u) = Some u;
}.

Section Ids.
Context `{UuidText}.

Definition TenantId_to_string (i : TenantId) : string := uuid_to_string (tenant_uuid i).
Definition AgentId_to_string (i : AgentId) : string := uuid_to_string (agent_uuid i).
Definition CommandId_to_string (i : CommandId) : string := uuid_to_string (command_uuid i).
Definition JobId_to_string (i : JobId) : string := uuid_to_string (job_uuid i).

Definition TenantId_parse (s : string) : result CoreError TenantId :=
  ok_or (option_map mkTenantId (uuid_parse s)) InvalidTenantId.
Definition AgentId_parse (s : string) : result CoreError AgentId :=
  ok_or (option_map mkAgentId (uuid_parse s)) InvalidAgentId.
Definition CommandId_parse (s : string) : result CoreError CommandId :=
  ok_or (option_map mkCommandId (uuid_parse s)) InvalidCommandId.
Definition JobId_parse (s : string) : result CoreError JobId :=
  ok_or (option_map mkJobId (uuid_parse s)) InvalidJobId.

Lemma TenantId_parse_to_string i : TenantId_parse (TenantId_to_string i) = Ok i.
Proof. unfold TenantId_parse, TenantId_to_string. rewrite uuid_parse_to_string. by destruct i. Qed.
Lemma AgentId_parse_to_string i : AgentId_parse (AgentId_to_string i) = Ok i.
Proof. unfold AgentId_parse, AgentId_to_string. rewrite uuid_parse_to_string. by destruct i. Qed.
Lemma CommandId_parse_to_string i : CommandId_parse (CommandId_to_string i) = Ok i.
Proof. unfold CommandId_parse, CommandId_to_string. rewrite uuid_parse_to_string. by destruct i. Qed.
Lemma JobId_parse_to_string i : JobId_parse (JobId_to_string i) = Ok i.
Proof. unfold JobId_parse, JobId_to_string. rewrite uuid_parse_to_string. by destruct i. Qed.

#[export] Instance TenantId_to_string_inj : Inj (=) (=) TenantId_to_string.
Proof. intros i j E. apply (f_equal TenantId_parse) in E. rewrite !TenantId_parse_to_string in E. congruence. Qed.
#[export] Instance AgentId_to_string_inj : Inj (=) (=) AgentId_to_string.
Proof. intros i j E. apply (f_equal AgentId_parse) in E. rewrite !AgentId_parse_to_string in E. congruence. Qed.
#[export] Instance CommandId_to_string_inj : Inj (=) (=) CommandId_to_string.
Proof. intros i j E. apply (f_equal CommandId_parse) in E. rewrite !CommandId_parse_to_string in E. congruence. Qed.
#[export] Instance JobId_to_string_inj : Inj (=) (=) JobId_to_string.
Proof. intros i j E. apply (f_equal JobId_parse) in E. rewrite !JobId_parse_to_string in E. congruence. Qed.
End Ids.

(** Text rewriting rules for a value just written. *)
Create HintDb id_text.
#[export] Hint Rewrite @TenantId_parse_to_string @AgentId_parse_to_string
  @CommandId_parse_to_string @JobId_parse_to_string : id_text.

(** ** Timestamps

    [OffsetDateTime::parse]/[format] at [Rfc3339]; instants are nanoseconds
    since the epoch. *)
Class Rfc3339 := {
  rfc_parse : string -> option Z;
  rfc_format : Z -> option string;
  rfc_parse_format : forall t s, rfc_format t = Some s -> rfc_parse s = Some t;
}.

(** *** Instances for the witnesses: binary texts *)

Fixpoint bits_text (p : positive) : string :=
  match p with
  | xH => EmptyString
  | xO p => String "0" (bits_text p)
  | xI p => String "1" (bits_text p)
  end.

Fixpoint text_bits (s : string) : option positive :=
  match s with
  | EmptyString => Some xH
  | String c s =>
      if ascii_dec c "0" then option_map xO (text_bits s)
      else if ascii_dec c "1" then option_map xI (text_bits s)
      else None
  end.

Lemma text_bits_text p : text_bits (bits_text p) = Some p.
Proof. induction p as [p IH|p IH|]; simpl; try rewrite IH; reflexivity. Qed.

Definition binary_uuid : UuidText.
Proof.
  refine {| uuid_to_string u := bits_text (N.succ_pos u);
            uuid_parse s := option_map Pos.pred_N (text_bits s) |}.
  intros u. rewrite text_bits_text. simpl. f_equal. apply N.pos_pred_succ.
Defined.

Definition binary_clock : Rfc3339.
Proof.
  refine {| rfc_format t := if 0 <=? t then Some (bits_text (N.succ_pos (Z.to_N t))) else None;
            rfc_parse s := option_map (fun p => Z.of_N (Pos.pred_N p)) (text_bits s) |}.
  intros t s. destruct (Z.leb_spec 0 t); [|done]. intros [= <-].
  rewrite text_bits_text. simpl. f_equal. rewrite N.pos_pred_succ. lia.
Defined.
