(* ===== verification/Tables.v ===== *)
(** * Keys and the fate of rows

    Tables whose rows a key identifies ([keyed]) and tables whose rows live on
    under a relation ([carries]), under the statements of [Store]. *)

From S2P Require Import Prelude Store.

(** No two rows share the key. *)
Definition keyed {R K} (key : R -> K) (l : list R) : Prop := NoDup (map key l).

(** Every row lives on, as [P] allows. *)
Definition carries {R} (P : relation R) (l l' : list R) : Prop :=
  forall r, In r l -> exists r', In r' l' /\ P r r'.

Section Tables.
Context {R : Type}.
Implicit Types (l : list R) (P : relation R).

Lemma keyed_In {K} (key : R -> K) l r r' :
  keyed key l -> In r l -> In r' l -> key r = key r' -> r = r'.
Proof.
  unfold keyed. induction l as [|x l IH]; simpl; [done|].
  rewrite NoDup_cons. intros [Hx Hl] Hr Hr' E.
  assert (forall y, In y l -> key y <> key x) as Hne.
  { intros y Hy Ey. apply Hx. rewrite <- Ey. apply list_elem_of_In. by apply in_map. }
  destruct Hr as [-> | Hr], Hr' as [-> | Hr'].
  - done.
  - by destruct (Hne _ Hr').
  - by destruct (Hne _ Hr).
  - by apply IH.
Qed.

Lemma keyed_insert `{Store} {K} (key : R -> K) r l :
  keyed key l -> (forall r', In r' l -> key r' <> key r) -> keyed key (insert_row r l).
Proof.
  unfold keyed. intros Hl Hr. rewrite (insert_row_perm r l). simpl. apply NoDup_cons. split; [|done].
  intros Hin. apply list_elem_of_In, in_map_iff in Hin as (r' & E & Hin). by apply (Hr r').
Qed.

Lemma keyed_map {K} (key : R -> K) (f : R -> R) l :
  (forall r, key (f r) = key r) -> keyed key l -> keyed key (map f l).
Proof. unfold keyed. intros Hf. by rewrite map_map, (map_ext _ key Hf). Qed.

Lemma keyed_update `{Store} {K} (key : R -> K) p f l :
  (forall r, key (f r) = key r) -> keyed key l -> keyed key (fst (update_many p f l)).
Proof. intros Hf Hl. rewrite update_many_rows. apply keyed_map; [|done]. intros r. by destruct (p r). Qed.

Lemma keyed_delete `{Store} {K} (key : R -> K) p l :
  keyed key l -> keyed key (fst (delete_many p l)).
Proof. intros Hl. rewrite delete_many_rows. by apply NoDup_map_filter. Qed.

(** A row found by its key is the one row with it. *)
Lemma select_one_keyed `{Store} {K} (key : R -> K) p l r r' :
  keyed key l -> (forall x, p x = true -> key x = key r) ->
  select_one p l = Some r' -> In r l -> r' = r.
Proof.
  intros Hl Hp E Hr. apply select_one_Some in E as [Hin Hr']. apply (keyed_In key l); auto.
Qed.

Lemma carries_refl P l : Reflexive P -> carries P l l.
Proof. intros HP r Hr. by exists r. Qed.

Lemma carries_trans P l1 l2 l3 :
  Transitive P -> carries P l1 l2 -> carries P l2 l3 -> carries P l1 l3.
Proof.
  intros HP H1 H2 r Hr. destruct (H1 r Hr) as (r' & Hr' & E). destruct (H2 r' Hr') as (r'' & ? & ?).
  exists r''. split; [done|]. by etrans.
Qed.

Lemma carries_insert `{Store} P r l : Reflexive P -> carries P l (insert_row r l).
Proof. intros HP r' Hr'. exists r'. split; [|done]. apply In_insert_row. by right. Qed.

Lemma carries_map P (f : R -> R) l : (forall r, P r (f r)) -> carries P l (map f l).
Proof. intros Hf r Hr. exists (f r). split; [by apply in_map|done]. Qed.

Lemma carries_update `{Store} P p f l :
  Reflexive P -> (forall r, p r = true -> P r (f r)) -> carries P l (fst (update_many p f l)).
Proof.
  intros HP Hf. rewrite update_many_rows. apply carries_map. intros r.
  destruct (p r) eqn:E; [by apply Hf|done].
Qed.
End Tables.

