(* ===== verification/JobRows.v ===== *)
(** * Job, command and artifact rows, and their hydration

    The persisted rows ([crates/pandar-hub/src/entities]), the conversions to
    the domain records ([repositories/jobs/rows.rs],
    [repositories/commands/rows.rs]) and the bulk hydration of a job listing
    ([repositories/jobs/hydration.rs]). *)

From S2P Require Import Prelude RustStr CoreTypes CoreRecords Store.

#[local] Open Scope Z_scope.
#[local] Open Scope rust_scope.

(** ** Rows *)

Module JobsModel.
Record t := mk {
  id : string; tenant_id : string; printer_id : string; agent_id : string;
  artifact_id : string; command_id : string; studio_submission_id : Z; plate_index : Z;
  studio_metadata_json : option string; status : string; error : option string;
  created_at : string; updated_at : string; print_status : string;
  printer_state : option string; progress_percent : option Z;
  remaining_time_minutes : option Z; current_layer : option Z; total_layers : option Z;
  active_file : option string; last_progress_percent : option Z; last_layer : option Z;
  print_error : option string; print_started_at : option string;
  print_finished_at : option string; print_updated_at : option string;
  ams_mapping_json : option string; ams_mapping2_json : option string;
  ams_mapping_info_json : option string; uploaded_url : option string }.
End JobsModel.

Module ArtifactsModel.
Record t := mk {
  id : string; tenant_id : string; filename : string; content_type : string;
  size_bytes : Z; storage_path : string; metadata_json : option string; created_at : string }.
End ArtifactsModel.

Module UsagesModel.
Record t := mk {
  id : string; tenant_id : string; job_id : string; slot_index : Z; source : string;
  ams_id : option string; tray_id : option string; global_tray_id : option Z;
  external_id : option string; filament_id : option string; setting_id : option string;
  filament_type : option string; color : option string; used_mm : option string;
  used_grams : option string; confidence : string; created_at : string }.
End UsagesModel.

Module CommandsModel.
Record t := mk {
  id : string; tenant_id : string; agent_id : string; printer_id : option string;
  kind : string; status : string; payload_json : string; result_json : option string;
  error : option string; created_at : string; updated_at : string }.
End CommandsModel.

Module JobWithArtifact.
Record t := mk { job : Job.t; artifact : JobArtifact.t }.
End JobWithArtifact.

(** The [serde_json] readers and writers of the hub's job columns. *)
Class JobJson := {
  parse_studio_metadata : string -> result string StudioPrintMetadata;
  studio_metadata_to_string : StudioPrintMetadata -> string;
  (** [from_str::<ArtifactMetadata>] succeeds. *)
  artifact_metadata_ok : string -> bool;
}.

Section Rows.
Context `{UuidText} `{JobJson}.

(** [.map_err(anyhow::Error::from)?]: a conversion error becomes [Database]. *)
Definition db_err {E A} (r : result E A) : result RepositoryError A :=
  map_err (fun _ => Database) r.

Definition i32_to_u8 (value : Z) : result RepositoryError Z :=
  ok_or (try_int 0 u8_max value) Database.
Definition i32_to_u32 (value : Z) : result RepositoryError Z :=
  ok_or (try_int 0 u32_max value) Database.

(** [value.map(f).transpose()]. *)
Definition traverse_opt {A B} (f : A -> result RepositoryError B) (o : option A)
  : result RepositoryError (option B) := r_transpose (option_map f o).

Fixpoint collect {A B} (f : A -> result RepositoryError B) (l : list A)
  : result RepositoryError (list B) :=
  match l with
  | [] => Ok []
  | x :: l => y <-? f x ;; ys <-? collect f l ;; Ok (y :: ys)
  end.

Definition usage_from_model (m : UsagesModel.t) : result RepositoryError JobFilamentUsage.t :=
  tenant_id <-? db_err (TenantId_parse (UsagesModel.tenant_id m)) ;;
  job_id <-? db_err (JobId_parse (UsagesModel.job_id m)) ;;
  slot_index <-? i32_to_u32 (UsagesModel.slot_index m) ;;
  global_tray_id <-? traverse_opt i32_to_u32 (UsagesModel.global_tray_id m) ;;
  Ok (JobFilamentUsage.mk (UsagesModel.id m) tenant_id job_id slot_index
        (UsagesModel.source m) (UsagesModel.ams_id m) (UsagesModel.tray_id m) global_tray_id
        (UsagesModel.external_id m) (UsagesModel.filament_id m) (UsagesModel.setting_id m)
        (UsagesModel.filament_type m) (UsagesModel.color m) (UsagesModel.used_mm m)
        (UsagesModel.used_grams m) (UsagesModel.confidence m) (UsagesModel.created_at m)).

(** [model.size_bytes as u64] reinterprets the sign bit. *)
Definition artifact_from_model (m : ArtifactsModel.t) : result RepositoryError JobArtifact.t :=
  match ArtifactsModel.metadata_json m with
  | Some metadata_json =>
      if artifact_metadata_ok metadata_json then Ok tt else Err InvalidPersistedArtifactMetadata
  | None => Ok tt
  end ?;;
  tenant_id <-? db_err (TenantId_parse (ArtifactsModel.tenant_id m)) ;;
  db_err (JobArtifact.from_parts
    {| JobArtifactParts.id := ArtifactsModel.id m;
       JobArtifactParts.tenant_id := tenant_id;
       JobArtifactParts.filename := ArtifactsModel.filename m;
       JobArtifactParts.content_type := ArtifactsModel.content_type m;
       JobArtifactParts.size_bytes := ArtifactsModel.size_bytes m mod 2 ^ 64;
       JobArtifactParts.storage_path := ArtifactsModel.storage_path m;
       JobArtifactParts.metadata_json := ArtifactsModel.metadata_json m;
       JobArtifactParts.created_at := ArtifactsModel.created_at m |}).

Definition job_from_model_with_usage (m : JobsModel.t) (usage : list JobFilamentUsage.t)
  : result RepositoryError Job.t :=
  id <-? db_err (JobId_parse (JobsModel.id m)) ;;
  tenant_id <-? db_err (TenantId_parse (JobsModel.tenant_id m)) ;;
  agent_id <-? db_err (AgentId_parse (JobsModel.agent_id m)) ;;
  command_id <-? db_err (CommandId_parse (JobsModel.command_id m)) ;;
  plate_index <-? i32_to_u32 (JobsModel.plate_index m) ;;
  progress_percent <-? traverse_opt i32_to_u8 (JobsModel.progress_percent m) ;;
  remaining_time_minutes <-? traverse_opt i32_to_u32 (JobsModel.remaining_time_minutes m) ;;
  current_layer <-? traverse_opt i32_to_u32 (JobsModel.current_layer m) ;;
  total_layers <-? traverse_opt i32_to_u32 (JobsModel.total_layers m) ;;
  last_progress_percent <-? traverse_opt i32_to_u8 (JobsModel.last_progress_percent m) ;;
  last_layer <-? traverse_opt i32_to_u32 (JobsModel.last_layer m) ;;
  map_err (fun err =>
      match err with
      | InvalidJobStatus _ => InvalidPersistedJobStatus (JobsModel.status m)
      | InvalidPrintStatus _ => InvalidPersistedPrintStatus (JobsModel.print_status m)
      | InvalidStudioPrintMetadata _ => InvalidPersistedStudioMetadata
      | _ => Database
      end)
    (Job.from_parts parse_studio_metadata
      {| JobParts.id := id; JobParts.tenant_id := tenant_id;
         JobParts.printer_id := JobsModel.printer_id m; JobParts.agent_id := agent_id;
         JobParts.artifact_id := JobsModel.artifact_id m; JobParts.command_id := command_id;
         JobParts.studio_submission_id := JobsModel.studio_submission_id m;
         JobParts.plate_index := plate_index;
         JobParts.studio_metadata_json := JobsModel.studio_metadata_json m;
         JobParts.status := JobsModel.status m; JobParts.error := JobsModel.error m;
         JobParts.print_status := JobsModel.print_status m;
         JobParts.printer_state := JobsModel.printer_state m;
         JobParts.progress_percent := progress_percent;
         JobParts.remaining_time_minutes := remaining_time_minutes;
         JobParts.current_layer := current_layer; JobParts.total_layers := total_layers;
         JobParts.active_file := JobsModel.active_file m;
         JobParts.last_progress_percent := last_progress_percent;
         JobParts.last_layer := last_layer; JobParts.print_error := JobsModel.print_error m;
         JobParts.print_started_at := JobsModel.print_started_at m;
         JobParts.print_finished_at := JobsModel.print_finished_at m;
         JobParts.print_updated_at := JobsModel.print_updated_at m;
         JobParts.ams_mapping_json := JobsModel.ams_mapping_json m;
         JobParts.ams_mapping2_json := JobsModel.ams_mapping2_json m;
         JobParts.ams_mapping_info_json := JobsModel.ams_mapping_info_json m;
         JobParts.uploaded_url := JobsModel.uploaded_url m;
         JobParts.filament_usage := usage;
         JobParts.created_at := JobsModel.created_at m;
         JobParts.updated_at := JobsModel.updated_at m |}).

Definition job_from_model (m : JobsModel.t) : result RepositoryError Job.t :=
  job_from_model_with_usage m [].

Definition job_with_artifact_from_models (job : JobsModel.t) (artifact : ArtifactsModel.t)
  : result RepositoryError JobWithArtifact.t :=
  job <-? job_from_model job ;;
  artifact <-? artifact_from_model artifact ;;
  Ok (JobWithArtifact.mk job artifact).

Definition command_from_model (m : CommandsModel.t) : result RepositoryError CommandRecord.t :=
  id <-? db_err (CommandId_parse (CommandsModel.id m)) ;;
  tenant_id <-? db_err (TenantId_parse (CommandsModel.tenant_id m)) ;;
  agent_id <-? db_err (AgentId_parse (CommandsModel.agent_id m)) ;;
  map_err (fun err =>
      match err with
      | InvalidCommandStatus _ => InvalidPersistedCommandStatus (CommandsModel.status m)
      | _ => Database
      end)
    (CommandRecord.from_parts
      {| CommandRecordParts.id := id; CommandRecordParts.tenant_id := tenant_id;
         CommandRecordParts.agent_id := agent_id;
         CommandRecordParts.printer_id := CommandsModel.printer_id m;
         CommandRecordParts.kind := CommandsModel.kind m;
         CommandRecordParts.status := CommandsModel.status m;
         CommandRecordParts.payload_json := CommandsModel.payload_json m;
         CommandRecordParts.result_json := CommandsModel.result_json m;
         CommandRecordParts.error := CommandsModel.error m;
         CommandRecordParts.created_at := CommandsModel.created_at m;
         CommandRecordParts.updated_at := CommandsModel.updated_at m |}).
End Rows.

(** ** Bulk hydration

    The tables a job listing reads. *)
Module Db.
Record t := mk {
  commands : list CommandsModel.t; jobs : list JobsModel.t;
  artifacts : list ArtifactsModel.t; usages : list UsagesModel.t }.
End Db.

Section Hydration.
Context `{Store} `{UuidText} `{JobJson}.

Definition HYDRATION_CHUNK_SIZE : nat := 500.

(** [usage_by_job.entry(job_id).or_insert_with(Vec::new).push(usage)]. *)
Definition push_usage (m : gmap string (list UsagesModel.t)) (u : UsagesModel.t)
  : gmap string (list UsagesModel.t) :=
  <[UsagesModel.job_id u := default [] (m !! UsagesModel.job_id u) ++ [u]]> m.

Definition index_artifacts (rows : list ArtifactsModel.t) : gmap string ArtifactsModel.t :=
  foldl (fun m a => <[ArtifactsModel.id a := a]> m) ∅ rows.

Definition with_usage (j : JobWithArtifact.t) (usage : list JobFilamentUsage.t)
  : JobWithArtifact.t :=
  j <| JobWithArtifact.job := (JobWithArtifact.job j) <| Job.filament_usage := usage |> |>.

(** The [for job in chunk] loop over the two indexes. *)
Fixpoint hydrate_rows (artifacts : gmap string ArtifactsModel.t)
    (usage_by_job : gmap string (list UsagesModel.t)) (chunk : list JobsModel.t)
    (hydrated : list JobWithArtifact.t) : result RepositoryError (list JobWithArtifact.t) :=
  match chunk with
  | [] => Ok hydrated
  | job :: chunk =>
      artifact <-? ok_or (artifacts !! JobsModel.artifact_id job) Database ;;
      usage <-? collect usage_from_model (default [] (usage_by_job !! JobsModel.id job)) ;;
      with_artifact <-? job_with_artifact_from_models job artifact ;;
      hydrate_rows artifacts (delete (JobsModel.id job) usage_by_job) chunk
        (hydrated ++ [with_usage with_artifact usage])
  end.

Definition hydrate_job_chunk (db : Db.t) (chunk : list JobsModel.t)
    (hydrated : list JobWithArtifact.t) : result RepositoryError (list JobWithArtifact.t) :=
  let artifact_ids := map JobsModel.artifact_id chunk in
  let artifacts := index_artifacts
    (select (fun a => bool_decide (ArtifactsModel.id a ∈ artifact_ids)) (Db.artifacts db)) in
  let usage_models :=
    select (fun u => bool_decide (UsagesModel.job_id u ∈ map JobsModel.id chunk))
      (Db.usages db) in
  hydrate_rows artifacts (foldl push_usage ∅ usage_models) chunk hydrated.

(** The chunked [loop]; [fuel] bounds the number of chunks. *)
Fixpoint hydrate_loop (fuel : nat) (db : Db.t) (job_models : list JobsModel.t)
    (hydrated : list JobWithArtifact.t) : result RepositoryError (list JobWithArtifact.t) :=
  match fuel with
  | O => Ok hydrated
  | S fuel =>
      match take HYDRATION_CHUNK_SIZE job_models with
      | [] => Ok hydrated
      | chunk =>
          hydrated <-? hydrate_job_chunk db chunk hydrated ;;
          hydrate_loop fuel db (drop HYDRATION_CHUNK_SIZE job_models) hydrated
      end
  end.

Definition hydrate_jobs_with_artifacts (db : Db.t) (job_models : list JobsModel.t)
  : result RepositoryError (list JobWithArtifact.t) :=
  hydrate_loop (S (length job_models)) db job_models [].

(** *** Reference: one job at a time

    [hydrates db m h]: [h] is row [m] with an artifact row it references and all
    of its usage rows, in some order. *)
Definition hydrates (db : Db.t) (m : JobsModel.t) (h : JobWithArtifact.t) : Prop :=
  exists a us usage h0,
    In a (Db.artifacts db) /\ ArtifactsModel.id a = JobsModel.artifact_id m
    /\ us ≡ₚ List.filter (fun u => bool_decide (UsagesModel.job_id u = JobsModel.id m))
               (Db.usages db)
    /\ collect usage_from_model us = Ok usage
    /\ job_with_artifact_from_models m a = Ok h0
    /\ h = with_usage h0 usage.

Lemma collect_Ok {A B} (f : A -> result RepositoryError B) l ys :
  collect f l = Ok ys <-> Forall2 (fun x y => f x = Ok y) l ys.
Proof.
  revert ys. induction l as [|x l IH]; intros ys; simpl.
  - split; [intros [= <-]; constructor|by inversion 1].
  - rewrite rbind_Ok. split.
    + intros (y & Hy & Hr). rewrite rbind_Ok in Hr. destruct Hr as (ys' & Hys & [= <-]).
      constructor; [done|by apply IH].
    + inversion 1 as [|? y ? ys' Hy Hys]; simplify_eq. exists y. split; [done|].
      apply IH in Hys. by rewrite Hys.
Qed.

Lemma collect_perm_ok {A B} (f : A -> result RepositoryError B) l l' ys :
  l ≡ₚ l' -> collect f l = Ok ys -> exists ys', collect f l' = Ok ys'.
Proof.
  intros Hp Hc. apply collect_Ok in Hc.
  assert (forall x, In x l' -> exists y, f x = Ok y) as Hall.
  { intros x Hx. apply list_elem_of_In in Hx. rewrite <- Hp in Hx.
    apply list_elem_of_lookup in Hx as [i Hi].
    destruct (Forall2_lookup_l _ _ _ _ _ Hc Hi) as (y & _ & Hy). eauto. }
  clear Hp Hc. induction l' as [|x l' IH]; [by exists []|].
  destruct (Hall x) as [y Hy]; [by left|]. destruct IH as [ys' Hys].
  { intros x' Hx'. apply Hall. by right. }
  exists (y :: ys'). simpl. by rewrite Hy, Hys.
Qed.

Lemma lookup_push_usages m us i :
  default [] (foldl push_usage m us !! i) =
  default [] (m !! i) ++ List.filter (fun u => bool_decide (UsagesModel.job_id u = i)) us.
Proof.
  revert m. induction us as [|u us IH]; intros m; simpl; [by rewrite app_nil_r|].
  rewrite IH. unfold push_usage. case_bool_decide as Hi.
  - subst i. rewrite lookup_insert_eq. simpl. by rewrite <- (assoc_L (++)).
  - by rewrite lookup_insert_ne.
Qed.

Lemma lookup_index_artifacts rows i :
  match index_artifacts rows !! i with
  | Some a => In a rows /\ ArtifactsModel.id a = i
  | None => forall a, In a rows -> ArtifactsModel.id a <> i
  end.
Proof.
  unfold index_artifacts. induction rows as [|a rows IH] using rev_ind; simpl.
  { rewrite lookup_empty. intros a []. }
  rewrite foldl_app. simpl. destruct (decide (ArtifactsModel.id a = i)) as [<-|Hne].
  - rewrite lookup_insert_eq. split; [apply in_or_app; right; by left|done].
  - rewrite lookup_insert_ne by done.
    destruct (foldl _ _ rows !! i) as [a'|].
    + destruct IH. split; [apply in_or_app; by left|done].
    + intros a' Hin. apply in_app_or in Hin as [Hin|[<-|[]]]; [by apply IH|done].
Qed.

(** Primary keys of the tables a listing reads. *)
Definition keys_unique (db : Db.t) : Prop :=
  (forall a a', In a (Db.artifacts db) -> In a' (Db.artifacts db) ->
     ArtifactsModel.id a = ArtifactsModel.id a' -> a = a').

(** What a hydration pass over [ms] may answer: all rows hydrated in order, or
    an error that some row of [ms] causes. *)
Definition hydration_outcome (db : Db.t) (ms : list JobsModel.t)
    (hydrated : list JobWithArtifact.t)
    (r : result RepositoryError (list JobWithArtifact.t)) : Prop :=
  match r with
  | Ok hs => exists new, hs = hydrated ++ new /\ Forall2 (hydrates db) ms new
  | Err _ => exists m, In m ms /\ forall h, ~ hydrates db m h
  end.

Lemma hydration_outcome_cons db m h ms hydrated r :
  hydrates db m h -> hydration_outcome db ms (hydrated ++ [h]) r ->
  hydration_outcome db (m :: ms) hydrated r.
Proof.
  intros Hh. destruct r as [hs|e]; simpl.
  - intros (new & -> & Hn). exists (h :: new). split; [by rewrite <- (assoc_L (++))|by constructor].
  - intros (m' & Hin & Hno). eauto.
Qed.

Definition artifact_index_ok (db : Db.t) (arts : gmap string ArtifactsModel.t)
    (m : JobsModel.t) : Prop :=
  match arts !! JobsModel.artifact_id m with
  | Some a => In a (Db.artifacts db) /\ ArtifactsModel.id a = JobsModel.artifact_id m
  | None => forall a, In a (Db.artifacts db) -> ArtifactsModel.id a <> JobsModel.artifact_id m
  end.

Definition usage_index_ok (db : Db.t) (ub : gmap string (list UsagesModel.t))
    (m : JobsModel.t) : Prop :=
  default [] (ub !! JobsModel.id m) ≡ₚ
  List.filter (fun u => bool_decide (UsagesModel.job_id u = JobsModel.id m)) (Db.usages db).

Lemma hydrate_rows_spec db arts chunk :
  keys_unique db -> forall ub hydrated,
  NoDup (map JobsModel.id chunk) ->
  Forall (artifact_index_ok db arts) chunk -> Forall (usage_index_ok db ub) chunk ->
  hydration_outcome db chunk hydrated (hydrate_rows arts ub chunk hydrated).
Proof.
  intros Hk. induction chunk as [|m chunk IH]; intros ub hydrated Hnd Ha Hu; simpl.
  { exists []. by rewrite app_nil_r. }
  apply NoDup_cons in Hnd as [Hm Hnd]. apply Forall_cons in Ha as [Ham Ha].
  apply Forall_cons in Hu as [Hum Hu]. unfold artifact_index_ok in Ham.
  destruct (arts !! JobsModel.artifact_id m) as [a|] eqn:Ea; simpl.
  2:{ exists m. split; [by left|]. intros h (a & ? & ? & ? & Hin & Hid & _). by apply (Ham a). }
  destruct Ham as [Hina Hida].
  destruct (collect _ _) as [usage|e] eqn:Ec; simpl.
  2:{ exists m. split; [by left|]. intros h (? & us & usage & ? & _ & _ & Hus & Hc & _).
      unfold usage_index_ok in Hum. rewrite <- Hum in Hus.
      destruct (collect_perm_ok _ _ _ _ Hus Hc) as [? Hc']. congruence. }
  destruct (job_with_artifact_from_models m a) as [h0|e] eqn:Ej; simpl.
  2:{ exists m. split; [by left|]. intros h (a' & ? & ? & h0 & Hin & Hid & _ & _ & Hj & _).
      rewrite (Hk a' a) in Hj; [congruence|done|done|congruence]. }
  apply (hydration_outcome_cons _ _ (with_usage h0 usage)).
  { exists a, (default [] (ub !! JobsModel.id m)), usage, h0. split_all; try done. }
  apply IH; [done|done|].
  apply List.Forall_forall. intros m' Hin'. rewrite List.Forall_forall in Hu.
  specialize (Hu m' Hin'). unfold usage_index_ok in *. rewrite lookup_delete_ne; [done|].
  intros E. apply Hm. rewrite E. apply list_elem_of_In. by apply in_map.
Qed.

Lemma filter_filter_within {A} (p q : A -> bool) l :
  (forall x, p x = true -> q x = true) ->
  List.filter p (List.filter q l) = List.filter p l.
Proof.
  intros Hpq. induction l as [|x l IH]; simpl; [done|].
  destruct (q x) eqn:Eq; simpl; [by rewrite IH|].
  destruct (p x) eqn:Ep; [|done]. by rewrite (Hpq x Ep) in Eq.
Qed.

Lemma hydrate_job_chunk_spec db chunk hydrated :
  keys_unique db -> NoDup (map JobsModel.id chunk) ->
  hydration_outcome db chunk hydrated (hydrate_job_chunk db chunk hydrated).
Proof.
  intros Hk Hnd. unfold hydrate_job_chunk. apply hydrate_rows_spec; try done.
  - apply List.Forall_forall. intros m Hin. unfold artifact_index_ok.
    pose proof (lookup_index_artifacts (select (fun a => bool_decide
      (ArtifactsModel.id a ∈ map JobsModel.artifact_id chunk)) (Db.artifacts db))
      (JobsModel.artifact_id m)) as Hl.
    destruct (_ !! _) as [a|].
    + destruct Hl as [Hl <-]. apply select_In in Hl. by destruct Hl.
    + intros a Ha E. apply (Hl a); [|done]. apply select_In. split; [done|].
      apply bool_decide_eq_true. rewrite E. apply list_elem_of_In. by apply in_map.
  - apply List.Forall_forall. intros m Hin. unfold usage_index_ok.
    rewrite lookup_push_usages, lookup_empty. simpl.
    rewrite (filter_perm _ _ _ (select_perm _ _)). rewrite filter_filter_within; [done|].
    intros u Hu. apply bool_decide_eq_true in Hu. apply bool_decide_eq_true. rewrite Hu.
    apply list_elem_of_In. by apply in_map.
Qed.

Lemma hydration_outcome_app db ms ms' hydrated r k :
  hydration_outcome db ms hydrated r ->
  (forall hs, hydration_outcome db ms' hs (k hs)) ->
  hydration_outcome db (ms ++ ms') hydrated (rbind r k).
Proof.
  destruct r as [hs|e]; simpl.
  - intros (new & -> & Hn) Hk. specialize (Hk (hydrated ++ new)).
    destruct (k (hydrated ++ new)) as [hs'|e]; simpl in *.
    + destruct Hk as (new' & -> & Hn'). exists (new ++ new').
      rewrite <- (assoc_L (++)). split; [done|by apply Forall2_app].
    + destruct Hk as (m & Hin & Hno). exists m. split; [apply in_or_app; by right|done].
  - intros (m & Hin & Hno) _. exists m. split; [apply in_or_app; by left|done].
Qed.

Lemma hydrate_loop_spec db fuel : forall ms hydrated,
  keys_unique db -> NoDup (map JobsModel.id ms) -> (length ms < fuel)%nat ->
  hydration_outcome db ms hydrated (hydrate_loop fuel db ms hydrated).
Proof.
  induction fuel as [|fuel IH]; intros ms hydrated Hk Hnd Hf; [lia|].
  destruct ms as [|m ms]; [exists []; by rewrite app_nil_r|].
  rewrite <- (take_drop HYDRATION_CHUNK_SIZE (m :: ms)) in Hnd. rewrite map_app in Hnd.
  apply NoDup_app in Hnd as (Hnt & _ & Hndr).
  rewrite <- (take_drop HYDRATION_CHUNK_SIZE (m :: ms)) at 1.
  change (hydrate_loop (S fuel) db (m :: ms) hydrated) with
    (rbind (hydrate_job_chunk db (take HYDRATION_CHUNK_SIZE (m :: ms)) hydrated)
       (fun h => hydrate_loop fuel db (drop HYDRATION_CHUNK_SIZE (m :: ms)) h)).
  apply hydration_outcome_app.
  - by apply hydrate_job_chunk_spec.
  - intros hs. apply IH; [done|done|]. rewrite length_drop. simpl in *.
    unfold HYDRATION_CHUNK_SIZE. lia.
Qed.

Lemma hydrate_Ok db ms hs :
  keys_unique db -> NoDup (map JobsModel.id ms) ->
  hydrate_jobs_with_artifacts db ms = Ok hs -> Forall2 (hydrates db) ms hs.
Proof.
  intros Hk Hn E. pose proof (hydrate_loop_spec db (S (length ms)) ms [] Hk Hn ltac:(lia)) as Hs.
  unfold hydrate_jobs_with_artifacts in E. rewrite E in Hs. by destruct Hs as (new & -> & Hs).
Qed.

(** bulk hydration in chunks of 500 is per-job hydration: it either returns
    one record per row, in the order of the rows, each built from the row, the
    artifact it references and exactly its own usage rows, or it fails and some
    row cannot be hydrated on its own. *)
Theorem hydrate_jobs_is_per_job (db : Db.t) (ms : list JobsModel.t)
    (Hkeys : keys_unique db) (Hids : NoDup (map JobsModel.id ms)) :
  match hydrate_jobs_with_artifacts db ms with
  | Ok hs => Forall2 (hydrates db) ms hs
  | Err _ => exists m, In m ms /\ forall h, ~ hydrates db m h
  end.
Proof.
  pose proof (hydrate_loop_spec db (S (length ms)) ms [] Hkeys Hids ltac:(lia)) as Hs.
  unfold hydrate_jobs_with_artifacts. destruct (hydrate_loop _ _ _ _); simpl in Hs.
  - by destruct Hs as (new & -> & Hn).
  - done.
Qed.
End Hydration.

(** ** Witness: a listing of one printed job with one usage row. *)

Definition no_json : JobJson := {|
  parse_studio_metadata := fun _ => Err "unsupported"%string;
  studio_metadata_to_string := fun _ => EmptyString;
  artifact_metadata_ok := fun _ => true;
|}.

Definition listed_job : JobsModel.t :=
  JobsModel.mk "1" "0" "p1" "1" "a1" "0" 1 1 None "succeeded" None "t0" "t0" "completed" None
    (Some 100) None None None None (Some 100) None None None None None None None None None.

Definition listing_db : Db.t :=
  Db.mk [] [listed_job]
    [ArtifactsModel.mk "a1" "0" "plate.3mf" "model/3mf" 10 "path" None "t0"]
    [UsagesModel.mk "u1" "0" "1" 0 "ams" None None (Some 2) None None None None None None None
       "high" "t1"].

Lemma hydrate_jobs_is_per_job_witness :
  exists h, @hydrate_jobs_with_artifacts list_store binary_uuid no_json listing_db [listed_job]
            = Ok [h]
    /\ @hydrates binary_uuid no_json listing_db listed_job h
    /\ length (Job.filament_usage (JobWithArtifact.job h)) = 1%nat.
Proof.
  assert (keys_unique listing_db) as Hk.
  { intros a a' [<-|[]] [<-|[]] _. reflexivity. }
  assert (NoDup (map JobsModel.id [listed_job])) as Hn.
  { repeat constructor. apply not_elem_of_nil. }
  pose proof (@hydrate_jobs_is_per_job list_store binary_uuid no_json listing_db [listed_job]
                Hk Hn) as Hs.
  destruct (@hydrate_jobs_with_artifacts list_store binary_uuid no_json listing_db [listed_job])
    as [hs|e] eqn:E; vm_compute in E; [|discriminate].
  injection E as <-. eexists. split; [reflexivity|]. split; [|reflexivity].
  inversion Hs; assumption.
Defined.
