(* ===== verification/Tx.v ===== *)
(** * Database code: state, errors and transactions

    A repository function runs statements on a connection.  It is a function
    from the database to the database it leaves behind and its [Result]: outside
    a transaction the statements before an early return have taken effect, inside
    one ([transaction]) an error rolls every statement back. *)

From S2P Require Import Prelude.

Declare Scope tx_scope.
Delimit Scope tx_scope with tx.

Definition tx (S E A : Type) : Type := S -> S * result E A.

Definition tret {S E A} (a : A) : tx S E A := fun s => (s, Ok a).
Definition tfail {S E A} (e : E) : tx S E A := fun s => (s, Err e).
(** A computation that touches no table. *)
Definition tlift {S E A} (r : result E A) : tx S E A := fun s => (s, r).
(** A query. *)
Definition tread {S E A} (f : S -> result E A) : tx S E A := fun s => (s, f s).

Definition tbind {S E A B} (m : tx S E A) (k : A -> tx S E B) : tx S E B := fun s =>
  match m s with
  | (s', Ok a) => k a s'
  | (s', Err e) => (s', Err e)
  end.

Notation "x <~ c ;; k" := (tbind c (fun x => k))
  (at level 100, c at next level, right associativity) : tx_scope.
Notation "c ~;; k" := (tbind c (fun _ => k))
  (at level 100, k at level 200, right associativity) : tx_scope.

(** [begin] .. [commit]: a dropped transaction rolls back. *)
Definition transaction {S E A} (m : tx S E A) : tx S E A := fun s =>
  match m s with
  | (s', Ok a) => (s', Ok a)
  | (_, Err e) => (s, Err e)
  end.

(** Code that uses one part of the state. *)
Definition zoom {S T E A} (get : S -> T) (put : T -> S -> S) (m : tx T E A) : tx S E A :=
  fun s => let '(t, r) := m (get s) in (put t s, r).

Section Facts.
Context {S E : Type}.

Lemma tbind_Ok {A B} (m : tx S E A) (k : A -> tx S E B) s s' b :
  tbind m k s = (s', Ok b) <-> exists s1 a, m s = (s1, Ok a) /\ k a s1 = (s', Ok b).
Proof.
  unfold tbind. destruct (m s) as [s1 [a|e]]; split.
  - eauto.
  - intros (s2 & a' & [= <- <-] & H). done.
  - done.
  - intros (s2 & a' & [=] & _).
Qed.

Lemma tbind_run {A B} (m : tx S E A) (k : A -> tx S E B) s s' a :
  m s = (s', Ok a) -> tbind m k s = k a s'.
Proof. unfold tbind. by intros ->. Qed.

Lemma tlift_Ok {A} (r : result E A) (s s' : S) a : tlift r s = (s', Ok a) <-> s' = s /\ r = Ok a.
Proof. unfold tlift. split; [by intros [= <- ->]|by intros [-> ->]]. Qed.

Lemma tread_Ok {A} (f : S -> result E A) s s' a :
  tread f s = (s', Ok a) <-> s' = s /\ f s = Ok a.
Proof. unfold tread. split; [by intros [= <- ->]|by intros [-> ->]]. Qed.

Lemma tret_Ok {A} (a b : A) (s s' : S) : tret (E := E) a s = (s', Ok b) <-> s' = s /\ b = a.
Proof. unfold tret. split; [by intros [= <- <-]|by intros [-> ->]]. Qed.

Lemma transaction_Ok {A} (m : tx S E A) s s' a :
  transaction m s = (s', Ok a) <-> m s = (s', Ok a).
Proof. unfold transaction. destruct (m s) as [s1 [b|e]]; split; congruence. Qed.

(** [m] relates every state to the state it leaves, whatever its result. *)
Definition steps (R : S -> S -> Prop) {A} (m : tx S E A) : Prop := forall s, R s (fst (m s)).

Context (R : S -> S -> Prop).

Lemma steps_run {A} (m : tx S E A) s : steps R m -> R s (fst (m s)).
Proof. intros Hm. apply Hm. Qed.

Lemma steps_read {A} (f : S -> result E A) : Reflexive R -> steps R (tread f).
Proof. intros ? s. simpl. reflexivity. Qed.
Lemma steps_lift {A} (r : result E A) : Reflexive R -> steps R (tlift r).
Proof. intros ? s. simpl. reflexivity. Qed.
Lemma steps_ret {A} (a : A) : Reflexive R -> steps R (tret a).
Proof. intros ? s. simpl. reflexivity. Qed.
Lemma steps_fail {A} (e : E) : Reflexive R -> steps R (tfail (A := A) e).
Proof. intros ? s. simpl. reflexivity. Qed.

Lemma steps_bind {A B} (m : tx S E A) (k : A -> tx S E B) :
  Transitive R -> steps R m -> (forall a, steps R (k a)) -> steps R (tbind m k).
Proof.
  intros ? Hm Hk s. unfold tbind. specialize (Hm s).
  destruct (m s) as [s' [a|e]]; simpl in *; [|done]. etrans; [done|]. apply Hk.
Qed.

Lemma steps_transaction {A} (m : tx S E A) : Reflexive R -> steps R m -> steps R (transaction m).
Proof.
  intros ? Hm s. unfold transaction. specialize (Hm s).
  by destruct (m s) as [s' [a|e]].
Qed.

Lemma steps_if {A} (b : bool) (m m' : tx S E A) :
  steps R m -> steps R m' -> steps R (if b then m else m').
Proof. by destruct b. Qed.
End Facts.

Lemma steps_zoom {S T E A} (R : S -> S -> Prop) (Q : T -> T -> Prop) get put (m : tx T E A) :
  (forall s t, Q (get s) t -> R s (put t s)) -> steps Q m -> steps R (zoom get put m).
Proof.
  intros H Hm s. unfold zoom. specialize (Hm (get s)). destruct (m (get s)) as [t r]. by apply H.
Qed.

(** Discharges [steps R m] down to the statements of [m]. *)
Create HintDb steps.
#[export] Hint Resolve steps_read steps_lift steps_ret steps_fail steps_if steps_transaction
  : steps.
