(* ===== verification/AgentSessions.v ===== *)
(** * Agent rows and the session fence

    [crates/pandar-hub/src/entities/agents.rs],
    [repositories/agents/rows.rs] and [repositories/agents/connections.rs].  An
    agent row names the session that currently speaks for the agent; every write
    made on behalf of a session first locks the row and compares. *)

From S2P Require Import Prelude RustStr CoreTypes CoreRecords Store JobRows Tx.

#[local] Open Scope Z_scope.
#[local] Open Scope rust_scope.
#[local] Open Scope tx_scope.

Module AgentsModel.
Record t := mk {
  id : string; tenant_id : string; name : string; status : string; version : option string;
  last_seen_at : option string; created_at : string; credential_hash : option string;
  credential_rotated_at : option string; credential_revoked_at : option string;
  current_session_id : option string }.
End AgentsModel.

(** The tables of the command pipeline. *)
Module Hub.
Record t := mk { agents : list AgentsModel.t; main : Db.t }.
End Hub.

Section Agents.
Context `{Store} `{UuidText} `{Rfc3339}.

Definition agent_from_model (m : AgentsModel.t) : result RepositoryError Agent.t :=
  status <-? map_err (fun _ => InvalidPersistedStatus (AgentsModel.status m))
               (AgentStatus.from_str (AgentsModel.status m)) ;;
  id <-? db_err (AgentId_parse (AgentsModel.id m)) ;;
  tenant_id <-? db_err (TenantId_parse (AgentsModel.tenant_id m)) ;;
  db_err (Agent.from_parts id tenant_id (AgentsModel.name m) status (AgentsModel.created_at m)).

(** Outcome of code on the hub's tables. *)
Definition hub (A : Type) : Type := tx Hub.t RepositoryError A.

Definition has_agent_id (agent_id : AgentId) (m : AgentsModel.t) : bool :=
  beq (AgentsModel.id m) (AgentId_to_string agent_id).

(** The row is locked until the transaction ends, so the comparison made on it
    holds at every later statement of the transaction. *)
Definition locked_agent (agent_id : AgentId) : hub (option AgentsModel.t) :=
  tread (fun h => Ok (select_one (has_agent_id agent_id) (Hub.agents h))).

(** [.one(..).await?.ok_or(MissingAgent)?]. *)
Definition required_agent (agent_id : AgentId) : hub AgentsModel.t :=
  agent <~ locked_agent agent_id ;;
  tlift (ok_or agent MissingAgent).

(** [ActiveModel::update]: the columns set by [f] on the row with this key. *)
Definition update_agent (agent : AgentsModel.t) (f : AgentsModel.t -> AgentsModel.t)
  : hub AgentsModel.t := fun h =>
  let '(agents, affected) :=
    update_many (fun m => beq (AgentsModel.id m) (AgentsModel.id agent)) f (Hub.agents h) in
  if affected =? 0 then (h, Err Database)
  else (Hub.mk agents (Hub.main h), Ok (f agent)).

Definition foreign_agent (tenant_id : TenantId) (agent : AgentsModel.t) : bool :=
  negb (beq (AgentsModel.tenant_id agent) (TenantId_to_string tenant_id)).
Definition other_session (session_id : string) (agent : AgentsModel.t) : bool :=
  negb (beq (AgentsModel.current_session_id agent) (Some session_id)).

Definition claim_online_session (tenant_id : TenantId) (agent_id : AgentId)
    (session_id version last_seen_at : string) : hub Agent.t :=
  transaction (
    agent <~ required_agent agent_id ;;
    if foreign_agent tenant_id agent then tfail MissingAgent
    else
      agent <~ update_agent agent (fun m =>
        AgentsModel.mk (AgentsModel.id m) (AgentsModel.tenant_id m) (AgentsModel.name m)
          (AgentStatus.as_str AgentStatus.Online) (Some version) (Some last_seen_at)
          (AgentsModel.created_at m) (AgentsModel.credential_hash m)
          (AgentsModel.credential_rotated_at m) (AgentsModel.credential_revoked_at m)
          (Some session_id)) ;;
      tlift (agent_from_model agent)).

(** The comparison that opens a transaction of [session_id]. *)
Definition begin_current_agent_transaction (tenant_id : TenantId) (agent_id : AgentId)
    (session_id : string) : hub unit :=
  agent <~ required_agent agent_id ;;
  if foreign_agent tenant_id agent || other_session session_id agent
  then tfail AgentSessionNotCurrent
  else tret tt.

Definition begin_closing_agent_transaction (tenant_id : TenantId) (agent_id : AgentId)
    (closing_session_id : string) : hub unit :=
  agent <~ required_agent agent_id ;;
  if foreign_agent tenant_id agent
     || is_some_and (fun session_id => negb (beq session_id closing_session_id))
          (AgentsModel.current_session_id agent)
  then tfail AgentSessionNotCurrent
  else tret tt.

(** [Some tt] is an open transaction; [None] a committed comparison. *)
Definition begin_stale_firmware_cleanup_transaction (tenant_id : TenantId) (agent_id : AgentId)
    (owner_session_id : string) (owner_instance_id sweeper_instance_id : N) (cutoff : Z)
  : hub (option unit) :=
  agent <~ locked_agent agent_id ;;
  has_fresh_owner <~ tlift
    match agent with
    | Some agent =>
        if negb (foreign_agent tenant_id agent) && negb (other_session owner_session_id agent)
        then
          last_seen_at <-? traverse_opt (fun t => ok_or (rfc_parse t) Database)
                             (AgentsModel.last_seen_at agent) ;;
          Ok (is_some_and (fun last_seen_at => cutoff <? last_seen_at) last_seen_at)
        else Ok false
    | None => Ok false
    end ;;
  tret (if has_fresh_owner && negb (N.eqb owner_instance_id sweeper_instance_id)
        then None else Some tt).

Definition heartbeat_if_current (tenant_id : TenantId) (agent_id : AgentId)
    (session_id last_seen_at : string) : hub Agent.t :=
  transaction (
    begin_current_agent_transaction tenant_id agent_id session_id ~;;
    agent <~ required_agent agent_id ;;
    agent <~ update_agent agent (fun m =>
      AgentsModel.mk (AgentsModel.id m) (AgentsModel.tenant_id m) (AgentsModel.name m)
        (AgentStatus.as_str AgentStatus.Online) (AgentsModel.version m) (Some last_seen_at)
        (AgentsModel.created_at m) (AgentsModel.credential_hash m)
        (AgentsModel.credential_rotated_at m) (AgentsModel.credential_revoked_at m)
        (AgentsModel.current_session_id m)) ;;
    tlift (agent_from_model agent)).

Definition mark_offline_if_current (tenant_id : TenantId) (agent_id : AgentId)
    (session_id last_seen_at : string) : hub (option Agent.t) :=
  transaction (
    agent <~ required_agent agent_id ;;
    if foreign_agent tenant_id agent || other_session session_id agent
    then tret None
    else
      agent <~ update_agent agent (fun m =>
        AgentsModel.mk (AgentsModel.id m) (AgentsModel.tenant_id m) (AgentsModel.name m)
          (AgentStatus.as_str AgentStatus.Offline) (AgentsModel.version m) (Some last_seen_at)
          (AgentsModel.created_at m) (AgentsModel.credential_hash m)
          (AgentsModel.credential_rotated_at m) (AgentsModel.credential_revoked_at m)
          None) ;;
      agent <~ tlift (agent_from_model agent) ;;
      tret (Some agent)).

(** ** Lemmas *)

(** [agent_id] of [tenant_id] is currently spoken for by [session]. *)
Definition current_session (h : Hub.t) (tenant_id : TenantId) (agent_id : AgentId)
    (session : option string) : Prop :=
  exists m, select_one (has_agent_id agent_id) (Hub.agents h) = Some m
    /\ AgentsModel.tenant_id m = TenantId_to_string tenant_id
    /\ AgentsModel.current_session_id m = session.

Lemma locked_agent_run agent_id h :
  locked_agent agent_id h = (h, Ok (select_one (has_agent_id agent_id) (Hub.agents h))).
Proof. done. Qed.

Lemma required_agent_run agent_id h :
  required_agent agent_id h
  = (h, ok_or (select_one (has_agent_id agent_id) (Hub.agents h)) MissingAgent).
Proof. done. Qed.

Lemma begin_current_run tenant_id agent_id session_id h :
  exists r, begin_current_agent_transaction tenant_id agent_id session_id h = (h, r)
    /\ (r = Ok tt <-> current_session h tenant_id agent_id (Some session_id)).
Proof.
  unfold begin_current_agent_transaction, tbind. rewrite required_agent_run.
  unfold current_session. destruct (select_one _ _) as [m|]; simpl.
  - unfold foreign_agent, other_session.
    destruct (negb _ || negb _) eqn:E; simpl; eexists; (split; [reflexivity|]).
    + split; [done|]. intros (m' & [= <-] & Ht & Hs). rewrite Ht, Hs, !beq_refl in E. done.
    + split; [|done]. intros _. bprop. eauto.
  - eexists. split; [reflexivity|]. split; [done|]. by intros (m & ? & _).
Qed.

Lemma begin_closing_run tenant_id agent_id session_id h :
  exists r, begin_closing_agent_transaction tenant_id agent_id session_id h = (h, r)
    /\ (r = Ok tt <-> current_session h tenant_id agent_id (Some session_id)
                      \/ current_session h tenant_id agent_id None).
Proof.
  unfold begin_closing_agent_transaction, tbind. rewrite required_agent_run.
  unfold current_session. destruct (select_one _ _) as [m|]; simpl.
  - unfold foreign_agent.
    destruct (AgentsModel.current_session_id m) as [s|] eqn:Es; simpl;
      destruct (beq (AgentsModel.tenant_id m) _) eqn:Et; simpl;
      try destruct (beq s session_id) eqn:Eb; simpl; eexists; (split; [reflexivity|]);
      bprop; subst; split; try done; intros; naive_solver.
  - eexists. split; [reflexivity|]. split; [done|]. naive_solver.
Qed.
End Agents.

(** ** The session register

    What the row of an agent remembers: the session of the last claim, until
    that session itself goes offline. *)
Inductive agent_event :=
| Claimed (session version at_time : string)
| Heartbeat (session at_time : string)
| WentOffline (session at_time : string).

Definition register (current : option string) (e : agent_event) : option string :=
  match e with
  | Claimed session _ _ => Some session
  | Heartbeat _ _ => current
  | WentOffline session _ => if beq current (Some session) then None else current
  end.

Section Register.
Context `{Store} `{UuidText} `{Rfc3339} (tenant_id : TenantId) (agent_id : AgentId).

Definition handle_event (h : Hub.t) (e : agent_event) : Hub.t :=
  match e with
  | Claimed session version now => fst (claim_online_session tenant_id agent_id session version now h)
  | Heartbeat session now => fst (heartbeat_if_current tenant_id agent_id session now h)
  | WentOffline session now => fst (mark_offline_if_current tenant_id agent_id session now h)
  end.

(** [m] is the readable row of the agent, and the only one with its key. *)
Record agent_row (h : Hub.t) (m : AgentsModel.t) : Prop := {
  row_in : In m (Hub.agents h);
  row_key : forall r, In r (Hub.agents h) -> AgentsModel.id r = AgentsModel.id m -> r = m;
  row_id : AgentsModel.id m = AgentId_to_string agent_id;
  row_tenant : AgentsModel.tenant_id m = TenantId_to_string tenant_id;
  row_name : blank (AgentsModel.name m) = false;
}.

(** The columns a session write may set, [f], keep the row readable. *)
Record session_write (f : AgentsModel.t -> AgentsModel.t) : Prop := {
  write_id : forall m, AgentsModel.id (f m) = AgentsModel.id m;
  write_tenant : forall m, AgentsModel.tenant_id (f m) = AgentsModel.tenant_id m;
  write_name : forall m, AgentsModel.name (f m) = AgentsModel.name m;
  write_status : forall m, exists s, AgentsModel.status (f m) = AgentStatus.as_str s;
}.

(** Everything outside the agent's row is as before. *)
Definition same_elsewhere (h h' : Hub.t) : Prop :=
  Hub.main h' = Hub.main h /\
  forall r, AgentsModel.id r <> AgentId_to_string agent_id ->
    In r (Hub.agents h') <-> In r (Hub.agents h).

#[local] Instance same_elsewhere_preorder : PreOrder same_elsewhere.
Proof.
  split; [done|]. intros h1 h2 h3 [E1 R1] [E2 R2]. split; [congruence|].
  intros r Hr. by rewrite R2, R1.
Qed.

Lemma agent_row_selected h m : agent_row h m ->
  select_one (has_agent_id agent_id) (Hub.agents h) = Some m.
Proof.
  intros Hm. apply select_one_unique.
  - apply (row_in _ _ Hm).
  - unfold has_agent_id. rewrite (row_id _ _ Hm). apply beq_refl.
  - unfold has_agent_id. intros r Hr E. rewrite beq_true in E. apply (row_key _ _ Hm); [done|].
    by rewrite E, (row_id _ _ Hm).
Qed.

Lemma current_session_iff h m s : agent_row h m ->
  current_session h tenant_id agent_id s <-> AgentsModel.current_session_id m = s.
Proof.
  intros Hm. unfold current_session. rewrite (agent_row_selected _ _ Hm). split.
  - by intros (m' & [= <-] & _ & Hs).
  - intros Hs. exists m. split_and!; [done|apply (row_tenant _ _ Hm)|done].
Qed.

Lemma session_write_readable h m f :
  agent_row h m -> session_write f -> exists a, agent_from_model (f m) = Ok a.
Proof.
  intros Hm Hf. unfold agent_from_model. destruct (write_status _ Hf m) as [s ->].
  rewrite (write_id _ Hf), (write_tenant _ Hf), (write_name _ Hf), (row_id _ _ Hm),
    (row_tenant _ _ Hm).
  replace (AgentStatus.from_str (AgentStatus.as_str s)) with (Ok (E := CoreError) s) by by destruct s.
  simpl. autorewrite with id_text. simpl. unfold Agent.from_parts.
  rewrite (row_name _ _ Hm). simpl. eauto.
Qed.

Lemma update_agent_row h m f :
  agent_row h m -> session_write f ->
  exists h', update_agent m f h = (h', Ok (f m)) /\ agent_row h' (f m) /\ same_elsewhere h h'.
Proof.
  intros Hm Hf. unfold update_agent.
  pose proof (update_many_affected_pos
    (fun r => beq (AgentsModel.id r) (AgentsModel.id m)) f (Hub.agents h)) as Hpos.
  pose proof (In_update_many
    (fun r => beq (AgentsModel.id r) (AgentsModel.id m)) f (Hub.agents h)) as Hin.
  destruct (update_many _ f _) as [rows n]. simpl in *.
  assert (0 < n).
  { apply Hpos. exists m. split; [apply (row_in _ _ Hm)|apply beq_refl]. }
  destruct (Z.eqb_spec n 0); [lia|]. eexists. split; [reflexivity|]. split.
  - constructor; simpl.
    + apply Hin. exists m. rewrite beq_refl. split; [apply (row_in _ _ Hm)|done].
    + intros r Hr E. apply Hin in Hr as (r0 & Hr0 & ->). rewrite (write_id _ Hf) in E.
      destruct (beq (AgentsModel.id r0) (AgentsModel.id m)) eqn:B.
      * rewrite beq_true in B. by rewrite (row_key _ _ Hm r0 Hr0 B).
      * rewrite beq_false in B. done.
    + by rewrite (write_id _ Hf), (row_id _ _ Hm).
    + by rewrite (write_tenant _ Hf), (row_tenant _ _ Hm).
    + by rewrite (write_name _ Hf), (row_name _ _ Hm).
  - split; [done|]. intros r Hr. simpl. rewrite Hin. split.
    + intros (r0 & Hr0 & ->). destruct (beq _ _) eqn:B; [|done].
      rewrite beq_true in B. rewrite (write_id _ Hf), B, (row_id _ _ Hm) in Hr. done.
    + intros Hr'. exists r. split; [done|].
      destruct (beq _ _) eqn:B; [|done]. rewrite beq_true in B. by rewrite B, (row_id _ _ Hm) in Hr.
Qed.

Ltac session_write_tac :=
  constructor; intros m'; try reflexivity;
  first [by exists AgentStatus.Online | by exists AgentStatus.Offline].

Lemma handle_event_register h m e : agent_row h m ->
  exists m', agent_row (handle_event h e) m' /\ same_elsewhere h (handle_event h e)
    /\ AgentsModel.current_session_id m' = register (AgentsModel.current_session_id m) e.
Proof.
  intros Hm.
  assert (forall f (Hf : session_write f), exists h' a,
    update_agent m f h = (h', Ok (f m)) /\ agent_from_model (f m) = Ok a
    /\ agent_row h' (f m) /\ same_elsewhere h h') as Hwrite.
  { intros f Hf. destruct (update_agent_row _ _ _ Hm Hf) as (h' & Hu & Hr & Hs).
    destruct (session_write_readable _ _ _ Hm Hf) as [a Ha]. by exists h', a. }
  destruct e as [session version now|session now|session now]; simpl handle_event.
  - unfold claim_online_session, transaction, tbind. rewrite required_agent_run.
    rewrite (agent_row_selected _ _ Hm). simpl ok_or. cbv beta iota. unfold foreign_agent.
    rewrite (row_tenant _ _ Hm), beq_refl. cbv beta iota. cbn [negb].
    match goal with |- context [update_agent m ?f h] =>
      destruct (Hwrite f) as (h' & a & -> & Ha & Hr & Hs); [session_write_tac|] end.
    unfold tlift. rewrite Ha. eexists. split_and!; [exact Hr|exact Hs|done].
  - unfold heartbeat_if_current, transaction, tbind.
    destruct (begin_current_run tenant_id agent_id session h) as (r & -> & Hiff).
    destruct r as [[]|]; [|exists m; by split_and!].
    rewrite required_agent_run. rewrite (agent_row_selected _ _ Hm). simpl ok_or. cbv beta iota.
    match goal with |- context [update_agent m ?f h] =>
      destruct (Hwrite f) as (h' & a & -> & Ha & Hr & Hs); [session_write_tac|] end.
    unfold tlift. rewrite Ha. eexists. split_and!; [exact Hr|exact Hs|done].
  - unfold mark_offline_if_current, transaction, tbind. rewrite required_agent_run.
    rewrite (agent_row_selected _ _ Hm). simpl ok_or. cbv beta iota.
    unfold foreign_agent, other_session. rewrite (row_tenant _ _ Hm), beq_refl. cbn [negb orb].
    cbn [register]. destruct (beq (AgentsModel.current_session_id m) (Some session)) eqn:B; cbn [negb].
    + match goal with |- context [update_agent m ?f h] =>
        destruct (Hwrite f) as (h' & a & -> & Ha & Hr & Hs); [session_write_tac|] end.
      unfold tlift. rewrite Ha. eexists. split_and!; [exact Hr|exact Hs|done].
    + exists m. by split_and!.
Qed.

(** C34: an agent row is a session register: after any sequence of claims,
    heartbeats and disconnects, in whatever order the sessions deliver them, the
    row names the session of the last claim unless that session has gone offline
    since, so a late disconnect of a superseded session cannot take the agent
    offline; and no other row or table is touched. *)
Theorem agent_row_is_session_register (h : Hub.t) (m : AgentsModel.t) (es : list agent_event)
    (Hm : agent_row h m) :
  let h' := foldl handle_event h es in
  current_session h' tenant_id agent_id
    (foldl register (AgentsModel.current_session_id m) es)
  /\ same_elsewhere h h'.
Proof.
  cbv zeta. revert h m Hm. induction es as [|e es IH]; intros h m Hm; cbn [foldl].
  - split; [|done]. by apply (current_session_iff _ _ _ Hm).
  - destruct (handle_event_register h m e Hm) as (m' & Hm' & Hs & <-).
    destruct (IH _ _ Hm') as [Hc Hs']. split; [done|]. by etrans.
Qed.
End Register.

Definition offline_agent : AgentsModel.t :=
  AgentsModel.mk "0" "0" "garage" "offline" None None "t0" None None None None.

Lemma agent_row_is_session_register_witness :
  let h := Hub.mk [offline_agent] (Db.mk [] [] [] []) in
  let events := [Claimed "s1" "1.0" "t1"; Claimed "s2" "1.0" "t2"; WentOffline "s1" "t3"] in
  foldl register None events = Some "s2"
  /\ @current_session list_store binary_uuid
       (foldl (@handle_event list_store binary_uuid (mkTenantId 1) (mkAgentId 1)) h events)
       (mkTenantId 1) (mkAgentId 1) (Some "s2").
Proof.
  split; [reflexivity|].
  apply (@agent_row_is_session_register list_store binary_uuid (mkTenantId 1) (mkAgentId 1)
           (Hub.mk [offline_agent] (Db.mk [] [] [] [])) offline_agent).
  constructor; [by left| |reflexivity|reflexivity|reflexivity].
  intros r [<-|[]] _. reflexivity.
Defined.
