(* ===== verification/PrinterRows.v ===== *)
(** * Printer rows

    The persisted printer row ([entities/printers.rs]) and its conversion to
    the domain records: identity and snapshot ([repositories/printers/rows.rs]),
    firmware ([printers/firmware.rs], [from_model]) and live print status
    ([printers/live_status.rs], [from_model]). *)

From S2P Require Import Prelude RustStr CoreTypes H2c DeviceFeatures CoreRecords Store JobRows.

#[local] Open Scope Z_scope.
#[local] Open Scope rust_scope.

Module PrintersModel.
Record t := mk {
  id : string; tenant_id : string; agent_id : string; serial_number : string;
  host : option string; access_code : option string; access_code_encrypted : option string;
  name : string; model : option string; status : string; last_seen_at : option string;
  created_at : string; nozzle_temperatures_json : string; active_nozzle : option string;
  bed_temperature_celsius : option string; bed_target_temperature_celsius : option string;
  chamber_temperature_celsius : option string;
  chamber_target_temperature_celsius : option string; chamber_light_on : option bool;
  cooling_system_json : option string;
  bambu_fun_bits : option string; bambu_fun_session_id : option string;
  bambu_fun2_bits : option string; bambu_fun2_session_id : option string;
  bambu_nozzle_system_json : option string; bambu_nozzle_system_session_id : option string;
  mqtt_presence_session_id : option string; state_revision : Z;
  print_task_generation : Z; print_error_generation : Z; print_job_attr : option Z;
  print_error_task_generation : option Z; print_error_session_id : option string;
  print_error_received_at : option string; print_gcode_state : option string;
  print_task_id : option string; print_subtask_id : option string;
  print_progress_percent : option Z; print_speed_level : option Z;
  print_remaining_time_minutes : option Z; print_current_layer : option Z;
  print_total_layers : option Z; print_gcode_file : option string;
  print_subtask_name : option string; print_error : option Z; print_job_id : option string;
  hms_json : string;
  firmware_modules_json : option string; firmware_upgrade_state_json : option string;
  firmware_cfg : option string; firmware_session_id : option string;
  firmware_generation : option Z; firmware_module_revision : Z; firmware_status_revision : Z }.
End PrintersModel.

(** A health message of the printer. *)
Record PrinterHms := mkHms { hms_attr : Z; hms_code : Z }.

#[export] Instance PrinterHms_eq_dec : EqDecision PrinterHms.
Proof. solve_decision. Defined.

(** [live_status.rs]; generations are [u64], the other integers [u32] or [u8]. *)
Module PrinterLiveStatus.
Record t := mk {
  task_generation : Z; error_generation : Z; job_attr : option Z;
  error_task_generation : option Z; error_session_id : option string;
  error_received_at : option string; gcode_state : option string; task_id : option string;
  subtask_id : option string; progress_percent : option Z; speed_level : option Z;
  remaining_time_minutes : option Z; current_layer : option Z; total_layers : option Z;
  gcode_file : option string; subtask_name : option string; print_error : option Z;
  printer_job_id : option string; hms : list PrinterHms }.
End PrinterLiveStatus.

#[export] Instance PrinterLiveStatus_eq_dec : EqDecision PrinterLiveStatus.t.
Proof. solve_decision. Defined.

Module PrinterWithLiveStatus.
Record t := mk {
  state_revision : Z; printer : Printer.t; live_status : PrinterLiveStatus.t;
  firmware : PrinterFirmwareState.t }.
End PrinterWithLiveStatus.

(** The [serde_json] readers and writers of the printer columns, and the
    decryption of an access code bound to its tenant and serial number. *)
Class PrinterJson := {
  parse_nozzle_temperatures : string -> option (list NozzleTemperature.t);
  parse_cooling_system : string -> option PrinterCoolingSystem;
  parse_nozzle_system : string -> option BambuNozzleSystem.t;
  parse_firmware_modules : string -> option (list PrinterFirmwareModule.t);
  firmware_modules_to_string : list PrinterFirmwareModule.t -> string;
  parse_upgrade_state : string -> option PrinterUpgradeState.t;
  upgrade_state_to_string : PrinterUpgradeState.t -> string;
  parse_hms : string -> option (list PrinterHms);
  hms_to_string : list PrinterHms -> string;
  decrypt : string -> string -> string -> option string;
  parse_hms_to_string : forall h, parse_hms (hms_to_string h) = Some h;
}.

Section Rows.
Context `{UuidText} `{PrinterJson}.

(** [x.map(parse).transpose().context(..)?]. *)
Definition parse_opt {A} (parse : string -> option A) (o : option string)
  : result RepositoryError (option A) :=
  traverse_opt (fun s => ok_or (parse s) Database) o.

Definition try_u64 (z : Z) : result RepositoryError Z := ok_or (try_int 0 u64_max z) Database.
Definition try_u32 (z : Z) : result RepositoryError Z := ok_or (try_int 0 u32_max z) Database.
Definition try_u8 (z : Z) : result RepositoryError Z := ok_or (try_int 0 u8_max z) Database.

Definition printer_from_model (m : PrintersModel.t) : result RepositoryError Printer.t :=
  access_code <-?
    match PrintersModel.access_code m, PrintersModel.access_code_encrypted m with
    | Some _, Some _ => Err Database
    | Some _, None => Err Database
    | None, Some envelope =>
        code <-? ok_or (decrypt (PrintersModel.tenant_id m) (PrintersModel.serial_number m) envelope)
                   Database ;;
        Ok (Some code)
    | None, None => Ok None
    end ;;
  tenant_id <-? db_err (TenantId_parse (PrintersModel.tenant_id m)) ;;
  agent_id <-? db_err (AgentId_parse (PrintersModel.agent_id m)) ;;
  last_seen_at <-? ok_or (PrintersModel.last_seen_at m) Database ;;
  nozzle_temperatures <-?
    ok_or (parse_nozzle_temperatures (PrintersModel.nozzle_temperatures_json m)) Database ;;
  cooling_system <-? parse_opt parse_cooling_system (PrintersModel.cooling_system_json m) ;;
  features <-? traverse_opt (fun s => db_err (BambuDeviceFeatures.from_hex s))
                 (PrintersModel.bambu_fun_bits m) ;;
  features2 <-? traverse_opt (fun s => db_err (BambuDeviceFeatures.from_hex s))
                  (PrintersModel.bambu_fun2_bits m) ;;
  nozzle_system <-? parse_opt parse_nozzle_system (PrintersModel.bambu_nozzle_system_json m) ;;
  db_err (Printer.from_parts
    {| PrinterParts.id := PrintersModel.id m; PrinterParts.tenant_id := tenant_id;
       PrinterParts.agent_id := agent_id;
       PrinterParts.serial_number := PrintersModel.serial_number m;
       PrinterParts.host := PrintersModel.host m; PrinterParts.access_code := access_code;
       PrinterParts.name := PrintersModel.name m; PrinterParts.model := PrintersModel.model m;
       PrinterParts.status := PrintersModel.status m; PrinterParts.last_seen_at := last_seen_at;
       PrinterParts.created_at := PrintersModel.created_at m;
       PrinterParts.nozzle_temperatures := nozzle_temperatures;
       PrinterParts.active_nozzle := PrintersModel.active_nozzle m;
       PrinterParts.bed_temperature_celsius := PrintersModel.bed_temperature_celsius m;
       PrinterParts.bed_target_temperature_celsius :=
         PrintersModel.bed_target_temperature_celsius m;
       PrinterParts.chamber_temperature_celsius := PrintersModel.chamber_temperature_celsius m;
       PrinterParts.chamber_target_temperature_celsius :=
         PrintersModel.chamber_target_temperature_celsius m;
       PrinterParts.chamber_light_on := PrintersModel.chamber_light_on m;
       PrinterParts.cooling_system := cooling_system;
       PrinterParts.bambu_device_features := features;
       PrinterParts.bambu_device_features_session_id := PrintersModel.bambu_fun_session_id m;
       PrinterParts.bambu_device_features2 := features2;
       PrinterParts.bambu_device_features2_session_id := PrintersModel.bambu_fun2_session_id m;
       PrinterParts.bambu_nozzle_system := nozzle_system;
       PrinterParts.bambu_nozzle_system_session_id :=
         PrintersModel.bambu_nozzle_system_session_id m;
       PrinterParts.mqtt_presence_session_id := PrintersModel.mqtt_presence_session_id m |}).

Definition firmware_from_model (m : PrintersModel.t)
  : result RepositoryError PrinterFirmwareState.t :=
  generation <-? traverse_opt try_u64 (PrintersModel.firmware_generation m) ;;
  module_revision <-? try_u64 (PrintersModel.firmware_module_revision m) ;;
  status_revision <-? try_u64 (PrintersModel.firmware_status_revision m) ;;
  modules <-? parse_opt parse_firmware_modules (PrintersModel.firmware_modules_json m) ;;
  upgrade_state <-? parse_opt parse_upgrade_state (PrintersModel.firmware_upgrade_state_json m) ;;
  Ok (PrinterFirmwareState.mk (PrintersModel.firmware_session_id m) generation
        module_revision status_revision modules upgrade_state (PrintersModel.firmware_cfg m)).

(** The columns of the live status, as [from_model] reads them. *)
Definition live_columns (m : PrintersModel.t) : result RepositoryError PrinterLiveStatus.t :=
  task_generation <-? try_u64 (PrintersModel.print_task_generation m) ;;
  error_generation <-? try_u64 (PrintersModel.print_error_generation m) ;;
  job_attr <-? traverse_opt try_u32 (PrintersModel.print_job_attr m) ;;
  error_task_generation <-? traverse_opt try_u64 (PrintersModel.print_error_task_generation m) ;;
  progress_percent <-? traverse_opt try_u8 (PrintersModel.print_progress_percent m) ;;
  speed_level <-? traverse_opt try_u8 (PrintersModel.print_speed_level m) ;;
  remaining <-? traverse_opt try_u32 (PrintersModel.print_remaining_time_minutes m) ;;
  current_layer <-? traverse_opt try_u32 (PrintersModel.print_current_layer m) ;;
  total_layers <-? traverse_opt try_u32 (PrintersModel.print_total_layers m) ;;
  print_error <-? traverse_opt try_u32 (PrintersModel.print_error m) ;;
  hms <-? ok_or (parse_hms (PrintersModel.hms_json m)) Database ;;
  Ok (PrinterLiveStatus.mk task_generation error_generation job_attr error_task_generation
        (PrintersModel.print_error_session_id m) (PrintersModel.print_error_received_at m)
        (PrintersModel.print_gcode_state m) (PrintersModel.print_task_id m)
        (PrintersModel.print_subtask_id m) progress_percent speed_level remaining
        current_layer total_layers (PrintersModel.print_gcode_file m)
        (PrintersModel.print_subtask_name m) print_error (PrintersModel.print_job_id m) hms).

(** [live_status::from_model]; the state revision must be positive. *)
Definition live_status_from_model (m : PrintersModel.t)
  : result RepositoryError PrinterWithLiveStatus.t :=
  firmware <-? firmware_from_model m ;;
  state_revision <-? try_u64 (PrintersModel.state_revision m) ;;
  state_revision <-? (if state_revision =? 0 then Err Database else Ok state_revision) ;;
  live_status <-? live_columns m ;;
  printer <-? printer_from_model m ;;
  Ok (PrinterWithLiveStatus.mk state_revision printer live_status firmware).
End Rows.
