(* ===== verification/LiveStatus.v ===== *)
(** * The live status of a printer

    Merging a report into the stored status
    ([repositories/printers/live_status/merge.rs]) and persisting the result
    ([live_status/persistence.rs]).  Generations are [u64] counters, increased
    with the wrap-around of a release build. *)

From S2P Require Import Prelude RustStr CoreTypes Store JobRows PrinterRows.

#[local] Open Scope Z_scope.
#[local] Open Scope rust_scope.

Module PrinterLiveStatusPatch.
Record t := mk {
  task_id : option string; subtask_id : option string; progress_percent : option Z;
  speed_level : option Z; remaining_time_minutes : option Z; current_layer : option Z;
  total_layers : option Z; gcode_file : option string; subtask_name : option string;
  print_error : option Z; printer_job_id : option string; job_attr : option Z;
  gcode_state : option string; hms : option (list PrinterHms); observed_at : string }.
End PrinterLiveStatusPatch.

Module S := PrinterLiveStatus.
Module P := PrinterLiveStatusPatch.

Record MergedPrinterLiveStatus := mkMerged {
  merged_state : S.t; live_status_changed : bool }.

Inductive NativePrintState := Live | Terminal | Idle | Unknown.
Inductive IdentitySlot := Task | Subtask | GcodeFile.
Inductive IdentityRelation := Continuous | Boundary | Ambiguous.

#[export] Instance NativePrintState_eq_dec : EqDecision NativePrintState.
Proof. solve_decision. Defined.
#[export] Instance IdentityRelation_eq_dec : EqDecision IdentityRelation.
Proof. solve_decision. Defined.

Definition IDENTITY_SLOTS : list IdentitySlot := [Task; Subtask; GcodeFile].

(** [+= 1] on a [u64]. *)
Definition inc64 (g : Z) : Z := (g + 1) mod 2 ^ 64.

Definition classify (value : option string) : NativePrintState :=
  match value with
  | Some v =>
      if beq v "PREPARE" || beq v "SLICING" || beq v "RUNNING" || beq v "PAUSE" then Live
      else if beq v "FINISH" || beq v "FAILED" then Terminal
      else if beq v "IDLE" then Idle
      else Unknown
  | None => Unknown
  end%string.

Definition trusted_identity (value : option string) (slot : IdentitySlot) : option string :=
  opt_filter (fun v => negb (beq v EmptyString)
                       && (match slot with GcodeFile => true | _ => false end
                           || negb (beq v "0"%string)))
    (option_map trim value).

Definition trusted_stored_identity (state : S.t) (slot : IdentitySlot) : option string :=
  trusted_identity
    (match slot with
     | Task => S.task_id state
     | Subtask => S.subtask_id state
     | GcodeFile => S.gcode_file state
     end) slot.

Definition trusted_incoming_identity (patch : P.t) (slot : IdentitySlot) : option string :=
  trusted_identity
    (match slot with
     | Task => P.task_id patch
     | Subtask => P.subtask_id patch
     | GcodeFile => P.gcode_file patch
     end) slot.

(** The four flags of [identity_relation], folded over the slots. *)
Record IdentityFlags := mkFlags {
  stored_has_identity : bool; incoming_has_identity : bool;
  has_common_slot : bool; has_conflict : bool }.

Definition identity_step (stored : S.t) (patch : P.t) (f : IdentityFlags) (slot : IdentitySlot)
  : IdentityFlags :=
  let stored_value := trusted_stored_identity stored slot in
  let incoming_value := trusted_incoming_identity patch slot in
  let f := f <| stored_has_identity := stored_has_identity f || is_some stored_value |>
             <| incoming_has_identity := incoming_has_identity f || is_some incoming_value |> in
  match stored_value, incoming_value with
  | Some stored_value, Some incoming_value =>
      f <| has_common_slot := true |>
        <| has_conflict := has_conflict f || negb (beq stored_value incoming_value) |>
  | _, _ => f
  end.

Definition identity_relation (stored : S.t) (patch : P.t) : IdentityRelation :=
  let f := foldl (identity_step stored patch) (mkFlags false false false false) IDENTITY_SLOTS in
  if has_conflict f then Boundary
  else if stored_has_identity f && incoming_has_identity f && negb (has_common_slot f)
  then Ambiguous
  else Continuous.

Definition has_incoming_trusted_identity (patch : P.t) : bool :=
  existsb (fun slot => is_some (trusted_incoming_identity patch slot)) IDENTITY_SLOTS.

Definition clear_error_marker (s : S.t) : S.t :=
  s <| S.error_task_generation := None |> <| S.error_session_id := None |>
    <| S.error_received_at := None |>.

Definition clear_task_state (s : S.t) : S.t :=
  clear_error_marker
    (s <| S.task_id := None |> <| S.subtask_id := None |> <| S.progress_percent := None |>
       <| S.speed_level := None |> <| S.remaining_time_minutes := None |>
       <| S.current_layer := None |> <| S.total_layers := None |> <| S.gcode_file := None |>
       <| S.subtask_name := None |> <| S.print_error := None |>
       <| S.printer_job_id := None |> <| S.job_attr := None |>).

Definition invalidate_recovery (s : S.t) : S.t :=
  clear_error_marker (s <| S.printer_job_id := None |> <| S.job_attr := None |>).

(** [apply_option] and [apply_copy]. *)
Definition apply_option {A} (target patch : option A) : option A := opt_or patch target.

Definition apply_display_patch (s : S.t) (p : P.t) : S.t :=
  let s := s
    <| S.task_id := apply_option (S.task_id s) (P.task_id p) |>
    <| S.subtask_id := apply_option (S.subtask_id s) (P.subtask_id p) |>
    <| S.progress_percent := apply_option (S.progress_percent s) (P.progress_percent p) |>
    <| S.speed_level := apply_option (S.speed_level s) (P.speed_level p) |>
    <| S.remaining_time_minutes :=
         apply_option (S.remaining_time_minutes s) (P.remaining_time_minutes p) |>
    <| S.current_layer := apply_option (S.current_layer s) (P.current_layer p) |>
    <| S.total_layers := apply_option (S.total_layers s) (P.total_layers p) |>
    <| S.gcode_file := apply_option (S.gcode_file s) (P.gcode_file p) |>
    <| S.subtask_name := apply_option (S.subtask_name s) (P.subtask_name p) |>
    <| S.gcode_state := apply_option (S.gcode_state s) (P.gcode_state p) |> in
  match P.hms p with Some hms => s <| S.hms := hms |> | None => s end.

Definition error_marker_is_valid (s : S.t) (session_id : string) : bool :=
  beq (S.error_task_generation s) (Some (S.task_generation s))
  && beq (S.error_session_id s) (Some session_id)
  && is_some (S.error_received_at s).

Definition merge_error_and_recovery (s stored : S.t) (p : P.t) (session_id received_at : string)
  : S.t :=
  let task_changed := negb (S.task_generation s =? S.task_generation stored) in
  let job_changed :=
    is_some_and (fun job_id => negb (beq (S.printer_job_id stored) (Some job_id)))
      (P.printer_job_id p) in
  let s :=
    match P.print_error p with
    | Some error =>
        if error =? 0 then clear_error_marker (s <| S.print_error := Some 0 |>)
        else
          let marker_valid := error_marker_is_valid s session_id in
          let occurrence_changed :=
            negb (beq (S.print_error stored) (Some error)) || task_changed || job_changed
            || negb marker_valid in
          let s := if marker_valid then s
                   else s <| S.printer_job_id := None |> <| S.job_attr := None |> in
          let s := if occurrence_changed
                   then s <| S.error_generation := inc64 (S.error_generation s) |> else s in
          s <| S.print_error := Some error |>
            <| S.error_task_generation := Some (S.task_generation s) |>
            <| S.error_session_id := Some session_id |>
            <| S.error_received_at := Some received_at |>
    | None =>
        if is_some_and (fun error => 0 <? error) (S.print_error s)
           && (task_changed || job_changed)
        then s <| S.error_generation := inc64 (S.error_generation s) |> else s
    end in
  s <| S.printer_job_id := apply_option (S.printer_job_id s) (P.printer_job_id p) |>
    <| S.job_attr := apply_option (S.job_attr s) (P.job_attr p) |>.

Definition public_job_state (job_attr : option Z) : option Z :=
  option_map (fun value => Z.land (Z.shiftr value 4) 15) job_attr.

Definition public_state (s : S.t) : S.t :=
  clear_error_marker (s <| S.job_attr := public_job_state (S.job_attr s) |>).

Definition merged (stored state : S.t) : MergedPrinterLiveStatus :=
  mkMerged state (negb (beq (public_state stored) (public_state state))).

(** The task transition a report causes: the state with its task generation
    advanced (and its task fields cleared), and whether it was cleared. *)
Definition advance_task (stored : S.t) (patch : P.t) : S.t * bool :=
  let incoming_state := classify (P.gcode_state patch) in
  let state_boundary :=
    (beq (classify (S.gcode_state stored)) Idle || beq (classify (S.gcode_state stored)) Terminal)
    && beq incoming_state Live in
  let has_initial_evidence :=
    has_incoming_trusted_identity patch || beq incoming_state Live
    || beq incoming_state Terminal in
  if S.task_generation stored =? 0 then
    (if has_initial_evidence then stored <| S.task_generation := 1 |> else stored, false)
  else if beq (identity_relation stored patch) Boundary || state_boundary then
    (clear_task_state
       (stored <| S.task_generation := inc64 (S.task_generation stored) |>), true)
  else (stored, false).

Definition merge_live_report (stored : S.t) (patch : P.t) (session_id received_at : string)
  : MergedPrinterLiveStatus :=
  if beq (classify (P.gcode_state patch)) Idle then
    let s := (clear_task_state stored) <| S.gcode_state := Some "IDLE"%string |> in
    let s := match P.hms patch with Some hms => s <| S.hms := hms |> | None => s end in
    merged stored s
  else
    let relation := identity_relation stored patch in
    let '(s, cleared_for_boundary) := advance_task stored patch in
    let s := if negb cleared_for_boundary && beq relation Ambiguous
             then invalidate_recovery s else s in
    let s := apply_display_patch s patch in
    merged stored (merge_error_and_recovery s stored patch session_id received_at).

(** *** Persistence

    [merged_active_model] applied to a row, and the [update_many] that writes
    it, bumping [state_revision]. *)
Section Persist.
Context `{Store} `{PrinterJson}.

Definition to_i64 (z : Z) : result RepositoryError Z := ok_or (try_int i64_min i64_max z) Database.
Definition to_i32 (z : Z) : result RepositoryError Z := ok_or (try_int i32_min i32_max z) Database.

Definition merged_active_model (st : S.t) (observed_at : string)
  : result RepositoryError (PrintersModel.t -> PrintersModel.t) :=
  task_generation <-? to_i64 (S.task_generation st) ;;
  error_generation <-? to_i64 (S.error_generation st) ;;
  error_task_generation <-? traverse_opt to_i64 (S.error_task_generation st) ;;
  print_error <-? traverse_opt to_i32 (S.print_error st) ;;
  Ok (fun m =>
    {| PrintersModel.id := PrintersModel.id m;
       PrintersModel.tenant_id := PrintersModel.tenant_id m;
       PrintersModel.agent_id := PrintersModel.agent_id m;
       PrintersModel.serial_number := PrintersModel.serial_number m;
       PrintersModel.host := PrintersModel.host m;
       PrintersModel.access_code := PrintersModel.access_code m;
       PrintersModel.access_code_encrypted := PrintersModel.access_code_encrypted m;
       PrintersModel.name := PrintersModel.name m;
       PrintersModel.model := PrintersModel.model m;
       PrintersModel.status := PrintersModel.status m;
       PrintersModel.last_seen_at := Some observed_at;
       PrintersModel.created_at := PrintersModel.created_at m;
       PrintersModel.nozzle_temperatures_json := PrintersModel.nozzle_temperatures_json m;
       PrintersModel.active_nozzle := PrintersModel.active_nozzle m;
       PrintersModel.bed_temperature_celsius := PrintersModel.bed_temperature_celsius m;
       PrintersModel.bed_target_temperature_celsius := PrintersModel.bed_target_temperature_celsius m;
       PrintersModel.chamber_temperature_celsius := PrintersModel.chamber_temperature_celsius m;
       PrintersModel.chamber_target_temperature_celsius := PrintersModel.chamber_target_temperature_celsius m;
       PrintersModel.chamber_light_on := PrintersModel.chamber_light_on m;
       PrintersModel.cooling_system_json := PrintersModel.cooling_system_json m;
       PrintersModel.bambu_fun_bits := PrintersModel.bambu_fun_bits m;
       PrintersModel.bambu_fun_session_id := PrintersModel.bambu_fun_session_id m;
       PrintersModel.bambu_fun2_bits := PrintersModel.bambu_fun2_bits m;
       PrintersModel.bambu_fun2_session_id := PrintersModel.bambu_fun2_session_id m;
       PrintersModel.bambu_nozzle_system_json := PrintersModel.bambu_nozzle_system_json m;
       PrintersModel.bambu_nozzle_system_session_id := PrintersModel.bambu_nozzle_system_session_id m;
       PrintersModel.mqtt_presence_session_id := PrintersModel.mqtt_presence_session_id m;
       PrintersModel.state_revision := PrintersModel.state_revision m;
       PrintersModel.print_task_generation := task_generation;
       PrintersModel.print_error_generation := error_generation;
       PrintersModel.print_job_attr := S.job_attr st;
       PrintersModel.print_error_task_generation := error_task_generation;
       PrintersModel.print_error_session_id := S.error_session_id st;
       PrintersModel.print_error_received_at := S.error_received_at st;
       PrintersModel.print_gcode_state := S.gcode_state st;
       PrintersModel.print_task_id := S.task_id st;
       PrintersModel.print_subtask_id := S.subtask_id st;
       PrintersModel.print_progress_percent := S.progress_percent st;
       PrintersModel.print_speed_level := S.speed_level st;
       PrintersModel.print_remaining_time_minutes := S.remaining_time_minutes st;
       PrintersModel.print_current_layer := S.current_layer st;
       PrintersModel.print_total_layers := S.total_layers st;
       PrintersModel.print_gcode_file := S.gcode_file st;
       PrintersModel.print_subtask_name := S.subtask_name st;
       PrintersModel.print_error := print_error;
       PrintersModel.print_job_id := S.printer_job_id st;
       PrintersModel.hms_json := hms_to_string (S.hms st);
       PrintersModel.firmware_modules_json := PrintersModel.firmware_modules_json m;
       PrintersModel.firmware_upgrade_state_json := PrintersModel.firmware_upgrade_state_json m;
       PrintersModel.firmware_cfg := PrintersModel.firmware_cfg m;
       PrintersModel.firmware_session_id := PrintersModel.firmware_session_id m;
       PrintersModel.firmware_generation := PrintersModel.firmware_generation m;
       PrintersModel.firmware_module_revision := PrintersModel.firmware_module_revision m;
       PrintersModel.firmware_status_revision := PrintersModel.firmware_status_revision m |}).

Definition persist_merged_live_status (printers : list PrintersModel.t) (printer_id : string)
    (st : S.t) (observed_at : string) : result RepositoryError (list PrintersModel.t) :=
  set <-? merged_active_model st observed_at ;;
  Ok (fst (update_many
    (fun m => beq (PrintersModel.id m) printer_id)
    (fun m => (set m) <| PrintersModel.state_revision := PrintersModel.state_revision m + 1 |>)
    printers)).
End Persist.

(** ** Lemmas *)

#[local] Arguments merge_error_and_recovery : simpl never.
#[local] Arguments apply_display_patch : simpl never.
#[local] Arguments advance_task : simpl never.

(** The printer-side view of a state that a redelivery must not change. *)
Definition touch (s : S.t) (received_at : string) : S.t :=
  match S.error_received_at s with
  | Some _ => s <| S.error_received_at := Some received_at |>
  | None => s
  end.

Lemma inc64_small g : 0 <= g < 2 ^ 64 - 1 -> inc64 g = g + 1.
Proof. intros. unfold inc64. apply Z.mod_small. lia. Qed.

Lemma inc64_ne g : 0 <= g < 2 ^ 64 -> inc64 g <> g.
Proof.
  intros Hg E. unfold inc64 in E. destruct (decide (g = 2 ^ 64 - 1)) as [->|].
  - by vm_compute in E.
  - rewrite Z.mod_small in E; lia.
Qed.

Lemma advance_task_generation stored patch :
  let g' := S.task_generation (fst (advance_task stored patch)) in
  g' = S.task_generation stored \/ g' = inc64 (S.task_generation stored).
Proof.
  unfold advance_task. destruct (Z.eqb_spec (S.task_generation stored) 0) as [E|]; simpl.
  - destruct (_ || _); simpl; [right; by rewrite E|by left].
  - destruct (_ || _); simpl; [by right|by left].
Qed.

Lemma advance_task_error_generation stored patch :
  S.error_generation (fst (advance_task stored patch)) = S.error_generation stored.
Proof. unfold advance_task. repeat case_match; reflexivity. Qed.

Lemma display_patch_task_generation s p :
  S.task_generation (apply_display_patch s p) = S.task_generation s.
Proof. unfold apply_display_patch. by destruct (P.hms p). Qed.
Lemma display_patch_error_generation s p :
  S.error_generation (apply_display_patch s p) = S.error_generation s.
Proof. unfold apply_display_patch. by destruct (P.hms p). Qed.

Lemma merge_error_task_generation s stored p sid t :
  S.task_generation (merge_error_and_recovery s stored p sid t) = S.task_generation s.
Proof.
  unfold merge_error_and_recovery. repeat case_match; reflexivity.
Qed.

Lemma merge_error_error_generation s stored p sid t :
  let e' := S.error_generation (merge_error_and_recovery s stored p sid t) in
  e' = S.error_generation s \/ e' = inc64 (S.error_generation s).
Proof.
  unfold merge_error_and_recovery. simpl.
  repeat case_match; simpl; (by left) || (by right).
Qed.

(** One report moves each generation by at most one step. *)
Lemma merge_generation_step st p sid t :
  let st' := merged_state (merge_live_report st p sid t) in
  (S.task_generation st' = S.task_generation st
   \/ S.task_generation st' = inc64 (S.task_generation st))
  /\ (S.error_generation st' = S.error_generation st
      \/ S.error_generation st' = inc64 (S.error_generation st)).
Proof.
  unfold merge_live_report, merged. destruct (beq _ Idle).
  { destruct (P.hms p); simpl; auto. }
  pose proof (advance_task_generation st p) as Hg.
  pose proof (advance_task_error_generation st p) as He.
  destruct (advance_task st p) as [s cleared]. cbn [fst merged_state] in *.
  set (s1 := if negb cleared && _ then invalidate_recovery s else s).
  assert (S.task_generation s1 = S.task_generation s
          /\ S.error_generation s1 = S.error_generation s) as [E1 E2].
  { unfold s1. by destruct (_ && _). }
  rewrite merge_error_task_generation, display_patch_task_generation, E1.
  pose proof (merge_error_error_generation (apply_display_patch s1 p) st p sid t) as Hm.
  cbv zeta in Hm. rewrite display_patch_error_generation, E2, He in Hm. auto.
Qed.

(** A stream of reports, each with its session and receive time. *)
Definition merge_reports (st : S.t) (reports : list (P.t * string * string)) : S.t :=
  foldl (fun st '(p, sid, t) => merged_state (merge_live_report st p sid t)) st reports.

(** Over any stream of reports the two generation counters of a printer never
    go back and each advances by at most one per report (below the [u64]
    limit), whatever the reports say. *)
Theorem live_generations_monotone (st : S.t) (reports : list (P.t * string * string))
    (Ht : 0 <= S.task_generation st < 2 ^ 64 - 1 - Z.of_nat (length reports))
    (He : 0 <= S.error_generation st < 2 ^ 64 - 1 - Z.of_nat (length reports)) :
  let n := Z.of_nat (length reports) in
  let st' := merge_reports st reports in
  S.task_generation st <= S.task_generation st' <= S.task_generation st + n
  /\ S.error_generation st <= S.error_generation st' <= S.error_generation st + n.
Proof.
  revert st Ht He. induction reports as [|[[p sid] t] reports IH]; intros st Ht He; simpl; [lia|].
  simpl length in *. rewrite Nat2Z.inj_succ in *.
  destruct (merge_generation_step st p sid t) as [Hs1 Hs2].
  rewrite inc64_small in Hs1 by lia. rewrite inc64_small in Hs2 by lia.
  specialize (IH (merged_state (merge_live_report st p sid t)) ltac:(lia) ltac:(lia)).
  simpl in IH. lia.
Qed.

(** The fields a report sets for the task it describes. *)
Definition task_view (s : S.t) :=
  (S.task_id s, S.subtask_id s, S.progress_percent s, S.speed_level s,
   S.remaining_time_minutes s, S.current_layer s, S.total_layers s,
   (S.gcode_file s, S.subtask_name s, S.print_error s, S.printer_job_id s, S.job_attr s)).

Definition patch_view (p : P.t) :=
  (P.task_id p, P.subtask_id p, P.progress_percent p, P.speed_level p,
   P.remaining_time_minutes p, P.current_layer p, P.total_layers p,
   (P.gcode_file p, P.subtask_name p, P.print_error p, P.printer_job_id p, P.job_attr p)).

Lemma opt_or_None_r {A} (o : option A) : opt_or o None = o.
Proof. by destruct o. Qed.

Lemma cleared_display s p :
  let s' := apply_display_patch (clear_task_state s) p in
  (S.task_id s', S.subtask_id s', S.progress_percent s', S.speed_level s') =
    (P.task_id p, P.subtask_id p, P.progress_percent p, P.speed_level p)
  /\ (S.remaining_time_minutes s', S.current_layer s', S.total_layers s') =
    (P.remaining_time_minutes p, P.current_layer p, P.total_layers p)
  /\ (S.gcode_file s', S.subtask_name s') = (P.gcode_file p, P.subtask_name p)
  /\ (S.print_error s', S.printer_job_id s', S.job_attr s') = (None, None, None)
  /\ (S.error_task_generation s', S.error_session_id s', S.error_received_at s')
     = (None, None, None).
Proof.
  unfold apply_display_patch, apply_option. destruct (P.hms p); simpl; by rewrite !opt_or_None_r.
Qed.

(** when a report starts a new task nothing of the previous task is left:
    every field of the new state is what the report itself says, and an error
    marker, if there is one, belongs to the new task and to this session. *)
Theorem new_task_isolated (st : S.t) (p : P.t) (sid t : string)
    (Hold : S.task_generation st <> 0) :
  let st' := merged_state (merge_live_report st p sid t) in
  S.task_generation st' <> S.task_generation st ->
  task_view st' = patch_view p
  /\ (S.error_task_generation st', S.error_session_id st', S.error_received_at st') =
     match P.print_error p with
     | Some e => if e =? 0 then (None, None, None)
                 else (Some (S.task_generation st'), Some sid, Some t)
     | None => (None, None, None)
     end.
Proof.
  unfold merge_live_report, merged. destruct (beq _ Idle).
  { destruct (P.hms p); simpl; done. }
  unfold advance_task. rewrite (proj2 (Z.eqb_neq _ _) Hold).
  destruct (_ || _).
  2:{ intros Hne. exfalso. apply Hne. cbn [merged_state].
      rewrite merge_error_task_generation, display_patch_task_generation.
      by destruct (_ && _). }
  intros _. cbn [merged_state negb andb].
  pose proof (cleared_display (st <| S.task_generation := inc64 (S.task_generation st) |>) p) as Hd.
  cbv zeta in Hd. revert Hd. generalize (apply_display_patch
    (clear_task_state (st <| S.task_generation := inc64 (S.task_generation st) |>)) p).
  intros []. simpl. intros (? & ? & ? & ? & ?). simplify_eq.
  unfold merge_error_and_recovery, error_marker_is_valid, task_view, patch_view, apply_option.
  destruct (P.print_error p) as [e|]; [destruct (Z.eqb_spec e 0)|]; simpl; subst;
    rewrite ?opt_or_None_r; [done| |done].
  rewrite !orb_true_r. simpl. by rewrite !opt_or_None_r.
Qed.

(** *** Redelivery *)

Definition covers {A} (field patch : option A) : Prop :=
  match patch with Some _ => field = patch | None => True end.

Lemma covers_opt_or {A} (patch field : option A) : covers (opt_or patch field) patch.
Proof. by destruct patch. Qed.
Lemma opt_or_covered {A} (patch field : option A) : covers field patch -> opt_or patch field = field.
Proof. by destruct patch. Qed.

(** The display fields of [s] already say what [p] says. *)
Definition display_covers (s : S.t) (p : P.t) : Prop :=
  covers (S.task_id s) (P.task_id p) /\ covers (S.subtask_id s) (P.subtask_id p)
  /\ covers (S.progress_percent s) (P.progress_percent p)
  /\ covers (S.speed_level s) (P.speed_level p)
  /\ covers (S.remaining_time_minutes s) (P.remaining_time_minutes p)
  /\ covers (S.current_layer s) (P.current_layer p)
  /\ covers (S.total_layers s) (P.total_layers p)
  /\ covers (S.gcode_file s) (P.gcode_file p)
  /\ covers (S.subtask_name s) (P.subtask_name p)
  /\ covers (S.gcode_state s) (P.gcode_state p)
  /\ match P.hms p with Some hms => S.hms s = hms | None => True end.

Definition error_covers (s : S.t) (p : P.t) (sid : string) : Prop :=
  covers (S.printer_job_id s) (P.printer_job_id p) /\ covers (S.job_attr s) (P.job_attr p)
  /\ match P.print_error p with
     | Some e =>
         S.print_error s = Some e
         /\ if e =? 0 then S.error_task_generation s = None /\ S.error_session_id s = None
                           /\ S.error_received_at s = None
            else error_marker_is_valid s sid = true
     | None => True
     end.

Lemma apply_display_covers s p : display_covers (apply_display_patch s p) p.
Proof.
  unfold display_covers, apply_display_patch, apply_option.
  destruct (P.hms p); simpl; split_all; try done; apply covers_opt_or.
Qed.

Lemma apply_display_covered s p : display_covers s p -> apply_display_patch s p = s.
Proof.
  unfold display_covers, apply_display_patch, apply_option. intros. split_all.
  rewrite !opt_or_covered by done. destruct s, (P.hms p); simpl in *; by subst.
Qed.

Lemma merge_error_display s stored p sid t p' :
  display_covers s p' -> display_covers (merge_error_and_recovery s stored p sid t) p'.
Proof.
  unfold merge_error_and_recovery.
  destruct (P.print_error p) as [e|]; [destruct (e =? 0)|]; [done| |]; repeat case_match; done.
Qed.

Lemma merge_error_covers s stored p sid t :
  error_covers (merge_error_and_recovery s stored p sid t) p sid.
Proof.
  unfold error_covers, merge_error_and_recovery, apply_option, error_marker_is_valid.
  destruct (P.print_error p) as [e|]; [destruct (Z.eqb_spec e 0)|]; simpl.
  - subst. split_all; try done; apply covers_opt_or.
  - split_all; try apply covers_opt_or; [done|]. by rewrite !beq_refl.
  - split_all; try done; apply covers_opt_or.
Qed.

Lemma trusted_covered s p slot :
  display_covers s p ->
  trusted_incoming_identity p slot = None
  \/ trusted_stored_identity s slot = trusted_incoming_identity p slot.
Proof.
  unfold display_covers, trusted_incoming_identity, trusted_stored_identity. intros. split_all.
  destruct slot; simpl;
    [destruct (P.task_id p) eqn:E|destruct (P.subtask_id p) eqn:E|destruct (P.gcode_file p) eqn:E];
    simpl in *; auto; right; congruence.
Qed.

Lemma covered_identity_continuous s p :
  display_covers s p -> identity_relation s p = Continuous.
Proof.
  intros Hd. pose proof (trusted_covered s p Task Hd) as H1.
  pose proof (trusted_covered s p Subtask Hd) as H2.
  pose proof (trusted_covered s p GcodeFile Hd) as H3.
  unfold identity_relation, identity_step, IDENTITY_SLOTS. cbn [foldl].
  destruct (trusted_stored_identity s Task), (trusted_incoming_identity p Task),
    (trusted_stored_identity s Subtask), (trusted_incoming_identity p Subtask),
    (trusted_stored_identity s GcodeFile), (trusted_incoming_identity p GcodeFile);
    destruct H1, H2, H3; simplify_eq; simpl; rewrite ?beq_refl; reflexivity.
Qed.

Definition initial_evidence (p : P.t) : bool :=
  has_incoming_trusted_identity p || beq (classify (P.gcode_state p)) Live
  || beq (classify (P.gcode_state p)) Terminal.

Lemma covered_advance s p :
  display_covers s p -> (initial_evidence p = true -> S.task_generation s <> 0) ->
  advance_task s p = (s, false).
Proof.
  intros Hd He. unfold advance_task. rewrite (covered_identity_continuous _ _ Hd).
  fold (initial_evidence p). destruct (Z.eqb_spec (S.task_generation s) 0) as [E|_].
  - destruct (initial_evidence p); [by destruct He|done].
  - assert (covers (S.gcode_state s) (P.gcode_state p)) as Hg by apply Hd.
    destruct (P.gcode_state p) as [g|] eqn:E; cbn [covers] in Hg.
    + rewrite Hg. by destruct (classify (Some g)).
    + change (classify None) with Unknown. by rewrite andb_false_r.
Qed.

Lemma merge_evidence st p sid t :
  0 <= S.task_generation st < 2 ^ 64 - 1 -> classify (P.gcode_state p) <> Idle ->
  initial_evidence p = true ->
  S.task_generation (merged_state (merge_live_report st p sid t)) <> 0.
Proof.
  intros Hb Hi He. unfold merge_live_report, merged. rewrite (proj2 (beq_false _ _) Hi).
  unfold advance_task. fold (initial_evidence p). rewrite He.
  destruct (Z.eqb_spec (S.task_generation st) 0) as [E|E]; [|destruct (_ || _)];
    cbn [merged_state]; rewrite merge_error_task_generation, display_patch_task_generation;
    (destruct (_ && _); simpl; [|]); try rewrite inc64_small by lia; lia.
Qed.

(** A state that already says what the report says only renews the receive time
    of its error marker. *)
Lemma merge_covered s p sid t :
  display_covers s p -> error_covers s p sid -> classify (P.gcode_state p) <> Idle ->
  (initial_evidence p = true -> S.task_generation s <> 0) ->
  exists r, merge_live_report s p sid t = mkMerged (s <| S.error_received_at := r |>) false.
Proof.
  intros Hd (Hj & Ha & He) Hi Hev. unfold merge_live_report.
  rewrite (proj2 (beq_false _ _) Hi), (covered_advance _ _ Hd Hev),
    (covered_identity_continuous _ _ Hd).
  change (negb false && beq Continuous Ambiguous) with false. cbv beta iota zeta.
  rewrite (apply_display_covered _ _ Hd).
  assert (exists r, merge_error_and_recovery s s p sid t = s <| S.error_received_at := r |>)
    as [r Hr].
  { unfold merge_error_and_recovery, apply_option. rewrite Z.eqb_refl.
    assert (is_some_and (fun j => negb (beq (S.printer_job_id s) (Some j))) (P.printer_job_id p)
            = false) as ->.
    { destruct (P.printer_job_id p); simpl in *; [|done]. rewrite Hj. by rewrite beq_refl. }
    destruct (P.print_error p) as [e|].
    - destruct He as [He Hm]. destruct (Z.eqb_spec e 0) as [->|].
      + exists None. destruct s; simpl in *. destruct Hm as (-> & -> & ->). subst.
        by rewrite !opt_or_covered.
      + exists (Some t). rewrite Hm, He, beq_refl. simpl.
        rewrite !opt_or_covered by done. unfold error_marker_is_valid in Hm.
        rewrite !andb_true_iff, !beq_true in Hm. destruct Hm as ((Hg & Hs) & _).
        destruct s; simpl in *. by subst.
    - exists (S.error_received_at s). rewrite andb_false_r. simpl.
      rewrite !opt_or_covered by done. by destruct s. }
  exists r. rewrite Hr. unfold merged. f_equal. apply negb_false_iff, beq_true.
  by destruct s.
Qed.

(** reports are idempotent: delivering the same report again in the same
    session changes nothing a client can see, starts no new task and counts no
    new error; at most the receive time kept with the error marker moves. *)
Theorem live_report_redelivery (st : S.t) (p : P.t) (sid t t' : string)
    (Hb : 0 <= S.task_generation st < 2 ^ 64 - 1) :
  let st1 := merged_state (merge_live_report st p sid t) in
  let second := merge_live_report st1 p sid t' in
  live_status_changed second = false
  /\ exists r, merged_state second = st1 <| S.error_received_at := r |>.
Proof.
  intros st1 second. subst second. destruct (decide (classify (P.gcode_state p) = Idle)) as [Hi|Hi].
  - subst st1. unfold merge_live_report. rewrite Hi, beq_refl. unfold merged.
    cbn [merged_state live_status_changed]. split.
    + apply negb_false_iff, beq_true. destruct (P.hms p), st; vm_compute; reflexivity.
    + exists None. destruct (P.hms p), st; vm_compute; reflexivity.
  - destruct (merge_covered st1 p sid t') as [r Hr]; [| |done| |].
    + subst st1. unfold merge_live_report, merged. rewrite (proj2 (beq_false _ _) Hi).
      destruct (advance_task st p). apply merge_error_display, apply_display_covers.
    + subst st1. unfold merge_live_report, merged. rewrite (proj2 (beq_false _ _) Hi).
      destruct (advance_task st p). apply merge_error_covers.
    + intros He. by apply merge_evidence.
    + rewrite Hr. simpl. split; [done|by exists r].
Qed.

(** *** The error marker *)

(** The marker of an error (its task generation, session and receive time) is
    complete or absent; it belongs to the current task or an earlier one and
    only exists while the printer reports a non-zero error. *)
Definition marker_wf (s : S.t) : Prop :=
  match S.error_task_generation s, S.error_session_id s, S.error_received_at s with
  | Some g, Some _, Some _ =>
      g <= S.task_generation s /\ exists e, S.print_error s = Some e /\ 0 < e
  | None, None, None => True
  | _, _, _ => False
  end.

Lemma merge_error_marker_wf s stored p sid t :
  marker_wf s -> match P.print_error p with Some e => 0 <= e | None => True end ->
  marker_wf (merge_error_and_recovery s stored p sid t).
Proof.
  intros Hs Hp. unfold merge_error_and_recovery, marker_wf, apply_option.
  destruct (P.print_error p) as [e|]; [destruct (Z.eqb_spec e 0)|].
  - exact I.
  - assert (0 < e) by lia. simpl. split; [apply Z.le_refl|by exists e].
  - destruct (is_some_and _ (S.print_error s) && _); exact Hs.
Qed.

Lemma display_marker_wf s p : marker_wf s -> marker_wf (apply_display_patch s p).
Proof. unfold apply_display_patch. by destruct (P.hms p). Qed.

Lemma advance_marker_wf st p :
  marker_wf st -> 0 <= S.task_generation st -> marker_wf (fst (advance_task st p)).
Proof.
  intros Hm Hg. unfold advance_task.
  destruct (Z.eqb_spec (S.task_generation st) 0) as [E|]; case_match; simpl; try done.
  unfold marker_wf in *. simpl. repeat case_match; try done. split; [lia|tauto].
Qed.

(** C40: every report keeps the error marker well formed. *)
Theorem merge_keeps_marker (st : S.t) (p : P.t) (sid t : string)
    (Hm : marker_wf st) (Hg : 0 <= S.task_generation st)
    (Hp : match P.print_error p with Some e => 0 <= e | None => True end) :
  marker_wf (merged_state (merge_live_report st p sid t)).
Proof.
  unfold merge_live_report, merged. destruct (beq _ Idle).
  { by destruct (P.hms p). }
  pose proof (advance_marker_wf st p Hm Hg) as Ha. destruct (advance_task st p) as [s cleared].
  cbn [fst merged_state] in *. apply merge_error_marker_wf; [|done]. apply display_marker_wf.
  by destruct (_ && _).
Qed.

(** *** Representable states *)

Definition opt_within (lo hi : Z) (o : option Z) : Prop :=
  match o with Some z => lo <= z <= hi | None => True end.

(** The columns can hold the state: generations fit [i64], the error [i32]. *)
Definition live_ok (s : S.t) : Prop :=
  0 <= S.task_generation s <= i64_max /\ 0 <= S.error_generation s <= i64_max
  /\ opt_within 0 u32_max (S.job_attr s) /\ opt_within 0 i64_max (S.error_task_generation s)
  /\ opt_within 0 u8_max (S.progress_percent s) /\ opt_within 0 u8_max (S.speed_level s)
  /\ opt_within 0 u32_max (S.remaining_time_minutes s)
  /\ opt_within 0 u32_max (S.current_layer s) /\ opt_within 0 u32_max (S.total_layers s)
  /\ opt_within 0 i32_max (S.print_error s).

Definition patch_ok (p : P.t) : Prop :=
  opt_within 0 u32_max (P.job_attr p) /\ opt_within 0 u8_max (P.progress_percent p)
  /\ opt_within 0 u8_max (P.speed_level p) /\ opt_within 0 u32_max (P.remaining_time_minutes p)
  /\ opt_within 0 u32_max (P.current_layer p) /\ opt_within 0 u32_max (P.total_layers p)
  /\ opt_within 0 i32_max (P.print_error p).

Lemma opt_within_or lo hi patch field :
  opt_within lo hi patch -> opt_within lo hi field -> opt_within lo hi (opt_or patch field).
Proof. by destruct patch. Qed.

Lemma opt_within_None lo hi : opt_within lo hi None.
Proof. exact I. Qed.

#[local] Hint Resolve opt_within_or opt_within_None : core.

Lemma display_live_ok s p : live_ok s -> patch_ok p -> live_ok (apply_display_patch s p).
Proof.
  unfold live_ok, patch_ok, apply_display_patch, apply_option. intros Hs Hp.
  destruct (P.hms p); simpl; split_all; auto.
Qed.

Lemma merge_error_live_ok s stored p sid t :
  live_ok s -> S.error_generation s < i64_max -> patch_ok p ->
  live_ok (merge_error_and_recovery s stored p sid t).
Proof.
  unfold live_ok, patch_ok. intros Hs Hlt Hp.
  assert (inc64 (S.error_generation s) = S.error_generation s + 1) as Hinc
    by (apply inc64_small; unfold i64_max in *; split_all; lia).
  unfold merge_error_and_recovery, apply_option.
  destruct (P.print_error p) as [e|]; [destruct (e =? 0)|].
  - simpl. split_all; auto; simpl; unfold i32_max; lia.
  - destruct (error_marker_is_valid s sid), (_ || negb _); simpl; rewrite ?Hinc;
      split_all; auto; simpl in *; lia.
  - destruct (is_some_and _ (S.print_error s) && _); simpl; rewrite ?Hinc; split_all; auto; lia.
Qed.

Lemma advance_live_ok st p :
  live_ok st -> S.task_generation st < i64_max -> live_ok (fst (advance_task st p)).
Proof.
  unfold live_ok. intros Hs Hlt. unfold advance_task.
  assert (inc64 (S.task_generation st) = S.task_generation st + 1) as Hinc
    by (apply inc64_small; unfold i64_max in *; split_all; lia).
  destruct (Z.eqb_spec (S.task_generation st) 0) as [E|]; case_match; simpl;
    rewrite ?Hinc; split_all; auto; simpl in *; unfold i64_max in *; lia.
Qed.

Lemma merge_live_ok st p sid t :
  live_ok st -> patch_ok p -> S.task_generation st < i64_max ->
  S.error_generation st < i64_max -> live_ok (merged_state (merge_live_report st p sid t)).
Proof.
  intros Hs Hp Ht He. unfold merge_live_report, merged. destruct (beq _ Idle).
  { unfold live_ok in *. destruct (P.hms p); simpl; split_all; auto; lia. }
  pose proof (advance_live_ok st p Hs Ht) as Ha.
  pose proof (advance_task_error_generation st p) as Hge.
  destruct (advance_task st p) as [s cleared]. cbn [fst merged_state] in *.
  assert (live_ok (if negb cleared && beq (identity_relation st p) Ambiguous
                   then invalidate_recovery s else s)
          /\ S.error_generation (if negb cleared && beq (identity_relation st p) Ambiguous
                   then invalidate_recovery s else s) = S.error_generation s) as [Hs1 Hg1].
  { case_match; [|done]. unfold live_ok in *. simpl. split_all; auto; lia. }
  apply merge_error_live_ok; [by apply display_live_ok| |done].
  rewrite display_patch_error_generation, Hg1. lia.
Qed.

Section PersistFacts.
Context `{Store} `{UuidText} `{PrinterJson}.

Lemma try_int_within lo hi z : lo <= z <= hi -> try_int lo hi z = Some z.
Proof.
  intros Hz. unfold try_int. replace (in_range lo hi z) with true; [done|].
  symmetry. unfold in_range. apply andb_true_iff. split; apply Z.leb_le; lia.
Qed.

Lemma traverse_within lo hi lo' hi' (o : option Z) :
  opt_within lo hi o -> lo' <= lo -> hi <= hi' ->
  traverse_opt (fun z => ok_or (try_int lo' hi' z) Database) o = Ok o.
Proof.
  intros Ho Hl Hh. destruct o as [z|]; unfold traverse_opt; simpl in *; [|done].
  by rewrite try_int_within by lia.
Qed.

(** What a write of [st] leaves in a row. *)
Definition stored_in (st : S.t) (observed_at : string) (m m' : PrintersModel.t) : Prop :=
  live_columns m' = Ok st
  /\ PrintersModel.state_revision m' = PrintersModel.state_revision m + 1
  /\ printer_from_model m'
     = printer_from_model (m <| PrintersModel.last_seen_at := Some observed_at |>)
  /\ firmware_from_model m' = firmware_from_model m.

Lemma merged_active_model_ok st obs :
  live_ok st ->
  exists set, merged_active_model st obs = Ok set
    /\ forall m, live_columns (set m) = Ok st
       /\ PrintersModel.state_revision (set m) = PrintersModel.state_revision m
       /\ PrintersModel.id (set m) = PrintersModel.id m
       /\ forall r, printer_from_model ((set m) <| PrintersModel.state_revision := r |>)
          = printer_from_model (m <| PrintersModel.last_seen_at := Some obs |>)
          /\ firmware_from_model ((set m) <| PrintersModel.state_revision := r |>)
             = firmware_from_model m
          /\ live_columns ((set m) <| PrintersModel.state_revision := r |>) = live_columns (set m).
Proof.
  intros (Ht & He & Hja & Het & Hpp & Hsl & Hr & Hc & Hl & Hpe).
  unfold merged_active_model, to_i64, to_i32.
  rewrite !try_int_within by (unfold i64_min, i64_max in *; lia). simpl rbind.
  rewrite (traverse_within 0 i64_max) by (try done; unfold i64_min; lia). simpl rbind.
  rewrite (traverse_within 0 i32_max) by (try done; unfold i32_min; lia). simpl rbind.
  eexists. split; [reflexivity|]. intros m.
  split; [|split; [reflexivity|split; [reflexivity|]]].
  { unfold live_columns, try_u64, try_u32, try_u8.
    cbn -[try_int traverse_opt parse_hms hms_to_string u64_max u32_max u8_max i64_max i32_max].
    rewrite !try_int_within by (unfold i64_max, u64_max in *; lia). simpl rbind.
    rewrite (traverse_within 0 u32_max) by (try done; lia). simpl rbind.
    rewrite (traverse_within 0 i64_max) by (try done; unfold i64_max, u64_max; lia). simpl rbind.
    rewrite !(traverse_within 0 u8_max) by (try done; lia). simpl rbind.
    rewrite !(traverse_within 0 u32_max) by (try done; lia). simpl rbind.
    rewrite (traverse_within 0 i32_max) by (try done; unfold i32_max, u32_max; lia). simpl rbind.
    rewrite parse_hms_to_string. simpl. by destruct st. }
  intros r. split_all; reflexivity.
Qed.

(** the persisted live status is the merged one: for a stored status that
    fits its columns and a report within the wire bounds, the write succeeds,
    the row read back is exactly the merged status with its revision bumped,
    and nothing else of that printer, nor any other printer, changes. *)
Theorem merged_status_persisted (printers : list PrintersModel.t) (printer_id : string)
    (st : S.t) (p : P.t) (sid t obs : string)
    (Hst : live_ok st) (Hp : patch_ok p)
    (Ht : S.task_generation st < i64_max) (He : S.error_generation st < i64_max) :
  let st' := merged_state (merge_live_report st p sid t) in
  exists f, persist_merged_live_status printers printer_id st' obs = Ok (map f printers)
    /\ forall m, if beq (PrintersModel.id m) printer_id then stored_in st' obs m (f m)
                 else f m = m.
Proof.
  intros st'. destruct (merged_active_model_ok st' obs) as (set & Hset & Hm).
  { by apply merge_live_ok. }
  unfold persist_merged_live_status. rewrite Hset. simpl rbind. rewrite update_many_rows.
  eexists. split; [reflexivity|]. intros m. simpl. destruct (beq _ _); [|done].
  destruct (Hm m) as (Hlive & _ & _ & Hrest).
  destruct (Hrest (PrintersModel.state_revision m + 1)) as (Hp1 & Hp2 & Hp3).
  unfold stored_in. rewrite Hp1, Hp2, Hp3. split_all; [exact Hlive|reflexivity..].
Qed.
End PersistFacts.

(** ** Witnesses *)

Definition idle_status : S.t :=
  S.mk 3 1 (Some 16) (Some 3) (Some "s1"%string) (Some "t0"%string) (Some "FINISH"%string)
    (Some "41"%string) None (Some 100) None None None None (Some "a.3mf"%string) None (Some 7)
    (Some "j"%string) [].

Definition next_report : P.t :=
  P.mk (Some "42"%string) None (Some 0) None (Some 12) None None (Some "b.3mf"%string) None
    (Some 7) (Some "k"%string) None (Some "RUNNING"%string) None "t"%string.

Lemma live_generations_monotone_witness :
  S.task_generation (merge_reports idle_status [(next_report, "s2", "t1")%string]) = 4
  /\ S.error_generation idle_status
     <= S.error_generation (merge_reports idle_status [(next_report, "s2", "t1")%string]).
Proof.
  split; [vm_compute; reflexivity|].
  apply (live_generations_monotone idle_status [(next_report, "s2", "t1")%string]); simpl; lia.
Defined.

Lemma new_task_isolated_witness :
  task_view (merged_state (merge_live_report idle_status next_report "s2" "t1"))
  = patch_view next_report.
Proof.
  apply (new_task_isolated idle_status next_report "s2" "t1"); vm_compute; discriminate.
Defined.

Lemma live_report_redelivery_witness :
  live_status_changed (merge_live_report
    (merged_state (merge_live_report idle_status next_report "s2" "t1"))
    next_report "s2" "t2") = false.
Proof. apply (live_report_redelivery idle_status next_report "s2" "t1" "t2"). simpl. lia. Defined.

Lemma merge_keeps_marker_witness :
  marker_wf (merged_state (merge_live_report idle_status next_report "s2" "t1"))
  /\ S.error_task_generation (merged_state (merge_live_report idle_status next_report "s2" "t1"))
     = Some 4.
Proof.
  split; [|vm_compute; reflexivity].
  apply (merge_keeps_marker idle_status next_report "s2" "t1").
  - vm_compute. split; [discriminate|]. exists 7. split; reflexivity.
  - simpl. lia.
  - simpl. lia.
Defined.

(** A concrete codec for the witness: health messages through their binary
    encoding, the other columns unreadable. *)
#[local] Definition hms_pairs (h : list PrinterHms) : list (Z * Z) :=
  map (fun m => (hms_attr m, hms_code m)) h.
#[local] Definition hms_unpairs (l : list (Z * Z)) : list PrinterHms :=
  map (fun '(a, c) => mkHms a c) l.

Program Definition hms_json_codec : PrinterJson := {|
  parse_nozzle_temperatures := fun _ => None;
  parse_cooling_system := fun _ => None;
  parse_nozzle_system := fun _ => None;
  parse_firmware_modules := fun _ => None;
  firmware_modules_to_string := fun _ => EmptyString;
  parse_upgrade_state := fun _ => None;
  upgrade_state_to_string := fun _ => EmptyString;
  parse_hms := fun s => p ← text_bits s; option_map hms_unpairs (decode p);
  hms_to_string := fun h => bits_text (encode (hms_pairs h));
  decrypt := fun _ _ _ => None;
|}.
Next Obligation.
  intros h. simpl. rewrite text_bits_text. simpl. rewrite decode_encode. simpl. f_equal.
  unfold hms_unpairs, hms_pairs. rewrite map_map. rewrite <- (map_id h) at 2.
  apply map_ext. by intros [].
Qed.

Definition stored_row : PrintersModel.t :=
  PrintersModel.mk "p1" "0" "1" "serial" None None None "Printer" None "online" (Some "t0"%string)
    "t0" "[]" None None None None None None None None None None None None None None 5
    3 1 (Some 16) (Some 3) (Some "s1"%string) (Some "t0"%string) (Some "FINISH"%string)
    (Some "41"%string) None (Some 100) None None None None (Some "a.3mf"%string) None (Some 7)
    (Some "j"%string) "[]" None None None None None 0 0.

Lemma merged_status_persisted_witness :
  exists f, @persist_merged_live_status list_store hms_json_codec [stored_row] "p1"
              (merged_state (merge_live_report idle_status next_report "s2" "t1")) "t1"
            = Ok (map f [stored_row])
    /\ @live_columns hms_json_codec (f stored_row)
       = Ok (merged_state (merge_live_report idle_status next_report "s2" "t1")).
Proof.
  destruct (@merged_status_persisted list_store binary_uuid hms_json_codec [stored_row] "p1"
              idle_status next_report "s2" "t1" "t1") as (f & Hf & Hm).
  - vm_compute. repeat split; discriminate.
  - vm_compute. repeat split; discriminate.
  - reflexivity.
  - reflexivity.
  - exists f. split; [exact Hf|]. specialize (Hm stored_row). exact (proj1 Hm).
Defined.
