(* ===== verification/PrintState.v ===== *)
(** * The print state of a job

    The agent's print report as the hub accepts it
    ([crates/pandar-hub/src/grpc/print_reports.rs], [apply_input]), its
    reconciliation with the stored print state
    ([repositories/jobs/print_reports/state.rs]) and the compare-and-set that
    writes the result. *)

From S2P Require Import Prelude RustStr CoreTypes CoreRecords Store JobRows PrinterRows LiveStatus.

#[local] Open Scope Z_scope.
#[local] Open Scope rust_scope.

(** ** Accepting a report *)

(** The message fields of [PrintJobReport] (protobuf). *)
Module MachineDiagnostic.
Record t := mk {
  kind : string; severity : string; code : string; message : string; payload_json : string }.
End MachineDiagnostic.

Module PrintJobReport.
Record t := mk {
  serial : string; job_id : string; artifact_id : string; subtask_id : string;
  gcode_file : string; subtask_name : string; gcode_state : string;
  has_print_error : bool; print_error : Z; has_printer_job_id : bool; printer_job_id : string;
  has_job_attr : bool; job_attr : Z; has_percent : bool; percent : Z;
  has_speed_level : bool; speed_level : Z;
  has_remaining_time_minutes : bool; remaining_time_minutes : Z;
  has_current_layer : bool; current_layer : Z; has_total_layers : bool; total_layers : Z;
  has_hms : bool; hms : list PrinterHms; diagnostics : list MachineDiagnostic.t;
  printer_materials_json : string; observed_at : string }.
End PrintJobReport.

Module PrintReportDiagnostic.
Record t := mk {
  kind : string; severity : string; code : option string; message : string;
  payload_json : string }.
End PrintReportDiagnostic.

Module ApplyPrintReport.
Record t := mk {
  tenant_id : TenantId; agent_id : AgentId; serial : string; task_id : option string;
  job_id : option JobId; print_error : option Z; printer_job_id : option string;
  job_attr : option Z; artifact_id : option string; subtask_id : option string;
  gcode_file : option string; subtask_name : option string; gcode_state : option string;
  percent : option Z; speed_level : option Z; remaining_time_minutes : option Z;
  current_layer : option Z; total_layers : option Z; hms : option (list PrinterHms);
  diagnostics : list PrintReportDiagnostic.t; printer_materials_json : string;
  observed_at : string }.
End ApplyPrintReport.

Module I := ApplyPrintReport.
Module R := PrintJobReport.

(** [Status::invalid_argument]. *)
Inductive Status := InvalidArgument (message : string).

Definition required_text (value message : string) : result Status string :=
  let value := trim value in
  if beq value EmptyString then Err (InvalidArgument message) else Ok value.

Definition trim_optional (value : string) : option string :=
  let value := trim value in
  if negb (beq value EmptyString) then Some value else None.

(** [flag.then_some(value)]. *)
Definition then_some {A} (b : bool) (a : A) : option A := if b then Some a else None.

Definition normalized_severity (severity : option string) : string :=
  match severity with
  | None => "info"
  | Some s => if beq s "info" then "info" else if beq s "warning" then "warning"
              else if beq s "error" then "error" else "warning"
  end%string.

Definition diagnostic (d : MachineDiagnostic.t) : option PrintReportDiagnostic.t :=
  kind ← trim_optional (MachineDiagnostic.kind d);
  Some (PrintReportDiagnostic.mk kind
    (normalized_severity (trim_optional (MachineDiagnostic.severity d)))
    (trim_optional (MachineDiagnostic.code d))
    (default EmptyString (trim_optional (MachineDiagnostic.message d)))
    (default "{}"%string (trim_optional (MachineDiagnostic.payload_json d)))).

Fixpoint filter_map {A B} (f : A -> option B) (l : list A) : list B :=
  match l with
  | [] => []
  | x :: l => match f x with Some y => y :: filter_map f l | None => filter_map f l end
  end.

Section Accept.
Context `{UuidText} `{Rfc3339}.

Definition validate_rfc3339 (value : string) : result Status unit :=
  match rfc_parse value with
  | Some _ => Ok tt
  | None => Err (InvalidArgument "observed_at must be RFC3339")
  end.

(** [optional_job_id]: a job id that is not one of ours is ignored. *)
Definition optional_job_id (value : string) : option JobId :=
  v ← trim_optional value; r_ok (JobId_parse v).

Definition optional_uuid_string (value : string) : option string :=
  v ← trim_optional value; u ← uuid_parse v; Some v.

Definition apply_input (tenant_id : TenantId) (agent_id : AgentId) (r : R.t)
  : result Status I.t :=
  serial <-? required_text (R.serial r) "serial must not be blank" ;;
  observed_at <-? required_text (R.observed_at r) "observed_at must not be blank" ;;
  validate_rfc3339 observed_at ?;;
  Ok (I.mk tenant_id agent_id serial (trim_optional (R.job_id r))
        (optional_job_id (R.job_id r))
        (opt_filter (fun v => v <=? i32_max) (then_some (R.has_print_error r) (R.print_error r)))
        (then_some (R.has_printer_job_id r) (R.printer_job_id r))
        (then_some (R.has_job_attr r) (R.job_attr r))
        (optional_uuid_string (R.artifact_id r))
        (trim_optional (R.subtask_id r)) (trim_optional (R.gcode_file r))
        (trim_optional (R.subtask_name r)) (trim_optional (R.gcode_state r))
        (opt_filter (fun v => v <=? 100) (then_some (R.has_percent r) (R.percent r)))
        (opt_filter (in_range 1 4) (then_some (R.has_speed_level r) (R.speed_level r)))
        (opt_filter (fun v => v <=? 4320)
           (then_some (R.has_remaining_time_minutes r) (R.remaining_time_minutes r)))
        (opt_filter (fun v => v <=? 100000)
           (then_some (R.has_current_layer r) (R.current_layer r)))
        (opt_filter (fun v => v <=? 100000)
           (then_some (R.has_total_layers r) (R.total_layers r)))
        (then_some (R.has_hms r) (R.hms r))
        (filter_map diagnostic (R.diagnostics r)) (R.printer_materials_json r) observed_at).
End Accept.

(** ** Reconciling with the stored state *)

Module PrintUpdate.
Record t := mk {
  print_status : string; printer_state : option string; progress_percent : option Z;
  remaining_time_minutes : option Z; current_layer : option Z; total_layers : option Z;
  active_file : option string; last_progress_percent : option Z; last_layer : option Z;
  print_error : option string; print_started_at : option string;
  print_finished_at : option string; print_updated_at : option string }.
End PrintUpdate.

Module U := PrintUpdate.

#[export] Instance PrintUpdate_eq_dec : EqDecision U.t.
Proof. solve_decision. Defined.

Definition update_from_job (j : JobWithArtifact.t) : U.t :=
  let p := Job.print (JobWithArtifact.job j) in
  U.mk (PrintStatus.as_str (JobPrintState.status p)) (JobPrintState.printer_state p)
    (JobPrintState.progress_percent p) (JobPrintState.remaining_time_minutes p)
    (JobPrintState.current_layer p) (JobPrintState.total_layers p)
    (JobPrintState.active_file p) (JobPrintState.last_progress_percent p)
    (JobPrintState.last_layer p) (JobPrintState.error p) (JobPrintState.started_at p)
    (JobPrintState.finished_at p) (JobPrintState.updated_at p).

Definition is_terminal_status (s : PrintStatus.t) : bool :=
  match s with
  | PrintStatus.Completed | PrintStatus.Failed | PrintStatus.Cancelled => true
  | _ => false
  end.

Definition incoming_status (input : I.t) (current : option PrintStatus.t)
  : option PrintStatus.t :=
  match option_map trim (I.gcode_state input) with
  | Some state =>
      if beq state "RUNNING"%string then Some PrintStatus.Running
      else if beq state "FINISH"%string then Some PrintStatus.Completed
      else if beq state "FAILED"%string then Some PrintStatus.Failed
      else if beq state "IDLE"%string && beq current (Some PrintStatus.Running)
      then Some PrintStatus.Cancelled
      else None
  | None =>
      if beq current (Some PrintStatus.Stalled)
         && ((0 <? default 0 (I.percent input)) || (0 <? default 0 (I.current_layer input)))
      then Some PrintStatus.Running
      else None
  end.

Definition terminal_error (input : I.t) : option string :=
  let message d := negb (blank (PrintReportDiagnostic.message d)) in
  opt_or
    (option_map (fun d => trim (PrintReportDiagnostic.message d))
       (List.find (fun d => beq (PrintReportDiagnostic.kind d) "print_error"%string && message d)
          (I.diagnostics input)))
    (option_map (fun d => trim (PrintReportDiagnostic.message d))
       (List.find message (I.diagnostics input))).

(** The status part of [reconciled_update]: the branch taken when the stored
    status is not terminal and the report carries a status. *)
Definition enter_status (next : U.t) (status : PrintStatus.t) (input : I.t) : U.t :=
  let next := next <| U.print_status := PrintStatus.as_str status |> in
  let next := if beq status PrintStatus.Running && is_none (U.print_started_at next)
              then next <| U.print_started_at := Some (I.observed_at input) |> else next in
  let next := if is_terminal_status status && is_none (U.print_finished_at next)
              then next <| U.print_finished_at := Some (I.observed_at input) |> else next in
  if beq status PrintStatus.Failed
  then next <| U.print_error := Some (default "print failed"%string (terminal_error input)) |>
  else if beq status PrintStatus.Cancelled && is_none (U.print_error next)
  then next <| U.print_error := Some (default "print cancelled"%string (terminal_error input)) |>
  else next.

(** The progress part. *)
Definition apply_progress (next : U.t) (input : I.t) : U.t :=
  let next := if is_some (I.gcode_state input)
              then next <| U.printer_state := I.gcode_state input |> else next in
  let next := match I.percent input with
    | Some percent =>
        next <| U.progress_percent := Some percent |>
             <| U.last_progress_percent :=
                  Some (match U.last_progress_percent next with
                        | Some last => Z.max last percent | None => percent end) |>
    | None => next
    end in
  let next := match I.remaining_time_minutes input with
    | Some minutes => next <| U.remaining_time_minutes := Some minutes |>
    | None => next
    end in
  let next := match I.current_layer input with
    | Some layer =>
        next <| U.current_layer := Some layer |>
             <| U.last_layer :=
                  Some (match U.last_layer next with
                        | Some last => Z.max last layer | None => layer end) |>
    | None => next
    end in
  let next := match I.total_layers input with
    | Some total_layers => next <| U.total_layers := Some total_layers |>
    | None => next
    end in
  let next := match opt_filter (fun v => negb (blank v))
                      (opt_or (I.gcode_file input) (I.subtask_name input)) with
    | Some active_file => next <| U.active_file := Some (trim active_file) |>
    | None => next
    end in
  next <| U.print_updated_at := Some (I.observed_at input) |>.

Definition reconciled_update (current : U.t) (input : I.t) : U.t :=
  let current_status := r_ok (PrintStatus.from_str (U.print_status current)) in
  let is_terminal := match current_status with
                     | Some s => is_terminal_status s | None => false end in
  let next :=
    match incoming_status input current_status with
    | Some status => if negb is_terminal then enter_status current status input else current
    | None => current
    end in
  apply_progress next input.

(** ** Writing it back *)
Section Write.
Context `{Store} `{UuidText}.

(** [value as i32] of a [u32]. *)
Definition as_i32 (z : Z) : Z := (z + 2 ^ 31) mod 2 ^ 32 - 2 ^ 31.

Definition write_print (m : JobsModel.t) (u : U.t) (now : string) : JobsModel.t :=
  {| JobsModel.id := JobsModel.id m; JobsModel.tenant_id := JobsModel.tenant_id m;
     JobsModel.printer_id := JobsModel.printer_id m; JobsModel.agent_id := JobsModel.agent_id m;
     JobsModel.artifact_id := JobsModel.artifact_id m;
     JobsModel.command_id := JobsModel.command_id m;
     JobsModel.studio_submission_id := JobsModel.studio_submission_id m;
     JobsModel.plate_index := JobsModel.plate_index m;
     JobsModel.studio_metadata_json := JobsModel.studio_metadata_json m;
     JobsModel.status := JobsModel.status m; JobsModel.error := JobsModel.error m;
     JobsModel.created_at := JobsModel.created_at m; JobsModel.updated_at := now;
     JobsModel.print_status := U.print_status u; JobsModel.printer_state := U.printer_state u;
     JobsModel.progress_percent := U.progress_percent u;
     JobsModel.remaining_time_minutes := option_map as_i32 (U.remaining_time_minutes u);
     JobsModel.current_layer := option_map as_i32 (U.current_layer u);
     JobsModel.total_layers := option_map as_i32 (U.total_layers u);
     JobsModel.active_file := U.active_file u;
     JobsModel.last_progress_percent := U.last_progress_percent u;
     JobsModel.last_layer := option_map as_i32 (U.last_layer u);
     JobsModel.print_error := U.print_error u;
     JobsModel.print_started_at := U.print_started_at u;
     JobsModel.print_finished_at := U.print_finished_at u;
     JobsModel.print_updated_at := U.print_updated_at u;
     JobsModel.ams_mapping_json := JobsModel.ams_mapping_json m;
     JobsModel.ams_mapping2_json := JobsModel.ams_mapping2_json m;
     JobsModel.ams_mapping_info_json := JobsModel.ams_mapping_info_json m;
     JobsModel.uploaded_url := JobsModel.uploaded_url m |}.

Definition TERMINAL_PRINT_STATUSES : list string := ["completed"; "failed"; "cancelled"]%string.

(** [update_job_print]: the rows after the statement and whether one was hit. *)
Definition update_job_print (jobs : list JobsModel.t) (job_id : JobId)
    (expected_print_status : string) (update : U.t) (now : string) : list JobsModel.t * bool :=
  let '(jobs, affected) := update_many
    (fun m => beq (JobsModel.id m) (JobId_to_string job_id)
              && beq (JobsModel.print_status m) expected_print_status
              && negb (bool_decide (JobsModel.print_status m ∈ TERMINAL_PRINT_STATUSES)))
    (fun m => write_print m update now) jobs in
  (jobs, 0 <? affected).
End Write.

(** ** Lemmas *)

#[local] Arguments apply_progress : simpl never.
#[local] Arguments enter_status : simpl never.
#[local] Arguments reconciled_update : simpl never.

(** The stored status, if it is one the code knows. *)
Definition status_of (u : U.t) : option PrintStatus.t :=
  r_ok (PrintStatus.from_str (U.print_status u)).

Lemma status_of_as_str u s :
  U.print_status u = PrintStatus.as_str s -> status_of u = Some s.
Proof. unfold status_of. intros ->. by destruct s. Qed.

Lemma status_of_str u s : status_of u = Some s -> U.print_status u = PrintStatus.as_str s.
Proof.
  unfold status_of. destruct (PrintStatus.from_str (U.print_status u)) as [s'|] eqn:E; [|done].
  intros [= <-]. symmetry.
  exact (@as_str_from_str _ PrintStatus_str _ _ E).
Qed.

Lemma enter_status_print_status u s i :
  U.print_status (enter_status u s i) = PrintStatus.as_str s.
Proof. unfold enter_status. repeat case_match; reflexivity. Qed.

(** The running maximum kept with a reported value. *)
Definition max_opt (o last : option Z) : option Z :=
  match o with
  | Some v => Some (match last with Some l => Z.max l v | None => v end)
  | None => last
  end.

(** [apply_progress] leaves the lifecycle fields alone. *)
Definition lifecycle (u : U.t) :=
  (U.print_status u, U.print_error u, U.print_started_at u, U.print_finished_at u).

Lemma apply_progress_lifecycle u i : lifecycle (apply_progress u i) = lifecycle u.
Proof. unfold apply_progress, lifecycle. repeat case_match; reflexivity. Qed.

(** The fields after [apply_progress], all at once. *)
Lemma apply_progress_eq u i :
  apply_progress u i =
  U.mk (U.print_status u) (opt_or (I.gcode_state i) (U.printer_state u))
    (opt_or (I.percent i) (U.progress_percent u))
    (opt_or (I.remaining_time_minutes i) (U.remaining_time_minutes u))
    (opt_or (I.current_layer i) (U.current_layer u))
    (opt_or (I.total_layers i) (U.total_layers u))
    (opt_or (option_map trim (opt_filter (fun v => negb (blank v))
               (opt_or (I.gcode_file i) (I.subtask_name i)))) (U.active_file u))
    (max_opt (I.percent i) (U.last_progress_percent u))
    (max_opt (I.current_layer i) (U.last_layer u))
    (U.print_error u) (U.print_started_at u) (U.print_finished_at u) (Some (I.observed_at i)).
Proof.
  unfold apply_progress.
  destruct u, (I.gcode_state i), (I.percent i), (I.remaining_time_minutes i),
    (I.current_layer i), (I.total_layers i), (opt_filter _ _);
    cbv -[trim Z.max I.observed_at]; reflexivity.
Qed.

Lemma max_opt_idem o last : max_opt o (max_opt o last) = max_opt o last.
Proof. destruct o, last; simpl; f_equal; lia. Qed.

Lemma opt_or_idem {A} (o o' : option A) : opt_or o (opt_or o o') = opt_or o o'.
Proof. by destruct o. Qed.

Lemma apply_progress_idem u i : apply_progress (apply_progress u i) i = apply_progress u i.
Proof. rewrite !apply_progress_eq. simpl. by rewrite !max_opt_idem, !opt_or_idem. Qed.

(** The status change of one report. *)
Definition next_status (u : U.t) (i : I.t) : option PrintStatus.t :=
  match incoming_status i (status_of u) with
  | Some s => match status_of u with
              | Some c => if is_terminal_status c then None else Some s
              | None => Some s
              end
  | None => None
  end.

Lemma reconciled_unfold u i :
  reconciled_update u i =
  apply_progress (match next_status u i with
                  | Some s => enter_status u s i
                  | None => u
                  end) i.
Proof.
  unfold reconciled_update, next_status. fold (status_of u).
  destruct (incoming_status i (status_of u)), (status_of u) as [c|]; try done.
  by destruct (is_terminal_status c).
Qed.

Lemma lifecycle_status u v : lifecycle u = lifecycle v -> status_of u = status_of v.
Proof. unfold lifecycle, status_of. intros [= -> _ _ _]. done. Qed.

(** *** The lifecycle of a print *)

(** The changes of status a report may cause. *)
Inductive report_step : PrintStatus.t -> PrintStatus.t -> Prop :=
| step_running s : is_terminal_status s = false -> report_step s PrintStatus.Running
| step_finish s : is_terminal_status s = false -> report_step s PrintStatus.Completed
| step_fail s : is_terminal_status s = false -> report_step s PrintStatus.Failed
| step_idle : report_step PrintStatus.Running PrintStatus.Cancelled.

Lemma next_status_step u i s c :
  status_of u = Some c -> next_status u i = Some s -> report_step c s.
Proof.
  unfold next_status. intros Hc. rewrite Hc.
  destruct (incoming_status i (Some c)) as [s'|] eqn:E; [|done].
  destruct (is_terminal_status c) eqn:Et; [done|]. intros [= <-]. revert E.
  unfold incoming_status. destruct (option_map trim (I.gcode_state i)) as [g|].
  - repeat (destruct (beq g _); [try (intros [= <-]; by constructor)|]); simpl; try done.
    unfold beq. case_bool_decide; [|done]. intros [= <-]. simplify_eq. constructor.
  - destruct (_ && _) eqn:Eb; [|done]. intros [= <-]. by constructor.
Qed.

Definition reconcile_all (u : U.t) (reports : list I.t) : U.t := foldl reconciled_update u reports.

Lemma reconciled_status u i :
  status_of (reconciled_update u i) =
  match next_status u i with Some s => Some s | None => status_of u end.
Proof.
  rewrite reconciled_unfold, (lifecycle_status _ _ (apply_progress_lifecycle _ _)).
  destruct (next_status u i); [|done]. apply status_of_as_str, enter_status_print_status.
Qed.

Lemma terminal_next_status u i c :
  status_of u = Some c -> is_terminal_status c = true -> next_status u i = None.
Proof. unfold next_status. intros -> ->. by destruct (incoming_status i _). Qed.

(** C12: the status of a print only moves along the lifecycle, whatever reports
    arrive and in whatever order: no report returns it to pending or stalled,
    only a running print is cancelled by an idle printer, and once completed,
    failed or cancelled its status, error, start and finish times are final. *)
Theorem print_lifecycle (u : U.t) (reports : list I.t) (c : PrintStatus.t)
    (Hc : status_of u = Some c) :
  exists c', status_of (reconcile_all u reports) = Some c'
    /\ rtc report_step c c'
    /\ (is_terminal_status c = true -> lifecycle (reconcile_all u reports) = lifecycle u).
Proof.
  revert u c Hc. induction reports as [|i reports IH]; intros u c Hc; simpl.
  { exists c. split; [done|]. split; [apply rtc_refl|done]. }
  pose proof (reconciled_status u i) as Hs.
  destruct (next_status u i) as [s|] eqn:En.
  - destruct (IH _ _ Hs) as (c' & Hc' & Hr & _). exists c'. split; [done|]. split.
    + eapply rtc_l; [|exact Hr]. by eapply next_status_step.
    + intros Ht. by rewrite (terminal_next_status _ _ _ Hc Ht) in En.
  - rewrite Hc in Hs. destruct (IH _ _ Hs) as (c' & Hc' & Hr & Hf). exists c'.
    split; [done|]. split; [done|]. intros Ht. rewrite (Hf Ht), reconciled_unfold, En.
    apply apply_progress_lifecycle.
Qed.

(** A print state is consistent when a started, finished or failed print has
    the times and the message that belong to its status. *)
Definition print_wf (u : U.t) : Prop :=
  match status_of u with
  | Some PrintStatus.Running => is_Some (U.print_started_at u)
  | Some PrintStatus.Completed => is_Some (U.print_finished_at u)
  | Some PrintStatus.Failed | Some PrintStatus.Cancelled =>
      is_Some (U.print_finished_at u) /\ is_Some (U.print_error u)
  | _ => True
  end.

Lemma enter_status_wf u s i : print_wf (enter_status u s i).
Proof.
  unfold print_wf. rewrite (status_of_as_str _ s) by apply enter_status_print_status.
  unfold enter_status. destruct s; try exact I; cbn [is_terminal_status andb beq];
    change (beq PrintStatus.Failed PrintStatus.Failed) with true;
    change (beq PrintStatus.Running PrintStatus.Running) with true;
    change (beq PrintStatus.Cancelled PrintStatus.Cancelled) with true;
    change (beq PrintStatus.Cancelled PrintStatus.Failed) with false;
    change (beq PrintStatus.Running PrintStatus.Failed) with false;
    change (beq PrintStatus.Running PrintStatus.Cancelled) with false;
    change (beq PrintStatus.Completed PrintStatus.Failed) with false;
    change (beq PrintStatus.Completed PrintStatus.Cancelled) with false;
    change (beq PrintStatus.Completed PrintStatus.Running) with false;
    change (beq PrintStatus.Cancelled PrintStatus.Running) with false;
    change (beq PrintStatus.Failed PrintStatus.Running) with false;
    destruct u as [? ? ? ? ? ? ? ? ? [?|] [?|] [?|] ?]; simpl; eauto.
Qed.

Lemma lifecycle_wf u v : lifecycle u = lifecycle v -> print_wf u -> print_wf v.
Proof. unfold lifecycle, print_wf, status_of. intros [= -> -> -> ->]. done. Qed.

Lemma reconciled_wf u i : print_wf u -> print_wf (reconciled_update u i).
Proof.
  intros Hu. rewrite reconciled_unfold.
  apply (lifecycle_wf (match next_status u i with Some s => enter_status u s i | None => u end)).
  { by rewrite apply_progress_lifecycle. }
  destruct (next_status u i); [apply enter_status_wf|done].
Qed.

(** [o] is at most [o'], where nothing is below everything. *)
Definition opt_le (o o' : option Z) : Prop :=
  match o, o' with
  | Some a, Some b => a <= b
  | None, _ => True
  | Some _, None => False
  end.

#[global] Instance opt_le_preorder : PreOrder opt_le.
Proof.
  split; [intros [?|]; simpl; [lia|done]|].
  intros [?|] [?|] [?|]; simpl; try done; lia.
Qed.

Lemma max_opt_le o last : opt_le last (max_opt o last).
Proof. destruct o, last; simpl; try done; lia. Qed.
Lemma max_opt_ge o last : opt_le o (max_opt o last).
Proof. destruct o, last; simpl; try done; lia. Qed.

Lemma enter_status_progress u s i :
  U.progress_percent (enter_status u s i) = U.progress_percent u
  /\ U.last_progress_percent (enter_status u s i) = U.last_progress_percent u
  /\ U.current_layer (enter_status u s i) = U.current_layer u
  /\ U.last_layer (enter_status u s i) = U.last_layer u
  /\ U.remaining_time_minutes (enter_status u s i) = U.remaining_time_minutes u
  /\ U.total_layers (enter_status u s i) = U.total_layers u.
Proof. unfold enter_status. split_all; repeat case_match; reflexivity. Qed.

(** The high-water marks cover the current values. *)
Definition marks_cover (u : U.t) : Prop :=
  opt_le (U.progress_percent u) (U.last_progress_percent u)
  /\ opt_le (U.current_layer u) (U.last_layer u).

Lemma reconciled_marks u i :
  let u' := reconciled_update u i in
  opt_le (U.last_progress_percent u) (U.last_progress_percent u')
  /\ opt_le (U.last_layer u) (U.last_layer u')
  /\ (marks_cover u -> marks_cover u').
Proof.
  intros u'. subst u'. rewrite reconciled_unfold, apply_progress_eq. unfold marks_cover. simpl.
  set (v := match next_status u i with Some s => _ | None => _ end).
  assert (U.progress_percent v = U.progress_percent u
          /\ U.last_progress_percent v = U.last_progress_percent u
          /\ U.current_layer v = U.current_layer u /\ U.last_layer v = U.last_layer u)
    as (-> & -> & -> & ->).
  { subst v. destruct (next_status u i) as [s|]; [|done].
    pose proof (enter_status_progress u s i). by split_all. }
  split; [apply max_opt_le|]. split; [apply max_opt_le|]. intros [H1 H2].
  split; [destruct (I.percent i) eqn:E|destruct (I.current_layer i) eqn:E]; simpl opt_or;
    try done; rewrite <- E; apply max_opt_ge.
Qed.

(** Over any reports the high-water marks of progress and layer never fall and
    never lie below the value last reported, even when a printer reports
    progress going back. *)
Theorem print_progress_monotone (u : U.t) (reports : list I.t) (Hu : marks_cover u) :
  let u' := reconcile_all u reports in
  opt_le (U.last_progress_percent u) (U.last_progress_percent u')
  /\ opt_le (U.last_layer u) (U.last_layer u')
  /\ marks_cover u'.
Proof.
  revert u Hu. induction reports as [|i reports IH]; intros u Hu; simpl.
  { split; [done|]. by split. }
  destruct (reconciled_marks u i) as (Hp & Hl & Hm). destruct (IH _ (Hm Hu)) as (Hp' & Hl' & Hm').
  split; [by etrans|]. split; [by etrans|done].
Qed.

(** A print state stays consistent under any reports: a running print has a
    start time, an ended one an end time, and a failed or cancelled one says
    why. *)
Theorem print_state_consistent (u : U.t) (reports : list I.t) (Hu : print_wf u) :
  print_wf (reconcile_all u reports).
Proof.
  revert u Hu. induction reports as [|i reports IH]; intros u Hu; simpl; [done|].
  by apply IH, reconciled_wf.
Qed.

Lemma enter_running_next u i :
  next_status u i = Some PrintStatus.Running ->
  next_status (enter_status u PrintStatus.Running i) i = Some PrintStatus.Running
  \/ next_status (enter_status u PrintStatus.Running i) i = None.
Proof.
  unfold next_status at 2 3. rewrite (status_of_as_str _ PrintStatus.Running)
    by apply enter_status_print_status.
  unfold next_status, incoming_status. destruct (option_map trim (I.gcode_state i)) as [g|].
  - simpl. repeat (destruct (beq g _); [by auto|]). simpl.
    intros. repeat case_match; auto; simplify_eq.
  - intros _. simpl. by right.
Qed.

(** Reconciling the same report twice is the same as once. *)
Theorem reconciled_idempotent (u : U.t) (i : I.t) :
  reconciled_update (reconciled_update u i) i = reconciled_update u i.
Proof.
  rewrite (reconciled_unfold u i).
  set (v := match next_status u i with Some s => enter_status u s i | None => u end).
  rewrite reconciled_unfold.
  assert (next_status (apply_progress v i) i = next_status v i) as ->.
  { unfold next_status. by rewrite (lifecycle_status _ _ (apply_progress_lifecycle v i)). }
  assert (match next_status v i with
          | Some s => enter_status (apply_progress v i) s i = apply_progress v i
          | None => True
          end) as Hs.
  { subst v. destruct (next_status u i) as [s|] eqn:En; [|by rewrite En].
    destruct (is_terminal_status s) eqn:Et.
    { rewrite (terminal_next_status _ i s); [done| |done].
      apply status_of_as_str, enter_status_print_status. }
    assert (s = PrintStatus.Running) as ->.
    { revert En. unfold next_status, incoming_status.
      destruct (option_map trim (I.gcode_state i)); repeat case_match; intros; simplify_eq;
        simpl in *; try done; congruence. }
    destruct (enter_running_next u i En) as [->| ->]; [|done].
    rewrite apply_progress_eq. unfold enter_status.
    cbn [is_terminal_status andb beq];
    change (beq PrintStatus.Running PrintStatus.Running) with true;
    change (beq PrintStatus.Running PrintStatus.Failed) with false;
    change (beq PrintStatus.Running PrintStatus.Cancelled) with false.
    by destruct u as [? ? ? ? ? ? ? ? ? ? [?|] ? ?]. }
  destruct (next_status v i); [rewrite Hs|]; apply apply_progress_idem.
Qed.

(** ** The row *)

(** The bounds [apply_input] enforces on a report's numbers. *)
Definition report_bounds (i : I.t) : Prop :=
  opt_within 0 100 (I.percent i) /\ opt_within 1 4 (I.speed_level i)
  /\ opt_within 0 4320 (I.remaining_time_minutes i)
  /\ opt_within 0 100000 (I.current_layer i) /\ opt_within 0 100000 (I.total_layers i)
  /\ opt_within 0 i32_max (I.print_error i).

(** The numeric fields of the message are [u32]. *)
Definition wire_ok (r : R.t) : Prop :=
  0 <= R.percent r /\ 0 <= R.remaining_time_minutes r /\ 0 <= R.current_layer r
  /\ 0 <= R.total_layers r /\ 0 <= R.print_error r.

Lemma opt_filter_within lo hi (p : Z -> bool) b v :
  (p v = true -> lo <= v <= hi) -> opt_within lo hi (opt_filter p (then_some b v)).
Proof. intros Hp. destruct b; simpl; [|done]. destruct (p v); simpl; auto. Qed.

(** Job columns are [i32]. *)
Definition row_i32 (m : JobsModel.t) : Prop :=
  opt_within i32_min i32_max (JobsModel.remaining_time_minutes m)
  /\ opt_within i32_min i32_max (JobsModel.current_layer m)
  /\ opt_within i32_min i32_max (JobsModel.total_layers m)
  /\ opt_within i32_min i32_max (JobsModel.last_layer m).

Lemma as_i32_small z : 0 <= z <= i32_max -> as_i32 z = z.
Proof. unfold as_i32, i32_max. intros. rewrite Z.mod_small; lia. Qed.

Lemma max_opt_within lo hi o last :
  opt_within lo hi o -> opt_within lo hi last -> opt_within lo hi (max_opt o last).
Proof. destruct o, last; simpl; try done; lia. Qed.

Lemma opt_within_mono lo hi lo' hi' o :
  lo' <= lo -> hi <= hi' -> opt_within lo hi o -> opt_within lo' hi' o.
Proof. destruct o; simpl; [lia|done]. Qed.

Lemma map_as_i32 o : opt_within 0 i32_max o -> option_map as_i32 o = o.
Proof. destruct o; simpl; [|done]. intros. by rewrite as_i32_small. Qed.

Section RowFacts.
Context `{Store} `{UuidText} `{JobJson}.

Lemma traverse_i32_to_u32 o :
  opt_within 0 i32_max o -> traverse_opt i32_to_u32 o = Ok o.
Proof.
  intros Ho. apply (traverse_within 0 i32_max); [done|lia|unfold i32_max, u32_max; lia].
Qed.

Lemma traverse_i32_to_u8 o : opt_within 0 u8_max o -> traverse_opt i32_to_u8 o = Ok o.
Proof. intros Ho. by apply (traverse_within 0 u8_max). Qed.

Lemma traverse_Ok_within hi o o' :
  traverse_opt (fun z => ok_or (try_int 0 hi z) Database) o = Ok o' ->
  o' = o /\ opt_within 0 hi o.
Proof.
  unfold traverse_opt. destruct o as [z|]; simpl; [|by intros [= <-]].
  unfold try_int. destruct (in_range 0 hi z) eqn:E; simpl; [|done].
  intros [= <-]. split; [done|]. unfold in_range in E. bprop. lia.
Qed.

(** The numbers of a job record that came from a row. *)
Definition update_ok (u : U.t) : Prop :=
  opt_within 0 u8_max (U.progress_percent u)
  /\ opt_within 0 u8_max (U.last_progress_percent u)
  /\ opt_within 0 i32_max (U.remaining_time_minutes u)
  /\ opt_within 0 i32_max (U.current_layer u) /\ opt_within 0 i32_max (U.total_layers u)
  /\ opt_within 0 i32_max (U.last_layer u) /\ is_Some (status_of u).

Lemma reconciled_update_ok u i :
  update_ok u -> report_bounds i -> update_ok (reconciled_update u i).
Proof.
  unfold update_ok. intros Hu (Hp & _ & Hr & Hc & Ht & _).
  rewrite reconciled_status. split_all.
  7:{ destruct (next_status u i); [by eexists|done]. }
  all: rewrite reconciled_unfold, apply_progress_eq; simpl;
    set (v := match next_status u i with Some s => _ | None => _ end);
    assert (U.progress_percent v = U.progress_percent u
          /\ U.last_progress_percent v = U.last_progress_percent u
          /\ U.current_layer v = U.current_layer u /\ U.last_layer v = U.last_layer u
          /\ U.remaining_time_minutes v = U.remaining_time_minutes u
          /\ U.total_layers v = U.total_layers u) as Hv
      by (subst v; destruct (next_status u i); [apply enter_status_progress|done]);
    destruct Hv as (E1 & E2 & E3 & E4 & E5 & E6); rewrite ?E1, ?E2, ?E3, ?E4, ?E5, ?E6;
    (apply opt_within_or || apply max_opt_within); try done;
    (eapply opt_within_mono; [..|eassumption]; unfold u8_max, i32_max; lia).
Qed.
End RowFacts.

(** ** Reading a job row back *)

Section JobRow.
Context `{Store} `{UuidText} `{JobJson}.

Definition parse_metadata_column (o : option string)
  : result CoreError (option StudioPrintMetadata) :=
  r_transpose (option_map (fun v => map_err InvalidStudioPrintMetadata (parse_studio_metadata v)) o).

(** The text columns of a row and the fields of the record they become. *)
Definition row_texts (m : JobsModel.t) :=
  (JobsModel.printer_id m, JobsModel.artifact_id m, JobsModel.error m,
   JobsModel.ams_mapping_json m, JobsModel.ams_mapping2_json m,
   JobsModel.ams_mapping_info_json m, JobsModel.uploaded_url m,
   (JobsModel.created_at m, JobsModel.updated_at m)).
Definition job_texts (j : Job.t) :=
  (Job.printer_id j, Job.artifact_id j, Job.error j, Job.ams_mapping_json j,
   Job.ams_mapping2_json j, Job.ams_mapping_info_json j, Job.uploaded_url j,
   (Job.created_at j, Job.updated_at j)).

Definition row_print_texts (m : JobsModel.t) :=
  (JobsModel.printer_state m, JobsModel.active_file m, JobsModel.print_error m,
   JobsModel.print_started_at m, JobsModel.print_finished_at m, JobsModel.print_updated_at m).
Definition print_texts (p : JobPrintState.t) :=
  (JobPrintState.printer_state p, JobPrintState.active_file p, JobPrintState.error p,
   JobPrintState.started_at p, JobPrintState.finished_at p, JobPrintState.updated_at p).

(** [j] is what the row [m] says, column by column. *)
Definition row_is (m : JobsModel.t) (usage : list JobFilamentUsage.t) (j : Job.t) : Prop :=
  JobId_parse (JobsModel.id m) = Ok (Job.id j)
  /\ TenantId_parse (JobsModel.tenant_id m) = Ok (Job.tenant_id j)
  /\ AgentId_parse (JobsModel.agent_id m) = Ok (Job.agent_id j)
  /\ CommandId_parse (JobsModel.command_id m) = Ok (Job.command_id j)
  /\ i32_to_u32 (JobsModel.plate_index m) = Ok (Job.plate_index j)
  /\ StudioSubmissionId.try_from (JobsModel.studio_submission_id m)
     = Ok (Job.studio_submission_id j)
  /\ parse_metadata_column (JobsModel.studio_metadata_json m) = Ok (Job.studio_metadata j)
  /\ JobStatus.from_str (JobsModel.status m) = Ok (Job.status j)
  /\ blank (JobsModel.printer_id m) = false /\ blank (JobsModel.artifact_id m) = false
  /\ row_texts m = job_texts j /\ Job.filament_usage j = usage.

Definition row_print_is (m : JobsModel.t) (p : JobPrintState.t) : Prop :=
  PrintStatus.from_str (JobsModel.print_status m) = Ok (JobPrintState.status p)
  /\ traverse_opt i32_to_u8 (JobsModel.progress_percent m) = Ok (JobPrintState.progress_percent p)
  /\ traverse_opt i32_to_u32 (JobsModel.remaining_time_minutes m)
     = Ok (JobPrintState.remaining_time_minutes p)
  /\ traverse_opt i32_to_u32 (JobsModel.current_layer m) = Ok (JobPrintState.current_layer p)
  /\ traverse_opt i32_to_u32 (JobsModel.total_layers m) = Ok (JobPrintState.total_layers p)
  /\ traverse_opt i32_to_u8 (JobsModel.last_progress_percent m)
     = Ok (JobPrintState.last_progress_percent p)
  /\ traverse_opt i32_to_u32 (JobsModel.last_layer m) = Ok (JobPrintState.last_layer p)
  /\ row_print_texts m = print_texts p.

Lemma db_err_Ok {E A} (r : result E A) a : db_err r = Ok a <-> r = Ok a.
Proof. destruct r; simpl; split; congruence. Qed.

Lemma map_err_Ok {E F A} (f : E -> F) (r : result E A) a : map_err f r = Ok a <-> r = Ok a.
Proof. destruct r; simpl; split; congruence. Qed.

Lemma required_Ok s e : required s e = Ok tt <-> blank s = false.
Proof. unfold required. destruct (blank s); simpl; split; congruence. Qed.

(** Split a chain of [?] that ended in [Ok]. *)
Ltac bind_inv :=
  repeat match goal with
         | H : rbind _ _ = Ok _ |- _ =>
             apply rbind_Ok in H; let x := fresh "x" in let Hx := fresh "Hx" in
             destruct H as (x & Hx & H)
         | H : db_err _ = Ok _ |- _ => rewrite db_err_Ok in H
         | H : map_err _ _ = Ok _ |- _ => rewrite map_err_Ok in H
         end.

Lemma job_from_model_iff m usage j :
  job_from_model_with_usage m usage = Ok j <-> row_is m usage j /\ row_print_is m (Job.print j).
Proof.
  unfold row_is, row_print_is. split.
  - unfold job_from_model_with_usage. intros Hj. bind_inv.
    unfold Job.from_parts in Hj. simpl in Hj. bind_inv.
    repeat match goal with
           | u : unit |- _ => destruct u
           | H : required _ _ = Ok tt |- _ => apply required_Ok in H
           end.
    injection Hj as <-. simpl.
    split; repeat match goal with |- _ /\ _ => split end; first [assumption|reflexivity].
  - intros [(R1 & R2 & R3 & R4 & R5 & R6 & R7 & R8 & R9 & R10 & R11 & R12)
            (P1 & P2 & P3 & P4 & P5 & P6 & P7 & P8)].
    unfold job_from_model_with_usage.
    rewrite R1, R2, R3, R4. cbn [db_err map_err rbind]. rewrite R5. cbn [rbind].
    rewrite P2. cbn [rbind]. rewrite P3. cbn [rbind]. rewrite P4. cbn [rbind].
    rewrite P5. cbn [rbind]. rewrite P6. cbn [rbind]. rewrite P7. cbn [rbind].
    unfold Job.from_parts. simpl. unfold required. rewrite R9, R10. simpl. rewrite R6. simpl.
    unfold parse_metadata_column in R7. rewrite R7. simpl. rewrite R8. simpl. rewrite P1. simpl.
    destruct j as [? ? ? ? ? ? ? ? ? ? ? p]. destruct p.
    unfold row_texts, job_texts, row_print_texts, print_texts in *. simpl in *.
    by simplify_eq.
Qed.
End JobRow.

Section WriteFacts.
Context `{Store} `{UuidText} `{JobJson}.

Lemma job_row_update_ok m usage j a :
  row_i32 m -> job_from_model_with_usage m usage = Ok j ->
  update_ok (update_from_job (JobWithArtifact.mk j a)).
Proof.
  rewrite job_from_model_iff. intros Hm [_ (_ & P2 & P3 & P4 & P5 & P6 & P7 & _)].
  unfold row_i32 in Hm. unfold update_ok, update_from_job. simpl.
  unfold i32_to_u8, i32_to_u32 in *.
  apply traverse_Ok_within in P2 as [-> ?], P3 as [-> ?], P4 as [-> ?], P5 as [-> ?],
    P6 as [-> ?], P7 as [-> ?].
  assert (forall o, opt_within i32_min i32_max o -> opt_within 0 u32_max o ->
                    opt_within 0 i32_max o) as Hcut
    by (intros [z|]; simpl; [unfold i32_max; lia|done]).
  destruct Hm as (? & ? & ? & ?).
  split_all; auto. eexists. by apply status_of_as_str.
Qed.

(** C13: writing a reconciled report never corrupts a job: when the row of a job is
    readable and the report is within the bounds of the wire check, the row
    written by [update_job_print] is readable again, its print state is exactly
    the reconciled one (no number is truncated by the casts to [i32]) and
    nothing else of the job changes. *)
Theorem print_write_readable (m : JobsModel.t) (usage : list JobFilamentUsage.t) (j : Job.t)
    (a : JobArtifact.t) (i : I.t) (now : string)
    (Hm : row_i32 m) (Hj : job_from_model_with_usage m usage = Ok j) (Hi : report_bounds i) :
  let u := reconciled_update (update_from_job (JobWithArtifact.mk j a)) i in
  exists p, job_from_model_with_usage (write_print m u now) usage
            = Ok (j <| Job.print := p |> <| Job.updated_at := now |>)
    /\ update_from_job (JobWithArtifact.mk (j <| Job.print := p |>) a) = u.
Proof.
  intros u. pose proof (job_row_update_ok m usage j a Hm Hj) as Hu.
  apply (fun h => reconciled_update_ok _ _ h Hi) in Hu. fold u in Hu. clearbody u.
  destruct Hu as (U1 & U2 & U3 & U4 & U5 & U6 & [s Us]).
  exists (JobPrintState.mk s (U.printer_state u) (U.progress_percent u)
            (U.remaining_time_minutes u) (U.current_layer u) (U.total_layers u)
            (U.active_file u) (U.last_progress_percent u) (U.last_layer u) (U.print_error u)
            (U.print_started_at u) (U.print_finished_at u) (U.print_updated_at u)).
  pose proof (status_of_str _ _ Us) as Hs. split.
  - apply job_from_model_iff in Hj as [Hrow _]. apply job_from_model_iff. split.
    + unfold row_is, row_texts, job_texts in *. simpl. destruct Hrow as
        (H1' & H2' & H3' & H4' & H5' & H6' & H7' & H8' & H9' & H10' & H11' & H12').
      split_all; try assumption. congruence.
    + unfold row_print_is. simpl. rewrite !map_as_i32 by done.
      rewrite !traverse_i32_to_u8, !traverse_i32_to_u32 by done. rewrite Hs.
      split_all; try done. by destruct s.
  - unfold update_from_job. simpl. rewrite <- Hs. by destruct u.
Qed.
End WriteFacts.

(** ** What an accepted report guarantees *)

Section Accepted.
Context `{UuidText} `{Rfc3339}.

Definition clean_text (o : option string) : Prop :=
  match o with Some s => s <> EmptyString /\ exists raw, s = trim raw | None => True end.

Lemma trim_optional_clean s : clean_text (trim_optional s).
Proof.
  unfold trim_optional, clean_text. destruct (beq (trim s) EmptyString) eqn:E; simpl; [done|].
  apply beq_false in E. eauto.
Qed.

(** a report the hub accepts is attributed to the session that sent it, never
    to what the message claims, and is clean: its serial and time are not blank,
    the time parses, its texts are trimmed and not empty, and every number is in
    the range the stored columns can hold; out-of-range numbers are dropped, not
    clamped. *)
Theorem accepted_report_bounds (tenant_id : TenantId) (agent_id : AgentId) (r : R.t) (i : I.t)
    (Hr : wire_ok r) (Hi : apply_input tenant_id agent_id r = Ok i) :
  I.tenant_id i = tenant_id /\ I.agent_id i = agent_id
  /\ report_bounds i
  /\ I.serial i = trim (R.serial r) /\ I.serial i <> EmptyString
  /\ is_Some (rfc_parse (I.observed_at i))
  /\ Forall clean_text [I.task_id i; I.subtask_id i; I.gcode_file i; I.subtask_name i;
                        I.gcode_state i]
  /\ (forall v, I.percent i = Some v -> v = R.percent r)
  /\ (forall v, I.current_layer i = Some v -> v = R.current_layer r).
Proof.
  unfold apply_input, required_text, validate_rfc3339 in Hi.
  destruct (beq (trim (R.serial r)) EmptyString) eqn:Es; [done|]. simpl in Hi.
  destruct (beq (trim (R.observed_at r)) EmptyString); [done|]. simpl in Hi.
  destruct (rfc_parse (trim (R.observed_at r))) as [t|] eqn:Et; [|done]. simpl in Hi.
  injection Hi as <-. simpl. unfold wire_ok in Hr. apply beq_false in Es.
  split; [done|]. split; [done|]. split.
  { unfold report_bounds. simpl.
    split_all; apply opt_filter_within; intros Hp; unfold in_range in *; bprop; lia. }
  split; [done|]. split; [done|]. split; [by eexists|]. split.
  { repeat constructor; apply trim_optional_clean. }
  unfold then_some. split; intros v; case_match; simpl; try done; case_match; intros; congruence.
Qed.
End Accepted.

(** ** Witnesses *)

Definition pending_row : JobsModel.t :=
  JobsModel.mk "1" "0" "p1" "1" "a1" "0" 1 1 None "succeeded" None "t0" "t0" "pending" None None
    None None None None None None None None None None None None None None.

Definition running_report : I.t :=
  I.mk (mkTenantId 1) (mkAgentId 2) "serial" None None None None None None None
    (Some "/sd/a.3mf"%string) None (Some "RUNNING"%string) (Some 12) None (Some 90) (Some 3)
    (Some 200) None [] EmptyString "t1".

Definition failed_report : I.t :=
  I.mk (mkTenantId 1) (mkAgentId 2) "serial" None None None None None None None None None
    (Some "FAILED"%string) (Some 9) None None None None None [] EmptyString "t2".

Definition pending_update : U.t :=
  U.mk "pending" None None None None None None None None None None None None.

Lemma print_lifecycle_witness :
  exists c', status_of (reconcile_all pending_update [running_report; failed_report]) = Some c'
    /\ rtc report_step PrintStatus.Pending c'.
Proof.
  destruct (print_lifecycle pending_update [running_report; failed_report] PrintStatus.Pending)
    as (c' & Hc & Hr & _); [vm_compute; reflexivity|].
  exists c'. split; [exact Hc|exact Hr].
Defined.

Lemma print_progress_monotone_witness :
  opt_le (Some 12) (U.last_progress_percent
    (reconcile_all (reconciled_update pending_update running_report) [failed_report]))
  /\ U.progress_percent
      (reconcile_all (reconciled_update pending_update running_report) [failed_report]) = Some 9.
Proof.
  split; [|vm_compute; reflexivity].
  apply (print_progress_monotone (reconciled_update pending_update running_report) [failed_report]).
  vm_compute. split; discriminate.
Defined.

Lemma print_state_consistent_witness :
  print_wf (reconcile_all pending_update [running_report; failed_report])
  /\ U.print_status (reconcile_all pending_update [running_report; failed_report])
     = "failed"%string.
Proof.
  split; [|vm_compute; reflexivity].
  apply (print_state_consistent pending_update [running_report; failed_report]).
  vm_compute. exact Logic.I.
Defined.

Definition pending_job : Job.t :=
  Job.mk (mkJobId 2) (mkTenantId 1) "p1" (mkAgentId 2) "a1" (mkCommandId 1)
    (StudioSubmissionId.mk 1) 1 None JobStatus.Succeeded None JobPrintState.pending None None
    None None [] "t0" "t0".

Lemma print_write_readable_witness :
  let a := JobArtifact.mk "a1" (mkTenantId 1) "a.3mf" "model/3mf" 1 "p" None "t0" in
  @job_from_model_with_usage binary_uuid no_json pending_row [] = Ok pending_job
  /\ exists p, @job_from_model_with_usage binary_uuid no_json
        (write_print pending_row
           (reconciled_update (update_from_job (JobWithArtifact.mk pending_job a)) running_report)
           "t3") []
      = Ok (pending_job <| Job.print := p |> <| Job.updated_at := "t3"%string |>).
Proof.
  intros a.
  assert (@job_from_model_with_usage binary_uuid no_json pending_row [] = Ok pending_job) as Hj
    by (vm_compute; reflexivity).
  split; [exact Hj|].
  destruct (@print_write_readable binary_uuid no_json pending_row [] pending_job a running_report
              "t3") as (p & Hp & _); [|exact Hj| |exists p; exact Hp].
  - vm_compute. repeat split.
  - vm_compute. repeat split; discriminate.
Defined.

Definition wire_report : R.t :=
  R.mk " serial " EmptyString EmptyString EmptyString "/sd/a.3mf" EmptyString "RUNNING" false 0 false EmptyString false 0 true 12 true 9 true
    90 true 3 true 4294967295 false [] [] EmptyString "0".

Lemma accepted_report_bounds_witness :
  exists i, @apply_input binary_uuid binary_clock (mkTenantId 1) (mkAgentId 2) wire_report = Ok i
    /\ report_bounds i /\ I.total_layers i = None.
Proof.
  destruct (@apply_input binary_uuid binary_clock (mkTenantId 1) (mkAgentId 2) wire_report)
    as [i|e] eqn:E; [|vm_compute in E; discriminate].
  exists i. split; [reflexivity|]. split.
  - apply (@accepted_report_bounds binary_uuid binary_clock (mkTenantId 1) (mkAgentId 2)
             wire_report i); [|exact E].
    vm_compute. repeat split; discriminate.
  - vm_compute in E. injection E as <-. reflexivity.
Defined.
