(* ===== verification/Correlation.v ===== *)
(** * Which job a print report is about

    [repositories/jobs/print_reports/correlation.rs]: the printer a report
    names, and the job it is correlated with - by job id, by the submission
    recorded in the result of the print command, by artifact, or by the file
    being printed. *)

From S2P Require Import Prelude RustStr CoreTypes CoreRecords Store JobRows PrinterRows LiveStatus PrintState.

#[local] Open Scope Z_scope.
#[local] Open Scope rust_scope.

Record PrinterMatch := mkPrinterMatch {
  match_id : string; match_live_status : PrinterLiveStatus.t }.

(** The part of a print command's result a report is correlated through. *)
Record PersistedProjectFileIdentity := mkIdentity {
  identity_command : string; identity_task_id : string }.
Record PersistedProjectFileEnvelope := mkEnvelope { envelope_print : PersistedProjectFileIdentity }.
Record PersistedPrintProjectMqtt := mkMqtt { mqtt_payload : PersistedProjectFileEnvelope }.
Record PersistedPrintProjectResult := mkPrintResult {
  result_kind : string; result_mqtt : PersistedPrintProjectMqtt }.

(** [serde_json::from_str::<PersistedPrintProjectResult>]. *)
Class ReportJson := { parse_print_result : string -> option PersistedPrintProjectResult }.

(** [value.rsplit(..).next()]: what follows the last separator. *)
Fixpoint after_separator (is_sep : ascii -> bool) (s : string) : option string :=
  match s with
  | EmptyString => None
  | String c s =>
      match after_separator is_sep s with
      | Some r => Some r
      | None => if is_sep c then Some s else None
      end
  end.

Definition path_separator (c : ascii) : bool := byte_is 47 c || byte_is 92 c.

Definition basename (value : string) : option string :=
  let value := trim value in
  opt_filter (fun v => negb (beq v EmptyString))
    (Some (default value (after_separator path_separator value))).

(** [rsplit_once('.')] keeps what precedes the last dot. *)
Fixpoint before_last_dot (s : string) : option string :=
  match s with
  | EmptyString => None
  | String c s =>
      match before_last_dot s with
      | Some r => Some (String c r)
      | None => if byte_is 46 c then Some EmptyString else None
      end
  end.

Definition filename_stem (filename : string) : string :=
  default filename (before_last_dot filename).

(** Does the file a report names match the artifact of a candidate? *)
Definition file_matches (input : ApplyPrintReport.t) (candidate : JobWithArtifact.t) : bool :=
  let report_basename := f ← ApplyPrintReport.gcode_file input; basename f in
  let subtask_name := opt_filter (fun v => negb (beq v EmptyString))
                        (option_map trim (ApplyPrintReport.subtask_name input)) in
  let filename := trim (JobArtifact.filename (JobWithArtifact.artifact candidate)) in
  is_some_and (fun name => beq name filename) report_basename
  || is_some_and (fun name => beq name (filename_stem filename)) subtask_name.

Definition is_stalled (j : JobWithArtifact.t) : bool :=
  beq (JobPrintState.status (Job.print (JobWithArtifact.job j))) PrintStatus.Stalled.

(** [active_matches.pop()] on one element. *)
Definition single_file_match (candidates : list JobWithArtifact.t) (input : ApplyPrintReport.t)
  : option JobWithArtifact.t :=
  let matches := List.filter (file_matches input) candidates in
  let active_matches := List.filter (fun c => negb (is_stalled c)) matches in
  let stalled_matches := List.filter is_stalled matches in
  match active_matches, stalled_matches with
  | [active], _ => Some active
  | [], [stalled] => Some stalled
  | _, _ => None
  end.

Section Correlate.
Context `{Store} `{UuidText} `{JobJson} `{PrinterJson} `{ReportJson} `{Rfc3339}.

Definition ACTIVE_PRINT_STATUSES : list string := ["pending"; "stalled"; "running"]%string.

Definition printer_for_serial (printers : list PrintersModel.t) (input : ApplyPrintReport.t)
  : result RepositoryError (option PrinterMatch) :=
  match select_one (fun p =>
          beq (PrintersModel.tenant_id p) (TenantId_to_string (ApplyPrintReport.tenant_id input))
          && beq (PrintersModel.agent_id p) (AgentId_to_string (ApplyPrintReport.agent_id input))
          && beq (PrintersModel.serial_number p) (ApplyPrintReport.serial input)) printers with
  | None => Ok None
  | Some model =>
      printer <-? live_status_from_model model ;;
      Ok (Some (mkPrinterMatch
                  (Printer.id (PrinterWithLiveStatus.printer printer))
                  (PrinterWithLiveStatus.live_status printer)))
  end.

(** [hydrate_jobs_with_artifacts(..).into_iter().next()] of an optional row. *)
Definition hydrate_first (db : Db.t) (row : option JobsModel.t)
  : result RepositoryError (option JobWithArtifact.t) :=
  match row with
  | None => Ok None
  | Some job => jobs <-? hydrate_jobs_with_artifacts db [job] ;; Ok (head jobs)
  end.

Definition job_by_id (db : Db.t) (tenant_id : TenantId) (job_id : JobId)
  : result RepositoryError (option JobWithArtifact.t) :=
  hydrate_first db (select_one (fun j =>
    beq (JobsModel.id j) (JobId_to_string job_id)
    && beq (JobsModel.tenant_id j) (TenantId_to_string tenant_id)) (Db.jobs db)).

(** The filters every correlation query shares. *)
Definition owned_job (input : ApplyPrintReport.t) (printer : PrinterMatch) (j : JobsModel.t)
  : bool :=
  beq (JobsModel.tenant_id j) (TenantId_to_string (ApplyPrintReport.tenant_id input))
  && beq (JobsModel.agent_id j) (AgentId_to_string (ApplyPrintReport.agent_id input))
  && beq (JobsModel.printer_id j) (match_id printer).

Definition job_by_id_for_printer (db : Db.t) (input : ApplyPrintReport.t)
    (printer : PrinterMatch) (job_id : JobId)
  : result RepositoryError (option JobWithArtifact.t) :=
  hydrate_first db (select_one (fun j =>
    beq (JobsModel.id j) (JobId_to_string job_id) && owned_job input printer j) (Db.jobs db)).

(** The command rows whose result names the task of the report. *)
Definition command_matches_task (task_id : string) (command : CommandsModel.t) : bool :=
  match r ← CommandsModel.result_json command; parse_print_result r with
  | Some result =>
      beq (result_kind result) "print_project_file"%string
      && beq (identity_command (envelope_print (mqtt_payload (result_mqtt result))))
             "project_file"%string
      && beq (identity_task_id (envelope_print (mqtt_payload (result_mqtt result)))) task_id
  | None => false
  end.

Definition submission_rows (db : Db.t) (input : ApplyPrintReport.t) (printer : PrinterMatch)
  : list JobsModel.t :=
  match ApplyPrintReport.task_id input with
  | None => []
  | Some task_id =>
      let job_models :=
        List.filter (fun j => beq (JobsModel.status j) (JobStatus.as_str JobStatus.Succeeded))
          (select (fun j => owned_job input printer j
                    && bool_decide (JobsModel.print_status j ∈ ACTIVE_PRINT_STATUSES))
             (Db.jobs db)) in
      let command_models :=
        select (fun c =>
          bool_decide (CommandsModel.id c ∈ map JobsModel.command_id job_models)
          && beq (CommandsModel.tenant_id c)
                 (TenantId_to_string (ApplyPrintReport.tenant_id input))
          && beq (CommandsModel.agent_id c) (AgentId_to_string (ApplyPrintReport.agent_id input))
          && beq (CommandsModel.printer_id c) (Some (match_id printer))
          && beq (CommandsModel.kind c) "print_project_file"%string
          && beq (CommandsModel.status c) (CommandStatus.as_str CommandStatus.Succeeded)
          && is_some (CommandsModel.result_json c)) (Db.commands db) in
      let matching_command_ids :=
        map CommandsModel.id (List.filter (command_matches_task task_id) command_models) in
      List.filter (fun j => bool_decide (JobsModel.command_id j ∈ matching_command_ids)) job_models
  end.

Definition jobs_by_submission_id (db : Db.t) (input : ApplyPrintReport.t)
    (printer : PrinterMatch) : result RepositoryError (list JobWithArtifact.t) :=
  hydrate_jobs_with_artifacts db (submission_rows db input printer).

Definition job_by_artifact (db : Db.t) (input : ApplyPrintReport.t) (printer : PrinterMatch)
    (artifact_id : option string) : result RepositoryError (option JobWithArtifact.t) :=
  match artifact_id with
  | None => Ok None
  | Some artifact_id =>
      hydrate_first db (select_one (fun j =>
        owned_job input printer j && beq (JobsModel.artifact_id j) artifact_id) (Db.jobs db))
  end.

(** 24 hours in nanoseconds. *)
Definition day_ns : Z := 24 * 3600 * 1000000000.

Definition cutoff_observed_at (observed_at : string) : result RepositoryError string :=
  observed <-? ok_or (rfc_parse observed_at) Database ;;
  ok_or (rfc_format (observed - day_ns)) Database.

Definition active_job_models (db : Db.t) (input : ApplyPrintReport.t) (printer : PrinterMatch)
  : result RepositoryError (list JobsModel.t) :=
  cutoff <-? cutoff_observed_at (ApplyPrintReport.observed_at input) ;;
  Ok (select (fun j => owned_job input printer j
        && bool_decide (JobsModel.print_status j ∈ ACTIVE_PRINT_STATUSES)
        && text_le cutoff (JobsModel.created_at j)) (Db.jobs db)).

Definition job_by_active_file (db : Db.t) (input : ApplyPrintReport.t) (printer : PrinterMatch)
  : result RepositoryError (option JobWithArtifact.t) :=
  job_models <-? active_job_models db input printer ;;
  candidates <-? hydrate_jobs_with_artifacts db job_models ;;
  Ok (single_file_match candidates input).

Definition correlate_job (db : Db.t) (input : ApplyPrintReport.t) (printer : PrinterMatch)
  : result RepositoryError (option JobWithArtifact.t) :=
  by_id <-? match ApplyPrintReport.job_id input with
            | Some job_id => job_by_id_for_printer db input printer job_id
            | None => Ok None
            end ;;
  match by_id with
  | Some job => Ok (Some job)
  | None =>
      submission_matches <-? jobs_by_submission_id db input printer ;;
      match submission_matches with
      | [job] => Ok (Some job)
      | _ :: _ :: _ => Ok None
      | [] =>
          by_artifact <-? job_by_artifact db input printer (ApplyPrintReport.artifact_id input) ;;
          match by_artifact with
          | Some job => Ok (Some job)
          | None =>
              by_subtask <-?
                job_by_artifact db input printer (ApplyPrintReport.subtask_id input) ;;
              match by_subtask with
              | Some job => Ok (Some job)
              | None => job_by_active_file db input printer
              end
          end
      end
  end.
End Correlate.

(** ** Lemmas *)

Section CorrelateFacts.
Context `{Store} `{UuidText} `{JobJson} `{PrinterJson} `{ReportJson} `{Rfc3339}.
Context (db : Db.t) (input : ApplyPrintReport.t) (printer : PrinterMatch).
Context (Hkeys : keys_unique db) (Hids : NoDup (map JobsModel.id (Db.jobs db))).

(** A record correlated from a row of this tenant, agent and printer. *)
Definition correlated (h : JobWithArtifact.t) : Prop :=
  exists m, In m (Db.jobs db) /\ owned_job input printer m = true /\ hydrates db m h.

Definition owned_record (h : JobWithArtifact.t) : Prop :=
  Job.tenant_id (JobWithArtifact.job h) = ApplyPrintReport.tenant_id input
  /\ Job.agent_id (JobWithArtifact.job h) = ApplyPrintReport.agent_id input
  /\ Job.printer_id (JobWithArtifact.job h) = match_id printer.

Lemma job_with_artifact_row m a h :
  job_with_artifact_from_models m a = Ok h ->
  job_from_model_with_usage m [] = Ok (JobWithArtifact.job h).
Proof.
  unfold job_with_artifact_from_models, job_from_model. rewrite rbind_Ok.
  intros (j & Hj & Hr). rewrite rbind_Ok in Hr. destruct Hr as (a' & _ & [= <-]). done.
Qed.
Lemma correlated_owned h : correlated h -> owned_record h.
Proof.
  intros (m & _ & Ho & a & us & usage & h0 & _ & _ & _ & _ & Hj & ->).
  apply job_with_artifact_row, job_from_model_iff in Hj as [Hr _].
  destruct Hr as (_ & Ht & Ha & _ & _ & _ & _ & _ & _ & _ & Htx & _).
  unfold owned_job in Ho. rewrite !andb_true_iff, !beq_true in Ho.
  destruct Ho as ((Eot & Eoa) & Eop). rewrite Eot in Ht. rewrite Eoa in Ha.
  rewrite TenantId_parse_to_string in Ht. rewrite AgentId_parse_to_string in Ha.
  unfold row_texts, job_texts in Htx. unfold owned_record, with_usage. simpl.
  split_all; congruence.
Qed.

Lemma NoDup_map_select {A B} (f : A -> B) (p : A -> bool) l :
  NoDup (map f l) -> NoDup (map f (select p l)).
Proof.
  intros Hn. pose proof (NoDup_map_filter f p l Hn) as Hf.
  by rewrite <- (select_perm p l) in Hf.
Qed.

(** Every hydration of rows that belong to the printer yields correlated jobs. *)
Lemma hydrate_correlated rows hs :
  NoDup (map JobsModel.id rows) ->
  (forall m, In m rows -> In m (Db.jobs db) /\ owned_job input printer m = true) ->
  hydrate_jobs_with_artifacts db rows = Ok hs -> Forall correlated hs.
Proof.
  intros Hn Hrows Hh. apply hydrate_Ok in Hh; [|done..].
  apply List.Forall_forall. intros h Hin. apply list_elem_of_In in Hin.
  apply list_elem_of_lookup in Hin as [k Hk].
  destruct (Forall2_lookup_r _ _ _ _ _ Hh Hk) as (m & Hm & Hhyd).
  apply list_elem_of_lookup_2, list_elem_of_In, Hrows in Hm as [??]. by exists m.
Qed.

Lemma hydrate_first_correlated row h :
  (forall m, row = Some m -> In m (Db.jobs db) /\ owned_job input printer m = true) ->
  hydrate_first db row = Ok (Some h) -> correlated h.
Proof.
  intros Hrow. unfold hydrate_first. destruct row as [m|]; [|done]. rewrite rbind_Ok.
  intros (hs & Hh & [= Hhead]). apply hydrate_correlated in Hh.
  - destruct hs as [|h' hs]; [done|]. simpl in Hhead. injection Hhead as ->.
    by apply Forall_cons in Hh as [? _].
  - simpl. apply NoDup_singleton.
  - intros m' [<-|[]]. by apply Hrow.
Qed.

Lemma submission_rows_owned m :
  In m (submission_rows db input printer) ->
  In m (Db.jobs db) /\ owned_job input printer m = true.
Proof.
  unfold submission_rows. destruct (ApplyPrintReport.task_id input); [|done].
  intros Hin. apply filter_In in Hin as [Hin _]. apply filter_In in Hin as [Hin _].
  apply select_In in Hin as [Hin Hp]. apply andb_true_iff in Hp as [Hp _]. done.
Qed.

Lemma submission_rows_NoDup : NoDup (map JobsModel.id (submission_rows db input printer)).
Proof.
  unfold submission_rows. destruct (ApplyPrintReport.task_id input); simpl; [|constructor].
  by apply NoDup_map_filter, NoDup_map_filter, NoDup_map_select.
Qed.

Lemma select_one_owned (p : JobsModel.t -> bool) m :
  (forall j, p j = true -> owned_job input printer j = true) ->
  select_one p (Db.jobs db) = Some m ->
  In m (Db.jobs db) /\ owned_job input printer m = true.
Proof. intros Hp Hs. apply select_one_Some in Hs as [Hin Hm]. auto. Qed.

Lemma by_id_correlated job_id h :
  job_by_id_for_printer db input printer job_id = Ok (Some h) -> correlated h.
Proof.
  apply hydrate_first_correlated. intros m. apply select_one_owned.
  intros j. rewrite andb_true_iff. tauto.
Qed.

Lemma by_artifact_correlated o h :
  job_by_artifact db input printer o = Ok (Some h) -> correlated h.
Proof.
  destruct o as [a|]; [|done]. apply hydrate_first_correlated. intros m. apply select_one_owned.
  intros j. rewrite andb_true_iff. tauto.
Qed.

Lemma single_file_match_In cs h : single_file_match cs input = Some h -> In h cs.
Proof.
  unfold single_file_match.
  destruct (List.filter (fun c => negb (is_stalled c)) _) as [|x [|]] eqn:Ea; [| |done].
  - destruct (List.filter is_stalled _) as [|y [|]] eqn:Eb; [done| |done]. intros [= <-].
    assert (In y [y]) as Hin by (by left). rewrite <- Eb in Hin.
    apply filter_In in Hin as [Hin _]. by apply filter_In in Hin as [Hin _].
  - intros [= <-]. assert (In x [x]) as Hin by (by left). rewrite <- Ea in Hin.
    apply filter_In in Hin as [Hin _]. by apply filter_In in Hin as [Hin _].
Qed.

Lemma by_file_correlated h : job_by_active_file db input printer = Ok (Some h) -> correlated h.
Proof.
  unfold job_by_active_file, active_job_models. rewrite rbind_Ok. intros (ms & Hms & Hr).
  rewrite rbind_Ok in Hms. rewrite rbind_Ok in Hr. destruct Hms as (cutoff & _ & [= <-]).
  destruct Hr as (cs & Hcs & [= Hs]). apply single_file_match_In in Hs.
  apply hydrate_correlated in Hcs.
  - rewrite List.Forall_forall in Hcs. auto.
  - by apply NoDup_map_select.
  - intros m Hin. apply select_In in Hin as [Hin Hp].
    rewrite !andb_true_iff in Hp. tauto.
Qed.

(** a print report is only ever correlated with a job of the tenant, the agent
    and the printer it came from, by whichever rule the job was found. *)
Theorem correlate_job_isolated (h : JobWithArtifact.t) :
  correlate_job db input printer = Ok (Some h) -> correlated h /\ owned_record h.
Proof.
  intros Hc. assert (correlated h) as Hh; [|by split; [|apply correlated_owned]].
  revert Hc. unfold correlate_job. rewrite rbind_Ok. intros (by_id & Hid & Hr).
  destruct by_id as [j|].
  { injection Hr as ->. destruct (ApplyPrintReport.job_id input); [|done].
    by apply by_id_correlated in Hid. }
  cbv beta iota in Hr.
  rewrite rbind_Ok in Hr. destruct Hr as (subs & Hsub & Hr).
  apply hydrate_correlated in Hsub; [|apply submission_rows_NoDup|apply submission_rows_owned].
  destruct subs as [|j [|]]; [| |done].
  2:{ injection Hr as ->. by apply Forall_cons in Hsub as [? _]. }
  cbv beta iota in Hr.
  rewrite rbind_Ok in Hr. destruct Hr as (by_art & Ha & Hr). destruct by_art as [j|].
  { injection Hr as ->. by apply by_artifact_correlated in Ha. }
  cbv beta iota in Hr.
  rewrite rbind_Ok in Hr. destruct Hr as (by_sub & Hs & Hr). destruct by_sub as [j|].
  { injection Hr as ->. by apply by_artifact_correlated in Hs. }
  by apply by_file_correlated.
Qed.
End CorrelateFacts.

(** The file name alone never guesses between prints: if it selects a job,
    that job matches the file, and every other matching candidate is a stalled
    print while the selected one is not; two live prints of one file, or two
    stalled ones, select nothing. *)
Theorem file_match_unambiguous (candidates : list JobWithArtifact.t)
    (input : ApplyPrintReport.t) (h : JobWithArtifact.t) :
  single_file_match candidates input = Some h ->
  exists before after, candidates = before ++ h :: after
    /\ file_matches input h = true
    /\ Forall (fun c => file_matches input c = true ->
                        is_stalled c = true /\ is_stalled h = false) (before ++ after).
Proof.
  assert (forall (p : JobWithArtifact.t -> bool) l x, List.filter p l = [x] ->
    exists b a, l = b ++ x :: a /\ p x = true /\ Forall (fun c => p c = false) (b ++ a)) as Hone.
  { intros p l x. induction l as [|y l IH]; simpl; [done|]. destruct (p y) eqn:Ey.
    - intros [= -> Hnil]. exists [], l. split; [done|]. split; [done|].
      apply List.Forall_forall. intros c Hc. destruct (p c) eqn:Ec; [|done].
      assert (In c (List.filter p l)) as Hin by (by apply filter_In). by rewrite Hnil in Hin.
    - intros Hf. destruct (IH Hf) as (b & a & -> & Hx & Hall). exists (y :: b), a.
      split; [done|]. split; [done|]. by constructor. }
  assert (forall (p q : JobWithArtifact.t -> bool) l,
    List.filter p (List.filter q l) = List.filter (fun c => q c && p c) l) as Hff.
  { intros p q l. induction l as [|y l IH]; simpl; [done|].
    destruct (q y); simpl; [destruct (p y)|]; by rewrite IH. }
  unfold single_file_match. rewrite !Hff.
  destruct (List.filter (fun c => file_matches input c && negb (is_stalled c)) candidates)
    as [|x [|]] eqn:Ea; [| |done].
  - destruct (List.filter (fun c => file_matches input c && is_stalled c) candidates)
      as [|y [|]] eqn:Eb; [done| |done].
    intros [= <-]. destruct (Hone _ _ _ Eb) as (b & a & -> & Hy & Hall).
    exists b, a. apply andb_true_iff in Hy as [Hy Hst]. split; [done|]. split; [done|].
    apply List.Forall_forall. intros c Hc Hm. exfalso.
    rewrite List.Forall_forall in Hall. specialize (Hall c Hc). rewrite Hm in Hall.
    simpl in Hall.
    assert (In c (b ++ y :: a)) as Hin.
    { apply in_or_app. apply in_app_or in Hc as [?|?]; [by left|right; by right]. }
    assert (In c []) as []; rewrite <- Ea. apply filter_In. by rewrite Hm, Hall.
  - intros [= <-]. destruct (Hone _ _ _ Ea) as (b & a & -> & Hx & Hall).
    exists b, a. apply andb_true_iff in Hx as [Hx Hst]. split; [done|]. split; [done|].
    eapply Forall_impl; [exact Hall|]. intros c Hc Hm. simpl in Hc. rewrite Hm in Hc.
    simpl in Hc. apply negb_false_iff in Hc. apply negb_true_iff in Hst. done.
Qed.

(** ** Witnesses *)

Definition no_results : ReportJson := {| parse_print_result := fun _ => None |}.

(** A job for the artifact the report names. *)
Definition printing_db : Db.t :=
  Db.mk [] [pending_row]
    [ArtifactsModel.mk "a1" "0" "plate.3mf" "model/3mf" 10 "path" None "t0"] [].

Definition artifact_report : ApplyPrintReport.t :=
  ApplyPrintReport.mk (mkTenantId 1) (mkAgentId 2) "serial" None None None None None
    (Some "a1"%string) None None None (Some "RUNNING"%string) None None None None None None []
    EmptyString "t1".

Definition printing_printer : PrinterMatch := mkPrinterMatch "p1" idle_status.

Lemma correlate_job_isolated_witness :
  exists h, @correlate_job list_store binary_uuid no_json no_results binary_clock printing_db
              artifact_report printing_printer = Ok (Some h)
    /\ owned_record artifact_report printing_printer h.
Proof.
  destruct (@correlate_job list_store binary_uuid no_json no_results binary_clock printing_db
              artifact_report printing_printer) as [[h|]|e] eqn:E;
    [|vm_compute in E; discriminate|vm_compute in E; discriminate].
  exists h. split; [reflexivity|].
  apply (@correlate_job_isolated list_store binary_uuid no_json no_results binary_clock
           printing_db artifact_report printing_printer); [| |exact E].
  - intros a a' [<-|[]] [<-|[]] _. reflexivity.
  - repeat constructor. apply not_elem_of_nil.
Defined.

Definition file_report : ApplyPrintReport.t :=
  artifact_report <| ApplyPrintReport.gcode_file := Some "/sd/plate.3mf"%string |>.

Definition printing_candidate : JobWithArtifact.t :=
  JobWithArtifact.mk pending_job
    (JobArtifact.mk "a1" (mkTenantId 1) "plate.3mf" "model/3mf" 10 "path" None "t0").

Lemma file_match_unambiguous_witness :
  single_file_match [printing_candidate] file_report = Some printing_candidate
  /\ file_matches file_report printing_candidate = true.
Proof.
  split; [vm_compute; reflexivity|].
  destruct (file_match_unambiguous [printing_candidate] file_report printing_candidate)
    as (before & after & _ & Hm & _); [vm_compute; reflexivity|exact Hm].
Defined.
