(* ===== verification/PrinterOperation.v ===== *)
(** * pandar-core: printer operations

    [crates/pandar-core/src/printer_operation.rs] and
    [printer_operation/validation.rs]: the live operations a client may send to
    a printer, and the validator every route and the agent run before one is
    queued or published.  Integer fields are unsigned. *)

From S2P Require Import Prelude RustStr RustFloat H2c DeviceFeatures Ams.

#[local] Open Scope Z_scope.
#[local] Open Scope rust_scope.

Module PrinterAxis.
Inductive t := X | Y | Z.

Definition as_str (a : t) : string :=
  match a with X => "x" | Y => "y" | Z => "z" end.
End PrinterAxis.

#[export] Instance PrinterAxis_eq_dec : EqDecision PrinterAxis.t.
Proof. solve_decision. Defined.

Module Movement.
Record t := mk { axis : PrinterAxis.t; delta_mm : float }.
End Movement.

Module PrinterOperation.
Inductive t : Type :=
| Pause
| Resume
| Stop
| HandlePrintError (error_action : PrintErrorAction) (print_error : Z)
    (printer_job_id : string) (sequence_id : Z)
| GcodeLine (param : string)
| ToggleLight
| SetChamberLight (on : bool)
| SetPrintSpeed (speed_mode : Z)
| SetFanSpeed (fan_index speed_percent : Z) (airduct : bool)
| SelectExtruder (extruder_id : Z)
| Home (axes : list PrinterAxis.t) (required_device_features : list RequiredDeviceFeature)
| MoveAxes (movements : list Movement.t) (feedrate_mm_per_min : option Z)
    (required_device_features : list RequiredDeviceFeature)
| SetHotendTemperature (temperature_celsius : Z) (wait : bool) (extruder_id : option Z)
| SetBedTemperature (temperature_celsius : Z) (wait : bool)
| SetChamberTemperature (temperature_celsius : Z) (wait : bool)
| AmsRereadRfid (ams_id slot_id : Z)
| AmsLoadFilament (ams_id slot_id : Z) (global_tray_id : option Z)
    (external_id : option string) (extruder_id : option Z)
| AmsUnloadFilament (ams_id slot_id : Z) (global_tray_id : option Z)
    (external_id : option string) (extruder_id : option Z)
| AmsStartDrying (ams_id temperature_celsius duration_hours : Z) (filament : string)
    (rotate_tray : bool)
| AmsStopDrying (ams_id : Z)
| GetAutoNozzleMapping (request : MappingRequest.t)
| NozzleHolderCtrl (action : Z)
| NozzleInfoConfirm (id : Z)
| HolderNozzleRefresh (id : Z).

Definition action (o : t) : string :=
  match o with
  | Pause => "pause"
  | Resume => "resume"
  | Stop => "stop"
  | HandlePrintError _ _ _ _ => "handle_print_error"
  | GcodeLine _ => "gcode_line"
  | ToggleLight => "toggle_light"
  | SetChamberLight _ => "set_chamber_light"
  | SetPrintSpeed _ => "set_print_speed"
  | SetFanSpeed _ _ _ => "set_fan_speed"
  | SelectExtruder _ => "select_extruder"
  | Home _ _ => "home"
  | MoveAxes _ _ _ => "move_axes"
  | SetHotendTemperature _ _ _ => "set_hotend_temperature"
  | SetBedTemperature _ _ => "set_bed_temperature"
  | SetChamberTemperature _ _ => "set_chamber_temperature"
  | AmsRereadRfid _ _ => "ams_reread_rfid"
  | AmsLoadFilament _ _ _ _ _ => "ams_load_filament"
  | AmsUnloadFilament _ _ _ _ _ => "ams_unload_filament"
  | AmsStartDrying _ _ _ _ _ => "ams_start_drying"
  | AmsStopDrying _ => "ams_stop_drying"
  | GetAutoNozzleMapping _ => "get_auto_nozzle_mapping"
  | NozzleHolderCtrl _ => "nozzle_holder_ctrl"
  | NozzleInfoConfirm _ => "nozzle_info_confirm"
  | HolderNozzleRefresh _ => "holder_nozzle_refresh"
  end.

Definition required_device_features (o : t) : list RequiredDeviceFeature :=
  match o with
  | Home _ features | MoveAxes _ _ features => features
  | _ => []
  end.
End PrinterOperation.

Definition MAX_MOVE_DELTA_MM : float := f64_50.
Definition MIN_MOVE_FEEDRATE_MM_PER_MIN : Z := 1.
Definition MAX_MOVE_FEEDRATE_MM_PER_MIN : Z := 12000.
Definition MAX_HOTEND_TEMPERATURE_CELSIUS : Z := 300.
Definition MAX_BED_TEMPERATURE_CELSIUS : Z := 120.
Definition MAX_CHAMBER_TEMPERATURE_CELSIUS : Z := 70.
Definition MAX_AMS_ID : Z := 255.
Definition MAX_AMS_SLOT_ID : Z := 255.
Definition MAX_EXTRUDER_ID : Z := 1.
Definition MAX_HOLDER_CTRL_ACTION : Z := 2.
Definition RACK_NOZZLE_ID_ALL : Z := 255.
Definition MIN_AMS_DRYING_TEMPERATURE_CELSIUS : Z := 45.
Definition MAX_AMS_DRYING_TEMPERATURE_CELSIUS : Z := 85.
Definition MIN_AMS_DRYING_DURATION_HOURS : Z := 1.
Definition MAX_AMS_DRYING_DURATION_HOURS : Z := 24.

(** The message of a [PrinterOperationValidationError]. *)
Definition ValidationError := string.
Definition invalid {A} (message : string) : result ValidationError A := Err message.

Definition valid_home_features (axes : list PrinterAxis.t) (required : list RequiredDeviceFeature)
  : bool :=
  beq required [] || (beq axes [] && beq required [BambuMqttHoming]).

(** The patterns [1.0 | 10.0] compare with [==]. *)
Definition valid_move_features (movements : list Movement.t) (feedrate : option Z)
    (required : list RequiredDeviceFeature) : bool :=
  beq required []
  || match movements with
     | [m] =>
         is_none feedrate
         && (feqb (fabs (Movement.delta_mm m)) f64_1 || feqb (fabs (Movement.delta_mm m)) f64_10)
         && beq required [BambuMqttAxisControl]
     | _ => false
     end.

Definition valid_ams_slot (ams_id slot_id : Z) : bool :=
  (ams_id <=? MAX_AMS_ID) && (slot_id <=? MAX_AMS_SLOT_ID).

Definition valid_rack_nozzle_id (id : Z) : bool :=
  in_range 16 21 id || (id =? RACK_NOZZLE_ID_ALL).

(** The loop of [validate_move_axes]. *)
Fixpoint validate_movements (seen_axes : list PrinterAxis.t) (movements : list Movement.t)
  : result ValidationError unit :=
  match movements with
  | [] => Ok tt
  | movement :: rest =>
      let delta := Movement.delta_mm movement in
      if negb (is_finite delta) || feqb delta (S754_zero false)
         || fltb MAX_MOVE_DELTA_MM (fabs delta)
      then invalid
        "invalid printer operation move_axes delta_mm; expected finite nonzero value within 50mm"
      else if bool_decide (Movement.axis movement ∈ seen_axes)
      then invalid "printer operation move_axes contains duplicate axis"
      else validate_movements (seen_axes ++ [Movement.axis movement]) rest
  end.

Definition validate_move_axes (movements : list Movement.t) (feedrate_mm_per_min : option Z)
  : result ValidationError unit :=
  match movements with
  | [] => invalid "printer operation move_axes requires at least one axis"
  | _ =>
      validate_movements [] movements ?;;
      if is_some_and (fun feedrate =>
           negb (in_range MIN_MOVE_FEEDRATE_MM_PER_MIN MAX_MOVE_FEEDRATE_MM_PER_MIN feedrate))
           feedrate_mm_per_min
      then invalid "invalid printer operation move_axes feedrate; expected 1..=12000"
      else Ok tt
  end.

Definition extruder_out_of_range (extruder_id : option Z) : bool :=
  is_some_and (fun value => MAX_EXTRUDER_ID <? value) extruder_id.

(** [PrinterOperation::validate]: the guarded arms of an operation in order,
    then the fallthrough [Ok]. *)
Definition validate (o : PrinterOperation.t) : result ValidationError unit :=
  match o with
  | PrinterOperation.GetAutoNozzleMapping request =>
      if negb (H2cAutoNozzleMappingRequest.is_valid request)
      then invalid "invalid H2C auto nozzle mapping request" else Ok tt
  | PrinterOperation.NozzleHolderCtrl action =>
      if MAX_HOLDER_CTRL_ACTION <? action
      then invalid "invalid H2C nozzle_holder_ctrl action; expected 0..=2" else Ok tt
  | PrinterOperation.NozzleInfoConfirm id =>
      if negb (valid_rack_nozzle_id id)
      then invalid "invalid H2C nozzle_info_confirm id; expected 16..=21 or 255" else Ok tt
  | PrinterOperation.HolderNozzleRefresh id =>
      if negb (valid_rack_nozzle_id id)
      then invalid "invalid H2C holder_nozzle_refresh id; expected 16..=21 or 255" else Ok tt
  | PrinterOperation.HandlePrintError _ print_error _ _ =>
      if negb (in_range 1 i32_max print_error)
      then invalid "invalid printer operation print_error; expected positive int32" else Ok tt
  | PrinterOperation.SetPrintSpeed speed_mode =>
      if negb (in_range 1 4 speed_mode)
      then invalid "invalid printer operation speed_mode; expected 1..=4" else Ok tt
  | PrinterOperation.SetFanSpeed fan_index speed_percent _ =>
      if negb (in_range 1 3 fan_index) || (100 <? speed_percent)
      then invalid "invalid printer operation fan speed" else Ok tt
  | PrinterOperation.SelectExtruder extruder_id =>
      if MAX_EXTRUDER_ID <? extruder_id
      then invalid "invalid printer operation extruder_id; expected 0..=1" else Ok tt
  | PrinterOperation.Home axes required =>
      if negb (valid_home_features axes required)
      then invalid "required device feature does not match home semantics" else Ok tt
  | PrinterOperation.MoveAxes movements feedrate required =>
      validate_move_axes movements feedrate ?;;
      if valid_move_features movements feedrate required then Ok tt
      else invalid "required device feature does not match axis movement semantics"
  | PrinterOperation.SetHotendTemperature temperature_celsius _ extruder_id =>
      if (MAX_HOTEND_TEMPERATURE_CELSIUS <? temperature_celsius)
         || extruder_out_of_range extruder_id
      then invalid "invalid printer operation hotend temperature or extruder id" else Ok tt
  | PrinterOperation.SetBedTemperature temperature_celsius _ =>
      if MAX_BED_TEMPERATURE_CELSIUS <? temperature_celsius
      then invalid "invalid printer operation bed target" else Ok tt
  | PrinterOperation.SetChamberTemperature temperature_celsius _ =>
      if MAX_CHAMBER_TEMPERATURE_CELSIUS <? temperature_celsius
      then invalid "invalid printer operation chamber target" else Ok tt
  | PrinterOperation.AmsRereadRfid ams_id slot_id =>
      if negb (valid_ams_slot ams_id slot_id) then invalid "invalid AMS slot" else Ok tt
  | PrinterOperation.AmsLoadFilament ams_id slot_id _ _ extruder_id
  | PrinterOperation.AmsUnloadFilament ams_id slot_id _ _ extruder_id =>
      if negb (valid_ams_slot ams_id slot_id) || extruder_out_of_range extruder_id
      then invalid "invalid AMS filament operation" else Ok tt
  | PrinterOperation.AmsStartDrying ams_id temperature_celsius duration_hours filament _ =>
      if MAX_AMS_ID <? ams_id then invalid "invalid AMS id"
      else if negb (in_range MIN_AMS_DRYING_TEMPERATURE_CELSIUS
                      MAX_AMS_DRYING_TEMPERATURE_CELSIUS temperature_celsius)
      then invalid "invalid printer operation drying temperature; expected 45..=85"
      else if negb (in_range MIN_AMS_DRYING_DURATION_HOURS MAX_AMS_DRYING_DURATION_HOURS
                      duration_hours)
      then invalid "invalid printer operation drying duration; expected 1..=24"
      else if blank filament then invalid "invalid printer operation drying filament"
      else Ok tt
  | PrinterOperation.AmsStopDrying ams_id =>
      if MAX_AMS_ID <? ams_id then invalid "invalid AMS id" else Ok tt
  | PrinterOperation.Pause | PrinterOperation.Resume | PrinterOperation.Stop
  | PrinterOperation.GcodeLine _ | PrinterOperation.ToggleLight
  | PrinterOperation.SetChamberLight _ => Ok tt
  end.

(** ** Specification

    What a valid operation is.  A move distance is read as the rational number
    the [f64] denotes. *)

Definition nozzle_rack_id (id : Z) : Prop := 16 <= id <= 21 \/ id = 255.
Definition extruder_ok (e : option Z) : Prop := forall v, e = Some v -> v <= 1.

Record move_ok (movements : list Movement.t) (feedrate : option Z)
    (required : list RequiredDeviceFeature) : Prop := {
  move_some : movements <> [];
  move_axes : NoDup (map Movement.axis movements);
  move_delta : forall m, In m movements ->
    ~ magnitude_is (Movement.delta_mm m) 0 /\ magnitude_at_most (Movement.delta_mm m) 50;
  move_feedrate : forall v, feedrate = Some v -> 1 <= v <= 12000;
  (** Firmware axis control moves one axis by 1 mm or 10 mm at its own rate. *)
  move_features : required = [] \/
    required = [BambuMqttAxisControl] /\ feedrate = None /\
    exists m, movements = [m] /\
      (magnitude_is (Movement.delta_mm m) 1 \/ magnitude_is (Movement.delta_mm m) 10);
}.

Definition operation_ok (o : PrinterOperation.t) : Prop :=
  match o with
  | PrinterOperation.GetAutoNozzleMapping request =>
      H2cAutoNozzleMappingRequest.is_valid request = true
  | PrinterOperation.NozzleHolderCtrl action => action <= 2
  | PrinterOperation.NozzleInfoConfirm id
  | PrinterOperation.HolderNozzleRefresh id => nozzle_rack_id id
  | PrinterOperation.HandlePrintError _ code _ _ => 1 <= code < 2 ^ 31
  | PrinterOperation.SetPrintSpeed mode => 1 <= mode <= 4
  | PrinterOperation.SetFanSpeed fan percent _ => 1 <= fan <= 3 /\ percent <= 100
  | PrinterOperation.SelectExtruder e => e <= 1
  | PrinterOperation.Home axes required =>
      required = [] \/ required = [BambuMqttHoming] /\ axes = []
  | PrinterOperation.MoveAxes movements feedrate required => move_ok movements feedrate required
  | PrinterOperation.SetHotendTemperature t _ e => t <= 300 /\ extruder_ok e
  | PrinterOperation.SetBedTemperature t _ => t <= 120
  | PrinterOperation.SetChamberTemperature t _ => t <= 70
  | PrinterOperation.AmsRereadRfid ams slot => ams <= 255 /\ slot <= 255
  | PrinterOperation.AmsLoadFilament ams slot _ _ e
  | PrinterOperation.AmsUnloadFilament ams slot _ _ e => ams <= 255 /\ slot <= 255 /\ extruder_ok e
  | PrinterOperation.AmsStartDrying ams t hours filament _ =>
      ams <= 255 /\ 45 <= t <= 85 /\ 1 <= hours <= 24 /\ trim filament <> EmptyString
  | PrinterOperation.AmsStopDrying ams => ams <= 255
  | PrinterOperation.Pause | PrinterOperation.Resume | PrinterOperation.Stop
  | PrinterOperation.GcodeLine _ | PrinterOperation.ToggleLight
  | PrinterOperation.SetChamberLight _ => True
  end.

(** The distances of an operation are [f64] values, as its type says. *)
Definition operation_typed (o : PrinterOperation.t) : Prop :=
  match o with
  | PrinterOperation.MoveAxes movements _ _ =>
      Forall (fun m => is_f64 (Movement.delta_mm m) = true) movements
  | _ => True
  end.

(** ** Lemmas *)

Lemma guard_Ok (b : bool) message :
  (if b then invalid message else Ok tt) = Ok (E := ValidationError) tt <-> b = false.
Proof. destruct b; split; done. Qed.

Lemma rack_nozzle_iff id : valid_rack_nozzle_id id = true <-> nozzle_rack_id id.
Proof.
  unfold valid_rack_nozzle_id, nozzle_rack_id, RACK_NOZZLE_ID_ALL.
  rewrite orb_true_iff, in_range_true, Z.eqb_eq. done.
Qed.

Lemma extruder_iff e : extruder_out_of_range e = false <-> extruder_ok e.
Proof.
  unfold extruder_out_of_range, extruder_ok, MAX_EXTRUDER_ID.
  destruct e as [v|]; simpl; [rewrite Z.ltb_ge|]; split.
  - intros Hv w [= <-]. lia.
  - intros H. by apply H.
  - done.
  - done.
Qed.

Lemma ams_slot_iff ams slot : valid_ams_slot ams slot = true <-> ams <= 255 /\ slot <= 255.
Proof. unfold valid_ams_slot, MAX_AMS_ID, MAX_AMS_SLOT_ID. by rewrite andb_true_iff, !Z.leb_le. Qed.

Lemma beq_nil {A} `{EqDecision A} (l : list A) : beq l [] = true <-> l = [].
Proof. apply beq_true. Qed.

Lemma home_features_iff axes required :
  valid_home_features axes required = true
  <-> required = [] \/ required = [BambuMqttHoming] /\ axes = [].
Proof.
  unfold valid_home_features. rewrite orb_true_iff, andb_true_iff, !beq_true. tauto.
Qed.

Lemma blank_iff s : blank s = false <-> trim s <> EmptyString.
Proof. unfold blank. apply beq_false. Qed.

Section Distances.
Context (d : float) (Hd : is_f64 d = true).

Lemma at_most_50 :
  is_finite d = true /\ fltb MAX_MOVE_DELTA_MM (fabs d) = false <-> magnitude_at_most d 50.
Proof. by apply (magnitude_at_most_iff d 50 7036874417766400 (-47)). Qed.

Lemma is_1 : feqb (fabs d) f64_1 = true <-> magnitude_is d 1.
Proof. by apply (magnitude_is_iff d 1 4503599627370496 (-52)). Qed.

Lemma is_10 : feqb (fabs d) f64_10 = true <-> magnitude_is d 10.
Proof. by apply (magnitude_is_iff d 10 5629499534213120 (-49)). Qed.

Lemma is_0 : is_finite d = true -> feqb d (S754_zero false) = true <-> magnitude_is d 0.
Proof.
  intros F. split.
  - intros Z0. destruct (finite_denotes d Hd F) as [n Hn]. exists n, 1074. split; [done|].
    apply (denotes_zero _ _ _ Hn) in Z0. by subst.
  - intros (n & k & Hn & E). apply (denotes_zero _ _ _ Hn). lia.
Qed.

(** The guard on one distance. *)
Lemma delta_ok_iff :
  negb (is_finite d) || feqb d (S754_zero false) || fltb MAX_MOVE_DELTA_MM (fabs d) = false
  <-> ~ magnitude_is d 0 /\ magnitude_at_most d 50.
Proof.
  rewrite !orb_false_iff, negb_false_iff. split.
  - intros [[F N] L]. split; [rewrite <- is_0 by done; congruence|]. by apply at_most_50.
  - intros [N M]. apply at_most_50 in M as [F L]. rewrite <- is_0 in N by done.
    apply not_true_iff_false in N. done.
Qed.
End Distances.

Lemma validate_movements_iff movements : forall seen,
  Forall (fun m => is_f64 (Movement.delta_mm m) = true) movements -> NoDup seen ->
  validate_movements seen movements = Ok tt
  <-> NoDup (seen ++ map Movement.axis movements)
      /\ forall m, In m movements ->
           ~ magnitude_is (Movement.delta_mm m) 0 /\ magnitude_at_most (Movement.delta_mm m) 50.
Proof.
  induction movements as [|m rest IH]; intros seen Hty Hs; cbn [validate_movements map].
  { rewrite app_nil_r. split; [by intros _; split|done]. }
  inversion Hty as [|? ? Hm Hrest]; subst.
  pose proof (delta_ok_iff _ Hm) as D.
  destruct (negb _ || _ || _) eqn:G.
  { split; [done|]. intros [_ H]. by apply (fun x => proj2 D x) in H; [|by left]. }
  case_bool_decide as Hin.
  { split; [done|]. intros [ND _]. apply NoDup_app in ND as (_ & ND & _).
    destruct (ND _ Hin). by apply list_elem_of_here. }
  rewrite IH; [|done|apply NoDup_app; repeat split; [done|set_solver|apply NoDup_singleton]].
  rewrite <- app_assoc. cbn [app]. apply and_iff_compat_l. split.
  - intros H m' [<-|H']; [by apply D|by apply H].
  - intros H m' H'. apply H. by right.
Qed.

Lemma move_features_iff movements feedrate required :
  Forall (fun m => is_f64 (Movement.delta_mm m) = true) movements ->
  valid_move_features movements feedrate required = true
  <-> required = [] \/
      required = [BambuMqttAxisControl] /\ feedrate = None /\
      exists m, movements = [m] /\
        (magnitude_is (Movement.delta_mm m) 1 \/ magnitude_is (Movement.delta_mm m) 10).
Proof.
  intros Hty. unfold valid_move_features. rewrite orb_true_iff, beq_true.
  apply or_iff_compat_l. destruct movements as [|m [|m' rest]].
  - split; [done|]. by intros (_ & _ & m & ? & _).
  - inversion Hty as [|? ? Hm _]; subst.
    rewrite !andb_true_iff, orb_true_iff, is_none_true, beq_true, (is_1 _ Hm), (is_10 _ Hm).
    split.
    + intros [[Hf Hd] Hr]. eauto.
    + intros (Hr & Hf & m' & [= <-] & Hd). done.
  - split; [done|]. by intros (_ & _ & n & ? & _).
Qed.

Lemma move_axes_Ok movements feedrate :
  validate_move_axes movements feedrate = Ok tt
  <-> movements <> [] /\ validate_movements [] movements = Ok tt
      /\ forall v, feedrate = Some v -> 1 <= v <= 12000.
Proof.
  unfold validate_move_axes. destruct movements as [|m rest]; [split; [done|by intros [? _]]|].
  destruct (validate_movements [] (m :: rest)) as [[]|e]; cbn [rbind];
    [|split; [done|by intros (_ & ? & _)]].
  rewrite guard_Ok. destruct feedrate as [v|]; cbn [is_some_and].
  - rewrite negb_false_iff, in_range_true. split.
    + intros Hv. split_and!; [done|done|]. by intros w [= <-].
    + intros (_ & _ & H). by apply H.
  - split; [|done]. intros _. split_and!; done.
Qed.

(** ** Properties *)

(** the operation validator accepts exactly the operations of the
    specification: every field within its range, every move a nonzero distance
    of at most 50 mm on distinct axes at 1 to 12000 mm/min, and a firmware
    feature claimed only by the homing and single-step moves that use it. *)
Theorem operation_valid_iff (o : PrinterOperation.t) (Hty : operation_typed o) :
  validate o = Ok tt <-> operation_ok o.
Proof.
  destruct o; cbn [validate operation_ok operation_typed] in *; rewrite ?guard_Ok;
    rewrite ?orb_false_iff, ?negb_false_iff, ?in_range_true, ?rack_nozzle_iff, ?extruder_iff,
      ?ams_slot_iff, ?home_features_iff, ?Z.ltb_ge; try done.
  - unfold i32_max. lia.
  - rewrite rbind_Ok. split.
    + intros ([] & Hv & Hf). apply move_axes_Ok in Hv as (Hne & Hm & Hr).
      apply validate_movements_iff in Hm as [Hnd Hd]; [|done|constructor].
      destruct (valid_move_features _ _ _) eqn:E; [|done].
      apply move_features_iff in E; [|done]. by constructor.
    + intros [Hne Hnd Hd Hr Hf]. exists tt. split.
      * apply move_axes_Ok. split_and!; [done| |done].
        apply validate_movements_iff; [done|constructor|done].
      * apply move_features_iff in Hf; [|done]. by rewrite Hf.
  - tauto.
  - tauto.
  - unfold MAX_AMS_ID, MIN_AMS_DRYING_TEMPERATURE_CELSIUS, MAX_AMS_DRYING_TEMPERATURE_CELSIUS,
      MIN_AMS_DRYING_DURATION_HOURS, MAX_AMS_DRYING_DURATION_HOURS.
    rewrite <- (in_range_true 45 85), <- (in_range_true 1 24), <- blank_iff.
    destruct (Z.ltb_spec 255 ams_id); [split; [done|lia]|].
    destruct (in_range 45 85 _), (in_range 1 24 _), (blank _); cbn; split; intuition (discriminate || auto).
Qed.

(** A 10 mm step of the Y axis through firmware axis control. *)
Definition step_y : PrinterOperation.t :=
  PrinterOperation.MoveAxes [Movement.mk PrinterAxis.Y (f64_of_Z (-10))] None
    [BambuMqttAxisControl].

Lemma operation_valid_iff_witness : operation_ok step_y.
Proof. apply (operation_valid_iff step_y); [by repeat constructor|vm_compute; reflexivity]. Defined.

Example operation_errors :
  validate (PrinterOperation.MoveAxes
    [Movement.mk PrinterAxis.X f64_1; Movement.mk PrinterAxis.X f64_10] None [])
  = invalid "printer operation move_axes contains duplicate axis"
  /\ validate (PrinterOperation.AmsStartDrying 0 44 25 " " false)
     = invalid "invalid printer operation drying temperature; expected 45..=85".
Proof. vm_compute. done. Qed.
