(* ===== verification/OperationWire.v ===== *)
(** * Printer operations on the wire

    The protobuf form of a printer operation ([proto/pandar/agent/v1/agent.proto]),
    the Hub's conversion into it ([grpc/commands/conversion/operations.rs]) and the
    agent's conversion out of it ([commands/operations.rs], [operations/ams.rs],
    [operations/h2c.rs]).  A [repeated] or [optional] field of the message is a list
    or an option; an enumeration is the [i32] prost stores.  An [anyhow] error is the
    text its alternate form [{err:#}] prints. *)

From S2P Require Import Prelude RustStr RustFloat H2c DeviceFeatures Ams PrinterOperation.

#[local] Open Scope Z_scope.
#[local] Open Scope rust_scope.

(** ** Messages *)

Module AxisMovement.
Record t := mk { axis : Z; delta_mm : float }.
End AxisMovement.

Module AutoNozzleMappingGroupInfo.
Record t := mk { id : Z; ext : Z; dia : float; vol : string }.
End AutoNozzleMappingGroupInfo.

Module AutoNozzleMappingFilamentInfo.
Record t := mk {
  id : Z; direction : Z; group : Z; nozzle_d : string; nozzle_v : string;
  cate : string; color : string }.
End AutoNozzleMappingFilamentInfo.

Module AutoNozzleMappingNozzleInfo.
Record t := mk {
  pos : Z; nozzle_d : string; nozzle_v : string; wear : float; cate : string; color : string }.
End AutoNozzleMappingNozzleInfo.

Module GetAutoNozzleMappingOperation.
Record t := mk {
  sequence_id : string; version : option Z; calibration : option Z;
  extrude_cali_manual_mode : option Z; filament_seq : list Z; ams_mapping : list Z;
  fila_info : list AutoNozzleMappingFilamentInfo.t;
  nozzle_info : list AutoNozzleMappingNozzleInfo.t;
  group_info : list AutoNozzleMappingGroupInfo.t }.
End GetAutoNozzleMappingOperation.

(** The [oneof operation] of [message PrinterOperation]. *)
Module Operation.
Inductive t : Type :=
| Pause
| Resume
| Stop
| ToggleLight
| SetChamberLight (on : bool)
| SetPrintSpeed (speed_mode : Z)
| SetFanSpeed (fan_index speed_percent : Z) (airduct : bool)
| SelectExtruder (extruder_id : Z)
| Home (axes : list Z)
| MoveAxes (movements : list AxisMovement.t) (feedrate_mm_per_min : Z)
| SetHotendTemperature (temperature_celsius : Z) (wait : bool) (extruder_id : option Z)
| SetBedTemperature (temperature_celsius : Z) (wait : bool)
| SetChamberTemperature (temperature_celsius : Z) (wait : bool)
| AmsRereadRfid (ams_id slot_id : Z)
| AmsLoadFilament (ams_id slot_id global_tray_id : Z) (external_id : string)
    (extruder_id : option Z)
| AmsUnloadFilament (ams_id slot_id global_tray_id : Z) (external_id : string)
    (extruder_id : option Z)
| AmsStartDrying (ams_id temperature_celsius duration_hours : Z) (filament : string)
    (rotate_tray : bool)
| AmsStopDrying (ams_id : Z)
| HandlePrintError (error_action print_error : Z) (printer_job_id : string) (sequence_id : Z)
| GcodeLine (param : string)
| GetAutoNozzleMapping (operation : GetAutoNozzleMappingOperation.t)
| NozzleHolderCtrl (action : Z)
| NozzleInfoConfirm (id : Z)
| HolderNozzleRefresh (id : Z).
End Operation.

Module ProtoPrinterOperation.
Record t := mk {
  serial_number : string; required_device_features : list Z; operation : option Operation.t }.
End ProtoPrinterOperation.

(** ** The Hub's side *)

(** [u32] arithmetic of a release build. *)
Definition wrap_u32 (z : Z) : Z := z mod 2 ^ 32.

Definition proto_print_error_action (action : PrintErrorAction) : Z :=
  match action with Resume => 1 | Ignore => 2 | Stop => 3 end.

Definition proto_axis (axis : PrinterAxis.t) : Z :=
  match axis with PrinterAxis.X => 1 | PrinterAxis.Y => 2 | PrinterAxis.Z => 3 end.

Definition proto_axis_movement (movement : Movement.t) : AxisMovement.t :=
  AxisMovement.mk (proto_axis (Movement.axis movement)) (Movement.delta_mm movement).

Definition required_feature_proto_value (feature : RequiredDeviceFeature) : Z :=
  match feature with BambuMqttHoming => 32 | BambuMqttAxisControl => 38 end.

Definition proto_filament_info (value : FilamentInfo.t) : AutoNozzleMappingFilamentInfo.t :=
  AutoNozzleMappingFilamentInfo.mk (FilamentInfo.id value) (FilamentInfo.direction value)
    (FilamentInfo.group value) (FilamentInfo.nozzle_d value) (FilamentInfo.nozzle_v value)
    (FilamentInfo.cate value) (FilamentInfo.color value).

Definition proto_nozzle_info (value : NozzleInfo.t) : AutoNozzleMappingNozzleInfo.t :=
  AutoNozzleMappingNozzleInfo.mk (NozzleInfo.pos value) (NozzleInfo.nozzle_d value)
    (NozzleInfo.nozzle_v value) (NozzleInfo.wear value) (NozzleInfo.cate value)
    (NozzleInfo.color value).

Definition proto_group_info (value : GroupInfo.t) : AutoNozzleMappingGroupInfo.t :=
  AutoNozzleMappingGroupInfo.mk (GroupInfo.id value) (GroupInfo.ext value) (GroupInfo.dia value)
    (GroupInfo.vol value).

Definition proto_auto_nozzle_mapping (request : MappingRequest.t)
  : GetAutoNozzleMappingOperation.t :=
  GetAutoNozzleMappingOperation.mk
    (MappingRequest.sequence_id request)
    (MappingRequest.version request)
    (MappingRequest.calibration request)
    (MappingRequest.extrude_cali_manual_mode request)
    (default [] (MappingRequest.filament_seq request))
    (default [] (MappingRequest.ams_mapping request))
    (map proto_filament_info (default [] (MappingRequest.fila_info request)))
    (map proto_nozzle_info (default [] (MappingRequest.nozzle_info request)))
    (map proto_group_info (default [] (MappingRequest.group_info request))).

(** [global_tray_id.unwrap_or_else(|| ams_id * 4 + slot_id)]. *)
Definition wire_tray_id (ams_id slot_id : Z) (global_tray_id : option Z) : Z :=
  default (wrap_u32 (wrap_u32 (ams_id * 4) + slot_id)) global_tray_id.

Definition proto_printer_operation (operation : PrinterOperation.t) : Operation.t :=
  match operation with
  | PrinterOperation.Pause => Operation.Pause
  | PrinterOperation.Resume => Operation.Resume
  | PrinterOperation.Stop => Operation.Stop
  | PrinterOperation.HandlePrintError error_action print_error printer_job_id sequence_id =>
      Operation.HandlePrintError (proto_print_error_action error_action) print_error
        printer_job_id sequence_id
  | PrinterOperation.GcodeLine param => Operation.GcodeLine param
  | PrinterOperation.ToggleLight => Operation.ToggleLight
  | PrinterOperation.SetChamberLight on => Operation.SetChamberLight on
  | PrinterOperation.SetPrintSpeed speed_mode => Operation.SetPrintSpeed speed_mode
  | PrinterOperation.SetFanSpeed fan_index speed_percent airduct =>
      Operation.SetFanSpeed fan_index speed_percent airduct
  | PrinterOperation.SelectExtruder extruder_id => Operation.SelectExtruder extruder_id
  | PrinterOperation.Home axes _ => Operation.Home (map proto_axis axes)
  | PrinterOperation.MoveAxes movements feedrate_mm_per_min _ =>
      Operation.MoveAxes (map proto_axis_movement movements) (default 0 feedrate_mm_per_min)
  | PrinterOperation.SetHotendTemperature temperature_celsius wait extruder_id =>
      Operation.SetHotendTemperature temperature_celsius wait extruder_id
  | PrinterOperation.SetBedTemperature temperature_celsius wait =>
      Operation.SetBedTemperature temperature_celsius wait
  | PrinterOperation.SetChamberTemperature temperature_celsius wait =>
      Operation.SetChamberTemperature temperature_celsius wait
  | PrinterOperation.AmsRereadRfid ams_id slot_id => Operation.AmsRereadRfid ams_id slot_id
  | PrinterOperation.AmsLoadFilament ams_id slot_id global_tray_id external_id extruder_id =>
      Operation.AmsLoadFilament ams_id slot_id (wire_tray_id ams_id slot_id global_tray_id)
        (default EmptyString external_id) extruder_id
  | PrinterOperation.AmsUnloadFilament ams_id slot_id global_tray_id external_id extruder_id =>
      Operation.AmsUnloadFilament ams_id slot_id (wire_tray_id ams_id slot_id global_tray_id)
        (default EmptyString external_id) extruder_id
  | PrinterOperation.AmsStartDrying ams_id temperature_celsius duration_hours filament rotate_tray =>
      Operation.AmsStartDrying ams_id temperature_celsius duration_hours filament rotate_tray
  | PrinterOperation.AmsStopDrying ams_id => Operation.AmsStopDrying ams_id
  | PrinterOperation.GetAutoNozzleMapping request =>
      Operation.GetAutoNozzleMapping (proto_auto_nozzle_mapping request)
  | PrinterOperation.NozzleHolderCtrl action => Operation.NozzleHolderCtrl action
  | PrinterOperation.NozzleInfoConfirm id => Operation.NozzleInfoConfirm id
  | PrinterOperation.HolderNozzleRefresh id => Operation.HolderNozzleRefresh id
  end.

(** The message of a queued operation ([hub_command_from_record]) and of a live one
    ([live_printer_operation_hub_command]). *)
Definition queued_operation (serial_number : string) (operation : PrinterOperation.t)
  : ProtoPrinterOperation.t :=
  ProtoPrinterOperation.mk serial_number
    (map required_feature_proto_value (PrinterOperation.required_device_features operation))
    (Some (proto_printer_operation operation)).

Definition live_operation (serial_number : string) (operation : PrinterOperation.t)
  : ProtoPrinterOperation.t :=
  ProtoPrinterOperation.mk serial_number [] (Some (proto_printer_operation operation)).

(** ** The agent's side *)

Definition AnyError := string.
Definition bail {A} (message : string) : result AnyError A := Err message.

(** [Context::context]. *)
Definition context {A} (message : string) (r : result AnyError A) : result AnyError A :=
  map_err (fun e => message +:+ ": " +:+ e) r.

Definition try_from_int (hi value : Z) : result AnyError Z :=
  ok_or (try_int 0 hi value) "out of range integral type conversion attempted".

(** [map(f).collect::<Result<Vec<_>, _>>()]. *)
Fixpoint try_map {A B} (f : A -> result AnyError B) (l : list A) : result AnyError (list B) :=
  match l with
  | [] => Ok []
  | a :: l => b <-? f a ;; rest <-? try_map f l ;; Ok (b :: rest)
  end.

Definition parse_required_device_features (values : list Z)
  : result AnyError (list RequiredDeviceFeature) :=
  match values with
  | [] => Ok []
  | [value] =>
      if value =? 32 then Ok [BambuMqttHoming]
      else if value =? 38 then Ok [BambuMqttAxisControl]
      else bail ("invalid required device feature value " +:+ dec value)
  | _ => bail "printer operation contains duplicate required device feature values"
  end.

Definition parse_printer_axis (axis : Z) : result AnyError PrinterAxis.t :=
  if axis =? 1 then Ok PrinterAxis.X
  else if axis =? 2 then Ok PrinterAxis.Y
  else if axis =? 3 then Ok PrinterAxis.Z
  else bail "invalid printer operation axis".

Definition parse_error_action (error_action : Z) : result AnyError PrintErrorAction :=
  if error_action =? 1 then Ok Resume
  else if error_action =? 2 then Ok Ignore
  else if error_action =? 3 then Ok Stop
  else bail "invalid printer operation error_action".

Definition parse_axis_movement (movement : AxisMovement.t) : result AnyError Movement.t :=
  axis <-? parse_printer_axis (AxisMovement.axis movement) ;;
  Ok (Movement.mk axis (AxisMovement.delta_mm movement)).

(** [u8::try_from(value).unwrap_or(u8::MAX)]. *)
Definition u8_or_max (value : Z) : Z := default u8_max (try_int 0 u8_max value).

Definition parse_filament_info (value : AutoNozzleMappingFilamentInfo.t) : FilamentInfo.t :=
  FilamentInfo.mk (AutoNozzleMappingFilamentInfo.id value)
    (u8_or_max (AutoNozzleMappingFilamentInfo.direction value))
    (AutoNozzleMappingFilamentInfo.group value) (AutoNozzleMappingFilamentInfo.nozzle_d value)
    (AutoNozzleMappingFilamentInfo.nozzle_v value) (AutoNozzleMappingFilamentInfo.cate value)
    (AutoNozzleMappingFilamentInfo.color value).

Definition parse_nozzle_info (value : AutoNozzleMappingNozzleInfo.t) : NozzleInfo.t :=
  NozzleInfo.mk (AutoNozzleMappingNozzleInfo.pos value) (AutoNozzleMappingNozzleInfo.nozzle_d value)
    (AutoNozzleMappingNozzleInfo.nozzle_v value) (AutoNozzleMappingNozzleInfo.wear value)
    (AutoNozzleMappingNozzleInfo.cate value) (AutoNozzleMappingNozzleInfo.color value).

Definition parse_group_info (value : AutoNozzleMappingGroupInfo.t) : GroupInfo.t :=
  GroupInfo.mk (AutoNozzleMappingGroupInfo.id value) (u8_or_max (AutoNozzleMappingGroupInfo.ext value))
    (AutoNozzleMappingGroupInfo.dia value) (AutoNozzleMappingGroupInfo.vol value).

(** [bool::then]. *)
Definition then_some {A} (b : bool) (a : A) : option A := if b then Some a else None.

Definition parse_auto_nozzle_mapping (operation : GetAutoNozzleMappingOperation.t)
  : PrinterOperation.t :=
  let version := GetAutoNozzleMappingOperation.version operation ≫= try_int 0 u8_max in
  let v1 := beq version (Some 1) in
  PrinterOperation.GetAutoNozzleMapping (MappingRequest.mk
    "get_auto_nozzle_mapping"
    (GetAutoNozzleMappingOperation.sequence_id operation)
    version
    (GetAutoNozzleMappingOperation.calibration operation)
    (GetAutoNozzleMappingOperation.extrude_cali_manual_mode operation)
    (then_some (negb v1) (GetAutoNozzleMappingOperation.filament_seq operation))
    (then_some (negb v1) (GetAutoNozzleMappingOperation.ams_mapping operation))
    (then_some (negb v1)
      (map parse_filament_info (GetAutoNozzleMappingOperation.fila_info operation)))
    (then_some (negb v1)
      (map parse_nozzle_info (GetAutoNozzleMappingOperation.nozzle_info operation)))
    (then_some v1 (map parse_group_info (GetAutoNozzleMappingOperation.group_info operation)))).

Definition nonempty_text (s : string) : option string := then_some (negb (beq s EmptyString)) s.

Definition parse_ams_operation (operation : Operation.t) : result AnyError PrinterOperation.t :=
  match operation with
  | Operation.AmsRereadRfid ams_id slot_id => Ok (PrinterOperation.AmsRereadRfid ams_id slot_id)
  | Operation.AmsLoadFilament ams_id slot_id global_tray_id external_id extruder_id =>
      Ok (PrinterOperation.AmsLoadFilament ams_id slot_id (Some global_tray_id)
        (nonempty_text external_id) extruder_id)
  | Operation.AmsUnloadFilament ams_id slot_id global_tray_id external_id extruder_id =>
      Ok (PrinterOperation.AmsUnloadFilament ams_id slot_id (Some global_tray_id)
        (nonempty_text external_id) extruder_id)
  | Operation.AmsStartDrying ams_id temperature_celsius duration_hours filament rotate_tray =>
      temperature <-? context "printer operation drying temperature exceeds uint16"
        (try_from_int u16_max temperature_celsius) ;;
      duration <-? context "printer operation drying duration exceeds uint16"
        (try_from_int u16_max duration_hours) ;;
      Ok (PrinterOperation.AmsStartDrying ams_id temperature duration filament rotate_tray)
  | Operation.AmsStopDrying ams_id => Ok (PrinterOperation.AmsStopDrying ams_id)
  | _ => bail "not an AMS printer operation"
  end.

Definition moves (operation : option Operation.t) : bool :=
  match operation with Some (Operation.Home _ | Operation.MoveAxes _ _) => true | _ => false end.

(** The [match] on the operation of [parse_printer_operation]. *)
Definition parse_operation (required : list RequiredDeviceFeature) (operation : option Operation.t)
  : result AnyError PrinterOperation.t :=
  match operation with
  | Some Operation.Pause => Ok PrinterOperation.Pause
  | Some Operation.Resume => Ok PrinterOperation.Resume
  | Some Operation.Stop => Ok PrinterOperation.Stop
  | Some Operation.ToggleLight => Ok PrinterOperation.ToggleLight
  | Some (Operation.SetChamberLight on) => Ok (PrinterOperation.SetChamberLight on)
  | Some (Operation.SetPrintSpeed speed_mode) =>
      mode <-? context "printer operation speed_mode exceeds uint8"
        (try_from_int u8_max speed_mode) ;;
      Ok (PrinterOperation.SetPrintSpeed mode)
  | Some (Operation.SetFanSpeed fan_index speed_percent airduct) =>
      fan <-? context "printer operation fan_index exceeds uint8" (try_from_int u8_max fan_index) ;;
      speed <-? context "printer operation fan speed exceeds uint8"
        (try_from_int u8_max speed_percent) ;;
      Ok (PrinterOperation.SetFanSpeed fan speed airduct)
  | Some (Operation.SelectExtruder extruder_id) => Ok (PrinterOperation.SelectExtruder extruder_id)
  | Some (Operation.Home axes) =>
      axes <-? try_map parse_printer_axis axes ;; Ok (PrinterOperation.Home axes required)
  | Some (Operation.MoveAxes movements feedrate) =>
      movements <-? try_map parse_axis_movement movements ;;
      Ok (PrinterOperation.MoveAxes movements (then_some (negb (feedrate =? 0)) feedrate) required)
  | Some (Operation.SetHotendTemperature temperature_celsius wait extruder_id) =>
      temperature <-? context "printer operation hotend temperature exceeds uint16"
        (try_from_int u16_max temperature_celsius) ;;
      Ok (PrinterOperation.SetHotendTemperature temperature wait extruder_id)
  | Some (Operation.SetBedTemperature temperature_celsius wait) =>
      temperature <-? context "printer operation bed temperature exceeds uint16"
        (try_from_int u16_max temperature_celsius) ;;
      Ok (PrinterOperation.SetBedTemperature temperature wait)
  | Some (Operation.SetChamberTemperature temperature_celsius wait) =>
      temperature <-? context "printer operation chamber temperature exceeds uint16"
        (try_from_int u16_max temperature_celsius) ;;
      Ok (PrinterOperation.SetChamberTemperature temperature wait)
  | Some ((Operation.AmsRereadRfid _ _ | Operation.AmsLoadFilament _ _ _ _ _
           | Operation.AmsUnloadFilament _ _ _ _ _ | Operation.AmsStartDrying _ _ _ _ _
           | Operation.AmsStopDrying _) as operation) => parse_ams_operation operation
  | Some (Operation.HandlePrintError error_action print_error printer_job_id sequence_id) =>
      action <-? parse_error_action error_action ;;
      Ok (PrinterOperation.HandlePrintError action print_error printer_job_id sequence_id)
  | Some (Operation.GcodeLine param) => Ok (PrinterOperation.GcodeLine param)
  | Some (Operation.GetAutoNozzleMapping operation) => Ok (parse_auto_nozzle_mapping operation)
  | Some (Operation.NozzleHolderCtrl action) => Ok (PrinterOperation.NozzleHolderCtrl action)
  | Some (Operation.NozzleInfoConfirm id) => Ok (PrinterOperation.NozzleInfoConfirm id)
  | Some (Operation.HolderNozzleRefresh id) => Ok (PrinterOperation.HolderNozzleRefresh id)
  | None => bail "missing printer operation"
  end.

Definition parse_printer_operation (command : ProtoPrinterOperation.t)
  : result AnyError PrinterOperation.t :=
  required <-? parse_required_device_features
    (ProtoPrinterOperation.required_device_features command) ;;
  if negb (beq required []) && negb (moves (ProtoPrinterOperation.operation command))
  then bail "required device feature is only valid for home or move_axes"
  else
    operation <-? parse_operation required (ProtoPrinterOperation.operation command) ;;
    validate operation ?;;
    Ok operation.

(** ** Specification

    The fields of an operation are values of their unsigned types; only the lower
    bounds are not implied by [validate]. *)
Definition fields_typed (o : PrinterOperation.t) : Prop :=
  match o with
  | PrinterOperation.SetFanSpeed _ speed_percent _ => 0 <= speed_percent
  | PrinterOperation.SetHotendTemperature t _ _
  | PrinterOperation.SetBedTemperature t _
  | PrinterOperation.SetChamberTemperature t _ => 0 <= t
  | PrinterOperation.AmsLoadFilament ams slot _ _ _
  | PrinterOperation.AmsUnloadFilament ams slot _ _ _ => 0 <= ams /\ 0 <= slot
  | _ => True
  end.

(** What the wire keeps of an operation: an absent tray number becomes the one the
    unit and the slot name, an empty external id becomes absent. *)
Definition wire_form (o : PrinterOperation.t) : PrinterOperation.t :=
  match o with
  | PrinterOperation.AmsLoadFilament ams slot tray external extruder =>
      PrinterOperation.AmsLoadFilament ams slot (Some (default (ams * 4 + slot) tray))
        (opt_filter (fun e => negb (beq e EmptyString)) external) extruder
  | PrinterOperation.AmsUnloadFilament ams slot tray external extruder =>
      PrinterOperation.AmsUnloadFilament ams slot (Some (default (ams * 4 + slot) tray))
        (opt_filter (fun e => negb (beq e EmptyString)) external) extruder
  | _ => o
  end.

(** Whether an operation says what the wire would fill in: the loading or unloading of a
    filament names its tray, and no empty external id. *)
Definition states_tray (o : PrinterOperation.t) : bool :=
  match o with
  | PrinterOperation.AmsLoadFilament _ _ tray external _
  | PrinterOperation.AmsUnloadFilament _ _ tray external _ =>
      is_some tray && negb (beq external (Some EmptyString))
  | _ => true
  end.

(** ** Lemmas *)

Lemma try_map_Ok {A B C} (f : A -> B) (g : B -> result AnyError C) (h : A -> C) (l : list A) :
  (forall a, In a l -> g (f a) = Ok (h a)) -> try_map g (map f l) = Ok (map h l).
Proof.
  induction l as [|a l IH]; intros H; [done|]. cbn [map try_map].
  rewrite (H a) by (by left). cbn [rbind]. rewrite IH; [done|]. intros b Hb. apply H. by right.
Qed.

Lemma try_map_id {A B} (f : A -> B) (g : B -> result AnyError A) (l : list A) :
  (forall a, g (f a) = Ok a) -> try_map g (map f l) = Ok l.
Proof. intros H. rewrite (try_map_Ok f g id) by done. by rewrite map_id. Qed.

Lemma parse_proto_axis a : parse_printer_axis (proto_axis a) = Ok a.
Proof. by destruct a. Qed.

Lemma parse_proto_movement m : parse_axis_movement (proto_axis_movement m) = Ok m.
Proof. unfold parse_axis_movement. cbn. rewrite parse_proto_axis. by destruct m. Qed.

Lemma parse_proto_action a : parse_error_action (proto_print_error_action a) = Ok a.
Proof. by destruct a. Qed.

Lemma try_from_int_in hi v m : 0 <= v <= hi -> context m (try_from_int hi v) = Ok v.
Proof.
  intros H. unfold try_from_int, try_int. by rewrite (proj2 (in_range_true 0 hi v)).
Qed.

Lemma u8_or_max_in v : 0 <= v <= 255 -> u8_or_max v = v.
Proof.
  intros H. unfold u8_or_max, try_int, u8_max. by rewrite (proj2 (in_range_true 0 255 v)).
Qed.

Lemma wire_tray ams slot tray :
  0 <= ams <= 255 -> 0 <= slot <= 255 -> wire_tray_id ams slot tray = default (ams * 4 + slot) tray.
Proof. intros. unfold wire_tray_id, wrap_u32. rewrite (Z.mod_small (ams * 4)), Z.mod_small by lia. done. Qed.

Lemma nonempty_default external :
  nonempty_text (default EmptyString external)
  = opt_filter (fun e => negb (beq e EmptyString)) external.
Proof. by destruct external. Qed.

Lemma feedrate_wire feedrate :
  (forall v, feedrate = Some v -> 1 <= v <= 12000) ->
  then_some (negb (default 0 feedrate =? 0)) (default 0 feedrate) = feedrate.
Proof.
  destruct feedrate as [v|]; [|done]. intros H. specialize (H v eq_refl). cbn.
  by rewrite (proj2 (Z.eqb_neq v 0)) by lia.
Qed.

Lemma filament_wire f :
  H2cAutoMappingFilamentInfo.is_valid f = true -> parse_filament_info (proto_filament_info f) = f.
Proof.
  unfold H2cAutoMappingFilamentInfo.is_valid. rewrite !andb_true_iff, !in_range_true.
  intros H. unfold parse_filament_info, proto_filament_info. cbn.
  rewrite u8_or_max_in by lia. by destruct f.
Qed.

Lemma nozzle_wire n : parse_nozzle_info (proto_nozzle_info n) = n.
Proof. by destruct n. Qed.

Lemma group_wire g :
  H2cAutoMappingGroupInfo.is_valid g = true -> parse_group_info (proto_group_info g) = g.
Proof.
  rewrite group_valid_spec. intros (_ & H & _). unfold parse_group_info, proto_group_info. cbn.
  rewrite u8_or_max_in by lia. by destruct g.
Qed.

Lemma map_wire {A B} (f : A -> B) (g : B -> A) (valid : A -> bool) (l : list A) :
  (forall a, valid a = true -> g (f a) = a) -> forallb valid l = true -> map g (map f l) = l.
Proof.
  intros Hg H. rewrite map_map. rewrite <- (map_id l) at 2. apply map_ext_in.
  intros a Ha. apply Hg. by apply (proj1 (forallb_forall valid l) H).
Qed.

(** A valid request is one of the two payload versions, and each version carries
    exactly the fields the agent reads back. *)
Lemma request_wire r :
  H2cAutoNozzleMappingRequest.is_valid r = true ->
  parse_auto_nozzle_mapping (proto_auto_nozzle_mapping r)
  = PrinterOperation.GetAutoNozzleMapping r.
Proof.
  destruct r as [command seq version cal manual fseq ams fila nozzle group].
  unfold H2cAutoNozzleMappingRequest.is_valid. cbn [MappingRequest.command MappingRequest.version].
  destruct (_ || _) eqn:G; [done|].
  rewrite !orb_false_iff, !negb_false_iff, beq_true in G. destruct G as [[[-> _] _] _]. intros H.
  unfold parse_auto_nozzle_mapping, proto_auto_nozzle_mapping. f_equal.
  assert (version = Some 1 /\ H2cAutoNozzleMappingRequest.valid_v1
            (MappingRequest.mk "get_auto_nozzle_mapping" seq version cal manual fseq ams fila nozzle group) = true
          \/ (version = None \/ version = Some 0) /\ H2cAutoNozzleMappingRequest.valid_v0
            (MappingRequest.mk "get_auto_nozzle_mapping" seq version cal manual fseq ams fila nozzle group) = true)
    as [[-> V]|[Hv V]].
  { destruct version as [v|]; [|by right; split; [left|]].
    destruct (Z.eqb_spec v 1) as [->|]; [by left|].
    destruct (Z.eqb_spec v 0) as [->|]; [by right; split; [right|]|done]. }
  - unfold H2cAutoNozzleMappingRequest.valid_v1 in V. cbn in V.
    rewrite !andb_true_iff, !is_none_true, is_some_and_true in V.
    destruct V as [[[[[[-> ->] ->] ->] ->] ->] (groups & -> & V)].
    rewrite !andb_true_iff in V. destruct V as [[[_ _] V] _].
    cbn. by rewrite (map_wire _ _ _ _ group_wire V).
  - unfold H2cAutoNozzleMappingRequest.valid_v0 in V. cbn in V.
    rewrite !andb_true_iff, !is_none_true, !is_some_and_true in V.
    destruct V as [[[[[[-> _] _] (fs & -> & _)] (am & -> & _)] (fi & -> & Vf)] (ni & -> & _)].
    rewrite andb_true_iff in Vf. destruct Vf as [_ Vf].
    assert (map parse_nozzle_info (map proto_nozzle_info ni) = ni) as En.
    { rewrite map_map, (map_ext _ id) by apply nozzle_wire. apply map_id. }
    destruct Hv as [-> | ->]; cbn; by rewrite (map_wire _ _ _ _ filament_wire Vf), En.
Qed.

(** The features of a valid operation. *)
Lemma valid_features o :
  validate o = Ok tt ->
  parse_required_device_features
    (map required_feature_proto_value (PrinterOperation.required_device_features o))
  = Ok (PrinterOperation.required_device_features o)
  /\ (PrinterOperation.required_device_features o = [] \/ moves (Some (proto_printer_operation o)) = true).
Proof.
  destruct o; cbn [PrinterOperation.required_device_features validate]; try (by split; [|left]).
  - rewrite guard_Ok, negb_false_iff, home_features_iff. intros [->|[-> _]]; (split; [done|by right]).
  - rewrite rbind_Ok. intros (? & _ & V). destruct (valid_move_features _ _ _) eqn:E; [|done].
    split; [|by right]. unfold valid_move_features in E.
    rewrite orb_true_iff, beq_true in E. destruct E as [->|E]; [done|].
    destruct movements as [|m [|]]; try done. rewrite !andb_true_iff, beq_true in E.
    by destruct E as [_ ->].
Qed.

Lemma parse_operation_wire o :
  validate o = Ok tt -> fields_typed o ->
  parse_operation (PrinterOperation.required_device_features o) (Some (proto_printer_operation o))
  = Ok (wire_form o).
Proof.
  destruct o; cbn [validate fields_typed proto_printer_operation parse_operation wire_form
    PrinterOperation.required_device_features parse_ams_operation]; rewrite ?guard_Ok;
    try done; intros V T.
  - by rewrite parse_proto_action.
  - rewrite negb_false_iff, in_range_true in V. rewrite try_from_int_in by (unfold u8_max; lia). done.
  - rewrite orb_false_iff, negb_false_iff, in_range_true, Z.ltb_ge in V.
    rewrite !try_from_int_in by (unfold u8_max; lia). done.
  - rewrite (try_map_id _ _ _ parse_proto_axis). done.
  - rewrite rbind_Ok in V. destruct V as ([] & V & _). apply move_axes_Ok in V as (_ & _ & V).
    rewrite (try_map_id _ _ _ parse_proto_movement). cbn [rbind]. by rewrite feedrate_wire.
  - rewrite orb_false_iff, Z.ltb_ge in V. unfold MAX_HOTEND_TEMPERATURE_CELSIUS in V.
    rewrite try_from_int_in by (unfold u16_max; lia). done.
  - rewrite Z.ltb_ge in V. unfold MAX_BED_TEMPERATURE_CELSIUS in V.
    rewrite try_from_int_in by (unfold u16_max; lia). done.
  - rewrite Z.ltb_ge in V. unfold MAX_CHAMBER_TEMPERATURE_CELSIUS in V.
    rewrite try_from_int_in by (unfold u16_max; lia). done.
  - rewrite orb_false_iff, negb_false_iff, ams_slot_iff in V.
    rewrite wire_tray, nonempty_default by lia. done.
  - rewrite orb_false_iff, negb_false_iff, ams_slot_iff in V.
    rewrite wire_tray, nonempty_default by lia. done.
  - destruct (_ <? _); [done|]. destruct (negb _) eqn:E1; [done|].
    destruct (negb (in_range MIN_AMS_DRYING_DURATION_HOURS _ _)) eqn:E2; [done|].
    rewrite negb_false_iff, in_range_true in E1, E2.
    unfold MIN_AMS_DRYING_TEMPERATURE_CELSIUS, MAX_AMS_DRYING_TEMPERATURE_CELSIUS,
      MIN_AMS_DRYING_DURATION_HOURS, MAX_AMS_DRYING_DURATION_HOURS in *.
    rewrite !try_from_int_in by (unfold u16_max; lia). done.
  - rewrite request_wire; [done|]. by rewrite negb_false_iff in V.
Qed.

Lemma validate_wire_form o : validate (wire_form o) = validate o.
Proof. by destruct o. Qed.

(** What the agent reads of the message of an operation, whichever way the Hub sent it. *)
Lemma parse_message o serial required :
  validate o = Ok tt -> fields_typed o ->
  required = map required_feature_proto_value (PrinterOperation.required_device_features o) ->
  parse_printer_operation
    (ProtoPrinterOperation.mk serial required (Some (proto_printer_operation o)))
  = Ok (wire_form o).
Proof.
  intros V T ->. destruct (valid_features o V) as [P M]. unfold parse_printer_operation.
  cbn [ProtoPrinterOperation.required_device_features ProtoPrinterOperation.operation].
  rewrite P. cbn [rbind].
  assert (negb (beq (PrinterOperation.required_device_features o) [])
          && negb (moves (Some (proto_printer_operation o))) = false) as ->.
  { destruct M as [-> | ->]; [done|]. by rewrite andb_false_r. }
  rewrite (parse_operation_wire o V T). cbn [rbind]. rewrite validate_wire_form, V. done.
Qed.

(** Only a tray and an external id can be filled in. *)
Lemma kept_external external :
  opt_filter (fun e => negb (beq e EmptyString)) external = external
  <-> negb (beq external (Some EmptyString)) = true.
Proof. destruct external as [[|c e]|]; by vm_compute. Qed.

Lemma wire_form_iff o : wire_form o = o <-> states_tray o = true.
Proof.
  destruct o; try done; cbn [wire_form states_tray]; rewrite andb_true_iff, is_some_true, <- kept_external;
    (split; [intros [= <- ->]; by eauto|intros [[tray ->] ->]; done]).
Qed.

(** The decoded operation is queued as the very same message. *)
Lemma same_operation_message o :
  validate o = Ok tt -> fields_typed o -> proto_printer_operation (wire_form o) = proto_printer_operation o.
Proof.
  destruct o; try done; cbn [wire_form proto_printer_operation validate fields_typed]; rewrite guard_Ok,
    orb_false_iff, negb_false_iff, ams_slot_iff; intros V T; rewrite !wire_tray by lia; f_equal;
    by destruct external_id as [[]|].
Qed.

(** ** Properties *)

(** C10: an operation the validator accepts, with values of their unsigned types in its
    fields, crosses the wire: the agent decodes the message the Hub queues for it, and so
    the live message of one that requires no device feature.  What it decodes is the
    operation itself, except that a filament load or unload that names no tray gets the
    one its unit and slot make, and an empty external id is none; it is the operation
    itself exactly when neither has to be filled in, and it is always one that is queued
    as the same message. *)
Theorem operation_wire_roundtrip (o : PrinterOperation.t) (serial : string)
    (Hvalid : validate o = Ok tt) (Hty : fields_typed o) :
  parse_printer_operation (queued_operation serial o) = Ok (wire_form o)
  /\ (PrinterOperation.required_device_features o = [] ->
      parse_printer_operation (live_operation serial o) = Ok (wire_form o))
  /\ (wire_form o = o <-> states_tray o = true)
  /\ queued_operation serial (wire_form o) = queued_operation serial o.
Proof.
  split_and!; [by apply parse_message| |apply wire_form_iff|].
  - intros R. apply parse_message; [done|done|]. by rewrite R.
  - unfold queued_operation. rewrite (same_operation_message o Hvalid Hty). by destruct o.
Qed.

Lemma operation_wire_roundtrip_witness :
  parse_printer_operation (queued_operation "01S" step_y) = Ok step_y.
Proof. apply (operation_wire_roundtrip step_y "01S"); [vm_compute; reflexivity|done]. Defined.

Example wire_rejections :
  parse_printer_operation
    (ProtoPrinterOperation.mk "01S" [38] (Some (Operation.SetPrintSpeed 2)))
  = bail "required device feature is only valid for home or move_axes"
  /\ parse_printer_operation
       (ProtoPrinterOperation.mk "01S" [] (Some (Operation.SetPrintSpeed 258)))
     = bail "printer operation speed_mode exceeds uint8: out of range integral type conversion attempted"
  /\ parse_printer_operation
       (queued_operation "01S" (PrinterOperation.AmsLoadFilament 1 2 None (Some EmptyString) None))
     = Ok (PrinterOperation.AmsLoadFilament 1 2 (Some 6) None None).
Proof. vm_compute. done. Qed.
