(* ===== verification/ProjectFile.v ===== *)
(** * The [project_file] command

    [machine/mqtt/commands/project_file.rs] and [payload.rs] of the agent: the
    payload that starts a print of an uploaded file; [machine/mqtt/signing.rs]: its
    signed form.  [serde_json::to_value] sorts the members of every object, while
    [to_vec] of a struct keeps their order of declaration.  The slicer's key file and
    the RSA signature are parameters. *)

From S2P Require Import Prelude RustStr RustFloat Json CoreTypes CoreRecords.

#[local] Open Scope Z_scope.

(** ** Serialized values *)

Definition int_value (z : Z) : json := Num (if z <? 0 then NegInt z else PosInt z).

(** A member, and one with [skip_serializing_if = "Option::is_none"]. *)
Definition member (name : string) (value : json) : list (string * json) := [(name, value)].
Definition opt_member {A} (name : string) (to_json : A -> json) (value : option A)
  : list (string * json) :=
  match value with Some value => [(name, to_json value)] | None => [] end.

(** [to_value] of a struct with these members; the values are themselves [to_value]s. *)
Definition to_value (members : list (string * json)) : json := Object (btree_extend [] members).

(** [to_value] of what a declaration-ordered value serializes. *)
Fixpoint sorted (j : json) : json :=
  match j with
  | Object members => Object (btree_extend [] (map (fun kv => (kv.1, sorted kv.2)) members))
  | Array values => Array (map sorted values)
  | _ => j
  end.

(** ** The command *)

Inductive PrintSubmissionSource := Unspecified | Web | Studio.

#[export] Instance PrintSubmissionSource_eq_dec : EqDecision PrintSubmissionSource.
Proof. solve_decision. Defined.

Module ProjectFileCommand.
Record t := mk {
  printer_model : option string; filename : string; url : option string; md5 : option string;
  plate_id : Z; studio_submission_id : Z; submission_source : PrintSubmissionSource;
  task_name : option string; origin_profile_id : Z; use_ams : bool; bed_leveling : bool;
  auto_bed_leveling : PrintCalibrationMode.t; flow_cali : bool; vibration_cali : bool;
  layer_inspect : bool; auto_flow_cali : PrintCalibrationMode.t;
  auto_offset_cali : PrintCalibrationMode.t; timelapse : bool; timelapse_use_internal : bool;
  bed_type : string; extruder_cali_manual_mode : option Z; nozzle_mapping : list Z;
  ams_mapping : list Z; ams_mapping2 : list StudioAmsMappingEntry;
  ams_mapping_info : list StudioAmsMappingInfo }.
End ProjectFileCommand.

(** [ProjectFilePayloadPrint], less the constant [command]. *)
Module ProjectFilePayloadPrint.
Record t := mk {
  sequence_id : string; param : string; project_id : string; profile_id : string;
  task_id : string; subtask_id : string; subtask_name : string; url : string; file : string;
  md5 : string; bed_type : string; bed_leveling : bool; flow_cali : bool; vibration_cali : bool;
  layer_inspect : bool; timelapse : bool; use_ams : bool; ams_mapping : list Z;
  ams_mapping2 : list StudioAmsMappingEntry; nozzle_mapping : option (list Z);
  ams_mapping_info : option (list StudioAmsMappingInfo); auto_bed_leveling : Z;
  nozzle_offset_cali : Z; cfg : string; extrude_cali_flag : Z;
  extrude_cali_manual_mode : option Z }.

Definition with_ams_mapping_info (p : t) (entries : option (list StudioAmsMappingInfo)) : t :=
  mk (sequence_id p) (param p) (project_id p) (profile_id p) (task_id p) (subtask_id p)
    (subtask_name p) (url p) (file p) (md5 p) (bed_type p) (bed_leveling p) (flow_cali p)
    (vibration_cali p) (layer_inspect p) (timelapse p) (use_ams p) (ams_mapping p)
    (ams_mapping2 p) (nozzle_mapping p) entries (auto_bed_leveling p) (nozzle_offset_cali p)
    (cfg p) (extrude_cali_flag p) (extrude_cali_manual_mode p).

Definition mapping2_json (e : StudioAmsMappingEntry) : json :=
  Object (member "ams_id" (int_value (entry_ams_id e)) ++ member "slot_id" (int_value (entry_slot_id e))).

Definition mapping_info_json (i : StudioAmsMappingInfo) : json :=
  Object (member "ams" (int_value (info_ams i)) ++ member "targetColor" (Str (target_color i))
    ++ member "filamentId" (Str (info_filament_id i))
    ++ member "filamentType" (Str (info_filament_type i))
    ++ opt_member "nozzleId" int_value (nozzle_id i)
    ++ opt_member "sourceColor" Str (source_color i)).

(** The members in declaration order. *)
Definition members (p : t) : list (string * json) :=
  member "command" (Str "project_file")
  ++ member "sequence_id" (Str (sequence_id p)) ++ member "param" (Str (param p))
  ++ member "project_id" (Str (project_id p)) ++ member "profile_id" (Str (profile_id p))
  ++ member "task_id" (Str (task_id p)) ++ member "subtask_id" (Str (subtask_id p))
  ++ member "subtask_name" (Str (subtask_name p)) ++ member "url" (Str (url p))
  ++ member "file" (Str (file p)) ++ member "md5" (Str (md5 p))
  ++ member "bed_type" (Str (bed_type p)) ++ member "bed_leveling" (Bool (bed_leveling p))
  ++ member "flow_cali" (Bool (flow_cali p)) ++ member "vibration_cali" (Bool (vibration_cali p))
  ++ member "layer_inspect" (Bool (layer_inspect p)) ++ member "timelapse" (Bool (timelapse p))
  ++ member "use_ams" (Bool (use_ams p))
  ++ member "ams_mapping" (Array (map int_value (ams_mapping p)))
  ++ member "ams_mapping2" (Array (map mapping2_json (ams_mapping2 p)))
  ++ opt_member "nozzle_mapping" (fun m => Array (map int_value m)) (nozzle_mapping p)
  ++ opt_member "ams_mapping_info" (fun m => Array (map mapping_info_json m)) (ams_mapping_info p)
  ++ member "auto_bed_leveling" (int_value (auto_bed_leveling p))
  ++ member "nozzle_offset_cali" (int_value (nozzle_offset_cali p))
  ++ member "cfg" (Str (cfg p)) ++ member "extrude_cali_flag" (int_value (extrude_cali_flag p))
  ++ opt_member "extrude_cali_manual_mode" int_value (extrude_cali_manual_mode p).

(** [ProjectFilePayload] and [SignedProjectFilePayload]. *)
Definition envelope (p : t) : json := Object (member "print" (Object (members p))).
End ProjectFilePayloadPrint.

(** ** Signing ([signing.rs]) *)

(** The key is absent when there is no readable key file; [sign_base64] is the RSA
    signature in base64, [None] when signing fails. *)
Class SlicerKey := {
  slicer_key : bool;
  slicer_cert_id : option string;
  sign_base64 : string -> option string;
  to_vec : json -> string;
}.

Definition h2d_family (model : option string) : bool :=
  match model with
  | None => false
  | Some model =>
      let model := to_ascii_uppercase model in
      existsb (fun token => str_contains token model) ["H2D"; "O1D"; "C16"; "X2D"]%string
  end.

Definition flip_nozzle_id (i : StudioAmsMappingInfo) : StudioAmsMappingInfo :=
  mkAmsInfo (info_ams i) (target_color i) (info_filament_id i) (info_filament_type i)
    (match nozzle_id i with Some 0 => Some 1 | Some 1 => Some 0 | other => other end)
    (source_color i).

Definition flip_nozzle_ids (p : ProjectFilePayloadPrint.t) : ProjectFilePayloadPrint.t :=
  match ProjectFilePayloadPrint.ams_mapping_info p with
  | None => p
  | Some entries =>
      ProjectFilePayloadPrint.with_ams_mapping_info p (Some (map flip_nozzle_id entries))
  end.

Section Payload.
Context `{SlicerKey}.

(** The arguments of a signed payload: the header, then the [print] section. *)
Definition signed_envelope (payload_len : Z) (signature : string) (p : ProjectFilePayloadPrint.t)
  : json :=
  Object (member "header" (Object
      (member "cert_id" (Str (default EmptyString slicer_cert_id))
       ++ member "payload_len" (int_value payload_len) ++ member "sign_alg" (Str "RSA_SHA256")
       ++ member "sign_string" (Str signature) ++ member "sign_ver" (Str "v1.0")))
    ++ member "print" (Object (ProjectFilePayloadPrint.members p))).

Definition maybe_sign_project_file_payload (project : ProjectFilePayloadPrint.t)
    (printer_model : option string) : json :=
  if negb slicer_key then sorted (ProjectFilePayloadPrint.envelope project)
  else
    let project := if h2d_family printer_model then flip_nozzle_ids project else project in
    let to_sign := to_vec (ProjectFilePayloadPrint.envelope project) in
    match sign_base64 to_sign with
    | None => sorted (ProjectFilePayloadPrint.envelope project)
    | Some signature =>
        sorted (signed_envelope (Z.of_nat (String.length to_sign)) signature project)
    end.

(** ** The payload ([project_file.rs]) *)

Definition strip_suffix (suffix s : string) : option string :=
  option_map str_rev (strip_prefix (str_rev suffix) (str_rev s)).

Definition is_path_separator (c : ascii) : bool := byte_is 47 c || byte_is 92 c.

Definition project_file_subtask_name (filename : string) : string :=
  let base := trim (after_last is_path_separator filename) in
  let stem := trim (default base (opt_or (strip_suffix ".gcode.3mf" base) (strip_suffix ".3mf" base))) in
  if beq stem EmptyString then "print"%string else stem.

Definition nozzle_mapping_for_printer (command : ProjectFileCommand.t) : option (list Z) :=
  match ProjectFileCommand.nozzle_mapping command with [] => None | mapping => Some mapping end.

(** Trays 254 and 255 are external spools. *)
Definition ams_mapping_value (value : Z) : Z := if (value =? 254) || (value =? 255) then -1 else value.

(** [None] is the [unreachable!] of an unspecified source. *)
Definition profile_id (command : ProjectFileCommand.t) : option string :=
  match ProjectFileCommand.submission_source command with
  | Studio =>
      Some (dec (if 0 <? ProjectFileCommand.origin_profile_id command
                 then ProjectFileCommand.origin_profile_id command
                 else ProjectFileCommand.studio_submission_id command))
  | Web => Some "0"%string
  | Unspecified => None
  end.

Definition project_file_print (sequence_id profile_id : string) (command : ProjectFileCommand.t)
  : ProjectFilePayloadPrint.t :=
  let submission_id := dec (ProjectFileCommand.studio_submission_id command) in
  ProjectFilePayloadPrint.mk
    sequence_id
    ("Metadata/plate_" +:+ dec (ProjectFileCommand.plate_id command) +:+ ".gcode")
    submission_id profile_id submission_id submission_id
    (default (project_file_subtask_name (ProjectFileCommand.filename command))
       (opt_filter (fun name => negb (blank name)) (ProjectFileCommand.task_name command)))
    (default ("ftp://" +:+ ProjectFileCommand.filename command) (ProjectFileCommand.url command))
    (ProjectFileCommand.filename command)
    (default EmptyString (ProjectFileCommand.md5 command))
    (ProjectFileCommand.bed_type command) (ProjectFileCommand.bed_leveling command)
    (ProjectFileCommand.flow_cali command) (ProjectFileCommand.vibration_cali command)
    (ProjectFileCommand.layer_inspect command) (ProjectFileCommand.timelapse command)
    (ProjectFileCommand.use_ams command)
    (map ams_mapping_value (ProjectFileCommand.ams_mapping command))
    (ProjectFileCommand.ams_mapping2 command)
    (nozzle_mapping_for_printer command)
    (match ProjectFileCommand.ams_mapping_info command with [] => None | info => Some info end)
    (PrintCalibrationMode.as_u8 (ProjectFileCommand.auto_bed_leveling command))
    (PrintCalibrationMode.as_u8 (ProjectFileCommand.auto_offset_cali command))
    (if ProjectFileCommand.timelapse_use_internal command then "4" else "0")%string
    (PrintCalibrationMode.as_u8 (ProjectFileCommand.auto_flow_cali command))
    (ProjectFileCommand.extruder_cali_manual_mode command).

(** The payload under a sequence id. *)
Definition project_file_payload (sequence_id : string) (command : ProjectFileCommand.t)
  : option json :=
  profile_id ← profile_id command;
  Some (maybe_sign_project_file_payload (project_file_print sequence_id profile_id command)
          (ProjectFileCommand.printer_model command)).
End Payload.
