(* ===== verification/CommandTransitions.v ===== *)
(** * The command lifecycle

    Every write to the status of a command or of the job it prints:
    [repositories/jobs/transitions.rs], [repositories/commands/transitions.rs],
    [commands/terminal.rs], [commands/query.rs], [commands/firmware.rs] (the two
    phase writes) and [repositories/session_commands.rs].  A status write is a
    compare-and-set: one [UPDATE] filtered on the statuses it may leave. *)

From stdpp Require Import relations.
From S2P Require Import Prelude RustStr CoreTypes CoreRecords Store JobRows Tx AgentSessions Ams PrinterOperation.

#[local] Open Scope Z_scope.
#[local] Open Scope rust_scope.
#[local] Open Scope tx_scope.

(** ** Payloads and results stored as JSON *)

Module PrinterOperationPayload.
Record t := mk { printer_id : string; serial_number : string; operation : PrinterOperation.t }.
End PrinterOperationPayload.

Module FirmwareRefreshPayload.
Record t := mk {
  action : string; serial : string; owner_session_id : string; owner_instance_id : N;
  sequence_id : string }.
End FirmwareRefreshPayload.

Module FirmwareControlPayload.
Record t := mk {
  serial : string; owner_session_id : string; owner_instance_id : N;
  command : FirmwareControlMetadata.t }.
End FirmwareControlPayload.

Inductive FirmwarePersistedPhase :=
| PrePublishFailure | Acknowledged | Rejected | OutcomeUnknown | Refreshed.

Module FirmwarePersistedResult.
Record t := mk {
  phase : FirmwarePersistedPhase; outcome : option FirmwareTerminalOutcome;
  transient_status : option PrinterFirmwareStatus }.
End FirmwarePersistedResult.

(** ** Requested transitions *)

Module PrintCommandTransition.
Record t := mk {
  command_id : CommandId; tenant_id : TenantId; agent_id : AgentId;
  command_status : CommandStatus.t; job_status : JobStatus.t; error : option string;
  result_json : option string; allowed_statuses : list CommandStatus.t; action : string }.
End PrintCommandTransition.

Module StatusTransition.
Record t := mk {
  command_id : CommandId; tenant_id : TenantId; agent_id : AgentId; status : CommandStatus.t;
  error : option string; result_json : option string;
  allowed_statuses : list CommandStatus.t }.
End StatusTransition.

Module TerminalCommandTransition.
Record t := mk {
  command_id : CommandId; tenant_id : TenantId; agent_id : AgentId;
  terminal_status : CommandStatus.t; error : option string; result_json : option string;
  action : string }.
End TerminalCommandTransition.
Import PrintCommandTransition.

(** The [serde_json] readers and writers of the command columns. *)
Class CommandJson := {
  (** [from_str::<PrintProjectFileUploadedUrl>], its [uploaded_url] member. *)
  parse_uploaded_url : string -> option (option string);
  parse_operation_payload : string -> option PrinterOperationPayload.t;
  parse_refresh_payload : string -> option FirmwareRefreshPayload.t;
  parse_control_payload : string -> option FirmwareControlPayload.t;
  persisted_result_to_string : FirmwarePersistedResult.t -> string;
}.

Section Commands.
Context `{Store} `{UuidText} `{Rfc3339} `{CommandJson}.

Definition main (A : Type) : Type := tx Db.t RepositoryError A.

(** A statement of the main tables inside the hub database. *)
Definition on_main {A} (m : main A) : hub A :=
  zoom Hub.main (fun db h => Hub.mk (Hub.agents h) db) m.

Definition invalid_transition (status : CommandStatus.t) (action : string) : RepositoryError :=
  InvalidCommandTransition (CommandStatus.as_str status) action.

(** ** Statements *)

(** [commands::Entity::update_many()], with [rows_affected]. *)
Definition update_commands (p : CommandsModel.t -> bool) (f : CommandsModel.t -> CommandsModel.t)
  : main Z := fun db =>
  let '(commands, affected) := update_many p f (Db.commands db) in
  (Db.mk commands (Db.jobs db) (Db.artifacts db) (Db.usages db), Ok affected).

Definition update_jobs (p : JobsModel.t -> bool) (f : JobsModel.t -> JobsModel.t) : main Z := fun db =>
  let '(jobs, affected) := update_many p f (Db.jobs db) in
  (Db.mk (Db.commands db) jobs (Db.artifacts db) (Db.usages db), Ok affected).

Definition set_command (status : CommandStatus.t) (error result_json : option string) (now : string)
    (m : CommandsModel.t) : CommandsModel.t :=
  CommandsModel.mk (CommandsModel.id m) (CommandsModel.tenant_id m) (CommandsModel.agent_id m)
    (CommandsModel.printer_id m) (CommandsModel.kind m) (CommandStatus.as_str status)
    (CommandsModel.payload_json m) result_json error (CommandsModel.created_at m) now.

Definition command_filter (command_id : CommandId) (tenant_id : TenantId) (agent_id : AgentId)
    (allowed_statuses : list CommandStatus.t) (m : CommandsModel.t) : bool :=
  beq (CommandsModel.id m) (CommandId_to_string command_id)
  && beq (CommandsModel.tenant_id m) (TenantId_to_string tenant_id)
  && beq (CommandsModel.agent_id m) (AgentId_to_string agent_id)
  && bool_decide (CommandsModel.status m ∈ map CommandStatus.as_str allowed_statuses).

(** [commands/query.rs]: [get] and [load_owned]; [session_commands.rs] and
    [commands/firmware.rs] repeat them on a transaction. *)
Definition get (command_id : CommandId) : main (option CommandRecord.t) :=
  tread (fun db => traverse_opt command_from_model
    (select_one (fun m => beq (CommandsModel.id m) (CommandId_to_string command_id))
       (Db.commands db))).

Definition load_owned (command_id : CommandId) (tenant_id : TenantId) (agent_id : AgentId)
  : main CommandRecord.t :=
  command <~ get command_id ;;
  command <~ tlift (ok_or command MissingCommand) ;;
  if negb (beq (CommandRecord.tenant_id command) tenant_id)
     || negb (beq (CommandRecord.agent_id command) agent_id)
  then tfail CommandOwnershipMismatch
  else tret command.

Definition load_owned_command (tenant_id : TenantId) (agent_id : AgentId) (command_id : CommandId)
  : main CommandRecord.t := load_owned command_id tenant_id agent_id.
Definition load_owned_on (command_id : CommandId) (tenant_id : TenantId) (agent_id : AgentId)
  : main CommandRecord.t := load_owned command_id tenant_id agent_id.

(** ** Print commands and their jobs ([jobs/transitions.rs]) *)


Definition update_print_command (now : string) (t : PrintCommandTransition.t) : main bool :=
  affected <~ update_commands
    (fun m =>
       command_filter (command_id t) (tenant_id t) (agent_id t) (allowed_statuses t) m
       && beq (CommandsModel.kind m) "print_project_file"%string)
    (set_command (command_status t) (error t) (result_json t) now) ;;
  tret (affected =? 1).

(** The URL a successful result carries; an unreadable result is only logged. *)
Definition uploaded_url (t : PrintCommandTransition.t) : option string :=
  match command_status t, result_json t with
  | CommandStatus.Succeeded, Some result_json => default None (parse_uploaded_url result_json)
  | _, _ => None
  end.

Definition terminal_job_status (s : JobStatus.t) : bool :=
  match s with
  | JobStatus.Succeeded | JobStatus.Failed | JobStatus.Cancelled => true
  | _ => false
  end.

(** The texts of [is_not_in]. *)
Definition terminal_job_texts : list string := ["succeeded"; "failed"; "cancelled"]%string.
Definition job_is_terminal (m : JobsModel.t) : bool :=
  bool_decide (JobsModel.status m ∈ terminal_job_texts).

Definition set_job (t : PrintCommandTransition.t) (now : string) (m : JobsModel.t) : JobsModel.t :=
  m <| JobsModel.status := JobStatus.as_str (job_status t) |>
    <| JobsModel.error := error t |>
    <| JobsModel.uploaded_url := opt_or (uploaded_url t) (JobsModel.uploaded_url m) |>
    <| JobsModel.updated_at := now |>.

Definition update_job_for_command (now : string) (t : PrintCommandTransition.t) : main unit :=
  affected <~ update_jobs
    (fun m => beq (JobsModel.command_id m) (CommandId_to_string (command_id t))
              && negb (job_is_terminal m))
    (set_job t now) ;;
  if (affected =? 0) && negb (terminal_job_status (job_status t)) then tfail MissingJob
  else tret tt.

Definition verify_owned_print_command (command : CommandRecord.t) (t : PrintCommandTransition.t)
  : result RepositoryError CommandRecord.t :=
  if negb (beq (CommandRecord.tenant_id command) (tenant_id t))
     || negb (beq (CommandRecord.agent_id command) (agent_id t))
  then Err CommandOwnershipMismatch
  else if negb (beq (CommandRecord.kind command) "print_project_file"%string) then Err MissingJob
  else Ok command.

Definition load_owned_print_command (t : PrintCommandTransition.t) : main CommandRecord.t :=
  command <~ get (command_id t) ;;
  command <~ tlift (ok_or command MissingCommand) ;;
  tlift (verify_owned_print_command command t).

(** [now] and [now'] are the clock readings of the two updates. *)
Definition transition_print_command (now now' : string) (t : PrintCommandTransition.t)
  : main CommandRecord.t :=
  updated <~ update_print_command now t ;;
  command <~ load_owned_print_command t ;;
  if updated || beq (CommandRecord.status command) (command_status t) then
    update_job_for_command now' t ~;;
    tret command
  else tfail (invalid_transition (CommandRecord.status command) (action t)).

(** ** Other commands ([commands/transitions.rs], [commands/terminal.rs]) *)


Definition update_status_if_current_on (now : string) (t : StatusTransition.t) : main bool :=
  affected <~ update_commands
    (command_filter (StatusTransition.command_id t) (StatusTransition.tenant_id t)
       (StatusTransition.agent_id t) (StatusTransition.allowed_statuses t))
    (set_command (StatusTransition.status t) (StatusTransition.error t)
       (StatusTransition.result_json t) now) ;;
  tret (affected =? 1).


Definition is_firmware_kind (kind : string) : bool :=
  beq kind "firmware_refresh"%string || beq kind "firmware_control"%string.

(** Not in a transaction: the update stays when the load that follows fails. *)
Definition guard_terminal_transition (now : string) (t : TerminalCommandTransition.t)
  : main CommandRecord.t :=
  updated <~ update_status_if_current_on now
    (StatusTransition.mk (TerminalCommandTransition.command_id t)
       (TerminalCommandTransition.tenant_id t) (TerminalCommandTransition.agent_id t)
       (TerminalCommandTransition.terminal_status t) (TerminalCommandTransition.error t)
       (TerminalCommandTransition.result_json t)
       [CommandStatus.Sent; CommandStatus.Acknowledged]) ;;
  command <~ load_owned (TerminalCommandTransition.command_id t)
    (TerminalCommandTransition.tenant_id t) (TerminalCommandTransition.agent_id t) ;;
  if updated || beq (CommandRecord.status command) (TerminalCommandTransition.terminal_status t) then tret command
  else tfail (invalid_transition (CommandRecord.status command) (TerminalCommandTransition.action t)).

Definition generic_firmware_error (command : CommandRecord.t) : RepositoryError :=
  invalid_transition (CommandRecord.status command)
    "finish firmware command through generic transition".

Definition guard_generic_terminal_transition (now : string) (t : TerminalCommandTransition.t)
  : main CommandRecord.t :=
  command <~ load_owned (TerminalCommandTransition.command_id t)
    (TerminalCommandTransition.tenant_id t) (TerminalCommandTransition.agent_id t) ;;
  if is_firmware_kind (CommandRecord.kind command) then tfail (generic_firmware_error command)
  else guard_terminal_transition now t.

(** [CommandRepository::mark_failed_with_result]; [mark_failed] passes no result. *)
Definition mark_failed_with_result (now : string) (command_id : CommandId) (tenant_id : TenantId)
    (agent_id : AgentId) (error : string) (result_json : option string) : main CommandRecord.t :=
  guard_generic_terminal_transition now
    (TerminalCommandTransition.mk command_id tenant_id agent_id CommandStatus.Failed (Some error)
       result_json "fail").

Definition mark_failed (now : string) (command_id : CommandId) (tenant_id : TenantId)
    (agent_id : AgentId) (error : string) : main CommandRecord.t :=
  mark_failed_with_result now command_id tenant_id agent_id error None.

(** ** Firmware commands ([commands/firmware.rs]) *)

Definition require_kind (command : CommandRecord.t) (expected : string)
  : result RepositoryError CommandRecord.t :=
  if beq (CommandRecord.kind command) expected then Ok command
  else Err (invalid_transition (CommandRecord.status command) "advance firmware command").

Definition mark_firmware_execute_sent_on (now : string) (command_id : CommandId)
    (tenant_id : TenantId) (agent_id : AgentId) : main CommandRecord.t :=
  command <~ load_owned_on command_id tenant_id agent_id ;;
  command <~ tlift (require_kind command "firmware_control") ;;
  if beq (CommandRecord.status command) CommandStatus.Acknowledged then tret command
  else
    updated <~ update_status_if_current_on now
      (StatusTransition.mk command_id tenant_id agent_id CommandStatus.Acknowledged None None
         [CommandStatus.Sent]) ;;
    command <~ load_owned_on command_id tenant_id agent_id ;;
    command <~ tlift (require_kind command "firmware_control") ;;
    if updated || beq (CommandRecord.status command) CommandStatus.Acknowledged then tret command
    else tfail (invalid_transition (CommandRecord.status command) "advance firmware command").

Definition mark_firmware_execute_sent (now : string) (command_id : CommandId)
    (tenant_id : TenantId) (agent_id : AgentId) : main CommandRecord.t :=
  transaction (mark_firmware_execute_sent_on now command_id tenant_id agent_id).

Definition mark_firmware_terminal (now : string) (command_id : CommandId) (tenant_id : TenantId)
    (agent_id : AgentId) (status : CommandStatus.t) (error : option string)
    (result : FirmwarePersistedResult.t) : main CommandRecord.t :=
  command <~ load_owned command_id tenant_id agent_id ;;
  if negb (is_firmware_kind (CommandRecord.kind command))
  then tfail (invalid_transition (CommandRecord.status command) "finish firmware command")
  else
    let result_json := persisted_result_to_string result in
    command <~ guard_terminal_transition now
      (TerminalCommandTransition.mk command_id tenant_id agent_id status error (Some result_json)
         "finish firmware command") ;;
    if beq (CommandRecord.status command) status && beq (CommandRecord.error command) error
       && beq (CommandRecord.result_json command) (Some result_json)
    then tret command
    else tfail (invalid_transition (CommandRecord.status command)
                  "finish firmware command with a different terminal result").

(** ** Commands of the current session ([session_commands.rs]) *)

(** [CurrentSessionCommandAction]. *)
Inductive session_action :=
| Send
| Acknowledge
| FailQueued (error : string)
| Succeed (result_json : option string)
| Fail_ (error : string) (result_json : option string).

(** The tuple both transition functions compute from the action: the status to
    enter, the error and result to store, the statuses to leave, the action's
    name in an error. *)
Definition action_plan (a : session_action)
  : CommandStatus.t * option string * option string * list CommandStatus.t * string :=
  match a with
  | Send => (CommandStatus.Sent, None, None, [CommandStatus.Queued], "send"%string)
  | Acknowledge => (CommandStatus.Acknowledged, None, None, [CommandStatus.Sent], "acknowledge"%string)
  | FailQueued error => (CommandStatus.Failed, Some error, None, [CommandStatus.Queued], "fail"%string)
  | Succeed result_json =>
      (CommandStatus.Succeeded, None, result_json,
       [CommandStatus.Sent; CommandStatus.Acknowledged], "succeed"%string)
  | Fail_ error result_json =>
      (CommandStatus.Failed, Some error, result_json,
       [CommandStatus.Sent; CommandStatus.Acknowledged], "fail"%string)
  end.

Definition action_job_status (a : session_action) : JobStatus.t :=
  match a with
  | Send => JobStatus.Sent
  | Acknowledge => JobStatus.Acknowledged
  | FailQueued _ => JobStatus.Failed
  | Succeed _ => JobStatus.Succeeded
  | Fail_ _ _ => JobStatus.Failed
  end.

Definition action_terminal (a : session_action) : bool :=
  match a with Succeed _ | Fail_ _ _ => true | _ => false end.

Definition print_transition (tenant_id : TenantId) (agent_id : AgentId) (command_id : CommandId)
    (a : session_action) : PrintCommandTransition.t :=
  let '(status, error, result_json, allowed, action) := action_plan a in
  PrintCommandTransition.mk command_id tenant_id agent_id status (action_job_status a) error
    result_json allowed action.

Definition session_print_command (now now' : string) (tenant_id : TenantId) (agent_id : AgentId)
    (command_id : CommandId) (a : session_action) : main CommandRecord.t :=
  transition_print_command now now' (print_transition tenant_id agent_id command_id a).

Definition transition_command (now : string) (command : CommandRecord.t) (a : session_action)
  : main CommandRecord.t :=
  let '(status, error, result_json, allowed, action) := action_plan a in
  if action_terminal a && is_firmware_kind (CommandRecord.kind command)
  then tfail (generic_firmware_error command)
  else
    updated <~ update_status_if_current_on now
      (StatusTransition.mk (CommandRecord.id command) (CommandRecord.tenant_id command)
         (CommandRecord.agent_id command) status error result_json allowed) ;;
    command <~ load_owned_command (CommandRecord.tenant_id command)
      (CommandRecord.agent_id command) (CommandRecord.id command) ;;
    if updated || (action_terminal a && beq (CommandRecord.status command) status)
    then tret command
    else tfail (invalid_transition (CommandRecord.status command) action).

Definition transition_command_on (now now' : string) (tenant_id : TenantId) (agent_id : AgentId)
    (command_id : CommandId) (a : session_action) : main CommandRecord.t :=
  command <~ load_owned_command tenant_id agent_id command_id ;;
  if beq (CommandRecord.kind command) "print_project_file"%string
  then session_print_command now now' tenant_id agent_id command_id a
  else transition_command now command a.

Definition transition_current_session_command (now now' : string) (tenant_id : TenantId)
    (agent_id : AgentId) (session_id : string) (command_id : CommandId) (a : session_action)
  : hub CommandRecord.t :=
  transaction (
    begin_current_agent_transaction tenant_id agent_id session_id ~;;
    on_main (transition_command_on now now' tenant_id agent_id command_id a)).

Definition fail_queued_for_closing_session (now now' : string) (tenant_id : TenantId)
    (agent_id : AgentId) (closing_session_id : string) (command_id : CommandId) (error : string)
  : hub CommandRecord.t :=
  transaction (
    begin_closing_agent_transaction tenant_id agent_id closing_session_id ~;;
    on_main (transition_command_on now now' tenant_id agent_id command_id (FailQueued error))).

(** ** The sweep of stale live commands *)

Definition live_kinds : list string :=
  ["link_printer"; "printer_operation"; "firmware_refresh"; "firmware_control"]%string.

(** [<] on text columns. *)
Definition text_lt (a b : string) : bool := negb (text_le b a).

Definition stale_candidate (command_cutoff : string) (m : CommandsModel.t) : bool :=
  bool_decide (CommandsModel.kind m ∈ live_kinds)
  && (beq (CommandsModel.status m) (CommandStatus.as_str CommandStatus.Sent)
      || beq (CommandsModel.status m) (CommandStatus.as_str CommandStatus.Acknowledged))
  && text_lt (CommandsModel.updated_at m) command_cutoff.

(** The error to store and the owner of a firmware command.  The candidates have
    one of the four kinds, so the source's last arm is [unreachable!]. *)
Definition stale_error (command : CommandRecord.t)
  : result RepositoryError (option string * option (string * N)) :=
  let payload_json := CommandRecord.payload_json command in
  if beq (CommandRecord.kind command) "link_printer"%string then
    Ok (Some "printer link dispatch expired before completion"%string, None)
  else if beq (CommandRecord.kind command) "printer_operation"%string then
    payload <-? ok_or (parse_operation_payload payload_json) Database ;;
    Ok (match PrinterOperationPayload.operation payload with
        | PrinterOperation.HandlePrintError _ _ _ _ =>
            Some "live printer operation owner unavailable before completion"%string
        | _ => None
        end, None)
  else if beq (CommandRecord.kind command) "firmware_refresh"%string then
    payload <-? ok_or (parse_refresh_payload payload_json) Database ;;
    Ok (Some "live firmware refresh owner unavailable before completion"%string,
        Some (FirmwareRefreshPayload.owner_session_id payload,
              FirmwareRefreshPayload.owner_instance_id payload))
  else if beq (CommandRecord.kind command) "firmware_control"%string then
    payload <-? ok_or (parse_control_payload payload_json) Database ;;
    Ok (Some "live firmware control owner unavailable before completion"%string,
        Some (FirmwareControlPayload.owner_session_id payload,
              FirmwareControlPayload.owner_instance_id payload))
  else Err Database.

Definition stale_result (command : CommandRecord.t) : option string :=
  if is_firmware_kind (CommandRecord.kind command) then
    Some (persisted_result_to_string
      (FirmwarePersistedResult.mk
         (if beq (CommandRecord.status command) CommandStatus.Acknowledged
          then OutcomeUnknown else PrePublishFailure) None None))
  else None.

Definition stale_transition (command : CommandRecord.t) (error : string) : StatusTransition.t :=
  StatusTransition.mk (CommandRecord.id command) (CommandRecord.tenant_id command)
    (CommandRecord.agent_id command) CommandStatus.Failed (Some error) (stale_result command)
    [CommandStatus.Sent; CommandStatus.Acknowledged].

(** The body of the loop: whether the command was failed. *)
Definition fail_stale_command (now : string) (session_cutoff_at : Z) (sweeper_instance_id : N)
    (owned_command_ids : list string) (command : CommandRecord.t) : hub bool :=
  if bool_decide (CommandId_to_string (CommandRecord.id command) ∈ owned_command_ids)
  then tret false
  else
    plan <~ tlift (stale_error command) ;;
    match plan with
    | (None, _) => tret false
    | (Some error, Some (owner_session_id, owner_instance_id)) =>
        transaction (
          open <~ begin_stale_firmware_cleanup_transaction (CommandRecord.tenant_id command)
            (CommandRecord.agent_id command) owner_session_id owner_instance_id
            sweeper_instance_id session_cutoff_at ;;
          match open with
          | None => tret false
          | Some _ => on_main (update_status_if_current_on now (stale_transition command error))
          end)
    | (Some error, None) =>
        on_main (update_status_if_current_on now (stale_transition command error))
    end.

Fixpoint fail_stale_loop (clock : CommandRecord.t -> string) (session_cutoff_at : Z)
    (sweeper_instance_id : N) (owned_command_ids : list string) (candidates : list CommandRecord.t)
    (failed : Z) : hub Z :=
  match candidates with
  | [] => tret failed
  | command :: candidates =>
      updated <~ fail_stale_command (clock command) session_cutoff_at sweeper_instance_id
        owned_command_ids command ;;
      fail_stale_loop clock session_cutoff_at sweeper_instance_id owned_command_ids candidates
        (if updated : bool then failed + 1 else failed)
  end.

(** [time::Duration::try_from]; durations are in nanoseconds. *)
Definition duration_try_from (d : Z) : result RepositoryError Z :=
  if d / 1000000000 <=? i64_max then Ok d else Err Database.

(** [clock] is the reading of [created_at_now] at each command's update. *)
Definition fail_stale_unowned_live_commands (clock : CommandRecord.t -> string) (now : string)
    (command_timeout session_timeout : Z) (sweeper_instance_id : N)
    (owned_command_ids : list CommandId) : hub Z :=
  command_timeout <~ tlift (duration_try_from command_timeout) ;;
  session_timeout <~ tlift (duration_try_from session_timeout) ;;
  now_at <~ tlift (ok_or (rfc_parse now) Database) ;;
  command_cutoff <~ tlift (ok_or (rfc_format (now_at - command_timeout)) Database) ;;
  candidates <~ tread (fun h => collect command_from_model
    (select (stale_candidate command_cutoff) (Db.commands (Hub.main h)))) ;;
  fail_stale_loop clock (now_at - session_timeout) sweeper_instance_id
    (map CommandId_to_string owned_command_ids) candidates 0.

(** ** The lifecycle of a command

    Queued, sent, acknowledged, then succeeded or failed; a queued command can
    only fail without being sent. *)
Definition next_status (s s' : CommandStatus.t) : bool :=
  match s, s' with
  | CommandStatus.Queued, (CommandStatus.Sent | CommandStatus.Failed)
  | CommandStatus.Sent,
      (CommandStatus.Acknowledged | CommandStatus.Succeeded | CommandStatus.Failed)
  | CommandStatus.Acknowledged, (CommandStatus.Succeeded | CommandStatus.Failed) => true
  | _, _ => false
  end.

Definition status_step (s s' : string) : Prop :=
  exists a b, s = CommandStatus.as_str a /\ s' = CommandStatus.as_str b /\ next_status a b = true.

Definition command_is_terminal (m : CommandsModel.t) : bool :=
  bool_decide (CommandsModel.status m ∈ ["succeeded"; "failed"; "cancelled"]%string).

(** The columns no transition writes. *)
Definition same_command (m m' : CommandsModel.t) : Prop :=
  CommandsModel.id m' = CommandsModel.id m
  /\ CommandsModel.tenant_id m' = CommandsModel.tenant_id m
  /\ CommandsModel.agent_id m' = CommandsModel.agent_id m
  /\ CommandsModel.printer_id m' = CommandsModel.printer_id m
  /\ CommandsModel.kind m' = CommandsModel.kind m
  /\ CommandsModel.payload_json m' = CommandsModel.payload_json m
  /\ CommandsModel.created_at m' = CommandsModel.created_at m.

(** Untouched, or moved along the lifecycle by at least one step. *)
Definition command_evolves (m m' : CommandsModel.t) : Prop :=
  m' = m \/ same_command m m' /\ tc status_step (CommandsModel.status m) (CommandsModel.status m').

(** The columns of a job a command transition writes, blanked. *)
Definition job_frame (j : JobsModel.t) : JobsModel.t :=
  j <| JobsModel.status := EmptyString |> <| JobsModel.error := None |>
    <| JobsModel.uploaded_url := None |> <| JobsModel.updated_at := EmptyString |>.

Definition job_evolves (j j' : JobsModel.t) : Prop :=
  (job_is_terminal j = true -> j' = j) /\ job_frame j' = job_frame j.

Record db_evolves (db db' : Db.t) : Prop := {
  commands_evolve : Forall2 command_evolves (Db.commands db) (Db.commands db');
  jobs_evolve : Forall2 job_evolves (Db.jobs db) (Db.jobs db');
  artifacts_kept : Db.artifacts db' = Db.artifacts db;
  usages_kept : Db.usages db' = Db.usages db;
}.

Definition hub_evolves (h h' : Hub.t) : Prop := db_evolves (Hub.main h) (Hub.main h').

#[local] Instance command_evolves_preorder : PreOrder command_evolves.
Proof.
  split; [by left|]. intros m1 m2 m3 [->|[S1 T1]] [->|[S2 T2]]; unfold command_evolves in *; auto.
  right. split; [|by etrans]. unfold same_command in *. naive_solver congruence.
Qed.

#[local] Instance job_evolves_preorder : PreOrder job_evolves.
Proof.
  split; [by split|]. intros j1 j2 j3 [T1 F1] [T2 F2]. split; [|congruence].
  intros T. specialize (T1 T). subst. auto.
Qed.

#[local] Instance db_evolves_preorder : PreOrder db_evolves.
Proof.
  split.
  - intros db. constructor; reflexivity.
  - intros d1 d2 d3 [C1 J1 A1 U1] [C2 J2 A2 U2]. constructor; [by etrans|by etrans|congruence|congruence].
Qed.

#[local] Instance hub_evolves_preorder : PreOrder hub_evolves.
Proof. split; [intros ?; unfold hub_evolves; reflexivity|]. unfold hub_evolves. intros ???; apply db_evolves_preorder. Qed.

Lemma terminal_status_final s s' : status_step s s' -> ~ s ∈ ["succeeded"; "failed"; "cancelled"]%string.
Proof. intros (a & b & -> & _ & N). destruct a; simpl in N; try done; vm_compute; set_solver. Qed.

Lemma command_evolves_final m m' :
  command_evolves m m' -> command_is_terminal m = true -> m' = m.
Proof.
  intros [->|[_ T]] F; [done|]. unfold command_is_terminal in F. bprop.
  apply bool_decide_eq_true in F. exfalso.
  inversion T as [? ? S|? ? ? S]; subst; by eapply terminal_status_final.
Qed.

(** *** Every write follows the lifecycle *)

Definition forward (allowed : list CommandStatus.t) (status : CommandStatus.t) : Prop :=
  forallb (fun s => next_status s status) allowed = true.

Lemma set_command_evolves c t a allowed status error result_json now m :
  forward allowed status -> command_filter c t a allowed m = true ->
  command_evolves m (set_command status error result_json now m).
Proof.
  unfold command_filter, forward. rewrite !andb_true_iff, bool_decide_eq_true, forallb_forall.
  intros Hf [_ Hs]. apply list_elem_of_fmap in Hs as (s & Hs & Hin). apply list_elem_of_In in Hin.
  right. split; [repeat split|]. apply tc_once. exists s, status. split_and!; auto.
Qed.

Lemma update_commands_evolves p f :
  (forall m, p m = true -> command_evolves m (f m)) -> steps db_evolves (update_commands p f).
Proof.
  intros Hf db. unfold update_commands.
  pose proof (update_many_Forall2 command_evolves p f (Db.commands db)
    (fun m => reflexivity m) (fun m _ => Hf m)) as Hc.
  destruct (update_many p f (Db.commands db)) as [rows n]. simpl in *.
  by constructor.
Qed.

Lemma update_status_evolves now t :
  forward (StatusTransition.allowed_statuses t) (StatusTransition.status t) ->
  steps db_evolves (update_status_if_current_on now t).
Proof.
  intros Hf. apply steps_bind; [apply _| |intros; apply steps_ret; apply _].
  apply update_commands_evolves. intros m Hm. by eapply set_command_evolves.
Qed.

Lemma update_print_command_evolves now t :
  forward (allowed_statuses t) (command_status t) -> steps db_evolves (update_print_command now t).
Proof.
  intros Hf. apply steps_bind; [apply _| |intros; apply steps_ret; apply _].
  apply update_commands_evolves. intros m Hm. apply andb_true_iff in Hm as [Hm _].
  by eapply set_command_evolves.
Qed.

Lemma set_job_evolves t now j : job_is_terminal j = false -> job_evolves j (set_job t now j).
Proof. intros E. split; [congruence|]. destruct j. reflexivity. Qed.

Lemma update_job_evolves now t : steps db_evolves (update_job_for_command now t).
Proof.
  apply steps_bind; [apply _| |intros; apply steps_if; auto using steps_fail, steps_ret with typeclass_instances].
  intros db. unfold update_jobs.
  match goal with |- context [update_many ?p ?f _] =>
    pose proof (update_many_Forall2 job_evolves p f (Db.jobs db) (fun j => reflexivity j)) as Hj;
    destruct (update_many p f (Db.jobs db)) as [rows n] end.
  simpl in *. constructor; simpl; [reflexivity| |done|done].
  apply Hj. intros j _ Hp. apply andb_true_iff in Hp as [_ Hp]. apply negb_true_iff in Hp.
  by apply set_job_evolves.
Qed.

(** Splits [steps R m] along the binds, tests and queries of [m]. *)
Ltac steps_tac :=
  repeat first
    [ assumption
    | lazymatch goal with
      | |- steps _ (tread _) => apply steps_read; apply _
      | |- steps _ (tlift _) => apply steps_lift; apply _
      | |- steps _ (tret _) => apply steps_ret; apply _
      | |- steps _ (tfail _) => apply steps_fail; apply _
      | |- steps _ (tbind _ _) => apply steps_bind; [apply _| |intros ?]
      | |- steps _ (transaction _) => apply steps_transaction; [apply _|]
      | |- steps _ (match ?x with _ => _ end) => destruct x
      end ].

Lemma load_owned_evolves R `{!PreOrder R} c t a : steps R (load_owned c t a).
Proof. unfold load_owned, get. steps_tac. Qed.

Lemma transition_print_command_evolves now now' t :
  forward (allowed_statuses t) (command_status t) ->
  steps db_evolves (transition_print_command now now' t).
Proof.
  intros Hf. pose proof (update_print_command_evolves now t Hf).
  pose proof (update_job_evolves now' t).
  unfold transition_print_command, load_owned_print_command, get. steps_tac.
Qed.

Lemma action_forward a : let '(status, _, _, allowed, _) := action_plan a in forward allowed status.
Proof. by destruct a. Qed.

Lemma transition_command_on_evolves now now' t a c action :
  steps db_evolves (transition_command_on now now' t a c action).
Proof.
  pose proof (action_forward action) as Hf.
  unfold transition_command_on, session_print_command, transition_command, load_owned_command.
  pose proof (transition_print_command_evolves now now' (print_transition t a c action)) as Hp.
  unfold print_transition in *. destruct (action_plan action) as [[[[status e] r] allowed] name].
  specialize (Hp Hf). pose proof (load_owned_evolves db_evolves).
  steps_tac; auto. by apply update_status_evolves.
Qed.

Lemma guard_terminal_transition_evolves now t :
  forward [CommandStatus.Sent; CommandStatus.Acknowledged] (TerminalCommandTransition.terminal_status t) ->
  steps db_evolves (guard_terminal_transition now t).
Proof.
  intros Hf. unfold guard_terminal_transition. pose proof (load_owned_evolves db_evolves).
  steps_tac; auto. by apply update_status_evolves.
Qed.

Lemma steps_on_main {A} (m : main A) : steps db_evolves m -> steps hub_evolves (on_main m).
Proof. intros Hm. unfold on_main. eapply steps_zoom; [|exact Hm]. by intros h db. Qed.

Lemma mark_failed_evolves now c t a error result_json :
  steps db_evolves (mark_failed_with_result now c t a error result_json).
Proof.
  unfold mark_failed_with_result, guard_generic_terminal_transition.
  pose proof (load_owned_evolves db_evolves). steps_tac; auto.
  by apply guard_terminal_transition_evolves.
Qed.

Lemma mark_firmware_execute_sent_evolves now c t a :
  steps db_evolves (mark_firmware_execute_sent now c t a).
Proof.
  unfold mark_firmware_execute_sent, mark_firmware_execute_sent_on, load_owned_on.
  pose proof (load_owned_evolves db_evolves). steps_tac; auto. by apply update_status_evolves.
Qed.

Lemma mark_firmware_terminal_evolves now c t a status error result :
  forward [CommandStatus.Sent; CommandStatus.Acknowledged] status ->
  steps db_evolves (mark_firmware_terminal now c t a status error result).
Proof.
  intros Hf. unfold mark_firmware_terminal. pose proof (load_owned_evolves db_evolves).
  cbv zeta. steps_tac; auto. by apply guard_terminal_transition_evolves.
Qed.

Lemma locked_agent_kept R `{!PreOrder R} agent_id : steps R (locked_agent agent_id).
Proof. unfold locked_agent. steps_tac. Qed.

Lemma begin_current_kept R `{!PreOrder R} t a s :
  steps R (begin_current_agent_transaction t a s).
Proof.
  unfold begin_current_agent_transaction, required_agent. pose proof (locked_agent_kept R a).
  steps_tac; auto.
Qed.

Lemma begin_closing_kept R `{!PreOrder R} t a s :
  steps R (begin_closing_agent_transaction t a s).
Proof.
  unfold begin_closing_agent_transaction, required_agent. pose proof (locked_agent_kept R a).
  steps_tac; auto.
Qed.

Lemma begin_stale_kept R `{!PreOrder R} t a s o i c :
  steps R (begin_stale_firmware_cleanup_transaction t a s o i c).
Proof.
  unfold begin_stale_firmware_cleanup_transaction. pose proof (locked_agent_kept R a).
  steps_tac; auto.
Qed.

Lemma fail_stale_command_evolves now cutoff i owned c :
  steps hub_evolves (fail_stale_command now cutoff i owned c).
Proof.
  unfold fail_stale_command. pose proof (begin_stale_kept hub_evolves).
  steps_tac; auto; by apply steps_on_main, update_status_evolves.
Qed.

Lemma fail_stale_loop_evolves clock cutoff i owned cs : forall n,
  steps hub_evolves (fail_stale_loop clock cutoff i owned cs n).
Proof.
  induction cs as [|c cs IH]; intros n; cbn [fail_stale_loop]; steps_tac;
    auto using fail_stale_command_evolves.
Qed.

Lemma update_agent_main m f h : Hub.main (fst (update_agent m f h)) = Hub.main h.
Proof. unfold update_agent. destruct (update_many _ f _) as [rows n]. by destruct (n =? 0). Qed.

Lemma update_agent_evolves m f : steps hub_evolves (update_agent m f).
Proof. intros h. unfold hub_evolves. by rewrite update_agent_main. Qed.

(** *** What the hub runs

    One operation per entry point, with the clock readings it makes. *)
Inductive hub_op :=
| AgentEvent (t : TenantId) (a : AgentId) (e : agent_event)
| SessionCommand (now now' : string) (t : TenantId) (a : AgentId) (session : string)
    (c : CommandId) (action : session_action)
| ClosingFail (now now' : string) (t : TenantId) (a : AgentId) (session : string)
    (c : CommandId) (error : string)
| MarkFailed (now : string) (c : CommandId) (t : TenantId) (a : AgentId) (error : string)
    (result_json : option string)
| FirmwareExecute (now : string) (c : CommandId) (t : TenantId) (a : AgentId)
| FirmwareSucceeded (now : string) (c : CommandId) (t : TenantId) (a : AgentId)
    (result : FirmwarePersistedResult.t)
| FirmwareFailed (now : string) (c : CommandId) (t : TenantId) (a : AgentId) (error : string)
    (result : FirmwarePersistedResult.t)
| StaleSweep (clock : CommandRecord.t -> string) (now : string)
    (command_timeout session_timeout : Z) (instance : N) (owned : list CommandId).

Definition run_op (h : Hub.t) (o : hub_op) : Hub.t :=
  match o with
  | AgentEvent t a e => handle_event t a h e
  | SessionCommand now now' t a session c action =>
      fst (transition_current_session_command now now' t a session c action h)
  | ClosingFail now now' t a session c error =>
      fst (fail_queued_for_closing_session now now' t a session c error h)
  | MarkFailed now c t a error result_json =>
      fst (on_main (mark_failed_with_result now c t a error result_json) h)
  | FirmwareExecute now c t a => fst (on_main (mark_firmware_execute_sent now c t a) h)
  | FirmwareSucceeded now c t a result =>
      fst (on_main (mark_firmware_terminal now c t a CommandStatus.Succeeded None result) h)
  | FirmwareFailed now c t a error result =>
      fst (on_main (mark_firmware_terminal now c t a CommandStatus.Failed (Some error) result) h)
  | StaleSweep clock now ct st i owned =>
      fst (fail_stale_unowned_live_commands clock now ct st i owned h)
  end.

Lemma run_op_evolves h o : hub_evolves h (run_op h o).
Proof.
  destruct o as [t a e|now now' t a s c action|now now' t a s c e|now c t a e r|now c t a
                |now c t a r|now c t a e r|clock now ct st i owned]; cbn [run_op].
  - pose proof update_agent_evolves.
    destruct e; unfold handle_event; apply (steps_run hub_evolves);
      unfold claim_online_session, heartbeat_if_current,
      mark_offline_if_current, begin_current_agent_transaction, required_agent;
      pose proof (locked_agent_kept hub_evolves); steps_tac; auto.
  - apply (steps_run hub_evolves). unfold transition_current_session_command.
    pose proof (begin_current_kept hub_evolves).
    steps_tac; auto. apply steps_on_main, transition_command_on_evolves.
  - apply (steps_run hub_evolves). unfold fail_queued_for_closing_session.
    pose proof (begin_closing_kept hub_evolves).
    steps_tac; auto. apply steps_on_main, transition_command_on_evolves.
  - apply steps_on_main, mark_failed_evolves.
  - apply steps_on_main, mark_firmware_execute_sent_evolves.
  - by apply steps_on_main, mark_firmware_terminal_evolves.
  - by apply steps_on_main, mark_firmware_terminal_evolves.
  - apply (steps_run hub_evolves). pose proof (fail_stale_loop_evolves clock).
    unfold fail_stale_unowned_live_commands. steps_tac; auto.
Qed.

Lemma run_ops_evolve ops : forall h, hub_evolves h (foldl run_op h ops).
Proof.
  induction ops as [|o ops IH]; intros h; cbn [foldl]; [reflexivity|].
  etrans; [apply run_op_evolves|apply IH].
Qed.

(** C1: whatever the sessions, the dispatcher and the stale sweep do and in
    whatever order, each command row either stays as it is or moves forward along
    queued, sent, acknowledged, succeeded or failed with its identity, owner,
    kind and payload unchanged; a finished command and a finished job are never
    written again, and a job keeps every column but its status, error, upload
    location and update time. *)
Theorem commands_follow_lifecycle (h : Hub.t) (ops : list hub_op) :
  let h' := foldl run_op h ops in
  Forall2 (fun m m' => command_evolves m m' /\ (command_is_terminal m = true -> m' = m))
    (Db.commands (Hub.main h)) (Db.commands (Hub.main h'))
  /\ Forall2 job_evolves (Db.jobs (Hub.main h)) (Db.jobs (Hub.main h')).
Proof.
  cbv zeta. destruct (run_ops_evolve ops h) as [Hc Hj _ _]. split; [|done].
  eapply Forall2_impl; [exact Hc|]. intros m m' E. split; [done|]. by apply command_evolves_final.
Qed.

(** ** What one transition does *)

(** A loaded command is the row its id selects, owned as asked. *)
Definition command_loaded (db : Db.t) (c : CommandId) (t : TenantId) (a : AgentId)
    (command : CommandRecord.t) : Prop :=
  exists m, select_one (fun m => beq (CommandsModel.id m) (CommandId_to_string c))
              (Db.commands db) = Some m
    /\ command_from_model m = Ok command
    /\ CommandRecord.tenant_id command = t /\ CommandRecord.agent_id command = a.

Lemma get_run c db : exists r, get c db = (db, r).
Proof. unfold get, tread. eauto. Qed.

(** Row [m] reads as [command]. *)
Record command_row (m : CommandsModel.t) (command : CommandRecord.t) : Prop := {
  row_kind_given : blank (CommandsModel.kind m) = false;
  row_command_id : CommandId_parse (CommandsModel.id m) = Ok (CommandRecord.id command);
  row_command_tenant : TenantId_parse (CommandsModel.tenant_id m) = Ok (CommandRecord.tenant_id command);
  row_command_agent : AgentId_parse (CommandsModel.agent_id m) = Ok (CommandRecord.agent_id command);
  row_printer : CommandsModel.printer_id m = CommandRecord.printer_id command;
  row_kind : CommandsModel.kind m = CommandRecord.kind command;
  row_status : CommandsModel.status m = CommandStatus.as_str (CommandRecord.status command);
  row_payload : CommandsModel.payload_json m = CommandRecord.payload_json command;
  row_result : CommandsModel.result_json m = CommandRecord.result_json command;
  row_error : CommandsModel.error m = CommandRecord.error command;
  row_created : CommandsModel.created_at m = CommandRecord.created_at command;
  row_updated : CommandsModel.updated_at m = CommandRecord.updated_at command;
}.

Lemma db_err_ok {A} (r : result CoreError A) a : db_err r = Ok a <-> r = Ok a.
Proof. unfold db_err. destruct r; simpl; split; congruence. Qed.

Lemma command_from_model_iff m command : command_from_model m = Ok command <-> command_row m command.
Proof.
  unfold command_from_model. split.
  - rewrite rbind_Ok. intros (i & Hi & E). rewrite rbind_Ok in E. destruct E as (t & Ht & E).
    rewrite rbind_Ok in E. destruct E as (a & Ha & E). rewrite db_err_ok in Hi; rewrite db_err_ok in Ht; rewrite db_err_ok in Ha.
    destruct (CommandRecord.from_parts _) as [r|e] eqn:Ef; simpl in E; simplify_eq.
    unfold CommandRecord.from_parts in Ef. simpl in Ef.
    destruct (blank _) eqn:Eb; [done|]. rewrite rbind_Ok in Ef. destruct Ef as (s & Hs & [= <-]).
    pose proof (as_str_from_str (A := CommandStatus.t) _ _ Hs) as Es. by constructor.
  - intros [Hb Hi Ht Ha Hp Hk Hs Hpl Hr He Hc Hu]. destruct m, command; simpl in *; subst.
    rewrite Hi, Ht, Ha. simpl. unfold CommandRecord.from_parts. simpl. rewrite Hb.
    change CommandStatus.from_str with (from_str (A := CommandStatus.t)).
    change CommandStatus.as_str with (as_str (A := CommandStatus.t)).
    by rewrite from_str_as_str.
Qed.

Lemma load_owned_run c t a db :
  exists r, load_owned c t a db = (db, r)
    /\ forall command, r = Ok command <-> command_loaded db c t a command.
Proof.
  unfold load_owned, get, tbind, tread, tlift, command_loaded.
  destruct (select_one _ _) as [m|]; cbn [traverse_opt option_map r_transpose ok_or].
  - destruct (command_from_model m) as [cmd|e] eqn:E; cbn [ok_or].
    + destruct (negb _ || negb _) eqn:O; eexists; (split; [reflexivity|]); intros command; bprop.
      * split; [done|]. intros (m' & [= <-] & E' & Ht & Ha). rewrite E in E'. naive_solver.
      * destruct O as [Ht Ha]. split; [intros [= <-]; eauto|].
        intros (m' & [= <-] & E' & _). congruence.
    + eexists; split; [reflexivity|]. intros command. split; [done|].
      intros (m' & [= <-] & E' & _). congruence.
  - eexists; split; [reflexivity|]. intros command. split; [done|]. by intros (m' & ? & _).
Qed.

Lemma load_owned_print_run t db :
  exists r, load_owned_print_command t db = (db, r)
    /\ forall command, r = Ok command <->
         command_loaded db (command_id t) (tenant_id t) (agent_id t) command
         /\ CommandRecord.kind command = "print_project_file"%string.
Proof.
  unfold load_owned_print_command, get, tbind, tread, tlift, command_loaded.
  destruct (select_one _ _) as [m|]; cbn [traverse_opt option_map r_transpose ok_or].
  - destruct (command_from_model m) as [cmd|e] eqn:E; cbn [ok_or].
    + unfold verify_owned_print_command.
      destruct (negb _ || negb _) eqn:O; [|destruct (negb (beq (CommandRecord.kind cmd) _)) eqn:K];
        eexists; (split; [reflexivity|]); intros command; bprop.
      * split; [done|]. intros ((m' & [= <-] & E' & Ht & Ha) & _). rewrite E in E'. naive_solver.
      * split; [done|]. intros ((m' & [= <-] & E' & Ht & Ha) & Hk). rewrite E in E'. naive_solver.
      * destruct O as [Ht Ha]. split; [intros [= <-]; naive_solver|].
        intros ((m' & [= <-] & E' & _) & _). congruence.
    + eexists; split; [reflexivity|]. intros command. split; [done|].
      intros ((m' & [= <-] & E' & _) & _). congruence.
  - eexists; split; [reflexivity|]. intros command. split; [done|]. by intros ((m' & ? & _) & _).
Qed.

(** *** The rows a transition may write *)

Definition owned_row (c : CommandId) (t : TenantId) (a : AgentId) (m : CommandsModel.t) : Prop :=
  CommandsModel.id m = CommandId_to_string c
  /\ CommandsModel.tenant_id m = TenantId_to_string t
  /\ CommandsModel.agent_id m = AgentId_to_string a.

Definition command_touched (c : CommandId) (t : TenantId) (a : AgentId)
    (m m' : CommandsModel.t) : Prop :=
  m' = m \/ same_command m m' /\ owned_row c t a m.

Definition job_touched (c : CommandId) (j j' : JobsModel.t) : Prop :=
  j' = j \/ job_frame j' = job_frame j /\ JobsModel.command_id j = CommandId_to_string c.

(** Only command [c] of agent [a] of tenant [t], and its job, may differ. *)
Record touches (c : CommandId) (t : TenantId) (a : AgentId) (db db' : Db.t) : Prop := {
  touched_commands : Forall2 (command_touched c t a) (Db.commands db) (Db.commands db');
  touched_jobs : Forall2 (job_touched c) (Db.jobs db) (Db.jobs db');
  touched_artifacts : Db.artifacts db' = Db.artifacts db;
  touched_usages : Db.usages db' = Db.usages db;
}.

#[local] Instance command_touched_preorder c t a : PreOrder (command_touched c t a).
Proof.
  split; [by left|]. intros m1 m2 m3 [->|[S1 O1]] [->|[S2 O2]]; unfold command_touched; auto.
  right. split; [|done]. unfold same_command in *. naive_solver congruence.
Qed.

#[local] Instance job_touched_preorder c : PreOrder (job_touched c).
Proof.
  split; [by left|]. intros j1 j2 j3 [->|[F1 O1]] [->|[F2 O2]]; unfold job_touched; auto.
  right. split; [congruence|done].
Qed.

#[local] Instance touches_preorder c t a : PreOrder (touches c t a).
Proof.
  split; [intros db; constructor; reflexivity|].
  intros d1 d2 d3 [C1 J1 A1 U1] [C2 J2 A2 U2]. constructor; [by etrans|by etrans|congruence|congruence].
Qed.

Lemma update_commands_touches c t a p f :
  (forall m, p m = true -> same_command m (f m) /\ owned_row c t a m) ->
  steps (touches c t a) (update_commands p f).
Proof.
  intros Hf db. unfold update_commands.
  pose proof (update_many_Forall2 (command_touched c t a)
    p f (Db.commands db) (fun m => reflexivity m) (fun m _ Hm => or_intror (Hf m Hm))) as Hc.
  destruct (update_many p f (Db.commands db)) as [rows n]. simpl in *.
  constructor; simpl; [done|reflexivity|done|done].
Qed.

Lemma command_filter_owned c t a allowed m : command_filter c t a allowed m = true -> owned_row c t a m.
Proof. unfold command_filter, owned_row. rewrite !andb_true_iff, !beq_true. tauto. Qed.

Lemma set_command_same status error result_json now m :
  same_command m (set_command status error result_json now m).
Proof. repeat split. Qed.

Lemma update_status_touches now t :
  steps (touches (StatusTransition.command_id t) (StatusTransition.tenant_id t)
           (StatusTransition.agent_id t)) (update_status_if_current_on now t).
Proof.
  unfold update_status_if_current_on. steps_tac. apply update_commands_touches.
  intros m Hm. split; [apply set_command_same|by eapply command_filter_owned].
Qed.

Lemma transition_print_touches now now' t :
  steps (touches (command_id t) (tenant_id t) (agent_id t)) (transition_print_command now now' t).
Proof.
  unfold transition_print_command, update_print_command, load_owned_print_command, get,
    update_job_for_command. steps_tac.
  - apply update_commands_touches. intros m Hm. apply andb_true_iff in Hm as [Hm _].
    split; [apply set_command_same|by eapply command_filter_owned].
  - intros db. unfold update_jobs.
    match goal with |- context [update_many ?p ?f _] =>
      pose proof (update_many_Forall2 (job_touched (command_id t)) p f (Db.jobs db)
          (fun j => reflexivity j)) as Hj;
      destruct (update_many p f (Db.jobs db)) as [rows n] end.
    simpl in *. constructor; simpl; [reflexivity| |done|done].
    apply Hj. intros j _ Hp. apply andb_true_iff in Hp as [Hp Ht]. rewrite beq_true in Hp.
    apply negb_true_iff in Ht. right. split; [|done]. by apply set_job_evolves.
Qed.

Lemma command_loaded_id db c t a command :
  command_loaded db c t a command ->
  CommandRecord.id command = c /\ CommandRecord.tenant_id command = t
  /\ CommandRecord.agent_id command = a.
Proof.
  intros (m & Hm & Hr & Ht & Ha). split_and!; [|done|done].
  apply select_one_Some in Hm as [_ Hm]. rewrite beq_true in Hm.
  apply command_from_model_iff in Hr. pose proof (row_command_id _ _ Hr) as E.
  rewrite Hm, CommandId_parse_to_string in E. congruence.
Qed.

Lemma print_transition_ids t a c action :
  command_id (print_transition t a c action) = c
  /\ tenant_id (print_transition t a c action) = t
  /\ agent_id (print_transition t a c action) = a.
Proof. by destruct action. Qed.

Lemma transition_command_on_touches now now' t a c action :
  steps (touches c t a) (transition_command_on now now' t a c action).
Proof.
  intros db. unfold transition_command_on, load_owned_command. unfold tbind at 1.
  destruct (load_owned_run c t a db) as (r & -> & Hr). destruct r as [command|e]; [|simpl; reflexivity].
  destruct (proj1 (Hr command) eq_refl) as (m & Hm & _).
  destruct (command_loaded_id db c t a command) as (Ec & Et & Ea); [by apply Hr|].
  destruct (beq _ _).
  - unfold session_print_command.
    pose proof (transition_print_touches now now' (print_transition t a c action) db) as Hp.
    destruct (print_transition_ids t a c action) as (E1 & E2 & E3).
    rewrite E1, E2, E3 in Hp. exact Hp.
  - unfold transition_command, load_owned_command. rewrite Ec, Et, Ea.
    destruct (action_plan action) as [[[[status e] r] allowed] name].
    apply (steps_run (touches c t a)). pose proof (load_owned_evolves (touches c t a) c t a).
    pose proof (update_status_touches now (StatusTransition.mk c t a status e r allowed)).
    steps_tac; auto.
Qed.

(** ** The session fence *)


(** A command write of a session either changes nothing or is made by the
    agent's current session, and then touches no agent row, no other command
    than the one named, which belongs to that tenant and agent, and no job but
    that command's. *)
Theorem session_command_isolated (h : Hub.t) (now now' : string) (t : TenantId) (a : AgentId)
    (session : string) (c : CommandId) (action : session_action) :
  let h' := run_op h (SessionCommand now now' t a session c action) in
  h' = h \/
  current_session h t a (Some session) /\ Hub.agents h' = Hub.agents h
  /\ touches c t a (Hub.main h) (Hub.main h').
Proof.
  cbv zeta. cbn [run_op]. unfold transition_current_session_command, transaction, tbind.
  destruct (begin_current_run t a session h) as (r & -> & Hr).
  destruct r as [[]|e]; [|by left]. unfold on_main, zoom.
  pose proof (transition_command_on_touches now now' t a c action (Hub.main h)) as Ht.
  destruct (transition_command_on _ _ _ _ _ _ (Hub.main h)) as [db' r].
  destruct r as [command|e]; [|by left]. right. cbn [fst Hub.agents Hub.main] in *.
  split_and!; [by apply Hr|done|done].
Qed.

(** ** Effects and redelivery *)

Lemma status_text_inj s s' : CommandStatus.as_str s = CommandStatus.as_str s' -> s = s'.
Proof. by destruct s, s'. Qed.

(** The primary key of [commands]. *)
Definition command_ids_unique (db : Db.t) : Prop :=
  forall m m', In m (Db.commands db) -> In m' (Db.commands db) ->
    CommandsModel.id m = CommandsModel.id m' -> m = m'.

Definition select_command (c : CommandId) (db : Db.t) : option CommandsModel.t :=
  select_one (fun m => beq (CommandsModel.id m) (CommandId_to_string c)) (Db.commands db).

Definition with_commands (rows : list CommandsModel.t) (db : Db.t) : Db.t :=
  Db.mk rows (Db.jobs db) (Db.artifacts db) (Db.usages db).

Lemma update_commands_run p f db :
  update_commands p f db
  = (with_commands (fst (update_many p f (Db.commands db))) db,
     Ok (snd (update_many p f (Db.commands db)))).
Proof. unfold update_commands. by destruct (update_many p f _). Qed.

Lemma update_jobs_run p f db :
  update_jobs p f db
  = (Db.mk (Db.commands db) (fst (update_many p f (Db.jobs db))) (Db.artifacts db) (Db.usages db),
     Ok (snd (update_many p f (Db.jobs db)))).
Proof. unfold update_jobs. by destruct (update_many p f _). Qed.

Lemma select_command_update c p f db m :
  command_ids_unique db -> (forall m, same_command m (f m)) ->
  select_command c db = Some m ->
  select_command c (with_commands (fst (update_many p f (Db.commands db))) db)
  = Some (if p m then f m else m).
Proof.
  intros Hu Hf Hm. apply select_one_Some in Hm as [Hin Hm]. rewrite beq_true in Hm.
  apply select_one_unique; simpl.
  - apply In_update_many. eauto.
  - rewrite beq_true. destruct (p m); [|done]. by destruct (Hf m) as [-> _].
  - intros r Hr Hi. apply In_update_many in Hr as (r0 & Hr0 & ->).
    assert (r0 = m) as ->; [|done]. apply Hu; [done|done|]. rewrite beq_true in Hi. rewrite Hm, <- Hi.
    destruct (p r0); [|done]. by destruct (Hf r0) as [-> _].
Qed.

(** A counted row is the selected one. *)
Lemma update_command_hit c p f db m :
  command_ids_unique db -> select_command c db = Some m ->
  (forall r, p r = true -> CommandsModel.id r = CommandId_to_string c) ->
  0 < snd (update_many p f (Db.commands db)) -> p m = true.
Proof.
  intros Hu Hm Hp Hn. apply update_many_affected_pos in Hn as (r & Hr & Hpr).
  apply select_one_Some in Hm as [Hin Hm]. rewrite beq_true in Hm.
  assert (r = m) as <-; [|done]. apply Hu; [done|done|]. by rewrite Hm, Hp.
Qed.

(** The compare-and-set of a command, seen from its row: the row after it, and
    that the same write no longer matches any row. *)
Lemma command_write c t a allowed status error result now kindp db m :
  command_ids_unique db -> select_command c db = Some m ->
  bool_decide (status ∈ allowed) = false ->
  (forall r, kindp (set_command status error result now r) = kindp r) ->
  let p := fun r => command_filter c t a allowed r && kindp r in
  let db1 := with_commands
    (fst (update_many p (set_command status error result now) (Db.commands db))) db in
  let n := snd (update_many p (set_command status error result now) (Db.commands db)) in
  (exists m1, select_command c db1 = Some m1 /\ same_command m m1
     /\ (n = 1 -> CommandsModel.status m1 = CommandStatus.as_str status))
  /\ (forall f, update_many p f (Db.commands db1) = (Db.commands db1, 0)).
Proof.
  intros Hu Hm Hs Hk p db1 n. split.
  - exists (if p m then set_command status error result now m else m). split_and!.
    + by apply select_command_update.
    + destruct (p m); [apply set_command_same|by repeat split].
    + intros Hn. assert (p m = true) as ->; [|done].
      eapply (update_command_hit c p (set_command status error result now) db);
        [done|done| |change (0 < n); lia].
      intros r Hr. apply andb_true_iff in Hr as [Hr _]. by apply command_filter_owned in Hr as [? _].
  - intros f. apply update_many_none. intros r Hr. apply In_update_many in Hr as (r0 & _ & ->).
    destruct (p r0) eqn:E; [|done]. unfold p. apply andb_false_iff. left.
    unfold command_filter. apply andb_false_iff. right.
    apply bool_decide_eq_false. intros Hin. apply list_elem_of_fmap in Hin as (s & E' & Hin).
    apply bool_decide_eq_false in Hs. apply Hs.
    by rewrite (status_text_inj _ _ E').
Qed.

(** *** Print commands *)

Definition print_row_filter (t : PrintCommandTransition.t) (m : CommandsModel.t) : bool :=
  command_filter (command_id t) (tenant_id t) (agent_id t) (allowed_statuses t) m
  && beq (CommandsModel.kind m) "print_project_file"%string.

Definition live_job_of (t : PrintCommandTransition.t) (j : JobsModel.t) : bool :=
  beq (JobsModel.command_id j) (CommandId_to_string (command_id t)) && negb (job_is_terminal j).

(** A successful print transition: the command write, the loaded command, the
    job write. *)
Lemma transition_print_Ok now now' t db db' command :
  transition_print_command now now' t db = (db', Ok command) <->
  let f := set_command (command_status t) (error t) (result_json t) now in
  let u := update_many (print_row_filter t) f (Db.commands db) in
  let v := update_many (live_job_of t) (set_job t now') (Db.jobs db) in
  command_loaded (with_commands (fst u) db) (command_id t) (tenant_id t) (agent_id t) command
  /\ CommandRecord.kind command = "print_project_file"%string
  /\ (snd u = 1 \/ CommandRecord.status command = command_status t)
  /\ (snd v = 0 -> terminal_job_status (job_status t) = true)
  /\ db' = Db.mk (fst u) (fst v) (Db.artifacts db) (Db.usages db).
Proof.
  cbv zeta. unfold transition_print_command, update_print_command. unfold tbind.
  rewrite update_commands_run. cbn [tret].
  fold (print_row_filter t). set (u := update_many (print_row_filter t) _ _).
  destruct (load_owned_print_run t (with_commands (fst u) db)) as (r & -> & Hr).
  destruct r as [cmd|e].
  2: { split; [done|]. intros (Hl & Hk & _). by discriminate (proj2 (Hr command) (conj Hl Hk)). }
  destruct (proj1 (Hr cmd) eq_refl) as [Hl Hk].
  assert (forall c, command_loaded (with_commands (fst u) db) (command_id t) (tenant_id t)
            (agent_id t) c -> CommandRecord.kind c = "print_project_file"%string -> c = cmd) as Huniq.
  { intros c Hc1 Hc2. pose proof (proj2 (Hr c) (conj Hc1 Hc2)). congruence. }
  set (v := update_many (live_job_of t) _ _).
  destruct ((snd u =? 1) || beq (CommandRecord.status cmd) (command_status t)) eqn:B; bprop.
  2: { split; [done|]. intros (Hl' & Hk' & Hs & _). rewrite (Huniq _ Hl' Hk') in Hs.
       destruct B, Hs; congruence. }
  unfold update_job_for_command, tbind. rewrite update_jobs_run.
  fold (live_job_of t). cbn [Db.jobs with_commands]. fold v.
  destruct ((snd v =? 0) && negb (terminal_job_status (job_status t))) eqn:J; cbn [tfail tret]; bprop.
  { split; [done|]. intros (_ & _ & _ & Hv & _). destruct J as [J1 J2]. rewrite Hv in J2; congruence. }
  split.
  - intros [= <- <-]. split_and!; try done. intros Hv. destruct J; [congruence|done].
  - intros (Hl' & Hk' & _ & _ & ->). by rewrite (Huniq _ Hl' Hk').
Qed.

Lemma set_job_terminal t now j :
  terminal_job_status (job_status t) = true -> job_is_terminal (set_job t now j) = true.
Proof.
  intros Ht. unfold job_is_terminal.
  change (JobsModel.status (set_job t now j)) with (JobStatus.as_str (job_status t)).
  by destruct (job_status t).
Qed.

(** when a print command's transition succeeds, every job of that command
    that was still live carries the transition's status and error, and the upload
    location the agent reported, if any; finished jobs and other commands' jobs
    are as before.  A succeeded, failed or cancelled command leaves no live job;
    a command that moves on has one. *)
Theorem print_transition_settles_jobs (now now' : string) (t : PrintCommandTransition.t)
    (db db' : Db.t) (command : CommandRecord.t)
    (Hok : transition_print_command now now' t db = (db', Ok command)) :
  Db.jobs db' = map (fun j => if live_job_of t j then set_job t now' j else j) (Db.jobs db)
  /\ (terminal_job_status (job_status t) = true ->
        forall j, In j (Db.jobs db') ->
          JobsModel.command_id j = CommandId_to_string (command_id t) -> job_is_terminal j = true)
  /\ (terminal_job_status (job_status t) = false ->
        exists j, In j (Db.jobs db) /\ live_job_of t j = true).
Proof.
  apply transition_print_Ok in Hok. cbv zeta in Hok. destruct Hok as (_ & _ & _ & Hv & ->).
  cbn [Db.jobs]. split_and!.
  - apply update_many_rows.
  - intros Ht j Hj Hc. apply In_update_many in Hj as (j0 & _ & ->).
    destruct (live_job_of t j0) eqn:L; [by apply set_job_terminal|].
    unfold live_job_of in L. rewrite Hc, beq_refl in L. by apply negb_false_iff in L.
  - intros Ht. apply (update_many_affected_pos (live_job_of t) (set_job t now')).
    pose proof (update_many_affected_nonneg (live_job_of t) (set_job t now') (Db.jobs db)).
    destruct (Z.eq_dec (snd (update_many (live_job_of t) (set_job t now') (Db.jobs db))) 0); [|lia].
    rewrite Hv in Ht; done.
Qed.

(** *** Terminal results *)

Definition action_status (a : session_action) : CommandStatus.t :=
  match a with
  | Send => CommandStatus.Sent
  | Acknowledge => CommandStatus.Acknowledged
  | Succeed _ => CommandStatus.Succeeded
  | FailQueued _ | Fail_ _ _ => CommandStatus.Failed
  end.

Definition action_error (a : session_action) : option string :=
  match a with FailQueued e | Fail_ e _ => Some e | _ => None end.
Definition action_result (a : session_action) : option string :=
  match a with Succeed r | Fail_ _ r => r | _ => None end.
Definition action_name (a : session_action) : string :=
  match a with
  | Send => "send" | Acknowledge => "acknowledge" | Succeed _ => "succeed"
  | FailQueued _ | Fail_ _ _ => "fail"
  end.

Lemma terminal_plan a : action_terminal a = true ->
  action_plan a = (action_status a, action_error a, action_result a,
                   [CommandStatus.Sent; CommandStatus.Acknowledged], action_name a)
  /\ terminal_job_status (action_job_status a) = true
  /\ bool_decide (action_status a ∈ [CommandStatus.Sent; CommandStatus.Acknowledged]) = false.
Proof. by destruct a. Qed.

(** The filter of a terminal write on command [c]; print commands are also
    filtered by kind. *)
Definition result_filter (c : CommandId) (t : TenantId) (a : AgentId) (print : bool)
    (m : CommandsModel.t) : bool :=
  command_filter c t a [CommandStatus.Sent; CommandStatus.Acknowledged] m
  && (if print then beq (CommandsModel.kind m) "print_project_file"%string else true).

(** A command that has its result: what a further result finds. *)
Record settled (c : CommandId) (t : TenantId) (a : AgentId) (db : Db.t)
    (command : CommandRecord.t) : Prop := {
  settled_loaded : command_loaded db c t a command;
  settled_no_write : forall f,
    update_many (result_filter c t a (beq (CommandRecord.kind command) "print_project_file"%string)) f
      (Db.commands db) = (Db.commands db, 0);
  settled_kind : CommandRecord.kind command = "print_project_file"%string
                 \/ is_firmware_kind (CommandRecord.kind command) = false;
  settled_jobs : CommandRecord.kind command = "print_project_file"%string ->
    forall j, In j (Db.jobs db) -> JobsModel.command_id j = CommandId_to_string c ->
      job_is_terminal j = true;
}.

Lemma with_commands_same db : with_commands (Db.commands db) db = db.
Proof. by destruct db. Qed.

Lemma load_owned_loaded db c t a command :
  command_loaded db c t a command -> load_owned c t a db = (db, Ok command).
Proof.
  intros Hl. destruct (load_owned_run c t a db) as (r & -> & Hr). f_equal. by apply Hr.
Qed.

(** On a settled command a result is a comparison. *)
Lemma settled_transition now now' t a c action db command :
  settled c t a db command -> action_terminal action = true ->
  transition_command_on now now' t a c action db
  = (db, if beq (CommandRecord.status command) (action_status action) then Ok command
         else Err (invalid_transition (CommandRecord.status command) (action_name action))).
Proof.
  intros Hs Ht. destruct (terminal_plan action Ht) as (Hplan & Hjob & _).
  destruct (command_loaded_id _ _ _ _ _ (settled_loaded _ _ _ _ _ Hs)) as (Ec & Et & Ea).
  pose proof (settled_no_write _ _ _ _ _ Hs) as Hnw.
  unfold transition_command_on, load_owned_command, tbind at 1.
  rewrite (load_owned_loaded _ _ _ _ _ (settled_loaded _ _ _ _ _ Hs)).
  destruct (beq (CommandRecord.kind command) "print_project_file") eqn:K.
  - rewrite beq_true in K.
    unfold session_print_command, transition_print_command, update_print_command, print_transition.
    rewrite Hplan. unfold tbind. rewrite update_commands_run.
    cbn [command_id tenant_id agent_id allowed_statuses command_status error result_json tret].
    unfold result_filter in Hnw. rewrite Hnw. cbn [fst snd]. rewrite with_commands_same.
    cbn [Z.eqb orb]. set (tr := PrintCommandTransition.mk _ _ _ _ _ _ _ _ _).
    destruct (load_owned_print_run tr db) as (r & -> & Hr).
    assert (r = Ok command) as -> by (apply Hr; split; [apply (settled_loaded _ _ _ _ _ Hs)|done]).
    destruct (beq (CommandRecord.status command) (action_status action)); [|done].
    unfold update_job_for_command, tbind. rewrite update_jobs_run.
    fold (live_job_of tr). rewrite (update_many_none (live_job_of tr)).
    + cbn [fst snd]. unfold tr. cbn [job_status]. rewrite Hjob. cbn. by destruct db.
    + intros j Hj. unfold live_job_of. destruct (beq (JobsModel.command_id j) _) eqn:B; [|done].
      rewrite beq_true in B. by rewrite (settled_jobs _ _ _ _ _ Hs K j Hj B).
  - unfold transition_command. rewrite Hplan.
    destruct (settled_kind _ _ _ _ _ Hs) as [Kp|Kf]; [by rewrite Kp, beq_refl in K|].
    rewrite Kf, andb_false_r. unfold update_status_if_current_on, load_owned_command, tbind.
    rewrite update_commands_run. cbn [StatusTransition.command_id StatusTransition.tenant_id
      StatusTransition.agent_id StatusTransition.allowed_statuses tret].
    rewrite Ec, Et, Ea.
    assert (forall f, update_many (command_filter c t a [CommandStatus.Sent; CommandStatus.Acknowledged])
      f (Db.commands db) = (Db.commands db, 0)) as Hnw'.
    { intros f. apply update_many_none. intros m Hm.
      pose proof (f_equal snd (Hnw f)) as Hz. cbn [snd] in Hz.
      apply update_many_affected_0 with (r := m) in Hz; [|done].
      unfold result_filter in Hz. by rewrite andb_true_r in Hz. }
    rewrite Hnw'. cbn [fst snd]. rewrite with_commands_same.
    rewrite (load_owned_loaded _ _ _ _ _ (settled_loaded _ _ _ _ _ Hs)), Ht.
    cbn [Z.eqb orb andb].
    by destruct (beq (CommandRecord.status command) (action_status action)).
Qed.

Lemma print_filter_result c t a action :
  action_terminal action = true ->
  print_row_filter (print_transition t a c action) = result_filter c t a true.
Proof. by destruct action. Qed.

(** The loaded command has the status just written. *)
Lemma loaded_status db c t a command m status n :
  command_loaded db c t a command -> select_command c db = Some m ->
  (n = 1 -> CommandsModel.status m = CommandStatus.as_str status) ->
  n = 1 \/ CommandRecord.status command = status -> CommandRecord.status command = status.
Proof.
  intros (m' & Hm' & Hr & _) Hm Hst Hn. unfold select_command in Hm.
  rewrite Hm in Hm'. injection Hm' as <-.
  apply command_from_model_iff in Hr. destruct Hn as [Hn|Hn]; [|done].
  apply status_text_inj. by rewrite <- (row_status _ _ Hr), Hst.
Qed.

Lemma loaded_kind db c t a command m :
  command_loaded db c t a command -> select_command c db = Some m ->
  CommandRecord.kind command = CommandsModel.kind m.
Proof.
  intros (m' & Hm' & Hr & _) Hm. unfold select_command in Hm. rewrite Hm in Hm'.
  injection Hm' as <-. apply command_from_model_iff in Hr. by rewrite (row_kind _ _ Hr).
Qed.

Section Settles.
Context (now now' : string) (t : TenantId) (a : AgentId) (c : CommandId) (action : session_action).
Context (Ht : action_terminal action = true).

Lemma print_result_settles db db' m command :
  command_ids_unique db -> select_command c db = Some m ->
  session_print_command now now' t a c action db = (db', Ok command) ->
  settled c t a db' command /\ CommandRecord.status command = action_status action.
Proof.
  intros Hu Hm Hok. destruct (terminal_plan action Ht) as (Hplan & Hjob & Hstat).
  unfold session_print_command in Hok. apply transition_print_Ok in Hok. cbv zeta in Hok.
  rewrite (print_filter_result c t a action Ht) in Hok.
  unfold print_transition in Hok. rewrite Hplan in Hok.
  cbn [command_id tenant_id agent_id command_status error result_json] in Hok.
  destruct (command_write c t a [CommandStatus.Sent; CommandStatus.Acknowledged]
    (action_status action) (action_error action) (action_result action) now
    (fun r => beq (CommandsModel.kind r) "print_project_file"%string) db m Hu Hm Hstat
    (fun r => eq_refl)) as [(m1 & Hm1 & _ & Hn1) Hnw].
  unfold result_filter in Hok.
  destruct Hok as (Hl1 & Hk1 & Hn & Hv & ->). split; [|by eapply loaded_status].
  constructor.
  - exact Hl1.
  - intros f. rewrite Hk1, beq_refl. apply Hnw.
  - by left.
  - intros _ j Hj Hcj. cbn [Db.jobs] in Hj. apply In_update_many in Hj as (j0 & _ & ->).
    match goal with |- context [if ?b then _ else _] => destruct b eqn:L end;
      [by apply set_job_terminal|].
    unfold live_job_of in L. cbn [command_id] in L. rewrite Hcj, beq_refl in L.
    by apply negb_false_iff in L.
Qed.

Lemma other_result_settles db db' m cmd command :
  command_ids_unique db -> select_command c db = Some m -> command_loaded db c t a cmd ->
  beq (CommandRecord.kind cmd) "print_project_file"%string = false ->
  transition_command now cmd action db = (db', Ok command) ->
  settled c t a db' command /\ CommandRecord.status command = action_status action.
Proof.
  intros Hu Hm Hl K Hok. destruct (terminal_plan action Ht) as (Hplan & Hjob & Hstat).
  destruct (command_loaded_id _ _ _ _ _ Hl) as (Ec & Et & Ea).
  pose proof (loaded_kind _ _ _ _ _ _ Hl Hm) as Hk.
  unfold transition_command in Hok. rewrite Hplan, Ht in Hok. cbn [andb] in Hok.
  destruct (is_firmware_kind (CommandRecord.kind cmd)) eqn:F; [done|].
  unfold update_status_if_current_on, load_owned_command in Hok. unfold tbind in Hok.
  rewrite update_commands_run in Hok. cbn [StatusTransition.command_id StatusTransition.tenant_id
    StatusTransition.agent_id StatusTransition.allowed_statuses StatusTransition.status
    StatusTransition.error StatusTransition.result_json tret] in Hok. rewrite Ec, Et, Ea in Hok.
  destruct (command_write c t a [CommandStatus.Sent; CommandStatus.Acknowledged]
    (action_status action) (action_error action) (action_result action) now
    (fun _ => true) db m Hu Hm Hstat (fun r => eq_refl)) as [(m1 & Hm1 & Hs1 & Hn1) Hnw].
  rewrite (update_many_ext (command_filter _ _ _ _)
    (fun r => command_filter c t a [CommandStatus.Sent; CommandStatus.Acknowledged] r && true)) in Hok
    by (intros; by rewrite andb_true_r).
  set (db1 := with_commands _ db) in *.
  destruct (load_owned_run c t a db1) as (r & E & Hr). rewrite E in Hok.
  destruct r as [cmd1|e]; [|done]. pose proof (proj1 (Hr cmd1) eq_refl) as Hl1.
  destruct (_ || beq (CommandRecord.status cmd1) _) eqn:B; [|done]. injection Hok as <- <-.
  assert (CommandRecord.kind cmd1 = CommandRecord.kind cmd) as Hk1.
  { rewrite (loaded_kind _ _ _ _ _ _ Hl1 Hm1), Hk. apply Hs1. }
  split; [|eapply loaded_status; [done|done|done|]; bprop; by destruct B; [left|right]].
  constructor; rewrite ?Hk1, ?K; [exact Hl1|exact Hnw|by right|].
  intros Kp. by rewrite Kp, beq_refl in K.
Qed.

Lemma terminal_result_settles db db' command :
  command_ids_unique db -> transition_command_on now now' t a c action db = (db', Ok command) ->
  settled c t a db' command /\ CommandRecord.status command = action_status action.
Proof.
  intros Hu Hok. unfold transition_command_on, load_owned_command, tbind at 1 in Hok.
  destruct (load_owned_run c t a db) as (r & E & Hr). rewrite E in Hok.
  destruct r as [cmd|e]; [|done]. pose proof (proj1 (Hr cmd) eq_refl) as Hl.
  destruct Hl as (m & Hm & _).
  destruct (beq (CommandRecord.kind cmd) "print_project_file") eqn:K.
  - by eapply print_result_settles.
  - eapply other_result_settles; [done|done|by apply Hr|done|done].
Qed.
End Settles.

(** C2: the first result of a command wins: once a session's success or failure
    has been stored, any further result from the session, delivered again or
    contradicting it, writes nothing: the same outcome returns the command as it
    was stored, the other one is refused. *)
Theorem first_result_wins (h h' : Hub.t) (now now' : string) (t : TenantId) (a : AgentId)
    (session : string) (c : CommandId) (action : session_action) (command : CommandRecord.t)
    (Hu : command_ids_unique (Hub.main h)) (Ht : action_terminal action = true)
    (Hok : transition_current_session_command now now' t a session c action h = (h', Ok command))
    (later later' : string) (action' : session_action) (Ht' : action_terminal action' = true) :
  transition_current_session_command later later' t a session c action' h'
  = (h', if beq (action_status action) (action_status action') then Ok command
         else Err (invalid_transition (action_status action) (action_name action'))).
Proof.
  unfold transition_current_session_command in *. rewrite transaction_Ok in Hok.
  unfold tbind, on_main, zoom in *.
  destruct (begin_current_run t a session h) as (r & E & Hr). rewrite E in Hok.
  destruct r as [[]|e]; [|done]. pose proof (proj1 Hr eq_refl) as Hcur.
  destruct (transition_command_on now now' t a c action (Hub.main h)) as [db' r'] eqn:Et.
  injection Hok as <- ->.
  destruct (terminal_result_settles now now' t a c action Ht _ _ _ Hu Et) as [Hs Hst].
  set (h1 := Hub.mk (Hub.agents h) db').
  destruct (begin_current_run t a session h1) as (r & E1 & Hr1).
  assert (r = Ok tt) as -> by by apply Hr1.
  unfold transaction. rewrite E1. cbn [Hub.main h1].
  rewrite (settled_transition later later' t a c action' db' command Hs Ht'), Hst.
  by destruct (beq (action_status action) (action_status action')).
Qed.

(** ** What the stale sweep may fail *)

(** The firmware owner still speaks for the agent and has been heard since [cutoff]. *)
Definition fresh_owner (h : Hub.t) (t : TenantId) (a : AgentId) (session : string) (cutoff : Z)
  : Prop :=
  exists m, select_one (has_agent_id a) (Hub.agents h) = Some m
    /\ AgentsModel.tenant_id m = TenantId_to_string t
    /\ AgentsModel.current_session_id m = Some session
    /\ exists text seen, AgentsModel.last_seen_at m = Some text /\ rfc_parse text = Some seen
         /\ cutoff < seen.

(** [command] has no live owner left, and [error] is what it fails with. *)
Record abandoned (h : Hub.t) (cutoff : Z) (instance : N) (owned : list string)
    (command : CommandRecord.t) (error : string) : Prop := {
  not_held_here : CommandId_to_string (CommandRecord.id command) ∉ owned;
  expires_with : exists owner, stale_error command = Ok (Some error, owner)
    /\ forall session holder, owner = Some (session, holder) ->
         holder = instance \/
         ~ fresh_owner h (CommandRecord.tenant_id command) (CommandRecord.agent_id command)
             session cutoff;
}.

Lemma begin_stale_run h t a session holder instance cutoff :
  exists r, begin_stale_firmware_cleanup_transaction t a session holder instance cutoff h = (h, r)
    /\ (forall o, r = Ok o -> (o = Some tt <-> holder = instance \/ ~ fresh_owner h t a session cutoff)).
Proof.
  unfold begin_stale_firmware_cleanup_transaction, tbind, fresh_owner. rewrite locked_agent_run.
  unfold tlift. destruct (select_one _ _) as [m|]; cbn [rbind].
  2: { eexists. split; [reflexivity|]. intros o [= <-]. split; [|done].
       intros _. right. by intros (m & ? & _). }
  unfold foreign_agent, other_session. rewrite !negb_involutive.
  destruct (beq (AgentsModel.tenant_id m) _ && beq (AgentsModel.current_session_id m) _) eqn:E.
  - bprop. destruct E as [Et Es].
    destruct (AgentsModel.last_seen_at m) as [text|] eqn:El; cbn [traverse_opt option_map r_transpose rbind].
    + destruct (rfc_parse text) as [seen|] eqn:Ep; cbn [ok_or rbind is_some_and].
      2: { by eexists; split; [reflexivity|]. }
      eexists. split; [reflexivity|]. intros o [= <-].
      destruct (Z.ltb_spec cutoff seen), (N.eqb_spec holder instance); cbn [andb negb].
      * split; [by left|done].
      * split; [done|]. intros [?|Hf]; [done|]. destruct Hf. exists m. naive_solver.
      * split; [by left|done].
      * split; [|done]. intros _. right. intros (m' & [= <-] & _ & _ & text' & seen' & El' & Ep' & ?).
        rewrite El in El'. injection El' as <-. rewrite Ep in Ep'. injection Ep' as <-. lia.
    + eexists. split; [reflexivity|]. intros o [= <-]. split; [|done]. intros _. right.
      intros (m' & [= <-] & _ & _ & text' & seen' & El' & _). congruence.
  - eexists. split; [reflexivity|]. intros o [= <-]. split; [|done]. intros _. right.
    intros (m' & [= <-] & Et & Es & _). by rewrite Et, Es, !beq_refl in E.
Qed.

Definition fail_row (now : string) (command : CommandRecord.t) (error : string)
    (m : CommandsModel.t) : CommandsModel.t :=
  set_command CommandStatus.Failed (Some error) (stale_result command) now m.

Definition stale_filter (command : CommandRecord.t) : CommandsModel.t -> bool :=
  command_filter (CommandRecord.id command) (CommandRecord.tenant_id command)
    (CommandRecord.agent_id command) [CommandStatus.Sent; CommandStatus.Acknowledged].

(** The hub after failing [command]. *)
Definition failed_in (h : Hub.t) (now : string) (command : CommandRecord.t) (error : string) : Hub.t :=
  Hub.mk (Hub.agents h)
    (with_commands (fst (update_many (stale_filter command) (fail_row now command error)
                           (Db.commands (Hub.main h)))) (Hub.main h)).

Lemma stale_update_run h now command error :
  exists b, on_main (update_status_if_current_on now (stale_transition command error)) h
    = (failed_in h now command error, Ok b).
Proof.
  unfold on_main, zoom, update_status_if_current_on, tbind. rewrite update_commands_run.
  eexists. reflexivity.
Qed.

(** One iteration: it fails the command exactly when it is abandoned. *)
Lemma fail_stale_command_run h now cutoff instance owned command :
  exists h' r, fail_stale_command now cutoff instance owned command h = (h', r)
    /\ ((h' = h /\ forall b, r = Ok b -> forall error, ~ abandoned h cutoff instance owned command error)
        \/ exists error, abandoned h cutoff instance owned command error
                   /\ h' = failed_in h now command error).
Proof.
  unfold fail_stale_command. case_bool_decide as Ho.
  { exists h, (Ok false). split; [done|]. left. split; [done|]. by intros b _ e []. }
  unfold tbind at 1. unfold tlift.
  destruct (stale_error command) as [[[error|] owner]|e] eqn:Es.
  - destruct owner as [[session holder]|].
    + unfold transaction, tbind.
      destruct (begin_stale_run h (CommandRecord.tenant_id command) (CommandRecord.agent_id command)
        session holder instance cutoff) as (r & -> & Hr).
      destruct r as [o|e]; [|exists h, (Err e); split; [done|by left]].
      specialize (Hr o eq_refl). destruct o as [[]|].
      * destruct (stale_update_run h now command error) as [b ->].
        eexists _, (Ok b). split; [reflexivity|]. right. exists error. split; [|done].
        constructor; [done|]. eexists. split; [done|]. intros ? ? [= <- <-]. by apply Hr.
      * exists h, (Ok false). split; [done|]. left. split; [done|].
        intros b' _ e [_ (owner & Ee & Hf)]. rewrite Es in Ee. injection Ee as <- <-.
        by discriminate (proj2 Hr (Hf _ _ eq_refl)).
    + destruct (stale_update_run h now command error) as [b ->].
      eexists _, (Ok b). split; [reflexivity|]. right. exists error. split; [|done].
      constructor; [done|]. by eexists.
  - exists h, (Ok false). split; [done|]. left. split; [done|].
    intros b' _ e [_ (owner' & Ee & _)]. congruence.
  - exists h, (Err e). split; [done|by left].
Qed.

Lemma abandoned_agents h h' cutoff instance owned command error :
  Hub.agents h = Hub.agents h' ->
  abandoned h cutoff instance owned command error -> abandoned h' cutoff instance owned command error.
Proof.
  intros E [Ho (owner & Es & Hf)]. constructor; [done|]. exists owner. split; [done|].
  intros s i Hi. destruct (Hf s i Hi) as [?|Hn]; [by left|right].
  unfold fresh_owner in *. by rewrite <- E.
Qed.

(** The hub writes the ids of a row in their canonical text. *)
Definition written_row (m : CommandsModel.t) : Prop := exists c t a, owned_row c t a m.

Lemma written_row_ids m command :
  written_row m -> command_row m command ->
  owned_row (CommandRecord.id command) (CommandRecord.tenant_id command)
    (CommandRecord.agent_id command) m.
Proof.
  intros (c & t & a & Ec & Et & Ea) Hr.
  pose proof (row_command_id _ _ Hr) as Hc. pose proof (row_command_tenant _ _ Hr) as Ht.
  pose proof (row_command_agent _ _ Hr) as Ha.
  rewrite Ec, CommandId_parse_to_string in Hc. rewrite Et, TenantId_parse_to_string in Ht.
  rewrite Ea, AgentId_parse_to_string in Ha. injection Hc as <-. injection Ht as <-.
  injection Ha as <-. done.
Qed.

Section Sweep.
Context (h0 : Hub.t) (clock : CommandRecord.t -> string) (command_cutoff : string) (cutoff : Z)
  (instance : N) (owned : list string).
Context (Hu : command_ids_unique (Hub.main h0)).
Context (Hw : forall m, In m (Db.commands (Hub.main h0)) -> written_row m).

(** [m] is a stale live command without an owner; it reads as [command]. *)
Record expired (m : CommandsModel.t) (command : CommandRecord.t) (error : string) : Prop := {
  expired_reads : command_from_model m = Ok command;
  expired_stale : stale_candidate command_cutoff m = true;
  expired_abandoned : abandoned h0 cutoff instance owned command error;
}.

(** A row during the sweep: failed because it was expired, or untouched, and
    then not one of the [visited] commands unless that one was not expired. *)
Definition swept (visited : list CommandRecord.t) (m m' : CommandsModel.t) : Prop :=
  (m' = m /\ forall command error, In command visited -> ~ expired m command error)
  \/ exists command error, expired m command error /\ m' = fail_row (clock command) command error m.

Record sweep_state (visited : list CommandRecord.t) (h : Hub.t) : Prop := {
  sweep_agents : Hub.agents h = Hub.agents h0;
  sweep_rows : Forall2 (swept visited) (Db.commands (Hub.main h0)) (Db.commands (Hub.main h));
  sweep_rest : h = Hub.mk (Hub.agents h0) (with_commands (Db.commands (Hub.main h)) (Hub.main h0));
}.

Definition candidate (command : CommandRecord.t) : Prop :=
  exists m, In m (Db.commands (Hub.main h0)) /\ command_from_model m = Ok command
    /\ stale_candidate command_cutoff m = true.

Lemma stale_filter_self m command :
  written_row m -> command_from_model m = Ok command -> stale_candidate command_cutoff m = true ->
  stale_filter command m = true.
Proof.
  intros Hwm Hr Hs. apply command_from_model_iff in Hr.
  destruct (written_row_ids _ _ Hwm Hr) as (Ec & Et & Ea).
  unfold stale_filter, command_filter. rewrite Ec, Et, Ea, !beq_refl. cbn [andb].
  apply bool_decide_eq_true. unfold stale_candidate in Hs.
  rewrite !andb_true_iff, orb_true_iff, !beq_true in Hs. destruct Hs as [[_ [-> | ->]] _]; set_solver.
Qed.

Lemma stale_filter_failed command now command' error m :
  stale_filter command (fail_row now command' error m) = false.
Proof.
  unfold stale_filter, command_filter. apply andb_false_iff. right.
  apply bool_decide_eq_false. cbn. set_solver.
Qed.

(** Failing a candidate fails its own row and no other. *)
Lemma failed_row visited command error m m' :
  candidate command -> abandoned h0 cutoff instance owned command error ->
  In m (Db.commands (Hub.main h0)) -> swept visited m m' ->
  swept (visited ++ [command]) m
    (if stale_filter command m' then fail_row (clock command) command error m' else m').
Proof.
  intros (m0 & Hin0 & Hr0 & Hs0) Hab Hm [[-> Hv]|(command' & error' & He & ->)].
  2: { rewrite stale_filter_failed. right. eauto. }
  destruct (stale_filter command m) eqn:F.
  - right. exists command, error. split; [|done].
    assert (m = m0) as ->; [|by constructor]. apply Hu; [done|done|].
    apply command_filter_owned in F as (Ei & _).
    apply command_from_model_iff in Hr0.
    by destruct (written_row_ids _ _ (Hw _ Hin0) Hr0) as [-> _].
  - left. split; [done|]. intros c e Hc He. apply in_app_or in Hc as [Hc|[<-|[]]]; [by eapply Hv|].
    rewrite (stale_filter_self m command) in F; [done|by apply Hw|apply He|apply He].
Qed.

Lemma sweep_step visited h command :
  candidate command -> sweep_state visited h ->
  exists h' r, fail_stale_command (clock command) cutoff instance owned command h = (h', r)
    /\ match r with
       | Ok _ => sweep_state (visited ++ [command]) h'
       | Err _ => exists visited', sweep_state visited' h'
       end.
Proof.
  intros Hc Hst. pose proof Hst as [Ha Hrows Hrest].
  destruct (fail_stale_command_run h (clock command) cutoff instance owned command)
    as (h' & r & E & Hcase). exists h', r. split; [done|].
  assert (forall error, abandoned h cutoff instance owned command error ->
    sweep_state (visited ++ [command]) (failed_in h (clock command) command error)) as Hfail.
  { intros error Hab. constructor; [done| |].
    - cbn. rewrite update_many_rows. apply Forall2_fmap_r.
      eapply Forall2_impl_l; [exact Hrows|]. intros m m' Hm Hsw.
      apply failed_row; [done|by eapply abandoned_agents|done|done].
    - cbn. rewrite Hrest. cbn. done. }
  destruct Hcase as [[-> Hn]|(error & Hab & ->)].
  - destruct r as [b|e]; [|by exists visited]. constructor; [done| |done].
    eapply Forall2_impl; [exact Hrows|]. intros m m' [[-> Hv]|Hf]; [left|by right].
    split; [done|]. intros c e Hin He. apply in_app_or in Hin as [Hin|[<-|[]]]; [by eapply Hv|].
    eapply (Hn b eq_refl e). eapply abandoned_agents; [|apply He]. done.
  - destruct r as [b|e]; [by apply Hfail|]. eexists. by apply Hfail.
Qed.

Lemma sweep_loop commands : forall visited h n,
  Forall candidate commands -> sweep_state visited h ->
  exists h' r, fail_stale_loop clock cutoff instance owned commands n h = (h', r)
    /\ match r with
       | Ok _ => sweep_state (visited ++ commands) h'
       | Err _ => exists visited', sweep_state visited' h'
       end.
Proof.
  induction commands as [|command commands IH]; intros visited h n Hc Hst; cbn [fail_stale_loop].
  - exists h, (Ok n). split; [done|]. by rewrite app_nil_r.
  - inversion Hc as [|? ? Hc1 Hc2]; subst.
    destruct (sweep_step visited h command Hc1 Hst) as (h1 & r & E & Hr).
    unfold tbind. rewrite E. destruct r as [b|e]; [|by exists h1, (Err e)].
    destruct (IH (visited ++ [command]) h1 (if b then n + 1 else n) Hc2 Hr) as (h' & r & E' & Hr').
    exists h', r. split; [done|]. by rewrite <- app_assoc in Hr'.
Qed.

Lemma sweep_start : sweep_state [] h0.
Proof.
  constructor; [done| |by destruct h0 as [? []]].
  apply Forall_Forall2_diag, Forall_true. intros m. left. split; [done|]. by intros ? ? [].
Qed.

(** What a sweep that answers [result] leaves behind: rows failed because they
    were expired, the others untouched, and, if it succeeded, none of those
    expired. *)
Definition sweep_outcome (h' : Hub.t) (result : result RepositoryError Z) : Prop :=
  h' = Hub.mk (Hub.agents h0) (with_commands (Db.commands (Hub.main h')) (Hub.main h0))
  /\ Forall2 (fun m m' =>
       (m' = m /\ (is_ok result = true -> forall command error, ~ expired m command error))
       \/ exists command error, expired m command error
            /\ m' = fail_row (clock command) command error m)
     (Db.commands (Hub.main h0)) (Db.commands (Hub.main h')).

Lemma sweep_done visited h' result :
  (is_ok result = true -> forall m command, In m (Db.commands (Hub.main h0)) ->
     command_from_model m = Ok command -> stale_candidate command_cutoff m = true ->
     In command visited) ->
  sweep_state visited h' -> sweep_outcome h' result.
Proof.
  intros Hall [Ha Hrows Hrest]. split; [done|].
  eapply Forall2_impl_l; [exact Hrows|]. intros m m' Hm [[-> Hv]|Hf]; [left|by right].
  split; [done|]. intros Hr command error He. eapply Hv; [|exact He].
  eapply Hall; [done|exact Hm|apply He|apply He].
Qed.

Lemma sweep_failed e : sweep_outcome h0 (Err e).
Proof. by eapply sweep_done; [|apply sweep_start]. Qed.

(** The loop over the rows the query selected. *)
Lemma sweep_selected commands :
  collect command_from_model
    (select (stale_candidate command_cutoff) (Db.commands (Hub.main h0))) = Ok commands ->
  exists h' r, fail_stale_loop clock cutoff instance owned commands 0 h0 = (h', r)
    /\ sweep_outcome h' r.
Proof.
  intros Ec. apply collect_Ok in Ec.
  assert (forall m command, In m (Db.commands (Hub.main h0)) ->
    command_from_model m = Ok command -> stale_candidate command_cutoff m = true ->
    In command commands) as Hall.
  { intros m command Hm Hread Hs.
    assert (In m (select (stale_candidate command_cutoff) (Db.commands (Hub.main h0)))) as Hin
      by (by apply select_In).
    apply list_elem_of_In, list_elem_of_lookup in Hin as [i Hi].
    destruct (Forall2_lookup_l _ _ _ _ _ Ec Hi) as (c & Hc & Hread').
    assert (command = c) as -> by congruence. apply list_elem_of_In.
    by eapply list_elem_of_lookup_2. }
  destruct (sweep_loop commands [] h0 0) as (h' & r & E & Hr); [|apply sweep_start|].
  - apply Forall_forall. intros command Hc. apply list_elem_of_lookup in Hc as [i Hi].
    destruct (Forall2_lookup_r _ _ _ _ _ Ec Hi) as (m & Hm & Hread).
    apply list_elem_of_lookup_2, list_elem_of_In, select_In in Hm as [Hm Hs]. by exists m.
  - exists h', r. split; [done|]. destruct r as [n|e].
    + eapply sweep_done; [|exact Hr]. by intros _.
    + destruct Hr as [visited Hr]. by eapply sweep_done; [|exact Hr].
Qed.
End Sweep.

Lemma duration_Ok d d' : duration_try_from d = Ok d' -> d' = d.
Proof. unfold duration_try_from. destruct (_ <=? _); congruence. Qed.

(** the stale sweep fails exactly the commands it is meant to: a row changes
    only if it is a sent or acknowledged live command, not updated since the
    cutoff, not held by this hub, whose payload names it abandonable and whose
    firmware owner, if it has one, is this hub or no longer fresh; it then
    becomes failed with that kind's error.  A sweep that succeeds has failed all
    of them, and nothing else in the database is written. *)
Theorem stale_sweep_precise (clock : CommandRecord.t -> string) (now : string)
    (command_timeout session_timeout : Z) (instance : N) (owned : list CommandId)
    (h h' : Hub.t) (r : result RepositoryError Z) (now_at : Z) (command_cutoff : string)
    (Hu : command_ids_unique (Hub.main h))
    (Hw : forall m, In m (Db.commands (Hub.main h)) -> written_row m)
    (Hnow : rfc_parse now = Some now_at)
    (Hcut : rfc_format (now_at - command_timeout) = Some command_cutoff)
    (Hrun : fail_stale_unowned_live_commands clock now command_timeout session_timeout instance
              owned h = (h', r)) :
  sweep_outcome h clock command_cutoff (now_at - session_timeout) instance
    (map CommandId_to_string owned) h' r.
Proof.
  unfold fail_stale_unowned_live_commands, tbind, tlift, tread in Hrun.
  destruct (duration_try_from command_timeout) as [ct|e] eqn:Ect;
    [apply duration_Ok in Ect as ->|injection Hrun as <- <-; by apply sweep_failed].
  destruct (duration_try_from session_timeout) as [st|e] eqn:Est;
    [apply duration_Ok in Est as ->|injection Hrun as <- <-; by apply sweep_failed].
  rewrite Hnow in Hrun. cbn [ok_or] in Hrun. rewrite Hcut in Hrun. cbn [ok_or] in Hrun.
  destruct (collect command_from_model _) as [commands|e] eqn:Ec;
    [|injection Hrun as <- <-; by apply sweep_failed].
  destruct (sweep_selected h clock command_cutoff (now_at - session_timeout) instance
    (map CommandId_to_string owned) Hu Hw commands Ec) as (h1 & r1 & E & Ho).
  rewrite E in Hrun. injection Hrun as <- <-. exact Ho.
Qed.
End Commands.

(** ** Witnesses *)

Definition no_command_json : CommandJson := {|
  parse_uploaded_url := fun _ => None;
  parse_operation_payload := fun _ => None;
  parse_refresh_payload := fun _ => None;
  parse_control_payload := fun _ => None;
  persisted_result_to_string := fun _ => "{}"%string;
|}.

(** Session s2 speaks for the agent; it has been sent a print command. *)
Definition online_agent : AgentsModel.t :=
  AgentsModel.mk "0" "0" "garage" "online" (Some "1.0"%string) (Some "1"%string) "t0" None None None
    (Some "s2"%string).
Definition sent_print : CommandsModel.t :=
  CommandsModel.mk "0" "0" "0" None "print_project_file" "sent" "{}" None None "t0" "0".
Definition stale_link : CommandsModel.t :=
  CommandsModel.mk "1" "0" "0" None "link_printer" "sent" "{}" None None "t0" "0".
Definition live_job : JobsModel.t :=
  JobsModel.mk "1" "0" "p1" "0" "a1" "0" 1 1 None "sent" None "t0" "t0" "pending" None
    None None None None None None None None None None None None None None None.
Definition sample_hub : Hub.t :=
  Hub.mk [online_agent] (Db.mk [sent_print; stale_link] [live_job] [] []).
Definition T1 : TenantId := mkTenantId 1.
Definition A1 : AgentId := mkAgentId 1.
Definition C1 : CommandId := mkCommandId 1.

Lemma sample_ids_unique : command_ids_unique (Hub.main sample_hub).
Proof. intros m m' [<-|[<-|[]]] [<-|[<-|[]]]; vm_compute; congruence. Qed.


Definition print_success : PrintCommandTransition.t :=
  @print_transition T1 A1 C1 (Succeed (Some "{}"%string)).

Lemma print_transition_settles_jobs_witness :
  exists db' command,
    @transition_print_command list_store binary_uuid no_command_json "t1" "t2" print_success
      (Hub.main sample_hub) = (db', Ok command)
    /\ exists j, Db.jobs db' = [j] /\ job_is_terminal j = true.
Proof.
  destruct (@transition_print_command list_store binary_uuid no_command_json "t1" "t2"
    print_success (Hub.main sample_hub)) as [db' r] eqn:E.
  destruct r as [command|e]; [|vm_compute in E; discriminate].
  destruct (@print_transition_settles_jobs list_store binary_uuid no_command_json "t1" "t2"
    print_success (Hub.main sample_hub) db' command E) as (Hj & Hall & _).
  exists db', command. split; [reflexivity|]. eexists. split; [exact Hj|].
  apply Hall; [reflexivity|rewrite Hj; left; reflexivity|vm_compute; reflexivity].
Defined.

Lemma first_result_wins_witness :
  exists h' command,
    @transition_current_session_command list_store binary_uuid no_command_json
      "t1" "t1" T1 A1 "s2" C1 (Succeed None) sample_hub = (h', Ok command)
    /\ @transition_current_session_command list_store binary_uuid no_command_json
         "t2" "t2" T1 A1 "s2" C1 (Fail_ "late" None) h'
       = (h', Err (InvalidCommandTransition "succeeded" "fail")).
Proof.
  destruct (@transition_current_session_command list_store binary_uuid no_command_json
      "t1" "t1" T1 A1 "s2" C1 (Succeed None) sample_hub) as [h' r] eqn:E.
  destruct r as [command|e]; [|vm_compute in E; discriminate].
  exists h', command. split; [reflexivity|].
  exact (@first_result_wins list_store binary_uuid no_command_json sample_hub h'
    "t1" "t1" T1 A1 "s2" C1 (Succeed None) command sample_ids_unique eq_refl E
    "t2" "t2" (Fail_ "late" None) eq_refl).
Defined.

(** At instant 6, with a timeout of 4, only the link command is swept. *)
Lemma stale_sweep_precise_witness :
  exists h' r,
    @fail_stale_unowned_live_commands list_store binary_uuid binary_clock no_command_json
      (fun _ => "t9"%string) "11" 4 4 1 [] sample_hub = (h', r)
    /\ r = Ok 1
    /\ @sweep_outcome list_store binary_uuid binary_clock no_command_json sample_hub
         (fun _ => "t9"%string) "1" 2 1 [] h' r.
Proof.
  destruct (@fail_stale_unowned_live_commands list_store binary_uuid binary_clock no_command_json
      (fun _ => "t9"%string) "11" 4 4 1 [] sample_hub) as [h' r] eqn:E.
  exists h', r. split; [reflexivity|]. split; [vm_compute in E; injection E as <- <-; reflexivity|].
  apply (@stale_sweep_precise list_store binary_uuid binary_clock no_command_json
    (fun _ => "t9"%string) "11" 4 4 1 [] sample_hub h' r 6 "1" sample_ids_unique).
  - intros m [<-|[<-|[]]]; [exists C1|exists (mkCommandId 2)]; exists T1, A1; vm_compute; repeat split.
  - reflexivity.
  - reflexivity.
  - exact E.
Defined.
