(* ===== verification/SessionLeases.v ===== *)
(** * Agent transition leases

    [crates/pandar-hub/src/sessions/transitions.rs].  The hub serialises the
    transitions of one agent with a mutex per agent, created on demand and swept
    when idle.  The outer mutex of the map makes [mutex] and [sweep_idle_leases]
    atomic, so the leases are a step relation over the map, the mutexes' owners
    and the tasks that hold a clone of a mutex's [Arc].  Tokio's queueing order
    is not modelled: any waiting task may be the next to acquire. *)

From stdpp Require Import relations fin_maps.
From S2P Require Import Prelude CoreTypes.

(** A mutex is named by its allocation. *)
Definition mutex_id : Type := positive.
Definition task_id : Type := positive.

(** Where a task stands between [lease] and dropping its guard: it has cloned
    the [Arc] and waits, or owns the mutex. *)
Inductive lease_task :=
| Waiting (agent_id : AgentId) (mutex : mutex_id)
| Holding (agent_id : AgentId) (mutex : mutex_id).

Definition task_agent (k : lease_task) : AgentId :=
  match k with Waiting a _ | Holding a _ => a end.
Definition task_mutex (k : lease_task) : mutex_id :=
  match k with Waiting _ m | Holding _ m => m end.

Module AgentTransitions.
Record t := mk {
  leases : gmap AgentId mutex_id;
  (** The next allocation. *)
  fresh : mutex_id;
  tasks : gmap task_id lease_task }.

Definition default : t := mk ∅ 1%positive ∅.

(** [entry(agent_id).or_insert_with(new).clone()]. *)
Definition mutex (s : t) (agent_id : AgentId) : mutex_id * t :=
  match leases s !! agent_id with
  | Some m => (m, s)
  | None => (fresh s, mk (<[agent_id := fresh s]> (leases s)) (Pos.succ (fresh s)) (tasks s))
  end.

(** The tasks that own a clone of the [Arc], and the map's own. *)
Definition users (s : t) (m : mutex_id) : nat :=
  size (filter (fun '(_, k) => task_mutex k = m) (tasks s)).
Definition strong_count (s : t) (m : mutex_id) : nat := S (users s m).

Definition sweep_idle_leases (s : t) : nat * t :=
  let before := size (leases s) in
  let kept := filter (fun '(_, m) => 1 < strong_count s m) (leases s) in
  (before - size kept, mk kept (fresh s) (tasks s)).

(** [lease] up to the [Arc] clone. *)
Definition start (s : t) (task : task_id) (agent_id : AgentId) : t :=
  let '(m, s) := mutex s agent_id in
  mk (leases s) (fresh s) (<[task := Waiting agent_id m]> (tasks s)).

Definition holds (m : mutex_id) (k : lease_task) : bool :=
  match k with Holding _ m' => Pos.eqb m' m | Waiting _ _ => false end.
Definition locked (s : t) (m : mutex_id) : bool :=
  bool_decide (map_Exists (fun _ k => holds m k = true) (tasks s)).

(** The mutex hands itself to a waiting task when it is free. *)
Definition acquire (s : t) (task : task_id) : option t :=
  match tasks s !! task with
  | Some (Waiting a m) =>
      if locked s m then None
      else Some (mk (leases s) (fresh s) (<[task := Holding a m]> (tasks s)))
  | _ => None
  end.

(** Dropping the guard, or the future that waits for it. *)
Definition release (s : t) (task : task_id) : t :=
  mk (leases s) (fresh s) (delete task (tasks s)).
End AgentTransitions.

Module L := AgentTransitions.

Inductive lease_step : L.t -> L.t -> Prop :=
| lease_start s task a : L.tasks s !! task = None -> lease_step s (L.start s task a)
| lease_acquire s s' task : L.acquire s task = Some s' -> lease_step s s'
| lease_release s task : lease_step s (L.release s task)
| lease_sweep s : lease_step s (snd (L.sweep_idle_leases s)).

(** ** Invariant *)

Record leases_ok (s : L.t) : Prop := {
  (** A task's mutex is still the one the map hands out for its agent. *)
  task_mapped : forall task k, L.tasks s !! task = Some k ->
    L.leases s !! task_agent k = Some (task_mutex k);
  one_holder : forall t1 t2 a1 a2 m, L.tasks s !! t1 = Some (Holding a1 m) ->
    L.tasks s !! t2 = Some (Holding a2 m) -> t1 = t2;
  lease_injective : forall a1 a2 m, L.leases s !! a1 = Some m -> L.leases s !! a2 = Some m -> a1 = a2;
  lease_allocated : forall a m, L.leases s !! a = Some m -> (m < L.fresh s)%positive;
}.

Lemma users_pos s m :
  1 < L.strong_count s m <-> exists task k, L.tasks s !! task = Some k /\ task_mutex k = m.
Proof.
  unfold L.strong_count, L.users. split.
  - intros H. destruct (map_choose (filter (fun '(_, k) => task_mutex k = m) (L.tasks s)))
      as (task & k & Hk).
    { intros E. rewrite E, map_size_empty in H. lia. }
    apply map_lookup_filter_Some in Hk as [Hk Hm]. eauto.
  - intros (task & k & Hk & Hm).
    destruct (size (filter _ (L.tasks s))) eqn:E; [|lia].
    apply map_size_empty_inv in E. exfalso.
    assert (filter (fun '(_, k) => task_mutex k = m) (L.tasks s) !! task = Some k) as Hf
      by by apply map_lookup_filter_Some.
    by rewrite E, lookup_empty in Hf.
Qed.

Lemma locked_spec s m :
  L.locked s m = true <-> exists task a, L.tasks s !! task = Some (Holding a m).
Proof.
  unfold L.locked. rewrite bool_decide_eq_true. split.
  - intros (task & k & Hk & Hm). destruct k as [|a m']; [done|]. apply Pos.eqb_eq in Hm. subst. eauto.
  - intros (task & a & Hk). exists task, (Holding a m). split; [done|]. apply Pos.eqb_refl.
Qed.

Lemma sweep_lookup s a m :
  L.leases (snd (L.sweep_idle_leases s)) !! a = Some m
  <-> L.leases s !! a = Some m /\ 1 < L.strong_count s m.
Proof. simpl. by rewrite map_lookup_filter_Some. Qed.

Lemma default_ok : leases_ok L.default.
Proof. split; simpl; intros *; rewrite ?lookup_empty; done. Qed.

Lemma start_ok s task a : L.tasks s !! task = None -> leases_ok s -> leases_ok (L.start s task a).
Proof.
  intros Hn [Hm H1 Hi Ha]. unfold L.start, L.mutex.
  destruct (L.leases s !! a) as [m|] eqn:E; split; simpl.
  - intros t k. rewrite lookup_insert_Some. intros [[<- <-]|[_ Hk]]; eauto.
  - intros t1 t2 a1 a2 m'. rewrite !lookup_insert_Some. naive_solver.
  - done.
  - done.
  - intros t k. rewrite lookup_insert_Some. intros [[<- <-]|[_ Hk]]; simpl.
    + apply lookup_insert_eq.
    + rewrite lookup_insert_ne; [eauto|]. intros Ea. apply Hm in Hk. congruence.
  - intros t1 t2 a1 a2 m'. rewrite !lookup_insert_Some. naive_solver.
  - intros a1 a2 m'. rewrite !lookup_insert_Some.
    intros [[<- <-]|[_ H]] [[<- E2]|[_ H']]; try done.
    + apply Ha in H'. lia.
    + subst. apply Ha in H. lia.
    + eauto.
  - intros a' m'. rewrite lookup_insert_Some. intros [[<- <-]|[_ H]]; [lia|]. apply Ha in H. lia.
Qed.

Lemma acquire_ok s s' task : L.acquire s task = Some s' -> leases_ok s -> leases_ok s'.
Proof.
  intros E [Hm H1 Hi Ha]. unfold L.acquire in E.
  destruct (L.tasks s !! task) as [[a m|]|] eqn:Et; [|done|done].
  destruct (L.locked s m) eqn:El; [done|]. injection E as <-. split; simpl; [| |done|done].
  - intros t k. rewrite lookup_insert_Some. intros [[<- <-]|[_ Hk]]; [by apply (Hm _ _ Et)|eauto].
  - assert (forall t' a', L.tasks s !! t' <> Some (Holding a' m)) as Hfree.
    { intros t' a' Ht'. apply not_true_iff_false in El. apply El, locked_spec. eauto. }
    intros t1 t2 a1 a2 m'. rewrite !lookup_insert_Some.
    intros [[<- [= <- <-]]|[_ A]] [[<- B]|[_ B]]; try done; eauto.
    + by apply Hfree in B.
    + injection B as <- <-. by apply Hfree in A.
Qed.

Lemma release_ok s task : leases_ok s -> leases_ok (L.release s task).
Proof.
  intros [Hm H1 Hi Ha]. split; simpl; [| |done|done].
  - intros t k. rewrite lookup_delete_Some. intros [_ Hk]. eauto.
  - intros t1 t2 a1 a2 m. rewrite !lookup_delete_Some. intros [_ A] [_ B]. eauto.
Qed.

Lemma sweep_ok s : leases_ok s -> leases_ok (snd (L.sweep_idle_leases s)).
Proof.
  intros [Hm H1 Hi Ha]. split.
  - intros t k Hk. apply sweep_lookup. split; [by apply (Hm t)|]. apply users_pos. by exists t, k.
  - done.
  - intros a1 a2 m A B. apply sweep_lookup in A as [A _], B as [B _]. eauto.
  - intros a m A. apply sweep_lookup in A as [A _]. eauto.
Qed.

Lemma reachable_ok s : rtc lease_step L.default s -> leases_ok s.
Proof.
  intros R. refine (rtc_ind_r leases_ok L.default default_ok _ s R).
  intros x y _ St Hx. destruct St; eauto using start_ok, acquire_ok, release_ok, sweep_ok.
Qed.

(** ** Properties *)

(** C39: whatever tasks start, acquire and drop leases and however often idle
    leases are swept, at most one task holds the lease of an agent, although a
    sweep may replace the agent's mutex; and a waiting task is never blocked by
    another agent: if no task holds its agent's lease it can acquire. *)
Theorem lease_mutual_exclusion (s : L.t) (Hr : rtc lease_step L.default s) :
  (forall t1 t2 k1 k2, L.tasks s !! t1 = Some k1 -> L.tasks s !! t2 = Some k2 ->
     (exists a m1 m2, k1 = Holding a m1 /\ k2 = Holding a m2) -> t1 = t2)
  /\ (forall t a m, L.tasks s !! t = Some (Waiting a m) ->
        (forall t' m', L.tasks s !! t' <> Some (Holding a m')) -> is_Some (L.acquire s t)).
Proof.
  destruct (reachable_ok s Hr) as [Hm H1 Hi _]. split.
  - intros t1 t2 k1 k2 E1 E2 (a & m1 & m2 & -> & ->).
    pose proof (Hm _ _ E1) as A. pose proof (Hm _ _ E2) as B. simpl in A, B.
    assert (m1 = m2) as -> by congruence. eauto.
  - intros t a m Et Hfree. unfold L.acquire. rewrite Et. destruct (L.locked s m) eqn:El; [|done].
    apply locked_spec in El as (t' & a' & Et').
    pose proof (Hm _ _ Et) as A. pose proof (Hm _ _ Et') as B. simpl in A, B.
    rewrite (Hi _ _ _ A B) in Hfree. by apply Hfree in Et'.
Qed.

(** A sweep of the idle leases removes exactly the entries no task waits on
    or holds, counts them, and changes nothing for any task. *)
Theorem sweep_removes_exactly_idle (s : L.t) (Hr : rtc lease_step L.default s) :
  let '(removed, s') := L.sweep_idle_leases s in
  L.tasks s' = L.tasks s
  /\ (forall a m, L.leases s' !! a = Some m <->
        L.leases s !! a = Some m /\ exists t k, L.tasks s !! t = Some k /\ task_agent k = a)
  /\ removed + size (L.leases s') = size (L.leases s).
Proof.
  destruct (reachable_ok s Hr) as [Hm _ Hi _]. cbn. split_and!; [done| |].
  - intros a m. rewrite map_lookup_filter_Some, users_pos. split.
    + intros (Hl & t & k & Hk & E). split; [done|]. exists t, k. split; [done|].
      pose proof (Hm _ _ Hk) as A. rewrite E in A. by apply (Hi _ _ m).
    + intros (Hl & t & k & Hk & E). split; [done|]. exists t, k. split; [done|].
      pose proof (Hm _ _ Hk) as A. rewrite E in A. congruence.
  - pose proof (map_size_filter (fun '(_, m) => 1 < L.strong_count s m) (L.leases s)). lia.
Qed.

(** *** Witness: a held lease, a waiting task, and a sweep in between. *)
Definition lease_agent : AgentId := mkAgentId 1.
Definition contended : L.t :=
  L.start (snd (L.sweep_idle_leases
    (default L.default (L.acquire (L.start L.default 1%positive lease_agent) 1%positive)))) 2%positive lease_agent.

Lemma contended_reachable : rtc lease_step L.default contended.
Proof.
  eapply rtc_l; [by apply (lease_start _ 1%positive lease_agent)|].
  eapply rtc_l; [apply (lease_acquire _ (default L.default (L.acquire (L.start L.default 1%positive lease_agent) 1%positive)) 1%positive); by vm_compute|].
  eapply rtc_l; [apply lease_sweep|]. apply rtc_once, lease_start. by vm_compute.
Qed.

Lemma lease_mutual_exclusion_witness :
  L.tasks contended !! 1%positive = Some (Holding lease_agent 1%positive)
  /\ L.tasks contended !! 2%positive = Some (Waiting lease_agent 1%positive)
  /\ (forall t1 t2 k1 k2, L.tasks contended !! t1 = Some k1 -> L.tasks contended !! t2 = Some k2 ->
       (exists a m1 m2, k1 = Holding a m1 /\ k2 = Holding a m2) -> t1 = t2).
Proof.
  split; [vm_compute; reflexivity|]. split; [vm_compute; reflexivity|].
  exact (proj1 (lease_mutual_exclusion contended contended_reachable)).
Defined.

Lemma sweep_removes_exactly_idle_witness :
  fst (L.sweep_idle_leases (L.release (L.release contended 1%positive) 2%positive)) = 1
  /\ let '(removed, s') := L.sweep_idle_leases contended in
     removed + size (L.leases s') = size (L.leases contended).
Proof.
  split; [vm_compute; reflexivity|].
  exact (proj2 (proj2 (sweep_removes_exactly_idle contended contended_reachable))).
Defined.
