(* ===== verification/Sessions.v ===== *)
(** * The session registry and its live commands

    [crates/pandar-hub/src/sessions.rs] and [sessions/live_commands.rs].  The
    registry maps an agent to the session that is connected now.  Each session
    shares one map of pending live commands between the registry's entry, the
    clones handed out and the cleanup after it is removed; here the maps live in
    a store keyed by the session's token, which is that sharing.  The registry's
    own mutex makes each operation atomic.  A [Sender] is modelled by what the
    source does with it: the answer of [try_send] is an argument, and the
    operations return the session they signalled. *)

From stdpp Require Import relations fin_maps.
From S2P Require Import Prelude RustStr CoreTypes CoreRecords Store JobRows Tx AgentSessions CommandTransitions.

#[local] Open Scope Z_scope.
#[local] Open Scope tx_scope.

(** [SessionToken]: a UUID. *)
Definition SessionToken : Type := N.
(** Values of the generated protobuf enumeration. *)
Definition AgentCapability : Type := Z.

Module AgentSession.
Record t := mk {
  token : SessionToken; tenant_id : TenantId; agent_id : AgentId; name : string;
  version : string; connected_at : string; last_heartbeat_at : string;
  capabilities : list AgentCapability }.
End AgentSession.

(** [PendingLiveCommand]: the access code of a link command. *)
Definition PendingLiveCommand : Type := option string.

Module SessionRegistry.
Record t := mk {
  sessions : gmap AgentId AgentSession.t;
  pending_live_commands : gmap SessionToken (gmap CommandId PendingLiveCommand) }.

Definition new : t := mk ∅ ∅.

Definition with_sessions (m : gmap AgentId AgentSession.t) (r : t) : t :=
  mk m (pending_live_commands r).

Definition pending (r : t) (token : SessionToken) : gmap CommandId PendingLiveCommand :=
  default ∅ (pending_live_commands r !! token).
Definition set_pending (token : SessionToken) (m : gmap CommandId PendingLiveCommand) (r : t) : t :=
  mk (sessions r) (<[token := m]> (pending_live_commands r)).
End SessionRegistry.
Module Reg := SessionRegistry.

(** ** The registry *)

Definition has_token (token : SessionToken) (s : AgentSession.t) : bool :=
  N.eqb (AgentSession.token s) token.
Definition of_tenant (tenant_id : TenantId) (s : AgentSession.t) : bool :=
  beq (AgentSession.tenant_id s) tenant_id.

(** The previous session is returned, and told to close. *)
Definition register (session : AgentSession.t) (r : Reg.t) : option AgentSession.t * Reg.t :=
  (Reg.sessions r !! AgentSession.agent_id session,
   Reg.with_sessions (<[AgentSession.agent_id session := session]> (Reg.sessions r)) r).

Definition heard (observed_at : string) (s : AgentSession.t) : AgentSession.t :=
  AgentSession.mk (AgentSession.token s) (AgentSession.tenant_id s) (AgentSession.agent_id s)
    (AgentSession.name s) (AgentSession.version s) (AgentSession.connected_at s) observed_at
    (AgentSession.capabilities s).

Definition touch_heartbeat (agent_id : AgentId) (observed_at : string) (r : Reg.t)
  : option AgentSession.t * Reg.t :=
  match Reg.sessions r !! agent_id with
  | None => (None, r)
  | Some session =>
      let session := heard observed_at session in
      (Some session, Reg.with_sessions (<[agent_id := session]> (Reg.sessions r)) r)
  end.

Definition touch_heartbeat_if_current (agent_id : AgentId) (token : SessionToken)
    (observed_at : string) (r : Reg.t) : option AgentSession.t * Reg.t :=
  match Reg.sessions r !! agent_id with
  | None => (None, r)
  | Some session =>
      if negb (has_token token session) then (None, r)
      else
        let session := heard observed_at session in
        (Some session, Reg.with_sessions (<[agent_id := session]> (Reg.sessions r)) r)
  end.

Definition remove (agent_id : AgentId) (r : Reg.t) : option AgentSession.t * Reg.t :=
  (Reg.sessions r !! agent_id, Reg.with_sessions (delete agent_id (Reg.sessions r)) r).

Definition is_current (agent_id : AgentId) (token : SessionToken) (r : Reg.t) : bool :=
  is_some_and (has_token token) (Reg.sessions r !! agent_id).

Definition remove_if_current (agent_id : AgentId) (token : SessionToken) (r : Reg.t)
  : option AgentSession.t * Reg.t :=
  if is_current agent_id token r then remove agent_id r else (None, r).

Definition current_token (tenant_id : TenantId) (agent_id : AgentId) (r : Reg.t)
  : option SessionToken :=
  AgentSession.token <$> opt_filter (of_tenant tenant_id) (Reg.sessions r !! agent_id).

Definition current_token_for_capability (tenant_id : TenantId) (agent_id : AgentId)
    (capability : AgentCapability) (r : Reg.t) : option SessionToken :=
  AgentSession.token <$>
    opt_filter (fun s => of_tenant tenant_id s
                         && bool_decide (capability ∈ AgentSession.capabilities s))
      (Reg.sessions r !! agent_id).

(** [CurrentAgentSessionSnapshot]: the token and the capabilities. *)
Definition current_session_snapshot_for (tenant_id : TenantId) (agent_id : AgentId) (r : Reg.t)
  : option (SessionToken * list AgentCapability) :=
  (fun s => (AgentSession.token s, AgentSession.capabilities s)) <$>
    opt_filter (of_tenant tenant_id) (Reg.sessions r !! agent_id).

(** The removed session is told to close.  The caller holds the agent's lease. *)
Definition close_local_agent (tenant_id : TenantId) (agent_id : AgentId) (r : Reg.t)
  : option AgentSession.t * Reg.t :=
  if is_some_and (of_tenant tenant_id) (Reg.sessions r !! agent_id) then remove agent_id r
  else (None, r).

(** The operation's answer counts only if the session was current before and after. *)
Definition while_current {A} (agent_id : AgentId) (token : SessionToken)
    (operation : Reg.t -> A * Reg.t) (r : Reg.t) : option A * Reg.t :=
  if negb (is_current agent_id token r) then (None, r)
  else let '(result, r) := operation r in
       (if is_current agent_id token r then Some result else None, r).

Section Expiry.
Context `{Store} `{UuidText} `{Rfc3339}.

Definition persisted_id (token : SessionToken) : string := uuid_to_string token.

Definition cutoff_timestamp (now : string) (timeout : Z) : result RepositoryError Z :=
  rbind (duration_try_from timeout) (fun timeout =>
  rbind (ok_or (rfc_parse now) Database) (fun now => Ok (now - timeout))).

Definition stale_before (observed_at : string) (cutoff : Z) : bool :=
  match rfc_parse observed_at with Some observed_at => observed_at <=? cutoff | None => false end.

(** The registry and the database together. *)
Definition hub_state : Type := Reg.t * Hub.t.
Definition on_hub {A} (m : hub A) : tx hub_state RepositoryError A :=
  zoom snd (fun h s => (fst s, h)) m.

(** The body of the loop of [expire_stale]; it runs under the agent's lease but
    after the snapshot, so it looks at the registry again. *)
Definition expire_one (now : string) (cutoff : Z) (stale_session : AgentSession.t)
  : tx hub_state RepositoryError (option AgentSession.t) := fun s =>
  match opt_filter (fun session => has_token (AgentSession.token stale_session) session
                                   && stale_before (AgentSession.last_heartbeat_at session) cutoff)
          (Reg.sessions (fst s) !! AgentSession.agent_id stale_session) with
  | None => (s, Ok None)
  | Some current =>
      (on_hub (mark_offline_if_current (AgentSession.tenant_id current)
                 (AgentSession.agent_id current) (persisted_id (AgentSession.token current)) now)
       ~;;
       (fun s =>
          let '(removed, r) := remove_if_current (AgentSession.agent_id current)
                                 (AgentSession.token current) (fst s) in
          ((r, snd s), Ok removed))) s
  end.

Fixpoint expire_loop (now : string) (cutoff : Z) (stale expired : list AgentSession.t)
  : tx hub_state RepositoryError (list AgentSession.t) :=
  match stale with
  | [] => tret expired
  | stale_session :: stale =>
      removed <~ expire_one now cutoff stale_session ;;
      expire_loop now cutoff stale (expired ++ option_list removed)
  end.

Definition expire_stale (now : string) (timeout : Z)
  : tx hub_state RepositoryError (list AgentSession.t) :=
  cutoff <~ tlift (cutoff_timestamp now timeout) ;;
  stale <~ tread (fun s => Ok
    (List.filter (fun session => stale_before (AgentSession.last_heartbeat_at session) cutoff)
       (map snd (map_to_list (Reg.sessions (fst s)))))) ;;
  expire_loop now cutoff stale [].
End Expiry.

(** ** Live commands *)

Inductive LiveDispatchError := NotCurrent | ChannelClosed | ChannelFull.
(** The answer of [try_send] on the session's command channel. *)
Inductive send_outcome := SendOk | SendClosed | SendFull.

Definition current_session_of (tenant_id : TenantId) (agent_id : AgentId) (token : SessionToken)
    (capability : option AgentCapability) (r : Reg.t) : option AgentSession.t :=
  opt_filter (fun session =>
    of_tenant tenant_id session && has_token token session
    && match capability with
       | None => true
       | Some capability => bool_decide (capability ∈ AgentSession.capabilities session)
       end) (Reg.sessions r !! agent_id).

Definition remove_pending (token : SessionToken) (command_id : CommandId) (r : Reg.t) : Reg.t :=
  Reg.set_pending token (delete command_id (Reg.pending r token)) r.

Definition try_dispatch_live_command_inner (sent : send_outcome) (tenant_id : TenantId)
    (agent_id : AgentId) (token : SessionToken) (capability : option AgentCapability)
    (command_id : CommandId) (access_code : PendingLiveCommand) (r : Reg.t)
  : result LiveDispatchError unit * Reg.t :=
  match current_session_of tenant_id agent_id token capability r with
  | None => (Err NotCurrent, r)
  | Some session =>
      let token := AgentSession.token session in
      let r := Reg.set_pending token (<[command_id := access_code]> (Reg.pending r token)) r in
      match sent with
      | SendOk => (Ok tt, r)
      | SendClosed => (Err ChannelClosed, remove_pending token command_id r)
      | SendFull => (Err ChannelFull, remove_pending token command_id r)
      end
  end.

Inductive LiveCommandClaimOutcome :=
| Claim (token : SessionToken) (command_id : CommandId) (access_code : PendingLiveCommand)
| ClaimNotCurrent
| ClaimNotPending.

(** The claim owns the session's [live_command_transition] mutex, so this runs
    when that mutex is free; the registry's mutex is held while waiting for it,
    so the session is still the current one. *)
Definition claim_current_live_command (tenant_id : TenantId) (agent_id : AgentId)
    (token : SessionToken) (command_id : CommandId) (r : Reg.t) : LiveCommandClaimOutcome :=
  match current_session_of tenant_id agent_id token None r with
  | None => ClaimNotCurrent
  | Some session =>
      match Reg.pending r (AgentSession.token session) !! command_id with
      | None => ClaimNotPending
      | Some access_code => Claim (AgentSession.token session) command_id access_code
      end
  end.

(** The drain of [fail_pending_live_commands], under the same mutex: the
    commands it goes on to mark failed. *)
Definition drain_pending (token : SessionToken) (r : Reg.t) : list CommandId * Reg.t :=
  (map fst (map_to_list (Reg.pending r token)), Reg.set_pending token ∅ r).

(** ** Expiry *)

Section ExpiryFacts.
Context `{Store} `{UuidText} `{Rfc3339}.

(** Every session is filed under its own agent. *)
Definition registry_wf (r : Reg.t) : Prop :=
  forall a s, Reg.sessions r !! a = Some s -> AgentSession.agent_id s = a.

Definition is_stale (cutoff : Z) (s : AgentSession.t) : bool :=
  stale_before (AgentSession.last_heartbeat_at s) cutoff.

(** The registry without the agents of [gone]. *)
Definition without (gone : list AgentSession.t) (r : Reg.t) : Reg.t :=
  Reg.with_sessions (foldl (fun m s => delete (AgentSession.agent_id s) m) (Reg.sessions r) gone) r.

Lemma foldl_delete_lookup gone (m : gmap AgentId AgentSession.t) a s :
  foldl (fun m s => delete (AgentSession.agent_id s) m) m gone !! a = Some s
  <-> m !! a = Some s /\ ~ In a (map AgentSession.agent_id gone).
Proof.
  revert m. induction gone as [|g gone IH]; intros m; simpl; [tauto|].
  rewrite IH, lookup_delete_Some. intuition congruence.
Qed.

Lemma mark_offline_main t a session now h :
  Hub.main (fst (mark_offline_if_current t a session now h)) = Hub.main h.
Proof.
  unfold mark_offline_if_current, transaction, tbind. rewrite required_agent_run.
  destruct (select_one _ _) as [m|]; cbn [ok_or]; [|done].
  destruct (foreign_agent t m || other_session session m); [done|].
  match goal with |- context [update_agent m ?f h] => pose proof (update_agent_main m f h) as E;
    destruct (update_agent m f h) as [h1 [m1|e]]; cbn in *; [|done] end.
  unfold tlift. by destruct (agent_from_model m1).
Qed.

Lemma expire_one_run now cutoff stale r h :
  let current := Reg.sessions r !! AgentSession.agent_id stale in
  let due := fun s => has_token (AgentSession.token stale) s && is_stale cutoff s in
  (is_some_and due current = false -> expire_one now cutoff stale (r, h) = ((r, h), Ok None))
  /\ (forall s, current = Some s -> due s = true -> AgentSession.agent_id s = AgentSession.agent_id stale ->
       exists h', Hub.main h' = Hub.main h /\
         ((exists e, expire_one now cutoff stale (r, h) = ((r, h'), Err e))
          \/ expire_one now cutoff stale (r, h) = ((without [stale] r, h'), Ok (Some s)))).
Proof.
  cbv zeta. unfold expire_one. cbn [fst]. fold (is_stale cutoff). split.
  - intros E. destruct (Reg.sessions r !! _) as [s|]; cbn [opt_filter]; [|done].
    cbn [is_some_and] in E. unfold is_stale in E. by rewrite E.
  - intros s Es Ed Ea. rewrite Es. cbn [opt_filter]. unfold is_stale in Ed. rewrite Ed.
    unfold tbind, on_hub, zoom. cbn [snd fst].
    pose proof (mark_offline_main (AgentSession.tenant_id s) (AgentSession.agent_id s)
      (persisted_id (AgentSession.token s)) now h) as Em.
    destruct (mark_offline_if_current _ _ _ _ h) as [h' [o|e]]; cbn [fst] in Em; exists h';
      (split; [done|]); [right|left; eauto].
    cbn [fst snd]. unfold remove_if_current, is_current, remove. rewrite Ea, Es. cbn [is_some_and].
    unfold has_token. by rewrite N.eqb_refl.
Qed.

(** Expiry never closes a session that is alive when it is looked at again:
    if by then the agent has another session, or this one has been heard from,
    nothing happens; and no other agent's session is ever touched. *)
Theorem expiry_spares_live_sessions (now : string) (cutoff : Z) (stale : AgentSession.t)
    (r r' : Reg.t) (h h' : Hub.t) (res : result RepositoryError (option AgentSession.t))
    (Hwf : registry_wf r) (Hrun : expire_one now cutoff stale (r, h) = ((r', h'), res)) :
  (forall a s, Reg.sessions r !! a = Some s ->
     a <> AgentSession.agent_id stale \/ AgentSession.token s <> AgentSession.token stale
       \/ is_stale cutoff s = false ->
     Reg.sessions r' !! a = Some s)
  /\ (forall s, Reg.sessions r !! AgentSession.agent_id stale = Some s ->
        AgentSession.token s <> AgentSession.token stale \/ is_stale cutoff s = false ->
        r' = r /\ h' = h /\ res = Ok None)
  /\ Reg.pending_live_commands r' = Reg.pending_live_commands r.
Proof.
  destruct (expire_one_run now cutoff stale r h) as [Hno Hyes].
  destruct (is_some_and _ (Reg.sessions r !! AgentSession.agent_id stale)) eqn:D.
  - apply is_some_and_true in D as (s0 & Es & Ed).
    destruct (Hyes s0 Es Ed (Hwf _ _ Es)) as (h1 & _ & Hcase).
    apply andb_true_iff in Ed as [Et Eh]. apply N.eqb_eq in Et.
    split_and!.
    + intros a s Ha Hl. destruct Hcase as [[e E]|E]; rewrite E in Hrun; injection Hrun as <- <- <-; [done|].
      cbn. rewrite lookup_delete_Some. split; [|done]. intros <-.
      rewrite Es in Ha. injection Ha as <-. naive_solver congruence.
    + intros s Ha Hl. rewrite Es in Ha. injection Ha as <-. naive_solver congruence.
    + destruct Hcase as [[e E]|E]; rewrite E in Hrun; by injection Hrun as <- <- <-.
  - rewrite (Hno eq_refl) in Hrun. by injection Hrun as <- <- <-.
Qed.

Lemma expire_loop_run now cutoff stale : forall expired r h,
  NoDup (map AgentSession.agent_id stale) ->
  Forall (fun s => Reg.sessions r !! AgentSession.agent_id s = Some s /\ is_stale cutoff s = true) stale ->
  exists h', Hub.main h' = Hub.main h /\
    ((exists e k, expire_loop now cutoff stale expired (r, h) = ((without (take k stale) r, h'), Err e))
     \/ expire_loop now cutoff stale expired (r, h) = ((without stale r, h'), Ok (expired ++ stale))).
Proof.
  induction stale as [|s stale IH]; intros expired r h Hnd Hst; cbn [expire_loop].
  { exists h. split; [done|]. right. rewrite app_nil_r. unfold without, Reg.with_sessions. cbn.
    by destruct r. }
  inversion Hnd as [|? ? Hn Hnd']; subst. inversion Hst as [|? ? [Hs Hd] Hst']; subst.
  destruct (proj2 (expire_one_run now cutoff s r h) s Hs) as (h1 & Em & [[e E]|E]);
    [by unfold has_token; rewrite N.eqb_refl, Hd|done| |]; unfold tbind; rewrite E.
  - exists h1. split; [done|]. left. exists e, O. unfold without, Reg.with_sessions. cbn. by destruct r.
  - destruct (IH (expired ++ [s]) (without [s] r) h1 Hnd') as (h' & Em' & Hcase).
    + apply Forall_forall. intros x Hx. rewrite Forall_forall in Hst'.
      destruct (Hst' x Hx) as [Hl Hd']. split; [|done]. cbn.
      rewrite lookup_delete_ne; [done|]. intros Ea. apply Hn. rewrite Ea.
      by apply list_elem_of_fmap_2.
    + change (option_list (Some s)) with [s]. exists h'. split; [congruence|]. destruct Hcase as [(e & k & E')|E']; rewrite E'.
      * left. by exists e, (S k).
      * right. by rewrite <- app_assoc.
Qed.

Lemma cutoff_cases now timeout :
  (exists cutoff, cutoff_timestamp now timeout = Ok cutoff)
  \/ exists e, cutoff_timestamp now timeout = Err e.
Proof. destruct (cutoff_timestamp now timeout); eauto. Qed.

Lemma sessions_listed r s :
  In s (map snd (map_to_list (Reg.sessions r))) <-> exists a, Reg.sessions r !! a = Some s.
Proof.
  rewrite in_map_iff. split.
  - intros ([a s'] & <- & Hin). exists a. apply list_elem_of_In, elem_of_map_to_list in Hin. done.
  - intros [a Ha]. exists (a, s). split; [done|]. by apply list_elem_of_In, elem_of_map_to_list.
Qed.

Lemma listed_agents r : registry_wf r ->
  map AgentSession.agent_id (map snd (map_to_list (Reg.sessions r))) = map fst (map_to_list (Reg.sessions r)).
Proof.
  intros Hwf. rewrite map_map. apply map_ext_in. intros [a s] Hin. simpl.
  apply Hwf. apply list_elem_of_In, elem_of_map_to_list in Hin. done.
Qed.

(** An expiry that completes removes exactly the sessions whose last
    heartbeat is at or before the cutoff and returns them; one that fails on the
    way has removed only such sessions; a session heard from since is never
    removed, pending live commands are left for the cleanup, and no command or
    job row is written. *)
Theorem expire_stale_precise (now : string) (timeout cutoff : Z) (r r' : Reg.t) (h h' : Hub.t)
    (res : result RepositoryError (list AgentSession.t))
    (Hwf : registry_wf r) (Hc : cutoff_timestamp now timeout = Ok cutoff)
    (Hrun : expire_stale now timeout (r, h) = ((r', h'), res)) :
  (forall a s, Reg.sessions r' !! a = Some s -> Reg.sessions r !! a = Some s)
  /\ (forall a s, Reg.sessions r !! a = Some s -> is_stale cutoff s = false ->
        Reg.sessions r' !! a = Some s)
  /\ (forall expired, res = Ok expired ->
        (forall s, In s expired <-> is_stale cutoff s = true /\ exists a, Reg.sessions r !! a = Some s)
        /\ forall a s, Reg.sessions r' !! a = Some s -> is_stale cutoff s = false)
  /\ Reg.pending_live_commands r' = Reg.pending_live_commands r
  /\ Hub.main h' = Hub.main h.
Proof.
  unfold expire_stale, tbind, tlift, tread in Hrun. rewrite Hc in Hrun. cbn [fst] in Hrun.
  set (all := map snd (map_to_list (Reg.sessions r))) in *.
  fold (is_stale cutoff) in Hrun. set (stale := List.filter (is_stale cutoff) all) in *.
  assert (forall s, In s stale <-> is_stale cutoff s = true /\ exists a, Reg.sessions r !! a = Some s) as Hin.
  { intros s. unfold stale. rewrite filter_In. unfold all. rewrite sessions_listed. tauto. }
  assert (forall a s, Reg.sessions r !! a = Some s -> In a (map AgentSession.agent_id stale) ->
    is_stale cutoff s = true) as Hgone.
  { intros a s Ha Hi. apply in_map_iff in Hi as (s' & E & Hs'). apply Hin in Hs' as [Hd [a' Ha']].
    pose proof (Hwf _ _ Ha') as E'. assert (a' = a) as -> by congruence. congruence. }
  destruct (expire_loop_run now cutoff stale [] r h) as (h1 & Em & Hcase).
  - apply NoDup_map_filter. unfold all. rewrite listed_agents by done. apply NoDup_fst_map_to_list.
  - apply Forall_forall. intros s Hs. apply list_elem_of_In, Hin in Hs as [Hd [a Ha]].
    split; [|done]. by rewrite (Hwf _ _ Ha).
  - destruct Hcase as [(e & k & E)|E]; rewrite E in Hrun; injection Hrun as <- <- <-;
      (split_and!; [| | |done|done]); cbn.
    + intros a s. rewrite foldl_delete_lookup. tauto.
    + intros a s Ha Hd. rewrite foldl_delete_lookup. split; [done|]. intros Hi.
      rewrite (Hgone a s Ha) in Hd; [done|]. apply in_map_iff in Hi as (s' & E' & Hs').
      apply in_map_iff. exists s'. split; [done|].
      rewrite <- (take_drop k stale). apply in_or_app. by left.
    + done.
    + intros a s. rewrite foldl_delete_lookup. tauto.
    + intros a s Ha Hd. rewrite foldl_delete_lookup. split; [done|]. intros Hi.
      by rewrite (Hgone a s Ha Hi) in Hd.
    + intros expired [= <-]. split; [exact Hin|]. intros a s. rewrite foldl_delete_lookup.
      intros [Ha Hn]. apply not_true_iff_false. intros Hd. apply Hn, in_map_iff. exists s.
      split; [by apply Hwf|]. apply Hin. eauto.
Qed.
End ExpiryFacts.

(** ** Live commands, concurrently

    Connections register and go, requests dispatch, results are claimed and
    removed sessions are drained, in any interleaving.  A claim or a drain owns
    the session's [live_command_transition] mutex ([busy]).  A session's token is
    a fresh UUID, as is a command's id. *)
Module Live.
Record t := mk {
  registry : Reg.t;
  (** The claim that owns a session's mutex. *)
  busy : gmap SessionToken CommandId;
  (** Tokens and command ids already used, commands successfully dispatched,
      commands settled (by their result or by a drain) in order, and sessions
      drained. *)
  tokens : gset SessionToken;
  ids : gset CommandId;
  dispatched : gset CommandId;
  settled : list CommandId;
  drained : gset SessionToken }.
End Live.

Definition live_start : Live.t := Live.mk Reg.new ∅ ∅ ∅ ∅ [] ∅.

Definition with_registry (r : Reg.t) (s : Live.t) : Live.t :=
  Live.mk r (Live.busy s) (Live.tokens s) (Live.ids s) (Live.dispatched s) (Live.settled s)
    (Live.drained s).

Inductive live_step : Live.t -> Live.t -> Prop :=
| step_register s session :
    AgentSession.token session ∉ Live.tokens s ->
    live_step s (Live.mk (snd (register session (Live.registry s))) (Live.busy s)
                   ({[AgentSession.token session]} ∪ Live.tokens s) (Live.ids s)
                   (Live.dispatched s) (Live.settled s) (Live.drained s))
| step_heartbeat s agent token at_time :
    live_step s (with_registry
      (snd (touch_heartbeat_if_current agent token at_time (Live.registry s))) s)
| step_remove s agent token :
    live_step s (with_registry (snd (remove_if_current agent token (Live.registry s))) s)
| step_close s tenant agent :
    live_step s (with_registry (snd (close_local_agent tenant agent (Live.registry s))) s)
| step_dispatch s sent tenant agent token capability command code r result :
    command ∉ Live.ids s ->
    try_dispatch_live_command_inner sent tenant agent token capability command code
      (Live.registry s) = (result, r) ->
    live_step s (Live.mk r (Live.busy s) (Live.tokens s) ({[command]} ∪ Live.ids s)
                   (if is_ok result then {[command]} ∪ Live.dispatched s else Live.dispatched s)
                   (Live.settled s) (Live.drained s))
| step_claim s tenant agent token command code :
    Live.busy s !! token = None ->
    claim_current_live_command tenant agent token command (Live.registry s) = Claim token command code ->
    live_step s (Live.mk (Live.registry s) (<[token := command]> (Live.busy s)) (Live.tokens s)
                   (Live.ids s) (Live.dispatched s) (Live.settled s) (Live.drained s))
(** The result was stored: [remove_pending], then the guard is dropped. *)
| step_settle s token command :
    Live.busy s !! token = Some command ->
    live_step s (Live.mk (remove_pending token command (Live.registry s))
                   (delete token (Live.busy s)) (Live.tokens s) (Live.ids s)
                   (Live.dispatched s) (Live.settled s ++ [command]) (Live.drained s))
(** It was an acknowledgement, or it was not stored: only the guard is dropped. *)
| step_unclaim s token command :
    Live.busy s !! token = Some command ->
    live_step s (Live.mk (Live.registry s) (delete token (Live.busy s)) (Live.tokens s)
                   (Live.ids s) (Live.dispatched s) (Live.settled s) (Live.drained s))
(** [fail_pending_live_commands] of a session that left the registry. *)
| step_drain s token commands r :
    Live.busy s !! token = None ->
    token ∈ Live.tokens s ->
    (forall agent, is_current agent token (Live.registry s) = false) ->
    drain_pending token (Live.registry s) = (commands, r) ->
    live_step s (Live.mk r (Live.busy s) (Live.tokens s) (Live.ids s) (Live.dispatched s)
                   (Live.settled s ++ commands) ({[token]} ∪ Live.drained s)).

Definition is_pending (s : Live.t) (token : SessionToken) (command : CommandId) : Prop :=
  is_Some (Reg.pending (Live.registry s) token !! command).

Record live_ok (s : Live.t) : Prop := {
  (** Sessions in the registry have used tokens, one agent each. *)
  live_tokens : forall a x, Reg.sessions (Live.registry s) !! a = Some x ->
    AgentSession.token x ∈ Live.tokens s /\ AgentSession.token x ∉ Live.drained s;
  (** A dispatched command is pending or settled. *)
  live_conserved : forall c, c ∈ Live.dispatched s <->
    In c (Live.settled s) \/ exists token, is_pending s token c;
  live_once : NoDup (Live.settled s);
  live_apart : forall token c, is_pending s token c -> ~ In c (Live.settled s);
  live_unique : forall t1 t2 c, is_pending s t1 c -> is_pending s t2 c -> t1 = t2;
  live_claimed : forall token c, Live.busy s !! token = Some c -> is_pending s token c;
  live_ids : forall c, c ∈ Live.dispatched s -> c ∈ Live.ids s;
  live_drained : forall token, token ∈ Live.drained s -> token ∈ Live.tokens s /\
    forall c, ~ is_pending s token c;
}.

Lemma pending_set r token m token' :
  Reg.pending (Reg.set_pending token m r) token' = if decide (token = token') then m else Reg.pending r token'.
Proof.
  unfold Reg.pending, Reg.set_pending. simpl. case_decide as E.
  - subst. by rewrite lookup_insert_eq.
  - by rewrite lookup_insert_ne.
Qed.

(** Registry operations that leave the pending commands alone keep the
    invariant when every remaining session was there before. *)
Lemma live_ok_registry s r :
  live_ok s -> Reg.pending_live_commands r = Reg.pending_live_commands (Live.registry s) ->
  (forall a x, Reg.sessions r !! a = Some x -> exists a' x',
     Reg.sessions (Live.registry s) !! a' = Some x' /\ AgentSession.token x' = AgentSession.token x) ->
  live_ok (with_registry r s).
Proof.
  intros [Ht Hc Ho Ha Hu Hb Hi Hd] Ep Hs.
  assert (forall token c, is_pending (with_registry r s) token c <-> is_pending s token c) as Hp.
  { intros token c. unfold is_pending, Reg.pending. cbn. by rewrite Ep. }
  constructor; cbn; try done.
  - intros a x Hx. destruct (Hs a x Hx) as (a' & x' & Hx' & <-). by apply (Ht a').
  - intros c. rewrite Hc. by setoid_rewrite Hp.
  - intros token c. rewrite Hp. apply Ha.
  - intros t1 t2 c. rewrite !Hp. apply Hu.
  - intros token c Hbt. rewrite Hp. by apply Hb.
  - intros token Hdr. destruct (Hd token Hdr) as [? Hn]. split; [done|]. intros c. by rewrite Hp.
Qed.

Lemma current_session_of_Some t a token cap r x :
  current_session_of t a token cap r = Some x ->
  Reg.sessions r !! a = Some x /\ AgentSession.token x = token.
Proof.
  unfold current_session_of. rewrite opt_filter_Some. intros [Hx Hg]. split; [done|].
  rewrite !andb_true_iff in Hg. destruct Hg as [[_ Hg] _]. by apply N.eqb_eq in Hg.
Qed.

Lemma live_register s session :
  live_ok s -> AgentSession.token session ∉ Live.tokens s ->
  live_ok (Live.mk (snd (register session (Live.registry s))) (Live.busy s)
             ({[AgentSession.token session]} ∪ Live.tokens s) (Live.ids s)
             (Live.dispatched s) (Live.settled s) (Live.drained s)).
Proof.
  intros [Ht Hc Ho Ha Hu Hb Hi Hd] Hf. constructor; cbn; try done.
  - intros a x. rewrite lookup_insert_Some. intros [[<- <-]|[_ Hx]].
    + split; [set_solver|]. intros Hdr. apply Hd in Hdr as [Hdr _]. done.
    + destruct (Ht a x Hx). set_solver.
  - intros token Hdr. destruct (Hd token Hdr). split; [set_solver|done].
Qed.

Lemma live_dispatch_ok s token a x command code :
  live_ok s -> command ∉ Live.ids s -> Reg.sessions (Live.registry s) !! a = Some x ->
  AgentSession.token x = token ->
  live_ok (Live.mk (Reg.set_pending token (<[command := code]> (Reg.pending (Live.registry s) token))
                      (Live.registry s)) (Live.busy s) (Live.tokens s) ({[command]} ∪ Live.ids s)
             ({[command]} ∪ Live.dispatched s) (Live.settled s) (Live.drained s)).
Proof.
  intros [Ht Hc Ho Ha Hu Hb Hi Hd] Hf Hx Etok.
  assert (forall t c, is_pending s t c -> c <> command) as Hne.
  { intros t c Hp ->. apply Hf, Hi, Hc. eauto. }
  assert (~ In command (Live.settled s)) as Hns by (intros Hin; apply Hf, Hi, Hc; by left).
  set (s' := Live.mk _ _ _ _ _ _ _).
  assert (forall t c, is_pending s' t c <-> is_pending s t c \/ t = token /\ c = command) as Hp.
  { intros t c. unfold is_pending, s'. cbn [Live.registry]. rewrite pending_set.
    case_decide as E; [subst t|naive_solver]. rewrite lookup_insert_is_Some.
    destruct (decide (command = c)) as [<-|]; naive_solver. }
  constructor; cbn [s' Live.dispatched Live.settled Live.ids Live.busy Live.tokens Live.drained].
  - intros a' x' Hx'. apply (Ht a'). done.
  - intros c. setoid_rewrite Hp. rewrite elem_of_union, elem_of_singleton, Hc. naive_solver.
  - done.
  - intros t c. rewrite Hp. intros [Hp'|[-> ->]]; [by eapply Ha|done].
  - intros t1 t2 c. rewrite !Hp. intros [H1|[-> ->]] [H2|[-> E]]; subst; try naive_solver.
  - intros t c Hbt. rewrite Hp. left. by apply Hb.
  - intros c. rewrite !elem_of_union. intros [?|?]; [by left|right; by apply Hi].
  - intros t Hdr. destruct (Hd t Hdr) as [? Hn]. split; [done|]. intros c. rewrite Hp.
    intros [?|[-> _]]; [by eapply Hn|]. destruct (Ht _ _ Hx) as [_ Hnd]. congruence.
Qed.

(** Taking [gone] out of a session's pending map and settling them. *)
Lemma live_settle_ok s token gone m busy drained :
  live_ok s -> NoDup gone -> (forall c, In c gone -> is_pending s token c) ->
  (forall c, is_Some (m !! c) <-> is_pending s token c /\ ~ In c gone) ->
  (forall t c, busy !! t = Some c -> Live.busy s !! t = Some c /\ (t = token -> ~ In c gone)) ->
  (forall t, t ∈ drained -> t ∈ Live.drained s \/
     t = token /\ token ∈ Live.tokens s /\ (forall c, is_pending s token c -> In c gone)
     /\ forall a, is_current a token (Live.registry s) = false) ->
  live_ok (Live.mk (Reg.set_pending token m (Live.registry s)) busy (Live.tokens s) (Live.ids s)
             (Live.dispatched s) (Live.settled s ++ gone) drained).
Proof.
  intros [Ht Hc Ho Ha Hu Hb Hi Hd] Hnd Hgone Hm Hbusy Hdr.
  set (s' := Live.mk _ _ _ _ _ _ _).
  assert (forall t c, is_pending s' t c <-> is_pending s t c /\ (t = token -> ~ In c gone)) as Hp.
  { intros t c. unfold is_pending, s'. cbn [Live.registry]. rewrite pending_set.
    case_decide as E; [subst t; rewrite Hm; tauto|naive_solver]. }
  constructor; cbn [s' Live.dispatched Live.settled Live.ids Live.busy Live.tokens Live.drained Live.registry].
  - intros a x Hx. destruct (Ht a x Hx) as [Hxt Hxd]. split; [done|]. intros Hxd'.
    apply Hdr in Hxd' as [?|(E & _ & _ & Hcur)]; [done|].
    specialize (Hcur a). unfold is_current in Hcur. cbn in Hx. rewrite Hx in Hcur. cbn in Hcur.
    unfold has_token in Hcur. by rewrite E, N.eqb_refl in Hcur.
  - intros c. rewrite Hc, in_app_iff. setoid_rewrite Hp. split.
    + intros [?|[t Hpt]]; [by left; left|].
      destruct (decide (c ∈ gone)) as [Hg|Hg]; rewrite list_elem_of_In in Hg;
        [by left; right|right; eauto].
    + intros [[?|Hg]|(t & Hpt & _)]; [by left| |]; right; eauto.
  - apply NoDup_app. split_and!; [done| |done]. intros c Hin Hin'.
    apply list_elem_of_In in Hin, Hin'. eapply Ha; [by apply Hgone|done].
  - intros t c. rewrite Hp, in_app_iff. intros [Hpt Hng] [?|Hg]; [by eapply Ha|].
    apply (Hng (Hu _ _ _ Hpt (Hgone c Hg)) Hg).
  - intros t1 t2 c. rewrite !Hp. intros [H1 _] [H2 _]. by eapply Hu.
  - intros t c Hbt. apply Hbusy in Hbt as [Hbt Hng]. apply Hp. split; [by apply Hb|done].
  - done.
  - intros t Htd. apply Hdr in Htd as [Htd|(-> & Htok & Hall & _)].
    + destruct (Hd t Htd) as [? Hn]. split; [done|]. intros c. rewrite Hp. intros [? _]. by eapply Hn.
    + split; [done|]. intros c. rewrite Hp. intros [Hpt Hng]. by apply Hng; [|apply Hall].
Qed.

Lemma live_more_ids s ids : live_ok s -> Live.ids s ⊆ ids ->
  live_ok (Live.mk (Live.registry s) (Live.busy s) (Live.tokens s) ids (Live.dispatched s)
             (Live.settled s) (Live.drained s)).
Proof.
  intros [Ht Hc Ho Ha Hu Hb Hi Hd] Hs. constructor; try done.
  intros c Hc'. apply Hs. by apply Hi.
Qed.

(** A send that fails leaves nothing pending. *)
Lemma live_unsent_ok s token command code :
  live_ok s -> command ∉ Live.ids s ->
  live_ok (Live.mk (remove_pending token command
                      (Reg.set_pending token (<[command := code]> (Reg.pending (Live.registry s) token))
                         (Live.registry s)))
             (Live.busy s) (Live.tokens s) ({[command]} ∪ Live.ids s) (Live.dispatched s)
             (Live.settled s) (Live.drained s)).
Proof.
  intros Hok Hf. set (m := Reg.pending (Live.registry s) token).
  assert (m !! command = None) as Hm.
  { apply eq_None_not_Some. intros Hp. apply Hf, (live_ids _ Hok), (live_conserved _ Hok).
    right. by exists token. }
  assert (remove_pending token command (Reg.set_pending token (<[command := code]> m) (Live.registry s))
    = Reg.set_pending token m (Live.registry s)) as ->.
  { unfold remove_pending. rewrite pending_set, decide_True by done.
    rewrite delete_insert_id by done. unfold Reg.set_pending. cbn. by rewrite insert_insert_eq. }
  assert (live_ok (Live.mk (Reg.set_pending token m (Live.registry s)) (Live.busy s)
    (Live.tokens s) (Live.ids s) (Live.dispatched s) (Live.settled s ++ []) (Live.drained s))) as Hs.
  { apply live_settle_ok; [done|constructor|by intros c []| |naive_solver|naive_solver].
    intros c. unfold is_pending, m. naive_solver. }
  rewrite app_nil_r in Hs. apply (live_more_ids _ ({[command]} ∪ Live.ids s)) in Hs; [done|].
  cbn. set_solver.
Qed.

Lemma live_step_ok s s' : live_step s s' -> live_ok s -> live_ok s'.
Proof.
  intros St Hok. destruct St as [s session Hf|s a tok at_time|s a tok|s t a
    |s sent t a tok cap c code r res Hf E|s t a tok c code Hb E|s tok c Hb|s tok c Hb
    |s tok cs r Hb Htok Hcur E].
  - by apply live_register.
  - unfold touch_heartbeat_if_current. destruct (Reg.sessions _ !! a) as [x|] eqn:Ex;
      [destruct (has_token tok x)|]; apply live_ok_registry; try done; cbn; eauto.
    intros a' x'. rewrite lookup_insert_Some. intros [[<- <-]|[_ Hx]]; eauto.
  - unfold remove_if_current, remove. destruct (is_current _ _ _); apply live_ok_registry; try done;
      cbn; eauto. intros a' x'. rewrite lookup_delete_Some. intros [_ Hx]. eauto.
  - unfold close_local_agent, remove. destruct (is_some_and _ _); apply live_ok_registry; try done;
      cbn; eauto. intros a' x'. rewrite lookup_delete_Some. intros [_ Hx]. eauto.
  - unfold try_dispatch_live_command_inner in E.
    destruct (current_session_of _ _ _ _ _) as [x|] eqn:Ex.
    2: { injection E as <- <-. cbn. apply live_more_ids; [done|set_solver]. }
    apply current_session_of_Some in Ex as [Ex Etok]. subst tok.
    destruct sent; injection E as <- <-; cbn [is_ok].
    + by eapply live_dispatch_ok.
    + by apply live_unsent_ok.
    + by apply live_unsent_ok.
  - unfold claim_current_live_command in E.
    destruct (current_session_of _ _ _ _ _) as [x|] eqn:Ex; [|done].
    destruct (Reg.pending _ _ !! c) as [code'|] eqn:Ep; [|done]. injection E as Etok ->.
    destruct Hok as [Ht Hc Ho Ha Hu Hbu Hi Hd]. constructor; try done. cbn.
    intros t' c'. rewrite lookup_insert_Some. intros [[<- <-]|[_ Hb']]; [|by apply Hbu].
    unfold is_pending. cbn. rewrite <- Etok, Ep. eauto.
  - apply live_settle_ok; [done|apply NoDup_singleton| | | |tauto].
    + intros c' [<-|[]]. by apply (live_claimed _ Hok).
    + intros c'. rewrite lookup_delete_is_Some. unfold is_pending. simpl. intuition congruence.
    + intros t' c'. rewrite lookup_delete_Some. intros [Hne Hb']. split; [done|]. congruence.
  - destruct Hok as [Ht Hc Ho Ha Hu Hbu Hi Hd]. constructor; try done. cbn.
    intros t' c'. rewrite lookup_delete_Some. intros [_ Hb']. by apply Hbu.
  - unfold drain_pending in E. injection E as <- <-.
    assert (forall c, In c (map fst (map_to_list (Reg.pending (Live.registry s) tok)))
      <-> is_pending s tok c) as Hin.
    { intros c. rewrite in_map_iff. unfold is_pending. split.
      - intros ([c' code] & <- & Hl). apply list_elem_of_In, elem_of_map_to_list in Hl. by exists code.
      - intros [code Hl]. exists (c, code). split; [done|]. by apply list_elem_of_In, elem_of_map_to_list. }
    apply live_settle_ok; [done|apply NoDup_fst_map_to_list| | | |].
    + intros c. by rewrite Hin.
    + intros c. rewrite Hin, lookup_empty. split; [by intros []|tauto].
    + intros t c Hb'. split; [done|]. intros ->. congruence.
    + intros t. rewrite elem_of_union, elem_of_singleton. intros [->|?]; [right|by left].
      split_and!; [done|done|intros c; by rewrite Hin|done].
Qed.

Lemma live_start_ok : live_ok live_start.
Proof.
  assert (forall t c, ~ is_pending live_start t c) as Hp.
  { intros t c. unfold is_pending, Reg.pending. cbn. rewrite lookup_empty. cbn.
    rewrite lookup_empty. by intros []. }
  constructor; cbn.
  - intros a x. by rewrite lookup_empty.
  - intros c. split; [set_solver|]. intros [[]|[t Hpt]]. by apply Hp in Hpt.
  - constructor.
  - by intros t c _ [].
  - intros t1 t2 c H1. by apply Hp in H1.
  - intros t c. by rewrite lookup_empty.
  - set_solver.
  - set_solver.
Qed.

(** C35: every live command that reached its session's channel is settled once:
    at any point it is either still pending, under one session only, or has been
    settled by exactly one result or by the cleanup of its removed session, never
    both; and once a removed session has been cleaned up nothing of it is pending
    and nothing can be dispatched to it or claimed from it again. *)
Theorem live_commands_settled_once (s : Live.t) (Hr : rtc live_step live_start s) :
  (forall c, c ∈ Live.dispatched s <->
     In c (Live.settled s) \/ exists token, is_pending s token c)
  /\ NoDup (Live.settled s)
  /\ (forall token c, is_pending s token c -> ~ In c (Live.settled s))
  /\ (forall t1 t2 c, is_pending s t1 c -> is_pending s t2 c -> t1 = t2)
  /\ (forall token c, token ∈ Live.drained s ->
        ~ is_pending s token c /\ forall t a code,
        claim_current_live_command t a token c (Live.registry s) <> Claim token c code
        /\ fst (try_dispatch_live_command_inner SendOk t a token None c code (Live.registry s))
            = Err NotCurrent).
Proof.
  assert (live_ok s) as [Ht Hc Ho Ha Hu Hb Hi Hd].
  { refine (rtc_ind_r live_ok live_start live_start_ok _ s Hr).
    intros x y _ St Hx. by eapply live_step_ok. }
  split_and!; [exact Hc|exact Ho|exact Ha|exact Hu|].
  intros token c Hdr. split; [by apply Hd|]. intros t a code.
  assert (current_session_of t a token None (Live.registry s) = None) as Hcur.
  { destruct (current_session_of _ _ _ _ _) as [x|] eqn:Ex; [|done].
    apply current_session_of_Some in Ex as [Ex <-]. by destruct (Ht a x Ex). }
  unfold claim_current_live_command, try_dispatch_live_command_inner. by rewrite Hcur.
Qed.

(** ** Witnesses *)

(** One session last heard at instant 1, one at instant 6. *)
Definition quiet_session : AgentSession.t :=
  AgentSession.mk 5%N T1 A1 "garage" "1.0" "0" "0" [].
Definition lively_session : AgentSession.t :=
  AgentSession.mk 6%N T1 (mkAgentId 2) "attic" "1.0" "0" "11" [].
Definition two_sessions : Reg.t :=
  snd (register lively_session (snd (register quiet_session Reg.new))).

Lemma two_sessions_wf : registry_wf two_sessions.
Proof.
  intros a s. unfold two_sessions, register. cbn. rewrite !lookup_insert_Some, lookup_empty.
  intros [[<- <-]|[_ [[<- <-]|[_ [=]]]]]; reflexivity.
Qed.

Lemma expire_stale_precise_witness :
  exists r' h', @expire_stale list_store binary_uuid binary_clock "11" 4 (two_sessions, sample_hub)
      = ((r', h'), Ok [quiet_session])
    /\ Reg.sessions r' !! mkAgentId 2 = Some lively_session.
Proof.
  destruct (@expire_stale list_store binary_uuid binary_clock "11" 4 (two_sessions, sample_hub))
    as [[r' h'] res] eqn:E.
  destruct (@expire_stale_precise list_store binary_uuid binary_clock "11" 4 2 two_sessions r'
    sample_hub h' res two_sessions_wf eq_refl E) as (_ & Hkeep & _).
  exists r', h'. split.
  - f_equal. vm_compute in E. injection E as _ _ <-. reflexivity.
  - apply Hkeep; vm_compute; reflexivity.
Defined.

(** The quiet session reconnected as session 7 before expiry looked again. *)
Lemma expiry_spares_live_sessions_witness :
  let r := snd (register (AgentSession.mk 7%N T1 A1 "garage" "1.0" "0" "0" []) two_sessions) in
  @expire_one list_store binary_uuid binary_clock "11" 2 quiet_session (r, sample_hub)
  = ((r, sample_hub), Ok None).
Proof.
  cbv zeta. set (r := snd _).
  destruct (@expire_one list_store binary_uuid binary_clock "11" 2 quiet_session (r, sample_hub))
    as [[r' h'] res] eqn:E.
  assert (registry_wf r) as Hwf.
  { intros a s. unfold r, register. cbn. rewrite !lookup_insert_Some, lookup_empty.
    intros [[<- <-]|[_ [[<- <-]|[_ [[<- <-]|[_ [=]]]]]]]; reflexivity. }
  destruct (@expiry_spares_live_sessions list_store binary_uuid binary_clock "11" 2 quiet_session
    r r' sample_hub h' res Hwf E) as (_ & Hsame & _).
  destruct (Hsame (AgentSession.mk 7%N T1 A1 "garage" "1.0" "0" "0" [])) as (-> & -> & ->);
    [vm_compute; reflexivity|left; vm_compute; discriminate|reflexivity].
Defined.

(** A command is dispatched to a session that is then removed and drained. *)
Definition after_register (session : AgentSession.t) (s : Live.t) : Live.t :=
  Live.mk (snd (register session (Live.registry s))) (Live.busy s)
    ({[AgentSession.token session]} ∪ Live.tokens s) (Live.ids s) (Live.dispatched s)
    (Live.settled s) (Live.drained s).
Definition after_dispatch (token : SessionToken) (s : Live.t) : Live.t :=
  let res := try_dispatch_live_command_inner SendOk T1 A1 token None C1 None (Live.registry s) in
  Live.mk (snd res) (Live.busy s) (Live.tokens s) ({[C1]} ∪ Live.ids s)
    (if is_ok (fst res) then {[C1]} ∪ Live.dispatched s else Live.dispatched s)
    (Live.settled s) (Live.drained s).
Definition after_drain (token : SessionToken) (s : Live.t) : Live.t :=
  Live.mk (snd (drain_pending token (Live.registry s))) (Live.busy s) (Live.tokens s) (Live.ids s)
    (Live.dispatched s) (Live.settled s ++ fst (drain_pending token (Live.registry s)))
    ({[token]} ∪ Live.drained s).

Definition dispatched_command : Live.t :=
  after_dispatch 5%N (after_register lively_session (after_register quiet_session live_start)).
Definition removed_session : Live.t :=
  with_registry (snd (remove_if_current A1 5%N (Live.registry dispatched_command))) dispatched_command.
Definition drained_command : Live.t := after_drain 5%N removed_session.

Lemma drained_reachable : rtc live_step live_start drained_command.
Proof.
  eapply rtc_l; [apply (step_register _ quiet_session), not_elem_of_empty|].
  eapply rtc_l; [apply (step_register _ lively_session); vm_compute; congruence|].
  eapply (rtc_l _ _ dispatched_command).
  { apply (step_dispatch _ SendOk T1 A1 5%N None C1 None); [apply not_elem_of_empty|].
    apply surjective_pairing. }
  eapply rtc_l; [apply (step_remove _ A1 5%N)|].
  apply rtc_once, (step_drain removed_session 5%N); [reflexivity|vm_compute; reflexivity| |apply surjective_pairing].
  intros a. unfold is_current. destruct (_ !! a) as [x|] eqn:E; [|reflexivity].
  assert (AgentSession.token x <> 5%N) as Hx.
  { apply elem_of_map_to_list in E. vm_compute in E. apply list_elem_of_In in E.
    destruct E as [[= <- <-]|[]]. discriminate. }
  simpl. unfold has_token. by apply N.eqb_neq.
Qed.

Lemma live_commands_settled_once_witness :
  Live.settled drained_command = [C1] /\ NoDup (Live.settled drained_command)
  /\ ~ is_pending drained_command 5%N C1.
Proof.
  split; [vm_compute; reflexivity|].
  destruct (live_commands_settled_once drained_command drained_reachable) as (_ & Hn & _ & _ & Hd).
  split; [exact Hn|]. apply Hd. vm_compute. reflexivity.
Defined.
