(* ===== verification/ConnectionLimits.v ===== *)
(** * Connection and camera limits

    [grpc_connection_limit/peer.rs] counts the gRPC connections of a peer that has
    not authenticated, and of an agent and a tenant once it has;
    [camera_sessions/capacity.rs] counts the camera streams of a tenant.  A permit
    is released when it is dropped.  [None] where a count is looked up stands for
    the panic of [expect]. *)

From S2P Require Import Prelude CoreTypes.

#[local] Open Scope Z_scope.

(** ** Counters *)

Section Counters.
Context {K : Type} `{Countable K}.
Implicit Types (counts : gmap K Z) (keys : list K).

(** [counts.get(key).copied().unwrap_or_default()]. *)
Definition count_of counts (key : K) : Z := default 0 (counts !! key).

(** [*counts.entry(key).or_default() += 1]. *)
Definition increment counts (key : K) : gmap K Z := <[key := count_of counts key + 1]> counts.

Definition decrement counts (key : K) : option (gmap K Z) :=
  match counts !! key with
  | None => None
  | Some count =>
      let count := count - 1 in
      Some (if count =? 0 then delete key counts else <[key := count]> counts)
  end.

(** How often a key occurs among those held. *)
Definition held (key : K) keys : Z := Z.of_nat (length (List.filter (beq key) keys)).

(** The counters count the keys held, and have no empty entry. *)
Definition tallies counts keys : Prop :=
  forall key, counts !! key = if held key keys =? 0 then None else Some (held key keys).

Lemma held_cons key k keys : held key (k :: keys) = held key keys + (if beq key k then 1 else 0).
Proof. unfold held. simpl. destruct (beq key k); simpl; lia. Qed.

Lemma held_nonneg key keys : 0 <= held key keys.
Proof. unfold held. lia. Qed.

Lemma held_perm key keys keys' : keys ≡ₚ keys' -> held key keys = held key keys'.
Proof. intros Hp. unfold held. by rewrite (Permutation_length (filter_perm (beq key) _ _ Hp)). Qed.

Lemma tallies_perm counts keys keys' : keys ≡ₚ keys' -> tallies counts keys -> tallies counts keys'.
Proof. intros Hp Ht key. by rewrite Ht, (held_perm _ _ _ Hp). Qed.

Lemma tallies_count counts keys key : tallies counts keys -> count_of counts key = held key keys.
Proof.
  intros Ht. unfold count_of. rewrite Ht. destruct (Z.eqb_spec (held key keys) 0) as [E|E]; simpl; congruence.
Qed.

Lemma tallies_nil : tallies ∅ [].
Proof. intros key. apply lookup_empty. Qed.

Lemma tallies_increment counts keys key :
  tallies counts keys -> tallies (increment counts key) (key :: keys).
Proof.
  intros Ht k. unfold increment. rewrite (tallies_count _ _ _ Ht), held_cons.
  pose proof (held_nonneg key keys). destruct (decide (k = key)) as [->|Hk].
  - rewrite lookup_insert_eq, beq_refl. destruct (Z.eqb_spec (held key keys + 1) 0); [lia|done].
  - rewrite lookup_insert_ne by done. apply beq_false in Hk as ->. by rewrite Z.add_0_r.
Qed.

(** A key that is held can be given back. *)
Lemma tallies_decrement counts keys key :
  tallies counts (key :: keys) -> exists counts', decrement counts key = Some counts' /\ tallies counts' keys.
Proof.
  intros Ht. unfold decrement. rewrite Ht, held_cons, beq_refl. pose proof (held_nonneg key keys).
  destruct (Z.eqb_spec (held key keys + 1) 0); [lia|]. eexists. split; [done|].
  replace (held key keys + 1 - 1) with (held key keys) by lia. intros k.
  specialize (Ht k). rewrite held_cons in Ht. destruct (decide (k = key)) as [->|Hk].
  - destruct (Z.eqb_spec (held key keys) 0); [by rewrite lookup_delete_eq|by rewrite lookup_insert_eq].
  - apply beq_false in Hk as Hb. rewrite Hb, Z.add_0_r in Ht.
    destruct (held key keys =? 0); [by rewrite lookup_delete_ne|by rewrite lookup_insert_ne].
Qed.
End Counters.

(** ** gRPC connections ([peer.rs]) *)

Definition MAX_AUTHENTICATED_CONNECTIONS_PER_AGENT : Z := 8.
Definition MAX_AUTHENTICATED_CONNECTIONS_PER_TENANT : Z := 128.

Section Peers.
(** [IpAddr]. *)
Context {IpAddr : Type} `{Countable IpAddr}.

Record ConnectionCounts := mkCounts {
  peers : gmap IpAddr Z;
  agents : gmap (TenantId * AgentId) Z;
  tenants : gmap TenantId Z;
}.

Inductive ConnectionSlotState :=
| Setup (peer : IpAddr)
| Authenticated (tenant_id : TenantId) (agent_id : AgentId).

(** The entry the refused caller leaves behind is an empty one. *)
Definition try_acquire (max_per_peer : Z) (peer : IpAddr) (counts : ConnectionCounts)
  : ConnectionCounts * option ConnectionSlotState :=
  let count := count_of (peers counts) peer in
  if max_per_peer <=? count
  then (mkCounts (<[peer := count]> (peers counts)) (agents counts) (tenants counts), None)
  else (mkCounts (increment (peers counts) peer) (agents counts) (tenants counts), Some (Setup peer)).

(** [mark_authenticated]: the counts, the slot's state and the answer. *)
Definition authenticate (state : ConnectionSlotState) (tenant_id : TenantId) (agent_id : AgentId)
    (counts : ConnectionCounts) : option (ConnectionCounts * ConnectionSlotState * bool) :=
  match state with
  | Authenticated current_tenant current_agent =>
      Some (counts, state, beq current_tenant tenant_id && beq current_agent agent_id)
  | Setup peer =>
      if (MAX_AUTHENTICATED_CONNECTIONS_PER_AGENT <=? count_of (agents counts) (tenant_id, agent_id))
         || (MAX_AUTHENTICATED_CONNECTIONS_PER_TENANT <=? count_of (tenants counts) tenant_id)
      then Some (counts, state, false)
      else
        match decrement (peers counts) peer with
        | None => None
        | Some peers =>
            Some (mkCounts peers (increment (agents counts) (tenant_id, agent_id))
                    (increment (tenants counts) tenant_id), Authenticated tenant_id agent_id, true)
        end
  end.

(** [Drop for ConnectionSlot]. *)
Definition release (state : ConnectionSlotState) (counts : ConnectionCounts) : option ConnectionCounts :=
  match state with
  | Setup peer =>
      match decrement (peers counts) peer with
      | None => None
      | Some peers => Some (mkCounts peers (agents counts) (tenants counts))
      end
  | Authenticated tenant_id agent_id =>
      match decrement (agents counts) (tenant_id, agent_id) with
      | None => None
      | Some agents =>
          match decrement (tenants counts) tenant_id with
          | None => None
          | Some tenants => Some (mkCounts (peers counts) agents tenants)
          end
      end
  end.

(** ** The permits that are alive *)

Definition setup_peers (slots : list ConnectionSlotState) : list IpAddr :=
  omap (fun s => match s with Setup peer => Some peer | _ => None end) slots.
Definition slot_agents (slots : list ConnectionSlotState) : list (TenantId * AgentId) :=
  omap (fun s => match s with Authenticated t a => Some (t, a) | _ => None end) slots.
Definition slot_tenants (slots : list ConnectionSlotState) : list TenantId :=
  map fst (slot_agents slots).

(** Operations take the lock one after the other; each slot is released once,
    when the last clone of its permit goes. *)
Inductive connection_step (max_per_peer : Z)
  : ConnectionCounts * list ConnectionSlotState -> ConnectionCounts * list ConnectionSlotState -> Prop :=
| step_acquire peer counts counts' slots state :
    try_acquire max_per_peer peer counts = (counts', Some state) ->
    connection_step max_per_peer (counts, slots) (counts', state :: slots)
| step_refused peer counts counts' slots :
    try_acquire max_per_peer peer counts = (counts', None) ->
    connection_step max_per_peer (counts, slots) (counts', slots)
| step_authenticate tenant_id agent_id counts counts' slots before after state state' accepted :
    slots = before ++ state :: after ->
    authenticate state tenant_id agent_id counts = Some (counts', state', accepted) ->
    connection_step max_per_peer (counts, slots) (counts', before ++ state' :: after)
| step_drop counts counts' slots before after state :
    slots = before ++ state :: after ->
    release state counts = Some counts' ->
    connection_step max_per_peer (counts, slots) (counts', before ++ after).

Definition new_connections : ConnectionCounts * list ConnectionSlotState := (mkCounts ∅ ∅ ∅, []).

(** The counts are those of the live slots, within the limits. *)
Record limited (max_per_peer : Z) (counts : ConnectionCounts) (slots : list ConnectionSlotState)
  : Prop := {
  lim_peers : tallies (peers counts) (setup_peers slots);
  lim_agents : tallies (agents counts) (slot_agents slots);
  lim_tenants : tallies (tenants counts) (slot_tenants slots);
  lim_peer : forall p, held p (setup_peers slots) <= max_per_peer;
  lim_agent : forall a, held a (slot_agents slots) <= MAX_AUTHENTICATED_CONNECTIONS_PER_AGENT;
  lim_tenant : forall t, held t (slot_tenants slots) <= MAX_AUTHENTICATED_CONNECTIONS_PER_TENANT;
}.

Lemma limited_perm m counts slots slots' : slots ≡ₚ slots' -> limited m counts slots -> limited m counts slots'.
Proof.
  intros Hp [P A T Lp La Lt].
  assert (setup_peers slots ≡ₚ setup_peers slots') as Hsp by (unfold setup_peers; by rewrite Hp).
  assert (slot_agents slots ≡ₚ slot_agents slots') as Hsa by (unfold slot_agents; by rewrite Hp).
  assert (slot_tenants slots ≡ₚ slot_tenants slots') as Hst by (unfold slot_tenants; by rewrite Hsa).
  split; try (by eapply tallies_perm); intros k.
  - by rewrite <- (held_perm _ _ _ Hsp).
  - by rewrite <- (held_perm _ _ _ Hsa).
  - by rewrite <- (held_perm _ _ _ Hst).
Qed.

Lemma limited_new m : 0 <= m -> limited m (fst new_connections) (snd new_connections).
Proof. intros Hm. split; try apply tallies_nil; intros k; unfold held; simpl; by vm_compute || done. Qed.

Lemma held_cons_le key k (keys : list IpAddr) m : held key (k :: keys) <= m -> held key keys <= m.
Proof. rewrite held_cons. destruct (beq key k); lia. Qed.

(** A live slot can always be released. *)
Lemma release_limited m counts slots state :
  limited m counts (state :: slots) ->
  exists counts', release state counts = Some counts' /\ limited m counts' slots.
Proof.
  intros [P A T Lp La Lt]. destruct state as [peer|t a]; simpl.
  - destruct (tallies_decrement _ _ _ P) as (ps & -> & P'). eexists. split; [done|].
    split; try done. intros k. specialize (Lp k). simpl in Lp. rewrite held_cons in Lp.
    destruct (beq k peer); cbn -[held]; lia.
  - change (slot_tenants (Authenticated t a :: slots)) with (t :: slot_tenants slots) in T.
    destruct (tallies_decrement _ _ _ A) as (ag & -> & A').
    destruct (tallies_decrement _ _ _ T) as (tn & -> & T'). eexists. split; [done|].
    split; try done; intros k.
    + specialize (La k). change (slot_agents (Authenticated t a :: slots)) with ((t, a) :: slot_agents slots) in La.
      rewrite held_cons in La. destruct (beq k (t, a)); lia.
    + specialize (Lt k). change (slot_tenants (Authenticated t a :: slots)) with (t :: slot_tenants slots) in Lt.
      rewrite held_cons in Lt. destruct (beq k t); lia.
Qed.

Lemma held_bound {K} `{Countable K} key k (keys : list K) m :
  held k keys < m -> held key keys <= m -> held key (k :: keys) <= m.
Proof.
  intros Hk Hkey. rewrite held_cons. destruct (beq key k) eqn:E; [|lia]. rewrite beq_true in E. subst. lia.
Qed.

Lemma authenticate_limited m counts slots state t a :
  limited m counts (state :: slots) ->
  exists counts' state' accepted, authenticate state t a counts = Some (counts', state', accepted)
    /\ limited m counts' (state' :: slots)
    /\ (accepted = true -> state' = Authenticated t a)
    /\ (accepted = false -> state' = state /\ counts' = counts).
Proof.
  intros Hl. pose proof Hl as [P A T Lp La Lt]. destruct state as [peer|t0 a0]; cbn [authenticate].
  - destruct (_ || _) eqn:E; [do 3 eexists; by split_and!|]. apply orb_false_iff in E as [Ea Et].
    rewrite Z.leb_gt in Ea, Et. change (setup_peers _) with (peer :: setup_peers slots) in P, Lp.
    change (slot_agents _) with (slot_agents slots) in A, La.
    change (slot_tenants _) with (slot_tenants slots) in T, Lt.
    rewrite (tallies_count _ _ _ A) in Ea. rewrite (tallies_count _ _ _ T) in Et.
    destruct (tallies_decrement _ _ _ P) as (ps & -> & P'). do 3 eexists. split_and!; [done| |done|done].
    split.
    + done.
    + by apply (tallies_increment _ (slot_agents slots)).
    + by apply (tallies_increment _ (slot_tenants slots)).
    + intros k. specialize (Lp k). rewrite held_cons in Lp. change (setup_peers _) with (setup_peers slots).
      destruct (beq k peer); lia.
    + intros k. by apply (held_bound k (t, a) (slot_agents slots)).
    + intros k. by apply (held_bound k t (slot_tenants slots)).
  - do 3 eexists. split_and!; [done|done| |done]. rewrite andb_true_iff, !beq_true. by intros [-> ->].
Qed.

Lemma acquire_limited m counts slots peer : 0 < m ->
  limited m counts slots ->
  match try_acquire m peer counts with
  | (counts', Some state) => state = Setup peer /\ limited m counts' (state :: slots)
  | (counts', None) => held peer (setup_peers slots) = m /\ counts' = counts
  end.
Proof.
  intros Hm [P A T Lp La Lt]. unfold try_acquire. rewrite (tallies_count _ _ _ P).
  destruct (Z.leb_spec m (held peer (setup_peers slots))) as [Hle|Hlt].
  - specialize (Lp peer). assert (held peer (setup_peers slots) = m) as E by lia. split; [done|].
    rewrite insert_id; [by destruct counts|]. rewrite P, E. destruct (Z.eqb_spec m 0); [lia|done].
  - split; [done|]. split; try done.
    + by apply (tallies_increment _ (setup_peers slots)).
    + intros k. by apply (held_bound k peer (setup_peers slots)).
Qed.

(** Every reachable state is within the limits. *)
Lemma connections_limited m counts slots : 0 < m ->
  rtc (connection_step m) new_connections (counts, slots) -> limited m counts slots.
Proof.
  intros Hm Hr.
  refine (rtc_ind_r (fun x => limited m (fst x) (snd x)) new_connections _ _ (counts, slots) Hr).
  { apply limited_new. lia. }
  intros x y _ Hstep IH.
  destruct Hstep as [peer c c' l st E|peer c c' l E|t a c c' l b d st st' acc -> E|c c' l b d st -> E];
    cbn [fst snd] in *.
  - pose proof (acquire_limited m c l peer Hm IH) as Ha. rewrite E in Ha. by destruct Ha as [-> Ha].
  - pose proof (acquire_limited m c l peer Hm IH) as Ha. rewrite E in Ha. by destruct Ha as [_ ->].
  - apply (limited_perm _ _ _ _ (symmetry (Permutation_middle b d st))) in IH.
    destruct (authenticate_limited m c (b ++ d) st t a IH) as (c1 & st1 & acc1 & E' & Hl & _).
    rewrite E in E'. injection E' as <- <- <-.
    by apply (limited_perm _ _ _ _ (Permutation_middle b d st')).
  - apply (limited_perm _ _ _ _ (symmetry (Permutation_middle b d st))) in IH.
    destruct (release_limited m c (b ++ d) st IH) as (c1 & E' & Hl). rewrite E in E'. by injection E' as <-.
Qed.

(** A slot in setup is refused exactly when its agent or its tenant is full. *)
Lemma authenticate_refused m counts slots p t a :
  limited m counts slots -> In (Setup p) slots ->
  (exists counts' state', authenticate (Setup p) t a counts = Some (counts', state', false))
  <-> held (t, a) (slot_agents slots) = MAX_AUTHENTICATED_CONNECTIONS_PER_AGENT
      \/ held t (slot_tenants slots) = MAX_AUTHENTICATED_CONNECTIONS_PER_TENANT.
Proof.
  intros [P A T Lp La Lt] Hin. cbn [authenticate].
  rewrite (tallies_count _ _ _ A), (tallies_count _ _ _ T).
  specialize (La (t, a)). specialize (Lt t).
  destruct (_ || _) eqn:E.
  - split; [intros _|by do 2 eexists]. apply orb_true_iff in E as [E|E]; apply Z.leb_le in E; [left|right]; lia.
  - apply orb_false_iff in E as [Ea Et]. rewrite Z.leb_gt in Ea, Et.
    split; [|lia]. intros (c' & st' & E'). by destruct (decrement _ _).
Qed.

(** C33: the hub's connection limits hold and its counters are exact: however
    connections arrive, authenticate and drop, the counter of each peer is the number
    of its open connections that have not authenticated, those of each agent and each
    tenant the numbers of their open authenticated ones, and no counter is kept at zero;
    each peer has at most the configured number, each agent at most 8 and each tenant at
    most 128; an arriving connection is refused exactly if its peer has all of its own,
    one that authenticates exactly if its agent or its tenant has, and releasing or
    authenticating a live slot never finds a counter missing. *)
Theorem connection_limits_hold (max_per_peer : Z) (counts : ConnectionCounts)
    (slots : list ConnectionSlotState)
    (Hmax : 0 < max_per_peer)
    (Hreach : rtc (connection_step max_per_peer) new_connections (counts, slots)) :
  (tallies (peers counts) (setup_peers slots)
   /\ tallies (agents counts) (slot_agents slots)
   /\ tallies (tenants counts) (slot_tenants slots))
  /\ (forall p, held p (setup_peers slots) <= max_per_peer)
  /\ (forall a, held a (slot_agents slots) <= MAX_AUTHENTICATED_CONNECTIONS_PER_AGENT)
  /\ (forall t, held t (slot_tenants slots) <= MAX_AUTHENTICATED_CONNECTIONS_PER_TENANT)
  /\ (forall p, snd (try_acquire max_per_peer p counts) = None <-> held p (setup_peers slots) = max_per_peer)
  /\ (forall p t a, In (Setup p) slots ->
        (exists counts' state', authenticate (Setup p) t a counts = Some (counts', state', false))
        <-> held (t, a) (slot_agents slots) = MAX_AUTHENTICATED_CONNECTIONS_PER_AGENT
            \/ held t (slot_tenants slots) = MAX_AUTHENTICATED_CONNECTIONS_PER_TENANT)
  /\ (forall state, In state slots -> is_Some (release state counts)
        /\ forall t a, is_Some (authenticate state t a counts)).
Proof.
  pose proof (connections_limited max_per_peer counts slots Hmax Hreach) as Hl.
  pose proof Hl as [P A T Lp La Lt]. split_and!; try done.
  - intros p. pose proof (acquire_limited _ _ _ p Hmax Hl) as Ha. unfold try_acquire in *.
    rewrite (tallies_count _ _ _ P) in *. destruct (Z.leb_spec max_per_peer (held p (setup_peers slots))); simpl in *.
    + destruct Ha as [Ha _]. done.
    + split; [done|lia].
  - intros p t a. by apply (authenticate_refused max_per_peer).
  - intros state (b & d & ->)%in_split.
    apply (limited_perm _ _ _ _ (symmetry (Permutation_middle b d state))) in Hl. split.
    + destruct (release_limited _ _ _ _ Hl) as (c' & -> & _). done.
    + intros t a. destruct (authenticate_limited _ _ _ _ t a Hl) as (c' & st' & acc & -> & _). done.
Qed.
End Peers.

Lemma connection_limits_hold_witness :
  exists counts : ConnectionCounts (IpAddr := N),
    rtc (connection_step 1) new_connections (counts, [Setup 7%N])
    /\ snd (try_acquire 1 7%N counts) = None.
Proof.
  exists (fst (try_acquire 1 7%N (fst new_connections))).
  assert (rtc (connection_step 1) new_connections
    (fst (try_acquire 1 7%N (fst new_connections)), [Setup 7%N])) as Hr.
  { eapply rtc_once, step_acquire. reflexivity. }
  split; [exact Hr|].
  destruct (connection_limits_hold 1 _ _ ltac:(lia) Hr) as (_ & _ & _ & _ & Hp & _).
  apply Hp. reflexivity.
Defined.

(** ** Camera streams ([capacity.rs])

    [None] is the capacity error; a dropped permit gives its stream back. *)
Section Cameras.

Definition acquire_stream (max_streams_per_tenant : Z) (tenant_id : TenantId) (tenants : gmap TenantId Z)
  : gmap TenantId Z * bool :=
  let count := count_of tenants tenant_id in
  if max_streams_per_tenant <=? count then (<[tenant_id := count]> tenants, false)
  else (increment tenants tenant_id, true).

(** Acquiring keeps the counts exact and within the limit, and a permit that is
    held can be dropped. *)
Lemma camera_capacity_exact m tenants held_by t :
  0 < m -> tallies tenants held_by -> (forall k, held k held_by <= m) ->
  let '(tenants', granted) := acquire_stream m t tenants in
  let held_by' := if granted : bool then t :: held_by else held_by in
  tallies tenants' held_by' /\ (forall k, held k held_by' <= m)
  /\ (granted = false <-> held t held_by = m).
Proof.
  intros Hm Ht Hl. unfold acquire_stream. rewrite (tallies_count _ _ _ Ht).
  destruct (Z.leb_spec m (held t held_by)) as [Hle|Hlt].
  - specialize (Hl t) as Hlt. assert (held t held_by = m) as E by lia. split_and!; [|done|done].
    rewrite insert_id; [done|]. rewrite Ht, E. destruct (Z.eqb_spec m 0); [lia|done].
  - split_and!; [by apply tallies_increment|intros k; by apply held_bound|]. split; [done|lia].
Qed.
End Cameras.
