(* ===== verification/FirmwareCommands.v ===== *)
(** * Pending firmware commands

    [sessions/firmware_commands.rs] with [store.rs], [execute.rs] and [lookup.rs]:
    the table of firmware commands that wait for their agent, from the prepare to
    the execute and its result.  A oneshot sender is the number of its channel;
    instants are numbers.  [None] as the outcome of an operation is the panic of
    an [expect] or [assert].  The mutexes make each operation atomic. *)

From stdpp Require Import relations sorting gmap fin_maps.
From S2P Require Import Prelude RustStr CoreTypes CoreRecords Redaction Sessions.

#[local] Open Scope Z_scope.

(** ** Data *)

(** A oneshot channel. *)
Definition Waiter : Type := N.

Module FirmwareCommandIdentity.
Record t := mk {
  command_id : CommandId; tenant_id : TenantId; agent_id : AgentId; session_token : SessionToken;
  printer_id : string; serial : string; generation : Z }.
End FirmwareCommandIdentity.
Module Ident := FirmwareCommandIdentity.

#[export] Instance identity_eq_dec : EqDecision Ident.t.
Proof. solve_decision. Defined.
#[export] Instance metadata_eq_dec : EqDecision FirmwareControlMetadata.t.
Proof. solve_decision. Defined.

Inductive PendingFirmwareKind := KindRefresh | KindControl (metadata : FirmwareControlMetadata.t).
Inductive PendingFirmwarePhase := RefreshSent | Preparing | Prepared | ExecuteSent | Published.
#[export] Instance phase_eq_dec : EqDecision PendingFirmwarePhase.
Proof. solve_decision. Defined.

Module PendingFirmwareCommand.
Record t := mk {
  identity : Ident.t; kind : PendingFirmwareKind; phase : PendingFirmwarePhase;
  prepared_token : option string; expires_at : option Z; transient_url : option string;
  prepare_waiter : option Waiter; refresh_waiter : option Waiter; execute_waiter : option Waiter }.
End PendingFirmwareCommand.
Module Pending := PendingFirmwareCommand.

Module PendingFirmwareState.
Record t := mk {
  commands : gmap CommandId Pending.t;
  prepared_tokens : gmap string CommandId;
  (** Indexed by tenant and serial ([RetainedFirmwareScope]). *)
  retained_redaction_urls : gmap (TenantId * string) (list string) }.
End PendingFirmwareState.
Module Fw := PendingFirmwareState.

(** [PendingFirmwareCommands]: the table and the commands being completed. *)
Record PendingFirmwareCommands := mkPending { inner : Fw.t; completing : gset CommandId }.

Inductive ClaimedFirmwareKind := ClaimedRefresh | ClaimedControl.

(** A claimed command owns its completion until it is dropped. *)
Module ClaimedFirmwareCommand.
Record t := mk {
  identity : Ident.t; kind : ClaimedFirmwareKind; phase : PendingFirmwarePhase;
  prepare_waiter : option Waiter; refresh_waiter : option Waiter; execute_waiter : option Waiter;
  redacted_error : option string }.
End ClaimedFirmwareCommand.
Module Claimed := ClaimedFirmwareCommand.

Inductive FirmwareServiceError := Unavailable | InvalidPreparedToken | MetadataMismatch.

(** ** Redaction of firmware URLs ([store.rs]) *)

(** [reqwest::Url]: the components of an absolute URL; [query_pairs] holds the
    decoded values. *)
Record UrlParts := mkUrlParts {
  username : string; password : option string; path : string; query : option string;
  query_pairs : list (string * string); fragment : option string }.
Class UrlParser := { url_parse : string -> option UrlParts }.

Definition nonempty (s : string) : bool := negb (beq s EmptyString).

Section Urls.
Context `{UrlParser}.

Definition opt_list {A} (o : option A) : list A := match o with Some a => [a] | None => [] end.

(** The values after [=] of the parameters of a query. *)
Definition parameter_values (query : string) : list string :=
  omap (fun parameter => option_map snd (split_once "=" parameter)) (split "&"%char query).

Definition collect_firmware_url_components (url : string) : list string :=
  match url_parse url with
  | None => []
  | Some parsed =>
      List.filter nonempty
        ([username parsed] ++ opt_list (password parsed)
         ++ (if beq (path parsed) "/"%string then [] else [path parsed])
         ++ match query parsed with Some query => query :: parameter_values query | None => [] end
         ++ map snd (query_pairs parsed) ++ opt_list (fragment parsed))
  end.

(** Longest first, then in byte order. *)
Definition secret_le (a b : string) : Prop :=
  (String.length b <? String.length a)%nat
  || ((String.length a =? String.length b)%nat && String.leb a b).
#[export] Instance secret_le_dec : RelDecision secret_le.
Proof. intros a b. unfold secret_le. apply _. Defined.

(** [dedup] drops consecutive repetitions. *)
Fixpoint dedup (l : list string) : list string :=
  match l with
  | a :: l => match dedup l with
              | b :: k => if beq a b then b :: k else a :: b :: k
              | [] => [a]
              end
  | [] => []
  end.

Definition firmware_secrets (urls : list string) : list string :=
  dedup (merge_sort secret_le
    (flat_map (fun url => url :: collect_firmware_url_components url) (List.filter nonempty urls))).

Definition redact_firmware_text_with_urls (value : string) (urls : list string) : string :=
  redact_secrets (foldl (fun redacted secret => str_replace secret mark redacted) value
                    (firmware_secrets urls)).

Definition in_scope_of (tenant_id : TenantId) (serial : string) (command : Pending.t) : bool :=
  beq (Ident.tenant_id (Pending.identity command)) tenant_id
  && beq (Ident.serial (Pending.identity command)) serial.

Definition retained_urls (state : Fw.t) (tenant_id : TenantId) (serial : string) : list string :=
  default [] (Fw.retained_redaction_urls state !! (tenant_id, serial)).

Definition redact_firmware_text_for_scope (state : Fw.t) (tenant_id : TenantId) (serial value : string)
  : string :=
  redact_firmware_text_with_urls value
    (omap Pending.transient_url
       (List.filter (in_scope_of tenant_id serial) (map snd (map_to_list (Fw.commands state))))
     ++ retained_urls state tenant_id serial).

Definition reserve_firmware_redaction_url (identity : Ident.t) (url : string) (state : Fw.t) : Fw.t :=
  let scope := (Ident.tenant_id identity, Ident.serial identity) in
  let urls := retained_urls state (Ident.tenant_id identity) (Ident.serial identity) in
  if existsb (fun retained => beq retained url) urls then state
  else state <| Fw.retained_redaction_urls :=
                  <[scope := urls ++ [url]]> (Fw.retained_redaction_urls state) |>.

Definition firmware_url (command : FirmwareCommand.t) : option string :=
  match command with
  | FirmwareCommand.Start _ _ url _ _ => Some url
  | _ => None
  end.

(** ** The table *)

Definition with_commands (f : gmap CommandId Pending.t -> gmap CommandId Pending.t) (state : Fw.t) : Fw.t :=
  state <| Fw.commands := f (Fw.commands state) |>.

Definition take_prepared_token (token : string) (state : Fw.t) : Fw.t :=
  state <| Fw.prepared_tokens := delete token (Fw.prepared_tokens state) |>.

Definition insert_command (command : Pending.t) (cmds : PendingFirmwareCommands) : PendingFirmwareCommands :=
  let id := Ident.command_id (Pending.identity command) in
  let state := inner cmds in
  let state := match Pending.prepared_token command with
               | Some token => state <| Fw.prepared_tokens := <[token := id]> (Fw.prepared_tokens state) |>
               | None => state
               end in
  cmds <| inner := with_commands <[id := command]> state |>.

Definition claimed_kind (kind : PendingFirmwareKind) : ClaimedFirmwareKind :=
  match kind with KindRefresh => ClaimedRefresh | KindControl _ => ClaimedControl end.

(** [remove_command], the command being there. *)
Definition remove_command (command : Pending.t) (error : option string) (state : Fw.t)
  : Claimed.t * Fw.t :=
  let identity := Pending.identity command in
  let redacted_error :=
    option_map (redact_firmware_text_for_scope state (Ident.tenant_id identity) (Ident.serial identity)) error in
  let state := with_commands (delete (Ident.command_id identity)) state in
  let state := match Pending.prepared_token command with
               | Some token => take_prepared_token token state
               | None => state
               end in
  (Claimed.mk identity (claimed_kind (Pending.kind command)) (Pending.phase command) (Pending.prepare_waiter command)
     (Pending.refresh_waiter command) (Pending.execute_waiter command) redacted_error, state).

Definition begin_completion (id : CommandId) (cmds : PendingFirmwareCommands)
  : option PendingFirmwareCommands :=
  if bool_decide (id ∈ completing cmds) then None
  else Some (cmds <| completing := {[id]} ∪ completing cmds |>).

(** A command leaves the table for its claim. *)
Definition claim_command (command : Pending.t) (error : option string) (cmds : PendingFirmwareCommands)
  : option (PendingFirmwareCommands * Claimed.t) :=
  let '(claimed, state) := remove_command command error (inner cmds) in
  option_map (fun cmds => (cmds, claimed))
    (begin_completion (Ident.command_id (Pending.identity command)) (cmds <| inner := state |>)).

(** The command under an identity, when it is still that very command. *)
Definition exact_command (identity : Ident.t) (cmds : PendingFirmwareCommands) : option Pending.t :=
  match Fw.commands (inner cmds) !! Ident.command_id identity with
  | Some command => if beq (Pending.identity command) identity then Some command else None
  | None => None
  end.

Definition remove_exact (identity : Ident.t) (error : option string) (cmds : PendingFirmwareCommands)
  : option (PendingFirmwareCommands * option Claimed.t) :=
  match exact_command identity cmds with
  | None => Some (cmds, None)
  | Some command => option_map (fun '(cmds, claimed) => (cmds, Some claimed))
                      (claim_command command error cmds)
  end.

Fixpoint claim_each (commands : list Pending.t) (cmds : PendingFirmwareCommands)
  : option (PendingFirmwareCommands * list Claimed.t) :=
  match commands with
  | [] => Some (cmds, [])
  | command :: commands =>
      '(cmds, claimed) ← claim_command command None cmds;
      '(cmds, rest) ← claim_each commands cmds;
      Some (cmds, claimed :: rest)
  end.

Definition remove_matching (predicate : Ident.t -> bool) (cmds : PendingFirmwareCommands)
  : option (PendingFirmwareCommands * list Claimed.t) :=
  claim_each (List.filter (fun c => predicate (Pending.identity c))
                (map snd (map_to_list (Fw.commands (inner cmds))))) cmds.
(** ** The operations, each under the agent's transition lease *)

Definition begin_firmware_refresh (identity : Ident.t) (waiter : Waiter)
    (cmds : PendingFirmwareCommands) : PendingFirmwareCommands :=
  insert_command (Pending.mk identity KindRefresh RefreshSent None None None None (Some waiter) None) cmds.

(** [prepared_token] is the UUID drawn for it. *)
Definition begin_firmware_prepare (prepared_token : string) (identity : Ident.t)
    (metadata : FirmwareControlMetadata.t) (expires_at : Z) (waiter : Waiter)
    (cmds : PendingFirmwareCommands) : PendingFirmwareCommands :=
  insert_command (Pending.mk identity (KindControl metadata) Preparing (Some prepared_token)
                    (Some expires_at) None (Some waiter) None None) cmds.

Definition prepare_expired (now : Z) (command : Pending.t) : bool :=
  match Pending.expires_at command with Some expires_at => expires_at <=? now | None => false end.

Definition set_command (command : Pending.t) (cmds : PendingFirmwareCommands) : PendingFirmwareCommands :=
  cmds <| inner := with_commands <[Ident.command_id (Pending.identity command) := command]> (inner cmds) |>.

(** The waiter that is answered is returned with the verdict. *)
Definition complete_firmware_prepared (now : Z) (identity : Ident.t) (cmds : PendingFirmwareCommands)
  : PendingFirmwareCommands * option Waiter * bool :=
  match exact_command identity cmds with
  | None => (cmds, None, false)
  | Some command =>
      if negb (beq (Pending.phase command) Preparing) || prepare_expired now command
      then (cmds, None, false)
      else (set_command (command <| Pending.phase := Prepared |> <| Pending.prepare_waiter := None |>) cmds,
            Pending.prepare_waiter command, true)
  end.

Definition claim_firmware_result (identity : Ident.t) (error : option string)
    (cmds : PendingFirmwareCommands) : option (PendingFirmwareCommands * option Claimed.t) :=
  remove_exact identity error cmds.

Definition typed_result_expected (command : Pending.t) : bool :=
  match Pending.kind command, Pending.phase command with
  | KindRefresh, RefreshSent => true
  | KindControl _, (ExecuteSent | Published) => true
  | _, _ => false
  end.

Definition claim_firmware_typed_result (identity : Ident.t) (cmds : PendingFirmwareCommands)
  : option (PendingFirmwareCommands * option Claimed.t) :=
  match exact_command identity cmds with
  | Some command =>
      if typed_result_expected command
      then option_map (fun '(cmds, claimed) => (cmds, Some claimed)) (claim_command command None cmds)
      else Some (cmds, None)
  | None => Some (cmds, None)
  end.

Definition expire_firmware_prepare (now : Z) (identity : Ident.t) (cmds : PendingFirmwareCommands)
  : option (PendingFirmwareCommands * option Claimed.t) :=
  match exact_command identity cmds with
  | Some command =>
      if negb (prepare_expired now command)
         || negb (bool_decide (Pending.phase command ∈ [Preparing; Prepared]))
      then Some (cmds, None)
      else remove_exact identity None cmds
  | None => Some (cmds, None)
  end.

Definition cancel_firmware_session (agent_id : AgentId) (token : SessionToken)
    (cmds : PendingFirmwareCommands) : option (PendingFirmwareCommands * list Claimed.t) :=
  remove_matching (fun identity =>
    beq (Ident.agent_id identity) agent_id && (Ident.session_token identity =? token)%N) cmds.

Definition cancel_firmware_generation (agent_id : AgentId) (token : SessionToken) (serial : string)
    (new_generation : Z) (cmds : PendingFirmwareCommands)
  : option (PendingFirmwareCommands * list Claimed.t) :=
  remove_matching (fun identity =>
    beq (Ident.agent_id identity) agent_id && (Ident.session_token identity =? token)%N
    && beq (Ident.serial identity) serial && negb (Ident.generation identity =? new_generation)) cmds.

(** The command a prepared token admits at [now], or the refusal; the [expect] is
    the outer [None]. *)
Definition prepared_command (now : Z) (prepared_token : string) (cmds : PendingFirmwareCommands)
  : option (result FirmwareServiceError (Pending.t * FirmwareControlMetadata.t)) :=
  match Fw.prepared_tokens (inner cmds) !! prepared_token with
  | None => Some (Err InvalidPreparedToken)
  | Some command_id =>
      match Fw.commands (inner cmds) !! command_id with
      | None => None
      | Some pending =>
          Some (if negb (beq (Pending.phase pending) Prepared) || prepare_expired now pending
                then Err InvalidPreparedToken
                else match Pending.kind pending with
                     | KindControl metadata => Ok (pending, metadata)
                     | KindRefresh => Err InvalidPreparedToken
                     end)
      end
  end.

(** The URL is retained for redaction and kept with the command. *)
Definition note_url (command : FirmwareCommand.t) (pending : Pending.t) (cmds : PendingFirmwareCommands)
  : PendingFirmwareCommands * Pending.t :=
  match firmware_url command with
  | None => (cmds, pending)
  | Some url =>
      (cmds <| inner := reserve_firmware_redaction_url (Pending.identity pending) url (inner cmds) |>,
       pending <| Pending.transient_url := Some url |>)
  end.

Definition drop_token (token : string) (cmds : PendingFirmwareCommands) : PendingFirmwareCommands :=
  cmds <| inner := take_prepared_token token (inner cmds) |>.

Definition begin_firmware_execute (now : Z) (prepared_token : string) (command : FirmwareCommand.t)
    (waiter : Waiter) (cmds : PendingFirmwareCommands)
  : option (PendingFirmwareCommands * result FirmwareServiceError Ident.t) :=
  match prepared_command now prepared_token cmds with
  | None => None
  | Some (Err e) => Some (cmds, Err e)
  | Some (Ok (pending, metadata)) =>
      if negb (beq metadata (FirmwareControlMetadata.from command)) then
        Some (set_command (pending <| Pending.prepared_token := None |> <| Pending.expires_at := None |>)
                (drop_token prepared_token cmds), Err MetadataMismatch)
      else
        let '(cmds, pending) := note_url command pending cmds in
        Some (set_command (pending <| Pending.prepared_token := None |> <| Pending.expires_at := None |>
                                   <| Pending.execute_waiter := Some waiter |>
                                   <| Pending.phase := ExecuteSent |>)
                (drop_token prepared_token cmds), Ok (Pending.identity pending))
  end.

Definition validate_firmware_execute (now : Z) (prepared_token : string) (command : FirmwareCommand.t)
    (cmds : PendingFirmwareCommands)
  : option (PendingFirmwareCommands * result FirmwareServiceError Ident.t) :=
  match prepared_command now prepared_token cmds with
  | None => None
  | Some (Err e) => Some (cmds, Err e)
  | Some (Ok (pending, metadata)) =>
      if negb (beq metadata (FirmwareControlMetadata.from command)) then Some (cmds, Err MetadataMismatch)
      else
        let '(cmds, pending) := note_url command pending cmds in
        Some (set_command pending cmds, Ok (Pending.identity pending))
  end.

Definition mark_firmware_published (identity : Ident.t) (cmds : PendingFirmwareCommands)
  : PendingFirmwareCommands * bool :=
  match exact_command identity cmds with
  | Some command =>
      if beq (Pending.phase command) ExecuteSent
      then (set_command (command <| Pending.phase := Published |>) cmds, true)
      else (cmds, false)
  | None => (cmds, false)
  end.

(** The drop of a claim's [FirmwareCompletionOwnership]. *)
Definition finish_completion (claimed : Claimed.t) (cmds : PendingFirmwareCommands)
  : PendingFirmwareCommands :=
  cmds <| completing := completing cmds ∖ {[Ident.command_id (Claimed.identity claimed)]} |>.

(** ** Lookups ([lookup.rs]) *)

Definition firmware_command_locator (id : CommandId) (cmds : PendingFirmwareCommands) : option Ident.t :=
  option_map Pending.identity (Fw.commands (inner cmds) !! id).

Definition firmware_token_locator (prepared_token : string) (cmds : PendingFirmwareCommands)
  : option Ident.t :=
  id ← Fw.prepared_tokens (inner cmds) !! prepared_token;
  option_map Pending.identity (Fw.commands (inner cmds) !! id).

Definition redact_firmware_text (identity : Ident.t) (value : string) (cmds : PendingFirmwareCommands)
  : string :=
  redact_firmware_text_for_scope (inner cmds) (Ident.tenant_id identity) (Ident.serial identity) value.

Definition pending_firmware_command_ids (cmds : PendingFirmwareCommands) : list CommandId :=
  map fst (map_to_list (Fw.commands (inner cmds))) ++ elements (completing cmds).
End Urls.
