(* ===== verification/FirmwareTokens.v ===== *)
(** * Prepared firmware tokens

    The pending firmware commands of [FirmwareCommands] under any interleaving of
    their operations: the runs are those of [run], started from an empty table,
    in which every command and every token is drawn fresh (both are UUIDs) and
    only a live claim is dropped.  No [expect] or [assert] of the table ever
    fails, and a prepared token admits at most one execution: of the command it
    was issued for, confirmed by the agent and not expired. *)

From stdpp Require Import relations sorting gmap fin_maps.
From S2P Require Import Prelude RustStr CoreTypes CoreRecords Redaction Sessions FirmwareCommands.

#[local] Open Scope Z_scope.

(** ** Runs *)

(** The table and what happened so far. *)
Record World := mkWorld {
  table : PendingFirmwareCommands;
  (** Every claim made. *)
  claims : list Claimed.t;
  (** The command ids drawn. *)
  used : gset CommandId;
  (** What each token was issued for. *)
  issued : gmap string (Ident.t * FirmwareControlMetadata.t * Z);
  (** The commands whose preparation the agent confirmed. *)
  confirmed : gset CommandId;
  (** The tokens an execution or its refusal for other metadata used up. *)
  spent : list string }.

Definition empty_table : PendingFirmwareCommands := mkPending (Fw.mk ∅ ∅ ∅) ∅.
Definition initial : World := mkWorld empty_table [] ∅ ∅ ∅ [].

Inductive event :=
| Refresh (identity : Ident.t) (waiter : Waiter)
| Prepare (token : string) (identity : Ident.t) (metadata : FirmwareControlMetadata.t) (expires_at : Z)
    (waiter : Waiter)
| AgentPrepared (now : Z) (identity : Ident.t)
| Result (identity : Ident.t) (error : option string)
| TypedResult (identity : Ident.t)
| ExpirePrepare (now : Z) (identity : Ident.t)
| CancelSession (agent_id : AgentId) (token : SessionToken)
| CancelGeneration (agent_id : AgentId) (token : SessionToken) (serial : string) (new_generation : Z)
| Execute (now : Z) (prepared_token : string) (command : FirmwareCommand.t) (waiter : Waiter)
| Validate (now : Z) (prepared_token : string) (command : FirmwareCommand.t)
| AgentPublished (identity : Ident.t)
| DropClaim (claimed : Claimed.t).

(** The tokens an execute uses up. *)
Definition used_up (token : string) (r : result FirmwareServiceError Ident.t) : list string :=
  match r with Ok _ | Err MetadataMismatch => [token] | Err _ => [] end.

Section Runs.
Context `{UrlParser}.

Definition claimed_as (w : World) (o : option (PendingFirmwareCommands * option Claimed.t)) : option World :=
  option_map (fun '(cmds, claim) => w <| table := cmds |> <| claims := opt_list claim ++ claims w |>) o.

Definition all_claimed_as (w : World) (o : option (PendingFirmwareCommands * list Claimed.t)) : option World :=
  option_map (fun '(cmds, claimed) => w <| table := cmds |> <| claims := claimed ++ claims w |>) o.

Definition run (e : event) (w : World) : option World :=
  let t := table w in
  match e with
  | Refresh identity waiter =>
      Some (w <| table := begin_firmware_refresh identity waiter t |>
              <| used := {[Ident.command_id identity]} ∪ used w |>)
  | Prepare token identity metadata expires_at waiter =>
      Some (w <| table := begin_firmware_prepare token identity metadata expires_at waiter t |>
              <| used := {[Ident.command_id identity]} ∪ used w |>
              <| issued := <[token := (identity, metadata, expires_at)]> (issued w) |>)
  | AgentPrepared now identity =>
      let '(t, _, done) := complete_firmware_prepared now identity t in
      Some (w <| table := t |>
              <| confirmed := if done then {[Ident.command_id identity]} ∪ confirmed w else confirmed w |>)
  | Result identity error => claimed_as w (claim_firmware_result identity error t)
  | TypedResult identity => claimed_as w (claim_firmware_typed_result identity t)
  | ExpirePrepare now identity => claimed_as w (expire_firmware_prepare now identity t)
  | CancelSession agent_id token => all_claimed_as w (cancel_firmware_session agent_id token t)
  | CancelGeneration agent_id token serial generation =>
      all_claimed_as w (cancel_firmware_generation agent_id token serial generation t)
  | Execute now token command waiter =>
      option_map (fun '(t, r) => w <| table := t |> <| spent := used_up token r ++ spent w |>)
        (begin_firmware_execute now token command waiter t)
  | Validate now token command =>
      option_map (fun '(t, _) => w <| table := t |>) (validate_firmware_execute now token command t)
  | AgentPublished identity => Some (w <| table := fst (mark_firmware_published identity t) |>)
  | DropClaim claimed =>
      Some (w <| table := finish_completion claimed t |>)
  end.

(** The ids and tokens that are drawn are new, and what is dropped was claimed. *)
Definition fresh (e : event) (w : World) : Prop :=
  match e with
  | Refresh identity _ => Ident.command_id identity ∉ used w
  | Prepare token identity _ _ _ => Ident.command_id identity ∉ used w /\ issued w !! token = None
  | DropClaim claimed => claimed ∈ claims w
  | _ => True
  end.

Inductive reachable : World -> Prop :=
| reachable_initial : reachable initial
| reachable_run e w w' : reachable w -> fresh e w -> run e w = Some w' -> reachable w'.

(** ** The invariant *)

Definition claim_id (claimed : Claimed.t) : CommandId := Ident.command_id (Claimed.identity claimed).

(** A command of the table under [id]: it owns its token, which was issued for it. *)
Record sound (w : World) (id : CommandId) (c : Pending.t) : Prop := {
  sound_id : Ident.command_id (Pending.identity c) = id;
  sound_used : id ∈ used w;
  sound_unclaimed : id ∉ map claim_id (claims w);
  sound_token t : Pending.prepared_token c = Some t ->
    t ∉ spent w /\ exists metadata expires,
      issued w !! t = Some (Pending.identity c, metadata, expires)
      /\ Pending.kind c = KindControl metadata /\ Pending.expires_at c = Some expires
      /\ (Pending.phase c = Preparing \/ Pending.phase c = Prepared /\ id ∈ confirmed w) }.

Record inv (w : World) : Prop := {
  inv_sound id c : Fw.commands (inner (table w)) !! id = Some c -> sound w id c;
  inv_tokens t id : Fw.prepared_tokens (inner (table w)) !! t = Some id <->
    exists c, Fw.commands (inner (table w)) !! id = Some c /\ Pending.prepared_token c = Some t;
  inv_completing id : id ∈ completing (table w) -> id ∈ map claim_id (claims w);
  inv_claims : NoDup (map claim_id (claims w));
  inv_claims_used id : id ∈ map claim_id (claims w) -> id ∈ used w;
  inv_spent : NoDup (spent w);
  inv_spent_issued t : t ∈ spent w -> is_Some (issued w !! t) }.

Lemma inv_initial : inv initial.
Proof.
  split; simpl.
  - intros id c. by rewrite lookup_empty.
  - intros t id. rewrite lookup_empty. split; [done|]. intros (c & Hc & _). by rewrite lookup_empty in Hc.
  - set_solver.
  - constructor.
  - intros id Hid. by apply elem_of_nil in Hid.
  - constructor.
  - intros t Ht. by apply elem_of_nil in Ht.
Qed.

(** A command changes in place and keeps its token. *)
Lemma inv_set w id c c' w' :
  inv w -> Fw.commands (inner (table w)) !! id = Some c ->
  Fw.commands (inner (table w')) = <[id := c']> (Fw.commands (inner (table w))) ->
  Pending.prepared_token c' = Pending.prepared_token c ->
  Fw.prepared_tokens (inner (table w')) = Fw.prepared_tokens (inner (table w)) ->
  completing (table w') = completing (table w) -> claims w' = claims w -> used w' = used w ->
  issued w' = issued w -> confirmed w ⊆ confirmed w' -> spent w' = spent w ->
  sound w' id c' -> inv w'.
Proof.
  intros Hi Hc Ecmd Ht Etok Ecp Ecl Eu Eis Hcf Esp Hs. split.
  - intros id' d. rewrite Ecmd, lookup_insert_Some. intros [[<- <-]|[_ Hd]]; [done|].
    destruct (inv_sound _ Hi _ _ Hd) as [H1 H2 H3 H4]. split; rewrite ?Eu, ?Ecl; try done.
    intros t Htok. destruct (H4 t Htok) as (Hsp & md & exp & His & Hk & He & Hp).
    rewrite Esp, Eis. split; [done|]. exists md, exp. split_and!; try done.
    destruct Hp as [Hp|[Hp Hin]]; [by left|right]. split; [done|set_solver].
  - intros t id'. rewrite Etok, Ecmd, (inv_tokens _ Hi). split.
    + intros (d & Hd & Htok). destruct (decide (id' = id)) as [->|Hne].
      * exists c'. rewrite lookup_insert_eq. split; [done|]. congruence.
      * exists d. by rewrite lookup_insert_ne.
    + intros (d & [[<- <-]|[Hne Hd]]%lookup_insert_Some & Htok); [exists c; split; congruence|by exists d].
  - intros id'. rewrite Ecp, Ecl. apply (inv_completing _ Hi).
  - rewrite Ecl. apply (inv_claims _ Hi).
  - intros id'. rewrite Ecl, Eu. apply (inv_claims_used _ Hi).
  - rewrite Esp. apply (inv_spent _ Hi).
  - intros t. rewrite Esp, Eis. apply (inv_spent_issued _ Hi).
Qed.

(** The token of a command is used up. *)
Lemma inv_spend w id c c' t w' :
  inv w -> Fw.commands (inner (table w)) !! id = Some c ->
  Fw.commands (inner (table w')) = <[id := c']> (Fw.commands (inner (table w))) ->
  Pending.prepared_token c = Some t -> Pending.prepared_token c' = None ->
  Pending.identity c' = Pending.identity c ->
  Fw.prepared_tokens (inner (table w')) = delete t (Fw.prepared_tokens (inner (table w))) ->
  completing (table w') = completing (table w) -> claims w' = claims w -> used w' = used w ->
  issued w' = issued w -> confirmed w' = confirmed w -> spent w' = t :: spent w -> inv w'.
Proof.
  intros Hi Hc Ecmd Ht Ht' Hid Etok Ecp Ecl Eu Eis Ecf Esp.
  pose proof (inv_sound _ Hi _ _ Hc) as [S1 S2 S3 S4]. destruct (S4 t Ht) as (Hsp & md & exp & His & _).
  split.
  - intros id' d. rewrite Ecmd, lookup_insert_Some. intros [[<- <-]|[Hne Hd]].
    + split; rewrite ?Hid, ?Eu, ?Ecl; try done. congruence.
    + destruct (inv_sound _ Hi _ _ Hd) as [H1 H2 H3 H4]. split; rewrite ?Eu, ?Ecl; try done.
      intros t' Htok. destruct (H4 t' Htok) as (Hsp' & md' & exp' & His' & Hk & He & Hp).
      rewrite Esp, Eis, Ecf. split; [|by exists md', exp'].
      intros [->|Hin]%elem_of_cons; [|done]. apply Hne.
      pose proof (proj2 (inv_tokens _ Hi t id') (ex_intro _ d (conj Hd Htok))) as E1.
      pose proof (proj2 (inv_tokens _ Hi t id) (ex_intro _ c (conj Hc Ht))) as E2. congruence.
  - intros t' id'. rewrite Etok, Ecmd, lookup_delete_Some, (inv_tokens _ Hi). split.
    + intros (Hne & d & Hd & Htok). destruct (decide (id' = id)) as [->|Hne'].
      * congruence.
      * exists d. by rewrite lookup_insert_ne.
    + intros (d & [[<- <-]|[Hne Hd]]%lookup_insert_Some & Htok); [congruence|]. split; [|by exists d].
      intros <-. apply Hne.
      pose proof (proj2 (inv_tokens _ Hi t id') (ex_intro _ d (conj Hd Htok))) as E1.
      pose proof (proj2 (inv_tokens _ Hi t id) (ex_intro _ c (conj Hc Ht))) as E2. congruence.
  - intros id'. rewrite Ecp, Ecl. apply (inv_completing _ Hi).
  - rewrite Ecl. apply (inv_claims _ Hi).
  - intros id'. rewrite Ecl, Eu. apply (inv_claims_used _ Hi).
  - rewrite Esp. constructor; [done|apply (inv_spent _ Hi)].
  - intros t'. rewrite Esp, Eis. intros [->|Hin]%elem_of_cons; [by rewrite His|by apply (inv_spent_issued _ Hi)].
Qed.

(** A command enters under a new id, with a new token or none. *)
Lemma inv_insert w c :
  inv w -> let id := Ident.command_id (Pending.identity c) in id ∉ used w ->
  forall w', inner (table w') = inner (insert_command c (table w)) ->
  completing (table w') = completing (table w) -> claims w' = claims w -> used w' = {[id]} ∪ used w ->
  confirmed w' = confirmed w -> spent w' = spent w ->
  match Pending.prepared_token c with
  | None => issued w' = issued w
  | Some t => issued w !! t = None /\ exists metadata expires,
      issued w' = <[t := (Pending.identity c, metadata, expires)]> (issued w)
      /\ Pending.kind c = KindControl metadata /\ Pending.expires_at c = Some expires
      /\ Pending.phase c = Preparing
  end -> inv w'.
Proof.
  intros Hi id Hid w' Etab Ecp Ecl Eu Ecf Esp Htok.
  assert (Fw.commands (inner (table w)) !! id = None) as Hnew.
  { destruct (_ !! id) as [d|] eqn:E; [|done]. by destruct (inv_sound _ Hi _ _ E). }
  assert (forall id' d, Fw.commands (inner (table w)) !! id' = Some d -> id <> id') as Hfr.
  { intros id' d Hd <-. by rewrite Hnew in Hd. }
  assert (Fw.commands (inner (table w')) = <[id := c]> (Fw.commands (inner (table w)))) as Ecmd.
  { rewrite Etab. unfold insert_command. by destruct (Pending.prepared_token c). }
  assert (forall t, is_Some (issued w !! t) -> issued w' !! t = issued w !! t) as Hold.
  { intros t [x Hx]. destruct (Pending.prepared_token c) as [t'|]; [|by rewrite Htok].
    destruct Htok as (Hn & md & exp & -> & _). rewrite lookup_insert_ne; [done|congruence]. }
  split.
  - intros id' d. rewrite Ecmd, lookup_insert_Some. intros [[<- <-]|[Hne Hd]].
    + split; rewrite ?Eu, ?Ecl; [done|set_solver| |].
      { intros Hin. by apply Hid, (inv_claims_used _ Hi). }
      intros t Ht. rewrite Ht in Htok. destruct Htok as (Hn & md & exp & Eis & Hk & He & Hp). rewrite Esp.
      split; [intros Hin; apply (inv_spent_issued _ Hi) in Hin as [x Hx]; congruence|].
      exists md, exp. rewrite Eis, lookup_insert_eq. auto.
    + destruct (inv_sound _ Hi _ _ Hd) as [H1 H2 H3 H4].
      split; rewrite ?Eu, ?Ecl; [done|set_solver|done|].
      intros t Ht. destruct (H4 t Ht) as (Hsp & md & exp & His & Hr). rewrite Esp, Ecf.
      split; [done|]. exists md, exp. by rewrite Hold by (by rewrite His).
  - intros t id'. rewrite Etab. unfold insert_command. cbn [inner].
    pose proof (inv_tokens _ Hi t id') as Hti. destruct (Pending.prepared_token c) as [t'|] eqn:Et; simpl.
    + destruct Htok as (Hn & _). rewrite !lookup_insert_Some, Hti. split.
      * intros [[<- <-]|[Hne (d & Hd & Hdt)]].
        -- exists c. by rewrite lookup_insert_eq.
        -- exists d. rewrite lookup_insert_ne; [done|by apply (Hfr _ d)].
      * intros (d & [[<- <-]|[Hne Hd]]%lookup_insert_Some & Hdt); [left; split; congruence|right].
        split; [|by exists d]. intros <-.
        destruct (sound_token _ _ _ (inv_sound _ Hi _ _ Hd) _ Hdt) as (_ & md & exp & His & _). congruence.
    + rewrite Hti. split.
      * intros (d & Hd & Hdt). exists d. rewrite lookup_insert_ne; [done|by apply (Hfr _ d)].
      * intros (d & [[<- <-]|[Hne Hd]]%lookup_insert_Some & Hdt); [congruence|by exists d].
  - intros id'. rewrite Ecp, Ecl. apply (inv_completing _ Hi).
  - rewrite Ecl. apply (inv_claims _ Hi).
  - intros id'. rewrite Ecl, Eu. intros Hin%(inv_claims_used _ Hi). set_solver.
  - rewrite Esp. apply (inv_spent _ Hi).
  - intros t. rewrite Esp. intros Hin%(inv_spent_issued _ Hi). by rewrite Hold.
Qed.

(** Only the table and the claims change. *)
Definition claiming (w : World) (cmds : PendingFirmwareCommands) (claimed : list Claimed.t) : World :=
  mkWorld cmds (claimed ++ claims w) (used w) (issued w) (confirmed w) (spent w).

Lemma inv_claims_perm w cmds l l' : l ≡ₚ l' -> inv (claiming w cmds l) -> inv (claiming w cmds l').
Proof.
  intros Hp Hi. assert (map claim_id (l ++ claims w) ≡ₚ map claim_id (l' ++ claims w)) as Hm.
  { by rewrite Hp. }
  destruct Hi as [I1 I2 I3 I4 I5 I6 I7]. split; simpl in *; try done.
  - intros id c Hc. destruct (I1 id c Hc) as [S1 S2 S3 S4]. split; simpl in *; try done. by rewrite <- Hm.
  - intros id. rewrite <- Hm. apply I3.
  - by rewrite <- Hm.
  - intros id. rewrite <- Hm. apply I5.
Qed.

(** A claim takes its command, never fails, and owns the completion. *)
Lemma claim_command_inv w id c error :
  inv w -> Fw.commands (inner (table w)) !! id = Some c ->
  exists cmds claimed, claim_command c error (table w) = Some (cmds, claimed)
    /\ inv (claiming w cmds [claimed]) /\ Claimed.identity claimed = Pending.identity c
    /\ Fw.commands (inner cmds) = delete id (Fw.commands (inner (table w))).
Proof.
  intros Hi Hc. pose proof (inv_sound _ Hi _ _ Hc) as [S1 S2 S3 S4].
  assert (id ∉ completing (table w)) as Hnc by (intros Hin; by apply S3, (inv_completing _ Hi)).
  unfold claim_command, begin_completion. destruct (remove_command c error (inner (table w))) as [claimed st] eqn:E.
  cbn [completing inner]. rewrite S1, bool_decide_eq_false_2 by done. simpl.
  do 2 eexists. split; [done|].
  assert (Claimed.identity claimed = Pending.identity c) as Ecl by (by injection E as <- _).
  assert (Fw.commands st = delete id (Fw.commands (inner (table w)))) as Ecmd.
  { injection E as _ <-. rewrite S1. by destruct (Pending.prepared_token c). }
  split; [|done]. destruct Hi as [I1 I2 I3 I4 I5 I6 I7].
  assert (claim_id claimed = id) as Eid by (unfold claim_id; by rewrite Ecl).
  split; simpl; rewrite ?Eid.
  - intros id' d. rewrite Ecmd, lookup_delete_Some. intros [Hne Hd].
    destruct (I1 _ _ Hd) as [H1 H2 H3 H4]. split; simpl; rewrite ?Eid; try done.
    intros [->|Hin]%elem_of_cons; done.
  - intros t id'. rewrite Ecmd.
    assert (Fw.prepared_tokens st !! t = Some id' <->
            Pending.prepared_token c <> Some t /\ Fw.prepared_tokens (inner (table w)) !! t = Some id') as Ht.
    { injection E as _ <-. destruct (Pending.prepared_token c) as [t'|] eqn:Et; simpl.
      - rewrite lookup_delete_Some. split; [intros [? ?]; split; [congruence|done]|intros [? ?]; split; [congruence|done]].
      - split; [done|by intros [_ ?]]. }
    rewrite Ht, I2. split.
    + intros (Hne & d & Hd & Hdt). exists d. rewrite lookup_delete_ne; [done|]. intros <-. congruence.
    + intros (d & [Hne Hd]%lookup_delete_Some & Hdt). split; [|by exists d]. intros Hct.
      pose proof (proj2 (I2 t id') (ex_intro _ d (conj Hd Hdt))).
      pose proof (proj2 (I2 t id) (ex_intro _ c (conj Hc Hct))). congruence.
  - intros id' [->%elem_of_singleton|Hin]%elem_of_union; [by left|right; by apply I3].
  - by constructor.
  - intros id' [->|Hin]%elem_of_cons; [done|by apply I5].
  - done.
  - done.
Qed.

Lemma claim_each_inv commands w :
  inv w -> NoDup (map (fun c => Ident.command_id (Pending.identity c)) commands) ->
  (forall c, c ∈ commands -> Fw.commands (inner (table w)) !! Ident.command_id (Pending.identity c) = Some c) ->
  exists cmds claimed, claim_each commands (table w) = Some (cmds, claimed)
    /\ inv (claiming w cmds claimed) /\ map Claimed.identity claimed = map Pending.identity commands
    /\ (forall id, Fw.commands (inner cmds) !! id =
          if bool_decide (id ∈ map (fun c => Ident.command_id (Pending.identity c)) commands) then None
          else Fw.commands (inner (table w)) !! id).
Proof.
  revert w. induction commands as [|c commands IH]; intros w Hi Hnd Hin.
  - exists (table w), []. split; [done|]. split; [by destruct w|]. by split.
  - simpl in Hnd. apply NoDup_cons in Hnd as [Hni Hnd].
    destruct (claim_command_inv w _ c None Hi (Hin c (list_elem_of_here _ _)))
      as (cmds & claimed & E & Hi' & Ecl & Ecmd).
    destruct (IH (claiming w cmds [claimed]) Hi' Hnd) as (cmds' & rest & E' & Hi'' & Ecl' & Ecmd').
    { intros d Hd. cbn [table claiming]. rewrite Ecmd, lookup_delete_ne.
      - apply Hin. by apply list_elem_of_further.
      - intros Heq. apply Hni. rewrite Heq. apply list_elem_of_In, in_map_iff. exists d. by rewrite <- list_elem_of_In. }
    exists cmds', (claimed :: rest). simpl. rewrite E. cbn. cbn in E'. rewrite E'. cbn.
    split; [done|]. split; [|split; [congruence|]].
    + apply (inv_claims_perm w cmds' (rest ++ [claimed])); [by rewrite Permutation_app_comm|].
      unfold claiming in *. cbn in Hi''. by rewrite <- app_assoc.
    + intros id. rewrite Ecmd'. cbn [table claiming]. rewrite Ecmd.
      destruct (decide (id = Ident.command_id (Pending.identity c))) as [->|Hne].
      * rewrite lookup_delete_eq, (bool_decide_eq_true_2 (_ ∈ _ :: _)) by left. by case_match.
      * rewrite lookup_delete_ne by done. do 2 case_bool_decide; try done; set_solver.
Qed.

(** The commands of the table, each once. *)
Lemma table_commands_NoDup w : inv w ->
  NoDup (map (fun c => Ident.command_id (Pending.identity c)) (map snd (map_to_list (Fw.commands (inner (table w)))))).
Proof.
  intros Hi. rewrite map_map. erewrite map_ext_in; [apply NoDup_fst_map_to_list|].
  intros [id c] Hin. apply list_elem_of_In, elem_of_map_to_list in Hin. cbn [snd fst].
  by destruct (inv_sound _ Hi _ _ Hin).
Qed.

Lemma remove_matching_inv predicate w : inv w ->
  exists cmds claimed, remove_matching predicate (table w) = Some (cmds, claimed) /\ inv (claiming w cmds claimed).
Proof.
  intros Hi. unfold remove_matching.
  destruct (claim_each_inv (List.filter (fun c => predicate (Pending.identity c))
      (map snd (map_to_list (Fw.commands (inner (table w)))))) w Hi) as (cmds & claimed & E & Hi' & _).
  - apply NoDup_map_filter, table_commands_NoDup, Hi.
  - intros c Hc. apply list_elem_of_In, filter_In in Hc as [Hc _].
    apply in_map_iff in Hc as ([id c'] & <- & Hin). apply list_elem_of_In, elem_of_map_to_list in Hin. simpl in *.
    by rewrite (sound_id _ _ _ (inv_sound _ Hi _ _ Hin)).
  - eauto.
Qed.

Lemma exact_command_Some identity cmds c :
  exact_command identity cmds = Some c <->
  Fw.commands (inner cmds) !! Ident.command_id identity = Some c /\ Pending.identity c = identity.
Proof.
  unfold exact_command. destruct (_ !! _) as [d|]; [|split; [done|by intros [? _]]].
  destruct (beq _ _) eqn:E; split.
  - intros [= ->]. split; [done|]. by rewrite beq_true in E.
  - by intros [? _].
  - done.
  - intros [[= ->] Hid]. by rewrite beq_false in E.
Qed.

Lemma remove_exact_inv identity error w : inv w ->
  exists cmds claimed, remove_exact identity error (table w) = Some (cmds, claimed)
    /\ inv (claiming w cmds (opt_list claimed)).
Proof.
  intros Hi. unfold remove_exact. destruct (exact_command _ _) as [c|] eqn:E.
  - apply exact_command_Some in E as [Hc _].
    destruct (claim_command_inv w _ c error Hi Hc) as (cmds & claimed & -> & Hi' & _). simpl. eauto.
  - exists (table w), None. split; [done|]. by destruct w.
Qed.

(** What a token admits: its own command, confirmed and not expired. *)
Lemma prepared_command_spec now token w : inv w ->
  prepared_command now token (table w) = Some (Err InvalidPreparedToken)
  \/ exists c metadata expires, let id := Ident.command_id (Pending.identity c) in
       prepared_command now token (table w) = Some (Ok (c, metadata))
       /\ Fw.commands (inner (table w)) !! id = Some c /\ Pending.prepared_token c = Some token
       /\ Pending.phase c = Prepared /\ token ∉ spent w
       /\ issued w !! token = Some (Pending.identity c, metadata, expires) /\ now < expires /\ id ∈ confirmed w.
Proof.
  intros Hi. unfold prepared_command. destruct (Fw.prepared_tokens _ !! token) as [id|] eqn:Et; [|by left].
  pose proof (proj1 (inv_tokens _ Hi token id) Et) as (c & Hc & Htok). rewrite Hc.
  destruct (inv_sound _ Hi _ _ Hc) as [S1 S2 S3 S4].
  destruct (S4 token Htok) as (Hsp & md & exp & His & Hk & He & Hp).
  destruct (_ || _) eqn:Eg; [by left|]. rewrite Hk. right. exists c, md, exp. cbv zeta. rewrite S1.
  apply orb_false_iff in Eg as [E1 E2]. rewrite negb_false_iff, beq_true in E1.
  unfold prepare_expired in E2. rewrite He, Z.leb_gt in E2.
  split_and!; try done. destruct Hp as [Hp|[_ Hp]]; [congruence|done].
Qed.

(** Noting the URL changes neither the table nor what the command is. *)
Lemma note_url_spec command c cmds :
  exists urls, note_url command c cmds
    = (mkPending (Fw.mk (Fw.commands (inner cmds)) (Fw.prepared_tokens (inner cmds))
                    (default (Fw.retained_redaction_urls (inner cmds)) urls)) (completing cmds),
       c <| Pending.transient_url := opt_or (firmware_url command) (Pending.transient_url c) |>).
Proof.
  unfold note_url, reserve_firmware_redaction_url. destruct cmds as [[cs toks urls] comp], c. cbn.
  destruct (firmware_url command) as [url|]; cbn; [|by exists None].
  destruct (existsb _ _); cbn; [by exists None|by eexists (Some _)].
Qed.

Lemma execute_inv now token command waiter w : inv w ->
  exists cmds r, begin_firmware_execute now token command waiter (table w) = Some (cmds, r)
    /\ inv (mkWorld cmds (claims w) (used w) (issued w) (confirmed w) (used_up token r ++ spent w))
    /\ (forall identity, r = Ok identity ->
          token ∉ spent w /\ Ident.command_id identity ∈ confirmed w
          /\ exists expires, now < expires
             /\ issued w !! token = Some (identity, FirmwareControlMetadata.from command, expires)).
Proof.
  intros Hi. unfold begin_firmware_execute.
  destruct (prepared_command_spec now token w Hi) as [->|(c & md & exp & -> & Hc & Htok & Hph & Hsp & His & Hnow & Hcf)].
  { exists (table w), (Err InvalidPreparedToken). split; [done|]. split; [by destruct w|done]. }
  destruct (beq md _) eqn:Em; simpl.
  - rewrite beq_true in Em. subst md. destruct (note_url_spec command c (table w)) as [urls ->].
    do 2 eexists. split; [done|]. split.
    + eapply (inv_spend w _ c _ token); done.
    + intros identity [= <-]. destruct c; simpl in *. split_and!; try done. by exists exp.
  - do 2 eexists. split; [done|]. split; [|done].
    eapply (inv_spend w _ c _ token); done.
Qed.

Lemma validate_inv now token command w : inv w ->
  exists cmds r, validate_firmware_execute now token command (table w) = Some (cmds, r)
    /\ inv (mkWorld cmds (claims w) (used w) (issued w) (confirmed w) (spent w)).
Proof.
  intros Hi. unfold validate_firmware_execute.
  assert (inv (mkWorld (table w) (claims w) (used w) (issued w) (confirmed w) (spent w))) as Hsame by by destruct w.
  destruct (prepared_command_spec now token w Hi) as [->|(c & md & exp & -> & Hc & Htok & _)]; [by eauto|].
  destruct (beq md _); simpl; [|by eauto]. destruct (note_url_spec command c (table w)) as [urls ->].
  do 2 eexists. split; [done|]. destruct (inv_sound _ Hi _ _ Hc) as [S1 S2 S3 S4].
  eapply (inv_set w _ c); [done|done|done|..]; done.
Qed.

Lemma prepared_inv now identity w : inv w ->
  let '(cmds, _, done) := complete_firmware_prepared now identity (table w) in
  inv (mkWorld cmds (claims w) (used w) (issued w)
         (if done then {[Ident.command_id identity]} ∪ confirmed w else confirmed w) (spent w)).
Proof.
  intros Hi. unfold complete_firmware_prepared.
  assert (inv (mkWorld (table w) (claims w) (used w) (issued w) (confirmed w) (spent w))) as Hsame by by destruct w.
  destruct (exact_command identity (table w)) as [c|] eqn:E; [|done].
  apply exact_command_Some in E as [Hc <-]. destruct (_ || _) eqn:Eg; [done|].
  apply orb_false_iff in Eg as [E1 _]. rewrite negb_false_iff, beq_true in E1.
  destruct (inv_sound _ Hi _ _ Hc) as [S1 S2 S3 S4].
  eapply (inv_set w _ c); [done|done|done|..]; try done; [cbn; set_solver|].
  split; try done. intros t Ht. destruct (S4 t Ht) as (Hsp & md & exp & His & Hk & He & _).
  split; [done|]. exists md, exp. split_and!; try done. right. split; [done|]. cbn. set_solver.
Qed.

Lemma published_inv identity w : inv w ->
  inv (mkWorld (fst (mark_firmware_published identity (table w))) (claims w) (used w) (issued w) (confirmed w) (spent w)).
Proof.
  intros Hi. unfold mark_firmware_published.
  assert (inv (mkWorld (table w) (claims w) (used w) (issued w) (confirmed w) (spent w))) as Hsame by by destruct w.
  destruct (exact_command identity (table w)) as [c|] eqn:E; [|done].
  apply exact_command_Some in E as [Hc <-]. destruct (beq _ _) eqn:Ep; [|done]. rewrite beq_true in Ep.
  destruct (inv_sound _ Hi _ _ Hc) as [S1 S2 S3 S4].
  eapply (inv_set w _ c); [done|done|done|..]; try done. split; try done. intros t Ht.
  destruct (S4 t Ht) as (_ & _ & _ & _ & _ & _ & [Hp|[Hp _]]); congruence.
Qed.

Lemma drop_inv claimed w : inv w ->
  inv (mkWorld (finish_completion claimed (table w)) (claims w) (used w) (issued w) (confirmed w) (spent w)).
Proof.
  intros [I1 I2 I3 I4 I5 I6 I7]. split; cbn; try done.
  - intros id c Hc. by destruct (I1 id c Hc).
  - intros id Hid. apply I3. set_solver.
Qed.

Lemma expire_inv now identity w : inv w ->
  exists cmds claimed, expire_firmware_prepare now identity (table w) = Some (cmds, claimed)
    /\ inv (claiming w cmds (opt_list claimed)).
Proof.
  intros Hi. unfold expire_firmware_prepare.
  assert (inv (claiming w (table w) (opt_list None))) as Hsame by by destruct w.
  destruct (exact_command _ _); [|by eauto]. destruct (_ || _); [by eauto|]. by apply remove_exact_inv.
Qed.

Lemma typed_inv identity w : inv w ->
  exists cmds claimed, claim_firmware_typed_result identity (table w) = Some (cmds, claimed)
    /\ inv (claiming w cmds (opt_list claimed)).
Proof.
  intros Hi. unfold claim_firmware_typed_result.
  assert (inv (claiming w (table w) (opt_list None))) as Hsame by by destruct w.
  destruct (exact_command _ _) as [c|] eqn:E; [|by eauto]. destruct (typed_result_expected c); [|by eauto].
  apply exact_command_Some in E as [Hc _].
  destruct (claim_command_inv w _ c None Hi Hc) as (cmds & claimed & -> & Hi' & _). simpl. eauto.
Qed.

(** Every operation returns, and keeps the invariant. *)
Lemma run_inv e w : inv w -> fresh e w -> exists w', run e w = Some w' /\ inv w'.
Proof.
  intros Hi Hf. destruct e; simpl in Hf; unfold run; cbv zeta.
  - eexists. split; [done|].
    apply (inv_insert w (Pending.mk identity KindRefresh RefreshSent None None None None (Some waiter) None)); done.
  - destruct Hf as [Hf Ht]. eexists. split; [done|].
    apply (inv_insert w (Pending.mk identity (KindControl metadata) Preparing (Some token) (Some expires_at)
                           None (Some waiter) None None)); try done.
    split; [done|]. by eexists _, _.
  - pose proof (prepared_inv now identity w Hi) as H1.
    destruct (complete_firmware_prepared now identity (table w)) as [[cmds ans] b]. by eexists.
  - destruct (remove_exact_inv identity error w Hi) as (cmds & claimed & E & Hi').
    unfold claim_firmware_result. rewrite E. by eexists.
  - destruct (typed_inv identity w Hi) as (cmds & claimed & E & Hi'). rewrite E. by eexists.
  - destruct (expire_inv now identity w Hi) as (cmds & claimed & E & Hi'). rewrite E. by eexists.
  - edestruct (remove_matching_inv) as (cmds & claimed & E & Hi'); [done|].
    unfold cancel_firmware_session. rewrite E. by eexists.
  - edestruct (remove_matching_inv) as (cmds & claimed & E & Hi'); [done|].
    unfold cancel_firmware_generation. rewrite E. by eexists.
  - destruct (execute_inv now prepared_token command waiter w Hi) as (cmds & r & E & Hi' & _).
    rewrite E. by eexists.
  - destruct (validate_inv now prepared_token command w Hi) as (cmds & r & E & Hi'). rewrite E. by eexists.
  - eexists. split; [done|]. by apply published_inv.
  - eexists. split; [done|]. by apply drop_inv.
Qed.

Lemma reachable_inv w : reachable w -> inv w.
Proof.
  induction 1 as [|e w w' _ IH Hf Hr]; [apply inv_initial|].
  destruct (run_inv e w IH Hf) as (w'' & Hr' & Hi). congruence.
Qed.

(** C15: a prepared firmware token admits at most one execution.  In every
    interleaving of the table's operations none of them panics, every operation on
    the table returns, and no command is claimed twice; an execution that is
    admitted presents a token that was never used up before, for the command it
    was issued for with exactly the metadata that was prepared, before its expiry
    and after the agent's confirmation; and whatever is done afterwards, the token
    admits nothing any more. *)
Theorem prepared_token_single_use (w : World) (Hw : reachable w) :
  (forall e, fresh e w -> is_Some (run e w))
  /\ NoDup (map claim_id (claims w)) /\ NoDup (spent w)
  /\ (forall now token command waiter cmds identity,
        begin_firmware_execute now token command waiter (table w) = Some (cmds, Ok identity) ->
        token ∉ spent w /\ Ident.command_id identity ∈ confirmed w
        /\ exists expires, now < expires
           /\ issued w !! token = Some (identity, FirmwareControlMetadata.from command, expires))
  /\ (forall now token command waiter, token ∈ spent w ->
        begin_firmware_execute now token command waiter (table w) = Some (table w, Err InvalidPreparedToken)).
Proof.
  pose proof (reachable_inv w Hw) as Hi. split; [|split; [apply (inv_claims _ Hi)|split; [apply (inv_spent _ Hi)|split]]].
  - intros e He. destruct (run_inv e w Hi He) as (w' & -> & _). done.
  - intros now token command waiter cmds identity E.
    destruct (execute_inv now token command waiter w Hi) as (cmds' & r & E' & _ & Hr).
    apply Hr. congruence.
  - intros now token command waiter Ht. unfold begin_firmware_execute.
    destruct (prepared_command_spec now token w Hi) as [->|(c & md & exp & _ & _ & _ & _ & Hns & _)]; done.
Qed.

End Runs.

(** No URL parses: the parser plays no part in the run below. *)
Definition no_urls : UrlParser := {| url_parse := fun _ => None |}.

Definition sample_identity : Ident.t :=
  Ident.mk (mkCommandId 1) (mkTenantId 1) (mkAgentId 1) 7%N "printer" "serial" 1.
Definition sample_start : FirmwareCommand.t :=
  FirmwareCommand.Start "12" 1 "https://firmware.invalid/f?token=t" "ota" "01.02".

(** Prepared, confirmed and executed. *)
Definition executed_world : option World :=
  w ← @run no_urls (Prepare "token" sample_identity (FirmwareControlMetadata.from sample_start) 100 0%N) initial;
  w ← @run no_urls (AgentPrepared 50 sample_identity) w;
  @run no_urls (Execute 60 "token" sample_start 1%N) w.

Lemma prepared_token_single_use_witness :
  exists w, executed_world = Some w /\ spent w = ["token"%string]
    /\ begin_firmware_execute 61 "token" sample_start 2%N (table w)
       = Some (table w, Err InvalidPreparedToken).
Proof.
  destruct executed_world as [w|] eqn:E; [|vm_compute in E; discriminate].
  exists w. split; [reflexivity|].
  assert (spent w = ["token"%string]) as Hs.
  { assert (option_map spent executed_world = Some ["token"%string]) as Hs by (vm_compute; reflexivity).
    rewrite E in Hs. by injection Hs. }
  split; [exact Hs|].
  destruct (@prepared_token_single_use no_urls w) as (_ & _ & _ & _ & Hdead).
  - unfold executed_world in E. apply bind_Some in E as (w1 & E1 & E).
    apply bind_Some in E as (w2 & E2 & E3).
    assert (@reachable no_urls w1) as R1.
    { eapply (@reachable_run no_urls _ initial); [apply reachable_initial| |exact E1].
      split; [set_solver|reflexivity]. }
    assert (@reachable no_urls w2) as R2.
    { eapply (@reachable_run no_urls _ w1); [exact R1| |exact E2]; exact I. }
    eapply (@reachable_run no_urls _ w2); [exact R2| |exact E3]; exact I.
  - apply Hdead. rewrite Hs. set_solver.
Defined.
