(* ===== verification/FirmwareUrls.v ===== *)
(** * Firmware URLs in texts

    A firmware URL carries a signed token.  The URL of an admitted execution is
    retained for its printer, and no text redacted for that printer afterwards
    contains it: what redaction keeps of a text are parts of it, separated by its
    mark or by the constant [Authorization] line. *)

From stdpp Require Import relations sorting gmap fin_maps.
From S2P Require Import Prelude RustStr CoreTypes CoreRecords Redaction Sessions FirmwareCommands FirmwareTokens.

#[local] Open Scope Z_scope.
#[local] Open Scope string_scope.

(** ** What redaction keeps *)

Definition absent (secret s : string) : Prop := str_contains secret s = false.

Lemma absent_iff secret s : absent secret s <-> forall a b, s <> a ++ secret ++ b.
Proof.
  unfold absent. rewrite <- not_true_iff_false, str_contains_iff. split.
  - intros Hn a b ->. apply Hn. eauto.
  - intros Hn (a & b & ->). by apply (Hn a b).
Qed.

Lemma absent_part secret a m b : absent secret (a ++ m ++ b) -> absent secret m.
Proof.
  rewrite !absent_iff. intros Hn x y ->. apply (Hn (a ++ x) (y ++ b)). by rewrite !append_assoc.
Qed.

Lemma absent_prefix secret a b : absent secret (a ++ b) -> absent secret a.
Proof. apply (absent_part secret EmptyString). Qed.

Lemma absent_suffix secret a b : absent secret (a ++ b) -> absent secret b.
Proof. rewrite <- (append_nil_r b) at 1. apply absent_part. Qed.

Lemma absent_nil secret : secret <> EmptyString -> absent secret EmptyString.
Proof. by destruct secret. Qed.

(** [marked s r]: [r] is [s] with some parts replaced by the mark. *)
Inductive marked : string -> string -> Prop :=
| marked_same s : marked s s
| marked_cut a value s r : marked s r -> marked (a ++ value ++ s) (a ++ mark ++ r).

Lemma marked_append h s r : marked s r -> marked (h ++ s) (h ++ r).
Proof.
  destruct 1 as [s|a value s r Hm]; [constructor|]. rewrite <- !(append_assoc h a). by constructor.
Qed.

Lemma str_replace_fuel_marked n from s : marked s (str_replace_fuel n from mark s).
Proof.
  revert s. induction n as [|n IH]; intros s; simpl; [constructor|].
  destruct (split_once from s) as [[a b]|] eqn:E; [|constructor].
  apply split_once_Some in E as ->. by constructor.
Qed.

Lemma redact_key_value_fuel_marked n key s r : redact_key_value_fuel n key s = Some r -> marked s r.
Proof.
  revert s r. induction n as [|n IH]; intros s r; simpl; [done|].
  destruct (split_once key _) as [[before after]|]; [|intros [= <-]; constructor].
  set (k := (String.length before + String.length key)%nat).
  destruct (key_value_bounds _) as [[kept tail]|] eqn:B.
  - apply key_value_bounds_Some in B as (value & B).
    destruct (redact_key_value_fuel n key tail) as [r'|] eqn:E; [|done]. intros [= <-].
    rewrite <- (str_take_drop k s) at 1. rewrite B. apply marked_append. constructor. by apply IH.
  - destruct (redact_key_value_fuel n key _) as [r'|] eqn:E; [|done]. intros [= <-].
    rewrite <- (str_take_drop k s) at 1. apply marked_append. by apply IH.
Qed.

(** A secret the redactor's own texts cannot spell. *)
Record hidden (secret : string) : Prop := {
  hidden_unmarked : unmarked secret;
  hidden_newline : str_contains (String newline EmptyString) secret = false;
  hidden_header : str_contains secret "Authorization: " = false }.

Section Hidden.
Context (secret : string) (Hs : hidden secret).

Lemma hidden_nonempty : secret <> EmptyString.
Proof. by destruct Hs as [(Hn & _) _ _]. Qed.

Lemma marked_absent s r : marked s r -> absent secret s -> absent secret r.
Proof.
  induction 1 as [s|a value s r _ IH]; intros Ha; [done|].
  apply mark_between; [apply Hs|by eapply absent_prefix|]. apply IH.
  eapply absent_suffix. by eapply absent_suffix.
Qed.

Lemma str_replace_absent from s : absent secret s -> absent secret (str_replace from mark s).
Proof. apply marked_absent, str_replace_fuel_marked. Qed.

Lemma redact_key_value_absent line key : absent secret line -> absent secret (redact_key_value line key).
Proof.
  unfold redact_key_value. intros Ha. destruct (redact_key_value_fuel _ _ _) as [r|] eqn:E; simpl.
  - apply redact_key_value_fuel_marked in E. by eapply marked_absent.
  - apply absent_nil, hidden_nonempty.
Qed.

Lemma redact_keys_absent keys line : absent secret line -> absent secret (foldl redact_key_value line keys).
Proof.
  revert line. induction keys as [|key keys IH]; intros line Ha; simpl; [done|].
  by apply IH, redact_key_value_absent.
Qed.

Lemma redact_after_marker_absent line markers :
  absent secret line -> absent secret (redact_after_marker line markers).
Proof.
  intros Ha. induction markers as [|marker markers IH]; simpl; [done|].
  destruct (split_once marker line) as [[prefix rest]|] eqn:E; [|done]. apply split_once_Some in E as ->.
  rewrite <- append_assoc in *. rewrite <- (append_nil_r mark).
  apply mark_between; [apply Hs|by eapply absent_prefix|apply absent_nil, hidden_nonempty].
Qed.

Lemma redact_line_absent line : absent secret line -> absent secret (redact_line line).
Proof.
  intros Ha. unfold redact_line. pose proof (redact_keys_absent redacted_keys _ Ha) as Hk.
  destruct (_ || _); [by apply redact_after_marker_absent|].
  destruct (starts_with _ _).
  { change "Authorization: [redacted]" with ("Authorization: " ++ mark ++ EmptyString).
    apply mark_between; [apply Hs|apply Hs|apply absent_nil, hidden_nonempty]. }
  destruct (str_contains "bearer " _); [by apply redact_after_marker_absent|].
  destruct (str_contains "agent credential " _); [by apply redact_after_marker_absent|].
  destruct (str_contains "plugin ticket " _); [by apply redact_after_marker_absent|done].
Qed.

(** A line is a part of the text, so it has no secret the text has not. *)
Lemma lines_part s l : In l (lines s) -> exists a b, s = a ++ l ++ b.
Proof.
  assert ((exists b, match lines s with [] => True | l :: _ => s = l ++ b end)
          /\ (In l (lines s) -> exists a b, s = a ++ l ++ b)) as [_ Hp]; [|exact Hp].
  induction s as [|c s [[b IHh] IHt]]; [split; [by exists EmptyString|done]|]. cbn [lines].
  assert (In l (lines s) -> exists a b', String c s = a ++ l ++ b') as Htail.
  { intros (a & b' & ->)%IHt. by exists (String c a), b'. }
  destruct (is_char newline c) eqn:En.
  { split; [by exists (String c s)|]. intros [<-|Hl]; [by exists EmptyString, (String c s)|auto]. }
  destruct (is_char carriage_return c && starts_newline s) eqn:Er.
  { split; [|exact Htail]. apply andb_true_iff in Er as [_ Er]. destruct s as [|d s]; [done|].
    unfold starts_newline in Er. cbn [lines]. rewrite Er. by eexists. }
  destruct (lines s) as [|h ls] eqn:El; simpl.
  - split; [by exists s|]. intros [<-|[]]. by exists EmptyString, s.
  - split; [exists b; by rewrite IHh|]. intros [<-|Hl].
    + exists EmptyString, b. by rewrite IHh.
    + apply Htail. by right.
Qed.

Lemma join_absent ls : (forall l, In l ls -> absent secret l) -> absent secret (join (String newline EmptyString) ls).
Proof.
  unfold join. induction ls as [|l ls IH]; intros Ha; simpl; [apply absent_nil, hidden_nonempty|].
  destruct ls as [|l' ls]; [apply Ha; by left|].
  apply contains_around; [apply Hs|apply Ha; by left| |apply hidden_nonempty].
  apply IH. intros x Hx. apply Ha. by right.
Qed.

Lemma redact_secrets_absent message : absent secret message -> absent secret (redact_secrets message).
Proof.
  intros Ha. unfold redact_secrets. apply join_absent. intros l (l' & <- & Hl)%in_map_iff.
  apply redact_line_absent. apply lines_part in Hl as (a & b & ->). by eapply absent_part.
Qed.

(** Cutting the secret out itself leaves none, whatever is cut out before and after. *)
Lemma foldl_replace_absent secrets value :
  In secret secrets \/ absent secret value ->
  absent secret (foldl (fun redacted s => str_replace s mark redacted) value secrets).
Proof.
  revert value. induction secrets as [|s secrets IH]; intros value H; simpl; [by destruct H as [[]|]|].
  apply IH. destruct H as [[->|Hin]|Ha]; [right|by left|right].
  - apply str_replace_clean, Hs.
  - by apply str_replace_absent.
Qed.
End Hidden.

(** ** The URLs of a printer *)

Section Urls.
Context `{UrlParser}.

Lemma dedup_In a l : In a l -> In a (dedup l).
Proof.
  induction l as [|b l IH]; [done|]. intros [->|Hin]; simpl.
  - destruct (dedup l) as [|b k]; [by left|]. destruct (beq a b) eqn:E; [|by left].
    rewrite beq_true in E. subst b. by left.
  - specialize (IH Hin). destruct (dedup l) as [|c k]; [done|]. destruct (beq b c); [done|by right].
Qed.

Lemma firmware_secrets_url url urls : In url urls -> url <> EmptyString -> In url (firmware_secrets urls).
Proof.
  intros Hin Hne. unfold firmware_secrets. apply dedup_In, list_elem_of_In.
  rewrite merge_sort_Permutation. apply list_elem_of_In, in_flat_map. exists url. split; [|by left].
  apply filter_In. split; [done|]. unfold nonempty. by rewrite negb_true_iff, beq_false.
Qed.

Lemma redact_with_urls_absent value urls url :
  hidden url -> In url urls -> absent url (redact_firmware_text_with_urls value urls).
Proof.
  intros Hu Hin. unfold redact_firmware_text_with_urls. apply redact_secrets_absent; [done|].
  apply foldl_replace_absent; [done|]. left. apply firmware_secrets_url; [done|by apply hidden_nonempty].
Qed.

Lemma redact_for_scope_absent state tenant_id serial value url :
  hidden url -> In url (retained_urls state tenant_id serial) ->
  absent url (redact_firmware_text_for_scope state tenant_id serial value).
Proof.
  intros Hu Hin. unfold redact_firmware_text_for_scope. apply redact_with_urls_absent; [done|].
  apply in_or_app. by right.
Qed.

(** ** Retained URLs stay *)

Definition retains (state : Fw.t) (tenant_id : TenantId) (serial url : string) : Prop :=
  In url (retained_urls state tenant_id serial).

(** No retained URL of any printer is given up. *)
Definition keeps (state state' : Fw.t) : Prop :=
  forall tenant_id serial url, retains state tenant_id serial url -> retains state' tenant_id serial url.

Lemma keeps_same state state' :
  Fw.retained_redaction_urls state' = Fw.retained_redaction_urls state -> keeps state state'.
Proof. intros E tenant_id serial url. unfold retains, retained_urls. by rewrite E. Qed.

Lemma keeps_trans a b c : keeps a b -> keeps b c -> keeps a c.
Proof. intros Hab Hbc tenant_id serial url Hu. by apply Hbc, Hab. Qed.

Lemma reserve_retains identity url state :
  keeps state (reserve_firmware_redaction_url identity url state)
  /\ retains (reserve_firmware_redaction_url identity url state) (Ident.tenant_id identity) (Ident.serial identity) url.
Proof.
  unfold reserve_firmware_redaction_url. destruct (existsb _ _) eqn:E.
  - split; [by apply keeps_same|]. apply existsb_exists in E as (u & Hu & E). rewrite beq_true in E. by subst u.
  - split.
    + intros tenant_id serial u. unfold retains, retained_urls. cbn [Fw.retained_redaction_urls].
      destruct (decide ((Ident.tenant_id identity, Ident.serial identity) = (tenant_id, serial))) as [[= <- <-]|Hne].
      * cbn. rewrite lookup_insert_eq. intros Hin. simpl. apply in_or_app. by left.
      * cbn. by rewrite lookup_insert_ne.
    + unfold retains, retained_urls. cbn. rewrite lookup_insert_eq. simpl. apply in_or_app. right. by left.
Qed.

Lemma note_url_keeps command c cmds : keeps (inner cmds) (inner (fst (note_url command c cmds))).
Proof.
  unfold note_url. destruct (firmware_url command) as [url|]; [|by apply keeps_same].
  cbn. apply reserve_retains.
Qed.

Lemma execute_keeps now token command waiter cmds cmds' r :
  begin_firmware_execute now token command waiter cmds = Some (cmds', r) ->
  keeps (inner cmds) (inner cmds')
  /\ forall identity url, r = Ok identity -> firmware_url command = Some url ->
       retains (inner cmds') (Ident.tenant_id identity) (Ident.serial identity) url.
Proof.
  unfold begin_firmware_execute. destruct (prepared_command _ _ _) as [[[c md]|e]|]; [| |done].
  - destruct (beq md _); simpl.
    + pose proof (note_url_keeps command c cmds) as Hk. unfold note_url in *.
      destruct (firmware_url command) as [u|]; cbn in *.
      * intros [= <- <-]. split; [exact Hk|]. intros identity url [= <-] [= ->]. cbn.
        apply (reserve_retains (Pending.identity c) url (inner cmds)).
      * intros [= <- <-]. split; [exact Hk|done].
    + intros [= <- <-]. split; [by apply keeps_same|done].
  - intros [= <- <-]. split; [by apply keeps_same|done].
Qed.

Lemma validate_keeps now token command cmds cmds' r :
  validate_firmware_execute now token command cmds = Some (cmds', r) -> keeps (inner cmds) (inner cmds').
Proof.
  unfold validate_firmware_execute. destruct (prepared_command _ _ _) as [[[c md]|e]|]; [| |done].
  - destruct (beq md _); simpl; [|intros [= <- <-]; by apply keeps_same].
    pose proof (note_url_keeps command c cmds) as Hk. destruct (note_url command c cmds) as [cmds1 c1].
    intros [= <- _]. exact Hk.
  - intros [= <- <-]. by apply keeps_same.
Qed.

Lemma claim_command_keeps c error cmds cmds' claimed :
  claim_command c error cmds = Some (cmds', claimed) -> keeps (inner cmds) (inner cmds').
Proof.
  unfold claim_command, remove_command, begin_completion. cbn.
  destruct (bool_decide _); [done|]. cbn. intros [= <- _]. apply keeps_same.
  by destruct (Pending.prepared_token c).
Qed.

Lemma claim_each_keeps commands cmds cmds' claimed :
  claim_each commands cmds = Some (cmds', claimed) -> keeps (inner cmds) (inner cmds').
Proof.
  revert cmds claimed. induction commands as [|c commands IH]; intros cmds claimed; simpl.
  - intros [= <- _]. by apply keeps_same.
  - destruct (claim_command c None cmds) as [[cmds1 cl]|] eqn:E; [|done]. cbn.
    destruct (claim_each commands cmds1) as [[cmds2 rest]|] eqn:E'; [|done]. cbn. intros [= <- _].
    eapply keeps_trans; [by eapply claim_command_keeps|by eapply IH].
Qed.

Lemma remove_exact_keeps identity error cmds cmds' claimed :
  remove_exact identity error cmds = Some (cmds', claimed) -> keeps (inner cmds) (inner cmds').
Proof.
  unfold remove_exact. destruct (exact_command _ _) as [c|]; [|intros [= <- _]; by apply keeps_same].
  destruct (claim_command c error cmds) as [[cmds1 cl]|] eqn:E; [|done]. intros [= <- _].
  by eapply claim_command_keeps.
Qed.

Lemma claimed_as_keeps w o w' :
  claimed_as w o = Some w' -> (forall cmds cl, o = Some (cmds, cl) -> keeps (inner (table w)) (inner cmds)) ->
  keeps (inner (table w)) (inner (table w')).
Proof. destruct o as [[cmds cl]|]; [|done]. intros [= <-] Hk. by eapply Hk. Qed.

Lemma all_claimed_as_keeps w p w' :
  all_claimed_as w (remove_matching p (table w)) = Some w' -> keeps (inner (table w)) (inner (table w')).
Proof.
  unfold remove_matching. destruct (claim_each _ _) as [[cmds cl]|] eqn:E; [|done]. intros [= <-].
  by eapply claim_each_keeps.
Qed.

Lemma run_keeps e w w' : run e w = Some w' -> keeps (inner (table w)) (inner (table w')).
Proof.
  destruct e; unfold run; cbv zeta.
  - intros [= <-]. by apply keeps_same.
  - intros [= <-]. by apply keeps_same.
  - destruct (complete_firmware_prepared now identity (table w)) as [[cmds ans] b] eqn:E. intros [= <-].
    apply keeps_same. cbn. unfold complete_firmware_prepared in E.
    destruct (exact_command _ _); [|by injection E as <- _ _].
    destruct (_ || _); by injection E as <- _ _.
  - intros E. eapply claimed_as_keeps; [exact E|]. intros cmds cl. apply remove_exact_keeps.
  - intros E. eapply claimed_as_keeps; [exact E|]. intros cmds cl. unfold claim_firmware_typed_result.
    destruct (exact_command _ _) as [c|]; [|intros [= <- _]; by apply keeps_same].
    destruct (typed_result_expected c); [|intros [= <- _]; by apply keeps_same].
    destruct (claim_command c None (table w)) as [[cmds1 cl']|] eqn:E'; [|done]. intros [= <- _].
    by eapply claim_command_keeps.
  - intros E. eapply claimed_as_keeps; [exact E|]. intros cmds cl. unfold expire_firmware_prepare.
    destruct (exact_command _ _) as [c|]; [|intros [= <- _]; by apply keeps_same].
    destruct (_ || _); [intros [= <- _]; by apply keeps_same|apply remove_exact_keeps].
  - apply all_claimed_as_keeps.
  - apply all_claimed_as_keeps.
  - destruct (begin_firmware_execute _ _ _ _ _) as [[cmds r]|] eqn:E; [|done]. intros [= <-].
    by apply execute_keeps in E as [Hk _].
  - destruct (validate_firmware_execute _ _ _ _) as [[cmds r]|] eqn:E; [|done]. intros [= <-].
    by eapply validate_keeps.
  - intros [= <-]. apply keeps_same. cbn. unfold mark_firmware_published.
    destruct (exact_command _ _) as [c|]; [|done]. by destruct (beq _ _).
  - intros [= <-]. by apply keeps_same.
Qed.

Definition runs (w w' : World) : Prop := exists e, run e w = Some w'.

Lemma runs_keep w w' : rtc runs w w' -> keeps (inner (table w)) (inner (table w')).
Proof.
  induction 1 as [w|w w1 w2 [e He] _ IH]; [by apply keeps_same|].
  eapply keeps_trans; [by eapply run_keeps|exact IH].
Qed.

(** C16: the download URL of an admitted firmware execution is never shown: after
    the execution, and whatever runs later (the command's claim and completion
    included), no text redacted for the printer it was sent to contains the URL,
    whatever the text. *)
Theorem firmware_url_never_shown now token command waiter url (w w1 w2 : World) identity cmds
    (Hrun : begin_firmware_execute now token command waiter (table w) = Some (cmds, Ok identity))
    (Hw1 : run (Execute now token command waiter) w = Some w1) (Hlater : rtc runs w1 w2)
    (Hurl : firmware_url command = Some url) (Hhidden : hidden url) :
  forall value, str_contains url
    (redact_firmware_text_for_scope (inner (table w2)) (Ident.tenant_id identity) (Ident.serial identity) value)
    = false.
Proof.
  intros value. apply redact_for_scope_absent; [done|]. apply (runs_keep w1); [done|].
  unfold run in Hw1. rewrite Hrun in Hw1. injection Hw1 as <-. cbn.
  by eapply (proj2 (execute_keeps _ _ _ _ _ _ _ Hrun)).
Qed.
End Urls.

(** The same signed URL in an error of the printer, after the command was claimed. *)
Definition sample_url : string := "https://firmware.invalid/f?token=t".
Definition prepared_world : option World :=
  w ← @run no_urls (Prepare "token" sample_identity (FirmwareControlMetadata.from sample_start) 100 0%N) initial;
  @run no_urls (AgentPrepared 50 sample_identity) w.

Lemma firmware_url_never_shown_witness :
  exists w cmds w1 w2, prepared_world = Some w
    /\ begin_firmware_execute 60 "token" sample_start 1%N (table w) = Some (cmds, Ok sample_identity)
    /\ @run no_urls (Execute 60 "token" sample_start 1%N) w = Some w1
    /\ @run no_urls (Result sample_identity None) w1 = Some w2
    /\ str_contains sample_url
         (@redact_firmware_text_for_scope no_urls (inner (table w2)) (mkTenantId 1) "serial"
            "GET https://firmware.invalid/f?token=t failed") = false.
Proof.
  destruct prepared_world as [w|] eqn:E0; [|vm_compute in E0; discriminate].
  assert (option_map (fun w => option_map snd (begin_firmware_execute 60 "token" sample_start 1%N (table w))) prepared_world
          = Some (Some (Ok sample_identity))) as E1 by (vm_compute; reflexivity).
  rewrite E0 in E1. cbn [option_map] in E1.
  destruct (begin_firmware_execute 60 "token" sample_start 1%N (table w)) as [[cmds r]|] eqn:E2; [|discriminate E1].
  injection E1 as ->.
  destruct (@run no_urls (Execute 60 "token" sample_start 1%N) w) as [w1|] eqn:E3;
    [|unfold run in E3; rewrite E2 in E3; discriminate E3].
  assert (is_some (w ← prepared_world; w1 ← @run no_urls (Execute 60 "token" sample_start 1%N) w;
                   @run no_urls (Result sample_identity None) w1) = true) as E4 by (vm_compute; reflexivity).
  rewrite E0 in E4. cbn [mbind option_bind] in E4. rewrite E3 in E4. cbn [mbind option_bind] in E4.
  destruct (@run no_urls (Result sample_identity None) w1) as [w2|] eqn:E5; [|discriminate E4].
  exists w, cmds, w1, w2. do 4 (split; [first [reflexivity|assumption]|]).
  refine (@firmware_url_never_shown no_urls 60 "token" sample_start 1%N sample_url w w1 w2 sample_identity cmds E2 E3 _ eq_refl _ _).
  - eapply rtc_once. exists (Result sample_identity None). exact E5.
  - split; [split; [discriminate|]; vm_compute; auto|reflexivity|reflexivity].
Defined.
