(* ===== verification/JobTables.v ===== *)
(** * The tables of the job repository, and what its operations share

    The rows beside jobs, commands and artifacts: audit events
    ([repositories/audit.rs]), Studio submission sequences
    ([jobs/studio_ids.rs]), artifact quota reservations and queued artifact
    deletions ([artifacts/lifecycle.rs]).  An insert respects the primary keys,
    unique indexes, checks and foreign keys of [migrations/]; a violation is the
    [Database] error it becomes. *)

From stdpp Require Import sorting.
From S2P Require Import Prelude RustStr CoreTypes CoreRecords Json Store JobRows PrinterRows Tx AgentSessions CommandTransitions.

#[local] Open Scope Z_scope.
#[local] Open Scope rust_scope.
#[local] Open Scope tx_scope.

(** ** Rows *)

Module AuditEventsModel.
Record t := mk {
  id : string; tenant_id : string; actor_type : string; user_id : option string;
  action : string; target_type : string; target_id : option string;
  metadata_json : string; created_at : string }.
End AuditEventsModel.

Module SequencesModel.
Record t := mk { tenant_id : string; last_id : Z }.
End SequencesModel.

Module ReservationsModel.
Record t := mk {
  id : string; tenant_id : string; artifact_id : string; storage_path : string;
  size_bytes : Z; expires_at : string; created_at : string }.
End ReservationsModel.

Module DeletionsModel.
Record t := mk {
  id : string; storage_path : string; attempts : Z; last_error : option string;
  lease_owner : option string; lease_expires_at : option string;
  created_at : string; updated_at : string }.
End DeletionsModel.

Module JobsDb.
Record t := mk {
  main : Db.t; printers : list PrintersModel.t; sequences : list SequencesModel.t;
  audit_events : list AuditEventsModel.t; reservations : list ReservationsModel.t;
  deletions : list DeletionsModel.t }.
End JobsDb.

(** ** Audit records *)

Module AuditActor.
Record t := mk { actor_type : string; user_id : option string; metadata : option json }.

Definition user (user_id : string) : t := mk "user" (Some user_id) None.

(** [AuditTokenActorMetadata] as [audit_metadata] reads it back. *)
Definition token_metadata (tenant_token_id : string) (tenant_token_scopes : list string) : json :=
  Object [("tenant_token_id"%string, Str tenant_token_id);
          ("tenant_token_scopes"%string, Array (map Str tenant_token_scopes))].

Definition tenant_token (user_id : option string) (tenant_token_id : string)
    (tenant_token_scopes : list string) : t :=
  mk "tenant_token" user_id (Some (token_metadata tenant_token_id tenant_token_scopes)).

Definition plugin_token (user_id : option string) (tenant_token_id : string)
    (tenant_token_scopes : list string) : t :=
  mk "plugin_token" user_id (Some (token_metadata tenant_token_id tenant_token_scopes)).

Definition no_auth : t := mk "no_auth" None None.
End AuditActor.

Definition merge_actor_metadata (metadata : json) (actor_metadata : option json) : json :=
  match actor_metadata with
  | None => metadata
  | Some actor_metadata =>
      let merged := match metadata with
                    | Object map => map
                    | other => [("metadata"%string, other)]
                    end in
      match actor_metadata with
      | Object actor_map => Object (btree_extend merged actor_map)
      | _ => Object merged
      end
  end.

(** The printer of [serde_json::Value]-shaped metadata. *)
Class AuditJson := { audit_to_string : json -> string }.

Section Tables.
Context `{Store} `{UuidText} `{JobJson} `{AuditJson}.

Definition jobs_tx (A : Type) : Type := tx JobsDb.t RepositoryError A.

Definition on_db {A} (m : main A) : jobs_tx A :=
  zoom JobsDb.main (fun db s => s <| JobsDb.main := db |>) m.

(** An insert into a table; [conflict] holds of the rows it would collide with. *)
Definition try_insert {R} (conflict : R -> bool) (r : R) (l : list R) : option (list R) :=
  if is_some (select_one conflict l) then None else Some (insert_row r l).

(** [record_audit_event]; [id] and [now] are the drawn UUID and the clock. *)
Definition record_audit_event (id now : string) (tenant_id : TenantId) (actor : AuditActor.t)
    (action target_type : string) (target_id : option string) (metadata : json)
  : AuditEventsModel.t :=
  AuditEventsModel.mk id (TenantId_to_string tenant_id) (AuditActor.actor_type actor)
    (AuditActor.user_id actor) action target_type target_id
    (audit_to_string (merge_actor_metadata metadata (AuditActor.metadata actor))) now.

Definition insert_audit_event (event : AuditEventsModel.t) : jobs_tx unit := fun s =>
  match try_insert (fun r => beq (AuditEventsModel.id r) (AuditEventsModel.id event)) event
          (JobsDb.audit_events s) with
  | None => (s, Err Database)
  | Some rows => (s <| JobsDb.audit_events := rows |>, Ok tt)
  end.

(** ** Commands ([commands/inserts.rs]) *)

Definition insert_command_row (m : CommandsModel.t) : main unit := fun db =>
  match try_insert (fun r => beq (CommandsModel.id r) (CommandsModel.id m)) m (Db.commands db) with
  | None => (db, Err Database)
  | Some rows => (with_commands rows db, Ok tt)
  end.

Definition insert_with_status (id : CommandId) (tenant_id : TenantId) (agent_id : AgentId)
    (printer_id : option string) (kind payload_json created_at : string)
    (status : CommandStatus.t) : main unit :=
  insert_command_row
    (CommandsModel.mk (CommandId_to_string id) (TenantId_to_string tenant_id)
       (AgentId_to_string agent_id) printer_id kind (CommandStatus.as_str status) payload_json
       None None created_at created_at).

Definition insert (id : CommandId) (tenant_id : TenantId) (agent_id : AgentId)
    (printer_id : option string) (kind payload_json created_at : string) : main unit :=
  insert_with_status id tenant_id agent_id printer_id kind payload_json created_at
    CommandStatus.Queued.

(** ** Studio submission ids ([jobs/studio_ids.rs]) *)

Definition has_sequence (tenant : string) (r : SequencesModel.t) : bool :=
  beq (SequencesModel.tenant_id r) tenant.

(** [INSERT .. ON CONFLICT (tenant_id) DO NOTHING]. *)
Definition initialize_sequence (tenant : string) : jobs_tx unit := fun s =>
  (s <| JobsDb.sequences :=
     fst (insert_on_conflict_do_nothing
            (fun r r' => has_sequence (SequencesModel.tenant_id r) r')
            (SequencesModel.mk tenant 0) (JobsDb.sequences s)) |>, Ok tt).

Definition can_advance (tenant : string) (r : SequencesModel.t) : bool :=
  has_sequence tenant r && (SequencesModel.last_id r <? 2147483647).

Definition advance (r : SequencesModel.t) : SequencesModel.t :=
  SequencesModel.mk (SequencesModel.tenant_id r) (SequencesModel.last_id r + 1).

(** [UPDATE .. RETURNING last_id]: the first returned row, if any. *)
Definition advance_sequence (tenant : string) : jobs_tx (option Z) := fun s =>
  (s <| JobsDb.sequences := fst (update_many (can_advance tenant) advance (JobsDb.sequences s)) |>,
   Ok (option_map (fun r => SequencesModel.last_id (advance r))
         (select_one (can_advance tenant) (JobsDb.sequences s)))).

Definition allocate (tenant_id : TenantId) : jobs_tx StudioSubmissionId.t :=
  let tenant := TenantId_to_string tenant_id in
  initialize_sequence tenant ~;;
  row <~ advance_sequence tenant ;;
  match row with
  | None => tfail StudioSubmissionIdExhausted
  | Some last_id =>
      value <~ tlift (ok_or (try_int i32_min i32_max last_id) Database) ;;
      tlift (db_err (StudioSubmissionId.try_from value))
  end.

(** ** Loading one job ([jobs/rows.rs], [jobs/hydration.rs]) *)

(** [ORDER BY slot_index ASC, source ASC]. *)
Definition usage_le (u v : UsagesModel.t) : Prop :=
  (UsagesModel.slot_index u <? UsagesModel.slot_index v)
  || (UsagesModel.slot_index u =? UsagesModel.slot_index v)
     && text_le (UsagesModel.source u) (UsagesModel.source v).

#[export] Instance usage_le_dec : RelDecision usage_le.
Proof. intros u v. unfold usage_le. apply _. Defined.

Definition job_usage (tenant_id job_id : string) (u : UsagesModel.t) : bool :=
  beq (UsagesModel.tenant_id u) tenant_id && beq (UsagesModel.job_id u) job_id.

Definition job_from_model_loading_usage (db : Db.t) (m : JobsModel.t)
  : result RepositoryError Job.t :=
  usage <-? collect usage_from_model
    (merge_sort usage_le
       (select (job_usage (JobsModel.tenant_id m) (JobsModel.id m)) (Db.usages db))) ;;
  job_from_model_with_usage m usage.

Definition artifact_by_id (id : string) (db : Db.t) : option ArtifactsModel.t :=
  select_one (fun a => beq (ArtifactsModel.id a) id) (Db.artifacts db).

Definition artifact_for_job (db : Db.t) (m : JobsModel.t) : result RepositoryError ArtifactsModel.t :=
  ok_or (artifact_by_id (JobsModel.artifact_id m) db) Database.

Definition tenant_job (tenant_id : TenantId) (job_id : string) (m : JobsModel.t) : bool :=
  beq (JobsModel.id m) job_id && beq (JobsModel.tenant_id m) (TenantId_to_string tenant_id).

Definition job_with_artifact_by_id (tenant_id : TenantId) (job_id : JobId) (db : Db.t)
  : result RepositoryError (option JobWithArtifact.t) :=
  match select_one (tenant_job tenant_id (JobId_to_string job_id)) (Db.jobs db) with
  | None => Ok None
  | Some job =>
      artifact <-? artifact_for_job db job ;;
      with_artifact <-? job_with_artifact_from_models job artifact ;;
      loaded <-? job_from_model_loading_usage db job ;;
      Ok (Some (JobWithArtifact.mk loaded (JobWithArtifact.artifact with_artifact)))
  end.

(** [job_with_artifact_by_id(..).await?.ok_or(MissingJob)]. *)
Definition load_required_job (tenant_id : TenantId) (job_id : JobId) : jobs_tx JobWithArtifact.t :=
  job <~ tread (fun s => job_with_artifact_by_id tenant_id job_id (JobsDb.main s)) ;;
  tlift (ok_or job MissingJob).

(** ** Submission ids are consecutive *)

Lemma has_sequence_true tenant r :
  has_sequence tenant r = true <-> SequencesModel.tenant_id r = tenant.
Proof. apply beq_true. Qed.

Lemma can_advance_true tenant r :
  can_advance tenant r = true
  <-> SequencesModel.tenant_id r = tenant /\ SequencesModel.last_id r < 2147483647.
Proof. unfold can_advance. rewrite andb_true_iff, has_sequence_true, Z.ltb_lt. done. Qed.

(** The primary key of [studio_submission_sequences] and its check. *)
Record sequences_ok (rows : list SequencesModel.t) : Prop := {
  seq_key : forall r r', In r rows -> In r' rows ->
    SequencesModel.tenant_id r = SequencesModel.tenant_id r' -> r = r';
  seq_range : forall r, In r rows -> 0 <= SequencesModel.last_id r <= 2147483647;
}.

Definition last_id_of (t : TenantId) (rows : list SequencesModel.t) : Z :=
  match select_one (has_sequence (TenantId_to_string t)) rows with
  | Some r => SequencesModel.last_id r
  | None => 0
  end.

Lemma last_id_in t rows r :
  sequences_ok rows -> In r rows -> SequencesModel.tenant_id r = TenantId_to_string t ->
  select_one (has_sequence (TenantId_to_string t)) rows = Some r.
Proof.
  intros Hok Hin Ht. apply select_one_unique; [done|by apply has_sequence_true|].
  intros r' Hin' Ht'. apply (seq_key rows Hok); [done|done|].
  rewrite has_sequence_true in Ht'. congruence.
Qed.

Lemma last_id_range t rows : sequences_ok rows -> 0 <= last_id_of t rows <= 2147483647.
Proof.
  intros Hok. unfold last_id_of. destruct (select_one _ rows) as [r|] eqn:E; [|lia].
  apply select_one_Some in E as [Hin _]. by apply (seq_range rows Hok).
Qed.

(** The sequence rows after the insert: the tenant has a row and nobody's
    counter moved. *)
Lemma initialized_rows t rows :
  sequences_ok rows ->
  let rows' := fst (insert_on_conflict_do_nothing
    (fun r r' => has_sequence (SequencesModel.tenant_id r) r')
    (SequencesModel.mk (TenantId_to_string t) 0) rows) in
  sequences_ok rows' /\ (forall t', last_id_of t' rows' = last_id_of t' rows)
  /\ exists r, In r rows' /\ SequencesModel.tenant_id r = TenantId_to_string t.
Proof.
  intros Hok. unfold insert_on_conflict_do_nothing. cbn [SequencesModel.tenant_id].
  destruct (select_one _ rows) as [r|] eqn:E; cbn [fst].
  { split_and!; [done|done|]. exists r. apply select_one_Some in E as [Hin Ht].
    split; [done|]. by rewrite has_sequence_true in Ht. }
  assert (forall r, In r rows -> SequencesModel.tenant_id r <> TenantId_to_string t) as Hno.
  { intros r Hin. intros Ht. apply has_sequence_true in Ht.
    by rewrite (select_one_None _ _ _ E Hin) in Ht. }
  assert (sequences_ok (insert_row (SequencesModel.mk (TenantId_to_string t) 0) rows)) as Hok'.
  { split.
    - intros r r' Hr Hr'. rewrite In_insert_row in Hr, Hr'.
      destruct Hr as [-> | Hr], Hr' as [-> | Hr']; simpl; [done|..].
      + intros Ht. by destruct (Hno r' Hr').
      + intros Ht. by destruct (Hno r Hr).
      + by apply (seq_key rows Hok).
    - intros r Hr. rewrite In_insert_row in Hr.
      destruct Hr as [-> | Hr]; simpl; [lia|by apply (seq_range rows Hok)]. }
  split_and!; [done| |].
  - intros t'. unfold last_id_of at 2.
    destruct (select_one (has_sequence (TenantId_to_string t')) rows) as [r|] eqn:E'.
    + apply select_one_Some in E' as [Hin Ht]. rewrite has_sequence_true in Ht.
      unfold last_id_of. rewrite (last_id_in t' _ r); [done|done| |done].
      apply In_insert_row. by right.
    + unfold last_id_of. destruct (select_one _ (insert_row _ _)) as [r|] eqn:E2; [|done].
      apply select_one_Some in E2 as [Hin Ht]. rewrite In_insert_row in Hin.
      destruct Hin as [-> | Hin]; [done|]. by rewrite (select_one_None _ _ _ E' Hin) in Ht.
  - exists (SequencesModel.mk (TenantId_to_string t) 0). split; [|done].
    apply In_insert_row. by left.
Qed.

Lemma advanced_rows t rows :
  sequences_ok rows ->
  let rows' := fst (update_many (can_advance (TenantId_to_string t)) advance rows) in
  sequences_ok rows' /\ (forall t', t' <> t -> last_id_of t' rows' = last_id_of t' rows).
Proof.
  intros Hok rows'.
  assert (forall r', In r' rows' -> exists r, In r rows
            /\ SequencesModel.tenant_id r' = SequencesModel.tenant_id r
            /\ r' = if can_advance (TenantId_to_string t) r then advance r else r) as Hrow.
  { intros r' Hr. apply In_update_many in Hr as (r & Hr & ->). exists r.
    split_and!; [done| |done]. by destruct (can_advance _ r). }
  assert (sequences_ok rows') as Hok'.
  { split.
    - intros r1 r2 (s1 & I1 & T1 & E1)%Hrow (s2 & I2 & T2 & E2)%Hrow Ht.
      assert (s1 = s2) as <- by (apply (seq_key rows Hok); congruence). congruence.
    - intros r (r0 & I0 & _ & ->)%Hrow. pose proof (seq_range rows Hok r0 I0).
      destruct (can_advance _ r0) eqn:C; [|done]. rewrite can_advance_true in C.
      simpl. lia. }
  split; [done|]. intros t' Hne. unfold last_id_of.
  destruct (select_one (has_sequence (TenantId_to_string t')) rows) as [r|] eqn:E.
  - apply select_one_Some in E as [Hin Ht]. rewrite has_sequence_true in Ht.
    rewrite (last_id_in t' rows' r); [done|done| |done]. apply In_update_many. exists r.
    split; [done|]. destruct (can_advance _ r) eqn:C; [|done]. rewrite can_advance_true, Ht in C.
    destruct C as [C _]. by apply (inj _) in C.
  - destruct (select_one _ rows') as [r'|] eqn:E'; [|done].
    apply select_one_Some in E' as [(r & Hin & Ht & _)%Hrow Ht']. rewrite has_sequence_true, Ht in Ht'.
    apply has_sequence_true in Ht'. by rewrite (select_one_None _ _ _ E Hin) in Ht'.
Qed.

(** [allocate] on the rows of the table. *)
Lemma allocate_run t s :
  let tenant := TenantId_to_string t in
  let rows1 := fst (insert_on_conflict_do_nothing
    (fun r r' => has_sequence (SequencesModel.tenant_id r) r')
    (SequencesModel.mk tenant 0) (JobsDb.sequences s)) in
  allocate t s =
  (s <| JobsDb.sequences := fst (update_many (can_advance tenant) advance rows1) |>,
   match select_one (can_advance tenant) rows1 with
   | None => Err StudioSubmissionIdExhausted
   | Some r =>
       value <-? ok_or (try_int i32_min i32_max (SequencesModel.last_id r + 1)) Database ;;
       db_err (StudioSubmissionId.try_from value)
   end).
Proof.
  cbv zeta. unfold allocate, tbind, initialize_sequence, advance_sequence. cbn -[try_int].
  destruct (select_one _ _) as [r|]; [|done]. cbn -[try_int].
  by destruct (try_int _ _ _).
Qed.

(** One allocation: the tenant's next id, or exhaustion at the largest [i32];
    no other tenant's counter and no other table changes. *)
Lemma allocate_spec t s :
  sequences_ok (JobsDb.sequences s) ->
  let n := last_id_of t (JobsDb.sequences s) in
  exists rows, fst (allocate t s) = s <| JobsDb.sequences := rows |>
    /\ sequences_ok rows
    /\ (forall t', t' <> t -> last_id_of t' rows = last_id_of t' (JobsDb.sequences s))
    /\ if n <? 2147483647
       then snd (allocate t s) = Ok (StudioSubmissionId.mk (n + 1)) /\ last_id_of t rows = n + 1
       else snd (allocate t s) = Err StudioSubmissionIdExhausted /\ last_id_of t rows = n.
Proof.
  intros Hok n. rewrite allocate_run.
  destruct (initialized_rows t _ Hok) as (Hok1 & Hlast1 & r & Hr & Ht).
  set (rows1 := fst (insert_on_conflict_do_nothing _ _ _)) in *.
  destruct (advanced_rows t _ Hok1) as (Hok2 & Hlast2).
  set (rows2 := fst (update_many _ _ rows1)) in *.
  pose proof (last_id_in t rows1 r Hok1 Hr Ht) as Hsel.
  assert (SequencesModel.last_id r = n) as Hn.
  { unfold n. rewrite <- Hlast1. unfold last_id_of. by rewrite Hsel. }
  pose proof (last_id_range t _ Hok) as Hrange. fold n in Hrange.
  assert (last_id_of t rows2 = if n <? 2147483647 then n + 1 else n) as Hafter.
  { unfold last_id_of.
    rewrite (last_id_in t rows2 (if can_advance (TenantId_to_string t) r then advance r else r)).
    - unfold can_advance, has_sequence. rewrite Ht, beq_refl, Hn. simpl.
      destruct (n <? 2147483647); simpl; lia.
    - done.
    - apply In_update_many. eauto.
    - by destruct (can_advance _ r). }
  exists rows2.
  destruct (Z.ltb_spec n 2147483647) as [Hlt|Hge].
  - assert (select_one (can_advance (TenantId_to_string t)) rows1 = Some r) as ->.
    { apply select_one_unique; [done| |].
      - apply can_advance_true. by rewrite Hn.
      - intros r' Hr' C. rewrite can_advance_true in C. destruct C as [C _].
        apply (seq_key rows1 Hok1); congruence. }
    assert (try_int i32_min i32_max (n + 1) = Some (n + 1)) as Hint.
    { unfold try_int, in_range, i32_min, i32_max. by replace (_ && _) with true by lia. }
    rewrite Hn, Hint. cbn [ok_or rbind]. unfold StudioSubmissionId.try_from. rewrite Hint.
    replace (n + 1 <=? 0) with false by lia. split_and!; try done.
    intros t' Hne. by rewrite Hlast2, Hlast1.
  - assert (select_one (can_advance (TenantId_to_string t)) rows1 = None) as ->.
    { destruct (select_one (can_advance _) rows1) as [r'|] eqn:E; [|done].
      apply select_one_Some in E as [Hr' C]. rewrite can_advance_true in C.
      destruct C as [C1 C2]. assert (r' = r) as -> by (apply (seq_key rows1 Hok1); congruence).
      lia. }
    split_and!; try done. intros t' Hne. by rewrite Hlast2, Hlast1.
Qed.
End Tables.

Section Ids.
Context `{Store} `{UuidText} `{JobJson} `{AuditJson}.

(** A stream of allocations, each in a transaction of its own. *)
Fixpoint allocate_each (ts : list TenantId) (s : JobsDb.t)
  : JobsDb.t * list (TenantId * result RepositoryError StudioSubmissionId.t) :=
  match ts with
  | [] => (s, [])
  | t :: ts =>
      let '(s, r) := transaction (allocate t) s in
      let '(s, rs) := allocate_each ts s in
      (s, (t, r) :: rs)
  end.

(** What the [i]-th request of a tenant is answered, counted from [last]. *)
Definition nth_id (last : Z) (i : nat) : result RepositoryError StudioSubmissionId.t :=
  let n := last + Z.of_nat i in
  if n <=? 2147483647 then Ok (StudioSubmissionId.mk n) else Err StudioSubmissionIdExhausted.

Definition ids_of (t : TenantId) (rs : list (TenantId * result RepositoryError StudioSubmissionId.t))
  : list (result RepositoryError StudioSubmissionId.t) :=
  map snd (List.filter (fun p => beq (fst p) t) rs).

Lemma transaction_allocate t s :
  sequences_ok (JobsDb.sequences s) ->
  let n := last_id_of t (JobsDb.sequences s) in
  exists s', transaction (allocate t) s = (s', nth_id n 1)
    /\ sequences_ok (JobsDb.sequences s')
    /\ (forall t', t' <> t -> last_id_of t' (JobsDb.sequences s') = last_id_of t' (JobsDb.sequences s))
    /\ last_id_of t (JobsDb.sequences s') = Z.min (n + 1) 2147483647.
Proof.
  intros Hok n. destruct (allocate_spec t s Hok) as (rows & Hs & Hrows & Hothers & Hres).
  pose proof (last_id_range t _ Hok) as Hrange. fold n in Hrange, Hres.
  unfold transaction, nth_id. destruct (allocate t s) as [s1 r]. cbn [fst snd] in *. subst s1.
  destruct (Z.ltb_spec n 2147483647) as [Hlt|Hge]; destruct Hres as [-> Hlast].
  - exists (s <| JobsDb.sequences := rows |>). split_and!; [|done|done|simpl; lia].
    destruct (Z.leb_spec (n + Z.of_nat 1) 2147483647); [done|lia].
  - exists s. split_and!; [|done|done|fold n; lia].
    destruct (Z.leb_spec (n + Z.of_nat 1) 2147483647); [lia|done].
Qed.

(** Studio submission ids of a tenant are handed out consecutively: in any
    interleaving of the requests of all tenants, a tenant's requests are answered
    with the successors of its last id in order, whatever the others do, and with
    exhaustion once the largest 32-bit id is taken; no id is given twice. *)
Theorem studio_ids_consecutive (s : JobsDb.t) (ts : list TenantId) (t : TenantId)
    (Hok : sequences_ok (JobsDb.sequences s)) :
  ids_of t (snd (allocate_each ts s))
  = map (nth_id (last_id_of t (JobsDb.sequences s)))
      (seq 1 (length (List.filter (fun t' => beq t' t) ts))).
Proof.
  revert s Hok. induction ts as [|t0 ts IH]; intros s Hok; [done|].
  cbn [allocate_each]. destruct (transaction_allocate t0 s Hok) as (s' & -> & Hok' & Hne & Heq).
  specialize (IH s' Hok'). destruct (allocate_each ts s') as [s'' rs]. cbn [snd] in *.
  unfold ids_of in *. cbn [List.filter fst]. destruct (beq t0 t) eqn:B; [|].
  - rewrite beq_true in B. subst t0. cbn [List.filter map snd length seq]. f_equal.
    rewrite IH, <- (seq_shift _ 1), map_map. apply map_ext_in. intros i Hi.
    apply in_seq in Hi. unfold nth_id. rewrite Heq.
    pose proof (last_id_range t _ Hok). set (n := last_id_of t (JobsDb.sequences s)) in *.
    destruct (Z.ltb_spec n 2147483647).
    + rewrite Z.min_l by lia. by replace (n + 1 + Z.of_nat i) with (n + Z.of_nat (S i)) by lia.
    + rewrite Z.min_r by lia.
      destruct (Z.leb_spec (2147483647 + Z.of_nat i) 2147483647),
        (Z.leb_spec (n + Z.of_nat (S i)) 2147483647); try lia. done.
  - rewrite IH. rewrite beq_false in B. by rewrite Hne.
Qed.
End Ids.

Definition no_audit_json : AuditJson := {| audit_to_string := fun _ => EmptyString |}.

(** Witness: two tenants, one about to run out. *)
Lemma studio_ids_consecutive_witness :
  let s := JobsDb.mk (Db.mk [] [] [] []) []
             [SequencesModel.mk (@TenantId_to_string binary_uuid (mkTenantId 1)) 2147483646]
             [] [] [] in
  ids_of (mkTenantId 1) (snd (@allocate_each list_store binary_uuid
    [mkTenantId 1; mkTenantId 2; mkTenantId 1] s))
  = [Ok (StudioSubmissionId.mk 2147483647); Err StudioSubmissionIdExhausted].
Proof.
  intros s. assert (sequences_ok (JobsDb.sequences s)) as Hok.
  { split; simpl; [intros r r' [<-|[]] [<-|[]] _; reflexivity|].
    intros r [<-|[]]. simpl. lia. }
  pose proof (@studio_ids_consecutive list_store binary_uuid s
    [mkTenantId 1; mkTenantId 2; mkTenantId 1] (mkTenantId 1) Hok) as Hs.
  rewrite Hs. vm_compute. reflexivity.
Defined.

(** ** Successful statements *)

Section Statements.
Context `{Store} `{UuidText} `{JobJson} `{AuditJson}.

Lemma try_insert_Some {R} (conflict : R -> bool) (r : R) l l' :
  try_insert conflict r l = Some l'
  <-> (forall r', In r' l -> conflict r' = false) /\ l' = insert_row r l.
Proof.
  unfold try_insert. destruct (select_one conflict l) as [x|] eqn:E; simpl; split.
  - done.
  - intros [Hl _]. apply select_one_Some in E as [Hin Hc]. by rewrite Hl in Hc.
  - intros [= <-]. split; [|done]. intros r' Hin. by apply (select_one_None _ _ _ E).
  - by intros [_ ->].
Qed.

Lemma on_db_Ok {A} (m : main A) s s' a :
  on_db m s = (s', Ok a)
  <-> exists db, m (JobsDb.main s) = (db, Ok a) /\ s' = s <| JobsDb.main := db |>.
Proof.
  unfold on_db, zoom. destruct (m (JobsDb.main s)) as [db r]. split.
  - intros [= <- ->]. eauto.
  - intros (db' & [= <- ->] & ->). done.
Qed.

Lemma insert_command_row_Ok m db db' :
  insert_command_row m db = (db', Ok tt)
  <-> (forall r, In r (Db.commands db) -> CommandsModel.id r <> CommandsModel.id m)
      /\ db' = with_commands (insert_row m (Db.commands db)) db.
Proof.
  unfold insert_command_row. destruct (try_insert _ _ _) as [rows|] eqn:E.
  - apply try_insert_Some in E as [Hno ->]. split.
    + intros [= <-]. split; [|done]. intros r Hr. apply beq_false. by apply Hno.
    + by intros [_ ->].
  - split; [done|]. intros [Hno _]. exfalso.
    assert (try_insert (fun r => beq (CommandsModel.id r) (CommandsModel.id m)) m (Db.commands db)
            = Some (insert_row m (Db.commands db))) as E'; [|congruence].
    apply try_insert_Some. split; [|done]. intros r Hr. apply beq_false. by apply Hno.
Qed.

Lemma insert_audit_event_Ok event s s' :
  insert_audit_event event s = (s', Ok tt) ->
  s' = s <| JobsDb.audit_events := insert_row event (JobsDb.audit_events s) |>.
Proof.
  unfold insert_audit_event. destruct (try_insert _ _ _) as [rows|] eqn:E; [|done].
  apply try_insert_Some in E as [_ ->]. by intros [= <-].
Qed.
End Statements.
