(* ===== verification/JobCreate.v ===== *)
(** * Creating print jobs

    [repositories/jobs/create.rs] with [create/build.rs], [create/inserts.rs],
    [create/payload.rs] and [create/validation.rs]; [jobs/audit.rs] and
    [jobs/quota.rs] (artifact quotas); the reservation half of
    [artifacts/lifecycle.rs].  Drawn identifiers and clock readings are
    arguments. *)

From stdpp Require Import sorting.
From S2P Require Import Prelude RustStr CoreTypes CoreRecords Json H2c Compatibility Store JobRows PrinterRows Tx AgentSessions CommandTransitions JobTables.

#[local] Open Scope Z_scope.
#[local] Open Scope rust_scope.
#[local] Open Scope tx_scope.

(** ** Inputs and the command payload *)

Module PrintArtifactInput.
Record t := mk {
  id : string; filename : string; content_type : string; size_bytes : Z;
  storage_path : string; metadata_json : option string }.
End PrintArtifactInput.

Module PrintExecutionOptions.
Record t := mk {
  plate_id : Z; use_ams : bool; auto_bed_leveling : PrintCalibrationMode.t; bed_leveling : bool;
  flow_cali : bool; auto_flow_cali : PrintCalibrationMode.t;
  auto_offset_cali : PrintCalibrationMode.t; timelapse : bool;
  ams_mapping_json : option string; ams_mapping2_json : option string;
  ams_mapping_info_json : option string }.
End PrintExecutionOptions.

Module CreatePrintJob.
Record t := mk {
  tenant_id : TenantId; printer_id : string; agent_id : AgentId;
  artifact : PrintArtifactInput.t; options : PrintExecutionOptions.t }.
End CreatePrintJob.

Module DuplicatePrintJob.
Record t := mk {
  printer_id : option string; plate_id : option Z; use_ams : option bool;
  auto_bed_leveling : option PrintCalibrationMode.t; bed_leveling : option bool;
  flow_cali : option bool; auto_flow_cali : option PrintCalibrationMode.t;
  auto_offset_cali : option PrintCalibrationMode.t; timelapse : option bool;
  replace_ams_mappings : bool; ams_mapping_json : option string;
  ams_mapping2_json : option string; ams_mapping_info_json : option string }.

(** The derived [Default]. *)
Definition default : t :=
  mk None None None None None None None None None false None None None.
End DuplicatePrintJob.

Module PrintProjectFilePayload.
Record t := mk {
  job_id : string; artifact_id : string; printer_id : string; serial_number : string;
  filename : string; storage_path : string; artifact_download_path : string;
  size_bytes : Z; plate_id : Z; use_ams : bool; auto_bed_leveling : PrintCalibrationMode.t;
  bed_leveling : bool; flow_cali : bool; auto_flow_cali : PrintCalibrationMode.t;
  auto_offset_cali : PrintCalibrationMode.t; timelapse : bool;
  ams_mapping_json : option string; ams_mapping2_json : option string;
  ams_mapping_info_json : option string; studio_submission_id : StudioSubmissionId.t;
  studio_metadata : option StudioPrintMetadata }.
End PrintProjectFilePayload.

Module ArtifactQuotaLimits.
Record t := mk { tenant_bytes : Z; tenant_count : Z; global_bytes : Z; global_count : Z }.
End ArtifactQuotaLimits.

(** The handle of a reservation ([ArtifactQuotaReservation], less its database). *)
Module ArtifactQuotaReservation.
Record t := mk { id : string; tenant_id : TenantId; artifact_id : string; storage_path : string }.
End ArtifactQuotaReservation.

(** The three mapping columns and the reader each is validated with. *)
Inductive mapping_field := ams_mapping_field | ams_mapping2_field | ams_mapping_info_field.

(** [serde_json] on the mappings (the length of the list read) and on the
    command payload. *)
Class PrintJson := {
  mapping_len : mapping_field -> string -> option nat;
  print_payload_to_string : PrintProjectFilePayload.t -> string;
  parse_print_payload : string -> option PrintProjectFilePayload.t;
}.

Section Create.
Context `{Store} `{UuidText} `{Rfc3339} `{JobJson} `{AuditJson} `{PrintJson}.

(** ** Validation *)

(** [material_mapping.rs]. *)
Definition validate_mapping_len (len : nat) : bool := (len <=? 32)%nat.

Definition validate_mapping_json (value : option string) (field : mapping_field)
  : result RepositoryError unit :=
  match value with
  | None => Ok tt
  | Some value =>
      len <-? ok_or (mapping_len field value) Database ;;
      if negb (validate_mapping_len len) then Err Database else Ok tt
  end.

Definition validate_mappings (o : PrintExecutionOptions.t) : result RepositoryError unit :=
  validate_mapping_json (PrintExecutionOptions.ams_mapping_json o) ams_mapping_field ?;;
  validate_mapping_json (PrintExecutionOptions.ams_mapping2_json o) ams_mapping2_field ?;;
  validate_mapping_json (PrintExecutionOptions.ams_mapping_info_json o) ams_mapping_info_field.

(** ** Pieces *)

Definition artifact_download_path (agent_id : AgentId) (artifact_id : string) : string :=
  ("/api/v1/agents/" ++ AgentId_to_string agent_id ++ "/artifacts/" ++ artifact_id)%string.

Definition payload (input : CreatePrintJob.t) (job_id : JobId) (serial_number : string)
    (studio_submission_id : StudioSubmissionId.t) (studio_metadata : option StudioPrintMetadata)
  : PrintProjectFilePayload.t :=
  let artifact := CreatePrintJob.artifact input in
  let options := CreatePrintJob.options input in
  PrintProjectFilePayload.mk (JobId_to_string job_id) (PrintArtifactInput.id artifact)
    (CreatePrintJob.printer_id input) serial_number (PrintArtifactInput.filename artifact)
    (PrintArtifactInput.storage_path artifact)
    (artifact_download_path (CreatePrintJob.agent_id input) (PrintArtifactInput.id artifact))
    (PrintArtifactInput.size_bytes artifact) (PrintExecutionOptions.plate_id options)
    (PrintExecutionOptions.use_ams options) (PrintExecutionOptions.auto_bed_leveling options)
    (PrintExecutionOptions.bed_leveling options) (PrintExecutionOptions.flow_cali options)
    (PrintExecutionOptions.auto_flow_cali options) (PrintExecutionOptions.auto_offset_cali options)
    (PrintExecutionOptions.timelapse options) (PrintExecutionOptions.ams_mapping_json options)
    (PrintExecutionOptions.ams_mapping2_json options)
    (PrintExecutionOptions.ams_mapping_info_json options) studio_submission_id studio_metadata.

(** [as i64]: two's complement. *)
Definition as_i64 (n : Z) : Z := (n + 2 ^ 63) mod 2 ^ 64 - 2 ^ 63.

Definition artifact_row (input : CreatePrintJob.t) (now : string) : ArtifactsModel.t :=
  let artifact := CreatePrintJob.artifact input in
  ArtifactsModel.mk (PrintArtifactInput.id artifact)
    (TenantId_to_string (CreatePrintJob.tenant_id input)) (PrintArtifactInput.filename artifact)
    (PrintArtifactInput.content_type artifact) (as_i64 (PrintArtifactInput.size_bytes artifact))
    (PrintArtifactInput.storage_path artifact) (PrintArtifactInput.metadata_json artifact) now.

Definition insert_artifact (input : CreatePrintJob.t) (now : string) : main unit := fun db =>
  match try_insert (fun r => beq (ArtifactsModel.id r) (PrintArtifactInput.id (CreatePrintJob.artifact input)))
          (artifact_row input now) (Db.artifacts db) with
  | None => (db, Err Database)
  | Some rows => (Db.mk (Db.commands db) (Db.jobs db) rows (Db.usages db), Ok tt)
  end.

Definition job_row (input : CreatePrintJob.t) (job_id : JobId) (command_id : CommandId)
    (studio_submission_id : StudioSubmissionId.t) (plate_index : Z)
    (studio_metadata_json : option string) (now : string) : JobsModel.t :=
  let options := CreatePrintJob.options input in
  JobsModel.mk (JobId_to_string job_id) (TenantId_to_string (CreatePrintJob.tenant_id input))
    (CreatePrintJob.printer_id input) (AgentId_to_string (CreatePrintJob.agent_id input))
    (PrintArtifactInput.id (CreatePrintJob.artifact input)) (CommandId_to_string command_id)
    (StudioSubmissionId.get studio_submission_id) plate_index studio_metadata_json
    (JobStatus.as_str JobStatus.Queued) None now now (PrintStatus.as_str PrintStatus.Pending)
    None None None None None None None None None None None None
    (PrintExecutionOptions.ams_mapping_json options)
    (PrintExecutionOptions.ams_mapping2_json options)
    (PrintExecutionOptions.ams_mapping_info_json options) None.

(** The primary key and the two unique indexes of [jobs]. *)
Definition job_conflict (row r : JobsModel.t) : bool :=
  beq (JobsModel.id r) (JobsModel.id row)
  || beq (JobsModel.command_id r) (JobsModel.command_id row)
  || beq (JobsModel.tenant_id r) (JobsModel.tenant_id row)
     && (JobsModel.studio_submission_id r =? JobsModel.studio_submission_id row).

(** Its checks, and its foreign keys on artifacts and commands. *)
Definition job_admissible (row : JobsModel.t) (db : Db.t) : bool :=
  in_range 1 2147483647 (JobsModel.studio_submission_id row)
  && in_range 1 2147483647 (JobsModel.plate_index row)
  && is_some (artifact_by_id (JobsModel.artifact_id row) db)
  && is_some (select_one (fun c => beq (CommandsModel.id c) (JobsModel.command_id row))
                (Db.commands db)).

Definition insert_job_row (row : JobsModel.t) : main unit := fun db =>
  if negb (job_admissible row db) then (db, Err Database)
  else match try_insert (job_conflict row) row (Db.jobs db) with
       | None => (db, Err Database)
       | Some rows => (Db.mk (Db.commands db) rows (Db.artifacts db) (Db.usages db), Ok tt)
       end.

Definition insert_job (input : CreatePrintJob.t) (job_id : JobId) (command_id : CommandId)
    (studio_submission_id : StudioSubmissionId.t) (studio_metadata_json : option string)
    (now : string) : main unit :=
  plate_index <~ tlift (ok_or (try_int i32_min i32_max
    (PrintExecutionOptions.plate_id (CreatePrintJob.options input))) Database) ;;
  insert_job_row (job_row input job_id command_id studio_submission_id plate_index
                    studio_metadata_json now).

Definition build_created_job (input : CreatePrintJob.t) (job_id : JobId) (command_id : CommandId)
    (studio_submission_id : StudioSubmissionId.t) (studio_metadata_json : option string)
    (now : string) : result RepositoryError JobWithArtifact.t :=
  let a := CreatePrintJob.artifact input in
  let options := CreatePrintJob.options input in
  artifact <-? db_err (JobArtifact.from_parts
    (JobArtifactParts.mk (PrintArtifactInput.id a) (CreatePrintJob.tenant_id input)
       (PrintArtifactInput.filename a) (PrintArtifactInput.content_type a)
       (PrintArtifactInput.size_bytes a) (PrintArtifactInput.storage_path a)
       (PrintArtifactInput.metadata_json a) now)) ;;
  job <-? db_err (Job.from_parts parse_studio_metadata
    (JobParts.mk job_id (CreatePrintJob.tenant_id input) (CreatePrintJob.printer_id input)
       (CreatePrintJob.agent_id input) (PrintArtifactInput.id a) command_id
       (StudioSubmissionId.into_i64 studio_submission_id)
       (PrintExecutionOptions.plate_id options) studio_metadata_json
       (JobStatus.as_str JobStatus.Queued) None (PrintStatus.as_str PrintStatus.Pending)
       None None None None None None None None None None None None
       (PrintExecutionOptions.ams_mapping_json options)
       (PrintExecutionOptions.ams_mapping2_json options)
       (PrintExecutionOptions.ams_mapping_info_json options) None [] now now)) ;;
  Ok (JobWithArtifact.mk job artifact).

(** The command and the job, once the artifact row exists. *)
Definition insert_command_and_job (input : CreatePrintJob.t) (now : string) (job_id : JobId)
    (command_id : CommandId) (serial_number : string)
    (studio_submission_id : StudioSubmissionId.t) (studio_metadata : option StudioPrintMetadata)
  : jobs_tx JobWithArtifact.t :=
  let studio_metadata_json := option_map studio_metadata_to_string studio_metadata in
  let payload_json := print_payload_to_string
    (payload input job_id serial_number studio_submission_id studio_metadata) in
  on_db (insert command_id (CreatePrintJob.tenant_id input) (CreatePrintJob.agent_id input)
           (Some (CreatePrintJob.printer_id input)) "print_project_file" payload_json now) ~;;
  on_db (insert_job input job_id command_id studio_submission_id studio_metadata_json now) ~;;
  tlift (build_created_job input job_id command_id studio_submission_id studio_metadata_json now).

(** ** A new artifact *)

Definition tenant_printer (input : CreatePrintJob.t) (m : PrintersModel.t) : bool :=
  beq (PrintersModel.id m) (CreatePrintJob.printer_id input)
  && beq (PrintersModel.tenant_id m) (TenantId_to_string (CreatePrintJob.tenant_id input)).

Definition printer_for_agent (input : CreatePrintJob.t) : jobs_tx string :=
  tread (fun s => ok_or (option_map PrintersModel.serial_number
    (select_one (fun m => tenant_printer input m
                 && beq (PrintersModel.agent_id m) (AgentId_to_string (CreatePrintJob.agent_id input)))
       (JobsDb.printers s))) MissingPrinter).

Definition create_print_job (now : string) (job_id : JobId) (command_id : CommandId)
    (input : CreatePrintJob.t) (studio_metadata : option StudioPrintMetadata)
  : jobs_tx JobWithArtifact.t :=
  tlift (validate_mappings (CreatePrintJob.options input)) ~;;
  serial_number <~ printer_for_agent input ;;
  studio_submission_id <~ allocate (CreatePrintJob.tenant_id input) ;;
  on_db (insert_artifact input now) ~;;
  insert_command_and_job input now job_id command_id serial_number studio_submission_id
    studio_metadata.

(** ** A stored artifact again *)

(** [NewPrintJobFromArtifact::from_source]: the input and its Studio metadata. *)
Definition from_source (source : JobWithArtifact.t) (source_payload : PrintProjectFilePayload.t)
    (overrides : option DuplicatePrintJob.t) : CreatePrintJob.t * option StudioPrintMetadata :=
  let overrides := default DuplicatePrintJob.default overrides in
  let preserve_mappings := negb (DuplicatePrintJob.replace_ams_mappings overrides) in
  let keep (mine theirs : option string) :=
    opt_or mine (if preserve_mappings then theirs else None) in
  let job := JobWithArtifact.job source in
  let artifact := JobWithArtifact.artifact source in
  (CreatePrintJob.mk (Job.tenant_id job)
     (default (Job.printer_id job) (DuplicatePrintJob.printer_id overrides)) (Job.agent_id job)
     (PrintArtifactInput.mk (JobArtifact.id artifact) (JobArtifact.filename artifact)
        (JobArtifact.content_type artifact) (JobArtifact.size_bytes artifact)
        (JobArtifact.storage_path artifact) (JobArtifact.metadata_json artifact))
     (PrintExecutionOptions.mk
        (default (PrintProjectFilePayload.plate_id source_payload)
           (DuplicatePrintJob.plate_id overrides))
        (default (PrintProjectFilePayload.use_ams source_payload)
           (DuplicatePrintJob.use_ams overrides))
        (default (PrintProjectFilePayload.auto_bed_leveling source_payload)
           (DuplicatePrintJob.auto_bed_leveling overrides))
        (default (PrintProjectFilePayload.bed_leveling source_payload)
           (DuplicatePrintJob.bed_leveling overrides))
        (default (PrintProjectFilePayload.flow_cali source_payload)
           (DuplicatePrintJob.flow_cali overrides))
        (default (PrintProjectFilePayload.auto_flow_cali source_payload)
           (DuplicatePrintJob.auto_flow_cali overrides))
        (default (PrintProjectFilePayload.auto_offset_cali source_payload)
           (DuplicatePrintJob.auto_offset_cali overrides))
        (default (PrintProjectFilePayload.timelapse source_payload)
           (DuplicatePrintJob.timelapse overrides))
        (keep (DuplicatePrintJob.ams_mapping_json overrides) (Job.ams_mapping_json job))
        (keep (DuplicatePrintJob.ams_mapping2_json overrides) (Job.ams_mapping2_json job))
        (keep (DuplicatePrintJob.ams_mapping_info_json overrides)
           (Job.ams_mapping_info_json job))),
   PrintProjectFilePayload.studio_metadata source_payload).

Definition printer_for_existing_artifact (input : CreatePrintJob.t)
  : jobs_tx (string * AgentId * option string) :=
  tread (fun s =>
    match select_one (tenant_printer input) (JobsDb.printers s) with
    | None => Err MissingPrinter
    | Some printer =>
        agent_id <-? db_err (AgentId_parse (PrintersModel.agent_id printer)) ;;
        Ok (PrintersModel.serial_number printer, agent_id, PrintersModel.model printer)
    end).

(** An H2C print needs a nozzle mapping. *)
Definition needs_nozzle_mapping (model : option string) (studio_metadata : option StudioPrintMetadata)
  : bool :=
  beq (model ≫= normalize_model) (Some "H2C"%string)
  && negb (is_some_and (fun m => valid_h2c_nozzle_mapping (nozzle_mapping m)) studio_metadata).

Definition create_print_job_from_artifact (now : string) (job_id : JobId) (command_id : CommandId)
    (input : CreatePrintJob.t) (studio_metadata : option StudioPrintMetadata)
  : jobs_tx JobWithArtifact.t :=
  tlift (validate_mappings (CreatePrintJob.options input)) ~;;
  printer <~ printer_for_existing_artifact input ;;
  let '(serial_number, agent_id, model) := printer in
  if needs_nozzle_mapping model studio_metadata then tfail H2cNozzleMappingRequired
  else
    let input := input <| CreatePrintJob.agent_id := agent_id |> in
    studio_submission_id <~ allocate (CreatePrintJob.tenant_id input) ;;
    insert_command_and_job input now job_id command_id serial_number studio_submission_id
      studio_metadata.

(** ** Artifact quotas *)

(** [saturating_add] on [u64]. *)
Definition sat_add_u64 (a b : Z) : Z := Z.min (a + b) u64_max.

Definition sum_bytes {R} (f : R -> Z) (l : list R) : Z := foldr (fun r n => f r + n) 0 l.

(** A reservation that has not expired: [expires_at > now]. *)
Definition live_reservation (now : string) (r : ReservationsModel.t) : bool :=
  text_lt now (ReservationsModel.expires_at r).

(** The rows counted for a tenant, or for everybody. *)
Definition counted_artifacts (tenant : option string) (s : JobsDb.t) : list ArtifactsModel.t :=
  List.filter (fun a => match tenant with
                        | Some t => beq (ArtifactsModel.tenant_id a) t
                        | None => true
                        end) (Db.artifacts (JobsDb.main s)).

Definition counted_reservations (now : string) (tenant : option string) (s : JobsDb.t)
  : list ReservationsModel.t :=
  List.filter (fun r => match tenant with
                        | Some t => beq (ReservationsModel.tenant_id r) t
                        | None => true
                        end && live_reservation now r) (JobsDb.reservations s).

Definition usage_bytes (now : string) (tenant : option string) (s : JobsDb.t) : Z :=
  sum_bytes ArtifactsModel.size_bytes (counted_artifacts tenant s)
  + sum_bytes ReservationsModel.size_bytes (counted_reservations now tenant s).

Definition usage_count (now : string) (tenant : option string) (s : JobsDb.t) : Z :=
  Z.of_nat (length (counted_artifacts tenant s))
  + Z.of_nat (length (counted_reservations now tenant s)).

(** The aggregate query, decoded as two [i64]s and converted to [u64]. *)
Definition load_usage (now : string) (tenant : option string) : jobs_tx (Z * Z) :=
  bytes <~ tread (fun s => ok_or (try_int i64_min i64_max (usage_bytes now tenant s)) Database) ;;
  count <~ tread (fun s => ok_or (try_int i64_min i64_max (usage_count now tenant s)) Database) ;;
  bytes <~ tlift (try_u64 bytes) ;;
  count <~ tlift (try_u64 count) ;;
  tret (bytes, count).

Definition enforce_artifact_quota (now : string) (tenant_id : TenantId) (upload_bytes : Z)
    (quota : ArtifactQuotaLimits.t) : jobs_tx unit :=
  usage <~ load_usage now (Some (TenantId_to_string tenant_id)) ;;
  let '(bytes, count) := usage in
  if (ArtifactQuotaLimits.tenant_count quota <=? count)
     || (ArtifactQuotaLimits.tenant_bytes quota <? sat_add_u64 bytes upload_bytes)
  then tfail ArtifactQuotaExceeded
  else
    usage <~ load_usage now None ;;
    let '(global_bytes, global_count) := usage in
    if (ArtifactQuotaLimits.global_count quota <=? global_count)
       || (ArtifactQuotaLimits.global_bytes quota <? sat_add_u64 global_bytes upload_bytes)
    then tfail ArtifactQuotaExceeded
    else tret tt.

(** ** Creation with its audit event ([jobs/audit.rs]) *)

Definition create_print_job_in_transaction (audit_id now now' : string) (job_id : JobId)
    (command_id : CommandId) (input : CreatePrintJob.t) (metadata : option StudioPrintMetadata)
    (actor : AuditActor.t) : jobs_tx JobWithArtifact.t :=
  created <~ create_print_job now job_id command_id input metadata ;;
  let job := JobWithArtifact.job created in
  insert_audit_event
    (record_audit_event audit_id now' (Job.tenant_id job) actor "job.create" "job"
       (Some (JobId_to_string (Job.id job))) (Object [])) ~;;
  tret created.

(** [quota_now], [now], [now']: the clock at the quota check, the job and the
    audit event. *)
Definition create_print_job_with_optional_metadata (audit_id quota_now now now' : string)
    (job_id : JobId) (command_id : CommandId) (input : CreatePrintJob.t)
    (metadata : option StudioPrintMetadata) (quota : option ArtifactQuotaLimits.t)
    (actor : AuditActor.t) : jobs_tx JobWithArtifact.t :=
  transaction (
    match quota with
    | Some quota =>
        enforce_artifact_quota quota_now (CreatePrintJob.tenant_id input)
          (PrintArtifactInput.size_bytes (CreatePrintJob.artifact input)) quota
    | None => tret tt
    end ~;;
    create_print_job_in_transaction audit_id now now' job_id command_id input metadata actor).

(** ** Queued deletions and reservations *)

(** [lifecycle.rs], [enqueue_deletion]: a path that is already queued stays. *)
Definition enqueue_deletion (id now storage_path : string) : jobs_tx unit := fun s =>
  let row := DeletionsModel.mk id storage_path 0 None None None now now in
  if is_some (select_one (fun r => beq (DeletionsModel.storage_path r) storage_path)
                (JobsDb.deletions s)) then (s, Ok tt)
  else match try_insert (fun r => beq (DeletionsModel.id r) id) row (JobsDb.deletions s) with
       | None => (s, Err Database)
       | Some rows => (s <| JobsDb.deletions := rows |>, Ok tt)
       end.

(** The loop over paths; [fresh] and [clock] give the UUID and the time of the
    row a path would get. *)
Fixpoint enqueue_deletions (fresh clock : string -> string) (paths : list string) : jobs_tx unit :=
  match paths with
  | [] => tret tt
  | path :: paths =>
      enqueue_deletion (fresh path) (clock path) path ~;;
      enqueue_deletions fresh clock paths
  end.

(** [expires_at <= cutoff]. *)
Definition expired_reservation (cutoff : string) (r : ReservationsModel.t) : bool :=
  text_le (ReservationsModel.expires_at r) cutoff.

Definition delete_reservations (p : ReservationsModel.t -> bool) : jobs_tx Z := fun s =>
  let '(rows, n) := delete_many p (JobsDb.reservations s) in
  (s <| JobsDb.reservations := rows |>, Ok n).

Definition reap_expired_reservations_in_transaction (fresh clock : string -> string) (cutoff : string)
  : jobs_tx (list ReservationsModel.t) :=
  expired <~ tread (fun s => Ok (select (expired_reservation cutoff) (JobsDb.reservations s))) ;;
  enqueue_deletions fresh clock (map ReservationsModel.storage_path expired) ~;;
  (if bool_decide (expired = []) then tret 0 else delete_reservations (expired_reservation cutoff)) ~;;
  tret expired.

Definition reap_expired_reservations (fresh clock : string -> string) (cutoff : string) : jobs_tx Z :=
  transaction (
    expired <~ reap_expired_reservations_in_transaction fresh clock cutoff ;;
    tret (Z.of_nat (length expired))).

(** Five minutes. *)
Definition RESERVATION_TTL : Z := 300 * 1000000000.

(** Primary key and [UNIQUE (artifact_id)]. *)
Definition reservation_conflict (row r : ReservationsModel.t) : bool :=
  beq (ReservationsModel.id r) (ReservationsModel.id row)
  || beq (ReservationsModel.artifact_id r) (ReservationsModel.artifact_id row).

Definition insert_reservation (row : ReservationsModel.t) : jobs_tx unit := fun s =>
  match try_insert (reservation_conflict row) row (JobsDb.reservations s) with
  | None => (s, Err Database)
  | Some rows => (s <| JobsDb.reservations := rows |>, Ok tt)
  end.

(** [cutoff] and [now] are the clock at the reaping and at the quota check, [at_]
    the instant of [now_utc]. *)
Definition reserve_artifact_quota (fresh clock : string -> string) (id cutoff now : string) (at_ : Z)
    (tenant_id : TenantId) (artifact_id storage_path : string) (upload_bytes : Z)
    (quota : ArtifactQuotaLimits.t) : jobs_tx ArtifactQuotaReservation.t :=
  transaction (
    reap_expired_reservations_in_transaction fresh clock cutoff ~;;
    enforce_artifact_quota now tenant_id upload_bytes quota ~;;
    size_bytes <~ tlift (ok_or (try_int i64_min i64_max upload_bytes) Database) ;;
    expires_at <~ tlift (ok_or (rfc_format (at_ + RESERVATION_TTL)) Database) ;;
    created_at <~ tlift (ok_or (rfc_format at_) Database) ;;
    insert_reservation
      (ReservationsModel.mk id (TenantId_to_string tenant_id) artifact_id storage_path size_bytes
         expires_at created_at) ~;;
    tret (ArtifactQuotaReservation.mk id tenant_id artifact_id storage_path)).

Definition reservation_by_id (id : string) (s : JobsDb.t) : option ReservationsModel.t :=
  select_one (fun r => beq (ReservationsModel.id r) id) (JobsDb.reservations s).

(** What [complete] refuses to finalize. *)
Definition unfinalizable (self : ArtifactQuotaReservation.t) (input : CreatePrintJob.t)
    (now : string) (r : ReservationsModel.t) : bool :=
  let artifact := CreatePrintJob.artifact input in
  String.leb (ReservationsModel.expires_at r) now
  || negb (beq (ReservationsModel.tenant_id r)
             (TenantId_to_string (ArtifactQuotaReservation.tenant_id self)))
  || negb (beq (ReservationsModel.artifact_id r) (ArtifactQuotaReservation.artifact_id self))
  || negb (beq (ReservationsModel.storage_path r) (ArtifactQuotaReservation.storage_path self))
  || negb (beq (PrintArtifactInput.id artifact) (ArtifactQuotaReservation.artifact_id self))
  || negb (beq (PrintArtifactInput.storage_path artifact)
             (ArtifactQuotaReservation.storage_path self)).

Definition complete (self : ArtifactQuotaReservation.t) (audit_id check_now now now' : string)
    (job_id : JobId) (command_id : CommandId) (input : CreatePrintJob.t)
    (metadata : option StudioPrintMetadata) (actor : AuditActor.t) : jobs_tx JobWithArtifact.t :=
  transaction (
    reservation <~ tread (fun s =>
      ok_or (reservation_by_id (ArtifactQuotaReservation.id self) s) Database) ;;
    if unfinalizable self input check_now reservation then tfail Database
    else
      created <~ create_print_job_in_transaction audit_id now now' job_id command_id input
        metadata actor ;;
      delete_reservations (fun r => beq (ReservationsModel.id r) (ArtifactQuotaReservation.id self)) ~;;
      tret created).

Definition release (self : ArtifactQuotaReservation.t) (fresh : string -> string) (now : string)
  : jobs_tx unit :=
  transaction (
    reservation <~ tread (fun s => Ok (reservation_by_id (ArtifactQuotaReservation.id self) s)) ;;
    match reservation with
    | None => tret tt
    | Some r =>
        enqueue_deletion (fresh (ReservationsModel.storage_path r)) now
          (ReservationsModel.storage_path r) ~;;
        delete_reservations (fun r => beq (ReservationsModel.id r) (ArtifactQuotaReservation.id self)) ~;;
        tret tt
    end).
End Create.

(** ** A created job reads back *)

Section CreateFacts.
Context `{Store} `{UuidText} `{Rfc3339} `{JobJson} `{AuditJson} `{PrintJson}.

Lemma insert_artifact_Ok input now db db' :
  insert_artifact input now db = (db', Ok tt) ->
  (forall a, In a (Db.artifacts db) ->
     ArtifactsModel.id a <> PrintArtifactInput.id (CreatePrintJob.artifact input))
  /\ db' = Db.mk (Db.commands db) (Db.jobs db)
             (insert_row (artifact_row input now) (Db.artifacts db)) (Db.usages db).
Proof.
  unfold insert_artifact. destruct (try_insert _ _ _) as [rows|] eqn:E; [|done].
  apply try_insert_Some in E as [Hno ->]. intros [= <-]. split; [|done].
  intros a Ha. apply beq_false. by apply Hno.
Qed.

Lemma insert_job_Ok input job_id command_id sid meta now db db' :
  insert_job input job_id command_id sid meta now db = (db', Ok tt) ->
  let plate := PrintExecutionOptions.plate_id (CreatePrintJob.options input) in
  let row := job_row input job_id command_id sid plate meta now in
  1 <= plate <= 2147483647
  /\ (forall j, In j (Db.jobs db) -> job_conflict row j = false)
  /\ is_Some (artifact_by_id (PrintArtifactInput.id (CreatePrintJob.artifact input)) db)
  /\ db' = Db.mk (Db.commands db) (insert_row row (Db.jobs db)) (Db.artifacts db) (Db.usages db).
Proof.
  cbv zeta. unfold insert_job. rewrite tbind_Ok. intros (db1 & plate & Hp & Hi).
  rewrite tlift_Ok, ok_or_Ok in Hp. destruct Hp as [-> Hp]. unfold try_int in Hp.
  destruct (in_range i32_min i32_max _); [|done]. injection Hp as <-.
  unfold insert_job_row in Hi. destruct (job_admissible _ db) eqn:Ha; [|done]. cbn [negb] in Hi.
  destruct (try_insert _ _ _) as [rows|] eqn:E; [|done]. apply try_insert_Some in E as [Hno ->].
  injection Hi as <-. unfold job_admissible, in_range in Ha. bprop. cbn in Ha.
  destruct Ha as [[[_ Hplate] Hart] _]. done.
Qed.

Lemma i32_to_u32_range n : 0 <= n <= 2147483647 -> i32_to_u32 n = Ok n.
Proof.
  intros Hn. unfold i32_to_u32, try_int, in_range, u32_max.
  by replace ((0 <=? n) && (n <=? 4294967295)) with true by lia.
Qed.

Lemma as_i64_back n : 0 <= n < 2 ^ 64 -> as_i64 n mod 2 ^ 64 = n.
Proof.
  intros Hn. unfold as_i64. rewrite Zminus_mod, Z.mod_mod, <- Zminus_mod by lia.
  replace (n + 2 ^ 63 - 2 ^ 63) with n by lia. by apply Z.mod_small.
Qed.

(** The rows written for [input] rehydrate to the job that is returned. *)
Lemma created_job_hydrates input job_id command_id sid meta now created :
  build_created_job input job_id command_id sid meta now = Ok created ->
  let plate := PrintExecutionOptions.plate_id (CreatePrintJob.options input) in
  1 <= plate <= 2147483647 ->
  job_from_model_with_usage (job_row input job_id command_id sid plate meta now) []
    = Ok (JobWithArtifact.job created).
Proof.
  cbv zeta. unfold build_created_job. rewrite rbind_Ok. intros (a & _ & Hb) Hplate.
  apply rbind_Ok in Hb as (j & Hj & [= <-]). rewrite db_err_ok in Hj.
  unfold job_from_model_with_usage. cbn -[i32_to_u32 Job.from_parts].
  autorewrite with id_text. cbn -[i32_to_u32 Job.from_parts].
  rewrite i32_to_u32_range by lia. cbn -[Job.from_parts].
  unfold StudioSubmissionId.into_i64 in Hj. cbn [JobStatus.as_str PrintStatus.as_str] in Hj.
  by rewrite Hj.
Qed.

Lemma created_artifact_hydrates input job_id command_id sid meta now created :
  build_created_job input job_id command_id sid meta now = Ok created ->
  0 <= PrintArtifactInput.size_bytes (CreatePrintJob.artifact input) < 2 ^ 64 ->
  (forall j, PrintArtifactInput.metadata_json (CreatePrintJob.artifact input) = Some j ->
     artifact_metadata_ok j = true) ->
  artifact_from_model (artifact_row input now) = Ok (JobWithArtifact.artifact created).
Proof.
  unfold build_created_job. rewrite rbind_Ok. intros (a & Ha & Hb) Hsize Hmeta.
  apply rbind_Ok in Hb as (j & _ & [= <-]). rewrite db_err_ok in Ha.
  unfold artifact_from_model. cbn -[JobArtifact.from_parts as_i64 Z.pow Z.modulo].
  rewrite as_i64_back by done. autorewrite with id_text. cbn -[JobArtifact.from_parts].
  destruct (PrintArtifactInput.metadata_json _) as [m|]; [rewrite (Hmeta m eq_refl)|];
    cbn -[JobArtifact.from_parts]; by rewrite Ha.
Qed.

(** Usage rows belong to existing jobs (their foreign key). *)
Definition usages_owned (db : Db.t) : Prop :=
  forall u, In u (Db.usages db) ->
    exists j, In j (Db.jobs db) /\ JobsModel.id j = UsagesModel.job_id u.

(** Loading a job that was just inserted. *)
Lemma new_job_loads t job_id row a art j db db' :
  JobsModel.id row = JobId_to_string job_id -> JobsModel.tenant_id row = TenantId_to_string t ->
  (forall r, In r (Db.jobs db) -> job_conflict row r = false) -> usages_owned db ->
  Db.jobs db' = insert_row row (Db.jobs db) -> Db.usages db' = Db.usages db ->
  artifact_by_id (JobsModel.artifact_id row) db' = Some a -> artifact_from_model a = Ok art ->
  job_from_model_with_usage row [] = Ok j ->
  job_with_artifact_by_id t job_id db' = Ok (Some (JobWithArtifact.mk j art)).
Proof.
  intros Hid Ht Hfresh Husage Hjs Hus Ha Hart Hjob.
  assert (forall r, In r (Db.jobs db) -> JobsModel.id r <> JobId_to_string job_id) as Hjid.
  { intros r Hr E. specialize (Hfresh r Hr). unfold job_conflict in Hfresh.
    rewrite E, Hid, beq_refl in Hfresh. discriminate. }
  unfold job_with_artifact_by_id. rewrite Hjs, (select_one_inserted _ row); cycle 1.
  { unfold tenant_job. by rewrite Hid, Ht, !beq_refl. }
  { intros r Hr. unfold tenant_job. apply andb_false_iff. left. apply beq_false. by apply Hjid. }
  unfold artifact_for_job. rewrite Ha. cbn [ok_or rbind].
  unfold job_with_artifact_from_models, job_from_model. rewrite Hjob, Hart. cbn [rbind].
  unfold job_from_model_loading_usage. rewrite Hus.
  assert (select (job_usage (JobsModel.tenant_id row) (JobsModel.id row)) (Db.usages db) = []) as ->.
  { destruct (select _ _) as [|u us] eqn:E; [done|].
    assert (In u (select (job_usage (JobsModel.tenant_id row) (JobsModel.id row)) (Db.usages db)))
      as Hu by (rewrite E; by left).
    apply select_In in Hu as [Hu Hf]. destruct (Husage u Hu) as (r & Hr & Eid).
    unfold job_usage in Hf. rewrite andb_true_iff, !beq_true in Hf.
    destruct (Hjid r Hr). by rewrite Eid, (proj2 Hf). }
  change (merge_sort usage_le []) with (@nil UsagesModel.t). cbn [collect rbind].
  rewrite Hjob. done.
Qed.

(** The command row of a created job. *)
Definition print_command_row (input : CreatePrintJob.t) (now : string) (command_id : CommandId)
    (payload : PrintProjectFilePayload.t) : CommandsModel.t :=
  CommandsModel.mk (CommandId_to_string command_id)
    (TenantId_to_string (CreatePrintJob.tenant_id input))
    (AgentId_to_string (CreatePrintJob.agent_id input)) (Some (CreatePrintJob.printer_id input))
    "print_project_file" (CommandStatus.as_str CommandStatus.Queued)
    (print_payload_to_string payload) None None now now.

(** The rows a creation adds to the commands and the jobs. *)
Record print_queued (now : string) (job_id : JobId) (command_id : CommandId)
    (input : CreatePrintJob.t) (serial_number : string) (sid : StudioSubmissionId.t)
    (metadata : option StudioPrintMetadata) (db db' : Db.t) : Prop := {
  pq_commands : Db.commands db' =
    insert_row (print_command_row input now command_id
                  (payload input job_id serial_number sid metadata)) (Db.commands db);
  pq_jobs : Db.jobs db' =
    insert_row (job_row input job_id command_id sid
                  (PrintExecutionOptions.plate_id (CreatePrintJob.options input))
                  (option_map studio_metadata_to_string metadata) now) (Db.jobs db);
  pq_usages : Db.usages db' = Db.usages db;
  pq_fresh_command : forall c, In c (Db.commands db) ->
    CommandsModel.id c <> CommandId_to_string command_id;
  pq_fresh_job : forall j, In j (Db.jobs db) ->
    job_conflict (job_row input job_id command_id sid
      (PrintExecutionOptions.plate_id (CreatePrintJob.options input))
      (option_map studio_metadata_to_string metadata) now) j = false;
  pq_plate : 1 <= PrintExecutionOptions.plate_id (CreatePrintJob.options input) <= 2147483647;
  pq_artifact : is_Some (artifact_by_id (PrintArtifactInput.id (CreatePrintJob.artifact input)) db);
}.

Lemma insert_command_and_job_Ok now job_id command_id input serial sid metadata s s' created :
  insert_command_and_job input now job_id command_id serial sid metadata s = (s', Ok created) ->
  exists db', s' = s <| JobsDb.main := db' |>
    /\ print_queued now job_id command_id input serial sid metadata (JobsDb.main s) db'
    /\ Db.artifacts db' = Db.artifacts (JobsDb.main s)
    /\ build_created_job input job_id command_id sid
         (option_map studio_metadata_to_string metadata) now = Ok created.
Proof.
  unfold insert_command_and_job. rewrite tbind_Ok. intros (s1 & [] & Hc & Hk).
  apply on_db_Ok in Hc as (db1 & Hc & ->). apply insert_command_row_Ok in Hc as [Hfresh ->].
  apply tbind_Ok in Hk as (s2 & [] & Hj & Hb). apply on_db_Ok in Hj as (db2 & Hj & ->).
  apply tlift_Ok in Hb as [-> Hb]. apply insert_job_Ok in Hj. cbv zeta in Hj.
  destruct Hj as (Hplate & Hno & Hart & ->). cbn in Hno, Hart. eexists. split; [done|].
  split_and!; [|done|done]. by split.
Qed.

(** What a successful [create_print_job] has done. *)
Lemma create_print_job_Ok now job_id command_id input metadata s s' created :
  create_print_job now job_id command_id input metadata s = (s', Ok created) ->
  exists rows serial sid db',
    snd (printer_for_agent input s) = Ok serial
    /\ allocate (CreatePrintJob.tenant_id input) s = (s <| JobsDb.sequences := rows |>, Ok sid)
    /\ s' = s <| JobsDb.sequences := rows |> <| JobsDb.main := db' |>
    /\ print_queued now job_id command_id input serial sid metadata
         (Db.mk (Db.commands (JobsDb.main s)) (Db.jobs (JobsDb.main s)) (Db.artifacts db')
            (Db.usages (JobsDb.main s))) db'
    /\ Db.artifacts db' = insert_row (artifact_row input now) (Db.artifacts (JobsDb.main s))
    /\ (forall a, In a (Db.artifacts (JobsDb.main s)) ->
          ArtifactsModel.id a <> PrintArtifactInput.id (CreatePrintJob.artifact input))
    /\ build_created_job input job_id command_id sid
         (option_map studio_metadata_to_string metadata) now = Ok created.
Proof.
  unfold create_print_job. rewrite tbind_Ok. intros (s1 & [] & Hv & Hk).
  apply tlift_Ok in Hv as [-> _]. apply tbind_Ok in Hk as (s2 & serial & Hp & Hk).
  assert (snd (printer_for_agent input s) = Ok serial) as Hserial by (by rewrite Hp).
  apply tread_Ok in Hp as [-> _]. apply tbind_Ok in Hk as (s3 & sid & Ha & Hk).
  apply tbind_Ok in Hk as (s4 & [] & Hart & Hk). apply on_db_Ok in Hart as (db1 & Hart & ->).
  apply insert_artifact_Ok in Hart as [Hno ->].
  apply insert_command_and_job_Ok in Hk as (db' & -> & Hq & Harts & Hb).
  rewrite allocate_run in Ha |- *. cbv zeta in Ha |- *. injection Ha as <- Hsid.
  eexists _, serial, sid, db'. cbn in Hq, Harts, Hno. rewrite Harts, Hsid.
  split_and!; done.
Qed.

Lemma built_statuses input job_id command_id sid meta now created :
  build_created_job input job_id command_id sid meta now = Ok created ->
  Job.status (JobWithArtifact.job created) = JobStatus.Queued
  /\ JobPrintState.status (Job.print (JobWithArtifact.job created)) = PrintStatus.Pending.
Proof.
  unfold build_created_job. rewrite rbind_Ok. intros (a & _ & Hb).
  apply rbind_Ok in Hb as (j & Hj & [= <-]). rewrite db_err_ok in Hj. unfold Job.from_parts in Hj.
  do 4 (apply rbind_Ok in Hj as (? & _ & Hj)).
  apply rbind_Ok in Hj as (status & Hst & Hj). apply rbind_Ok in Hj as (print & Hpr & Hj).
  injection Hj as <-. injection Hst as <-. by injection Hpr as <-.
Qed.

(** C32: a created print job is what a later read returns: when creation succeeds,
    loading the job by its id gives the very record that was returned, and the
    database gained exactly one queued print command, one queued and pending job
    for it and one artifact, every older row being as before. *)
Theorem created_job_reads_back (now : string) (job_id : JobId) (command_id : CommandId)
    (input : CreatePrintJob.t) (metadata : option StudioPrintMetadata) (s s' : JobsDb.t)
    (created : JobWithArtifact.t)
    (Hok : create_print_job now job_id command_id input metadata s = (s', Ok created))
    (Hsize : 0 <= PrintArtifactInput.size_bytes (CreatePrintJob.artifact input) < 2 ^ 64)
    (Hmeta : forall j, PrintArtifactInput.metadata_json (CreatePrintJob.artifact input) = Some j ->
       artifact_metadata_ok j = true)
    (Husage : usages_owned (JobsDb.main s)) :
  job_with_artifact_by_id (CreatePrintJob.tenant_id input) job_id (JobsDb.main s')
    = Ok (Some created)
  /\ Job.status (JobWithArtifact.job created) = JobStatus.Queued
  /\ JobPrintState.status (Job.print (JobWithArtifact.job created)) = PrintStatus.Pending
  /\ exists serial sid c j a,
       Db.commands (JobsDb.main s') ≡ₚ c :: Db.commands (JobsDb.main s)
       /\ Db.jobs (JobsDb.main s') ≡ₚ j :: Db.jobs (JobsDb.main s)
       /\ Db.artifacts (JobsDb.main s') ≡ₚ a :: Db.artifacts (JobsDb.main s)
       /\ Db.usages (JobsDb.main s') = Db.usages (JobsDb.main s)
       /\ c = print_command_row input now command_id (payload input job_id serial sid metadata)
       /\ JobsModel.command_id j = CommandsModel.id c
       /\ JobsModel.artifact_id j = ArtifactsModel.id a.
Proof.
  apply create_print_job_Ok in Hok as (rows & serial & sid & db' & _ & _ & Hs & Hq & Harts & Hno & Hb).
  assert (JobsDb.main s' = db') as Hmain by (by subst s').
  rewrite Hmain. clear Hs Hmain.
  destruct Hq as [Hcs Hjs Hus _ Hfresh Hplate _]. cbn in Hcs, Hjs, Hus, Hfresh.
  destruct (built_statuses _ _ _ _ _ _ _ Hb) as [Hstatus Hprint].
  split_and!; [|done|done|].
  - assert (created = JobWithArtifact.mk (JobWithArtifact.job created) (JobWithArtifact.artifact created))
      as -> by (by destruct created).
    eapply (new_job_loads _ _ _ (artifact_row input now)); [..|exact Hfresh|exact Husage|exact Hjs|exact Hus| | |].
    + done.
    + done.
    + unfold artifact_by_id. rewrite Harts. apply select_one_inserted; [apply beq_refl|].
      intros a Ha. apply beq_false. by apply Hno.
    + by eapply created_artifact_hydrates.
    + by eapply created_job_hydrates.
  - exists serial, sid. do 3 eexists. rewrite Hcs, Hjs, Harts, !insert_row_perm. by split_and!.
Qed.
End CreateFacts.
