(* ===== verification/JobRecovery.v ===== *)
(** * Cancelling, retrying, repeating and stalling print jobs

    [repositories/jobs/cancel.rs], [jobs/recovery.rs] and [jobs/stalled.rs].
    Each operation runs in one transaction whose writes are compare-and-sets on
    the statuses it may leave. *)

From stdpp Require Import sorting.
From S2P Require Import Prelude RustStr CoreTypes CoreRecords Json H2c Compatibility Store JobRows PrinterRows PrintState Tx AgentSessions CommandTransitions JobTables JobCreate.

#[local] Open Scope Z_scope.
#[local] Open Scope rust_scope.
#[local] Open Scope tx_scope.

Section Recovery.
Context `{Store} `{UuidText} `{Rfc3339} `{JobJson} `{AuditJson} `{PrintJson}.

(** ** Shared filters *)

(** [Condition::any().add(c.is_null()).add(c.eq(0))]. *)
Definition null_or_zero (o : option Z) : bool :=
  match o with None => true | Some n => n =? 0 end.

(** Nothing of the print has happened: pending, not started, no progress. *)
Definition print_untouched (m : JobsModel.t) : bool :=
  beq (JobsModel.print_status m) (PrintStatus.as_str PrintStatus.Pending)
  && is_none (JobsModel.print_started_at m)
  && null_or_zero (JobsModel.progress_percent m)
  && null_or_zero (JobsModel.current_layer m).

Definition tenant_text (m : JobsModel.t) (tenant_id : TenantId) : bool :=
  beq (JobsModel.tenant_id m) (TenantId_to_string tenant_id).

(** ** Studio cancellation ([cancel.rs]) *)

Definition submission_job (tenant_id : TenantId) (submission : StudioSubmissionId.t)
    (m : JobsModel.t) : bool :=
  tenant_text m tenant_id
  && (JobsModel.studio_submission_id m =? StudioSubmissionId.get submission).

(** [load_job_reference] and [load_job_for_update] run the same query. *)
Definition load_submission_job (tenant_id : TenantId) (submission : StudioSubmissionId.t)
  : jobs_tx JobsModel.t :=
  tread (fun s => ok_or (select_one (submission_job tenant_id submission)
                           (Db.jobs (JobsDb.main s))) MissingJob).

Definition print_command_of (tenant_id : TenantId) (command_id : string) (m : CommandsModel.t)
  : bool :=
  beq (CommandsModel.id m) command_id
  && beq (CommandsModel.tenant_id m) (TenantId_to_string tenant_id)
  && beq (CommandsModel.kind m) "print_project_file"%string.

Definition load_print_command (tenant_id : TenantId) (command_id : string)
  : jobs_tx CommandsModel.t :=
  tread (fun s => ok_or (select_one (print_command_of tenant_id command_id)
                           (Db.commands (JobsDb.main s))) MissingCommand).

Definition is_cancelled (command : CommandsModel.t) (job : JobsModel.t) : bool :=
  beq (CommandsModel.status command) (CommandStatus.as_str CommandStatus.Cancelled)
  && beq (JobsModel.status job) (JobStatus.as_str JobStatus.Cancelled)
  && beq (JobsModel.print_status job) (PrintStatus.as_str PrintStatus.Cancelled).

Definition cancel_command (now : string) (m : CommandsModel.t) : CommandsModel.t :=
  m <| CommandsModel.status := CommandStatus.as_str CommandStatus.Cancelled |>
    <| CommandsModel.error := None |> <| CommandsModel.updated_at := now |>.

Definition cancel_job (now : string) (m : JobsModel.t) : JobsModel.t :=
  m <| JobsModel.status := JobStatus.as_str JobStatus.Cancelled |>
    <| JobsModel.print_status := PrintStatus.as_str PrintStatus.Cancelled |>
    <| JobsModel.error := None |> <| JobsModel.updated_at := now |>.

Definition queued_command (tenant_id : TenantId) (command_id : string) (m : CommandsModel.t)
  : bool :=
  print_command_of tenant_id command_id m
  && beq (CommandsModel.status m) (CommandStatus.as_str CommandStatus.Queued).

Definition queued_job (tenant_id : TenantId) (job : JobsModel.t) (m : JobsModel.t) : bool :=
  beq (JobsModel.id m) (JobsModel.id job) && tenant_text m tenant_id
  && beq (JobsModel.command_id m) (JobsModel.command_id job)
  && beq (JobsModel.status m) (JobStatus.as_str JobStatus.Queued)
  && beq (JobsModel.print_status m) (PrintStatus.as_str PrintStatus.Pending).

(** How the transaction ends: the job was cancelled before, or is now. *)
Inductive cancellation := AlreadyCancelled (job_id : string) | Cancelled_ (job_id : JobId).

Definition cancel_in_transaction (audit_id now now' : string) (tenant_id : TenantId)
    (submission : StudioSubmissionId.t) (actor : AuditActor.t) : jobs_tx cancellation :=
  job_reference <~ load_submission_job tenant_id submission ;;
  command <~ load_print_command tenant_id (JobsModel.command_id job_reference) ;;
  job <~ load_submission_job tenant_id submission ;;
  if is_cancelled command job then tret (AlreadyCancelled (JobsModel.id job))
  else if negb (beq (CommandsModel.status command) (CommandStatus.as_str CommandStatus.Queued))
  then tfail StudioCancellationTooLate
  else
    affected <~ on_db (update_commands (queued_command tenant_id (JobsModel.command_id job))
                         (cancel_command now)) ;;
    if negb (affected =? 1) then tfail StudioCancellationTooLate
    else
      affected <~ on_db (update_jobs (queued_job tenant_id job) (cancel_job now)) ;;
      if negb (affected =? 1) then tfail StudioCancellationTooLate
      else
        job_id <~ tlift (db_err (JobId_parse (JobsModel.id job))) ;;
        insert_audit_event
          (record_audit_event audit_id now' tenant_id actor "job.cancel" "job"
             (Some (JobsModel.id job)) (Object [])) ~;;
        tret (Cancelled_ job_id).

Definition cancel_studio_print_with_audit (audit_id now now' : string) (tenant_id : TenantId)
    (submission : StudioSubmissionId.t) (actor : AuditActor.t) : jobs_tx JobWithArtifact.t :=
  outcome <~ transaction (cancel_in_transaction audit_id now now' tenant_id submission actor) ;;
  match outcome with
  | AlreadyCancelled job_id =>
      job_id <~ tlift (db_err (JobId_parse job_id)) ;;
      load_required_job tenant_id job_id
  | Cancelled_ job_id => load_required_job tenant_id job_id
  end.

(** ** Recovery ([recovery.rs]) *)

Definition opt_str (o : option string) : json :=
  match o with Some s => Str s | None => Null end.

(** [RecoveryAuditMetadata], read back with its keys in order. *)
Definition recovery_metadata (reason : option string) (source_job_id : JobId)
    (source_command_id : CommandId) (target_job_id : JobId) (target_command_id : CommandId)
  : json :=
  Object [("reason"%string, opt_str reason);
          ("source_command_id"%string, Str (CommandId_to_string source_command_id));
          ("source_job_id"%string, Str (JobId_to_string source_job_id));
          ("target_command_id"%string, Str (CommandId_to_string target_command_id));
          ("target_job_id"%string, Str (JobId_to_string target_job_id))].

Definition insert_recovery_audit (audit_id now : string) (tenant_id : TenantId)
    (actor : AuditActor.t) (action : string) (reason : option string) (source_job_id : JobId)
    (source_command_id : CommandId) (target_job_id : JobId) (target_command_id : CommandId)
  : jobs_tx unit :=
  insert_audit_event
    (record_audit_event audit_id now tenant_id actor action "job"
       (Some (JobId_to_string target_job_id))
       (recovery_metadata reason source_job_id source_command_id target_job_id
          target_command_id)).

(** Usage rows come in the engine's order here. *)
Definition load_job_for_update (tenant_id : TenantId) (job_id : JobId)
  : jobs_tx JobWithArtifact.t :=
  tread (fun s =>
    let db := JobsDb.main s in
    job <-? ok_or (select_one (tenant_job tenant_id (JobId_to_string job_id)) (Db.jobs db))
              MissingJob ;;
    artifact <-? artifact_for_job db job ;;
    usage <-? collect usage_from_model
      (select (job_usage (TenantId_to_string tenant_id) (JobsModel.id job)) (Db.usages db)) ;;
    source <-? job_with_artifact_from_models job artifact ;;
    loaded <-? job_from_model_with_usage job usage ;;
    Ok (source <| JobWithArtifact.job := loaded |>)).

Definition load_command (source : JobWithArtifact.t) : jobs_tx CommandRecord.t :=
  command <~ on_db (get (Job.command_id (JobWithArtifact.job source))) ;;
  tlift (ok_or command MissingCommand).

Definition is_retry_safe (source : JobWithArtifact.t) (command : CommandRecord.t) : bool :=
  let job := JobWithArtifact.job source in
  let print := Job.print job in
  beq (Job.status job) JobStatus.Failed
  && beq (CommandRecord.status command) CommandStatus.Failed
  && beq (JobPrintState.status print) PrintStatus.Pending
  && is_none (JobPrintState.started_at print)
  && (default 0 (JobPrintState.progress_percent print) =? 0)
  && (default 0 (JobPrintState.current_layer print) =? 0).

Definition retry_payload (payload_json : string) (job_id : JobId) (source : JobWithArtifact.t)
  : result RepositoryError string :=
  payload <-? ok_or (parse_print_payload payload_json) Database ;;
  Ok (print_payload_to_string
    (payload <| PrintProjectFilePayload.job_id := JobId_to_string job_id |>
             <| PrintProjectFilePayload.artifact_download_path :=
                  artifact_download_path (Job.agent_id (JobWithArtifact.job source))
                    (JobArtifact.id (JobWithArtifact.artifact source)) |>)).

Definition retryable_job (tenant_id : TenantId) (job_id : JobId) (command_id : CommandId)
    (m : JobsModel.t) : bool :=
  tenant_text m tenant_id && beq (JobsModel.id m) (JobId_to_string job_id)
  && beq (JobsModel.command_id m) (CommandId_to_string command_id)
  && beq (JobsModel.status m) (JobStatus.as_str JobStatus.Failed)
  && print_untouched m.

Definition requeue_job (command_id : CommandId) (now : string) (m : JobsModel.t) : JobsModel.t :=
  m <| JobsModel.command_id := CommandId_to_string command_id |>
    <| JobsModel.status := JobStatus.as_str JobStatus.Queued |>
    <| JobsModel.error := None |> <| JobsModel.updated_at := now |>.

(** [now], [now'], [now'']: the clock at the command, the job and the audit event. *)
Definition retry_in_transaction (audit_id now now' now'' : string) (command_id : CommandId)
    (tenant_id : TenantId) (job_id : JobId) (reason : option string) (actor : AuditActor.t)
  : jobs_tx unit :=
  source <~ load_job_for_update tenant_id job_id ;;
  command <~ load_command source ;;
  let source_job := JobWithArtifact.job source in
  if negb (is_retry_safe source command) then tfail RetryNotSafe
  else
    payload <~ tlift (retry_payload (CommandRecord.payload_json command) job_id source) ;;
    on_db (insert command_id tenant_id (Job.agent_id source_job)
             (Some (Job.printer_id source_job)) "print_project_file" payload now) ~;;
    affected <~ on_db (update_jobs (retryable_job tenant_id job_id (Job.command_id source_job))
                         (requeue_job command_id now')) ;;
    if negb (affected =? 1) then tfail RetryNotSafe
    else insert_recovery_audit audit_id now'' tenant_id actor "job.retry_dispatch" reason job_id
           (Job.command_id source_job) job_id command_id.

Definition retry_dispatch_with_audit (audit_id now now' now'' : string) (command_id : CommandId)
    (tenant_id : TenantId) (job_id : JobId) (reason : option string) (actor : AuditActor.t)
  : jobs_tx JobWithArtifact.t :=
  transaction (retry_in_transaction audit_id now now' now'' command_id tenant_id job_id reason
                 actor) ~;;
  load_required_job tenant_id job_id.

Definition load_source_payload (source : JobWithArtifact.t) : jobs_tx PrintProjectFilePayload.t :=
  tread (fun s =>
    command <-? ok_or (select_command (Job.command_id (JobWithArtifact.job source))
                         (JobsDb.main s)) MissingCommand ;;
    ok_or (parse_print_payload (CommandsModel.payload_json command)) Database).

Definition create_copy_with_audit (audit_id now now' : string) (job_id : JobId)
    (command_id : CommandId) (tenant_id : TenantId) (source : JobWithArtifact.t)
    (source_payload : PrintProjectFilePayload.t) (overrides : option DuplicatePrintJob.t)
    (actor : AuditActor.t) (action : string) (reason : option string)
  : jobs_tx JobWithArtifact.t :=
  transaction (
    let '(input, metadata) := from_source source source_payload overrides in
    created <~ create_print_job_from_artifact now job_id command_id input metadata ;;
    insert_recovery_audit audit_id now' tenant_id actor action reason
      (Job.id (JobWithArtifact.job source)) (Job.command_id (JobWithArtifact.job source))
      (Job.id (JobWithArtifact.job created)) (Job.command_id (JobWithArtifact.job created)) ~;;
    tret created).

Definition reprintable (status : PrintStatus.t) : bool :=
  match status with
  | PrintStatus.Stalled | PrintStatus.Completed | PrintStatus.Failed | PrintStatus.Cancelled => true
  | _ => false
  end.

Definition reprint_with_audit (audit_id now now' : string) (new_job : JobId)
    (new_command : CommandId) (tenant_id : TenantId) (job_id : JobId)
    (input : DuplicatePrintJob.t) (reason : option string) (actor : AuditActor.t)
  : jobs_tx JobWithArtifact.t :=
  source <~ load_required_job tenant_id job_id ;;
  source_payload <~ load_source_payload source ;;
  if negb (reprintable (JobPrintState.status (Job.print (JobWithArtifact.job source))))
  then tfail ReprintNotAllowed
  else create_copy_with_audit audit_id now now' new_job new_command tenant_id source
         source_payload (Some input) actor "job.reprint" reason.

Definition duplicate_and_print_with_audit (audit_id now now' : string) (new_job : JobId)
    (new_command : CommandId) (tenant_id : TenantId) (job_id : JobId)
    (input : DuplicatePrintJob.t) (actor : AuditActor.t) : jobs_tx JobWithArtifact.t :=
  source <~ load_required_job tenant_id job_id ;;
  source_payload <~ load_source_payload source ;;
  create_copy_with_audit audit_id now now' new_job new_command tenant_id source source_payload
    (Some input) actor "job.duplicate" None.

(** ** Stalled prints ([stalled.rs]) *)

(** Fifteen minutes, and one second, in nanoseconds. *)
Definition STALLED_JOB_AGE : Z := 900 * 1000000000.
Definition STALL_SWEEP_BATCH_SIZE : nat := 500.

Definition dispatch_succeeded_at_is_stalled (updated_at : string) (now : Z)
  : result RepositoryError bool :=
  dispatch_succeeded_at <-? ok_or (rfc_parse updated_at) Database ;;
  Ok (dispatch_succeeded_at <? now - STALLED_JOB_AGE).

Definition pending_job_is_stalled (command : CommandsModel.t) (now : Z)
  : result RepositoryError bool :=
  dispatch_succeeded_at_is_stalled (CommandsModel.updated_at command) now.

Definition stall_candidate (m : JobsModel.t) : bool :=
  beq (JobsModel.status m) "succeeded"%string && print_untouched m.

(** A row of the join of jobs and commands that the first query keeps. *)
Definition aged_pair (query_cutoff : string) (p : JobsModel.t * CommandsModel.t) : bool :=
  let '(job, command) := p in
  beq (JobsModel.command_id job) (CommandsModel.id command)
  && stall_candidate job
  && beq (CommandsModel.kind command) "print_project_file"%string
  && beq (CommandsModel.status command) "succeeded"%string
  && text_lt (CommandsModel.updated_at command) query_cutoff.

Definition updated_le (c d : JobsModel.t * CommandsModel.t) : Prop :=
  text_le (CommandsModel.updated_at (snd c)) (CommandsModel.updated_at (snd d)).
#[export] Instance updated_le_dec : RelDecision updated_le.
Proof. intros c d. unfold updated_le. apply _. Defined.

Definition possibly_aged_commands (query_cutoff : string) (db : Db.t)
  : list (JobsModel.t * CommandsModel.t) :=
  take STALL_SWEEP_BATCH_SIZE
    (merge_sort updated_le (select (aged_pair query_cutoff)
       (list_prod (Db.jobs db) (Db.commands db)))).

(** The loop that keeps the ids of the commands old enough. *)
Fixpoint aged_command_ids (now : Z) (commands : list (JobsModel.t * CommandsModel.t))
  : result RepositoryError (list string) :=
  match commands with
  | [] => Ok []
  | (_, command) :: commands =>
      aged <-? dispatch_succeeded_at_is_stalled (CommandsModel.updated_at command) now ;;
      ids <-? aged_command_ids now commands ;;
      Ok (if aged : bool then CommandsModel.id command :: ids else ids)
  end.

Definition set_stalled (m : JobsModel.t) : JobsModel.t :=
  m <| JobsModel.print_status := PrintStatus.as_str PrintStatus.Stalled |>.

Definition mark_stalled_in_transaction (now : Z) (query_cutoff : string)
  : jobs_tx (list JobWithArtifact.t) :=
  commands <~ tread (fun s => Ok (possibly_aged_commands query_cutoff (JobsDb.main s))) ;;
  ids <~ tlift (aged_command_ids now commands) ;;
  if bool_decide (ids = []) then tret []
  else
    stalled <~ tread (fun s => Ok (select
      (fun m => stall_candidate m && bool_decide (JobsModel.command_id m ∈ ids))
      (Db.jobs (JobsDb.main s)))) ;;
    if bool_decide (stalled = []) then tret []
    else
      affected <~ on_db (update_jobs
        (fun m => bool_decide (JobsModel.id m ∈ map JobsModel.id stalled)
                  && beq (JobsModel.print_status m) (PrintStatus.as_str PrintStatus.Pending))
        set_stalled) ;;
      if negb (affected =? Z.of_nat (length stalled)) then tfail Database
      else tread (fun s => hydrate_jobs_with_artifacts (JobsDb.main s) (map set_stalled stalled)).

Definition mark_stalled_pending_jobs (now : string) : jobs_tx (list JobWithArtifact.t) :=
  now_at <~ tlift (ok_or (rfc_parse now) Database) ;;
  query_cutoff <~ tlift (ok_or (rfc_format (now_at - STALLED_JOB_AGE + 1000000000)) Database) ;;
  transaction (mark_stalled_in_transaction now_at query_cutoff).
End Recovery.

(** ** Cancellation *)

Section CancelFacts.
Context `{Store} `{UuidText} `{Rfc3339} `{JobJson} `{AuditJson} `{PrintJson} `{CommandJson}.

Definition job_ids_unique (db : Db.t) : Prop :=
  forall j j', In j (Db.jobs db) -> In j' (Db.jobs db) ->
    JobsModel.id j = JobsModel.id j' -> j = j'.

(** One row matches, and keys are unique: it is the row under that key. *)
Lemma affected_row {R} (key : R -> string) (p : R -> bool) f (l : list R) r :
  (forall x y, In x l -> In y l -> key x = key y -> x = y) ->
  In r l -> (forall x, p x = true -> key x = key r) ->
  snd (update_many p f l) = 1 -> p r = true.
Proof.
  intros Hu Hin Hp Hn.
  assert (0 < snd (update_many p f l)) as Hpos by lia.
  apply update_many_affected_pos in Hpos as (x & Hx & Hpx).
  by rewrite <- (Hu x r Hx Hin (Hp x Hpx)).
Qed.

(** What a cancelling transaction found, and the whole state it left: the two rows are
    cancelled, the cancellation is in the audit log, and every other table is as it was. *)
Record cancels (audit_id now now' : string) (tenant_id : TenantId)
    (submission : StudioSubmissionId.t) (actor : AuditActor.t)
    (job : JobsModel.t) (command : CommandsModel.t) (s s' : JobsDb.t) : Prop := {
  cn_queued : CommandsModel.status command = CommandStatus.as_str CommandStatus.Queued;
  cn_job_queued : JobsModel.status job = JobStatus.as_str JobStatus.Queued;
  cn_print : JobsModel.print_status job = PrintStatus.as_str PrintStatus.Pending;
  cn_state : s' = JobsDb.mk
    (Db.mk
       (map (fun m => if beq (CommandsModel.id m) (CommandsModel.id command)
                      then cancel_command now m else m) (Db.commands (JobsDb.main s)))
       (map (fun m => if beq (JobsModel.id m) (JobsModel.id job) then cancel_job now m else m)
          (Db.jobs (JobsDb.main s)))
       (Db.artifacts (JobsDb.main s)) (Db.usages (JobsDb.main s)))
    (JobsDb.printers s) (JobsDb.sequences s)
    (insert_row (record_audit_event audit_id now' tenant_id actor "job.cancel" "job"
                   (Some (JobsModel.id job)) (Object [])) (JobsDb.audit_events s))
    (JobsDb.reservations s) (JobsDb.deletions s);
}.

(** The filter of an update that hits its one row is a test of the key. *)
Lemma update_one {R} (key : R -> string) (p : R -> bool) f (l : list R) r :
  (forall x y, In x l -> In y l -> key x = key y -> x = y) ->
  In r l -> (forall x, p x = true -> key x = key r) -> p r = true ->
  fst (update_many p f l) = map (fun x => if beq (key x) (key r) then f x else x) l.
Proof.
  intros Hu Hin Hp Hr. rewrite update_many_rows. apply map_ext_in. intros x Hx.
  destruct (p x) eqn:E.
  - by rewrite (Hp x E), beq_refl.
  - destruct (beq (key x) (key r)) eqn:B; [|done]. rewrite beq_true in B.
    rewrite (Hu x r Hx Hin B) in E. congruence.
Qed.

Lemma select_ok {R} (p : R -> bool) (get : JobsDb.t -> list R) (e : RepositoryError) (s s' : JobsDb.t) r :
  tread (fun s => ok_or (select_one p (get s)) e) s = (s', Ok r) ->
  s' = s /\ In r (get s) /\ p r = true /\ select_one p (get s) = Some r.
Proof.
  rewrite tread_Ok, ok_or_Ok. intros [-> E]. split; [done|].
  pose proof (select_one_Some _ _ _ E) as [? ?]. done.
Qed.

Lemma cancel_in_transaction_Ok audit_id now now' t submission actor s s' outcome :
  command_ids_unique (JobsDb.main s) -> job_ids_unique (JobsDb.main s) ->
  cancel_in_transaction audit_id now now' t submission actor s = (s', Ok outcome) ->
  exists job command,
    In job (Db.jobs (JobsDb.main s)) /\ submission_job t submission job = true
    /\ In command (Db.commands (JobsDb.main s))
    /\ print_command_of t (JobsModel.command_id job) command = true
    /\ match outcome with
       | AlreadyCancelled job_id =>
           job_id = JobsModel.id job /\ is_cancelled command job = true /\ s' = s
       | Cancelled_ job_id =>
           JobId_parse (JobsModel.id job) = Ok job_id
           /\ cancels audit_id now now' t submission actor job command s s'
       end.
Proof.
  intros Hcu Hju. unfold cancel_in_transaction. rewrite tbind_Ok. intros (s1 & j0 & Hj0 & Hk).
  apply select_ok in Hj0 as (-> & Hin0 & Hp0 & E0).
  apply tbind_Ok in Hk as (s2 & command & Hc & Hk). apply select_ok in Hc as (-> & Hcin & Hcp & _).
  apply tbind_Ok in Hk as (s3 & job & Hj & Hk). apply select_ok in Hj as (-> & Hin & Hp & E).
  rewrite E in E0. injection E0 as <-. exists job, command.
  split_and!; [done|done|done|done|].
  destruct (is_cancelled command job) eqn:Hcan.
  { apply tret_Ok in Hk as [-> ->]. done. }
  destruct (beq (CommandsModel.status command) _) eqn:Hq; cbn [negb] in Hk; [|done].
  rewrite beq_true in Hq.
  apply tbind_Ok in Hk as (s4 & n & Hu & Hk). apply on_db_Ok in Hu as (db1 & Hu & ->).
  rewrite update_commands_run in Hu. injection Hu as <- Hn.
  destruct (n =? 1) eqn:N; cbn [negb] in Hk; [|done]. apply Z.eqb_eq in N. subst n.
  apply tbind_Ok in Hk as (s5 & n & Hu & Hk). apply on_db_Ok in Hu as (db2 & Hu & ->).
  rewrite update_jobs_run in Hu. injection Hu as <- Hn2. cbn in Hn2, Hk.
  destruct (n =? 1) eqn:N2; cbn [negb] in Hk; [|done]. apply Z.eqb_eq in N2. subst n.
  apply tbind_Ok in Hk as (s6 & job_id & Hid & Hk). apply tlift_Ok in Hid as [-> Hid].
  rewrite db_err_ok in Hid. apply tbind_Ok in Hk as (s7 & [] & Haudit & Hk).
  apply insert_audit_event_Ok in Haudit. apply tret_Ok in Hk as [-> ->]. split; [done|].
  unfold print_command_of in Hcp. rewrite !andb_true_iff, !beq_true in Hcp. destruct Hcp as [[Ci Ct] Ck].
  assert (forall m, queued_command t (JobsModel.command_id job) m = true ->
            CommandsModel.id m = CommandsModel.id command) as Hck.
  { intros m Hm. unfold queued_command, print_command_of in Hm.
    rewrite !andb_true_iff, !beq_true in Hm. naive_solver congruence. }
  assert (forall m, queued_job t job m = true -> JobsModel.id m = JobsModel.id job) as Hjk.
  { intros m Hm. unfold queued_job in Hm. rewrite !andb_true_iff, !beq_true in Hm. tauto. }
  pose proof (affected_row CommandsModel.id _ _ _ _ Hcu Hcin Hck N) as Pc.
  pose proof (affected_row JobsModel.id _ _ _ _ Hju Hin Hjk N2) as Pj.
  pose proof Pj as Pj'. unfold queued_job in Pj'. rewrite !andb_true_iff, !beq_true in Pj'.
  pose proof (update_one CommandsModel.id _ (cancel_command now) _ _ Hcu Hcin Hck Pc) as Ec.
  pose proof (update_one JobsModel.id _ (cancel_job now) _ _ Hju Hin Hjk Pj) as Ej.
  subst s7. constructor; try tauto. cbn. by rewrite Ec, Ej.
Qed.

(** Ids are stored in the text the codec writes. *)
Definition job_ids_canonical (db : Db.t) : Prop :=
  forall j i, In j (Db.jobs db) -> JobId_parse (JobsModel.id j) = Ok i ->
    JobsModel.id j = JobId_to_string i.

(** The record a load returns says what its row says. *)
Lemma load_required_job_Ok t i s s' h :
  load_required_job t i s = (s', Ok h) ->
  s' = s /\ exists m usage, In m (Db.jobs (JobsDb.main s))
    /\ JobsModel.id m = JobId_to_string i
    /\ row_is m usage (JobWithArtifact.job h)
    /\ row_print_is m (Job.print (JobWithArtifact.job h)).
Proof.
  unfold load_required_job. rewrite tbind_Ok. intros (s1 & o & Hl & Ho).
  apply tread_Ok in Hl as [-> Hl]. rewrite tlift_Ok, ok_or_Ok in Ho. destruct Ho as [-> ->].
  split; [done|]. unfold job_with_artifact_by_id in Hl.
  destruct (select_one _ _) as [m|] eqn:E; [|done]. apply select_one_Some in E as [Hin Hm].
  unfold tenant_job in Hm. rewrite andb_true_iff, !beq_true in Hm. destruct Hm as [Hm _].
  apply rbind_Ok in Hl as (a & _ & Hl). apply rbind_Ok in Hl as (wa & _ & Hl).
  apply rbind_Ok in Hl as (j & Hj & [= <-]). unfold job_from_model_loading_usage in Hj.
  apply rbind_Ok in Hj as (usage & _ & Hj). apply job_from_model_iff in Hj as [Hr Hp].
  exists m, usage. done.
Qed.

Lemma row_is_status m usage j :
  row_is m usage j -> JobsModel.status m = JobStatus.as_str (Job.status j).
Proof.
  intros (_ & _ & _ & _ & _ & _ & _ & Hs & _).
  symmetry. exact (as_str_from_str (A := JobStatus.t) _ _ Hs).
Qed.

Lemma row_print_is_status m p :
  row_print_is m p -> JobsModel.print_status m = PrintStatus.as_str (JobPrintState.status p).
Proof. intros (Hs & _). symmetry. exact (as_str_from_str (A := PrintStatus.t) _ _ Hs). Qed.

(** No session action reaches a cancelled print command. *)
Lemma cancelled_refuses now now' t a c action db m :
  command_ids_unique db -> select_command c db = Some m ->
  CommandsModel.kind m = "print_project_file"%string ->
  CommandsModel.status m = CommandStatus.as_str CommandStatus.Cancelled ->
  exists e, transition_command_on now now' t a c action db = (db, Err e).
Proof.
  intros Hu Hm Hk Hs. unfold transition_command_on, load_owned_command, tbind at 1.
  destruct (load_owned_run c t a db) as (r & -> & Hr). destruct r as [command|e]; [|eauto].
  destruct (proj1 (Hr command) eq_refl) as (m' & Hm' & Hrow & Ht & Ha).
  change (select_one _ _) with (select_command c db) in Hm'. rewrite Hm in Hm'.
  injection Hm' as <-. apply command_from_model_iff in Hrow.
  rewrite <- (row_kind _ _ Hrow), Hk, beq_refl.
  unfold session_print_command. set (tr := print_transition t a c action).
  assert (PrintCommandTransition.command_id tr = c) as Htr by (by destruct action).
  assert (forall f, update_many (print_row_filter tr) f (Db.commands db) = (Db.commands db, 0)) as Hno.
  { intros f. apply update_many_none. intros x Hx. destruct (print_row_filter tr x) eqn:P; [|done].
    unfold print_row_filter, command_filter in P.
    rewrite !andb_true_iff, !beq_true, bool_decide_eq_true, Htr in P.
    destruct P as [[[[Hid _] _] Hin] _]. apply select_one_Some in Hm as [Hmin Hmid].
    rewrite beq_true in Hmid. assert (x = m) as -> by (apply Hu; congruence).
    rewrite Hs in Hin. by destruct action; vm_compute in Hin; set_solver. }
  unfold transition_print_command, update_print_command. unfold tbind. rewrite update_commands_run.
  fold (print_row_filter tr). rewrite Hno. cbn [fst snd tret Z.eqb orb]. rewrite with_commands_same.
  destruct (load_owned_print_run tr db) as (r & -> & Hr'). destruct r as [command'|e]; [|eauto].
  destruct (proj1 (Hr' command') eq_refl) as [(m2 & Hm2 & Hrow2 & _) _].
  rewrite Htr in Hm2. change (select_one _ _) with (select_command c db) in Hm2.
  rewrite Hm in Hm2. injection Hm2 as <-. apply command_from_model_iff in Hrow2.
  assert (CommandRecord.status command' = CommandStatus.Cancelled) as ->.
  { apply status_text_inj. by rewrite <- (row_status _ _ Hrow2). }
  destruct action; simpl; eauto.
Qed.

Lemma cancelled_selected now c command db db' m :
  command_ids_unique db -> In m (Db.commands db) -> CommandsModel.id m = CommandId_to_string c ->
  CommandsModel.id command = CommandsModel.id m ->
  Db.commands db' = map (fun m => if beq (CommandsModel.id m) (CommandsModel.id command)
                                  then cancel_command now m else m) (Db.commands db) ->
  select_command c db' = Some (cancel_command now m) /\ command_ids_unique db'.
Proof.
  intros Hu Hin Hid Hc Hcs.
  assert (forall x, In x (Db.commands db') -> exists x0, In x0 (Db.commands db)
    /\ CommandsModel.id x = CommandsModel.id x0
    /\ x = if beq (CommandsModel.id x0) (CommandsModel.id command)
           then cancel_command now x0 else x0) as Hrow.
  { intros x Hx. rewrite Hcs in Hx. apply in_map_iff in Hx as (x0 & <- & Hx0). exists x0.
    split_and!; [done| |done]. by destruct (beq _ _). }
  split.
  - apply select_one_unique.
    + rewrite Hcs. apply in_map_iff. exists m. by rewrite Hc, beq_refl.
    + by apply beq_true.
    + intros x (x0 & Hx0 & Ex & ->)%Hrow Hp. rewrite beq_true in Hp.
      assert (x0 = m) as -> by (apply Hu; congruence). by rewrite Hc, beq_refl.
  - intros x y (x0 & Hx0 & Ex & ->)%Hrow (y0 & Hy0 & Ey & ->)%Hrow E.
    by rewrite (Hu x0 y0 Hx0 Hy0) by congruence.
Qed.

(** C30: a Studio print can only be cancelled before it is sent, and a cancelled
    one is never sent: a successful cancellation finds the job and its print
    command either both queued with nothing printed, cancels exactly these two rows,
    adds the one event to the audit log and leaves every other row of every table of
    the jobs store as it was, or both cancelled already, and changes nothing; the job it
    returns is cancelled, and afterwards every session action on the command is refused
    without an effect. *)
Theorem cancelled_print_is_final (audit_id now now' : string) (t : TenantId)
    (submission : StudioSubmissionId.t) (actor : AuditActor.t) (s s' : JobsDb.t)
    (cancelled : JobWithArtifact.t)
    (Hcommands : command_ids_unique (JobsDb.main s)) (Hjobs : job_ids_unique (JobsDb.main s))
    (Hcanonical : job_ids_canonical (JobsDb.main s))
    (Hok : cancel_studio_print_with_audit audit_id now now' t submission actor s
           = (s', Ok cancelled)) :
  Job.status (JobWithArtifact.job cancelled) = JobStatus.Cancelled
  /\ JobPrintState.status (Job.print (JobWithArtifact.job cancelled)) = PrintStatus.Cancelled
  /\ exists job command,
       In job (Db.jobs (JobsDb.main s)) /\ submission_job t submission job = true
       /\ In command (Db.commands (JobsDb.main s))
       /\ print_command_of t (JobsModel.command_id job) command = true
       /\ (is_cancelled command job = true /\ s' = s
           \/ cancels audit_id now now' t submission actor job command s s')
       /\ forall c n n' t' a action, CommandId_to_string c = CommandsModel.id command ->
            exists e, transition_command_on n n' t' a c action (JobsDb.main s')
                      = (JobsDb.main s', Err e).
Proof.
  unfold cancel_studio_print_with_audit in Hok. apply tbind_Ok in Hok as (s1 & outcome & Htx & Hload).
  rewrite transaction_Ok in Htx.
  apply (cancel_in_transaction_Ok _ _ _ _ _ _ _ _ _ Hcommands Hjobs) in Htx as
    (job & command & Hin & Hsub & Hcin & Hpc & Hout).
  pose proof Hpc as Hpc'. unfold print_command_of in Hpc'. rewrite !andb_true_iff, !beq_true in Hpc'.
  destruct Hpc' as [[_ _] Hkind].
  destruct outcome as [job_id|job_id].
  - destruct Hout as (-> & Hcan & ->). apply tbind_Ok in Hload as (s2 & i & Hi & Hload).
    rewrite tlift_Ok, db_err_ok in Hi. destruct Hi as [-> Hi].
    apply load_required_job_Ok in Hload as (-> & m & usage & Hm & Hid & Hr & Hp).
    rewrite <- (Hcanonical _ _ Hin Hi) in Hid. assert (m = job) as -> by (by apply Hjobs).
    pose proof Hcan as Hcan'. unfold is_cancelled in Hcan'.
    rewrite !andb_true_iff, !beq_true in Hcan'. destruct Hcan' as [[Cc Cj] Cp].
    rewrite (row_is_status _ _ _ Hr) in Cj. rewrite (row_print_is_status _ _ Hp) in Cp.
    split_and!; [by destruct (Job.status _)|by destruct (JobPrintState.status _)|].
    exists job, command. split_and!; try done; [by left|]. intros c n n' t' a action Hc.
    apply (cancelled_refuses _ _ _ _ _ _ _ command); [done| |done|done].
    apply select_one_unique; [done|by apply beq_true|]. intros x Hx Hxc. rewrite beq_true in Hxc.
    apply Hcommands; congruence.
  - destruct Hout as [Hi Hcn]. apply load_required_job_Ok in Hload as (-> & m & usage & Hm & Hid & Hr & Hp).
    rewrite <- (Hcanonical _ _ Hin Hi) in Hid. pose proof Hcn as [_ _ _ Es]. rewrite Es in Hm.
    apply in_map_iff in Hm as (m0 & <- & Hm0).
    assert (m0 = job) as ->. { apply Hjobs; [done|done|]. by destruct (beq _ _). }
    rewrite beq_refl in Hr, Hp. apply row_is_status in Hr. apply row_print_is_status in Hp.
    cbn in Hr, Hp. split_and!; [by destruct (Job.status _)|by destruct (JobPrintState.status _)|].
    exists job, command. split_and!; try done; [by right|]. intros c n n' t' a action Hc.
    destruct (cancelled_selected now c command _ (JobsDb.main s1) command Hcommands Hcin
                (eq_sym Hc) eq_refl (f_equal (fun d => Db.commands (JobsDb.main d)) Es)) as [Hsel Hu].
    by apply (cancelled_refuses _ _ _ _ _ _ _ _ Hu Hsel).
Qed.
End CancelFacts.

(** ** Retry *)

Section RetryFacts.
Context `{Store} `{UuidText} `{Rfc3339} `{JobJson} `{AuditJson} `{PrintJson} `{CommandJson}.

Lemma load_job_for_update_Ok t i s s' h :
  load_job_for_update t i s = (s', Ok h) ->
  s' = s /\ exists m usage, In m (Db.jobs (JobsDb.main s))
    /\ tenant_job t (JobId_to_string i) m = true
    /\ row_is m usage (JobWithArtifact.job h).
Proof.
  unfold load_job_for_update. rewrite tread_Ok. intros [-> Hl]. split; [done|]. cbv zeta in Hl.
  apply rbind_Ok in Hl as (m & Hm & Hl). rewrite ok_or_Ok in Hm. apply select_one_Some in Hm as [Hin Hm].
  apply rbind_Ok in Hl as (a & _ & Hl). apply rbind_Ok in Hl as (usage & _ & Hl).
  apply rbind_Ok in Hl as (src & _ & Hl). apply rbind_Ok in Hl as (j & Hj & [= <-]).
  apply job_from_model_iff in Hj as [Hr _]. exists m, usage. done.
Qed.

Lemma load_command_Ok source s s' command :
  load_command source s = (s', Ok command) ->
  s' = s /\ exists m, select_command (Job.command_id (JobWithArtifact.job source)) (JobsDb.main s) = Some m
    /\ command_row m command.
Proof.
  unfold load_command, get. rewrite tbind_Ok. intros (s1 & o & Hg & Ho).
  apply on_db_Ok in Hg as (db & Hg & ->). apply tread_Ok in Hg as [-> Hg].
  rewrite tlift_Ok, ok_or_Ok in Ho. destruct Ho as [-> ->].
  split; [by destruct s|]. unfold traverse_opt in Hg. unfold select_command.
  destruct (select_one _ _) as [m|]; [|done]. exists m. split; [done|]. simpl in Hg.
  destruct (command_from_model m) eqn:E; [|done]. simpl in Hg. injection Hg as ->.
  by apply command_from_model_iff.
Qed.

(** What a retry found and wrote. *)
Record retries (now now' : string) (t : TenantId) (job_id : JobId) (command_id : CommandId)
    (job : JobsModel.t) (failed : CommandsModel.t) (s s' : JobsDb.t) : Prop := {
  rt_job_failed : JobsModel.status job = JobStatus.as_str JobStatus.Failed;
  rt_untouched : print_untouched job = true;
  rt_command_failed : CommandsModel.status failed = CommandStatus.as_str CommandStatus.Failed;
  rt_commands : exists payload agent_id printer_id, Db.commands (JobsDb.main s') = insert_row
    (CommandsModel.mk (CommandId_to_string command_id) (TenantId_to_string t)
       (AgentId_to_string agent_id) (Some printer_id) "print_project_file"
       (CommandStatus.as_str CommandStatus.Queued) payload None None now now)
    (Db.commands (JobsDb.main s))
    /\ AgentId_parse (JobsModel.agent_id job) = Ok agent_id
    /\ printer_id = JobsModel.printer_id job;
  rt_fresh : forall c, In c (Db.commands (JobsDb.main s)) ->
    CommandsModel.id c <> CommandId_to_string command_id;
  rt_jobs : Db.jobs (JobsDb.main s') =
    map (fun m => if beq (JobsModel.id m) (JobsModel.id job) then requeue_job command_id now' m else m)
      (Db.jobs (JobsDb.main s));
  rt_artifacts : Db.artifacts (JobsDb.main s') = Db.artifacts (JobsDb.main s);
  rt_usages : Db.usages (JobsDb.main s') = Db.usages (JobsDb.main s);
  rt_audit : exists event, JobsDb.audit_events s' = insert_row event (JobsDb.audit_events s);
}.

Lemma retry_in_transaction_Ok audit_id now now' now'' c t i reason actor s s' :
  job_ids_unique (JobsDb.main s) ->
  retry_in_transaction audit_id now now' now'' c t i reason actor s = (s', Ok tt) ->
  exists job failed, In job (Db.jobs (JobsDb.main s))
    /\ tenant_job t (JobId_to_string i) job = true
    /\ In failed (Db.commands (JobsDb.main s))
    /\ (exists old, CommandId_parse (JobsModel.command_id job) = Ok old
                    /\ CommandsModel.id failed = CommandId_to_string old)
    /\ retries now now' t i c job failed s s'.
Proof.
  intros Hju. unfold retry_in_transaction. rewrite tbind_Ok. intros (s1 & source & Hs & Hk).
  apply load_job_for_update_Ok in Hs as (-> & job & usage & Hin & Htj & Hr).
  apply tbind_Ok in Hk as (s2 & command & Hc & Hk).
  apply load_command_Ok in Hc as (-> & failed & Hf & Hcr).
  apply select_one_Some in Hf as [Hfin Hfid]. rewrite beq_true in Hfid.
  destruct (is_retry_safe source command) eqn:Hsafe; cbn [negb] in Hk; [|done].
  unfold is_retry_safe in Hsafe. rewrite !andb_true_iff, !beq_true in Hsafe.
  destruct Hsafe as [[[[[_ Hcf] _] _] _] _].
  apply tbind_Ok in Hk as (s3 & payload & Hp & Hk). apply tlift_Ok in Hp as [-> _].
  apply tbind_Ok in Hk as (s4 & [] & Hi & Hk). apply on_db_Ok in Hi as (db1 & Hi & ->).
  apply insert_command_row_Ok in Hi as [Hfresh ->].
  apply tbind_Ok in Hk as (s5 & n & Hu & Hk). apply on_db_Ok in Hu as (db2 & Hu & ->).
  rewrite update_jobs_run in Hu. injection Hu as <- Hn. cbn in Hn, Hk, Hfresh.
  destruct (n =? 1) eqn:N; cbn [negb] in Hk; [|done]. apply Z.eqb_eq in N. subst n.
  apply insert_audit_event_Ok in Hk. subst s'.
  unfold tenant_job in Htj. pose proof Htj as Htj'. rewrite andb_true_iff, !beq_true in Htj'.
  destruct Htj' as [Hid Ht].
  assert (forall m, retryable_job t i (Job.command_id (JobWithArtifact.job source)) m = true ->
            JobsModel.id m = JobsModel.id job) as Hk.
  { intros m Hm. unfold retryable_job in Hm. rewrite !andb_true_iff, !beq_true in Hm.
    destruct Hm as [[[[_ ->] _] _] _]. done. }
  pose proof (affected_row JobsModel.id _ _ _ _ Hju Hin Hk N) as P.
  pose proof P as P'. unfold retryable_job in P'. rewrite !andb_true_iff, !beq_true in P'.
  destruct Hr as (_ & _ & Hagent & Hcmd & _ & _ & _ & _ & _ & _ & Htexts & _).
  unfold row_texts, job_texts in Htexts. simplify_eq.
  exists job, failed. split_and!; [done|done|done|eauto|].
  constructor; cbn; try tauto; try done.
  - by rewrite (row_status _ _ Hcr), Hcf.
  - do 3 eexists. split; [done|]. split; [exact Hagent|congruence].
  - by apply (update_one JobsModel.id).
  - eauto.
Qed.

(** C31: a retry dispatches again only what failed before printing: when it
    succeeds, the job and its command had failed and nothing of the print had
    happened; a fresh queued command for the job's agent and printer exists, the
    job is queued under it and every other row, the failed command included, is
    as before. *)
Theorem retry_redispatches_failed_dispatch (audit_id now now' now'' : string) (c : CommandId)
    (t : TenantId) (i : JobId) (reason : option string) (actor : AuditActor.t) (s s' : JobsDb.t)
    (retried : JobWithArtifact.t)
    (Hjobs : job_ids_unique (JobsDb.main s))
    (Hok : retry_dispatch_with_audit audit_id now now' now'' c t i reason actor s
           = (s', Ok retried)) :
  Job.command_id (JobWithArtifact.job retried) = c
  /\ Job.status (JobWithArtifact.job retried) = JobStatus.Queued
  /\ Job.error (JobWithArtifact.job retried) = None
  /\ exists job failed, In job (Db.jobs (JobsDb.main s))
       /\ tenant_job t (JobId_to_string i) job = true
       /\ In failed (Db.commands (JobsDb.main s))
       /\ (exists old, CommandId_parse (JobsModel.command_id job) = Ok old
                       /\ CommandsModel.id failed = CommandId_to_string old)
       /\ retries now now' t i c job failed s s'.
Proof.
  unfold retry_dispatch_with_audit in Hok. apply tbind_Ok in Hok as (s1 & [] & Htx & Hload).
  rewrite transaction_Ok in Htx.
  apply (retry_in_transaction_Ok _ _ _ _ _ _ _ _ _ _ _ Hjobs) in Htx as
    (job & failed & Hin & Htj & Hfin & Hold & Hr).
  apply load_required_job_Ok in Hload as (-> & m & usage & Hm & Hid & Hri & _).
  rewrite (rt_jobs _ _ _ _ _ _ _ _ _ Hr) in Hm. apply in_map_iff in Hm as (m0 & <- & Hm0).
  unfold tenant_job in Htj. pose proof Htj as Htj'. rewrite andb_true_iff, !beq_true in Htj'.
  destruct Htj' as [Hid' _].
  assert (m0 = job) as ->. { apply Hjobs; [done|done|]. rewrite Hid', <- Hid. by destruct (beq (JobsModel.id m0) (JobsModel.id job)). }
  rewrite beq_refl in Hri. pose proof (row_is_status _ _ _ Hri) as Hst. cbn in Hst.
  destruct Hri as (_ & _ & _ & Hcmd & _ & _ & _ & _ & _ & _ & Htexts & _).
  cbn in Hcmd. rewrite CommandId_parse_to_string in Hcmd.
  unfold row_texts, job_texts in Htexts. cbn in Htexts.
  split_and!; [congruence|by destruct (Job.status _)|congruence|].
  exists job, failed. done.
Qed.
End RetryFacts.

(** ** Stalled prints *)

Section StallFacts.
Context `{Store} `{UuidText} `{Rfc3339} `{JobJson} `{AuditJson} `{PrintJson} `{CommandJson}.

(** The dispatch of a print succeeded more than fifteen minutes before [now]. *)
Definition dispatched_long_ago (now : Z) (c : CommandsModel.t) : Prop :=
  exists at_, rfc_parse (CommandsModel.updated_at c) = Some at_ /\ at_ < now - STALLED_JOB_AGE.

Lemma aged_command_ids_In now l ids :
  aged_command_ids now l = Ok ids ->
  forall i, In i ids <-> exists p, In p l /\ CommandsModel.id (snd p) = i /\ dispatched_long_ago now (snd p).
Proof.
  revert ids. induction l as [|[j c] l IH]; intros ids; cbn [aged_command_ids].
  { intros [= <-] i. split; [done|]. by intros (p & [] & _). }
  intros Hk. apply rbind_Ok in Hk as (aged & Ha & Hk). apply rbind_Ok in Hk as (ids' & Hi & [= <-]).
  unfold dispatch_succeeded_at_is_stalled in Ha. apply rbind_Ok in Ha as (at_ & Hp & [= Ha]).
  rewrite ok_or_Ok in Hp. specialize (IH ids' Hi). intros i.
  assert (aged = true <-> dispatched_long_ago now c) as Hd.
  { unfold dispatched_long_ago. rewrite <- Ha, Z.ltb_lt. split; [by exists at_|].
    intros (a' & Hp' & Hlt). congruence. }
  split.
  - intros Hin. assert (In i ids' \/ aged = true /\ i = CommandsModel.id c) as [Hin'|[-> ->]].
    { destruct aged; [destruct Hin as [<-|Hin]|]; auto. }
    + apply IH in Hin' as (p & Hp' & Hrest). exists p. split; [by right|done].
    + exists (j, c). split; [by left|]. split; [done|]. by apply Hd.
  - intros (p & [<-|Hin] & Hid & Hlong).
    + apply Hd in Hlong as ->. left. done.
    + assert (In i ids') by (apply IH; eauto). destruct aged; [by right|done].
Qed.

Lemma possibly_aged_In cutoff db p :
  In p (possibly_aged_commands cutoff db) ->
  In (fst p) (Db.jobs db) /\ In (snd p) (Db.commands db) /\ aged_pair cutoff p = true.
Proof.
  unfold possibly_aged_commands. intros Hin. apply list_elem_of_In in Hin.
  apply elem_of_take in Hin as (n & Hn & _). apply list_elem_of_lookup_2 in Hn.
  rewrite merge_sort_Permutation in Hn. apply list_elem_of_In in Hn. apply select_In in Hn as [Hn Hp].
  destruct p as [j c]. apply in_prod_iff in Hn as [Hj Hc]. done.
Qed.

Lemma possibly_aged_all cutoff db p :
  (length (select (aged_pair cutoff) (list_prod (Db.jobs db) (Db.commands db)))
     <= STALL_SWEEP_BATCH_SIZE)%nat ->
  In (fst p) (Db.jobs db) -> In (snd p) (Db.commands db) -> aged_pair cutoff p = true ->
  In p (possibly_aged_commands cutoff db).
Proof.
  intros Hl Hj Hc Hp. unfold possibly_aged_commands. rewrite take_ge.
  - apply list_elem_of_In. rewrite merge_sort_Permutation. apply list_elem_of_In, select_In.
    split; [|done]. destruct p as [j c]. by apply in_prod.
  - by rewrite merge_sort_Permutation.
Qed.

Lemma NoDup_key_eq {R} (key : R -> string) (l : list R) x y :
  NoDup (map key l) -> In x l -> In y l -> key x = key y -> x = y.
Proof.
  induction l as [|z l IH]; simpl; [done|]. rewrite NoDup_cons. intros [Hz Hl] Hx Hy E.
  assert (forall w, In w l -> key w <> key z) as Hno.
  { intros w Hw Ew. apply Hz. rewrite <- Ew. apply list_elem_of_In. by apply in_map. }
  destruct Hx as [<-|Hx], Hy as [<-|Hy]; [done|by destruct (Hno y Hy)|by destruct (Hno x Hx)|].
  by apply IH.
Qed.

(** The jobs one sweep marks, given the ids of the commands found old enough. *)
Definition stalls (ids : list string) (m : JobsModel.t) : bool :=
  stall_candidate m && bool_decide (JobsModel.command_id m ∈ ids).

Lemma filter_nil {R} (p : R -> bool) l : List.filter p l = [] -> forall x, In x l -> p x = false.
Proof.
  intros E x Hx. destruct (p x) eqn:P; [|done].
  assert (In x (List.filter p l)) as Hin by (by apply filter_In). by rewrite E in Hin.
Qed.

Lemma map_nothing {R} (p : R -> bool) (f : R -> R) l :
  (forall x, In x l -> p x = false) -> map (fun x => if p x then f x else x) l = l.
Proof.
  intros Hp. rewrite <- (map_id l) at 2. apply map_ext_in. intros x Hx. by rewrite (Hp x Hx).
Qed.

Lemma mark_stalled_in_transaction_Ok now cutoff s s' hs :
  NoDup (map JobsModel.id (Db.jobs (JobsDb.main s))) -> keys_unique (JobsDb.main s) ->
  mark_stalled_in_transaction now cutoff s = (s', Ok hs) ->
  exists ids rows, aged_command_ids now (possibly_aged_commands cutoff (JobsDb.main s)) = Ok ids
    /\ s' = s <| JobsDb.main := Db.mk (Db.commands (JobsDb.main s))
                  (map (fun m => if stalls ids m then set_stalled m else m) (Db.jobs (JobsDb.main s)))
                  (Db.artifacts (JobsDb.main s)) (Db.usages (JobsDb.main s)) |>
    /\ rows ≡ₚ List.filter (stalls ids) (Db.jobs (JobsDb.main s))
    /\ Forall2 (hydrates (JobsDb.main s')) (map set_stalled rows) hs.
Proof.
  intros Hnd Hk. unfold mark_stalled_in_transaction. rewrite tbind_Ok. intros (s1 & cs & Hcs & Hr).
  apply tread_Ok in Hcs as [-> [= <-]]. apply tbind_Ok in Hr as (s2 & ids & Hids & Hr).
  apply tlift_Ok in Hids as [-> Hids]. exists ids.
  assert (forall m, stalls ids m = stall_candidate m && bool_decide (JobsModel.command_id m ∈ ids)) as Hst
    by done.
  assert (List.filter (stalls ids) (Db.jobs (JobsDb.main s)) = [] -> s' = s -> hs = [] ->
    exists rows, aged_command_ids now (possibly_aged_commands cutoff (JobsDb.main s)) = Ok ids
    /\ s' = s <| JobsDb.main := Db.mk (Db.commands (JobsDb.main s))
                  (map (fun m => if stalls ids m then set_stalled m else m) (Db.jobs (JobsDb.main s)))
                  (Db.artifacts (JobsDb.main s)) (Db.usages (JobsDb.main s)) |>
    /\ rows ≡ₚ List.filter (stalls ids) (Db.jobs (JobsDb.main s))
    /\ Forall2 (hydrates (JobsDb.main s')) (map set_stalled rows) hs) as Hnone.
  { intros E -> ->. exists []. rewrite (map_nothing (stalls ids)) by (by apply filter_nil).
    split_and!; [done| |by rewrite E|constructor]. destruct s as [[] ? ? ? ? ?]; done. }
  case_bool_decide as Hempty.
  { apply tret_Ok in Hr as [-> ->]. apply Hnone; [|done|done]. subst ids.
    generalize (Db.jobs (JobsDb.main s)). intros l. induction l as [|m l IH]; [done|]. simpl.
    assert (stalls [] m = false) as ->; [|done]. unfold stalls. apply andb_false_iff. right.
    apply bool_decide_eq_false, not_elem_of_nil. }
  apply tbind_Ok in Hr as (s3 & stalled & Hsel & Hr). apply tread_Ok in Hsel as [-> [= <-]].
  change (fun m => stall_candidate m && bool_decide (JobsModel.command_id m ∈ ids)) with (stalls ids) in *.
  set (rows := select (stalls ids) (Db.jobs (JobsDb.main s))) in *.
  assert (rows ≡ₚ List.filter (stalls ids) (Db.jobs (JobsDb.main s))) as Hrows by apply select_perm.
  case_bool_decide as Hrows0.
  { apply tret_Ok in Hr as [-> ->]. apply Hnone; [|done|done].
    rewrite Hrows0 in Hrows. by apply Permutation_nil. }
  apply tbind_Ok in Hr as (s4 & n & Hu & Hr). apply on_db_Ok in Hu as (db & Hu & ->).
  rewrite update_jobs_run in Hu. injection Hu as <- _.
  destruct (negb _); [done|]. apply tread_Ok in Hr as [-> Hh]. cbn [JobsDb.main] in Hh.
  exists rows. split_and!; [done| |done|].
  - do 3 f_equal. rewrite update_many_rows. apply map_ext_in. intros m Hm.
    match goal with |- (if ?b then _ else _) = _ => assert (stalls ids m = b) as <-; [|done] end.
    apply eq_true_iff_eq. rewrite andb_true_iff, bool_decide_eq_true, beq_true. split.
    + intros Hs. split.
      * apply list_elem_of_In, in_map. by apply select_In.
      * unfold stalls, stall_candidate, print_untouched in Hs.
        rewrite !andb_true_iff, !beq_true in Hs. tauto.
    + intros [Hin _]. apply list_elem_of_In, in_map_iff in Hin as (m' & E & Hin').
      apply select_In in Hin' as [Hin' Hs]. by rewrite <- (NoDup_key_eq _ _ m' m Hnd Hin' Hm E).
  - apply hydrate_Ok; [exact Hk| |exact Hh]. rewrite map_map.
    change (map (fun x => JobsModel.id (set_stalled x)) rows) with (map JobsModel.id rows).
    rewrite Hrows. by apply NoDup_map_filter.
Qed.

(** The stall sweep marks exactly the prints that never began: a job it marks
    was dispatched successfully more than fifteen minutes ago and is still
    pending without a start, progress or layer; every such job is marked when the
    batch is not full; the sweep changes nothing but the print status of these
    jobs, and returns each of them as it now reads. *)
Theorem stall_sweep_precise (now : string) (s s' : JobsDb.t) (hs : list JobWithArtifact.t)
    (Hjobs : NoDup (map JobsModel.id (Db.jobs (JobsDb.main s))))
    (Hartifacts : keys_unique (JobsDb.main s))
    (Hok : mark_stalled_pending_jobs now s = (s', Ok hs)) :
  exists at_ cutoff (marked : JobsModel.t -> bool) rows,
    rfc_parse now = Some at_
    /\ rfc_format (at_ - STALLED_JOB_AGE + 1000000000) = Some cutoff
    /\ (forall j, In j (Db.jobs (JobsDb.main s)) -> marked j = true ->
          stall_candidate j = true
          /\ exists c, In c (Db.commands (JobsDb.main s)) /\ CommandsModel.id c = JobsModel.command_id j
               /\ CommandsModel.kind c = "print_project_file"%string
               /\ CommandsModel.status c = CommandStatus.as_str CommandStatus.Succeeded
               /\ dispatched_long_ago at_ c)
    /\ ((length (select (aged_pair cutoff)
                   (list_prod (Db.jobs (JobsDb.main s)) (Db.commands (JobsDb.main s))))
           <= STALL_SWEEP_BATCH_SIZE)%nat ->
        forall j c, In j (Db.jobs (JobsDb.main s)) -> In c (Db.commands (JobsDb.main s)) ->
          aged_pair cutoff (j, c) = true -> dispatched_long_ago at_ c -> marked j = true)
    /\ s' = s <| JobsDb.main := Db.mk (Db.commands (JobsDb.main s))
                  (map (fun m => if marked m then set_stalled m else m) (Db.jobs (JobsDb.main s)))
                  (Db.artifacts (JobsDb.main s)) (Db.usages (JobsDb.main s)) |>
    /\ rows ≡ₚ List.filter marked (Db.jobs (JobsDb.main s))
    /\ Forall2 (hydrates (JobsDb.main s')) (map set_stalled rows) hs.
Proof.
  unfold mark_stalled_pending_jobs in Hok. apply tbind_Ok in Hok as (s1 & at_ & Ha & Hok).
  rewrite tlift_Ok, ok_or_Ok in Ha. destruct Ha as [-> Ha].
  apply tbind_Ok in Hok as (s2 & cutoff & Hc & Hok). rewrite tlift_Ok, ok_or_Ok in Hc.
  destruct Hc as [-> Hc]. rewrite transaction_Ok in Hok.
  destruct (mark_stalled_in_transaction_Ok _ _ _ _ _ Hjobs Hartifacts Hok)
    as (ids & rows & Hids & Hs & Hrows & Hh).
  exists at_, cutoff, (stalls ids), rows. split_and!; try done.
  - intros j Hj Hm. unfold stalls in Hm. rewrite andb_true_iff, bool_decide_eq_true in Hm.
    destruct Hm as [Hcand Hin]. split; [done|]. apply list_elem_of_In in Hin.
    apply (aged_command_ids_In _ _ _ Hids) in Hin as ([j' c] & Hp & Hid & Hlong).
    apply possibly_aged_In in Hp as (_ & Hcin & Hp). cbn in *.
    rewrite !andb_true_iff, !beq_true in Hp. exists c. split_and!; tauto.
  - intros Hl j c Hj Hcin Hp Hlong. unfold stalls.
    assert (aged_pair cutoff (j, c) = true) as Hp' by done. cbn in Hp.
    rewrite !andb_true_iff, !beq_true in Hp. destruct Hp as [[[[Hid Hcand] _] _] _].
    rewrite Hcand. simpl. apply bool_decide_eq_true, list_elem_of_In.
    apply (aged_command_ids_In _ _ _ Hids). exists (j, c). split_and!; [|done|done].
    by apply possibly_aged_all.
Qed.
End StallFacts.

(** ** Copies of a job *)

Section CopyFacts.
Context `{Store} `{UuidText} `{Rfc3339} `{JobJson} `{AuditJson} `{PrintJson} `{CommandJson}.

Lemma create_print_job_from_artifact_Ok now job_id command_id input metadata s s' created :
  create_print_job_from_artifact now job_id command_id input metadata s = (s', Ok created) ->
  exists printer agent rows sid db',
    In printer (JobsDb.printers s) /\ tenant_printer input printer = true
    /\ AgentId_parse (PrintersModel.agent_id printer) = Ok agent
    /\ needs_nozzle_mapping (PrintersModel.model printer) metadata = false
    /\ s' = s <| JobsDb.sequences := rows |> <| JobsDb.main := db' |>
    /\ print_queued now job_id command_id (input <| CreatePrintJob.agent_id := agent |>)
         (PrintersModel.serial_number printer) sid metadata (JobsDb.main s) db'
    /\ Db.artifacts db' = Db.artifacts (JobsDb.main s)
    /\ build_created_job (input <| CreatePrintJob.agent_id := agent |>) job_id command_id sid
         (option_map studio_metadata_to_string metadata) now = Ok created.
Proof.
  unfold create_print_job_from_artifact. rewrite tbind_Ok. intros (s1 & [] & Hv & Hk).
  apply tlift_Ok in Hv as [-> _]. apply tbind_Ok in Hk as (s2 & [[serial agent] model] & Hp & Hk).
  unfold printer_for_existing_artifact in Hp. apply tread_Ok in Hp as [-> Hp].
  destruct (select_one _ _) as [printer|] eqn:E; [|done]. apply select_one_Some in E as [Hin Htp].
  apply rbind_Ok in Hp as (agent' & Hagent & [= <- <- <-]). rewrite db_err_ok in Hagent.
  destruct (needs_nozzle_mapping _ _) eqn:Hn; [done|].
  apply tbind_Ok in Hk as (s3 & sid & Ha & Hk).
  apply insert_command_and_job_Ok in Hk as (db' & -> & Hq & Harts & Hb).
  rewrite allocate_run in Ha. cbv zeta in Ha. injection Ha as <- _.
  exists printer, agent'. eexists _, sid, db'. cbn in Hq, Harts. split_and!; done.
Qed.

Lemma load_job_source t i db source :
  job_with_artifact_by_id t i db = Ok (Some source) ->
  exists a, artifact_by_id (JobArtifact.id (JobWithArtifact.artifact source)) db = Some a
    /\ artifact_from_model a = Ok (JobWithArtifact.artifact source).
Proof.
  unfold job_with_artifact_by_id. destruct (select_one _ (Db.jobs db)) as [m|]; [|done]. intros Hl.
  apply rbind_Ok in Hl as (a & Ha & Hl). apply rbind_Ok in Hl as (wa & Hwa & Hl).
  apply rbind_Ok in Hl as (j & _ & [= <-]). unfold artifact_for_job in Ha. rewrite ok_or_Ok in Ha.
  unfold job_with_artifact_from_models in Hwa. apply rbind_Ok in Hwa as (j0 & _ & Hwa).
  apply rbind_Ok in Hwa as (art & Hart & [= <-]). cbn [JobWithArtifact.artifact] in *.
  exists a. split; [|done]. pose proof Ha as Ha'. apply select_one_Some in Ha' as [_ Hid].
  rewrite beq_true in Hid. rewrite <- Ha. f_equal.
  unfold artifact_from_model in Hart. apply rbind_Ok in Hart as (? & _ & Hart).
  apply rbind_Ok in Hart as (? & _ & Hart). rewrite db_err_ok in Hart.
  unfold JobArtifact.from_parts in Hart. do 4 (apply rbind_Ok in Hart as (? & _ & Hart)).
  destruct (_ =? 0); [done|]. injection Hart as <-. done.
Qed.

(** A reprint or duplicate prints the stored artifact on a printer of the
    tenant: the new queued job names the printer chosen and the agent that serves
    it now, an H2C gets it only with a valid nozzle mapping, the artifact rows are
    untouched and a later read of the new job returns it with the artifact as it
    is stored.  The response differs from that read in one field: it reports the
    artifact as created now. *)
Theorem copy_prints_stored_artifact (audit_id now now' : string) (job_id : JobId)
    (command_id : CommandId) (t : TenantId) (i : JobId) (source : JobWithArtifact.t)
    (source_payload : PrintProjectFilePayload.t) (overrides : option DuplicatePrintJob.t)
    (actor : AuditActor.t) (action : string) (reason : option string) (s s' : JobsDb.t)
    (created : JobWithArtifact.t)
    (Hsource : job_with_artifact_by_id t i (JobsDb.main s) = Ok (Some source))
    (Husage : usages_owned (JobsDb.main s))
    (Hok : create_copy_with_audit audit_id now now' job_id command_id t source source_payload
             overrides actor action reason s = (s', Ok created)) :
  (exists printer, In printer (JobsDb.printers s)
     /\ PrintersModel.id printer = Job.printer_id (JobWithArtifact.job created)
     /\ PrintersModel.tenant_id printer
        = TenantId_to_string (Job.tenant_id (JobWithArtifact.job source))
     /\ AgentId_parse (PrintersModel.agent_id printer)
        = Ok (Job.agent_id (JobWithArtifact.job created))
     /\ (PrintersModel.model printer ≫= normalize_model = Some "H2C"%string ->
         exists m, PrintProjectFilePayload.studio_metadata source_payload = Some m
                   /\ valid_h2c_nozzle_mapping (nozzle_mapping m) = true))
  /\ Job.status (JobWithArtifact.job created) = JobStatus.Queued
  /\ Db.artifacts (JobsDb.main s') = Db.artifacts (JobsDb.main s)
  /\ job_with_artifact_by_id (Job.tenant_id (JobWithArtifact.job source)) job_id (JobsDb.main s')
     = Ok (Some (JobWithArtifact.mk (JobWithArtifact.job created) (JobWithArtifact.artifact source)))
  /\ JobWithArtifact.artifact created
     = (JobWithArtifact.artifact source) <| JobArtifact.tenant_id := Job.tenant_id (JobWithArtifact.job source) |>
         <| JobArtifact.created_at := now |>.
Proof.
  unfold create_copy_with_audit in Hok. rewrite transaction_Ok in Hok.
  destruct (from_source source source_payload overrides) as [input metadata] eqn:Hfs.
  assert (metadata = PrintProjectFilePayload.studio_metadata source_payload) as Hmeta
    by (injection Hfs; congruence).
  assert (CreatePrintJob.tenant_id input = Job.tenant_id (JobWithArtifact.job source)
    /\ CreatePrintJob.artifact input =
       let artifact := JobWithArtifact.artifact source in
       PrintArtifactInput.mk (JobArtifact.id artifact) (JobArtifact.filename artifact)
        (JobArtifact.content_type artifact) (JobArtifact.size_bytes artifact)
        (JobArtifact.storage_path artifact) (JobArtifact.metadata_json artifact)) as [Ht Hart]
    by (injection Hfs as <- _; done).
  clear Hfs. apply tbind_Ok in Hok as (s1 & created' & Hcreate & Hok).
  apply tbind_Ok in Hok as (s2 & [] & Haudit & Hok). apply tret_Ok in Hok as [-> ->].
  apply insert_audit_event_Ok in Haudit.
  apply create_print_job_from_artifact_Ok in Hcreate as
    (printer & agent & rows & sid & db' & Hin & Htp & Hagent & Hn & -> & Hq & Harts & Hb).
  assert (JobsDb.main s2 = db') as -> by (by subst s2). clear Haudit.
  unfold tenant_printer in Htp. rewrite andb_true_iff, !beq_true in Htp. destruct Htp as [Hpid Hpt].
  destruct (built_statuses _ _ _ _ _ _ _ Hb) as [Hst _].
  destruct Hq as [_ Hjs Hus _ Hfresh Hplate _]. cbn in Hjs, Hus, Hfresh, Hplate.
  destruct (load_job_source _ _ _ _ Hsource) as (a & Ha & Haf).
  pose proof (created_job_hydrates _ _ _ _ _ _ _ Hb Hplate) as Hjob.
  pose proof Hjob as Hrow. apply job_from_model_iff in Hrow as [Hrow _].
  destruct Hrow as (_ & Htid & Haid & _ & _ & _ & _ & _ & _ & _ & Htexts & _).
  cbn in Htid, Haid. autorewrite with id_text in Htid, Haid. unfold row_texts, job_texts in Htexts.
  cbn in Htexts. split_and!.
  - exists printer. rewrite Hagent, <- Ht. split_and!; [done|congruence|done|congruence|].
    intros Hh. unfold needs_nozzle_mapping in Hn. rewrite Hh, beq_refl in Hn. simpl in Hn.
    apply negb_false_iff, is_some_and_true in Hn as (m & Hm & Hv). exists m. by rewrite <- Hmeta.
  - done.
  - done.
  - rewrite <- Ht. eapply new_job_loads; [..|exact Hfresh|exact Husage|exact Hjs|exact Hus| |exact Haf|done].
    + done.
    + done.
    + cbn. rewrite Hart. cbn. unfold artifact_by_id. rewrite Harts. exact Ha.
  - unfold build_created_job in Hb. apply rbind_Ok in Hb as (art & Hbart & Hb).
    apply rbind_Ok in Hb as (j & _ & [= <-]). rewrite db_err_ok in Hbart.
    unfold JobArtifact.from_parts in Hbart. do 4 (apply rbind_Ok in Hbart as (? & _ & Hbart)).
    destruct (_ =? 0); [done|]. injection Hbart as <-. cbn. rewrite Hart, Ht. cbn.
    by destruct (JobWithArtifact.artifact source).
Qed.
End CopyFacts.
