(* ===== verification/JobClear.v ===== *)
(** * Clearing finished jobs

    [repositories/jobs/clear.rs] with [clear/audit.rs], and the deletion queue of
    [artifacts/lifecycle.rs].  A [DELETE] cascades along the foreign keys of
    [migrations/]: the usage rows of a job go with it, and so would the jobs of a
    command or an artifact. *)

From stdpp Require Import sorting.
From S2P Require Import Prelude RustStr CoreTypes CoreRecords Json Store JobRows PrinterRows PrintState Tx AgentSessions CommandTransitions JobTables JobCreate JobRecovery.

#[local] Open Scope Z_scope.
#[local] Open Scope rust_scope.
#[local] Open Scope tx_scope.

Inductive ClearScope := ClearTenant | ClearJob (job_id : string).

Module ClearJobsOutcome.
Record t := mk {
  deleted_jobs : Z; retained_jobs : Z; deleted_commands : Z; deleted_artifacts : Z;
  deleted_artifact_bytes : Z }.
End ClearJobsOutcome.

Module DeleteJobAuditContext.
Record t := mk {
  job_id : string; artifact_id : string; artifact_filename : string; printer_id : string;
  agent_id : string; command_id : string; previous_dispatch_status : string;
  previous_print_status : string }.

Definition from_models (job : JobsModel.t) (artifact : ArtifactsModel.t) : t :=
  mk (JobsModel.id job) (JobsModel.artifact_id job) (ArtifactsModel.filename artifact)
    (JobsModel.printer_id job) (JobsModel.agent_id job) (JobsModel.command_id job)
    (JobsModel.status job) (JobsModel.print_status job).
End DeleteJobAuditContext.

Section Clear.
Context `{Store} `{UuidText} `{Rfc3339} `{JobJson} `{AuditJson}.

(** ** Cascading deletes *)

Definition any_id (ids : list string) (i : string) : bool := bool_decide (i ∈ ids).

(** [DELETE FROM jobs]. *)
Definition delete_jobs_where (p : JobsModel.t -> bool) : main Z := fun db =>
  let '(jobs, n) := delete_many p (Db.jobs db) in
  let gone := map JobsModel.id (List.filter p (Db.jobs db)) in
  (Db.mk (Db.commands db) jobs (Db.artifacts db)
     (fst (delete_many (fun u => any_id gone (UsagesModel.job_id u)) (Db.usages db))), Ok n).

(** [DELETE FROM commands]. *)
Definition delete_commands_where (p : CommandsModel.t -> bool) : main Z := fun db =>
  let '(commands, n) := delete_many p (Db.commands db) in
  let gone := map CommandsModel.id (List.filter p (Db.commands db)) in
  let '(db, _) := delete_jobs_where (fun j => any_id gone (JobsModel.command_id j))
                    (with_commands commands db) in
  (db, Ok n).

(** [DELETE FROM job_artifacts]. *)
Definition delete_artifacts_where (p : ArtifactsModel.t -> bool) : main Z := fun db =>
  let '(artifacts, n) := delete_many p (Db.artifacts db) in
  let gone := map ArtifactsModel.id (List.filter p (Db.artifacts db)) in
  let '(db, _) := delete_jobs_where (fun j => any_id gone (JobsModel.artifact_id j))
                    (Db.mk (Db.commands db) (Db.jobs db) artifacts (Db.usages db)) in
  (db, Ok n).

(** ** Which jobs may go *)

Definition terminal_text (s : string) : bool :=
  bool_decide (s ∈ ["succeeded"; "failed"; "cancelled"]%string).

Definition clearable_job (job : JobsModel.t) (command : CommandsModel.t) (now : Z)
  : result RepositoryError bool :=
  if negb (terminal_text (JobsModel.status job))
     || negb (terminal_text (CommandsModel.status command))
     || negb (beq (CommandsModel.kind command) "print_project_file"%string)
  then Ok false
  else if bool_decide (JobsModel.print_status job
                         ∈ ["stalled"; "completed"; "failed"; "cancelled"]%string)
  then Ok true
  else if beq (JobsModel.print_status job) "pending"%string
          && is_none (JobsModel.print_started_at job)
          && (default 0 (JobsModel.progress_percent job) =? 0)
          && (default 0 (JobsModel.current_layer job) =? 0)
  then if beq (JobsModel.status job) "failed"%string then Ok true
       else if beq (JobsModel.status job) "succeeded"%string
               && beq (CommandsModel.status command) "succeeded"%string
       then pending_job_is_stalled command now
       else Ok false
  else Ok false.

(** [command_by_id.get(..)]. *)
Definition command_by_id (commands : list CommandsModel.t) (id : string) : option CommandsModel.t :=
  List.find (fun c => beq (CommandsModel.id c) id) commands.

Fixpoint clearable_ids (commands : list CommandsModel.t) (now : Z) (jobs : list JobsModel.t)
  : result RepositoryError (list string) :=
  match jobs with
  | [] => Ok []
  | job :: jobs =>
      clearable <-? match command_by_id commands (JobsModel.command_id job) with
                    | None => Ok false
                    | Some command => clearable_job job command now
                    end ;;
      ids <-? clearable_ids commands now jobs ;;
      Ok (if clearable : bool then JobsModel.id job :: ids else ids)
  end.

(** The ids one scope clears, of those that may be cleared. *)
Definition scoped_ids (scope : ClearScope) (ids : list string) : result RepositoryError (list string) :=
  match scope with
  | ClearTenant => Ok ids
  | ClearJob job_id =>
      if any_id ids job_id then Ok (List.filter (beq job_id) ids) else Err JobNotClearable
  end.

(** ** The statements *)

Definition in_tenant (tenant_id : TenantId) (m : JobsModel.t) : bool :=
  beq (JobsModel.tenant_id m) (TenantId_to_string tenant_id).

Definition locked_artifacts (tenant_id : TenantId) (ids : list string)
  : jobs_tx (list ArtifactsModel.t) :=
  tread (fun s => Ok (select
    (fun a => beq (ArtifactsModel.tenant_id a) (TenantId_to_string tenant_id)
              && any_id ids (ArtifactsModel.id a)) (Db.artifacts (JobsDb.main s)))).

(** The candidates all of whose referencing jobs go. *)
Definition orphan_ids (candidates : list string) (references : list JobsModel.t)
    (ids : list string) : list string :=
  List.filter (fun a => forallb (fun j => any_id ids (JobsModel.id j))
                          (List.filter (fun j => beq (JobsModel.artifact_id j) a) references))
    candidates.

Definition delete_jobs (tenant_id : TenantId) (ids : list string) : jobs_tx Z :=
  if bool_decide (ids = []) then tret 0
  else on_db (delete_jobs_where (fun j => in_tenant tenant_id j && any_id ids (JobsModel.id j))).

Definition terminal_print_command (c : CommandsModel.t) : bool :=
  beq (CommandsModel.kind c) "print_project_file"%string && terminal_text (CommandsModel.status c).

Definition delete_unreferenced_commands (commands : list CommandsModel.t) (ids : list string)
  : jobs_tx Z :=
  let candidate_ids := map CommandsModel.id (List.filter terminal_print_command commands) in
  if bool_decide (candidate_ids = []) || bool_decide (ids = []) then tret 0
  else
    referenced <~ tread (fun s => Ok (map JobsModel.command_id
      (select (fun j => any_id candidate_ids (JobsModel.command_id j)) (Db.jobs (JobsDb.main s))))) ;;
    let delete_ids := List.filter (fun i => negb (any_id referenced i)) candidate_ids in
    if bool_decide (delete_ids = []) then tret 0
    else on_db (delete_commands_where (fun c => any_id delete_ids (CommandsModel.id c))).

Definition delete_artifact_rows (tenant_id : TenantId) (ids : list string) : jobs_tx Z :=
  if bool_decide (ids = []) then tret 0
  else on_db (delete_artifacts_where
    (fun a => beq (ArtifactsModel.tenant_id a) (TenantId_to_string tenant_id)
              && any_id ids (ArtifactsModel.id a))).

(** ** Audit ([clear/audit.rs]) *)

Definition count_json (n : Z) : json := Num (PosInt n).

Definition clear_metadata (outcome : ClearJobsOutcome.t) : json :=
  Object [("deleted_artifact_bytes"%string, count_json (ClearJobsOutcome.deleted_artifact_bytes outcome));
          ("deleted_artifacts"%string, count_json (ClearJobsOutcome.deleted_artifacts outcome));
          ("deleted_commands"%string, count_json (ClearJobsOutcome.deleted_commands outcome));
          ("deleted_jobs"%string, count_json (ClearJobsOutcome.deleted_jobs outcome));
          ("retained_jobs"%string, count_json (ClearJobsOutcome.retained_jobs outcome))].

Definition delete_metadata (c : DeleteJobAuditContext.t) (outcome : ClearJobsOutcome.t) : json :=
  Object [("agent_id"%string, Str (DeleteJobAuditContext.agent_id c));
          ("artifact_filename"%string, Str (DeleteJobAuditContext.artifact_filename c));
          ("artifact_id"%string, Str (DeleteJobAuditContext.artifact_id c));
          ("command_id"%string, Str (DeleteJobAuditContext.command_id c));
          ("deleted_artifact_bytes"%string, count_json (ClearJobsOutcome.deleted_artifact_bytes outcome));
          ("deleted_artifacts"%string, count_json (ClearJobsOutcome.deleted_artifacts outcome));
          ("deleted_commands"%string, count_json (ClearJobsOutcome.deleted_commands outcome));
          ("deleted_jobs"%string, count_json (ClearJobsOutcome.deleted_jobs outcome));
          ("job_id"%string, Str (DeleteJobAuditContext.job_id c));
          ("previous_dispatch_status"%string, Str (DeleteJobAuditContext.previous_dispatch_status c));
          ("previous_print_status"%string, Str (DeleteJobAuditContext.previous_print_status c));
          ("printer_id"%string, Str (DeleteJobAuditContext.printer_id c));
          ("retained_jobs"%string, count_json (ClearJobsOutcome.retained_jobs outcome))].

(** The context exists for a single job; the source unwraps it. *)
Definition insert_clear_audit (audit_id now : string) (tenant_id : TenantId) (actor : AuditActor.t)
    (scope : ClearScope) (delete_context : option DeleteJobAuditContext.t)
    (outcome : ClearJobsOutcome.t) : jobs_tx unit :=
  match scope with
  | ClearTenant =>
      insert_audit_event (record_audit_event audit_id now tenant_id actor "job.clear"
        "job_collection" None (clear_metadata outcome))
  | ClearJob job_id =>
      context <~ tlift (ok_or delete_context Database) ;;
      insert_audit_event (record_audit_event audit_id now tenant_id actor "job.delete" "job"
        (Some job_id) (delete_metadata context outcome))
  end.

(** The two [expect]s: without the rows the task would panic and the transaction
    roll back, as for an error. *)
Definition delete_audit_context (scope : ClearScope) (tenant_jobs : list JobsModel.t)
    (artifacts : list ArtifactsModel.t)
  : result RepositoryError (option DeleteJobAuditContext.t) :=
  match scope with
  | ClearTenant => Ok None
  | ClearJob job_id =>
      job <-? ok_or (List.find (fun j => beq (JobsModel.id j) job_id) tenant_jobs) Database ;;
      artifact <-? ok_or (List.find (fun a => beq (ArtifactsModel.id a) (JobsModel.artifact_id job))
                            artifacts) Database ;;
      Ok (Some (DeleteJobAuditContext.from_models job artifact))
  end.

(** ** The transaction

    [now] is the instant of [now_utc], [fresh] and [clock] name and date the
    queued deletions. *)
Definition clear_in_transaction (audit_id audit_now : string) (fresh clock : string -> string)
    (now : Z) (tenant_id : TenantId) (scope : ClearScope) (actor : AuditActor.t)
  : jobs_tx ClearJobsOutcome.t :=
  command_ids <~ tread (fun s => Ok (map JobsModel.command_id
    (select (in_tenant tenant_id) (Db.jobs (JobsDb.main s))))) ;;
  commands <~ tread (fun s => Ok (select (fun c => any_id command_ids (CommandsModel.id c))
    (Db.commands (JobsDb.main s)))) ;;
  tenant_jobs <~ tread (fun s => Ok (select (in_tenant tenant_id) (Db.jobs (JobsDb.main s)))) ;;
  if match scope with
     | ClearTenant => false
     | ClearJob job_id => negb (existsb (fun j => beq (JobsModel.id j) job_id) tenant_jobs)
     end
  then tfail MissingJob
  else
    clearable <~ tlift (clearable_ids commands now tenant_jobs) ;;
    ids <~ tlift (scoped_ids scope clearable) ;;
    let retained_jobs := Z.of_nat (length tenant_jobs) - Z.of_nat (length (remove_dups ids)) in
    let candidates := map JobsModel.artifact_id
      (List.filter (fun j => any_id ids (JobsModel.id j)) tenant_jobs) in
    candidate_artifacts <~ locked_artifacts tenant_id candidates ;;
    context <~ tlift (delete_audit_context scope tenant_jobs candidate_artifacts) ;;
    references <~ tread (fun s => Ok (select (fun j => any_id candidates (JobsModel.artifact_id j))
      (Db.jobs (JobsDb.main s)))) ;;
    let orphans := orphan_ids candidates references ids in
    let orphan_artifacts :=
      List.filter (fun a => any_id orphans (ArtifactsModel.id a)) candidate_artifacts in
    enqueue_deletions fresh clock (map ArtifactsModel.storage_path orphan_artifacts) ~;;
    deleted_jobs <~ delete_jobs tenant_id ids ;;
    deleted_commands <~ delete_unreferenced_commands commands ids ;;
    deleted_artifacts <~ delete_artifact_rows tenant_id orphans ;;
    let bytes := sum_bytes (fun a => Z.max (ArtifactsModel.size_bytes a) 0) orphan_artifacts
                 mod 2 ^ 64 in
    let outcome := ClearJobsOutcome.mk deleted_jobs retained_jobs deleted_commands
                     deleted_artifacts bytes in
    insert_clear_audit audit_id audit_now tenant_id actor scope context outcome ~;;
    tret outcome.

(** What follows the commit only drains the deletion queue. *)
Definition clear_with_audit (audit_id audit_now : string) (fresh clock : string -> string)
    (now : Z) (tenant_id : TenantId) (scope : ClearScope) (actor : AuditActor.t)
  : jobs_tx ClearJobsOutcome.t :=
  transaction (clear_in_transaction audit_id audit_now fresh clock now tenant_id scope actor).
End Clear.

Section ClearFacts.
Context `{Store} `{UuidText} `{Rfc3339} `{JobJson} `{AuditJson}.

Lemma any_id_In ids i : any_id ids i = true <-> In i ids.
Proof. unfold any_id. rewrite bool_decide_eq_true. apply list_elem_of_In. Qed.

Lemma filter_all {R} (p : R -> bool) l :
  (forall x, In x l -> p x = false) -> List.filter (fun x => negb (p x)) l = l.
Proof.
  intros Hp. induction l as [|x l IH]; simpl; [done|].
  rewrite (Hp x) by (by left). simpl. f_equal. apply IH. intros y Hy. apply Hp. by right.
Qed.

(** Usage rows that stay when the jobs of [p] go. *)
Definition usage_stays (p : JobsModel.t -> bool) (db : Db.t) (u : UsagesModel.t) : bool :=
  negb (any_id (map JobsModel.id (List.filter p (Db.jobs db))) (UsagesModel.job_id u)).

Lemma delete_jobs_where_run p db :
  delete_jobs_where p db =
  (Db.mk (Db.commands db) (List.filter (fun j => negb (p j)) (Db.jobs db)) (Db.artifacts db)
     (List.filter (usage_stays p db) (Db.usages db)),
   Ok (Z.of_nat (length (List.filter p (Db.jobs db))))).
Proof.
  unfold delete_jobs_where. rewrite (surjective_pairing (delete_many p (Db.jobs db))).
  by rewrite !delete_many_rows, delete_many_affected.
Qed.

(** A cascade that reaches no job changes nothing. *)
Lemma delete_no_job p db :
  (forall j, In j (Db.jobs db) -> p j = false) -> fst (delete_jobs_where p db) = db.
Proof.
  intros Hp. rewrite delete_jobs_where_run. cbn [fst]. rewrite (filter_all p) by done.
  assert (List.filter (usage_stays p db) (Db.usages db) = Db.usages db) as ->; [|by destruct db].
  apply (filter_all (fun u => any_id _ (UsagesModel.job_id u))). intros u _.
  assert (List.filter p (Db.jobs db) = []) as ->; [|done].
  destruct (List.filter p (Db.jobs db)) as [|j l] eqn:E; [done|].
  assert (In j (List.filter p (Db.jobs db))) as Hj by (rewrite E; by left).
  apply filter_In in Hj as [Hj Hpj]. by rewrite Hp in Hpj.
Qed.

Lemma delete_commands_where_run p db :
  (forall c j, In c (Db.commands db) -> p c = true -> In j (Db.jobs db) ->
     JobsModel.command_id j <> CommandsModel.id c) ->
  exists n, delete_commands_where p db
    = (with_commands (List.filter (fun c => negb (p c)) (Db.commands db)) db, Ok n).
Proof.
  intros Hp. unfold delete_commands_where.
  rewrite (surjective_pairing (delete_many p (Db.commands db))), delete_many_rows.
  set (db1 := with_commands _ db). set (q := fun j => any_id _ (JobsModel.command_id j)).
  pose proof (delete_no_job q db1) as Hq. destruct (delete_jobs_where q db1) as [db2 n2].
  cbn [fst] in Hq. rewrite Hq; [eauto|]. intros j Hj. unfold q.
  destruct (any_id _ _) eqn:E; [|done]. apply any_id_In, in_map_iff in E as (c & Ec & Hc).
  apply filter_In in Hc as [Hc Hpc]. by destruct (Hp c j Hc Hpc Hj).
Qed.

Lemma delete_artifacts_where_run p db :
  (forall a j, In a (Db.artifacts db) -> p a = true -> In j (Db.jobs db) ->
     JobsModel.artifact_id j <> ArtifactsModel.id a) ->
  exists n, delete_artifacts_where p db
    = (Db.mk (Db.commands db) (Db.jobs db) (List.filter (fun a => negb (p a)) (Db.artifacts db))
         (Db.usages db), Ok n).
Proof.
  intros Hp. unfold delete_artifacts_where.
  rewrite (surjective_pairing (delete_many p (Db.artifacts db))), delete_many_rows.
  set (db1 := Db.mk _ _ _ _). set (q := fun j => any_id _ (JobsModel.artifact_id j)).
  pose proof (delete_no_job q db1) as Hq. destruct (delete_jobs_where q db1) as [db2 n2].
  cbn [fst] in Hq. rewrite Hq; [eauto|]. intros j Hj. unfold q.
  destruct (any_id _ _) eqn:E; [|done]. apply any_id_In, in_map_iff in E as (a & Ea & Ha).
  apply filter_In in Ha as [Ha Hpa]. by destruct (Hp a j Ha Hpa Hj).
Qed.

(** ** The deletion queue *)

Record queued_paths (paths : list string) (s s' : JobsDb.t) : Prop := {
  qp_frame : exists rows, s' = s <| JobsDb.deletions := rows |>;
  qp_old : forall d, In d (JobsDb.deletions s) -> In d (JobsDb.deletions s');
  qp_new : forall d, In d (JobsDb.deletions s') ->
    In d (JobsDb.deletions s) \/ In (DeletionsModel.storage_path d) paths;
  qp_all : forall p, In p paths ->
    exists d, In d (JobsDb.deletions s') /\ DeletionsModel.storage_path d = p;
}.

Lemma enqueue_deletion_Ok id now path s s' :
  enqueue_deletion id now path s = (s', Ok tt) -> queued_paths [path] s s'.
Proof.
  unfold enqueue_deletion. destruct (select_one _ _) as [d|] eqn:E; cbn [is_some].
  - intros [= <-]. apply select_one_Some in E as [Hin Hd]. rewrite beq_true in Hd. split.
    + exists (JobsDb.deletions s). by destruct s.
    + done.
    + auto.
    + intros p [<-|[]]. eauto.
  - destruct (try_insert _ _ _) as [rows|] eqn:T; [|done]. apply try_insert_Some in T as [_ ->].
    intros [= <-]. split; cbn [JobsDb.deletions].
    + eauto.
    + intros d Hd. apply In_insert_row. by right.
    + intros d Hd. apply In_insert_row in Hd as [-> | Hd]; simpl; auto.
    + intros p [<-|[]]. eexists. split; [apply In_insert_row; by left|done].
Qed.

Lemma enqueue_deletions_Ok fresh clock paths : forall s s',
  enqueue_deletions fresh clock paths s = (s', Ok tt) -> queued_paths paths s s'.
Proof.
  induction paths as [|path paths IH]; intros s s'; cbn [enqueue_deletions].
  - intros [-> _]%tret_Ok. split; [exists (JobsDb.deletions s); by destruct s|done|auto|done].
  - rewrite tbind_Ok. intros (s1 & [] & Hp & Hr).
    destruct (enqueue_deletion_Ok _ _ _ _ _ Hp) as [[rows1 ->] Hold Hnew Hall].
    destruct (IH _ _ Hr) as [[rows2 ->] Hold2 Hnew2 Hall2]. cbn [JobsDb.deletions] in *. split.
    + exists rows2. done.
    + intros d Hd. by apply Hold2, Hold.
    + intros d Hd. destruct (Hnew2 d Hd) as [Hd1|Hd1]; [|right; by right].
      destruct (Hnew d Hd1) as [Hd0|[<-|[]]]; [by left|right; by left].
    + intros p [<-|Hp']; [|by apply Hall2].
      destruct (Hall path (or_introl eq_refl)) as (d & Hd & Epath). exists d. split; [by apply Hold2|done].
Qed.

(** ** What may go *)

Lemma clearable_ids_In commands now jobs ids :
  clearable_ids commands now jobs = Ok ids ->
  forall i, In i ids -> exists j c, In j jobs /\ JobsModel.id j = i /\ In c commands
    /\ CommandsModel.id c = JobsModel.command_id j /\ clearable_job j c now = Ok true.
Proof.
  revert ids. induction jobs as [|j jobs IH]; intros ids; cbn [clearable_ids].
  { by intros [= <-] i []. }
  intros Hk. apply rbind_Ok in Hk as (b & Hb & Hk). apply rbind_Ok in Hk as (ids' & Hi & [= <-]).
  intros i Hin. assert (In i ids' \/ b = true /\ i = JobsModel.id j) as [Hin'|[-> ->]].
  { destruct b; [destruct Hin as [<-|Hin]|]; auto. }
  - destruct (IH _ Hi i Hin') as (j' & c & Hj' & Hrest). exists j', c. split; [by right|done].
  - destruct (command_by_id commands _) as [c|] eqn:E; [|done].
    unfold command_by_id in E. apply find_some in E as [Hc Ec]. rewrite beq_true in Ec.
    exists j, c. split; [by left|done].
Qed.

(** Finished: the dispatch is settled, on the job and on its print command, and
    the print is over or never began although the dispatch failed or succeeded
    long ago. *)
Definition finished (j : JobsModel.t) (c : CommandsModel.t) (now : Z) : Prop :=
  JobsModel.status j ∈ ["succeeded"; "failed"; "cancelled"]%string
  /\ CommandsModel.status c ∈ ["succeeded"; "failed"; "cancelled"]%string
  /\ CommandsModel.kind c = "print_project_file"%string
  /\ (JobsModel.print_status j ∈ ["stalled"; "completed"; "failed"; "cancelled"]%string
      \/ JobsModel.print_status j = "pending"%string /\ JobsModel.print_started_at j = None
         /\ (JobsModel.status j = "failed"%string
             \/ JobsModel.status j = "succeeded"%string
                /\ CommandsModel.status c = "succeeded"%string /\ dispatched_long_ago now c)).

Lemma clearable_finished j c now : clearable_job j c now = Ok true -> finished j c now.
Proof.
  unfold clearable_job, finished, terminal_text.
  destruct (bool_decide (JobsModel.status j ∈ _)) eqn:Hj; [|done]. apply bool_decide_eq_true in Hj.
  destruct (bool_decide (CommandsModel.status c ∈ _)) eqn:Hc; [|done]. apply bool_decide_eq_true in Hc.
  destruct (beq (CommandsModel.kind c) _) eqn:Hk; [|done]. rewrite beq_true in Hk. cbn [negb orb].
  destruct (bool_decide (JobsModel.print_status j ∈ _)) eqn:Hp; [apply bool_decide_eq_true in Hp; auto|].
  destruct (_ && _) eqn:Hu; [|done]. rewrite !andb_true_iff, beq_true in Hu.
  destruct Hu as [[[Hpend Hstart] _] _].
  assert (JobsModel.print_started_at j = None) by (by destruct (JobsModel.print_started_at j)).
  destruct (beq (JobsModel.status j) "failed") eqn:Hf; [rewrite beq_true in Hf; tauto|].
  destruct (_ && _) eqn:Hs; [|done]. rewrite andb_true_iff, !beq_true in Hs.
  intros Hl. unfold pending_job_is_stalled, dispatch_succeeded_at_is_stalled in Hl.
  apply rbind_Ok in Hl as (at_ & Ha & [= Hl]). rewrite ok_or_Ok in Ha. rewrite Z.ltb_lt in Hl.
  split_and!; [done|done|done|]. right. split_and!; [done|done|]. right. split_and!; try tauto.
  by exists at_.
Qed.

Definition in_clear_scope (scope : ClearScope) (j : JobsModel.t) : Prop :=
  match scope with ClearTenant => True | ClearJob job_id => JobsModel.id j = job_id end.

Lemma scoped_ids_In scope ids ids' i :
  scoped_ids scope ids = Ok ids' -> In i ids' ->
  In i ids /\ match scope with ClearTenant => True | ClearJob job_id => i = job_id end.
Proof.
  destruct scope as [|job_id]; simpl; [by intros [= <-]|].
  destruct (any_id ids job_id); [|done]. intros [= <-] Hin. apply filter_In in Hin as [Hin E].
  by rewrite beq_true in E.
Qed.

(** ** The three deletes *)

Lemma delete_jobs_Ok t ids s s' n :
  delete_jobs t ids s = (s', Ok n) ->
  let gone := fun j => in_tenant t j && any_id ids (JobsModel.id j) in
  let db := JobsDb.main s in
  s' = s <| JobsDb.main := Db.mk (Db.commands db) (List.filter (fun j => negb (gone j)) (Db.jobs db))
              (Db.artifacts db) (List.filter (usage_stays gone db) (Db.usages db)) |>
  /\ n = Z.of_nat (length (List.filter gone (Db.jobs db))).
Proof.
  cbv zeta. unfold delete_jobs. case_bool_decide as Hids.
  - intros [-> ->]%tret_Ok. subst ids.
    pose proof (delete_no_job (fun j => in_tenant t j && any_id [] (JobsModel.id j)) (JobsDb.main s)) as Hno.
    rewrite delete_jobs_where_run in Hno. cbn [fst] in Hno. rewrite Hno.
    + split; [by destruct s|]. generalize (Db.jobs (JobsDb.main s)). intros l.
      induction l as [|j l IH]; [done|]. cbn [List.filter]. by rewrite andb_false_r.
    + intros j _. by rewrite andb_false_r.
  - intros (db & Hd & ->)%on_db_Ok. rewrite delete_jobs_where_run in Hd. by injection Hd as <- <-.
Qed.

Lemma delete_unreferenced_commands_Ok commands ids s s' n :
  delete_unreferenced_commands commands ids s = (s', Ok n) ->
  exists p, s' = s <| JobsDb.main :=
      with_commands (List.filter (fun c => negb (p c)) (Db.commands (JobsDb.main s))) (JobsDb.main s) |>
    /\ forall c, In c (Db.commands (JobsDb.main s)) -> p c = true ->
         (exists c', In c' commands /\ CommandsModel.id c' = CommandsModel.id c
                     /\ terminal_print_command c' = true)
         /\ forall j, In j (Db.jobs (JobsDb.main s)) -> JobsModel.command_id j <> CommandsModel.id c.
Proof.
  unfold delete_unreferenced_commands. set (candidates := map _ _).
  assert (forall m : JobsDb.t, exists p : CommandsModel.t -> bool,
    m = m <| JobsDb.main :=
      with_commands (List.filter (fun c => negb (p c)) (Db.commands (JobsDb.main m))) (JobsDb.main m) |>
    /\ forall c, p c = false) as Hnone.
  { intros m. exists (fun _ => false). rewrite (filter_all (fun _ => false)), with_commands_same by done.
    by destruct m. }
  destruct (_ || _).
  { intros [-> _]%tret_Ok. destruct (Hnone s) as (p & Hp & Hf). exists p. split; [done|].
    intros c _ Hc. by rewrite Hf in Hc. }
  rewrite tbind_Ok. intros (s1 & referenced & Hr & Hk). apply tread_Ok in Hr as [-> [= <-]].
  case_bool_decide.
  { apply tret_Ok in Hk as [-> _]. destruct (Hnone s) as (p & Hp & Hf). exists p. split; [done|].
    intros c _ Hc. by rewrite Hf in Hc. }
  set (gone := List.filter _ candidates) in *. apply on_db_Ok in Hk as (db & Hd & ->).
  assert (forall c, any_id gone (CommandsModel.id c) = true ->
    In (CommandsModel.id c) candidates
    /\ forall j, In j (Db.jobs (JobsDb.main s)) -> JobsModel.command_id j <> CommandsModel.id c) as Hgone.
  { intros c Hc. apply any_id_In, filter_In in Hc as [Hc Href]. split; [done|].
    intros j Hj E. apply negb_true_iff in Href. apply not_true_iff_false in Href. apply Href.
    apply any_id_In, in_map_iff. exists j. split; [done|]. apply select_In. split; [done|].
    apply any_id_In. by rewrite E. }
  exists (fun c => any_id gone (CommandsModel.id c)).
  destruct (delete_commands_where_run (fun c => any_id gone (CommandsModel.id c)) (JobsDb.main s))
    as [n' Hrun].
  { intros c j _ Hc Hj. by apply Hgone. }
  rewrite Hrun in Hd. injection Hd as <- _. split; [done|]. intros c _ Hc.
  destruct (Hgone c Hc) as [Hin Hno]. split; [|done]. apply in_map_iff in Hin as (c' & E & Hin).
  apply filter_In in Hin as [Hin Ht]. eauto.
Qed.

Lemma delete_artifact_rows_Ok t ids s s' n :
  (forall a j, In a (Db.artifacts (JobsDb.main s)) -> In (ArtifactsModel.id a) ids ->
     In j (Db.jobs (JobsDb.main s)) -> JobsModel.artifact_id j <> ArtifactsModel.id a) ->
  delete_artifact_rows t ids s = (s', Ok n) ->
  let p := fun a => beq (ArtifactsModel.tenant_id a) (TenantId_to_string t)
                    && any_id ids (ArtifactsModel.id a) in
  let db := JobsDb.main s in
  s' = s <| JobsDb.main := Db.mk (Db.commands db) (Db.jobs db)
              (List.filter (fun a => negb (p a)) (Db.artifacts db)) (Db.usages db) |>.
Proof.
  cbv zeta. intros Hno. unfold delete_artifact_rows. case_bool_decide as Hids.
  - intros [-> _]%tret_Ok. subst ids. rewrite filter_all by (intros a _; by rewrite andb_false_r).
    destruct s as [[] ? ? ? ? ?]; done.
  - intros (db & Hd & ->)%on_db_Ok.
    destruct (delete_artifacts_where_run (fun a => beq (ArtifactsModel.tenant_id a)
      (TenantId_to_string t) && any_id ids (ArtifactsModel.id a)) (JobsDb.main s)) as [n' Hrun].
    { intros a j Ha Hp Hj. rewrite andb_true_iff, any_id_In in Hp. apply Hno; tauto. }
    rewrite Hrun in Hd. by injection Hd as <- _.
Qed.

Lemma insert_clear_audit_Ok audit_id now t actor scope context outcome s s' :
  insert_clear_audit audit_id now t actor scope context outcome s = (s', Ok tt) ->
  exists event, s' = s <| JobsDb.audit_events := insert_row event (JobsDb.audit_events s) |>.
Proof.
  destruct scope as [|job_id]; simpl.
  - intros ->%insert_audit_event_Ok. eauto.
  - intros Hk. apply tbind_Ok in Hk as (s1 & c & Hc & Hk). apply tlift_Ok in Hc as [-> _].
    apply insert_audit_event_Ok in Hk as ->. eauto.
Qed.

(** Every job of an orphan goes. *)
Lemma orphan_job candidates jobs ids a j :
  In (ArtifactsModel.id a)
    (orphan_ids candidates (select (fun j => any_id candidates (JobsModel.artifact_id j)) jobs) ids) ->
  In j jobs -> JobsModel.artifact_id j = ArtifactsModel.id a -> In (JobsModel.id j) ids.
Proof.
  intros Ha Hj E. unfold orphan_ids in Ha. apply filter_In in Ha as [Ha Hall].
  rewrite forallb_forall in Hall. apply any_id_In, Hall, filter_In. rewrite E, beq_refl.
  split; [|done]. apply select_In. split; [done|]. apply any_id_In. by rewrite E.
Qed.

(** ** The transaction *)

(** What clearing [gone] did. *)
Record cleared (t : TenantId) (scope : ClearScope) (now : Z) (gone : JobsModel.t -> bool)
    (s s' : JobsDb.t) : Prop := {
  cl_jobs : Db.jobs (JobsDb.main s') = List.filter (fun j => negb (gone j)) (Db.jobs (JobsDb.main s));
  cl_finished : forall j, In j (Db.jobs (JobsDb.main s)) -> gone j = true ->
    in_tenant t j = true /\ in_clear_scope scope j
    /\ exists c, In c (Db.commands (JobsDb.main s)) /\ CommandsModel.id c = JobsModel.command_id j
         /\ finished j c now;
  cl_usages : Db.usages (JobsDb.main s')
    = List.filter (usage_stays gone (JobsDb.main s)) (Db.usages (JobsDb.main s));
  cl_commands : forall c, In c (Db.commands (JobsDb.main s')) -> In c (Db.commands (JobsDb.main s));
  cl_commands_gone : forall c, In c (Db.commands (JobsDb.main s)) ->
    In c (Db.commands (JobsDb.main s'))
    \/ (exists c', In c' (Db.commands (JobsDb.main s)) /\ CommandsModel.id c' = CommandsModel.id c
                   /\ terminal_print_command c' = true)
       /\ forall j, In j (Db.jobs (JobsDb.main s')) -> JobsModel.command_id j <> CommandsModel.id c;
  cl_artifacts : exists p, Db.artifacts (JobsDb.main s')
    = List.filter (fun a => negb (p a)) (Db.artifacts (JobsDb.main s));
  cl_artifacts_gone : forall a, In a (Db.artifacts (JobsDb.main s)) ->
    In a (Db.artifacts (JobsDb.main s'))
    \/ (exists d, In d (JobsDb.deletions s') /\ DeletionsModel.storage_path d = ArtifactsModel.storage_path a)
       /\ forall j, In j (Db.jobs (JobsDb.main s')) -> JobsModel.artifact_id j <> ArtifactsModel.id a;
  cl_queue : forall d, In d (JobsDb.deletions s') ->
    In d (JobsDb.deletions s)
    \/ exists a, In a (Db.artifacts (JobsDb.main s)) /\ ~ In a (Db.artifacts (JobsDb.main s'))
         /\ ArtifactsModel.storage_path a = DeletionsModel.storage_path d;
  cl_queue_old : forall d, In d (JobsDb.deletions s) -> In d (JobsDb.deletions s');
  cl_reservations : JobsDb.reservations s' = JobsDb.reservations s;
}.

(** What is cleared of a job listing was asked for and finished. *)
Lemma cleared_ids_finished t scope now s clearable ids :
  let tjobs := select (in_tenant t) (Db.jobs (JobsDb.main s)) in
  let commands := select (fun c => any_id (map JobsModel.command_id tjobs) (CommandsModel.id c))
                    (Db.commands (JobsDb.main s)) in
  clearable_ids commands now tjobs = Ok clearable -> scoped_ids scope clearable = Ok ids ->
  forall i, In i ids -> exists j c, In j (Db.jobs (JobsDb.main s)) /\ JobsModel.id j = i
    /\ in_tenant t j = true /\ in_clear_scope scope j /\ In c (Db.commands (JobsDb.main s))
    /\ CommandsModel.id c = JobsModel.command_id j /\ clearable_job j c now = Ok true.
Proof.
  cbv zeta. intros Hclearable Hids i Hi. destruct (scoped_ids_In _ _ _ _ Hids Hi) as [Hi' Hs].
  destruct (clearable_ids_In _ _ _ _ Hclearable i Hi') as (j & c & Hj & <- & Hc & E & Hcl).
  apply select_In in Hj as [Hj Ht]. apply select_In in Hc as [Hc _].
  exists j, c. repeat split; try done; by destruct scope.
Qed.

(** The pieces of a clearing of the jobs [ids], put together. *)
Section ClearedRun.
Context (t : TenantId) (scope : ClearScope) (now : Z) (s : JobsDb.t) (ids : list string).
Context (Hjobs : job_ids_unique (JobsDb.main s)).
Context (Hids : forall i, In i ids -> exists j c, In j (Db.jobs (JobsDb.main s)) /\ JobsModel.id j = i
  /\ in_tenant t j = true /\ in_clear_scope scope j /\ In c (Db.commands (JobsDb.main s))
  /\ CommandsModel.id c = JobsModel.command_id j /\ clearable_job j c now = Ok true).

Definition run_gone (j : JobsModel.t) : bool := in_tenant t j && any_id ids (JobsModel.id j).
Definition run_candidates : list string := map JobsModel.artifact_id
  (List.filter (fun j => any_id ids (JobsModel.id j)) (select (in_tenant t) (Db.jobs (JobsDb.main s)))).
Definition run_orphans : list string := orphan_ids run_candidates
  (select (fun j => any_id run_candidates (JobsModel.artifact_id j)) (Db.jobs (JobsDb.main s))) ids.
Definition run_orphan_artifacts : list ArtifactsModel.t :=
  List.filter (fun a => any_id run_orphans (ArtifactsModel.id a))
    (select (fun a => beq (ArtifactsModel.tenant_id a) (TenantId_to_string t)
                      && any_id run_candidates (ArtifactsModel.id a)) (Db.artifacts (JobsDb.main s))).
Definition run_artifact (a : ArtifactsModel.t) : bool :=
  beq (ArtifactsModel.tenant_id a) (TenantId_to_string t) && any_id run_orphans (ArtifactsModel.id a).

Lemma run_gone_ids j : In j (Db.jobs (JobsDb.main s)) -> In (JobsModel.id j) ids -> run_gone j = true.
Proof.
  intros Hj Hi. destruct (Hids _ Hi) as (j' & _ & Hj' & E & Ht & _).
  rewrite (Hjobs j' j Hj' Hj E) in Ht. unfold run_gone.
  apply andb_true_iff. split; [done|]. by apply any_id_In.
Qed.

(** No remaining job uses an orphan. *)
Lemma run_orphan_unused a j :
  any_id run_orphans (ArtifactsModel.id a) = true ->
  In j (List.filter (fun j => negb (run_gone j)) (Db.jobs (JobsDb.main s))) ->
  JobsModel.artifact_id j <> ArtifactsModel.id a.
Proof.
  rewrite any_id_In. intros Ha Hj E. apply filter_In in Hj as [Hj Hn].
  rewrite run_gone_ids in Hn; [done|done|]. by apply (orphan_job _ _ _ _ _ Ha Hj).
Qed.

Lemma cleared_run (pc : CommandsModel.t -> bool) s' :
  JobsDb.main s' = Db.mk (List.filter (fun c => negb (pc c)) (Db.commands (JobsDb.main s)))
    (List.filter (fun j => negb (run_gone j)) (Db.jobs (JobsDb.main s)))
    (List.filter (fun a => negb (run_artifact a)) (Db.artifacts (JobsDb.main s)))
    (List.filter (usage_stays run_gone (JobsDb.main s)) (Db.usages (JobsDb.main s))) ->
  JobsDb.reservations s' = JobsDb.reservations s ->
  queued_paths (map ArtifactsModel.storage_path run_orphan_artifacts) s
    (s <| JobsDb.deletions := JobsDb.deletions s' |>) ->
  (forall c, In c (Db.commands (JobsDb.main s)) -> pc c = true ->
     (exists c', In c' (Db.commands (JobsDb.main s)) /\ CommandsModel.id c' = CommandsModel.id c
                 /\ terminal_print_command c' = true)
     /\ forall j, In j (List.filter (fun j => negb (run_gone j)) (Db.jobs (JobsDb.main s))) ->
          JobsModel.command_id j <> CommandsModel.id c) ->
  cleared t scope now run_gone s s'.
Proof.
  intros Emain Eres [_ Hqold Hqnew Hqall] Hpc. cbn [JobsDb.deletions] in *.
  split; rewrite ?Emain; cbn [Db.commands Db.jobs Db.artifacts].
  - done.
  - intros j Hj Hg. unfold run_gone in Hg. rewrite andb_true_iff, any_id_In in Hg.
    destruct Hg as [Ht (j' & c & Hj' & E & Hrest)%Hids].
    rewrite (Hjobs j' j Hj' Hj E) in Hrest. split_and!; try tauto. exists c.
    split_and!; try tauto. apply clearable_finished; tauto.
  - done.
  - intros c Hc. by apply filter_In in Hc as [Hc _].
  - intros c Hc. destruct (pc c) eqn:Ec; [right|left; apply filter_In; by rewrite Ec].
    destruct (Hpc c Hc Ec) as [(c' & Hc' & E & Ht) Hno]. eauto.
  - by exists run_artifact.
  - intros a Ha. destruct (run_artifact a) eqn:Ea; [right|left; apply filter_In; by rewrite Ea].
    unfold run_artifact in Ea. apply andb_true_iff in Ea as [Eten Eorph]. split.
    + apply Hqall, in_map, filter_In. split; [|done]. apply select_In.
      rewrite Eten. split; [done|]. cbn [andb]. rewrite any_id_In in Eorph |- *.
      unfold run_orphans, orphan_ids in Eorph.
      by apply filter_In in Eorph as [Eorph _].
    + intros j Hj. by apply run_orphan_unused.
  - intros d [Hd|Hd]%Hqnew; [by left|right]. apply in_map_iff in Hd as (a & E & Ha).
    apply filter_In in Ha as [Ha Eorph]. apply select_In in Ha as [Ha Ep]. exists a.
    split_and!; [done| |done]. intros [_ Hn]%filter_In. apply andb_true_iff in Ep as [Et _].
    unfold run_artifact in Hn. by rewrite Et, Eorph in Hn.
  - done.
  - done.
Qed.
End ClearedRun.

(** clearing removes only finished jobs and never tears the tables apart: every
    job removed belongs to the tenant and the scope and was finished with its
    command, no other job changes, every remaining job keeps its command and its
    artifact, only terminal print commands and artifacts that no remaining job
    uses go, and exactly the files of the removed artifacts are queued for
    deletion. *)
Theorem clear_removes_only_finished (audit_id audit_now : string) (fresh clock : string -> string)
    (now : Z) (t : TenantId) (scope : ClearScope) (actor : AuditActor.t) (s s' : JobsDb.t)
    (outcome : ClearJobsOutcome.t)
    (Hjobs : job_ids_unique (JobsDb.main s))
    (Hok : clear_with_audit audit_id audit_now fresh clock now t scope actor s = (s', Ok outcome)) :
  exists gone, cleared t scope now gone s s'
    /\ ClearJobsOutcome.deleted_jobs outcome
       = Z.of_nat (length (List.filter gone (Db.jobs (JobsDb.main s)))).
Proof.
  unfold clear_with_audit in Hok. rewrite transaction_Ok in Hok. unfold clear_in_transaction in Hok.
  apply tbind_Ok in Hok as (s1 & cids & Hc & Hok). apply tread_Ok in Hc as [-> [= <-]].
  apply tbind_Ok in Hok as (s1 & commands & Hc & Hok). apply tread_Ok in Hc as [-> [= <-]].
  apply tbind_Ok in Hok as (s1 & tjobs & Hc & Hok). apply tread_Ok in Hc as [-> [= <-]].
  destruct (match scope with ClearTenant => _ | ClearJob _ => _ end); [done|].
  apply tbind_Ok in Hok as (s1 & clearable & Hc & Hok). apply tlift_Ok in Hc as [-> Hclearable].
  apply tbind_Ok in Hok as (s1 & ids & Hc & Hok). apply tlift_Ok in Hc as [-> Hids].
  pose proof (cleared_ids_finished _ _ _ _ _ _ Hclearable Hids) as Hin.
  apply tbind_Ok in Hok as (s1 & cands & Hc & Hok). apply tread_Ok in Hc as [-> [= <-]].
  apply tbind_Ok in Hok as (s1 & context & Hc & Hok). apply tlift_Ok in Hc as [-> _].
  apply tbind_Ok in Hok as (s1 & refs & Hc & Hok). apply tread_Ok in Hc as [-> [= <-]].
  apply tbind_Ok in Hok as (s1 & [] & Hq & Hok). apply enqueue_deletions_Ok in Hq. cbv zeta in Hok.
  pose proof Hq as [[rows ->] _ _ _].
  apply tbind_Ok in Hok as (s2 & nj & Hdj & Hok). apply delete_jobs_Ok in Hdj as [-> ->].
  apply tbind_Ok in Hok as (s3 & nc & Hdc & Hok).
  apply delete_unreferenced_commands_Ok in Hdc as (pc & -> & Hpc).
  apply tbind_Ok in Hok as (s4 & na & Hda & Hok). apply delete_artifact_rows_Ok in Hda; cycle 1.
  { intros a j _ Ha Hj. apply (run_orphan_unused t scope now s ids Hjobs Hin a j); [by apply any_id_In|exact Hj]. }
  apply tbind_Ok in Hok as (s5 & [] & Haudit & Hok). apply insert_clear_audit_Ok in Haudit as [event ->].
  apply tret_Ok in Hok as [-> ->]. subst s4. exists (run_gone t ids). split; [|reflexivity].
  eapply (cleared_run t scope now s ids Hjobs Hin pc); [reflexivity|reflexivity|exact Hq|].
  intros c Hc Ep. destruct (Hpc c Hc Ep) as [(c' & Hc' & E & Ht) Hno]. apply select_In in Hc' as [Hc' _].
  split; [by exists c'|exact Hno].
Qed.
End ClearFacts.
