(* ===== verification/ArtifactQuota.v ===== *)
(** * Artifact quotas are never exceeded

    The quota of [jobs/audit.rs] and [jobs/quota.rs] is enforced when an upload is
    reserved ([reserve_artifact_quota]) or created directly, and relied on when a
    reservation is completed.  The steps below are everything that touches the
    artifacts and the reservations; the theorem says that together they keep
    every tenant and the whole hub within the limits.

    Expiry compares RFC 3339 texts, in the database and in Rust; the steps assume
    that the clock's texts do not go back and that the database compares them
    byte by byte ([BinaryCollation]). *)

From S2P Require Import Prelude RustStr CoreTypes CoreRecords Json Store JobRows PrinterRows Tx AgentSessions CommandTransitions JobTables JobCreate JobRecovery JobClear.

#[local] Open Scope Z_scope.

(** [text_le] is the byte order, as in SQLite's [BINARY] and the ["C"] collation. *)
Class BinaryCollation `{Store} := {
  text_le_leb : forall x y, text_le x y = String.leb x y;
}.

Definition list_store_binary : @BinaryCollation list_store.
Proof. by constructor. Defined.

(** ** The order on texts *)

Lemma ascii_compare_lt_trans a b c :
  Ascii.compare a b = Lt -> Ascii.compare b c = Lt -> Ascii.compare a c = Lt.
Proof. unfold Ascii.compare. rewrite !N.compare_lt_iff. lia. Qed.

Lemma string_leb_trans x y z : String.leb x y = true -> String.leb y z = true -> String.leb x z = true.
Proof.
  unfold String.leb. revert y z. induction x as [|a x IH]; intros [|b y] [|c z]; cbn [String.compare]; try done.
  destruct (Ascii.compare a b) eqn:AB; [| |done].
  - apply Ascii.compare_eq_iff in AB as ->. destruct (Ascii.compare b c); [apply IH|done|done].
  - destruct (Ascii.compare b c) eqn:BC; [| |done].
    + apply Ascii.compare_eq_iff in BC as <-. by rewrite AB.
    + by rewrite (ascii_compare_lt_trans _ _ _ AB BC).
Qed.

(** ** Counted rows *)

(** A counted row: its tenant and its size. *)
Notation item := (string * Z)%type.

Section Items.
Context `{Store}.

Definition in_scope (scope : option string) (x : item) : bool :=
  match scope with Some t => beq (fst x) t | None => true end.

Definition artifact_item (a : ArtifactsModel.t) : item :=
  (ArtifactsModel.tenant_id a, ArtifactsModel.size_bytes a).
Definition reservation_item (r : ReservationsModel.t) : item :=
  (ReservationsModel.tenant_id r, ReservationsModel.size_bytes r).

(** What the quota counts at [now]. *)
Definition items (now : string) (s : JobsDb.t) : list item :=
  map artifact_item (Db.artifacts (JobsDb.main s))
  ++ map reservation_item (List.filter (live_reservation now) (JobsDb.reservations s)).

Lemma sum_bytes_perm {R} (f : R -> Z) l l' : l ≡ₚ l' -> sum_bytes f l = sum_bytes f l'.
Proof. induction 1; simpl; lia. Qed.

Lemma sum_bytes_app {R} (f : R -> Z) l l' : sum_bytes f (l ++ l') = sum_bytes f l + sum_bytes f l'.
Proof. induction l; simpl; lia. Qed.

Lemma sum_bytes_map {R T} (f : T -> Z) (g : R -> T) l :
  sum_bytes f (map g l) = sum_bytes (fun r => f (g r)) l.
Proof. induction l as [|r l IH]; simpl; [done|by rewrite IH]. Qed.

Lemma sum_bytes_nonneg {R} (f : R -> Z) l : (forall r, In r l -> 0 <= f r) -> 0 <= sum_bytes f l.
Proof.
  induction l as [|r l IH]; simpl; [lia|]. intros Hl.
  pose proof (Hl r (or_introl eq_refl)). assert (0 <= sum_bytes f l); [|lia].
  apply IH. intros r' Hr'. apply Hl. by right.
Qed.

Lemma filter_map {R T} (p : T -> bool) (g : R -> T) l :
  List.filter p (map g l) = map g (List.filter (fun r => p (g r)) l).
Proof. induction l as [|r l IH]; simpl; [done|]. destruct (p (g r)); simpl; by rewrite IH. Qed.

Lemma filter_filter {R} (p q : R -> bool) l :
  List.filter p (List.filter q l) = List.filter (fun r => p r && q r) l.
Proof.
  induction l as [|r l IH]; simpl; [done|]. rewrite andb_comm. destruct (q r); simpl; [|done].
  destruct (p r); by rewrite IH.
Qed.

Lemma filter_partition {R} (p : R -> bool) l :
  l ≡ₚ List.filter p l ++ List.filter (fun r => negb (p r)) l.
Proof.
  induction l as [|r l IH]; simpl; [done|]. destruct (p r); simpl.
  - by constructor.
  - rewrite <- Permutation_middle. by constructor.
Qed.

Lemma usage_bytes_items now scope s :
  usage_bytes now scope s = sum_bytes snd (List.filter (in_scope scope) (items now s)).
Proof.
  unfold usage_bytes, items, counted_artifacts, counted_reservations.
  rewrite List.filter_app, sum_bytes_app, !filter_map, !sum_bytes_map, filter_filter.
  f_equal; f_equal; apply List.filter_ext; intros r; by destruct scope.
Qed.

Lemma usage_count_items now scope s :
  usage_count now scope s = Z.of_nat (length (List.filter (in_scope scope) (items now s))).
Proof.
  unfold usage_count, items, counted_artifacts, counted_reservations.
  rewrite List.filter_app, length_app, !filter_map, !length_map, filter_filter, Nat2Z.inj_add.
  f_equal; do 2 f_equal; apply List.filter_ext; intros r; by destruct scope.
Qed.
End Items.

(** ** Within the limits *)

Definition limit_bytes (q : ArtifactQuotaLimits.t) (scope : option string) : Z :=
  match scope with
  | Some _ => ArtifactQuotaLimits.tenant_bytes q
  | None => ArtifactQuotaLimits.global_bytes q
  end.
Definition limit_count (q : ArtifactQuotaLimits.t) (scope : option string) : Z :=
  match scope with
  | Some _ => ArtifactQuotaLimits.tenant_count q
  | None => ArtifactQuotaLimits.global_count q
  end.

Section Within.
Context `{Store} `{UuidText} `{Rfc3339} `{JobJson} `{AuditJson} `{PrintJson}.

(** Every tenant ([Some t]) and the hub as a whole ([None]) is within its limits,
    and no counted row has a negative size. *)
Record within_quota (q : ArtifactQuotaLimits.t) (now : string) (s : JobsDb.t) : Prop := {
  wq_sizes : forall x, In x (items now s) -> 0 <= snd x;
  wq_bytes : forall scope, usage_bytes now scope s <= limit_bytes q scope;
  wq_count : forall scope, usage_count now scope s <= limit_count q scope;
}.

Record fits (q : ArtifactQuotaLimits.t) (l : list item) : Prop := {
  fit_sizes : forall x, In x l -> 0 <= snd x;
  fit_bytes : forall scope, sum_bytes snd (List.filter (in_scope scope) l) <= limit_bytes q scope;
  fit_count : forall scope, Z.of_nat (length (List.filter (in_scope scope) l)) <= limit_count q scope;
}.

Lemma within_fits q now s : within_quota q now s <-> fits q (items now s).
Proof.
  split; intros [Hsz Hb Hc]; split; try done; intros scope; specialize (Hb scope); specialize (Hc scope).
  - by rewrite <- usage_bytes_items.
  - by rewrite <- usage_count_items.
  - by rewrite usage_bytes_items.
  - by rewrite usage_count_items.
Qed.

(** Fewer rows fit as well. *)
Lemma fits_submseteq q l l' : l' ⊆+ l -> fits q l -> fits q l'.
Proof.
  intros (k & Hk)%submseteq_Permutation [Hsz Hb Hc].
  assert (forall x, In x (l' ++ k) -> 0 <= snd x) as Hsz'.
  { intros x Hx. apply Hsz. by rewrite Hk. }
  split.
  - intros x Hx. apply Hsz', in_or_app. by left.
  - intros scope. specialize (Hb scope).
    rewrite (sum_bytes_perm _ _ _ (filter_perm _ _ _ Hk)), List.filter_app, sum_bytes_app in Hb.
    assert (0 <= sum_bytes snd (List.filter (in_scope scope) k)); [|lia].
    apply sum_bytes_nonneg. intros x Hx. apply filter_In in Hx as [Hx _]. apply Hsz', in_or_app. by right.
  - intros scope. specialize (Hc scope).
    rewrite (filter_perm _ _ _ Hk), List.filter_app, length_app in Hc. lia.
Qed.

(** A smaller row in place of a larger one of the same tenant. *)
Lemma fits_shrink q t n m l : 0 <= n <= m -> fits q ((t, m) :: l) -> fits q ((t, n) :: l).
Proof.
  intros Hn [Hsz Hb Hc]. split.
  - intros x [<-|Hx]; [simpl; lia|]. apply Hsz. by right.
  - intros scope. specialize (Hb scope). simpl in *.
    assert (in_scope scope (t, n) = in_scope scope (t, m)) as -> by done.
    destruct (in_scope scope (t, m)); simpl in *; lia.
  - intros scope. specialize (Hc scope). simpl in *.
    assert (in_scope scope (t, n) = in_scope scope (t, m)) as -> by done.
    by destruct (in_scope scope (t, m)).
Qed.

(** Room for one more row of [n] bytes. *)
Record room (q : ArtifactQuotaLimits.t) (now : string) (scope : option string) (n : Z)
    (s : JobsDb.t) : Prop := {
  room_bytes : usage_bytes now scope s + n <= limit_bytes q scope;
  room_count : usage_count now scope s < limit_count q scope;
}.

Lemma fits_admit q now t n s :
  0 <= n -> fits q (items now s) -> room q now (Some t) n s -> room q now None n s ->
  fits q ((t, n) :: items now s).
Proof.
  intros Hn [Hsz Hb Hc] [Htb Htc] [Hgb Hgc].
  rewrite usage_bytes_items in Htb, Hgb. rewrite usage_count_items in Htc, Hgc. split.
  - intros x [<-|Hx]; [done|by apply Hsz].
  - intros [t'|]; simpl in *; [|lia]. specialize (Hb (Some t')). simpl in *.
    destruct (beq t t') eqn:E; [|done]. rewrite beq_true in E. subst t'. simpl. lia.
  - intros [t'|]; simpl in *; [|lia]. specialize (Hc (Some t')). simpl in *.
    destruct (beq t t') eqn:E; [|done]. rewrite beq_true in E. subst t'. simpl. lia.
Qed.

(** ** The check *)

Lemma try_int_Some lo hi n m : try_int lo hi n = Some m <-> n = m /\ lo <= m <= hi.
Proof.
  unfold try_int, in_range. split.
  - destruct (_ && _) eqn:E; [|done]. intros [= <-]. rewrite andb_true_iff, !Z.leb_le in E. done.
  - intros [-> Hm]. assert ((lo <=? m) && (m <=? hi) = true) as ->; [|done].
    rewrite andb_true_iff, !Z.leb_le. done.
Qed.

Lemma load_usage_Ok now scope s s' bytes count :
  load_usage now scope s = (s', Ok (bytes, count)) ->
  s' = s /\ bytes = usage_bytes now scope s /\ count = usage_count now scope s
  /\ bytes <= i64_max.
Proof.
  unfold load_usage. rewrite tbind_Ok. intros (s1 & b & Hb & Hk). apply tread_Ok in Hb as [-> Hb].
  apply tbind_Ok in Hk as (s2 & c & Hc & Hk). apply tread_Ok in Hc as [-> Hc].
  apply tbind_Ok in Hk as (s3 & b' & Hb' & Hk). apply tlift_Ok in Hb' as [-> Hb'].
  apply tbind_Ok in Hk as (s4 & c' & Hc' & Hk). apply tlift_Ok in Hc' as [-> Hc'].
  apply tret_Ok in Hk as [-> [= -> ->]]. unfold try_u64 in Hb', Hc'.
  rewrite ok_or_Ok in Hb, Hc, Hb', Hc'. apply try_int_Some in Hb as [-> Hb], Hc as [-> _].
  apply try_int_Some in Hb' as [-> _], Hc' as [-> _]. split_and!; try done. lia.
Qed.

(** Two [i64]s do not saturate a [u64]. *)
Lemma sat_add_small a b : a <= i64_max -> b <= i64_max -> sat_add_u64 a b = a + b.
Proof.
  intros Ha Hb. unfold sat_add_u64. apply Z.min_l. transitivity (i64_max + i64_max); [lia|].
  by vm_compute.
Qed.

Lemma enforce_artifact_quota_Ok now t n q s s' :
  0 <= n <= i64_max ->
  enforce_artifact_quota now t n q s = (s', Ok tt) ->
  s' = s /\ room q now (Some (TenantId_to_string t)) n s /\ room q now None n s.
Proof.
  intros Hn. unfold enforce_artifact_quota. rewrite tbind_Ok. intros (s1 & [b c] & Hu & Hk).
  apply load_usage_Ok in Hu as (-> & -> & -> & Hb).
  destruct (_ || _) eqn:E; [done|]. apply orb_false_iff in E as [Ec Eb].
  apply tbind_Ok in Hk as (s2 & [b' c'] & Hu & Hk).
  apply load_usage_Ok in Hu as (-> & -> & -> & Hb').
  destruct (_ || _) eqn:E'; [done|]. apply orb_false_iff in E' as [Ec' Eb'].
  apply tret_Ok in Hk as [-> _]. rewrite Z.leb_gt in Ec, Ec'. rewrite Z.ltb_ge in Eb, Eb'.
  rewrite sat_add_small in Eb, Eb' by lia.
  split; [done|]. split; split; unfold limit_bytes, limit_count; lia.
Qed.
End Within.

(** ** What the operations do to the counted rows *)

Section Effects.
Context `{BinaryCollation} `{UuidText} `{Rfc3339} `{JobJson} `{AuditJson} `{PrintJson}.

Lemma text_le_trans x y z : text_le x y = true -> text_le y z = true -> text_le x z = true.
Proof. rewrite !text_le_leb. apply string_leb_trans. Qed.

Lemma filter_submseteq {R} (p : R -> bool) l : List.filter p l ⊆+ l.
Proof.
  induction l as [|r l IH]; simpl; [done|]. destruct (p r); [by apply submseteq_skip|by apply submseteq_cons].
Qed.

Lemma filter_submseteq_mono {R} (p q : R -> bool) l l' :
  (forall r, p r = true -> q r = true) -> l' ⊆+ l -> List.filter p l' ⊆+ List.filter q l.
Proof.
  intros Hpq (k & Hk)%submseteq_Permutation. rewrite (filter_perm q _ _ Hk), List.filter_app.
  apply submseteq_inserts_r. clear Hk. induction l' as [|r l' IH]; simpl; [done|].
  destruct (p r) eqn:P; [rewrite (Hpq r P); by apply submseteq_skip|].
  destruct (q r); [by apply submseteq_cons|done].
Qed.

(** Time only takes reservations away. *)
Lemma live_later now now' r :
  text_le now now' = true -> live_reservation now' r = true -> live_reservation now r = true.
Proof.
  unfold live_reservation, text_lt. rewrite !negb_true_iff, <- !not_true_iff_false.
  intros Hle Hn Hc. apply Hn. by eapply text_le_trans.
Qed.

(** Nothing is added to the artifacts or the reservations. *)
Definition shrinks (s s' : JobsDb.t) : Prop :=
  Db.artifacts (JobsDb.main s') ⊆+ Db.artifacts (JobsDb.main s)
  /\ JobsDb.reservations s' ⊆+ JobsDb.reservations s.

#[local] Instance shrinks_refl : Reflexive shrinks.
Proof. by split. Qed.
#[local] Instance shrinks_trans : Transitive shrinks.
Proof. intros s1 s2 s3 [A1 R1] [A2 R2]. split; by etrans. Qed.

Lemma text_le_refl x : text_le x x = true.
Proof. rewrite text_le_leb. by destruct (String.leb_total x x). Qed.

(** Fewer rows, later: fewer items. *)
Lemma items_shrink now now' s s' :
  text_le now now' = true -> shrinks s s' -> items now' s' ⊆+ items now s.
Proof.
  intros Hle [Ha Hr]. apply submseteq_app.
  - by apply (fmap_submseteq artifact_item).
  - apply (fmap_submseteq reservation_item), filter_submseteq_mono; [|done].
    intros r. by apply live_later.
Qed.

Lemma shrinks_within q now now' s s' :
  text_le now now' = true -> shrinks s s' -> within_quota q now s -> within_quota q now' s'.
Proof. rewrite !within_fits. intros Hle Hs. apply fits_submseteq. by apply items_shrink. Qed.

(** *** Operations that only remove *)

Lemma shrinks_frame s s' :
  Db.artifacts (JobsDb.main s') = Db.artifacts (JobsDb.main s) ->
  JobsDb.reservations s' = JobsDb.reservations s -> shrinks s s'.
Proof. intros Ha Hr. unfold shrinks. by rewrite Ha, Hr. Qed.

Lemma shrinks_on_db {A} (m : main A) :
  steps (fun db db' => Db.artifacts db' ⊆+ Db.artifacts db) m -> steps shrinks (on_db m).
Proof.
  intros Hm. apply (steps_zoom shrinks (fun db db' => Db.artifacts db' ⊆+ Db.artifacts db)); [|done].
  intros s db Hdb. by split.
Qed.

Lemma shrinks_enqueue id now path : steps shrinks (enqueue_deletion id now path).
Proof.
  intros s. unfold enqueue_deletion. destruct (is_some _); [done|].
  destruct (try_insert _ _ _); [|done]. by apply shrinks_frame.
Qed.

Lemma shrinks_enqueue_all fresh clock paths : steps shrinks (enqueue_deletions fresh clock paths).
Proof.
  induction paths as [|path paths IH]; cbn [enqueue_deletions]; [apply steps_ret, _|].
  apply steps_bind; [apply _|apply shrinks_enqueue|done].
Qed.

Lemma shrinks_delete_reservations p : steps shrinks (delete_reservations p).
Proof.
  intros s. unfold delete_reservations. rewrite (surjective_pairing (delete_many p _)), delete_many_rows.
  split; [done|]. apply filter_submseteq.
Qed.

Lemma shrinks_audit event : steps shrinks (insert_audit_event event).
Proof.
  intros s. unfold insert_audit_event. destruct (try_insert _ _ _); [|done]. by apply shrinks_frame.
Qed.

Lemma shrinks_delete_jobs p : steps (fun db db' => Db.artifacts db' ⊆+ Db.artifacts db) (delete_jobs_where p).
Proof. intros db. by rewrite delete_jobs_where_run. Qed.

Lemma shrinks_delete_commands p :
  steps (fun db db' => Db.artifacts db' ⊆+ Db.artifacts db) (delete_commands_where p).
Proof.
  intros db. unfold delete_commands_where. destruct (delete_many p _) as [commands n].
  by rewrite delete_jobs_where_run.
Qed.

Lemma shrinks_delete_artifacts p :
  steps (fun db db' => Db.artifacts db' ⊆+ Db.artifacts db) (delete_artifacts_where p).
Proof.
  intros db. unfold delete_artifacts_where.
  rewrite (surjective_pairing (delete_many p _)), delete_many_rows, delete_jobs_where_run.
  apply filter_submseteq.
Qed.

Ltac shrink :=
  repeat first
    [ apply steps_transaction; [apply _|] | apply steps_bind; [apply _| |intros ?]
    | apply steps_ret, _ | apply steps_fail, _ | apply steps_lift, _ | apply steps_read, _
    | apply shrinks_enqueue | apply shrinks_enqueue_all | apply shrinks_delete_reservations
    | apply shrinks_audit
    | apply shrinks_on_db; first [ apply shrinks_delete_jobs | apply shrinks_delete_commands
                                 | apply shrinks_delete_artifacts ]
    | case_match ].

Lemma shrinks_reap fresh clock cutoff :
  steps shrinks (reap_expired_reservations_in_transaction fresh clock cutoff).
Proof. unfold reap_expired_reservations_in_transaction. shrink. Qed.

Lemma shrinks_reap_expired fresh clock cutoff :
  steps shrinks (reap_expired_reservations fresh clock cutoff).
Proof. apply steps_transaction; [apply _|]. apply steps_bind; [apply _|apply shrinks_reap|]. intros ?. shrink. Qed.

Lemma shrinks_release self fresh now : steps shrinks (release self fresh now).
Proof. unfold release. shrink. Qed.

Lemma shrinks_clear audit_id audit_now fresh clock now t scope actor :
  steps shrinks (clear_with_audit audit_id audit_now fresh clock now t scope actor).
Proof.
  unfold clear_with_audit, clear_in_transaction, locked_artifacts, delete_jobs,
    delete_unreferenced_commands, delete_artifact_rows, insert_clear_audit. shrink.
Qed.

(** *** Operations that add *)

Lemma create_adds audit_id now now' i c input metadata actor s s' created :
  create_print_job_in_transaction audit_id now now' i c input metadata actor s = (s', Ok created) ->
  Db.artifacts (JobsDb.main s') = insert_row (artifact_row input now) (Db.artifacts (JobsDb.main s))
  /\ JobsDb.reservations s' = JobsDb.reservations s.
Proof.
  unfold create_print_job_in_transaction. rewrite tbind_Ok. intros (s1 & cr & Hc & Hk).
  apply create_print_job_Ok in Hc as (rows & serial & sid & db' & _ & _ & -> & _ & Ha & _).
  apply tbind_Ok in Hk as (s2 & [] & Haudit & Hk). apply insert_audit_event_Ok in Haudit.
  apply tret_Ok in Hk as [-> _]. subst s2. done.
Qed.

Definition input_item (input : CreatePrintJob.t) : item :=
  (TenantId_to_string (CreatePrintJob.tenant_id input),
   PrintArtifactInput.size_bytes (CreatePrintJob.artifact input)).

(** A size that fits an [i64] is stored as it is. *)
Lemma artifact_row_item input now :
  0 <= PrintArtifactInput.size_bytes (CreatePrintJob.artifact input) <= i64_max ->
  artifact_item (artifact_row input now) = input_item input.
Proof.
  intros Hn. unfold artifact_item, artifact_row, input_item. cbn. f_equal. unfold as_i64, i64_max in *.
  rewrite Z.mod_small; lia.
Qed.

Lemma create_items clock audit_id now now' i c input metadata actor s s' created :
  0 <= PrintArtifactInput.size_bytes (CreatePrintJob.artifact input) <= i64_max ->
  create_print_job_in_transaction audit_id now now' i c input metadata actor s = (s', Ok created) ->
  items clock s' ≡ₚ input_item input :: items clock s.
Proof.
  intros Hn (Ha & Hr)%create_adds. unfold items. rewrite Ha, Hr, insert_row_perm.
  cbn [map]. by rewrite artifact_row_item.
Qed.

(** A successful direct creation stays within the limits. *)
Lemma create_within q audit_id now now1 now2 i c input metadata actor s :
  0 <= PrintArtifactInput.size_bytes (CreatePrintJob.artifact input) <= i64_max ->
  within_quota q now s ->
  within_quota q now (fst (create_print_job_with_optional_metadata audit_id now now1 now2 i c input
    metadata (Some q) actor s)).
Proof.
  intros Hn Hw. destruct (create_print_job_with_optional_metadata _ _ _ _ _ _ _ _ _ _ s) as [s' [created|e]] eqn:E;
    cycle 1; cbn [fst].
  { unfold create_print_job_with_optional_metadata, transaction in E.
    destruct (tbind _ _ s) as [s1 [|]] in E; [done|]. by injection E as <- _. }
  unfold create_print_job_with_optional_metadata in E. rewrite transaction_Ok, tbind_Ok in E.
  destruct E as (s1 & [] & He & Hc). apply enforce_artifact_quota_Ok in He as (-> & Ht & Hg); [|done].
  rewrite within_fits in Hw |- *. apply (create_items now) in Hc; [|done].
  eapply fits_submseteq; [apply Permutation_submseteq, Hc|]. apply fits_admit; [tauto|done|done|done].
Qed.

Lemma reserve_within q fresh clock id cutoff now at_ t artifact_id path n s :
  0 <= n -> within_quota q now s ->
  within_quota q now (fst (reserve_artifact_quota fresh clock id cutoff now at_ t artifact_id path n q s)).
Proof.
  intros Hn Hw. destruct (reserve_artifact_quota _ _ _ _ _ _ _ _ _ _ _ s) as [s' [res|e]] eqn:E;
    cycle 1; cbn [fst].
  { unfold reserve_artifact_quota, transaction in E.
    destruct (tbind _ _ s) as [s1 [|]] in E; [done|]. by injection E as <- _. }
  unfold reserve_artifact_quota in E. rewrite transaction_Ok, tbind_Ok in E.
  destruct E as (s1 & expired & Hreap & E). pose proof (shrinks_reap fresh clock cutoff s) as Hs.
  rewrite Hreap in Hs. cbn [fst] in Hs. clear Hreap.
  pose proof (shrinks_within q _ _ _ _ (text_le_refl now) Hs Hw) as Hw1. clear Hs Hw.
  apply tbind_Ok in E as (s2 & [] & He & E). apply tbind_Ok in E as (s3 & size & Hsize & E).
  apply tlift_Ok in Hsize as [-> Hsize]. rewrite ok_or_Ok in Hsize. apply try_int_Some in Hsize as [<- Hi].
  apply enforce_artifact_quota_Ok in He as (-> & Ht & Hg); [|lia].
  apply tbind_Ok in E as (s4 & expires & Hx & E). apply tlift_Ok in Hx as [-> _].
  apply tbind_Ok in E as (s5 & created & Hx & E). apply tlift_Ok in Hx as [-> _].
  apply tbind_Ok in E as (s6 & [] & Hins & E). apply tret_Ok in E as [-> _].
  unfold insert_reservation in Hins. destruct (try_insert _ _ _) as [rows|] eqn:T; [|done].
  apply try_insert_Some in T as [_ ->]. injection Hins as <-.
  rewrite within_fits in Hw1 |- *.
  apply (fun Hsub => fits_submseteq _ _ _ Hsub (fits_admit q now (TenantId_to_string t) n s1 Hn Hw1 Ht Hg)).
  unfold items. rewrite Permutation_middle. apply submseteq_app; [done|]. set (row := ReservationsModel.mk _ _ _ _ _ _ _).
  change (JobsDb.reservations _) with (insert_row row (JobsDb.reservations s1)) at 1.
  rewrite (filter_perm _ _ _ (insert_row_perm _ (JobsDb.reservations s1))). cbn [List.filter].
  case_match; [done|]. by apply submseteq_cons.
Qed.

(** The upload writes what it reserved for its tenant ([routes/jobs/multipart/upload.rs]). *)
Definition upload_of (self : ArtifactQuotaReservation.t) (input : CreatePrintJob.t) (s : JobsDb.t)
  : Prop :=
  CreatePrintJob.tenant_id input = ArtifactQuotaReservation.tenant_id self
  /\ 0 <= PrintArtifactInput.size_bytes (CreatePrintJob.artifact input) <= i64_max
  /\ forall r, reservation_by_id (ArtifactQuotaReservation.id self) s = Some r ->
       PrintArtifactInput.size_bytes (CreatePrintJob.artifact input) <= ReservationsModel.size_bytes r.

(** A row taken from a list leaves what the deletion of its key leaves, at least. *)
Lemma taken_row {R} (p q : R -> bool) l r :
  In r l -> q r = true -> p r = true ->
  r :: List.filter p (List.filter (fun r => negb (q r)) l) ⊆+ List.filter p l.
Proof.
  intros Hin Hq Hp. rewrite (filter_perm p _ _ (filter_partition q l)), List.filter_app.
  assert (In r (List.filter p (List.filter q l))) as Hr by (rewrite !filter_In; done).
  apply in_split in Hr as (l1 & l2 & ->). rewrite <- app_assoc. cbn [app].
  rewrite <- Permutation_middle. apply submseteq_skip, submseteq_inserts_l, submseteq_inserts_l. done.
Qed.

Lemma complete_within q self audit_id now now1 now2 i c input metadata actor s :
  upload_of self input s -> within_quota q now s ->
  within_quota q now (fst (complete self audit_id now now1 now2 i c input metadata actor s)).
Proof.
  intros (Hten & Hn & Hsize) Hw. destruct (complete _ _ _ _ _ _ _ _ _ _ s) as [s' [created|e]] eqn:E;
    cycle 1; cbn [fst].
  { unfold complete, transaction in E. destruct (tbind _ _ s) as [s1 [|]] in E; [done|].
    by injection E as <- _. }
  unfold complete in E. rewrite transaction_Ok, tbind_Ok in E. destruct E as (s1 & r & Hr & E).
  apply tread_Ok in Hr as [-> Hr]. rewrite ok_or_Ok in Hr. specialize (Hsize r Hr).
  unfold reservation_by_id in Hr. apply select_one_Some in Hr as [Hin Hid].
  destruct (unfinalizable self input now r) eqn:U; [done|]. unfold unfinalizable in U.
  rewrite !orb_false_iff, !negb_false_iff, !beq_true in U. destruct U as [[[[[Hlive Hrt] _] _] _] _].
  apply tbind_Ok in E as (s2 & created' & Hc & E). apply tbind_Ok in E as (s3 & k & Hd & E).
  apply tret_Ok in E as [-> _]. apply create_adds in Hc as [Ha Hres].
  unfold delete_reservations in Hd. rewrite (surjective_pairing (delete_many _ _)), delete_many_rows in Hd.
  injection Hd as <- _. rewrite within_fits in Hw |- *.
  assert (live_reservation now r = true) as Hl.
  { unfold live_reservation, text_lt. by rewrite text_le_leb, Hlive. }
  pose proof (taken_row (live_reservation now)
    (fun r => beq (ReservationsModel.id r) (ArtifactQuotaReservation.id self)) _ _ Hin Hid Hl) as Htaken.
  set (rest := List.filter _ (JobsDb.reservations s)) in Htaken.
  apply (fits_submseteq _ (input_item input :: map artifact_item (Db.artifacts (JobsDb.main s))
    ++ map reservation_item (List.filter (live_reservation now) rest))).
  - apply Permutation_submseteq. rewrite Hres.
    change (map artifact_item (Db.artifacts (JobsDb.main s2))
      ++ map reservation_item (List.filter (live_reservation now) rest)
      ≡ₚ input_item input :: map artifact_item (Db.artifacts (JobsDb.main s))
      ++ map reservation_item (List.filter (live_reservation now) rest)).
    rewrite Ha, insert_row_perm. cbn [map app]. by rewrite artifact_row_item.
  - unfold input_item. rewrite Hten, <- Hrt.
    apply (fits_shrink q _ _ (ReservationsModel.size_bytes r)); [lia|].
    eapply fits_submseteq; [|exact Hw]. unfold items. rewrite Permutation_middle.
    apply submseteq_app; [done|]. apply (fmap_submseteq reservation_item) in Htaken. exact Htaken.
Qed.
End Effects.

(** ** Every interleaving *)

Section Steps.
Context `{BinaryCollation} `{UuidText} `{Rfc3339} `{JobJson} `{AuditJson} `{PrintJson}.

(** One committed or rolled back transaction, or the clock moving on. The write
    transactions are serialised by the database. *)
Inductive quota_step (q : ArtifactQuotaLimits.t) : string * JobsDb.t -> string * JobsDb.t -> Prop :=
| qs_time now now' s : text_le now now' = true -> quota_step q (now, s) (now', s)
| qs_other now s s' :
    Db.artifacts (JobsDb.main s') = Db.artifacts (JobsDb.main s) ->
    JobsDb.reservations s' = JobsDb.reservations s -> quota_step q (now, s) (now, s')
| qs_reserve fresh clock id cutoff now at_ t artifact_id path n s : 0 <= n ->
    quota_step q (now, s)
      (now, fst (reserve_artifact_quota fresh clock id cutoff now at_ t artifact_id path n q s))
| qs_create audit_id now now1 now2 i c input metadata actor s :
    0 <= PrintArtifactInput.size_bytes (CreatePrintJob.artifact input) <= i64_max ->
    quota_step q (now, s)
      (now, fst (create_print_job_with_optional_metadata audit_id now now1 now2 i c input metadata
                   (Some q) actor s))
| qs_complete self audit_id now now1 now2 i c input metadata actor s : upload_of self input s ->
    quota_step q (now, s)
      (now, fst (complete self audit_id now now1 now2 i c input metadata actor s))
| qs_release self fresh now s : quota_step q (now, s) (now, fst (release self fresh now s))
| qs_reap fresh clock cutoff now s :
    quota_step q (now, s) (now, fst (reap_expired_reservations fresh clock cutoff s))
| qs_clear audit_id audit_now fresh clock at_ t scope actor now s :
    quota_step q (now, s)
      (now, fst (clear_with_audit audit_id audit_now fresh clock at_ t scope actor s)).

(** C14: the artifact quota is never exceeded: in every interleaving of reservations,
    uploads that complete or release them, direct creations, expiry, clearing and
    the passing of time, each tenant and the hub as a whole stay within their
    limits on stored and reserved bytes and artifacts. *)
Theorem quota_never_exceeded (q : ArtifactQuotaLimits.t) (now now' : string) (s s' : JobsDb.t)
    (Hw : within_quota q now s) (Hsteps : rtc (quota_step q) (now, s) (now', s')) :
  within_quota q now' s'.
Proof.
  remember (now, s) as x eqn:Ex. remember (now', s') as y eqn:Ey.
  revert now s now' s' Ex Ey Hw. induction Hsteps as [x|x y z Hstep _ IH]; intros now s now' s' -> Ey Hw.
  { by injection Ey as <- <-. }
  destruct y as [now1 s1]. apply (IH now1 s1 now' s'); [done|done|]. clear IH Ey.
  inversion Hstep; subst; clear Hstep.
  - by eapply shrinks_within.
  - eapply shrinks_within; [apply text_le_refl|by apply shrinks_frame|done].
  - by apply reserve_within.
  - by apply create_within.
  - by apply complete_within.
  - eapply shrinks_within; [apply text_le_refl|apply shrinks_release|done].
  - eapply shrinks_within; [apply text_le_refl|apply shrinks_reap_expired|done].
  - eapply shrinks_within; [apply text_le_refl|apply shrinks_clear|done].
Qed.
End Steps.
