(* ===== verification/DeletionQueue.v ===== *)
(** * Draining the deletion queue

    The second half of [artifacts/lifecycle.rs]: [claim_deletions] leases a batch
    of queued rows to an owner in one transaction, [drain_deletions_for_owner]
    deletes their files one after the other and finalizes or returns each row.
    [storage] answers for [delete_artifact]: the text of its error, or nothing
    when the file is gone. *)

From stdpp Require Import sorting.
From S2P Require Import Prelude RustStr CoreTypes Redaction Store JobRows PrinterRows Tx AgentSessions CommandTransitions JobTables JobCreate.

#[local] Open Scope Z_scope.
#[local] Open Scope rust_scope.
#[local] Open Scope tx_scope.

Definition DELETION_BATCH_SIZE : nat := 64.
Definition DELETION_LEASE_SECONDS : Z := 300.

Section Drain.
Context `{Store} `{Rfc3339}.

Definition update_deletions (p : DeletionsModel.t -> bool) (f : DeletionsModel.t -> DeletionsModel.t)
  : jobs_tx Z := fun s =>
  let '(rows, n) := update_many p f (JobsDb.deletions s) in
  (s <| JobsDb.deletions := rows |>, Ok n).

Definition delete_deletions (p : DeletionsModel.t -> bool) : jobs_tx Z := fun s =>
  let '(rows, n) := delete_many p (JobsDb.deletions s) in
  (s <| JobsDb.deletions := rows |>, Ok n).

(** [lease_owner IS NULL OR lease_expires_at <= now]. *)
Definition claimable (now_text : string) (d : DeletionsModel.t) : bool :=
  is_none (DeletionsModel.lease_owner d)
  || match DeletionsModel.lease_expires_at d with
     | Some expires => text_le expires now_text
     | None => false
     end.

(** [ORDER BY created_at ASC, id ASC]. *)
Definition deletion_le (d e : DeletionsModel.t) : Prop :=
  text_le (DeletionsModel.created_at d) (DeletionsModel.created_at e)
  && (negb (text_le (DeletionsModel.created_at e) (DeletionsModel.created_at d))
      || text_le (DeletionsModel.id d) (DeletionsModel.id e)).

#[export] Instance deletion_le_dec : RelDecision deletion_le.
Proof. intros d e. unfold deletion_le. apply _. Defined.

(** The first [LIMIT] rows. *)
Definition claim_batch (now_text : string) (rows : list DeletionsModel.t) : list DeletionsModel.t :=
  take DELETION_BATCH_SIZE (merge_sort deletion_le (select (claimable now_text) rows)).

Definition has_id (id : string) (d : DeletionsModel.t) : bool := beq (DeletionsModel.id d) id.

Definition lease (owner lease_expires_at now_text : string) (d : DeletionsModel.t)
  : DeletionsModel.t :=
  d <| DeletionsModel.lease_owner := Some owner |>
    <| DeletionsModel.lease_expires_at := Some lease_expires_at |>
    <| DeletionsModel.updated_at := now_text |>.

(** The loop over the claimed rows; an [update] that finds no row is an error. *)
Fixpoint lease_each (owner lease_expires_at now_text : string) (claimed : list DeletionsModel.t)
  : jobs_tx unit :=
  match claimed with
  | [] => tret tt
  | d :: claimed =>
      n <~ update_deletions (has_id (DeletionsModel.id d)) (lease owner lease_expires_at now_text) ;;
      if n =? 0 then tfail Database else lease_each owner lease_expires_at now_text claimed
  end.

(** The rows as they were before the claim, as the source returns them. *)
Definition claim_deletions (owner : string) (now : Z) : jobs_tx (list DeletionsModel.t) :=
  transaction (
    now_text <~ tlift (ok_or (rfc_format now) Database) ;;
    lease_expires_at <~ tlift (ok_or (rfc_format (now + DELETION_LEASE_SECONDS * 1000000000)) Database) ;;
    claimed <~ tread (fun s => Ok (claim_batch now_text (JobsDb.deletions s))) ;;
    lease_each owner lease_expires_at now_text claimed ~;;
    tret claimed).

Definition leased_row (id owner : string) (d : DeletionsModel.t) : bool :=
  beq (DeletionsModel.id d) id && beq (DeletionsModel.lease_owner d) (Some owner).

(** [attempts.saturating_add(1)] on an [i64]. *)
Definition next_attempt (attempts : Z) : Z := Z.min (attempts + 1) i64_max.

Definition returned (attempts : Z) (error now : string) (d : DeletionsModel.t) : DeletionsModel.t :=
  d <| DeletionsModel.attempts := next_attempt attempts |>
    <| DeletionsModel.last_error := Some error |>
    <| DeletionsModel.lease_owner := None |>
    <| DeletionsModel.lease_expires_at := None |>
    <| DeletionsModel.updated_at := now |>.

Definition update_deletion_failure (deletion : DeletionsModel.t) (owner error now : string)
  : jobs_tx unit :=
  transaction (
    current <~ tread (fun s => Ok (select_one (leased_row (DeletionsModel.id deletion) owner)
                                     (JobsDb.deletions s))) ;;
    match current with
    | None => tret tt
    | Some current =>
        n <~ update_deletions (has_id (DeletionsModel.id current))
               (returned (DeletionsModel.attempts deletion) error now) ;;
        if n =? 0 then tfail Database else tret tt
    end).

(** A failure to record a retry is logged and otherwise ignored. *)
Definition ignore {A} (m : jobs_tx A) : jobs_tx unit := fun s => (fst (m s), Ok tt).

(** The loop over the batch: how many rows were finalized, and whether a file
    could not be deleted.  [clock] dates the returned rows. *)
Fixpoint drain_each (storage : string -> option string) (clock : string -> string) (owner : string)
    (claimed : list DeletionsModel.t) (deleted : Z) (failed : bool) : jobs_tx (Z * bool) :=
  match claimed with
  | [] => tret (deleted, failed)
  | deletion :: claimed =>
      match storage (DeletionsModel.storage_path deletion) with
      | Some error =>
          ignore (update_deletion_failure deletion owner (redact_secrets error)
                    (clock (DeletionsModel.id deletion))) ~;;
          drain_each storage clock owner claimed deleted true
      | None =>
          n <~ delete_deletions (leased_row (DeletionsModel.id deletion) owner) ;;
          drain_each storage clock owner claimed (deleted + n) failed
      end
  end.

Definition drain_deletions_for_owner (storage : string -> option string) (clock : string -> string)
    (owner : string) (now : Z) : jobs_tx Z :=
  claimed <~ claim_deletions owner now ;;
  outcome <~ drain_each storage clock owner claimed 0 false ;;
  let '(deleted, failed) := outcome in
  if failed : bool then tfail Database else tret deleted.
End Drain.

(** * Lemmas *)

Section DrainFacts.
Context `{Store} `{Rfc3339}.

Definition ids (rows : list DeletionsModel.t) : list string := map DeletionsModel.id rows.

Lemma update_deletions_run p f s :
  update_deletions p f s =
  (s <| JobsDb.deletions := map (fun d => if p d then f d else d) (JobsDb.deletions s) |>,
   Ok (Z.of_nat (length (List.filter p (JobsDb.deletions s))))).
Proof.
  unfold update_deletions. rewrite (surjective_pairing (update_many p f _)).
  by rewrite update_many_rows, update_many_affected.
Qed.

Lemma delete_deletions_run p s :
  delete_deletions p s =
  (s <| JobsDb.deletions := List.filter (fun d => negb (p d)) (JobsDb.deletions s) |>,
   Ok (Z.of_nat (length (List.filter p (JobsDb.deletions s))))).
Proof.
  unfold delete_deletions. rewrite (surjective_pairing (delete_many p _)).
  by rewrite delete_many_rows, delete_many_affected.
Qed.

Lemma filter_length_pos {R} (p : R -> bool) l r :
  In r l -> p r = true -> Z.of_nat (length (List.filter p l)) =? 0 = false.
Proof.
  intros Hin Hp. apply Z.eqb_neq. assert (In r (List.filter p l)) as Hf by (by apply filter_In).
  destruct (List.filter p l); [done|simpl; lia].
Qed.

(** The batch is a part of the claimable rows. *)
Lemma batch_part now_text rows :
  exists rest, List.filter (claimable now_text) rows ≡ₚ claim_batch now_text rows ++ rest.
Proof.
  unfold claim_batch. set (sorted := merge_sort _ _). exists (drop DELETION_BATCH_SIZE sorted).
  rewrite take_drop. unfold sorted. by rewrite merge_sort_Permutation, (select_perm (claimable now_text) rows).
Qed.

Lemma In_batch now_text rows d :
  In d (claim_batch now_text rows) -> In d rows /\ claimable now_text d = true.
Proof.
  intros Hin. destruct (batch_part now_text rows) as [rest Hp]. apply filter_In. rewrite Hp.
  apply in_or_app. by left.
Qed.

Lemma batch_NoDup now_text rows : NoDup (ids rows) -> NoDup (ids (claim_batch now_text rows)).
Proof.
  intros Hn%(NoDup_map_filter _ (claimable now_text)). destruct (batch_part now_text rows) as [rest Hp].
  apply (Permutation_map DeletionsModel.id) in Hp. rewrite Hp, List.map_app in Hn.
  by apply NoDup_app in Hn as [Hn _].
Qed.

(** A batch that takes everything claimable, when the rest is short. *)
Lemma batch_length now_text rows :
  length (claim_batch now_text rows)
  = Nat.min DELETION_BATCH_SIZE (length (List.filter (claimable now_text) rows)).
Proof.
  unfold claim_batch. rewrite length_take, (Permutation_length (merge_sort_Permutation _ _)).
  by rewrite select_length.
Qed.

(** ** The claim *)

(** [d] has the id of one of [rows]. *)
Definition among (rows : list DeletionsModel.t) (d : DeletionsModel.t) : bool :=
  existsb (fun c => has_id (DeletionsModel.id c) d) rows.

Lemma among_true rows d :
  among rows d = true <-> exists c, In c rows /\ DeletionsModel.id c = DeletionsModel.id d.
Proof.
  unfold among, has_id. rewrite existsb_exists.
  split; intros (c & Hc & E); exists c; (split; [done|]); rewrite beq_true in *; done.
Qed.

Lemma lease_each_run owner expires now_text claimed : forall s,
  (forall c, In c claimed -> exists r, In r (JobsDb.deletions s) /\ DeletionsModel.id r = DeletionsModel.id c) ->
  lease_each owner expires now_text claimed s =
  (s <| JobsDb.deletions := map (fun d => if among claimed d then lease owner expires now_text d else d)
          (JobsDb.deletions s) |>, Ok tt).
Proof.
  induction claimed as [|c claimed IH]; intros s Hc; cbn [lease_each].
  { unfold tret. f_equal. rewrite map_id. by destruct s. }
  unfold tbind. rewrite update_deletions_run. destruct (Hc c (or_introl eq_refl)) as (r & Hr & Er).
  rewrite (filter_length_pos _ _ r Hr) by (unfold has_id; by apply beq_true). rewrite IH.
  - refine (f_equal (fun l => (s <| JobsDb.deletions := l |>, Ok tt)) _). cbn. rewrite map_map. apply map_ext. intros d. unfold among. simpl.
    destruct (has_id (DeletionsModel.id c) d) eqn:E; simpl; [|done].
    assert (existsb (fun c => has_id (DeletionsModel.id c) (lease owner expires now_text d)) claimed
            = existsb (fun c => has_id (DeletionsModel.id c) d) claimed) as -> by done.
    by destruct (existsb _ _).
  - intros c' Hc'. destruct (Hc c' (or_intror Hc')) as (r' & Hr' & Er'). cbn.
    exists (if has_id (DeletionsModel.id c) r' then lease owner expires now_text r' else r').
    split; [apply in_map_iff; by exists r'|]. by destruct (has_id _ r').
Qed.

Lemma claim_run owner now now_text expires s :
  rfc_format now = Some now_text ->
  rfc_format (now + DELETION_LEASE_SECONDS * 1000000000) = Some expires ->
  claim_deletions owner now s =
  (s <| JobsDb.deletions :=
      map (fun d => if among (claim_batch now_text (JobsDb.deletions s)) d
                    then lease owner expires now_text d else d) (JobsDb.deletions s) |>,
   Ok (claim_batch now_text (JobsDb.deletions s))).
Proof.
  intros Hn He. unfold claim_deletions, transaction, tbind, tlift, tread. rewrite Hn, He. cbn [ok_or].
  rewrite lease_each_run; [done|]. intros c Hc. apply In_batch in Hc as [Hc _]. by exists c.
Qed.

(** ** One file after the other *)

Section Each.
Context (storage : string -> option string) (clock : string -> string) (owner : string).
Context (rows : list DeletionsModel.t) (Hids : NoDup (ids rows)).

(** What becomes of a claimed row. *)
Definition settle (d : DeletionsModel.t) : option DeletionsModel.t :=
  match storage (DeletionsModel.storage_path d) with
  | None => None
  | Some error => Some (returned (DeletionsModel.attempts d) (redact_secrets error)
                          (clock (DeletionsModel.id d)) d)
  end.

Definition gone (d : DeletionsModel.t) : bool := is_none (storage (DeletionsModel.storage_path d)).

(** The queue while the batch is worked off: [h] says what became of each row. *)
Record queue_of (h : DeletionsModel.t -> option DeletionsModel.t) (s : JobsDb.t) : Prop := {
  qo_rows : JobsDb.deletions s = omap h rows;
  qo_ids : forall d r, h d = Some r -> DeletionsModel.id r = DeletionsModel.id d;
}.

Lemma rows_by_id c d : In c rows -> In d rows -> DeletionsModel.id c = DeletionsModel.id d -> c = d.
Proof.
  intros Hc Hd E. apply list_elem_of_In, list_elem_of_lookup in Hc as [i Hi], Hd as [j Hj].
  assert (i = j) as ->; [|congruence]. apply (NoDup_lookup _ i j (DeletionsModel.id c) Hids).
  - unfold ids. rewrite list_lookup_fmap. by rewrite Hi.
  - unfold ids. rewrite list_lookup_fmap, Hj. simpl. by rewrite E.
Qed.

Lemma queue_of_step h h' g s :
  queue_of h s ->
  (forall d r, h' d = Some r -> DeletionsModel.id r = DeletionsModel.id d) ->
  (forall d, In d rows -> (h d ≫= g) = h' d) ->
  queue_of h' (s <| JobsDb.deletions := omap g (JobsDb.deletions s) |>).
Proof.
  intros [Hr _] Hi Hg. split; [|done]. cbn. rewrite Hr. clear Hr Hids. revert Hg.
  induction rows as [|d l IH]; intros Hg; [done|]. pose proof (Hg d (or_introl eq_refl)) as Hd.
  cbn [omap list_omap]. destruct (h d) as [r|]; simpl in Hd.
  - cbn [omap list_omap]. rewrite Hd. destruct (h' d); [f_equal|]; apply IH; auto with datatypes.
  - rewrite <- Hd. apply IH; auto with datatypes.
Qed.

Lemma map_is_omap {A} (f : A -> A) (l : list A) : map f l = omap (fun x => Some (f x)) l.
Proof. induction l as [|x l IH]; [done|]. cbn [omap list_omap map]. by rewrite IH. Qed.

Lemma filter_is_omap {A} (p : A -> bool) (l : list A) :
  List.filter p l = omap (fun x => if p x then Some x else None) l.
Proof. induction l as [|x l IH]; [done|]. cbn [omap list_omap List.filter]. rewrite IH. by destruct (p x). Qed.

Lemma queue_ids_NoDup h s : queue_of h s -> NoDup (ids (JobsDb.deletions s)).
Proof.
  intros [-> Hi]. apply (sublist_NoDup _ (ids rows)); [done|]. clear Hids. unfold ids.
  induction rows as [|d l IH]; [done|]. cbn [omap list_omap map]. destruct (h d) as [r|] eqn:E.
  - cbn [map]. rewrite (Hi d r E). by apply sublist_skip.
  - by apply sublist_cons.
Qed.

Lemma filter_one {A} (f : A -> string) (p : A -> bool) l r :
  NoDup (map f l) -> In r l -> p r = true -> (forall x, p x = true -> f x = f r) ->
  length (List.filter p l) = 1%nat.
Proof.
  intros Hn Hin Hp Hk. assert (In r (List.filter p l)) as Hr by (by apply filter_In).
  pose proof (NoDup_map_filter f p l Hn) as Hf.
  destruct (List.filter p l) as [|x [|y k]] eqn:E; [done|done|]. exfalso.
  assert (p x = true /\ p y = true) as [Hx Hy].
  { split; [apply (filter_In p x l)|apply (filter_In p y l)]; rewrite E; simpl; auto. }
  simpl in Hf. apply NoDup_cons in Hf as [Hf _]. apply Hf. rewrite (Hk x Hx), (Hk y Hy). by left.
Qed.

Lemma leased_self c expires now_text : leased_row (DeletionsModel.id c) owner (lease owner expires now_text c) = true.
Proof. unfold leased_row. by rewrite !andb_true_iff, !beq_true. Qed.

Lemma settle_id d r : settle d = Some r -> DeletionsModel.id r = DeletionsModel.id d.
Proof. unfold settle. destruct (storage _); [|done]. by intros [= <-]. Qed.

(** One file: its row is settled, the others stay. *)
Lemma drain_one c h s :
  queue_of h s -> In c rows ->
  (exists expires now_text, h c = Some (lease owner expires now_text c)) ->
  let h' := fun d => if has_id (DeletionsModel.id c) d then settle d else h d in
  match storage (DeletionsModel.storage_path c) with
  | Some error => exists s', queue_of h' s' /\ (exists rows', s' = s <| JobsDb.deletions := rows' |>)
      /\ ignore (update_deletion_failure c owner (redact_secrets error) (clock (DeletionsModel.id c))) s
         = (s', Ok tt)
  | None => exists s', queue_of h' s' /\ (exists rows', s' = s <| JobsDb.deletions := rows' |>)
      /\ delete_deletions (leased_row (DeletionsModel.id c) owner) s = (s', Ok 1)
  end.
Proof.
  intros Hq Hc (expires & now_text & Hh) h'.
  assert (In (lease owner expires now_text c) (JobsDb.deletions s)) as Hin.
  { rewrite (qo_rows _ _ Hq). apply list_elem_of_In, list_elem_of_omap. exists c. by rewrite list_elem_of_In. }
  assert (forall d r, h' d = Some r -> DeletionsModel.id r = DeletionsModel.id d) as Hi'.
  { intros d r. unfold h'. destruct (has_id _ d); [apply settle_id|apply (qo_ids _ _ Hq)]. }
  assert (forall d, In d rows -> has_id (DeletionsModel.id c) d = true -> d = c) as Hu.
  { intros d Hd E. unfold has_id in E. rewrite beq_true in E. by apply rows_by_id. }
  destruct (storage _) as [error|] eqn:St.
  - unfold ignore, update_deletion_failure, transaction, tbind, tread, tret.
    destruct (select_one _ _) as [current|] eqn:E; cycle 1.
    { exfalso. pose proof (select_one_None _ _ _ E Hin) as Hl. by rewrite leased_self in Hl. }
    apply select_one_Some in E as [Hcin Hcid]. unfold leased_row in Hcid.
    rewrite andb_true_iff, !beq_true in Hcid. destruct Hcid as [Hcid _].
    rewrite update_deletions_run, (filter_length_pos _ _ current Hcin) by (unfold has_id; by apply beq_true).
    rewrite Hcid. eexists. split; [|split; [by eexists|reflexivity]]. rewrite map_is_omap.
    apply (queue_of_step h); [done|done|]. intros d Hd. unfold h'.
    destruct (has_id (DeletionsModel.id c) d) eqn:E.
    + rewrite (Hu d Hd E), Hh. unfold settle. rewrite St. cbn. unfold has_id. cbn. by rewrite beq_refl.
    + destruct (h d) as [r|] eqn:Hr; [|done]. simpl. unfold has_id in E |- *.
      by rewrite (qo_ids _ _ Hq d r Hr), E.
  - rewrite delete_deletions_run.
    exists (s <| JobsDb.deletions := List.filter
      (fun d => negb (leased_row (DeletionsModel.id c) owner d)) (JobsDb.deletions s) |>).
    split; [|split; [by eexists|]].
    + rewrite filter_is_omap. apply (queue_of_step h); [done|done|]. intros d Hd. unfold h'.
      destruct (has_id (DeletionsModel.id c) d) eqn:E.
      * rewrite (Hu d Hd E), Hh. unfold settle. rewrite St. simpl. by rewrite leased_self.
      * destruct (h d) as [r|] eqn:Hr; [|done]. simpl. unfold has_id in E. unfold leased_row.
        by rewrite (qo_ids _ _ Hq d r Hr), E.
    + do 2 f_equal. rewrite (filter_one DeletionsModel.id _ _ (lease owner expires now_text c)); [done|..].
      * by apply (queue_ids_NoDup h).
      * done.
      * apply leased_self.
      * intros x Hx. unfold leased_row in Hx. rewrite andb_true_iff, !beq_true in Hx. tauto.
Qed.

Lemma queue_of_cons c claimed h s :
  queue_of (fun d => if among claimed d then settle d
                     else if has_id (DeletionsModel.id c) d then settle d else h d) s ->
  queue_of (fun d => if among (c :: claimed) d then settle d else h d) s.
Proof.
  intros [Hr Hi]. assert (forall d, (if among (c :: claimed) d then settle d else h d)
    = if among claimed d then settle d else if has_id (DeletionsModel.id c) d then settle d else h d) as E.
  { intros d. unfold among. cbn [existsb]. by destruct (has_id _ d), (existsb _ _). }
  split.
  - rewrite Hr. clear - E. induction rows as [|d l IH]; [done|]. cbn [omap list_omap]. by rewrite E, IH.
  - intros d r. rewrite E. apply Hi.
Qed.

Lemma drain_each_run claimed : forall h s deleted failed,
  queue_of h s -> NoDup (ids claimed) ->
  (forall c, In c claimed -> In c rows /\ exists expires now_text,
     h c = Some (lease owner expires now_text c)) ->
  exists s', drain_each storage clock owner claimed deleted failed s
    = (s', Ok (deleted + Z.of_nat (length (List.filter gone claimed)),
               failed || existsb (fun c => negb (gone c)) claimed))
    /\ queue_of (fun d => if among claimed d then settle d else h d) s'
    /\ exists rows', s' = s <| JobsDb.deletions := rows' |>.
Proof.
  induction claimed as [|c claimed IH]; intros h s deleted failed Hq Hn Hc; cbn [drain_each].
  { exists s. rewrite Z.add_0_r, orb_false_r. split_and!; [done|done|]. exists (JobsDb.deletions s).
    by destruct s. }
  destruct (Hc c (or_introl eq_refl)) as [Hcr Hcl]. pose proof (drain_one c h s Hq Hcr Hcl) as Hone.
  cbv zeta in Hone. unfold ids in Hn. cbn [map] in Hn. apply NoDup_cons in Hn as [Hnot Hn].
  assert (forall c', In c' claimed -> In c' rows /\ exists expires now_text,
    (if has_id (DeletionsModel.id c) c' then settle c' else h c') = Some (lease owner expires now_text c')) as Hc'.
  { intros c' Hin. destruct (Hc c' (or_intror Hin)) as [? ?]. split; [done|].
    destruct (has_id _ c') eqn:E; [|done]. exfalso. apply Hnot. unfold has_id in E. rewrite beq_true in E.
    rewrite <- E. by apply list_elem_of_In, in_map. }
  destruct (storage (DeletionsModel.storage_path c)) as [error|] eqn:St; destruct Hone as (s1 & Hq1 & [r1 ->] & Hrun);
    unfold tbind; rewrite Hrun.
  - destruct (IH _ _ deleted true Hq1 Hn Hc') as (s2 & -> & Hq2 & [r2 ->]). eexists.
    split; [|split; [by apply queue_of_cons|by exists r2]].
    cbn [List.filter existsb]. assert (gone c = false) as -> by (unfold gone; by rewrite St).
    by rewrite orb_true_r.
  - destruct (IH _ _ (deleted + 1) failed Hq1 Hn Hc') as (s2 & -> & Hq2 & [r2 ->]). eexists.
    split; [|split; [by apply queue_of_cons|by exists r2]].
    cbn [List.filter existsb]. assert (gone c = true) as -> by (unfold gone; by rewrite St).
    cbn [negb orb length].
    do 3 f_equal. lia.
Qed.
End Each.

(** ** A whole drain *)

(** What a drain at [now_text] leaves of the queue [rows]. *)
Definition drained (storage : string -> option string) (clock : string -> string) (now_text : string)
    (rows : list DeletionsModel.t) : list DeletionsModel.t :=
  omap (fun d => if among (claim_batch now_text rows) d then settle storage clock d else Some d) rows.

Lemma drain_run storage clock owner now now_text expires s :
  NoDup (ids (JobsDb.deletions s)) ->
  rfc_format now = Some now_text ->
  rfc_format (now + DELETION_LEASE_SECONDS * 1000000000) = Some expires ->
  let batch := claim_batch now_text (JobsDb.deletions s) in
  drain_deletions_for_owner storage clock owner now s =
  (s <| JobsDb.deletions := drained storage clock now_text (JobsDb.deletions s) |>,
   if forallb (gone storage) batch then Ok (Z.of_nat (length batch)) else Err Database).
Proof.
  intros Hids Hn He batch. unfold drain_deletions_for_owner, tbind at 1.
  rewrite (claim_run owner now now_text expires s Hn He). fold batch.
  set (s1 := s <| JobsDb.deletions := _ |>). set (rows := JobsDb.deletions s) in *.
  set (h := fun d => Some (if among batch d then lease owner expires now_text d else d)).
  assert (queue_of rows h s1) as Hq.
  { split; [apply map_is_omap|]. intros d r [= <-]. by destruct (among batch d). }
  destruct (drain_each_run storage clock owner rows Hids batch h s1 0 false Hq) as (s' & Hrun & Hq' & [rows' ->]).
  - by apply batch_NoDup.
  - intros c Hc. pose proof Hc as Hin. apply In_batch in Hin as [Hin _]. split; [done|].
    exists expires, now_text. unfold h. assert (among batch c = true) as ->; [|done].
    apply among_true. by exists c.
  - unfold tbind. rewrite Hrun. cbn [orb].
    assert (existsb (fun c => negb (gone storage c)) batch = negb (forallb (gone storage) batch)) as ->.
    { clear. induction batch as [|c l IH]; simpl; [done|]. rewrite IH. by destruct (gone storage c). }
    destruct Hq' as [Hrows _]. change (rows' = omap (fun d => if among batch d then settle storage clock d else h d) rows) in Hrows.
    subst rows'.
    assert (omap (fun d => if among batch d then settle storage clock d else h d) rows
            = drained storage clock now_text rows) as ->.
    { unfold drained. fold batch. unfold h. generalize rows. intros l. clear.
      induction l as [|d l IH]; [done|]. cbn [omap list_omap]. rewrite IH. by destruct (among batch d). }
    destruct (forallb _ batch) eqn:G; cbn [negb]; [|done]. unfold tret. do 3 f_equal.
    rewrite Z.add_0_l. f_equal. rewrite forallb_forall in G. clear - G.
    induction batch as [|c l IH]; simpl; [done|]. rewrite G by (by left). simpl. f_equal. apply IH.
    intros x Hx. apply G. by right.
Qed.

(** A drain works off exactly one batch: the (at most 64) oldest rows that no
    live lease holds.  A row of the batch leaves the queue if and only if its file
    was deleted, else it is unleased again with one more attempt and its redacted
    error; every other row is untouched, the number reported is the number of
    rows finalized, and an error is reported if and only if a file failed. *)
Theorem drain_settles_batch (storage : string -> option string) (clock : string -> string)
    (owner now_text expires : string) (now : Z) (s : JobsDb.t)
    (Hids : NoDup (ids (JobsDb.deletions s)))
    (Hnow : rfc_format now = Some now_text)
    (Hexpires : rfc_format (now + DELETION_LEASE_SECONDS * 1000000000) = Some expires) :
  let batch := claim_batch now_text (JobsDb.deletions s) in
  exists s' r, drain_deletions_for_owner storage clock owner now s = (s', r)
  /\ (forall d, In d (JobsDb.deletions s') <->
        (In d (JobsDb.deletions s) /\ ~ In d batch)
        \/ exists d0 error, In d0 batch /\ storage (DeletionsModel.storage_path d0) = Some error
            /\ d = returned (DeletionsModel.attempts d0) (redact_secrets error)
                     (clock (DeletionsModel.id d0)) d0)
  /\ r = (if forallb (gone storage) batch then Ok (Z.of_nat (length batch)) else Err Database)
  /\ (length batch <= DELETION_BATCH_SIZE)%nat
  /\ exists rows', s' = s <| JobsDb.deletions := rows' |>.
Proof.
  intros batch. rewrite (drain_run _ _ _ _ _ _ _ Hids Hnow Hexpires). do 2 eexists. split; [done|].
  split; [|split; [done|split; [unfold batch; rewrite batch_length; lia|by eexists]]].
  assert (forall d, In d (JobsDb.deletions s) -> among batch d = true <-> In d batch) as Hamong.
  { intros d Hd. rewrite among_true. split; [|by exists d]. intros (c & Hc & E).
    pose proof Hc as Hin. apply In_batch in Hin as [Hin _]. by rewrite <- (rows_by_id _ Hids c d Hin Hd E). }
  intros d. set (queue := JobsDb.deletions s) in *.
  change (JobsDb.deletions _) with (drained storage clock now_text queue).
  unfold drained. fold batch. rewrite <- list_elem_of_In, list_elem_of_omap. split.
  - intros (d0 & Hd0%list_elem_of_In & E). specialize (Hamong d0 Hd0).
    destruct (among batch d0).
    + right. unfold settle in E. destruct (storage _) as [error|] eqn:St; [|done]. injection E as <-.
      exists d0, error. split_and!; [by apply Hamong|done|done].
    + injection E as <-. left. split; [done|]. intros Hb. by apply Hamong in Hb.
  - intros [[Hd Hn]|(d0 & error & Hb & St & ->)].
    + exists d. rewrite list_elem_of_In. split; [done|]. destruct (among batch d) eqn:E; [|done].
      by apply Hamong in E.
    + pose proof Hb as Hd. apply In_batch in Hd as [Hd _]. exists d0. rewrite list_elem_of_In.
      split; [done|]. apply Hamong in Hb as ->; [|done]. unfold settle. by rewrite St.
Qed.
End DrainFacts.

(** ** Repeated drains *)

Section Repeated.
Context `{Store} `{Rfc3339}.

(** One drain after the other, each with its owner and its instant; the runtime
    logs an error and tries again at the next tick. *)
Fixpoint drain_runs (storage : string -> option string) (clock : string -> string)
    (runs : list (string * Z)) (s : JobsDb.t) : JobsDb.t :=
  match runs with
  | [] => s
  | (owner, now) :: runs =>
      drain_runs storage clock runs (fst (drain_deletions_for_owner storage clock owner now s))
  end.

(** At [now] the clock has a text, and no lease holds a row of the queue. *)
Definition leases_over (rows : list DeletionsModel.t) (now : Z) : Prop :=
  exists now_text expires, rfc_format now = Some now_text
    /\ rfc_format (now + DELETION_LEASE_SECONDS * 1000000000) = Some expires
    /\ forall d, In d rows -> claimable now_text d = true.

Lemma drained_all storage clock now_text rows :
  NoDup (ids rows) -> (forall path, storage path = None) ->
  (forall d, In d rows -> claimable now_text d = true) ->
  NoDup (ids (drained storage clock now_text rows))
  /\ (forall d, In d (drained storage clock now_text rows) -> In d rows)
  /\ (length (drained storage clock now_text rows) + DELETION_BATCH_SIZE <= length rows
      \/ drained storage clock now_text rows = [])%nat.
Proof.
  intros Hids Hst Hcl. set (batch := claim_batch now_text rows).
  assert (drained storage clock now_text rows = List.filter (fun d => negb (among batch d)) rows) as ->.
  { unfold drained. fold batch. rewrite filter_is_omap. generalize batch. intros b. clear - Hst.
    induction rows as [|d l IH]; [done|]. cbn [omap list_omap]. rewrite IH. unfold settle. rewrite Hst.
    by destruct (among b d). }
  split; [by apply NoDup_map_filter|]. split; [by intros d [Hd _]%filter_In|].
  destruct (batch_part now_text rows) as [rest Hrest].
  assert (List.filter (claimable now_text) rows = rows) as Hall.
  { clear - Hcl. induction rows as [|d l IH]; [done|]. cbn [List.filter]. rewrite Hcl by (by left).
    f_equal. apply IH. intros x Hx. apply Hcl. by right. }
  pose proof (batch_length now_text rows) as Hlen. rewrite Hall in Hrest, Hlen. fold batch in Hrest, Hlen.
  assert (length (List.filter (fun d => negb (among batch d)) rows) <= length rest)%nat as Hle.
  { rewrite (Permutation_length (filter_perm _ _ _ Hrest)), List.filter_app, length_app.
    assert (List.filter (fun d => negb (among batch d)) batch = []) as ->.
    { apply filter_none. intros d Hd. apply negb_false_iff, among_true. eauto. }
    simpl. apply List.filter_length_le. }
  apply Permutation_length in Hrest. rewrite length_app in Hrest.
  destruct (Nat.le_gt_cases (length rows) DELETION_BATCH_SIZE); [right|left; lia].
  apply length_zero_iff_nil. lia.
Qed.

(** every queued file is eventually deleted: while the storage works, however
    many rows are queued and whatever workers crashed while they held a lease,
    draining again and again at instants when no lease is left empties the queue
    after one run per started batch of 64 rows. *)
Theorem queue_drains (storage : string -> option string) (clock : string -> string)
    (runs : list (string * Z)) (s : JobsDb.t)
    (Hids : NoDup (ids (JobsDb.deletions s)))
    (Hstorage : forall path, storage path = None)
    (Hleases : Forall (fun run => leases_over (JobsDb.deletions s) (snd run)) runs)
    (Hruns : (length (JobsDb.deletions s) <= DELETION_BATCH_SIZE * length runs)%nat) :
  JobsDb.deletions (drain_runs storage clock runs s) = [].
Proof.
  revert s Hids Hleases Hruns. induction runs as [|[owner now] runs IH]; intros s Hids Hl Hlen; cbn [drain_runs].
  { destruct (JobsDb.deletions s); [done|]. simpl in Hlen. lia. }
  apply Forall_cons in Hl as [(now_text & expires & Hn & He & Hcl) Hl]. simpl in Hn, He.
  rewrite (drain_run storage clock owner now now_text expires s Hids Hn He). cbn [fst].
  destruct (drained_all storage clock now_text (JobsDb.deletions s) Hids Hstorage Hcl) as (Hids' & Hsub & Hlen').
  apply IH.
  - done.
  - eapply Forall_impl; [exact Hl|]. intros run (t & e & Ht & Het & Hc). exists t, e.
    split_and!; [done|done|]. intros d Hd. by apply Hc, Hsub.
  - change (length (drained storage clock now_text (JobsDb.deletions s))
            <= DELETION_BATCH_SIZE * length runs)%nat.
    simpl in Hlen. destruct Hlen' as [Hlen'| ->]; [|simpl; lia]. unfold DELETION_BATCH_SIZE in *. lia.
Qed.
End Repeated.

(** ** A small queue *)

#[local] Existing Instance list_store.
#[local] Existing Instance binary_clock.

Definition queued (n : nat) : DeletionsModel.t :=
  let name := String (Ascii.ascii_of_nat (n + 40)) EmptyString in
  DeletionsModel.mk name name 0 None None None name name.

Definition sample_queue (n : nat) : JobsDb.t :=
  JobsDb.mk (Db.mk [] [] [] []) [] [] [] [] (map queued (seq 0 n)).

Lemma sample_queue_ids n : (n <= 70)%nat -> NoDup (ids (JobsDb.deletions (sample_queue n))).
Proof.
  intros Hn. simpl. unfold ids. rewrite map_map. simpl.
  apply (NoDup_fmap_2_strong (fun i => String (Ascii.ascii_of_nat (i + 40)) EmptyString)); [|apply NoDup_seq].
  intros x y Hx%elem_of_seq Hy%elem_of_seq [= E]. apply (f_equal Ascii.nat_of_ascii) in E.
  rewrite !Ascii.nat_ascii_embedding in E by lia. lia.
Qed.

Lemma sample_leases n now : 0 <= now -> leases_over (JobsDb.deletions (sample_queue n)) now.
Proof.
  intros Hn. exists (bits_text (N.succ_pos (Z.to_N now))),
    (bits_text (N.succ_pos (Z.to_N (now + DELETION_LEASE_SECONDS * 1000000000)))).
  split_and!; cbn [rfc_format binary_clock].
  - destruct (Z.leb_spec 0 now); [done|lia].
  - destruct (Z.leb_spec 0 (now + DELETION_LEASE_SECONDS * 1000000000)); [done|].
    unfold DELETION_LEASE_SECONDS in *. lia.
  - intros d (i & <- & _)%in_map_iff. done.
Qed.

Lemma queue_drains_witness :
  length (JobsDb.deletions (sample_queue 70)) = 70%nat
  /\ JobsDb.deletions (drain_runs (fun _ => None) (fun i => i) [("a"%string, 5); ("b"%string, 6)]
                         (sample_queue 70)) = [].
Proof.
  split; [reflexivity|]. apply queue_drains.
  - apply sample_queue_ids. lia.
  - reflexivity.
  - repeat constructor; apply sample_leases; simpl; lia.
  - simpl. lia.
Defined.

Lemma drain_settles_batch_witness :
  exists s' r, drain_deletions_for_owner (fun path => if beq path "("%string then Some "gone"%string else None)
      (fun i => i) "a" 5 (sample_queue 2) = (s', r)
    /\ r = Err Database /\ length (JobsDb.deletions s') = 1%nat.
Proof.
  destruct (drain_settles_batch (fun path => if beq path "("%string then Some "gone"%string else None)
    (fun i => i) "a" (bits_text (N.succ_pos 5)) (bits_text (N.succ_pos 300000000005)) 5 (sample_queue 2))
    as (s' & r & E & _).
  - apply sample_queue_ids. lia.
  - reflexivity.
  - reflexivity.
  - exists s', r. split; [exact E|]. vm_compute in E. injection E as <- <-. split; reflexivity.
Defined.

(** The oldest rows are always claimed first: when the files of a whole batch
    cannot be deleted, a younger row is never reached, however often the queue is
    drained. *)
Lemma failing_batch_starves :
  let storage path := if beq path (DeletionsModel.storage_path (queued 64)) then None else Some EmptyString in
  List.filter (fun d => DeletionsModel.attempts d =? 0)
    (JobsDb.deletions (drain_runs storage (fun i => i)
       [("a"%string, 5); ("b"%string, 6); ("c"%string, 7)] (sample_queue 65))) = [queued 64].
Proof. vm_compute. reflexivity. Qed.
