(* ===== verification/JobSamples.v ===== *)
(** * A small hub for the job witnesses

    One printer, a printed job and a failed dispatch, with constant JSON
    codecs; every job property is applied to it. *)

From stdpp Require Import sorting.
From S2P Require Import Prelude RustStr CoreTypes CoreRecords Json H2c Compatibility Store JobRows PrinterRows PrintState Tx AgentSessions CommandTransitions JobTables JobCreate JobRecovery JobClear ArtifactQuota.

#[local] Open Scope Z_scope.

Definition sample_payload : PrintProjectFilePayload.t :=
  PrintProjectFilePayload.mk "2" "a1" "p1" "serial" "plate.3mf" "path" "download" 10 1 false
    PrintCalibrationMode.Off false false PrintCalibrationMode.Off PrintCalibrationMode.Off false
    None None None (StudioSubmissionId.mk 1) None.

Definition constant_print_json : PrintJson := {|
  mapping_len := fun _ _ => Some 0%nat;
  print_payload_to_string := fun _ => "{}"%string;
  parse_print_payload := fun _ => Some sample_payload;
|}.

#[local] Existing Instance list_store.
#[local] Existing Instance binary_uuid.
#[local] Existing Instance binary_clock.
#[local] Existing Instance no_json.
#[local] Existing Instance no_audit_json.
#[local] Existing Instance constant_print_json.
#[local] Existing Instance no_command_json.

Definition tenant : TenantId := mkTenantId 0.
Definition agent : AgentId := mkAgentId 0.

Definition sample_printer : PrintersModel.t :=
  PrintersModel.mk "p1" (TenantId_to_string tenant) (AgentId_to_string agent) "serial" None None
    None "Printer" (Some "P1S"%string) "online" (Some "t0"%string) "t0" "[]" None None None None None None None None
    None None None None None None 5 3 1 None None None None None None None None None None None
    None None None None None "[]" None None None None None 0 0.

Definition sample_artifact : ArtifactsModel.t :=
  ArtifactsModel.mk "a1" (TenantId_to_string tenant) "plate.3mf" "model/3mf" 10 "path" None "t0".

(** A command and the job it dispatches. *)
Definition sample_command (n : N) (status updated_at : string) : CommandsModel.t :=
  CommandsModel.mk (CommandId_to_string (mkCommandId n)) (TenantId_to_string tenant)
    (AgentId_to_string agent) (Some "p1"%string) "print_project_file" status "{}" None None "t0"
    updated_at.

Definition sample_job (n : N) (status print_status : string) : JobsModel.t :=
  JobsModel.mk (JobId_to_string (mkJobId n)) (TenantId_to_string tenant) "p1"
    (AgentId_to_string agent) "a1" (CommandId_to_string (mkCommandId n)) (Z.of_N n) 1 None status
    None "t0" "t0" print_status None None None None None None None None None None None None None
    None None None.

(** [sample_hub]: job 1 is queued, job 2 failed to dispatch, job 3 was
    dispatched at the epoch and never began. *)
Definition sample_tables : JobsDb.t :=
  JobsDb.mk
    (Db.mk [sample_command 1 "queued" "0"; sample_command 2 "failed" "0";
            sample_command 3 "succeeded" "0"]
       [sample_job 1 "queued" "pending"; sample_job 2 "failed" "pending";
        sample_job 3 "succeeded" "pending"]
       [sample_artifact] [])
    [sample_printer] [SequencesModel.mk (TenantId_to_string tenant) 3] [] [] [].

Definition sample_input : CreatePrintJob.t :=
  CreatePrintJob.mk tenant "p1" agent
    (PrintArtifactInput.mk "a2" "cube.3mf" "model/3mf" 20 "path2" None)
    (PrintExecutionOptions.mk 1 false PrintCalibrationMode.Off false false
       PrintCalibrationMode.Off PrintCalibrationMode.Off false None None None).

Lemma sample_usages : usages_owned (JobsDb.main sample_tables).
Proof. intros u []. Defined.

Lemma sample_commands_unique : command_ids_unique (JobsDb.main sample_tables).
Proof.
  intros x y Hx Hy. simpl in Hx, Hy.
  destruct Hx as [<-|[<-|[<-|[]]]], Hy as [<-|[<-|[<-|[]]]]; vm_compute; congruence.
Defined.

Lemma sample_jobs_unique : job_ids_unique (JobsDb.main sample_tables).
Proof.
  intros x y Hx Hy. simpl in Hx, Hy.
  destruct Hx as [<-|[<-|[<-|[]]]], Hy as [<-|[<-|[<-|[]]]]; vm_compute; congruence.
Defined.

Lemma sample_jobs_canonical : job_ids_canonical (JobsDb.main sample_tables).
Proof.
  intros x i Hx. simpl in Hx.
  destruct Hx as [<-|[<-|[<-|[]]]]; vm_compute; intros [= <-]; reflexivity.
Defined.

(** The outcome of running [m] on the sample, when it succeeds. *)
Definition outcome {A} (m : jobs_tx A) : option (JobsDb.t * A) :=
  match m sample_tables with (s, Ok a) => Some (s, a) | _ => None end.

Lemma outcome_Some {A} (m : jobs_tx A) s a :
  outcome m = Some (s, a) -> m sample_tables = (s, Ok a).
Proof. unfold outcome. destruct (m _) as [s1 [b|e]]; congruence. Defined.

(** Evaluates [outcome m] and names the state and the result. *)
Ltac run_sample m s a H :=
  destruct (outcome m) as [[s a]|] eqn:H; [apply outcome_Some in H|vm_compute in H; discriminate].

Lemma created_job_reads_back_witness :
  exists s' created,
    create_print_job "t9" (mkJobId 9) (mkCommandId 9) sample_input None sample_tables
      = (s', Ok created)
    /\ job_with_artifact_by_id tenant (mkJobId 9) (JobsDb.main s') = Ok (Some created)
    /\ StudioSubmissionId.get (Job.studio_submission_id (JobWithArtifact.job created)) = 4.
Proof.
  run_sample (create_print_job "t9" (mkJobId 9) (mkCommandId 9) sample_input None) s' created E.
  exists s', created. split; [exact E|]. split.
  - refine (proj1 (created_job_reads_back "t9" (mkJobId 9) (mkCommandId 9) sample_input None
      sample_tables s' created E _ _ _)).
    + vm_compute. split; [discriminate|reflexivity].
    + discriminate.
    + exact sample_usages.
  - vm_compute in E. injection E as <- <-. reflexivity.
Defined.

Lemma cancelled_print_is_final_witness :
  exists s' cancelled,
    cancel_studio_print_with_audit "e1" "t1" "t2" tenant (StudioSubmissionId.mk 1) AuditActor.no_auth
      sample_tables = (s', Ok cancelled)
    /\ Job.status (JobWithArtifact.job cancelled) = JobStatus.Cancelled.
Proof.
  run_sample (cancel_studio_print_with_audit "e1" "t1" "t2" tenant (StudioSubmissionId.mk 1)
    AuditActor.no_auth) s' cancelled E.
  exists s', cancelled. split; [exact E|].
  exact (proj1 (cancelled_print_is_final _ _ _ _ _ _ _ _ _ sample_commands_unique
    sample_jobs_unique sample_jobs_canonical E)).
Defined.

Lemma retry_redispatches_failed_dispatch_witness :
  exists s' retried,
    retry_dispatch_with_audit "e1" "t1" "t2" "t3" (mkCommandId 9) tenant (mkJobId 2) None
      AuditActor.no_auth sample_tables = (s', Ok retried)
    /\ Job.command_id (JobWithArtifact.job retried) = mkCommandId 9.
Proof.
  run_sample (retry_dispatch_with_audit "e1" "t1" "t2" "t3" (mkCommandId 9) tenant (mkJobId 2) None
    AuditActor.no_auth) s' retried E.
  exists s', retried. split; [exact E|].
  exact (proj1 (retry_redispatches_failed_dispatch _ _ _ _ _ _ _ _ _ _ _ _ sample_jobs_unique E)).
Defined.

(** A thousand seconds after the epoch. *)
Definition sample_now : string := bits_text (N.succ_pos (Z.to_N (1000 * 1000000000))).

Lemma stall_sweep_precise_witness :
  exists s' hs, mark_stalled_pending_jobs sample_now sample_tables = (s', Ok hs)
    /\ map JobsModel.print_status (Db.jobs (JobsDb.main s')) = ["pending"; "pending"; "stalled"]%string
    /\ length hs = 1%nat.
Proof.
  assert (NoDup (map JobsModel.id (Db.jobs (JobsDb.main sample_tables)))) as Hn.
  { apply (bool_decide_unpack _). vm_compute. exact I. }
  assert (keys_unique (JobsDb.main sample_tables)) as Hk.
  { intros a a' [<-|[]] [<-|[]] _. reflexivity. }
  run_sample (mark_stalled_pending_jobs sample_now) s' hs E. exists s', hs. split; [exact E|].
  destruct (stall_sweep_precise _ _ _ _ Hn Hk E) as (at_ & cutoff & marked & rows & _ & _ & _ & _ & _ & _ & Hh).
  split.
  - vm_compute in E. injection E as <- _. reflexivity.
  - vm_compute in E. injection E as _ <-. reflexivity.
Defined.

Lemma copy_prints_stored_artifact_witness :
  exists source s' created,
    job_with_artifact_by_id tenant (mkJobId 3) (JobsDb.main sample_tables) = Ok (Some source)
    /\ create_copy_with_audit "e1" "t8" "t9" (mkJobId 9) (mkCommandId 9) tenant source sample_payload
         None AuditActor.no_auth "job.duplicate" None sample_tables = (s', Ok created)
    /\ JobArtifact.created_at (JobWithArtifact.artifact source) = "t0"%string
    /\ JobArtifact.created_at (JobWithArtifact.artifact created) = "t8"%string.
Proof.
  destruct (job_with_artifact_by_id tenant (mkJobId 3) (JobsDb.main sample_tables)) as [[source|]|e]
    eqn:Hs; [|vm_compute in Hs; discriminate..].
  destruct (outcome (create_copy_with_audit "e1" "t8" "t9" (mkJobId 9) (mkCommandId 9) tenant source
    sample_payload None AuditActor.no_auth "job.duplicate" None)) as [[s' created]|] eqn:E.
  - apply outcome_Some in E. exists source, s', created. split; [reflexivity|]. split; [exact E|].
    destruct (copy_prints_stored_artifact _ _ _ _ _ _ _ _ _ _ _ _ _ _ _ _ Hs sample_usages E)
      as (_ & _ & _ & _ & ->).
    vm_compute in Hs. injection Hs as <-. split; reflexivity.
  - vm_compute in Hs. injection Hs as <-. vm_compute in E. discriminate.
Defined.

Lemma clear_removes_only_finished_witness :
  exists s' hs gone,
    clear_with_audit "e1" "t1" (fun p => p) (fun _ => "t2"%string) (1000 * 1000000000) tenant ClearTenant
      AuditActor.no_auth sample_tables = (s', Ok hs)
    /\ cleared tenant ClearTenant (1000 * 1000000000) gone sample_tables s'
    /\ map JobsModel.id (Db.jobs (JobsDb.main s')) = [JobId_to_string (mkJobId 1)]
    /\ ClearJobsOutcome.deleted_jobs hs = 2.
Proof.
  run_sample (clear_with_audit "e1" "t1" (fun p => p) (fun _ => "t2"%string) (1000 * 1000000000) tenant
    ClearTenant AuditActor.no_auth) s' hs E.
  destruct (clear_removes_only_finished _ _ _ _ _ _ _ _ _ _ _ sample_jobs_unique E) as (gone & Hc & _).
  exists s', hs, gone. split; [exact E|]. split; [exact Hc|]. clear Hc.
  vm_compute in E. injection E as <- <-. split; reflexivity.
Defined.

(** Room for three artifacts and a hundred bytes per tenant. *)
Definition sample_quota : ArtifactQuotaLimits.t := ArtifactQuotaLimits.mk 100 3 1000 30.

(** One reservation of the upload of [sample_input]. *)
Definition sample_reserved : JobsDb.t :=
  fst (reserve_artifact_quota (fun p => p) (fun _ => "0"%string) "r1" "0" "0" 5 tenant "a2" "path2" 20
         sample_quota sample_tables).

Lemma quota_never_exceeded_witness :
  usage_bytes "0" None sample_reserved = 30
  /\ within_quota sample_quota "0" sample_reserved.
Proof.
  split; [reflexivity|].
  refine (@quota_never_exceeded list_store list_store_binary _ _ _ _ _ sample_quota "0" "0"
    sample_tables sample_reserved _ _).
  - split.
    + intros x [<-|[]]. vm_compute. discriminate.
    + intros [t|]; [|vm_compute; discriminate]. unfold usage_bytes, counted_artifacts. cbn.
      destruct (beq _ t); vm_compute; discriminate.
    + intros [t|]; [|vm_compute; discriminate]. unfold usage_count, counted_artifacts. cbn.
      destruct (beq _ t); vm_compute; discriminate.
  - eapply rtc_once. apply qs_reserve. vm_compute. discriminate.
Defined.
