(* ===== verification/PrintCommand.v ===== *)
(** * The print command, from the hub's queue to the agent

    [conversion.rs] of the hub ([hub_command_from_record]): the message of every queued
    command, of a print in particular; [machine/print.rs] of the agent: what the agent
    accepts as a print command.  The messages are those of [print_project.proto]. *)

From S2P Require Import Prelude RustStr RustFloat Json CoreTypes CoreRecords H2c DeviceFeatures PrinterOperation OperationWire ProjectFile Store JobRows Tx AgentSessions CommandTransitions JobTables JobCreate.

#[local] Open Scope Z_scope.
#[local] Open Scope rust_scope.

(** ** Messages *)

(** [message StudioNozzleInfo]; the two mapping messages have the fields of their
    [pandar-core] structs. *)
Module ProtoNozzleInfo.
Record t := mk {
  id : Z; nozzle_type : option string; flow_size : option string; diameter : option float }.
End ProtoNozzleInfo.

Module PrintProjectFileOptions.
Record t := mk {
  use_ams : bool; bed_leveling : bool; flow_cali : bool; vibration_cali : bool;
  layer_inspect : bool; record_timelapse : bool; timelapse_use_internal : bool;
  bed_type : string; auto_bed_leveling : option Z; auto_flow_cali : option Z;
  auto_offset_cali : option Z; extruder_cali_manual_mode : option Z; try_emmc_print : bool;
  nozzle_mapping : list Z; ams_mapping : list Z; ams_mapping2 : list StudioAmsMappingEntry;
  ams_mapping_info : list StudioAmsMappingInfo; nozzles_info : list ProtoNozzleInfo.t }.
End PrintProjectFileOptions.

Module StudioTaskMetadata.
Record t := mk {
  task_name : string; project_name : string; preset_name : string; connection_type : string;
  comments : string; origin_profile_id : Z; stl_design_id : Z; origin_model_id : string;
  print_type : string; submitted_device_name : string; svc_context : string;
  slicer_uid : string }.
End StudioTaskMetadata.

Module PrintProjectFile.
Record t := mk {
  job_id : string; artifact_id : string; printer_id : string; serial_number : string;
  filename : string; storage_path : string; artifact_download_path : string; size_bytes : Z;
  plate_id : Z; studio_submission_id : Z; options : option PrintProjectFileOptions.t;
  task_metadata : option StudioTaskMetadata.t; submission_source : Z }.
End PrintProjectFile.

(** The commands a queued row can become. *)
Module QueuedCommand.
Inductive t :=
| RefreshPrinters
| DiscoverPrinters (timeout_seconds : Z)
| DiagnosePrinter (serial_number : string)
| RefreshPrinterMaterials (printer_id serial_number : string)
| ReloadPrinterConnection (printer_id serial_number : string)
| PrinterOperation (operation : ProtoPrinterOperation.t)
| PrintProjectFile (print : PrintProjectFile.t).
End QueuedCommand.

Module HubCommand.
Record t := mk { command_id : string; command : QueuedCommand.t }.
End HubCommand.

(** [tonic::Status]. *)
Inductive Code := Internal | FailedPrecondition | InvalidArgument | NotFound | PermissionDenied | Aborted.

Module Status.
Record t := mk { code : Code; message : string }.
Definition internal (message : string) : t := mk Internal message.
Definition failed_precondition (message : string) : t := mk FailedPrecondition message.
End Status.

(** [serde_json::from_str] on the payloads of the other queued commands and on the
    mapping columns; [mapping_len] of [PrintJson] is the length of what the same readers
    read ([material_mapping.rs] names the same types). *)
Class QueuedJson `{PrintJson} := {
  parse_discover_payload : string -> option Z;
  parse_diagnose_payload : string -> option string;
  parse_printer_payload : string -> option (string * string);
  parse_ams_mapping : string -> option (list Z);
  parse_ams_mapping2 : string -> option (list StudioAmsMappingEntry);
  parse_ams_mapping_info : string -> option (list StudioAmsMappingInfo);
  mapping_len_ams s : mapping_len ams_mapping_field s = length <$> parse_ams_mapping s;
  mapping_len_ams2 s : mapping_len ams_mapping2_field s = length <$> parse_ams_mapping2 s;
  mapping_len_info s : mapping_len ams_mapping_info_field s = length <$> parse_ams_mapping_info s;
}.

(** ** The hub's conversion *)

Section Conversion.
Context `{UuidText} `{CommandJson} `{QueuedJson}.

(** [parse_optional_json]. *)
Definition parse_optional_json {A} (from_str : string -> option (list A)) (value : option string)
  : option (list A) :=
  match value with None => Some [] | Some text => from_str text end.

Definition proto_nozzle (entry : StudioNozzleInfo) : ProtoNozzleInfo.t :=
  ProtoNozzleInfo.mk (nozzle_info_id entry) (studio_nozzle_type entry) (CoreRecords.flow_size entry)
    (StudioFiniteF64.get <$> CoreRecords.diameter entry).

Definition proto_studio_metadata (metadata : StudioPrintMetadata)
  : PrintProjectFileOptions.t * StudioTaskMetadata.t :=
  let 'V1 metadata := metadata in
  (PrintProjectFileOptions.mk
     (StudioPrintMetadataV1.task_use_ams metadata) (StudioPrintMetadataV1.task_bed_leveling metadata)
     (StudioPrintMetadataV1.task_flow_cali metadata)
     (StudioPrintMetadataV1.task_vibration_cali metadata)
     (StudioPrintMetadataV1.task_layer_inspect metadata)
     (StudioPrintMetadataV1.task_record_timelapse metadata)
     (StudioPrintMetadataV1.task_timelapse_use_internal metadata)
     (StudioPrintMetadataV1.task_bed_type metadata)
     (Some (PrintCalibrationMode.as_u8 (StudioPrintMetadataV1.auto_bed_leveling metadata)))
     (Some (PrintCalibrationMode.as_u8 (StudioPrintMetadataV1.auto_flow_cali metadata)))
     (Some (PrintCalibrationMode.as_u8 (StudioPrintMetadataV1.auto_offset_cali metadata)))
     (Some (StudioPrintMetadataV1.extruder_cali_manual_mode metadata))
     (StudioPrintMetadataV1.try_emmc_print metadata)
     (StudioPrintMetadataV1.nozzle_mapping metadata) (StudioPrintMetadataV1.ams_mapping metadata)
     (StudioPrintMetadataV1.ams_mapping2 metadata) (StudioPrintMetadataV1.ams_mapping_info metadata)
     (map proto_nozzle (StudioPrintMetadataV1.nozzles_info metadata)),
   StudioTaskMetadata.mk
     (StudioPrintMetadataV1.task_name metadata) (StudioPrintMetadataV1.project_name metadata)
     (StudioPrintMetadataV1.preset_name metadata) (StudioPrintMetadataV1.connection_type metadata)
     (StudioPrintMetadataV1.comments metadata) (StudioPrintMetadataV1.origin_profile_id metadata)
     (StudioPrintMetadataV1.stl_design_id metadata) (StudioPrintMetadataV1.origin_model_id metadata)
     (StudioPrintMetadataV1.print_type metadata)
     (StudioPrintMetadataV1.submitted_device_name metadata)
     (StudioPrintMetadataV1.svc_context metadata) (StudioPrintMetadataV1.slicer_uid metadata)).

Definition proto_web_options (payload : PrintProjectFilePayload.t)
  : option PrintProjectFileOptions.t :=
  ams_mapping ← parse_optional_json parse_ams_mapping (PrintProjectFilePayload.ams_mapping_json payload);
  ams_mapping2 ← parse_optional_json parse_ams_mapping2
    (PrintProjectFilePayload.ams_mapping2_json payload);
  ams_mapping_info ← parse_optional_json parse_ams_mapping_info
    (PrintProjectFilePayload.ams_mapping_info_json payload);
  Some (PrintProjectFileOptions.mk
    (PrintProjectFilePayload.use_ams payload) (PrintProjectFilePayload.bed_leveling payload)
    (PrintProjectFilePayload.flow_cali payload) false false
    (PrintProjectFilePayload.timelapse payload) false "auto"
    (Some (PrintCalibrationMode.as_u8 (PrintProjectFilePayload.auto_bed_leveling payload)))
    (Some (PrintCalibrationMode.as_u8 (PrintProjectFilePayload.auto_flow_cali payload)))
    (Some (PrintCalibrationMode.as_u8 (PrintProjectFilePayload.auto_offset_cali payload)))
    None true [] ams_mapping ams_mapping2 ams_mapping_info []).

Definition invalid_print_payload : Status.t := Status.internal "invalid print command payload".

(** The arm of a print: [i32 as u32] on the submission id. *)
Definition print_command (payload : PrintProjectFilePayload.t)
  : result Status.t PrintProjectFile.t :=
  if blank (PrintProjectFilePayload.artifact_download_path payload)
  then Err (Status.internal "missing artifact download path")
  else
    converted <-? (match PrintProjectFilePayload.studio_metadata payload with
                   | Some metadata =>
                       let '(options, task) := proto_studio_metadata metadata in
                       Ok (options, Some task, 2)
                   | None =>
                       options <-? ok_or (proto_web_options payload) invalid_print_payload ;;
                       Ok (options, None, 1)
                   end) ;;
    let '(options, task_metadata, submission_source) := converted in
    Ok (PrintProjectFile.mk
      (PrintProjectFilePayload.job_id payload) (PrintProjectFilePayload.artifact_id payload)
      (PrintProjectFilePayload.printer_id payload) (PrintProjectFilePayload.serial_number payload)
      (PrintProjectFilePayload.filename payload) (PrintProjectFilePayload.storage_path payload)
      (PrintProjectFilePayload.artifact_download_path payload)
      (PrintProjectFilePayload.size_bytes payload) (PrintProjectFilePayload.plate_id payload)
      (wrap_u32 (StudioSubmissionId.get (PrintProjectFilePayload.studio_submission_id payload)))
      (Some options) task_metadata submission_source).

(** [None] when the command is no printer operation, else what its payload reads as. *)
Definition persisted_printer_operation_payload (command : CommandRecord.t)
  : option (option PrinterOperationPayload.t) :=
  if negb (beq (CommandRecord.kind command) "printer_operation") then None
  else Some (parse_operation_payload (CommandRecord.payload_json command)).

(** The two operations that are only ever dispatched live. *)
Definition live_only (operation : PrinterOperation.t) : bool :=
  match operation with
  | PrinterOperation.HandlePrintError _ _ _ _ | PrinterOperation.GetAutoNozzleMapping _ => true
  | _ => false
  end.

Definition operation_command (payload : PrinterOperationPayload.t)
  : result Status.t ProtoPrinterOperation.t :=
  if live_only (PrinterOperationPayload.operation payload)
  then Err (Status.failed_precondition "print error operation requires live dispatch")
  else Ok (queued_operation (PrinterOperationPayload.serial_number payload)
             (PrinterOperationPayload.operation payload)).

Definition queued_command (command : CommandRecord.t) : result Status.t QueuedCommand.t :=
  let kind := CommandRecord.kind command in
  let payload_json := CommandRecord.payload_json command in
  let invalid name := Status.internal ("invalid " +:+ name +:+ " command payload") in
  if beq kind "refresh_printers" then Ok QueuedCommand.RefreshPrinters
  else if beq kind "discover_printers" then
    timeout <-? ok_or (parse_discover_payload payload_json) (invalid "discover printers") ;;
    Ok (QueuedCommand.DiscoverPrinters timeout)
  else if beq kind "diagnose_printer" then
    serial <-? ok_or (parse_diagnose_payload payload_json) (invalid "diagnose printer") ;;
    Ok (QueuedCommand.DiagnosePrinter serial)
  else if beq kind "refresh_printer_materials" then
    target <-? ok_or (parse_printer_payload payload_json) (invalid "refresh printer materials") ;;
    Ok (QueuedCommand.RefreshPrinterMaterials target.1 target.2)
  else if beq kind "reload_printer_connection" then
    target <-? ok_or (parse_printer_payload payload_json) (invalid "reload printer connection") ;;
    Ok (QueuedCommand.ReloadPrinterConnection target.1 target.2)
  else if beq kind "printer_operation" then
    payload <-? ok_or (parse_operation_payload payload_json) (invalid "printer operation") ;;
    operation <-? operation_command payload ;;
    Ok (QueuedCommand.PrinterOperation operation)
  else if beq kind "link_printer" then
    Err (Status.failed_precondition "link printer command requires live secret dispatch")
  else if beq kind "firmware_refresh" || beq kind "firmware_control" then
    Err (Status.failed_precondition "firmware command requires live session dispatch")
  else if beq kind "print_project_file" then
    payload <-? ok_or (parse_print_payload payload_json) invalid_print_payload ;;
    print <-? print_command payload ;;
    Ok (QueuedCommand.PrintProjectFile print)
  else Err (Status.internal "unknown persisted command kind").

Definition hub_command_from_record (command : CommandRecord.t) : result Status.t HubCommand.t :=
  queued <-? queued_command command ;;
  Ok (HubCommand.mk (CommandId_to_string (CommandRecord.id command)) queued).
End Conversion.
