(* ===== verification/Accounts.v ===== *)
(** * Tenants, users and external identities

    [repositories/tenants.rs], [repositories/auth.rs] with [auth/users.rs],
    [auth/users/provisioning.rs], [auth/identities.rs] and [auth/secrets.rs], over
    the tables of the accounts: an insert respects the primary keys, unique
    indexes and foreign keys of [migrations/], and deleting a user removes its
    identities and clears the references to it.  The [k]-th UUID an operation
    draws and its [k]-th reading of the clock are functions of [k] ([Draws]). *)

From stdpp Require Import sorting.
From S2P Require Import Prelude RustStr CoreTypes CoreRecords Json Store Tx JobRows JobTables.

#[local] Open Scope Z_scope.
#[local] Open Scope rust_scope.
#[local] Open Scope tx_scope.

(** ** Rows *)

Module TenantsModel.
Record t := mk { id : string; slug : string; display_name : string; created_at : string }.
End TenantsModel.

Module UsersModel.
Record t := mk {
  id : string; tenant_id : string; email : string; display_name : string; role : string;
  created_at : string }.
End UsersModel.

Module IdentitiesModel.
Record t := mk {
  id : string; tenant_id : string; user_id : string; provider : string; subject : string;
  created_at : string }.
End IdentitiesModel.

Module TokensModel.
Record t := mk {
  id : string; tenant_id : string; name : string; token_hash : string; scopes_json : string;
  created_by_user_id : option string; created_at : string; last_used_at : option string;
  expires_at : option string; revoked_at : option string }.
End TokensModel.

Module LoginTicketsModel.
Record t := mk {
  id : string; tenant_id : string; user_id : option string; ticket_hash : string;
  redirect_url : string; kind : string; code_challenge : option string; created_at : string;
  expires_at : string; used_at : option string; revoked_at : option string }.
End LoginTicketsModel.

Module JoinLinksModel.
Record t := mk {
  id : string; tenant_id : string; token_hash : string; role : string;
  email_constraint : option string; expires_at : string; max_uses : Z; used_count : Z;
  created_by_user_id : option string; revoked_at : option string; created_at : string }.
End JoinLinksModel.

Module EventTicketsModel.
Record t := mk {
  id : string; tenant_id : string; ticket_hash : string; created_at : string;
  expires_at : string; used_at : option string }.
End EventTicketsModel.

Module AccountsDb.
Record t := mk {
  tenants : list TenantsModel.t; users : list UsersModel.t; identities : list IdentitiesModel.t;
  tokens : list TokensModel.t; login_tickets : list LoginTicketsModel.t;
  join_links : list JoinLinksModel.t; event_tickets : list EventTicketsModel.t;
  audit_events : list AuditEventsModel.t }.
End AccountsDb.
Module Acc := AccountsDb.

(** What an operation draws: [Uuid::new_v4], [TenantId::new] and the texts of
    [created_at_now] and the instants of [OffsetDateTime::now_utc], each in the order of
    its calls. *)
Record Draws := mkDraws {
  uuids : nat -> string; tenant_ids : nat -> TenantId; clock : nat -> string; now_utc : nat -> Z }.

(** ** Roles *)

Module UserRole.
Inductive t := TenantAdmin | Operator | Viewer.

Definition as_str (r : t) : string :=
  match r with TenantAdmin => "tenant_admin" | Operator => "operator" | Viewer => "viewer" end.

Definition parse (value : string) : result RepositoryError t :=
  if beq value "tenant_admin"%string then Ok TenantAdmin
  else if beq value "operator"%string then Ok Operator
  else if beq value "viewer"%string then Ok Viewer
  else Err (InvalidPersistedUserRole value).

Definition rank (r : t) : Z := match r with Viewer => 0 | Operator => 1 | TenantAdmin => 2 end.

Definition allows (r required : t) : bool := rank required <=? rank r.
End UserRole.

#[export] Instance UserRole_eq_dec : EqDecision UserRole.t.
Proof. solve_decision. Defined.

(** ** Records *)

Module User.
Record t := mk {
  id : string; tenant_id : TenantId; email : string; display_name : string; role : UserRole.t;
  created_at : string }.
End User.

Module UserIdentity.
Record t := mk {
  id : string; tenant_id : TenantId; user_id : string; provider : string; subject : string;
  created_at : string }.
End UserIdentity.

Module ExternalIdentityProfile.
Record t := mk { provider : string; subject : string; email : string; display_name : string }.
End ExternalIdentityProfile.

(** The SHA-256 digest of the [sha2] crate, as 32 bytes. *)
Class Sha256 := { sha256 : string -> string }.

Definition hex_byte (c : ascii) : string :=
  let n := Z.of_nat (nat_of_ascii c) in
  let digit d := if d <? 10 then Ascii.ascii_of_nat (Z.to_nat (48 + d))
                 else Ascii.ascii_of_nat (Z.to_nat (87 + d)) in
  String (digit (n / 16)) (String (digit (n mod 16)) EmptyString).

Fixpoint hex_bytes (s : string) : string :=
  match s with
  | EmptyString => EmptyString
  | String c s => (hex_byte c ++ hex_bytes s)%string
  end.

(** [hash_token]: the digest in lower-case hexadecimal. *)
Definition hash_token `{Sha256} (token : string) : string := hex_bytes (sha256 token).

(** [uuid.simple()]: the UUID's text without its hyphens. *)
Definition simple (uuid : string) : string := remove_chars (Ascii.eqb "-"%char) uuid.

(** [generate_secret] with the two UUIDs it draws. *)
Definition generate_secret (prefix uuid1 uuid2 : string) : string :=
  (prefix ++ simple uuid1 ++ "_" ++ simple uuid2)%string.

Section Accounts.
Context `{Store} `{UuidText} `{AuditJson}.

Definition acct (A : Type) : Type := tx Acc.t RepositoryError A.

(** ** Audit events *)

Definition known_user (s : Acc.t) (user_id : string) : bool :=
  is_some (select_one (fun u => beq (UsersModel.id u) user_id) (Acc.users s)).
Definition known_tenant (s : Acc.t) (tenant_id : string) : bool :=
  is_some (select_one (fun r => beq (TenantsModel.id r) tenant_id) (Acc.tenants s)).

(** A reference that may be null. *)
Definition null_or (p : string -> bool) (o : option string) : bool :=
  match o with Some v => p v | None => true end.

(** [insert_audit_event_tx]; the references of the row must exist. *)
Definition insert_account_event (event : AuditEventsModel.t) : acct unit := fun s =>
  if known_tenant s (AuditEventsModel.tenant_id event)
     && null_or (known_user s) (AuditEventsModel.user_id event)
  then match try_insert (fun r => beq (AuditEventsModel.id r) (AuditEventsModel.id event)) event
               (Acc.audit_events s) with
       | None => (s, Err Database)
       | Some rows => (s <| Acc.audit_events := rows |>, Ok tt)
       end
  else (s, Err Database).

(** ** Tenants ([tenants.rs]) *)

Definition tenant_from_model (m : TenantsModel.t) : result RepositoryError Tenant.t :=
  id <-? db_err (TenantId_parse (TenantsModel.id m)) ;;
  db_err (Tenant.from_parts id (TenantsModel.slug m) (TenantsModel.display_name m)
            (TenantsModel.created_at m)).

Definition insert_tenant (tenant : Tenant.t) : acct unit := fun s =>
  let id := TenantId_to_string (Tenant.id tenant) in
  if existsb (fun r => beq (TenantsModel.id r) id) (Acc.tenants s) then (s, Err Database)
  else match try_insert (fun r => beq (TenantsModel.slug r) (Tenant.slug tenant))
               (TenantsModel.mk id (Tenant.slug tenant) (Tenant.display_name tenant)
                  (Tenant.created_at tenant)) (Acc.tenants s) with
       | None => (s, Err DuplicateTenantSlug)
       | Some rows => (s <| Acc.tenants := rows |>, Ok tt)
       end.

Definition create_tenant (d : Draws) (slug display_name : string) : acct Tenant.t :=
  tenant <~ tlift (db_err (Tenant.new (tenant_ids d 0) (clock d 0) slug display_name)) ;;
  insert_tenant tenant ~;;
  tret tenant.

Definition tenant_row (tenant_id : TenantId) (r : TenantsModel.t) : bool :=
  beq (TenantsModel.id r) (TenantId_to_string tenant_id).

Definition get_tenant (tenant_id : TenantId) : acct (option Tenant.t) :=
  tread (fun s => traverse_opt tenant_from_model (select_one (tenant_row tenant_id) (Acc.tenants s))).

Definition update_display_name (tenant_id : TenantId) (display_name : string)
  : acct (Tenant.t * string) := fun s =>
  match select_one (tenant_row tenant_id) (Acc.tenants s) with
  | None => (s, Err MissingTenant)
  | Some model =>
      let renamed := model <| TenantsModel.display_name := display_name |> in
      let '(rows, affected) := update_many (fun r => beq (TenantsModel.id r) (TenantsModel.id model))
          (fun r => r <| TenantsModel.display_name := display_name |>) (Acc.tenants s) in
      let s := s <| Acc.tenants := rows |> in
      if affected =? 0 then (s, Err Database)
      else match tenant_from_model renamed with
           | Ok tenant => (s, Ok (tenant, TenantsModel.display_name model))
           | Err e => (s, Err e)
           end
  end.

(** [ORDER BY created_at ASC, id ASC]. *)
Definition by_creation {R} (created id : R -> string) (a b : R) : Prop :=
  (negb (text_le (created b) (created a)))
  || (text_le (created a) (created b) && text_le (id a) (id b)).

#[export] Instance by_creation_dec {R} (created id : R -> string) : RelDecision (by_creation created id).
Proof. intros a b. unfold by_creation. apply _. Defined.

Definition list_tenants : acct (list Tenant.t) :=
  tread (fun s => collect tenant_from_model
    (merge_sort (by_creation TenantsModel.created_at TenantsModel.id) (Acc.tenants s))).

Definition count_tenants : acct Z := tread (fun s => Ok (Z.of_nat (length (Acc.tenants s)))).

(** [load_tenant] of the onboarding. *)
Definition load_tenant (tenant_id : TenantId) : acct Tenant.t :=
  tenant <~ get_tenant tenant_id ;;
  tlift (ok_or tenant MissingTenant).

(** ** Users ([auth.rs], [auth/users.rs]) *)

Definition user_from_model (m : UsersModel.t) : result RepositoryError User.t :=
  tenant_id <-? db_err (TenantId_parse (UsersModel.tenant_id m)) ;;
  role <-? UserRole.parse (UsersModel.role m) ;;
  Ok (User.mk (UsersModel.id m) tenant_id (UsersModel.email m) (UsersModel.display_name m) role
        (UsersModel.created_at m)).

Definition user_model (user : User.t) : UsersModel.t :=
  UsersModel.mk (User.id user) (TenantId_to_string (User.tenant_id user)) (User.email user)
    (User.display_name user) (UserRole.as_str (User.role user)) (User.created_at user).

Definition insert_user (user : User.t) : acct unit := fun s =>
  let row := user_model user in
  if existsb (fun r => beq (UsersModel.id r) (UsersModel.id row)) (Acc.users s) then (s, Err Database)
  else match try_insert (fun r => beq (UsersModel.tenant_id r) (UsersModel.tenant_id row)
                                  && beq (UsersModel.email r) (UsersModel.email row))
               row (Acc.users s) with
       | None => (s, Err DuplicateUserEmail)
       | Some rows =>
           if known_tenant s (UsersModel.tenant_id row) then (s <| Acc.users := rows |>, Ok tt)
           else (s, Err MissingTenant)
       end.

Definition create_user (d : Draws) (tenant_id : TenantId) (email display_name : string)
    (role : UserRole.t) : acct User.t :=
  let user := User.mk (uuids d 0) tenant_id email display_name role (clock d 0) in
  insert_user user ~;;
  tret user.

(** [find_by_id(user_id).filter(tenant_id)]. *)
Definition user_row (tenant_id : TenantId) (user_id : string) (r : UsersModel.t) : bool :=
  beq (UsersModel.id r) user_id && beq (UsersModel.tenant_id r) (TenantId_to_string tenant_id).

Definition user_exists (tenant_id : TenantId) (user_id : string) : acct bool :=
  tread (fun s => Ok (is_some (select_one (user_row tenant_id user_id) (Acc.users s)))).

Definition ensure_user_exists (tenant_id : TenantId) (user_id : string) : acct unit :=
  present <~ user_exists tenant_id user_id ;;
  if present : bool then tret tt else tfail MissingUser.

Definition select_user (tenant_id : TenantId) (user_id : string) : acct User.t :=
  user <~ tread (fun s => traverse_opt user_from_model
                            (select_one (user_row tenant_id user_id) (Acc.users s))) ;;
  tlift (ok_or user MissingUser).

Definition list_users_for_tenant (tenant_id : TenantId) : acct (list User.t) :=
  tread (fun s => collect user_from_model
    (merge_sort (by_creation UsersModel.created_at UsersModel.id)
       (select (fun r => beq (UsersModel.tenant_id r) (TenantId_to_string tenant_id)) (Acc.users s)))).

Definition with_role (role : UserRole.t) (r : UsersModel.t) : UsersModel.t :=
  r <| UsersModel.role := UserRole.as_str role |>.

Definition update_user_role (tenant_id : TenantId) (user_id : string) (role : UserRole.t)
  : acct User.t := fun s =>
  match select_one (user_row tenant_id user_id) (Acc.users s) with
  | None => (s, Err MissingUser)
  | Some user =>
      let '(rows, affected) := update_many (fun r => beq (UsersModel.id r) (UsersModel.id user))
                                 (with_role role) (Acc.users s) in
      let s := s <| Acc.users := rows |> in
      if affected =? 0 then (s, Err Database) else (s, user_from_model (with_role role user))
  end.

(** What [ON DELETE CASCADE] and [ON DELETE SET NULL] do for the users of [p]. *)
Definition forget (gone : string -> bool) (o : option string) : option string :=
  match o with Some v => if gone v then None else o | None => None end.

Definition delete_users (p : UsersModel.t -> bool) (s : Acc.t) : Acc.t :=
  let gone id := existsb (fun r => p r && beq (UsersModel.id r) id) (Acc.users s) in
  let owner tenant id := existsb (fun r => p r && beq (UsersModel.tenant_id r) tenant
                                           && beq (UsersModel.id r) id) (Acc.users s) in
  Acc.mk (Acc.tenants s) (fst (delete_many p (Acc.users s)))
    (fst (delete_many (fun i => owner (IdentitiesModel.tenant_id i) (IdentitiesModel.user_id i))
            (Acc.identities s)))
    (map (fun r => r <| TokensModel.created_by_user_id := forget gone (TokensModel.created_by_user_id r) |>)
       (Acc.tokens s))
    (map (fun r => r <| LoginTicketsModel.user_id := forget gone (LoginTicketsModel.user_id r) |>)
       (Acc.login_tickets s))
    (map (fun r => r <| JoinLinksModel.created_by_user_id := forget gone (JoinLinksModel.created_by_user_id r) |>)
       (Acc.join_links s))
    (Acc.event_tickets s)
    (map (fun r => r <| AuditEventsModel.user_id := forget gone (AuditEventsModel.user_id r) |>)
       (Acc.audit_events s)).

Definition delete_user (tenant_id : TenantId) (user_id : string) : acct unit := fun s =>
  (delete_users (user_row tenant_id user_id) s, Ok tt).

(** ** Provisioning ([auth/users/provisioning.rs]) *)

Definition tenant_admin_row (tenant_id : TenantId) (r : UsersModel.t) : bool :=
  beq (UsersModel.tenant_id r) (TenantId_to_string tenant_id)
  && beq (UsersModel.role r) (UserRole.as_str UserRole.TenantAdmin).

Definition ensure_other_admin_remains (tenant_id : TenantId) : acct unit :=
  admins <~ tread (fun s => Ok (select (tenant_admin_row tenant_id) (Acc.users s))) ;;
  if (length admins <=? 1)%nat then tfail LastTenantAdmin else tret tt.

Definition user_role_metadata (user : User.t) (previous_role : UserRole.t) : json :=
  Object [("new_role"%string, Str (UserRole.as_str (User.role user)));
          ("previous_role"%string, Str (UserRole.as_str previous_role))].

Definition update_user_role_with_audit (d : Draws) (tenant_id : TenantId) (user_id : string)
    (role : UserRole.t) (actor : AuditActor.t) : acct User.t :=
  transaction (
    locked <~ select_user tenant_id user_id ;;
    let previous_role := User.role locked in
    (if beq previous_role UserRole.TenantAdmin && negb (beq role UserRole.TenantAdmin)
     then ensure_other_admin_remains tenant_id else tret tt) ~;;
    user <~ update_user_role tenant_id user_id role ;;
    insert_account_event
      (record_audit_event (uuids d 0) (clock d 0) (User.tenant_id user) actor "user.role_update"
         "user" (Some (User.id user)) (user_role_metadata user previous_role)) ~;;
    tret user).

Definition user_remove_metadata (user : User.t) : json :=
  Object [("email"%string, Str (User.email user));
          ("role"%string, Str (UserRole.as_str (User.role user)))].

Definition remove_user_with_audit (d : Draws) (tenant_id : TenantId) (user_id : string)
    (actor : AuditActor.t) : acct User.t :=
  transaction (
    user <~ select_user tenant_id user_id ;;
    (if beq (User.role user) UserRole.TenantAdmin
     then ensure_other_admin_remains tenant_id else tret tt) ~;;
    delete_user tenant_id user_id ~;;
    insert_account_event
      (record_audit_event (uuids d 0) (clock d 0) (User.tenant_id user) actor "user.remove"
         "user" (Some (User.id user)) (user_remove_metadata user)) ~;;
    tret user).

(** ** External identities ([auth/identities.rs]) *)

Definition user_identity_from_model (m : IdentitiesModel.t) : result RepositoryError UserIdentity.t :=
  tenant_id <-? db_err (TenantId_parse (IdentitiesModel.tenant_id m)) ;;
  Ok (UserIdentity.mk (IdentitiesModel.id m) tenant_id (IdentitiesModel.user_id m)
        (IdentitiesModel.provider m) (IdentitiesModel.subject m) (IdentitiesModel.created_at m)).

Definition identity_model (i : UserIdentity.t) : IdentitiesModel.t :=
  IdentitiesModel.mk (UserIdentity.id i) (TenantId_to_string (UserIdentity.tenant_id i))
    (UserIdentity.user_id i) (UserIdentity.provider i) (UserIdentity.subject i)
    (UserIdentity.created_at i).

(** The identity of an external account in a tenant. *)
Definition external_row (tenant_id provider subject : string) (r : IdentitiesModel.t) : bool :=
  beq (IdentitiesModel.tenant_id r) tenant_id && beq (IdentitiesModel.provider r) provider
  && beq (IdentitiesModel.subject r) subject.

Definition user_provider_row (row r : IdentitiesModel.t) : bool :=
  beq (IdentitiesModel.tenant_id r) (IdentitiesModel.tenant_id row)
  && beq (IdentitiesModel.user_id r) (IdentitiesModel.user_id row)
  && beq (IdentitiesModel.provider r) (IdentitiesModel.provider row).

Definition insert_identity (identity : UserIdentity.t) : acct unit :=
  ensure_user_exists (UserIdentity.tenant_id identity) (UserIdentity.user_id identity) ~;;
  fun s =>
    let row := identity_model identity in
    let external := external_row (IdentitiesModel.tenant_id row) (IdentitiesModel.provider row)
                      (IdentitiesModel.subject row) in
    if existsb (fun r => beq (IdentitiesModel.id r) (IdentitiesModel.id row)) (Acc.identities s)
    then (s, Err Database)
    else match try_insert (fun r => external r || user_provider_row row r) row (Acc.identities s) with
         | Some rows => (s <| Acc.identities := rows |>, Ok tt)
         | None => (s, Err (if is_some (select_one external (Acc.identities s))
                            then DuplicateExternalIdentity else DuplicateUserExternalIdentity))
         end.

Definition link_external_identity (d : Draws) (tenant_id : TenantId) (user_id provider subject : string)
  : acct UserIdentity.t :=
  let identity := UserIdentity.mk (uuids d 0) tenant_id user_id provider subject (clock d 0) in
  insert_identity identity ~;;
  tret identity.

Definition authenticate_external_identity (tenant_id : TenantId) (provider subject : string)
  : acct (option User.t) :=
  tread (fun s =>
    match select_one (external_row (TenantId_to_string tenant_id) provider subject) (Acc.identities s) with
    | None => Ok None
    | Some identity =>
        traverse_opt user_from_model
          (select_one (fun r => beq (UsersModel.id r) (IdentitiesModel.user_id identity)
                                && beq (UsersModel.tenant_id r) (IdentitiesModel.tenant_id identity))
             (Acc.users s))
    end).

Definition list_external_identities_for_tenant (tenant_id : TenantId) : acct (list UserIdentity.t) :=
  tread (fun s => collect user_identity_from_model
    (merge_sort (by_creation IdentitiesModel.created_at IdentitiesModel.id)
       (select (fun r => beq (IdentitiesModel.tenant_id r) (TenantId_to_string tenant_id))
          (Acc.identities s)))).

Definition list_external_identities_for_user (tenant_id : TenantId) (user_id : string)
  : acct (list UserIdentity.t) :=
  ensure_user_exists tenant_id user_id ~;;
  tread (fun s => collect user_identity_from_model
    (merge_sort (by_creation IdentitiesModel.created_at IdentitiesModel.id)
       (select (fun r => beq (IdentitiesModel.tenant_id r) (TenantId_to_string tenant_id)
                         && beq (IdentitiesModel.user_id r) user_id)
          (Acc.identities s)))).
End Accounts.
