(* ===== verification/Onboarding.v ===== *)
(** * Onboarding: self-created tenants and join links

    [repositories/auth/onboarding.rs] with [onboarding/support.rs]: a tenant
    created with its first admin, and links that admit a bounded number of
    external users to a tenant. *)

From stdpp Require Import sorting.
From S2P Require Import Prelude RustStr CoreTypes CoreRecords Json Store Tx JobRows JobTables Accounts.

#[local] Open Scope Z_scope.
#[local] Open Scope rust_scope.
#[local] Open Scope tx_scope.

Module ExternalMembership.
Record t := mk { tenant : Tenant.t; user : User.t }.
End ExternalMembership.

Module JoinLink.
Record t := mk {
  id : string; tenant_id : string; role : UserRole.t; email_constraint : option string;
  expires_at : string; max_uses : Z; used_count : Z; created_by_user_id : option string;
  revoked_at : option string; created_at : string }.
End JoinLink.

Module AcceptedJoinLink.
Record t := mk { tenant : Tenant.t; user : User.t; created : bool }.
End AcceptedJoinLink.

(** [str::eq_ignore_ascii_case]. *)
Definition eq_ignore_ascii_case (a b : string) : bool :=
  beq (to_ascii_lowercase a) (to_ascii_lowercase b).

(** [OffsetDateTime + Duration::seconds]: [None] is its panic, beyond the years the
    [time] crate represents. *)
Class TimeRange := { in_range : Z -> bool }.
Definition add_seconds `{TimeRange} (now seconds : Z) : option Z :=
  let t := now + seconds * 1000000000 in
  if in_range t then Some t else None.

Section Onboarding.
Context `{Store} `{UuidText} `{AuditJson} `{Rfc3339} `{Sha256}.

Definition format_timestamp (value : Z) : result RepositoryError string :=
  ok_or (rfc_format value) Database.

(** ** Memberships *)

(** The user and the tenant an identity leads to, when both exist. *)
Definition membership_of (s : Acc.t) (identity : IdentitiesModel.t)
  : result RepositoryError (option ExternalMembership.t) :=
  match select_one (fun r => beq (UsersModel.id r) (IdentitiesModel.user_id identity)
                             && beq (UsersModel.tenant_id r) (IdentitiesModel.tenant_id identity))
          (Acc.users s),
        select_one (fun r => beq (TenantsModel.id r) (IdentitiesModel.tenant_id identity))
          (Acc.tenants s) with
  | Some user, Some tenant =>
      tenant <-? tenant_from_model tenant ;;
      user <-? user_from_model user ;;
      Ok (Some (ExternalMembership.mk tenant user))
  | _, _ => Ok None
  end.

Definition list_external_memberships (provider subject : string) : acct (list ExternalMembership.t) :=
  tread (fun s =>
    memberships <-? collect (membership_of s)
      (merge_sort (by_creation IdentitiesModel.created_at IdentitiesModel.id)
         (select (fun r => beq (IdentitiesModel.provider r) provider
                           && beq (IdentitiesModel.subject r) subject) (Acc.identities s))) ;;
    Ok (omap id memberships)).

(** ** Audit events *)

Definition user_external_projection_audit_event (id now : string) (user : User.t)
    (identity : UserIdentity.t) (actor : AuditActor.t) : AuditEventsModel.t :=
  record_audit_event id now (User.tenant_id user) actor "user.external_projection_create" "user"
    (Some (User.id user))
    (Object [("email"%string, Str (User.email user));
             ("provider"%string, Str (UserIdentity.provider identity));
             ("role"%string, Str (UserRole.as_str (User.role user)))]).

Definition tenant_self_create_audit_event (id now : string) (tenant : Tenant.t) (actor : AuditActor.t)
  : AuditEventsModel.t :=
  record_audit_event id now (Tenant.id tenant) actor "tenant.self_create" "tenant"
    (Some (TenantId_to_string (Tenant.id tenant)))
    (Object [("tenant_slug"%string, Str (Tenant.slug tenant))]).

Definition optional_text (o : option string) : json :=
  match o with Some s => Str s | None => Null end.

(** serde_json's number for an [i32]. *)
Definition json_i32 (n : Z) : json := Num (if 0 <=? n then PosInt n else NegInt n).

Definition join_link_audit_event (id now : string) (tenant_id : TenantId) (link : JoinLink.t)
    (action : string) (actor : AuditActor.t) : AuditEventsModel.t :=
  record_audit_event id now tenant_id actor action "join_link" (Some (JoinLink.id link))
    (Object [("email_constraint"%string, optional_text (JoinLink.email_constraint link));
             ("max_uses"%string, json_i32 (JoinLink.max_uses link));
             ("role"%string, Str (UserRole.as_str (JoinLink.role link)))]).

(** ** A tenant of one's own *)

Definition self_create_tenant_for_external_identity (d : Draws) (slug display_name : string)
    (profile : ExternalIdentityProfile.t) : acct ExternalMembership.t :=
  tenant <~ tlift (db_err (Tenant.new (tenant_ids d 0) (clock d 0) slug display_name)) ;;
  let user := User.mk (uuids d 0) (Tenant.id tenant) (ExternalIdentityProfile.email profile)
                (ExternalIdentityProfile.display_name profile) UserRole.TenantAdmin (clock d 1) in
  let identity := UserIdentity.mk (uuids d 1) (Tenant.id tenant) (User.id user)
                    (ExternalIdentityProfile.provider profile) (ExternalIdentityProfile.subject profile)
                    (clock d 2) in
  let actor := AuditActor.user (User.id user) in
  transaction (
    insert_tenant tenant ~;;
    insert_user user ~;;
    insert_identity identity ~;;
    insert_account_event
      (user_external_projection_audit_event (uuids d 2) (clock d 3) user identity actor) ~;;
    insert_account_event (tenant_self_create_audit_event (uuids d 3) (clock d 4) tenant actor) ~;;
    tret (ExternalMembership.mk tenant user)).

(** ** Join links *)

Definition JOIN_LINK_PREFIX : string := "pandar_join".

Definition join_link_from_model (m : JoinLinksModel.t) : result RepositoryError JoinLink.t :=
  role <-? UserRole.parse (JoinLinksModel.role m) ;;
  Ok (JoinLink.mk (JoinLinksModel.id m) (JoinLinksModel.tenant_id m) role
        (JoinLinksModel.email_constraint m) (JoinLinksModel.expires_at m) (JoinLinksModel.max_uses m)
        (JoinLinksModel.used_count m) (JoinLinksModel.created_by_user_id m)
        (JoinLinksModel.revoked_at m) (JoinLinksModel.created_at m)).

Definition join_link_model (link : JoinLink.t) (token_hash : string) : JoinLinksModel.t :=
  JoinLinksModel.mk (JoinLink.id link) (JoinLink.tenant_id link) token_hash
    (UserRole.as_str (JoinLink.role link)) (JoinLink.email_constraint link) (JoinLink.expires_at link)
    (JoinLink.max_uses link) (JoinLink.used_count link) (JoinLink.created_by_user_id link)
    (JoinLink.revoked_at link) (JoinLink.created_at link).

Definition insert_join_link (link : JoinLink.t) (token_hash : string) : acct unit := fun s =>
  if existsb (fun r => beq (JoinLinksModel.id r) (JoinLink.id link)) (Acc.join_links s)
  then (s, Err Database)
  else match try_insert (fun r => beq (JoinLinksModel.token_hash r) token_hash)
               (join_link_model link token_hash) (Acc.join_links s) with
       | None => (s, Err DuplicateJoinLinkHash)
       | Some rows =>
           if known_tenant s (JoinLink.tenant_id link)
              && null_or (known_user s) (JoinLink.created_by_user_id link)
           then (s <| Acc.join_links := rows |>, Ok tt) else (s, Err MissingTenant)
       end.

Definition token_text (prefix : string) (d : Draws) : string :=
  generate_secret prefix (uuids d 0) (uuids d 1).

(** The outer [None] is the panic of an expiry out of range. *)
Definition create_join_link_with_audit `{TimeRange} (d : Draws) (tenant_id : TenantId)
    (role : UserRole.t) (email_constraint : option string) (expires_in_seconds max_uses : Z)
    (actor : AuditActor.t) : option (acct (JoinLink.t * string)) :=
  let plaintext_token := token_text JOIN_LINK_PREFIX d in
  option_map (fun expiry =>
      expires_at <~ tlift (format_timestamp expiry) ;;
      created_at <~ tlift (format_timestamp (now_utc d 0)) ;;
      let link := JoinLink.mk (uuids d 2) (TenantId_to_string tenant_id) role email_constraint
                    expires_at max_uses 0 (AuditActor.user_id actor) None created_at in
      transaction (
        insert_join_link link (hash_token plaintext_token) ~;;
        insert_account_event
          (join_link_audit_event (uuids d 3) (clock d 0) tenant_id link "join_link.create" actor) ~;;
        tret (link, plaintext_token)))
    (add_seconds (now_utc d 0) expires_in_seconds).

Definition list_join_links_for_tenant (tenant_id : TenantId) : acct (list JoinLink.t) :=
  tread (fun s => collect join_link_from_model
    (merge_sort (by_creation JoinLinksModel.created_at JoinLinksModel.id)
       (select (fun r => beq (JoinLinksModel.tenant_id r) (TenantId_to_string tenant_id))
          (Acc.join_links s)))).

Definition link_row (tenant_id : TenantId) (id : string) (r : JoinLinksModel.t) : bool :=
  beq (JoinLinksModel.id r) id && beq (JoinLinksModel.tenant_id r) (TenantId_to_string tenant_id).

Definition revoke_join_link (now : string) (tenant_id : TenantId) (join_link_id : string)
  : acct JoinLink.t := fun s =>
  match select_one (link_row tenant_id join_link_id) (Acc.join_links s) with
  | None => (s, Err InvalidJoinLink)
  | Some link =>
      if is_some (JoinLinksModel.revoked_at link) then (s, join_link_from_model link)
      else
        let revoked r := r <| JoinLinksModel.revoked_at := Some now |> in
        let '(rows, affected) := update_many (fun r => beq (JoinLinksModel.id r) (JoinLinksModel.id link))
                                   revoked (Acc.join_links s) in
        let s := s <| Acc.join_links := rows |> in
        if affected =? 0 then (s, Err Database) else (s, join_link_from_model (revoked link))
  end.

(** The tenant of the audit event is the link's, which is the one looked up. *)
Definition revoke_join_link_with_audit (d : Draws) (tenant_id : TenantId) (join_link_id : string)
    (actor : AuditActor.t) : acct JoinLink.t :=
  transaction (
    link <~ revoke_join_link (clock d 0) tenant_id join_link_id ;;
    insert_account_event
      (join_link_audit_event (uuids d 0) (clock d 1) tenant_id link "join_link.revoke" actor) ~;;
    tret link).

Definition link_exhausted (now : string) (r : JoinLinksModel.t) : bool :=
  is_some (JoinLinksModel.revoked_at r)
  || (JoinLinksModel.max_uses r <=? JoinLinksModel.used_count r)
  || String.leb (JoinLinksModel.expires_at r) now.

Definition load_valid_join_link_by_hash (token_hash now : string) : acct JoinLinksModel.t :=
  tread (fun s =>
    match select_one (fun r => beq (JoinLinksModel.token_hash r) token_hash) (Acc.join_links s) with
    | None => Err InvalidJoinLink
    | Some link => if link_exhausted now link then Err InvalidJoinLink else Ok link
    end).

(** The rows [consume_join_link_use_tx] updates; the expiry is compared by the database. *)
Definition consumable (join_link_id now : string) (r : JoinLinksModel.t) : bool :=
  beq (JoinLinksModel.id r) join_link_id
  && (JoinLinksModel.used_count r <? JoinLinksModel.max_uses r)
  && is_none (JoinLinksModel.revoked_at r)
  && negb (text_le (JoinLinksModel.expires_at r) now).

Definition use_link (r : JoinLinksModel.t) : JoinLinksModel.t :=
  r <| JoinLinksModel.used_count := JoinLinksModel.used_count r + 1 |>.

Definition consume_join_link_use_tx (join_link_id now : string) : acct bool := fun s =>
  let '(rows, affected) := update_many (consumable join_link_id now) use_link (Acc.join_links s) in
  (s <| Acc.join_links := rows |>, Ok (affected =? 1)).

Definition find_external_user_tx (tenant_id : TenantId) (provider subject : string)
  : acct (option User.t) :=
  tread (fun s =>
    match select_one (external_row (TenantId_to_string tenant_id) provider subject) (Acc.identities s) with
    | None => Ok None
    | Some identity =>
        traverse_opt user_from_model
          (select_one (user_row tenant_id (IdentitiesModel.user_id identity)) (Acc.users s))
    end).

Definition email_allowed (link : JoinLink.t) (email : string) : bool :=
  match JoinLink.email_constraint link with
  | Some required => eq_ignore_ascii_case required email
  | None => true
  end.

(** The new member and its identity. *)
Definition join_user (d : Draws) (tenant_id : TenantId) (link : JoinLink.t)
    (profile : ExternalIdentityProfile.t) : User.t :=
  User.mk (uuids d 0) tenant_id (ExternalIdentityProfile.email profile)
    (ExternalIdentityProfile.display_name profile) (JoinLink.role link) (clock d 0).

Definition join_identity (d : Draws) (tenant_id : TenantId) (profile : ExternalIdentityProfile.t)
  : UserIdentity.t :=
  UserIdentity.mk (uuids d 1) tenant_id (uuids d 0) (ExternalIdentityProfile.provider profile)
    (ExternalIdentityProfile.subject profile) (clock d 1).

Definition join_accept_audit_event (id now : string) (tenant_id : TenantId) (link : JoinLink.t)
    (user : User.t) : AuditEventsModel.t :=
  record_audit_event id now tenant_id (AuditActor.user (User.id user)) "join_link.accept" "join_link"
    (Some (JoinLink.id link))
    (Object [("email"%string, Str (User.email user));
             ("role"%string, Str (UserRole.as_str (User.role user)))]).

(** The member joins: the part after the link's use is taken. *)
Definition join_tenant (d : Draws) (tenant_id : TenantId) (link : JoinLink.t)
    (profile : ExternalIdentityProfile.t) : acct AcceptedJoinLink.t :=
  let user := join_user d tenant_id link profile in
  let identity := join_identity d tenant_id profile in
  insert_user user ~;;
  insert_identity identity ~;;
  insert_account_event (user_external_projection_audit_event (uuids d 2) (clock d 2) user identity
                          (AuditActor.user (User.id user))) ~;;
  insert_account_event (join_accept_audit_event (uuids d 3) (clock d 3) tenant_id link user) ~;;
  tenant <~ load_tenant tenant_id ;;
  tret (AcceptedJoinLink.mk tenant user true).

Definition accept_join_link (d : Draws) (plaintext_token : string)
    (profile : ExternalIdentityProfile.t) : acct AcceptedJoinLink.t :=
  now <~ tlift (format_timestamp (now_utc d 0)) ;;
  transaction (
    link_model <~ load_valid_join_link_by_hash (hash_token plaintext_token) now ;;
    link <~ tlift (join_link_from_model link_model) ;;
    tenant_id <~ tlift (db_err (TenantId_parse (JoinLink.tenant_id link))) ;;
    if negb (email_allowed link (ExternalIdentityProfile.email profile)) then tfail JoinLinkEmailMismatch
    else
      existing <~ find_external_user_tx tenant_id (ExternalIdentityProfile.provider profile)
                    (ExternalIdentityProfile.subject profile) ;;
      match existing with
      | Some user =>
          tenant <~ load_tenant tenant_id ;;
          tret (AcceptedJoinLink.mk tenant user false)
      | None =>
          consumed <~ consume_join_link_use_tx (JoinLink.id link) now ;;
          if negb consumed then tfail InvalidJoinLink
          else join_tenant d tenant_id link profile
      end).
End Onboarding.
