(* ===== verification/Credentials.v ===== *)
(** * Tenant tokens, login tickets and printer event tickets

    [repositories/auth/tenant_tokens.rs] with [tenant_tokens/*.rs],
    [auth/plugin_tickets.rs] with [plugin_tickets/*.rs], [auth/bootstrap.rs], and
    [repositories/printer_event_tickets.rs].  Only the hash of a secret is
    stored. *)

From stdpp Require Import sorting.
From S2P Require Import Prelude RustStr CoreTypes CoreRecords Json Store Tx JobRows JobTables Accounts Onboarding.

#[local] Open Scope Z_scope.
#[local] Open Scope rust_scope.
#[local] Open Scope tx_scope.

(** ** Scopes and tokens ([tenant_tokens/types.rs]) *)

Module TenantTokenScope.
Inductive t := All | AgentRegister | PluginStudio | MobileSession.

Definition as_str (s : t) : string :=
  match s with
  | All => "*" | AgentRegister => "agent:register" | PluginStudio => "plugin:studio"
  | MobileSession => "mobile:session"
  end.

Definition parse (value : string) : result RepositoryError t :=
  if beq value "*"%string then Ok All
  else if beq value "agent:register"%string then Ok AgentRegister
  else if beq value "plugin:studio"%string then Ok PluginStudio
  else if beq value "mobile:session"%string then Ok MobileSession
  else Err (InvalidTokenScope value).
End TenantTokenScope.

#[export] Instance scope_eq_dec : EqDecision TenantTokenScope.t.
Proof. solve_decision. Defined.

Module TenantToken.
Record t := mk {
  id : string; tenant_id : TenantId; name : string; scopes : list TenantTokenScope.t;
  created_by_user_id : option string; created_at : string; last_used_at : option string;
  expires_at : option string; revoked_at : option string }.

Definition has_scope (token : t) (scope : TenantTokenScope.t) : bool :=
  bool_decide (TenantTokenScope.All ∈ scopes token) || bool_decide (scope ∈ scopes token).
End TenantToken.

Module TenantTokenWithPlaintext.
Record t := mk { token : TenantToken.t; plaintext_token : string }.
End TenantTokenWithPlaintext.

Module AuthenticatedTenantToken.
Record t := mk { token : TenantToken.t; session_user : option User.t }.
End AuthenticatedTenantToken.

Inductive NoAuthPluginSessionOutcome :=
| Created (tenant : Tenant.t) (token : TenantTokenWithPlaintext.t)
| NoTenant
| AmbiguousTenant.

(** [serde_json] on a list of scope texts. *)
Class ScopesJson := {
  scopes_print : list string -> string;
  scopes_parse : string -> option (list string);
  scopes_parse_print : forall l, scopes_parse (scopes_print l) = Some l }.

(** ** Login tickets ([plugin_tickets/types.rs]) *)

Module LoginTicketKind.
Inductive t := Plugin | Mobile.

Definition as_str (k : t) : string := match k with Plugin => "plugin" | Mobile => "mobile" end.

Definition parse (value : string) : result RepositoryError t :=
  if beq value "plugin"%string then Ok Plugin
  else if beq value "mobile"%string then Ok Mobile
  else Err Database.
End LoginTicketKind.

#[export] Instance ticket_kind_eq_dec : EqDecision LoginTicketKind.t.
Proof. solve_decision. Defined.

Module PluginLoginTicket.
Record t := mk {
  id : string; tenant_id : TenantId; user_id : option string; redirect_url : string;
  kind : LoginTicketKind.t; code_challenge : option string; created_at : string;
  expires_at : string; used_at : option string; revoked_at : option string }.
End PluginLoginTicket.
Module Ticket := PluginLoginTicket.

Module PluginLoginTicketExchange.
Record t := mk { ticket : Ticket.t; redirect_url : string; tenant_token : TenantTokenWithPlaintext.t }.
End PluginLoginTicketExchange.

(** The URIs of the [http] crate and the URLs of the [url] crate, as far as the
    redirect checks look at them. *)
Module Authority.
Record t := mk { text : string; host : string; port_u16 : option Z }.
End Authority.
Module Uri.
Record t := mk { scheme_str : option string; authority : option Authority.t; to_string : string }.
End Uri.
Module Url.
Record t := mk { scheme : string; host_str : option string; path : string; query : option string }.
End Url.
Class RedirectUrls := {
  uri_parse : string -> option Uri.t;
  mobile_url_parse : string -> option Url.t }.

(** The unpadded URL-safe alphabet of the [base64] crate. *)
Class Base64 := { url_safe_no_pad : string -> string }.

Definition TENANT_TOKEN_PREFIX : string := "pandar_tenant_".
Definition PLUGIN_TOKEN_PREFIX : string := "pandar_plugin_".
Definition MOBILE_TOKEN_PREFIX : string := "pandar_mobile_".
Definition PLUGIN_LOGIN_TICKET_PREFIX : string := "pandar_plugin_ticket_".
Definition MOBILE_LOGIN_TICKET_PREFIX : string := "pandar_mobile_ticket_".
Definition PLUGIN_TOKEN_TTL_DAYS : Z := 30.

Definition days (n : Z) : Z := n * 24 * 3600 * 1000000000.

Section Credentials.
Context `{Store} `{UuidText} `{AuditJson} `{Rfc3339} `{Sha256} `{ScopesJson}.

(** ** Rows and tokens *)

Definition scopes_json (scopes : list TenantTokenScope.t) : string :=
  scopes_print (map TenantTokenScope.as_str scopes).

Definition tenant_token_model (token : TenantToken.t) (token_hash : string) : TokensModel.t :=
  TokensModel.mk (TenantToken.id token) (TenantId_to_string (TenantToken.tenant_id token))
    (TenantToken.name token) token_hash (scopes_json (TenantToken.scopes token))
    (TenantToken.created_by_user_id token) (TenantToken.created_at token)
    (TenantToken.last_used_at token) (TenantToken.expires_at token) (TenantToken.revoked_at token).

Definition tenant_token_from_model (m : TokensModel.t) : result RepositoryError TenantToken.t :=
  values <-? ok_or (scopes_parse (TokensModel.scopes_json m)) Database ;;
  scopes <-? collect TenantTokenScope.parse values ;;
  tenant_id <-? db_err (TenantId_parse (TokensModel.tenant_id m)) ;;
  Ok (TenantToken.mk (TokensModel.id m) tenant_id (TokensModel.name m) scopes
        (TokensModel.created_by_user_id m) (TokensModel.created_at m) (TokensModel.last_used_at m)
        (TokensModel.expires_at m) (TokensModel.revoked_at m)).

Definition is_expired (now : Z) (token : TenantToken.t) : result RepositoryError bool :=
  match TenantToken.expires_at token with
  | None => Ok false
  | Some text =>
      expires_at <-? ok_or (rfc_parse text) Database ;;
      Ok (expires_at <=? now)
  end.

Definition tenant_token_audit_event (id now : string) (token : TenantToken.t) (action : string)
    (actor : AuditActor.t) : AuditEventsModel.t :=
  record_audit_event id now (TenantToken.tenant_id token) actor action "tenant_token"
    (Some (TenantToken.id token)) (Object [("name"%string, Str (TenantToken.name token))]).

(** The reference to a user of the same tenant, when there is one. *)
Definition check_user (tenant_id : TenantId) (user_id : option string) : acct unit :=
  match user_id with
  | Some user_id => ensure_user_exists tenant_id user_id
  | None => tret tt
  end.

Definition insert_tenant_token (token : TenantToken.t) (token_hash : string) : acct unit :=
  check_user (TenantToken.tenant_id token) (TenantToken.created_by_user_id token) ~;;
  fun s =>
    let row := tenant_token_model token token_hash in
    if existsb (fun r => beq (TokensModel.id r) (TokensModel.id row)) (Acc.tokens s)
    then (s, Err Database)
    else match try_insert (fun r => beq (TokensModel.token_hash r) token_hash) row (Acc.tokens s) with
         | None => (s, Err DuplicateTenantTokenHash)
         | Some rows =>
             if known_tenant s (TokensModel.tenant_id row) then (s <| Acc.tokens := rows |>, Ok tt)
             else (s, Err MissingTenant)
         end.

(** A new token and its secret; the third UUID of the operation is its id. *)
Definition new_token (d : Draws) (prefix : string) (tenant_id : TenantId) (name : string)
    (scopes : list TenantTokenScope.t) (created_by_user_id : option string)
    (expires_at : option string) : TenantTokenWithPlaintext.t :=
  TenantTokenWithPlaintext.mk
    (TenantToken.mk (uuids d 2) tenant_id name scopes created_by_user_id (clock d 0) None expires_at None)
    (token_text prefix d).

Definition insert_new_token (t : TenantTokenWithPlaintext.t) : acct unit :=
  insert_tenant_token (TenantTokenWithPlaintext.token t)
    (hash_token (TenantTokenWithPlaintext.plaintext_token t)).

Definition create_tenant_token_with_audit (d : Draws) (tenant_id : TenantId) (name : string)
    (scopes : list TenantTokenScope.t) (expires_at : option string) (actor : AuditActor.t)
  : acct TenantTokenWithPlaintext.t :=
  let t := new_token d TENANT_TOKEN_PREFIX tenant_id name scopes (AuditActor.user_id actor) expires_at in
  transaction (
    insert_new_token t ~;;
    insert_account_event (tenant_token_audit_event (uuids d 3) (clock d 1)
                            (TenantTokenWithPlaintext.token t) "tenant_token.create" actor) ~;;
    tret t).

Definition list_tenant_tokens (tenant_id : TenantId) : acct (list TenantToken.t) :=
  tread (fun s => collect tenant_token_from_model
    (merge_sort (by_creation TokensModel.created_at TokensModel.id)
       (select (fun r => beq (TokensModel.tenant_id r) (TenantId_to_string tenant_id)) (Acc.tokens s)))).

(** ** Authentication *)

Definition live_token (token_hash : string) (r : TokensModel.t) : bool :=
  beq (TokensModel.token_hash r) token_hash && is_none (TokensModel.revoked_at r).

(** A token that stands for a session of its user. *)
Definition is_session (token : TenantToken.t) : bool :=
  bool_decide (TenantTokenScope.MobileSession ∈ TenantToken.scopes token)
  || (is_some (TenantToken.created_by_user_id token)
      && bool_decide (TenantTokenScope.PluginStudio ∈ TenantToken.scopes token)).

(** The user of a session: [Ok None] where the session has none any more. *)
Definition session_user_of (s : Acc.t) (token : TenantToken.t)
  : result RepositoryError (option (option User.t)) :=
  if negb (is_session token) then Ok (Some None)
  else match TenantToken.created_by_user_id token with
       | None => Ok None
       | Some user_id =>
           user <-? traverse_opt user_from_model
                      (select_one (user_row (TenantToken.tenant_id token) user_id) (Acc.users s)) ;;
           Ok (option_map Some user)
       end.

Definition touch_token (id now : string) (s : Acc.t) : Acc.t * Z :=
  let '(rows, affected) := update_many (fun r => beq (TokensModel.id r) id)
    (fun r => r <| TokensModel.last_used_at := Some now |>) (Acc.tokens s) in
  (s <| Acc.tokens := rows |>, affected).

Definition authenticate_tenant_token (d : Draws) (plaintext_token : string)
  : acct (option AuthenticatedTenantToken.t) := fun s =>
  match select_one (live_token (hash_token plaintext_token)) (Acc.tokens s) with
  | None => (s, Ok None)
  | Some model =>
      match (token <-? tenant_token_from_model model ;;
             expired <-? is_expired (now_utc d 0) token ;;
             Ok (token, expired)) with
      | Err e => (s, Err e)
      | Ok (token, true) => (s, Ok None)
      | Ok (token, false) =>
          let '(s, affected) := touch_token (TokensModel.id model) (clock d 0) s in
          if affected =? 0 then (s, Err Database)
          else (s, session <-? session_user_of s token ;;
                   Ok (option_map (AuthenticatedTenantToken.mk token) session))
      end
  end.

(** ** Revocation and rotation *)

Definition token_row (tenant_id : TenantId) (token_id : string) (r : TokensModel.t) : bool :=
  beq (TokensModel.id r) token_id && beq (TokensModel.tenant_id r) (TenantId_to_string tenant_id).

Definition revoked (now : string) (r : TokensModel.t) : TokensModel.t :=
  r <| TokensModel.revoked_at := Some now |>.

Definition revoke_tenant_token (now : string) (tenant_id : TenantId) (token_id : string)
  : acct TenantToken.t := fun s =>
  match select_one (token_row tenant_id token_id) (Acc.tokens s) with
  | None => (s, Err MissingTenantToken)
  | Some token =>
      if is_some (TokensModel.revoked_at token) then (s, tenant_token_from_model token)
      else
        let '(rows, affected) := update_many (fun r => beq (TokensModel.id r) (TokensModel.id token))
                                   (revoked now) (Acc.tokens s) in
        let s := s <| Acc.tokens := rows |> in
        if affected =? 0 then (s, Err Database) else (s, tenant_token_from_model (revoked now token))
  end.

Definition revoke_tenant_token_with_audit (d : Draws) (tenant_id : TenantId) (token_id : string)
    (actor : AuditActor.t) : acct TenantToken.t :=
  transaction (
    token <~ revoke_tenant_token (clock d 0) tenant_id token_id ;;
    insert_account_event
      (tenant_token_audit_event (uuids d 0) (clock d 1) token "tenant_token.revoke" actor) ~;;
    tret token).

(** The old token's revocation takes the first reading of the clock. *)
Definition rotate_tenant_token_with_audit (d : Draws) (tenant_id : TenantId) (token_id : string)
    (expires_at : option string) (actor : AuditActor.t) : acct TenantTokenWithPlaintext.t :=
  transaction (
    old_token <~ revoke_tenant_token (clock d 0) tenant_id token_id ;;
    let token := TenantToken.mk (uuids d 2) tenant_id (TenantToken.name old_token)
                   (TenantToken.scopes old_token) (TenantToken.created_by_user_id old_token)
                   (clock d 1) None expires_at None in
    let t := TenantTokenWithPlaintext.mk token (token_text TENANT_TOKEN_PREFIX d) in
    insert_new_token t ~;;
    insert_account_event
      (tenant_token_audit_event (uuids d 3) (clock d 2) token "tenant_token.rotate" actor) ~;;
    tret t).

Definition revocable (token_hash : string) (token : TenantToken.t) (r : TokensModel.t) : bool :=
  token_row (TenantToken.tenant_id token) (TenantToken.id token) r
  && beq (TokensModel.token_hash r) token_hash.

Definition plugin_only (token : TenantToken.t) : bool :=
  beq (TenantToken.scopes token) [TenantTokenScope.PluginStudio].

Definition revoke_plugin_studio_token_with_audit (d : Draws) (plaintext_token : string)
  : acct (option TenantToken.t) :=
  let token_hash := hash_token plaintext_token in
  token <~ tread (fun s => traverse_opt tenant_token_from_model
    (select_one (fun r => beq (TokensModel.token_hash r) token_hash) (Acc.tokens s))) ;;
  match opt_filter plugin_only token with
  | None => tret None
  | Some token =>
      transaction (
        n <~ (fun s =>
          let '(rows, affected) := update_many
            (fun r => revocable token_hash token r && is_none (TokensModel.revoked_at r))
            (revoked (clock d 0)) (Acc.tokens s) in
          (s <| Acc.tokens := rows |>, Ok affected)) ;;
        if n =? 1 then
          let revoked := token <| TenantToken.revoked_at := Some (clock d 0) |> in
          insert_account_event
            (tenant_token_audit_event (uuids d 0) (clock d 1) revoked "tenant_token.revoke"
               (AuditActor.plugin_token (TenantToken.created_by_user_id revoked) (TenantToken.id revoked)
                  [TenantTokenScope.as_str TenantTokenScope.PluginStudio])) ~;;
          tret (Some revoked)
        else
          again <~ tread (fun s => traverse_opt tenant_token_from_model
                                     (select_one (revocable token_hash token) (Acc.tokens s))) ;;
          tret (opt_filter (fun t => plugin_only t && is_some (TenantToken.revoked_at t)) again))
  end.

(** ** Sessions without authentication ([no_auth_session.rs]) *)

(** The first two tenants. *)
Definition first_two (s : Acc.t) : list TenantsModel.t :=
  take 2 (merge_sort (by_creation TenantsModel.created_at TenantsModel.id) (Acc.tenants s)).

Definition create_no_auth_plugin_session_with_audit (d : Draws) (name expires_at : string)
  : acct NoAuthPluginSessionOutcome :=
  transaction (
    tenants <~ tread (fun s => Ok (first_two s)) ;;
    match tenants with
    | [] => tret NoTenant
    | [tenant] =>
        tenant <~ tlift (tenant_from_model tenant) ;;
        let t := new_token d TENANT_TOKEN_PREFIX (Tenant.id tenant) name
                   [TenantTokenScope.PluginStudio] None (Some expires_at) in
        insert_new_token t ~;;
        insert_account_event (tenant_token_audit_event (uuids d 3) (clock d 1)
          (TenantTokenWithPlaintext.token t) "tenant_token.create" AuditActor.no_auth) ~;;
        tret (Created tenant t)
    | _ => tret AmbiguousTenant
    end).

(** ** Login tickets ([plugin_tickets.rs]) *)

Definition ticket_from_model (m : LoginTicketsModel.t) : result RepositoryError Ticket.t :=
  tenant_id <-? db_err (TenantId_parse (LoginTicketsModel.tenant_id m)) ;;
  kind <-? LoginTicketKind.parse (LoginTicketsModel.kind m) ;;
  Ok (Ticket.mk (LoginTicketsModel.id m) tenant_id (LoginTicketsModel.user_id m)
        (LoginTicketsModel.redirect_url m) kind (LoginTicketsModel.code_challenge m)
        (LoginTicketsModel.created_at m) (LoginTicketsModel.expires_at m)
        (LoginTicketsModel.used_at m) (LoginTicketsModel.revoked_at m)).

Definition ticket_model (t : Ticket.t) (ticket_hash : string) : LoginTicketsModel.t :=
  LoginTicketsModel.mk (Ticket.id t) (TenantId_to_string (Ticket.tenant_id t)) (Ticket.user_id t)
    ticket_hash (Ticket.redirect_url t) (LoginTicketKind.as_str (Ticket.kind t))
    (Ticket.code_challenge t) (Ticket.created_at t) (Ticket.expires_at t) (Ticket.used_at t)
    (Ticket.revoked_at t).

Definition insert_plugin_login_ticket (t : Ticket.t) (ticket_hash : string) : acct unit :=
  check_user (Ticket.tenant_id t) (Ticket.user_id t) ~;;
  fun s =>
    let row := ticket_model t ticket_hash in
    if existsb (fun r => beq (LoginTicketsModel.id r) (LoginTicketsModel.id row)) (Acc.login_tickets s)
    then (s, Err Database)
    else match try_insert (fun r => beq (LoginTicketsModel.ticket_hash r) ticket_hash) row
                 (Acc.login_tickets s) with
         | None => (s, Err DuplicatePluginLoginTicketHash)
         | Some rows =>
             if known_tenant s (LoginTicketsModel.tenant_id row)
             then (s <| Acc.login_tickets := rows |>, Ok tt) else (s, Err MissingTenant)
         end.

Definition ticket_audit_event (id now : string) (t : Ticket.t) (action : string)
    (actor : AuditActor.t) (tenant_token_id : option string) : AuditEventsModel.t :=
  record_audit_event id now (Ticket.tenant_id t) actor action "plugin_login_ticket"
    (Some (Ticket.id t)) (Object [("issued_tenant_token_id"%string, optional_text tenant_token_id)]).

Definition create_ticket (d : Draws) (prefix action : string) (tenant_id : TenantId)
    (user_id : option string) (redirect_url : string) (kind : LoginTicketKind.t)
    (code_challenge : option string) (expires_at : string) (actor : AuditActor.t)
  : acct (Ticket.t * string) :=
  let plaintext_ticket := token_text prefix d in
  let t := Ticket.mk (uuids d 2) tenant_id user_id redirect_url kind code_challenge (clock d 0)
             expires_at None None in
  transaction (
    insert_plugin_login_ticket t (hash_token plaintext_ticket) ~;;
    insert_account_event (ticket_audit_event (uuids d 3) (clock d 1) t action actor None) ~;;
    tret (t, plaintext_ticket)).

Section Redirects.
Context `{RedirectUrls}.

Definition local_host (host : string) : bool :=
  bool_decide (host ∈ ["localhost"; "127.0.0.1"; "::1"; "[::1]"]%string).

Definition validate_plugin_redirect_url (redirect_url : string) : result RepositoryError string :=
  match uri_parse redirect_url with
  | None => Err InvalidPluginRedirectUrl
  | Some uri =>
      if negb (beq (Uri.scheme_str uri) (Some "http"%string)) || str_contains "#" redirect_url
      then Err InvalidPluginRedirectUrl
      else match Uri.authority uri with
           | None => Err InvalidPluginRedirectUrl
           | Some authority =>
               if str_contains "@" (Authority.text authority) then Err InvalidPluginRedirectUrl
               else if negb (local_host (Authority.host authority)) then Err InvalidPluginRedirectUrl
               else match Authority.port_u16 authority with
                    | None => Err InvalidPluginRedirectUrl
                    | Some port => if port =? 0 then Err InvalidPluginRedirectUrl
                                   else Ok (Uri.to_string uri)
                    end
           end
  end.

Definition validate_mobile_redirect_url (redirect_url : string) : result RepositoryError string :=
  match mobile_url_parse redirect_url with
  | None => Err InvalidPluginRedirectUrl
  | Some uri =>
      if negb (beq (Url.scheme uri) "zip.iptables.pandar.android"%string)
         || negb (beq (Url.host_str uri) (Some "auth"%string))
         || negb (beq (Url.path uri) "/callback"%string) || is_some (Url.query uri)
         || str_contains "#" redirect_url
      then Err InvalidPluginRedirectUrl
      else Ok redirect_url
  end.

Definition create_plugin_login_ticket_with_audit (d : Draws) (tenant_id : TenantId)
    (user_id : option string) (redirect_url expires_at : string) (actor : AuditActor.t)
  : acct (Ticket.t * string) :=
  redirect_url <~ tlift (validate_plugin_redirect_url redirect_url) ;;
  create_ticket d PLUGIN_LOGIN_TICKET_PREFIX "plugin_login_ticket.create" tenant_id user_id
    redirect_url LoginTicketKind.Plugin None expires_at actor.

Definition create_mobile_login_ticket_with_audit (d : Draws) (tenant_id : TenantId)
    (user_id : option string) (redirect_url code_challenge expires_at : string)
    (actor : AuditActor.t) : acct (Ticket.t * string) :=
  redirect_url <~ tlift (validate_mobile_redirect_url redirect_url) ;;
  create_ticket d MOBILE_LOGIN_TICKET_PREFIX "mobile_login_ticket.create" tenant_id user_id
    redirect_url LoginTicketKind.Mobile (Some code_challenge) expires_at actor.
End Redirects.

Section Exchange.
Context `{Base64}.

Definition verifier_char (c : ascii) : bool :=
  byte_in 48 57 c || byte_in 65 90 c || byte_in 97 122 c
  || Ascii.eqb c "-" || Ascii.eqb c "." || Ascii.eqb c "_" || Ascii.eqb c "~".

Definition mobile_pkce_matches (t : Ticket.t) (code_verifier : string) : bool :=
  let len := Z.of_nat (String.length code_verifier) in
  (43 <=? len) && (len <=? 128) && str_forall verifier_char code_verifier
  && beq (Ticket.code_challenge t) (Some (url_safe_no_pad (sha256 code_verifier))).

Definition ticket_expired (now : Z) (t : Ticket.t) : result RepositoryError bool :=
  expires_at <-? ok_or (rfc_parse (Ticket.expires_at t)) Database ;;
  Ok (expires_at <=? now).

Definition open_ticket (ticket_hash : string) (kind : LoginTicketKind.t) (r : LoginTicketsModel.t) : bool :=
  beq (LoginTicketsModel.ticket_hash r) ticket_hash
  && beq (LoginTicketsModel.kind r) (LoginTicketKind.as_str kind)
  && is_none (LoginTicketsModel.used_at r) && is_none (LoginTicketsModel.revoked_at r).

Definition unused_ticket (id : string) (r : LoginTicketsModel.t) : bool :=
  beq (LoginTicketsModel.id r) id
  && is_none (LoginTicketsModel.used_at r) && is_none (LoginTicketsModel.revoked_at r).

Definition mark_ticket_used (id used_at : string) : acct Z := fun s =>
  let '(rows, affected) := update_many (unused_ticket id)
    (fun r => r <| LoginTicketsModel.used_at := Some used_at |>) (Acc.login_tickets s) in
  (s <| Acc.login_tickets := rows |>, Ok affected).

(** [create_plugin_token_from_ticket_tx] and [create_mobile_token_from_ticket_tx];
    [d] holds the draws from the token's secret on. *)
Definition create_token_from_ticket_tx (d : Draws) (t : Ticket.t) (kind : LoginTicketKind.t)
    (expires_at : string) : acct TenantTokenWithPlaintext.t :=
  let '(prefix, name, scope) := match kind with
    | LoginTicketKind.Plugin =>
        (PLUGIN_TOKEN_PREFIX, "Bambu Studio plugin"%string, TenantTokenScope.PluginStudio)
    | LoginTicketKind.Mobile => (MOBILE_TOKEN_PREFIX, "Android app"%string, TenantTokenScope.MobileSession)
    end in
  let token := TenantTokenWithPlaintext.mk
    (TenantToken.mk (uuids d 2) (Ticket.tenant_id t) name [scope] (Ticket.user_id t) (clock d 1) None
       (Some expires_at) None) (token_text prefix d) in
  insert_new_token token ~;;
  tret token.

Definition exchange_event (d : Draws) (t : Ticket.t) (kind : LoginTicketKind.t) (token_id : string)
  : AuditEventsModel.t :=
  match kind with
  | LoginTicketKind.Plugin =>
      ticket_audit_event (uuids d 3) (clock d 2) t "plugin_login_ticket.exchange"
        (AuditActor.plugin_token (Ticket.user_id t) token_id ["plugin:studio"%string]) (Some token_id)
  | LoginTicketKind.Mobile =>
      ticket_audit_event (uuids d 3) (clock d 2) t "mobile_login_ticket.exchange"
        (AuditActor.tenant_token (Ticket.user_id t) token_id ["mobile:session"%string]) (Some token_id)
  end.

(** An early [Ok(None)] drops the transaction. *)
Definition exchange_login_ticket (d : Draws) (plaintext_ticket : string)
    (expected_kind : LoginTicketKind.t) (code_verifier : option string)
  : acct (option PluginLoginTicketExchange.t) :=
  transaction (
    ticket <~ tread (fun s => traverse_opt ticket_from_model
      (select_one (open_ticket (hash_token plaintext_ticket) expected_kind) (Acc.login_tickets s))) ;;
    match ticket with
    | None => tret None
    | Some ticket =>
        expired <~ tlift (ticket_expired (now_utc d 0) ticket) ;;
        if expired : bool then tret None
        else if beq expected_kind LoginTicketKind.Mobile
                && negb (mobile_pkce_matches ticket (default EmptyString code_verifier))
        then tret None
        else fun s =>
          match mark_ticket_used (Ticket.id ticket) (clock d 0) s with
          | (s1, Ok affected) =>
              if negb (affected =? 1) then (s, Ok None)
              else
                (let used_ticket := ticket <| Ticket.used_at := Some (clock d 0) |> in
                 expires_at <~ tlift (ok_or (rfc_format (now_utc d 1 + days PLUGIN_TOKEN_TTL_DAYS)) Database) ;;
                 token <~ create_token_from_ticket_tx d used_ticket expected_kind expires_at ;;
                 insert_account_event
                   (exchange_event d used_ticket expected_kind
                      (TenantToken.id (TenantTokenWithPlaintext.token token))) ~;;
                 tret (Some (PluginLoginTicketExchange.mk used_ticket (Ticket.redirect_url used_ticket) token)))
                s1
          | (s1, Err e) => (s1, Err e)
          end
    end).

Definition exchange_plugin_login_ticket (d : Draws) (plaintext_ticket : string)
  : acct (option PluginLoginTicketExchange.t) :=
  exchange_login_ticket d plaintext_ticket LoginTicketKind.Plugin None.

Definition exchange_mobile_login_ticket (d : Draws) (plaintext_ticket code_verifier : string)
  : acct (option PluginLoginTicketExchange.t) :=
  exchange_login_ticket d plaintext_ticket LoginTicketKind.Mobile (Some code_verifier).
End Exchange.

(** ** Bootstrap ([auth/bootstrap.rs]) *)

Definition bootstrap_actor : AuditActor.t := AuditActor.mk "bootstrap" None None.

(** The three events, the ids and times in their order. *)
Definition bootstrap_audit_events (d : Draws) (tenant : Tenant.t) (user : User.t)
    (token : TenantToken.t) : list AuditEventsModel.t :=
  [record_audit_event (uuids d 4) (clock d 3) (Tenant.id tenant) bootstrap_actor "tenant.bootstrap"
     "tenant" (Some (TenantId_to_string (Tenant.id tenant)))
     (Object [("tenant_slug"%string, Str (Tenant.slug tenant))]);
   record_audit_event (uuids d 5) (clock d 4) (Tenant.id tenant) bootstrap_actor "user.create"
     "user" (Some (User.id user))
     (Object [("email"%string, Str (User.email user));
              ("role"%string, Str (UserRole.as_str (User.role user)))]);
   record_audit_event (uuids d 6) (clock d 5) (Tenant.id tenant) bootstrap_actor "tenant_token.create"
     "tenant_token" (Some (TenantToken.id token))
     (Object [("created_by_user_id"%string, optional_text (TenantToken.created_by_user_id token));
              ("name"%string, Str (TenantToken.name token))])].

Fixpoint insert_events (events : list AuditEventsModel.t) : acct unit :=
  match events with
  | [] => tret tt
  | event :: events => insert_account_event event ~;; insert_events events
  end.

Definition bootstrap_tenant_admin_with_plaintext_token (d : Draws) (tenant_slug tenant_display_name
    admin_email admin_display_name api_token_name : string)
  : acct (Tenant.t * User.t * TenantTokenWithPlaintext.t) :=
  tenant <~ tlift (db_err (Tenant.new (tenant_ids d 0) (clock d 0) tenant_slug tenant_display_name)) ;;
  let user := User.mk (uuids d 0) (Tenant.id tenant) admin_email admin_display_name
                UserRole.TenantAdmin (clock d 1) in
  let token := TenantToken.mk (uuids d 3) (Tenant.id tenant) api_token_name [TenantTokenScope.All]
                 (Some (User.id user)) (clock d 2) None None None in
  let t := TenantTokenWithPlaintext.mk token
             (generate_secret TENANT_TOKEN_PREFIX (uuids d 1) (uuids d 2)) in
  transaction (
    insert_tenant tenant ~;;
    insert_user user ~;;
    insert_new_token t ~;;
    insert_events (bootstrap_audit_events d tenant user token) ~;;
    tret (tenant, user, t)).

(** ** Printer event tickets ([printer_event_tickets.rs]) *)

Definition PRINTER_EVENT_TICKET_TTL : Z := 60 * 1000000000.

Definition issue_event_ticket (d : Draws) (tenant_id : TenantId) (ticket_hash : string)
  : acct EventTicketsModel.t :=
  created_at <~ tlift (format_timestamp (now_utc d 0)) ;;
  expires_at <~ tlift (format_timestamp (now_utc d 0 + PRINTER_EVENT_TICKET_TTL)) ;;
  fun s =>
    let row := EventTicketsModel.mk (uuids d 0) (TenantId_to_string tenant_id) ticket_hash created_at
                 expires_at None in
    if known_tenant s (EventTicketsModel.tenant_id row)
    then match try_insert (fun r => beq (EventTicketsModel.id r) (EventTicketsModel.id row)
                                    || beq (EventTicketsModel.ticket_hash r) ticket_hash)
                 row (Acc.event_tickets s) with
         | Some rows => (s <| Acc.event_tickets := rows |>, Ok row)
         | None => (s, Err Database)
         end
    else (s, Err Database).

Inductive ConsumeResult := Consumed (ticket : EventTicketsModel.t) | TicketExpired | TicketInvalid.

Definition event_ticket_row (tenant_id : TenantId) (ticket_hash : string) (r : EventTicketsModel.t) : bool :=
  beq (EventTicketsModel.tenant_id r) (TenantId_to_string tenant_id)
  && beq (EventTicketsModel.ticket_hash r) ticket_hash.

Definition consumable_ticket (tenant_id : TenantId) (ticket_hash now : string)
    (r : EventTicketsModel.t) : bool :=
  event_ticket_row tenant_id ticket_hash r && is_none (EventTicketsModel.used_at r)
  && negb (text_le (EventTicketsModel.expires_at r) now).

Definition expired_ticket (tenant_id : TenantId) (ticket_hash now : string)
    (r : EventTicketsModel.t) : bool :=
  event_ticket_row tenant_id ticket_hash r && is_none (EventTicketsModel.used_at r)
  && text_le (EventTicketsModel.expires_at r) now.

(** The tenant of the row is parsed; the record is the row otherwise. *)
Definition consume_event_ticket (d : Draws) (tenant_id : TenantId) (ticket_hash : string)
  : acct ConsumeResult :=
  now <~ tlift (format_timestamp (now_utc d 0)) ;;
  updated <~ (fun s =>
    let '(rows, affected) := update_many (consumable_ticket tenant_id ticket_hash now)
      (fun r => r <| EventTicketsModel.used_at := Some now |>) (Acc.event_tickets s) in
    (s <| Acc.event_tickets := rows |>, Ok affected)) ;;
  if updated =? 1 then
    tread (fun s =>
      match select_one (event_ticket_row tenant_id ticket_hash) (Acc.event_tickets s) with
      | None => Err Database
      | Some row =>
          _ <-? db_err (TenantId_parse (EventTicketsModel.tenant_id row)) ;;
          Ok (Consumed row)
      end)
  else
    tread (fun s =>
      Ok (if is_some (select_one (expired_ticket tenant_id ticket_hash now) (Acc.event_tickets s))
          then TicketExpired else TicketInvalid)).
End Credentials.
