(* ===== verification/Authorization.v ===== *)
(** * Who may do what

    [routes/auth.rs] over [repositories/auth.rs]: the principal a request speaks
    for, and the role or scope each kind of route asks of it; with
    [routes/error.rs], which turns a repository error into a response.  The
    verification of an external token is the argument [external_auth]
    ([ExternalIdentity] models it). *)

From S2P Require Import Prelude RustStr CoreTypes CoreRecords Json Store Tx JobRows JobTables Accounts Onboarding Credentials.

#[local] Open Scope Z_scope.
#[local] Open Scope rust_scope.
#[local] Open Scope tx_scope.

(** ** Responses ([routes/error.rs]) *)

Record ApiError := mkApiError { status : Z; code : string }.

#[export] Instance ApiError_eq_dec : EqDecision ApiError.
Proof. solve_decision. Defined.

Definition BAD_REQUEST : Z := 400.
Definition UNAUTHORIZED : Z := 401.
Definition FORBIDDEN : Z := 403.
Definition NOT_FOUND : Z := 404.
Definition CONFLICT : Z := 409.
Definition PAYLOAD_TOO_LARGE : Z := 413.
Definition INTERNAL_SERVER_ERROR : Z := 500.

Definition api_error (err : RepositoryError) : ApiError :=
  match err with
  | DuplicateTenantSlug => mkApiError CONFLICT "tenant_slug_exists"
  | DuplicateAgentName => mkApiError CONFLICT "agent_name_exists"
  | DuplicateTenantTokenHash => mkApiError CONFLICT "tenant_token_hash_exists"
  | DuplicatePluginLoginTicketHash => mkApiError CONFLICT "plugin_login_ticket_hash_exists"
  | DuplicateJoinLinkHash => mkApiError CONFLICT "join_link_hash_exists"
  | DuplicateExternalIdentity => mkApiError CONFLICT "external_identity_exists"
  | DuplicateUserExternalIdentity => mkApiError CONFLICT "user_external_identity_provider_exists"
  | DuplicateUserEmail => mkApiError CONFLICT "user_email_exists"
  | MissingTenant => mkApiError NOT_FOUND "tenant_not_found"
  | MissingUser => mkApiError NOT_FOUND "user_not_found"
  | LastTenantAdmin => mkApiError CONFLICT "last_tenant_admin"
  | MissingTenantToken => mkApiError NOT_FOUND "tenant_token_not_found"
  | MissingPluginLoginTicket => mkApiError UNAUTHORIZED "invalid_login_ticket"
  | InvalidJoinLink => mkApiError NOT_FOUND "invalid_join_link"
  | JoinLinkEmailMismatch => mkApiError FORBIDDEN "join_link_email_mismatch"
  | MissingAgent => mkApiError NOT_FOUND "agent_not_found"
  | AgentOnline => mkApiError CONFLICT "agent_online"
  | AgentSessionNotCurrent => mkApiError CONFLICT "agent_session_not_current"
  | MissingCommand => mkApiError NOT_FOUND "command_not_found"
  | MissingPrinter => mkApiError NOT_FOUND "printer_not_found"
  | MissingPersonalPreset => mkApiError NOT_FOUND "personal_preset_not_found"
  | DuplicatePersonalPresetName => mkApiError CONFLICT "personal_preset_name_conflict"
  | PersonalPresetLimitExceeded => mkApiError CONFLICT "personal_preset_limit_exceeded"
  | InvalidPersonalPreset => mkApiError BAD_REQUEST "invalid_personal_preset"
  | PersonalPresetTooLarge => mkApiError PAYLOAD_TOO_LARGE "personal_preset_too_large"
  | PersonalPresetClockExhausted => mkApiError CONFLICT "personal_preset_clock_exhausted"
  | MissingJob => mkApiError NOT_FOUND "job_not_found"
  | ArtifactQuotaExceeded => mkApiError PAYLOAD_TOO_LARGE "artifact_quota_exceeded"
  | JobNotClearable => mkApiError CONFLICT "job_not_clearable"
  | CommandOwnershipMismatch => mkApiError FORBIDDEN "command_ownership_mismatch"
  | InvalidCommandTransition _ _ => mkApiError CONFLICT "invalid_command_transition"
  | InvalidPersistedPersonalPreset
  | InvalidPersistedStatus _ | InvalidPersistedCommandStatus _ | InvalidPersistedJobStatus _
  | InvalidPersistedPrintStatus _ | InvalidPersistedArtifactMetadata
  | InvalidPersistedStudioMetadata | InvalidPersistedUserRole _ | InvalidTokenScope _ | Database =>
      mkApiError INTERNAL_SERVER_ERROR "internal_server_error"
  | InvalidPluginRedirectUrl => mkApiError BAD_REQUEST "invalid_redirect_url"
  | RetryNotSafe => mkApiError CONFLICT "retry_not_safe"
  | H2cNozzleMappingRequired => mkApiError BAD_REQUEST "h2c_nozzle_mapping_required"
  | ReprintNotAllowed => mkApiError CONFLICT "reprint_not_allowed"
  | StudioSubmissionIdExhausted => mkApiError CONFLICT "studio_submission_id_exhausted"
  | StudioCancellationTooLate => mkApiError CONFLICT "studio_cancellation_too_late"
  | PrinterControlUnavailable => mkApiError BAD_REQUEST "printer_control_unavailable"
  | InvalidPrinterControl => mkApiError BAD_REQUEST "invalid_printer_control"
  end.

(** ** Principals *)

Inductive AuthenticatedPrincipal :=
| UserPrincipal (user : User.t)
| TokenPrincipal (authenticated : AuthenticatedTenantToken.t)
| NoAuthPrincipal (tenant_id : TenantId).

Definition principal_tenant_id (p : AuthenticatedPrincipal) : TenantId :=
  match p with
  | UserPrincipal user => User.tenant_id user
  | TokenPrincipal a => TenantToken.tenant_id (AuthenticatedTenantToken.token a)
  | NoAuthPrincipal tenant_id => tenant_id
  end.

(** The [Authorization] header of a request: absent, not text, or a text. *)
Inductive header := NoHeader | BinaryHeader | TextHeader (text : string).

Definition missing_auth_token : ApiError := mkApiError UNAUTHORIZED "missing_auth_token".
Definition invalid_auth_token : ApiError := mkApiError UNAUTHORIZED "invalid_auth_token".
Definition role_forbidden : ApiError := mkApiError FORBIDDEN "role_forbidden".
Definition tenant_forbidden : ApiError := mkApiError FORBIDDEN "tenant_forbidden".

Definition bearer_token (h : header) : result ApiError string :=
  match h with
  | NoHeader => Err missing_auth_token
  | BinaryHeader => Err invalid_auth_token
  | TextHeader text => ok_or (strip_prefix "Bearer " text) invalid_auth_token
  end.

(** What a verified external token says ([VerifiedExternalIdentity]). *)
Record ExternalAccount := mkExternalAccount { provider : string; subject : string }.

(** The part of [AppState] that matters here: the verifier answers with an
    account or refuses the token. *)
Record AuthState := mkAuthState {
  no_auth_enabled : bool; external_auth : option (string -> option ExternalAccount) }.

Section Authorization.
Context `{Store} `{UuidText} `{Rfc3339} `{Sha256} `{ScopesJson}.

Definition auth (A : Type) : Type := tx Acc.t ApiError A.

(** [?] on a repository call. *)
Definition repo {A} (m : acct A) : auth A := fun s => let '(s, r) := m s in (s, map_err api_error r).

Definition authenticate_principal (d : Draws) (state : AuthState) (tenant_id : TenantId) (token : string)
  : auth AuthenticatedPrincipal :=
  authenticated <~ repo (authenticate_tenant_token d token) ;;
  match authenticated with
  | Some authenticated => tret (TokenPrincipal authenticated)
  | None =>
      match external_auth state with
      | None => tfail invalid_auth_token
      | Some verify =>
          verified <~ tlift (ok_or (verify token) invalid_auth_token) ;;
          user <~ repo (authenticate_external_identity tenant_id (provider verified) (subject verified)) ;;
          user <~ tlift (ok_or user tenant_forbidden) ;;
          tret (UserPrincipal user)
      end
  end.

Definition authorize_principal (d : Draws) (state : AuthState) (h : header) (tenant_id : TenantId)
  : auth AuthenticatedPrincipal :=
  if no_auth_enabled state then tret (NoAuthPrincipal tenant_id)
  else
    token <~ tlift (bearer_token h) ;;
    authenticated <~ authenticate_principal d state tenant_id token ;;
    if negb (beq (principal_tenant_id authenticated) tenant_id) then tfail tenant_forbidden
    else tret authenticated.

Definition only_scope (token : TenantToken.t) (scope : TenantTokenScope.t) : bool :=
  beq (TenantToken.scopes token) [scope].

Definition user_allows (user : option User.t) (required_role : UserRole.t) : bool :=
  is_some_and (fun u => UserRole.allows (User.role u) required_role) user.

Definition tenant_token_allows_role (a : AuthenticatedTenantToken.t) (required_role : UserRole.t) : bool :=
  TenantToken.has_scope (AuthenticatedTenantToken.token a) TenantTokenScope.All
  || (only_scope (AuthenticatedTenantToken.token a) TenantTokenScope.MobileSession
      && user_allows (AuthenticatedTenantToken.session_user a) required_role).

Definition no_scopes (a : AuthenticatedTenantToken.t) : bool :=
  beq (TenantToken.scopes (AuthenticatedTenantToken.token a)) [].

(** A route's demand on a principal: of its user, or of its token. *)
Definition demand (of_user : User.t -> bool) (of_token : AuthenticatedTenantToken.t -> bool)
    (p : AuthenticatedPrincipal) : bool :=
  match p with
  | UserPrincipal user => of_user user
  | TokenPrincipal a => of_token a
  | NoAuthPrincipal _ => true
  end.

Definition authorize_demand (of_user : User.t -> bool) (of_token : AuthenticatedTenantToken.t -> bool)
    (d : Draws) (state : AuthState) (h : header) (tenant_id : TenantId) : auth AuthenticatedPrincipal :=
  principal <~ authorize_principal d state h tenant_id ;;
  if demand of_user of_token principal then tret principal else tfail role_forbidden.

Definition has_role (required_role : UserRole.t) (user : User.t) : bool :=
  UserRole.allows (User.role user) required_role.

Definition authorize_tenant (d : Draws) (state : AuthState) (h : header) (tenant_id : TenantId)
    (required_role : UserRole.t) : auth AuthenticatedPrincipal :=
  authorize_demand (has_role required_role)
    (fun a => tenant_token_allows_role a required_role
              || (beq required_role UserRole.Viewer && no_scopes a))
    d state h tenant_id.

Definition authorize_principal_for_role (d : Draws) (state : AuthState) (h : header)
    (tenant_id : TenantId) (required_role : UserRole.t) : auth AuthenticatedPrincipal :=
  authorize_demand (has_role required_role) (fun a => tenant_token_allows_role a required_role)
    d state h tenant_id.

Definition authorize_tenant_admin_principal (d : Draws) (state : AuthState) (h : header)
    (tenant_id : TenantId) : auth AuthenticatedPrincipal :=
  authorize_principal_for_role d state h tenant_id UserRole.TenantAdmin.

Definition authorize_tenant_principal (d : Draws) (state : AuthState) (h : header)
    (tenant_id : TenantId) (required_role : UserRole.t) : auth AuthenticatedPrincipal :=
  authorize_principal_for_role d state h tenant_id required_role.

Definition authorize_tenant_admin_user_or_no_auth (d : Draws) (state : AuthState) (h : header)
    (tenant_id : TenantId) : auth AuthenticatedPrincipal :=
  authorize_demand (has_role UserRole.TenantAdmin) (fun _ => false) d state h tenant_id.

Definition authorize_agent_registration (d : Draws) (state : AuthState) (h : header)
    (tenant_id : TenantId) : auth AuthenticatedPrincipal :=
  authorize_demand (has_role UserRole.TenantAdmin)
    (fun a => TenantToken.has_scope (AuthenticatedTenantToken.token a) TenantTokenScope.AgentRegister)
    d state h tenant_id.

Definition authorize_user_login_ticket_creation (d : Draws) (state : AuthState) (h : header)
    (tenant_id : TenantId) (required_role : UserRole.t) : auth AuthenticatedPrincipal :=
  authorize_demand (has_role required_role) (fun _ => false) d state h tenant_id.

Definition authorize_plugin_login_ticket_creation (d : Draws) (state : AuthState) (h : header)
    (tenant_id : TenantId) : auth AuthenticatedPrincipal :=
  authorize_user_login_ticket_creation d state h tenant_id UserRole.Operator.

Definition authorize_mobile_login_ticket_creation (d : Draws) (state : AuthState) (h : header)
    (tenant_id : TenantId) : auth AuthenticatedPrincipal :=
  authorize_user_login_ticket_creation d state h tenant_id UserRole.Operator.

Definition authorize_plugin_studio (d : Draws) (state : AuthState) (h : header)
  : auth AuthenticatedTenantToken.t :=
  token <~ tlift (bearer_token h) ;;
  authenticated <~ repo (authenticate_tenant_token d token) ;;
  authenticated <~ tlift (ok_or authenticated invalid_auth_token) ;;
  if negb (only_scope (AuthenticatedTenantToken.token authenticated) TenantTokenScope.PluginStudio)
     || (negb (no_auth_enabled state)
         && negb (user_allows (AuthenticatedTenantToken.session_user authenticated) UserRole.Operator))
  then tfail role_forbidden else tret authenticated.

Definition authorize_plugin_studio_user (d : Draws) (state : AuthState) (h : header)
  : auth AuthenticatedTenantToken.t :=
  authenticated <~ authorize_plugin_studio d state h ;;
  match AuthenticatedTenantToken.session_user authenticated with
  | None => tfail (mkApiError FORBIDDEN "personal_presets_require_user")
  | Some user =>
      if negb (UserRole.allows (User.role user) UserRole.Operator) then tfail role_forbidden
      else tret authenticated
  end.

Definition authorize_plugin_studio_for_tenant (d : Draws) (state : AuthState) (h : header)
    (tenant_id : TenantId) : auth AuthenticatedTenantToken.t :=
  authenticated <~ authorize_plugin_studio d state h ;;
  if negb (beq (TenantToken.tenant_id (AuthenticatedTenantToken.token authenticated)) tenant_id)
  then tfail role_forbidden else tret authenticated.

(** ** Audit actors *)

Definition scope_texts (token : TenantToken.t) : list string :=
  map TenantTokenScope.as_str (TenantToken.scopes token).

Definition audit_actor (p : AuthenticatedPrincipal) : AuditActor.t :=
  match p with
  | UserPrincipal user => AuditActor.user (User.id user)
  | TokenPrincipal a =>
      let token := AuthenticatedTenantToken.token a in
      AuditActor.tenant_token (TenantToken.created_by_user_id token) (TenantToken.id token) (scope_texts token)
  | NoAuthPrincipal _ => AuditActor.no_auth
  end.

Definition plugin_audit_actor (a : AuthenticatedTenantToken.t) : AuditActor.t :=
  let token := AuthenticatedTenantToken.token a in
  AuditActor.plugin_token (TenantToken.created_by_user_id token) (TenantToken.id token) (scope_texts token).
End Authorization.
