(* ===== verification/ExternalIdentity.v ===== *)
(** * External identities

    [identity/config.rs], [identity/verifier.rs] and [identity/verifier/claims.rs]:
    the configuration of an OIDC provider read from the environment, the cache of
    its keys, and what a verified token says.  The [jsonwebtoken] and [url] crates
    are parameters ([JwtLib], [UrlParse]). *)

From S2P Require Import Prelude RustStr RustNet Store Tx Accounts Onboarding Credentials Authorization.

#[local] Open Scope Z_scope.
#[local] Open Scope rust_scope.
#[local] Open Scope tx_scope.

(** ** Text *)

(** A word and the words after it, blank words dropped. *)
Definition push_word (w : string) (ws : list string) : list string :=
  if beq w EmptyString then ws else w :: ws.

(** The word at the head and the words after it. *)
Fixpoint words (s : string) : string * list string :=
  match s with
  | EmptyString => (EmptyString, [])
  | String a r1 =>
      let in_word := let '(w, ws) := words r1 in (String a w, ws) in
      let gap r := let '(w, ws) := words r in (EmptyString, push_word w ws) in
      if ws1 a then gap r1
      else match r1 with
           | EmptyString => in_word
           | String b r2 =>
               if ws2 a b then gap r2
               else match r2 with
                    | EmptyString => in_word
                    | String c r3 => if ws3 a b c then gap r3 else in_word
                    end
           end
  end.
Definition split_whitespace (s : string) : list string := let '(w, ws) := words s in push_word w ws.

(** ** The provider ([config.rs]) *)

(** The algorithms of a token or a key; those that are not RSA signatures appear
    under their names only. *)
Inductive Algorithm := RS256 | RS384 | RS512 | OtherAlgorithm (name : string).

#[export] Instance Algorithm_eq_dec : EqDecision Algorithm.
Proof. solve_decision. Defined.

Module ExternalAuthConfig.
Record t := mk {
  provider : string; issuer : string; jwks_url : string; audience : string;
  algorithms : list Algorithm; authorized_parties : list string; required_scopes : list string;
  leeway_seconds : Z; max_token_lifetime_seconds : Z }.
End ExternalAuthConfig.
Module Config := ExternalAuthConfig.

Module ConfigError.
Inductive t :=
| PartialWithoutProvider | Missing (key : string) | ProviderRequired
| UnsupportedAlgorithm (name : string) | InvalidLeeway | InvalidMaxTokenLifetime | InvalidJwksUrl
| InsecureJwksUrl.
End ConfigError.

Definition PROVIDER_VAR : string := "PANDAR_EXTERNAL_AUTH_PROVIDER".
Definition ISSUER_VAR : string := "PANDAR_EXTERNAL_AUTH_ISSUER".
Definition JWKS_URL_VAR : string := "PANDAR_EXTERNAL_AUTH_JWKS_URL".
Definition AUDIENCE_VAR : string := "PANDAR_EXTERNAL_AUTH_AUDIENCE".
Definition ALGORITHMS_VAR : string := "PANDAR_EXTERNAL_AUTH_ALGORITHMS".
Definition AUTHORIZED_PARTIES_VAR : string := "PANDAR_EXTERNAL_AUTH_AUTHORIZED_PARTIES".
Definition REQUIRED_SCOPES_VAR : string := "PANDAR_EXTERNAL_AUTH_REQUIRED_SCOPES".
Definition LEEWAY_SECONDS_VAR : string := "PANDAR_EXTERNAL_AUTH_LEEWAY_SECONDS".
Definition MAX_TOKEN_LIFETIME_SECONDS_VAR : string := "PANDAR_EXTERNAL_AUTH_MAX_TOKEN_LIFETIME_SECONDS".

(** All but the provider. *)
Definition OPTION_VARS : list string :=
  [ISSUER_VAR; JWKS_URL_VAR; AUDIENCE_VAR; ALGORITHMS_VAR; AUTHORIZED_PARTIES_VAR;
   REQUIRED_SCOPES_VAR; LEEWAY_SECONDS_VAR; MAX_TOKEN_LIFETIME_SECONDS_VAR].
Definition EXTERNAL_AUTH_VARS : list string := PROVIDER_VAR :: OPTION_VARS.

(** [reqwest::Url::parse], as far as the scheme and the host go. *)
Class UrlParse := { url_parse : string -> option Url.t }.

Definition value (vars : gmap string string) (key : string) : option string :=
  opt_filter (fun v => negb (beq v EmptyString)) (option_map trim (vars !! key)).

Definition required (vars : gmap string string) (key : string) : result ConfigError.t string :=
  ok_or (value vars key) (ConfigError.Missing key).

(** An absent variable lists nothing. *)
Definition parse_csv (v : option string) : list string :=
  match v with
  | None => []
  | Some v => List.filter (fun entry => negb (beq entry EmptyString)) (map trim (split "," v))
  end.

Definition parse_algorithm (name : string) : result ConfigError.t Algorithm :=
  if beq name "RS256"%string then Ok RS256
  else if beq name "RS384"%string then Ok RS384
  else if beq name "RS512"%string then Ok RS512
  else Err (ConfigError.UnsupportedAlgorithm name).

Fixpoint parse_each (names : list string) : result ConfigError.t (list Algorithm) :=
  match names with
  | [] => Ok []
  | name :: names =>
      a <-? parse_algorithm name ;;
      rest <-? parse_each names ;;
      Ok (a :: rest)
  end.

Definition parse_algorithms (v : string) : result ConfigError.t (list Algorithm) :=
  match parse_csv (Some v) with
  | [] => Ok [RS256]
  | names => parse_each names
  end.

Definition local_jwks_host (host : string) : bool :=
  eq_ignore_ascii_case host "localhost" || is_some_and is_loopback (parse_ip_addr host).

Definition validate_jwks_url `{UrlParse} (v : string) : result ConfigError.t string :=
  match url_parse v with
  | None => Err ConfigError.InvalidJwksUrl
  | Some url =>
      if beq (Url.scheme url) "https"%string then Ok v
      else if beq (Url.scheme url) "http"%string then
        if is_some_and local_jwks_host (Url.host_str url) then Ok v
        else Err ConfigError.InsecureJwksUrl
      else Err ConfigError.InvalidJwksUrl
  end.

(** [.map(parse).transpose()?.unwrap_or(default)]. *)
Definition parsed_or {E A} (parse : string -> result E A) (default_value : A) (v : option string)
  : result E A :=
  match v with Some v => parse v | None => Ok default_value end.

Definition parse_leeway (v : string) : result ConfigError.t Z :=
  ok_or (parse_unsigned 10 u64_max v) ConfigError.InvalidLeeway.
Definition parse_lifetime (v : string) : result ConfigError.t Z :=
  ok_or (opt_filter (fun n => 0 <? n) (parse_unsigned 10 u64_max v)) ConfigError.InvalidMaxTokenLifetime.

(** The later of two entries for a variable counts. *)
Definition collect_vars (vars : list (string * string)) : gmap string string :=
  fold_left (fun m '(k, v) => <[k := v]> m) vars ∅.

Definition from_vars `{UrlParse} (vars : list (string * string))
  : result ConfigError.t (option Config.t) :=
  let vars := collect_vars vars in
  match value vars PROVIDER_VAR with
  | None =>
      if existsb (fun key => is_some (value vars key)) OPTION_VARS
      then Err ConfigError.PartialWithoutProvider else Ok None
  | Some provider =>
      if eq_ignore_ascii_case provider "none" then Err ConfigError.ProviderRequired
      else
        issuer <-? required vars ISSUER_VAR ;;
        jwks_url <-? required vars JWKS_URL_VAR ;;
        jwks_url <-? validate_jwks_url jwks_url ;;
        audience <-? required vars AUDIENCE_VAR ;;
        algorithms <-? parsed_or parse_algorithms [RS256] (value vars ALGORITHMS_VAR) ;;
        let authorized_parties := parse_csv (value vars AUTHORIZED_PARTIES_VAR) in
        let required_scopes := parse_csv (value vars REQUIRED_SCOPES_VAR) in
        leeway_seconds <-? parsed_or parse_leeway 60 (value vars LEEWAY_SECONDS_VAR) ;;
        max_token_lifetime_seconds <-?
          parsed_or parse_lifetime 86400 (value vars MAX_TOKEN_LIFETIME_SECONDS_VAR) ;;
        Ok (Some (Config.mk provider issuer jwks_url audience algorithms authorized_parties
                    required_scopes leeway_seconds max_token_lifetime_seconds))
  end.

(** [from_env] over the process environment. *)
Definition from_env `{UrlParse} (env : string -> option string)
  : result ConfigError.t (option Config.t) :=
  from_vars (omap (fun key => option_map (pair key) (opt_filter (fun v => negb (blank v)) (env key)))
               EXTERNAL_AUTH_VARS).

(** ** Claims ([verifier/claims.rs]) *)

Inductive AudienceClaim := One (v : string) | Many (vs : list string).

Definition audience_values (a : AudienceClaim) : list string :=
  match a with One v => [v] | Many vs => vs end.

Module JwtClaims.
Record t := mk {
  iss : string; sub : string; exp : Z; iat : Z; aud : option AudienceClaim; azp : option string;
  scope : option string; scp : list string; email : option string; email_verified : option bool;
  name : option string; preferred_username : option string }.
End JwtClaims.

Module VerifiedExternalIdentity.
Record t := mk {
  provider : string; subject : string; issuer : string; audiences : list string;
  authorized_party : option string; scopes : list string; email : option string;
  email_verified : option bool; name : option string; preferred_username : option string }.
End VerifiedExternalIdentity.
Module Verified := VerifiedExternalIdentity.

Module JwtVerifyError.
Inductive t :=
| InvalidHeader | MissingKeyId | UnsupportedAlgorithm | Jwks | UnknownKeyId | UnsupportedJwk
| JwkAlgorithmMismatch | InvalidClaims | MissingSubject | UnauthorizedParty | MissingScope
| InvalidTokenLifetime | TokenLifetimeExceeded.
End JwtVerifyError.

Definition nonblank (o : option string) : option string :=
  opt_filter (fun v => negb (beq v EmptyString)) (option_map trim o).

Definition verified_email (v : Verified.t) : option string :=
  match Verified.email v, Verified.email_verified v with
  | Some email, Some true => if negb (blank email) then Some (trim email) else None
  | _, _ => None
  end.

Definition display_name (v : Verified.t) : string :=
  default EmptyString
    (opt_or (nonblank (Verified.name v))
       (opt_or (nonblank (Verified.preferred_username v)) (verified_email v))).

Definition scopes_from_claims (claims : JwtClaims.t) : list string :=
  split_whitespace (default EmptyString (JwtClaims.scope claims)) ++ JwtClaims.scp claims.

Definition check_party (config : Config.t) (claims : JwtClaims.t) : result JwtVerifyError.t unit :=
  match Config.authorized_parties config with
  | [] => Ok tt
  | parties =>
      party <-? ok_or (JwtClaims.azp claims) JwtVerifyError.UnauthorizedParty ;;
      if existsb (fun allowed => beq allowed party) parties then Ok tt
      else Err JwtVerifyError.UnauthorizedParty
  end.

Definition verified_identity (config : Config.t) (claims : JwtClaims.t)
  : result JwtVerifyError.t Verified.t :=
  let subject := trim (JwtClaims.sub claims) in
  if beq subject EmptyString then Err JwtVerifyError.MissingSubject
  else
    _ <-? check_party config claims ;;
    let scopes := scopes_from_claims claims in
    if negb (forallb (fun scope => bool_decide (scope ∈ scopes)) (Config.required_scopes config))
    then Err JwtVerifyError.MissingScope
    else Ok (Verified.mk (Config.provider config) subject (JwtClaims.iss claims)
               (default [] (option_map audience_values (JwtClaims.aud claims)))
               (JwtClaims.azp claims) scopes (JwtClaims.email claims)
               (JwtClaims.email_verified claims) (JwtClaims.name claims)
               (JwtClaims.preferred_username claims)).

(** ** The verifier ([verifier.rs]) *)

Module Validation.
Record t := mk {
  algorithms : list Algorithm; iss : list string; aud : list string;
  required_spec_claims : list string; validate_exp : bool; validate_nbf : bool; leeway : Z }.
End Validation.

(** The [jsonwebtoken] crate.  [decode] answers only for a token that is signed
    with the key and whose issuer, audience and expiry the validation admits. *)
Class JwtLib := {
  Jwk : Type; jwk_key_id : Jwk -> option string; jwk_is_rsa : Jwk -> bool;
  jwk_key_algorithm : Jwk -> option Algorithm;
  DecodingKey : Type; from_jwk : Jwk -> option DecodingKey;
  decode_header : string -> option (Algorithm * option string);
  decode : string -> DecodingKey -> Validation.t -> Z -> option JwtClaims.t;
  signed_with : DecodingKey -> string -> Prop;
  decode_signed : forall token key v now claims,
    decode token key v now = Some claims -> signed_with key token;
  decode_issuer : forall token key v now claims,
    decode token key v now = Some claims -> JwtClaims.iss claims ∈ Validation.iss v;
  decode_audience : forall token key v now claims,
    decode token key v now = Some claims -> "aud"%string ∈ Validation.required_spec_claims v ->
    exists a, a ∈ default [] (option_map audience_values (JwtClaims.aud claims)) /\ a ∈ Validation.aud v;
  decode_unexpired : forall token key v now claims,
    decode token key v now = Some claims -> Validation.validate_exp v = true ->
    now - Validation.leeway v <= JwtClaims.exp claims }.

Section Verifier.
Context `{JwtLib}.

Record CachedJwks := mkCachedJwks { keys : list Jwk; fetched_at : Z }.

(** The cache; the refresh lock makes a refresh one step. *)
Definition verifier (A : Type) : Type := tx (option CachedJwks) JwtVerifyError.t A.

Definition JWKS_CACHE_TTL : Z := 300 * 1000000000.
Definition JWKS_REFRESH_COOLDOWN : Z := 30 * 1000000000.

Definition max_age (unknown_key : bool) : Z :=
  if unknown_key then JWKS_REFRESH_COOLDOWN else JWKS_CACHE_TTL.

(** What a refresh meets: the clock when it holds the lock, what the source
    answers, and the clock when it stores that. *)
Record RefreshWorld := mkRefreshWorld {
  checked_at : Z; loaded : option (list Jwk); stored_at : Z }.

(** The cached keys, when they are younger than the limit. *)
Definition fresh_keys (cache : option CachedJwks) (now limit : Z) : option (list Jwk) :=
  match cache with
  | Some cached => if now - fetched_at cached <? limit then Some (keys cached) else None
  | None => None
  end.

Definition refresh (unknown_key : bool) (w : RefreshWorld) : verifier (list Jwk) := fun cache =>
  match fresh_keys cache (checked_at w) (max_age unknown_key) with
  | Some ks => (cache, Ok ks)
  | None =>
      match loaded w with
      | None => (cache, Err JwtVerifyError.Jwks)
      | Some ks => (Some (mkCachedJwks ks (stored_at w)), Ok ks)
      end
  end.

Definition cached_or_fetch (read_at : Z) (w : RefreshWorld) : verifier (list Jwk) := fun cache =>
  match fresh_keys cache read_at JWKS_CACHE_TTL with
  | Some ks => (cache, Ok ks)
  | None => refresh false w cache
  end.

Definition refresh_for_unknown_key (w : RefreshWorld) : verifier (list Jwk) := refresh true w.

(** [JwkSet::find]. *)
Definition find_key (ks : list Jwk) (kid : string) : option Jwk :=
  List.find (fun k => beq (jwk_key_id k) (Some kid)) ks.

Definition key_algorithm_to_algorithm (a : Algorithm) : option Algorithm :=
  match a with
  | RS256 => Some RS256 | RS384 => Some RS384 | RS512 => Some RS512
  | OtherAlgorithm _ => None
  end.

Definition validate_jwk (jwk : Jwk) (header_algorithm : Algorithm) : result JwtVerifyError.t unit :=
  if negb (jwk_is_rsa jwk) then Err JwtVerifyError.UnsupportedJwk
  else match jwk_key_algorithm jwk with
       | None => Ok tt
       | Some key_algorithm =>
           match key_algorithm_to_algorithm key_algorithm with
           | None => Err JwtVerifyError.UnsupportedJwk
           | Some jwk_algorithm =>
               if negb (beq jwk_algorithm header_algorithm) then Err JwtVerifyError.JwkAlgorithmMismatch
               else Ok tt
           end
       end.

Definition validation (config : Config.t) : Validation.t :=
  Validation.mk (Config.algorithms config) [Config.issuer config] [Config.audience config]
    ["exp"; "iat"; "iss"; "sub"; "aud"]%string true true (Config.leeway_seconds config).

Definition saturating_add (a b : Z) : Z := Z.min u64_max (a + b).

Definition check_lifetime (config : Config.t) (claims : JwtClaims.t) (now : Z)
  : result JwtVerifyError.t unit :=
  if (JwtClaims.exp claims <? JwtClaims.iat claims)
     || (saturating_add now (Config.leeway_seconds config) <? JwtClaims.iat claims)
  then Err JwtVerifyError.InvalidTokenLifetime
  else if Config.max_token_lifetime_seconds config <? JwtClaims.exp claims - JwtClaims.iat claims
  then Err JwtVerifyError.TokenLifetimeExceeded
  else Ok tt.

(** What a verification meets: the clock at its look at the cache, its two
    possible refreshes, and the Unix time for [decode] and for the lifetime. *)
Record VerifyWorld := mkVerifyWorld {
  read_at : Z; first : RefreshWorld; second : RefreshWorld; decode_time : Z; unix_time : Z }.

Definition verify (config : Config.t) (w : VerifyWorld) (token : string) : verifier Verified.t :=
  header <~ tlift (ok_or (decode_header token) JwtVerifyError.InvalidHeader) ;;
  let '(alg, kid) := header in
  if negb (bool_decide (alg ∈ Config.algorithms config)) then tfail JwtVerifyError.UnsupportedAlgorithm
  else
    kid <~ tlift (ok_or kid JwtVerifyError.MissingKeyId) ;;
    jwks <~ cached_or_fetch (read_at w) (first w) ;;
    jwk <~ match find_key jwks kid with
           | Some jwk => tret jwk
           | None =>
               jwks <~ refresh_for_unknown_key (second w) ;;
               tlift (ok_or (find_key jwks kid) JwtVerifyError.UnknownKeyId)
           end ;;
    tlift (validate_jwk jwk alg) ~;;
    key <~ tlift (ok_or (from_jwk jwk) JwtVerifyError.UnsupportedJwk) ;;
    claims <~ tlift (ok_or (decode token key (validation config) (decode_time w))
                       JwtVerifyError.InvalidClaims) ;;
    tlift (check_lifetime config claims (Z.max 0 (unix_time w))) ~;;
    tlift (verified_identity config claims).

(** [verify_external_identity] of the routes: the token of the header, verified when
    a provider is configured. *)
Definition verify_external_identity (config : option Config.t) (w : VerifyWorld) (h : header)
  : tx (option CachedJwks) ApiError Verified.t :=
  token <~ tlift (bearer_token h) ;;
  match config with
  | None => tfail invalid_auth_token
  | Some config => fun cache =>
      let '(cache, r) := verify config w token cache in (cache, map_err (fun _ => invalid_auth_token) r)
  end.

(** [external_profile]: only a verified e-mail makes a profile. *)
Definition external_profile (v : Verified.t) : result ApiError ExternalIdentityProfile.t :=
  email <-? ok_or (verified_email v) (mkApiError BAD_REQUEST "external_email_unverified") ;;
  Ok (ExternalIdentityProfile.mk (Verified.provider v) (Verified.subject v) email (display_name v)).

Definition check_ready (w : VerifyWorld) : verifier unit :=
  cached_or_fetch (read_at w) (first w) ~;; tret tt.
End Verifier.

(** ** Facts *)

Lemma value_Some vars key v :
  value vars key = Some v -> v <> EmptyString /\ exists raw, vars !! key = Some raw /\ v = trim raw.
Proof.
  unfold value. rewrite opt_filter_Some. intros [E Hv]. bprop. split; [done|].
  destruct (vars !! key) as [raw|]; [|done]. injection E as <-. by exists raw.
Qed.

Lemma required_var_Ok vars key v : required vars key = Ok v -> v <> EmptyString.
Proof. unfold required. intros E. apply ok_or_Ok, value_Some in E. tauto. Qed.

Lemma parsed_or_Ok {E A} (parse : string -> result E A) d v (P : A -> Prop) a :
  (forall x b, parse x = Ok b -> P b) -> P d -> parsed_or parse d v = Ok a -> P a.
Proof. intros Hp Hd. destruct v; simpl; [by apply Hp|by intros [= <-]]. Qed.

Definition is_rsa (a : Algorithm) : bool := match a with OtherAlgorithm _ => false | _ => true end.

Lemma parse_each_rsa names algs : parse_each names = Ok algs -> Forall (fun a => is_rsa a = true) algs.
Proof.
  revert algs. induction names as [|n names IH]; intros algs; simpl; [by intros [= <-]|].
  intros E. apply rbind_Ok in E as (a & Ea & E). apply rbind_Ok in E as (rest & Er & E).
  injection E as <-. constructor; [|by apply IH].
  unfold parse_algorithm in Ea.
  destruct (beq n "RS256"); [by injection Ea as <-|].
  destruct (beq n "RS384"); [by injection Ea as <-|].
  destruct (beq n "RS512"); [by injection Ea as <-|done].
Qed.

Lemma parse_each_length names algs : parse_each names = Ok algs -> length algs = length names.
Proof.
  revert algs. induction names as [|n names IH]; intros algs; simpl; [by intros [= <-]|].
  intros E. apply rbind_Ok in E as (a & Ea & E). apply rbind_Ok in E as (rest & Er & E).
  injection E as <-. simpl. by rewrite (IH rest).
Qed.

Lemma parse_algorithms_Ok v algs :
  parse_algorithms v = Ok algs -> algs <> [] /\ Forall (fun a => is_rsa a = true) algs.
Proof.
  unfold parse_algorithms. destruct (parse_csv (Some v)) as [|n names].
  - intros [= <-]. split; [done|by repeat constructor].
  - intros E. split; [|by apply (parse_each_rsa (n :: names))].
    apply parse_each_length in E. by destruct algs.
Qed.

Lemma parse_unsigned_range max v n : 0 <= max -> parse_unsigned 10 max v = Some n -> 0 <= n <= max.
Proof. intros Hm E. by apply (parse_unsigned_bounds 10 max v n). Qed.

(** Reached over TLS, or on this very machine. *)
Definition trusted_url `{UrlParse} (v : string) : Prop :=
  exists url, url_parse v = Some url
    /\ (Url.scheme url = "https"%string
        \/ Url.scheme url = "http"%string
           /\ exists host, Url.host_str url = Some host /\ local_jwks_host host = true).

Lemma validate_jwks_url_Ok `{UrlParse} v v' : validate_jwks_url v = Ok v' -> v' = v /\ trusted_url v.
Proof.
  unfold validate_jwks_url. destruct (url_parse v) as [url|] eqn:Eu; [|done].
  destruct (beq (Url.scheme url) "https") eqn:Es.
  { intros [= <-]. rewrite beq_true in Es. split; [done|]. exists url. tauto. }
  destruct (beq (Url.scheme url) "http") eqn:Eh; [|done]. rewrite beq_true in Eh.
  destruct (is_some_and _ _) eqn:Ea; [|done]. intros [= <-]. split; [done|].
  rewrite is_some_and_true in Ea. destruct Ea as (host & Ehost & Hl). exists url. split; [done|]. right.
  split; [done|]. by exists host.
Qed.

(** A configuration read from the environment is complete and safe: all texts
    are there, the provider is not the word none, only RSA signatures are accepted
    and at least one kind is, the keys come over TLS or from this machine, and
    tokens have a bounded, positive lifetime. *)
Theorem from_vars_safe `{UrlParse} vars c :
  from_vars vars = Ok (Some c) ->
  Config.provider c <> EmptyString
  /\ eq_ignore_ascii_case (Config.provider c) "none" = false
  /\ Config.issuer c <> EmptyString /\ Config.audience c <> EmptyString
  /\ trusted_url (Config.jwks_url c)
  /\ Config.algorithms c <> [] /\ Forall (fun a => is_rsa a = true) (Config.algorithms c)
  /\ 0 <= Config.leeway_seconds c <= u64_max
  /\ 0 < Config.max_token_lifetime_seconds c <= u64_max
  /\ Forall (fun s => s <> EmptyString) (Config.authorized_parties c)
  /\ Forall (fun s => s <> EmptyString) (Config.required_scopes c).
Proof.
  unfold from_vars. set (m := collect_vars vars). destruct (value m PROVIDER_VAR) as [provider|] eqn:Ep.
  2:{ by destruct (existsb _ _). }
  destruct (eq_ignore_ascii_case provider "none") eqn:En; [done|]. intros E.
  apply rbind_Ok in E as (issuer & Ei & E). apply rbind_Ok in E as (url & Eu & E).
  apply rbind_Ok in E as (url' & Ev & E). apply rbind_Ok in E as (audience & Ea & E).
  apply rbind_Ok in E as (algs & Eal & E). cbv zeta in E.
  apply rbind_Ok in E as (leeway & El & E). apply rbind_Ok in E as (lifetime & Et & E).
  injection E as <-. cbn [Config.provider Config.issuer Config.audience Config.jwks_url
    Config.algorithms Config.leeway_seconds Config.max_token_lifetime_seconds
    Config.authorized_parties Config.required_scopes].
  apply validate_jwks_url_Ok in Ev as [-> Htrust]. apply value_Some in Ep as [Hp _].
  assert (forall v, Forall (fun s => s <> EmptyString) (parse_csv v)) as Hcsv.
  { intros [v|]; simpl; [|constructor]. apply List.Forall_forall. intros x Hx.
    apply filter_In in Hx as [_ Hx]. by bprop. }
  assert (algs <> [] /\ Forall (fun a => is_rsa a = true) algs) as [Hne Hrsa].
  { revert Eal. apply (parsed_or_Ok _ _ _ (fun algs => algs <> [] /\ Forall (fun a => is_rsa a = true) algs)).
    - apply parse_algorithms_Ok.
    - split; [done|by repeat constructor]. }
  assert (0 <= leeway <= u64_max) as Hl.
  { revert El. apply (parsed_or_Ok _ _ _ (fun n => 0 <= n <= u64_max)); [|done].
    intros x b Eb. apply ok_or_Ok in Eb. by apply parse_unsigned_range in Eb. }
  assert (0 < lifetime <= u64_max) as Hlt.
  { revert Et. apply (parsed_or_Ok _ _ _ (fun n => 0 < n <= u64_max)); [|done].
    intros x b Eb. apply ok_or_Ok in Eb. rewrite opt_filter_Some in Eb. destruct Eb as [Eb Hb].
    bprop. apply parse_unsigned_range in Eb; [lia|done]. }
  repeat match goal with |- _ /\ _ => split end; try done; try lia;
    try (by eapply required_var_Ok); apply Hcsv.
Qed.

Section VerifierFacts.
Context `{JwtLib}.

(** ** The key cache *)

(** A request for the provider's keys. *)
Record Load := mkLoad { asked_at : Z; answered_at : Z; succeeded : bool }.

(** The requests a sequence of refreshes makes; whatever verifications run
    concurrently, the refresh lock puts their refreshes in such a sequence. *)
Fixpoint loads (calls : list (bool * RefreshWorld)) (cache : option CachedJwks) : list Load :=
  match calls with
  | [] => []
  | (unknown_key, w) :: calls =>
      let rest := loads calls (fst (refresh unknown_key w cache)) in
      match fresh_keys cache (checked_at w) (max_age unknown_key) with
      | Some _ => rest
      | None => mkLoad (checked_at w) (stored_at w) (is_some (loaded w)) :: rest
      end
  end.

(** The clock never goes back. *)
Fixpoint clock_from (now : Z) (calls : list (bool * RefreshWorld)) : Prop :=
  match calls with
  | [] => True
  | (_, w) :: calls => now <= checked_at w <= stored_at w /\ clock_from (stored_at w) calls
  end.

Lemma stale_age cache now limit c :
  cache = Some c -> fresh_keys cache now limit = None -> fetched_at c + limit <= now.
Proof. intros ->. simpl. destruct (Z.ltb_spec (now - fetched_at c) limit); [done|lia]. Qed.

Lemma max_age_cooldown unknown_key : JWKS_REFRESH_COOLDOWN <= max_age unknown_key.
Proof. by destruct unknown_key. Qed.

(** No request follows a stored answer within the cooldown. *)
Lemma loads_after calls now c :
  clock_from now calls -> fetched_at c <= now ->
  Forall (fun l => fetched_at c + JWKS_REFRESH_COOLDOWN <= asked_at l) (loads calls (Some c)).
Proof.
  revert now c. induction calls as [|[u w] calls IH]; intros now c; cbn [clock_from loads]; [constructor|].
  intros [[Hc Hs] Hrest] Hf. unfold refresh.
  destruct (fresh_keys (Some c) (checked_at w) (max_age u)) as [ks|] eqn:E.
  - apply (IH (stored_at w)); [done|lia].
  - apply (stale_age _ _ _ c) in E; [|done]. pose proof (max_age_cooldown u) as Hm.
    constructor; [simpl; lia|]. destruct (loaded w) as [ks|]; cbn [fst].
    + eapply Forall_impl; [apply (IH (stored_at w)); [done|simpl; lia]|]. simpl. intros l Hl. lia.
    + apply (IH (stored_at w)); [done|lia].
Qed.

Lemma loads_spaced calls now cache :
  clock_from now calls -> (forall c, cache = Some c -> fetched_at c <= now) ->
  ForallOrdPairs (fun a b => succeeded a = true -> answered_at a + JWKS_REFRESH_COOLDOWN <= asked_at b)
    (loads calls cache).
Proof.
  revert now cache. induction calls as [|[u w] calls IH]; intros now cache; cbn [clock_from loads];
    [constructor|].
  intros [[Hc Hs] Hrest] Hf. unfold refresh.
  destruct (fresh_keys cache (checked_at w) (max_age u)) as [ks|] eqn:E.
  - apply (IH (stored_at w)); [done|]. intros c Ec. specialize (Hf c Ec). cbn [fst] in Ec. lia.
  - destruct (loaded w) as [ks|] eqn:El; cbn [fst]; constructor.
    + eapply Forall_impl; [apply (loads_after calls (stored_at w)); [done|simpl; lia]|].
      simpl. intros l Hl _. exact Hl.
    + apply (IH (stored_at w)); [done|]. intros c [= <-]. simpl. lia.
    + apply List.Forall_forall. done.
    + apply (IH (stored_at w)); [done|]. intros c Ec. specialize (Hf c Ec). lia.
Qed.

(** whatever keys the tokens name and however many verifications run, once the
    provider has answered it is not asked again within the cooldown. *)
Theorem jwks_requests_spaced calls now :
  clock_from now calls ->
  ForallOrdPairs (fun a b => succeeded a = true -> answered_at a + JWKS_REFRESH_COOLDOWN <= asked_at b)
    (loads calls None).
Proof. intros Hc. by apply (loads_spaced calls now). Qed.

(** ** Verification *)

(** The keys a verification works with are the cached ones, and not stale. *)
Lemma refresh_Ok unknown_key w cache cache' ks :
  refresh unknown_key w cache = (cache', Ok ks) ->
  exists t, cache' = Some (mkCachedJwks ks t)
            /\ (checked_at w - t < max_age unknown_key \/ t = stored_at w).
Proof.
  unfold refresh. destruct (fresh_keys _ _ _) as [ks'|] eqn:E.
  - intros [= <- <-]. destruct cache as [[ks0 t]|]; simpl in E; [|done].
    destruct (Z.ltb_spec (checked_at w - t) (max_age unknown_key)); [|done]. injection E as ->.
    exists t. tauto.
  - destruct (loaded w); [|done]. intros [= <- <-]. eexists. split; [done|by right].
Qed.

Lemma cached_or_fetch_Ok r w cache cache' ks :
  cached_or_fetch r w cache = (cache', Ok ks) ->
  exists t, cache' = Some (mkCachedJwks ks t)
    /\ (r - t < JWKS_CACHE_TTL \/ checked_at w - t < JWKS_CACHE_TTL \/ t = stored_at w).
Proof.
  unfold cached_or_fetch. destruct (fresh_keys _ _ _) as [ks'|] eqn:E.
  - intros [= <- <-]. destruct cache as [[ks0 t]|]; simpl in E; [|done].
    destruct (Z.ltb_spec (r - t) JWKS_CACHE_TTL); [|done]. injection E as ->.
    exists t. tauto.
  - intros Er. apply refresh_Ok in Er as (t & -> & Ht). exists t. simpl in Ht. tauto.
Qed.

(** What the claims must say. *)
Definition claims_accepted (config : Config.t) (claims : JwtClaims.t) (decode_time unix_time : Z) : Prop :=
  JwtClaims.iss claims = Config.issuer config
  /\ Config.audience config ∈ default [] (option_map audience_values (JwtClaims.aud claims))
  /\ decode_time - Config.leeway_seconds config <= JwtClaims.exp claims
  /\ JwtClaims.iat claims <= Z.max 0 unix_time + Config.leeway_seconds config
  /\ 0 <= JwtClaims.exp claims - JwtClaims.iat claims <= Config.max_token_lifetime_seconds config
  /\ (Config.authorized_parties config = []
      \/ exists party, JwtClaims.azp claims = Some party /\ party ∈ Config.authorized_parties config)
  /\ forall scope, scope ∈ Config.required_scopes config -> scope ∈ scopes_from_claims claims.

(** The identity that claims say, under the name of the provider. *)
Definition identity_of (config : Config.t) (claims : JwtClaims.t) : Verified.t :=
  Verified.mk (Config.provider config) (trim (JwtClaims.sub claims)) (JwtClaims.iss claims)
    (default [] (option_map audience_values (JwtClaims.aud claims)))
    (JwtClaims.azp claims) (scopes_from_claims claims) (JwtClaims.email claims)
    (JwtClaims.email_verified claims) (JwtClaims.name claims) (JwtClaims.preferred_username claims).

Lemma verified_identity_Ok config claims v :
  verified_identity config claims = Ok v ->
  v = identity_of config claims /\ Verified.subject v <> EmptyString
  /\ (Config.authorized_parties config = []
      \/ exists party, JwtClaims.azp claims = Some party /\ party ∈ Config.authorized_parties config)
  /\ forall scope, scope ∈ Config.required_scopes config -> scope ∈ scopes_from_claims claims.
Proof.
  unfold verified_identity. cbv zeta. destruct (beq _ _) eqn:Es; [done|]. apply beq_false in Es.
  intros E. apply rbind_Ok in E as ([] & Ep & E).
  destruct (forallb _ _) eqn:Ef; [|done]. cbn [negb] in E. injection E as <-.
  split; [done|]. split; [done|]. split.
  - unfold check_party in Ep. destruct (Config.authorized_parties config) as [|p ps]; [by left|right].
    apply rbind_Ok in Ep as (party & Ea & Ep). apply ok_or_Ok in Ea. exists party. split; [done|].
    destruct (existsb _ _) eqn:Ex; [|done]. apply existsb_exists in Ex as (x & Hx & Hb).
    rewrite beq_true in Hb. subst x. by apply list_elem_of_In.
  - intros scope Hs. rewrite forallb_forall in Ef. apply list_elem_of_In in Hs.
    specialize (Ef scope Hs). by apply bool_decide_eq_true in Ef.
Qed.

Lemma check_lifetime_Ok config claims now :
  check_lifetime config claims now = Ok tt ->
  JwtClaims.iat claims <= now + Config.leeway_seconds config
  /\ 0 <= JwtClaims.exp claims - JwtClaims.iat claims <= Config.max_token_lifetime_seconds config.
Proof.
  unfold check_lifetime, saturating_add. destruct (_ || _) eqn:E1; [done|].
  destruct (Config.max_token_lifetime_seconds config <? JwtClaims.exp claims - JwtClaims.iat claims) eqn:E2;
    [done|].
  bprop. intros _. lia.
Qed.

(** What stands behind a verified token: the claims that it decodes to, with the key of the
    provider that its header names, are accepted, and the identity is what they say. *)
Definition vouched (config : Config.t) (w : VerifyWorld) (token : string)
    (cache : option CachedJwks) (v : Verified.t) : Prop :=
  exists alg kid ks t jwk key claims,
    decode_header token = Some (alg, Some kid) /\ alg ∈ Config.algorithms config
    /\ cache = Some (mkCachedJwks ks t) /\ find_key ks kid = Some jwk
    /\ jwk_is_rsa jwk = true
    /\ (jwk_key_algorithm jwk = None \/ jwk_key_algorithm jwk = Some alg)
    /\ from_jwk jwk = Some key /\ signed_with key token
    /\ decode token key (validation config) (decode_time w) = Some claims
    /\ claims_accepted config claims (decode_time w) (unix_time w)
    /\ v = identity_of config claims /\ Verified.subject v <> EmptyString.

(** C26: a verified identity comes from a token that is signed with an RSA key of the
    provider found in the cache by the token's key id, of an algorithm the
    configuration allows and the key agrees with.  The claims this very token decodes to
    with that key are of the provider and for this hub, unexpired, of bounded lifetime,
    from an allowed party and with all required scopes; and the identity carries the
    provider's name and what these claims say - the subject, never an empty one, and the
    issuer, audiences, party, scopes, e-mail and names - and nothing else. *)
Theorem verified_identity_vouched config w token cache cache' v :
  verify config w token cache = (cache', Ok v) -> vouched config w token cache' v.
Proof.
  unfold verify. intros E. apply tbind_Ok in E as (c1 & [alg kid'] & Eh & E).
  apply tlift_Ok in Eh as [-> Eh]. apply ok_or_Ok in Eh.
  destruct (bool_decide (alg ∈ _)) eqn:Ealg; [|done]. cbn [negb] in E. apply bool_decide_eq_true in Ealg.
  apply tbind_Ok in E as (c1 & kid & Ek & E). apply tlift_Ok in Ek as [-> Ek]. apply ok_or_Ok in Ek as ->.
  apply tbind_Ok in E as (c1 & ks & Ec & E). apply cached_or_fetch_Ok in Ec as (t & -> & _).
  apply tbind_Ok in E as (c2 & jwk & Ej & E).
  assert (exists ks t, c2 = Some (mkCachedJwks ks t) /\ find_key ks kid = Some jwk) as (ks' & t' & -> & Hk).
  { destruct (find_key ks kid) as [jwk'|] eqn:Ef.
    - apply tret_Ok in Ej as [-> ->]. by exists ks, t.
    - apply tbind_Ok in Ej as (c3 & ks2 & Er & Ej). apply refresh_Ok in Er as (t2 & -> & _).
      apply tlift_Ok in Ej as [-> Ej]. apply ok_or_Ok in Ej. by exists ks2, t2. }
  apply tbind_Ok in E as (c3 & [] & Ev & E). apply tlift_Ok in Ev as [-> Ev].
  apply tbind_Ok in E as (c3 & key & Ekey & E). apply tlift_Ok in Ekey as [-> Ekey]. apply ok_or_Ok in Ekey.
  apply tbind_Ok in E as (c3 & claims & Ecl & E). apply tlift_Ok in Ecl as [-> Ecl]. apply ok_or_Ok in Ecl.
  apply tbind_Ok in E as (c3 & [] & Elt & E). apply tlift_Ok in Elt as [-> Elt].
  apply tlift_Ok in E as [-> E]. apply verified_identity_Ok in E as (Ev' & Hne & Hparty & Hscopes).
  apply check_lifetime_Ok in Elt as [Hiat Hlife].
  exists alg, kid, ks', t', jwk, key, claims.
  unfold validate_jwk in Ev. destruct (jwk_is_rsa jwk); [|done]. cbn [negb] in Ev.
  repeat match goal with |- _ /\ _ => split end; try done.
  - destruct (jwk_key_algorithm jwk) as [ka|]; [|by left]. right.
    destruct (key_algorithm_to_algorithm ka) as [ja|] eqn:Eka; [|done].
    destruct (beq ja alg) eqn:Eb; [|done]. rewrite beq_true in Eb. subst ja.
    destruct ka; simpl in Eka; congruence.
  - by apply decode_signed in Ecl.
  - repeat split; try done; try lia.
    + apply decode_issuer in Ecl. simpl in Ecl. by apply list_elem_of_singleton in Ecl.
    + apply decode_audience in Ecl as (a & Ha & Ha'); [|simpl; set_solver].
      simpl in Ha'. apply list_elem_of_singleton in Ha' as ->. done.
    + by apply decode_unexpired in Ecl.
Qed.
End VerifierFacts.

(** ** Witnesses *)

Definition secure_urls : UrlParse := {|
  url_parse := fun s =>
    if starts_with "https://issuer/"%string s
    then Some (Url.mk "https" (Some "issuer"%string) "/" None) else None |}.

Definition sample_vars : list (string * string) :=
  [(PROVIDER_VAR, " oidc "%string); (ISSUER_VAR, "https://issuer/"%string);
   (JWKS_URL_VAR, "https://issuer/jwks"%string); (AUDIENCE_VAR, "pandar"%string);
   (ALGORITHMS_VAR, "RS512, RS256"%string); (REQUIRED_SCOPES_VAR, "prints,,read "%string)].

Definition sample_config : Config.t :=
  Config.mk "oidc" "https://issuer/" "https://issuer/jwks" "pandar" [RS512; RS256] []
    ["prints"; "read"]%string 60 86400.

Lemma from_vars_safe_witness :
  @from_vars secure_urls sample_vars = Ok (Some sample_config)
  /\ Forall (fun a => is_rsa a = true) (Config.algorithms sample_config).
Proof.
  assert (@from_vars secure_urls sample_vars = Ok (Some sample_config)) as E by (vm_compute; reflexivity).
  split; [exact E|].
  destruct (@from_vars_safe secure_urls sample_vars sample_config E)
    as (_ & _ & _ & _ & _ & _ & Hrsa & _). exact Hrsa.
Defined.

Definition sample_claims : JwtClaims.t :=
  JwtClaims.mk "https://issuer/" " ann " 5000 4000 (Some (Many ["other"; "pandar"]%string)) None
    (Some "read"%string) ["prints"%string] (Some "ann@farm"%string) (Some true) None None.

(** One token, signed with the key of the id [k1]. *)
Definition toy_decode (token key : string) (v : Validation.t) (now : Z) : option JwtClaims.t :=
  if beq token "token"%string && beq key "k1"%string
     && bool_decide (JwtClaims.iss sample_claims ∈ Validation.iss v)
     && existsb (fun a => bool_decide (a ∈ Validation.aud v)) ["other"; "pandar"]%string
     && (now - Validation.leeway v <=? JwtClaims.exp sample_claims)
  then Some sample_claims else None.

Lemma toy_decode_Some token key v now claims :
  toy_decode token key v now = Some claims ->
  claims = sample_claims /\ token = "token"%string /\ key = "k1"%string
  /\ JwtClaims.iss sample_claims ∈ Validation.iss v
  /\ (exists a, a ∈ ["other"; "pandar"]%string /\ a ∈ Validation.aud v)
  /\ now - Validation.leeway v <= JwtClaims.exp sample_claims.
Proof.
  unfold toy_decode. destruct (_ && _) eqn:E; [|done]. intros [= <-].
  rewrite !andb_true_iff, !beq_true, existsb_exists, bool_decide_eq_true, Z.leb_le in E.
  destruct E as [[[[-> ->] Hi] (a & Ha & Hv)] Hn]. apply bool_decide_eq_true in Hv.
  repeat split; try done. exists a. split; [by apply list_elem_of_In|done].
Qed.

Definition toy_jwt : JwtLib.
Proof.
  refine {| Jwk := string; jwk_key_id k := Some k; jwk_is_rsa _ := true;
            jwk_key_algorithm _ := Some RS256; DecodingKey := string; from_jwk k := Some k;
            decode_header token := if beq token "token"%string then Some (RS256, Some "k1"%string) else None;
            decode := toy_decode; signed_with key token := key = "k1"%string /\ token = "token"%string |}.
  - intros token key v now claims E. apply toy_decode_Some in E. tauto.
  - intros token key v now claims E. apply toy_decode_Some in E as (-> & E). tauto.
  - intros token key v now claims E _. apply toy_decode_Some in E as (-> & _ & _ & _ & E & _). exact E.
  - intros token key v now claims E _. apply toy_decode_Some in E as (-> & E). tauto.
Defined.

Definition toy_refresh (keys : list string) (t : Z) : @RefreshWorld toy_jwt :=
  @mkRefreshWorld toy_jwt t (Some keys) t.

(** A verification that finds the key only after its second look. *)
Definition toy_world : @VerifyWorld toy_jwt :=
  @mkVerifyWorld toy_jwt 0 (toy_refresh ["k0"%string] 0)
    (toy_refresh ["k0"; "k1"]%string (40 * 1000000000)) 4500 4500.

Lemma verified_identity_vouched_witness :
  exists cache v, @verify toy_jwt sample_config toy_world "token" None = (cache, Ok v)
                  /\ @vouched toy_jwt sample_config toy_world "token" cache v.
Proof.
  destruct (@verify toy_jwt sample_config toy_world "token" None) as [cache res] eqn:E.
  assert (exists v, res = Ok v) as [v ->].
  { change res with (snd (cache, res)). rewrite <- E. vm_compute. eexists. reflexivity. }
  exists cache, v. split; [reflexivity|].
  exact (@verified_identity_vouched toy_jwt sample_config toy_world "token" None cache v E).
Defined.

(** Requests for unknown keys, ten seconds apart. *)
Definition toy_calls : list (bool * @RefreshWorld toy_jwt) :=
  map (fun k => (true, toy_refresh ["k0"%string] (Z.of_nat k * 10 * 1000000000))) (seq 0 8).

Lemma jwks_requests_spaced_witness :
  map asked_at (@loads toy_jwt toy_calls None) = map (fun n => n * 1000000000) [0; 30; 60]
  /\ ForallOrdPairs (fun a b => succeeded a = true -> answered_at a + JWKS_REFRESH_COOLDOWN <= asked_at b)
       (@loads toy_jwt toy_calls None).
Proof.
  split; [vm_compute; reflexivity|].
  apply (@jwks_requests_spaced toy_jwt toy_calls 0). vm_compute. repeat split; discriminate.
Defined.
