(* ===== verification/Presets.v ===== *)
(** * Personal presets

    [repositories/personal_presets.rs] with [validation.rs], [mutation_support.rs]
    and [mutations.rs], and the routes of [routes/plugin/personal_presets.rs]: the
    slicer presets a user keeps in the Hub, each owner's under a clock that moves
    forward with every change.  A preset's options are a [gmap]: no outcome depends
    on the order a [BTreeMap] is read in ([validate_entries_perm]). *)

From stdpp Require Import sorting.
From S2P Require Import Prelude RustStr CoreTypes CoreRecords Json Store Tx JobRows JobTables Accounts Onboarding Credentials Authorization.

#[local] Open Scope Z_scope.
#[local] Open Scope rust_scope.
#[local] Open Scope tx_scope.

(** ** Rows *)

Module PresetsModel.
Record t := mk {
  id : string; tenant_id : string; owner_user_id : string; preset_type : string; name : string;
  version : string; base_id : string; inherits : option string; filament_id : option string;
  options_json : string; updated_time : Z; created_at : string; updated_at : string }.
End PresetsModel.

Module ClocksModel.
Record t := mk { tenant_id : string; owner_user_id : string; last_updated_time : Z }.
End ClocksModel.

Module PresetsDb.
Record t := mk { accounts : Acc.t; presets : list PresetsModel.t; clocks : list ClocksModel.t }.
End PresetsDb.
Module Pdb := PresetsDb.

(** ** Presets *)

Module PersonalPresetType.
Inductive t := Print_ | Filament | Printer.

Definition as_str (p : t) : string :=
  match p with Print_ => "print" | Filament => "filament" | Printer => "printer" end.

Definition parse (value : string) : result RepositoryError t :=
  if beq value "print"%string then Ok Print_
  else if beq value "filament"%string then Ok Filament
  else if beq value "printer"%string then Ok Printer
  else Err InvalidPersistedPersonalPreset.
End PersonalPresetType.

#[export] Instance PersonalPresetType_eq_dec : EqDecision PersonalPresetType.t.
Proof. solve_decision. Defined.

Module PersonalPresetMetadata.
Record t := mk {
  id : string; preset_type : PersonalPresetType.t; name : string; version : string;
  base_id : string; inherits : option string; filament_id : option string; updated_time : Z }.
End PersonalPresetMetadata.

Module PersonalPreset.
Record t := mk {
  id : string; tenant_id : TenantId; owner_user_id : string; preset_type : PersonalPresetType.t;
  name : string; version : string; base_id : string; inherits : option string;
  filament_id : option string; options : gmap string string; updated_time : Z;
  created_at : string; updated_at : string }.
End PersonalPreset.

Module CreatePersonalPreset.
Record t := mk {
  preset_type : PersonalPresetType.t; name : string; version : string; base_id : string;
  inherits : option string; filament_id : option string; options : gmap string string }.
End CreatePersonalPreset.
Module Cpp := CreatePersonalPreset.

(** [serde_json] on a [BTreeMap<String, String>]. *)
Class PresetOptionsJson := {
  options_to_string : gmap string string -> option string;
  options_from_str : string -> option (gmap string string);
  options_round_trip : forall m text, options_to_string m = Some text -> options_from_str text = Some m;
}.

(** ** Validation ([validation.rs]) *)

Definition OWNER_PRESET_LIMIT : Z := 1000.
Definition MAX_MAP_BYTES : Z := 350 * 1024.
Definition MAX_KEY_BYTES : Z := 256.
Definition MAX_VALUE_BYTES : Z := 64 * 1024.
Definition MAX_NAME_BYTES : Z := 255.

Definition len (s : string) : Z := Z.of_nat (String.length s).
Definition has_nul (s : string) : bool := str_exists (byte_is 0) s.

Definition digits (part : string) : bool := negb (beq part EmptyString) && str_forall is_digit part.

Definition valid_version (version : string) : bool :=
  let parts := split "."%char version in
  forallb digits parts && (3 <=? length parts)%nat.

Definition envelope_bytes (input : Cpp.t) : Z :=
  foldr (fun kv total => len kv.1 + len kv.2 + total) 0
    [("name"%string, Cpp.name input);
     ("type"%string, PersonalPresetType.as_str (Cpp.preset_type input));
     ("version"%string, Cpp.version input);
     ("base_id"%string, Cpp.base_id input);
     ("inherits"%string, default EmptyString (Cpp.inherits input));
     ("filament_id"%string, default EmptyString (Cpp.filament_id input))].

Definition saturating_add (a b : Z) : Z := Z.min u64_max (a + b).

Definition valid_entry (key value : string) : bool :=
  negb (beq key EmptyString || (MAX_KEY_BYTES <? len key) || has_nul key
        || (MAX_VALUE_BYTES <? len value)).

(** The loop of [validate_map]. *)
Fixpoint validate_entries (entries : list (string * string)) (bytes : Z) : result RepositoryError unit :=
  match entries with
  | [] => if MAX_MAP_BYTES <? bytes then Err PersonalPresetTooLarge else Ok tt
  | (key, value) :: entries =>
      if valid_entry key value
      then validate_entries entries (saturating_add (saturating_add bytes (len key)) (len value))
      else Err InvalidPersonalPreset
  end.

Definition validate_map (options : gmap string string) (envelope : Z) : result RepositoryError unit :=
  validate_entries (map_to_list options) envelope.

Definition validate (input : Cpp.t) : result RepositoryError unit :=
  if blank (Cpp.name input) || (MAX_NAME_BYTES <? len (Cpp.name input)) || has_nul (Cpp.name input)
  then Err InvalidPersonalPreset
  else if beq (Cpp.version input) EmptyString || negb (valid_version (Cpp.version input))
  then Err InvalidPersonalPreset
  else if negb (beq (Cpp.preset_type input) PersonalPresetType.Filament)
          && is_some (Cpp.filament_id input)
  then Err InvalidPersonalPreset
  else validate_map (Cpp.options input) (envelope_bytes input).

Section Presets.
Context `{Store} `{UuidText} `{AuditJson} `{PresetOptionsJson}.

Definition presets_tx (A : Type) : Type := tx Pdb.t RepositoryError A.

Definition on_accounts {A} (m : acct A) : presets_tx A :=
  zoom Pdb.accounts (fun a s => s <| Pdb.accounts := a |>) m.

Definition metadata_from_model (m : PresetsModel.t) : result RepositoryError PersonalPresetMetadata.t :=
  preset_type <-? PersonalPresetType.parse (PresetsModel.preset_type m) ;;
  Ok (PersonalPresetMetadata.mk (PresetsModel.id m) preset_type (PresetsModel.name m)
        (PresetsModel.version m) (PresetsModel.base_id m) (PresetsModel.inherits m)
        (PresetsModel.filament_id m) (PresetsModel.updated_time m)).

Definition preset_from_model (m : PresetsModel.t) : result RepositoryError PersonalPreset.t :=
  options <-? ok_or (options_from_str (PresetsModel.options_json m)) InvalidPersistedPersonalPreset ;;
  tenant_id <-? db_err (TenantId_parse (PresetsModel.tenant_id m)) ;;
  preset_type <-? PersonalPresetType.parse (PresetsModel.preset_type m) ;;
  Ok (PersonalPreset.mk (PresetsModel.id m) tenant_id (PresetsModel.owner_user_id m) preset_type
        (PresetsModel.name m) (PresetsModel.version m) (PresetsModel.base_id m)
        (PresetsModel.inherits m) (PresetsModel.filament_id m) options
        (PresetsModel.updated_time m) (PresetsModel.created_at m) (PresetsModel.updated_at m)).

(** The rows of an owner. *)
Definition owned_preset (tenant_id : TenantId) (owner : string) (r : PresetsModel.t) : bool :=
  beq (PresetsModel.tenant_id r) (TenantId_to_string tenant_id)
  && beq (PresetsModel.owner_user_id r) owner.

Definition preset_row (tenant_id : TenantId) (owner id : string) (r : PresetsModel.t) : bool :=
  beq (PresetsModel.id r) id && owned_preset tenant_id owner r.

(** [ORDER BY updated_time ASC, id ASC]. *)
Definition by_update (a b : PresetsModel.t) : Prop :=
  (PresetsModel.updated_time a <? PresetsModel.updated_time b)
  || ((PresetsModel.updated_time a =? PresetsModel.updated_time b)
      && text_le (PresetsModel.id a) (PresetsModel.id b)).

#[export] Instance by_update_dec : RelDecision by_update.
Proof. intros a b. unfold by_update. apply _. Defined.

Definition list_metadata (tenant_id : TenantId) (owner : string)
  : presets_tx (list PersonalPresetMetadata.t) :=
  tread (fun s => collect metadata_from_model
    (merge_sort by_update (select (owned_preset tenant_id owner) (Pdb.presets s)))).

Definition get (tenant_id : TenantId) (owner setting_id : string)
  : presets_tx (option PersonalPreset.t) :=
  tread (fun s => traverse_opt preset_from_model
    (select_one (preset_row tenant_id owner setting_id) (Pdb.presets s))).

(** ** Support of the mutations ([mutation_support.rs]) *)

Definition lock_owner (tenant_id : TenantId) (owner : string) : presets_tx unit :=
  on_accounts (ensure_user_exists tenant_id owner).

Definition find_by_name (tenant_id : TenantId) (owner name : string)
  : presets_tx (option PresetsModel.t) :=
  tread (fun s => Ok (select_one
    (fun r => owned_preset tenant_id owner r && beq (PresetsModel.name r) name) (Pdb.presets s))).

Definition clock_row (tenant_id : TenantId) (owner : string) (r : ClocksModel.t) : bool :=
  beq (ClocksModel.tenant_id r) (TenantId_to_string tenant_id)
  && beq (ClocksModel.owner_user_id r) owner.

(** [OffsetDateTime::unix_timestamp]. *)
Definition unix_timestamp (now : Z) : Z := now / 1000000000.

Definition advance_clock (now : Z) (tenant_id : TenantId) (owner : string) : presets_tx Z := fun s =>
  let now := unix_timestamp now in
  match select_one (clock_row tenant_id owner) (Pdb.clocks s) with
  | None =>
      (s <| Pdb.clocks := insert_row (ClocksModel.mk (TenantId_to_string tenant_id) owner now)
                            (Pdb.clocks s) |>, Ok now)
  | Some model =>
      if ClocksModel.last_updated_time model =? i64_max then (s, Err PersonalPresetClockExhausted)
      else
        let next := Z.max now (ClocksModel.last_updated_time model + 1) in
        let '(rows, affected) := update_many (clock_row tenant_id owner)
              (fun r => r <| ClocksModel.last_updated_time := next |>) (Pdb.clocks s) in
        if affected =? 0 then (s, Err Database) else (s <| Pdb.clocks := rows |>, Ok next)
  end.

Definition replay_matches (existing : PersonalPreset.t) (input : Cpp.t) : bool :=
  beq (PersonalPreset.preset_type existing) (Cpp.preset_type input)
  && beq (PersonalPreset.version existing) (Cpp.version input)
  && beq (PersonalPreset.base_id existing) (Cpp.base_id input)
  && beq (PersonalPreset.inherits existing) (Cpp.inherits input)
  && beq (PersonalPreset.filament_id existing) (Cpp.filament_id input)
  && beq (PersonalPreset.options existing) (Cpp.options input).

Definition encode_options (input : Cpp.t) : result RepositoryError string :=
  ok_or (options_to_string (Cpp.options input)) Database.

Definition preset_audit (preset : PersonalPreset.t) (byte_size : Z) : json :=
  Object [("byte_size"%string, Num (PosInt byte_size));
          ("preset_type"%string, Str (PersonalPresetType.as_str (PersonalPreset.preset_type preset)))].

Definition audit (id now : string) (tenant_id : TenantId) (actor : AuditActor.t) (action : string)
    (preset : PersonalPreset.t) (byte_size : Z) : presets_tx unit :=
  on_accounts (insert_account_event
    (record_audit_event id now tenant_id actor action "personal_preset"
       (Some (PersonalPreset.id preset)) (preset_audit preset byte_size))).

(** ** Mutations ([mutations.rs]) *)

Definition owner_known (s : Pdb.t) (tenant owner : string) : bool :=
  is_some (select_one (fun u => beq (UsersModel.id u) owner && beq (UsersModel.tenant_id u) tenant)
             (Acc.users (Pdb.accounts s))).

(** The unique key of a preset. *)
Definition same_name (r r' : PresetsModel.t) : bool :=
  beq (PresetsModel.tenant_id r') (PresetsModel.tenant_id r)
  && beq (PresetsModel.owner_user_id r') (PresetsModel.owner_user_id r)
  && beq (PresetsModel.name r') (PresetsModel.name r).

Definition insert_preset (row : PresetsModel.t) : presets_tx PresetsModel.t := fun s =>
  if existsb (fun r => beq (PresetsModel.id r) (PresetsModel.id row)) (Pdb.presets s)
  then (s, Err Database)
  else match try_insert (same_name row) row (Pdb.presets s) with
       | None => (s, Err DuplicatePersonalPresetName)
       | Some rows =>
           if owner_known s (PresetsModel.tenant_id row) (PresetsModel.owner_user_id row)
           then (s <| Pdb.presets := rows |>, Ok row) else (s, Err Database)
       end.

Definition create_in_transaction (d : Draws) (tenant_id : TenantId) (owner : string) (input : Cpp.t)
    (options_json : string) (actor : AuditActor.t) : presets_tx PersonalPreset.t :=
  lock_owner tenant_id owner ~;;
  found <~ find_by_name tenant_id owner (Cpp.name input) ;;
  match found with
  | Some existing =>
      existing <~ tlift (preset_from_model existing) ;;
      if replay_matches existing input then tret existing else tfail DuplicatePersonalPresetName
  | None =>
      rows <~ tread (fun s => Ok (select (owned_preset tenant_id owner) (Pdb.presets s))) ;;
      if OWNER_PRESET_LIMIT <=? Z.of_nat (length rows) then tfail PersonalPresetLimitExceeded
      else
        updated_time <~ advance_clock (now_utc d 0) tenant_id owner ;;
        let now := clock d 0 in
        model <~ insert_preset
          (PresetsModel.mk (uuids d 0) (TenantId_to_string tenant_id) owner
             (PersonalPresetType.as_str (Cpp.preset_type input)) (Cpp.name input) (Cpp.version input)
             (Cpp.base_id input) (Cpp.inherits input) (Cpp.filament_id input) options_json
             updated_time now now) ;;
        preset <~ tlift (preset_from_model model) ;;
        audit (uuids d 1) (clock d 1) tenant_id actor "personal_preset.create" preset (len options_json) ~;;
        tret preset
  end.

Definition create (d : Draws) (tenant_id : TenantId) (owner : string) (input : Cpp.t)
    (actor : AuditActor.t) : presets_tx PersonalPreset.t :=
  tlift (validate input) ~;;
  options_json <~ tlift (encode_options input) ;;
  transaction (create_in_transaction d tenant_id owner input options_json actor).

(** The columns a replacement sets. *)
Definition replaced (input : Cpp.t) (options_json : string) (updated_time : Z) (now : string)
    (m : PresetsModel.t) : PresetsModel.t :=
  PresetsModel.mk (PresetsModel.id m) (PresetsModel.tenant_id m) (PresetsModel.owner_user_id m)
    (PersonalPresetType.as_str (Cpp.preset_type input)) (Cpp.name input) (Cpp.version input)
    (Cpp.base_id input) (Cpp.inherits input) (Cpp.filament_id input) options_json updated_time
    (PresetsModel.created_at m) now.

(** [active.update(tx)]: the unique key must stay free of other rows. *)
Definition update_preset (f : PresetsModel.t -> PresetsModel.t) (model : PresetsModel.t)
  : presets_tx PresetsModel.t := fun s =>
  let updated := f model in
  if existsb (fun r => same_name updated r && negb (beq (PresetsModel.id r) (PresetsModel.id model)))
       (Pdb.presets s)
  then (s, Err DuplicatePersonalPresetName)
  else
    let '(rows, affected) := update_many (fun r => beq (PresetsModel.id r) (PresetsModel.id model)) f
                               (Pdb.presets s) in
    if affected =? 0 then (s, Err Database) else (s <| Pdb.presets := rows |>, Ok updated).

Definition replace_in_transaction (d : Draws) (tenant_id : TenantId) (owner id : string)
    (input : Cpp.t) (options_json : string) (actor : AuditActor.t) : presets_tx PersonalPreset.t :=
  lock_owner tenant_id owner ~;;
  found <~ tread (fun s => Ok (select_one (preset_row tenant_id owner id) (Pdb.presets s))) ;;
  model <~ tlift (ok_or found MissingPersonalPreset) ;;
  named <~ find_by_name tenant_id owner (Cpp.name input) ;;
  if is_some_and (fun named => negb (beq (PresetsModel.id named) id)) named
  then tfail DuplicatePersonalPresetName
  else
    updated_time <~ advance_clock (now_utc d 0) tenant_id owner ;;
    updated <~ update_preset (replaced input options_json updated_time (clock d 0)) model ;;
    preset <~ tlift (preset_from_model updated) ;;
    audit (uuids d 0) (clock d 1) tenant_id actor "personal_preset.update" preset (len options_json) ~;;
    tret preset.

Definition replace (d : Draws) (tenant_id : TenantId) (owner id : string) (input : Cpp.t)
    (actor : AuditActor.t) : presets_tx PersonalPreset.t :=
  tlift (validate input) ~;;
  options_json <~ tlift (encode_options input) ;;
  transaction (replace_in_transaction d tenant_id owner id input options_json actor).

Definition delete_in_transaction (d : Draws) (tenant_id : TenantId) (owner id : string)
    (actor : AuditActor.t) : presets_tx bool :=
  lock_owner tenant_id owner ~;;
  found <~ tread (fun s => Ok (select_one (preset_row tenant_id owner id) (Pdb.presets s))) ;;
  match found with
  | None => tret false
  | Some model =>
      preset <~ tlift (preset_from_model model) ;;
      advance_clock (now_utc d 0) tenant_id owner ~;;
      (fun s => (s <| Pdb.presets := fst (delete_many (fun r => beq (PresetsModel.id r) id)
                                            (Pdb.presets s)) |>, Ok tt)) ~;;
      audit (uuids d 0) (clock d 0) tenant_id actor "personal_preset.delete" preset 0 ~;;
      tret true
  end.

Definition delete (d : Draws) (tenant_id : TenantId) (owner id : string) (actor : AuditActor.t)
  : presets_tx bool :=
  transaction (delete_in_transaction d tenant_id owner id actor).

(** What [ON DELETE CASCADE] leaves once users are gone. *)
Definition cascade (s : Pdb.t) : Pdb.t :=
  s <| Pdb.presets := List.filter (fun r => owner_known s (PresetsModel.tenant_id r)
                                             (PresetsModel.owner_user_id r)) (Pdb.presets s) |>
    <| Pdb.clocks := List.filter (fun r => owner_known s (ClocksModel.tenant_id r)
                                             (ClocksModel.owner_user_id r)) (Pdb.clocks s) |>.
End Presets.

(** ** Routes ([routes/plugin/personal_presets.rs]) *)

Module PresetMetadataResponse.
Record t := mk {
  setting_id : string; preset_type : PersonalPresetType.t; name : string; version : string;
  base_id : string; inherits : option string; filament_id : option string; updated_time : Z }.
End PresetMetadataResponse.

Module PresetResponse.
Record t := mk {
  setting_id : string; preset_type : PersonalPresetType.t; name : string; version : string;
  base_id : string; inherits : option string; filament_id : option string;
  options : gmap string string; updated_time : Z }.
End PresetResponse.

Record PresetListResponse := mkPresetList { list_message : string; listed : list PresetMetadataResponse.t }.
Record PresetMutationResponse := mkPresetMutation {
  message : string; setting_id : string; updated_time : Z }.

Record PersonalPresetApiError := mkPresetError {
  error_status : Z; error : string; error_code : option Z }.

(** A response with its [Cache-Control] header. *)
Record response (A : Type) := mkResponse { response_status : Z; cache_control : option string; body : A }.
Arguments mkResponse {A}. Arguments response_status {A}. Arguments cache_control {A}. Arguments body {A}.

Definition no_store {A} (r : response A) : response A :=
  mkResponse (response_status r) (Some "no-store"%string) (body r).

Definition json_ok {A} (a : A) : response A := mkResponse 200 None a.

(** How a handler ends without its response: an error, or a panic of [expect]. *)
Inductive route_error := Refused (e : PersonalPresetApiError) | Panic.

Definition invalid_preset : PersonalPresetApiError :=
  mkPresetError BAD_REQUEST "invalid_personal_preset" None.

(** [rejected] is the status of the JSON extractor's rejection. *)
Definition json_rejection (rejected : Z) : PersonalPresetApiError :=
  if rejected =? PAYLOAD_TOO_LARGE
  then mkPresetError PAYLOAD_TOO_LARGE "personal_preset_too_large" None else invalid_preset.

Definition not_found : PersonalPresetApiError :=
  mkPresetError NOT_FOUND "personal_preset_not_found" None.

Definition from_api_error (e : ApiError) : PersonalPresetApiError :=
  mkPresetError (Authorization.status e) (Authorization.code e) None.

Definition from_repository_error (e : RepositoryError) : PersonalPresetApiError :=
  match e with
  | PersonalPresetLimitExceeded => mkPresetError CONFLICT "personal_preset_limit_exceeded" (Some 14)
  | other => from_api_error (api_error other)
  end.

Definition error_response (e : PersonalPresetApiError) : response (string * option Z) :=
  no_store (mkResponse (error_status e) None (error e, error_code e)).

Definition metadata_response (p : PersonalPresetMetadata.t) : PresetMetadataResponse.t :=
  PresetMetadataResponse.mk (PersonalPresetMetadata.id p) (PersonalPresetMetadata.preset_type p)
    (PersonalPresetMetadata.name p) (PersonalPresetMetadata.version p)
    (PersonalPresetMetadata.base_id p) (PersonalPresetMetadata.inherits p)
    (PersonalPresetMetadata.filament_id p) (PersonalPresetMetadata.updated_time p).

Definition preset_response (p : PersonalPreset.t) : PresetResponse.t :=
  PresetResponse.mk (PersonalPreset.id p) (PersonalPreset.preset_type p) (PersonalPreset.name p)
    (PersonalPreset.version p) (PersonalPreset.base_id p) (PersonalPreset.inherits p)
    (PersonalPreset.filament_id p) (PersonalPreset.options p) (PersonalPreset.updated_time p).

Definition mutation_response (p : PersonalPreset.t) : PresetMutationResponse :=
  mkPresetMutation "success" (PersonalPreset.id p) (PersonalPreset.updated_time p).

Section Routes.
Context `{Store} `{UuidText} `{AuditJson} `{Rfc3339} `{Sha256} `{ScopesJson} `{PresetOptionsJson}.
Context (state : AuthState).

Definition route (A : Type) : Type := tx Pdb.t route_error (response A).

(** [?] on a repository call. *)
Definition repository {A} (m : presets_tx A) : tx Pdb.t route_error A := fun s =>
  let '(s, r) := m s in (s, map_err (fun e => Refused (from_repository_error e)) r).

Definition authorize (d : Draws) (h : header) : tx Pdb.t route_error AuthenticatedTenantToken.t := fun s =>
  let '(s, r) := zoom Pdb.accounts (fun a s => s <| Pdb.accounts := a |>)
                   (authorize_plugin_studio_user d state h) s in
  (s, map_err (fun e => Refused (from_api_error e)) r).

(** [authenticated.session_user.expect("authorized user").id]. *)
Definition owner_of (a : AuthenticatedTenantToken.t) : result route_error string :=
  ok_or (option_map User.id (AuthenticatedTenantToken.session_user a)) Panic.

Definition token_tenant (a : AuthenticatedTenantToken.t) : TenantId :=
  TenantToken.tenant_id (AuthenticatedTenantToken.token a).

(** [bundle_version] is what the query extractor found. *)
Definition list_route (d : Draws) (h : header) (bundle_version : option string) : route PresetListResponse :=
  authenticated <~ authorize d h ;;
  bundle_version <~ tlift (ok_or bundle_version (Refused invalid_preset)) ;;
  if negb (valid_version bundle_version) then tfail (Refused invalid_preset)
  else
    owner <~ tlift (owner_of authenticated) ;;
    presets <~ repository (list_metadata (token_tenant authenticated) owner) ;;
    tret (no_store (json_ok (mkPresetList "success" (map metadata_response presets)))).

Definition get_route (d : Draws) (h : header) (setting_id : string) : route PresetResponse.t :=
  authenticated <~ authorize d h ;;
  owner <~ tlift (owner_of authenticated) ;;
  preset <~ repository (get (token_tenant authenticated) owner setting_id) ;;
  preset <~ tlift (ok_or preset (Refused not_found)) ;;
  tret (no_store (json_ok (preset_response preset))).

Definition create_route (d : Draws) (h : header) (payload : result Z Cpp.t)
  : route PresetMutationResponse :=
  authenticated <~ authorize d h ;;
  payload <~ tlift (map_err (fun r => Refused (json_rejection r)) payload) ;;
  owner <~ tlift (owner_of authenticated) ;;
  preset <~ repository (create d (token_tenant authenticated) owner payload
                          (plugin_audit_actor authenticated)) ;;
  tret (no_store (mkResponse 201 None (mutation_response preset))).

Definition replace_route (d : Draws) (h : header) (setting_id : string) (payload : result Z Cpp.t)
  : route PresetMutationResponse :=
  authenticated <~ authorize d h ;;
  payload <~ tlift (map_err (fun r => Refused (json_rejection r)) payload) ;;
  owner <~ tlift (owner_of authenticated) ;;
  preset <~ repository (replace d (token_tenant authenticated) owner setting_id payload
                          (plugin_audit_actor authenticated)) ;;
  tret (no_store (json_ok (mutation_response preset))).

Definition delete_route (d : Draws) (h : header) (setting_id : string) : route unit :=
  authenticated <~ authorize d h ;;
  owner <~ tlift (owner_of authenticated) ;;
  repository (delete d (token_tenant authenticated) owner setting_id
                (plugin_audit_actor authenticated)) ~;;
  tret (no_store (mkResponse 204 None tt)).
End Routes.
