(* ===== verification/Materials.v ===== *)
(** * Materials

    [repositories/materials.rs] with [materials/patch.rs] and [materials/merge.rs]:
    an agent reports what is loaded in the AMS units and external spools of a
    printer as patches; the Hub strips what looks like a secret and merges them
    into the printer's snapshot row.  Objects are key-ordered association lists
    ([MaterialJsonValue] has the shape of [json]); the JSON text codec is a
    parameter that keeps the fields of an object in the order of the document, and
    the decoders of the derived [Deserialize] implementations are written out. *)

From stdpp Require Import sorting.
From S2P Require Import Prelude RustStr RustFloat CoreTypes Json Serde Store JobRows Tx AgentSessions PrinterRows.

#[local] Open Scope Z_scope.
#[local] Open Scope rust_scope.
#[local] Open Scope tx_scope.

(** ** Rows *)

Module SnapshotsModel.
Record t := mk {
  id : string; tenant_id : string; printer_id : string; agent_id : string; serial_number : string;
  ams_json : string; external_spools_json : string; active_tray_json : option string;
  filament_switch_installed : option bool; studio_cfg : option string; studio_aux : option string;
  studio_stat : option string; observed_at : string; updated_at : string }.
End SnapshotsModel.
Module Sm := SnapshotsModel.

Module MaterialsDb.
Record t := mk {
  hub_tables : Hub.t; printers : list PrintersModel.t; snapshots : list SnapshotsModel.t }.
End MaterialsDb.
Module Mdb := MaterialsDb.

(** ** JSON text

    [serde_json] reads back what it printed; without its [float_roundtrip] feature
    that holds up to the last digits of a float, which [erase] hides. *)

Fixpoint erase (j : json) : json :=
  match j with
  | Object fields => Object (map (fun kv => (kv.1, erase kv.2)) fields)
  | Array values => Array (map erase values)
  | Num (Float _) => Num (Float (S754_zero false))
  | _ => j
  end.

Class MaterialText := {
  json_from_str : string -> option json;
  json_to_string : json -> option string;
  json_text_round_trip : forall j text,
    json_to_string j = Some text -> exists j', json_from_str text = Some j' /\ erase j' = erase j;
}.

(** ** Decoders *)

(** [MaterialJsonValue]: an object becomes a [BTreeMap]. *)
Fixpoint material_value (j : json) : json :=
  match j with
  | Object fields => Object (btree_extend [] (map (fun kv => (kv.1, material_value kv.2)) fields))
  | Array values => Array (map material_value values)
  | _ => j
  end.

(** [#[serde(flatten)]]: the fields that are not [known]. *)
Definition flattened (known : list string) (fields : list (string * json)) : list (string * json) :=
  btree_extend [] (map (fun kv => (kv.1, material_value kv.2))
                     (List.filter (fun kv => negb (bool_decide (kv.1 ∈ known))) fields)).

(** ** The patch ([patch.rs]) *)

Module MaterialTrayPatch.
Record t := mk { tray_id : option string; fields : list (string * json) }.

Definition decode (j : json) : option t :=
  match j with
  | Object fields =>
      tray_id ← field "tray_id" fields ≫= opt_string;
      Some (mk tray_id (flattened ["tray_id"%string] fields))
  | _ => None
  end.
End MaterialTrayPatch.

Module MaterialUnitPatch.
Record t := mk {
  unit_id : option string; replace_trays : bool; trays : option (list MaterialTrayPatch.t);
  fields : list (string * json) }.

Definition decode (j : json) : option t :=
  match j with
  | Object fields =>
      unit_id ← field "unit_id" fields ≫= opt_string;
      replace_trays ← field "replace_trays" fields ≫= bool_or_default;
      trays ← field "trays" fields ≫= opt_vec MaterialTrayPatch.decode;
      Some (mk unit_id replace_trays trays
              (flattened ["unit_id"; "replace_trays"; "trays"]%string fields))
  | _ => None
  end.
End MaterialUnitPatch.

Module MaterialExternalSpoolPatch.
Record t := mk {
  external_id : option string; tray_id : option string; fields : list (string * json) }.

Definition decode (j : json) : option t :=
  match j with
  | Object fields =>
      external_id ← field "external_id" fields ≫= opt_string;
      tray_id ← field "tray_id" fields ≫= opt_string;
      Some (mk external_id tray_id (flattened ["external_id"; "tray_id"]%string fields))
  | _ => None
  end.

Definition key (p : t) : option (string * string) :=
  external_id ← external_id p; tray_id ← tray_id p; Some (external_id, tray_id).
End MaterialExternalSpoolPatch.
Module Tp := MaterialTrayPatch.
Module Up := MaterialUnitPatch.
Module Sp := MaterialExternalSpoolPatch.

Inductive Presence := Absent | PresentNull | Value (j : json).

(** [presence], under [#[serde(default)]]. *)
Definition presence (value : option json) : Presence :=
  match value with
  | None => Absent
  | Some value => match material_value value with Null => PresentNull | j => Value j end
  end.

Module MaterialPatchDocument.
Record t := mk {
  kind : string; observed_at : string; filament_switch_installed : option bool;
  cfg : option string; aux : option string; stat : option string;
  ams_units : option (list MaterialUnitPatch.t);
  external_spools : option (list MaterialExternalSpoolPatch.t);
  replace_external_spools : bool; active_tray : Presence }.

Definition names : list string :=
  ["type"; "observed_at"; "filament_switch_installed"; "cfg"; "aux"; "stat"; "ams_units";
   "external_spools"; "replace_external_spools"; "active_tray"]%string.

(** The fields in the order of [names]. *)
Definition decode_fields (v : string -> option (option json)) : option t :=
  kind ← v "type"%string ≫= required_string;
  observed_at ← v "observed_at"%string ≫= required_string;
  filament_switch_installed ← v "filament_switch_installed"%string ≫= opt_bool;
  cfg ← v "cfg"%string ≫= opt_string;
  aux ← v "aux"%string ≫= opt_string;
  stat ← v "stat"%string ≫= opt_string;
  ams_units ← v "ams_units"%string ≫= opt_vec MaterialUnitPatch.decode;
  external_spools ← v "external_spools"%string ≫= opt_vec MaterialExternalSpoolPatch.decode;
  replace_external_spools ← v "replace_external_spools"%string ≫= bool_or_default;
  active_tray ← v "active_tray"%string;
  Some (mk kind observed_at filament_switch_installed cfg aux stat ams_units external_spools
          replace_external_spools (presence active_tray)).

(** A derived [Deserialize] also accepts the fields as a sequence. *)
Definition decode (j : json) : option t :=
  match j with
  | Object fields => decode_fields (fun name => field name fields)
  | Array values =>
      if (length names <? length values)%nat then None
      else decode_fields (fun name => field name (zip names values))
  | _ => None
  end.
End MaterialPatchDocument.

Definition sensitive_words : list string := ["access_code"; "password"; "passwd"; "token"; "auth"]%string.

Definition is_sensitive (value : string) : bool :=
  let value := to_ascii_lowercase value in
  existsb (fun needle => str_contains needle value) sensitive_words.

Definition scalar_is_sensitive (j : json) : bool :=
  match j with Str s => is_sensitive s | _ => false end.

(** The loop of [redact_object] over the redaction of the values. *)
Definition redact_fields_with (redacted : json -> option json)
  : list (string * json) -> list (string * json) :=
  fix go fields := match fields with
    | [] => []
    | (key, value) :: fields =>
        if negb (is_sensitive key) && negb (scalar_is_sensitive value)
        then match redacted value with
             | Some value => (key, value) :: go fields
             | None => go fields
             end
        else go fields
    end.

Definition redact_values_with (redacted : json -> option json) : list json -> list json :=
  fix go values := match values with
    | [] => []
    | value :: values =>
        match redacted value with Some value => value :: go values | None => go values end
    end.

Fixpoint redacted (j : json) : option json :=
  match j with
  | Object fields => Some (Object (redact_fields_with redacted fields))
  | Array values => Some (Array (redact_values_with redacted values))
  | value => if scalar_is_sensitive value then None else Some value
  end.

Definition redact_object (fields : list (string * json)) : list (string * json) :=
  redact_fields_with redacted fields.

Definition presence_redacted (p : Presence) : Presence :=
  match p with
  | Value value => match redacted value with Some value => Value value | None => PresentNull end
  | other => other
  end.

Definition redacted_tray (tray : Tp.t) : Tp.t := Tp.mk (Tp.tray_id tray) (redact_object (Tp.fields tray)).
Definition redacted_unit (unit : Up.t) : Up.t :=
  Up.mk (Up.unit_id unit) (Up.replace_trays unit) (option_map (map redacted_tray) (Up.trays unit))
    (redact_object (Up.fields unit)).
Definition redacted_spool (spool : Sp.t) : Sp.t :=
  Sp.mk (Sp.external_id spool) (Sp.tray_id spool) (redact_object (Sp.fields spool)).

Module ParsedPatch.
Record t := mk {
  observed_at : string; filament_switch_installed : option bool; cfg : option string;
  aux : option string; stat : option string; ams_units : option (list Up.t);
  external_spools : option (list Sp.t); replace_external_spools : bool; active_tray : Presence }.
End ParsedPatch.
Module Pp := ParsedPatch.
Module Doc := MaterialPatchDocument.

Definition object_without_null_fields (fields : list (string * json)) : list (string * json) :=
  List.filter (fun kv => negb (is_null kv.2)) fields.

Definition fields_without_nulls_for_new_unit (unit : Up.t) : list (string * json) :=
  object_without_null_fields
    (if Up.replace_trays unit then btree_insert "replace_trays" (Bool true) (Up.fields unit)
     else Up.fields unit).

(** ** Merging ([merge.rs]) *)

Module MaterialTrayState.
Record t := mk { tray_id : option string; fields : list (string * json) }.

Definition decode (j : json) : option t :=
  match j with
  | Object fields =>
      tray_id ← field "tray_id" fields ≫= opt_string;
      Some (mk tray_id (flattened ["tray_id"%string] fields))
  | _ => None
  end.

Definition into_json (tray : t) : json :=
  Object (match tray_id tray with
          | Some id => btree_insert "tray_id" (Str id) (fields tray)
          | None => fields tray
          end).
End MaterialTrayState.

Module MaterialUnitState.
Record t := mk {
  unit_id : option string; trays : list MaterialTrayState.t; fields : list (string * json) }.

Definition decode (j : json) : option t :=
  match j with
  | Object fields =>
      unit_id ← field "unit_id" fields ≫= opt_string;
      trays ← field "trays" fields ≫= (fun v => match v with
                                               | None => Some []
                                               | Some v => decode_vec MaterialTrayState.decode v
                                               end);
      Some (mk unit_id trays (flattened ["unit_id"; "trays"]%string fields))
  | _ => None
  end.

Definition into_json (unit : t) : json :=
  let object := match unit_id unit with
                | Some id => btree_insert "unit_id" (Str id) (fields unit)
                | None => fields unit
                end in
  Object (btree_insert "trays" (Array (map MaterialTrayState.into_json (trays unit))) object).
End MaterialUnitState.

Module MaterialExternalSpoolState.
Record t := mk {
  external_id : option string; tray_id : option string; fields : list (string * json) }.

Definition decode (j : json) : option t :=
  match j with
  | Object fields =>
      external_id ← field "external_id" fields ≫= opt_string;
      tray_id ← field "tray_id" fields ≫= opt_string;
      Some (mk external_id tray_id (flattened ["external_id"; "tray_id"]%string fields))
  | _ => None
  end.

Definition key (s : t) : option (string * string) :=
  external_id ← external_id s; tray_id ← tray_id s; Some (external_id, tray_id).

Definition into_json (s : t) : json :=
  let object := match external_id s with
                | Some id => btree_insert "external_id" (Str id) (fields s)
                | None => fields s
                end in
  Object (match tray_id s with Some id => btree_insert "tray_id" (Str id) object | None => object end).
End MaterialExternalSpoolState.
Module Ts := MaterialTrayState.
Module Us := MaterialUnitState.
Module Ss := MaterialExternalSpoolState.

(** [BTreeMap::remove]. *)
Definition btree_remove (key : string) (fields : list (string * json)) : list (string * json) :=
  List.filter (fun kv => negb (beq kv.1 key)) fields.

Definition merge_field (current : list (string * json)) (kv : string * json) : list (string * json) :=
  if is_null kv.2 then btree_remove kv.1 current else btree_insert kv.1 kv.2 current.

Definition merge_fields (current patch : list (string * json)) : list (string * json) :=
  fold_left merge_field patch current.

(** [iter_mut().find(p)] and the change of what it finds; otherwise [push]. *)
Fixpoint upsert {A} (p : A -> bool) (f : A -> A) (new : A) (l : list A) : list A :=
  match l with
  | [] => [new]
  | x :: l => if p x then f x :: l else x :: upsert p f new l
  end.

(** [sort_by_key]: a stable sort. *)
Fixpoint sort_insert {A} (le : A -> A -> bool) (x : A) (l : list A) : list A :=
  match l with
  | [] => [x]
  | y :: l' => if le x y then x :: l else y :: sort_insert le x l'
  end.
Definition sort_by {A} (le : A -> A -> bool) (l : list A) : list A := foldr (sort_insert le) [] l.

(** The order of [Option<String>] and of [Option<(String, String)>]. *)
Definition opt_le {A} (le : A -> A -> bool) (a b : option A) : bool :=
  match a, b with None, _ => true | Some _, None => false | Some a, Some b => le a b end.
Definition pair_le (a b : string * string) : bool :=
  match String.compare a.1 b.1 with Lt => true | Eq => String.leb a.2 b.2 | Gt => false end.

Definition unit_le (a b : Us.t) : bool := opt_le String.leb (Us.unit_id a) (Us.unit_id b).
Definition tray_le (a b : Ts.t) : bool := opt_le String.leb (Ts.tray_id a) (Ts.tray_id b).
Definition spool_le (a b : Ss.t) : bool := opt_le pair_le (Ss.key a) (Ss.key b).

Definition merge_tray (current : list Ts.t) (patch : Tp.t) : list Ts.t :=
  match Tp.tray_id patch with
  | None => current
  | Some id =>
      upsert (fun entry => beq (Ts.tray_id entry) (Some id))
        (fun entry => Ts.mk (Ts.tray_id entry) (merge_fields (Ts.fields entry) (Tp.fields patch)))
        (Ts.mk (Some id) (object_without_null_fields (Tp.fields patch))) current
  end.

Definition merge_trays (current : list Ts.t) (patches : list Tp.t) (replace : bool) : list Ts.t :=
  let current := fold_left merge_tray patches current in
  let keys := omap Tp.tray_id patches in
  let current := if replace
                 then List.filter (fun entry => match Ts.tray_id entry with
                                                | Some key => bool_decide (key ∈ keys)
                                                | None => false
                                                end) current
                 else current in
  sort_by tray_le current.

Definition new_tray_states (patches : list Tp.t) : list Ts.t :=
  sort_by tray_le
    (omap (fun patch => id ← Tp.tray_id patch;
                        Some (Ts.mk (Some id) (object_without_null_fields (Tp.fields patch)))) patches).

Definition merge_unit (current : list Us.t) (patch : Up.t) : list Us.t :=
  match Up.unit_id patch with
  | None => current
  | Some id =>
      upsert (fun unit => beq (Us.unit_id unit) (Some id))
        (fun unit => Us.mk (Us.unit_id unit)
           (match Up.trays patch with
            | Some trays => merge_trays (Us.trays unit) trays (Up.replace_trays patch)
            | None => Us.trays unit
            end) (merge_fields (Us.fields unit) (Up.fields patch)))
        (Us.mk (Some id) (default [] (option_map new_tray_states (Up.trays patch)))
           (fields_without_nulls_for_new_unit patch)) current
  end.

Definition merge_units (current : list Us.t) (patches : list Up.t) : list Us.t :=
  sort_by unit_le (fold_left merge_unit patches current).

Definition merge_spool (current : list Ss.t) (patch : Sp.t) : list Ss.t :=
  match Sp.key patch with
  | None => current
  | Some key =>
      upsert (fun spool => beq (Ss.key spool) (Some key))
        (fun spool => Ss.mk (Ss.external_id spool) (Ss.tray_id spool)
                        (merge_fields (Ss.fields spool) (Sp.fields patch)))
        (Ss.mk (Some key.1) (Some key.2) (object_without_null_fields (Sp.fields patch))) current
  end.

Definition merge_external_spools (current : list Ss.t) (patches : list Sp.t) (replace : bool)
  : list Ss.t :=
  let current := fold_left merge_spool patches current in
  let keys := omap Sp.key patches in
  let current := if replace
                 then List.filter (fun spool => match Ss.key spool with
                                                | Some key => bool_decide (key ∈ keys)
                                                | None => false
                                                end) current
                 else current in
  sort_by spool_le current.

Definition material_units_json (units : list Us.t) : json := Array (map Us.into_json units).
Definition material_external_spools_json (spools : list Ss.t) : json := Array (map Ss.into_json spools).

Module MergedSnapshot.
Record t := mk {
  ams_units : json; external_spools : json; active_tray : option json;
  filament_switch_installed : option bool; cfg : option string; aux : option string;
  stat : option string }.
End MergedSnapshot.
Module Ms := MergedSnapshot.

Module MaterialSnapshot.
Record t := mk {
  id : string; tenant_id : TenantId; printer_id : string; agent_id : AgentId;
  serial_number : string; ams_units : json; external_spools : json; active_tray : option json;
  filament_switch_installed : option bool; cfg : option string; aux : option string;
  stat : option string; observed_at : string; updated_at : string }.
End MaterialSnapshot.
Module Snap := MaterialSnapshot.

Module MaterialPatchInput.
Record t := mk {
  tenant_id : TenantId; agent_id : AgentId; printer_id : string; serial_number : string;
  printer_materials_json : string }.
End MaterialPatchInput.
Module Mpi := MaterialPatchInput.

(** The text of an [Invalid] patch's error is not modelled. *)
Inductive MaterialPatchOutcome :=
| Empty | Invalid | Older | Unchanged (snapshot : Snap.t) | Changed (snapshot : Snap.t).

Inductive CurrentMaterialPatchOutcome :=
| MissingPrinterOutcome
| SerialMismatch (printer_id printer_serial : string)
| Applied (printer_id : string) (outcome : MaterialPatchOutcome).

Section Materials.
Context `{Store} `{UuidText} `{Rfc3339} `{MaterialText}.

Definition materials (A : Type) : Type := tx Mdb.t RepositoryError A.

(** [.context(..)?] on an [Option] or a foreign [Result]. *)
Definition or_database {A} (o : option A) : result RepositoryError A := ok_or o Database.

Definition is_older (observed_at persisted_at : string) : result RepositoryError bool :=
  observed <-? or_database (rfc_parse observed_at) ;;
  persisted <-? or_database (rfc_parse persisted_at) ;;
  Ok (observed <? persisted).

Definition parse_array_json (raw : string) : result RepositoryError json :=
  match json_from_str raw with
  | Some (Array values) => Ok (Array (map material_value values))
  | _ => Err Database
  end.

Definition parse_object_json (raw : string) : result RepositoryError json :=
  match json_from_str raw with
  | Some (Object fields) => Ok (material_value (Object fields))
  | _ => Err Database
  end.

Definition parse_units_json (raw : string) : result RepositoryError (list Us.t) :=
  or_database (json_from_str raw ≫= decode_vec Us.decode).
Definition parse_external_spools_json (raw : string) : result RepositoryError (list Ss.t) :=
  or_database (json_from_str raw ≫= decode_vec Ss.decode).

Definition parse_patch_result (raw : string) : option Pp.t :=
  document ← json_from_str raw ≫= Doc.decode;
  if negb (beq (Doc.kind document) "printer_material_patch"%string) then None
  else
    _ ← rfc_parse (Doc.observed_at document);
    Some (Pp.mk (Doc.observed_at document) (Doc.filament_switch_installed document)
            (Doc.cfg document) (Doc.aux document) (Doc.stat document)
            (option_map (map redacted_unit) (Doc.ams_units document))
            (option_map (map redacted_spool) (Doc.external_spools document))
            (Doc.replace_external_spools document) (presence_redacted (Doc.active_tray document))).

Definition merge_snapshot (current : option Sm.t) (patch : Pp.t) : result RepositoryError Ms.t :=
  ams_units <-? traverse_opt (fun s => parse_units_json (Sm.ams_json s)) current ;;
  let ams_units := default [] ams_units in
  let ams_units := match Pp.ams_units patch with
                   | Some units => merge_units ams_units units
                   | None => ams_units
                   end in
  external_spools <-? traverse_opt (fun s => parse_external_spools_json (Sm.external_spools_json s)) current ;;
  let external_spools := default [] external_spools in
  let external_spools :=
    match Pp.external_spools patch with
    | Some spools => merge_external_spools external_spools spools (Pp.replace_external_spools patch)
    | None => external_spools
    end in
  active_tray <-? (match Pp.active_tray patch with
                   | Absent => traverse_opt parse_object_json (current ≫= Sm.active_tray_json)
                   | PresentNull => Ok None
                   | Value value => Ok (Some value)
                   end) ;;
  Ok (Ms.mk (material_units_json ams_units) (material_external_spools_json external_spools) active_tray
        (opt_or (Pp.filament_switch_installed patch) (current ≫= Sm.filament_switch_installed))
        (opt_or (Pp.cfg patch) (current ≫= Sm.studio_cfg))
        (opt_or (Pp.aux patch) (current ≫= Sm.studio_aux))
        (opt_or (Pp.stat patch) (current ≫= Sm.studio_stat))).

Definition snapshot_from_model (m : Sm.t) : result RepositoryError Snap.t :=
  tenant_id <-? db_err (TenantId_parse (Sm.tenant_id m)) ;;
  agent_id <-? db_err (AgentId_parse (Sm.agent_id m)) ;;
  ams_units <-? parse_array_json (Sm.ams_json m) ;;
  external_spools <-? parse_array_json (Sm.external_spools_json m) ;;
  active_tray <-? traverse_opt parse_object_json (Sm.active_tray_json m) ;;
  Ok (Snap.mk (Sm.id m) tenant_id (Sm.printer_id m) agent_id (Sm.serial_number m) ams_units
        external_spools active_tray (Sm.filament_switch_installed m) (Sm.studio_cfg m)
        (Sm.studio_aux m) (Sm.studio_stat m) (Sm.observed_at m) (Sm.updated_at m)).

(** ** Queries *)

Definition snapshot_row (tenant_id : TenantId) (printer_id : string) (m : Sm.t) : bool :=
  beq (Sm.tenant_id m) (TenantId_to_string tenant_id) && beq (Sm.printer_id m) printer_id.

Definition latest_for_printer (tenant_id : TenantId) (printer_id : string) : materials (option Snap.t) :=
  tread (fun s => traverse_opt snapshot_from_model
                    (select_one (snapshot_row tenant_id printer_id) (Mdb.snapshots s))).

(** [ORDER BY serial_number ASC, printer_id ASC]. *)
Definition by_serial (a b : Sm.t) : Prop :=
  (negb (text_le (Sm.serial_number b) (Sm.serial_number a)))
  || (text_le (Sm.serial_number a) (Sm.serial_number b) && text_le (Sm.printer_id a) (Sm.printer_id b)).

#[export] Instance by_serial_dec : RelDecision by_serial.
Proof. intros a b. unfold by_serial. apply _. Defined.

Definition list_for_tenant (tenant_id : TenantId) : materials (list Snap.t) :=
  tread (fun s => collect snapshot_from_model
    (merge_sort by_serial
       (select (fun m => beq (Sm.tenant_id m) (TenantId_to_string tenant_id)) (Mdb.snapshots s)))).

(** ** Writes *)

Definition printer_row (tenant_id : TenantId) (agent_id : AgentId) (m : PrintersModel.t) : bool :=
  beq (PrintersModel.tenant_id m) (TenantId_to_string tenant_id)
  && beq (PrintersModel.agent_id m) (AgentId_to_string agent_id).

Definition same_material (snapshot : Snap.t) (observed_at : string) (merged : Ms.t) : bool :=
  beq (Snap.observed_at snapshot) observed_at
  && beq (Snap.ams_units snapshot) (Ms.ams_units merged)
  && beq (Snap.external_spools snapshot) (Ms.external_spools merged)
  && beq (Snap.active_tray snapshot) (Ms.active_tray merged)
  && beq (Snap.filament_switch_installed snapshot) (Ms.filament_switch_installed merged)
  && beq (Snap.cfg snapshot) (Ms.cfg merged)
  && beq (Snap.aux snapshot) (Ms.aux merged)
  && beq (Snap.stat snapshot) (Ms.stat merged).

(** [model.update(..)] or [model.insert(..)]: the row's id and its
    [(tenant_id, printer_id)] are keys. *)
Definition write_snapshot (update : bool) (row : Sm.t) : materials Sm.t := fun s =>
  if update then
    let '(rows, affected) := update_many (fun m => beq (Sm.id m) (Sm.id row)) (fun _ => row)
                               (Mdb.snapshots s) in
    if affected =? 0 then (s, Err Database) else (s <| Mdb.snapshots := rows |>, Ok row)
  else if is_some (select_one (fun m => beq (Sm.id m) (Sm.id row)
                     || (beq (Sm.tenant_id m) (Sm.tenant_id row)
                         && beq (Sm.printer_id m) (Sm.printer_id row))) (Mdb.snapshots s))
  then (s, Err Database)
  else (s <| Mdb.snapshots := insert_row row (Mdb.snapshots s) |>, Ok row).

(** [id] and [now] are the drawn UUID and the clock. *)
Definition upsert_from_patch_outcome_in_connection (id now : string) (input : Mpi.t)
  : materials MaterialPatchOutcome :=
  if blank (Mpi.printer_materials_json input) then tret Empty
  else match parse_patch_result (Mpi.printer_materials_json input) with
  | None => tret Invalid
  | Some patch =>
      printer <~ tread (fun s => Ok (select_one
        (fun m => beq (PrintersModel.id m) (Mpi.printer_id input)
                  && printer_row (Mpi.tenant_id input) (Mpi.agent_id input) m) (Mdb.printers s))) ;;
      printer <~ tlift (ok_or printer MissingPrinter) ;;
      current <~ tread (fun s => Ok (select_one
        (snapshot_row (Mpi.tenant_id input) (Mpi.printer_id input)) (Mdb.snapshots s))) ;;
      older <~ tlift (match current with
                      | Some current => is_older (Pp.observed_at patch) (Sm.observed_at current)
                      | None => Ok false
                      end) ;;
      if older : bool then tret Older
      else
        current_snapshot <~ tlift (traverse_opt snapshot_from_model current) ;;
        merged <~ tlift (merge_snapshot current patch) ;;
        match opt_filter (fun snapshot => same_material snapshot (Pp.observed_at patch) merged)
                current_snapshot with
        | Some snapshot => tret (Unchanged snapshot)
        | None =>
            active_tray_json <~ tlift (traverse_opt (fun j => or_database (json_to_string j))
                                         (Ms.active_tray merged)) ;;
            ams_json <~ tlift (or_database (json_to_string (Ms.ams_units merged))) ;;
            external_spools_json <~ tlift (or_database (json_to_string (Ms.external_spools merged))) ;;
            let serial_number := if beq (Mpi.serial_number input) EmptyString
                                 then PrintersModel.serial_number printer
                                 else Mpi.serial_number input in
            model <~ write_snapshot (is_some current)
              (Sm.mk (default id (option_map Sm.id current)) (TenantId_to_string (Mpi.tenant_id input))
                 (Mpi.printer_id input) (AgentId_to_string (Mpi.agent_id input)) serial_number ams_json
                 external_spools_json active_tray_json (Ms.filament_switch_installed merged)
                 (Ms.cfg merged) (Ms.aux merged) (Ms.stat merged) (Pp.observed_at patch) now) ;;
            snapshot <~ tlift (snapshot_from_model model) ;;
            tret (Changed snapshot)
        end
  end.

Definition on_hub {A} (m : hub A) : materials A :=
  zoom Mdb.hub_tables (fun h s => s <| Mdb.hub_tables := h |>) m.

Definition apply_snapshot_if_current (id now session_id : string) (tenant_id : TenantId)
    (agent_id : AgentId) (requested_printer_id serial_number printer_materials_json : string)
  : materials CurrentMaterialPatchOutcome :=
  transaction (
    on_hub (begin_current_agent_transaction tenant_id agent_id session_id) ~;;
    printer <~ tread (fun s => Ok (select_one
      (fun m => printer_row tenant_id agent_id m
                && (if beq requested_printer_id EmptyString
                    then beq (PrintersModel.serial_number m) serial_number
                    else beq (PrintersModel.id m) requested_printer_id)) (Mdb.printers s))) ;;
    match printer with
    | None => tret MissingPrinterOutcome
    | Some printer =>
        if negb (beq (PrintersModel.serial_number printer) serial_number)
        then tret (SerialMismatch (PrintersModel.id printer) (PrintersModel.serial_number printer))
        else
          outcome <~ upsert_from_patch_outcome_in_connection id now
            (Mpi.mk tenant_id agent_id (PrintersModel.id printer) serial_number printer_materials_json) ;;
          tret (Applied (PrintersModel.id printer) outcome)
    end).
End Materials.
