(* ===== verification/MaterialMerge.v ===== *)
(** * Merging material patches

    The merge of [Materials] as a function: what it does to each field of each
    unit, tray and spool, that its result is sorted, and that merging the same
    patch again changes nothing. *)

From S2P Require Import Prelude RustStr CoreTypes Json Serde BTree Store JobRows Tx AgentSessions PrinterRows Materials.

#[local] Open Scope Z_scope.

(** ** Lists of keyed entries *)

Section Keyed.
Context {A K : Type} `{EqDecision K} (key : A -> option K).
Implicit Types (l : list A) (k : K).

Definition has_key (k : K) (x : A) : bool := beq (key x) (Some k).
Definition at_key (k : K) (l : list A) : option A := List.find (has_key k) l.

Lemma has_key_true k x : has_key k x = true <-> key x = Some k.
Proof. apply beq_true. Qed.

Lemma at_key_upsert k k' f new l :
  (forall x, key (f x) = key x) -> key new = Some k ->
  at_key k' (upsert (has_key k) f new l)
  = if beq k k' then Some (match at_key k l with Some x => f x | None => new end) else at_key k' l.
Proof.
  intros Hf Hn. unfold at_key. induction l as [|x l IH]; simpl.
  - unfold has_key. rewrite Hn. destruct (beq k k') eqn:E.
    + rewrite beq_true in E. subst k'. by rewrite beq_refl.
    + rewrite beq_false in E. by rewrite (proj2 (beq_false (Some k) (Some k'))) by congruence.
  - destruct (has_key k x) eqn:Ex; simpl.
    + assert (has_key k' (f x) = has_key k' x) as -> by (unfold has_key; by rewrite Hf).
      rewrite has_key_true in Ex. destruct (beq k k') eqn:E.
      * rewrite beq_true in E. subst k'. by rewrite (proj2 (has_key_true k x) Ex).
      * rewrite beq_false in E. assert (has_key k' x = false) as ->; [|done].
        apply beq_false. congruence.
    + rewrite IH. destruct (beq k k') eqn:E; [|done]. rewrite beq_true in E. subst k'. by rewrite Ex.
Qed.

(** An entry that is already as the change would leave it. *)
Lemma upsert_fix k f new l x : at_key k l = Some x -> f x = x -> upsert (has_key k) f new l = l.
Proof.
  unfold at_key. induction l as [|y l IH]; simpl; [done|]. destruct (has_key k y).
  - intros [= ->] E. by rewrite E.
  - intros E1 E2. by rewrite IH.
Qed.

Lemma upsert_Forall (P : A -> Prop) k f new l :
  (forall x, P x -> P (f x)) -> P new -> Forall P l -> Forall P (upsert (has_key k) f new l).
Proof.
  intros Hf Hn. induction 1 as [|x l Hx Hl IH]; simpl; [by constructor|].
  destruct (has_key k x); constructor; auto.
Qed.

(** *** Sorting *)

Context (le : A -> A -> bool).

Inductive ordered : list A -> Prop :=
| ord_nil : ordered []
| ord_one x : ordered [x]
| ord_cons x y l : le x y = true -> ordered (y :: l) -> ordered (x :: y :: l).

Lemma sort_insert_perm x l : sort_insert le x l ≡ₚ x :: l.
Proof.
  induction l as [|y l IH]; simpl; [done|]. destruct (le x y); [done|]. rewrite IH. apply Permutation_swap.
Qed.

Lemma sort_by_perm l : sort_by le l ≡ₚ l.
Proof. unfold sort_by. induction l as [|x l IH]; simpl; [done|]. by rewrite sort_insert_perm, IH. Qed.

Lemma sort_by_ordered_id l : ordered l -> sort_by le l = l.
Proof.
  unfold sort_by. induction 1 as [|x|x y l Hle Ho IH]; simpl; [done..|]. simpl in IH. rewrite IH.
  simpl. by rewrite Hle.
Qed.

Hypothesis le_total : forall x y, le x y = false -> le y x = true.

Lemma sort_insert_ordered x l : ordered l -> ordered (sort_insert le x l).
Proof.
  induction 1 as [|y|y z l Hle Ho IH]; simpl.
  - constructor.
  - destruct (le x y) eqn:E; constructor; [done|constructor|auto|constructor].
  - destruct (le x y) eqn:E; [by repeat constructor|]. simpl in IH. destruct (le x z) eqn:Ez.
    + constructor; [auto|]. by constructor.
    + by constructor.
Qed.

Lemma sort_by_ordered l : ordered (sort_by le l).
Proof. unfold sort_by. induction l as [|x l IH]; simpl; [constructor|]. by apply sort_insert_ordered. Qed.

Hypothesis le_key : forall x y, key x = key y -> le x y = true.

(** The sort is stable: the first entry under a key stays the first. *)
Lemma at_key_sort k l : at_key k (sort_by le l) = at_key k l.
Proof.
  assert (forall x l, at_key k (sort_insert le x l) = at_key k (x :: l)) as Hins.
  { intros x l'. induction l' as [|y l' IH]; simpl; [done|]. destruct (le x y) eqn:E; [done|].
    unfold at_key in *. simpl in *. rewrite IH.
    destruct (has_key k y) eqn:Ey, (has_key k x) eqn:Ex; try done.
    rewrite has_key_true in Ey. rewrite has_key_true in Ex. rewrite le_key in E; congruence. }
  unfold sort_by. induction l as [|x l IH]; [done|]. cbn [foldr]. rewrite Hins.
  unfold at_key in *. simpl. by rewrite IH.
Qed.

(** *** A sequence of patches *)

Context {P : Type} (pkey : P -> option K) (change : P -> A -> A) (new : P -> A).
Implicit Types (p : P) (ps : list P).

Definition merge_step (l : list A) (p : P) : list A :=
  match pkey p with None => l | Some k => upsert (has_key k) (change p) (new p) l end.

Hypothesis change_key : forall p x, key (change p x) = key x.
Hypothesis new_key : forall p k, pkey p = Some k -> key (new p) = Some k.

Definition patch_at (k : K) (ps : list P) : option P := List.find (fun p => beq (pkey p) (Some k)) ps.

(** Patches under distinct keys act on their entries independently. *)
Lemma at_key_fold k ps l :
  NoDup (omap pkey ps) ->
  at_key k (fold_left merge_step ps l)
  = match patch_at k ps with
    | Some p => Some (match at_key k l with Some x => change p x | None => new p end)
    | None => at_key k l
    end.
Proof.
  revert l. induction ps as [|p ps IH]; intros l Hd; simpl; [done|].
  assert (NoDup (omap pkey ps)) as Hps.
  { simpl in Hd. destruct (pkey p); [by apply NoDup_cons in Hd as [_ ?]|done]. }
  rewrite (IH _ Hps). unfold merge_step. unfold patch_at. simpl. destruct (pkey p) as [kp|] eqn:Ep.
  - rewrite at_key_upsert by auto. destruct (beq (Some kp) (Some k)) eqn:E.
    + rewrite beq_true in E. injection E as ->. rewrite beq_refl.
      assert (List.find (fun p => beq (pkey p) (Some k)) ps = None) as ->; [|done].
      destruct (List.find _ ps) as [q|] eqn:Eq; [|done].
      apply find_some in Eq as [Hq Ek]. rewrite beq_true in Ek. exfalso.
      simpl in Hd. rewrite Ep in Hd. apply NoDup_cons in Hd as [Hd _]. apply Hd.
      apply list_elem_of_omap. exists q. split; [by apply list_elem_of_In|done].
    + rewrite beq_false in E. rewrite (proj2 (beq_false kp k)) by congruence. done.
  - rewrite (proj2 (beq_false None (Some k))) by done. done.
Qed.

Lemma patch_at_In k ps p :
  NoDup (omap pkey ps) -> In p ps -> pkey p = Some k -> patch_at k ps = Some p.
Proof.
  unfold patch_at. induction ps as [|q ps IH]; simpl; [done|]. intros Hd [-> | Hp] Ek.
  - by rewrite Ek, beq_refl.
  - destruct (pkey q) as [kq|] eqn:Eq.
    + apply NoDup_cons in Hd as [Hq Hd]. destruct (beq (Some kq) (Some k)) eqn:E.
      * rewrite beq_true in E. injection E as ->. destruct Hq. apply list_elem_of_omap.
        exists p. by split; [apply list_elem_of_In|].
      * by apply IH.
    + rewrite (proj2 (beq_false None (Some k))) by done. by apply IH.
Qed.

(** Patches whose entries are as they leave them change nothing. *)
Lemma fold_fix ps l :
  (forall p k, In p ps -> pkey p = Some k -> exists x, at_key k l = Some x /\ change p x = x) ->
  fold_left merge_step ps l = l.
Proof.
  revert l. induction ps as [|p ps IH]; intros l Hp; simpl; [done|].
  assert (merge_step l p = l) as ->.
  { unfold merge_step. destruct (pkey p) as [k|] eqn:Ek; [|done].
    destruct (Hp p k (or_introl eq_refl) Ek) as (x & Hx & E). by apply upsert_fix with x. }
  apply IH. intros q k Hq. by apply Hp; right.
Qed.

Lemma fold_Forall (Q : A -> Prop) ps l :
  (forall p x, In p ps -> Q x -> Q (change p x)) -> (forall p, In p ps -> Q (new p)) ->
  Forall Q l -> Forall Q (fold_left merge_step ps l).
Proof.
  revert l. induction ps as [|p ps IH]; intros l Hc Hn Hl; simpl; [done|]. apply IH.
  - intros q x Hq. by apply Hc; right.
  - intros q Hq. by apply Hn; right.
  - unfold merge_step. destruct (pkey p); [|done]. apply upsert_Forall; [|by apply Hn; left|done].
    intros x. by apply Hc; left.
Qed.

(** [replace]: only the patched entries stay. *)
Definition patched (ps : list P) (x : A) : bool :=
  match key x with Some k => bool_decide (k ∈ omap pkey ps) | None => false end.

Definition merge_all (replace : bool) (ps : list P) (l : list A) : list A :=
  let l := fold_left merge_step ps l in
  sort_by le (if replace then List.filter (patched ps) l else l).

Lemma at_key_filter_patched k ps l p :
  In p ps -> pkey p = Some k -> at_key k (List.filter (patched ps) l) = at_key k l.
Proof.
  intros Hp Ek. unfold at_key. induction l as [|x l IH]; simpl; [done|].
  destruct (has_key k x) eqn:Ex.
  - assert (patched ps x = true) as ->; [|simpl; by rewrite Ex].
    unfold patched. rewrite has_key_true in Ex. rewrite Ex. apply bool_decide_eq_true.
    apply list_elem_of_omap. exists p. by split; [apply list_elem_of_In|].
  - destruct (patched ps x); simpl; [by rewrite Ex|done].
Qed.

Lemma filter_patched_id ps l : Forall (fun x => patched ps x = true) l -> List.filter (patched ps) l = l.
Proof. induction 1 as [|x l Hx Hl IH]; simpl; [done|]. by rewrite Hx, IH. Qed.

(** The entry under a patched key, after the merge. *)
Lemma at_key_merge k replace ps l p :
  NoDup (omap pkey ps) -> In p ps -> pkey p = Some k ->
  at_key k (merge_all replace ps l)
  = Some (match at_key k l with Some x => change p x | None => new p end).
Proof.
  intros Hd Hp Ek. unfold merge_all. rewrite at_key_sort.
  assert (at_key k (if replace then List.filter (patched ps) (fold_left merge_step ps l)
                    else fold_left merge_step ps l) = at_key k (fold_left merge_step ps l)) as ->.
  { destruct replace; [by apply (at_key_filter_patched _ _ _ p)|done]. }
  by rewrite at_key_fold, (patch_at_In _ _ _ Hd Hp Ek).
Qed.

(** Patches that settle every entry they leave settle the list. *)
Lemma merge_all_settled replace ps l :
  ordered l -> (replace = true -> Forall (fun x => patched ps x = true) l) ->
  (forall p k, In p ps -> pkey p = Some k -> exists x, at_key k l = Some x /\ change p x = x) ->
  merge_all replace ps l = l.
Proof.
  intros Ho Hr Hp. unfold merge_all. rewrite fold_fix by done.
  assert ((if replace then List.filter (patched ps) l else l) = l) as ->.
  { destruct replace; [|done]. by apply filter_patched_id, Hr. }
  by apply sort_by_ordered_id.
Qed.

Lemma merge_all_idempotent replace ps l :
  NoDup (omap pkey ps) ->
  (forall p x, In p ps -> In x l -> change p (change p x) = change p x) ->
  (forall p, In p ps -> change p (new p) = new p) ->
  merge_all replace ps (merge_all replace ps l) = merge_all replace ps l.
Proof.
  intros Hd Hc Hn. apply merge_all_settled.
  - apply sort_by_ordered.
  - intros ->. unfold merge_all. rewrite sort_by_perm. apply List.Forall_forall.
    intros x Hx. by apply filter_In in Hx as [_ Hx].
  - intros p k Hp Ek. eexists. split; [by apply (at_key_merge k replace ps l p)|].
    destruct (at_key k l) as [x|] eqn:Ex; [|by apply Hn].
    apply Hc; [done|]. by apply find_some in Ex as [? _].
Qed.

Lemma merge_all_Forall (Q : A -> Prop) replace ps l :
  (forall p x, In p ps -> Q x -> Q (change p x)) -> (forall p, In p ps -> Q (new p)) ->
  Forall Q l -> Forall Q (merge_all replace ps l).
Proof.
  intros Hc Hn Hl. unfold merge_all. rewrite sort_by_perm.
  pose proof (fold_Forall Q ps l Hc Hn Hl) as Hf. destruct replace; [|done].
  apply List.Forall_forall. intros x Hx. apply filter_In in Hx as [Hx _].
  by apply (proj1 (List.Forall_forall _ _) Hf).
Qed.
End Keyed.

(** ** Fields *)

Lemma merge_field_lookup k c k' v :
  increasing c ->
  lookup_key k (merge_field c (k', v))
  = if beq k' k then (if is_null v then None else Some v) else lookup_key k c.
Proof.
  intros Hc. unfold merge_field. simpl. destruct (is_null v) eqn:E.
  - unfold btree_remove. rewrite (lookup_filter (fun key _ => negb (beq key k')) k c Hc).
    destruct (beq k' k) eqn:E'.
    + rewrite beq_true in E'. subst k'. rewrite beq_refl. by destruct (lookup_key k c).
    + rewrite beq_false in E'. rewrite (proj2 (beq_false k k')) by congruence. by destruct (lookup_key k c).
  - by rewrite lookup_insert.
Qed.

Lemma merge_field_increasing c kv : increasing c -> increasing (merge_field c kv).
Proof. unfold merge_field, btree_remove. destruct (is_null kv.2); auto with btree. Qed.

Lemma merge_fields_increasing c p : increasing c -> increasing (merge_fields c p).
Proof.
  unfold merge_fields. revert c. induction p as [|kv p IH]; simpl; intros c Hc; [done|].
  by apply IH, merge_field_increasing.
Qed.

(** A patched field is set, or removed by a null; the others stay. *)
Lemma merge_fields_lookup k c p :
  increasing c -> increasing p ->
  lookup_key k (merge_fields c p)
  = match lookup_key k p with
    | Some v => if is_null v then None else Some v
    | None => lookup_key k c
    end.
Proof.
  intros Hc Hp. revert c Hc. induction Hp as [|k' v p Hk Hp IH]; intros c Hc; [done|].
  change (merge_fields c ((k', v) :: p)) with (merge_fields (merge_field c (k', v)) p).
  rewrite IH by (by apply merge_field_increasing). simpl lookup_key at 3.
  destruct (beq k' k) eqn:E.
  - rewrite beq_true in E. subst k'. by rewrite lookup_above, merge_field_lookup, beq_refl by done.
  - destruct (lookup_key k p); [done|]. by rewrite merge_field_lookup, E by done.
Qed.

Lemma merge_fields_idempotent c p :
  increasing c -> increasing p -> merge_fields (merge_fields c p) p = merge_fields c p.
Proof.
  intros Hc Hp. pose proof (merge_fields_increasing c p Hc) as Hm.
  apply increasing_ext; [by apply merge_fields_increasing|done|]. intros k.
  rewrite (merge_fields_lookup k _ p Hm Hp), !(merge_fields_lookup k c p Hc Hp).
  by destruct (lookup_key k p).
Qed.

Lemma without_nulls_lookup k p :
  increasing p ->
  lookup_key k (object_without_null_fields p)
  = match lookup_key k p with Some v => if is_null v then None else Some v | None => None end.
Proof.
  intros Hp. unfold object_without_null_fields.
  rewrite (lookup_filter (fun _ v => negb (is_null v)) k p Hp).
  destruct (lookup_key k p) as [v|]; [|done]. by destruct (is_null v).
Qed.

Lemma without_nulls_increasing p : increasing p -> increasing (object_without_null_fields p).
Proof. apply increasing_filter. Qed.

Lemma merge_fields_without_nulls p :
  increasing p -> merge_fields (object_without_null_fields p) p = object_without_null_fields p.
Proof.
  intros Hp. pose proof (without_nulls_increasing p Hp) as Hn.
  apply increasing_ext; [by apply merge_fields_increasing|done|]. intros k.
  rewrite (merge_fields_lookup k _ p Hn Hp), without_nulls_lookup by done. by destruct (lookup_key k p).
Qed.

(** ** Orders *)

Lemma opt_le_total {A} (le : A -> A -> bool) (a b : option A) :
  (forall x y, le x y = false -> le y x = true) -> opt_le le a b = false -> opt_le le b a = true.
Proof. intros H. destruct a, b; simpl; auto. Qed.

Lemma leb_total_false a b : String.leb a b = false -> String.leb b a = true.
Proof. intros E. destruct (String.leb_total a b) as [E' | E']; congruence. Qed.

Lemma leb_refl a : String.leb a a = true.
Proof. unfold String.leb. by rewrite compare_refl. Qed.

Lemma pair_le_total a b : pair_le a b = false -> pair_le b a = true.
Proof.
  unfold pair_le. rewrite (String.compare_antisym b.1 a.1).
  destruct (String.compare a.1 b.1); simpl; [apply leb_total_false|done|done].
Qed.

Lemma unit_le_total a b : unit_le a b = false -> unit_le b a = true.
Proof. apply opt_le_total, leb_total_false. Qed.
Lemma tray_le_total a b : tray_le a b = false -> tray_le b a = true.
Proof. apply opt_le_total, leb_total_false. Qed.
Lemma spool_le_total a b : spool_le a b = false -> spool_le b a = true.
Proof. apply opt_le_total, pair_le_total. Qed.

Lemma unit_le_key a b : Us.unit_id a = Us.unit_id b -> unit_le a b = true.
Proof. unfold unit_le. intros ->. destruct (Us.unit_id b); simpl; [apply leb_refl|done]. Qed.
Lemma tray_le_key a b : Ts.tray_id a = Ts.tray_id b -> tray_le a b = true.
Proof. unfold tray_le. intros ->. destruct (Ts.tray_id b); simpl; [apply leb_refl|done]. Qed.
Lemma spool_le_key a b : Ss.key a = Ss.key b -> spool_le a b = true.
Proof.
  unfold spool_le. intros ->. destruct (Ss.key b); simpl; [|done].
  unfold pair_le. rewrite compare_refl. apply leb_refl.
Qed.

(** ** Trays, spools and units as instances *)

Definition tray_change (p : Tp.t) (x : Ts.t) : Ts.t :=
  Ts.mk (Ts.tray_id x) (merge_fields (Ts.fields x) (Tp.fields p)).
Definition tray_new (p : Tp.t) : Ts.t := Ts.mk (Tp.tray_id p) (object_without_null_fields (Tp.fields p)).

Lemma merge_trays_eq current ps replace :
  merge_trays current ps replace
  = merge_all Ts.tray_id tray_le Tp.tray_id tray_change tray_new replace ps current.
Proof.
  unfold merge_trays, merge_all. do 2 f_equal.
  assert (forall l, fold_left merge_tray ps l
    = fold_left (merge_step Ts.tray_id Tp.tray_id tray_change tray_new) ps l) as E.
  { induction ps as [|p ps IH]; intros l; simpl; [done|]. rewrite IH. f_equal.
    unfold merge_tray, merge_step, tray_new. by destruct (Tp.tray_id p). }
  rewrite E. done.
Qed.

Definition spool_change (p : Sp.t) (x : Ss.t) : Ss.t :=
  Ss.mk (Ss.external_id x) (Ss.tray_id x) (merge_fields (Ss.fields x) (Sp.fields p)).
Definition spool_new (p : Sp.t) : Ss.t :=
  Ss.mk (Sp.external_id p) (Sp.tray_id p) (object_without_null_fields (Sp.fields p)).

Lemma spool_key_ids p k : Sp.key p = Some k -> Sp.external_id p = Some k.1 /\ Sp.tray_id p = Some k.2.
Proof.
  unfold Sp.key. destruct (Sp.external_id p), (Sp.tray_id p); simpl; try done. by intros [= <-].
Qed.

Lemma merge_external_spools_eq current ps replace :
  merge_external_spools current ps replace
  = merge_all Ss.key spool_le Sp.key spool_change spool_new replace ps current.
Proof.
  unfold merge_external_spools, merge_all.
  assert (forall l, fold_left merge_spool ps l
    = fold_left (merge_step Ss.key Sp.key spool_change spool_new) ps l) as E.
  { induction ps as [|p ps IH]; intros l; simpl; [done|]. rewrite IH. f_equal.
    unfold merge_spool, merge_step, spool_new. destruct (Sp.key p) as [k|] eqn:Ek; [|done].
    by destruct (spool_key_ids p k Ek) as [-> ->]. }
  by rewrite E.
Qed.

Definition unit_change (p : Up.t) (x : Us.t) : Us.t :=
  Us.mk (Us.unit_id x)
    (match Up.trays p with
     | Some trays => merge_trays (Us.trays x) trays (Up.replace_trays p)
     | None => Us.trays x
     end) (merge_fields (Us.fields x) (Up.fields p)).
Definition unit_new (p : Up.t) : Us.t :=
  Us.mk (Up.unit_id p) (default [] (option_map new_tray_states (Up.trays p)))
    (fields_without_nulls_for_new_unit p).

Lemma merge_units_eq current ps :
  merge_units current ps = merge_all Us.unit_id unit_le Up.unit_id unit_change unit_new false ps current.
Proof.
  unfold merge_units, merge_all. f_equal.
  revert current. induction ps as [|p ps IH]; intros l; simpl; [done|]. rewrite IH. f_equal.
  unfold merge_unit, merge_step, unit_new. by destruct (Up.unit_id p).
Qed.

(** *** Trays of a new unit *)

Lemma new_tray_states_eq ps :
  new_tray_states ps = sort_by tray_le (omap (fun p => option_map (fun _ => tray_new p) (Tp.tray_id p)) ps).
Proof.
  unfold new_tray_states. f_equal. apply list_omap_ext.
  induction ps as [|p ps IH]; constructor; [|done]. unfold tray_new. by destruct (Tp.tray_id p).
Qed.

Lemma at_key_new_trays ps p k :
  NoDup (omap Tp.tray_id ps) -> In p ps -> Tp.tray_id p = Some k ->
  at_key Ts.tray_id k (new_tray_states ps) = Some (tray_new p).
Proof.
  rewrite new_tray_states_eq. rewrite at_key_sort by (apply tray_le_key).
  unfold at_key. induction ps as [|q ps IH]; simpl; [done|]. intros Hd Hp Ek.
  destruct (Tp.tray_id q) as [kq|] eqn:Eq; simpl.
  - apply NoDup_cons in Hd as [Hq Hd].
    assert (has_key Ts.tray_id k (tray_new q) = beq (Some kq) (Some k)) as ->.
    { unfold has_key, tray_new. simpl. by rewrite Eq. }
    destruct Hp as [-> | Hp].
    + rewrite Ek in Eq. injection Eq as ->. by rewrite beq_refl.
    + rewrite (proj2 (beq_false (Some kq) (Some k))); [by apply IH|]. intros [= ->]. apply Hq.
      apply list_elem_of_omap. exists p. by split; [apply list_elem_of_In|].
  - destruct Hp as [-> | Hp]; [congruence|]. by apply IH.
Qed.

Lemma new_trays_patched ps :
  Forall (fun x => patched Ts.tray_id Tp.tray_id ps x = true) (new_tray_states ps).
Proof.
  rewrite new_tray_states_eq, sort_by_perm. apply Forall_forall. intros x Hx.
  apply list_elem_of_omap in Hx as (p & Hp & E). unfold patched.
  destruct (Tp.tray_id p) as [k|] eqn:Ek; [|done]. simpl in E. injection E as <-.
  unfold tray_new. simpl. rewrite Ek. apply bool_decide_eq_true.
  apply list_elem_of_omap. by exists p.
Qed.

(** ** Well-formed patches and states *)

Definition tray_patch_ok (p : Tp.t) : Prop := increasing (Tp.fields p).
Definition spool_patch_ok (p : Sp.t) : Prop := increasing (Sp.fields p).

Definition unit_patch_ok (p : Up.t) : Prop :=
  increasing (Up.fields p) /\ lookup_key "replace_trays" (Up.fields p) = None
  /\ forall trays, Up.trays p = Some trays -> Forall tray_patch_ok trays.

(** The entries of a patch are named once. *)
Definition distinct_trays (p : Up.t) : Prop :=
  forall trays, Up.trays p = Some trays -> NoDup (omap Tp.tray_id trays).

Definition unit_state_ok (x : Us.t) : Prop :=
  increasing (Us.fields x) /\ Forall (fun t => increasing (Ts.fields t)) (Us.trays x).
Definition spool_state_ok (x : Ss.t) : Prop := increasing (Ss.fields x).

Lemma merge_trays_idempotent current ps replace :
  Forall (fun t => increasing (Ts.fields t)) current -> Forall tray_patch_ok ps ->
  NoDup (omap Tp.tray_id ps) ->
  merge_trays (merge_trays current ps replace) ps replace = merge_trays current ps replace.
Proof.
  intros Hc Hp Hd. rewrite !merge_trays_eq. apply merge_all_idempotent; try done.
  - apply tray_le_total.
  - apply tray_le_key.
  - intros p x Hin Hx. unfold tray_change. simpl. f_equal. apply merge_fields_idempotent.
    + by apply (proj1 (List.Forall_forall _ _) Hc).
    + by apply (proj1 (List.Forall_forall _ _) Hp).
  - intros p Hin. unfold tray_change, tray_new. simpl. f_equal. apply merge_fields_without_nulls.
    by apply (proj1 (List.Forall_forall _ _) Hp).
Qed.

Lemma merge_new_trays ps replace :
  Forall tray_patch_ok ps -> NoDup (omap Tp.tray_id ps) ->
  merge_trays (new_tray_states ps) ps replace = new_tray_states ps.
Proof.
  intros Hp Hd. rewrite merge_trays_eq. apply merge_all_settled.
  - rewrite new_tray_states_eq. apply sort_by_ordered, tray_le_total.
  - intros _. apply new_trays_patched.
  - intros p k Hin Ek. exists (tray_new p). split; [by apply at_key_new_trays|].
    unfold tray_change, tray_new. simpl. f_equal. apply merge_fields_without_nulls.
    by apply (proj1 (List.Forall_forall _ _) Hp).
Qed.

Lemma merge_new_unit_fields p :
  unit_patch_ok p ->
  merge_fields (fields_without_nulls_for_new_unit p) (Up.fields p) = fields_without_nulls_for_new_unit p.
Proof.
  intros (Hf & Hr & _). unfold fields_without_nulls_for_new_unit.
  destruct (Up.replace_trays p); [|by apply merge_fields_without_nulls].
  pose proof (increasing_insert "replace_trays" (Bool true) _ Hf) as Hi.
  pose proof (without_nulls_increasing _ Hi) as Hn.
  apply increasing_ext; [by apply merge_fields_increasing|done|]. intros k.
  rewrite (merge_fields_lookup k _ _ Hn Hf), (without_nulls_lookup k _ Hi), lookup_insert by done.
  destruct (beq "replace_trays"%string k) eqn:E; [|by destruct (lookup_key k (Up.fields p))].
  rewrite beq_true in E. by rewrite <- E, Hr.
Qed.

Lemma unit_change_idempotent p x :
  unit_patch_ok p -> distinct_trays p -> unit_state_ok x ->
  unit_change p (unit_change p x) = unit_change p x.
Proof.
  intros (Hf & _ & Ht) Hd [Hx Hxt]. unfold unit_change. simpl. f_equal.
  - destruct (Up.trays p) as [trays|] eqn:E; [|done]. apply merge_trays_idempotent; auto.
  - by apply merge_fields_idempotent.
Qed.

Lemma unit_change_new p :
  unit_patch_ok p -> distinct_trays p -> unit_change p (unit_new p) = unit_new p.
Proof.
  intros Hp Hd. unfold unit_change, unit_new. simpl. f_equal.
  - destruct (Up.trays p) as [trays|] eqn:E; [|done]. simpl. destruct Hp as (_ & _ & Ht).
    apply merge_new_trays; auto.
  - by apply merge_new_unit_fields.
Qed.

Lemma merge_units_idempotent current ps :
  Forall unit_state_ok current -> Forall unit_patch_ok ps -> Forall distinct_trays ps ->
  NoDup (omap Up.unit_id ps) ->
  merge_units (merge_units current ps) ps = merge_units current ps.
Proof.
  intros Hc Hp Ht Hd. rewrite !merge_units_eq.
  pose proof (proj1 (List.Forall_forall _ _) Hp) as Hp'. pose proof (proj1 (List.Forall_forall _ _) Ht) as Ht'.
  apply merge_all_idempotent; try done.
  - apply unit_le_total.
  - apply unit_le_key.
  - intros p x Hin Hx. apply unit_change_idempotent; auto.
    by apply (proj1 (List.Forall_forall _ _) Hc).
  - intros p Hin. apply unit_change_new; auto.
Qed.

Lemma merge_spools_idempotent current ps replace :
  Forall spool_state_ok current -> Forall spool_patch_ok ps -> NoDup (omap Sp.key ps) ->
  merge_external_spools (merge_external_spools current ps replace) ps replace
  = merge_external_spools current ps replace.
Proof.
  intros Hc Hp Hd. rewrite !merge_external_spools_eq. apply merge_all_idempotent; try done.
  - apply spool_le_total.
  - apply spool_le_key.
  - intros p x Hin Hx. unfold spool_change. simpl. f_equal. apply merge_fields_idempotent.
    + by apply (proj1 (List.Forall_forall _ _) Hc).
    + by apply (proj1 (List.Forall_forall _ _) Hp).
  - intros p Hin. unfold spool_change, spool_new. simpl. f_equal. apply merge_fields_without_nulls.
    by apply (proj1 (List.Forall_forall _ _) Hp).
Qed.
