(* ===== verification/MaterialCodec.v ===== *)
(** * Material values as JSON

    The values of [Materials] in canonical form, their way through JSON text, and
    what the redaction leaves of them. *)

From S2P Require Import Prelude RustStr RustFloat CoreTypes Json Serde BTree Store JobRows Tx AgentSessions PrinterRows Materials MaterialMerge.

#[local] Open Scope Z_scope.

(** ** Canonical values *)

Inductive canonical : json -> Prop :=
| can_object fields : increasing fields -> Forall (fun kv => canonical kv.2) fields -> canonical (Object fields)
| can_array values : Forall canonical values -> canonical (Array values)
| can_str s : canonical (Str s)
| can_num n : canonical (Num n)
| can_bool b : canonical (Bool b)
| can_null : canonical Null.

Definition canonical_fields (fields : list (string * json)) : Prop :=
  increasing fields /\ Forall (fun kv => canonical kv.2) fields.

Lemma btree_extend_Forall {A} (P : A -> Prop) (l m : list (string * A)) :
  Forall (fun kv => P kv.2) m -> Forall (fun kv => P kv.2) l -> Forall (fun kv => P kv.2) (btree_extend m l).
Proof.
  unfold btree_extend. intros Hm Hl. revert m Hm. induction Hl as [|kv l Hx Hl IH]; intros m Hm; simpl; [done|].
  apply IH. by apply btree_insert_Forall.
Qed.

Lemma material_value_canonical j : canonical (material_value j).
Proof.
  induction j as [fields IH|values IH|s|n|b|] using json_nested_ind; simpl; try by constructor.
  - constructor; [apply increasing_extend; constructor|].
    apply btree_extend_Forall; [constructor|]. by apply Forall_map.
  - constructor. by apply Forall_map.
Qed.

Lemma canonical_material_value j : canonical j -> material_value j = j.
Proof.
  induction j as [fields IH|values IH|s|n|b|] using json_nested_ind; intros Hj; simpl; try done.
  - inversion Hj as [f Hi Hc| | | | |]; subst.
    rewrite (map_ext_in _ (fun kv => kv)).
    + by rewrite map_id, btree_extend_increasing.
    + intros [k v] Hin. simpl. f_equal. apply list_elem_of_In in Hin.
      rewrite Forall_forall in IH, Hc. by apply (IH (k, v) Hin), (Hc (k, v) Hin).
  - inversion Hj as [|v Hc| | | |]; subst. f_equal. rewrite <- (map_id values) at 2. apply map_ext_in.
    intros v Hin. apply list_elem_of_In in Hin. rewrite Forall_forall in IH, Hc. by apply IH, Hc.
Qed.

Lemma flattened_canonical known fields : canonical_fields (flattened known fields).
Proof.
  split; [apply increasing_extend; constructor|]. apply btree_extend_Forall; [constructor|].
  apply Forall_map, Forall_true. intros kv. apply material_value_canonical.
Qed.

(** A reserved name is not among the flattened fields. *)
Definition free_of (known : list string) (fields : list (string * json)) : Prop :=
  Forall (fun kv => kv.1 ∉ known) fields.

Lemma btree_insert_free known k v fields :
  k ∉ known -> free_of known fields -> free_of known (btree_insert k v fields).
Proof. intros Hk. by apply btree_insert_Forall. Qed.

Lemma flattened_free known fields : free_of known (flattened known fields).
Proof.
  unfold flattened, btree_extend.
  assert (free_of known []) as Hm by constructor. revert Hm. generalize ([] : list (string * json)) as m.
  assert (Forall (fun kv => kv.1 ∉ known) (map (fun kv => (kv.1, material_value kv.2))
            (List.filter (fun kv => negb (bool_decide (kv.1 ∈ known))) fields))) as Hl.
  { apply Forall_map, List.Forall_forall. intros kv Hin. simpl. apply filter_In in Hin as [_ Hp].
    by rewrite negb_true_iff, bool_decide_eq_false in Hp. }
  induction Hl as [|kv l Hx Hl IH]; intros m Hm; simpl; [done|]. by apply IH, btree_insert_free.
Qed.

Lemma free_lookup known fields k : free_of known fields -> k ∈ known -> lookup_key k fields = None.
Proof.
  unfold free_of. induction 1 as [|[k' v] m Hx Hm IH]; intros Hk; simpl; [done|].
  rewrite (proj2 (beq_false k' k)) by (intros ->; done). by apply IH.
Qed.

Lemma free_In known fields k v : free_of known fields -> In (k, v) fields -> k ∉ known.
Proof. unfold free_of. rewrite List.Forall_forall. intros Hf Hin. apply (Hf (k, v) Hin). Qed.

(** *** Fields put into an object and taken out again *)

Lemma field_insert k k' v m :
  increasing m -> lookup_key k m = None ->
  field k' (btree_insert k v m) = if beq k k' then Some (Some v) else field k' m.
Proof.
  intros Hm Hn. unfold field. induction Hm as [|k2 v2 m Hk Hm IH]; simpl; [by destruct (beq k k')|].
  simpl in Hn. destruct (beq k2 k) eqn:E2; [done|]. specialize (IH Hn).
  assert (forall l, lookup_key k' l = None -> List.filter (fun kv : string * json => beq kv.1 k') l = []) as Hnone.
  { induction l as [|[a b] l IHl]; simpl; [done|]. destruct (beq a k'); [done|]. auto. }
  destruct (String.compare k k2) eqn:C; simpl.
  - apply String.compare_eq_iff in C as ->. by rewrite beq_refl in E2.
  - destruct (beq k k') eqn:E; [|done]. rewrite beq_true in E. subst k'. by rewrite E2, Hnone.
  - destruct (beq k2 k') eqn:E; [|done]. rewrite beq_true in E. subst k'.
    rewrite (proj2 (beq_false k k2)) in * by (intros ->; by rewrite beq_refl in E2).
    assert (lookup_key k2 (btree_insert k v m) = None) as Hl.
    { rewrite lookup_insert by done. rewrite (proj2 (beq_false k k2)) by (intros ->; by rewrite beq_refl in E2).
      by apply lookup_above. }
    by rewrite (Hnone _ Hl), (Hnone m) by (by apply lookup_above).
Qed.

Lemma field_None k m : lookup_key k m = None -> field k m = Some None.
Proof.
  intros Hn. unfold field. assert (List.filter (fun kv : string * json => beq kv.1 k) m = []) as ->; [|done].
  induction m as [|[a b] l IHl]; simpl in *; [done|]. destruct (beq a k); [done|]. auto.
Qed.

Lemma filter_insert_known (known : list string) k (v : json) m :
  k ∈ known -> increasing m -> lookup_key k m = None ->
  List.filter (fun kv => negb (bool_decide (kv.1 ∈ known))) (btree_insert k v m)
  = List.filter (fun kv => negb (bool_decide (kv.1 ∈ known))) m.
Proof.
  intros Hk Hm. induction Hm as [|k2 v2 m Ha Hm IH]; simpl; intros Hn.
  - by rewrite bool_decide_eq_true_2.
  - destruct (beq k2 k) eqn:E2; [done|]. destruct (String.compare k k2) eqn:C; simpl.
    + apply String.compare_eq_iff in C as ->. by rewrite beq_refl in E2.
    + by rewrite (bool_decide_eq_true_2 (k ∈ known)).
    + by rewrite IH.
Qed.

Lemma flattened_insert_known (known : list string) k (v : json) m :
  k ∈ known -> increasing m -> lookup_key k m = None ->
  flattened known (btree_insert k v m) = flattened known m.
Proof. intros Hk Hm Hn. unfold flattened. by rewrite filter_insert_known. Qed.

Lemma flattened_self known m : canonical_fields m -> free_of known m -> flattened known m = m.
Proof.
  intros [Hi Hc] Hf. unfold flattened. rewrite (List.filter_ext_in _ (fun _ => true)).
  - rewrite List.filter_true, (map_ext_in _ (fun kv => kv)); [by rewrite map_id, btree_extend_increasing|].
    intros [k v] Hin. simpl. f_equal. apply canonical_material_value. apply list_elem_of_In in Hin.
    rewrite Forall_forall in Hc. by apply (Hc (k, v)).
  - intros [k v] Hin. simpl. apply negb_true_iff, bool_decide_eq_false. by apply (free_In _ _ _ _ Hf Hin).
Qed.

(** ** States through JSON *)

Definition canonical_tray (t : Ts.t) : Prop :=
  canonical_fields (Ts.fields t) /\ free_of ["tray_id"%string] (Ts.fields t).
Definition canonical_unit (u : Us.t) : Prop :=
  canonical_fields (Us.fields u) /\ free_of ["unit_id"; "trays"]%string (Us.fields u)
  /\ Forall canonical_tray (Us.trays u).
Definition canonical_spool (s : Ss.t) : Prop :=
  canonical_fields (Ss.fields s) /\ free_of ["external_id"; "tray_id"]%string (Ss.fields s).

(** An optional text under a reserved name, as the states are printed. *)
Definition insert_opt (k : string) (o : option string) (fields : list (string * json))
  : list (string * json) :=
  match o with Some s => btree_insert k (Str s) fields | None => fields end.

Lemma insert_opt_increasing k o fields : increasing fields -> increasing (insert_opt k o fields).
Proof. destruct o; simpl; auto with btree. Qed.

Lemma insert_opt_lookup k o fields k' :
  increasing fields -> k <> k' -> lookup_key k' (insert_opt k o fields) = lookup_key k' fields.
Proof.
  intros Hi Hne. destruct o; simpl; [|done]. by rewrite lookup_insert, (proj2 (beq_false k k') Hne).
Qed.

Lemma insert_opt_field k o fields :
  increasing fields -> lookup_key k fields = None ->
  field k (insert_opt k o fields) = Some (option_map Str o).
Proof.
  intros Hi Hn. destruct o; simpl; [|by apply field_None]. by rewrite field_insert, beq_refl.
Qed.

Lemma insert_opt_field_ne k k' o fields :
  increasing fields -> lookup_key k fields = None -> k <> k' ->
  field k' (insert_opt k o fields) = field k' fields.
Proof.
  intros Hi Hn Hne. destruct o; simpl; [|done]. by rewrite field_insert, (proj2 (beq_false k k') Hne).
Qed.

Lemma insert_opt_flattened (known : list string) k o fields :
  k ∈ known -> increasing fields -> lookup_key k fields = None ->
  flattened known (insert_opt k o fields) = flattened known fields.
Proof. destruct o; simpl; [apply flattened_insert_known|done]. Qed.

Lemma opt_string_map o : opt_string (option_map Str o) = Some o.
Proof. by destruct o. Qed.

Lemma tray_round_trip t : canonical_tray t -> Ts.decode (Ts.into_json t) = Some t.
Proof.
  intros [[Hi Hc] Hf]. destruct t as [id fields]. cbn [Ts.fields] in Hi, Hc, Hf.
  assert (lookup_key "tray_id" fields = None) as Hn by (apply (free_lookup _ _ _ Hf); set_solver).
  change (Ts.into_json (Ts.mk id fields)) with (Object (insert_opt "tray_id" id fields)).
  cbn [Ts.decode]. rewrite insert_opt_field by done. cbn [mbind option_bind]. rewrite opt_string_map.
  cbn [mbind option_bind]. rewrite insert_opt_flattened by (done || set_solver).
  by rewrite flattened_self.
Qed.

Lemma spool_round_trip s : canonical_spool s -> Ss.decode (Ss.into_json s) = Some s.
Proof.
  intros [[Hi Hc] Hf]. destruct s as [e id fields]. cbn [Ss.fields] in Hi, Hc, Hf.
  assert (lookup_key "tray_id" fields = None) as Hn by (apply (free_lookup _ _ _ Hf); set_solver).
  assert (lookup_key "external_id" fields = None) as He by (apply (free_lookup _ _ _ Hf); set_solver).
  change (Ss.into_json (Ss.mk e id fields))
    with (Object (insert_opt "tray_id" id (insert_opt "external_id" e fields))).
  pose proof (insert_opt_increasing "external_id" e fields Hi) as Hi'.
  assert (lookup_key "tray_id" (insert_opt "external_id" e fields) = None) as Hn'
    by (by rewrite insert_opt_lookup).
  cbn [Ss.decode]. rewrite (insert_opt_field_ne "tray_id" "external_id"), (insert_opt_field "external_id") by done. cbn [mbind option_bind].
  rewrite opt_string_map. cbn [mbind option_bind]. rewrite insert_opt_field by done.
  cbn [mbind option_bind]. rewrite opt_string_map. cbn [mbind option_bind].
  rewrite !insert_opt_flattened by (done || set_solver). by rewrite flattened_self.
Qed.

Lemma decode_all_map {A} (decode : json -> option A) (print : A -> json) l :
  Forall (fun a => decode (print a) = Some a) l -> decode_all decode (map print l) = Some l.
Proof. induction 1 as [|a l Ha Hl IH]; simpl; [done|]. by rewrite Ha, IH. Qed.

Lemma unit_round_trip u : canonical_unit u -> Us.decode (Us.into_json u) = Some u.
Proof.
  intros ([Hi Hc] & Hf & Ht). destruct u as [id trays fields]. cbn [Us.fields Us.trays] in Hi, Hc, Hf, Ht.
  assert (lookup_key "unit_id" fields = None) as Hn by (apply (free_lookup _ _ _ Hf); set_solver).
  assert (lookup_key "trays" fields = None) as Hr by (apply (free_lookup _ _ _ Hf); set_solver).
  change (Us.into_json (Us.mk id trays fields))
    with (Object (btree_insert "trays" (Array (map Ts.into_json trays)) (insert_opt "unit_id" id fields))).
  pose proof (insert_opt_increasing "unit_id" id fields Hi) as Hi'.
  assert (lookup_key "trays" (insert_opt "unit_id" id fields) = None) as Hr' by (by rewrite insert_opt_lookup).
  cbn [Us.decode]. rewrite !field_insert by done. cbn [mbind option_bind].
  change (beq "trays"%string "unit_id"%string) with false. rewrite beq_refl. cbn iota.
  rewrite insert_opt_field by done. cbn [mbind option_bind]. rewrite opt_string_map.
  cbn [mbind option_bind decode_vec]. rewrite decode_all_map.
  - cbn [mbind option_bind]. rewrite flattened_insert_known by (done || set_solver).
    rewrite insert_opt_flattened by (done || set_solver). by rewrite flattened_self.
  - eapply Forall_impl; [exact Ht|]. apply tray_round_trip.
Qed.

(** *** The printed values are canonical *)

Lemma insert_canonical k v fields :
  canonical v -> canonical_fields fields -> canonical_fields (btree_insert k v fields).
Proof. intros Hv [Hi Hc]. split; [by apply increasing_insert|by apply btree_insert_Forall]. Qed.

Lemma insert_opt_canonical k o fields : canonical_fields fields -> canonical_fields (insert_opt k o fields).
Proof. destruct o; simpl; [|done]. apply insert_canonical. constructor. Qed.

Lemma canonical_Object fields : canonical_fields fields -> canonical (Object fields).
Proof. intros [? ?]. by constructor. Qed.

Lemma units_canonical units : Forall canonical_unit units -> canonical (material_units_json units).
Proof.
  intros Hu. constructor. apply Forall_map. eapply Forall_impl; [exact Hu|].
  intros u (Hf & _ & Ht). apply canonical_Object, insert_canonical; [|by apply (insert_opt_canonical "unit_id" (Us.unit_id u))].
  constructor. apply Forall_map. eapply Forall_impl; [exact Ht|].
  intros t [Htf _]. by apply canonical_Object, (insert_opt_canonical "tray_id" (Ts.tray_id t)).
Qed.

Lemma spools_canonical spools : Forall canonical_spool spools -> canonical (material_external_spools_json spools).
Proof.
  intros Hs. constructor. apply Forall_map. eapply Forall_impl; [exact Hs|]. intros s [Hf _].
  by apply canonical_Object, (insert_opt_canonical "tray_id" (Ss.tray_id s)),
    (insert_opt_canonical "external_id" (Ss.external_id s)).
Qed.

(** *** What decoding yields *)

Lemma tray_decode_canonical j t : Ts.decode j = Some t -> canonical_tray t.
Proof.
  destruct j as [fields| | | | |]; try done. cbn [Ts.decode]. intros E.
  apply bind_Some in E as (id & _ & [= <-]). split; [apply flattened_canonical|apply flattened_free].
Qed.

Lemma spool_decode_canonical j s : Ss.decode j = Some s -> canonical_spool s.
Proof.
  destruct j as [fields| | | | |]; try done. cbn [Ss.decode]. intros E.
  apply bind_Some in E as (e & _ & E). apply bind_Some in E as (id & _ & [= <-]).
  split; [apply flattened_canonical|apply flattened_free].
Qed.

Lemma decode_all_Forall {A} (decode : json -> option A) (P : A -> Prop) values l :
  (forall j a, decode j = Some a -> P a) -> decode_all decode values = Some l -> Forall P l.
Proof.
  intros Hd. revert l. induction values as [|v values IH]; simpl; intros l E; [injection E as <-; constructor|].
  apply bind_Some in E as (a & Ea & E). apply bind_Some in E as (r & Er & [= <-]).
  constructor; [by apply (Hd v)|by apply IH].
Qed.

Lemma decode_vec_Forall {A} (decode : json -> option A) (P : A -> Prop) v l :
  (forall j a, decode j = Some a -> P a) -> decode_vec decode v = Some l -> Forall P l.
Proof. destruct v; try done. apply decode_all_Forall. Qed.

Lemma unit_decode_canonical j u : Us.decode j = Some u -> canonical_unit u.
Proof.
  destruct j as [fields| | | | |]; try done. cbn [Us.decode]. intros E.
  apply bind_Some in E as (id & _ & E). apply bind_Some in E as (trays & Et & [= <-]).
  split; [apply flattened_canonical|]. split; [apply flattened_free|]. simpl.
  apply bind_Some in Et as ([v|] & _ & Et).
  - apply (decode_vec_Forall _ _ _ _ tray_decode_canonical Et).
  - injection Et as <-. constructor.
Qed.

(** ** Floats hidden *)

Definition erase_fields (fields : list (string * json)) : list (string * json) :=
  map (fun kv => (kv.1, erase kv.2)) fields.
Definition erase_tray (t : Ts.t) : Ts.t := Ts.mk (Ts.tray_id t) (erase_fields (Ts.fields t)).
Definition erase_unit (u : Us.t) : Us.t :=
  Us.mk (Us.unit_id u) (map erase_tray (Us.trays u)) (erase_fields (Us.fields u)).
Definition erase_spool (s : Ss.t) : Ss.t :=
  Ss.mk (Ss.external_id s) (Ss.tray_id s) (erase_fields (Ss.fields s)).

Lemma erase_insert k v fields :
  erase_fields (btree_insert k v fields) = btree_insert k (erase v) (erase_fields fields).
Proof.
  unfold erase_fields. induction fields as [|[k' v'] m IH]; simpl; [done|].
  destruct (String.compare k k'); simpl; [done|done|]. by rewrite IH.
Qed.

Lemma erase_extend l m : erase_fields (btree_extend m l) = btree_extend (erase_fields m) (erase_fields l).
Proof.
  unfold btree_extend. revert m. induction l as [|[k v] l IH]; intros m; simpl; [done|].
  by rewrite IH, erase_insert.
Qed.

Lemma erase_material_value j : material_value (erase j) = erase (material_value j).
Proof.
  induction j as [fields IH|values IH|s|n|b|] using json_nested_ind; simpl; try done.
  - f_equal. change (map (fun kv => (kv.1, erase kv.2)) (btree_extend [] (map (fun kv => (kv.1, material_value kv.2)) fields)))
      with (erase_fields (btree_extend [] (map (fun kv => (kv.1, material_value kv.2)) fields))).
    rewrite erase_extend. unfold erase_fields. rewrite !map_map. cbn [map]. f_equal. apply map_ext_in.
    intros [k v] Hin. simpl. f_equal. rewrite Forall_forall in IH. by apply (IH (k, v)), list_elem_of_In.
  - f_equal. rewrite !map_map. apply map_ext_in. intros v Hin. rewrite Forall_forall in IH.
    by apply IH, list_elem_of_In.
  - by destruct n.
Qed.

Lemma filter_erase (p : string * json -> bool) fields :
  (forall k v, p (k, erase v) = p (k, v)) ->
  List.filter p (erase_fields fields) = erase_fields (List.filter p fields).
Proof.
  intros Hp. unfold erase_fields. induction fields as [|[k v] m IH]; simpl; [done|].
  rewrite IH, Hp. by destruct (p (k, v)).
Qed.

Lemma field_erase k fields : field k (erase_fields fields) = option_map (option_map erase) (field k fields).
Proof.
  unfold field. rewrite filter_erase by done.
  by destruct (List.filter _ fields) as [|kv [|? ?]].
Qed.

Lemma flattened_erase known fields : flattened known (erase_fields fields) = erase_fields (flattened known fields).
Proof.
  unfold flattened. rewrite filter_erase, erase_extend by done.
  unfold erase_fields. rewrite !map_map. cbn [map]. f_equal. apply map_ext. intros [k v]. simpl.
  by rewrite erase_material_value.
Qed.

Lemma opt_string_erase v : opt_string (option_map erase v) = opt_string v.
Proof. by destruct v as [[| | |[]| |]|]. Qed.

Lemma tray_decode_erase j : Ts.decode (erase j) = option_map erase_tray (Ts.decode j).
Proof.
  destruct j as [fields| | |[]| |]; try done. cbn [erase Ts.decode].
  fold (erase_fields fields). rewrite field_erase, flattened_erase.
  destruct (field "tray_id" fields) as [v|]; [|done]. simpl. rewrite opt_string_erase.
  by destruct (opt_string v).
Qed.

Lemma spool_decode_erase j : Ss.decode (erase j) = option_map erase_spool (Ss.decode j).
Proof.
  destruct j as [fields| | |[]| |]; try done. cbn [erase Ss.decode].
  fold (erase_fields fields). rewrite !field_erase, flattened_erase.
  destruct (field "external_id" fields) as [v|]; [|done]. simpl. rewrite opt_string_erase.
  destruct (opt_string v); [|done]. simpl.
  destruct (field "tray_id" fields) as [v'|]; [|done]. simpl. rewrite opt_string_erase.
  by destruct (opt_string v').
Qed.

Lemma decode_all_erase {A} (decode : json -> option A) (f : A -> A) values :
  (forall j, decode (erase j) = option_map f (decode j)) ->
  decode_all decode (map erase values) = option_map (map f) (decode_all decode values).
Proof.
  intros Hd. induction values as [|v values IH]; simpl; [done|]. rewrite Hd.
  destruct (decode v); [|done]. simpl. rewrite IH. by destruct (decode_all decode values).
Qed.

Lemma decode_vec_erase {A} (decode : json -> option A) (f : A -> A) v :
  (forall j, decode (erase j) = option_map f (decode j)) ->
  decode_vec decode (erase v) = option_map (map f) (decode_vec decode v).
Proof. intros Hd. destruct v as [| | |[]| |]; try done. by apply decode_all_erase. Qed.

Lemma unit_decode_erase j : Us.decode (erase j) = option_map erase_unit (Us.decode j).
Proof.
  destruct j as [fields| | |[]| |]; try done. cbn [erase Us.decode].
  fold (erase_fields fields). rewrite !field_erase, flattened_erase.
  destruct (field "unit_id" fields) as [v|]; [|done]. simpl. rewrite opt_string_erase.
  destruct (opt_string v); [|done]. simpl.
  destruct (field "trays" fields) as [[v'|]|]; simpl; [|done|done].
  rewrite (decode_vec_erase _ _ v' tray_decode_erase). by destruct (decode_vec Ts.decode v').
Qed.

(** Values that differ in their floats only decode to states that do. *)
Lemma decode_same {A} (decode : json -> option A) (f : A -> A) (print : A -> json) l j' :
  (forall j, decode (erase j) = option_map f (decode j)) ->
  Forall (fun a => decode (print a) = Some a) l ->
  erase j' = erase (Array (map print l)) ->
  exists l', decode_vec decode j' = Some l' /\ map f l' = map f l.
Proof.
  intros Hd Hl E. pose proof (decode_vec_erase decode f j' Hd) as E1. rewrite E in E1.
  rewrite (decode_vec_erase decode f _ Hd) in E1. cbn [decode_vec] in E1.
  rewrite (decode_all_map decode print l Hl) in E1. simpl in E1.
  destruct (decode_vec decode j') as [l'|]; [|done]. simpl in E1. injection E1 as E1. by exists l'.
Qed.

(** Without floats nothing is hidden. *)
Lemma exact_erase j j' : exact j = true -> erase j' = erase j -> j' = j.
Proof.
  revert j'. induction j as [fields IH|values IH|s|n|b|] using json_nested_ind; intros j' Hx E.
  - destruct j' as [fields'| | |[]| |]; try done. simpl in *. f_equal. injection E as E.
    revert fields' E Hx. induction IH as [|[k v] fields Hv _ IHf]; intros [|[k' v'] fields'] E Hx; try done.
    simpl in *. injection E as -> Ev E. apply andb_true_iff in Hx as [Hx1 Hx2].
    f_equal; [f_equal; by apply Hv|by apply IHf].
  - destruct j' as [|values'| |[]| |]; try done. simpl in *. f_equal. injection E as E.
    revert values' E Hx. induction IH as [|v values Hv _ IHv]; intros [|v' values'] E Hx; try done.
    simpl in *. injection E as Ev E. apply andb_true_iff in Hx as [Hx1 Hx2].
    f_equal; [by apply Hv|by apply IHv].
  - destruct j' as [| | |[]| |]; simpl in *; congruence.
  - destruct n; [| |done]; destruct j' as [| | |[]| |]; simpl in *; congruence.
  - destruct j' as [| | |[]| |]; simpl in *; congruence.
  - destruct j' as [| | |[]| |]; simpl in *; congruence.
Qed.

Lemma exact_erased j : exact (erase j) = exact j.
Proof.
  induction j as [fields IH|values IH|s|n|b|] using json_nested_ind; simpl; try done.
  - induction IH as [|kv fields Hv _ IHf]; simpl; [done|]. by rewrite Hv, IHf.
  - induction IH as [|v values Hv _ IHv]; simpl; [done|]. by rewrite Hv, IHv.
  - by destruct n.
Qed.

(** ** What the redaction leaves *)

Fixpoint clean (j : json) : bool :=
  match j with
  | Object fields => forallb (fun kv => negb (is_sensitive kv.1) && clean kv.2) fields
  | Array values => forallb clean values
  | Str s => negb (is_sensitive s)
  | _ => true
  end.

Definition clean_fields (fields : list (string * json)) : Prop :=
  Forall (fun kv => is_sensitive kv.1 = false /\ clean kv.2 = true) fields.

Lemma clean_Object fields : clean (Object fields) = true <-> clean_fields fields.
Proof.
  simpl. unfold clean_fields. induction fields as [|kv fields IH]; simpl; [by split|].
  rewrite Forall_cons, !andb_true_iff, negb_true_iff, IH. tauto.
Qed.

Lemma redacted_clean j j' : redacted j = Some j' -> clean j' = true.
Proof.
  revert j'. induction j as [fields IH|values IH|s|n|b|] using json_nested_ind; intros j' E.
  - cbn [redacted] in E. injection E as <-. apply clean_Object. unfold clean_fields.
    induction IH as [|[k v] fields Hv _ IHf]; simpl; [constructor|].
    destruct (is_sensitive k) eqn:Ek; simpl; [done|].
    destruct (scalar_is_sensitive v); simpl; [done|].
    destruct (redacted v) as [v'|] eqn:Ev; [|done]. constructor; [|done]. simpl. by auto.
  - cbn [redacted] in E. injection E as <-. simpl.
    induction IH as [|v values Hv _ IHv]; simpl; [done|].
    destruct (redacted v) as [v'|] eqn:Ev; [|done]. simpl. by rewrite (Hv v' eq_refl), IHv.
  - simpl in E. destruct (is_sensitive s) eqn:Es; [done|]. injection E as <-. simpl. by rewrite Es.
  - by injection E as <-.
  - by injection E as <-.
  - by injection E as <-.
Qed.

Lemma redact_object_clean fields : clean_fields (redact_object fields).
Proof. apply clean_Object. by apply (redacted_clean (Object fields)). Qed.

Lemma redact_object_increasing fields : increasing fields -> increasing (redact_object fields).
Proof.
  unfold redact_object. induction 1 as [|k v m Hk Hm IH]; simpl; [constructor|].
  assert (above k (redact_fields_with redacted m)) as Ha.
  { clear -Hk. unfold above in *. induction Hk as [|[k' v'] m Hx Hm IH]; simpl; [constructor|].
    destruct (_ && _); [|done]. destruct (redacted v'); [|done]. by constructor. }
  destruct (_ && _); [|done]. destruct (redacted v); [|done]. by constructor.
Qed.

Lemma redact_object_free known fields : free_of known fields -> free_of known (redact_object fields).
Proof.
  unfold redact_object, free_of. induction 1 as [|[k v] m Hx Hm IH]; simpl; [constructor|].
  destruct (_ && _); [|done]. destruct (redacted v); [|done]. by constructor.
Qed.

Lemma redacted_canonical j j' : canonical j -> redacted j = Some j' -> canonical j'.
Proof.
  revert j'. induction j as [fields IH|values IH|s|n|b|] using json_nested_ind; intros j' Hj E.
  - cbn [redacted] in E. injection E as <-. inversion Hj as [f Hi Hc| | | | |]; subst.
    constructor; [by apply redact_object_increasing|]. clear Hj Hi.
    induction IH as [|[k v] fields Hv _ IHf]; simpl; [constructor|].
    apply Forall_cons in Hc as [Hcv Hc]. destruct (_ && _); [|by apply IHf].
    destruct (redacted v) as [v'|] eqn:Ev; [|by apply IHf]. constructor; [by apply Hv|by apply IHf].
  - cbn [redacted] in E. injection E as <-. inversion Hj as [|f Hc| | | |]; subst.
    constructor. clear Hj. induction IH as [|v values Hv _ IHv]; simpl; [constructor|].
    apply Forall_cons in Hc as [Hcv Hc].
    destruct (redacted v) as [v'|] eqn:Ev; [|by apply IHv]. constructor; [by apply Hv|by apply IHv].
  - simpl in E. destruct (is_sensitive s); [done|]. by injection E as <-.
  - by injection E as <-.
  - by injection E as <-.
  - by injection E as <-.
Qed.

Lemma redact_object_canonical fields : canonical_fields fields -> canonical_fields (redact_object fields).
Proof.
  intros [Hi Hc]. pose proof (redacted_canonical (Object fields) _ (can_object _ Hi Hc) eq_refl) as Hr.
  by inversion Hr.
Qed.

Lemma erase_clean j : clean (erase j) = clean j.
Proof.
  induction j as [fields IH|values IH|s|n|b|] using json_nested_ind; simpl; try done.
  - induction IH as [|kv fields Hv _ IHf]; simpl; [done|]. by rewrite Hv, IHf.
  - induction IH as [|v values Hv _ IHv]; simpl; [done|]. by rewrite Hv, IHv.
  - by destruct n.
Qed.

Lemma erase_clean_fields fields : clean_fields (erase_fields fields) <-> clean_fields fields.
Proof.
  unfold clean_fields, erase_fields. rewrite Forall_map. apply Forall_iff. intros kv. simpl.
  by rewrite erase_clean.
Qed.
