(* ===== verification/MaterialSafety.v ===== *)
(** * What the Hub promises about materials

    No field of a stored snapshot carries what looks like a secret, a snapshot never goes
    back in time, a report delivered again changes nothing, and only the session
    that is current writes, for printers of its agent. *)

From S2P Require Import Prelude RustStr RustFloat CoreTypes CoreRecords Json Serde BTree Store Tables JobRows Tx AgentSessions PrinterRows Materials MaterialMerge MaterialCodec.

#[local] Open Scope Z_scope.

(** ** Fields through a merge *)

Definition good_fields (known : list string) (fields : list (string * json)) : Prop :=
  canonical_fields fields /\ free_of known fields.

Lemma merge_fields_Forall (P : string * json -> Prop) c p :
  Forall P c -> Forall P p -> Forall P (merge_fields c p).
Proof.
  unfold merge_fields. intros Hc Hp. revert c Hc. induction Hp as [|[k v] p Hx Hp IH]; intros c Hc; simpl; [done|].
  apply IH. unfold merge_field, btree_remove. simpl. destruct (is_null v).
  - apply List.Forall_forall. intros kv Hin. apply filter_In in Hin as [Hin _].
    by apply (proj1 (List.Forall_forall _ _) Hc).
  - by apply btree_insert_Forall.
Qed.

Lemma without_nulls_Forall (P : string * json -> Prop) p :
  Forall P p -> Forall P (object_without_null_fields p).
Proof.
  intros Hp. apply List.Forall_forall. intros kv Hin. apply filter_In in Hin as [Hin _].
  by apply (proj1 (List.Forall_forall _ _) Hp).
Qed.

Lemma good_merge known c p : good_fields known c -> good_fields known p -> good_fields known (merge_fields c p).
Proof.
  intros [[Hi Hc] Hf] [[Hi' Hc'] Hf']. split; [split|]; [by apply merge_fields_increasing|by apply merge_fields_Forall..].
Qed.

Lemma good_without_nulls known p : good_fields known p -> good_fields known (object_without_null_fields p).
Proof.
  intros [[Hi Hc] Hf]. split; [split|]; [by apply without_nulls_increasing|by apply without_nulls_Forall..].
Qed.

Lemma free_of_subset known known' fields :
  (forall k, k ∈ known' -> k ∈ known) -> free_of known fields -> free_of known' fields.
Proof. unfold free_of. intros Hk Hf. eapply Forall_impl; [exact Hf|]. auto. Qed.

(** ** Patches and states *)

Definition good_tray_patch (p : Tp.t) : Prop := good_fields ["tray_id"%string] (Tp.fields p).
Definition good_unit_patch (p : Up.t) : Prop :=
  good_fields ["unit_id"; "replace_trays"; "trays"]%string (Up.fields p)
  /\ forall trays, Up.trays p = Some trays -> Forall good_tray_patch trays.
Definition good_spool_patch (p : Sp.t) : Prop :=
  good_fields ["external_id"; "tray_id"]%string (Sp.fields p).

Definition clean_tray_patch (p : Tp.t) : Prop := clean_fields (Tp.fields p).
Definition clean_unit_patch (p : Up.t) : Prop :=
  clean_fields (Up.fields p) /\ forall trays, Up.trays p = Some trays -> Forall clean_tray_patch trays.
Definition clean_spool_patch (p : Sp.t) : Prop := clean_fields (Sp.fields p).

Definition clean_tray (t : Ts.t) : Prop := clean_fields (Ts.fields t).
Definition clean_unit (u : Us.t) : Prop := clean_fields (Us.fields u) /\ Forall clean_tray (Us.trays u).
Definition clean_spool (s : Ss.t) : Prop := clean_fields (Ss.fields s).

Lemma good_patch_ok p : good_unit_patch p -> unit_patch_ok p.
Proof.
  intros [[[Hi _] Hf] Ht]. split; [done|]. split; [apply (free_lookup _ _ _ Hf); set_solver|].
  intros trays E. eapply Forall_impl; [by apply Ht|]. by intros q [[? _] _].
Qed.

Lemma new_trays_Forall (P : Ts.t -> Prop) ps :
  (forall p, In p ps -> P (tray_new p)) -> Forall P (new_tray_states ps).
Proof.
  intros Hp. rewrite new_tray_states_eq, sort_by_perm. apply Forall_forall. intros x Hx.
  apply list_elem_of_omap in Hx as (p & Hin & E). destruct (Tp.tray_id p); [|done]. injection E as <-.
  by apply Hp, list_elem_of_In.
Qed.

Lemma merge_trays_Forall (P : Ts.t -> Prop) current ps replace :
  (forall p x, In p ps -> P x -> P (tray_change p x)) -> (forall p, In p ps -> P (tray_new p)) ->
  Forall P current -> Forall P (merge_trays current ps replace).
Proof. intros Hc Hn Hl. rewrite merge_trays_eq. by apply merge_all_Forall. Qed.

Lemma merge_units_Forall (P : Us.t -> Prop) current ps :
  (forall p x, In p ps -> P x -> P (unit_change p x)) -> (forall p, In p ps -> P (unit_new p)) ->
  Forall P current -> Forall P (merge_units current ps).
Proof. intros Hc Hn Hl. rewrite merge_units_eq. by apply merge_all_Forall. Qed.

Lemma merge_spools_Forall (P : Ss.t -> Prop) current ps replace :
  (forall p x, In p ps -> P x -> P (spool_change p x)) -> (forall p, In p ps -> P (spool_new p)) ->
  Forall P current -> Forall P (merge_external_spools current ps replace).
Proof. intros Hc Hn Hl. rewrite merge_external_spools_eq. by apply merge_all_Forall. Qed.

Lemma Forall_In {A} (P : A -> Prop) l x : Forall P l -> In x l -> P x.
Proof. intros Hl Hx. by apply (proj1 (List.Forall_forall _ _) Hl). Qed.

(** A change of trays that keeps [P], given patches that have [Q]. *)
Lemma unit_trays_change (P : Ts.t -> Prop) p x :
  (forall trays, Up.trays p = Some trays -> forall q, In q trays ->
     (forall y, P y -> P (tray_change q y)) /\ P (tray_new q)) ->
  Forall P (Us.trays x) -> Forall P (Us.trays (unit_change p x)).
Proof.
  intros Hp Hx. unfold unit_change. simpl. destruct (Up.trays p) as [trays|] eqn:E; [|done].
  apply merge_trays_Forall; [|by intros q Hq; apply (Hp trays)|done]. intros q y Hq. by apply (Hp trays).
Qed.

Lemma unit_trays_new (P : Ts.t -> Prop) p :
  (forall trays, Up.trays p = Some trays -> forall q, In q trays -> P (tray_new q)) ->
  Forall P (Us.trays (unit_new p)).
Proof.
  intros Hp. unfold unit_new. simpl. destruct (Up.trays p) as [trays|] eqn:E; simpl; [|constructor].
  apply new_trays_Forall. by apply Hp.
Qed.

Lemma new_unit_fields_Forall (P : string * json -> Prop) p :
  P ("replace_trays"%string, Bool true) -> Forall P (Up.fields p) ->
  Forall P (fields_without_nulls_for_new_unit p).
Proof.
  intros Hr Hp. unfold fields_without_nulls_for_new_unit. apply without_nulls_Forall.
  destruct (Up.replace_trays p); [|done]. by apply btree_insert_Forall.
Qed.

Lemma new_unit_fields_increasing p :
  increasing (Up.fields p) -> increasing (fields_without_nulls_for_new_unit p).
Proof.
  intros Hi. unfold fields_without_nulls_for_new_unit. apply without_nulls_increasing.
  destruct (Up.replace_trays p); auto with btree.
Qed.

Lemma canonical_units_merge current ps :
  Forall canonical_unit current -> Forall good_unit_patch ps -> Forall canonical_unit (merge_units current ps).
Proof.
  intros Hc Hp.
  assert (forall p, In p ps -> forall trays, Up.trays p = Some trays -> forall q, In q trays ->
            (forall y, canonical_tray y -> canonical_tray (tray_change q y)) /\ canonical_tray (tray_new q)) as Ht.
  { intros p Hin trays E q Hq. destruct (Forall_In _ _ _ Hp Hin) as [_ Ht].
    pose proof (Forall_In _ _ _ (Ht trays E) Hq) as Hg.
    split; [intros y Hy; by apply good_merge|by apply good_without_nulls]. }
  apply merge_units_Forall; [| |done].
  - intros p x Hin (Hf & Hfree & Htr). destruct (Forall_In _ _ _ Hp Hin) as [[Hg Hgf] _].
    destruct (good_merge ["unit_id"; "trays"]%string (Us.fields x) (Up.fields p)) as [H1 H2];
      [by split|split; [done|]; eapply free_of_subset; [|exact Hgf]; set_solver|].
    split; [done|]. split; [done|]. by apply unit_trays_change; [apply Ht|].
  - intros p Hin. destruct (Forall_In _ _ _ Hp Hin) as [[[Hi Hcan] Hgf] _].
    split; [split|].
    + by apply new_unit_fields_increasing.
    + apply new_unit_fields_Forall; [constructor|done].
    + split; [|apply unit_trays_new; intros trays E q Hq; by apply (Ht p Hin trays E)].
      apply new_unit_fields_Forall; [set_solver|]. eapply free_of_subset; [|exact Hgf]. set_solver.
Qed.

Lemma canonical_spools_merge current ps replace :
  Forall canonical_spool current -> Forall good_spool_patch ps ->
  Forall canonical_spool (merge_external_spools current ps replace).
Proof.
  intros Hc Hp. apply merge_spools_Forall; [| |done].
  - intros p x Hin Hx. by apply good_merge; [|apply (Forall_In _ _ _ Hp)].
  - intros p Hin. by apply good_without_nulls, (Forall_In _ _ _ Hp).
Qed.

Lemma clean_units_merge current ps :
  Forall clean_unit current -> Forall clean_unit_patch ps -> Forall clean_unit (merge_units current ps).
Proof.
  intros Hc Hp.
  assert (forall p, In p ps -> forall trays, Up.trays p = Some trays -> forall q, In q trays ->
            (forall y, clean_tray y -> clean_tray (tray_change q y)) /\ clean_tray (tray_new q)) as Ht.
  { intros p Hin trays E q Hq. destruct (Forall_In _ _ _ Hp Hin) as [_ Ht].
    pose proof (Forall_In _ _ _ (Ht trays E) Hq) as Hg.
    split; [intros y Hy; by apply merge_fields_Forall|by apply without_nulls_Forall]. }
  apply merge_units_Forall; [| |done].
  - intros p x Hin [Hf Htr]. destruct (Forall_In _ _ _ Hp Hin) as [Hg _].
    split; [by apply merge_fields_Forall|]. by apply unit_trays_change; [apply Ht|].
  - intros p Hin. destruct (Forall_In _ _ _ Hp Hin) as [Hg _].
    split; [by apply new_unit_fields_Forall|apply unit_trays_new; intros trays E q Hq; by apply (Ht p Hin trays E)].
Qed.

Lemma clean_spools_merge current ps replace :
  Forall clean_spool current -> Forall clean_spool_patch ps ->
  Forall clean_spool (merge_external_spools current ps replace).
Proof.
  intros Hc Hp. apply merge_spools_Forall; [| |done].
  - intros p x Hin Hx. by apply merge_fields_Forall; [|apply (Forall_In _ _ _ Hp)].
  - intros p Hin. by apply without_nulls_Forall, (Forall_In _ _ _ Hp).
Qed.

(** ** Parsed patches *)

Section Rows.
Context `{Store} `{UuidText} `{Rfc3339} `{MaterialText}.

Lemma redact_good known fields : good_fields known fields -> good_fields known (redact_object fields).
Proof. intros [Hc Hf]. split; [by apply redact_object_canonical|by apply redact_object_free]. Qed.

Lemma tray_patch_decode j p : Tp.decode j = Some p -> good_tray_patch p.
Proof.
  destruct j as [fields| | | | |]; try done. cbn [Tp.decode]. intros E.
  apply bind_Some in E as (id & _ & [= <-]). split; [apply flattened_canonical|apply flattened_free].
Qed.

Lemma spool_patch_decode j p : Sp.decode j = Some p -> good_spool_patch p.
Proof.
  destruct j as [fields| | | | |]; try done. cbn [Sp.decode]. intros E.
  apply bind_Some in E as (e & _ & E). apply bind_Some in E as (id & _ & [= <-]).
  split; [apply flattened_canonical|apply flattened_free].
Qed.

Lemma unit_patch_decode j p : Up.decode j = Some p -> good_unit_patch p.
Proof.
  destruct j as [fields| | | | |]; try done. cbn [Up.decode]. intros E.
  apply bind_Some in E as (id & _ & E). apply bind_Some in E as (r & _ & E).
  apply bind_Some in E as (trays & Et & [= <-]).
  split; [split; [apply flattened_canonical|apply flattened_free]|]. simpl. intros l ->.
  apply bind_Some in Et as (v & _ & Et). destruct v as [[]|]; try done.
  cbn [opt_vec] in Et. apply fmap_Some in Et as (l' & El & [= ->]).
  apply (decode_vec_Forall _ _ _ _ tray_patch_decode El).
Qed.

Lemma opt_vec_Forall {A} (decode : json -> option A) (P : A -> Prop) v l :
  (forall j a, decode j = Some a -> P a) -> opt_vec decode v = Some (Some l) -> Forall P l.
Proof.
  intros Hd E. destruct v as [[]|]; try done; cbn [opt_vec] in E;
    apply fmap_Some in E as (l' & El & [= ->]); by apply (decode_vec_Forall _ _ _ _ Hd El).
Qed.

Lemma document_decode j doc :
  Doc.decode j = Some doc ->
  (forall units, Doc.ams_units doc = Some units -> Forall good_unit_patch units)
  /\ (forall spools, Doc.external_spools doc = Some spools -> Forall good_spool_patch spools)
  /\ (forall v, Doc.active_tray doc = Value v -> canonical v).
Proof.
  intros E.
  assert (exists fields, Doc.decode_fields fields = Some doc) as [f Ef].
  { destruct j as [fields|values| | | |]; try done; cbn [Doc.decode] in E; [by eexists|].
    destruct (_ <? _)%nat; [done|by eexists]. }
  unfold Doc.decode_fields in Ef. repeat (apply bind_Some in Ef as (? & ? & Ef)). injection Ef as <-. simpl.
  repeat match goal with Hb : _ ≫= _ = Some _ |- _ => apply bind_Some in Hb as (? & ? & Hb) end.
  split; [|split].
  - intros units ->. by eapply opt_vec_Forall; [exact unit_patch_decode|].
  - intros spools ->. by eapply opt_vec_Forall; [exact spool_patch_decode|].
  - intros v Ev. match type of Ev with presence ?o = _ => destruct o as [w|]; [|done] end.
    cbn [presence] in Ev. destruct (material_value w) eqn:Ew; try done; injection Ev as <-; rewrite <- Ew;
      apply material_value_canonical.
Qed.

Definition good_patch (p : Pp.t) : Prop :=
  (forall units, Pp.ams_units p = Some units -> Forall good_unit_patch units /\ Forall clean_unit_patch units)
  /\ (forall spools, Pp.external_spools p = Some spools ->
        Forall good_spool_patch spools /\ Forall clean_spool_patch spools)
  /\ (forall v, Pp.active_tray p = Value v -> canonical v /\ clean v = true).

Lemma redacted_unit_good u : good_unit_patch u -> good_unit_patch (redacted_unit u).
Proof.
  intros [Hf Ht]. split; [by apply redact_good|]. unfold redacted_unit. simpl. intros trays E.
  destruct (Up.trays u) as [l|]; [|done]. injection E as <-. apply Forall_map.
  eapply Forall_impl; [by apply Ht|]. intros t. apply redact_good.
Qed.

Lemma redacted_unit_clean u : clean_unit_patch (redacted_unit u).
Proof.
  split; [apply redact_object_clean|]. unfold redacted_unit. simpl. intros trays E.
  destruct (Up.trays u) as [l|]; [|done]. injection E as <-. apply Forall_map, Forall_true.
  intros t. apply redact_object_clean.
Qed.

Lemma parse_patch_good raw p :
  parse_patch_result raw = Some p -> good_patch p /\ exists t, rfc_parse (Pp.observed_at p) = Some t.
Proof.
  unfold parse_patch_result. intros E. apply bind_Some in E as (doc & Ed & E).
  apply bind_Some in Ed as (j & _ & Ed). apply document_decode in Ed as (Hu & Hs & Ha).
  destruct (negb _); [done|]. apply bind_Some in E as (t & Et & [= <-]). split; [|by exists t].
  split; [|split]; simpl.
  - intros units E. destruct (Doc.ams_units doc) as [l|]; [|done]. injection E as <-. split; apply Forall_map.
    + eapply Forall_impl; [by apply Hu|]. intros u. apply redacted_unit_good.
    + apply Forall_true. intros u. apply redacted_unit_clean.
  - intros spools E. destruct (Doc.external_spools doc) as [l|]; [|done]. injection E as <-. split; apply Forall_map.
    + eapply Forall_impl; [by apply Hs|]. intros u. apply redact_good.
    + apply Forall_true. intros u. apply redact_object_clean.
  - intros v E. destruct (Doc.active_tray doc) as [| |w]; try done. cbn [presence_redacted] in E.
    destruct (redacted w) as [w'|] eqn:Ew; [|done]. injection E as <-.
    split; [by apply (redacted_canonical w), Ew; apply Ha|by apply (redacted_clean w)].
Qed.

(** ** Rows *)

(** What a row holds can be read, and none of its fields carries a secret; [clean_fields]
    does not look at the ids [unit_id], [tray_id] and [external_id], which the records
    keep apart from the fields. *)
Definition row_clean (m : Sm.t) : Prop :=
  (exists units, parse_units_json (Sm.ams_json m) = Ok units /\ Forall clean_unit units)
  /\ (exists spools, parse_external_spools_json (Sm.external_spools_json m) = Ok spools
                     /\ Forall clean_spool spools)
  /\ (forall text, Sm.active_tray_json m = Some text ->
        exists j, parse_object_json text = Ok j /\ clean j = true).

Lemma parse_units_Ok raw units :
  parse_units_json raw = Ok units -> Forall canonical_unit units.
Proof.
  unfold parse_units_json, or_database. rewrite ok_or_Ok. intros E. apply bind_Some in E as (j & _ & E).
  apply (decode_vec_Forall _ _ _ _ unit_decode_canonical E).
Qed.

Lemma parse_spools_Ok raw spools :
  parse_external_spools_json raw = Ok spools -> Forall canonical_spool spools.
Proof.
  unfold parse_external_spools_json, or_database. rewrite ok_or_Ok. intros E.
  apply bind_Some in E as (j & _ & E). apply (decode_vec_Forall _ _ _ _ spool_decode_canonical E).
Qed.

Lemma map_same_Forall {A B} (f : A -> B) (P : A -> Prop) l l' :
  (forall a a', f a = f a' -> P a -> P a') -> map f l' = map f l -> Forall P l -> Forall P l'.
Proof.
  intros Hf E Hl. revert l' E. induction Hl as [|a l Ha Hl IH]; intros [|a' l'] E; try done; constructor.
  - injection E as E _. by apply (Hf a).
  - injection E as _ E. by apply IH.
Qed.

Lemma erase_clean_tray t t' : erase_tray t = erase_tray t' -> clean_tray t -> clean_tray t'.
Proof. intros [= _ E]. unfold clean_tray. by rewrite <- erase_clean_fields, E, erase_clean_fields. Qed.

Lemma erase_clean_unit u u' : erase_unit u = erase_unit u' -> clean_unit u -> clean_unit u'.
Proof.
  intros [= _ Et E] [Hf Ht]. split.
  - by rewrite <- erase_clean_fields, <- E, erase_clean_fields.
  - by eapply map_same_Forall; [exact erase_clean_tray| |exact Ht].
Qed.

Lemma erase_clean_spool s s' : erase_spool s = erase_spool s' -> clean_spool s -> clean_spool s'.
Proof. intros [= _ _ E]. unfold clean_spool. by rewrite <- erase_clean_fields, E, erase_clean_fields. Qed.

(** Units that are printed are read back, up to floats. *)
Lemma units_text units text :
  Forall canonical_unit units -> json_to_string (material_units_json units) = Some text ->
  exists units', parse_units_json text = Ok units' /\ map erase_unit units' = map erase_unit units.
Proof.
  intros Hu E. destruct (json_text_round_trip _ _ E) as (j' & Ej & Ee).
  destruct (decode_same Us.decode erase_unit Us.into_json units j' unit_decode_erase) as (l' & El & Em).
  - eapply Forall_impl; [exact Hu|]. apply unit_round_trip.
  - exact Ee.
  - exists l'. unfold parse_units_json, or_database. rewrite Ej. simpl. by rewrite El.
Qed.

Lemma spools_text spools text :
  Forall canonical_spool spools -> json_to_string (material_external_spools_json spools) = Some text ->
  exists spools', parse_external_spools_json text = Ok spools'
                  /\ map erase_spool spools' = map erase_spool spools.
Proof.
  intros Hu E. destruct (json_text_round_trip _ _ E) as (j' & Ej & Ee).
  destruct (decode_same Ss.decode erase_spool Ss.into_json spools j' spool_decode_erase) as (l' & El & Em).
  - eapply Forall_impl; [exact Hu|]. apply spool_round_trip.
  - exact Ee.
  - exists l'. unfold parse_external_spools_json, or_database. rewrite Ej. simpl. by rewrite El.
Qed.

Lemma clean_material_value j : clean j = true -> clean (material_value j) = true.
Proof.
  induction j as [fields IH|values IH|s|n|b|] using json_nested_ind; simpl; try done.
  - intros Hc. apply clean_Object. apply (proj1 (clean_Object fields)) in Hc.
    unfold btree_extend.
    assert (forall l m, clean_fields l -> clean_fields m ->
              clean_fields (foldl (fun m (kv : string * json) => btree_insert kv.1 kv.2 m) m l)) as Hext.
    { intros l m Hl. revert m. induction Hl as [|[k v] l Hx Hl IHl]; intros m Hm; simpl; [done|].
      apply IHl. by apply btree_insert_Forall. }
    apply Hext; [|constructor]. unfold clean_fields. apply Forall_map. simpl.
    apply Forall_forall. intros kv Hin. unfold clean_fields in Hc. rewrite Forall_forall in IH, Hc.
    destruct (Hc kv Hin) as [? ?]. split; [done|]. by apply IH.
  - intros Hc. rewrite forallb_forall in *. intros v Hin. apply in_map_iff in Hin as (w & <- & Hin).
    rewrite Forall_forall in IH. by apply IH; [apply list_elem_of_In|apply Hc].
Qed.

Lemma object_text j text j' :
  clean j = true -> json_to_string j = Some text -> parse_object_json text = Ok j' -> clean j' = true.
Proof.
  intros Hc E Ep. destruct (json_text_round_trip _ _ E) as (v & Ev & Ee).
  unfold parse_object_json in Ep. rewrite Ev in Ep. destruct v as [fields| | | | |]; try done.
  injection Ep as <-. apply (clean_material_value (Object fields)).
  by rewrite <- erase_clean, Ee, erase_clean.
Qed.

(** ** A write *)

(** The row of a printer. *)
Definition tp_key (m : Sm.t) : string * string := (Sm.tenant_id m, Sm.printer_id m).

Definition snapshots_keyed (rows : list Sm.t) : Prop := keyed Sm.id rows /\ keyed tp_key rows.

(** The row a patch makes of the current one. *)
Definition row_of (id now serial : string) (input : Mpi.t) (current : option Sm.t) (patch : Pp.t)
    (merged : Ms.t) (ams spools : string) (tray : option string) : Sm.t :=
  Sm.mk (default id (option_map Sm.id current)) (TenantId_to_string (Mpi.tenant_id input))
    (Mpi.printer_id input) (AgentId_to_string (Mpi.agent_id input)) serial ams spools tray
    (Ms.filament_switch_installed merged) (Ms.cfg merged) (Ms.aux merged) (Ms.stat merged)
    (Pp.observed_at patch) now.

(** A patch that changed the snapshot. *)
Record written (id now : string) (input : Mpi.t) (s s' : Mdb.t) (snap : Snap.t) (patch : Pp.t)
    (current : option Sm.t) (row : Sm.t) : Prop := {
  wr_patch : parse_patch_result (Mpi.printer_materials_json input) = Some patch;
  wr_blank : blank (Mpi.printer_materials_json input) = false;
  wr_printer : exists printer, select_one (fun m => beq (PrintersModel.id m) (Mpi.printer_id input)
     && printer_row (Mpi.tenant_id input) (Mpi.agent_id input) m) (Mdb.printers s) = Some printer;
  wr_current : select_one (snapshot_row (Mpi.tenant_id input) (Mpi.printer_id input)) (Mdb.snapshots s) = current;
  wr_time : forall m, current = Some m -> is_older (Pp.observed_at patch) (Sm.observed_at m) = Ok false;
  wr_row : exists merged serial ams spools tray,
     merge_snapshot current patch = Ok merged
     /\ json_to_string (Ms.ams_units merged) = Some ams
     /\ json_to_string (Ms.external_spools merged) = Some spools
     /\ traverse_opt (fun j => or_database (json_to_string j)) (Ms.active_tray merged) = Ok tray
     /\ row = row_of id now serial input current patch merged ams spools tray;
  wr_snap : snapshot_from_model row = Ok snap;
  wr_state : exists rows, s' = s <| Mdb.snapshots := rows |>
     /\ match current with
        | Some m => rows = map (fun x => if beq (Sm.id x) (Sm.id m) then row else x) (Mdb.snapshots s)
        | None => rows = insert_row row (Mdb.snapshots s)
                  /\ forall x, In x (Mdb.snapshots s) -> Sm.id x <> Sm.id row /\ tp_key x <> tp_key row
        end }.

Lemma upsert_spec id now input s s' outcome :
  upsert_from_patch_outcome_in_connection id now input s = (s', Ok outcome) ->
  (s' = s /\ (forall snap, outcome <> Changed snap))
  \/ exists snap patch current row, outcome = Changed snap /\ written id now input s s' snap patch current row.
Proof.
  unfold upsert_from_patch_outcome_in_connection. intros E.
  destruct (blank _) eqn:Eb; [apply tret_Ok in E as [-> ->]; by left|].
  destruct (parse_patch_result _) as [patch|] eqn:Ep; [|apply tret_Ok in E as [-> ->]; by left].
  apply tbind_Ok in E as (s1 & o & Eo & E). apply tread_Ok in Eo as [-> Eo]. injection Eo as <-.
  apply tbind_Ok in E as (s1 & printer & Epr & E). apply tlift_Ok in Epr as [-> Epr]. apply ok_or_Ok in Epr.
  apply tbind_Ok in E as (s1 & current & Ec & E). apply tread_Ok in Ec as [-> Ec]. injection Ec as Ec.
  apply tbind_Ok in E as (s1 & older & Eold & E). apply tlift_Ok in Eold as [-> Eold].
  destruct older; [apply tret_Ok in E as [-> ->]; by left|].
  apply tbind_Ok in E as (s1 & csnap & Ecs & E). apply tlift_Ok in Ecs as [-> Ecs].
  apply tbind_Ok in E as (s1 & merged & Em & E). apply tlift_Ok in Em as [-> Em].
  destruct (opt_filter _ csnap) as [snap|]; [apply tret_Ok in E as [-> ->]; by left|].
  apply tbind_Ok in E as (s1 & tray & Et & E). apply tlift_Ok in Et as [-> Et].
  apply tbind_Ok in E as (s1 & ams & Ea & E). apply tlift_Ok in Ea as [-> Ea]. apply ok_or_Ok in Ea.
  apply tbind_Ok in E as (s1 & spools & Es & E). apply tlift_Ok in Es as [-> Es]. apply ok_or_Ok in Es.
  cbn zeta in E. apply tbind_Ok in E as (s1 & model & Ew & E).
  apply tbind_Ok in E as (s2 & snap & Esn & E). apply tlift_Ok in Esn as [-> Esn].
  apply tret_Ok in E as [-> ->]. right.
  set (serial := if beq (Mpi.serial_number input) EmptyString then PrintersModel.serial_number printer
                 else Mpi.serial_number input) in Ew.
  set (row := Sm.mk _ _ _ _ serial _ _ _ _ _ _ _ _ _) in Ew.
  assert (model = row /\ exists rows, s1 = s <| Mdb.snapshots := rows |>
     /\ match current with
        | Some m => rows = map (fun x => if beq (Sm.id x) (Sm.id m) then row else x) (Mdb.snapshots s)
        | None => rows = insert_row row (Mdb.snapshots s)
                  /\ forall x, In x (Mdb.snapshots s) -> Sm.id x <> Sm.id row /\ tp_key x <> tp_key row
        end) as [-> Hst].
  { unfold write_snapshot in Ew. destruct current as [m|]; cbn [is_some] in Ew.
    - rewrite (surjective_pairing (update_many _ _ _)) in Ew. cbn beta iota in Ew.
      destruct (_ =? 0); [done|]. injection Ew as <- <-. split; [done|]. eexists. split; [done|].
      by rewrite update_many_rows.
    - destruct (is_some _) eqn:Ei; [done|]. injection Ew as <- <-. split; [done|]. eexists. split; [done|].
      split; [done|]. intros x Hx.
      match type of Ei with is_some ?o = _ => destruct o as [y|] eqn:Ey; [done|] end.
      pose proof (select_one_None _ _ _ Ey Hx) as Hn. apply orb_false_iff in Hn as [Hn1 Hn2].
      rewrite beq_false in Hn1. split; [done|]. intros [= E1 E2]. simpl in Hn2.
      by rewrite E1, E2, !beq_refl in Hn2. }
  exists snap, patch, current, row. split; [done|]. split; try done.
  - by exists printer.
  - by intros m ->.
  - exists merged, serial, ams, spools, tray. done.
Qed.

(** *** Secrets *)

Lemma merge_snapshot_clean current patch merged :
  good_patch patch -> (forall m, current = Some m -> row_clean m) ->
  merge_snapshot current patch = Ok merged ->
  (exists units, Ms.ams_units merged = material_units_json units /\ Forall canonical_unit units /\ Forall clean_unit units)
  /\ (exists spools, Ms.external_spools merged = material_external_spools_json spools
        /\ Forall canonical_spool spools /\ Forall clean_spool spools)
  /\ (forall j, Ms.active_tray merged = Some j -> clean j = true).
Proof.
  intros (Hu & Hs & Ha) Hc E. unfold merge_snapshot in E.
  apply rbind_Ok in E as (ou & Eu & E). cbn zeta in E. apply rbind_Ok in E as (os & Es & E). cbn zeta in E.
  apply rbind_Ok in E as (tray & Et & E). injection E as <-. simpl.
  assert (Forall canonical_unit (default [] ou) /\ Forall clean_unit (default [] ou)) as [Hcu Hclu].
  { destruct current as [m|]; [|by injection Eu as <-].
    destruct (Hc m eq_refl) as ((l & El & Hl) & _). unfold traverse_opt in Eu. simpl in Eu. rewrite El in Eu.
    injection Eu as <-. simpl. split; [by eapply parse_units_Ok|done]. }
  assert (Forall canonical_spool (default [] os) /\ Forall clean_spool (default [] os)) as [Hcs Hcls].
  { destruct current as [m|]; [|by injection Es as <-].
    destruct (Hc m eq_refl) as (_ & (l & El & Hl) & _). unfold traverse_opt in Es. simpl in Es. rewrite El in Es.
    injection Es as <-. simpl. split; [by eapply parse_spools_Ok|done]. }
  split; [|split].
  - eexists. split; [reflexivity|]. destruct (Pp.ams_units patch) as [units|]; [|done].
    destruct (Hu units eq_refl) as [? ?]. by split; [apply canonical_units_merge|apply clean_units_merge].
  - eexists. split; [reflexivity|]. destruct (Pp.external_spools patch) as [spools|]; [|done].
    destruct (Hs spools eq_refl) as [? ?]. by split; [apply canonical_spools_merge|apply clean_spools_merge].
  - intros j ->. destruct (Pp.active_tray patch) as [| |v]; [|done|].
    + destruct current as [m|]; [|done]. simpl in Et.
      destruct (Sm.active_tray_json m) as [text|] eqn:Em; [|done].
      destruct (Hc m eq_refl) as (_ & _ & Htr). destruct (Htr text Em) as (v & Ev & Hv).
      unfold traverse_opt in Et. simpl in Et. rewrite Ev in Et. by injection Et as <-.
    + injection Et as <-. by apply Ha.
Qed.

Lemma traverse_some {A B} (f : A -> result RepositoryError B) o b :
  traverse_opt f o = Ok (Some b) -> exists a, o = Some a /\ f a = Ok b.
Proof.
  unfold traverse_opt. destruct o as [a|]; [|done]. simpl. destruct (f a) eqn:E; [|done].
  intros [= ->]. eauto.
Qed.

Lemma snapshot_from_model_tray row snap text :
  snapshot_from_model row = Ok snap -> Sm.active_tray_json row = Some text ->
  exists j, parse_object_json text = Ok j.
Proof.
  unfold snapshot_from_model. intros E Et. apply rbind_Ok in E as (t & _ & E).
  apply rbind_Ok in E as (a & _ & E). apply rbind_Ok in E as (u & _ & E). apply rbind_Ok in E as (sp & _ & E).
  apply rbind_Ok in E as (tr & Etr & _). rewrite Et in Etr. unfold traverse_opt in Etr. simpl in Etr.
  destruct (parse_object_json text) as [j|]; [by exists j|done].
Qed.

Lemma written_clean id now input s s' snap patch current row :
  written id now input s s' snap patch current row ->
  Forall row_clean (Mdb.snapshots s) -> Forall row_clean (Mdb.snapshots s').
Proof.
  intros [Hp _ _ Hc _ (merged & serial & ams & spools & tray & Em & Ea & Es & Et & Er) Hsn (rows & -> & Hrows)] Hok.
  destruct (parse_patch_good _ _ Hp) as [Hg _].
  assert (forall m, current = Some m -> row_clean m) as Hcur.
  { intros m E. rewrite E in Hc. apply select_one_Some in Hc as [Hin _]. by apply (Forall_In _ _ _ Hok). }
  destruct (merge_snapshot_clean _ _ _ Hg Hcur Em) as ((us & Eus & Hcu & Hclu) & (ss & Ess & Hcs & Hcls) & Htr).
  assert (row_clean row) as Hrow.
  { subst row. split; [|split]; simpl.
    - rewrite Eus in Ea. destruct (units_text us ams Hcu Ea) as (us' & E' & Em').
      exists us'. split; [done|]. by eapply map_same_Forall; [exact erase_clean_unit| |exact Hclu].
    - rewrite Ess in Es. destruct (spools_text ss spools Hcs Es) as (ss' & E' & Em').
      exists ss'. split; [done|]. by eapply map_same_Forall; [exact erase_clean_spool| |exact Hcls].
    - intros text ->. destruct (snapshot_from_model_tray _ _ text Hsn eq_refl) as [j Ej].
      exists j. split; [done|]. apply traverse_some in Et as (v & Ev & Et). apply ok_or_Ok in Et.
      by eapply object_text; [apply Htr| |]. }
  simpl. destruct current as [m|].
  - subst rows. apply Forall_map. eapply Forall_impl; [exact Hok|]. intros x Hx.
    by destruct (beq (Sm.id x) (Sm.id m)).
  - destruct Hrows as [-> _]. apply List.Forall_forall. intros x Hx. apply In_insert_row in Hx as [-> | Hx]; [done|].
    by apply (Forall_In _ _ _ Hok).
Qed.

(** *** Time *)

(** The same snapshot, observed no earlier. *)
Definition snapshot_later (r r' : Sm.t) : Prop :=
  Sm.id r' = Sm.id r /\ tp_key r' = tp_key r
  /\ forall t, rfc_parse (Sm.observed_at r) = Some t ->
       exists t', rfc_parse (Sm.observed_at r') = Some t' /\ t <= t'.

#[export] Instance snapshot_later_preorder : PreOrder snapshot_later.
Proof.
  split.
  - intros r. repeat split. intros t E. exists t. by split.
  - intros r1 r2 r3 (E1 & E2 & Ht) (F1 & F2 & Hu). repeat split; [congruence|congruence|].
    intros t E. destruct (Ht t E) as (t2 & E' & Hle). destruct (Hu t2 E') as (t3 & E'' & Hle').
    exists t3. split; [done|lia].
Qed.

Lemma snapshot_row_true tenant_id printer_id m :
  snapshot_row tenant_id printer_id m = true <-> tp_key m = (TenantId_to_string tenant_id, printer_id).
Proof.
  unfold snapshot_row, tp_key. rewrite andb_true_iff, !beq_true. split; [by intros [-> ->]|by intros [= -> ->]].
Qed.

Lemma is_older_false o p :
  is_older o p = Ok false ->
  forall t, rfc_parse p = Some t -> exists t', rfc_parse o = Some t' /\ t <= t'.
Proof.
  unfold is_older, or_database. intros E t Et. apply rbind_Ok in E as (a & Ea & E). apply ok_or_Ok in Ea.
  apply rbind_Ok in E as (b & Eb & E). apply ok_or_Ok in Eb. injection E as E.
  apply Z.ltb_ge in E. exists a. split; [done|]. congruence.
Qed.

Lemma written_key id now input s s' snap patch current row :
  written id now input s s' snap patch current row ->
  tp_key row = (TenantId_to_string (Mpi.tenant_id input), Mpi.printer_id input)
  /\ (forall m, current = Some m -> In m (Mdb.snapshots s) /\ tp_key m = tp_key row /\ Sm.id row = Sm.id m).
Proof.
  intros [_ _ _ Hc _ (merged & serial & ams & spools & tray & _ & _ & _ & _ & ->) _ _].
  split; [done|]. intros m ->. apply select_one_Some in Hc as [Hin Hm]. by apply snapshot_row_true in Hm.
Qed.

Lemma written_rows id now input s s' snap patch current row :
  written id now input s s' snap patch current row -> snapshots_keyed (Mdb.snapshots s) ->
  snapshots_keyed (Mdb.snapshots s') /\ carries snapshot_later (Mdb.snapshots s) (Mdb.snapshots s')
  /\ In row (Mdb.snapshots s')
  /\ forall x, tp_key x <> tp_key row -> In x (Mdb.snapshots s') <-> In x (Mdb.snapshots s).
Proof.
  intros Hw [K1 K2]. destruct (written_key _ _ _ _ _ _ _ _ _ Hw) as [Hkey Hcur].
  destruct Hw as [_ _ _ _ Ht (merged & serial & ams & spools & tray & _ & _ & _ & _ & Er) _ (rows & -> & Hrows)].
  simpl. destruct current as [m|].
  - destruct (Hcur m eq_refl) as (Hin & Hk & Hid). subst rows.
    set (f := fun x => if beq (Sm.id x) (Sm.id m) then row else x).
    assert (forall x, In x (Mdb.snapshots s) -> beq (Sm.id x) (Sm.id m) = true -> x = m) as Hone.
    { intros x Hx E. rewrite beq_true in E. by apply (keyed_In _ _ _ _ K1 Hx Hin). }
    assert (forall x, In x (Mdb.snapshots s) -> Sm.id (f x) = Sm.id x /\ tp_key (f x) = tp_key x) as Hf.
    { intros x Hx. unfold f. destruct (beq _ _) eqn:E; [|done]. apply (Hone x Hx) in E as ->. done. }
    split; [split|split; [|split]].
    + unfold keyed. rewrite map_map, (map_ext_in _ Sm.id); [done|]. intros x Hx. by apply Hf.
    + unfold keyed. rewrite map_map, (map_ext_in _ tp_key); [done|]. intros x Hx. by apply Hf.
    + intros x Hx. exists (f x). split; [by apply in_map|]. destruct (Hf x Hx) as [? ?].
      split; [done|]. split; [done|]. unfold f. destruct (beq _ _) eqn:E; [|by eauto using Z.le_refl].
      apply (Hone x Hx) in E as ->. subst row. simpl. apply is_older_false. by apply Ht.
    + apply in_map_iff. exists m. split; [|done]. unfold f. by rewrite beq_refl.
    + intros x Hx. rewrite in_map_iff. split.
      * intros (y & <- & Hy). unfold f in *. destruct (beq (Sm.id y) (Sm.id m)); done.
      * intros Hin'. exists x. split; [|done]. unfold f. destruct (beq _ _) eqn:E; [|done].
        apply (Hone x Hin') in E as ->. congruence.
  - destruct Hrows as [-> Hno]. split; [split|split; [|split]].
    + apply keyed_insert; [done|]. intros x Hx. by apply Hno.
    + apply keyed_insert; [done|]. intros x Hx. by apply Hno.
    + apply carries_insert. apply _.
    + apply In_insert_row. by left.
    + intros x Hx. rewrite In_insert_row. split; [intros [-> | ?]; done|by right].
Qed.

(** *** The same patch again *)

(** No entry of the patch is named twice. *)
Definition distinct_patch (p : Pp.t) : Prop :=
  (forall units, Pp.ams_units p = Some units -> NoDup (omap Up.unit_id units) /\ Forall distinct_trays units)
  /\ (forall spools, Pp.external_spools p = Some spools -> NoDup (omap Sp.key spools)).

(** A snapshot without floats. *)
Definition float_free (snap : Snap.t) : bool :=
  exact (Snap.ams_units snap) && exact (Snap.external_spools snap)
  && match Snap.active_tray snap with Some j => exact j | None => true end.

Lemma text_back j text j' :
  canonical j -> json_to_string j = Some text -> json_from_str text = Some j' ->
  exact (material_value j') = true -> j' = j.
Proof.
  intros Hc E Ej Hx. destruct (json_text_round_trip _ _ E) as (v & Ev & Ee).
  rewrite Ej in Ev. injection Ev as <-. apply exact_erase; [|done].
  assert (erase (material_value j') = erase j') as Em.
  { rewrite <- erase_material_value, Ee, erase_material_value. by rewrite canonical_material_value. }
  by rewrite <- exact_erased, <- Ee, <- Em, exact_erased.
Qed.

Lemma parse_array_Ok raw j :
  parse_array_json raw = Ok j -> exists j', json_from_str raw = Some j' /\ j = material_value j'.
Proof.
  unfold parse_array_json. destruct (json_from_str raw) as [[|values| | | |]|]; try done.
  intros [= <-]. by eexists.
Qed.

Lemma parse_object_Ok raw j :
  parse_object_json raw = Ok j -> exists j', json_from_str raw = Some j' /\ j = material_value j' /\ canonical j.
Proof.
  unfold parse_object_json. destruct (json_from_str raw) as [[fields| | | | |]|]; try done.
  intros [= <-]. eexists. split; [done|]. split; [done|]. apply (material_value_canonical (Object fields)).
Qed.

Lemma canonical_unit_state u : canonical_unit u -> unit_state_ok u.
Proof.
  intros ([Hi _] & _ & Ht). split; [done|]. eapply Forall_impl; [exact Ht|]. by intros t [[? _] _].
Qed.

Lemma canonical_spool_state s : canonical_spool s -> spool_state_ok s.
Proof. by intros [[Hi _] _]. Qed.

(** What a merge stored, from its current row: the states behind its values. *)
Lemma merge_snapshot_states current patch merged :
  good_patch patch -> distinct_patch patch -> merge_snapshot current patch = Ok merged ->
  (exists units, Ms.ams_units merged = material_units_json units /\ Forall canonical_unit units
     /\ forall ps, Pp.ams_units patch = Some ps -> merge_units units ps = units)
  /\ (exists spools, Ms.external_spools merged = material_external_spools_json spools
     /\ Forall canonical_spool spools
     /\ forall ps, Pp.external_spools patch = Some ps ->
          merge_external_spools spools ps (Pp.replace_external_spools patch) = spools)
  /\ (forall j, Ms.active_tray merged = Some j -> canonical j).
Proof.
  intros (Hu & Hs & Ha) [Du Ds] E. unfold merge_snapshot in E.
  apply rbind_Ok in E as (ou & Eu & E). cbn zeta in E. apply rbind_Ok in E as (os & Es & E). cbn zeta in E.
  apply rbind_Ok in E as (tray & Et & E). injection E as <-. simpl.
  assert (Forall canonical_unit (default [] ou)) as Hcu.
  { destruct ou as [l|]; [|constructor]. apply traverse_some in Eu as (m & _ & Eu). by eapply parse_units_Ok. }
  assert (Forall canonical_spool (default [] os)) as Hcs.
  { destruct os as [l|]; [|constructor]. apply traverse_some in Es as (m & _ & Es). by eapply parse_spools_Ok. }
  split; [|split].
  - eexists. split; [reflexivity|]. destruct (Pp.ams_units patch) as [units|]; [|done].
    destruct (Hu units eq_refl) as [Hg _]. split; [by apply canonical_units_merge|]. intros ps [= <-].
    destruct (Du units eq_refl) as [Hd Hdt]. apply merge_units_idempotent; try done.
    + eapply Forall_impl; [exact Hcu|]. apply canonical_unit_state.
    + eapply Forall_impl; [exact Hg|]. apply good_patch_ok.
  - eexists. split; [reflexivity|]. destruct (Pp.external_spools patch) as [spools|]; [|done].
    destruct (Hs spools eq_refl) as [Hg _]. split; [by apply canonical_spools_merge|]. intros ps [= <-].
    apply merge_spools_idempotent; [| |by apply Ds].
    + eapply Forall_impl; [exact Hcs|]. apply canonical_spool_state.
    + eapply Forall_impl; [exact Hg|]. by intros q [[? _] _].
  - intros j ->. destruct (Pp.active_tray patch) as [| |v]; [|done|].
    + apply traverse_some in Et as (text & _ & Et). by apply parse_object_Ok in Et as (? & _ & _ & ?).
    + injection Et as <-. by apply Ha.
Qed.

Lemma opt_or_again {A} (o o' : option A) : opt_or o (opt_or o o') = opt_or o o'.
Proof. by destruct o. Qed.

Lemma decode_units_json units :
  Forall canonical_unit units -> decode_vec Us.decode (material_units_json units) = Some units.
Proof. intros Hu. apply decode_all_map. eapply Forall_impl; [exact Hu|]. apply unit_round_trip. Qed.

Lemma decode_spools_json spools :
  Forall canonical_spool spools -> decode_vec Ss.decode (material_external_spools_json spools) = Some spools.
Proof. intros Hu. apply decode_all_map. eapply Forall_impl; [exact Hu|]. apply spool_round_trip. Qed.

(** The row reads back as what was merged, and merging into it changes nothing. *)
Lemma merge_again id now serial input current patch merged ams spools tray snap :
  good_patch patch -> distinct_patch patch -> merge_snapshot current patch = Ok merged ->
  json_to_string (Ms.ams_units merged) = Some ams -> json_to_string (Ms.external_spools merged) = Some spools ->
  traverse_opt (fun j => or_database (json_to_string j)) (Ms.active_tray merged) = Ok tray ->
  let row := row_of id now serial input current patch merged ams spools tray in
  snapshot_from_model row = Ok snap -> float_free snap = true ->
  merge_snapshot (Some row) patch = Ok merged /\ same_material snap (Pp.observed_at patch) merged = true.
Proof.
  intros Hg Hd Em Ea Es Et row Esn Hx.
  destruct (merge_snapshot_states _ _ _ Hg Hd Em) as ((us & Eus & Hcu & Hiu) & (ss & Ess & Hcs & His) & Htr).
  unfold snapshot_from_model in Esn. apply rbind_Ok in Esn as (t & _ & Esn).
  apply rbind_Ok in Esn as (a & _ & Esn). apply rbind_Ok in Esn as (ju & Eju & Esn).
  apply rbind_Ok in Esn as (js & Ejs & Esn). apply rbind_Ok in Esn as (jt & Ejt & Esn).
  injection Esn as <-. unfold float_free in Hx. simpl in Hx, Eju, Ejs, Ejt.
  apply andb_true_iff in Hx as [Hx Hxt]. apply andb_true_iff in Hx as [Hxu Hxs].
  apply parse_array_Ok in Eju as (vu & Evu & ->). apply parse_array_Ok in Ejs as (vs & Evs & ->).
  rewrite Eus in Ea. rewrite Ess in Es.
  pose proof (text_back _ _ _ (units_canonical _ Hcu) Ea Evu Hxu) as ->.
  pose proof (text_back _ _ _ (spools_canonical _ Hcs) Es Evs Hxs) as ->.
  assert (jt = Ms.active_tray merged /\ forall v text, tray = Some text -> parse_object_json text = Ok v ->
            Ms.active_tray merged = Some v) as [Ejt' Hback].
  { destruct (Ms.active_tray merged) as [v|] eqn:Ev.
    - unfold traverse_opt in Et. simpl in Et. destruct (or_database _) as [text|] eqn:Eo; [|done].
      apply ok_or_Ok in Eo. injection Et as <-. unfold traverse_opt in Ejt. simpl in Ejt.
      destruct (parse_object_json text) as [w|] eqn:Ew; [|done]. injection Ejt as <-.
      destruct (parse_object_Ok _ _ Ew) as (w' & Ew' & -> & _).
      pose proof (text_back _ _ _ (Htr v eq_refl) Eo Ew' Hxt) as ->.
      rewrite (canonical_material_value v) by auto. split; [done|]. intros v2 text2 [= <-] E2.
      rewrite Ew in E2. injection E2 as <-. by rewrite (canonical_material_value v) by auto.
    - injection Et as <-. by injection Ejt as <-. }
  split.
  - pose proof Em as Em'. unfold merge_snapshot in Em'. apply rbind_Ok in Em' as (ou & _ & Em').
    cbn zeta in Em'. apply rbind_Ok in Em' as (os & _ & Em'). cbn zeta in Em'.
    apply rbind_Ok in Em' as (tr & Etr & Em'). 
    unfold merge_snapshot, traverse_opt. cbn [option_map r_transpose].
    assert (parse_units_json (Sm.ams_json row) = Ok us) as ->.
    { unfold parse_units_json, or_database. change (Sm.ams_json row) with ams. rewrite Evu.
      cbn [mbind option_bind]. by rewrite decode_units_json. }
    assert (parse_external_spools_json (Sm.external_spools_json row) = Ok ss) as ->.
    { unfold parse_external_spools_json, or_database. change (Sm.external_spools_json row) with spools.
      rewrite Evs. cbn [mbind option_bind]. by rewrite decode_spools_json. }
    cbn [rbind default]. unfold Datatypes.id. cbv zeta.
    assert (match Pp.active_tray patch with
            | Absent => traverse_opt parse_object_json (Some row ≫= Sm.active_tray_json)
            | PresentNull => Ok None
            | Value v => Ok (Some v)
            end = Ok (Ms.active_tray merged)) as Etray.
    { destruct (Pp.active_tray patch) as [| |v] eqn:Ep.
      - unfold row. simpl. destruct tray as [text|]; [|injection Ejt as <-; by rewrite <- Ejt'].
        simpl in Ejt. rewrite Ejt, Ejt'. done.
      - injection Etr as <-. by injection Em' as <-.
      - injection Etr as <-. by injection Em' as <-. }
    unfold traverse_opt in Etray. rewrite Etray. cbn [rbind].
    destruct (Pp.ams_units patch) as [ps|] eqn:Eps; [rewrite (Hiu ps eq_refl)|];
    destruct (Pp.external_spools patch) as [ps'|] eqn:Eps'; try rewrite (His ps' eq_refl);
      rewrite <- Eus, <- Ess; unfold row; simpl; injection Em' as <-; simpl; by rewrite !opt_or_again.
  - unfold same_material.
    cbn [Snap.observed_at Snap.ams_units Snap.external_spools Snap.active_tray
         Snap.filament_switch_installed Snap.cfg Snap.aux Snap.stat].
    rewrite Ejt', Eus, Ess, (canonical_material_value _ (units_canonical _ Hcu)),
      (canonical_material_value _ (spools_canonical _ Hcs)).
    rewrite !andb_true_iff, !beq_true. done.
Qed.

(** ** Reports of a session *)

Definition material_input (tenant_id : TenantId) (agent_id : AgentId) (printer_id serial text : string)
  : Mpi.t := Mpi.mk tenant_id agent_id printer_id serial text.

(** A report either leaves everything as it was or wrote the snapshot of a printer
    of the agent whose session is current. *)
Lemma apply_spec id now session_id tenant_id agent_id requested serial text s s' r :
  apply_snapshot_if_current id now session_id tenant_id agent_id requested serial text s = (s', r) ->
  (s' = s /\ forall p snap, r <> Ok (Applied p (Changed snap)))
  \/ exists p snap patch current row, r = Ok (Applied p (Changed snap))
       /\ current_session (Mdb.hub_tables s) tenant_id agent_id (Some session_id)
       /\ (exists printer, In printer (Mdb.printers s) /\ PrintersModel.id printer = p
             /\ printer_row tenant_id agent_id printer = true /\ PrintersModel.serial_number printer = serial)
       /\ written id now (material_input tenant_id agent_id p serial text) s s' snap patch current row.
Proof.
  unfold apply_snapshot_if_current, transaction. destruct (tbind _ _ s) as [s1 [a|e]] eqn:E;
    [|intros [= <- <-]; by left]. intros [= <- <-].
  apply tbind_Ok in E as (s2 & [] & Eb & E).
  assert (s2 = s /\ current_session (Mdb.hub_tables s) tenant_id agent_id (Some session_id)) as [-> Hcur].
  { unfold on_hub, zoom in Eb.
    destruct (begin_current_run tenant_id agent_id session_id (Mdb.hub_tables s)) as (r & Er & Hr).
    rewrite Er in Eb. injection Eb as <- ->. by destruct s; split; [|apply Hr]. }
  apply tbind_Ok in E as (s2 & printer & Ep & E). apply tread_Ok in Ep as [-> Ep]. injection Ep as <-.
  destruct (select_one _ _) as [printer|] eqn:Es; [|apply tret_Ok in E as [-> ->]; by left].
  destruct (negb _) eqn:En; [apply tret_Ok in E as [-> ->]; by left|].
  rewrite negb_false_iff, beq_true in En.
  apply tbind_Ok in E as (s2 & outcome & Eu & E). apply tret_Ok in E as [-> ->].
  apply upsert_spec in Eu as [[-> Ho] | (snap & patch & current & row & -> & Hw)].
  - left. split; [done|]. intros p snap [= _ ->]. by apply (Ho snap).
  - right. exists (PrintersModel.id printer), snap, patch, current, row. split; [done|]. split; [done|].
    split; [|done]. apply select_one_Some in Es as [Hin Hp]. apply andb_true_iff in Hp as [Hp _].
    by exists printer.
Qed.

(** Reports, and whatever else happens to the other tables meanwhile. *)
Inductive material_op :=
| Report (id now session_id : string) (tenant_id : TenantId) (agent_id : AgentId)
    (requested_printer_id serial_number printer_materials_json : string)
| Elsewhere (hub_tables : Hub.t) (printers : list PrintersModel.t).

Definition run_material (o : material_op) (s : Mdb.t) : Mdb.t :=
  match o with
  | Report id now session t a requested serial text =>
      fst (apply_snapshot_if_current id now session t a requested serial text s)
  | Elsewhere h ps => s <| Mdb.hub_tables := h |> <| Mdb.printers := ps |>
  end.

Definition run_materials (ops : list material_op) (s : Mdb.t) : Mdb.t :=
  fold_left (fun s o => run_material o s) ops s.

(** C29: Whatever the reports say, every stored snapshot can be read, and nothing it says
    of a unit, a tray, an external spool or the active tray - no field at any depth - has
    a name or a text that contains one of the sensitive words.  The keys of the rows, that
    is the ids of units, trays and spools, and the three Studio texts of the snapshot are
    not fields in this sense: the Hub stores them as reported. *)
Theorem materials_secret_free ops s :
  Forall row_clean (Mdb.snapshots s) -> Forall row_clean (Mdb.snapshots (run_materials ops s)).
Proof.
  revert s. induction ops as [|o ops IH]; intros s Hok; [done|]. apply IH.
  destruct o as [id now session t a requested serial text|h ps]; [|done]. simpl.
  destruct (apply_snapshot_if_current _ _ _ _ _ _ _ _ s) as [s' r] eqn:E. simpl.
  apply apply_spec in E as [[-> _] | (p & snap & patch & current & row & _ & _ & _ & Hw)]; [done|].
  by apply (written_clean _ _ _ _ _ _ _ _ _ Hw).
Qed.

(** A printer's snapshot stays its one snapshot and never goes back to an
    earlier observation, in whatever order the reports arrive. *)
Theorem materials_never_regress ops s :
  snapshots_keyed (Mdb.snapshots s) ->
  snapshots_keyed (Mdb.snapshots (run_materials ops s))
  /\ carries snapshot_later (Mdb.snapshots s) (Mdb.snapshots (run_materials ops s)).
Proof.
  revert s. induction ops as [|o ops IH]; intros s Hk; [by split; [|apply carries_refl; apply _]|].
  assert (snapshots_keyed (Mdb.snapshots (run_material o s))
          /\ carries snapshot_later (Mdb.snapshots s) (Mdb.snapshots (run_material o s))) as [Hk' Hc].
  { destruct o as [id now session t a requested serial text|h ps];
      [|by split; [|apply carries_refl; apply _]]. simpl.
    destruct (apply_snapshot_if_current _ _ _ _ _ _ _ _ s) as [s' r] eqn:E. simpl.
    apply apply_spec in E as [[-> _] | (p & snap & patch & current & row & _ & _ & _ & Hw)].
    - by split; [|apply carries_refl; apply _].
    - by destruct (written_rows _ _ _ _ _ _ _ _ _ Hw Hk) as (? & ? & _). }
  destruct (IH _ Hk') as [Hk2 Hc2]. split; [done|]. eapply carries_trans; [apply _|exact Hc|exact Hc2].
Qed.

(** A report that changed anything came from the agent's current session, was
    about a printer of that agent with that serial number, and touched that
    printer's snapshot only. *)
Theorem materials_session_fence id now session_id tenant_id agent_id requested serial text s s' r :
  snapshots_keyed (Mdb.snapshots s) ->
  apply_snapshot_if_current id now session_id tenant_id agent_id requested serial text s = (s', r) ->
  s' = s
  \/ current_session (Mdb.hub_tables s) tenant_id agent_id (Some session_id)
     /\ exists printer, In printer (Mdb.printers s) /\ printer_row tenant_id agent_id printer = true
          /\ PrintersModel.serial_number printer = serial
          /\ Mdb.hub_tables s' = Mdb.hub_tables s /\ Mdb.printers s' = Mdb.printers s
          /\ forall m, tp_key m <> (TenantId_to_string tenant_id, PrintersModel.id printer) ->
                In m (Mdb.snapshots s') <-> In m (Mdb.snapshots s).
Proof.
  intros Hk E. apply apply_spec in E as [[-> _] | (p & snap & patch & current & row & _ & Hcur & Hp & Hw)]; [by left|].
  right. split; [done|]. destruct Hp as (printer & Hin & <- & Hrow & Hserial). exists printer.
  destruct (written_key _ _ _ _ _ _ _ _ _ Hw) as [Hkey _].
  destruct (written_rows _ _ _ _ _ _ _ _ _ Hw Hk) as (_ & _ & _ & Ho).
  destruct (wr_state _ _ _ _ _ _ _ _ _ Hw) as (rows & -> & _).
  repeat (split; [done|]). intros m Hm. apply Ho. by rewrite Hkey.
Qed.

(** A report delivered again - under any clock, by the same session - is
    answered as unchanged with the snapshot of the first delivery and writes
    nothing, when it names no entry twice and no float is involved. *)
Theorem material_report_redelivered id now id' now' session_id tenant_id agent_id requested serial text s s' p snap :
  snapshots_keyed (Mdb.snapshots s) ->
  (forall patch, parse_patch_result text = Some patch -> distinct_patch patch) ->
  apply_snapshot_if_current id now session_id tenant_id agent_id requested serial text s
  = (s', Ok (Applied p (Changed snap))) ->
  float_free snap = true ->
  apply_snapshot_if_current id' now' session_id tenant_id agent_id requested serial text s'
  = (s', Ok (Applied p (Unchanged snap))).
Proof.
  intros Hk Hd E Hx. pose proof E as E0. apply apply_spec in E0 as
    [[_ Hno] | (p' & snap' & patch & current & row & Er & _ & _ & Hw)]; [by destruct (Hno p snap)|].
  injection Er as <- <-.
  destruct (written_rows _ _ _ _ _ _ _ _ _ Hw Hk) as ([_ K2] & _ & Hrow & _).
  destruct (written_key _ _ _ _ _ _ _ _ _ Hw) as [Hkey _].
  destruct Hw as [Hp Hb [printer Hpr] _ _ (merged & sn & ams & spools & tray & Em & Ea & Es & Et & Erow) Hsn
                  (rows & Estate & _)].
  destruct (parse_patch_good _ _ Hp) as [Hg [t Ht]].
  assert (upsert_from_patch_outcome_in_connection id' now' (material_input tenant_id agent_id p serial text) s'
          = (s', Ok (Unchanged snap))) as Eu.
  { subst row.
    destruct (merge_again _ _ _ _ _ _ _ _ _ _ _ Hg (Hd _ Hp) Em Ea Es Et Hsn Hx) as [Em' Hsame].
    unfold upsert_from_patch_outcome_in_connection, tbind, tread, tlift. rewrite Hb, Hp.
    assert (Mdb.printers s' = Mdb.printers s) as -> by (by rewrite Estate). rewrite Hpr. cbn [ok_or].
    rewrite (select_one_unique _ _ _ Hrow).
    - unfold is_older, or_database. simpl Sm.observed_at. rewrite Ht. cbn [ok_or rbind].
      rewrite Z.ltb_irrefl. unfold traverse_opt at 1. cbn [option_map]. rewrite Hsn. cbn [r_transpose].
      rewrite Em'. unfold opt_filter. by rewrite Hsame.
    - by apply snapshot_row_true.
    - intros x Hin Hxrow. apply snapshot_row_true in Hxrow. apply (keyed_In _ _ _ _ K2 Hin Hrow). congruence. }
  unfold apply_snapshot_if_current, transaction in *.
  destruct (tbind _ _ s) as [s1 [a|e]] eqn:E1 in E; [|done]. injection E as -> ->.
  apply tbind_Ok in E1 as (s2 & [] & Eb & E1). unfold tbind at 1.
  assert (s2 = s /\ on_hub (begin_current_agent_transaction tenant_id agent_id session_id) s' = (s', Ok tt)) as [-> Eb'].
  { unfold on_hub, zoom in *.
    destruct (begin_current_run tenant_id agent_id session_id (Mdb.hub_tables s)) as (r & Er & Hr).
    assert (Mdb.hub_tables s' = Mdb.hub_tables s) as -> by (by rewrite Estate).
    rewrite Er in *. injection Eb as <- ->. split; [by destruct s|]. rewrite Estate. by destruct s. }
  rewrite Eb'. apply tbind_Ok in E1 as (s3 & o & Eo & E1). apply tread_Ok in Eo as [-> Eo]. injection Eo as <-.
  unfold tbind at 1, tread. assert (Mdb.printers s' = Mdb.printers s) as -> by (by rewrite Estate).
  destruct (select_one _ (Mdb.printers s)) as [pr|] in E1 |- *; [|done].
  destruct (negb _); [done|]. apply tbind_Ok in E1 as (s4 & outcome & E4 & E1).
  apply tret_Ok in E1 as [_ [= <- <-]]. unfold tbind. unfold material_input in Eu. by rewrite Eu.
Qed.
End Rows.
