(* ===== verification/MaterialSamples.v ===== *)
(** * Concrete materials

    A small JSON text format - every text of it read back exactly - and the
    reports of a printer with one AMS unit, on which the theorems of
    [MaterialSafety] are applied. *)

From S2P Require Import Prelude RustStr RustFloat CoreTypes CoreRecords Json Serde BTree Store Tables JobRows Tx AgentSessions PrinterRows Materials MaterialMerge MaterialCodec MaterialSafety.

#[local] Open Scope Z_scope.
#[local] Arguments String.append : simpl nomatch.

(** ** A text format

    Strings with every character marked, closed lists, one letter per kind of
    value; values with numbers are not printed. *)

Fixpoint print_str (s rest : string) : string :=
  match s with
  | EmptyString => String "." rest
  | String c s => String "x" (String c (print_str s rest))
  end.

Fixpoint parse_str (s : string) : option (string * string) :=
  match s with
  | String m r =>
      if Ascii.eqb m "." then Some (EmptyString, r)
      else match r with
           | String c r => '(s, r) ← parse_str r; Some (String c s, r)
           | EmptyString => None
           end
  | EmptyString => None
  end.

Lemma parse_print_str s rest : parse_str (print_str s rest) = Some (s, rest).
Proof. induction s as [|c s IH]; simpl; [done|]. by rewrite IH. Qed.

(** The loops over the entries of an array and an object. *)
Definition print_values (print : json -> string -> option string) (rest : string)
  : list json -> option string :=
  fix go values := match values with
    | [] => Some (String "]" rest)
    | v :: values => text ← go values; String "," <$> print v text
    end.

Definition print_fields (print : json -> string -> option string) (rest : string)
  : list (string * json) -> option string :=
  fix go fields := match fields with
    | [] => Some (String "}" rest)
    | (k, v) :: fields => text ← go fields; text ← print v text; Some (String ":" (print_str k text))
    end.

(** The text of a value in front of [rest]. *)
Fixpoint print_json (j : json) (rest : string) : option string :=
  match j with
  | Object fields => String "o" <$> print_fields print_json rest fields
  | Array values => String "a" <$> print_values print_json rest values
  | Str s => Some (String "s" (print_str s rest))
  | Num _ => None
  | Bool true => Some (String "t" rest)
  | Bool false => Some (String "f" rest)
  | Null => Some (String "n" rest)
  end.

(** A value, or the rest of an open array or object, at the head of a text; the
    length of the text is enough fuel. *)
Fixpoint parse_json (n : nat) (s : string) : option (json * string) :=
  match n, s with
  | S n, String c r =>
      if Ascii.eqb c "o" then '(fields, r) ← parse_fields n r; Some (Object fields, r)
      else if Ascii.eqb c "a" then '(values, r) ← parse_values n r; Some (Array values, r)
      else if Ascii.eqb c "s" then '(s, r) ← parse_str r; Some (Str s, r)
      else if Ascii.eqb c "t" then Some (Bool true, r)
      else if Ascii.eqb c "f" then Some (Bool false, r)
      else if Ascii.eqb c "n" then Some (Null, r)
      else None
  | _, _ => None
  end
with parse_values (n : nat) (s : string) : option (list json * string) :=
  match n, s with
  | S n, String c r =>
      if Ascii.eqb c "]" then Some ([], r)
      else if Ascii.eqb c "," then
        '(v, r) ← parse_json n r; '(values, r) ← parse_values n r; Some (v :: values, r)
      else None
  | _, _ => None
  end
with parse_fields (n : nat) (s : string) : option (list (string * json) * string) :=
  match n, s with
  | S n, String c r =>
      if Ascii.eqb c "}" then Some ([], r)
      else if Ascii.eqb c ":" then
        '(k, r) ← parse_str r; '(v, r) ← parse_json n r;
        '(fields, r) ← parse_fields n r; Some ((k, v) :: fields, r)
      else None
  | _, _ => None
  end.

(** The depth of the calls a value needs. *)
Fixpoint need (j : json) : nat :=
  match j with
  | Object fields => S (foldr (fun kv n => S (need kv.2 + n)) 1%nat fields)
  | Array values => S (foldr (fun v n => S (need v + n)) 1%nat values)
  | _ => 1%nat
  end.

Lemma parse_print_json j : forall rest text n,
  print_json j rest = Some text -> (need j <= n)%nat -> parse_json n text = Some (j, rest).
Proof.
  induction j as [fields IH|values IH|s|num|b|] using json_nested_ind; intros rest text n E Hn;
    (destruct n as [|n]; [simpl in Hn; lia|]).
  - cbn [print_json need] in E, Hn. apply fmap_Some in E as (t & Et & ->). cbn [parse_json Ascii.eqb].
    assert (parse_fields n t = Some (fields, rest)) as E2.
    { assert (foldr (fun kv n => S (need kv.2 + n)) 1%nat fields <= n)%nat as Hn' by lia. clear Hn.
      revert t n Et Hn'. induction IH as [|[k v] fields Hv _ IHf]; intros t n Et Hn.
      - injection Et as <-. destruct n as [|n]; [simpl in Hn; lia|done].
      - cbn [print_fields] in Et. apply bind_Some in Et as (t1 & E1 & Et).
        apply bind_Some in Et as (t2 & E2 & [= <-]). cbn [foldr snd] in Hn.
        destruct n as [|n]; [lia|]. cbn [parse_fields]. change (Ascii.eqb ":" "}") with false.
        change (Ascii.eqb ":" ":") with true. cbn iota. rewrite parse_print_str. cbn [mbind option_bind].
        rewrite (Hv t1 t2 n E2) by (simpl in *; lia). cbn [mbind option_bind].
        by rewrite (IHf t1 n E1) by lia. }
    change (Ascii.eqb "o" "o") with true. cbn iota. by rewrite E2.
  - cbn [print_json need] in E, Hn. apply fmap_Some in E as (t & Et & ->). cbn [parse_json].
    assert (parse_values n t = Some (values, rest)) as E2.
    { assert (foldr (fun v n => S (need v + n)) 1%nat values <= n)%nat as Hn' by lia. clear Hn.
      revert t n Et Hn'. induction IH as [|v values Hv _ IHf]; intros t n Et Hn.
      - injection Et as <-. destruct n as [|n]; [simpl in Hn; lia|done].
      - cbn [print_values] in Et. apply bind_Some in Et as (t1 & E1 & Et).
        apply fmap_Some in Et as (t2 & E2 & ->). cbn [foldr] in Hn.
        destruct n as [|n]; [lia|]. cbn [parse_values]. change (Ascii.eqb "," "]") with false.
        change (Ascii.eqb "," ",") with true. cbn iota.
        rewrite (Hv t1 t2 n E2) by lia. cbn [mbind option_bind].
        by rewrite (IHf t1 n E1) by lia. }
    change (Ascii.eqb "a" "o") with false. change (Ascii.eqb "a" "a") with true. cbn iota. by rewrite E2.
  - injection E as <-. cbn [parse_json]. change (Ascii.eqb "s" "o") with false.
    change (Ascii.eqb "s" "a") with false. change (Ascii.eqb "s" "s") with true. cbn iota.
    by rewrite parse_print_str.
  - done.
  - destruct b; by injection E as <-.
  - by injection E as <-.
Qed.

Lemma print_str_length s rest : (String.length rest < String.length (print_str s rest))%nat.
Proof. induction s as [|c s IH]; simpl; lia. Qed.

Lemma need_bound j : forall rest text,
  print_json j rest = Some text -> (need j + String.length rest <= String.length text)%nat.
Proof.
  induction j as [fields IH|values IH|s|num|b|] using json_nested_ind; intros rest text E.
  - cbn [print_json need] in *. apply fmap_Some in E as (t & Et & ->). cbn [String.length].
    cut (foldr (fun kv n => S (need kv.2 + n)) 1%nat fields + String.length rest <= String.length t)%nat; [lia|].
    revert t Et. induction IH as [|[k v] fields Hv _ IHf]; intros t Et.
    + injection Et as <-. simpl. lia.
    + cbn [print_fields] in Et. apply bind_Some in Et as (t1 & E1 & Et).
      apply bind_Some in Et as (t2 & E2 & [= <-]). cbn [foldr snd String.length].
      pose proof (IHf t1 E1). pose proof (Hv t1 t2 E2). pose proof (print_str_length k t2). simpl in *. lia.
  - cbn [print_json need] in *. apply fmap_Some in E as (t & Et & ->). cbn [String.length].
    cut (foldr (fun v n => S (need v + n)) 1%nat values + String.length rest <= String.length t)%nat; [lia|].
    revert t Et. induction IH as [|v values Hv _ IHf]; intros t Et.
    + injection Et as <-. simpl. lia.
    + cbn [print_values] in Et. apply bind_Some in Et as (t1 & E1 & Et).
      apply fmap_Some in Et as (t2 & E2 & ->). cbn [foldr String.length].
      pose proof (IHf t1 E1). pose proof (Hv t1 t2 E2). lia.
  - injection E as <-. pose proof (print_str_length s rest). simpl. lia.
  - done.
  - destruct b; injection E as <-; simpl; lia.
  - injection E as <-. simpl. lia.
Qed.

Definition plain_text : MaterialText.
Proof.
  refine {| json_to_string := fun j => print_json j EmptyString;
            json_from_str := fun s => '(j, r) ← parse_json (String.length s) s;
                                      if beq r EmptyString then Some j else None |}.
  intros j text E. exists j. split; [|done].
  rewrite (parse_print_json j EmptyString text) by (try done; pose proof (need_bound _ _ _ E); lia).
  done.
Defined.

#[local] Existing Instances list_store binary_uuid binary_clock plain_text.

(** ** A printer with an AMS unit *)

Definition farm : TenantId := mkTenantId 1.
Definition garage : AgentId := mkAgentId 1.

Definition garage_row : AgentsModel.t :=
  AgentsModel.mk (AgentId_to_string garage) (TenantId_to_string farm) "garage" "online"
    (Some "1.0"%string) None "t0" None None None (Some "s2"%string).

Definition garage_printer : PrintersModel.t :=
  PrintersModel.mk "p1" (TenantId_to_string farm) (AgentId_to_string garage) "serial" None None
    None "Printer" (Some "P1S"%string) "online" None "t0" "[]" None None None None None None None None
    None None None None None None 5 3 1 None None None None None None None None None None None
    None None None None None "[]" None None None None None 0 0.

Definition empty_shelf : Mdb.t :=
  MaterialsDb.mk (Hub.mk [garage_row] (Db.mk [] [] [] [])) [garage_printer] [].

(** A report at time [t]: unit 0 with a tray of the colour, an access code among
    the fields, and the tray in use. *)
Definition report (t : positive) (colour : string) : json :=
  Object [("type", Str "printer_material_patch"); ("observed_at", Str (bits_text t));
          ("ams_units", Array [Object
             [("unit_id", Str "0"); ("replace_trays", Bool true); ("humidity", Str "3");
              ("access_code", Str "12345678");
              ("trays", Array [Object [("tray_id", Str "0"); ("color", Str colour); ("note", Null)]])]]);
          ("active_tray", Object [("tray_id", Str "0"); ("auth_token", Str "x")])]%string.

Definition text_of (j : json) : string := default EmptyString (json_to_string j).

Definition send (id session : string) (t : positive) (colour : string) : material_op :=
  Report id "now" session farm garage EmptyString "serial" (text_of (report t colour)).

Lemma empty_shelf_keyed : snapshots_keyed (Mdb.snapshots empty_shelf).
Proof. split; apply NoDup_nil_2. Qed.

Lemma materials_secret_free_witness :
  Forall row_clean (Mdb.snapshots (run_materials
    [send "m1" "s2" 5 "red"; send "m2" "s1" 6 "blue"; send "m3" "s2" 7 "green"] empty_shelf)).
Proof. apply (materials_secret_free _ empty_shelf). constructor. Defined.

Lemma materials_never_regress_witness :
  let s := run_materials [send "m1" "s2" 5 "red"] empty_shelf in
  carries snapshot_later (Mdb.snapshots s)
    (Mdb.snapshots (run_materials [send "m2" "s2" 4 "blue"; send "m3" "s2" 7 "green"] s)).
Proof.
  refine (proj2 (materials_never_regress [send "m2" "s2" 4 "blue"; send "m3" "s2" 7 "green"]
                   (run_materials [send "m1" "s2" 5 "red"] empty_shelf) _)).
  vm_compute. split; repeat constructor; set_solver.
Defined.

Lemma materials_session_fence_witness :
  fst (apply_snapshot_if_current "m1" "now" "s1" farm garage EmptyString "serial"
         (text_of (report 5 "red")) empty_shelf) = empty_shelf.
Proof.
  destruct (apply_snapshot_if_current "m1" "now" "s1" farm garage EmptyString "serial"
              (text_of (report 5 "red")) empty_shelf) as [s' r] eqn:E.
  destruct (materials_session_fence _ _ _ _ _ _ _ _ _ _ _ empty_shelf_keyed E) as [-> | [(m & Em & _ & Es) _]];
    [reflexivity|].
  vm_compute in Em. injection Em as <-. discriminate Es.
Defined.

Lemma material_report_redelivered_witness :
  exists s' snap,
    apply_snapshot_if_current "m1" "t1" "s2" farm garage EmptyString "serial"
      (text_of (report 5 "red")) empty_shelf = (s', Ok (Applied "p1" (Changed snap)))
    /\ apply_snapshot_if_current "m2" "t2" "s2" farm garage EmptyString "serial"
         (text_of (report 5 "red")) s' = (s', Ok (Applied "p1" (Unchanged snap))).
Proof.
  destruct (apply_snapshot_if_current "m1" "t1" "s2" farm garage EmptyString "serial"
              (text_of (report 5 "red")) empty_shelf) as [s' r] eqn:E.
  assert (exists snap, r = Ok (Applied "p1" (Changed snap)) /\ float_free snap = true) as (snap & -> & Hx).
  { change r with (snd (s', r)). rewrite <- E. vm_compute. eexists. split; reflexivity. }
  exists s', snap. split; [reflexivity|].
  refine (material_report_redelivered _ _ _ _ _ _ _ _ _ _ _ _ _ _ empty_shelf_keyed _ E Hx).
  intros patch Ep. vm_compute in Ep. injection Ep as <-. split; [|intros ? [=]].
  intros units [= <-]. split; [repeat constructor; set_solver|].
  repeat constructor. intros trays [= <-]. repeat constructor. set_solver.
Defined.
