(* ===== verification/AccountTables.v ===== *)
(** * The invariant of the account tables

    What the keys and references of [migrations/] promise about the account
    tables ([accounts_ok]), how rows may change over time ([evolves]), and that
    every insert and update of [Accounts], [Onboarding] and [Credentials]
    respects both. *)

From S2P Require Import Prelude RustStr CoreTypes CoreRecords Json Store Tables Tx JobRows JobTables Accounts Onboarding Credentials.

#[local] Open Scope Z_scope.

(** ** How rows change *)

Definition same_tenant (r r' : TenantsModel.t) : Prop := TenantsModel.id r' = TenantsModel.id r.

(** What is never cleared once set. *)
Definition stays_set {A} (o o' : option A) : Prop := is_Some o -> is_Some o'.

(** A reference that may be cleared, but not redirected. *)
Definition only_forgotten {A} (o o' : option A) : Prop := o' = None \/ o' = o.

Definition same_user (r r' : UsersModel.t) : Prop :=
  UsersModel.id r' = UsersModel.id r /\ UsersModel.tenant_id r' = UsersModel.tenant_id r.

Definition token_later (r r' : TokensModel.t) : Prop :=
  TokensModel.id r' = TokensModel.id r /\ TokensModel.token_hash r' = TokensModel.token_hash r
  /\ TokensModel.tenant_id r' = TokensModel.tenant_id r
  /\ TokensModel.scopes_json r' = TokensModel.scopes_json r
  /\ TokensModel.expires_at r' = TokensModel.expires_at r
  /\ only_forgotten (TokensModel.created_by_user_id r) (TokensModel.created_by_user_id r')
  /\ stays_set (TokensModel.revoked_at r) (TokensModel.revoked_at r').

Definition ticket_later (r r' : LoginTicketsModel.t) : Prop :=
  LoginTicketsModel.id r' = LoginTicketsModel.id r
  /\ LoginTicketsModel.ticket_hash r' = LoginTicketsModel.ticket_hash r
  /\ LoginTicketsModel.tenant_id r' = LoginTicketsModel.tenant_id r
  /\ LoginTicketsModel.kind r' = LoginTicketsModel.kind r
  /\ LoginTicketsModel.expires_at r' = LoginTicketsModel.expires_at r
  /\ stays_set (LoginTicketsModel.used_at r) (LoginTicketsModel.used_at r').

Definition link_later (r r' : JoinLinksModel.t) : Prop :=
  JoinLinksModel.id r' = JoinLinksModel.id r
  /\ JoinLinksModel.token_hash r' = JoinLinksModel.token_hash r
  /\ JoinLinksModel.max_uses r' = JoinLinksModel.max_uses r
  /\ JoinLinksModel.used_count r <= JoinLinksModel.used_count r'
  /\ stays_set (JoinLinksModel.revoked_at r) (JoinLinksModel.revoked_at r').

Definition event_ticket_later (r r' : EventTicketsModel.t) : Prop :=
  EventTicketsModel.id r' = EventTicketsModel.id r
  /\ EventTicketsModel.ticket_hash r' = EventTicketsModel.ticket_hash r
  /\ stays_set (EventTicketsModel.used_at r) (EventTicketsModel.used_at r').

#[export] Instance stays_set_preorder A : PreOrder (@stays_set A).
Proof. split; unfold stays_set; [by intros o|intros o1 o2 o3; auto]. Qed.

#[export] Instance only_forgotten_preorder A : PreOrder (@only_forgotten A).
Proof. split; unfold only_forgotten; [by right|intros o1 o2 o3 [-> | ->]; tauto]. Qed.

Ltac row_preorder :=
  split; [intros r; repeat split; done || lia || reflexivity
         |intros r1 r2 r3; unfold same_tenant, same_user, token_later, ticket_later, link_later,
            event_ticket_later; intros; split_all; repeat split; congruence || lia || (by etrans)].

#[export] Instance same_tenant_preorder : PreOrder same_tenant. Proof. row_preorder. Qed.
#[export] Instance same_user_preorder : PreOrder same_user. Proof. row_preorder. Qed.
#[export] Instance token_later_preorder : PreOrder token_later. Proof. row_preorder. Qed.
#[export] Instance ticket_later_preorder : PreOrder ticket_later. Proof. row_preorder. Qed.
#[export] Instance link_later_preorder : PreOrder link_later. Proof. row_preorder. Qed.
#[export] Instance event_ticket_later_preorder : PreOrder event_ticket_later. Proof. row_preorder. Qed.

(** ** The invariant *)

(** A user of the tenant of that id. *)
Definition user_in (users : list UsersModel.t) (tenant id : string) : Prop :=
  exists u, In u users /\ UsersModel.tenant_id u = tenant /\ UsersModel.id u = id.

(** An optional reference to a user of the tenant. *)
Definition refers (users : list UsersModel.t) (tenant : string) (o : option string) : Prop :=
  forall id, o = Some id -> user_in users tenant id.

Definition tenants_ok (rows : list TenantsModel.t) : Prop :=
  keyed TenantsModel.id rows /\ keyed TenantsModel.slug rows.

Definition users_ok (tenants : list TenantsModel.t) (rows : list UsersModel.t) : Prop :=
  keyed UsersModel.id rows
  /\ keyed (fun u => (UsersModel.tenant_id u, UsersModel.email u)) rows
  /\ forall u, In u rows -> exists t, In t tenants /\ TenantsModel.id t = UsersModel.tenant_id u.

Definition identities_ok (users : list UsersModel.t) (rows : list IdentitiesModel.t) : Prop :=
  keyed IdentitiesModel.id rows
  /\ keyed (fun i => (IdentitiesModel.tenant_id i, IdentitiesModel.provider i, IdentitiesModel.subject i)) rows
  /\ keyed (fun i => (IdentitiesModel.tenant_id i, IdentitiesModel.user_id i, IdentitiesModel.provider i)) rows
  /\ forall i, In i rows -> user_in users (IdentitiesModel.tenant_id i) (IdentitiesModel.user_id i).

Definition tokens_ok (users : list UsersModel.t) (rows : list TokensModel.t) : Prop :=
  keyed TokensModel.id rows /\ keyed TokensModel.token_hash rows
  /\ forall t, In t rows -> refers users (TokensModel.tenant_id t) (TokensModel.created_by_user_id t).

Definition tickets_ok (users : list UsersModel.t) (rows : list LoginTicketsModel.t) : Prop :=
  keyed LoginTicketsModel.id rows /\ keyed LoginTicketsModel.ticket_hash rows
  /\ forall t, In t rows -> refers users (LoginTicketsModel.tenant_id t) (LoginTicketsModel.user_id t).

Definition links_ok (rows : list JoinLinksModel.t) : Prop :=
  keyed JoinLinksModel.id rows /\ keyed JoinLinksModel.token_hash rows
  /\ forall l, In l rows ->
       0 <= JoinLinksModel.used_count l <= Z.max 0 (JoinLinksModel.max_uses l).

Definition event_tickets_ok (rows : list EventTicketsModel.t) : Prop :=
  keyed EventTicketsModel.id rows /\ keyed EventTicketsModel.ticket_hash rows.

Definition accounts_ok (s : Acc.t) : Prop :=
  tenants_ok (Acc.tenants s) /\ users_ok (Acc.tenants s) (Acc.users s)
  /\ identities_ok (Acc.users s) (Acc.identities s) /\ tokens_ok (Acc.users s) (Acc.tokens s)
  /\ tickets_ok (Acc.users s) (Acc.login_tickets s) /\ links_ok (Acc.join_links s)
  /\ event_tickets_ok (Acc.event_tickets s).

(** The tenant has a user whose role is [tenant_admin]. *)
Definition has_admin (users : list UsersModel.t) (tenant : string) : Prop :=
  exists u, In u users /\ UsersModel.tenant_id u = tenant
            /\ UsersModel.role u = UserRole.as_str UserRole.TenantAdmin.

(** What may become of the rows: users may go, but not a tenant's last
    administrator. *)
Definition later (s s' : Acc.t) : Prop :=
  carries same_tenant (Acc.tenants s) (Acc.tenants s')
  /\ carries token_later (Acc.tokens s) (Acc.tokens s')
  /\ carries ticket_later (Acc.login_tickets s) (Acc.login_tickets s')
  /\ carries link_later (Acc.join_links s) (Acc.join_links s')
  /\ carries event_ticket_later (Acc.event_tickets s) (Acc.event_tickets s')
  /\ forall tenant, has_admin (Acc.users s) tenant -> has_admin (Acc.users s') tenant.

Definition evolves (s s' : Acc.t) : Prop := accounts_ok s -> accounts_ok s' /\ later s s'.

#[export] Instance later_preorder : PreOrder later.
Proof.
  split.
  - intros s. repeat split; try (apply carries_refl; apply _). done.
  - intros s1 s2 s3 (H1 & H2 & H3 & H4 & H5 & H6) (K1 & K2 & K3 & K4 & K5 & K6).
    repeat split; try (eapply carries_trans; [apply _|eassumption|eassumption]). auto.
Qed.

#[export] Instance evolves_preorder : PreOrder evolves.
Proof.
  split.
  - by intros s Hs.
  - intros s1 s2 s3 H12 H23 Hok. destruct (H12 Hok) as [Hok2 L12]. destruct (H23 Hok2) as [Hok3 L23].
    split; [done|]. by etrans.
Qed.

(** *** References survive as long as the rows they name *)

Lemma user_in_carries users users' tenant id :
  carries same_user users users' -> user_in users tenant id -> user_in users' tenant id.
Proof.
  intros Hc (u & Hu & <- & <-). destruct (Hc u Hu) as (u' & Hu' & E1 & E2). by exists u'.
Qed.

Lemma users_ok_carries tenants tenants' users :
  carries same_tenant tenants tenants' -> users_ok tenants users -> users_ok tenants' users.
Proof.
  intros Hc (K1 & K2 & K3). repeat split; [done|done|]. intros u Hu.
  destruct (K3 u Hu) as (t & Ht & E). destruct (Hc t Ht) as (t' & Ht' & E'). exists t'. split; [done|congruence].
Qed.

Lemma identities_ok_carries users users' rows :
  carries same_user users users' -> identities_ok users rows -> identities_ok users' rows.
Proof. intros Hc (K1 & K2 & K3 & K4). repeat split; try done. intros i Hi. eapply user_in_carries; eauto. Qed.

Lemma tokens_ok_carries users users' rows :
  carries same_user users users' -> tokens_ok users rows -> tokens_ok users' rows.
Proof.
  intros Hc (K1 & K2 & K3). repeat split; try done. intros t Ht id E. eapply user_in_carries; [done|].
  by apply (K3 t).
Qed.

Lemma tickets_ok_carries users users' rows :
  carries same_user users users' -> tickets_ok users rows -> tickets_ok users' rows.
Proof.
  intros Hc (K1 & K2 & K3). repeat split; try done. intros t Ht id E. eapply user_in_carries; [done|].
  by apply (K3 t).
Qed.

(** *** Replacing one table *)

Ltac put_table :=
  intros s rows; destruct s; unfold evolves, accounts_ok, later; simpl; intros;
  split_all; try done; try (apply carries_refl; apply _).

Lemma put_tenants s rows :
  (tenants_ok (Acc.tenants s) -> tenants_ok rows) -> carries same_tenant (Acc.tenants s) rows ->
  evolves s (s <| Acc.tenants := rows |>).
Proof. revert s rows. put_table; [by auto|]. eapply users_ok_carries; eauto. Qed.

Lemma put_identities s rows :
  (identities_ok (Acc.users s) (Acc.identities s) -> identities_ok (Acc.users s) rows) ->
  evolves s (s <| Acc.identities := rows |>).
Proof. revert s rows. put_table. by auto. Qed.

Lemma put_tokens s rows :
  (tokens_ok (Acc.users s) (Acc.tokens s) -> tokens_ok (Acc.users s) rows) ->
  carries token_later (Acc.tokens s) rows -> evolves s (s <| Acc.tokens := rows |>).
Proof. revert s rows. put_table. by auto. Qed.

Lemma put_tickets s rows :
  (tickets_ok (Acc.users s) (Acc.login_tickets s) -> tickets_ok (Acc.users s) rows) ->
  carries ticket_later (Acc.login_tickets s) rows -> evolves s (s <| Acc.login_tickets := rows |>).
Proof. revert s rows. put_table. by auto. Qed.

Lemma put_links s rows :
  (links_ok (Acc.join_links s) -> links_ok rows) ->
  carries link_later (Acc.join_links s) rows -> evolves s (s <| Acc.join_links := rows |>).
Proof. revert s rows. put_table. by auto. Qed.

Lemma put_event_tickets s rows :
  (event_tickets_ok (Acc.event_tickets s) -> event_tickets_ok rows) ->
  carries event_ticket_later (Acc.event_tickets s) rows -> evolves s (s <| Acc.event_tickets := rows |>).
Proof. revert s rows. put_table. by auto. Qed.

Lemma put_audit s rows : evolves s (s <| Acc.audit_events := rows |>).
Proof. revert s rows. put_table. Qed.

(** Users may change as long as they stay and administrators stay. *)
Lemma put_users s rows :
  (accounts_ok s -> users_ok (Acc.tenants s) rows) ->
  carries same_user (Acc.users s) rows ->
  (accounts_ok s -> forall tenant, has_admin (Acc.users s) tenant -> has_admin rows tenant) ->
  evolves s (s <| Acc.users := rows |>).
Proof.
  intros Hu Hc Ha Hok. specialize (Hu Hok). specialize (Ha Hok). revert s rows Hu Hc Ha Hok. put_table.
  - eapply identities_ok_carries; eauto.
  - eapply tokens_ok_carries; eauto.
  - eapply tickets_ok_carries; eauto.
Qed.

(** ** The statements *)

Section Statements.
Context `{Store} `{UuidText} `{AuditJson} `{Sha256} `{ScopesJson}.
Implicit Types (s : Acc.t).

Lemma existsb_false {R} (p : R -> bool) (l : list R) : existsb p l = false -> forall r, In r l -> p r = false.
Proof.
  intros E r Hr. destruct (p r) eqn:Hp; [|done].
  assert (existsb p l = true) as E'; [apply existsb_exists; eauto|congruence].
Qed.

Lemma known_tenant_true s tenant :
  known_tenant s tenant = true -> exists t, In t (Acc.tenants s) /\ TenantsModel.id t = tenant.
Proof.
  unfold known_tenant. intros E. apply is_some_true in E as [t Ht].
  apply select_one_Some in Ht as [Hin Ht]. rewrite beq_true in Ht. by exists t.
Qed.

Lemma user_row_true tenant_id user_id u :
  user_row tenant_id user_id u = true
  <-> UsersModel.id u = user_id /\ UsersModel.tenant_id u = TenantId_to_string tenant_id.
Proof. unfold user_row. by rewrite andb_true_iff, !beq_true. Qed.

(** The checked reference of an insert. *)
Lemma ensure_user_exists_Ok tenant_id user_id s s' :
  ensure_user_exists tenant_id user_id s = (s', Ok tt) ->
  s' = s /\ user_in (Acc.users s) (TenantId_to_string tenant_id) user_id.
Proof.
  unfold ensure_user_exists, user_exists. rewrite tbind_Ok. intros (s1 & b & E & E').
  apply tread_Ok in E as [-> E]. injection E as <-. destruct (is_some _) eqn:Es; [|done].
  apply tret_Ok in E' as [-> _]. split; [done|]. apply is_some_true in Es as [u Hu].
  apply select_one_Some in Hu as [Hin Hu]. apply user_row_true in Hu as [E1 E2]. by exists u.
Qed.

Lemma check_user_Ok tenant_id user_id s s' :
  check_user tenant_id user_id s = (s', Ok tt) ->
  s' = s /\ refers (Acc.users s) (TenantId_to_string tenant_id) user_id.
Proof.
  destruct user_id as [id|]; simpl.
  - intros E. apply ensure_user_exists_Ok in E as [-> Hu]. split; [done|]. by intros ? [= <-].
  - intros E. apply tret_Ok in E as [-> _]. done.
Qed.

Lemma insert_account_event_evolves event : steps evolves (insert_account_event event).
Proof.
  intros s. unfold insert_account_event. destruct (_ && _); [|reflexivity].
  destruct (try_insert _ _ _); [apply put_audit|reflexivity].
Qed.

Lemma insert_tenant_evolves tenant : steps evolves (insert_tenant tenant).
Proof.
  intros s. unfold insert_tenant. destruct (existsb _ _) eqn:Eid; [reflexivity|].
  destruct (try_insert _ _ _) as [rows|] eqn:E; [|reflexivity].
  apply try_insert_Some in E as [Hslug ->]. apply put_tenants; [|apply carries_insert; apply _].
  intros [K1 K2]. split; (apply keyed_insert; [done|]; intros r Hr; apply beq_false); [|by apply Hslug].
  by apply (existsb_false _ _ Eid).
Qed.

Lemma insert_user_evolves user : steps evolves (insert_user user).
Proof.
  intros s. unfold insert_user. destruct (existsb _ _) eqn:Eid; [reflexivity|].
  destruct (try_insert _ _ _) as [rows|] eqn:E; [|reflexivity].
  destruct (known_tenant _ _) eqn:Et; [|reflexivity].
  apply try_insert_Some in E as [Hemail ->]. apply put_users.
  - intros (_ & (K1 & K2 & K3) & _). repeat split.
    + apply keyed_insert; [done|]. intros r Hr. apply beq_false. by apply (existsb_false _ _ Eid).
    + apply keyed_insert; [done|]. intros r Hr [= E1 E2]. specialize (Hemail r Hr).
      by rewrite E1, E2, !beq_refl in Hemail.
    + intros u Hu. apply In_insert_row in Hu as [-> | Hu]; [by apply known_tenant_true|by apply K3].
  - apply carries_insert. apply _.
  - intros _ tenant (u & Hu & Ht). exists u. split; [|done]. apply In_insert_row. by right.
Qed.

Lemma insert_identity_evolves identity : steps evolves (insert_identity identity).
Proof.
  intros s. unfold insert_identity, tbind.
  destruct (ensure_user_exists _ _ s) as [s1 [[]|e]] eqn:Eu.
  2:{ unfold ensure_user_exists, user_exists, tbind, tread in Eu.
      destruct (is_some _); [done|]. injection Eu as <- _. reflexivity. }
  apply ensure_user_exists_Ok in Eu as [-> Hu]. destruct (existsb _ _) eqn:Eid; [reflexivity|].
  destruct (try_insert _ _ _) as [rows|] eqn:E; [|reflexivity].
  apply try_insert_Some in E as [Hno ->]. apply put_identities.
  intros (K1 & K2 & K3 & K4). repeat split.
  - apply keyed_insert; [done|]. intros r Hr. apply beq_false. by apply (existsb_false _ _ Eid).
  - apply keyed_insert; [done|]. intros r Hr [= E1 E2 E3]. specialize (Hno r Hr).
    unfold external_row in Hno. by rewrite E1, E2, E3, !beq_refl in Hno.
  - apply keyed_insert; [done|]. intros r Hr [= E1 E2 E3]. specialize (Hno r Hr).
    unfold user_provider_row in Hno. by rewrite E1, E2, E3, !beq_refl, orb_true_r in Hno.
  - intros i Hi. apply In_insert_row in Hi as [-> | Hi]; [done|by apply K4].
Qed.

Lemma check_user_evolves tenant_id user_id {B} (k : acct B) :
  (forall s, refers (Acc.users s) (TenantId_to_string tenant_id) user_id -> evolves s (fst (k s))) ->
  steps evolves (tbind (check_user tenant_id user_id) (fun _ => k)).
Proof.
  intros Hk s. unfold tbind. destruct (check_user tenant_id user_id s) as [s1 [[]|e]] eqn:Eu.
  - apply check_user_Ok in Eu as [-> Hu]. by apply Hk.
  - destruct user_id; simpl in Eu; [|done].
    unfold ensure_user_exists, user_exists, tbind, tread in Eu.
    destruct (is_some _); [done|]. injection Eu as <- _. reflexivity.
Qed.

Lemma insert_tenant_token_evolves token token_hash : steps evolves (insert_tenant_token token token_hash).
Proof.
  unfold insert_tenant_token. apply check_user_evolves. intros s Hu. simpl.
  destruct (existsb _ _) eqn:Eid; [reflexivity|].
  destruct (try_insert _ _ _) as [rows|] eqn:E; [|reflexivity].
  destruct (known_tenant _ _); [|reflexivity].
  apply try_insert_Some in E as [Hno ->]. apply put_tokens; [|apply carries_insert; apply _].
  intros (K1 & K2 & K3). repeat split.
  - apply keyed_insert; [done|]. intros r Hr. apply beq_false. by apply (existsb_false _ _ Eid).
  - apply keyed_insert; [done|]. intros r Hr. apply beq_false. by apply (Hno r Hr).
  - intros t Ht. apply In_insert_row in Ht as [-> | Ht]; [done|by apply K3].
Qed.

Lemma insert_plugin_login_ticket_evolves t ticket_hash :
  steps evolves (insert_plugin_login_ticket t ticket_hash).
Proof.
  unfold insert_plugin_login_ticket. apply check_user_evolves. intros s Hu. simpl.
  destruct (existsb _ _) eqn:Eid; [reflexivity|].
  destruct (try_insert _ _ _) as [rows|] eqn:E; [|reflexivity].
  destruct (known_tenant _ _); [|reflexivity].
  apply try_insert_Some in E as [Hno ->]. apply put_tickets; [|apply carries_insert; apply _].
  intros (K1 & K2 & K3). repeat split.
  - apply keyed_insert; [done|]. intros r Hr. apply beq_false. by apply (existsb_false _ _ Eid).
  - apply keyed_insert; [done|]. intros r Hr. apply beq_false. by apply (Hno r Hr).
  - intros r Hr. apply In_insert_row in Hr as [-> | Hr]; [done|by apply K3].
Qed.

Lemma insert_join_link_evolves link token_hash :
  JoinLink.used_count link = 0 -> steps evolves (insert_join_link link token_hash).
Proof.
  intros Hu s. unfold insert_join_link. destruct (existsb _ _) eqn:Eid; [reflexivity|].
  destruct (try_insert _ _ _) as [rows|] eqn:E; [|reflexivity].
  destruct (_ && _); [|reflexivity].
  apply try_insert_Some in E as [Hno ->]. apply put_links; [|apply carries_insert; apply _].
  intros (K1 & K2 & K3). split; [|split].
  - apply keyed_insert; [done|]. intros r Hr. apply beq_false. by apply (existsb_false _ _ Eid).
  - apply keyed_insert; [done|]. intros r Hr. apply beq_false. by apply (Hno r Hr).
  - intros r Hr. apply In_insert_row in Hr as [-> | Hr]; [simpl; lia|by apply K3].
Qed.

(** *** Updates *)

Lemma put_updated_tokens s p f :
  (forall r, p r = true -> token_later r (f r)
             /\ TokensModel.created_by_user_id (f r) = TokensModel.created_by_user_id r) ->
  evolves s (s <| Acc.tokens := fst (update_many p f (Acc.tokens s)) |>).
Proof.
  intros Hf. set (g r := if p r then f r else r).
  assert (forall r, token_later r (g r) /\ TokensModel.created_by_user_id (g r) = TokensModel.created_by_user_id r)
    as Hg by (intros r; unfold g; destruct (p r) eqn:E; [by apply Hf|done]).
  rewrite update_many_rows. fold g. apply put_tokens; [|apply carries_map; intros r; apply Hg].
  intros (K1 & K2 & K3). split; [|split].
  - apply keyed_map; [|done]. intros r. apply Hg.
  - apply keyed_map; [|done]. intros r. apply Hg.
  - intros t Ht id E. apply in_map_iff in Ht as (r & <- & Hr).
    destruct (Hg r) as [(_ & _ & Et & _) Ec]. rewrite Et. apply (K3 r Hr). congruence.
Qed.

Lemma put_updated_tickets s p f :
  (forall r, p r = true -> ticket_later r (f r)
             /\ LoginTicketsModel.user_id (f r) = LoginTicketsModel.user_id r) ->
  evolves s (s <| Acc.login_tickets := fst (update_many p f (Acc.login_tickets s)) |>).
Proof.
  intros Hf. set (g r := if p r then f r else r).
  assert (forall r, ticket_later r (g r) /\ LoginTicketsModel.user_id (g r) = LoginTicketsModel.user_id r)
    as Hg by (intros r; unfold g; destruct (p r) eqn:E; [by apply Hf|done]).
  rewrite update_many_rows. fold g. apply put_tickets; [|apply carries_map; intros r; apply Hg].
  intros (K1 & K2 & K3). split; [|split].
  - apply keyed_map; [|done]. intros r. apply Hg.
  - apply keyed_map; [|done]. intros r. apply Hg.
  - intros t Ht id E. apply in_map_iff in Ht as (r & <- & Hr).
    destruct (Hg r) as [(_ & _ & Et & _) Ec]. rewrite Et. apply (K3 r Hr). congruence.
Qed.

Lemma put_updated_links s p f :
  (forall r, p r = true -> link_later r (f r)
     /\ JoinLinksModel.used_count (f r)
        <= Z.max (JoinLinksModel.used_count r) (JoinLinksModel.max_uses r)) ->
  evolves s (s <| Acc.join_links := fst (update_many p f (Acc.join_links s)) |>).
Proof.
  intros Hf. apply put_links.
  - intros (K1 & K2 & K3). rewrite update_many_rows. split; [|split].
    + apply keyed_map; [|done]. intros r. destruct (p r) eqn:E; [by apply Hf|done].
    + apply keyed_map; [|done]. intros r. destruct (p r) eqn:E; [by apply Hf|done].
    + intros l Hl. apply in_map_iff in Hl as (r & <- & Hr). specialize (K3 r Hr).
      destruct (p r) eqn:E; [|done]. destruct (Hf r E) as [(_ & _ & Em & Hle & _) Hu]. rewrite Em. lia.
  - apply carries_update; [apply _|]. intros r Hr. by apply Hf.
Qed.

Lemma update_display_name_evolves tenant_id display_name :
  steps evolves (update_display_name tenant_id display_name).
Proof.
  intros s. unfold update_display_name. destruct (select_one _ _) as [model|]; [|reflexivity].
  rewrite (surjective_pairing (update_many _ _ _)). cbn beta iota.
  match goal with |- evolves s (fst (if _ then (?x, _) else _)) =>
    assert (evolves s x) as Hx; [|repeat case_goal; exact Hx] end.
  apply put_tenants; [|apply carries_update; [apply _|done]].
  intros [K1 K2]. split; by apply keyed_update.
Qed.

Lemma touch_token_evolves id now s : evolves s (fst (touch_token id now s)).
Proof.
  unfold touch_token. rewrite (surjective_pairing (update_many _ _ _)).
  apply put_updated_tokens. intros r _. repeat split; [by right|done].
Qed.

Lemma revoked_later now r : token_later r (revoked now r).
Proof. repeat split; [by right|by intros _]. Qed.

Lemma revoke_tenant_token_evolves now tenant_id token_id :
  steps evolves (revoke_tenant_token now tenant_id token_id).
Proof.
  intros s. unfold revoke_tenant_token. destruct (select_one _ _) as [token|]; [|reflexivity].
  destruct (is_some _); [reflexivity|].
  rewrite (surjective_pairing (update_many _ _ _)). cbn beta iota.
  match goal with |- evolves s (fst (if _ then (?x, _) else _)) =>
    assert (evolves s x) as Hx; [|case_goal; exact Hx] end.
  apply put_updated_tokens. intros r _. split; [apply revoked_later|done].
Qed.

Lemma mark_ticket_used_evolves id used_at : steps evolves (mark_ticket_used id used_at).
Proof.
  intros s. unfold mark_ticket_used. rewrite (surjective_pairing (update_many _ _ _)).
  apply put_updated_tickets. intros r _. repeat split. by intros _.
Qed.

Lemma consume_join_link_use_evolves join_link_id now :
  steps evolves (consume_join_link_use_tx join_link_id now).
Proof.
  intros s. unfold consume_join_link_use_tx. rewrite (surjective_pairing (update_many _ _ _)).
  apply put_updated_links. intros r Hr. unfold consumable in Hr. bprop. split_all; [|simpl; lia].
  repeat split; [simpl; lia|done].
Qed.

Lemma revoke_join_link_evolves now tenant_id join_link_id :
  steps evolves (revoke_join_link now tenant_id join_link_id).
Proof.
  intros s. unfold revoke_join_link. destruct (select_one _ _) as [link|]; [|reflexivity].
  destruct (is_some _); [reflexivity|].
  rewrite (surjective_pairing (update_many _ _ _)). cbn beta iota.
  match goal with |- evolves s (fst (if _ then (?x, _) else _)) =>
    assert (evolves s x) as Hx; [|case_goal; exact Hx] end.
  apply put_updated_links. intros r _. split; [|simpl; lia].
  repeat split; [simpl; lia|by intros _].
Qed.
End Statements.
