(* ===== verification/AccountSteps.v ===== *)
(** * Every operation on the accounts respects the invariant

    The operations that write the account tables, one after the other, as the
    steps of a transition system ([account_op], [run], [account_step]); each of
    them [evolves] the database, so the invariant and the fate of rows hold along
    every sequence of operations. *)

From S2P Require Import Prelude RustStr CoreTypes CoreRecords Json Store Tables Tx JobRows JobTables Accounts Onboarding Credentials AccountTables.

#[local] Open Scope Z_scope.

Lemma traverse_Some_Ok {A B} (f : A -> result RepositoryError B) a b :
  traverse_opt f (Some a) = Ok (Some b) <-> f a = Ok b.
Proof. unfold traverse_opt. simpl. destruct (f a); simpl; split; congruence. Qed.

(** ** Roles *)

Lemma parse_as_str r : UserRole.parse (UserRole.as_str r) = Ok r.
Proof. by destruct r. Qed.

Lemma parse_Ok text r : UserRole.parse text = Ok r -> text = UserRole.as_str r.
Proof.
  unfold UserRole.parse. repeat (case_goal; [by bprop; intros [= <-]|]). done.
Qed.

Section Users.
Context `{Store} `{UuidText} `{AuditJson}.
Implicit Types (s : Acc.t).

Lemma select_user_Ok tenant_id user_id s s' user :
  select_user tenant_id user_id s = (s', Ok user) ->
  s' = s /\ exists u, select_one (user_row tenant_id user_id) (Acc.users s) = Some u
                      /\ UserRole.as_str (User.role user) = UsersModel.role u.
Proof.
  unfold select_user. rewrite tbind_Ok. intros (s1 & o & E & E').
  apply tread_Ok in E as [-> E]. apply tlift_Ok in E' as [-> E']. apply ok_or_Ok in E' as ->.
  split; [done|]. destruct (select_one _ _) as [u|]; [|done]. exists u. split; [done|].
  rewrite traverse_Some_Ok in E. unfold user_from_model in E.
  apply rbind_Ok in E as (t & _ & E). apply rbind_Ok in E as (role & Er & E).
  injection E as <-. simpl. symmetry. by apply parse_Ok.
Qed.

Lemma other_admin_remains tenant_id s s' :
  ensure_other_admin_remains tenant_id s = (s', Ok tt) ->
  s' = s /\ (2 <= length (List.filter (tenant_admin_row tenant_id) (Acc.users s)))%nat.
Proof.
  unfold ensure_other_admin_remains. rewrite tbind_Ok. intros (s1 & l & E & E').
  apply tread_Ok in E as [-> E]. injection E as <-. rewrite select_length in E'.
  destruct (Nat.leb_spec (length (List.filter (tenant_admin_row tenant_id) (Acc.users s))) 1); [done|].
  apply tret_Ok in E' as [-> _]. split; [done|lia].
Qed.

(** Two administrators: one of them is not the user at hand. *)
Lemma another_admin tenant_id (users : list UsersModel.t) id :
  keyed UsersModel.id users ->
  (2 <= length (List.filter (tenant_admin_row tenant_id) users))%nat ->
  exists u, In u users /\ tenant_admin_row tenant_id u = true /\ UsersModel.id u <> id.
Proof.
  intros K Hl. apply (NoDup_map_filter _ (tenant_admin_row tenant_id)) in K.
  destruct (List.filter _ users) as [|a [|b l]] eqn:E; simpl in *; try lia.
  assert (In a users /\ tenant_admin_row tenant_id a = true) as [Ha Ta]
    by (apply filter_In; rewrite E; by left).
  assert (In b users /\ tenant_admin_row tenant_id b = true) as [Hb Tb]
    by (apply filter_In; rewrite E; right; by left).
  apply NoDup_cons in K as [K _].
  destruct (decide (UsersModel.id a = id)) as [<- | Hne]; [|by exists a].
  exists b. split; [done|]. split; [done|]. intros Eid. apply K. rewrite Eid. constructor.
Qed.

Lemma tenant_admin_row_true tenant_id u :
  tenant_admin_row tenant_id u = true
  <-> UsersModel.tenant_id u = TenantId_to_string tenant_id
      /\ UsersModel.role u = UserRole.as_str UserRole.TenantAdmin.
Proof. unfold tenant_admin_row. by rewrite andb_true_iff, !beq_true. Qed.

(** A user of whom the guard let go: the tenant keeps an administrator other
    than it. *)
Lemma guarded_admin tenant_id user_id s s' (b : bool) (u a : UsersModel.t) tenant :
  keyed UsersModel.id (Acc.users s) ->
  (if b then ensure_other_admin_remains tenant_id else tret tt) s = (s', Ok tt) ->
  (UsersModel.role u = UserRole.as_str UserRole.TenantAdmin -> b = true) ->
  In u (Acc.users s) -> user_row tenant_id user_id u = true ->
  In a (Acc.users s) -> UsersModel.tenant_id a = tenant ->
  UsersModel.role a = UserRole.as_str UserRole.TenantAdmin ->
  exists a', In a' (Acc.users s) /\ UsersModel.tenant_id a' = tenant
             /\ UsersModel.role a' = UserRole.as_str UserRole.TenantAdmin
             /\ UsersModel.id a' <> user_id.
Proof.
  intros K E Hb Hu Hrow Ha Et Er. apply user_row_true in Hrow as [Eid Etu].
  destruct (decide (UsersModel.id a = user_id)) as [Ea | Hne].
  2: { exists a. repeat split; done. }
  assert (a = u) as -> by (apply (keyed_In _ _ _ _ K Ha Hu); congruence).
  rewrite (Hb Er) in E. apply other_admin_remains in E as [_ Hl].
  destruct (another_admin tenant_id _ user_id K Hl) as (a' & Ha' & Ta' & Hne).
  apply tenant_admin_row_true in Ta' as [? ?]. exists a'. repeat split; congruence.
Qed.

(** An operation that commits: only its successful runs matter. *)
Lemma steps_committed {A} (m : acct A) :
  (forall s s' a, m s = (s', Ok a) -> evolves s s') -> steps evolves (transaction m).
Proof.
  intros Hm s. unfold transaction. destruct (m s) as [s' [a|e]] eqn:E; simpl; [by apply (Hm s s' a)|reflexivity].
Qed.

Lemma insert_account_event_Ok event s s' u :
  insert_account_event event s = (s', Ok u) ->
  s' = s <| Acc.audit_events := insert_row event (Acc.audit_events s) |>.
Proof.
  unfold insert_account_event. destruct (_ && _); [|done].
  destruct (try_insert _ _ _) as [rows|] eqn:E; [|done]. apply try_insert_Some in E as [_ ->].
  by intros [= <-].
Qed.

Lemma update_user_role_Ok tenant_id user_id role s s' user :
  update_user_role tenant_id user_id role s = (s', Ok user) ->
  s' = s <| Acc.users := fst (update_many (fun r => beq (UsersModel.id r) user_id) (with_role role)
                                (Acc.users s)) |>.
Proof.
  unfold update_user_role. destruct (select_one _ _) as [u|] eqn:E; [|done].
  apply select_one_Some in E as [_ Hu]. apply user_row_true in Hu as [-> _].
  rewrite (surjective_pairing (update_many _ _ _)). cbn beta iota.
  case_goal; [done|]. by intros [= <-].
Qed.

Lemma role_update_evolves d tenant_id user_id role actor :
  steps evolves (update_user_role_with_audit d tenant_id user_id role actor).
Proof.
  apply steps_committed. intros s s' a. rewrite tbind_Ok. intros (s1 & locked & E1 & E2).
  apply select_user_Ok in E1 as (-> & u & Hu & Erole). cbn beta zeta in E2.
  apply tbind_Ok in E2 as (s2 & [] & Eg & E2).
  apply tbind_Ok in E2 as (s3 & user & Eu & E2). apply tbind_Ok in E2 as (s4 & [] & Ee & E2).
  apply tret_Ok in E2 as [-> _]. apply insert_account_event_Ok in Ee as ->.
  assert (s2 = s) as ->.
  { destruct (_ && _); [by apply other_admin_remains in Eg as [-> _]|by apply tret_Ok in Eg as [-> _]]. }
  apply update_user_role_Ok in Eu as ->. etrans; [|apply put_audit].
  apply select_one_Some in Hu as [Hin Hrow]. apply put_users.
  - intros (_ & (K1 & K2 & K3) & _). split; [by apply keyed_update|]. split; [by apply keyed_update|].
    intros x Hx. apply In_update_many in Hx as (y & Hy & ->).
    destruct (K3 y Hy) as (t & Ht & E). exists t. split; [done|]. rewrite E. by destruct (beq (UsersModel.id y) user_id).
  - apply carries_update; [apply _|]. done.
  - intros (_ & (K1 & _) & _) tenant (x & Hx & Ht & Hr).
    destruct (decide (role = UserRole.TenantAdmin)) as [-> | Hne].
    + exists (if beq (UsersModel.id x) user_id then with_role UserRole.TenantAdmin x else x).
      split; [by apply In_update_many; exists x|]. by destruct (beq (UsersModel.id x) user_id).
    + destruct (guarded_admin _ user_id _ _ _ u x tenant K1 Eg) as (y & Hy & Ht' & Hr' & Hid); try done.
      { intros Ea. rewrite <- Erole in Ea. apply andb_true_iff. split; [|by apply negb_true_iff, beq_false].
        apply beq_true. by destruct (User.role locked). }
      exists y. split; [|done]. apply In_update_many. exists y. split; [done|].
      by rewrite (proj2 (beq_false _ _) Hid).
Qed.

(** *** Removal *)

Lemma user_in_deleted p users tenant id :
  user_in users tenant id -> (forall u, In u users -> p u = true -> UsersModel.id u = id ->
                              UsersModel.tenant_id u <> tenant) ->
  user_in (fst (delete_many p users)) tenant id.
Proof.
  intros (u & Hu & Et & Eid) Hp. exists u. split; [|done]. apply In_delete_many. split; [done|].
  destruct (p u) eqn:E; [|done]. by destruct (Hp u Hu E Eid).
Qed.

(** A reference [ON DELETE SET NULL] left in place is to a user who stays. *)
Lemma refers_forgotten p users tenant o :
  refers users tenant o ->
  refers (fst (delete_many p users)) tenant
    (forget (fun id => existsb (fun r => p r && beq (UsersModel.id r) id) users) o).
Proof.
  intros Hr id. destruct o as [v|]; simpl; [|done].
  destruct (existsb _ users) eqn:E; [done|]. intros [= ->].
  apply user_in_deleted; [by apply Hr|]. intros u Hu Hp Eid _.
  apply (existsb_false _ _ E u) in Hu. by rewrite Hp, Eid, beq_refl in Hu.
Qed.

Lemma delete_users_ok p s : accounts_ok s -> accounts_ok (delete_users p s).
Proof.
  destruct s. unfold accounts_ok, users_ok, identities_ok, tokens_ok, tickets_ok, links_ok, delete_users.
  cbn -[forget]. intros (K1 & K2 & K3 & K4 & K5 & K6 & K7).
  repeat match goal with |- _ /\ _ => split end; try apply K1; try apply K7.
  - by apply keyed_delete, K2.
  - apply keyed_delete, K2.
  - intros u Hu. apply In_delete_many in Hu as [Hu _]. by apply K2.
  - apply keyed_delete, K3.
  - apply keyed_delete, K3.
  - apply keyed_delete, K3.
  - intros i Hi. apply In_delete_many in Hi as [Hi Ho]. apply user_in_deleted; [by apply K3|].
    intros u Hu Hp Eid Et. apply (existsb_false _ _ Ho u) in Hu.
    by rewrite Hp, Eid, Et, !beq_refl in Hu.
  - apply keyed_map; [done|apply K4].
  - apply keyed_map; [done|apply K4].
  - intros t Ht. apply in_map_iff in Ht as (r & <- & Hr). apply refers_forgotten. exact (proj2 (proj2 K4) r Hr).
  - apply keyed_map; [done|apply K5].
  - apply keyed_map; [done|apply K5].
  - intros t Ht. apply in_map_iff in Ht as (r & <- & Hr). apply refers_forgotten. exact (proj2 (proj2 K5) r Hr).
  - apply keyed_map; [done|apply K6].
  - apply keyed_map; [done|apply K6].
  - intros l Hl. apply in_map_iff in Hl as (r & <- & Hr). exact (proj2 (proj2 K6) r Hr).
Qed.

Lemma delete_users_later p s :
  (forall tenant, has_admin (Acc.users s) tenant -> has_admin (fst (delete_many p (Acc.users s))) tenant) ->
  later s (delete_users p s).
Proof.
  intros Ha. unfold later, delete_users; simpl.
  repeat match goal with |- _ /\ _ => split end; try done;
    try (apply carries_refl; apply _); apply carries_map; intros r;
    repeat split; try (done || lia).
  unfold only_forgotten. simpl. destruct (TokensModel.created_by_user_id r) as [v|]; simpl; [|by left].
  destruct (existsb _ _); [by left|by right].
Qed.

Lemma removal_evolves d tenant_id user_id actor :
  steps evolves (remove_user_with_audit d tenant_id user_id actor).
Proof.
  apply steps_committed. intros s s' a. rewrite tbind_Ok. intros (s1 & user & E1 & E2).
  apply select_user_Ok in E1 as (-> & u & Hu & Erole). cbn beta in E2.
  apply tbind_Ok in E2 as (s2 & [] & Eg & E2).
  apply tbind_Ok in E2 as (s3 & [] & Ed & E2). apply tbind_Ok in E2 as (s4 & [] & Ee & E2).
  apply tret_Ok in E2 as [-> _]. apply insert_account_event_Ok in Ee as ->.
  assert (s2 = s) as ->.
  { destruct (beq _ _); [by apply other_admin_remains in Eg as [-> _]|by apply tret_Ok in Eg as [-> _]]. }
  injection Ed as <-. etrans; [|apply put_audit].
  apply select_one_Some in Hu as [Hin Hrow]. intros Hok. split; [by apply delete_users_ok|].
  apply delete_users_later. intros tenant (x & Hx & Ht & Hr).
  destruct Hok as (_ & (K1 & _) & _).
  destruct (guarded_admin _ user_id _ _ _ u x tenant K1 Eg) as (y & Hy & Ht' & Hr' & Hid); try done.
  { intros Ea. rewrite <- Erole in Ea. apply beq_true. by destruct (User.role user). }
  exists y. split; [|done]. apply In_delete_many. split; [done|].
  destruct (user_row _ _ y) eqn:E; [|done]. by apply user_row_true in E as [? _].
Qed.
End Users.

(** ** The other operations *)

Create HintDb evolves.
#[export] Hint Resolve insert_account_event_evolves insert_tenant_evolves insert_user_evolves
  insert_identity_evolves insert_tenant_token_evolves insert_plugin_login_ticket_evolves
  update_display_name_evolves revoke_tenant_token_evolves mark_ticket_used_evolves
  consume_join_link_use_evolves revoke_join_link_evolves role_update_evolves removal_evolves : evolves.

(** Follows the binds, branches and matches of an operation to its statements. *)
Ltac evolving :=
  repeat first
    [ solve [eauto with evolves]
    | apply steps_transaction; [apply _|]
    | apply steps_bind; [apply _| |intros ?]
    | apply steps_read; apply _ | apply steps_lift; apply _
    | apply steps_ret; apply _ | apply steps_fail; apply _
    | apply steps_if
    | progress cbv beta zeta
    | match goal with |- steps _ (match ?x with _ => _ end) => destruct x end ].

Section Operations.
Context `{Store} `{UuidText} `{AuditJson} `{Rfc3339} `{Sha256} `{ScopesJson} `{RedirectUrls}
  `{Base64} `{TimeRange}.
Implicit Types (s : Acc.t).

Lemma insert_new_token_evolves t : steps evolves (insert_new_token t).
Proof. apply insert_tenant_token_evolves. Qed.
#[local] Hint Resolve insert_new_token_evolves : evolves.

Lemma read_evolves {A} (f : Acc.t -> result RepositoryError A) : steps evolves (tread f).
Proof. apply steps_read. apply _. Qed.
#[local] Hint Resolve read_evolves : evolves.

Lemma load_tenant_evolves tenant_id : steps evolves (load_tenant tenant_id).
Proof. unfold load_tenant, get_tenant. evolving. Qed.
#[local] Hint Resolve load_tenant_evolves : evolves.

Lemma create_tenant_evolves d slug display_name : steps evolves (create_tenant d slug display_name).
Proof. unfold create_tenant. evolving. Qed.

Lemma create_user_evolves d tenant_id email display_name role :
  steps evolves (create_user d tenant_id email display_name role).
Proof. unfold create_user. evolving. Qed.

Lemma link_external_identity_evolves d tenant_id user_id provider subject :
  steps evolves (link_external_identity d tenant_id user_id provider subject).
Proof. unfold link_external_identity. evolving. Qed.

Lemma self_create_evolves d slug display_name profile :
  steps evolves (self_create_tenant_for_external_identity d slug display_name profile).
Proof. unfold self_create_tenant_for_external_identity. evolving. Qed.

Lemma insert_events_evolves events : steps evolves (insert_events events).
Proof. induction events; simpl; evolving. Qed.
#[local] Hint Resolve insert_events_evolves : evolves.

Lemma bootstrap_evolves d slug display_name email admin_name token_name :
  steps evolves (bootstrap_tenant_admin_with_plaintext_token d slug display_name email admin_name token_name).
Proof. unfold bootstrap_tenant_admin_with_plaintext_token. evolving. Qed.

Lemma create_join_link_evolves d tenant_id role email_constraint seconds max_uses actor m :
  create_join_link_with_audit d tenant_id role email_constraint seconds max_uses actor = Some m ->
  steps evolves m.
Proof.
  unfold create_join_link_with_audit. destruct (add_seconds _ _); [|done]. intros [= <-].
  evolving. by apply insert_join_link_evolves.
Qed.

Lemma revoke_join_link_with_audit_evolves d tenant_id join_link_id actor :
  steps evolves (revoke_join_link_with_audit d tenant_id join_link_id actor).
Proof. unfold revoke_join_link_with_audit. evolving. Qed.

Lemma accept_join_link_evolves d plaintext_token profile :
  steps evolves (accept_join_link d plaintext_token profile).
Proof. unfold accept_join_link, join_tenant, load_valid_join_link_by_hash, find_external_user_tx. evolving. Qed.

Lemma create_tenant_token_evolves d tenant_id name scopes expires_at actor :
  steps evolves (create_tenant_token_with_audit d tenant_id name scopes expires_at actor).
Proof. unfold create_tenant_token_with_audit. evolving. Qed.

Lemma authenticate_evolves d plaintext_token : steps evolves (authenticate_tenant_token d plaintext_token).
Proof.
  intros s. unfold authenticate_tenant_token. destruct (select_one _ _) as [model|]; [|reflexivity].
  destruct (_ <-? _ ;; _)%rust as [[token [|]]|e]; try reflexivity.
  pose proof (touch_token_evolves (TokensModel.id model) (clock d 0) s) as Ht.
  destruct (touch_token _ _ s) as [s' n]. by destruct (n =? 0).
Qed.

Lemma revoke_token_evolves d tenant_id token_id actor :
  steps evolves (revoke_tenant_token_with_audit d tenant_id token_id actor).
Proof. unfold revoke_tenant_token_with_audit. evolving. Qed.

Lemma rotate_token_evolves d tenant_id token_id expires_at actor :
  steps evolves (rotate_tenant_token_with_audit d tenant_id token_id expires_at actor).
Proof. unfold rotate_tenant_token_with_audit. evolving. Qed.

Lemma revoke_plugin_token_evolves d plaintext_token :
  steps evolves (revoke_plugin_studio_token_with_audit d plaintext_token).
Proof.
  unfold revoke_plugin_studio_token_with_audit. evolving.
  intros s. rewrite (surjective_pairing (update_many _ _ _)).
  apply put_updated_tokens. intros r _. split; [apply revoked_later|done].
Qed.

Lemma no_auth_session_evolves d name expires_at :
  steps evolves (create_no_auth_plugin_session_with_audit d name expires_at).
Proof. unfold create_no_auth_plugin_session_with_audit. evolving. Qed.

Lemma create_plugin_ticket_evolves d tenant_id user_id redirect_url expires_at actor :
  steps evolves (create_plugin_login_ticket_with_audit d tenant_id user_id redirect_url expires_at actor).
Proof. unfold create_plugin_login_ticket_with_audit, create_ticket. evolving. Qed.

Lemma create_mobile_ticket_evolves d tenant_id user_id redirect_url code_challenge expires_at actor :
  steps evolves (create_mobile_login_ticket_with_audit d tenant_id user_id redirect_url code_challenge
                   expires_at actor).
Proof. unfold create_mobile_login_ticket_with_audit, create_ticket. evolving. Qed.

Lemma exchange_evolves d plaintext_ticket kind code_verifier :
  steps evolves (exchange_login_ticket d plaintext_ticket kind code_verifier).
Proof.
  unfold exchange_login_ticket. evolving.
  match goal with |- steps _ (fun s => match mark_ticket_used ?i ?u s with _ => _ end) =>
    intros s; pose proof (mark_ticket_used_evolves i u s) as Hm;
    destruct (mark_ticket_used i u s) as [s1 [n|e]]; simpl in Hm; [|exact Hm] end.
  destruct (negb _); [reflexivity|]. etrans; [exact Hm|].
  apply steps_run. unfold create_token_from_ticket_tx. evolving.
Qed.

Lemma issue_event_ticket_evolves d tenant_id ticket_hash :
  steps evolves (issue_event_ticket d tenant_id ticket_hash).
Proof.
  unfold issue_event_ticket. evolving. intros s. destruct (known_tenant _ _); [|reflexivity].
  destruct (try_insert _ _ _) as [rows|] eqn:E; [|reflexivity].
  apply try_insert_Some in E as [Hno ->]. apply put_event_tickets; [|apply carries_insert; apply _].
  intros [K1 K2]. split; (apply keyed_insert; [done|]; intros r Hr; specialize (Hno r Hr); bprop; tauto).
Qed.

Lemma consume_event_ticket_evolves d tenant_id ticket_hash :
  steps evolves (consume_event_ticket d tenant_id ticket_hash).
Proof.
  unfold consume_event_ticket. evolving. intros s. rewrite (surjective_pairing (update_many _ _ _)).
  apply put_event_tickets; [intros [K1 K2]; split; by apply keyed_update|].
  apply carries_update; [apply _|]. intros r _. repeat split. by intros _.
Qed.
End Operations.

(** ** The transition system *)

Section System.
Context `{Store} `{UuidText} `{AuditJson} `{Rfc3339} `{Sha256} `{ScopesJson} `{RedirectUrls}
  `{Base64} `{TimeRange}.
Implicit Types (s : Acc.t).

(** A call of one of the writing operations, with what it draws. *)
Inductive account_op :=
| CreateTenant (d : Draws) (slug display_name : string)
| UpdateDisplayName (tenant_id : TenantId) (display_name : string)
| CreateUser (d : Draws) (tenant_id : TenantId) (email display_name : string) (role : UserRole.t)
| UpdateUserRole (d : Draws) (tenant_id : TenantId) (user_id : string) (role : UserRole.t)
    (actor : AuditActor.t)
| RemoveUser (d : Draws) (tenant_id : TenantId) (user_id : string) (actor : AuditActor.t)
| LinkIdentity (d : Draws) (tenant_id : TenantId) (user_id provider subject : string)
| SelfCreate (d : Draws) (slug display_name : string) (profile : ExternalIdentityProfile.t)
| Bootstrap (d : Draws) (slug display_name email admin_name token_name : string)
| CreateJoinLink (d : Draws) (tenant_id : TenantId) (role : UserRole.t)
    (email_constraint : option string) (expires_in_seconds max_uses : Z) (actor : AuditActor.t)
| RevokeJoinLink (d : Draws) (tenant_id : TenantId) (join_link_id : string) (actor : AuditActor.t)
| AcceptJoinLink (d : Draws) (plaintext_token : string) (profile : ExternalIdentityProfile.t)
| CreateToken (d : Draws) (tenant_id : TenantId) (name : string) (scopes : list TenantTokenScope.t)
    (expires_at : option string) (actor : AuditActor.t)
| Authenticate (d : Draws) (plaintext_token : string)
| RevokeToken (d : Draws) (tenant_id : TenantId) (token_id : string) (actor : AuditActor.t)
| RotateToken (d : Draws) (tenant_id : TenantId) (token_id : string) (expires_at : option string)
    (actor : AuditActor.t)
| RevokePluginToken (d : Draws) (plaintext_token : string)
| NoAuthSession (d : Draws) (name expires_at : string)
| CreatePluginTicket (d : Draws) (tenant_id : TenantId) (user_id : option string)
    (redirect_url expires_at : string) (actor : AuditActor.t)
| CreateMobileTicket (d : Draws) (tenant_id : TenantId) (user_id : option string)
    (redirect_url code_challenge expires_at : string) (actor : AuditActor.t)
| ExchangeTicket (d : Draws) (plaintext_ticket : string) (kind : LoginTicketKind.t)
    (code_verifier : option string)
| IssueEventTicket (d : Draws) (tenant_id : TenantId) (ticket_hash : string)
| ConsumeEventTicket (d : Draws) (tenant_id : TenantId) (ticket_hash : string).

Definition run (o : account_op) (s : Acc.t) : Acc.t :=
  match o with
  | CreateTenant d slug name => fst (create_tenant d slug name s)
  | UpdateDisplayName t name => fst (update_display_name t name s)
  | CreateUser d t email name role => fst (create_user d t email name role s)
  | UpdateUserRole d t u role actor => fst (update_user_role_with_audit d t u role actor s)
  | RemoveUser d t u actor => fst (remove_user_with_audit d t u actor s)
  | LinkIdentity d t u p sub => fst (link_external_identity d t u p sub s)
  | SelfCreate d slug name profile => fst (self_create_tenant_for_external_identity d slug name profile s)
  | Bootstrap d slug name email admin token =>
      fst (bootstrap_tenant_admin_with_plaintext_token d slug name email admin token s)
  | CreateJoinLink d t role email seconds max actor =>
      match create_join_link_with_audit d t role email seconds max actor with
      | Some m => fst (m s)
      | None => s
      end
  | RevokeJoinLink d t id actor => fst (revoke_join_link_with_audit d t id actor s)
  | AcceptJoinLink d token profile => fst (accept_join_link d token profile s)
  | CreateToken d t name scopes exp actor => fst (create_tenant_token_with_audit d t name scopes exp actor s)
  | Authenticate d token => fst (authenticate_tenant_token d token s)
  | RevokeToken d t id actor => fst (revoke_tenant_token_with_audit d t id actor s)
  | RotateToken d t id exp actor => fst (rotate_tenant_token_with_audit d t id exp actor s)
  | RevokePluginToken d token => fst (revoke_plugin_studio_token_with_audit d token s)
  | NoAuthSession d name exp => fst (create_no_auth_plugin_session_with_audit d name exp s)
  | CreatePluginTicket d t u url exp actor =>
      fst (create_plugin_login_ticket_with_audit d t u url exp actor s)
  | CreateMobileTicket d t u url code exp actor =>
      fst (create_mobile_login_ticket_with_audit d t u url code exp actor s)
  | ExchangeTicket d ticket kind v => fst (exchange_login_ticket d ticket kind v s)
  | IssueEventTicket d t h => fst (issue_event_ticket d t h s)
  | ConsumeEventTicket d t h => fst (consume_event_ticket d t h s)
  end.

(** The operations one after the other. *)
Definition run_all (ops : list account_op) (s : Acc.t) : Acc.t :=
  fold_left (fun s o => run o s) ops s.

Definition no_accounts : Acc.t := Acc.mk [] [] [] [] [] [] [] [].

Lemma no_accounts_ok : accounts_ok no_accounts.
Proof.
  repeat split; try (apply NoDup_nil_2); done.
Qed.

Lemma run_evolves o s : evolves s (run o s).
Proof.
  destruct o; simpl.
  - apply create_tenant_evolves.
  - apply update_display_name_evolves.
  - apply create_user_evolves.
  - apply role_update_evolves.
  - apply removal_evolves.
  - apply link_external_identity_evolves.
  - apply self_create_evolves.
  - apply bootstrap_evolves.
  - destruct (create_join_link_with_audit _ _ _ _ _ _ _) as [m|] eqn:E; [|reflexivity].
    by apply (create_join_link_evolves _ _ _ _ _ _ _ _ E).
  - apply revoke_join_link_with_audit_evolves.
  - apply accept_join_link_evolves.
  - apply create_tenant_token_evolves.
  - apply authenticate_evolves.
  - apply revoke_token_evolves.
  - apply rotate_token_evolves.
  - apply revoke_plugin_token_evolves.
  - apply no_auth_session_evolves.
  - apply create_plugin_ticket_evolves.
  - apply create_mobile_ticket_evolves.
  - apply exchange_evolves.
  - apply issue_event_ticket_evolves.
  - apply consume_event_ticket_evolves.
Qed.

Lemma run_all_evolves ops s : evolves s (run_all ops s).
Proof.
  revert s. induction ops as [|o ops IH]; intros s; [reflexivity|].
  etrans; [apply run_evolves|]. apply IH.
Qed.

(** *** Rows found again under a key *)

(** The row of a token, after any operations. *)
Lemma token_after ops s r :
  accounts_ok s -> In r (Acc.tokens s) ->
  exists r', In r' (Acc.tokens (run_all ops s)) /\ token_later r r'
             /\ forall x, In x (Acc.tokens (run_all ops s)) ->
                          TokensModel.token_hash x = TokensModel.token_hash r -> x = r'.
Proof.
  intros Hok Hr. destruct (run_all_evolves ops s Hok) as [Hok' (_ & Hc & _)].
  destruct (Hc r Hr) as (r' & Hr' & Hl). exists r'. split; [done|]. split; [done|].
  intros x Hx E. destruct Hok' as (_ & _ & _ & (_ & K & _) & _).
  apply (keyed_In _ _ _ _ K Hx Hr'). rewrite E. symmetry. apply Hl.
Qed.

Lemma ticket_after ops s r :
  accounts_ok s -> In r (Acc.login_tickets s) ->
  exists r', In r' (Acc.login_tickets (run_all ops s)) /\ ticket_later r r'
             /\ forall x, In x (Acc.login_tickets (run_all ops s)) ->
                          LoginTicketsModel.ticket_hash x = LoginTicketsModel.ticket_hash r -> x = r'.
Proof.
  intros Hok Hr. destruct (run_all_evolves ops s Hok) as [Hok' (_ & _ & Hc & _)].
  destruct (Hc r Hr) as (r' & Hr' & Hl). exists r'. split; [done|]. split; [done|].
  intros x Hx E. destruct Hok' as (_ & _ & _ & _ & (_ & K & _) & _).
  apply (keyed_In _ _ _ _ K Hx Hr'). rewrite E. symmetry. apply Hl.
Qed.

Lemma event_ticket_after ops s r :
  accounts_ok s -> In r (Acc.event_tickets s) ->
  exists r', In r' (Acc.event_tickets (run_all ops s)) /\ event_ticket_later r r'
             /\ forall x, In x (Acc.event_tickets (run_all ops s)) ->
                          EventTicketsModel.ticket_hash x = EventTicketsModel.ticket_hash r -> x = r'.
Proof.
  intros Hok Hr. destruct (run_all_evolves ops s Hok) as [Hok' (_ & _ & _ & _ & Hc & _)].
  destruct (Hc r Hr) as (r' & Hr' & Hl). exists r'. split; [done|]. split; [done|].
  intros x Hx E. destruct Hok' as (_ & _ & _ & _ & _ & _ & (_ & K)).
  apply (keyed_In _ _ _ _ K Hx Hr'). rewrite E. symmetry. apply Hl.
Qed.
End System.
