(* ===== verification/AccountSafety.v ===== *)
(** * What the account operations guarantee

    Along every sequence of operations of [AccountSteps]: the tables stay
    consistent, a tenant keeps an administrator, revoked tokens and used tickets
    stay dead, join links admit no more members than they allow; and what a
    successful exchange, acceptance or authentication was based on. *)

From S2P Require Import Prelude RustStr CoreTypes CoreRecords Json Store Tables Tx JobRows JobTables Accounts Onboarding Credentials AccountTables AccountSteps.

#[local] Open Scope Z_scope.

Section Safety.
Context `{Store} `{UuidText} `{AuditJson} `{Rfc3339} `{Sha256} `{ScopesJson} `{RedirectUrls}
  `{Base64} `{TimeRange}.
Implicit Types (s : Acc.t).

(** C17: whatever the operations and whatever they draw, the account tables keep
    their keys unique, their references intact and the use of every join link
    within its limit. *)
Theorem accounts_invariant ops : accounts_ok (run_all ops no_accounts).
Proof. apply run_all_evolves, no_accounts_ok. Qed.

(** ** Administrators *)

(** C18: a tenant with an administrator has one after any operations: role changes,
    removals and everything else, in any order. *)
Theorem last_admin_remains ops s tenant :
  accounts_ok s -> has_admin (Acc.users s) tenant -> has_admin (Acc.users (run_all ops s)) tenant.
Proof. intros Hok. by apply (run_all_evolves ops s Hok). Qed.

(** The row of a user, read back. *)
Lemma select_user_row tenant_id s u :
  keyed UsersModel.id (Acc.users s) -> In u (Acc.users s) ->
  UsersModel.tenant_id u = TenantId_to_string tenant_id ->
  UsersModel.role u = UserRole.as_str UserRole.TenantAdmin ->
  select_user tenant_id (UsersModel.id u) s
  = (s, Ok (User.mk (UsersModel.id u) tenant_id (UsersModel.email u) (UsersModel.display_name u)
              UserRole.TenantAdmin (UsersModel.created_at u))).
Proof.
  intros K Hu Et Er. unfold select_user, tbind, tread.
  assert (select_one (user_row tenant_id (UsersModel.id u)) (Acc.users s) = Some u) as ->.
  { apply select_one_unique; [done|by apply user_row_true|].
    intros u' Hu' Hp. apply user_row_true in Hp as [E _]. by apply (keyed_In _ _ _ _ K). }
  unfold traverse_opt, user_from_model. simpl. rewrite Et, TenantId_parse_to_string, Er. done.
Qed.

(** C27: removing the only administrator of a tenant, or giving it another role,
    is refused and changes nothing. *)
Theorem last_admin_refused d tenant_id role actor s u :
  accounts_ok s -> In u (Acc.users s) -> tenant_admin_row tenant_id u = true ->
  (forall u', In u' (Acc.users s) -> tenant_admin_row tenant_id u' = true -> u' = u) ->
  role <> UserRole.TenantAdmin ->
  remove_user_with_audit d tenant_id (UsersModel.id u) actor s = (s, Err LastTenantAdmin)
  /\ update_user_role_with_audit d tenant_id (UsersModel.id u) role actor s = (s, Err LastTenantAdmin).
Proof.
  intros (_ & (K & _) & _) Hu Ha Hone Hrole. pose proof Ha as [Et Er]%tenant_admin_row_true.
  assert (ensure_other_admin_remains tenant_id s = (s, Err LastTenantAdmin)) as Eg.
  { destruct (ensure_other_admin_remains tenant_id s) as [s' [[]|e]] eqn:E.
    - apply other_admin_remains in E as [-> Hl].
      destruct (another_admin _ _ (UsersModel.id u) K Hl) as (u' & Hu' & Ta & Hne).
      by rewrite (Hone u' Hu' Ta) in Hne.
    - revert E. unfold ensure_other_admin_remains, tbind, tread. simpl. case_goal; by intros [= <- <-]. }
  pose proof (select_user_row _ _ _ K Hu Et Er) as Es. split.
  - unfold remove_user_with_audit, transaction, tbind. rewrite Es. simpl. by rewrite Eg.
  - unfold update_user_role_with_audit, transaction, tbind. rewrite Es. simpl.
    rewrite (proj2 (beq_false _ _) Hrole). simpl. by rewrite Eg.
Qed.

(** ** Tokens *)

(** No row a token could be looked up under. *)
Lemma dead_token_refused d plaintext_token s :
  (forall r, In r (Acc.tokens s) -> TokensModel.token_hash r = hash_token plaintext_token ->
             is_Some (TokensModel.revoked_at r)) ->
  authenticate_tenant_token d plaintext_token s = (s, Ok None).
Proof.
  intros Hd. unfold authenticate_tenant_token.
  destruct (select_one _ _) as [r|] eqn:E; [|done].
  apply select_one_Some in E as [Hr Hl]. unfold live_token in Hl.
  apply andb_true_iff in Hl as [Hh Hn]. rewrite beq_true in Hh. rewrite is_none_true in Hn.
  destruct (Hd r Hr Hh) as [x Hx]. congruence.
Qed.

Lemma revoke_tenant_token_Ok now tenant_id token_id s s1 token r :
  accounts_ok s -> revoke_tenant_token now tenant_id token_id s = (s1, Ok token) ->
  In r (Acc.tokens s) -> TokensModel.id r = token_id ->
  exists r', In r' (Acc.tokens s1) /\ TokensModel.token_hash r' = TokensModel.token_hash r
             /\ is_Some (TokensModel.revoked_at r').
Proof.
  intros (_ & _ & _ & (K & _) & _). unfold revoke_tenant_token.
  destruct (select_one _ _) as [x|] eqn:E; [|done]. intros Em Hr Eid.
  apply select_one_Some in E as [Hx Hp]. unfold token_row in Hp. apply andb_true_iff in Hp as [Hp _].
  rewrite beq_true in Hp. assert (x = r) as -> by (apply (keyed_In _ _ _ _ K); congruence).
  destruct (is_some _) eqn:Er.
  { injection Em as <- _. apply is_some_true in Er. by exists r. }
  rewrite (surjective_pairing (update_many _ _ _)) in Em. cbn beta iota in Em.
  destruct (_ =? _); [done|]. injection Em as <- _. exists (revoked now r). split; [|done].
  apply In_update_many. exists r. by rewrite beq_refl.
Qed.

(** C20: once a token is revoked, presenting it never authenticates again, whatever
    operations follow. *)
Theorem revoked_token_stays_dead d tenant_id token_id actor s s1 token r ops d' plaintext_token :
  accounts_ok s -> revoke_tenant_token_with_audit d tenant_id token_id actor s = (s1, Ok token) ->
  In r (Acc.tokens s) -> TokensModel.id r = token_id ->
  hash_token plaintext_token = TokensModel.token_hash r ->
  authenticate_tenant_token d' plaintext_token (run_all ops s1) = (run_all ops s1, Ok None).
Proof.
  intros Hok E Hr Eid Eh. apply dead_token_refused.
  pose proof (run_evolves (RevokeToken d tenant_id token_id actor) s Hok) as [Hok1 _].
  simpl in Hok1. rewrite E in Hok1. simpl in Hok1. apply transaction_Ok, tbind_Ok in E as (s2 & t & E1 & E2).
  destruct (revoke_tenant_token_Ok _ _ _ _ _ _ _ Hok E1 Hr Eid) as (r1 & Hr1 & Eh1 & Hrev).
  apply tbind_Ok in E2 as (s3 & [] & Ee & E2). apply tret_Ok in E2 as [-> _].
  apply insert_account_event_Ok in Ee as ->.
  destruct (token_after ops _ r1 Hok1 Hr1) as (r' & Hr' & Hl & Hu).
  intros x Hx Ex. rewrite (Hu x Hx) by congruence. by apply Hl.
Qed.
(** ** Login tickets *)

Definition scope_of (kind : LoginTicketKind.t) : TenantTokenScope.t :=
  match kind with
  | LoginTicketKind.Plugin => TenantTokenScope.PluginStudio
  | LoginTicketKind.Mobile => TenantTokenScope.MobileSession
  end.

(** What an exchange was based on, and the token it hands out. *)
Definition exchanged (d : Draws) (plaintext_ticket : string) (kind : LoginTicketKind.t)
    (code_verifier : option string) s (x : PluginLoginTicketExchange.t) : Prop :=
  exists r t, In r (Acc.login_tickets s)
    /\ open_ticket (hash_token plaintext_ticket) kind r = true
    /\ ticket_from_model r = Ok t
    /\ ticket_expired (now_utc d 0) t = Ok false
    /\ (kind = LoginTicketKind.Mobile -> mobile_pkce_matches t (default EmptyString code_verifier) = true)
    /\ let token := TenantTokenWithPlaintext.token (PluginLoginTicketExchange.tenant_token x) in
       TenantToken.tenant_id token = Ticket.tenant_id t
       /\ TenantToken.scopes token = [scope_of kind]
       /\ TenantToken.created_by_user_id token = Ticket.user_id t.

Lemma ticket_from_model_id r t : ticket_from_model r = Ok t -> Ticket.id t = LoginTicketsModel.id r.
Proof.
  unfold ticket_from_model. intros E. apply rbind_Ok in E as (x & _ & E).
  apply rbind_Ok in E as (k & _ & E). by injection E as <-.
Qed.

Lemma exchange_spec d plaintext_ticket kind code_verifier s s1 x :
  exchange_login_ticket d plaintext_ticket kind code_verifier s = (s1, Ok (Some x)) ->
  accounts_ok s ->
  exchanged d plaintext_ticket kind code_verifier s x
  /\ exists r, In r (Acc.login_tickets s1)
               /\ LoginTicketsModel.ticket_hash r = hash_token plaintext_ticket
               /\ is_Some (LoginTicketsModel.used_at r).
Proof.
  unfold exchange_login_ticket. intros E Hok. rewrite transaction_Ok in E.
  apply tbind_Ok in E as (s2 & o & E1 & E). apply tread_Ok in E1 as [-> E1].
  destruct o as [t|]; [|by apply tret_Ok in E as [_ ?]].
  destruct (select_one _ _) as [r|] eqn:Er; [|done]. rewrite traverse_Some_Ok in E1.
  apply select_one_Some in Er as [Hr Hopen].
  apply tbind_Ok in E as (s3 & expired & Ex & E). apply tlift_Ok in Ex as [-> Ex].
  destruct expired; [by apply tret_Ok in E as [_ ?]|].
  destruct (_ && negb (mobile_pkce_matches _ _)) eqn:Ep; [by apply tret_Ok in E as [_ ?]|].
  unfold mark_ticket_used in E. rewrite (surjective_pairing (update_many _ _ _)) in E.
  cbn beta iota in E. destruct (negb (_ =? 1)); [congruence|].
  apply tbind_Ok in E as (s4 & expires_at & Ef & E). apply tlift_Ok in Ef as [-> Ef].
  pose proof (put_updated_tickets s (unused_ticket (Ticket.id t))
    (fun r => r <| LoginTicketsModel.used_at := Some (clock d 0) |>)
    (fun r _ => ltac:(repeat split; by intros _)) Hok) as [Hok2 _].
  match type of E with tbind ?m ?k ?s0 = _ =>
    assert (steps evolves (tbind m k)) as Hrest
      by (unfold create_token_from_ticket_tx, insert_new_token; evolving);
    pose proof (steps_run evolves _ s0 Hrest Hok2) as [_ (_ & _ & Hc & _)]; rewrite E in Hc end.
  apply tbind_Ok in E as (s5 & token & Et & E). apply tbind_Ok in E as (s6 & ? & _ & E).
  apply tret_Ok in E as [-> Exx]. injection Exx as ->. split.
  - exists r, t. repeat split; try done.
    + intros ->. by apply negb_false_iff in Ep.
    + unfold create_token_from_ticket_tx in Et. destruct kind; apply tbind_Ok in Et as (? & ? & _ & Et);
        by apply tret_Ok in Et as [_ ->].
    + unfold create_token_from_ticket_tx in Et. destruct kind; apply tbind_Ok in Et as (? & ? & _ & Et);
        by apply tret_Ok in Et as [_ ->].
    + unfold create_token_from_ticket_tx in Et. destruct kind; apply tbind_Ok in Et as (? & ? & _ & Et);
        by apply tret_Ok in Et as [_ ->].
  - unfold open_ticket in Hopen. bprop. split_all.
    destruct (Hc (r <| LoginTicketsModel.used_at := Some (clock d 0) |>)) as (r' & Hr' & Hl).
    { simpl. apply In_update_many. exists r. split; [done|].
      assert (unused_ticket (Ticket.id t) r = true) as ->; [|done]. unfold unused_ticket.
      rewrite (ticket_from_model_id _ _ E1), beq_refl. by bprop. }
    exists r'. split; [done|]. destruct Hl as (_ & Eh & _ & _ & _ & Hu). split; [|by apply Hu].
    rewrite Eh. simpl. congruence.
Qed.

Lemma dead_ticket_refused d plaintext_ticket kind code_verifier s :
  (forall r, In r (Acc.login_tickets s) ->
             LoginTicketsModel.ticket_hash r = hash_token plaintext_ticket ->
             is_Some (LoginTicketsModel.used_at r)) ->
  exchange_login_ticket d plaintext_ticket kind code_verifier s = (s, Ok None).
Proof.
  intros Hd. unfold exchange_login_ticket, transaction, tbind, tread.
  destruct (select_one _ _) as [r|] eqn:E; [|done].
  apply select_one_Some in E as [Hr Hl]. unfold open_ticket in Hl. bprop. split_all.
  destruct (Hd r Hr) as [u Hu]; [done|congruence].
Qed.

(** C19: a login ticket is exchanged at most once, as the kind it was issued for,
    unexpired and - for a mobile login - by the holder of the PKCE verifier; the
    token it yields belongs to the ticket's tenant and user and has that kind's one
    scope.  Afterwards presenting the ticket again yields nothing, ever. *)
Theorem login_ticket_single_use d plaintext_ticket kind code_verifier s s1 x
    ops d' kind' code_verifier' :
  accounts_ok s ->
  exchange_login_ticket d plaintext_ticket kind code_verifier s = (s1, Ok (Some x)) ->
  exchanged d plaintext_ticket kind code_verifier s x
  /\ exchange_login_ticket d' plaintext_ticket kind' code_verifier' (run_all ops s1)
     = (run_all ops s1, Ok None).
Proof.
  intros Hok E. destruct (exchange_spec _ _ _ _ _ _ _ E Hok) as (Hx & r & Hr & Eh & Hused).
  split; [done|]. apply dead_ticket_refused.
  pose proof (run_evolves (ExchangeTicket d plaintext_ticket kind code_verifier) s Hok) as [Hok1 _].
  simpl in Hok1. rewrite E in Hok1.
  destruct (ticket_after ops s1 r Hok1 Hr) as (r' & Hr' & Hl & Hu).
  intros y Hy Ey. rewrite (Hu y Hy) by congruence. by apply Hl.
Qed.

(** ** Printer event tickets *)

Lemma consume_spec d tenant_id ticket_hash s s1 row :
  consume_event_ticket d tenant_id ticket_hash s = (s1, Ok (Consumed row)) ->
  exists now r, format_timestamp (now_utc d 0) = Ok now /\ In r (Acc.event_tickets s)
    /\ consumable_ticket tenant_id ticket_hash now r = true
    /\ In (r <| EventTicketsModel.used_at := Some now |>) (Acc.event_tickets s1).
Proof.
  unfold consume_event_ticket. intros E. apply tbind_Ok in E as (s2 & now & En & E).
  apply tlift_Ok in En as [-> En]. apply tbind_Ok in E as (s3 & n & Eu & E).
  rewrite (surjective_pairing (update_many _ _ _)) in Eu. cbn beta iota in Eu. injection Eu as <- <-.
  destruct (Z.eqb_spec (snd (update_many (consumable_ticket tenant_id ticket_hash now)
    (fun r => r <| EventTicketsModel.used_at := Some now |>) (Acc.event_tickets s))) 1) as [En1 | Hne].
  - apply tread_Ok in E as [-> E].
    assert (exists r, In r (Acc.event_tickets s)
                      /\ consumable_ticket tenant_id ticket_hash now r = true) as (r & Hr & Hc)
      by (apply (update_many_affected_pos _ (fun r => r <| EventTicketsModel.used_at := Some now |>)); lia).
    exists now, r. repeat split; try done. simpl. apply In_update_many. exists r. by rewrite Hc.
  - apply tread_Ok in E as [-> E]. case_match; discriminate.
Qed.

(** A printer event ticket is accepted at most once, for the tenant it was
    issued to and before it expires; afterwards no attempt to consume it succeeds,
    whatever happens in between. *)
Theorem event_ticket_single_use d tenant_id ticket_hash s s1 row ops d' tenant_id' :
  accounts_ok s ->
  consume_event_ticket d tenant_id ticket_hash s = (s1, Ok (Consumed row)) ->
  (exists now r, format_timestamp (now_utc d 0) = Ok now /\ In r (Acc.event_tickets s)
     /\ consumable_ticket tenant_id ticket_hash now r = true)
  /\ forall row', snd (consume_event_ticket d' tenant_id' ticket_hash (run_all ops s1))
                 <> Ok (Consumed row').
Proof.
  intros Hok E. pose proof (consume_spec _ _ _ _ _ _ E) as (now & r & En & Hr & Hc & Hr1).
  split; [by exists now, r|]. intros row' E'.
  destruct (consume_event_ticket d' tenant_id' ticket_hash (run_all ops s1)) as [s3 res] eqn:E3.
  simpl in E'. subst res. apply consume_spec in E3 as (now' & x & _ & Hx & Hcx & _).
  pose proof (run_evolves (ConsumeEventTicket d tenant_id ticket_hash) s Hok) as [Hok1 _].
  simpl in Hok1. rewrite E in Hok1.
  destruct (event_ticket_after ops s1 _ Hok1 Hr1) as (r' & Hr' & (_ & Eh & Hused) & Hu).
  unfold consumable_ticket, event_ticket_row in Hc, Hcx. bprop. split_all.
  assert (x = r') as -> by (apply (Hu x Hx); simpl; congruence).
  destruct Hused as [u Hus]; [by eexists|]. congruence.
Qed.

(** ** Join links *)

(** A join that takes a use of its link. *)
Definition admits (token_hash : string) (o : account_op) s : bool :=
  match o with
  | AcceptJoinLink d token profile =>
      beq (hash_token token) token_hash
      && match snd (accept_join_link d token profile s) with
         | Ok a => AcceptedJoinLink.created a
         | Err _ => false
         end
  | _ => false
  end.

(** The members admitted through a link along a run. *)
Fixpoint admissions (token_hash : string) (ops : list account_op) s : Z :=
  match ops with
  | [] => 0
  | o :: ops => (if admits token_hash o s then 1 else 0) + admissions token_hash ops (run o s)
  end.

(** What a new member's admission was based on. *)
Definition admitted (d : Draws) (plaintext_token : string) (profile : ExternalIdentityProfile.t)
    s s1 (a : AcceptedJoinLink.t) : Prop :=
  exists now r l tenant_id, format_timestamp (now_utc d 0) = Ok now
    /\ In r (Acc.join_links s) /\ JoinLinksModel.token_hash r = hash_token plaintext_token
    /\ link_exhausted now r = false /\ join_link_from_model r = Ok l
    /\ email_allowed l (ExternalIdentityProfile.email profile) = true
    /\ TenantId_parse (JoinLinksModel.tenant_id r) = Ok tenant_id
    /\ AcceptedJoinLink.user a = join_user d tenant_id l profile
    /\ In (user_model (AcceptedJoinLink.user a)) (Acc.users s1)
    /\ exists r1, In r1 (Acc.join_links s1) /\ link_later r r1
         /\ JoinLinksModel.used_count r + 1 <= JoinLinksModel.used_count r1.

Lemma insert_user_Ok user s s1 u :
  insert_user user s = (s1, Ok u) ->
  s1 = s <| Acc.users := insert_row (user_model user) (Acc.users s) |>.
Proof.
  unfold insert_user. destruct (existsb _ _); [done|].
  destruct (try_insert _ _ _) as [rows|] eqn:E; [|done]. destruct (known_tenant _ _); [|done].
  apply try_insert_Some in E as [_ ->]. by intros [= <-].
Qed.

Lemma insert_identity_users identity s : Acc.users (fst (insert_identity identity s)) = Acc.users s.
Proof.
  unfold insert_identity, tbind. destruct (ensure_user_exists _ _ s) as [s1 [[]|e]] eqn:E.
  - apply ensure_user_exists_Ok in E as [-> _]. repeat case_match; done.
  - unfold ensure_user_exists, user_exists, tbind, tread in E.
    destruct (is_some _); [done|]. by injection E as <- _.
Qed.

Lemma load_tenant_Ok tenant_id s s1 tenant : load_tenant tenant_id s = (s1, Ok tenant) -> s1 = s.
Proof.
  unfold load_tenant. intros E. apply tbind_Ok in E as (s2 & o & E & E').
  apply tread_Ok in E as [-> _]. by apply tlift_Ok in E' as [-> _].
Qed.

(** The new member is in the tables, and the rest of them is later. *)
Lemma join_tenant_spec d tenant_id link profile s s1 a :
  accounts_ok s -> join_tenant d tenant_id link profile s = (s1, Ok a) ->
  AcceptedJoinLink.created a = true
  /\ AcceptedJoinLink.user a = join_user d tenant_id link profile
  /\ In (user_model (join_user d tenant_id link profile)) (Acc.users s1) /\ later s s1.
Proof.
  intros Hok E. assert (later s s1) as Hl.
  { assert (steps evolves (join_tenant d tenant_id link profile)) as Hs
      by (unfold join_tenant, load_tenant, get_tenant; evolving).
    destruct (steps_run evolves _ s Hs Hok) as [_ Hl]. by rewrite E in Hl. }
  unfold join_tenant in E. cbv zeta in E.
  apply tbind_Ok in E as (s2 & u & Eu & E). apply tbind_Ok in E as (s3 & i & Ei & E).
  apply tbind_Ok in E as (s4 & e1 & Ee1 & E). apply tbind_Ok in E as (s5 & e2 & Ee2 & E).
  apply tbind_Ok in E as (s6 & tenant & Et & E). apply tret_Ok in E as [-> ->].
  apply load_tenant_Ok in Et as ->. apply insert_account_event_Ok in Ee2 as ->.
  apply insert_account_event_Ok in Ee1 as ->. apply insert_user_Ok in Eu as ->.
  split; [done|]. split; [done|]. split; [|done]. simpl.
  pose proof (insert_identity_users (join_identity d tenant_id profile)
    (s <| Acc.users := insert_row (user_model (join_user d tenant_id link profile)) (Acc.users s) |>)) as Hi.
  rewrite Ei in Hi. simpl in Hi. rewrite Hi. apply In_insert_row. by left.
Qed.

Lemma join_link_from_model_id r l :
  join_link_from_model r = Ok l ->
  JoinLink.id l = JoinLinksModel.id r /\ JoinLink.tenant_id l = JoinLinksModel.tenant_id r.
Proof. unfold join_link_from_model. intros E. apply rbind_Ok in E as (x & _ & E). by injection E as <-. Qed.

(** accepting a join link either finds the account already in the tenant and
    changes nothing, or takes one use of a live link - not revoked, exhausted or
    expired - whose e-mail constraint the account meets, and adds exactly the
    account's user, with the link's role, to the link's tenant. *)
Theorem join_link_admission d plaintext_token profile s s1 a :
  accounts_ok s -> accept_join_link d plaintext_token profile s = (s1, Ok a) ->
  (AcceptedJoinLink.created a = false /\ s1 = s)
  \/ (AcceptedJoinLink.created a = true /\ admitted d plaintext_token profile s s1 a).
Proof.
  intros Hok E. unfold accept_join_link in E. apply tbind_Ok in E as (s2 & now & En & E).
  apply tlift_Ok in En as [-> En]. rewrite transaction_Ok in E.
  apply tbind_Ok in E as (s2 & r & Er & E). apply tread_Ok in Er as [-> Er].
  destruct (select_one _ _) as [r'|] eqn:Es; [|done]. destruct (link_exhausted now r') eqn:Ex; [done|].
  injection Er as ->. apply select_one_Some in Es as [Hr Eh]. rewrite beq_true in Eh.
  apply tbind_Ok in E as (s2 & l & El & E). apply tlift_Ok in El as [-> El].
  apply tbind_Ok in E as (s2 & tenant_id & Et & E). apply tlift_Ok in Et as [-> Et].
  destruct (email_allowed l _) eqn:Ee; [|done]. cbn [negb] in E.
  apply tbind_Ok in E as (s2 & existing & Ef & E). apply tread_Ok in Ef as [-> Ef].
  destruct existing as [user|].
  { left. apply tbind_Ok in E as (s2 & tenant & Et' & E). apply load_tenant_Ok in Et' as ->.
    by apply tret_Ok in E as [-> ->]. }
  right. apply tbind_Ok in E as (s2 & consumed & Ec & E). destruct consumed; [|done]. cbn [negb] in E.
  assert (accounts_ok s2) as Hok2.
  { destruct (consume_join_link_use_evolves (JoinLink.id l) now s Hok) as [Hok2 _]. by rewrite Ec in Hok2. }
  destruct (join_tenant_spec _ _ _ _ _ _ _ Hok2 E) as (Hcr & Hu & Hin & _ & _ & _ & Hl & _).
  split; [done|]. exists now, r, l, tenant_id.
  destruct (join_link_from_model_id _ _ El) as [Eid Etid].
  assert (consumable (JoinLink.id l) now r = true \/ consumable (JoinLink.id l) now r = false) as Hc
    by (destruct (consumable _ _ _); tauto).
  unfold consume_join_link_use_tx in Ec. rewrite (surjective_pairing (update_many _ _ _)) in Ec.
  cbn beta iota in Ec. injection Ec as <- Ea. rewrite Z.eqb_eq in Ea.
  assert (consumable (JoinLink.id l) now r = true) as Hcr'.
  { destruct Hc as [? | Hc]; [done|].
    assert (exists x, In x (Acc.join_links s) /\ consumable (JoinLink.id l) now x = true) as (x & Hx & Hxc)
      by (apply (update_many_affected_pos _ use_link); lia).
    assert (x = r) as ->; [|done]. destruct Hok as (_ & _ & _ & _ & _ & (K & _) & _).
    apply (keyed_In _ _ _ _ K Hx Hr). unfold consumable in Hxc. bprop. split_all. congruence. }
  destruct (Hl (use_link r)) as (r1 & Hr1 & Hl1).
  { simpl. apply In_update_many. exists r. by rewrite Hcr'. }
  repeat split; try done.
  - rewrite <- Etid. unfold db_err in Et. by destruct (TenantId_parse _); [injection Et as ->|].
  - by rewrite Hu.
  - exists r1. split; [done|]. destruct Hl1 as (L1 & L2 & L3 & L4 & L5). simpl in *.
    repeat split; try done; lia.
Qed.

(** One step of a run: the link lives on, and an admission uses it up. *)
Lemma admission_counts o s r :
  accounts_ok s -> In r (Acc.join_links s) ->
  exists r1, In r1 (Acc.join_links (run o s)) /\ link_later r r1
    /\ JoinLinksModel.used_count r + (if admits (JoinLinksModel.token_hash r) o s then 1 else 0)
       <= JoinLinksModel.used_count r1.
Proof.
  intros Hok Hr. destruct (admits (JoinLinksModel.token_hash r) o s) eqn:Ea.
  - destruct o; try done. unfold admits in Ea. apply andb_true_iff in Ea as [Eh Ea].
    rewrite beq_true in Eh. simpl. destruct (accept_join_link d plaintext_token profile s) as [s1 [a|e]] eqn:E; [|done].
    destruct (join_link_admission _ _ _ _ _ _ Hok E) as [[Hf _] | [_ Ha]]; [simpl in Ea; congruence|].
    destruct Ha as (now & x & l & t & _ & Hx & Ehx & _ & _ & _ & _ & _ & _ & r1 & Hr1 & Hl & Hu).
    assert (x = r) as ->; [|by exists r1].
    destruct Hok as (_ & _ & _ & _ & _ & (_ & K & _) & _). apply (keyed_In _ _ _ _ K Hx Hr). congruence.
  - destruct (run_evolves o s Hok) as [_ (_ & _ & _ & Hc & _)].
    destruct (Hc r Hr) as (r1 & Hr1 & Hl). exists r1. repeat split; try apply Hl; [done|].
    destruct Hl as (_ & _ & _ & Hle & _). lia.
Qed.

Lemma admissions_counted ops s r :
  accounts_ok s -> In r (Acc.join_links s) ->
  exists r1, In r1 (Acc.join_links (run_all ops s)) /\ link_later r r1
    /\ JoinLinksModel.used_count r + admissions (JoinLinksModel.token_hash r) ops s
       <= JoinLinksModel.used_count r1.
Proof.
  revert s r. induction ops as [|o ops IH]; intros s r Hok Hr; simpl.
  - exists r. split; [done|]. split; [reflexivity|lia].
  - destruct (admission_counts o s r Hok Hr) as (r1 & Hr1 & Hl & Hu).
    destruct (run_evolves o s Hok) as [Hok1 _]. destruct (IH _ _ Hok1 Hr1) as (r2 & Hr2 & Hl2 & Hu2).
    exists r2. split; [done|]. split; [by etrans|].
    destruct Hl as (_ & Eh & _). rewrite Eh in Hu2. lia.
Qed.

(** along any operations a join link admits no more members than its limit
    leaves. *)
Theorem join_link_limit ops s r :
  accounts_ok s -> In r (Acc.join_links s) ->
  admissions (JoinLinksModel.token_hash r) ops s
  <= Z.max 0 (JoinLinksModel.max_uses r) - JoinLinksModel.used_count r.
Proof.
  intros Hok Hr. destruct (admissions_counted ops s r Hok Hr) as (r1 & Hr1 & (_ & _ & Em & _) & Hu).
  destruct (run_all_evolves ops s Hok) as [(_ & _ & _ & _ & _ & (_ & _ & Hb) & _) _].
  specialize (Hb r1 Hr1). rewrite Em in Hb. lia.
Qed.

(** ** Authentication *)

(** What a successful authentication was based on. *)
Lemma authenticate_spec d plaintext_token s s1 a :
  authenticate_tenant_token d plaintext_token s = (s1, Ok (Some a)) ->
  exists r, In r (Acc.tokens s) /\ live_token (hash_token plaintext_token) r = true
    /\ tenant_token_from_model r = Ok (AuthenticatedTenantToken.token a)
    /\ is_expired (now_utc d 0) (AuthenticatedTenantToken.token a) = Ok false
    /\ session_user_of s (AuthenticatedTenantToken.token a)
       = Ok (Some (AuthenticatedTenantToken.session_user a)).
Proof.
  unfold authenticate_tenant_token. destruct (select_one _ _) as [r|] eqn:E; [|done].
  apply select_one_Some in E as [Hr Hl]. intros E. exists r. split; [done|]. split; [done|].
  destruct (_ <-? _ ;; _)%rust as [[token [|]]|e] eqn:Et; [done| |done].
  apply rbind_Ok in Et as (t & Et & Ex). apply rbind_Ok in Ex as (x & Ex & [= -> ->]).
  unfold touch_token in E. rewrite (surjective_pairing (update_many _ _ _)) in E. cbn beta iota in E.
  destruct (_ =? 0); [done|]. injection E as <- E.
  apply rbind_Ok in E as (session & Es & E). destruct session as [u|]; [|done].
  injection E as <-. simpl. repeat split; try done.
Qed.

(** A user found in the tables, as [user_from_model] reads it. *)
Definition is_member s (tenant_id : TenantId) (user : User.t) : Prop :=
  exists u, In u (Acc.users s) /\ user_from_model u = Ok user /\ User.tenant_id user = tenant_id.

Lemma session_user_member s token user :
  session_user_of s token = Ok (Some (Some user)) ->
  is_member s (TenantToken.tenant_id token) user
  /\ TenantToken.created_by_user_id token = Some (User.id user).
Proof.
  unfold session_user_of. destruct (is_session token); [|done]. simpl.
  destruct (TenantToken.created_by_user_id token) as [uid|]; [|done]. intros E.
  apply rbind_Ok in E as (o & E & Eo). destruct o as [u|]; [|done]. injection Eo as ->.
  destruct (select_one _ _) as [r|] eqn:Er; [|done]. rewrite traverse_Some_Ok in E.
  apply select_one_Some in Er as [Hr Hp]. apply user_row_true in Hp as [Eid Et].
  pose proof E as Em. unfold user_from_model in E. apply rbind_Ok in E as (t & Ep & E).
  apply rbind_Ok in E as (role & _ & E). rewrite Et, TenantId_parse_to_string in Ep.
  injection Ep as <-. injection E as <-. simpl. split; [|congruence].
  exists r. split; [done|]. split; [done|]. done.
Qed.
End Safety.
