(* ===== verification/AuthorizationSafety.v ===== *)
(** * What an authorized request was entitled to

    The guards of [Authorization] over the accounts: whom they let through, and
    that a removed user's sessions are let through nowhere. *)

From S2P Require Import Prelude RustStr CoreTypes CoreRecords Json Store Tables Tx JobRows JobTables Accounts Onboarding Credentials Authorization AccountTables AccountSteps AccountSafety.

#[local] Open Scope Z_scope.

Section Guards.
Context `{Store} `{UuidText} `{AuditJson} `{Rfc3339} `{Sha256} `{ScopesJson} `{RedirectUrls}
  `{Base64} `{TimeRange}.
Implicit Types (s : Acc.t).

(** ** Principals *)

Lemma repo_Ok {A} (m : acct A) s s1 a : repo m s = (s1, Ok a) <-> m s = (s1, Ok a).
Proof. unfold repo. destruct (m s) as [s' [x|e]]; simpl; split; congruence. Qed.

(** The user an external account leads to. *)
Lemma external_user_member tenant_id provider subject s s1 user :
  authenticate_external_identity tenant_id provider subject s = (s1, Ok (Some user)) ->
  s1 = s /\ exists i, In i (Acc.identities s)
    /\ external_row (TenantId_to_string tenant_id) provider subject i = true
    /\ IdentitiesModel.user_id i = User.id user /\ is_member s tenant_id user.
Proof.
  unfold authenticate_external_identity. intros E. apply tread_Ok in E as [-> E]. split; [done|].
  destruct (select_one _ _) as [i|] eqn:Ei; [|done]. apply select_one_Some in Ei as [Hi Hx].
  destruct (select_one _ (Acc.users s)) as [u|] eqn:Eu; [|done]. rewrite traverse_Some_Ok in E.
  apply select_one_Some in Eu as [Hu Hp]. apply andb_true_iff in Hp as [Hid Ht].
  rewrite beq_true in Hid. rewrite beq_true in Ht.
  exists i. split; [done|]. split; [done|]. pose proof E as Em. unfold user_from_model in E.
  apply rbind_Ok in E as (t & Ep & E). apply rbind_Ok in E as (role & _ & E).
  unfold external_row in Hx. apply andb_true_iff in Hx as [Hx _].
  apply andb_true_iff in Hx as [Hx _]. rewrite beq_true in Hx.
  rewrite Ht, Hx, TenantId_parse_to_string in Ep. injection Ep as <-. injection E as <-. simpl.
  split; [congruence|]. by exists u.
Qed.

(** What stands behind an authenticated principal. *)
Definition backed (d : Draws) (state : AuthState) (plaintext_token : string) s
    (p : AuthenticatedPrincipal) : Prop :=
  match p with
  | NoAuthPrincipal _ => False
  | TokenPrincipal a =>
      exists s1, authenticate_tenant_token d plaintext_token s = (s1, Ok (Some a))
  | UserPrincipal user =>
      exists verify account i, external_auth state = Some verify
        /\ verify plaintext_token = Some account
        /\ In i (Acc.identities s)
        /\ external_row (TenantId_to_string (User.tenant_id user)) (provider account) (subject account) i = true
        /\ IdentitiesModel.user_id i = User.id user
        /\ is_member s (User.tenant_id user) user
  end.

Lemma authenticate_principal_Ok d state tenant_id token s s1 p :
  authenticate_principal d state tenant_id token s = (s1, Ok p) -> backed d state token s p.
Proof.
  unfold authenticate_principal. intros E. apply tbind_Ok in E as (s2 & o & Ea & E).
  rewrite repo_Ok in Ea. destruct o as [a|].
  { apply tret_Ok in E as [-> ->]. by exists s2. }
  destruct (external_auth state) as [verify|] eqn:Ev; [|done].
  apply tbind_Ok in E as (s3 & account & Ec & E). apply tlift_Ok in Ec as [-> Ec].
  apply ok_or_Ok in Ec. apply tbind_Ok in E as (s3 & o & Eu & E). rewrite repo_Ok in Eu.
  apply tbind_Ok in E as (s4 & user & Eo & E). apply tlift_Ok in Eo as [-> Eo].
  apply ok_or_Ok in Eo as ->. apply tret_Ok in E as [-> ->].
  assert (Acc.users s2 = Acc.users s /\ Acc.identities s2 = Acc.identities s) as [Hu Hi].
  { revert Ea. unfold authenticate_tenant_token. destruct (select_one _ _) as [r|]; [|by intros [= <-]].
    destruct (_ <-? _ ;; _)%rust as [[t [|]]|e]; [by intros [= <-]| |done].
    unfold touch_token. rewrite (surjective_pairing (update_many _ _ _)). cbn beta iota.
    by destruct (_ =? 0); intros [= <- _]. }
  apply external_user_member in Eu as (-> & i & Hin & Hx & Eid & u & Hm & Em & Et).
  exists verify, account, i. rewrite Et, <- Hi. repeat split; try done.
  exists u. by rewrite <- Hu.
Qed.

Lemma authorize_demand_Ok of_user of_token d state h tenant_id s s1 p :
  authorize_demand of_user of_token d state h tenant_id s = (s1, Ok p) ->
  demand of_user of_token p = true
  /\ (if no_auth_enabled state then p = NoAuthPrincipal tenant_id
      else principal_tenant_id p = tenant_id
           /\ exists token, h = TextHeader ("Bearer " ++ token) /\ backed d state token s p).
Proof.
  unfold authorize_demand. intros E. apply tbind_Ok in E as (s2 & p' & Ep & E).
  destruct (demand of_user of_token p') eqn:Ed; [|done]. apply tret_Ok in E as [-> ->].
  split; [done|]. unfold authorize_principal in Ep. destruct (no_auth_enabled state).
  { by apply tret_Ok in Ep as [_ ->]. }
  apply tbind_Ok in Ep as (s3 & token & Et & Ep). apply tlift_Ok in Et as [-> Et].
  apply tbind_Ok in Ep as (s4 & p2 & Ea & Ep).
  destruct (beq (principal_tenant_id p2) tenant_id) eqn:Eb; [|done]. cbn [negb] in Ep.
  apply tret_Ok in Ep as [-> ->]. rewrite beq_true in Eb. split; [done|].
  exists token. split; [|by apply authenticate_principal_Ok in Ea].
  destruct h as [| |text]; try done. cbn [bearer_token] in Et. rewrite ok_or_Ok in Et.
  f_equal. by rewrite strip_prefix_Some in Et.
Qed.

(** The role an entitled token stands for: that of the tenant itself, or that of
    the session's user as it is now. *)
Lemma entitled_session_role d plaintext_token s s1 a required_role :
  authenticate_tenant_token d plaintext_token s = (s1, Ok (Some a)) ->
  tenant_token_allows_role a required_role = true ->
  TenantTokenScope.All ∈ TenantToken.scopes (AuthenticatedTenantToken.token a)
  \/ exists user, AuthenticatedTenantToken.session_user a = Some user
       /\ is_member s (TenantToken.tenant_id (AuthenticatedTenantToken.token a)) user
       /\ UserRole.allows (User.role user) required_role = true.
Proof.
  intros E Ha. unfold tenant_token_allows_role in Ha. apply orb_true_iff in Ha as [Ha | Ha].
  - left. unfold TenantToken.has_scope in Ha. rewrite orb_true_iff, !bool_decide_eq_true in Ha. tauto.
  - right. apply andb_true_iff in Ha as [_ Ha]. unfold user_allows in Ha.
    rewrite is_some_and_true in Ha. destruct Ha as (user & Eu & Hr).
    exists user. split; [done|]. split; [|done].
    apply authenticate_spec in E as (r & _ & _ & _ & _ & Es). rewrite Eu in Es.
    by apply session_user_member in Es as [? _].
Qed.

(** What entitles a principal to a role in a tenant: being a current user of it
    with the role, or being a token of it that holds all scopes, stands for the
    session of such a user, or - for reading - has no scopes. *)
Definition granted s (tenant_id : TenantId) (required_role : UserRole.t)
    (p : AuthenticatedPrincipal) : Prop :=
  match p with
  | NoAuthPrincipal _ => False
  | UserPrincipal user =>
      is_member s tenant_id user /\ UserRole.allows (User.role user) required_role = true
  | TokenPrincipal a =>
      TenantToken.tenant_id (AuthenticatedTenantToken.token a) = tenant_id
      /\ (TenantTokenScope.All ∈ TenantToken.scopes (AuthenticatedTenantToken.token a)
          \/ (exists user, AuthenticatedTenantToken.session_user a = Some user
                /\ is_member s tenant_id user
                /\ UserRole.allows (User.role user) required_role = true)
          \/ (required_role = UserRole.Viewer
              /\ TenantToken.scopes (AuthenticatedTenantToken.token a) = []))
  end.

(** C21: a route that asks for a role lets a request through only when
    authentication is off, or when its bearer token authenticates a principal that
    is entitled to the role in that very tenant, by its tables as they are now. *)
Theorem authorized_request_entitled d state h tenant_id required_role s s1 p :
  authorize_tenant d state h tenant_id required_role s = (s1, Ok p) ->
  if no_auth_enabled state then p = NoAuthPrincipal tenant_id
  else exists token, h = TextHeader ("Bearer " ++ token) /\ backed d state token s p
                     /\ granted s tenant_id required_role p.
Proof.
  intros E. apply authorize_demand_Ok in E as [Hd E]. destruct (no_auth_enabled state); [done|].
  destruct E as (Et & token & Eh & Hb). exists token. split; [done|]. split; [done|].
  destruct p as [user|a|t]; simpl in Hd, Hb, Et |- *.
  - destruct Hb as (verify & account & i & _ & _ & _ & _ & _ & Hm). rewrite <- Et. done.
  - split; [done|]. destruct Hb as [s2 Ea]. apply orb_true_iff in Hd as [Hd | Hd].
    + destruct (entitled_session_role _ _ _ _ _ _ Ea Hd) as [? | (user & Hu)]; [by left|].
      right. left. exists user. by rewrite <- Et.
    + right. right. apply andb_true_iff in Hd as [Hr Hs]. unfold no_scopes in Hs.
      rewrite beq_true in Hr. by rewrite beq_true in Hs.
  - done.
Qed.

(** ** Removed users *)

(** The tokens of a removed user have no user any more, ever. *)
Lemma removed_user_tokens d tenant_id user_id actor s s1 user r ops :
  accounts_ok s -> remove_user_with_audit d tenant_id user_id actor s = (s1, Ok user) ->
  In r (Acc.tokens s) -> TokensModel.created_by_user_id r = Some user_id ->
  forall x, In x (Acc.tokens (run_all ops s1)) -> TokensModel.token_hash x = TokensModel.token_hash r ->
            TokensModel.created_by_user_id x = None.
Proof.
  intros Hok E Hr Ec x Hx Eh.
  pose proof (run_evolves (RemoveUser d tenant_id user_id actor) s Hok) as [Hok1 _].
  simpl in Hok1. rewrite E in Hok1. simpl in Hok1.
  unfold remove_user_with_audit in E. apply transaction_Ok, tbind_Ok in E as (s2 & u & E1 & E).
  apply select_user_Ok in E1 as (-> & u0 & Hu & _). cbn beta in E.
  apply tbind_Ok in E as (s3 & [] & Eg & E).
  apply tbind_Ok in E as (s4 & [] & Ed & E). apply tbind_Ok in E as (s5 & [] & Ee & E).
  apply tret_Ok in E as [-> _]. apply insert_account_event_Ok in Ee as ->.
  assert (s3 = s) as ->.
  { destruct (beq _ _); [by apply other_admin_remains in Eg as [-> _]|by apply tret_Ok in Eg as [-> _]]. }
  injection Ed as <-.
  assert (exists r1, In r1 (Acc.tokens (delete_users (user_row tenant_id user_id) s))
            /\ TokensModel.token_hash r1 = TokensModel.token_hash r
            /\ TokensModel.created_by_user_id r1 = None) as (r1 & Hr1 & Eh1 & Ec1).
  { unfold delete_users. simpl. eexists. split; [by apply in_map, Hr|]. split; [done|]. simpl.
    rewrite Ec. simpl. apply select_one_Some in Hu as [Hin Hp].
    assert (existsb (fun r0 => user_row tenant_id user_id r0 && beq (UsersModel.id r0) user_id)
              (Acc.users s) = true) as ->; [|done].
    apply existsb_exists. exists u0. split; [done|]. rewrite Hp. simpl.
    apply user_row_true in Hp as [-> _]. apply beq_refl. }
  destruct (token_after ops _ r1 Hok1 Hr1) as (r' & Hr' & Hl & Hu').
  rewrite (Hu' x Hx) by congruence.
  destruct Hl as (_ & _ & _ & _ & _ & [E | E] & _); congruence.
Qed.

(** A token whose rows have no user authenticates without the session of one. *)
Lemma userless_session d plaintext_token s s1 a :
  (forall x, In x (Acc.tokens s) -> TokensModel.token_hash x = hash_token plaintext_token ->
             TokensModel.created_by_user_id x = None) ->
  authenticate_tenant_token d plaintext_token s = (s1, Ok (Some a)) ->
  AuthenticatedTenantToken.session_user a = None.
Proof.
  intros Hn Ea. apply authenticate_spec in Ea as (x & Hx & Hl & Em & _ & Es).
  unfold live_token in Hl. apply andb_true_iff in Hl as [Hl _]. rewrite beq_true in Hl.
  specialize (Hn x Hx Hl).
  destruct (AuthenticatedTenantToken.session_user a) as [u|]; [|done].
  apply session_user_member in Es as [_ Es]. unfold tenant_token_from_model in Em.
  apply rbind_Ok in Em as (v & _ & Em). apply rbind_Ok in Em as (sc & _ & Em).
  apply rbind_Ok in Em as (t & _ & Em). injection Em as Em. rewrite <- Em in Es. simpl in Es. congruence.
Qed.

(** Without a session a token only has the roles that all scopes stand for. *)
Lemma userless_role a required_role :
  AuthenticatedTenantToken.session_user a = None -> tenant_token_allows_role a required_role = true ->
  TenantTokenScope.All ∈ TenantToken.scopes (AuthenticatedTenantToken.token a).
Proof.
  intros Hs Ha. unfold tenant_token_allows_role, user_allows in Ha. rewrite Hs, andb_false_r, orb_false_r in Ha.
  unfold TenantToken.has_scope in Ha. rewrite orb_true_iff, !bool_decide_eq_true in Ha. tauto.
Qed.

(** What lets a token through a guard on a demand. *)
Lemma demand_token of_user of_token d state plaintext_token tenant_id s s1 a :
  no_auth_enabled state = false ->
  authorize_demand of_user of_token d state (TextHeader ("Bearer " ++ plaintext_token)) tenant_id s
  = (s1, Ok (TokenPrincipal a)) ->
  of_token a = true /\ exists s2, authenticate_tenant_token d plaintext_token s = (s2, Ok (Some a)).
Proof.
  intros Hna Ea. apply authorize_demand_Ok in Ea as [Hd Ea]. rewrite Hna in Ea.
  destruct Ea as (_ & token & Et & Ha). split; [done|].
  assert (token = plaintext_token) as -> by (by injection Et). done.
Qed.

(** C22: once a user is removed, the sessions it opened are let through nowhere, and of its
    other tokens each guard lets through only what holds the scopes it asks for, whatever
    operations follow: the guards of the plugin's routes refuse every token of the user; the
    role guards let through a token that holds all the tenant's scopes - and
    [authorize_tenant], for reading, one without any scope; the guard of agent
    registrations one with that scope or all; and the guards that ask for a user none. *)
Theorem removed_user_locked_out d tenant_id user_id actor s s1 user r ops plaintext_token
    d' state tenant_id' required_role :
  accounts_ok s -> remove_user_with_audit d tenant_id user_id actor s = (s1, Ok user) ->
  In r (Acc.tokens s) -> TokensModel.created_by_user_id r = Some user_id ->
  hash_token plaintext_token = TokensModel.token_hash r ->
  no_auth_enabled state = false ->
  let s2 := run_all ops s1 in
  let h := TextHeader ("Bearer " ++ plaintext_token) in
  let all a := TenantTokenScope.All ∈ TenantToken.scopes (AuthenticatedTenantToken.token a) in
  (forall s3 a, authorize_plugin_studio d' state h s2 <> (s3, Ok a)
                /\ authorize_plugin_studio_user d' state h s2 <> (s3, Ok a)
                /\ authorize_plugin_studio_for_tenant d' state h tenant_id' s2 <> (s3, Ok a))
  /\ forall s3 a,
       (authorize_principal_for_role d' state h tenant_id' required_role s2 = (s3, Ok (TokenPrincipal a)) ->
        all a)
       /\ (authorize_tenant d' state h tenant_id' required_role s2 = (s3, Ok (TokenPrincipal a)) ->
           all a \/ required_role = UserRole.Viewer
                     /\ TenantToken.scopes (AuthenticatedTenantToken.token a) = [])
       /\ (authorize_agent_registration d' state h tenant_id' s2 = (s3, Ok (TokenPrincipal a)) ->
           all a \/ TenantTokenScope.AgentRegister ∈ TenantToken.scopes (AuthenticatedTenantToken.token a))
       /\ authorize_tenant_admin_user_or_no_auth d' state h tenant_id' s2 <> (s3, Ok (TokenPrincipal a))
       /\ authorize_user_login_ticket_creation d' state h tenant_id' required_role s2
          <> (s3, Ok (TokenPrincipal a)).
Proof.
  intros Hok E Hr Ec Eh Hna s2 h all.
  assert (forall s3 a, authenticate_tenant_token d' plaintext_token s2 = (s3, Ok (Some a)) ->
                       AuthenticatedTenantToken.session_user a = None) as Hs.
  { intros s3 a. apply userless_session. intros x Hx Ex.
    apply (removed_user_tokens _ _ _ _ _ _ _ _ ops Hok E Hr Ec x Hx). congruence. }
  split.
  - assert (forall s3 a, authorize_plugin_studio d' state h s2 <> (s3, Ok a)) as Hp.
    { intros s3 a Ea. unfold authorize_plugin_studio in Ea. rewrite Hna in Ea.
      apply tbind_Ok in Ea as (s4 & token & Et & Ea). apply tlift_Ok in Et as [-> Et].
      unfold h, bearer_token in Et. rewrite (proj2 (strip_prefix_Some _ _ plaintext_token)) in Et by done.
      injection Et as <-.
      apply tbind_Ok in Ea as (s4 & o & Eo & Ea). rewrite repo_Ok in Eo.
      apply tbind_Ok in Ea as (s5 & a' & Ea' & Ea). apply tlift_Ok in Ea' as [-> Ea'].
      apply ok_or_Ok in Ea' as ->. rewrite (Hs _ _ Eo) in Ea. simpl in Ea. by rewrite orb_true_r in Ea. }
    intros s3 a. split_and!; [apply Hp| |]; intros Ea;
      [unfold authorize_plugin_studio_user in Ea|unfold authorize_plugin_studio_for_tenant in Ea];
      apply tbind_Ok in Ea as (s4 & a' & Ea' & _); by apply Hp in Ea'.
  - intros s3 a. split_and!; intros (Hd & s4 & Ea)%demand_token; try done; apply Hs in Ea.
    + by apply (userless_role a required_role).
    + apply orb_true_iff in Hd as [Hd|Hd]; [left; by apply (userless_role a required_role)|right].
      unfold no_scopes in Hd. apply andb_true_iff in Hd as [Hv Hn]. rewrite beq_true in Hv. by rewrite beq_true in Hn.
    + unfold TenantToken.has_scope in Hd. rewrite orb_true_iff, !bool_decide_eq_true in Hd. tauto.
Qed.
End Guards.
