(* ===== verification/AccountSamples.v ===== *)
(** * Concrete accounts

    A small tenant - an administrator, a second member admitted through a join
    link, plugin tokens and tickets - on which the theorems about accounts are
    applied. *)

From S2P Require Import Prelude RustStr CoreTypes CoreRecords Json Store Tables Tx JobRows JobTables Accounts Onboarding Credentials Authorization AccountTables AccountSteps AccountSafety AuthorizationSafety.

#[local] Open Scope Z_scope.

(** ** The interfaces *)

Definition same_bytes : Sha256 := {| sha256 := fun s => s |}.
Definition plain_base64 : Base64 := {| url_safe_no_pad := fun s => s |}.
Definition all_times : TimeRange := {| in_range := fun _ => true |}.
Definition plain_audit : AuditJson := {| audit_to_string := fun _ => "{}"%string |}.

(** Local redirects only. *)
Definition local_urls : RedirectUrls := {|
  uri_parse := fun s =>
    if starts_with "http://127.0.0.1:8080/"%string s
    then Some (Uri.mk (Some "http"%string)
                 (Some (Authority.mk "127.0.0.1:8080" "127.0.0.1" (Some 8080))) s)
    else None;
  mobile_url_parse := fun _ => None |}.

(** A list of texts, every character marked and every text ended. *)
Fixpoint list_item (s rest : string) : string :=
  match s with
  | EmptyString => String "." rest
  | String c s => String "x" (String c (list_item s rest))
  end.

Fixpoint list_print (l : list string) : string :=
  match l with [] => EmptyString | s :: l => list_item s (list_print l) end.

Fixpoint list_parse (s : string) : option (list string) :=
  match s with
  | EmptyString => Some []
  | String m r =>
      if Ascii.eqb m "." then option_map (cons EmptyString) (list_parse r)
      else match r with
           | String c r =>
               match list_parse r with
               | Some (s :: l) => Some (String c s :: l)
               | _ => None
               end
           | EmptyString => None
           end
  end.

Lemma list_parse_item s rest : list_parse (list_item s rest) = option_map (cons s) (list_parse rest).
Proof. induction s as [|c s IH]; simpl; [done|]. rewrite IH. by destruct (list_parse rest). Qed.

Definition marked_list : ScopesJson.
Proof.
  refine {| scopes_print := list_print; scopes_parse := list_parse |}.
  intros l. induction l as [|s l IH]; simpl; [done|]. by rewrite list_parse_item, IH.
Defined.

#[local] Existing Instances list_store binary_uuid binary_clock same_bytes plain_base64 all_times
  plain_audit local_urls marked_list.

(** ** A tenant *)

Definition sample_tenant : TenantId := mkTenantId 5.
Definition sample_profile (name : string) : ExternalIdentityProfile.t :=
  ExternalIdentityProfile.mk "oidc" name (name ++ "@farm") name.

(** The draws of an operation: identifiers under a prefix of its own. *)
Definition draws (p : string) : Draws :=
  mkDraws (fun k => (p ++ String (Ascii.ascii_of_nat (48 + k)) EmptyString)%string) (fun _ => sample_tenant)
    (fun _ => "2026-01-01T00:00:00Z"%string) (fun k => 1000 + Z.of_nat k).

Definition actor : AuditActor.t := AuditActor.user "a0".

Definition found : list account_op := [SelfCreate (draws "a") "farm" "Farm" (sample_profile "ann")].

Definition link_secret : string := "pandar_joinl0_l1".
Definition with_link : list account_op :=
  found ++ [CreateJoinLink (draws "l") sample_tenant UserRole.Operator None 3 1 actor].
Definition join : account_op := AcceptJoinLink (draws "b") link_secret (sample_profile "bob").

Definition ticket_secret : string := "pandar_plugin_ticket_t0_t1".
Definition with_ticket : list account_op :=
  with_link ++ [join; CreatePluginTicket (draws "t") sample_tenant (Some "b0"%string)
                        "http://127.0.0.1:8080/cb" (bits_text (N.succ_pos 5000)) actor].
Definition exchange : account_op := ExchangeTicket (draws "x") ticket_secret LoginTicketKind.Plugin None.
Definition token_secret : string := "pandar_plugin_x0_x1".
Definition with_token : list account_op := with_ticket ++ [exchange].

Definition after (ops : list account_op) : Acc.t := run_all ops no_accounts.

Lemma after_ok ops : accounts_ok (after ops).
Proof. apply run_all_evolves, no_accounts_ok. Qed.

(** The row at the head of a table of a sample. *)
Definition head_row {R} (l : list R) : option R := match l with r :: _ => Some r | [] => None end.

Lemma head_row_In {R} (l : list R) r : head_row l = Some r -> In r l.
Proof. destruct l; [done|]. intros [= ->]. by left. Qed.

(** Replaces a table of a sample by its rows. *)
Ltac rows t :=
  let v := eval vm_compute in t in
  let E := fresh in assert (t = v) as E by (vm_compute; reflexivity); rewrite E; clear E.

(** ** Administrators *)

Lemma last_admin_remains_witness :
  has_admin (Acc.users (run_all [RemoveUser (draws "r") sample_tenant "a0" actor; join]
                          (after with_link))) "01".
Proof.
  apply last_admin_remains; [apply after_ok|].
  rows (Acc.users (after with_link)). eexists. split; [by left|done].
Defined.

Lemma last_admin_refused_witness :
  snd (remove_user_with_audit (draws "r") sample_tenant "a0" actor (after with_ticket))
  = Err LastTenantAdmin.
Proof.
  assert (exists u, In u (Acc.users (after with_ticket)) /\ UsersModel.id u = "a0"%string
            /\ tenant_admin_row sample_tenant u = true
            /\ forall u', In u' (Acc.users (after with_ticket)) ->
                          tenant_admin_row sample_tenant u' = true -> u' = u)
    as (u & Hu & Eid & Ha & Hone).
  { rows (Acc.users (after with_ticket)). eexists. split; [right; by left|]. repeat split.
    intros u' [<- | [<- | []]]; [by vm_compute|done]. }
  assert (UserRole.Viewer <> UserRole.TenantAdmin) as Hr by discriminate.
  destruct (last_admin_refused (draws "r") sample_tenant UserRole.Viewer actor _ u
              (after_ok with_ticket) Hu Ha Hone Hr) as [E _].
  rewrite Eid in E. rewrite E. reflexivity.
Defined.

(** ** Tokens and tickets *)

Lemma revoked_token_stays_dead_witness :
  snd (authenticate_tenant_token (draws "y") token_secret
         (run_all [exchange; join]
            (fst (revoke_tenant_token_with_audit (draws "r") sample_tenant "x2" actor (after with_token)))))
  = Ok None.
Proof.
  destruct (revoke_tenant_token_with_audit (draws "r") sample_tenant "x2" actor (after with_token))
    as [s1 res] eqn:E.
  assert (exists token, res = Ok token) as [token ->].
  { change res with (snd (s1, res)). rewrite <- E. vm_compute. eexists. try split; reflexivity. }
  destruct (head_row (Acc.tokens (after with_token))) as [r|] eqn:Er; [|vm_compute in Er; discriminate].
  assert (TokensModel.id r = "x2"%string /\ hash_token token_secret = TokensModel.token_hash r) as [Eid Eh].
  { vm_compute in Er. injection Er as <-. vm_compute. repeat split. }
  apply head_row_In in Er. cbn [fst].
  rewrite (revoked_token_stays_dead (draws "r") sample_tenant "x2" actor _ s1 token r
             [exchange; join] (draws "y") token_secret (after_ok _) E Er Eid Eh).
  reflexivity.
Defined.

Lemma login_ticket_single_use_witness :
  snd (exchange_login_ticket (draws "y") ticket_secret LoginTicketKind.Plugin None
         (run_all [join] (fst (exchange_login_ticket (draws "x") ticket_secret LoginTicketKind.Plugin None
                                 (after with_ticket)))))
  = Ok None.
Proof.
  destruct (exchange_login_ticket (draws "x") ticket_secret LoginTicketKind.Plugin None
              (after with_ticket)) as [s1 res] eqn:E.
  assert (exists x, res = Ok (Some x)) as [x ->].
  { change res with (snd (s1, res)). rewrite <- E. vm_compute. eexists. try split; reflexivity. }
  pose proof (login_ticket_single_use _ _ _ _ _ _ _ [join] (draws "y") LoginTicketKind.Plugin None
                (after_ok _) E) as [_ E'].
  cbn [fst]. rewrite E'. reflexivity.
Defined.

Definition with_event_ticket : list account_op :=
  with_link ++ [IssueEventTicket (draws "e") sample_tenant "secret-hash"].

Lemma event_ticket_single_use_witness :
  forall row, snd (consume_event_ticket (draws "y") sample_tenant "secret-hash"
                     (fst (consume_event_ticket (draws "c") sample_tenant "secret-hash"
                             (after with_event_ticket)))) <> Ok (Consumed row).
Proof.
  destruct (consume_event_ticket (draws "c") sample_tenant "secret-hash" (after with_event_ticket))
    as [s1 res] eqn:E.
  assert (exists row, res = Ok (Consumed row)) as [row ->].
  { change res with (snd (s1, res)). rewrite <- E. vm_compute. eexists. try split; reflexivity. }
  apply (event_ticket_single_use _ _ _ _ _ row [] (draws "y") sample_tenant (after_ok _) E).
Defined.

(** ** Join links *)

Lemma join_link_admission_witness :
  exists s1 a, accept_join_link (draws "b") link_secret (sample_profile "bob") (after with_link) = (s1, Ok a)
    /\ AcceptedJoinLink.created a = true
    /\ admitted (draws "b") link_secret (sample_profile "bob") (after with_link) s1 a.
Proof.
  destruct (accept_join_link (draws "b") link_secret (sample_profile "bob") (after with_link))
    as [s1 res] eqn:E.
  assert (exists a, res = Ok a /\ AcceptedJoinLink.created a = true) as (a & -> & Ha).
  { change res with (snd (s1, res)). rewrite <- E. vm_compute. eexists. try split; reflexivity. }
  exists s1, a. split; [reflexivity|].
  destruct (join_link_admission _ _ _ _ _ _ (after_ok _) E) as [[Hf _] | Hc]; [rewrite Ha in Hf; discriminate|exact Hc].
Defined.

Lemma join_link_limit_witness :
  admissions (hash_token link_secret)
    [join; AcceptJoinLink (draws "c") link_secret (sample_profile "cid")] (after with_link) <= 1.
Proof.
  destruct (head_row (Acc.join_links (after with_link))) as [r|] eqn:Er; [|vm_compute in Er; discriminate].
  assert (JoinLinksModel.token_hash r = hash_token link_secret /\ JoinLinksModel.max_uses r = 1
          /\ JoinLinksModel.used_count r = 0) as (Eh & Em & Eu).
  { vm_compute in Er. injection Er as <-. vm_compute. repeat split. }
  apply head_row_In in Er.
  pose proof (join_link_limit [join; AcceptJoinLink (draws "c") link_secret (sample_profile "cid")]
                _ r (after_ok _) Er) as Hl.
  rewrite Eh, Em, Eu in Hl. exact Hl.
Defined.

(** ** Authorization *)

Definition locked : AuthState := mkAuthState false None.
Definition bearer (token : string) : header := TextHeader ("Bearer " ++ token).

Definition with_api_token : list account_op :=
  found ++ [CreateToken (draws "k") sample_tenant "ci" [TenantTokenScope.All] None actor].

Lemma authorized_request_entitled_witness :
  exists s1 p, authorize_tenant (draws "y") locked (bearer "pandar_tenant_k0_k1") sample_tenant
                 UserRole.Operator (after with_api_token) = (s1, Ok p)
    /\ granted (after with_api_token) sample_tenant UserRole.Operator p.
Proof.
  destruct (authorize_tenant (draws "y") locked (bearer "pandar_tenant_k0_k1") sample_tenant
              UserRole.Operator (after with_api_token)) as [s1 res] eqn:E.
  assert (exists p, res = Ok p) as [p ->].
  { change res with (snd (s1, res)). rewrite <- E. vm_compute. eexists. try split; reflexivity. }
  exists s1, p. split; [reflexivity|].
  destruct (authorized_request_entitled _ _ _ _ _ _ _ _ E) as (token & _ & _ & Hg). exact Hg.
Defined.

Lemma removed_user_locked_out_witness :
  is_ok (snd (authorize_plugin_studio (draws "y") locked (bearer token_secret)
    (run_all [join] (fst (remove_user_with_audit (draws "r") sample_tenant "b0" actor
                            (after with_token))))))
  = false.
Proof.
  destruct (remove_user_with_audit (draws "r") sample_tenant "b0" actor (after with_token))
    as [s1 res] eqn:E.
  assert (exists user, res = Ok user) as [user ->].
  { change res with (snd (s1, res)). rewrite <- E. vm_compute. eexists. try split; reflexivity. }
  destruct (head_row (Acc.tokens (after with_token))) as [r|] eqn:Er; [|vm_compute in Er; discriminate].
  assert (TokensModel.created_by_user_id r = Some "b0"%string
          /\ hash_token token_secret = TokensModel.token_hash r) as [Ec Eh].
  { vm_compute in Er. injection Er as <-. vm_compute. repeat split. }
  apply head_row_In in Er. cbn [fst].
  destruct (removed_user_locked_out (draws "r") sample_tenant "b0" actor _ s1 user r [join] token_secret
              (draws "y") locked sample_tenant UserRole.Viewer (after_ok _) E Er Ec Eh eq_refl) as [Hno _].
  destruct (authorize_plugin_studio (draws "y") locked (bearer token_secret) (run_all [join] s1))
    as [s3 [a|e]] eqn:Ea; [|reflexivity].
  destruct (proj1 (Hno s3 a) Ea).
Defined.
