(* ===== verification/PresetSafety.v ===== *)
(** * What the Hub promises about personal presets

    The keys, references and clocks of the preset tables ([presets_ok]) hold along
    any operations on presets and accounts; every change is newer than anything its
    owner had; nobody sees or touches another owner's presets. *)

From S2P Require Import Prelude RustStr CoreTypes CoreRecords Json Store Tables Tx JobRows JobTables Accounts Onboarding Credentials Authorization Presets AccountTables AccountSteps AccountSamples.

#[local] Open Scope Z_scope.
#[local] Arguments String.append : simpl nomatch.

(** ** Validation *)

Definition total_bytes (bytes : Z) (l : list (string * string)) : Z :=
  foldr (fun kv total => len kv.1 + len kv.2 + total) bytes l.

Lemma total_bytes_add l b x : total_bytes (b + x) l = total_bytes b l + x.
Proof. unfold total_bytes. induction l as [|[k v] l IH]; simpl; [lia|]. rewrite IH. lia. Qed.

Lemma total_bytes_ge l b : b <= total_bytes b l.
Proof. unfold total_bytes, len. induction l as [|[k v] l IH]; simpl; lia. Qed.

Lemma validate_entries_Ok l bytes :
  0 <= bytes ->
  validate_entries l bytes = Ok tt <->
  Forall (fun kv => valid_entry kv.1 kv.2 = true) l /\ total_bytes bytes l <= MAX_MAP_BYTES.
Proof.
  revert bytes. induction l as [|[k v] l IH]; intros bytes Hb; cbn [validate_entries fst snd].
  - cbn [total_bytes foldr]. destruct (Z.ltb_spec MAX_MAP_BYTES bytes); split.
    + done.
    + intros [_ ?]. lia.
    + intros _. by split; [constructor|].
    + done.
  - rewrite Forall_cons. cbn [fst snd]. destruct (valid_entry k v); [|split; [done|by intros [[? _] _]]].
    assert (0 <= len k /\ 0 <= len v) as [Hk Hv] by (unfold len; lia).
    assert (saturating_add (saturating_add bytes (len k)) (len v)
            = Z.min u64_max (bytes + (len k + len v))) as -> by (unfold saturating_add; lia).
    rewrite IH by (unfold u64_max; lia).
    assert (MAX_MAP_BYTES < u64_max) as Hm by reflexivity.
    change (total_bytes bytes ((k, v) :: l)) with (len k + len v + total_bytes bytes l).
    rewrite (Z.add_comm _ (total_bytes bytes l)), <- total_bytes_add.
    destruct (Z.min_spec u64_max (bytes + (len k + len v))) as [[Hlt ->] | [_ ->]]; [|tauto].
    pose proof (total_bytes_ge l u64_max). pose proof (total_bytes_ge l (bytes + (len k + len v))).
    split; intros [_ ?]; lia.
Qed.

(** The validation reads the options in any order with the same outcome. *)
Lemma validate_entries_perm l l' bytes :
  0 <= bytes -> l ≡ₚ l' ->
  validate_entries l bytes = Ok tt <-> validate_entries l' bytes = Ok tt.
Proof.
  intros Hb Hp. rewrite !validate_entries_Ok by done.
  assert (total_bytes bytes l = total_bytes bytes l') as ->.
  { unfold total_bytes. clear Hb. induction Hp; simpl; lia. }
  by rewrite Hp.
Qed.

(** [split] inverts joining with the separator. *)
Lemma split_join sep s : String.concat (String sep EmptyString) (split sep s) = s.
Proof.
  unfold split. induction s as [|c s IH]; [done|]. cbn [split_head].
  destruct (split_head sep s) as [part parts]. destruct (Ascii.eqb_spec c sep) as [-> | Hne].
  - change (String sep (String.concat (String sep EmptyString) (part :: parts)) = String sep s). by rewrite IH.
  - rewrite <- IH. by destruct parts.
Qed.

Lemma split_head_free sep part s :
  str_forall (fun c => negb (Ascii.eqb c sep)) part = true ->
  split_head sep (part ++ s) = let '(p, ps) := split_head sep s in ((part ++ p)%string, ps).
Proof.
  induction part as [|c part IH]; [intros _; cbn [String.append]; by destruct (split_head sep s)|].
  cbn [str_forall String.append split_head]. rewrite andb_true_iff. intros [Hc Hp]. rewrite IH by done.
  destruct (split_head sep s). apply negb_true_iff in Hc. by rewrite Hc.
Qed.

Lemma join_split sep part parts :
  Forall (fun p => str_forall (fun c => negb (Ascii.eqb c sep)) p = true) (part :: parts) ->
  split sep (String.concat (String sep EmptyString) (part :: parts)) = part :: parts.
Proof.
  unfold split. revert part. induction parts as [|q parts IH]; intros part; rewrite Forall_cons; intros [Hp Hps].
  - cbn [String.concat]. rewrite <- (append_nil_r part) at 1.
    rewrite split_head_free by done. cbn [split_head]. by rewrite append_nil_r.
  - change (String.concat (String sep EmptyString) (part :: q :: parts))
      with (part ++ String sep (String.concat (String sep EmptyString) (q :: parts)))%string.
    rewrite split_head_free by done. cbn [split_head]. specialize (IH q Hps).
    destruct (split_head sep _) as [p ps]. rewrite Ascii.eqb_refl.
    by rewrite append_nil_r, IH.
Qed.

(** A version: at least three numbers between dots. *)
Definition is_version (version : string) : Prop :=
  exists parts, (3 <= length parts)%nat /\ Forall (fun part => digits part = true) parts
                /\ version = String.concat "." parts.

Lemma digits_no_dot part : digits part = true -> str_forall (fun c => negb (Ascii.eqb c ".")) part = true.
Proof.
  unfold digits. rewrite andb_true_iff. intros [_ Hd]. induction part as [|c part IH]; [done|].
  cbn [str_forall] in *. apply andb_true_iff in Hd as [Hc Hd]. rewrite IH by done.
  rewrite andb_true_r. apply negb_true_iff, Ascii.eqb_neq. by intros ->.
Qed.

Lemma valid_version_iff version : valid_version version = true <-> is_version version.
Proof.
  unfold valid_version, is_version. rewrite andb_true_iff, Nat.leb_le, forallb_forall. split.
  - intros [Hd Hl]. exists (split "." version). split; [done|]. split; [|by rewrite split_join].
    apply List.Forall_forall. done.
  - intros (parts & Hl & Hd & ->). destruct parts as [|part parts]; [simpl in Hl; lia|].
    rewrite join_split by (eapply Forall_impl; [done|]; apply digits_no_dot).
    split; [|done]. by apply List.Forall_forall.
Qed.

(** What a preset may look like. *)
Definition acceptable (input : Cpp.t) : Prop :=
  blank (Cpp.name input) = false /\ len (Cpp.name input) <= 255 /\ has_nul (Cpp.name input) = false
  /\ is_version (Cpp.version input)
  /\ (is_Some (Cpp.filament_id input) -> Cpp.preset_type input = PersonalPresetType.Filament)
  /\ (forall key value, Cpp.options input !! key = Some value ->
        key <> EmptyString /\ len key <= 256 /\ has_nul key = false /\ len value <= 65536)
  /\ total_bytes (envelope_bytes input) (map_to_list (Cpp.options input)) <= 358400.

Lemma valid_entry_true key value :
  valid_entry key value = true
  <-> key <> EmptyString /\ len key <= 256 /\ has_nul key = false /\ len value <= 65536.
Proof.
  unfold valid_entry, MAX_KEY_BYTES, MAX_VALUE_BYTES. rewrite negb_true_iff, !orb_false_iff, beq_false, !Z.ltb_ge.
  change (64 * 1024) with 65536. tauto.
Qed.

(** The fields before the options of a valid preset. *)
Lemma head_checks input :
  validate input = Ok tt <->
  (blank (Cpp.name input) = false /\ len (Cpp.name input) <= 255 /\ has_nul (Cpp.name input) = false)
  /\ is_version (Cpp.version input)
  /\ (is_Some (Cpp.filament_id input) -> Cpp.preset_type input = PersonalPresetType.Filament)
  /\ validate_map (Cpp.options input) (envelope_bytes input) = Ok tt.
Proof.
  unfold validate, MAX_NAME_BYTES.
  destruct (blank _ || _ || _) eqn:En.
  { split; [done|]. intros ((E1 & E2 & E3) & _). apply Z.ltb_ge in E2. by rewrite E1, E2, E3 in En. }
  rewrite !orb_false_iff, Z.ltb_ge in En.
  assert (is_version (Cpp.version input) -> beq (Cpp.version input) EmptyString = false) as Hne.
  { intros Hv. apply beq_false. intros E. rewrite E in Hv. apply valid_version_iff in Hv. by vm_compute in Hv. }
  destruct (beq (Cpp.version input) _ || _) eqn:Ev.
  { split; [done|]. intros (_ & Hv & _). rewrite (Hne Hv) in Ev. apply valid_version_iff in Hv. by rewrite Hv in Ev. }
  apply orb_false_iff in Ev as [_ Ev]. rewrite negb_false_iff, valid_version_iff in Ev.
  destruct (negb _ && _) eqn:Ef.
  { split; [done|]. intros (_ & _ & Hf & _). rewrite andb_true_iff, negb_true_iff, beq_false, is_some_true in Ef.
    destruct Ef as [Hn Hs]. by destruct (Hn (Hf Hs)). }
  assert (is_Some (Cpp.filament_id input) -> Cpp.preset_type input = PersonalPresetType.Filament) as Hf.
  { intros [f Ef']. rewrite Ef' in Ef. simpl in Ef. by rewrite andb_true_r, negb_false_iff, beq_true in Ef. }
  tauto.
Qed.

(** A preset is accepted exactly when its name is nonblank and short, its
    version is three or more numbers, only a filament has a filament id, its
    options keep their limits and all its texts fit in 350 KiB. *)
Theorem preset_accepted_iff input : validate input = Ok tt <-> acceptable input.
Proof.
  rewrite head_checks. unfold acceptable, validate_map.
  assert (0 <= envelope_bytes input) as Hb.
  { unfold envelope_bytes, len. cbn [foldr fst snd]. lia. }
  rewrite validate_entries_Ok by done. change MAX_MAP_BYTES with 358400.
  assert (Forall (fun kv => valid_entry kv.1 kv.2 = true) (map_to_list (Cpp.options input))
    <-> forall key value, Cpp.options input !! key = Some value ->
        key <> EmptyString /\ len key <= 256 /\ has_nul key = false /\ len value <= 65536) as ->.
  { rewrite Forall_forall. split.
    - intros Hall key value E. apply valid_entry_true. apply (Hall (key, value)).
      by apply elem_of_map_to_list.
    - intros Hall [key value] E. apply elem_of_map_to_list in E. apply valid_entry_true. by apply Hall. }
  tauto.
Qed.

(** ** The tables *)

(** The keys of the rows: the owner, the name within it and the time within it. *)
Definition pkey (r : PresetsModel.t) : string * string :=
  (PresetsModel.tenant_id r, PresetsModel.owner_user_id r).
Definition nkey (r : PresetsModel.t) := (pkey r, PresetsModel.name r).
Definition tkey (r : PresetsModel.t) := (pkey r, PresetsModel.updated_time r).
Definition ckey (c : ClocksModel.t) : string * string :=
  (ClocksModel.tenant_id c, ClocksModel.owner_user_id c).

Definition owned_by (k : string * string) (r : PresetsModel.t) : bool := beq (pkey r) k.
Definition holdings (k : string * string) (presets : list PresetsModel.t) : Z :=
  Z.of_nat (length (List.filter (owned_by k) presets)).

Section Tables.
Context `{Store} `{UuidText} `{AuditJson} `{PresetOptionsJson}.

Definition readable (r : PresetsModel.t) : Prop := exists p, preset_from_model r = Ok p.

Record tables_ok (users : list UsersModel.t) (presets : list PresetsModel.t)
    (clocks : list ClocksModel.t) : Prop := {
  ok_ids : keyed PresetsModel.id presets;
  ok_names : keyed nkey presets;
  ok_times : keyed tkey presets;
  ok_clocks : keyed ckey clocks;
  ok_owners : forall r, In r presets -> user_in users (fst (pkey r)) (snd (pkey r));
  ok_clock_owners : forall c, In c clocks -> user_in users (fst (ckey c)) (snd (ckey c));
  ok_clocked : forall r, In r presets -> exists c, In c clocks /\ ckey c = pkey r
                 /\ PresetsModel.updated_time r <= ClocksModel.last_updated_time c;
  ok_limit : forall k, holdings k presets <= OWNER_PRESET_LIMIT;
  ok_readable : forall r, In r presets -> readable r }.

(** The accounts and the presets are consistent. *)
Definition presets_ok (s : Pdb.t) : Prop :=
  accounts_ok (Pdb.accounts s)
  /\ tables_ok (Acc.users (Pdb.accounts s)) (Pdb.presets s) (Pdb.clocks s).

(** The clock of [k] moved to [next]; the others stand still. *)
Record advanced (k : string * string) (next : Z) (clocks clocks' : list ClocksModel.t) : Prop := {
  adv_keyed : keyed ckey clocks -> keyed ckey clocks';
  adv_kept : forall c, In c clocks -> exists c', In c' clocks' /\ ckey c' = ckey c
     /\ ClocksModel.last_updated_time c <= ClocksModel.last_updated_time c'
     /\ (ckey c = k -> ClocksModel.last_updated_time c < next);
  adv_new : exists c', In c' clocks' /\ ckey c' = k /\ ClocksModel.last_updated_time c' = next;
  adv_only : forall c', In c' clocks' -> ckey c' = k \/ In c' clocks }.

Lemma tables_ok_perm users presets presets' clocks :
  presets ≡ₚ presets' -> tables_ok users presets clocks -> tables_ok users presets' clocks.
Proof.
  intros Hp [K1 K2 K3 K4 K5 K6 K7 K8 K9].
  assert (forall r, In r presets' -> In r presets) as Hin.
  { intros r. rewrite <- !list_elem_of_In. by rewrite Hp. }
  split; auto; try (unfold keyed in *; by rewrite <- Hp).
  intros k. unfold holdings. rewrite <- (filter_perm _ _ _ Hp). apply K8.
Qed.

Lemma tables_ok_filter users presets clocks p :
  tables_ok users presets clocks -> tables_ok users (List.filter p presets) clocks.
Proof.
  intros [K1 K2 K3 K4 K5 K6 K7 K8 K9]. split; try done; try (by apply NoDup_map_filter);
    try (intros r Hr; apply filter_In in Hr as [Hr _]; by auto).
  intros k. etrans; [|apply (K8 k)]. unfold holdings. apply inj_le.
  clear. induction presets as [|r l IH]; simpl; [lia|].
  destruct (p r); simpl; destruct (owned_by k r); simpl; lia.
Qed.

Lemma tables_ok_advance users presets clocks clocks' k next :
  user_in users (fst k) (snd k) -> advanced k next clocks clocks' ->
  tables_ok users presets clocks -> tables_ok users presets clocks'.
Proof.
  intros Hk Ha [K1 K2 K3 K4 K5 K6 K7 K8 K9]. split; try done.
  - by apply Ha.
  - intros c Hc. destruct (adv_only _ _ _ _ Ha c Hc) as [-> | Hc']; auto.
  - intros r Hr. destruct (K7 r Hr) as (c & Hc & Ek & Hle).
    destruct (adv_kept _ _ _ _ Ha c Hc) as (c' & Hc' & Ek' & Hle' & _).
    exists c'. repeat split; [done|congruence|lia].
Qed.

Lemma holdings_cons k r presets :
  holdings k (r :: presets) = (if owned_by k r then 1 else 0) + holdings k presets.
Proof. unfold holdings. simpl. destruct (owned_by k r); simpl; lia. Qed.

(** The times of the owner are before the clock's new one. *)
Lemma advanced_newest users presets clocks clocks' next r :
  tables_ok users presets clocks -> advanced (pkey r) next clocks clocks' ->
  In r presets -> PresetsModel.updated_time r < next.
Proof.
  intros Hok Ha Hr. destruct (ok_clocked _ _ _ Hok r Hr) as (c & Hc & Ek & Hle).
  destruct (adv_kept _ _ _ _ Ha c Hc) as (_ & _ & _ & _ & Hlt). specialize (Hlt Ek). lia.
Qed.

(** A row added under the clock's new time. *)
Lemma tables_ok_put users presets clocks clocks' row :
  tables_ok users presets clocks ->
  advanced (pkey row) (PresetsModel.updated_time row) clocks clocks' ->
  user_in users (fst (pkey row)) (snd (pkey row)) ->
  (forall r, In r presets -> PresetsModel.id r <> PresetsModel.id row) ->
  (forall r, In r presets -> nkey r <> nkey row) ->
  holdings (pkey row) presets < OWNER_PRESET_LIMIT -> readable row ->
  tables_ok users (row :: presets) clocks'.
Proof.
  intros Hok Ha Hu Hid Hname Hlim Hread.
  assert (forall r, In r presets -> pkey r = pkey row ->
            PresetsModel.updated_time r < PresetsModel.updated_time row) as Hnew.
  { intros r Hr E. rewrite <- E in Ha. by apply (advanced_newest _ _ _ _ _ _ Hok Ha). }
  apply (tables_ok_advance _ _ _ _ _ _ Hu Ha) in Hok as [K1 K2 K3 K4 K5 K6 K7 K8 K9].
  assert (forall {K} (key : PresetsModel.t -> K), keyed key presets ->
            (forall r, In r presets -> key r <> key row) -> keyed key (row :: presets)) as Hkey.
  { intros K key Hk Hne. apply NoDup_cons. split; [|done]. intros Hin.
    apply list_elem_of_In, in_map_iff in Hin as (r & E & Hin). by apply (Hne r). }
  split; auto.
  - apply Hkey; [done|]. intros r Hr E. injection E as E1 E2 E3.
    assert (pkey r = pkey row) as Ek by (unfold pkey; congruence).
    specialize (Hnew r Hr Ek). lia.
  - intros r [<- | Hr]; auto.
  - intros r [<- | Hr]; [|auto]. destruct (adv_new _ _ _ _ Ha) as (c & ? & ? & ?).
    exists c. repeat split; [done|done|lia].
  - intros k. rewrite holdings_cons. unfold owned_by. destruct (beq (pkey row) k) eqn:E; [|apply K8].
    rewrite beq_true in E. subst k. lia.
  - intros r [<- | Hr]; auto.
Qed.

(** The row of an id, replaced. *)
Lemma update_one_perm (presets : list PresetsModel.t) m f :
  keyed PresetsModel.id presets -> In m presets ->
  map (fun r => if beq (PresetsModel.id r) (PresetsModel.id m) then f r else r) presets
  ≡ₚ f m :: List.filter (fun r => negb (beq (PresetsModel.id r) (PresetsModel.id m))) presets.
Proof.
  unfold keyed. induction presets as [|x l IH]; simpl; [done|].
  rewrite NoDup_cons. intros [Hx Hl] Hm.
  destruct (beq (PresetsModel.id x) (PresetsModel.id m)) eqn:E; simpl.
  - rewrite beq_true in E.
    assert (forall y, In y l -> beq (PresetsModel.id y) (PresetsModel.id m) = false) as Hno.
    { intros y Hy. apply beq_false. intros Ey. apply Hx. rewrite E, <- Ey.
      apply list_elem_of_In. by apply in_map. }
    destruct Hm as [-> | Hm]; [|specialize (Hno m Hm); by rewrite beq_refl in Hno].
    apply Permutation_skip.
    rewrite (map_ext_in _ (fun r => r)) by (intros y Hy; by rewrite (Hno y Hy)). rewrite map_id.
    rewrite (List.filter_ext_in _ (fun _ => true)) by (intros y Hy; by rewrite (Hno y Hy)).
    by rewrite List.filter_true.
  - destruct Hm as [-> | Hm]; [by rewrite beq_refl in E|].
    rewrite (IH Hl Hm). apply Permutation_swap.
Qed.

(** ** The statements of a mutation *)

Definition owner_key (tenant_id : TenantId) (owner : string) : string * string :=
  (TenantId_to_string tenant_id, owner).

Lemma owned_preset_true tenant_id owner r :
  owned_preset tenant_id owner r = true <-> pkey r = owner_key tenant_id owner.
Proof.
  unfold owned_preset, pkey, owner_key. rewrite andb_true_iff, !beq_true. split; [by intros [-> ->]|by intros [= -> ->]].
Qed.

Lemma owned_preset_by tenant_id owner r : owned_preset tenant_id owner r = owned_by (owner_key tenant_id owner) r.
Proof. apply eq_bool_prop_intro. unfold owned_by. rewrite !Is_true_true, owned_preset_true. by rewrite beq_true. Qed.

Lemma clock_row_true tenant_id owner c :
  clock_row tenant_id owner c = true <-> ckey c = owner_key tenant_id owner.
Proof.
  unfold clock_row, ckey, owner_key. rewrite andb_true_iff, !beq_true. split; [by intros [-> ->]|by intros [= -> ->]].
Qed.

Lemma lock_owner_Ok tenant_id owner s s' :
  lock_owner tenant_id owner s = (s', Ok tt) ->
  s' = s /\ user_in (Acc.users (Pdb.accounts s)) (TenantId_to_string tenant_id) owner.
Proof.
  unfold lock_owner, on_accounts, zoom. destruct (ensure_user_exists _ _ _) as [a r] eqn:E.
  intros [= <- ->]. apply ensure_user_exists_Ok in E as [-> Hu]. by destruct s.
Qed.

Lemma advance_clock_Ok now tenant_id owner s s' next :
  keyed ckey (Pdb.clocks s) -> advance_clock now tenant_id owner s = (s', Ok next) ->
  advanced (owner_key tenant_id owner) next (Pdb.clocks s) (Pdb.clocks s')
  /\ s' = s <| Pdb.clocks := Pdb.clocks s' |>.
Proof.
  intros K. unfold advance_clock. destruct (select_one _ _) as [c|] eqn:Ec.
  - destruct (_ =? i64_max); [done|].
    rewrite (surjective_pairing (update_many _ _ _)). cbn beta iota.
    destruct (_ =? 0) eqn:E0; [done|]. intros [= <- <-]. split; [|by destruct s].
    apply select_one_Some in Ec as [Hc Hk].
    set (next := Z.max _ _). set (f := fun r => r <| ClocksModel.last_updated_time := next |>).
    assert (forall x, ckey (if clock_row tenant_id owner x then f x else x) = ckey x) as Hkey.
    { intros x. by destruct (clock_row tenant_id owner x). }
    assert (forall x, In x (Pdb.clocks s) -> ckey x = owner_key tenant_id owner -> x = c) as Hone.
    { intros x Hx E. apply (keyed_In _ _ _ _ K Hx Hc). rewrite clock_row_true in Hk. congruence. }
    split; simpl.
    + intros _. rewrite update_many_rows. by apply keyed_map.
    + intros x Hx. eexists. split; [apply In_update_many; exists x; by split|]. split; [apply Hkey|].
      destruct (clock_row tenant_id owner x) eqn:Ex.
      * apply clock_row_true, (Hone x Hx) in Ex as ->. simpl. lia.
      * split; [lia|]. intros E. apply clock_row_true in E. congruence.
    + exists (f c). split; [apply In_update_many; exists c; by rewrite Hk|].
      split; [|done]. rewrite clock_row_true in Hk. by rewrite <- Hk.
    + intros x Hx. apply In_update_many in Hx as (y & Hy & ->).
      destruct (clock_row tenant_id owner y) eqn:Ey; [left|by right].
      rewrite clock_row_true in Ey. by rewrite <- Ey.
  - intros [= <- <-]. split; [|by destruct s].
    assert (forall x, In x (Pdb.clocks s) -> ckey x <> owner_key tenant_id owner) as Hno.
    { intros x Hx E. apply clock_row_true in E. by rewrite (select_one_None _ _ _ Ec Hx) in E. }
    split; simpl.
    + intros _. by apply keyed_insert.
    + intros x Hx. exists x. split; [apply In_insert_row; by right|]. split; [done|]. split; [lia|].
      intros E. by destruct (Hno x Hx).
    + eexists. split; [apply In_insert_row; by left|]. done.
    + intros x Hx. apply In_insert_row in Hx as [-> | Hx]; [by left|by right].
Qed.

Lemma audit_Ok id now tenant_id actor action preset bytes s s' u :
  audit id now tenant_id actor action preset bytes s = (s', Ok u) ->
  exists events, s' = s <| Pdb.accounts := (Pdb.accounts s) <| Acc.audit_events := events |> |>.
Proof.
  unfold audit, on_accounts, zoom. destruct (insert_account_event _ _) as [a r] eqn:E.
  intros [= <- ->]. apply insert_account_event_Ok in E as ->. by eexists.
Qed.

Lemma insert_preset_Ok row s s' model :
  insert_preset row s = (s', Ok model) ->
  model = row /\ s' = s <| Pdb.presets := insert_row row (Pdb.presets s) |>
  /\ (forall r, In r (Pdb.presets s) -> PresetsModel.id r <> PresetsModel.id row)
  /\ (forall r, In r (Pdb.presets s) -> nkey r <> nkey row).
Proof.
  unfold insert_preset. destruct (existsb _ _) eqn:Eid; [done|].
  destruct (try_insert _ _ _) as [rows|] eqn:E; [|done]. destruct (owner_known _ _ _); [|done].
  intros [= <- <-]. apply try_insert_Some in E as [Hname ->]. split; [done|]. split; [done|]. split.
  - intros r Hr. apply beq_false. by apply (existsb_false _ _ Eid).
  - intros r Hr [= E1 E2 E3]. specialize (Hname r Hr). unfold same_name in Hname.
    by rewrite E1, E2, E3, !beq_refl in Hname.
Qed.

Lemma update_preset_Ok f m s s' model :
  update_preset f m s = (s', Ok model) ->
  model = f m
  /\ s' = s <| Pdb.presets := map (fun r => if beq (PresetsModel.id r) (PresetsModel.id m) then f r else r)
                               (Pdb.presets s) |>
  /\ (forall r, In r (Pdb.presets s) -> nkey r = nkey (f m) -> PresetsModel.id r = PresetsModel.id m).
Proof.
  unfold update_preset. destruct (existsb _ _) eqn:En; [done|].
  rewrite (surjective_pairing (update_many _ _ _)). cbn beta iota.
  destruct (_ =? 0); [done|]. intros [= <- <-]. split; [done|]. split; [by rewrite update_many_rows|].
  intros r Hr [= E1 E2 E3]. pose proof (existsb_false _ _ En r Hr) as Hn. unfold same_name in Hn.
  rewrite E1, E2, E3, !beq_refl in Hn. cbn [andb] in Hn. by rewrite negb_false_iff, beq_true in Hn.
Qed.

(** ** Mutations *)

(** The preset says what the request asked for. *)
Definition as_asked (input : Cpp.t) (p : PersonalPreset.t) : Prop :=
  PersonalPreset.name p = Cpp.name input /\ replay_matches p input = true.

(** What a committed mutation of the preset [p] under the key [k] did: the row is
    the newest of its owner, and every other row is as it was. *)
Record committed (k : string * string) (p : PersonalPreset.t) (s s' : Pdb.t) : Prop := {
  com_ok : presets_ok s';
  com_users : Acc.users (Pdb.accounts s') = Acc.users (Pdb.accounts s);
  com_row : exists row, In row (Pdb.presets s') /\ pkey row = k
              /\ preset_from_model row = Ok p;
  com_newest : forall r, In r (Pdb.presets s) -> pkey r = k ->
                 PresetsModel.updated_time r < PersonalPreset.updated_time p;
  com_own : forall r, In r (Pdb.presets s) -> PresetsModel.id r = PersonalPreset.id p -> pkey r = k;
  com_others : forall r, PresetsModel.id r <> PersonalPreset.id p ->
                 In r (Pdb.presets s') <-> In r (Pdb.presets s) }.

Lemma preset_from_model_fields r p :
  preset_from_model r = Ok p ->
  PersonalPreset.id p = PresetsModel.id r /\ PersonalPreset.name p = PresetsModel.name r
  /\ PersonalPreset.updated_time p = PresetsModel.updated_time r
  /\ PersonalPreset.owner_user_id p = PresetsModel.owner_user_id r.
Proof.
  unfold preset_from_model. intros E. apply rbind_Ok in E as (o & _ & E).
  apply rbind_Ok in E as (t & _ & E). apply rbind_Ok in E as (ty & _ & E). by injection E as <-.
Qed.

(** The state once the row of a mutation stands and its event is written. *)
Lemma committed_row s s' k p row rest cs events :
  presets_ok s -> preset_from_model row = Ok p -> pkey row = k ->
  (forall r, In r rest <-> In r (Pdb.presets s) /\ PresetsModel.id r <> PresetsModel.id row) ->
  (forall r, In r (Pdb.presets s) -> PresetsModel.id r = PresetsModel.id row -> pkey r = k) ->
  tables_ok (Acc.users (Pdb.accounts s)) rest (Pdb.clocks s) ->
  advanced k (PresetsModel.updated_time row) (Pdb.clocks s) cs ->
  user_in (Acc.users (Pdb.accounts s)) (fst k) (snd k) ->
  (forall r, In r rest -> nkey r <> nkey row) ->
  holdings k rest < OWNER_PRESET_LIMIT ->
  Pdb.presets s' ≡ₚ row :: rest -> Pdb.clocks s' = cs ->
  Pdb.accounts s' = (Pdb.accounts s) <| Acc.audit_events := events |> ->
  committed k p s s'.
Proof.
  intros [Ha Ht] Ep <- Hrest Hown Hok Hadv Hu Hname Hlim Ers Ecs Eacc.
  assert (forall r, In r (Pdb.presets s') <-> r = row \/ In r rest) as Hin.
  { intros r. rewrite <- !list_elem_of_In, Ers, elem_of_cons. done. }
  destruct (preset_from_model_fields _ _ Ep) as (Eid & _ & Etime & _). split.
  - split.
    + rewrite Eacc. by apply put_audit.
    + rewrite Ecs. eapply tables_ok_perm; [symmetry; exact Ers|]. rewrite Eacc.
      apply (tables_ok_put _ _ (Pdb.clocks s)); try done.
      * intros r Hr. by apply Hrest.
      * by exists p.
  - by rewrite Eacc.
  - exists row. split; [apply Hin; by left|done].
  - intros r Hr E. rewrite Etime. rewrite <- E in Hadv. by apply (advanced_newest _ _ _ _ _ _ Ht Hadv).
  - by rewrite Eid.
  - intros r Hne. rewrite Hin, Hrest. rewrite Eid in Hne. split; [|by auto].
    intros [-> | [? _]]; done.
Qed.

(** A fresh row made from a request reads back as the request. *)
Lemma model_as_asked input options_json id tenant_id owner t n1 n2 p :
  encode_options input = Ok options_json ->
  preset_from_model (PresetsModel.mk id (TenantId_to_string tenant_id) owner
    (PersonalPresetType.as_str (Cpp.preset_type input)) (Cpp.name input) (Cpp.version input)
    (Cpp.base_id input) (Cpp.inherits input) (Cpp.filament_id input) options_json t n1 n2) = Ok p ->
  as_asked input p.
Proof.
  unfold encode_options. rewrite ok_or_Ok. intros Ej E. unfold preset_from_model in E. simpl in E.
  rewrite (options_round_trip _ _ Ej) in E. cbn [ok_or rbind] in E.
  rewrite TenantId_parse_to_string in E. cbn [db_err map_err rbind] in E.
  assert (forall x, PersonalPresetType.parse (PersonalPresetType.as_str x) = Ok x) as Ety by (by intros []).
  rewrite Ety in E. cbn [rbind] in E. injection E as <-. split; [done|].
  unfold replay_matches. simpl. by rewrite !beq_refl.
Qed.

Lemma select_holdings tenant_id owner presets :
  Z.of_nat (length (select (owned_preset tenant_id owner) presets)) = holdings (owner_key tenant_id owner) presets.
Proof.
  rewrite select_length. unfold holdings. do 2 f_equal. apply List.filter_ext.
  intros r. apply owned_preset_by.
Qed.

Lemma create_spec d tenant_id owner input actor s s' p :
  presets_ok s -> create d tenant_id owner input actor s = (s', Ok p) ->
  as_asked input p
  /\ ((s' = s /\ exists row, In row (Pdb.presets s) /\ pkey row = owner_key tenant_id owner
                          /\ preset_from_model row = Ok p)
      \/ committed (owner_key tenant_id owner) p s s').
Proof.
  intros Hok E. unfold create in E. apply tbind_Ok in E as (s1 & [] & Ev & E). apply tlift_Ok in Ev as [-> Ev].
  apply tbind_Ok in E as (s1 & json & Ej & E). apply tlift_Ok in Ej as [-> Ej].
  rewrite transaction_Ok in E. unfold create_in_transaction in E.
  apply tbind_Ok in E as (s1 & [] & El & E). apply lock_owner_Ok in El as [-> Hu].
  apply tbind_Ok in E as (s1 & found & Ef & E). apply tread_Ok in Ef as [-> Ef]. injection Ef as <-.
  destruct (select_one _ _) as [row|] eqn:Es.
  - apply select_one_Some in Es as [Hr Hp]. apply andb_true_iff in Hp as [Hp Hn].
    rewrite beq_true in Hn. apply owned_preset_true in Hp.
    apply tbind_Ok in E as (s1 & q & Eq & E). apply tlift_Ok in Eq as [-> Eq].
    destruct (replay_matches q input) eqn:Em; [|done]. apply tret_Ok in E as [-> ->].
    destruct (preset_from_model_fields _ _ Eq) as (_ & En & _).
    split; [by split; [congruence|]|]. left. by eauto.
  - apply tbind_Ok in E as (s1 & rows & Er & E). apply tread_Ok in Er as [-> Er]. injection Er as <-.
    rewrite select_holdings in E. destruct (Z.leb_spec OWNER_PRESET_LIMIT (holdings (owner_key tenant_id owner) (Pdb.presets s))) as [|Hlim]; [done|].
    apply tbind_Ok in E as (s1 & t & Et & E). apply advance_clock_Ok in Et as [Hadv Es1]; [|apply Hok].
    apply tbind_Ok in E as (s2 & row & Ei & E). apply insert_preset_Ok in Ei as (-> & -> & Hid & Hname).
    apply tbind_Ok in E as (s3 & q & Eq & E). apply tlift_Ok in Eq as [-> Eq].
    apply tbind_Ok in E as (s4 & [] & Ea & E). apply audit_Ok in Ea as [events ->].
    apply tret_Ok in E as [-> ->]. split; [by eapply model_as_asked|]. right.
    rewrite Es1 in Hid, Hname. simpl in Hid, Hname.
    eapply (committed_row _ _ _ _ _ (Pdb.presets s) (Pdb.clocks s1) events); try done; try (by apply Hok).
    + intros r. split; [|by intros []]. intros Hr. by split; [|apply Hid].
    + intros r Hr E. by destruct (Hid r Hr).
    + simpl. rewrite Es1. simpl. apply insert_row_perm.
    + simpl. by rewrite Es1.
Qed.

Lemma replace_spec d tenant_id owner id input actor s s' p :
  presets_ok s -> replace d tenant_id owner id input actor s = (s', Ok p) ->
  as_asked input p /\ PersonalPreset.id p = id
  /\ (exists m, In m (Pdb.presets s) /\ PresetsModel.id m = id /\ pkey m = owner_key tenant_id owner)
  /\ committed (owner_key tenant_id owner) p s s'.
Proof.
  intros Hok E. unfold replace in E. apply tbind_Ok in E as (s1 & [] & Ev & E). apply tlift_Ok in Ev as [-> Ev].
  apply tbind_Ok in E as (s1 & json & Ej & E). apply tlift_Ok in Ej as [-> Ej].
  rewrite transaction_Ok in E. unfold replace_in_transaction in E.
  apply tbind_Ok in E as (s1 & [] & El & E). apply lock_owner_Ok in El as [-> Hu].
  apply tbind_Ok in E as (s1 & found & Ef & E). apply tread_Ok in Ef as [-> Ef]. injection Ef as <-.
  apply tbind_Ok in E as (s1 & m & Em & E). apply tlift_Ok in Em as [-> Em]. apply ok_or_Ok in Em.
  apply select_one_Some in Em as [Hm Hp]. apply andb_true_iff in Hp as [Hid Hp].
  rewrite beq_true in Hid. apply owned_preset_true in Hp. subst id.
  apply tbind_Ok in E as (s1 & named & En & E). apply tread_Ok in En as [-> En]. injection En as <-.
  destruct (is_some_and _ _); [done|].
  apply tbind_Ok in E as (s1 & t & Et & E). apply advance_clock_Ok in Et as [Hadv Es1]; [|apply Hok].
  apply tbind_Ok in E as (s2 & row & Ei & E). apply update_preset_Ok in Ei as (-> & -> & Hname).
  apply tbind_Ok in E as (s3 & q & Eq & E). apply tlift_Ok in Eq as [-> Eq].
  apply tbind_Ok in E as (s4 & [] & Ea & E). apply audit_Ok in Ea as [events ->].
  apply tret_Ok in E as [-> ->].
  assert (pkey (replaced input json t (clock d 0) m) = owner_key tenant_id owner) as Hk by (by rewrite <- Hp).
  injection Hk as Hk1 Hk2.
  destruct (preset_from_model_fields _ _ Eq) as (Eid & _). split.
  { unfold replaced in Eq. simpl in Hk1, Hk2. rewrite Hk1, Hk2 in Eq. by eapply model_as_asked. }
  split; [done|]. split; [by exists m|].
  set (rest := List.filter (fun r => negb (beq (PresetsModel.id r) (PresetsModel.id m))) (Pdb.presets s)).
  rewrite Es1 in Hname. simpl in Hname.
  eapply (committed_row _ _ _ _ _ rest (Pdb.clocks s1) events); try done.
  - intros r. unfold rest. by rewrite filter_In, negb_true_iff, beq_false.
  - intros r Hr E. destruct Hok as [_ Hok]. by rewrite (keyed_In _ _ _ _ (ok_ids _ _ _ Hok) Hr Hm E).
  - apply tables_ok_filter, Hok.
  - intros r Hr E. apply filter_In in Hr as [Hr Hne]. rewrite negb_true_iff, beq_false in Hne. by apply Hne, Hname.
  - unfold rest. destruct Hok as [_ Hok]. pose proof (ok_limit _ _ _ Hok (owner_key tenant_id owner)) as Hl.
    rewrite <- (map_id (Pdb.presets s)) in Hl.
    rewrite <- (map_ext (fun r => if beq (PresetsModel.id r) (PresetsModel.id m) then r else r)) in Hl
      by (intros r; by destruct (beq _ _)).
    unfold holdings in Hl. rewrite (filter_perm _ _ _ (update_one_perm _ m (fun r => r) (ok_ids _ _ _ Hok) Hm)) in Hl.
    simpl in Hl. assert (owned_by (owner_key tenant_id owner) m = true) as Ho by (by apply beq_true).
    rewrite Ho in Hl. simpl in Hl. unfold holdings. lia.
  - simpl. rewrite Es1. simpl. apply update_one_perm; [apply Hok|done].
  - simpl. by rewrite Es1.
Qed.

Lemma delete_spec d tenant_id owner id actor s s' b :
  presets_ok s -> delete d tenant_id owner id actor s = (s', Ok b) ->
  presets_ok s'
  /\ forall r, In r (Pdb.presets s')
       <-> In r (Pdb.presets s) /\ (PresetsModel.id r <> id \/ pkey r <> owner_key tenant_id owner).
Proof.
  intros Hok E. unfold delete in E. rewrite transaction_Ok in E. unfold delete_in_transaction in E.
  apply tbind_Ok in E as (s1 & [] & El & E). apply lock_owner_Ok in El as [-> Hu].
  apply tbind_Ok in E as (s1 & found & Ef & E). apply tread_Ok in Ef as [-> Ef]. injection Ef as <-.
  destruct (select_one _ _) as [m|] eqn:Es.
  - apply select_one_Some in Es as [Hm Hp]. apply andb_true_iff in Hp as [Hid Hp].
    rewrite beq_true in Hid. apply owned_preset_true in Hp. subst id.
    apply tbind_Ok in E as (s1 & q & Eq & E). apply tlift_Ok in Eq as [-> Eq].
    apply tbind_Ok in E as (s1 & t & Et & E). apply advance_clock_Ok in Et as [Hadv Es1]; [|apply Hok].
    apply tbind_Ok in E as (s2 & [] & Ed & E). injection Ed as <-.
    apply tbind_Ok in E as (s4 & [] & Ea & E). apply audit_Ok in Ea as [events ->].
    apply tret_Ok in E as [-> ->]. simpl. rewrite Es1. simpl. destruct Hok as [Ha Ht]. split.
    + split; simpl; [by apply put_audit|]. rewrite delete_many_rows.
      apply tables_ok_filter. eapply tables_ok_advance; [|exact Hadv|done]. done.
    + intros r. rewrite In_delete_many, beq_false. split; [by intros [? ?]; auto|].
      intros [Hr Hne]. split; [done|]. intros E. destruct Hne as [Hne|Hne]; [done|].
      by rewrite (keyed_In _ _ _ _ (ok_ids _ _ _ Ht) Hr Hm E) in Hne.
  - apply tret_Ok in E as [-> ->]. split; [done|]. intros r. split; [|by intros [? _]].
    intros Hr. split; [done|]. destruct (decide (PresetsModel.id r = id)) as [<- | ?]; [|by left]. right.
    intros E. apply owned_preset_true in E. pose proof (select_one_None _ _ _ Es Hr) as Hn.
    unfold preset_row in Hn. by rewrite beq_refl, E in Hn.
Qed.

(** A mutation that fails leaves everything as it was. *)
Lemma create_Err d tenant_id owner input actor s s' e :
  create d tenant_id owner input actor s = (s', Err e) -> s' = s.
Proof.
  unfold create, tbind, tlift. destruct (validate input); [|by intros [= <-]].
  destruct (encode_options input); [|by intros [= <-]]. unfold transaction.
  destruct (create_in_transaction _ _ _ _ _ _ _) as [? []]; congruence.
Qed.

Lemma replace_Err d tenant_id owner id input actor s s' e :
  replace d tenant_id owner id input actor s = (s', Err e) -> s' = s.
Proof.
  unfold replace, tbind, tlift. destruct (validate input); [|by intros [= <-]].
  destruct (encode_options input); [|by intros [= <-]]. unfold transaction.
  destruct (replace_in_transaction _ _ _ _ _ _ _ _) as [? []]; congruence.
Qed.

Lemma delete_Err d tenant_id owner id actor s s' e :
  delete d tenant_id owner id actor s = (s', Err e) -> s' = s.
Proof.
  unfold delete, transaction. destruct (delete_in_transaction _ _ _ _ _ _) as [? []]; congruence.
Qed.

(** What a creation went through before its transaction looked for the name. *)
Lemma create_checks d tenant_id owner input actor s s' p :
  create d tenant_id owner input actor s = (s', Ok p) ->
  exists json, validate input = Ok tt /\ encode_options input = Ok json
    /\ user_in (Acc.users (Pdb.accounts s)) (TenantId_to_string tenant_id) owner.
Proof.
  unfold create. intros E. apply tbind_Ok in E as (s1 & [] & Ev & E). apply tlift_Ok in Ev as [-> Ev].
  apply tbind_Ok in E as (s1 & json & Ej & E). apply tlift_Ok in Ej as [-> Ej].
  rewrite transaction_Ok in E. apply tbind_Ok in E as (s1 & [] & El & E).
  apply lock_owner_Ok in El as [_ Hu]. by exists json.
Qed.

Lemma lock_owner_found tenant_id owner s :
  user_in (Acc.users (Pdb.accounts s)) (TenantId_to_string tenant_id) owner ->
  lock_owner tenant_id owner s = (s, Ok tt).
Proof.
  intros (u & Hu & Et & Eo). unfold lock_owner, on_accounts, zoom, ensure_user_exists, user_exists, tbind, tread.
  assert (is_some (select_one (user_row tenant_id owner) (Acc.users (Pdb.accounts s))) = true) as ->.
  { apply is_some_true, select_one_is_Some. exists u. split; [done|]. by apply user_row_true. }
  by destruct s.
Qed.

(** The row of a preset is found under its owner. *)
Lemma get_row tenant_id owner s row p :
  presets_ok s -> In row (Pdb.presets s) -> pkey row = owner_key tenant_id owner ->
  preset_from_model row = Ok p ->
  get tenant_id owner (PersonalPreset.id p) s = (s, Ok (Some p)).
Proof.
  intros [_ Hok] Hr Hk Ep. unfold get, tread. f_equal.
  destruct (preset_from_model_fields _ _ Ep) as (Eid & _).
  rewrite (select_one_unique _ _ row Hr).
  - unfold traverse_opt. simpl. by rewrite Ep.
  - unfold preset_row. rewrite Eid, beq_refl. by apply owned_preset_true.
  - intros r' Hr' Hp. apply andb_true_iff in Hp as [Hid _]. rewrite beq_true in Hid.
    apply (keyed_In _ _ _ _ (ok_ids _ _ _ Hok) Hr' Hr). congruence.
Qed.

Lemma get_foreign tenant_id owner id s :
  (forall r, In r (Pdb.presets s) -> PresetsModel.id r = id -> pkey r <> owner_key tenant_id owner) ->
  get tenant_id owner id s = (s, Ok None).
Proof.
  intros Hno. unfold get, tread. f_equal. destruct (select_one _ _) as [r|] eqn:E; [|done].
  apply select_one_Some in E as [Hr Hp]. apply andb_true_iff in Hp as [Hid Hp].
  rewrite beq_true in Hid. apply owned_preset_true in Hp. by destruct (Hno r Hr Hid).
Qed.
End Tables.

(** ** Operations over time *)

Section System.
Context `{Store} `{UuidText} `{AuditJson} `{Rfc3339} `{Sha256} `{ScopesJson} `{RedirectUrls}
  `{Base64} `{TimeRange} `{PresetOptionsJson}.

Inductive preset_op :=
| CreatePreset (d : Draws) (tenant_id : TenantId) (owner : string) (input : Cpp.t) (actor : AuditActor.t)
| ReplacePreset (d : Draws) (tenant_id : TenantId) (owner id : string) (input : Cpp.t) (actor : AuditActor.t)
| DeletePreset (d : Draws) (tenant_id : TenantId) (owner id : string) (actor : AuditActor.t)
| OnAccounts (o : account_op).

Definition run_preset (o : preset_op) (s : Pdb.t) : Pdb.t :=
  match o with
  | CreatePreset d t owner input actor => fst (create d t owner input actor s)
  | ReplacePreset d t owner id input actor => fst (replace d t owner id input actor s)
  | DeletePreset d t owner id actor => fst (delete d t owner id actor s)
  | OnAccounts o => cascade (s <| Pdb.accounts := run o (Pdb.accounts s) |>)
  end.

Definition run_presets (ops : list preset_op) (s : Pdb.t) : Pdb.t :=
  fold_left (fun s o => run_preset o s) ops s.

(** The owner an operation on presets speaks for. *)
Definition speaks_for (o : preset_op) : option (string * string) :=
  match o with
  | CreatePreset _ t owner _ _ | ReplacePreset _ t owner _ _ _ | DeletePreset _ t owner _ _ =>
      Some (owner_key t owner)
  | OnAccounts _ => None
  end.

Lemma owner_known_true s tenant owner :
  owner_known s tenant owner = true -> user_in (Acc.users (Pdb.accounts s)) tenant owner.
Proof.
  unfold owner_known. rewrite is_some_true. intros [u Hu]. apply select_one_Some in Hu as [Hu Hp].
  rewrite andb_true_iff, !beq_true in Hp. exists u. tauto.
Qed.

Lemma cascade_ok s users :
  tables_ok users (Pdb.presets s) (Pdb.clocks s) ->
  tables_ok (Acc.users (Pdb.accounts (cascade s))) (Pdb.presets (cascade s)) (Pdb.clocks (cascade s)).
Proof.
  intros Hok.
  pose proof (tables_ok_filter _ _ _ (fun r => owner_known s (PresetsModel.tenant_id r)
                                                (PresetsModel.owner_user_id r)) Hok) as [K1 K2 K3 K4 K5 K6 K7 K8 K9].
  split; simpl; try done.
  - by apply NoDup_map_filter.
  - intros r Hr. apply filter_In in Hr as [_ Hr]. by apply owner_known_true.
  - intros c Hc. apply filter_In in Hc as [_ Hc]. by apply owner_known_true.
  - intros r Hr. destruct (K7 r Hr) as (c & Hc & Ek & Hle). exists c. split; [|done].
    apply filter_In in Hr as [_ Hr]. apply filter_In. split; [done|].
    injection Ek as -> ->. done.
Qed.

Lemma run_preset_ok o s : presets_ok s -> presets_ok (run_preset o s).
Proof.
  intros Hok. destruct o as [d t owner input actor|d t owner id input actor|d t owner id actor|o]; simpl.
  - destruct (create d t owner input actor s) as [s' [p|e]] eqn:E; simpl.
    + destruct (create_spec _ _ _ _ _ _ _ _ Hok E) as [_ [[-> _] | Hc]]; [done|apply Hc].
    + by apply create_Err in E as ->.
  - destruct (replace d t owner id input actor s) as [s' [p|e]] eqn:E; simpl.
    + destruct (replace_spec _ _ _ _ _ _ _ _ _ Hok E) as (_ & _ & _ & Hc). apply Hc.
    + by apply replace_Err in E as ->.
  - destruct (delete d t owner id actor s) as [s' [b|e]] eqn:E; simpl.
    + by apply (delete_spec _ _ _ _ _ _ _ _ Hok E).
    + by apply delete_Err in E as ->.
  - destruct Hok as [Ha Ht]. split; [by apply run_evolves|]. by eapply cascade_ok.
Qed.

(** Another owner's row is where it was. *)
Lemma run_preset_other o s r k :
  presets_ok s -> speaks_for o = Some k -> pkey r <> k ->
  In r (Pdb.presets s) <-> In r (Pdb.presets (run_preset o s)).
Proof.
  intros Hok Hk Hne.
  assert (forall p s', committed k p s s' -> In r (Pdb.presets s) <-> In r (Pdb.presets s')) as Hcom.
  { intros p s' Hc. destruct (decide (PresetsModel.id r = PersonalPreset.id p)) as [E | ?].
    - split; intros Hr; [by destruct (Hne (com_own _ _ _ _ Hc r Hr E))|].
      destruct (com_row _ _ _ _ Hc) as (row & Hrow & Ek & Ep).
      destruct (preset_from_model_fields _ _ Ep) as (Eid & _).
      destruct Hne. rewrite <- Ek. f_equal.
      apply (keyed_In _ _ _ _ (ok_ids _ _ _ (proj2 (com_ok _ _ _ _ Hc))) Hr Hrow). congruence.
    - symmetry. by apply (com_others _ _ _ _ Hc). }
  destruct o as [d t owner input actor|d t owner id input actor|d t owner id actor|o]; simpl; [..|done].
  - injection Hk as <-. destruct (create d t owner input actor s) as [s' [p|e]] eqn:E; simpl.
    + destruct (create_spec _ _ _ _ _ _ _ _ Hok E) as [_ [[-> _] | Hc]]; [done|by eapply Hcom].
    + by apply create_Err in E as ->.
  - injection Hk as <-. destruct (replace d t owner id input actor s) as [s' [p|e]] eqn:E; simpl.
    + destruct (replace_spec _ _ _ _ _ _ _ _ _ Hok E) as (_ & _ & _ & Hc). by eapply Hcom.
    + by apply replace_Err in E as ->.
  - injection Hk as <-. destruct (delete d t owner id actor s) as [s' [b|e]] eqn:E; simpl.
    + destruct (delete_spec _ _ _ _ _ _ _ _ Hok E) as [_ Hin]. rewrite Hin. tauto.
    + by apply delete_Err in E as ->.
Qed.

Lemma run_presets_ok ops s : presets_ok s -> presets_ok (run_presets ops s).
Proof.
  revert s. induction ops as [|o ops IH]; intros s Hok; [done|]. by apply IH, run_preset_ok.
Qed.

(** C28: Along any operations on presets and accounts, removals of users with
    their cascades included, the keys, references and clocks of the preset tables
    hold: names are unique and at most a thousand per owner, times are distinct
    and not ahead of the owner's clock, and every row can be read. *)
Theorem presets_invariant ops s : presets_ok s -> presets_ok (run_presets ops s).
Proof. apply run_presets_ok. Qed.

(** A preset that was created or replaced reads back as the request asked,
    and - unless the creation only found it there - is newer than every preset its
    owner had, all others being as they were. *)
Theorem preset_change_is_newest d tenant_id owner setting_id input actor s s' p :
  presets_ok s ->
  create d tenant_id owner input actor s = (s', Ok p)
  \/ replace d tenant_id owner setting_id input actor s = (s', Ok p) ->
  as_asked input p
  /\ get tenant_id owner (PersonalPreset.id p) s' = (s', Ok (Some p))
  /\ (s' = s
      \/ (forall r, In r (Pdb.presets s) -> pkey r = owner_key tenant_id owner ->
             PresetsModel.updated_time r < PersonalPreset.updated_time p)
         /\ (forall r, PresetsModel.id r <> PersonalPreset.id p ->
               In r (Pdb.presets s') <-> In r (Pdb.presets s))).
Proof.
  intros Hok E.
  assert (as_asked input p /\ ((s' = s /\ exists row, In row (Pdb.presets s) /\ pkey row = owner_key tenant_id owner
             /\ preset_from_model row = Ok p) \/ committed (owner_key tenant_id owner) p s s')) as [Hin Hs].
  { destruct E as [E | E]; [by eapply create_spec|].
    destruct (replace_spec _ _ _ _ _ _ _ _ _ Hok E) as (? & _ & _ & ?). by split; [|right]. }
  split; [done|]. destruct Hs as [[-> (row & Hr & Hk & Ep)] | Hc].
  - split; [by eapply get_row|by left].
  - split; [|right; split; apply Hc]. destruct (com_row _ _ _ _ Hc) as (row & Hr & Hk & Ep).
    eapply get_row; try done. apply Hc.
Qed.

(** Sending a creation again - after a lost response - answers with the
    preset that is there and changes nothing. *)
Theorem preset_create_idempotent d d' tenant_id owner input actor actor' s s' p :
  presets_ok s -> create d tenant_id owner input actor s = (s', Ok p) ->
  create d' tenant_id owner input actor' s' = (s', Ok p).
Proof.
  intros Hok E. destruct (create_checks _ _ _ _ _ _ _ _ E) as (json & Ev & Ej & Hu).
  destruct (create_spec _ _ _ _ _ _ _ _ Hok E) as [[En Em] Hs].
  assert (presets_ok s' /\ user_in (Acc.users (Pdb.accounts s')) (TenantId_to_string tenant_id) owner
          /\ exists row, In row (Pdb.presets s') /\ pkey row = owner_key tenant_id owner
                        /\ preset_from_model row = Ok p) as (Hok' & Hu' & row & Hr & Hk & Ep).
  { destruct Hs as [[-> Hrow] | Hc]; [done|]. split; [apply Hc|].
    rewrite (com_users _ _ _ _ Hc). split; [done|apply Hc]. }
  unfold create, create_in_transaction, transaction, find_by_name, tbind, tlift, tread.
  rewrite Ev, Ej, (lock_owner_found _ _ _ Hu').
  destruct (preset_from_model_fields _ _ Ep) as (_ & En' & _).
  rewrite (select_one_unique _ _ row Hr).
  - by rewrite Ep, Em.
  - apply andb_true_iff. rewrite owned_preset_true, beq_true. by rewrite <- En, En'.
  - intros r Hr' Hp. rewrite andb_true_iff, owned_preset_true, beq_true in Hp. destruct Hp as [Hk' Hn'].
    apply (keyed_In _ _ _ _ (ok_names _ _ _ (proj2 Hok')) Hr' Hr). unfold nkey. congruence.
Qed.

(** A preset is its owner's alone: operations that speak for other owners
    neither change nor remove it, cannot read it, and cannot replace it. *)
Theorem preset_owner_isolation ops s r tenant_id owner input d actor :
  presets_ok s -> In r (Pdb.presets s) ->
  Forall (fun o => exists k, speaks_for o = Some k /\ k <> pkey r) ops ->
  pkey r <> owner_key tenant_id owner ->
  In r (Pdb.presets (run_presets ops s))
  /\ get tenant_id owner (PresetsModel.id r) (run_presets ops s) = (run_presets ops s, Ok None)
  /\ is_ok (snd (replace d tenant_id owner (PresetsModel.id r) input actor (run_presets ops s))) = false.
Proof.
  intros Hok Hr Hops Hne. revert s Hok Hr. induction Hops as [|o ops (k & Hk & Hkr) _ IH]; intros s Hok Hr.
  - assert (forall r', In r' (Pdb.presets s) -> PresetsModel.id r' = PresetsModel.id r -> r' = r) as Hone.
    { intros r' Hr' E. by apply (keyed_In _ _ _ _ (ok_ids _ _ _ (proj2 Hok)) Hr' Hr). }
    split; [done|]. split.
    + apply get_foreign. intros r' Hr' E. by rewrite (Hone r' Hr' E).
    + simpl. destruct (replace _ _ _ _ _ _ _) as [s' [p|e]] eqn:E; [|done].
      destruct (replace_spec _ _ _ _ _ _ _ _ _ Hok E) as (_ & _ & (m & Hm & Eid & Ek) & _).
      by rewrite (Hone m Hm Eid) in Ek.
  - simpl. apply IH; [by apply run_preset_ok|]. by apply (run_preset_other _ _ _ _ Hok Hk).
Qed.
End System.

(** ** Routes *)

Section RouteSafety.
Context `{Store} `{UuidText} `{AuditJson} `{Rfc3339} `{Sha256} `{ScopesJson} `{PresetOptionsJson}.

Lemma authorize_owner state d h s s' a :
  authorize state d h s = (s', Ok a) -> exists owner, owner_of a = Ok owner.
Proof.
  unfold authorize, zoom. destruct (authorize_plugin_studio_user d state h (Pdb.accounts s)) as [a1 [b|e]] eqn:E;
    [|done]. intros [= <- <-].
  unfold authorize_plugin_studio_user in E. apply tbind_Ok in E as (s1 & b' & _ & E).
  unfold owner_of. destruct (AuthenticatedTenantToken.session_user b') as [user|] eqn:Eu; [|done].
  destruct (negb _); [done|]. apply tret_Ok in E as [_ ->]. rewrite Eu. by exists (User.id user).
Qed.

(** The statements of a route that do not panic. *)
Definition calm {A} (m : tx Pdb.t route_error A) : Prop := forall s, snd (m s) <> Err Panic.

Lemma calm_bind {A B} (m : tx Pdb.t route_error A) (k : A -> tx Pdb.t route_error B) :
  calm m -> (forall a, (exists s s', m s = (s', Ok a)) -> calm (k a)) -> calm (tbind m k).
Proof.
  intros Hm Hk s. unfold tbind. specialize (Hm s). destruct (m s) as [s' [a|e]] eqn:E;
    [|intros [= ->]; by apply Hm].
  apply Hk. by exists s, s'.
Qed.

Lemma calm_repository {A} (m : presets_tx A) : calm (repository m).
Proof. intros s. unfold repository. by destruct (m s) as [s' [a|e]]. Qed.

Lemma calm_authorize state d h : calm (authorize state d h).
Proof.
  intros s. unfold authorize. destruct (zoom _ _ _ s) as [s' [a|e]]; done.
Qed.

Lemma calm_lift {A} (r : result route_error A) : r <> Err Panic -> calm (tlift r).
Proof. by intros Hr s. Qed.

Lemma calm_ret {A} (a : A) : calm (tret a).
Proof. by intros s. Qed.

Lemma calm_authorized {A} state d h (k : AuthenticatedTenantToken.t -> tx Pdb.t route_error A) :
  (forall a, owner_of a <> Err Panic -> calm (k a)) -> calm (tbind (authorize state d h) k).
Proof.
  intros Hk. apply calm_bind; [apply calm_authorize|]. intros a (s & s' & E). apply Hk.
  destruct (authorize_owner _ _ _ _ _ _ E) as [owner ->]. done.
Qed.

(** A route's remaining statements. *)
Ltac calmly :=
  repeat match goal with
  | |- forall _, _ => intros ?
  | |- calm (tbind (authorize _ _ _) _) => apply calm_authorized
  | |- calm (tbind _ _) => apply calm_bind
  | |- calm (repository _) => apply calm_repository
  | |- calm (tret _) => apply calm_ret
  | |- calm (tlift (owner_of _)) => by apply calm_lift
  | |- calm (tlift (_ ?x)) => apply calm_lift; by destruct x
  | |- calm (tlift (_ ?x _)) => apply calm_lift; by destruct x
  | |- calm (if ?b then _ else _) => destruct b; [by intros ?|]
  end.

(** No handler of the preset routes can panic on the owner it expects: what
    the guard admits always has a session user. *)
Theorem preset_routes_never_panic state d h version id payload s :
  snd (list_route state d h version s) <> Err Panic
  /\ snd (get_route state d h id s) <> Err Panic
  /\ snd (create_route state d h payload s) <> Err Panic
  /\ snd (replace_route state d h id payload s) <> Err Panic
  /\ snd (delete_route state d h id s) <> Err Panic.
Proof.
  split_and!; revert s; match goal with |- forall s, snd (?m s) <> _ => change (calm m) end;
    unfold list_route, get_route, create_route, replace_route, delete_route; calmly.
Qed.
End RouteSafety.

(** ** Concrete presets *)

Definition flatten (l : list (string * string)) : list string := flat_map (fun kv => [kv.1; kv.2]) l.

Fixpoint pair_up (l : list string) : list (string * string) :=
  match l with k :: v :: l => (k, v) :: pair_up l | _ => [] end.

Lemma pair_up_flatten l : pair_up (flatten l) = l.
Proof. induction l as [|[k v] l IH]; simpl; [done|]. by rewrite IH. Qed.

Definition marked_options : PresetOptionsJson.
Proof.
  refine {| options_to_string := fun m => Some (list_print (flatten (map_to_list m)));
            options_from_str := fun text => option_map (fun l => list_to_map (pair_up l)) (list_parse text) |}.
  intros m text [= <-].
  assert (forall l, list_parse (list_print l) = Some l) as E.
  { induction l as [|x l IH]; simpl; [done|]. by rewrite list_parse_item, IH. }
  rewrite E. simpl. by rewrite pair_up_flatten, list_to_map_to_list.
Defined.

#[local] Existing Instances list_store binary_uuid binary_clock same_bytes plain_base64 all_times
  plain_audit local_urls marked_list marked_options.

Definition sample_preset (layer : string) : Cpp.t :=
  CreatePersonalPreset.mk PersonalPresetType.Print_ "fine" "2.3.1.0" "base" None None
    {["layer_height"%string := layer]}.

(** The tenant with its administrator [a0] and the member [b0], no presets yet. *)
Definition no_presets : Pdb.t := PresetsDb.mk (after (with_link ++ [join])) [] [].

Lemma no_presets_ok : presets_ok no_presets.
Proof.
  split; [apply after_ok|]. split; simpl; try (apply NoDup_nil_2); try done.
Qed.

Definition bob_creates (p layer : string) : preset_op :=
  CreatePreset (draws p) sample_tenant "b0" (sample_preset layer) actor.
Definition with_preset : Pdb.t := run_presets [bob_creates "p" "0.2"] no_presets.

Lemma presets_invariant_witness :
  presets_ok (run_presets [bob_creates "p" "0.2"; bob_creates "q" "0.1";
    DeletePreset (draws "s") sample_tenant "a0" "p0" actor;
    OnAccounts (RemoveUser (draws "r") sample_tenant "b0" actor)] no_presets).
Proof. apply (presets_invariant _ _ no_presets_ok). Defined.

Lemma preset_change_is_newest_witness :
  exists s' p, replace (draws "u") sample_tenant "b0" "p0" (sample_preset "0.1") actor with_preset = (s', Ok p)
    /\ get sample_tenant "b0" (PersonalPreset.id p) s' = (s', Ok (Some p)).
Proof.
  destruct (replace (draws "u") sample_tenant "b0" "p0" (sample_preset "0.1") actor with_preset)
    as [s' res] eqn:E.
  assert (exists p, res = Ok p) as [p ->].
  { change res with (snd (s', res)). rewrite <- E. vm_compute. eexists. reflexivity. }
  exists s', p. split; [reflexivity|].
  destruct (preset_change_is_newest _ _ _ _ _ _ _ _ _ (run_presets_ok _ _ no_presets_ok)
              (or_intror E)) as (_ & Hget & _). exact Hget.
Defined.

Lemma preset_create_idempotent_witness :
  exists s' p, create (draws "p") sample_tenant "b0" (sample_preset "0.2") actor no_presets = (s', Ok p)
    /\ create (draws "q") sample_tenant "b0" (sample_preset "0.2") AuditActor.no_auth s' = (s', Ok p).
Proof.
  destruct (create (draws "p") sample_tenant "b0" (sample_preset "0.2") actor no_presets) as [s' res] eqn:E.
  assert (exists p, res = Ok p) as [p ->].
  { change res with (snd (s', res)). rewrite <- E. vm_compute. eexists. reflexivity. }
  exists s', p. split; [reflexivity|]. exact (preset_create_idempotent _ _ _ _ _ _ _ _ _ _ no_presets_ok E).
Defined.

Lemma preset_owner_isolation_witness :
  get sample_tenant "a0" "p0"
    (run_presets [DeletePreset (draws "s") sample_tenant "a0" "p0" actor] with_preset)
  = (run_presets [DeletePreset (draws "s") sample_tenant "a0" "p0" actor] with_preset, Ok None).
Proof.
  destruct (head_row (Pdb.presets with_preset)) as [r|] eqn:Er; [|vm_compute in Er; discriminate].
  assert (PresetsModel.id r = "p0"%string /\ snd (pkey r) = "b0"%string) as [Eid Ek].
  { vm_compute in Er. injection Er as <-. vm_compute. repeat split. }
  apply head_row_In in Er. rewrite <- Eid.
  refine (proj1 (proj2 (preset_owner_isolation [DeletePreset (draws "s") sample_tenant "a0" (PresetsModel.id r) actor]
    with_preset r sample_tenant "a0" (sample_preset "0.1") (draws "u") actor
    (run_presets_ok _ _ no_presets_ok) Er _ _))).
  - constructor; [|constructor]. eexists. split; [reflexivity|]. intros E. rewrite <- E in Ek. discriminate Ek.
  - intros E. rewrite E in Ek. discriminate Ek.
Defined.
