(* ===== verification/AgentMaterials.v ===== *)
(** * The agent's material patches

    [pandar-agent/src/machine/materials.rs] with its modules, and the section of
    a printer's MQTT report they read ([mqtt/report/materials.rs]): what the
    agent makes of the AMS units and external spools a printer reports, as the
    JSON document it sends to the Hub. *)

From S2P Require Import Prelude RustStr RustFloat Json Serde Ams.

#[local] Open Scope Z_scope.

(** How [serde_json] prints a float. *)
Class FloatText := { float_to_string : float -> string }.

(** ** The report ([mqtt/report/materials.rs]) *)

Inductive ScalarValue := SString (s : string) | SNumber (n : Number) | SBool (b : bool).

Module ScalarValue.
Definition decode (j : json) : option ScalarValue :=
  match j with
  | Str s => Some (SString s)
  | Num n => Some (SNumber n)
  | Bool b => Some (SBool b)
  | _ => None
  end.

Definition as_i64 (n : Number) : option Z :=
  match n with PosInt n => try_int i64_min i64_max n | NegInt n => Some n | Float _ => None end.
(** [Number::from(i64)]. *)
Definition number_from_i64 (n : Z) : Number := if n <? 0 then NegInt n else PosInt n.
(** [Number::from_f64]. *)
Definition number_from_f64 (x : float) : option Number := if is_finite x then Some (Float x) else None.

Definition number_to_string `{FloatText} (n : Number) : string :=
  match n with PosInt n | NegInt n => dec n | Float x => float_to_string x end.

(** [ScalarValue::string]. *)
Definition string_of `{FloatText} (v : ScalarValue) : option string :=
  match v with
  | SString raw => let trimmed := trim raw in
                   if beq trimmed EmptyString then None else Some trimmed
  | SNumber value => Some (number_to_string value)
  | SBool value => Some (if value then "true" else "false")%string
  end.

Definition number (v : ScalarValue) : option Number :=
  match v with
  | SNumber number => Some number
  | SString raw =>
      let raw := trim raw in
      opt_or (number_from_i64 <$> parse_signed 10 i64_min i64_max raw)
        (parse_float f64_prec f64_emax raw ≫= number_from_f64)
  | SBool _ => None
  end.

Definition parse_i64 (v : ScalarValue) : option Z :=
  match v with
  | SNumber number => opt_or (as_i64 number) (Number.as_u64 number ≫= try_int i64_min i64_max)
  | SString raw => parse_signed 10 i64_min i64_max (trim raw)
  | SBool _ => None
  end.

Definition parse_u64_or_hex (v : ScalarValue) : option Z :=
  match v with
  | SNumber number => Number.as_u64 number
  | SString raw =>
      let trimmed := trim raw in
      let hex := default trimmed (opt_or (strip_prefix "0x" trimmed) (strip_prefix "0X" trimmed)) in
      parse_unsigned 16 u64_max hex
  | SBool _ => None
  end.
End ScalarValue.

Inductive ColorSource := Single (v : ScalarValue) | ColorList (values : list ScalarValue).

Definition decode_color (j : json) : option ColorSource :=
  opt_or (Single <$> ScalarValue.decode j) (ColorList <$> decode_vec ScalarValue.decode j).

Module MaterialSlotReport.
Record t := mk {
  id : option ScalarValue; tray_id : option ScalarValue; external_id : option ScalarValue;
  state : option ScalarValue; tray_info_idx : option ScalarValue; setting_id : option ScalarValue;
  tray_type : option ScalarValue; tag_uid : option ScalarValue; tray_uuid : option ScalarValue;
  tray_sub_brands : option ScalarValue; remain : option ScalarValue; k : option ScalarValue;
  k_value : option ScalarValue; tray_color : option ScalarValue; cols : option ColorSource;
  toolhead : option ScalarValue; extruder_id : option ScalarValue }.

Definition names : list string :=
  ["id"; "tray_id"; "external_id"; "state"; "tray_info_idx"; "setting_id"; "tray_type"; "tag_uid";
   "tray_uuid"; "tray_sub_brands"; "remain"; "k"; "k_value"; "tray_color"; "cols"; "toolhead";
   "extruder_id"]%string.

Definition decode (j : json) : option t :=
  v ← struct_fields names j;
  let scalar name := v name ≫= opt_of ScalarValue.decode in
  id ← scalar "id"%string; tray_id ← scalar "tray_id"%string;
  external_id ← scalar "external_id"%string; state ← scalar "state"%string;
  tray_info_idx ← scalar "tray_info_idx"%string; setting_id ← scalar "setting_id"%string;
  tray_type ← scalar "tray_type"%string; tag_uid ← scalar "tag_uid"%string;
  tray_uuid ← scalar "tray_uuid"%string; tray_sub_brands ← scalar "tray_sub_brands"%string;
  remain ← scalar "remain"%string; k ← scalar "k"%string; k_value ← scalar "k_value"%string;
  tray_color ← scalar "tray_color"%string; cols ← v "cols"%string ≫= opt_of decode_color;
  toolhead ← scalar "toolhead"%string; extruder_id ← scalar "extruder_id"%string;
  Some (mk id tray_id external_id state tray_info_idx setting_id tray_type tag_uid tray_uuid
          tray_sub_brands remain k k_value tray_color cols toolhead extruder_id).
End MaterialSlotReport.
Module Slot := MaterialSlotReport.

Inductive ExternalMaterialSource :=
| ExternalArray (entries : list Slot.t)
| ExternalObject (entry : Slot.t).

(** Untagged: what is not a list of slots may still be one slot. *)
Definition decode_external (j : json) : option ExternalMaterialSource :=
  opt_or (ExternalArray <$> decode_vec Slot.decode j) (ExternalObject <$> Slot.decode j).

Module AmsUnitReport.
Record t := mk {
  id : option ScalarValue; ams_id : option ScalarValue; info : option ScalarValue;
  humidity : option ScalarValue; humidity_raw : option ScalarValue;
  temperature_celsius : option ScalarValue; temp : option ScalarValue;
  dry_time : option ScalarValue; trays : list Slot.t }.

Definition names : list string :=
  ["id"; "ams_id"; "info"; "humidity"; "humidity_raw"; "temperature_celsius"; "temp"; "dry_time";
   "tray"]%string.

Definition decode (j : json) : option t :=
  v ← struct_fields names j;
  let scalar name := v name ≫= opt_of ScalarValue.decode in
  id ← scalar "id"%string; ams_id ← scalar "ams_id"%string; info ← scalar "info"%string;
  humidity ← scalar "humidity"%string; humidity_raw ← scalar "humidity_raw"%string;
  temperature_celsius ← scalar "temperature_celsius"%string; temp ← scalar "temp"%string;
  dry_time ← scalar "dry_time"%string; trays ← v "tray"%string ≫= vec_or_default Slot.decode;
  Some (mk id ams_id info humidity humidity_raw temperature_celsius temp dry_time trays).
End AmsUnitReport.
Module Unit_ := AmsUnitReport.

Module AmsReport.
Record t := mk {
  ams : list Unit_.t; tray_now : option ScalarValue; power_on_flag : option bool;
  tray_exist_bits : option ScalarValue; vt_tray : option ExternalMaterialSource;
  vir_slot : option ExternalMaterialSource }.

Definition names : list string :=
  ["ams"; "tray_now"; "power_on_flag"; "tray_exist_bits"; "vt_tray"; "vir_slot"]%string.

Definition decode (j : json) : option t :=
  v ← struct_fields names j;
  ams ← v "ams"%string ≫= vec_or_default Unit_.decode;
  tray_now ← v "tray_now"%string ≫= opt_of ScalarValue.decode;
  power_on_flag ← v "power_on_flag"%string ≫= opt_bool;
  tray_exist_bits ← v "tray_exist_bits"%string ≫= opt_of ScalarValue.decode;
  vt_tray ← v "vt_tray"%string ≫= opt_of decode_external;
  vir_slot ← v "vir_slot"%string ≫= opt_of decode_external;
  Some (mk ams tray_now power_on_flag tray_exist_bits vt_tray vir_slot).
End AmsReport.

Module PrintMaterialsReport.
(** A nozzle's fields are read and dropped. *)
Record t := mk {
  cfg : option ScalarValue; aux : option ScalarValue; stat : option ScalarValue;
  ams : option AmsReport.t; vt_tray : option ExternalMaterialSource;
  vir_slot : option ExternalMaterialSource; nozzle_temper2 : option ScalarValue;
  right_nozzle_temper : option ScalarValue; nozzles : option (list unit) }.

Definition names : list string :=
  ["cfg"; "aux"; "stat"; "ams"; "vt_tray"; "vir_slot"; "nozzle_temper2"; "right_nozzle_temper";
   "nozzles"]%string.

Definition decode_nozzle (j : json) : option unit :=
  match j with Object _ => Some tt | _ => None end.

Definition decode (j : json) : option t :=
  v ← struct_fields names j;
  let scalar name := v name ≫= opt_of ScalarValue.decode in
  cfg ← scalar "cfg"%string; aux ← scalar "aux"%string; stat ← scalar "stat"%string;
  ams ← v "ams"%string ≫= opt_of AmsReport.decode;
  vt_tray ← v "vt_tray"%string ≫= opt_of decode_external;
  vir_slot ← v "vir_slot"%string ≫= opt_of decode_external;
  nozzle_temper2 ← scalar "nozzle_temper2"%string;
  right_nozzle_temper ← scalar "right_nozzle_temper"%string;
  nozzles ← v "nozzles"%string ≫= opt_of (decode_vec decode_nozzle);
  Some (mk cfg aux stat ams vt_tray vir_slot nozzle_temper2 right_nozzle_temper nozzles).
End PrintMaterialsReport.
Module Print := PrintMaterialsReport.

Module MaterialsReport.
Record t := mk { print : option Print.t }.

Definition decode (j : json) : option t :=
  v ← struct_fields ["print"%string] j;
  print ← v "print"%string ≫= opt_of Print.decode;
  Some (mk print).
End MaterialsReport.

(** ** The patch ([materials/patch.rs]) *)

Module MaterialFieldsPatch.
Record t := mk {
  state : option string; filament_id : option string; setting_id : option string;
  filament_type : option string; color : option string; multi_color : option (list string);
  tag_uid : option string; tray_uuid : option string; name : option string;
  remaining_estimate : option string; k_value : option string; toolhead : option string }.
End MaterialFieldsPatch.
Module Fields := MaterialFieldsPatch.

Module MaterialTrayEntryPatch.
Record t := mk {
  tray_id : string; exists_ : bool; unit_kind : option AmsUnitKind; global_tray_id : option Z;
  fields : Fields.t }.
End MaterialTrayEntryPatch.
Module Entry := MaterialTrayEntryPatch.

(** The fields of [EmptyTrayClear] that [empty_tray_clear_patch] does not fix. *)
Module EmptyTrayClear.
Record t := mk { tray_id : string; unit_kind : AmsUnitKind; global_tray_id : option Z }.
End EmptyTrayClear.
Module Clear := EmptyTrayClear.

Inductive MaterialTrayPatch := Present (entry : Entry.t) | EmptyClear (clear : Clear.t).

Module AmsUnitPatch.
Record t := mk {
  unit_id : string; unit_kind : option AmsUnitKind; info : option string; humidity : option Number;
  humidity_level : option Number; temperature_celsius : option Number; dry_status : option Number;
  dry_time_minutes : option Number; toolhead : option string; trays : list MaterialTrayPatch;
  replace_trays : bool }.
End AmsUnitPatch.
Module UnitPatch := AmsUnitPatch.

Module ExternalSpoolPatch.
Record t := mk { external_id : string; exists_ : bool; tray_id : string; fields : Fields.t }.
End ExternalSpoolPatch.
Module Spool := ExternalSpoolPatch.

Inductive ActiveTrayPatch :=
| NoTray
| External
| AmsTray (global_tray_id : Z) (ams_id tray_id : option string)
| AmsHtTray (ams_id : string).

Module MaterialPatchDocument.
Record t := mk {
  observed_at : string; cfg : option string; aux : option string; stat : option string;
  filament_switch_installed : option bool; ams_units : list UnitPatch.t;
  external_spools : option (list Spool.t); replace_external_spools : bool;
  active_tray : option ActiveTrayPatch }.
End MaterialPatchDocument.
Module Patch := MaterialPatchDocument.

(** ** Identifiers ([materials/identifiers.rs]) *)

Definition underscore (c : ascii) : bool := byte_is 95 c.

Definition strip_version_suffix (value : string) : string :=
  match before_last underscore value with
  | None => value
  | Some base => if str_forall is_digit (after_last underscore value) then base else value
  end.

Definition derive_setting_id (filament_id : string) : string :=
  let base := strip_version_suffix filament_id in
  match strip_prefix "GFL" base with Some rest => "GFSL" +:+ rest | None => base end.

Definition derive_filament_id (setting_id : string) : string :=
  let base := strip_version_suffix setting_id in
  match strip_prefix "GFSL" base with Some rest => "GFL" +:+ rest | None => base end.

(** [trim_start_matches("0x").trim_start_matches("0X")]. *)
Definition strip_hex (raw : string) : string := trim_start_matches "0X" (trim_start_matches "0x" raw).

Definition parse_u64 (s : string) : option Z := parse_unsigned 10 u64_max s.

(** [u64::checked_shl]. *)
Definition checked_shl (v offset : Z) : option Z :=
  if offset <? 64 then Some (Z.land (Z.shiftl v offset) u64_max) else None.

Section Normalize.
Context `{FloatText}.

Definition normalized_string (value : option ScalarValue) : option string := value ≫= ScalarValue.string_of.

Definition unit_id (unit : Unit_.t) : option string :=
  opt_or (normalized_string (Unit_.id unit)) (normalized_string (Unit_.ams_id unit)).
Definition tray_id (tray : Slot.t) : option string :=
  opt_or (normalized_string (Slot.id tray)) (normalized_string (Slot.tray_id tray)).

Definition unit_kind (unit_id : string) (info : option ScalarValue) (tray_exist_bits : option Z)
  : option AmsUnitKind :=
  match normalized_string info ≫= AmsUnitKind.from_studio_info with
  | Some kind => Some kind
  | None =>
      let fallback := AmsUnitKind.from_unit_id unit_id in
      if beq fallback AmsHt then Some fallback
      else
        unit_id ← parse_u64 unit_id;
        offset ← try_int 0 u64_max (unit_id * 4) ≫= try_int 0 u32_max;
        mask ← checked_shl 15 offset;
        if is_some_and (fun bits => negb (Z.land bits mask =? 0)) tray_exist_bits
        then Some fallback else None
  end.

Definition global_tray_id (unit_id tray_id : string) (unit_kind : option AmsUnitKind) : option Z :=
  unit_id ← parse_u64 unit_id;
  tray_id ← parse_u64 tray_id;
  kind ← unit_kind;
  AmsUnitKind.global_tray_id kind unit_id tray_id.

Definition parse_dry_status (value : option ScalarValue) : option Z :=
  raw ← normalized_string value;
  parsed ← parse_unsigned 16 u64_max (strip_hex raw);
  Some (Z.land (Z.shiftr parsed 4) 15).

(** ** Fields of a slot ([materials.rs]) *)

Definition normalize_color_str (value : string) : option string :=
  let raw := trim_start_matches "#" (trim value) in
  let valid_len := (String.length raw =? 6)%nat || (String.length raw =? 8)%nat in
  if valid_len && str_forall is_hexdigit raw then Some (to_ascii_uppercase raw) else None.

Definition normalize_color (value : ScalarValue) : option string :=
  ScalarValue.string_of value ≫= normalize_color_str.

Definition normalize_multi_color (value : ColorSource) : option (list string) :=
  let colors := match value with
                | ColorList values => omap normalize_color values
                | Single (SString raw) => omap normalize_color_str (split "," raw)
                | Single value => match normalize_color value with Some c => [c] | None => [] end
                end in
  match colors with [] => None | _ => Some colors end.

Definition normalize_extruder_toolhead (value : ScalarValue) : option string :=
  match ScalarValue.parse_i64 value with
  | Some 0 => Some "R"%string
  | Some 1 => Some "L"%string
  | _ => None
  end.

(** The toolhead a slot names. *)
Definition slot_toolhead (source : Slot.t) : option string :=
  opt_or (normalized_string (Slot.toolhead source)) (Slot.extruder_id source ≫= normalize_extruder_toolhead).

Definition material_fields (source : Slot.t) : Fields.t :=
  let filament_id := opt_or (normalized_string (Slot.tray_info_idx source))
                       (derive_filament_id <$> normalized_string (Slot.setting_id source)) in
  let setting_id := opt_or (normalized_string (Slot.setting_id source))
                      (derive_setting_id <$> normalized_string (Slot.tray_info_idx source)) in
  Fields.mk (normalized_string (Slot.state source)) filament_id setting_id
    (normalized_string (Slot.tray_type source)) (Slot.tray_color source ≫= normalize_color)
    (Slot.cols source ≫= normalize_multi_color) (normalized_string (Slot.tag_uid source))
    (normalized_string (Slot.tray_uuid source)) (normalized_string (Slot.tray_sub_brands source))
    (normalized_string (Slot.remain source))
    (normalized_string (opt_or (Slot.k source) (Slot.k_value source))) (slot_toolhead source).

(** ** External spools ([materials/external.rs]) *)

Definition external_id_for_toolhead (toolhead : string) : string :=
  if beq toolhead "L"%string || beq toolhead "l"%string then "254" else "255".

Definition normalize_external_id (spool : Slot.t) (index : nat) (multi : bool) : string :=
  match slot_toolhead spool with
  | Some toolhead => external_id_for_toolhead toolhead
  | None =>
      let by_index := if multi && (index =? 0)%nat then "255"%string else "254"%string in
      match normalized_string (opt_or (Slot.external_id spool) (Slot.id spool)) with
      | Some id => if beq id "254"%string || beq id "255"%string then id else by_index
      | None => by_index
      end
  end.

Definition normalize_external_spool (spool : Slot.t) (index : nat) (multi : bool) : Spool.t :=
  Spool.mk (normalize_external_id spool index multi) true
    (if multi then dec (Z.of_nat index) else "0"%string) (material_fields spool).

(** [Some (spools, replace)]. *)
Definition normalize_external_source (value : ExternalMaterialSource) (vir_slot : bool)
  : list Spool.t * bool :=
  match value with
  | ExternalObject entry => ([normalize_external_spool entry 0 false], false)
  | ExternalArray [] => ([], true)
  | ExternalArray entries =>
      let multi := (1 <? length entries)%nat in
      (imap (fun index spool => normalize_external_spool spool index multi) entries, vir_slot || multi)
  end.

Definition normalize_external_spools (print : Print.t) : option (list Spool.t * bool) :=
  ams ← Print.ams print;
  match opt_or (Print.vir_slot print) (AmsReport.vir_slot ams) with
  | Some vir_slot => Some (normalize_external_source vir_slot true)
  | None =>
      vt_tray ← opt_or (Print.vt_tray print) (AmsReport.vt_tray ams);
      Some (normalize_external_source vt_tray false)
  end.

Definition external_slot_id (slot : Slot.t) : option string :=
  opt_or (normalized_string (Slot.id slot)) (normalized_string (Slot.external_id slot)).

Definition has_dual_external_source (source : option ExternalMaterialSource) : bool :=
  match source with
  | Some (ExternalArray slots) =>
      existsb (fun slot => beq (external_slot_id slot) (Some "255"%string)) slots
      && existsb (fun slot => beq (external_slot_id slot) (Some "254"%string)) slots
  | _ => false
  end.

Definition has_dual_external_slots (print : Print.t) (ams : AmsReport.t) : bool :=
  has_dual_external_source (opt_or (Print.vir_slot print) (Print.vt_tray print))
  || has_dual_external_source (opt_or (AmsReport.vir_slot ams) (AmsReport.vt_tray ams)).

(** ** Units ([materials.rs]) *)

Definition normalize_tray (unit_id : string) (unit_kind : option AmsUnitKind) (tray : Slot.t)
  : option (string * MaterialTrayPatch) :=
  id ← tray_id tray;
  Some (id, Present (Entry.mk id true unit_kind (global_tray_id unit_id id unit_kind)
                       (material_fields tray))).

Definition empty_tray_clear (unit_id : string) (unit_kind : AmsUnitKind) (slot : Z)
  : string * MaterialTrayPatch :=
  (dec slot, EmptyClear (Clear.mk (dec slot) unit_kind (global_tray_id unit_id (dec slot) (Some unit_kind)))).

(** [trays.iter().position(..)] and the replacement there, or [push]. *)
Fixpoint replace_or_push (tray_id : string) (new : string * MaterialTrayPatch)
    (trays : list (string * MaterialTrayPatch)) : list (string * MaterialTrayPatch) :=
  match trays with
  | [] => [new]
  | tray :: trays => if beq tray.1 tray_id then new :: trays else tray :: replace_or_push tray_id new trays
  end.

(** One turn of the loop over the slots. *)
Definition clear_slot (unit_id : string) (unit_id_number : Z) (unit_kind : AmsUnitKind) (bits : Z)
    (trays : list (string * MaterialTrayPatch)) (slot : Z) : list (string * MaterialTrayPatch) :=
  match AmsUnitKind.global_tray_id unit_kind unit_id_number slot with
  | None => trays
  | Some bit_index =>
      if (bit_index <? 64) && negb (Z.land bits (Z.shiftl 1 bit_index) =? 0) then trays
      else replace_or_push (dec slot) (empty_tray_clear unit_id unit_kind slot) trays
  end.

Definition apply_empty_tray_clears (trays : list (string * MaterialTrayPatch)) (unit_id : string)
    (unit_kind : AmsUnitKind) (bits : Z) : list (string * MaterialTrayPatch) :=
  match parse_u64 unit_id with
  | None => trays
  | Some number => fold_left (clear_slot unit_id number unit_kind bits) [0; 1; 2; 3] trays
  end.

Definition normalize_ams_info (value : ScalarValue) : option string :=
  raw ← normalized_string (Some value);
  let raw := strip_hex raw in
  _ ← parse_unsigned 16 u64_max raw;
  Some (to_ascii_uppercase raw).

Definition normalize_toolhead (value : ScalarValue) (filament_switch_installed : option bool)
  : option string :=
  raw ← normalized_string (Some value);
  parsed ← parse_unsigned 16 u64_max (strip_hex raw);
  let port := Z.land (Z.shiftr parsed 8) 15 in
  let input := Z.land (Z.shiftr parsed 24) 15 in
  if port =? 0 then Some "R"%string
  else if port =? 1 then Some "L"%string
  else if (port =? 14) && beq filament_switch_installed (Some true) && ((input =? 0) || (input =? 1))
  then Some "LR"%string else None.

Definition has_dual_nozzle_report (print : Print.t) (ams : AmsReport.t) : bool :=
  is_some (Print.nozzle_temper2 print) || is_some (Print.right_nozzle_temper print)
  || is_some_and (fun nozzles => (1 <? length nozzles)%nat) (Print.nozzles print)
  || has_dual_external_slots print ams.

Definition default_dual_ams_toolhead (unit : Unit_.t) (unit_count : nat) (dual_nozzle : bool)
  : option string :=
  if negb dual_nozzle || negb (unit_count =? 2)%nat then None
  else id ← unit_id unit;
       if beq id "0"%string then Some "R"%string
       else if beq id "1"%string then Some "L"%string else None.

(** The trays of a unit: what is reported, with the slots that the printer says
    are empty cleared. *)
Definition normalize_trays (unit : Unit_.t) (id : string) (kind : option AmsUnitKind) (skip : bool)
    (tray_exist_bits : option Z) : list (string * MaterialTrayPatch) :=
  let normalized := omap (normalize_tray id kind) (Unit_.trays unit) in
  match kind, tray_exist_bits with
  | Some kind, Some bits =>
      if AmsUnitKind.uses_four_slot_exist_bits kind && negb skip
      then apply_empty_tray_clears normalized id kind bits else normalized
  | _, _ => normalized
  end.

Definition replaces_trays (kind : option AmsUnitKind) (trays : list (string * MaterialTrayPatch)) : bool :=
  is_some_and (fun kind => negb (AmsUnitKind.uses_four_slot_exist_bits kind)
                           || forallb (fun slot => existsb (fun tray => beq tray.1 (dec slot)) trays)
                                [0; 1; 2; 3]) kind.

Definition normalize_ams_unit (ams : AmsReport.t) (print : Print.t) (unit_count : nat)
    (filament_switch_installed : option bool) (unit : Unit_.t) : option UnitPatch.t :=
  let tray_exist_bits := AmsReport.tray_exist_bits ams ≫= ScalarValue.parse_u64_or_hex in
  let skip := beq (AmsReport.power_on_flag ams) (Some false) && beq tray_exist_bits (Some 0) in
  id ← unit_id unit;
  let kind := unit_kind id (Unit_.info unit) tray_exist_bits in
  let info := Unit_.info unit ≫= normalize_ams_info in
  let toolhead := match Unit_.info unit with
                  | Some info => normalize_toolhead info filament_switch_installed
                  | None =>
                      if beq filament_switch_installed (Some true) then None
                      else default_dual_ams_toolhead unit unit_count (has_dual_nozzle_report print ams)
                  end in
  let normalized := match Unit_.trays unit with
                    | [] => []
                    | _ => normalize_trays unit id kind skip tray_exist_bits
                    end in
  let replace_trays := match Unit_.trays unit with [] => false | _ => replaces_trays kind normalized end in
  let trays := map snd normalized in
  let dry_status := ScalarValue.number_from_i64 <$> parse_dry_status (Unit_.info unit) in
  let dry_time_minutes := Unit_.dry_time unit ≫= ScalarValue.number in
  if is_some (Unit_.humidity_raw unit) || is_some (Unit_.humidity unit)
     || is_some (Unit_.temperature_celsius unit) || is_some (Unit_.temp unit) || is_some info
     || is_some toolhead || is_some dry_status || is_some dry_time_minutes
     || negb (match trays with [] => true | _ => false end) || replace_trays
  then Some (UnitPatch.mk id kind info (Unit_.humidity_raw unit ≫= ScalarValue.number)
               (Unit_.humidity unit ≫= ScalarValue.number)
               (opt_or (Unit_.temperature_celsius unit) (Unit_.temp unit) ≫= ScalarValue.number)
               dry_status dry_time_minutes toolhead trays replace_trays)
  else None.

Definition normalize_ams_units (ams : AmsReport.t) (print : Print.t)
    (filament_switch_installed : option bool) : list UnitPatch.t :=
  let units := AmsReport.ams ams in
  omap (normalize_ams_unit ams print (length units) filament_switch_installed) units.

(** ** The active tray *)

Definition active_ams_route (units : list UnitPatch.t) (tray_now : Z) : option (string * string) :=
  if tray_now <? 0 then None
  else head (omap (fun unit =>
    head (omap (fun tray => match tray with
                            | Present tray => if beq (Entry.global_tray_id tray) (Some tray_now)
                                              then Some (UnitPatch.unit_id unit, Entry.tray_id tray)
                                              else None
                            | EmptyClear _ => None
                            end) (UnitPatch.trays unit))) units).

Definition normalize_active_tray (value : option ScalarValue) (units : list UnitPatch.t)
  : option ActiveTrayPatch :=
  tray_now ← value ≫= ScalarValue.parse_i64;
  if tray_now =? 255 then Some NoTray
  else if tray_now =? 254 then Some External
  else match active_ams_route units tray_now with
  | Some (ams_id, tray_id) => Some (AmsTray tray_now (Some ams_id) (Some tray_id))
  | None =>
      if in_range 0 15 tray_now
      then Some (AmsTray tray_now (Some (dec (tray_now / 4))) (Some (dec (tray_now mod 4))))
      else if in_range 24 27 tray_now then Some (AmsTray tray_now None None)
      else if in_range 128 135 tray_now then Some (AmsHtTray (dec tray_now))
      else None
  end.

Definition normalize_studio_flag (value : option ScalarValue) : option string :=
  match value with
  | Some (SString raw) =>
      let raw := strip_hex (trim raw) in
      if beq raw EmptyString then Some EmptyString
      else if is_some (parse_unsigned 16 u64_max raw) then Some (to_ascii_uppercase raw) else None
  | _ => None
  end.

Definition filament_switch_installed (aux : option string) : option bool :=
  aux ← aux;
  if beq aux EmptyString then Some false
  else parsed ← parse_unsigned 16 u64_max aux;
       Some (Z.land (Z.shiftr parsed 29) 1 =? 1).

Definition normalize_material_patch (report : MaterialsReport.t) (observed_at : string)
  : option Patch.t :=
  print ← MaterialsReport.print report;
  let cfg := normalize_studio_flag (Print.cfg print) in
  let aux := normalize_studio_flag (Print.aux print) in
  let stat := normalize_studio_flag (Print.stat print) in
  let switch := filament_switch_installed aux in
  let ams_units := match Print.ams print with
                   | Some ams => normalize_ams_units ams print switch
                   | None => []
                   end in
  let active_tray := ams ← Print.ams print; normalize_active_tray (AmsReport.tray_now ams) ams_units in
  let external := normalize_external_spools print in
  let patch := Patch.mk observed_at cfg aux stat switch ams_units (fst <$> external)
                 (default false (snd <$> external)) active_tray in
  if is_some cfg || is_some aux || is_some stat || is_some switch
     || negb (match ams_units with [] => true | _ => false end) || is_some (Patch.external_spools patch)
     || Patch.replace_external_spools patch || is_some active_tray
  then Some patch else None.
End Normalize.

(** ** The document: derived serializers *)

(** A field that [skip_serializing_if] leaves out when there is nothing. *)
Definition opt_field (name : string) (value : option json) : list (string * json) :=
  match value with Some j => [(name, j)] | None => [] end.
Definition opt_str (name : string) (value : option string) : list (string * json) :=
  opt_field name (Str <$> value).
Definition opt_num (name : string) (value : option Number) : list (string * json) :=
  opt_field name (Num <$> value).
Definition opt_int (value : option Z) : json := match value with Some n => Num (PosInt n) | None => Null end.

Definition kind_name (kind : AmsUnitKind) : string :=
  match kind with
  | Ams => "ams" | AmsLite => "ams_lite" | Ams2Pro => "ams_2_pro" | AmsHt => "ams_ht"
  | AmsLiteMixed => "ams_lite_mixed" | Unknown => "unknown"
  end.

Definition fields_json (f : Fields.t) : list (string * json) :=
  opt_str "state" (Fields.state f) ++ opt_str "filament_id" (Fields.filament_id f)
  ++ opt_str "setting_id" (Fields.setting_id f) ++ opt_str "type" (Fields.filament_type f)
  ++ opt_str "color" (Fields.color f)
  ++ opt_field "multi_color" ((fun l => Array (map Str l)) <$> Fields.multi_color f)
  ++ opt_str "tag_uid" (Fields.tag_uid f) ++ opt_str "tray_uuid" (Fields.tray_uuid f)
  ++ opt_str "name" (Fields.name f) ++ opt_str "remaining_estimate" (Fields.remaining_estimate f)
  ++ opt_str "k_value" (Fields.k_value f) ++ opt_str "toolhead" (Fields.toolhead f).

Definition entry_json (e : Entry.t) : json :=
  Object ([("tray_id", Str (Entry.tray_id e)); ("exists", Bool (Entry.exists_ e))]%string
          ++ opt_str "unit_kind" (kind_name <$> Entry.unit_kind e)
          ++ opt_field "global_tray_id" ((fun n => Num (PosInt n)) <$> Entry.global_tray_id e)
          ++ fields_json (Entry.fields e)).

(** What an empty slot says besides its id. *)
Definition clear_fields (c : Clear.t) : list (string * json) :=
  [("exists", Bool false); ("unit_kind", Str (kind_name (Clear.unit_kind c)));
   ("global_tray_id", opt_int (Clear.global_tray_id c)); ("state", Str "9"); ("filament_id", Null);
   ("setting_id", Null); ("type", Null); ("color", Null); ("multi_color", Null); ("tag_uid", Null);
   ("tray_uuid", Null); ("name", Null); ("remaining_estimate", Null)]%string.

Definition clear_json (c : Clear.t) : json :=
  Object (("tray_id"%string, Str (Clear.tray_id c)) :: clear_fields c).

Definition tray_json (tray : MaterialTrayPatch) : json :=
  match tray with Present entry => entry_json entry | EmptyClear clear => clear_json clear end.

Definition unit_json (u : UnitPatch.t) : json :=
  Object ([("unit_id"%string, Str (UnitPatch.unit_id u))]
          ++ opt_str "unit_kind" (kind_name <$> UnitPatch.unit_kind u)
          ++ opt_str "info" (UnitPatch.info u) ++ opt_num "humidity" (UnitPatch.humidity u)
          ++ opt_num "humidity_level" (UnitPatch.humidity_level u)
          ++ opt_num "temperature_celsius" (UnitPatch.temperature_celsius u)
          ++ opt_num "dry_status" (UnitPatch.dry_status u)
          ++ opt_num "dry_time_minutes" (UnitPatch.dry_time_minutes u)
          ++ opt_str "toolhead" (UnitPatch.toolhead u)
          ++ match UnitPatch.trays u with
             | [] => []
             | trays => [("trays"%string, Array (map tray_json trays))]
             end
          ++ if UnitPatch.replace_trays u then [("replace_trays"%string, Bool true)] else []).

Definition spool_json (s : Spool.t) : json :=
  Object ([("external_id", Str (Spool.external_id s)); ("exists", Bool (Spool.exists_ s));
           ("tray_id", Str (Spool.tray_id s))]%string ++ fields_json (Spool.fields s)).

Definition active_tray_json (active_tray : ActiveTrayPatch) : json :=
  match active_tray with
  | NoTray => Null
  | External => Object [("kind", Str "external"); ("external_id", Str "254"); ("tray_id", Str "0");
                        ("global_tray_id", Null)]%string
  | AmsTray global_tray_id ams_id tray_id =>
      Object ([("kind", Str "ams"); ("global_tray_id", Num (ScalarValue.number_from_i64 global_tray_id))]%string
              ++ opt_str "ams_id" ams_id ++ opt_str "tray_id" tray_id)
  | AmsHtTray ams_id =>
      Object [("kind", Str "ams_ht"); ("global_tray_id", Null); ("ams_id", Str ams_id);
              ("tray_id", Str "0")]%string
  end.

Definition patch_json (p : Patch.t) : json :=
  Object ([("type", Str "printer_material_patch"); ("observed_at", Str (Patch.observed_at p))]%string
          ++ opt_str "cfg" (Patch.cfg p) ++ opt_str "aux" (Patch.aux p) ++ opt_str "stat" (Patch.stat p)
          ++ opt_field "filament_switch_installed" (Bool <$> Patch.filament_switch_installed p)
          ++ match Patch.ams_units p with
             | [] => []
             | units => [("ams_units"%string, Array (map unit_json units))]
             end
          ++ opt_field "external_spools" ((fun l => Array (map spool_json l)) <$> Patch.external_spools p)
          ++ (if Patch.replace_external_spools p then [("replace_external_spools"%string, Bool true)] else [])
          ++ opt_field "active_tray" (active_tray_json <$> Patch.active_tray p)).
