(* ===== verification/StudioSequence.v ===== *)
(** * Studio's sequence ids

    [machine/mqtt/commands/sequence.rs]: the lock-free counter of the agent that
    numbers the commands it publishes, ten thousand ids from 20000.  The atomic cell is
    shared by every task: a call is a load and a compare-and-exchange, which fails and
    loads again when another call came between. *)

From stdpp Require Import relations.
From S2P Require Import Prelude RustStr.

#[local] Open Scope Z_scope.

Definition STUDIO_START_SEQUENCE_ID : Z := 20000.
Definition STUDIO_END_SEQUENCE_ID : Z := 30000.

(** What one turn of the loop computes from the loaded cell. *)
Definition current_sequence_id (current : Z) : Z :=
  if in_range STUDIO_START_SEQUENCE_ID (STUDIO_END_SEQUENCE_ID - 1) current
  then current else STUDIO_START_SEQUENCE_ID.
Definition next_cell (current : Z) : Z :=
  let sequence_id := current_sequence_id current in
  if STUDIO_END_SEQUENCE_ID <=? sequence_id + 1 then STUDIO_START_SEQUENCE_ID else sequence_id + 1.

(** [next_studio_sequence_id], when no other call comes between its load and its
    exchange: the id and the cell it leaves. *)
Definition next_studio_sequence_id (cell : Z) : string * Z :=
  (dec (current_sequence_id cell), next_cell cell).

(** ** Concurrent calls *)

Definition caller : Type := N.

Module Sequence.
(** The cell, the value each caller between its two instructions has loaded, and the
    ids returned so far, the last one first. *)
Record t := mk { cell : Z; loaded : gmap caller Z; issued : list Z }.
End Sequence.

(** The [static]. *)
Definition initial : Sequence.t := Sequence.mk STUDIO_START_SEQUENCE_ID ∅ [].

Definition load (c : caller) (s : Sequence.t) : Sequence.t :=
  Sequence.mk (Sequence.cell s) (<[c := Sequence.cell s]> (Sequence.loaded s)) (Sequence.issued s).

(** [compare_exchange(current, next)]: on success the id is returned. *)
Definition compare_exchange (c : caller) (current : Z) (s : Sequence.t) : Sequence.t :=
  let loaded := delete c (Sequence.loaded s) in
  if Sequence.cell s =? current
  then Sequence.mk (next_cell current) loaded (current_sequence_id current :: Sequence.issued s)
  else Sequence.mk (Sequence.cell s) loaded (Sequence.issued s).

Inductive sequence_step : Sequence.t -> Sequence.t -> Prop :=
| step_load c s : Sequence.loaded s !! c = None -> sequence_step s (load c s)
| step_exchange c current s :
    Sequence.loaded s !! c = Some current -> sequence_step s (compare_exchange c current s).

(** ** Lemmas *)

(** The [n]-th id. *)
Definition nth_id (n : nat) : Z := STUDIO_START_SEQUENCE_ID + Z.of_nat n mod 10000.

Lemma nth_id_range n : STUDIO_START_SEQUENCE_ID <= nth_id n < STUDIO_END_SEQUENCE_ID.
Proof.
  unfold nth_id, STUDIO_START_SEQUENCE_ID, STUDIO_END_SEQUENCE_ID.
  pose proof (Z.mod_pos_bound (Z.of_nat n) 10000). lia.
Qed.

Lemma current_nth n : current_sequence_id (nth_id n) = nth_id n.
Proof.
  unfold current_sequence_id, in_range. pose proof (nth_id_range n).
  by rewrite (proj2 (Z.leb_le _ _)), (proj2 (Z.leb_le (nth_id n) _)) by lia.
Qed.

Lemma next_nth n : next_cell (nth_id n) = nth_id (S n).
Proof.
  unfold next_cell. rewrite current_nth. pose proof (nth_id_range n).
  unfold nth_id, STUDIO_START_SEQUENCE_ID, STUDIO_END_SEQUENCE_ID in *.
  rewrite Nat2Z.inj_succ. unfold Z.succ. rewrite (Z.add_mod (Z.of_nat n) 1) by lia.
  destruct (Z.leb_spec 30000 (20000 + Z.of_nat n mod 10000 + 1)) as [L|G].
  - replace (Z.of_nat n mod 10000) with 9999 by lia. done.
  - rewrite (Z.mod_small (_ + _)) by (change (1 mod 10000) with 1; lia).
    change (1 mod 10000) with 1. lia.
Qed.

(** However the calls interleave, the cell is the next id and the ids issued are the
    ones before it, in order. *)
Record sequence_ok (s : Sequence.t) : Prop := {
  ok_cell : Sequence.cell s = nth_id (length (Sequence.issued s));
  ok_issued : rev (Sequence.issued s) = map nth_id (seq 0 (length (Sequence.issued s)));
}.

Lemma exchange_ok c current s : sequence_ok s -> sequence_ok (compare_exchange c current s).
Proof.
  intros [C I]. unfold compare_exchange.
  destruct (Z.eqb_spec (Sequence.cell s) current) as [<-|]; [|by constructor].
  constructor; cbn [Sequence.cell Sequence.issued length].
  - by rewrite C, next_nth.
  - rewrite seq_S, map_app. cbn [rev map]. by rewrite I, C, current_nth.
Qed.

Lemma reachable_sequence s : rtc sequence_step initial s -> sequence_ok s.
Proof.
  assert (forall s s', rtc sequence_step s s' -> sequence_ok s -> sequence_ok s') as H.
  { induction 1 as [|s1 s2 s3 Hstep _ IH]; [done|]. intros Hs. apply IH.
    destruct Hstep; [by destruct Hs|by apply exchange_ok]. }
  intros Hr. by apply (H _ _ Hr).
Qed.

(** ** Properties *)

(** C25: the ids concurrent callers obtain are those of one counter: however the loads
    and exchanges of the callers interleave, every id lies in Studio's range and the
    same id is returned again only after all ten thousand have been. *)
Theorem sequence_ids_distinct (s : Sequence.t) (Hr : rtc sequence_step initial s) :
  Forall (fun id => 20000 <= id < 30000) (Sequence.issued s)
  /\ forall i j id, rev (Sequence.issued s) !! i = Some id -> rev (Sequence.issued s) !! j = Some id ->
       (i < j)%nat -> Z.of_nat i + 10000 <= Z.of_nat j.
Proof.
  destruct (reachable_sequence s Hr) as [_ I]. split.
  - rewrite <- (rev_involutive (Sequence.issued s)). apply Forall_rev. rewrite I.
    apply Forall_map, Forall_forall. intros n _. apply nth_id_range.
  - rewrite I. intros i j id Hi Hj L.
    rewrite list_lookup_fmap in Hi, Hj.
    destruct (seq 0 _ !! i) as [i'|] eqn:Ei; [|done].
    destruct (seq 0 _ !! j) as [j'|] eqn:Ej; [|done].
    apply lookup_seq in Ei as [-> _], Ej as [-> _]. cbn in Hi, Hj.
    injection Hi as Hi. injection Hj as Hj. rewrite <- Hj in Hi. unfold nth_id in Hi.
    assert ((Z.of_nat j - Z.of_nat i) mod 10000 = 0) as M.
    { rewrite Zminus_mod. replace (Z.of_nat j mod 10000) with (Z.of_nat i mod 10000) by lia.
      by rewrite Z.sub_diag. }
    apply Z.mod_divide in M as [q M]; [|done]. clear Hi. lia.
Qed.

(** A caller whose exchange fails because another call came between. *)
Definition interleaved : Sequence.t :=
  compare_exchange 0%N 20000 (compare_exchange 1%N 20000 (load 1%N (load 0%N initial))).

Lemma interleaved_reachable : rtc sequence_step initial interleaved.
Proof.
  unfold interleaved. eapply rtc_r; [eapply rtc_r; [eapply rtc_r; [eapply rtc_r; [reflexivity|]|]|]|];
    by constructor.
Qed.

Lemma sequence_ids_distinct_witness :
  Forall (fun id => 20000 <= id < 30000) (Sequence.issued interleaved).
Proof. apply (sequence_ids_distinct interleaved). exact interleaved_reachable. Defined.
