(* ===== verification/MqttCommands.v ===== *)
(** * MQTT commands of the agent

    [machine/mqtt/commands.rs] and [commands/{axis,ams,rack,print_error,payload}.rs]:
    the commands the agent publishes to a printer, and their payloads. *)

From S2P Require Import Prelude RustStr RustFloat Json BTree CoreTypes H2c DeviceFeatures Ams PrinterOperation OperationWire ProjectFile StudioSequence.

#[local] Open Scope Z_scope.
#[local] Open Scope rust_scope.

(** ** Topics *)

Module BambuMqttTopics.
Record t := mk { report : string; request : string }.

Definition for_serial (serial : string) : t :=
  mk ("device/" +:+ serial +:+ "/report") ("device/" +:+ serial +:+ "/request").
End BambuMqttTopics.

(** ** Commands *)

Module AmsSlotCommand.
Record t := mk { ams_id : Z; slot_id : Z }.
End AmsSlotCommand.

Module AmsFilamentCommand.
Record t := mk { ams_id : Z; slot_id : Z; target : Z; extruder_id : option Z }.
End AmsFilamentCommand.

Module AmsDryingCommand.
Record t := mk {
  ams_id : Z; temperature_celsius : Z; duration_hours : Z; filament : string; rotate_tray : bool }.
End AmsDryingCommand.

Module HandlePrintErrorCommand.
Record t := mk {
  error_action : PrintErrorAction; print_error : Z; printer_job_id : string; sequence_id : Z }.
End HandlePrintErrorCommand.

(** [PrintSpeed::new]. *)
Definition print_speed_new (mode : Z) : result AnyError Z :=
  if negb (in_range 1 4 mode)
  then bail ("invalid Bambu print speed mode " +:+ dec mode +:+ "; expected 1..=4")
  else Ok mode.

Module BambuMqttCommand.
Inductive t : Type :=
| GetVersion
| RequestPushAll
| PausePrint
| ResumePrint
| StopPrint
| SetChamberLight (on : bool)
| SetChamberLightNode (node : string) (on : bool)
| SetPrintSpeed (speed : Z)
| SetFanSpeed (fan_index speed_percent : Z)
| SelectExtruder (extruder_id : Z)
| SetNozzleTemperature (extruder_id target_temp : Z)
| BackToCenter
| XyzControl (axis : PrinterAxis.t) (direction mode : Z)
| GcodeLine (param : string)
| AmsRereadRfid (command : AmsSlotCommand.t)
| AmsLoadFilament (command : AmsFilamentCommand.t)
| AmsUnloadFilament (command : AmsFilamentCommand.t)
| AmsStartDrying (command : AmsDryingCommand.t)
| AmsStopDrying (ams_id : Z)
| HandlePrintError (command : HandlePrintErrorCommand.t)
| GetAutoNozzleMapping (request : MappingRequest.t)
| NozzleHolderCtrl (action : Z)
| NozzleInfoConfirm (id : Z)
| HolderNozzleRefresh (id : Z)
| RawJson (payload : json)
| ProjectFile (command : ProjectFileCommand.t).
End BambuMqttCommand.

Module BambuMqttCommandPayload.
Record t := mk { payload : json; sequence_id : option string }.
End BambuMqttCommandPayload.

(** ** Payloads *)

(** A payload with one section. *)
Definition section_payload (section : string) (members : list (string * json)) : json :=
  to_value (member section (to_value members)).

Definition text_member (name text : string) : list (string * json) := member name (Str text).
Definition int_member (name : string) (z : Z) : list (string * json) := member name (int_value z).
Definition bool_member (name : string) (b : bool) : list (string * json) := member name (Bool b).

(** A command of a section under a fresh sequence id. *)
Definition with_sequence (section command : string) (members : list (string * json)) (cell : Z)
  : BambuMqttCommandPayload.t * Z :=
  let '(sequence_id, cell) := next_studio_sequence_id cell in
  (BambuMqttCommandPayload.mk
     (section_payload section
        (text_member "command" command ++ text_member "sequence_id" sequence_id ++ members))
     (Some sequence_id), cell).

Definition axis_name (axis : PrinterAxis.t) : string :=
  match axis with PrinterAxis.X => "X" | PrinterAxis.Y => "Y" | PrinterAxis.Z => "Z" end.

Definition command_name (action : PrintErrorAction) : string :=
  match action with Resume => "resume" | Ignore => "ignore" | Stop => "stop" end.

Definition chamber_light_payload (node : string) (on : bool) : Z -> BambuMqttCommandPayload.t * Z :=
  with_sequence "system" "ledctrl"
    (text_member "led_node" node ++ text_member "led_mode" (if on then "on" else "off")
     ++ int_member "led_on_time" 500 ++ int_member "led_off_time" 500
     ++ int_member "loop_times" 1 ++ int_member "interval_time" 1000).

Definition ams_load_filament_payload (command : AmsFilamentCommand.t)
  : Z -> BambuMqttCommandPayload.t * Z :=
  with_sequence "print" "ams_change_filament"
    (int_member "ams_id" (AmsFilamentCommand.ams_id command)
     ++ int_member "slot_id" (AmsFilamentCommand.slot_id command)
     ++ int_member "target" (AmsFilamentCommand.target command)
     ++ int_member "curr_temp" (-1) ++ int_member "tar_temp" (-1)
     ++ opt_member "extruder_id" int_value (AmsFilamentCommand.extruder_id command)).

Definition ams_unload_filament_payload (command : AmsFilamentCommand.t)
  : Z -> BambuMqttCommandPayload.t * Z :=
  with_sequence "print" "ams_change_filament"
    (int_member "ams_id" (AmsFilamentCommand.ams_id command) ++ int_member "slot_id" 255
     ++ int_member "target" 255 ++ int_member "curr_temp" 210 ++ int_member "tar_temp" 210).

Definition ams_drying_payload (ams_id mode : Z) (filament : string) (temp duration : Z)
    (rotate_tray : bool) (cooling_temp : Z) : Z -> BambuMqttCommandPayload.t * Z :=
  with_sequence "print" "ams_filament_drying"
    (int_member "ams_id" ams_id ++ int_member "mode" mode ++ text_member "filament" filament
     ++ int_member "temp" temp ++ int_member "duration" duration ++ int_member "humidity" 0
     ++ bool_member "rotate_tray" rotate_tray ++ int_member "cooling_temp" cooling_temp
     ++ bool_member "close_power_conflict" false).

Definition ams_start_drying_payload (c : AmsDryingCommand.t) : Z -> BambuMqttCommandPayload.t * Z :=
  ams_drying_payload (AmsDryingCommand.ams_id c) 1 (AmsDryingCommand.filament c)
    (AmsDryingCommand.temperature_celsius c) (AmsDryingCommand.duration_hours c)
    (AmsDryingCommand.rotate_tray c) 20.

Definition ams_stop_drying_payload (ams_id : Z) : Z -> BambuMqttCommandPayload.t * Z :=
  ams_drying_payload ams_id 0 EmptyString 0 0 false 0.

(** The recovery of a print error answers under the sequence id of the operation. *)
Definition print_error_payload (c : HandlePrintErrorCommand.t) : BambuMqttCommandPayload.t :=
  let sequence_id := dec (HandlePrintErrorCommand.sequence_id c) in
  BambuMqttCommandPayload.mk
    (section_payload "print"
       (text_member "command" (command_name (HandlePrintErrorCommand.error_action c))
        ++ text_member "err" (dec (HandlePrintErrorCommand.print_error c))
        ++ text_member "job_id" (HandlePrintErrorCommand.printer_job_id c)
        ++ text_member "param" "reserve" ++ text_member "sequence_id" sequence_id))
    (Some sequence_id).

(** An [f32] is serialized as the [f64] of the same value. *)
Definition f64_from_f32 (x : float) : float :=
  match x with
  | S754_finite s m e => binary_normalize f64_prec f64_emax (if s then Z.neg m else Z.pos m) e s
  | _ => x
  end.
Definition json_f32 (x : float) : json :=
  if is_finite x then Num (Float (f64_from_f32 x)) else Null.

Definition group_info_json (g : GroupInfo.t) : json :=
  to_value (int_member "id" (GroupInfo.id g) ++ int_member "ext" (GroupInfo.ext g)
    ++ member "dia" (json_f32 (GroupInfo.dia g)) ++ text_member "vol" (GroupInfo.vol g)).
Definition filament_info_json (f : FilamentInfo.t) : json :=
  to_value (int_member "id" (FilamentInfo.id f) ++ int_member "direction" (FilamentInfo.direction f)
    ++ int_member "group" (FilamentInfo.group f) ++ text_member "nozzle_d" (FilamentInfo.nozzle_d f)
    ++ text_member "nozzle_v" (FilamentInfo.nozzle_v f) ++ text_member "cate" (FilamentInfo.cate f)
    ++ text_member "color" (FilamentInfo.color f)).
Definition nozzle_info_json (n : NozzleInfo.t) : json :=
  to_value (int_member "pos" (NozzleInfo.pos n) ++ text_member "nozzle_d" (NozzleInfo.nozzle_d n)
    ++ text_member "nozzle_v" (NozzleInfo.nozzle_v n) ++ member "wear" (json_f32 (NozzleInfo.wear n))
    ++ text_member "cate" (NozzleInfo.cate n) ++ text_member "color" (NozzleInfo.color n)).

Definition array_of {A} (to_json : A -> json) (values : list A) : json := Array (map to_json values).

Definition mapping_request_members (r : MappingRequest.t) : list (string * json) :=
  text_member "command" (MappingRequest.command r)
  ++ text_member "sequence_id" (MappingRequest.sequence_id r)
  ++ opt_member "version" int_value (MappingRequest.version r)
  ++ opt_member "calibration" int_value (MappingRequest.calibration r)
  ++ opt_member "extrude_cali_manual_mode" int_value (MappingRequest.extrude_cali_manual_mode r)
  ++ opt_member "filament_seq" (array_of int_value) (MappingRequest.filament_seq r)
  ++ opt_member "ams_mapping" (array_of int_value) (MappingRequest.ams_mapping r)
  ++ opt_member "fila_info" (array_of filament_info_json) (MappingRequest.fila_info r)
  ++ opt_member "nozzle_info" (array_of nozzle_info_json) (MappingRequest.nozzle_info r)
  ++ opt_member "group_info" (array_of group_info_json) (MappingRequest.group_info r).

Section Payloads.
Context `{SlicerKey}.

(** [command_payload], on the sequence cell; [None] is the panic of a project file
    without a submission source. *)
Definition command_payload (command : BambuMqttCommand.t) (cell : Z)
  : option (BambuMqttCommandPayload.t * Z) :=
  match command with
  | BambuMqttCommand.GetVersion => Some (with_sequence "info" "get_version" [] cell)
  | BambuMqttCommand.RequestPushAll =>
      Some (with_sequence "pushing" "pushall"
        (int_member "version" 1 ++ int_member "push_target" 1) cell)
  | BambuMqttCommand.PausePrint => Some (with_sequence "print" "pause" (text_member "param" EmptyString) cell)
  | BambuMqttCommand.ResumePrint => Some (with_sequence "print" "resume" (text_member "param" EmptyString) cell)
  | BambuMqttCommand.StopPrint => Some (with_sequence "print" "stop" (text_member "param" EmptyString) cell)
  | BambuMqttCommand.SetChamberLight on => Some (chamber_light_payload "chamber_light" on cell)
  | BambuMqttCommand.SetChamberLightNode node on => Some (chamber_light_payload node on cell)
  | BambuMqttCommand.SetPrintSpeed speed =>
      Some (with_sequence "print" "print_speed" (text_member "param" (dec speed)) cell)
  | BambuMqttCommand.SetFanSpeed fan_index speed_percent =>
      Some (with_sequence "print" "set_fan"
        (int_member "fan_index" fan_index ++ int_member "speed" speed_percent) cell)
  | BambuMqttCommand.SelectExtruder extruder_id =>
      Some (with_sequence "print" "select_extruder" (int_member "extruder_index" extruder_id) cell)
  | BambuMqttCommand.SetNozzleTemperature extruder_id target_temp =>
      Some (with_sequence "print" "set_nozzle_temp"
        (int_member "extruder_index" extruder_id ++ int_member "target_temp" target_temp) cell)
  | BambuMqttCommand.BackToCenter => Some (with_sequence "print" "back_to_center" [] cell)
  | BambuMqttCommand.XyzControl axis direction mode =>
      Some (with_sequence "print" "xyz_ctrl"
        (text_member "axis" (axis_name axis) ++ int_member "dir" direction
         ++ int_member "mode" mode) cell)
  | BambuMqttCommand.GcodeLine param =>
      Some (with_sequence "print" "gcode_line" (text_member "param" param) cell)
  | BambuMqttCommand.AmsRereadRfid c =>
      Some (with_sequence "print" "ams_get_rfid"
        (int_member "ams_id" (AmsSlotCommand.ams_id c)
         ++ int_member "slot_id" (AmsSlotCommand.slot_id c)) cell)
  | BambuMqttCommand.AmsLoadFilament c => Some (ams_load_filament_payload c cell)
  | BambuMqttCommand.AmsUnloadFilament c => Some (ams_unload_filament_payload c cell)
  | BambuMqttCommand.AmsStartDrying c => Some (ams_start_drying_payload c cell)
  | BambuMqttCommand.AmsStopDrying ams_id => Some (ams_stop_drying_payload ams_id cell)
  | BambuMqttCommand.HandlePrintError c => Some (print_error_payload c, cell)
  | BambuMqttCommand.GetAutoNozzleMapping request =>
      Some (BambuMqttCommandPayload.mk
              (section_payload "print" (mapping_request_members request))
              (Some (MappingRequest.sequence_id request)), cell)
  | BambuMqttCommand.NozzleHolderCtrl action =>
      Some (with_sequence "print" "nozzle_holder_ctrl" (int_member "action" action) cell)
  | BambuMqttCommand.NozzleInfoConfirm id =>
      Some (with_sequence "print" "nozzle_info_confirm" (int_member "id" id) cell)
  | BambuMqttCommand.HolderNozzleRefresh id =>
      Some (with_sequence "print" "holder_nozzle_refresh" (int_member "id" id) cell)
  | BambuMqttCommand.RawJson payload => Some (BambuMqttCommandPayload.mk payload None, cell)
  | BambuMqttCommand.ProjectFile c =>
      let '(sequence_id, cell) := next_studio_sequence_id cell in
      payload ← project_file_payload sequence_id c;
      Some (BambuMqttCommandPayload.mk payload (Some sequence_id), cell)
  end.
End Payloads.

Definition chamber_light_commands_for_nodes (nodes : list string) (on : bool)
  : list BambuMqttCommand.t :=
  map (fun node => BambuMqttCommand.SetChamberLightNode node on) nodes.
