(* ===== verification/OperationCommands.v ===== *)
(** * The MQTT command of a printer operation

    [machine/operations/mqtt_command.rs] and the command half of
    [operations/axis.rs] of the agent.  A panic ([unreachable!]) is [None]. *)

From S2P Require Import Prelude RustStr RustFloat Json CoreTypes H2c DeviceFeatures Ams PrinterOperation OperationWire ProjectFile AgentMaterials MqttCommands.

#[local] Open Scope Z_scope.
#[local] Open Scope rust_scope.

(** ** Axis commands *)

(** [operation.required_device_features().first()]. *)
Definition first_required_feature (operation : PrinterOperation.t) : option BambuDeviceFeature :=
  RequiredDeviceFeature.bambu_feature <$> head (PrinterOperation.required_device_features operation).

Definition feature_bit (feature : BambuDeviceFeature) : string := dec (BambuDeviceFeature.bit feature).

Definition require_observed_feature (observed_features : option BambuDeviceFeatures)
    (required_feature : BambuDeviceFeature) : result AnyError unit :=
  match observed_features with
  | Some features =>
      if BambuDeviceFeatures.contains features required_feature then Ok tt
      else bail ("device feature bitmap " +:+ BambuDeviceFeatures.to_hex features
                 +:+ " is missing required feature bit " +:+ feature_bit required_feature)
  | None =>
      bail ("device feature observation is unavailable for required feature bit "
            +:+ feature_bit required_feature)
  end.

Definition home_gcode_line (axes : list PrinterAxis.t) : string :=
  foldl (fun line axis => line +:+ " " +:+ axis_name axis) "G28"%string axes.

Definition home_command (axes : list PrinterAxis.t) (required_feature : option BambuDeviceFeature)
    (observed_features : option BambuDeviceFeatures) : result AnyError BambuMqttCommand.t :=
  match required_feature with
  | None => Ok (BambuMqttCommand.GcodeLine (home_gcode_line axes))
  | Some MqttHoming =>
      match axes with
      | [] =>
          require_observed_feature observed_features MqttHoming ?;;
          Ok BambuMqttCommand.BackToCenter
      | _ => bail ("invalid modern home semantics for required device feature bit "
                   +:+ feature_bit MqttHoming)
      end
  | Some feature => bail ("invalid modern home semantics for required device feature bit "
                          +:+ feature_bit feature)
  end.

Definition modern_axis_move (x_mm y_mm z_mm feedrate_mm_per_min : option float)
  : result AnyError (PrinterAxis.t * float) :=
  let movements :=
    omap (fun '(axis, delta) => option_map (pair axis) delta)
      [(PrinterAxis.X, x_mm); (PrinterAxis.Y, y_mm); (PrinterAxis.Z, z_mm)] in
  let invalid :=
    bail "invalid modern axis movement; expected one axis by 1mm or 10mm without feedrate" in
  match movements with
  | [(axis, delta)] =>
      if is_some feedrate_mm_per_min
         || negb (feqb (fabs delta) f64_1 || feqb (fabs delta) f64_10)
      then invalid else Ok (axis, delta)
  | _ => invalid
  end.

Definition is_sign_positive (x : float) : bool :=
  match x with
  | S754_zero s | S754_infinity s | S754_finite s _ _ => negb s
  | S754_nan => true
  end.

Section Gcode.
Context `{FloatText}.

(** [value.to_string()] of an [f64]. *)
Definition format_gcode_number (value : float) : string := float_to_string value.

Definition move_gcode_line (x_mm y_mm z_mm feedrate_mm_per_min : option float) : string :=
  let line := foldl (fun line '(axis, value) =>
      match value with
      | Some value => line +:+ " " +:+ axis +:+ format_gcode_number value
      | None => line
      end) "G1"%string [("X", x_mm); ("Y", y_mm); ("Z", z_mm)]%string in
  match feedrate_mm_per_min with
  | Some value => line +:+ " F" +:+ format_gcode_number value
  | None => line
  end.

Definition legacy_move_lines (x_mm y_mm z_mm feedrate_mm_per_min : option float) : list string :=
  ["M211 S"; "M211 X1 Y1 Z1"; "M1002 push_ref_mode"; "G91";
   move_gcode_line x_mm y_mm z_mm feedrate_mm_per_min;
   "M1002 pop_ref_mode"; "M211 R"]%string.

Definition line_feed : string := String (Ascii.ascii_of_nat 10) EmptyString.

Definition move_axes_command (x_mm y_mm z_mm feedrate_mm_per_min : option float)
    (required_feature : option BambuDeviceFeature) (observed_features : option BambuDeviceFeatures)
  : result AnyError BambuMqttCommand.t :=
  match required_feature with
  | None =>
      Ok (BambuMqttCommand.GcodeLine
            (String.concat line_feed (legacy_move_lines x_mm y_mm z_mm feedrate_mm_per_min)))
  | Some MqttAxisControl =>
      movement <-? modern_axis_move x_mm y_mm z_mm feedrate_mm_per_min ;;
      require_observed_feature observed_features MqttAxisControl ?;;
      Ok (BambuMqttCommand.XyzControl movement.1
            (if is_sign_positive movement.2 then 1 else -1)
            (if feqb (fabs movement.2) f64_1 then 0 else 1))
  | Some feature => bail ("invalid modern axis movement semantics for required device feature bit "
                          +:+ feature_bit feature)
  end.

(** The last movement of each axis. *)
Definition movement_axes (movements : list Movement.t) : option float * option float * option float :=
  foldl (fun '(x, y, z) movement =>
      let delta := Some (Movement.delta_mm movement) in
      match Movement.axis movement with
      | PrinterAxis.X => (delta, y, z)
      | PrinterAxis.Y => (x, delta, z)
      | PrinterAxis.Z => (x, y, delta)
      end) (None, None, None) movements.

(** ** The mapping *)

Definition ams_command_ams_id (ams_id : Z) (external_id : option string) : Z :=
  if is_some external_id then 255 else ams_id.
Definition ams_command_slot_id (slot_id : Z) (external_id : option string) : Z :=
  if beq external_id (Some "254"%string) then 254 else slot_id.

Definition ams_filament_command (ams_id slot_id : Z) (global_tray_id : option Z)
    (external_id : option string) (extruder_id : option Z) : AmsFilamentCommand.t :=
  AmsFilamentCommand.mk (ams_command_ams_id ams_id external_id)
    (ams_command_slot_id slot_id external_id) (default slot_id global_tray_id) extruder_id.

(** [(u16::from(speed_percent) * 255 + 50) / 100]. *)
Definition fan_pwm (speed_percent : Z) : Z := (speed_percent * 255 + 50) / 100.

Definition gcode_line (param : string) : result AnyError BambuMqttCommand.t :=
  Ok (BambuMqttCommand.GcodeLine param).

Definition mqtt_command (operation : PrinterOperation.t)
    (observed_features : option BambuDeviceFeatures) : option (result AnyError BambuMqttCommand.t) :=
  match operation with
  | PrinterOperation.Pause => Some (Ok BambuMqttCommand.PausePrint)
  | PrinterOperation.Resume => Some (Ok BambuMqttCommand.ResumePrint)
  | PrinterOperation.Stop => Some (Ok BambuMqttCommand.StopPrint)
  | PrinterOperation.HandlePrintError error_action print_error printer_job_id sequence_id =>
      Some (Ok (BambuMqttCommand.HandlePrintError
        (HandlePrintErrorCommand.mk error_action print_error printer_job_id sequence_id)))
  | PrinterOperation.ToggleLight | PrinterOperation.SetChamberLight _ => None
  | PrinterOperation.SetPrintSpeed speed_mode =>
      Some (speed <-? print_speed_new speed_mode ;; Ok (BambuMqttCommand.SetPrintSpeed speed))
  | PrinterOperation.SetFanSpeed fan_index speed_percent airduct =>
      Some (if airduct then Ok (BambuMqttCommand.SetFanSpeed fan_index speed_percent)
            else gcode_line ("M106 P" +:+ dec fan_index +:+ " S" +:+ dec (fan_pwm speed_percent)))
  | PrinterOperation.GcodeLine param => Some (gcode_line param)
  | PrinterOperation.GetAutoNozzleMapping request =>
      Some (Ok (BambuMqttCommand.GetAutoNozzleMapping request))
  | PrinterOperation.NozzleHolderCtrl action => Some (Ok (BambuMqttCommand.NozzleHolderCtrl action))
  | PrinterOperation.NozzleInfoConfirm id => Some (Ok (BambuMqttCommand.NozzleInfoConfirm id))
  | PrinterOperation.HolderNozzleRefresh id => Some (Ok (BambuMqttCommand.HolderNozzleRefresh id))
  | PrinterOperation.SelectExtruder extruder_id =>
      Some (Ok (BambuMqttCommand.SelectExtruder extruder_id))
  | PrinterOperation.Home axes _ =>
      Some (home_command axes (first_required_feature operation) observed_features)
  | PrinterOperation.MoveAxes movements feedrate_mm_per_min _ =>
      let '(x_mm, y_mm, z_mm) := movement_axes movements in
      Some (move_axes_command x_mm y_mm z_mm (f64_of_Z <$> feedrate_mm_per_min)
              (first_required_feature operation) observed_features)
  | PrinterOperation.SetHotendTemperature temperature_celsius wait extruder_id =>
      Some (match extruder_id with
            | Some extruder_id =>
                Ok (BambuMqttCommand.SetNozzleTemperature extruder_id temperature_celsius)
            | None => gcode_line ((if wait then "M109" else "M104") +:+ " S" +:+ dec temperature_celsius)
            end)
  | PrinterOperation.SetBedTemperature temperature_celsius wait =>
      Some (gcode_line ((if wait then "M190" else "M140") +:+ " S" +:+ dec temperature_celsius))
  | PrinterOperation.SetChamberTemperature temperature_celsius wait =>
      Some (gcode_line
        (if wait
         then String.concat line_feed
                ["M106 P2 S255"; "M191 S" +:+ dec temperature_celsius; "M106 P2 S0"]%string
         else "M141 S" +:+ dec temperature_celsius))
  | PrinterOperation.AmsRereadRfid ams_id slot_id =>
      Some (Ok (BambuMqttCommand.AmsRereadRfid (AmsSlotCommand.mk ams_id slot_id)))
  | PrinterOperation.AmsLoadFilament ams_id slot_id global_tray_id external_id extruder_id =>
      Some (Ok (BambuMqttCommand.AmsLoadFilament
        (ams_filament_command ams_id slot_id global_tray_id external_id extruder_id)))
  | PrinterOperation.AmsUnloadFilament ams_id slot_id global_tray_id external_id extruder_id =>
      Some (Ok (BambuMqttCommand.AmsUnloadFilament
        (ams_filament_command ams_id slot_id global_tray_id external_id extruder_id)))
  | PrinterOperation.AmsStartDrying ams_id temperature_celsius duration_hours filament rotate_tray =>
      Some (Ok (BambuMqttCommand.AmsStartDrying
        (AmsDryingCommand.mk ams_id temperature_celsius duration_hours filament rotate_tray)))
  | PrinterOperation.AmsStopDrying ams_id => Some (Ok (BambuMqttCommand.AmsStopDrying ams_id))
  end.

(** [mqtt_command_for_printer_operation_with_features]: the validator, then the mapping. *)
Definition mqtt_command_for_printer_operation_with_features (operation : PrinterOperation.t)
    (observed_features : option BambuDeviceFeatures) : option (result AnyError BambuMqttCommand.t) :=
  match validate operation with
  | Err e => Some (Err e)
  | Ok _ => mqtt_command operation observed_features
  end.
End Gcode.

(** ** Specification *)

Definition is_light (o : PrinterOperation.t) : bool :=
  match o with PrinterOperation.ToggleLight | PrinterOperation.SetChamberLight _ => true | _ => false end.

(** Every feature the operation requires is in the observed bitmap. *)
Definition features_observed (o : PrinterOperation.t) (observed : option BambuDeviceFeatures) : Prop :=
  forall feature, In feature (PrinterOperation.required_device_features o) ->
    exists features, observed = Some features
      /\ BambuDeviceFeatures.contains features (RequiredDeviceFeature.bambu_feature feature) = true.

(** The step of a [xyz_ctrl] command, in millimetres. *)
Definition step_mm (direction mode : Z) : Z := direction * (if mode =? 0 then 1 else 10).

(** ** Lemmas *)

Lemma require_observed_iff observed feature :
  require_observed_feature observed feature = Ok tt
  <-> exists features, observed = Some features /\ BambuDeviceFeatures.contains features feature = true.
Proof.
  unfold require_observed_feature. destruct observed as [features|]; [|by split; [|intros (? & ? & _)]].
  destruct (BambuDeviceFeatures.contains features feature) eqn:E; split; try done.
  - intros _. by exists features.
  - intros (? & [= <-] & E'). congruence.
Qed.

(** A valid operation requires nothing, or is one of the two that use a feature. *)
Lemma valid_required o :
  validate o = Ok tt ->
  PrinterOperation.required_device_features o = []
  \/ o = PrinterOperation.Home [] [BambuMqttHoming]
  \/ exists m, o = PrinterOperation.MoveAxes [m] None [BambuMqttAxisControl]
       /\ (feqb (fabs (Movement.delta_mm m)) f64_1 || feqb (fabs (Movement.delta_mm m)) f64_10) = true.
Proof.
  destruct o; cbn [validate PrinterOperation.required_device_features]; try by left.
  - rewrite guard_Ok, negb_false_iff, home_features_iff. intros [->|[-> ->]]; [by left|by right; left].
  - rewrite rbind_Ok. intros (? & _ & V). destruct (valid_move_features _ _ _) eqn:E; [|done].
    unfold valid_move_features in E. rewrite orb_true_iff, beq_true in E.
    destruct E as [->|E]; [by left|]. right; right. destruct movements as [|m [|]]; try done.
    rewrite !andb_true_iff, beq_true, is_none_true in E. destruct E as [[-> E] ->]. by exists m.
Qed.

Lemma singleton_features_observed o feature observed :
  PrinterOperation.required_device_features o = [feature] ->
  features_observed o observed
  <-> require_observed_feature observed (RequiredDeviceFeature.bambu_feature feature) = Ok tt.
Proof.
  intros E. rewrite require_observed_iff. unfold features_observed. rewrite E. split.
  - intros H. apply H. by left.
  - by intros H f [<-|[]].
Qed.

Lemma denotes_sign x n k : denotes x n k -> Z.abs n = (if is_sign_positive x then 1 else -1) * n.
Proof.
  intros [Hk Hd]. destruct x as [s|s| |s m e]; try done; [by subst; destruct s|].
  destruct Hd as [He ->]. assert (0 < 2 ^ (e + k)) by (apply Z.pow_pos_nonneg; lia).
  destruct s; cbn; nia.
Qed.

(** The direction and the mode stand for the distance. *)
Lemma step_denotes x v n k :
  denotes x n k -> Z.abs n = v * 2 ^ k -> n = (if is_sign_positive x then 1 else -1) * v * 2 ^ k.
Proof. intros D A. pose proof (denotes_sign x n k D). destruct (is_sign_positive x); lia. Qed.

Section Mapping.
Context `{FloatText}.

Lemma step_command m observed :
  (feqb (fabs (Movement.delta_mm m)) f64_1 || feqb (fabs (Movement.delta_mm m)) f64_10) = true ->
  mqtt_command (PrinterOperation.MoveAxes [m] None [BambuMqttAxisControl]) observed
  = Some (require_observed_feature observed MqttAxisControl ?;;
          Ok (BambuMqttCommand.XyzControl (Movement.axis m)
                (if is_sign_positive (Movement.delta_mm m) then 1 else -1)
                (if feqb (fabs (Movement.delta_mm m)) f64_1 then 0 else 1))).
Proof.
  destruct m as [[] d]; cbn [Movement.axis Movement.delta_mm]; intros E;
    cbn -[feqb fabs f64_1 f64_10 require_observed_feature]; unfold modern_axis_move;
    cbn -[feqb fabs f64_1 f64_10 require_observed_feature]; by rewrite E.
Qed.

Lemma unconditional_command o observed :
  validate o = Ok tt -> is_light o = false -> PrinterOperation.required_device_features o = [] ->
  exists command, mqtt_command o observed = Some (Ok command).
Proof.
  destruct o; cbn [is_light validate PrinterOperation.required_device_features mqtt_command];
    unfold gcode_line; try done; try (intros; by eexists).
  - rewrite guard_Ok. intros V _ _. unfold print_speed_new. rewrite V. by eexists.
  - intros _ _ _. destruct airduct; by eexists.
  - intros _ _ ->. by eexists.
  - intros _ _ ->. destruct (movement_axes movements) as [[x y] z]. by eexists.
  - intros _ _ _. destruct extruder_id; by eexists.
Qed.

Lemma command_of_valid o observed :
  validate o = Ok tt ->
  mqtt_command_for_printer_operation_with_features o observed = mqtt_command o observed.
Proof. intros V. unfold mqtt_command_for_printer_operation_with_features. by rewrite V. Qed.

(** ** Properties *)

(** For an operation the validator accepts, other than the two chamber-light
    operations the dispatcher handles itself, the mapping does not panic, and it
    yields a command exactly when every device feature the operation requires is in
    the bitmap observed. *)
Lemma operation_command_gated (o : PrinterOperation.t) (observed : option BambuDeviceFeatures)
    (Hvalid : validate o = Ok tt) (Hlight : is_light o = false) :
  exists r, mqtt_command_for_printer_operation_with_features o observed = Some r
    /\ (is_ok r = true <-> features_observed o observed).
Proof.
  rewrite command_of_valid by done.
  destruct (valid_required o Hvalid) as [R|[->|(m & -> & E)]].
  - destruct (unconditional_command o observed Hvalid Hlight R) as [c ->]. eexists. split; [done|].
    split; [|done]. intros _ f Hf. by rewrite R in Hf.
  - eexists. split; [reflexivity|]. rewrite (singleton_features_observed _ BambuMqttHoming) by done.
    change (home_command _ _ _) with
      (require_observed_feature observed MqttHoming ?;; Ok BambuMqttCommand.BackToCenter).
    cbn [RequiredDeviceFeature.bambu_feature].
    by destruct (require_observed_feature observed MqttHoming) as [[]|].
  - rewrite step_command by done. eexists. split; [reflexivity|].
    rewrite (singleton_features_observed _ BambuMqttAxisControl) by done.
    cbn [RequiredDeviceFeature.bambu_feature].
    by destruct (require_observed_feature observed MqttAxisControl) as [[]|].
Qed.

(** C23: a move the firmware makes itself is the move that was asked for: the
    [xyz_ctrl] command names the axis of the one movement, and its direction and mode
    stand for exactly the distance requested, one or ten millimetres either way. *)
Theorem axis_control_exact (movements : list Movement.t) (feedrate : option Z)
    (features : BambuDeviceFeatures)
    (Hty : Forall (fun m => is_f64 (Movement.delta_mm m) = true) movements)
    (Hvalid : validate (PrinterOperation.MoveAxes movements feedrate [BambuMqttAxisControl]) = Ok tt)
    (Hobserved : BambuDeviceFeatures.contains features MqttAxisControl = true) :
  exists axis direction mode m,
    mqtt_command_for_printer_operation_with_features
      (PrinterOperation.MoveAxes movements feedrate [BambuMqttAxisControl]) (Some features)
    = Some (Ok (BambuMqttCommand.XyzControl axis direction mode))
    /\ movements = [m] /\ Movement.axis m = axis
    /\ (direction = 1 \/ direction = -1) /\ (mode = 0 \/ mode = 1)
    /\ exists n k, denotes (Movement.delta_mm m) n k /\ n = step_mm direction mode * 2 ^ k.
Proof.
  rewrite command_of_valid by done.
  destruct (valid_required _ Hvalid) as [R|[R|(m & [= -> ->] & E)]]; [done|done|].
  inversion Hty as [|? ? Hm _]; subst. rewrite (step_command m _ E).
  rewrite (proj2 (require_observed_iff _ _)) by by exists features. cbn [rbind].
  exists (Movement.axis m), (if is_sign_positive (Movement.delta_mm m) then 1 else -1),
    (if feqb (fabs (Movement.delta_mm m)) f64_1 then 0 else 1), m.
  split_and!; [done|done|done|by destruct (is_sign_positive _); auto|by destruct (feqb _ _); auto|].
  destruct (feqb (fabs (Movement.delta_mm m)) f64_1) eqn:E1.
  - apply (is_1 _ Hm) in E1 as (n & k & D & A). exists n, k. split; [done|].
    by apply (step_denotes _ 1).
  - apply (is_10 _ Hm) in E as (n & k & D & A). exists n, k. split; [done|].
    by apply (step_denotes _ 10).
Qed.
End Mapping.

(** ** Samples *)

(** No float is formatted by firmware axis control. *)
Definition unformatted : FloatText := {| float_to_string _ := EmptyString |}.

(** Bit 38 set. *)
Definition axis_features : BambuDeviceFeatures := mkFeatures (2 ^ 38).

Lemma axis_control_exact_witness :
  exists axis direction mode m,
    mqtt_command_for_printer_operation_with_features (H := unformatted) step_y (Some axis_features)
    = Some (Ok (BambuMqttCommand.XyzControl axis direction mode))
    /\ [Movement.mk PrinterAxis.Y (f64_of_Z (-10))] = [m] /\ Movement.axis m = axis
    /\ (direction = 1 \/ direction = -1) /\ (mode = 0 \/ mode = 1)
    /\ exists n k, denotes (Movement.delta_mm m) n k /\ n = step_mm direction mode * 2 ^ k.
Proof.
  apply (axis_control_exact (H := unformatted) [Movement.mk PrinterAxis.Y (f64_of_Z (-10))] None
           axis_features);
    [by repeat constructor|vm_compute; reflexivity|vm_compute; reflexivity].
Defined.

Example command_samples :
  mqtt_command_for_printer_operation_with_features (H := unformatted) step_y (Some axis_features)
  = Some (Ok (BambuMqttCommand.XyzControl PrinterAxis.Y (-1) 1))
  /\ mqtt_command_for_printer_operation_with_features (H := unformatted)
       (PrinterOperation.SetFanSpeed 2 33 false) None
     = Some (Ok (BambuMqttCommand.GcodeLine "M106 P2 S84"))
  /\ mqtt_command_for_printer_operation_with_features (H := unformatted)
       (PrinterOperation.AmsLoadFilament 3 1 None (Some "254"%string) None) None
     = Some (Ok (BambuMqttCommand.AmsLoadFilament (AmsFilamentCommand.mk 255 254 1 None))).
Proof. vm_compute. done. Qed.
