(* ===== verification/OperationReports.v ===== *)
(** * Reports that answer an operation

    [machine/operations/report.rs]: the part of a printer's report that answers a
    command - its sequence id, command and outcome; [operations/light.rs]: the state of
    the chamber light in a report.  A report is a [serde_json::Value], whose objects
    have distinct sorted keys. *)

From S2P Require Import Prelude RustStr RustFloat Json BTree Serde CoreTypes H2c Ams PrinterOperation OperationWire ProjectFile AgentMaterials StudioSequence MqttCommands.

#[local] Open Scope Z_scope.

(** ** Sections *)

Inductive SequenceId := SequenceString (value : string) | SequenceNumber (value : Number).

Module OperationSection.
Record t := mk {
  sequence_id : option SequenceId; result : option json; err_code : option json;
  errno : option json; reason : option json; message : option json; msg : option json;
  error : option json; extra : list (string * json) }.

Definition names : list string :=
  ["sequence_id"; "result"; "err_code"; "errno"; "reason"; "message"; "msg"; "error"]%string.
End OperationSection.

Module OperationEnvelope.
Record t := mk {
  print : option OperationSection.t; info : option OperationSection.t;
  pushing : option OperationSection.t; system : option OperationSection.t;
  camera : option OperationSection.t; extra : list (string * json) }.

Definition names : list string := ["print"; "info"; "pushing"; "system"; "camera"]%string.
End OperationEnvelope.

(** [Option<MachineJsonPayload>]: null is absent. *)
Definition opt_payload (value : option json) : option json := opt_filter (fun j => negb (is_null j)) value.

(** The untagged [Option<SequenceId>]. *)
Definition decode_sequence_id (value : option json) : option (option SequenceId) :=
  match value with
  | None | Some Null => Some None
  | Some (Str s) => Some (Some (SequenceString s))
  | Some (Num n) => Some (Some (SequenceNumber n))
  | Some _ => None
  end.

(** The members a flattened map collects. *)
Definition other_members (names : list string) (members : list (string * json))
  : list (string * json) :=
  List.filter (fun kv => negb (bool_decide (kv.1 ∈ names))) members.

Definition decode_section (j : json) : option OperationSection.t :=
  match j with
  | Object members =>
      let payload name := opt_payload (lookup_key name members) in
      sequence_id ← decode_sequence_id (lookup_key "sequence_id" members);
      Some (OperationSection.mk sequence_id (payload "result"%string) (payload "err_code"%string)
        (payload "errno"%string) (payload "reason"%string) (payload "message"%string)
        (payload "msg"%string) (payload "error"%string)
        (other_members OperationSection.names members))
  | _ => None
  end.

(** [OperationReport::from_payload]. *)
Definition from_payload (raw : json) : option OperationEnvelope.t :=
  match raw with
  | Object members =>
      let section name := opt_of decode_section (lookup_key name members) in
      print ← section "print"%string;
      info ← section "info"%string;
      pushing ← section "pushing"%string;
      system ← section "system"%string;
      camera ← section "camera"%string;
      Some (OperationEnvelope.mk print info pushing system camera
              (other_members OperationEnvelope.names members))
  | _ => None
  end.

(** ** Reading a report *)

Definition payload_str (payload : json) : option string :=
  match payload with Str value => Some value | _ => None end.

Definition payload_i64 (payload : json) : option Z :=
  match payload with
  | Num value =>
      opt_or (ScalarValue.as_i64 value) (Number.as_u64 value ≫= try_int i64_min i64_max)
  | _ => None
  end.

(** [into_iter().flatten().find_map(f)]. *)
Fixpoint find_map {A B} (f : A -> option B) (l : list (option A)) : option B :=
  match l with
  | [] => None
  | Some a :: l => opt_or (f a) (find_map f l)
  | None :: l => find_map f l
  end.

Definition report_error_message (section : OperationSection.t) : option string :=
  find_map (fun payload =>
      s ← payload_str payload;
      opt_filter (fun value => negb (beq value EmptyString)) (Some (trim s)))
    [OperationSection.reason section; OperationSection.message section;
     OperationSection.msg section; OperationSection.error section].

Module PrinterOperationMqttSummary.
Record t := mk {
  result : option json; reason : option json; err_code : option json; errno : option json }.
End PrinterOperationMqttSummary.

Section Reports.
Context `{FloatText}.

Definition sequence_id_as_string (id : SequenceId) : string :=
  match id with
  | SequenceString value => value
  | SequenceNumber value => ScalarValue.number_to_string value
  end.

Definition sequence_id_string (section : OperationSection.t) : option string :=
  sequence_id_as_string <$> OperationSection.sequence_id section.

(** [OperationReport::sequence_id], [command], [error] and [summary]. *)
Definition report_sequence_id (r : OperationEnvelope.t) : option string :=
  find_map sequence_id_string
    [OperationEnvelope.print r; OperationEnvelope.info r; OperationEnvelope.pushing r;
     OperationEnvelope.system r; OperationEnvelope.camera r].

Definition answer_section (r : OperationEnvelope.t) : option OperationSection.t :=
  opt_or (OperationEnvelope.print r) (OperationEnvelope.system r).

Definition report_command (r : OperationEnvelope.t) : option string :=
  section ← answer_section r;
  lookup_key "command" (OperationSection.extra section) ≫= payload_str.

Definition section_error (section : OperationSection.t) : option string :=
  let reported message := Some (default message (report_error_message section)) in
  let result := OperationSection.result section ≫= payload_str in
  if bool_decide (result = Some "fail"%string) || bool_decide (result = Some "failed"%string)
  then reported "printer reported failure"%string
  else
    let nonzero key payload :=
      code ← payload ≫= payload_i64;
      if code =? 0 then None
      else reported ("printer reported " +:+ key +:+ " " +:+ dec code) in
    opt_or (nonzero "err_code"%string (OperationSection.err_code section))
      (nonzero "errno"%string (OperationSection.errno section)).

Definition report_error (r : OperationEnvelope.t) : option string :=
  section ← answer_section r; section_error section.

Definition report_summary (r : OperationEnvelope.t) : option PrinterOperationMqttSummary.t :=
  section ← answer_section r;
  Some (PrinterOperationMqttSummary.mk (OperationSection.result section)
    (OperationSection.reason section) (OperationSection.err_code section)
    (OperationSection.errno section)).
End Reports.

(** [into_payload]: the extra members, then the known ones. *)
Definition insert_payload (key : string) (payload : option json) (object : list (string * json))
  : list (string * json) :=
  match payload with Some payload => btree_insert key payload object | None => object end.

Definition sequence_id_into_payload (id : SequenceId) : json :=
  match id with SequenceString value => Str value | SequenceNumber value => Num value end.

Definition section_into_payload (s : OperationSection.t) : json :=
  Object
    (insert_payload "error" (OperationSection.error s)
    (insert_payload "msg" (OperationSection.msg s)
    (insert_payload "message" (OperationSection.message s)
    (insert_payload "reason" (OperationSection.reason s)
    (insert_payload "errno" (OperationSection.errno s)
    (insert_payload "err_code" (OperationSection.err_code s)
    (insert_payload "result" (OperationSection.result s)
    (insert_payload "sequence_id" (sequence_id_into_payload <$> OperationSection.sequence_id s)
      (OperationSection.extra s))))))))).

Definition report_into_payload (r : OperationEnvelope.t) : json :=
  let section key s := insert_payload key (section_into_payload <$> s) in
  Object
    (section "camera"%string (OperationEnvelope.camera r)
    (section "system"%string (OperationEnvelope.system r)
    (section "pushing"%string (OperationEnvelope.pushing r)
    (section "info"%string (OperationEnvelope.info r)
    (section "print"%string (OperationEnvelope.print r) (OperationEnvelope.extra r)))))).

(** ** The answer to an automatic nozzle mapping

    [auto_nozzle_mapping_response]: the envelope, printed and decoded again. *)

Definition opt_i32 : option json -> option (option Z) := Serde.opt_int i32_min i32_max.
Definition decode_i32 (j : json) : option Z := json_int j ≫= try_int i32_min i32_max.

Definition mapping_response_names : list string :=
  ["command"; "sequence_id"; "result"; "reason"; "errno"; "detail"; "type"; "version"; "mapping"]%string.

Definition decode_mapping_response (j : json) : option MappingResponse.t :=
  match j with
  | Object members =>
      let get name := lookup_key name members in
      command ← required_string (get "command"%string);
      sequence_id ← required_string (get "sequence_id"%string);
      result ← opt_string (get "result"%string);
      reason ← opt_string (get "reason"%string);
      errno ← opt_i32 (get "errno"%string);
      kind ← opt_string (get "type"%string);
      mapping ← opt_vec decode_i32 (get "mapping"%string);
      Some (MappingResponse.mk command sequence_id result reason errno
              (opt_payload (get "detail"%string)) kind (opt_payload (get "version"%string)) mapping
              (other_members mapping_response_names members))
  | _ => None
  end.

Definition auto_nozzle_mapping_response (r : OperationEnvelope.t) : option MappingResponse.t :=
  match report_into_payload r with
  | Object members => lookup_key "print" members ≫= decode_mapping_response
  | _ => None
  end.

(** ** The chamber light ([light.rs]) *)

(** A struct without [serde(default)]: an object by name, or a sequence of exactly its
    fields. *)
Definition exact_fields (names : list string) (j : json) : option (string -> option json) :=
  match j with
  | Object members => Some (fun name => lookup_key name members)
  | Array values =>
      if (length values =? length names)%nat
      then Some (fun name => lookup_key name (zip names values)) else None
  | _ => None
  end.

Module LightReport.
Record t := mk { node : option string; mode : option string }.

Definition decode (j : json) : option t :=
  get ← exact_fields ["node"; "mode"]%string j;
  node ← opt_string (get "node"%string);
  mode ← opt_string (get "mode"%string);
  Some (mk node mode).
End LightReport.

(** [parse_printer_report]: the lights of its [print] section, when it has both. *)
Definition parse_printer_report (report : json) : option (option (list LightReport.t)) :=
  get ← exact_fields ["print"%string] report;
  print ← opt_of (fun j =>
      get ← exact_fields ["lights_report"%string] j;
      opt_of (decode_vec LightReport.decode) (get "lights_report"%string)) (get "print"%string);
  Some (match print with Some lights => lights | None => None end).

(** The loop of [chamber_light_report]: the last report of the main light wins, and one
    of the second light only counts while nothing is known. *)
Definition light_step (on : option bool) (light : LightReport.t) : option bool :=
  match LightReport.node light with
  | Some node =>
      if beq node "chamber_light"%string || (beq node "chamber_light2"%string && is_none on)
      then Some (beq (LightReport.mode light) (Some "on"%string)) else on
  | None => on
  end.

Definition chamber_light_report (lights : option (list LightReport.t)) : option bool :=
  lights ← lights; foldl light_step None lights.

(** ** Lemmas *)

Definition inserts (known : list (string * option json)) (object : list (string * json))
  : list (string * json) :=
  foldl (fun o kv => insert_payload kv.1 kv.2 o) object known.

Lemma increasing_insert_payload key payload object :
  increasing object -> increasing (insert_payload key payload object).
Proof. destruct payload; [apply increasing_insert|done]. Qed.

Lemma increasing_inserts known : forall object, increasing object -> increasing (inserts known object).
Proof.
  induction known as [|[key payload] known IH]; intros object Ho; [done|].
  apply IH. by apply increasing_insert_payload.
Qed.

Lemma lookup_inserts k known : forall object,
  increasing object -> NoDup (map fst known) ->
  lookup_key k (inserts known object)
  = match lookup_key k known with Some (Some v) => Some v | _ => lookup_key k object end.
Proof.
  induction known as [|[key payload] known IH]; intros object Ho Hn; [done|].
  cbn [map fst] in Hn. rewrite NoDup_cons in Hn. destruct Hn as [Hk Hn].
  change (inserts ((key, payload) :: known) object) with (inserts known (insert_payload key payload object)).
  rewrite IH by first [done|by apply increasing_insert_payload]. cbn [lookup_key].
  destruct (beq key k) eqn:E.
  - rewrite beq_true in E. subst key.
    rewrite (lookup_absent k known).
    + destruct payload as [v|]; cbn [insert_payload]; [|done]. by rewrite lookup_insert, beq_refl.
    + apply Forall_forall. intros [k' v] Hin Ek. apply Hk. cbn in Ek. subst k'.
      apply list_elem_of_fmap. by exists (k, v).
  - destruct payload as [v|]; cbn [insert_payload]; [|done]. by rewrite lookup_insert, E.
Qed.

(** The members of an object, with each known one replaced by what [f] keeps of it. *)
Definition known_members (names : list string) (f : json -> json) (members : list (string * json))
  : list (string * option json) :=
  map (fun name => (name, f <$> opt_payload (lookup_key name members))) names.

Lemma lookup_known k names f members :
  lookup_key k (known_members names f members)
  = if bool_decide (k ∈ names) then Some (f <$> opt_payload (lookup_key k members)) else None.
Proof.
  unfold known_members. induction names as [|name names IH]; [done|]. cbn [map lookup_key].
  destruct (beq name k) eqn:E.
  - rewrite beq_true in E. subst name. rewrite bool_decide_eq_true_2; [done|]. by left.
  - rewrite beq_false in E. rewrite IH.
    assert (bool_decide (k ∈ name :: names) = bool_decide (k ∈ names)) as ->; [|done].
    apply bool_decide_ext. rewrite elem_of_cons. naive_solver.
Qed.

Lemma lookup_other k names members :
  increasing members ->
  lookup_key k (other_members names members)
  = if bool_decide (k ∈ names) then None else lookup_key k members.
Proof.
  intros Hm. unfold other_members.
  etrans; [exact (lookup_filter (fun (name : string) (_ : json) => negb (bool_decide (name ∈ names))) k members Hm)|].
  by destruct (lookup_key k members), (bool_decide (k ∈ names)).
Qed.

(** What a report keeps of an object: the null known members are dropped. *)
Definition is_known (names : list string) (name : string) : bool := bool_decide (name ∈ names).
Definition kept (names : list string) (name : string) (value : json) : bool :=
  negb (is_known names name && is_null value).
Definition kept_value (names : list string) (f : json -> json) (name : string) (value : json) : json :=
  if is_known names name then f value else value.
Definition strip_members (names : list string) (f : json -> json) (members : list (string * json))
  : list (string * json) :=
  map (fun kv => (kv.1, kept_value names f kv.1 kv.2))
    (List.filter (fun kv => kept names kv.1 kv.2) members).

Lemma lookup_map_value {A B} (f : string -> A -> B) k (m : list (string * A)) :
  lookup_key k (map (fun kv => (kv.1, f kv.1 kv.2)) m) = f k <$> lookup_key k m.
Proof.
  induction m as [|[k' v] m IH]; [done|]. cbn [map lookup_key fst snd].
  destruct (beq k' k) eqn:E; [|done]. rewrite beq_true in E. by subst k'.
Qed.

Lemma inserts_strip names f members :
  increasing members -> NoDup names ->
  inserts (known_members names f members) (other_members names members)
  = strip_members names f members.
Proof.
  intros Hm Hn.
  assert (increasing (other_members names members)) as Ho by by apply increasing_filter.
  apply increasing_ext.
  - by apply increasing_inserts.
  - apply (increasing_map_key (kept_value names f)). by apply increasing_filter.
  - intros k. rewrite lookup_inserts; [|done|].
    + rewrite lookup_known, lookup_other by done. unfold strip_members.
      rewrite (lookup_map_value (kept_value names f)), (lookup_filter (kept names)) by done.
      unfold kept, kept_value, is_known.
      destruct (bool_decide (k ∈ names)) eqn:E, (lookup_key k members) as [v|]; cbn; try done.
      by destruct (is_null v).
    + unfold known_members. rewrite map_map. cbn [fst]. by rewrite map_id.
Qed.

Definition strip_section (j : json) : json :=
  match j with
  | Object members => Object (strip_members OperationSection.names id members)
  | _ => j
  end.
Definition strip_report (raw : json) : json :=
  match raw with
  | Object members => Object (strip_members OperationEnvelope.names strip_section members)
  | _ => raw
  end.

(** The objects of a [serde_json::Value] that a report is decoded from. *)
Definition report_sorted (raw : json) : Prop :=
  forall members, raw = Object members ->
    increasing members
    /\ forall name section, lookup_key name members = Some (Object section) -> increasing section.

Lemma sequence_id_payload value id :
  decode_sequence_id value = Some id -> sequence_id_into_payload <$> id = opt_payload value.
Proof. destruct value as [[]|]; cbn; intros [= <-]; done. Qed.

Lemma section_names_nodup : NoDup OperationSection.names.
Proof. repeat (apply NoDup_cons; split; [by set_solver|]). apply NoDup_nil_2. Qed.
Lemma envelope_names_nodup : NoDup OperationEnvelope.names.
Proof. repeat (apply NoDup_cons; split; [by set_solver|]). apply NoDup_nil_2. Qed.

Lemma option_map_id {A} (o : option A) : id <$> o = o.
Proof. by destruct o. Qed.

Lemma section_payload_strip members s :
  increasing members -> decode_section (Object members) = Some s ->
  section_into_payload s = strip_section (Object members).
Proof.
  intros Hm D. cbn [strip_section]. rewrite <- (inserts_strip _ _ _ Hm section_names_nodup).
  cbn [decode_section] in D. apply bind_Some in D as (sid & Hsid & [= <-]).
  apply sequence_id_payload in Hsid. unfold section_into_payload, known_members. f_equal.
  cbn [OperationSection.names map inserts foldl fst snd]. rewrite !option_map_id, <- Hsid. done.
Qed.

(** A known section of the report, stripped. *)
Lemma opt_section_strip value section :
  (forall members, value = Some (Object members) -> increasing members) ->
  opt_of decode_section value = Some section ->
  section_into_payload <$> section = strip_section <$> opt_payload value.
Proof.
  intros Hm. unfold opt_of. destruct value as [j|]; [|by intros [= <-]].
  destruct j as [members| | | | |]; try done; try (by intros [= <-]).
  intros D. apply fmap_Some in D as (s & D & ->). cbn. f_equal.
  apply section_payload_strip; [|done]. by apply Hm.
Qed.

(** The report the agent sends on is the printer's, less the null members it knows. *)
Lemma report_payload_faithful raw r :
  report_sorted raw -> from_payload raw = Some r -> report_into_payload r = strip_report raw.
Proof.
  intros Hs D. destruct raw as [members| | | | |]; try done.
  destruct (Hs members eq_refl) as [Hm Hsec]. cbn [strip_report].
  rewrite <- (inserts_strip _ _ _ Hm envelope_names_nodup).
  cbn [from_payload] in D.
  repeat (let s := fresh "s" in let E := fresh "E" in apply bind_Some in D as (s & E & D)).
  injection D as <-.
  repeat match goal with
  | E : opt_of decode_section (lookup_key ?name members) = Some _ |- _ =>
      apply opt_section_strip in E; [|intros ?; apply Hsec]
  end.
  unfold report_into_payload, known_members. f_equal.
  cbn [OperationEnvelope.names map inserts foldl fst snd OperationEnvelope.print
    OperationEnvelope.info OperationEnvelope.pushing OperationEnvelope.system
    OperationEnvelope.camera OperationEnvelope.extra].
  congruence.
Qed.

(** ** Echoes

    The payload of every command reads back as a report that answers it. *)

Section Echo.
Context `{FloatText}.

Definition answers (payload : json) (id : string) : Prop :=
  exists r, from_payload payload = Some r /\ report_sequence_id r = Some id.

Lemma decode_echo members id :
  lookup_key "sequence_id" members = Some (Str id) ->
  exists s, decode_section (Object members) = Some s /\ sequence_id_string s = Some id.
Proof. intros E. cbn [decode_section]. rewrite E. by eexists. Qed.

Lemma to_value_lookup key (members : list (string * json)) :
  lookup_key key (btree_extend [] members) = lookup_key key (rev members).
Proof. rewrite lookup_extend by constructor. by destruct (lookup_key key (rev members)). Qed.

(** A report with one of the sections. *)
Lemma single_section report section members s id :
  section ∈ OperationEnvelope.names ->
  (forall name, name ∈ OperationEnvelope.names ->
     lookup_key name report = if beq section name then Some (Object members) else None) ->
  decode_section (Object members) = Some s -> sequence_id_string s = Some id ->
  answers (Object report) id.
Proof.
  intros Hsec L D I.
  assert (forall name, name ∈ OperationEnvelope.names ->
            opt_of decode_section (lookup_key name report)
            = if beq section name then Some (Some s) else Some None) as O.
  { intros name Hn. rewrite L by done. destruct (beq section name); [|done]. cbn [opt_of]. by rewrite D. }
  unfold answers, from_payload, OperationEnvelope.names in *. rewrite !O by set_solver.
  rewrite !elem_of_cons, elem_of_nil in Hsec.
  destruct Hsec as [->|[->|[->|[->|[->|[]]]]]]; (eexists; split; [reflexivity|]); cbn; by rewrite I.
Qed.

Lemma section_echo section members id :
  section ∈ OperationEnvelope.names ->
  lookup_key "sequence_id" (rev members) = Some (Str id) ->
  answers (section_payload section members) id.
Proof.
  rewrite <- to_value_lookup. intros Hsec E.
  destruct (decode_echo _ _ E) as (s & D & I). apply (single_section _ section (btree_extend [] members) s id); [done| |done|done].
  intros name _. cbn. by destruct (beq section name).
Qed.
Definition unnumbered (members : list (string * json)) : Prop :=
  Forall (fun kv => kv.1 <> "sequence_id"%string) members.

Lemma numbered_lookup before after id :
  unnumbered after ->
  lookup_key "sequence_id" (rev (before ++ text_member "sequence_id" id ++ after)) = Some (Str id).
Proof.
  intros Ha. rewrite !rev_app_distr, <- app_assoc, !lookup_app.
  by rewrite lookup_absent by by apply Forall_rev.
Qed.

Lemma with_sequence_echo section command rest cell :
  section ∈ OperationEnvelope.names -> unnumbered rest ->
  exists id, BambuMqttCommandPayload.sequence_id (with_sequence section command rest cell).1 = Some id
    /\ answers (BambuMqttCommandPayload.payload (with_sequence section command rest cell).1) id.
Proof.
  intros Hsec Hrest. eexists. split; [reflexivity|].
  apply section_echo; [done|]. by apply numbered_lookup.
Qed.

Lemma unnumbered_opt {A} name (f : A -> json) value :
  name <> "sequence_id"%string -> unnumbered (opt_member name f value).
Proof. intros. destruct value; by repeat constructor. Qed.

Context `{SlicerKey}.

Lemma sorted_print_lookup p :
  lookup_key "sequence_id" (btree_extend [] (map (fun kv => (kv.1, sorted kv.2)) (ProjectFilePayloadPrint.members p)))
  = Some (Str (ProjectFilePayloadPrint.sequence_id p)).
Proof.
  rewrite to_value_lookup, <- map_rev.
  rewrite (lookup_map_value (fun _ => sorted)).
  assert (lookup_key "sequence_id" (rev (ProjectFilePayloadPrint.members p))
          = Some (Str (ProjectFilePayloadPrint.sequence_id p))) as ->; [|done].
  unfold ProjectFilePayloadPrint.members. apply numbered_lookup.
  repeat apply Forall_app_2; first [by repeat constructor|by apply unnumbered_opt].
Qed.

Lemma print_echo report p :
  (forall name, name ∈ OperationEnvelope.names -> lookup_key name report
     = if beq "print"%string name
       then Some (Object (btree_extend [] (map (fun kv => (kv.1, sorted kv.2)) (ProjectFilePayloadPrint.members p))))
       else None) ->
  answers (Object report) (ProjectFilePayloadPrint.sequence_id p).
Proof.
  intros L. destruct (decode_echo _ _ (sorted_print_lookup p)) as (s & D & I).
  apply (single_section _ "print" _ s _ ltac:(by left) L D I).
Qed.

Lemma unsigned_echo p :
  answers (sorted (ProjectFilePayloadPrint.envelope p)) (ProjectFilePayloadPrint.sequence_id p).
Proof. apply print_echo. intros name _. reflexivity. Qed.

Lemma signed_echo len signature p :
  answers (sorted (signed_envelope len signature p)) (ProjectFilePayloadPrint.sequence_id p).
Proof.
  apply print_echo. unfold OperationEnvelope.names. intros name Hn.
  rewrite !elem_of_cons, elem_of_nil in Hn. by destruct Hn as [->|[->|[->|[->|[->|[]]]]]].
Qed.

Lemma flip_sequence_id p :
  ProjectFilePayloadPrint.sequence_id (flip_nozzle_ids p) = ProjectFilePayloadPrint.sequence_id p.
Proof. unfold flip_nozzle_ids. by destruct (ProjectFilePayloadPrint.ams_mapping_info p). Qed.

Lemma project_file_echo id command payload :
  project_file_payload id command = Some payload -> answers payload id.
Proof.
  unfold project_file_payload. intros E. apply bind_Some in E as (profile & _ & [= <-]).
  unfold maybe_sign_project_file_payload.
  destruct (negb slicer_key); [exact (unsigned_echo _)|].
  set (p := if h2d_family _ then _ else _).
  assert (ProjectFilePayloadPrint.sequence_id p = id) as Ep
    by (subst p; destruct (h2d_family _); [by rewrite flip_sequence_id|done]).
  rewrite <- Ep. destruct (sign_base64 _); [apply signed_echo|apply unsigned_echo].
Qed.

(** The report of a printer that echoes a command is recognised as its answer: the
    sequence id the report reads is the one the command was published under. *)
Lemma payload_echo command cell p cell' :
  command_payload command cell = Some (p, cell') ->
  match command with BambuMqttCommand.RawJson _ => True | _ =>
    exists id, BambuMqttCommandPayload.sequence_id p = Some id
      /\ answers (BambuMqttCommandPayload.payload p) id
  end.
Proof.
  assert (forall section command rest cell p cell',
    Some (with_sequence section command rest cell) = Some (p, cell') ->
    section ∈ OperationEnvelope.names -> unnumbered rest ->
    exists id, BambuMqttCommandPayload.sequence_id p = Some id
      /\ answers (BambuMqttCommandPayload.payload p) id) as W.
  { intros sec c rest k q k' E%(inj Some) Hsec Hrest. destruct (with_sequence_echo sec c rest k Hsec Hrest) as (id & I & A).
    rewrite E in I, A. by exists id. }
  destruct command; cbn [command_payload]; intros E; try done;
    try (eapply W; [exact E|unfold OperationEnvelope.names; set_solver|
           repeat apply Forall_app_2; first [by repeat constructor|by apply unnumbered_opt]]).
  - injection E as <- _. eexists. split; [reflexivity|]. by apply section_echo; [left|].
  - injection E as <- _. eexists. split; [reflexivity|]. apply section_echo; [by left|].
    unfold mapping_request_members. apply numbered_lookup.
    repeat apply Forall_app_2; by apply unnumbered_opt.
  - destruct (next_studio_sequence_id cell) as [id k] eqn:N.
    apply bind_Some in E as (payload & E & [= <- _]). exists id. split; [done|].
    by apply (project_file_echo id command).
Qed.
End Echo.
