(* ===== verification/AgentOperations.v ===== *)
(** * Dispatching an operation to a printer

    [machine/operations.rs] and [operations/light.rs] of the agent: what the agent
    exchanges with a printer over MQTT to perform an operation, and the answer it
    reports.  The transport is the environment: which calls fail, and which reports
    arrive while the code waits. *)

From S2P Require Import Prelude RustStr RustFloat Json CoreTypes H2c DeviceFeatures Ams PrinterOperation OperationWire ProjectFile AgentMaterials StudioSequence MqttCommands OperationCommands OperationReports Tx.

#[local] Open Scope Z_scope.
#[local] Open Scope rust_scope.
#[local] Open Scope tx_scope.

(** ** The transport *)

(** What [next_report] yields. *)
Inductive ReportEvent := Arrived (payload : json) | TransportFailed (error : AnyError).

Inductive Fault := Raised (error : AnyError) | Panicked.

(** The connection to one printer: the sequence cell of the process, the calls made so
    far, the outcomes of the next [subscribe] and [publish] calls (the calls beyond the
    list succeed), and the reports of each wait, up to its deadline. *)
Module Link.
Record t := mk {
  cell : Z; subscribed : list string; published : list (string * json);
  faults : list (option AnyError); windows : list (list ReportEvent) }.

Definition with_cell (cell' : Z) (l : t) : t :=
  mk cell' (subscribed l) (published l) (faults l) (windows l).
End Link.

Definition mq (A : Type) : Type := tx Link.t Fault A.

Definition mq_lift {A} (r : result AnyError A) : mq A := tlift (map_err Raised r).

(** [Context::context] on what a computation raises. *)
Definition with_context {A} (message : string) (m : mq A) : mq A := fun l =>
  let '(l, r) := m l in
  (l, map_err (fun f => match f with
                        | Raised e => Raised (message +:+ ": " +:+ e)
                        | Panicked => Panicked
                        end) r).

(** The outcome of the next call. *)
Definition call_outcome : mq unit := fun l =>
  match Link.faults l with
  | Some e :: faults =>
      (Link.mk (Link.cell l) (Link.subscribed l) (Link.published l) faults (Link.windows l), Err (Raised e))
  | None :: faults =>
      (Link.mk (Link.cell l) (Link.subscribed l) (Link.published l) faults (Link.windows l), Ok tt)
  | [] => (l, Ok tt)
  end.

Definition log_subscribe (topic : string) : mq unit := fun l =>
  (Link.mk (Link.cell l) (Link.subscribed l ++ [topic]) (Link.published l) (Link.faults l)
     (Link.windows l), Ok tt).
Definition log_publish (topic : string) (payload : json) : mq unit := fun l =>
  (Link.mk (Link.cell l) (Link.subscribed l) (Link.published l ++ [(topic, payload)])
     (Link.faults l) (Link.windows l), Ok tt).

Definition subscribe (topic : string) : mq unit := log_subscribe topic ~;; call_outcome.
(** A publish that fails may still have reached the printer. *)
Definition publish (topic : string) (payload : json) : mq unit :=
  log_publish topic payload ~;; call_outcome.

(** The reports of the next wait. *)
Definition wait_reports : mq (list ReportEvent) := fun l =>
  match Link.windows l with
  | [] => (l, Ok [])
  | window :: windows =>
      (Link.mk (Link.cell l) (Link.subscribed l) (Link.published l) (Link.faults l) windows, Ok window)
  end.

Definition deadline : string := "deadline has elapsed".

(** ** The result of a dispatch *)

Module PrinterOperationDispatchResult.
Record t := mk {
  sequence_id : option string; mqtt_report : option json;
  mqtt_summary : option PrinterOperationMqttSummary.t; error : option string }.

Definition dispatched : t := mk None None None None.
End PrinterOperationDispatchResult.

(** ** Waiting for the answer *)

Section Operations.
Context `{FloatText} `{SlicerKey}.

(** Does a report answer one of the commands? *)
Definition relevant_report (sequence_ids : list string) (expected_command : option string)
    (payload : json) : option (string * OperationEnvelope.t) :=
  report ← from_payload payload;
  sequence_id ← report_sequence_id report;
  if negb (bool_decide (sequence_id ∈ sequence_ids))
     || is_some_and (fun command => negb (beq (report_command report) (Some command))) expected_command
  then None else Some (sequence_id, report).

(** The loop of [matching_sequence_report]; the end of the list is the deadline. *)
Fixpoint matching_loop (sequence_ids : list string) (expected_command : option string)
    (failures : list (string * OperationEnvelope.t)) (events : list ReportEvent)
  : result AnyError (string * OperationEnvelope.t) :=
  match events with
  | [] => Err ("wait for matching printer operation MQTT result: " +:+ deadline)
  | TransportFailed e :: _ => Err ("wait for printer operation MQTT result: " +:+ e)
  | Arrived payload :: events =>
      match relevant_report sequence_ids expected_command payload with
      | None => matching_loop sequence_ids expected_command failures events
      | Some (sequence_id, report) =>
          match report_error report with
          | None => Ok (sequence_id, report)
          | Some _ =>
              let failures := failures ++ [(sequence_id, report)] in
              match failures with
              | first :: _ =>
                  if (length failures =? length sequence_ids)%nat then Ok first
                  else matching_loop sequence_ids expected_command failures events
              | [] => matching_loop sequence_ids expected_command failures events
              end
          end
      end
  end.

Definition matching_sequence_report (sequence_ids : list string) (expected_command : option string)
  : mq (result AnyError (string * OperationEnvelope.t)) :=
  events <~ wait_reports ;;
  tret (matching_loop sequence_ids expected_command [] events).

(** ** The chamber light *)

Definition BAMBU_STUDIO_CHAMBER_LIGHT_NODES : list string := ["chamber_light"; "chamber_light2"]%string.

(** The loop of [latest_chamber_light_report]. *)
Fixpoint light_loop (events : list ReportEvent) : result AnyError bool :=
  match events with
  | [] => Err ("wait for chamber light status report: " +:+ deadline)
  | TransportFailed e :: _ => Err ("wait for chamber light status report: " +:+ e)
  | Arrived payload :: events =>
      match parse_printer_report payload ≫= chamber_light_report with
      | Some on => Ok on
      | None => light_loop events
      end
  end.

(** A payload under the next sequence id. *)
Definition payload_of (command : BambuMqttCommand.t) : mq BambuMqttCommandPayload.t := fun l =>
  match command_payload command (Link.cell l) with
  | Some (payload, cell) => (Link.with_cell cell l, Ok payload)
  | None => (l, Err Panicked)
  end.

Definition chamber_light_commands (topics : BambuMqttTopics.t) (requested_on : option bool)
  : mq (list BambuMqttCommand.t) :=
  pushall <~ payload_of BambuMqttCommand.RequestPushAll ;;
  with_context "request current light report before controlling chamber light"
    (publish (BambuMqttTopics.request topics) (BambuMqttCommandPayload.payload pushall)) ~;;
  events <~ wait_reports ;;
  report_on <~ mq_lift (light_loop events) ;;
  tret (chamber_light_commands_for_nodes BAMBU_STUDIO_CHAMBER_LIGHT_NODES
          (default (negb report_on) requested_on)).

(** ** Dispatch *)

Definition expected_auto_mapping (operation : PrinterOperation.t) : option MappingRequest.t :=
  match operation with
  | PrinterOperation.GetAutoNozzleMapping request => Some request
  | _ => None
  end.

(** The commands of an operation. *)
Definition operation_commands (serial : string) (topics : BambuMqttTopics.t)
    (operation : PrinterOperation.t) (observed_features : option BambuDeviceFeatures)
  : mq (list BambuMqttCommand.t) :=
  match operation with
  | PrinterOperation.ToggleLight => chamber_light_commands topics None
  | PrinterOperation.SetChamberLight on => chamber_light_commands topics (Some on)
  | _ =>
      match mqtt_command_for_printer_operation_with_features operation observed_features with
      | None => tfail Panicked
      | Some command =>
          command <~ with_context ("select printer operation payload for " +:+ serial) (mq_lift command) ;;
          tret [command]
      end
  end.

(** [commands.iter().map(command_payload).collect()]. *)
Fixpoint payloads_of (commands : list BambuMqttCommand.t) : mq (list BambuMqttCommandPayload.t) :=
  match commands with
  | [] => tret []
  | command :: commands =>
      payload <~ payload_of command ;; rest <~ payloads_of commands ;; tret (payload :: rest)
  end.

Fixpoint publish_all (serial topic : string) (payloads : list BambuMqttCommandPayload.t) : mq unit :=
  match payloads with
  | [] => tret tt
  | payload :: payloads =>
      with_context ("publish printer operation to " +:+ serial)
        (publish topic (BambuMqttCommandPayload.payload payload)) ~;;
      publish_all serial topic payloads
  end.

(** What the dispatcher makes of a matching report. *)
Definition answered (operation : PrinterOperation.t) (sequence_id : string)
    (report : OperationEnvelope.t) : result AnyError PrinterOperationDispatchResult.t :=
  match expected_auto_mapping operation with
  | None => Ok tt
  | Some request =>
      response <-? ok_or (auto_nozzle_mapping_response report)
        "decode H2C auto nozzle mapping response"%string ;;
      if negb (is_valid_for response request)
      then bail "printer returned an invalid H2C auto nozzle mapping response" else Ok tt
  end ?;;
  Ok (PrinterOperationDispatchResult.mk (Some sequence_id) (Some (report_into_payload report))
        (report_summary report) (report_error report)).

(** The end of the dispatch: the wait for the answer to what was published. *)
Definition await_answer (operation : PrinterOperation.t)
    (payloads : list BambuMqttCommandPayload.t) : mq PrinterOperationDispatchResult.t :=
  let expected := expected_auto_mapping operation in
  let sequence_ids := omap BambuMqttCommandPayload.sequence_id payloads in
  match sequence_ids with
  | [] => tret PrinterOperationDispatchResult.dispatched
  | first :: _ =>
      answer <~ matching_sequence_report sequence_ids
        ((fun _ => "get_auto_nozzle_mapping"%string) <$> expected) ;;
      match answer with
      | Ok (sequence_id, report) => mq_lift (answered operation sequence_id report)
      | Err e =>
          if is_some expected
          then mq_lift (Err ("H2C auto nozzle mapping response unavailable: " +:+ e))
          else tret (PrinterOperationDispatchResult.mk (Some (List.last sequence_ids first))
                       None None None)
      end
  end.

Definition dispatch_printer_operation (serial : string) (operation : PrinterOperation.t)
    (observed_features : option BambuDeviceFeatures) : mq PrinterOperationDispatchResult.t :=
  let topics := BambuMqttTopics.for_serial serial in
  with_context ("subscribe to report topic " +:+ BambuMqttTopics.report topics)
    (subscribe (BambuMqttTopics.report topics)) ~;;
  commands <~ operation_commands serial topics operation observed_features ;;
  payloads <~ payloads_of commands ;;
  publish_all serial (BambuMqttTopics.request topics) payloads ~;;
  await_answer operation payloads.
End Operations.

(** ** Reference definition of the wait *)

Section Reference.
Context `{FloatText} `{SlicerKey}.

(** The reports that arrive before the wait ends, and the error it ends with. *)
Fixpoint arrivals (events : list ReportEvent) : list json :=
  match events with Arrived payload :: events => payload :: arrivals events | _ => [] end.
Fixpoint wait_error (events : list ReportEvent) : AnyError :=
  match events with
  | [] => "wait for matching printer operation MQTT result: " +:+ deadline
  | TransportFailed e :: _ => "wait for printer operation MQTT result: " +:+ e
  | Arrived _ :: events => wait_error events
  end.

Definition failed_answer (answer : string * OperationEnvelope.t) : bool := is_some (report_error answer.2).

(** The leading failures. *)
Fixpoint leading_failures (answers : list (string * OperationEnvelope.t))
  : list (string * OperationEnvelope.t) :=
  match answers with
  | a :: answers => if failed_answer a then a :: leading_failures answers else []
  | [] => []
  end.

(** The first failure once there are as many leading failures as commands; otherwise
    the first success. *)
Definition choose_answer (commands : nat) (answers : list (string * OperationEnvelope.t))
    (none : AnyError) : result AnyError (string * OperationEnvelope.t) :=
  let failures := leading_failures answers in
  if (commands <=? length failures)%nat then ok_or (head failures) none
  else ok_or (head (drop (length failures) answers)) none.

Lemma matching_loop_from ids expected events : forall failures,
  ids <> [] -> (length failures < length ids)%nat ->
  matching_loop ids expected failures events
  = let answers := omap (relevant_report ids expected) (arrivals events) in
    let fails := failures ++ leading_failures answers in
    if (length ids <=? length fails)%nat then ok_or (head fails) (wait_error events)
    else ok_or (head (drop (length (leading_failures answers)) answers)) (wait_error events).
Proof.
  assert (forall failures : list (string * OperationEnvelope.t), (length failures < length ids)%nat ->
    (length ids <=? length (failures ++ []))%nat = false) as Hnil.
  { intros failures Hl. rewrite app_nil_r. by apply Nat.leb_gt. }
  induction events as [|[payload|e] events IH]; intros failures Hids Hl; cbn [matching_loop arrivals omap];
    try (cbn; by rewrite Hnil).
  destruct (relevant_report ids expected payload) as [[id report]|] eqn:R; cbn [omap list_omap];
    cbn zeta; rewrite ?R; [|by apply IH].
  cbn [leading_failures]. unfold failed_answer at 1 2 3; cbn [snd].
  destruct (report_error report) as [err|] eqn:Err; cbn [is_some].
  - set (later := leading_failures (list_omap _ _ _ _)).
    assert (failures ++ (id, report) :: later = (failures ++ [(id, report)]) ++ later) as ->
      by by rewrite <- app_assoc.
    destruct (failures ++ [(id, report)]) as [|first rest] eqn:Ef; [by destruct failures|].
    assert (length (first :: rest) = S (length failures)) as El
      by by rewrite <- Ef, length_app, Nat.add_comm.
    destruct (Nat.eqb_spec (length (first :: rest)) (length ids)) as [E|E].
    + rewrite (proj2 (Nat.leb_le _ _)); [done|]. rewrite length_app. lia.
    + by rewrite IH by first [done|lia].
  - by rewrite Hnil.
Qed.

(** C24: the wait for the answer of an operation is a choice among the reports that
    answer one of its commands: it yields the first report without an error, unless as
    many failures as there are commands come first, in which case it yields the first
    failure; a wait that gives neither ends with the error of the transport or of its
    deadline. *)
Theorem matching_report_choice (ids : list string) (expected : option string)
    (events : list ReportEvent) (Hids : ids <> []) :
  matching_loop ids expected [] events
  = choose_answer (length ids) (omap (relevant_report ids expected) (arrivals events))
      (wait_error events).
Proof.
  rewrite matching_loop_from; [done|done|]. destruct ids; [done|cbn; lia].
Qed.
End Reference.
