(* ===== verification/OperationSafety.v ===== *)
(** * What a dispatch does to the printer

    Safety of [dispatch_printer_operation] ([AgentOperations]): what is published and
    when, that no path of it panics, and where its answer comes from. *)

From S2P Require Import Prelude RustStr RustFloat Json CoreTypes H2c DeviceFeatures Ams PrinterOperation OperationWire ProjectFile AgentMaterials StudioSequence MqttCommands OperationCommands OperationReports Tx AgentOperations.

#[local] Open Scope Z_scope.
#[local] Open Scope rust_scope.
#[local] Open Scope tx_scope.

(** ** Computations that only publish allowed messages *)

Definition message : Type := (string * json).

(** [l'] is reached from [l] by publishing messages the predicate allows. *)
Definition publishes (allowed : message -> Prop) (l l' : Link.t) : Prop :=
  exists sent, Link.published l' = Link.published l ++ sent /\ Forall allowed sent.

#[export] Instance publishes_preorder allowed : PreOrder (publishes allowed).
Proof.
  split.
  - intros l. exists []. by rewrite app_nil_r.
  - intros l1 l2 l3 (s1 & E1 & F1) (s2 & E2 & F2). exists (s1 ++ s2).
    rewrite E2, E1, app_assoc. split; [done|]. by apply Forall_app_2.
Qed.

Definition safe (allowed : message -> Prop) {A} (m : mq A) : Prop :=
  forall l, publishes allowed l (fst (m l)) /\ snd (m l) <> Err Panicked.

Lemma safe_bind allowed {A B} (m : mq A) (k : A -> mq B) :
  safe allowed m -> (forall l a l', m l = (l', Ok a) -> safe allowed (k a)) ->
  safe allowed (m <~ m ;; k m).
Proof.
  intros Hm Hk l. specialize (Hm l). unfold tbind. destruct (m l) as [l1 [a|e]] eqn:E; cbn in *.
  - destruct (Hk l a l1 E l1) as [P N]. split; [|done]. by transitivity l1; [apply Hm|].
  - split; [apply Hm|]. intros [= ->]. by apply Hm.
Qed.

Lemma safe_ret allowed {A} (a : A) : safe allowed (tret a).
Proof. intros l. by split; [reflexivity|]. Qed.

Lemma safe_lift allowed {A} (r : result AnyError A) : safe allowed (mq_lift r).
Proof. intros l. split; [reflexivity|]. by destruct r. Qed.

Lemma safe_context allowed {A} message (m : mq A) : safe allowed m -> safe allowed (with_context message m).
Proof.
  intros Hm l. specialize (Hm l). unfold with_context. destruct (m l) as [l1 [a|[e|]]]; cbn in *;
    (split; [apply Hm|]); [done|done|]. by destruct Hm as [_ []].
Qed.

Lemma safe_call allowed : safe allowed call_outcome.
Proof.
  intros l. unfold call_outcome. destruct (Link.faults l) as [|[e|] faults]; cbn;
    (split; [|done]); exists []; by rewrite app_nil_r.
Qed.

Lemma safe_subscribe allowed topic : safe allowed (subscribe topic).
Proof.
  apply safe_bind; [|intros; apply safe_call].
  intros l. split; [|done]. exists []. by rewrite app_nil_r.
Qed.

Lemma safe_publish (allowed : message -> Prop) topic payload :
  allowed (topic, payload) -> safe allowed (publish topic payload).
Proof.
  intros Ha. apply safe_bind; [|intros; apply safe_call].
  intros l. split; [|done]. exists [(topic, payload)]. by split; [|constructor].
Qed.

Lemma safe_wait allowed : safe allowed wait_reports.
Proof.
  intros l. unfold wait_reports. destruct (Link.windows l); cbn; (split; [|done]); exists [];
    by rewrite app_nil_r.
Qed.

#[export] Hint Resolve safe_ret safe_lift safe_context safe_subscribe safe_publish safe_wait : mq.

(** ** Operations *)

(** The commands the dispatcher builds: their payloads never panic and carry a
    sequence id. *)
Definition plain (c : BambuMqttCommand.t) : Prop :=
  match c with BambuMqttCommand.RawJson _ | BambuMqttCommand.ProjectFile _ => False | _ => True end.

(** An operation that may be sent with the features observed. *)
Definition may_send (o : PrinterOperation.t) (observed : option BambuDeviceFeatures) : Prop :=
  validate o = Ok tt /\ features_observed o observed.

Section Dispatch.
Context `{FloatText} `{SlicerKey}.

Lemma safe_payload allowed c : plain c -> safe allowed (payload_of c).
Proof.
  intros Hc l. unfold payload_of. destruct (command_payload c (Link.cell l)) as [[p cell]|] eqn:E.
  - split; [|done]. exists []. by rewrite app_nil_r.
  - by destruct c.
Qed.

Lemma safe_payloads allowed cs : Forall plain cs -> safe allowed (payloads_of cs).
Proof.
  induction 1 as [|c cs Hc _ IH]; cbn [payloads_of]; [apply safe_ret|].
  apply safe_bind; [by apply safe_payload|]. intros _ p _ _.
  apply safe_bind; [done|]. intros; apply safe_ret.
Qed.

Lemma safe_publish_all (allowed : message -> Prop) serial topic ps :
  (forall payload, allowed (topic, payload)) -> safe allowed (publish_all serial topic ps).
Proof.
  intros Ha. induction ps as [|p ps IH]; cbn [publish_all]; [apply safe_ret|].
  apply safe_bind; [auto with mq|]. by intros.
Qed.

Lemma mapped_plain o observed c :
  mqtt_command_for_printer_operation_with_features o observed = Some (Ok c) -> plain c.
Proof.
  unfold mqtt_command_for_printer_operation_with_features. destruct (validate o); [|done].
  destruct o; cbn [mqtt_command]; unfold gcode_line; try (by intros [= <-]).
  - destruct (print_speed_new _); [|done]. by intros [= <-].
  - destruct airduct; by intros [= <-].
  - unfold home_command. destruct (first_required_feature _) as [[]|]; try (by intros [= <-]).
    destruct axes; [|done]. destruct (require_observed_feature _ _); [|done]. by intros [= <-].
  - destruct (movement_axes movements) as [[x y] z]. unfold move_axes_command.
    destruct (first_required_feature _) as [[]|]; try (by intros [= <-]).
    destruct (modern_axis_move _ _ _ _); [|done].
    destruct (require_observed_feature _ _); [|done]. by intros [= <-].
  - destruct extruder_id; by intros [= <-].
Qed.

Definition operation_allowed (serial : string) (o : PrinterOperation.t)
    (observed : option BambuDeviceFeatures) (m : message) : Prop :=
  m.1 = BambuMqttTopics.request (BambuMqttTopics.for_serial serial) /\ may_send o observed.

Lemma light_may_send o observed : is_light o = true -> may_send o observed.
Proof. destruct o; try done; (split; [done|]); by intros ? []. Qed.

Lemma safe_light allowed topics requested :
  (forall payload, allowed (BambuMqttTopics.request topics, payload)) ->
  safe allowed (chamber_light_commands topics requested).
Proof.
  intros Ha. apply safe_bind; [by apply safe_payload|]. intros _ p _ _.
  apply safe_bind; [auto with mq|]. intros _ _ _ _.
  apply safe_bind; [auto with mq|]. intros _ events _ _.
  apply safe_bind; [auto with mq|]. auto with mq.
Qed.

(** The commands of an operation are plain, and exist only when it may be sent. *)
Lemma operation_commands_plain serial topics o observed l l' cs :
  operation_commands serial topics o observed l = (l', Ok cs) ->
  Forall plain cs /\ may_send o observed.
Proof.
  assert (forall requested, chamber_light_commands topics requested l = (l', Ok cs) -> Forall plain cs) as L.
  { intros requested E. unfold chamber_light_commands in E. rewrite tbind_Ok in E.
    destruct E as (? & ? & _ & E). rewrite tbind_Ok in E. destruct E as (? & [] & _ & E).
    rewrite tbind_Ok in E. destruct E as (? & ? & _ & E). rewrite tbind_Ok in E.
    destruct E as (? & on & _ & E). rewrite tret_Ok in E. destruct E as [_ ->].
    by repeat constructor. }
  destruct (is_light o) eqn:Hl.
  - intros E. split; [|by apply light_may_send]. by destruct o; try done; eapply L.
  - intros E. assert (exists c, mqtt_command_for_printer_operation_with_features o observed = Some (Ok c)
                      /\ cs = [c]) as (c & Ec & ->).
    { revert E. unfold operation_commands.
      destruct (mqtt_command_for_printer_operation_with_features o observed) as [[c|e]|] eqn:Ec;
        destruct o; try done; unfold tbind, with_context, mq_lift, tlift, tret; cbn; intros [= _ <-];
        by exists c. }
    split; [constructor; [by eapply mapped_plain|done]|].
    assert (validate o = Ok tt) as V.
    { unfold mqtt_command_for_printer_operation_with_features in Ec.
      by destruct (validate o) as [[]|]. }
    split; [done|]. destruct (operation_command_gated o observed V Hl) as (r & Er & G).
    rewrite Ec in Er. injection Er as <-. by apply G.
Qed.
Lemma safe_operation_commands serial o observed :
  safe (operation_allowed serial o observed)
    (operation_commands serial (BambuMqttTopics.for_serial serial) o observed).
Proof.
  destruct (is_light o) eqn:Hl.
  - assert (forall requested, safe (operation_allowed serial o observed)
              (chamber_light_commands (BambuMqttTopics.for_serial serial) requested)) as L.
    { intros requested. apply safe_light. intros payload. split; [done|]. by apply light_may_send. }
    by destruct o; try done; apply L.
  - assert (safe (operation_allowed serial o observed)
      match mqtt_command_for_printer_operation_with_features o observed with
      | None => tfail Panicked
      | Some command =>
          command <~ with_context ("select printer operation payload for " +:+ serial) (mq_lift command) ;;
          tret [command]
      end) as S; [|by destruct o].
    destruct (mqtt_command_for_printer_operation_with_features o observed) as [r|] eqn:E.
    + apply safe_bind; [auto with mq|]. auto with mq.
    + unfold mqtt_command_for_printer_operation_with_features in E.
      destruct (validate o) as [[]|] eqn:V; [|done].
      destruct (operation_command_gated o observed V Hl) as (r & E' & _).
      rewrite (command_of_valid _ _ V) in E'. congruence.
Qed.

Lemma safe_dispatch serial o observed :
  safe (operation_allowed serial o observed) (dispatch_printer_operation serial o observed).
Proof.
  apply safe_bind; [auto with mq|]. intros _ _ _ _.
  apply safe_bind; [apply safe_operation_commands|]. intros l cs l' E.
  destruct (operation_commands_plain _ _ _ _ _ _ _ E) as [P M].
  apply safe_bind; [by apply safe_payloads|]. intros _ ps _ _.
  apply safe_bind; [by apply safe_publish_all|]. intros _ _ _ _. unfold await_answer.
  destruct (omap _ ps) as [|first ids]; [apply safe_ret|].
  apply safe_bind; [by apply safe_bind; auto with mq|]. intros _ [[id report]|e] _ _; [auto with mq|].
  destruct (is_some _); auto with mq.
Qed.
Lemma plain_payload c cell : plain c -> exists p cell', command_payload c cell = Some (p, cell').
Proof. destruct c; try done; intros _; cbn [command_payload]; unfold with_sequence; by repeat eexists. Qed.

Lemma plain_numbered c cell p cell' :
  plain c -> command_payload c cell = Some (p, cell') ->
  exists id, BambuMqttCommandPayload.sequence_id p = Some id
    /\ answers (BambuMqttCommandPayload.payload p) id.
Proof. intros Hc E. apply payload_echo in E. by destruct c. Qed.

(** C9: an operation reaches the printer only as its validator and the observed device
    features allow: no path of a dispatch panics; every message it publishes goes to
    the request topic of the printer, and only for an operation that is valid and whose
    required features are all in the bitmap of the lease; and over a working connection
    an allowed operation other than a chamber light is published as exactly one
    message, the payload of its command. *)
Theorem dispatch_gated (serial : string) (o : PrinterOperation.t)
    (observed : option BambuDeviceFeatures) (l : Link.t) :
  snd (dispatch_printer_operation serial o observed l) <> Err Panicked
  /\ exists sent,
       Link.published (fst (dispatch_printer_operation serial o observed l)) = Link.published l ++ sent
       /\ Forall (fun m => m.1 = "device/" +:+ serial +:+ "/request"
                           /\ validate o = Ok tt /\ features_observed o observed) sent
       /\ (validate o = Ok tt -> features_observed o observed -> is_light o = false ->
           Link.faults l = [] ->
           exists command payload cell,
             mqtt_command_for_printer_operation_with_features o observed = Some (Ok command)
             /\ command_payload command (Link.cell l) = Some (payload, cell)
             /\ sent = [("device/" +:+ serial +:+ "/request", BambuMqttCommandPayload.payload payload)]).
Proof.
  destruct (safe_dispatch serial o observed l) as [(sent & E & F) N]. split; [done|].
  exists sent. split_and!; [done|by eapply Forall_impl; [exact F|]; intros m [-> M]|].
  intros V Ho Hl Hf. destruct (operation_command_gated o observed V Hl) as (r & Er & G).
  destruct r as [c|]; [|by apply G in Ho].
  destruct (plain_payload c (Link.cell l) (mapped_plain _ _ _ Er)) as (p & cell & Ep).
  destruct (plain_numbered _ _ _ _ (mapped_plain _ _ _ Er) Ep) as (id & Ei & _).
  exists c, p, cell. split_and!; [done|done|]. clear F N. destruct l as [k subs pubs faults windows].
  cbn in Hf, Ep, E. subst faults. apply (app_inv_head pubs). rewrite <- E.
  assert (operation_commands serial (BambuMqttTopics.for_serial serial) o observed
    = (command <~ with_context ("select printer operation payload for " +:+ serial) (mq_lift (Ok c)) ;;
       tret [command])) as C.
  { unfold operation_commands. rewrite Er. by destruct o. }
  assert (payloads_of [c] (Link.mk k (subs ++ ["device/" +:+ serial +:+ "/report"]) pubs [] windows)
    = (Link.mk cell (subs ++ ["device/" +:+ serial +:+ "/report"]) pubs [] windows, Ok [p])) as Ep'.
  { cbn [payloads_of]. unfold tbind, payload_of. cbn [Link.cell]. by rewrite Ep. }
  unfold dispatch_printer_operation. erewrite tbind_run; [|reflexivity].
  erewrite tbind_run; [|by rewrite C]. erewrite tbind_run; [|exact Ep'].
  erewrite tbind_run; [|reflexivity]. unfold await_answer. cbn [omap list_omap]. rewrite Ei. cbn [app fst].
  unfold matching_sequence_report, wait_reports, tbind. destruct windows; cbn; by repeat case_match.
Qed.
(** ** The answer *)

Lemma leading_failures_In x answers : In x (leading_failures answers) -> In x answers.
Proof.
  induction answers as [|a answers IH]; cbn; [done|]. destruct (failed_answer a); [|done].
  intros [->|Hx]; [by left|right; auto].
Qed.

Lemma head_In {A} (l : list A) x : head l = Some x -> In x l.
Proof. destruct l; [done|]. intros [= ->]. by left. Qed.

Lemma ok_or_head {A} (l : list A) (e : AnyError) x : ok_or (head l) e = Ok x -> In x l.
Proof. rewrite ok_or_Ok. apply head_In. Qed.

(** The answer a wait yields is one of the reports that arrived. *)
Lemma matching_loop_arrived ids expected events x :
  ids <> [] -> matching_loop ids expected [] events = Ok x ->
  exists raw, In raw (arrivals events) /\ relevant_report ids expected raw = Some x.
Proof.
  intros Hids. rewrite matching_loop_from; [|done|by destruct ids; [|cbn; lia]]. cbn zeta.
  intros E. assert (In x (omap (relevant_report ids expected) (arrivals events))) as Hx.
  { destruct (_ <=? _)%nat; apply ok_or_head in E.
    - by apply leading_failures_In.
    - rewrite <- (firstn_skipn (length (leading_failures (omap (relevant_report ids expected) (arrivals events))))).
      apply in_or_app. by right. }
  apply list_elem_of_In, list_elem_of_omap in Hx as (raw & Hraw & R). exists raw. split; [|done].
  by apply list_elem_of_In.
Qed.

Lemma relevant_spec ids expected raw id rep :
  relevant_report ids expected raw = Some (id, rep) ->
  from_payload raw = Some rep /\ report_sequence_id rep = Some id /\ id ∈ ids.
Proof.
  unfold relevant_report. intros E. apply bind_Some in E as (r & Er & E).
  apply bind_Some in E as (i & Ei & E). destruct (negb _ || _) eqn:G; [done|].
  injection E as -> ->. rewrite orb_false_iff, negb_false_iff in G. destruct G as [G _].
  split_and!; [done|done|]. by apply bool_decide_eq_true in G.
Qed.

Lemma wait_reports_run l l' events :
  wait_reports l = (l', Ok events) ->
  Link.published l' = Link.published l
  /\ (events = [] \/ events ∈ Link.windows l) /\ (forall w, w ∈ Link.windows l' -> w ∈ Link.windows l).
Proof.
  unfold wait_reports. destruct (Link.windows l) as [|w ws] eqn:E; intros [= <- <-]; cbn.
  - split_and!; [done|by left|by rewrite E].
  - split_and!; [done|right; by left|]. intros w' Hw. by right.
Qed.

(** Calls leave the waits alone. *)
Definition same_windows (l l' : Link.t) : Prop := forall w, w ∈ Link.windows l' -> w ∈ Link.windows l.

#[local] Instance same_windows_preorder : PreOrder same_windows.
Proof. split; [by intros l w|]. intros l1 l2 l3 H12 H23 w Hw. apply H12, H23, Hw. Qed.

Lemma context_steps R {A} message (m : mq A) : steps R m -> steps R (with_context message m).
Proof. intros Hm l. specialize (Hm l). unfold with_context. by destruct (m l). Qed.

Lemma call_windows : steps same_windows call_outcome.
Proof. intros l w. unfold call_outcome. by destruct (Link.faults l) as [|[] ?]. Qed.
Lemma subscribe_windows topic : steps same_windows (subscribe topic).
Proof. apply steps_bind; [tc_solve| |intros; apply call_windows]. by intros l w. Qed.
Lemma publish_windows topic payload : steps same_windows (publish topic payload).
Proof. apply steps_bind; [tc_solve| |intros; apply call_windows]. by intros l w. Qed.
Lemma payload_windows c : steps same_windows (payload_of c).
Proof. intros l w. unfold payload_of. by destruct (command_payload c _) as [[]|]. Qed.
Lemma wait_windows : steps same_windows wait_reports.
Proof. intros l w. unfold wait_reports. destruct (Link.windows l) eqn:E; cbn; [by rewrite E|by right]. Qed.

#[local] Hint Resolve call_windows subscribe_windows publish_windows payload_windows wait_windows
  context_steps : mq.

Lemma operation_commands_windows serial topics o observed :
  steps same_windows (operation_commands serial topics o observed).
Proof.
  assert (forall requested, steps same_windows (chamber_light_commands topics requested)) as L.
  { intros requested. apply steps_bind; [tc_solve|auto with mq|]. intros p.
    apply steps_bind; [tc_solve|auto with mq|]. intros _.
    apply steps_bind; [tc_solve|auto with mq|]. intros events.
    apply steps_bind; [tc_solve|apply steps_lift; tc_solve|]. intros on. apply steps_ret. tc_solve. }
  assert (steps same_windows
      match mqtt_command_for_printer_operation_with_features o observed with
      | None => tfail Panicked
      | Some command =>
          command <~ with_context ("select printer operation payload for " +:+ serial) (mq_lift command) ;;
          tret [command]
      end) as S; [|destruct o; first [exact S|apply L]].
  destruct (mqtt_command_for_printer_operation_with_features o observed) as [r|];
    [|apply steps_fail; tc_solve].
  apply steps_bind; [tc_solve|apply context_steps, steps_lift; tc_solve|].
  intros c. apply steps_ret. tc_solve.
Qed.

Lemma payloads_run cs : forall l l' ps,
  Forall plain cs -> payloads_of cs l = (l', Ok ps) ->
  Link.published l' = Link.published l /\ same_windows l l'
  /\ Forall (fun p => exists id, BambuMqttCommandPayload.sequence_id p = Some id
                      /\ answers (BambuMqttCommandPayload.payload p) id) ps.
Proof.
  induction cs as [|c cs IH]; intros l l' ps Hcs; cbn [payloads_of].
  { rewrite tret_Ok. intros [-> ->]. split_and!; [done|reflexivity|constructor]. }
  rewrite tbind_Ok. intros (l1 & p & Ep & E). rewrite tbind_Ok in E. destruct E as (l2 & rest & E & Er).
  rewrite tret_Ok in Er. destruct Er as [-> ->]. inversion Hcs as [|? ? Hc Hrest]; subst.
  destruct (IH _ _ _ Hrest E) as (P & W & F). pose proof (payload_windows c l) as W1. rewrite Ep in W1.
  unfold payload_of in Ep. destruct (command_payload c (Link.cell l)) as [[p' cell]|] eqn:Ec; [|done].
  injection Ep as <- <-. split_and!; [done|by etrans|].
  constructor; [by eapply plain_numbered|done].
Qed.

Lemma publish_all_run serial topic ps : forall l l',
  publish_all serial topic ps l = (l', Ok tt) ->
  Link.published l' = Link.published l ++ map (fun p => (topic, BambuMqttCommandPayload.payload p)) ps
  /\ same_windows l l'.
Proof.
  induction ps as [|p ps IH]; intros l l'; cbn [publish_all].
  { rewrite tret_Ok. intros [-> _]. split; [by rewrite app_nil_r|reflexivity]. }
  rewrite tbind_Ok. intros (l1 & [] & Ep & E). destruct (IH _ _ E) as [P W].
  assert (Link.published l1 = Link.published l ++ [(topic, BambuMqttCommandPayload.payload p)]) as P1.
  { revert Ep. unfold with_context, publish, tbind, log_publish, call_outcome. cbn.
    by destruct (Link.faults l) as [|[] ?]; intros [= <-]. }
  split.
  - by rewrite P, P1, <- app_assoc.
  - pose proof (context_steps same_windows ("publish printer operation to " +:+ serial) _
      (publish_windows topic (BambuMqttCommandPayload.payload p)) l) as W1.
    rewrite Ep in W1. by etrans.
Qed.

(** The stages of a dispatch that returns. *)
Lemma dispatch_stages serial o observed l l' res :
  dispatch_printer_operation serial o observed l = (l', Ok res) ->
  exists sent ps l4,
    Link.published l4 = Link.published l ++ sent
      ++ map (fun p => ("device/" +:+ serial +:+ "/request", BambuMqttCommandPayload.payload p)) ps
    /\ same_windows l l4
    /\ Forall (fun p => exists id, BambuMqttCommandPayload.sequence_id p = Some id
                         /\ answers (BambuMqttCommandPayload.payload p) id) ps
    /\ await_answer o ps l4 = (l', Ok res).
Proof.
  set (topics := BambuMqttTopics.for_serial serial).
  unfold dispatch_printer_operation. fold topics. rewrite tbind_Ok.
  intros (l1 & [] & E1 & Hrun). rewrite tbind_Ok in Hrun.
  destruct Hrun as (l2 & cs & E2 & Hrun). rewrite tbind_Ok in Hrun.
  destruct Hrun as (l3 & ps & E3 & Hrun). rewrite tbind_Ok in Hrun.
  destruct Hrun as (l4 & [] & E4 & Hrun).
  destruct (operation_commands_plain _ _ _ _ _ _ _ E2) as [Hcs _].
  destruct (payloads_run _ _ _ _ Hcs E3) as (P3 & W3 & A3).
  destruct (publish_all_run _ _ _ _ _ E4) as [P4 W4].
  pose proof (proj1 (safe_context (fun _ => True) ("subscribe to report topic " +:+ BambuMqttTopics.report topics)
    _ (safe_subscribe _ (BambuMqttTopics.report topics)) l)) as (s1 & S1 & _).
  pose proof (proj1 (safe_operation_commands serial o observed l1)) as (s2 & S2 & _).
  pose proof (context_steps same_windows ("subscribe to report topic " +:+ BambuMqttTopics.report topics)
    _ (subscribe_windows (BambuMqttTopics.report topics)) l) as W1.
  pose proof (operation_commands_windows serial topics o observed l1) as W2.
  rewrite E1 in S1, W1. fold topics in S2. rewrite E2 in S2, W2. cbn in S1, S2, W1, W2.
  exists (s1 ++ s2), ps, l4. split_and!; [|by repeat (etrans; [eassumption|])|done|done].
  by rewrite P4, P3, S2, S1, <- !app_assoc.
Qed.

(** The report of an answer. *)
Lemma answered_report o id rep res report :
  answered o id rep = Ok res -> PrinterOperationDispatchResult.mqtt_report res = Some report ->
  PrinterOperationDispatchResult.sequence_id res = Some id
  /\ PrinterOperationDispatchResult.error res = report_error rep /\ report = report_into_payload rep.
Proof.
  unfold answered. rewrite rbind_Ok. intros (u & _ & [= <-]). cbn. by intros [= <-].
Qed.

Lemma await_report o ps l l' res report :
  await_answer o ps l = (l', Ok res) -> PrinterOperationDispatchResult.mqtt_report res = Some report ->
  exists id rep raw window,
    PrinterOperationDispatchResult.sequence_id res = Some id
    /\ PrinterOperationDispatchResult.error res = report_error rep
    /\ report = report_into_payload rep
    /\ from_payload raw = Some rep /\ report_sequence_id rep = Some id
    /\ window ∈ Link.windows l /\ In raw (arrivals window)
    /\ Link.published l' = Link.published l
    /\ id ∈ omap BambuMqttCommandPayload.sequence_id ps.
Proof.
  unfold await_answer. destruct (omap BambuMqttCommandPayload.sequence_id ps) as [|first ids].
  { rewrite tret_Ok. by intros [_ ->]. }
  rewrite tbind_Ok. intros (l5 & answer & E5 & Hrun) Hreport.
  unfold matching_sequence_report in E5. rewrite tbind_Ok in E5.
  destruct E5 as (l6 & events & E6 & E5). rewrite tret_Ok in E5. destruct E5 as [-> ->].
  destruct (wait_reports_run _ _ _ E6) as (P6 & Hev & _).
  destruct (matching_loop _ _ _ _) as [[id rep]|e] eqn:Em.
  - unfold mq_lift in Hrun. rewrite tlift_Ok in Hrun. destruct Hrun as [-> Ea].
    destruct (answered o id rep) as [res'|] eqn:Ea'; [|done]. injection Ea as ->.
    destruct (answered_report _ _ _ _ _ Ea' Hreport) as (I & Er & R).
    apply matching_loop_arrived in Em as (raw & Hraw & Hrel); [|done].
    apply relevant_spec in Hrel as (D & S & Hid).
    exists id, rep, raw, events. split_and!; try done.
    destruct Hev as [->|Hev]; [done|exact Hev].
  - destruct (is_some _); [done|]. rewrite tret_Ok in Hrun. by destruct Hrun as [_ ->].
Qed.

(** C11: an operation is answered by the printer, and by a report of its own: when a
    dispatch returns a report, the report arrived from the printer during one of its
    waits; it carries the sequence id of a message this dispatch published; and the
    error returned is the one the report states. *)
Theorem dispatch_answer (serial : string) (o : PrinterOperation.t)
    (observed : option BambuDeviceFeatures) (l l' : Link.t)
    (res : PrinterOperationDispatchResult.t) (report : json)
    (Hrun : dispatch_printer_operation serial o observed l = (l', Ok res))
    (Hreport : PrinterOperationDispatchResult.mqtt_report res = Some report) :
  exists id rep raw window sent payload,
    PrinterOperationDispatchResult.sequence_id res = Some id
    /\ PrinterOperationDispatchResult.error res = report_error rep
    /\ report = report_into_payload rep
    /\ from_payload raw = Some rep /\ report_sequence_id rep = Some id
    /\ window ∈ Link.windows l /\ In raw (arrivals window)
    /\ Link.published l' = Link.published l ++ sent
    /\ In ("device/" +:+ serial +:+ "/request", payload) sent /\ answers payload id.
Proof.
  destruct (dispatch_stages _ _ _ _ _ _ Hrun) as (sent & ps & l4 & P4 & W4 & A & E).
  destruct (await_report _ _ _ _ _ _ E Hreport)
    as (id & rep & raw & window & I & Er & R & D & S & Hw & Hraw & P & Hid).
  apply list_elem_of_omap in Hid as (p & Hp & Ip).
  rewrite Forall_forall in A. destruct (A p Hp) as (id' & Ip' & Ans).
  eexists id, rep, raw, window, _, (BambuMqttCommandPayload.payload p).
  split_and!; [done|done|done|done|done|by apply W4|done|by rewrite P, P4| |congruence].
  apply in_or_app. right. apply in_map_iff. exists p. split; [done|]. by apply list_elem_of_In.
Qed.
End Dispatch.
