(* ===== verification/OperationSamples.v ===== *)
(** * A dispatch, step by step

    Concrete runs of the agent's operations: the witnesses of [AgentOperations] and
    [OperationSafety]. *)

From S2P Require Import Prelude RustStr RustFloat Json CoreTypes DeviceFeatures PrinterOperation OperationWire ProjectFile AgentMaterials StudioSequence MqttCommands OperationCommands OperationReports Tx AgentOperations OperationSafety.

#[local] Open Scope Z_scope.

(** An agent without the slicer's signing key. *)
Definition unsigned_agent : SlicerKey := {|
  slicer_key := false; slicer_cert_id := None; sign_base64 _ := None; to_vec _ := EmptyString |}.

Definition report (members : list (string * json)) : json := Object [("print"%string, Object members)].
Definition success (id : string) : json :=
  report [("command"%string, Str "xyz_ctrl"); ("result"%string, Str "success"); ("sequence_id"%string, Str id)].
Definition failure (id : string) : json :=
  report [("errno"%string, Num (PosInt 7)); ("sequence_id"%string, Str id)].

(** The report of another command arrives first. *)
Definition step_link : Link.t :=
  Link.mk STUDIO_START_SEQUENCE_ID [] [] [] [[Arrived (success "7"); Arrived (success "20000")]].

Definition step_run : Link.t * result Fault PrinterOperationDispatchResult.t :=
  dispatch_printer_operation (H := unformatted) (H0 := unsigned_agent) "01S" step_y
    (Some axis_features) step_link.

Lemma matching_report_choice_witness :
  matching_loop (H := unformatted) ["20000"; "20001"]%string None []
    [Arrived (failure "20000"); Arrived (success "20001")]
  = choose_answer 2
      (omap (relevant_report (H := unformatted) ["20000"; "20001"]%string None)
         [failure "20000"; success "20001"])
      (wait_error [Arrived (failure "20000"); Arrived (success "20001")]).
Proof.
  exact (matching_report_choice (H := unformatted) ["20000"; "20001"]%string None
    [Arrived (failure "20000"); Arrived (success "20001")] ltac:(done)).
Defined.

(** The loop counts reports, not commands: two failures of one command end the wait
    before the other command is answered. *)
Example repeated_failure_ends_wait :
  is_ok (matching_loop (H := unformatted) ["20000"; "20001"]%string None []
    [Arrived (failure "20000"); Arrived (failure "20000"); Arrived (success "20001")]) = true
  /\ match matching_loop (H := unformatted) ["20000"; "20001"]%string None []
       [Arrived (failure "20000"); Arrived (failure "20000"); Arrived (success "20001")] with
     | Ok (id, report) => id = "20000"%string /\ is_some (report_error report) = true
     | Err _ => False
     end.
Proof. vm_compute. done. Qed.

Lemma dispatch_answer_witness :
  exists l' res report,
    step_run = (l', Ok res) /\ PrinterOperationDispatchResult.mqtt_report res = Some report
    /\ exists id rep raw window sent payload,
      PrinterOperationDispatchResult.sequence_id res = Some id
      /\ PrinterOperationDispatchResult.error res = report_error rep
      /\ report = report_into_payload rep
      /\ from_payload raw = Some rep /\ report_sequence_id (H := unformatted) rep = Some id
      /\ window ∈ Link.windows step_link /\ In raw (arrivals window)
      /\ Link.published l' = Link.published step_link ++ sent
      /\ In ("device/01S/request"%string, payload) sent /\ answers (H := unformatted) payload id.
Proof.
  eexists _, _, _. split; [vm_compute; reflexivity|]. split; [vm_compute; reflexivity|].
  apply (dispatch_answer (H := unformatted) (H0 := unsigned_agent) "01S" step_y (Some axis_features) step_link);
    [vm_compute; reflexivity|vm_compute; reflexivity].
Defined.
