(* ===== verification/MaterialPipeline.v ===== *)
(** * From the agent to the Hub: material patches

    What the agent serializes ([AgentMaterials]) is what the Hub reads
    ([Materials]); and a slot whose printer says it is empty is forgotten in the
    Hub's snapshot, whatever the snapshot and the report said about it. *)

From S2P Require Import Prelude RustStr RustFloat CoreTypes Json Serde BTree Ams Store JobRows Tx AgentSessions PrinterRows Materials MaterialMerge MaterialCodec AgentMaterials.

#[local] Open Scope Z_scope.

(** The agent's records that share a name with the Hub's. *)
Module AgentUnit := AgentMaterials.AmsUnitPatch.
Module AgentSpool := AgentMaterials.ExternalSpoolPatch.
Module AgentPatch := AgentMaterials.MaterialPatchDocument.

(** ** Fields of a serialized struct *)

Lemma field_cons_ne k k' v (rest : list (string * json)) : k' <> k -> field k ((k', v) :: rest) = field k rest.
Proof. intros Hk. unfold field. simpl. by rewrite (proj2 (beq_false k' k)). Qed.

Lemma field_cons_eq k v (rest : list (string * json)) :
  field k rest = Some None -> field k ((k, v) :: rest) = Some (Some v).
Proof.
  unfold field. simpl. rewrite beq_refl.
  destruct (List.filter _ rest) as [|? [|]]; simpl; congruence.
Qed.

Lemma field_opt_ne k k' v rest : k' <> k -> field k (opt_field k' v ++ rest) = field k rest.
Proof. intros Hk. destruct v; [|done]. by apply field_cons_ne. Qed.

Lemma field_opt_eq k v rest : field k rest = Some None -> field k (opt_field k v ++ rest) = Some v.
Proof. intros Hr. destruct v; [|done]. by apply field_cons_eq. Qed.

Lemma field_nil k : field k [] = Some None.
Proof. done. Qed.

(** Finding a field in a list of pairs and [opt_field]s. *)
Ltac skip_fields :=
  repeat first [rewrite field_nil | rewrite field_cons_ne by done | rewrite field_opt_ne by done].
Ltac find_field :=
  lazymatch goal with |- field _ ?fields = _ => try unfold fields end; skip_fields;
  first [reflexivity
        | rewrite field_opt_eq by (skip_fields; reflexivity); reflexivity
        | rewrite field_cons_eq by (skip_fields; reflexivity); reflexivity].

Lemma fields_json_free k f :
  k ∉ ["state"; "filament_id"; "setting_id"; "type"; "color"; "multi_color"; "tag_uid"; "tray_uuid"; "name";
       "remaining_estimate"; "k_value"; "toolhead"]%string ->
  field k (fields_json f) = Some None.
Proof.
  intros Hk. unfold fields_json, opt_str. rewrite <- (app_nil_r (opt_field "toolhead" _)).
  repeat (rewrite field_opt_ne; [|intros E; apply Hk; rewrite <- E; set_solver]). done.
Qed.

(** ** Trays, spools and units *)

Definition tray_key (tray : AgentMaterials.MaterialTrayPatch) : string :=
  match tray with Present entry => Entry.tray_id entry | EmptyClear clear => Clear.tray_id clear end.

Definition fields_of (j : json) : list (string * json) := match j with Object fields => fields | _ => [] end.

(** What the Hub makes of a tray, a spool, a unit. *)
Definition hub_tray (tray : AgentMaterials.MaterialTrayPatch) : Tp.t :=
  Tp.mk (Some (tray_key tray)) (flattened ["tray_id"%string] (fields_of (tray_json tray))).

Definition hub_spool (spool : AgentSpool.t) : Sp.t :=
  Sp.mk (Some (AgentSpool.external_id spool)) (Some (AgentSpool.tray_id spool))
    (flattened ["external_id"; "tray_id"]%string (fields_of (spool_json spool))).

Definition hub_unit (u : AgentUnit.t) : Up.t :=
  Up.mk (Some (AgentUnit.unit_id u)) (AgentUnit.replace_trays u)
    (match AgentUnit.trays u with [] => None | trays => Some (map hub_tray trays) end)
    (flattened ["unit_id"; "replace_trays"; "trays"]%string (fields_of (unit_json u))).

Lemma tray_decoded tray : Tp.decode (tray_json tray) = Some (hub_tray tray).
Proof.
  destruct tray as [e|c]; simpl; [|done]. unfold hub_tray. simpl.
  rewrite field_cons_eq; [done|]. rewrite field_cons_ne by done.
  unfold opt_str. rewrite !field_opt_ne by done. apply fields_json_free. set_solver.
Qed.

Lemma spool_decoded spool : Sp.decode (spool_json spool) = Some (hub_spool spool).
Proof.
  unfold hub_spool. simpl.
  assert (forall k, k = "external_id"%string \/ k = "tray_id"%string ->
    field k (fields_json (AgentSpool.fields spool)) = Some None) as Hf.
  { intros k Hk. apply fields_json_free. destruct Hk as [-> | ->]; set_solver. }
  rewrite field_cons_eq; [|rewrite !field_cons_ne by done; auto]. simpl.
  rewrite !field_cons_ne by done. rewrite field_cons_eq by auto. done.
Qed.

Lemma unit_decoded u : Up.decode (unit_json u) = Some (hub_unit u).
Proof.
  unfold hub_unit. simpl. set (trays := match AgentUnit.trays u with [] => [] | _ => _ end).
  set (replace := if AgentUnit.replace_trays u then [("replace_trays"%string, Bool true)] else []).
  assert (field "unit_id" replace = Some None /\ field "trays" replace = Some None
          /\ field "replace_trays" replace
             = Some (if AgentUnit.replace_trays u then Some (Bool true) else None)) as (R1 & R2 & R3)
    by (subst replace; by destruct (AgentUnit.replace_trays u)).
  assert (trays = opt_field "trays" (match AgentUnit.trays u with
                                     | [] => None | l => Some (Array (map tray_json l)) end)) as ->
    by (subst trays; by destruct (AgentUnit.trays u)).
  rewrite field_cons_eq; [|unfold opt_str, opt_num; by rewrite !field_opt_ne by done]. cbn [mbind option_bind opt_string].
  unfold opt_str, opt_num. rewrite !field_cons_ne by done.
  rewrite !(field_opt_ne "replace_trays") by done. rewrite !(field_opt_ne "trays") by done.
  rewrite R3, field_opt_eq by done. cbn [mbind option_bind].
  assert (forall l, decode_all Tp.decode (map tray_json l) = Some (map hub_tray l)) as Hd.
  { induction l as [|t l IH]; [done|]. simpl. by rewrite tray_decoded, IH. }
  destruct (AgentUnit.replace_trays u), (AgentUnit.trays u) as [|t l]; cbn -[decode_all]; try done;
    change (tray_json t :: map tray_json l) with (map tray_json (t :: l)); by rewrite Hd.
Qed.

(** ** The document *)

Definition hub_patch (p : AgentPatch.t) : Doc.t :=
  Doc.mk "printer_material_patch" (AgentPatch.observed_at p) (AgentPatch.filament_switch_installed p)
    (AgentPatch.cfg p) (AgentPatch.aux p) (AgentPatch.stat p)
    (match AgentPatch.ams_units p with [] => None | units => Some (map hub_unit units) end)
    (map hub_spool <$> AgentPatch.external_spools p) (AgentPatch.replace_external_spools p)
    (presence (active_tray_json <$> AgentPatch.active_tray p)).

Lemma opt_string_Str (o : option string) : opt_string (Str <$> o) = Some o.
Proof. by destruct o. Qed.
Lemma opt_bool_Bool (o : option bool) : opt_bool (Bool <$> o) = Some o.
Proof. by destruct o. Qed.

Lemma decode_all_map_some {A} (decode : json -> option A) {B} (print : B -> json) (f : B -> A) l :
  (forall x, decode (print x) = Some (f x)) -> decode_all decode (map print l) = Some (map f l).
Proof. intros Hd. induction l as [|x l IH]; [done|]. simpl. by rewrite Hd, IH. Qed.

(** What the agent serializes the Hub decodes, field by field. *)
Lemma patch_decoded p : Doc.decode (patch_json p) = Some (hub_patch p).
Proof.
  unfold hub_patch, patch_json, Doc.decode, Doc.decode_fields.
  set (units := match AgentPatch.ams_units p with [] => [] | _ => _ end).
  set (replace := if AgentPatch.replace_external_spools p then _ else _).
  assert (units = opt_field "ams_units" (match AgentPatch.ams_units p with
                                         | [] => None | l => Some (Array (map unit_json l)) end)) as ->
    by (subst units; by destruct (AgentPatch.ams_units p)).
  assert (replace = opt_field "replace_external_spools"
                      (if AgentPatch.replace_external_spools p then Some (Bool true) else None)) as ->
    by (subst replace; by destruct (AgentPatch.replace_external_spools p)).
  unfold opt_str. rewrite <- (app_nil_r (opt_field "active_tray" _)). cbn [app].
  match goal with |- context [field "type" ?fs] => set (fields := fs) end.
  rewrite (ltac:(find_field) : field "type" fields = Some (Some (Str "printer_material_patch"))).
  rewrite (ltac:(find_field) : field "observed_at" fields = Some (Some (Str (AgentPatch.observed_at p)))).
  rewrite (ltac:(find_field) : field "filament_switch_installed" fields
                               = Some (Bool <$> AgentPatch.filament_switch_installed p)).
  rewrite (ltac:(find_field) : field "cfg" fields = Some (Str <$> AgentPatch.cfg p)).
  rewrite (ltac:(find_field) : field "aux" fields = Some (Str <$> AgentPatch.aux p)).
  rewrite (ltac:(find_field) : field "stat" fields = Some (Str <$> AgentPatch.stat p)).
  rewrite (ltac:(find_field) : field "ams_units" fields
    = Some (match AgentPatch.ams_units p with [] => None | l => Some (Array (map unit_json l)) end)).
  rewrite (ltac:(find_field) : field "external_spools" fields
    = Some ((fun l => Array (map spool_json l)) <$> AgentPatch.external_spools p)).
  rewrite (ltac:(find_field) : field "replace_external_spools" fields
    = Some (if AgentPatch.replace_external_spools p then Some (Bool true) else None)).
  rewrite (ltac:(find_field) : field "active_tray" fields
    = Some (active_tray_json <$> AgentPatch.active_tray p)).
  cbn [mbind option_bind required_string]. rewrite opt_bool_Bool, !opt_string_Str. cbn [mbind option_bind].
  destruct (AgentPatch.ams_units p) as [|u l], (AgentPatch.external_spools p) as [spools|],
    (AgentPatch.replace_external_spools p); cbn -[decode_all presence]; try done;
    rewrite ?(decode_all_map_some _ unit_json hub_unit (u :: l)) by apply unit_decoded;
    rewrite ?(decode_all_map_some _ spool_json hub_spool) by apply spool_decoded; done.
Qed.

(** ** Empty slots *)

(** The printer's bits say that a slot of the unit is empty. *)
Definition slot_empty (kind : AmsUnitKind) (unit_number bits slot : Z) : Prop :=
  exists bit, AmsUnitKind.global_tray_id kind unit_number slot = Some bit
              /\ (bit <? 64) && negb (Z.land bits (Z.shiftl 1 bit) =? 0) = false.

Definition keyed_trays (trays : list (string * AgentMaterials.MaterialTrayPatch)) : Prop :=
  Forall (fun tray => tray_key tray.2 = tray.1) trays.

Lemma replace_or_push_In k new l x : In x l -> x.1 <> k -> In x (replace_or_push k new l).
Proof.
  intros Hx Hk. induction l as [|y l IH]; simpl in *; [done|].
  destruct (beq y.1 k) eqn:E; simpl.
  - rewrite beq_true in E. destruct Hx as [-> | Hx]; [congruence|by right].
  - destruct Hx as [-> | Hx]; [by left|right; auto].
Qed.

Lemma replace_or_push_new k new l : In new (replace_or_push k new l).
Proof. induction l as [|y l IH]; simpl; [by left|]. destruct (beq y.1 k); simpl; auto. Qed.

Lemma replace_or_push_keys k new l :
  new.1 = k -> map fst (replace_or_push k new l) = if bool_decide (k ∈ map fst l) then map fst l else map fst l ++ [k].
Proof.
  intros Hn. induction l as [|y l IH]; [simpl; by rewrite Hn|]. simpl. destruct (beq y.1 k) eqn:E.
  - rewrite beq_true in E. rewrite bool_decide_true by (rewrite E; set_solver). simpl. congruence.
  - rewrite beq_false in E. simpl. rewrite IH.
    destruct (decide (k ∈ map fst l)) as [Hk|Hk].
    + rewrite !bool_decide_true by set_solver. done.
    + rewrite !bool_decide_false by set_solver. done.
Qed.

Lemma replace_or_push_NoDup k new l :
  new.1 = k -> NoDup (map fst l) -> NoDup (map fst (replace_or_push k new l)).
Proof.
  intros Hn Hd. rewrite replace_or_push_keys by done.
  destruct (decide (k ∈ map fst l)) as [Hk|Hk]; [by rewrite bool_decide_true|].
  rewrite bool_decide_false by done. apply NoDup_app. split; [done|]. split; [set_solver|apply NoDup_singleton].
Qed.

Lemma replace_or_push_keyed k new l :
  tray_key new.2 = new.1 -> keyed_trays l -> keyed_trays (replace_or_push k new l).
Proof.
  intros Hn Hl. induction Hl as [|y l Hy Hl IH]; simpl; [by repeat constructor|].
  destruct (beq y.1 k); by constructor.
Qed.

Lemma slot_key_inj slot slot' : dec slot = dec slot' -> slot = slot'.
Proof. apply dec_inj. Qed.

(** A pass over the slots clears every empty slot among them. *)
Lemma clear_slots_In id number kind bits slots slot trays :
  In slot slots -> slot_empty kind number bits slot ->
  In (empty_tray_clear id kind slot) (fold_left (clear_slot id number kind bits) slots trays).
Proof.
  intros Hin (bit & Eb & Hb).
  assert (forall slots trays, In (empty_tray_clear id kind slot) trays ->
    In (empty_tray_clear id kind slot) (fold_left (clear_slot id number kind bits) slots trays)) as Hkeep.
  { clear slots Hin trays. induction slots as [|s slots IH]; intros trays Ht; simpl; [done|]. apply IH.
    unfold clear_slot. destruct (AmsUnitKind.global_tray_id kind number s) as [b|] eqn:E; [|done].
    destruct ((b <? 64) && _) eqn:Eb'; [done|].
    destruct (decide (s = slot)) as [->|Hs]; [apply replace_or_push_new|].
    apply replace_or_push_In; [done|]. simpl. by intros ?%slot_key_inj. }
  revert trays. induction slots as [|s slots IH]; intros trays; [done|]. simpl.
  destruct Hin as [-> | Hin]; [|by apply IH]. apply Hkeep. unfold clear_slot. rewrite Eb, Hb.
  apply replace_or_push_new.
Qed.

Lemma clear_slots_shape id number kind bits slots trays :
  NoDup (map fst trays) -> keyed_trays trays ->
  NoDup (map fst (fold_left (clear_slot id number kind bits) slots trays))
  /\ keyed_trays (fold_left (clear_slot id number kind bits) slots trays).
Proof.
  revert trays. induction slots as [|s slots IH]; intros trays Hd Hk; simpl; [done|]. unfold clear_slot at 2 4.
  destruct (AmsUnitKind.global_tray_id kind number s) as [b|]; [|by apply IH].
  destruct (_ && _); [by apply IH|]. apply IH; [by apply replace_or_push_NoDup|by apply replace_or_push_keyed].
Qed.

Lemma omap_cons {A B} (f : A -> option B) x l :
  omap f (x :: l) = match f x with Some y => y :: omap f l | None => omap f l end.
Proof. done. Qed.

Section Pipeline.
Context `{FloatText}.

Lemma normalized_shape id kind (slots : list Slot.t) :
  NoDup (omap tray_id slots) ->
  map fst (omap (normalize_tray id kind) slots) = omap tray_id slots
  /\ NoDup (map fst (omap (normalize_tray id kind) slots)) /\ keyed_trays (omap (normalize_tray id kind) slots).
Proof.
  intros Hd.
  assert (map fst (omap (normalize_tray id kind) slots) = omap tray_id slots) as E.
  { clear Hd. induction slots as [|s slots IH]; [done|]. rewrite !omap_cons. unfold normalize_tray at 1.
    destruct (tray_id s); cbn [mbind option_bind map fst]; [by rewrite IH|done]. }
  split; [done|]. split; [by rewrite E|]. clear Hd E. unfold keyed_trays.
  induction slots as [|s slots IH]; [constructor|]. rewrite omap_cons. unfold normalize_tray at 1.
  destruct (tray_id s); cbn [mbind option_bind]; [by constructor|done].
Qed.

(** The trays of a unit with empty slots: named once, and cleared. *)
Lemma normalize_trays_clear unit id number kind bits slot :
  NoDup (omap tray_id (Unit_.trays unit)) -> parse_u64 id = Some number ->
  AmsUnitKind.uses_four_slot_exist_bits kind = true -> In slot [0; 1; 2; 3] ->
  slot_empty kind number bits slot ->
  let trays := normalize_trays unit id (Some kind) false (Some bits) in
  NoDup (map fst trays) /\ keyed_trays trays /\ In (empty_tray_clear id kind slot) trays.
Proof.
  intros Hd En Hk Hs He. unfold normalize_trays. rewrite Hk. cbn [negb andb].
  destruct (normalized_shape id (Some kind) (Unit_.trays unit) Hd) as (_ & Hd' & Hk').
  unfold apply_empty_tray_clears. rewrite En.
  destruct (clear_slots_shape id number kind bits [0; 1; 2; 3] _ Hd' Hk') as [H1 H2].
  split; [done|]. split; [done|]. by apply clear_slots_In.
Qed.

(** *** The unit in the patch *)

Definition report_bits (ams : AmsReport.t) : option Z :=
  AmsReport.tray_exist_bits ams ≫= ScalarValue.parse_u64_or_hex.

Lemma normalize_unit_id ams print n switch unit up :
  normalize_ams_unit ams print n switch unit = Some up -> unit_id unit = Some (AgentUnit.unit_id up).
Proof.
  unfold normalize_ams_unit. destruct (unit_id unit) as [id|]; simpl; [|done].
  destruct (_ || _); [|done]. by intros [= <-].
Qed.

Lemma normalize_unit_clears ams print n switch unit id number kind bits slot :
  Unit_.trays unit <> [] -> NoDup (omap tray_id (Unit_.trays unit)) ->
  unit_id unit = Some id -> parse_u64 id = Some number -> report_bits ams = Some bits ->
  unit_kind id (Unit_.info unit) (Some bits) = Some kind ->
  AmsUnitKind.uses_four_slot_exist_bits kind = true ->
  (AmsReport.power_on_flag ams = Some false -> bits <> 0) ->
  In slot [0; 1; 2; 3] -> slot_empty kind number bits slot ->
  exists up trays, normalize_ams_unit ams print n switch unit = Some up
    /\ AgentUnit.unit_id up = id /\ AgentUnit.trays up = map snd trays
    /\ NoDup (map fst trays) /\ keyed_trays trays /\ In (empty_tray_clear id kind slot) trays.
Proof.
  intros Ht Hd Ei En Eb Ek Hk Hp Hs He.
  destruct (normalize_trays_clear unit id number kind bits slot Hd En Hk Hs He) as (H1 & H2 & H3).
  unfold normalize_ams_unit. unfold report_bits in Eb. rewrite Ei, Eb. cbn [mbind option_bind]. rewrite Ek.
  assert (beq (AmsReport.power_on_flag ams) (Some false) && beq (Some bits) (Some 0) = false) as ->.
  { destruct (beq (AmsReport.power_on_flag ams) (Some false)) eqn:E; [|done]. rewrite beq_true in E.
    apply Hp in E. simpl. apply beq_false. congruence. }
  destruct (Unit_.trays unit) as [|t l] eqn:Et; [done|].
  set (trays := normalize_trays unit id (Some kind) false (Some bits)) in *.
  destruct trays as [|x trays'] eqn:Ex; [done|]. cbn [map].
  rewrite !orb_true_r. cbn [negb orb].
  eexists _, (x :: trays'). split; [reflexivity|]. repeat split; done.
Qed.

(** *** The slot in the snapshot *)

Definition material_names : list string :=
  ["filament_id"; "setting_id"; "type"; "color"; "multi_color"; "tag_uid"; "tray_uuid"; "name";
   "remaining_estimate"]%string.

(** What else the agent says of an empty slot. *)
Definition slot_names : list string := ["exists"; "state"; "unit_kind"; "global_tray_id"]%string.

(** A tray the snapshot shows as empty: what described its filament is gone, what is said
    of the slot is that it is empty, and every other field is as in [old], the tray the
    snapshot had for the slot. *)
Record forgotten (kind : AmsUnitKind) (old : option Ts.t) (t : Ts.t) : Prop := {
  fg_exists : lookup_key "exists" (Ts.fields t) = Some (Bool false);
  fg_state : lookup_key "state" (Ts.fields t) = Some (Str "9");
  fg_kind : lookup_key "unit_kind" (Ts.fields t) = Some (Str (kind_name kind));
  fg_material : Forall (fun name => lookup_key name (Ts.fields t) = None) material_names;
  fg_other : forall name, ~ In name (material_names ++ slot_names) ->
    lookup_key name (Ts.fields t) = old ≫= fun o => lookup_key name (Ts.fields o);
}.

Definition clear_patch (c : Clear.t) : Tp.t := redacted_tray (hub_tray (EmptyClear c)).

Lemma clear_patch_fields c :
  Tp.fields (clear_patch c)
  = [("color", Null); ("exists", Bool false); ("filament_id", Null);
     ("global_tray_id", opt_int (Clear.global_tray_id c)); ("multi_color", Null); ("name", Null);
     ("remaining_estimate", Null); ("setting_id", Null); ("state", Str "9"); ("tag_uid", Null);
     ("tray_uuid", Null); ("type", Null); ("unit_kind", Str (kind_name (Clear.unit_kind c)))]%string.
Proof. destruct c as [id kind [gid|]], kind; vm_compute; reflexivity. Qed.

Lemma clear_patch_increasing c : increasing (Tp.fields (clear_patch c)).
Proof.
  change (increasing (redact_object (flattened ["tray_id"%string] (fields_of (clear_json c))))).
  apply redact_object_increasing, flattened_canonical.
Qed.

(** It says nothing of any other field. *)
Lemma clear_patch_other c name :
  ~ In name (material_names ++ slot_names) -> lookup_key name (Tp.fields (clear_patch c)) = None.
Proof.
  intros Hn. rewrite clear_patch_fields. unfold lookup_key.
  repeat (cbn [List.find fst snd]; destruct (beq _ name) eqn:E;
    [rewrite beq_true in E; subst name; destruct Hn; cbn; tauto|clear E]).
  done.
Qed.

Lemma clear_patch_forgets c t :
  increasing (Ts.fields t) -> forgotten (Clear.unit_kind c) (Some t) (tray_change (clear_patch c) t).
Proof.
  intros Ht. pose proof (clear_patch_increasing c) as Hc. unfold tray_change.
  split; cbn [Ts.fields].
  1-3: rewrite merge_fields_lookup by done; by rewrite clear_patch_fields.
  - unfold material_names. repeat constructor; rewrite merge_fields_lookup by done; by rewrite clear_patch_fields.
  - intros name Hn. rewrite merge_fields_lookup by done. by rewrite (clear_patch_other c name Hn).
Qed.

Lemma clear_patch_new c : forgotten (Clear.unit_kind c) None (tray_new (clear_patch c)).
Proof.
  pose proof (clear_patch_increasing c) as Hc. unfold tray_new. split; cbn [Ts.fields].
  1-3: rewrite without_nulls_lookup by done; by rewrite clear_patch_fields.
  - unfold material_names. repeat constructor; rewrite without_nulls_lookup by done; by rewrite clear_patch_fields.
  - intros name Hn. rewrite without_nulls_lookup by done. by rewrite (clear_patch_other c name Hn).
Qed.

Lemma hub_tray_ids trays :
  keyed_trays trays -> omap Tp.tray_id (map redacted_tray (map hub_tray (map snd trays))) = map fst trays.
Proof.
  induction 1 as [|t trays Ht _ IH]; [done|]. cbn [map]. rewrite omap_cons, IH, <- Ht. done.
Qed.

(** The merge of the unit's patch into a unit the Hub knows, or into a new one. *)
Lemma unit_forgets up trays id kind slot x :
  AgentUnit.trays up = map snd trays -> NoDup (map fst trays) -> keyed_trays trays ->
  In (empty_tray_clear id kind slot) trays ->
  (forall y, x = Some y -> unit_state_ok y) ->
  let q := redacted_unit (hub_unit up) in
  exists tray, at_key Ts.tray_id (dec slot)
    (Us.trays (match x with Some y => unit_change q y | None => unit_new q end)) = Some tray
    /\ forgotten kind (x ≫= fun y => at_key Ts.tray_id (dec slot) (Us.trays y)) tray.
Proof.
  intros Et Hd Hk Hin Hx q.
  assert (Up.trays q = Some (map redacted_tray (map hub_tray (map snd trays)))) as Eq.
  { unfold q. simpl. rewrite Et. by destruct trays. }
  set (ps := map redacted_tray (map hub_tray (map snd trays))) in *.
  set (c := Clear.mk (dec slot) kind (global_tray_id id (dec slot) (Some kind))).
  assert (In (clear_patch c) ps) as Hc.
  { unfold ps, clear_patch. apply in_map, in_map.
    change (EmptyClear c) with (snd (empty_tray_clear id kind slot)). by apply in_map. }
  assert (NoDup (omap Tp.tray_id ps)) as Hps by (unfold ps; by rewrite hub_tray_ids).
  destruct x as [y|].
  - unfold unit_change. cbn [Us.trays]. rewrite Eq, merge_trays_eq.
    erewrite at_key_merge; [|apply tray_le_key|done|done|exact Hps|exact Hc|done].
    eexists. split; [reflexivity|]. cbn [mbind option_bind].
    destruct (at_key Ts.tray_id (dec slot) (Us.trays y)) as [t|] eqn:E; [|apply (clear_patch_new c)].
    apply (clear_patch_forgets c). apply find_some in E as [E _].
    destruct (Hx y eq_refl) as [_ Hy]. by apply (proj1 (List.Forall_forall _ _) Hy).
  - unfold unit_new. cbn [Us.trays]. rewrite Eq. cbn [option_map default]. exists (tray_new (clear_patch c)).
    split; [by apply at_key_new_trays|apply (clear_patch_new c)].
Qed.

(** *** The patch as the Hub parses it *)

Context `{Rfc3339} `{MaterialText}.

Lemma patch_parsed p text patch :
  json_from_str text = Some (patch_json p) -> parse_patch_result text = Some patch ->
  Pp.observed_at patch = AgentPatch.observed_at p
  /\ Pp.ams_units patch = match AgentPatch.ams_units p with
                          | [] => None
                          | units => Some (map redacted_unit (map hub_unit units))
                          end.
Proof.
  unfold parse_patch_result. intros ->. cbn [mbind option_bind]. rewrite patch_decoded.
  cbn [mbind option_bind Doc.kind hub_patch]. rewrite beq_refl. cbn [negb].
  destruct (rfc_parse _); [|done]. intros [= <-]. split; [done|]. cbn.
  by destruct (AgentPatch.ams_units p).
Qed.

(** A report is always read by the Hub as the agent meant it: every patch the
    agent sends is decoded, with its time, its flags and, up to redaction, its
    units, trays and spools. *)
Theorem agent_patch_accepted p text t :
  json_from_str text = Some (patch_json p) -> rfc_parse (AgentPatch.observed_at p) = Some t ->
  exists patch, parse_patch_result text = Some patch
    /\ Pp.observed_at patch = AgentPatch.observed_at p
    /\ (Pp.cfg patch, Pp.aux patch, Pp.stat patch, Pp.filament_switch_installed patch)
       = (AgentPatch.cfg p, AgentPatch.aux p, AgentPatch.stat p, AgentPatch.filament_switch_installed p)
    /\ Pp.ams_units patch = option_map (map redacted_unit)
         (match AgentPatch.ams_units p with [] => None | units => Some (map hub_unit units) end)
    /\ Pp.external_spools patch
       = option_map (map redacted_spool) (map hub_spool <$> AgentPatch.external_spools p)
    /\ Pp.replace_external_spools patch = AgentPatch.replace_external_spools p.
Proof.
  intros Et Er. unfold parse_patch_result. rewrite Et. cbn [mbind option_bind].
  rewrite patch_decoded. cbn [mbind option_bind Doc.kind Doc.observed_at hub_patch].
  rewrite beq_refl, Er. cbn [negb mbind option_bind]. eexists. split; [reflexivity|]. done.
Qed.

Lemma patch_units report observed_at p print ams :
  MaterialsReport.print report = Some print -> Print.ams print = Some ams ->
  normalize_material_patch report observed_at = Some p ->
  AgentPatch.ams_units p
  = normalize_ams_units ams print (filament_switch_installed (normalize_studio_flag (Print.aux print))).
Proof.
  unfold normalize_material_patch. intros -> Ea. cbn [mbind option_bind]. rewrite Ea.
  cbn zeta. destruct (_ || _); [|done]. by intros [= <-].
Qed.

Lemma normalized_unit_ids ams print n switch units :
  NoDup (omap unit_id units) ->
  NoDup (omap Up.unit_id (map redacted_unit (map hub_unit (omap (normalize_ams_unit ams print n switch) units)))).
Proof.
  intros Hd.
  assert (forall ups : list AgentUnit.t,
    omap Up.unit_id (map redacted_unit (map hub_unit ups)) = map AgentUnit.unit_id ups) as E.
  { induction ups as [|u ups IH]; [done|]. cbn [map]. rewrite omap_cons, IH. done. }
  rewrite E. clear E. eapply sublist_NoDup; [exact Hd|].
  induction units as [|u units IH]; [constructor|]. rewrite !omap_cons in *.
  destruct (normalize_ams_unit ams print n switch u) as [up|] eqn:Eu.
  - apply normalize_unit_id in Eu. rewrite Eu in Hd |- *. apply NoDup_cons in Hd as [_ Hd].
    cbn [map]. apply sublist_skip. by apply IH.
  - destruct (unit_id u); [|by apply IH]. apply NoDup_cons in Hd as [_ Hd]. apply sublist_cons. by apply IH.
Qed.

(** C38: When a printer reports a four-slot unit and says that one of its slots is
    empty, the Hub's snapshot shows the slot as empty after the patch, whatever the report
    or the snapshot said about it before: the fields that identify and describe its
    filament - the filament and setting ids, type, colors, tag and tray ids, name and
    remaining estimate - are gone, and it is marked as an empty slot of its unit.  Every
    other field the snapshot had for the slot is kept as it was; so are [k_value] and
    [toolhead], which the agent does not clear. *)
Theorem emptied_slot_forgotten report print ams observed_at p text patch unit id number kind bits slot current :
  MaterialsReport.print report = Some print -> Print.ams print = Some ams ->
  normalize_material_patch report observed_at = Some p ->
  json_from_str text = Some (patch_json p) -> parse_patch_result text = Some patch ->
  NoDup (omap unit_id (AmsReport.ams ams)) -> In unit (AmsReport.ams ams) ->
  Unit_.trays unit <> [] -> NoDup (omap tray_id (Unit_.trays unit)) ->
  unit_id unit = Some id -> parse_u64 id = Some number -> report_bits ams = Some bits ->
  unit_kind id (Unit_.info unit) (Some bits) = Some kind ->
  AmsUnitKind.uses_four_slot_exist_bits kind = true ->
  (AmsReport.power_on_flag ams = Some false -> bits <> 0) ->
  In slot [0; 1; 2; 3] -> slot_empty kind number bits slot ->
  Forall unit_state_ok current ->
  exists units u tray,
    Pp.ams_units patch = Some units
    /\ at_key Us.unit_id id (merge_units current units) = Some u
    /\ at_key Ts.tray_id (dec slot) (Us.trays u) = Some tray
    /\ forgotten kind (at_key Us.unit_id id current ≫= fun y => at_key Ts.tray_id (dec slot) (Us.trays y)) tray.
Proof.
  intros Er Ea Ep Et Epp Hdu Hin Hts Hdt Ei En Eb Ek Hk Hpw Hs He Hcur.
  apply (patch_parsed p) in Epp as [_ Eu]; [|done].
  rewrite (patch_units _ _ _ _ _ Er Ea Ep) in Eu. unfold normalize_ams_units in Eu.
  set (n := length (AmsReport.ams ams)) in *. set (switch := filament_switch_installed _) in *.
  destruct (normalize_unit_clears ams print n switch unit id number kind bits slot Hts Hdt Ei En Eb Ek Hk Hpw Hs He)
    as (up & trays & Eup & Eid & Etr & Hd & Hkeyed & Hclear).
  set (ups := omap (normalize_ams_unit ams print n switch) (AmsReport.ams ams)) in *.
  assert (In up ups) as Hup.
  { apply list_elem_of_In, list_elem_of_omap. exists unit. by split; [apply list_elem_of_In|]. }
  pose proof (normalized_unit_ids ams print n switch _ Hdu) as Hids. fold ups in Hids.
  destruct (unit_forgets up trays id kind slot (at_key Us.unit_id id current) Etr Hd Hkeyed Hclear)
    as (tray & E & Hf).
  { intros y Hy. apply find_some in Hy as [Hy _]. by apply (proj1 (List.Forall_forall _ _) Hcur). }
  eexists (map redacted_unit (map hub_unit ups)), _, tray.
  split; [rewrite Eu; by destruct ups|]. split; [|by split; [exact E|]].
  rewrite merge_units_eq.
  apply (at_key_merge Us.unit_id unit_le unit_le_key Up.unit_id unit_change unit_new
           ltac:(done) ltac:(done) id false _ current (redacted_unit (hub_unit up)) Hids).
  - by apply in_map, in_map.
  - cbn. by rewrite Eid.
Qed.
End Pipeline.
