(* ===== verification/Brtc.v ===== *)
(** * BRTC file upload

    [pandar-agent/src/machine/brtc.rs] with [brtc/frames.rs] and [brtc/protocol.rs]:
    the agent uploads a print file to the internal storage of a printer over a
    TLS stream.  A session is the stream - the bytes the printer sends and the
    bytes written so far - with its two counters.  Setting up TLS and the timeout
    around the whole upload are outside the model: a stream may end, on either
    side, after any number of bytes. *)

From S2P Require Import Prelude RustStr Json Serde Tx.

#[local] Open Scope Z_scope.
#[local] Open Scope rust_scope.
#[local] Open Scope tx_scope.

Definition usize_max : Z := u64_max.
Definition bytes_of (s : string) : list ascii := String.list_ascii_of_string s.
Definition len {A} (l : list A) : Z := Z.of_nat (length l).

(** ** Bytes of integers, text and UTF-8 *)

Definition byte_of (z : Z) : ascii := Ascii.ascii_of_nat (Z.to_nat (z mod 256)).
Definition u32_to_le_bytes (z : Z) : list ascii :=
  [byte_of z; byte_of (Z.shiftr z 8); byte_of (Z.shiftr z 16); byte_of (Z.shiftr z 24)].
Definition u32_from_le_bytes (l : list ascii) : Z := foldr (fun c acc => byte_val c + 256 * acc) 0 l.

(** [std::str::from_utf8]: the well-formed byte sequences of Unicode. *)
Fixpoint utf8_valid (l : list ascii) : bool :=
  let cont := byte_in 128 191 in
  match l with
  | [] => true
  | a :: l1 =>
      if byte_in 0 127 a then utf8_valid l1
      else match l1 with
      | [] => false
      | b :: l2 =>
          if byte_in 194 223 a then cont b && utf8_valid l2
          else match l2 with
          | [] => false
          | c :: l3 =>
              if byte_is 224 a then byte_in 160 191 b && cont c && utf8_valid l3
              else if byte_in 225 236 a || byte_in 238 239 a then cont b && cont c && utf8_valid l3
              else if byte_is 237 a then byte_in 128 159 b && cont c && utf8_valid l3
              else match l3 with
              | [] => false
              | d :: l4 =>
                  (byte_is 240 a && byte_in 144 191 b || byte_in 241 243 a && cont b
                   || byte_is 244 a && byte_in 128 143 b) && cont c && cont d && utf8_valid l4
              end
          end
      end
  end.

(** [value.chars().take(n)] of a string of UTF-8: a character is a byte that
    does not continue one, with the bytes that continue it. *)
Fixpoint take_chars (n : nat) (l : list ascii) : list ascii :=
  match l with
  | [] => []
  | c :: l =>
      if byte_in 128 191 c then c :: take_chars n l
      else match n with O => [] | S n => c :: take_chars n l end
  end.

(** ** Frames ([frames.rs]) *)

Definition BRTC_MAX_FRAME_PAYLOAD_SIZE : Z := 16 * 1024 * 1024.

Module BrtcFrame.
Record t := mk { magic : Z; payload : list ascii }.
End BrtcFrame.

Inductive BrtcError :=
| Io | FrameTooLarge | OffsetOverflow | PayloadOverflow | EncodeFailed | NotJson | NotUtf8 | BadJson
| UnexpectedMagic (magic : Z) | EmptyName | InitFailed (result : Z) | NoChunkSize | ChunkSizeOverflow
| ChunkSizeTooLarge (size : Z) | OffsetBeyondFile (offset : Z) | FragmentOverflow
| UploadFailed (result : Z) | NoFinalResult
| OutOfFuel.

Definition checked_frame_payload_len (payload_len : Z) : result BrtcError Z :=
  if BRTC_MAX_FRAME_PAYLOAD_SIZE <? payload_len then Err FrameTooLarge else Ok payload_len.

Definition usize_add (a b : Z) : option Z := try_int 0 usize_max (a + b).

Definition checked_chunk_end (offset chunk_size total : Z) : result BrtcError Z :=
  ok_or (option_map (fun e => Z.min e total) (usize_add offset chunk_size)) OffsetOverflow.

Definition checked_binary_frame_payload_len (body_len binary_len : Z) : result BrtcError (Z * Z) :=
  additional <-? ok_or (usize_add 2 binary_len) PayloadOverflow ;;
  frame_len <-? ok_or (usize_add body_len additional) PayloadOverflow ;;
  _ <-? ok_or (try_int 0 u32_max frame_len) PayloadOverflow ;;
  Ok (additional, frame_len).

Definition newline : ascii := Ascii.ascii_of_nat 10.

Definition append_binary_frame_payload (body binary : list ascii) : result BrtcError (list ascii) :=
  checked_binary_frame_payload_len (len body) (len binary) ?;;
  Ok (body ++ [newline; newline] ++ binary).

Definition padded_ascii (value : string) (width : nat) : list ascii :=
  let out := take_chars width (bytes_of value) in
  out ++ replicate (width - length out) Ascii.zero.

(** The loop of [json_prefix_len]; [depth] is an [i32]. *)
Definition i32_wrap (z : Z) : Z := (z + 2 ^ 31) mod 2 ^ 32 - 2 ^ 31.

Fixpoint json_prefix_scan (bytes : list ascii) (index : nat) (depth : Z) (in_string escaped : bool)
  : option nat :=
  match bytes with
  | [] => None
  | byte :: bytes =>
      if in_string then
        if escaped then json_prefix_scan bytes (S index) depth true false
        else if byte_is 92 byte then json_prefix_scan bytes (S index) depth true true
        else if byte_is 34 byte then json_prefix_scan bytes (S index) depth false escaped
        else json_prefix_scan bytes (S index) depth true escaped
      else if byte_is 34 byte then json_prefix_scan bytes (S index) depth true escaped
      else if byte_is 123 byte then json_prefix_scan bytes (S index) (i32_wrap (depth + 1)) false escaped
      else if byte_is 125 byte then
        let depth := i32_wrap (depth - 1) in
        if depth =? 0 then Some (S index) else json_prefix_scan bytes (S index) depth false escaped
      else json_prefix_scan bytes (S index) depth false escaped
  end.

Definition json_prefix_len (bytes : list ascii) : option nat :=
  match bytes with
  | first :: _ => if byte_is 123 first then json_prefix_scan bytes 0 0 false false else None
  | [] => None
  end.

(** ** Braced text: what [json_prefix_len] looks for

    A text in braces whose strings are closed and whose braces balance outside of
    strings. *)

(** From behind the quote that opens a string to the quote that closes it. *)
Inductive quoted : list ascii -> Prop :=
| quoted_close q : byte_is 34 q = true -> quoted [q]
| quoted_char c s : byte_is 34 c = false -> byte_is 92 c = false -> quoted s -> quoted (c :: s)
| quoted_escape b c s : byte_is 92 b = true -> quoted s -> quoted (b :: c :: s).

Inductive balanced : list ascii -> Prop :=
| balanced_nil : balanced []
| balanced_char c s : byte_is 34 c = false -> byte_is 123 c = false -> byte_is 125 c = false ->
    balanced s -> balanced (c :: s)
| balanced_string q str s : byte_is 34 q = true -> quoted str -> balanced s -> balanced (q :: str ++ s)
| balanced_braces l b r s : byte_is 123 l = true -> balanced b -> byte_is 125 r = true -> balanced s ->
    balanced (l :: b ++ r :: s).

Definition braced (text : list ascii) : Prop :=
  exists l b r, byte_is 123 l = true /\ balanced b /\ byte_is 125 r = true /\ text = l :: b ++ [r].

(** [serde_json]: the text of an object is in braces and reads back, field by
    field, when no float is in it. *)
Class BrtcJson := {
  to_string : json -> string;
  from_str : string -> option json;
  to_string_braced : forall fields, braced (bytes_of (to_string (Object fields)));
  to_string_utf8 : forall j, utf8_valid (bytes_of (to_string j)) = true;
  from_to_string : forall fields, exact (Object fields) = true ->
    from_str (to_string (Object fields)) = Some (Object fields);
}.

(** The digest of the [md5] crate. *)
Class Md5 := { md5 : list ascii -> list ascii }.

(** ** Messages ([protocol.rs]) *)

Definition BRTC_LOGIN_CLIENT_MAGIC : Z := 0x0101013f.
Definition BRTC_LOGIN_SERVER_MAGIC : Z := 0x0001013f.
Definition BRTC_CTRL_CLIENT_MAGIC : Z := 0x0102013f.
Definition BRTC_CTRL_SETUP_MTYPE : Z := 12291.
Definition BRTC_CTRL_JSON_MTYPE : Z := 12289.
Definition BRTC_FILE_UPLOAD_CMD : Z := 5.
Definition BRTC_MAX_UPLOAD_CHUNK_SIZE : Z := 16 * 1024 * 1024.

Definition int (z : Z) : json := Num (PosInt z).

Definition setup_request (serial : string) : list (string * json) :=
  [("sequence", int 0); ("mtype", int BRTC_CTRL_SETUP_MTYPE);
   ("req", Object [("t_av", int 1); ("mtype", int BRTC_CTRL_JSON_MTYPE); ("peer_t", int 3);
                   ("pid", Str ("pandar-" +:+ serial)); ("ver", Str "02.08.00.53")])]%string.

Definition upload_init_request (sequence : Z) (dest_name : string) (total : Z) : list (string * json) :=
  [("cmdtype", int BRTC_FILE_UPLOAD_CMD); ("sequence", int sequence);
   ("req", Object [("type", Str "model"); ("path", Str dest_name); ("total", int total);
                   ("storage", Str "emmc")])]%string.

Definition upload_chunk_request (sequence fragment offset size : Z) (file_md5 : option string)
  : list (string * json) :=
  [("cmdtype", int BRTC_FILE_UPLOAD_CMD); ("sequence", int sequence);
   ("req", Object ([("frag_id", int fragment); ("offset", int offset); ("size", int size)]
                   ++ match file_md5 with Some md5 => [("file_md5", Str md5)] | None => [] end))]%string.

Module BrtcSetupAck.
Record t := mk { mtype : option Z; result : option Z }.

Definition decode (j : json) : option t :=
  match j with
  | Object fields =>
      mtype ← field "mtype" fields ≫= opt_i64;
      result ← field "result" fields ≫= opt_i64;
      Some (mk mtype result)
  | Array [mtype; result] =>
      mtype ← opt_i64 (Some mtype); result ← opt_i64 (Some result); Some (mk mtype result)
  | _ => None
  end.
End BrtcSetupAck.

Module BrtcUploadReplyBody.
Record t := mk { chunk_size : option Z; offset : option Z }.

Definition decode (j : json) : option t :=
  match j with
  | Object fields =>
      chunk_size ← field "chunk_size" fields ≫= opt_u64;
      offset ← field "offset" fields ≫= opt_u64;
      Some (mk chunk_size offset)
  | Array [chunk_size; offset] =>
      chunk_size ← opt_u64 (Some chunk_size); offset ← opt_u64 (Some offset);
      Some (mk chunk_size offset)
  | _ => None
  end.
End BrtcUploadReplyBody.

Module BrtcUploadReply.
Record t := mk {
  cmdtype : option Z; sequence : option Z; result : option Z;
  reply : option BrtcUploadReplyBody.t }.

Definition decode_body (value : option json) : option (option BrtcUploadReplyBody.t) :=
  match value with
  | None | Some Null => Some None
  | Some j => Some <$> BrtcUploadReplyBody.decode j
  end.

Definition decode_fields (cmdtype sequence result reply : option json) : option t :=
  cmdtype ← opt_i64 cmdtype;
  sequence ← opt_u32 sequence;
  result ← opt_i64 result;
  reply ← decode_body reply;
  Some (mk cmdtype sequence result reply).

Definition decode (j : json) : option t :=
  match j with
  | Object fields =>
      cmdtype ← field "cmdtype" fields;
      sequence ← field "sequence" fields;
      result ← field "result" fields;
      reply ← field "reply" fields;
      decode_fields cmdtype sequence result reply
  | Array [cmdtype; sequence; result; reply] =>
      decode_fields (Some cmdtype) (Some sequence) (Some result) (Some reply)
  | _ => None
  end.
End BrtcUploadReply.
Module Ack := BrtcSetupAck.
Module Reply := BrtcUploadReply.
Module ReplyBody := BrtcUploadReplyBody.

Definition setup_ack_success (ack : Ack.t) : bool :=
  beq (Ack.mtype ack) (Some BRTC_CTRL_SETUP_MTYPE) && beq (Ack.result ack) (Some 0).

(** The reply of an upload, [None] for another message; the raw text only feeds
    error messages. *)
Definition upload_reply (reply : Reply.t) (sequence : Z) : option Reply.t :=
  if beq (Reply.cmdtype reply) (Some BRTC_FILE_UPLOAD_CMD) && beq (Reply.sequence reply) (Some sequence)
  then Some reply else None.

Definition reply_result (reply : Reply.t) : Z := default (-1) (Reply.result reply).

Definition chunk_size_bytes (reply : Reply.t) : result BrtcError Z :=
  chunk_size_kib <-? ok_or (opt_filter (fun v => 0 <? v) (Reply.reply reply ≫= ReplyBody.chunk_size)) NoChunkSize ;;
  chunk_size <-? ok_or (try_int 0 u64_max (chunk_size_kib * 1024)) ChunkSizeOverflow ;;
  if BRTC_MAX_UPLOAD_CHUNK_SIZE <? chunk_size then Err (ChunkSizeTooLarge chunk_size) else Ok chunk_size.

Definition reply_offset (reply : Reply.t) : Z := default 0 (Reply.reply reply ≫= ReplyBody.offset).

(** ** The session ([brtc.rs]) *)

Module BrtcSession.
(** [input]: what the printer still sends; [sent]: what was written, of which the
    stream takes [room] more bytes. *)
Record t := mk { input : list ascii; sent : list ascii; room : nat; frame_seq : Z; wire_seq : Z }.
End BrtcSession.
Module Ses := BrtcSession.

Definition brtc (A : Type) : Type := tx Ses.t BrtcError A.

Definition write_all (bytes : list ascii) : brtc unit := fun s =>
  if (length bytes <=? Ses.room s)%nat
  then (s <| Ses.sent := Ses.sent s ++ bytes |> <| Ses.room := (Ses.room s - length bytes)%nat |>, Ok tt)
  else (s <| Ses.sent := Ses.sent s ++ take (Ses.room s) bytes |> <| Ses.room := 0%nat |>, Err Io).

Definition read_exact (n : nat) : brtc (list ascii) := fun s =>
  if (n <=? length (Ses.input s))%nat
  then (s <| Ses.input := drop n (Ses.input s) |>, Ok (take n (Ses.input s)))
  else (s <| Ses.input := [] |>, Err Io).

Definition u32_succ (z : Z) : Z := (z + 1) mod 2 ^ 32.

Definition next_wire_seq : brtc Z := fun s =>
  (s <| Ses.wire_seq := u32_succ (Ses.wire_seq s) |>, Ok (Ses.wire_seq s)).

Definition frame_header (payload_len magic frame_seq : Z) : list ascii :=
  u32_to_le_bytes payload_len ++ u32_to_le_bytes magic ++ u32_to_le_bytes frame_seq
  ++ replicate 4 Ascii.zero.

Definition send_frame (magic : Z) (payload : list ascii) : brtc unit :=
  payload_len <~ tlift (ok_or (try_int 0 u32_max (len payload)) PayloadOverflow) ;;
  frame_seq <~ (fun s => (s <| Ses.frame_seq := u32_succ (Ses.frame_seq s) |>, Ok (Ses.frame_seq s))) ;;
  write_all (frame_header payload_len magic frame_seq) ~;;
  write_all payload.

Definition read_frame : brtc BrtcFrame.t :=
  header <~ read_exact 16 ;;
  payload_len <~ tlift (checked_frame_payload_len (u32_from_le_bytes (take 4 header))) ;;
  payload <~ read_exact (Z.to_nat payload_len) ;;
  tret (BrtcFrame.mk (u32_from_le_bytes (take 4 (drop 4 header))) payload).

Section Brtc.
Context `{BrtcJson} `{Md5}.

Definition hex2 (c : ascii) : list ascii :=
  let digit d := Ascii.ascii_of_nat (Z.to_nat (if d <? 10 then 48 + d else 87 + d)) in
  [digit (byte_val c / 16); digit (byte_val c mod 16)].

Definition md5_lower (bytes : list ascii) : string :=
  String.string_of_list_ascii (concat (map hex2 (md5 bytes))).

(** [#[serde(flatten)]] puts the fields of the payload behind [mtype]. *)
Definition wrap_ctrl_json (payload : list (string * json)) : string :=
  to_string (Object (("mtype"%string, int BRTC_CTRL_JSON_MTYPE) :: payload)).

Definition send_abi_json (value : list (string * json)) : brtc unit :=
  send_frame BRTC_CTRL_CLIENT_MAGIC (bytes_of (wrap_ctrl_json value)).

Definition send_abi_json_with_binary (value : list (string * json)) (binary : list ascii) : brtc unit :=
  body <~ tlift (append_binary_frame_payload (bytes_of (wrap_ctrl_json value)) binary) ;;
  send_frame BRTC_CTRL_CLIENT_MAGIC body.

Definition read_json_frame {A} (decode : json -> option A) : brtc A :=
  frame <~ read_frame ;;
  json_len <~ tlift (ok_or (json_prefix_len (BrtcFrame.payload frame)) NotJson) ;;
  let raw := take json_len (BrtcFrame.payload frame) in
  if utf8_valid raw
  then tlift (ok_or (from_str (String.string_of_list_ascii raw) ≫= decode) BadJson)
  else tfail NotUtf8.

(** Every message read takes sixteen bytes from the input at least. *)
Fixpoint read_matching_upload_reply_fuel (n : nat) (sequence : Z) : brtc Reply.t :=
  match n with
  | O => tfail OutOfFuel
  | S n =>
      reply <~ read_json_frame Reply.decode ;;
      match upload_reply reply sequence with
      | Some reply => tret reply
      | None => read_matching_upload_reply_fuel n sequence
      end
  end.
Definition read_matching_upload_reply (sequence : Z) : brtc Reply.t := fun s =>
  read_matching_upload_reply_fuel (S (length (Ses.input s))) sequence s.

Fixpoint read_setup_ack_fuel (n : nat) : brtc unit :=
  match n with
  | O => tfail OutOfFuel
  | S n =>
      ack <~ read_json_frame Ack.decode ;;
      if setup_ack_success ack then tret tt else read_setup_ack_fuel n
  end.
Definition read_setup_ack : brtc unit := fun s => read_setup_ack_fuel (S (length (Ses.input s))) s.

Definition handshake (access_code serial : string) : brtc unit :=
  send_frame BRTC_LOGIN_CLIENT_MAGIC (padded_ascii "bblp" 8 ++ padded_ascii access_code 8) ~;;
  login_ack <~ read_frame ;;
  if negb (BrtcFrame.magic login_ack =? BRTC_LOGIN_SERVER_MAGIC)
  then tfail (UnexpectedMagic (BrtcFrame.magic login_ack))
  else
    send_abi_json (setup_request serial) ~;;
    read_setup_ack.

(** [&bytes[offset..end]], for [offset <= end <= bytes.len()]. *)
Definition slice (bytes : list ascii) (offset end_ : Z) : list ascii :=
  take (Z.to_nat (end_ - offset)) (drop (Z.to_nat offset) bytes).

(** The loop over the chunks; a chunk is not empty. *)
Fixpoint send_chunks_fuel (n : nat) (sequence chunk_size : Z) (bytes : list ascii)
    (offset fragment : Z) : brtc unit :=
  if len bytes <=? offset then tret tt
  else match n with
  | O => tfail OutOfFuel
  | S n =>
      end_ <~ tlift (checked_chunk_end offset chunk_size (len bytes)) ;;
      let chunk := slice bytes offset end_ in
      let last := end_ =? len bytes in
      send_abi_json_with_binary
        (upload_chunk_request sequence fragment offset (len chunk)
           (if last then Some (md5_lower bytes) else None)) chunk ~;;
      fragment <~ tlift (if last then Ok fragment
                         else ok_or (try_int 0 u32_max (fragment + 1)) FragmentOverflow) ;;
      send_chunks_fuel n sequence chunk_size bytes end_ fragment
  end.

(** The replies after the last chunk. *)
Fixpoint final_result (n : nat) (sequence : Z) : brtc unit :=
  match n with
  | O => tfail NoFinalResult
  | S n =>
      value <~ read_matching_upload_reply sequence ;;
      let result := reply_result value in
      if (result =? 0) || (result =? 19) then tret tt
      else if result =? 1 then final_result n sequence
      else tfail (UploadFailed result)
  end.

Definition upload_emmc (dest_name : string) (bytes : list ascii) : brtc string :=
  if beq dest_name EmptyString then tfail EmptyName
  else
    sequence <~ next_wire_seq ;;
    send_abi_json (upload_init_request sequence dest_name (len bytes)) ~;;
    init_reply <~ read_matching_upload_reply sequence ;;
    let result := reply_result init_reply in
    if negb (result =? 1) && negb (result =? 19) then tfail (InitFailed result)
    else
      chunk_size <~ tlift (chunk_size_bytes init_reply) ;;
      let offset := reply_offset init_reply in
      if len bytes <? offset then tfail (OffsetBeyondFile offset)
      else
        send_chunks_fuel (length bytes) sequence chunk_size bytes offset 0 ~;;
        final_result 32 sequence ~;;
        tret (md5_lower bytes).

(** [BrtcMachineFileTransfer::upload_emmc]: a session that starts with the
    clock's nanoseconds, for the bytes [input] the printer answers and a stream
    that takes [room] bytes. *)
Definition connect (access_code serial : string) (seed : Z) (input : list ascii) (room : nat)
  : Ses.t * result BrtcError unit :=
  handshake access_code serial (Ses.mk input [] room seed 1).
End Brtc.
