(* ===== verification/BrtcSafety.v ===== *)
(** * BRTC upload: theorems

    Frames read back as they were sent; the scan of a frame for its JSON text is
    the grammar of braced texts; every operation ends; and the chunks an upload
    sends are, for a printer that puts them together, the file. *)

From S2P Require Import Prelude RustStr Json Serde Tx Brtc.

#[local] Open Scope Z_scope.
#[local] Open Scope tx_scope.

#[local] Arguments i32_wrap : simpl never.

(** ** Braced texts *)

Lemma i32_wrap_small z : - 2 ^ 31 <= z < 2 ^ 31 -> i32_wrap z = z.
Proof. intros Hz. unfold i32_wrap. rewrite Z.mod_small; lia. Qed.

Lemma byte_is_true v c : byte_is v c = true <-> byte_val c = v.
Proof. unfold byte_is. lia. Qed.
Lemma byte_is_other v w c : byte_is v c = true -> v <> w -> byte_is w c = false.
Proof. unfold byte_is. lia. Qed.

Lemma len_app {A} (a b : list A) : len (a ++ b) = len a + len b.
Proof. unfold len. rewrite length_app. lia. Qed.
Lemma len_cons {A} (x : A) l : len (x :: l) = 1 + len l.
Proof. unfold len. simpl length. lia. Qed.
Lemma len_nonneg {A} (l : list A) : 0 <= len l.
Proof. unfold len. lia. Qed.

Lemma scan_quoted q r i d :
  quoted q -> json_prefix_scan (q ++ r) i d true false = json_prefix_scan r (i + length q) d false false.
Proof.
  intros Hq. revert i. induction Hq as [q Eq|c s E34 E92 Hs IH|b c s E92 Hs IH]; intros i; simpl.
  - rewrite (byte_is_other 34 92 _ Eq), Eq by done. f_equal. lia.
  - rewrite E92, E34, IH. f_equal. lia.
  - rewrite E92, IH. f_equal. lia.
Qed.

(** Sixteen megabytes, or the four gigabytes a frame can name, cannot nest deep
    enough to overflow the depth. *)
Lemma scan_balanced b r i d :
  balanced b -> 1 <= d -> 2 * d + len b < 2 ^ 32 ->
  json_prefix_scan (b ++ r) i d false false = json_prefix_scan r (i + length b) d false false.
Proof.
  intros Hb. revert i d r.
  induction Hb as [|c s E34 E123 E125 Hs IH|q str s E34 Hq Hs IH|l b k s E123 Hb IHb E125 Hs IHs];
    intros i d r Hd Hlen; simpl.
  - f_equal. lia.
  - rewrite E34, E123, E125. rewrite len_cons in Hlen. rewrite IH by lia. f_equal. lia.
  - rewrite len_cons, len_app in Hlen. rewrite E34, <- app_assoc, scan_quoted by done.
    pose proof (len_nonneg str). rewrite IH by lia. rewrite length_app. f_equal. lia.
  - rewrite len_cons, len_app, len_cons in Hlen.
    pose proof (len_nonneg b). pose proof (len_nonneg s).
    rewrite (byte_is_other 123 34 _ E123), E123, <- app_assoc by done.
    rewrite i32_wrap_small by lia. rewrite IHb by lia. simpl.
    rewrite (byte_is_other 125 34 _ E125), (byte_is_other 125 123 _ E125), E125 by done.
    rewrite i32_wrap_small by lia. replace (d + 1 - 1) with d by lia.
    rewrite (proj2 (Z.eqb_neq d 0)) by lia. rewrite IHs by lia. rewrite length_app. simpl. f_equal. lia.
Qed.

Lemma json_prefix_len_braced text rest :
  braced text -> len text < 2 ^ 32 -> json_prefix_len (text ++ rest) = Some (length text).
Proof.
  intros (l & b & r & E123 & Hb & E125 & ->) Hlen. rewrite len_cons, len_app in Hlen.
  change (len [r]) with 1 in Hlen. pose proof (len_nonneg b).
  simpl. rewrite E123, (byte_is_other 123 34 _ E123) by done.
  rewrite i32_wrap_small by lia. rewrite <- app_assoc, scan_balanced by (done || lia). simpl.
  rewrite (byte_is_other 125 34 _ E125), (byte_is_other 125 123 _ E125), E125 by done.
  rewrite length_app. simpl. f_equal. lia.
Qed.

Lemma scan_in_string l i d escaped k :
  json_prefix_scan l i d true escaped = Some k ->
  exists skip str rest, (if escaped then length skip = 1%nat else skip = []) /\ quoted str
    /\ l = skip ++ str ++ rest
    /\ json_prefix_scan rest (i + length skip + length str) d false false = Some k.
Proof.
  revert i escaped. induction l as [|c l IH]; intros i escaped; [done|].
  cbn [json_prefix_scan]. destruct escaped.
  - intros (skip & str & rest & -> & Hq & -> & Hk)%IH. exists [c], str, rest.
    repeat split; [done|]. rewrite <- Hk. f_equal. simpl. lia.
  - destruct (byte_is 92 c) eqn:E92; [|destruct (byte_is 34 c) eqn:E34].
    + intros (skip & str & rest & Hskip & Hq & -> & Hk)%IH.
      destruct skip as [|x [|]]; try done. exists [], (c :: x :: str), rest.
      repeat split; [by apply quoted_escape|]. rewrite <- Hk. f_equal. simpl. lia.
    + intros Hk. exists [], [c], l. repeat split; [by constructor|]. rewrite <- Hk. f_equal. simpl. lia.
    + intros (skip & str & rest & -> & Hq & -> & Hk)%IH. exists [], (c :: str), rest.
      repeat split; [by constructor|]. rewrite <- Hk. f_equal. simpl. lia.
Qed.

(** A scan that ends ends behind the brace that closes the innermost open one,
    or goes on from there. *)
Lemma scan_closes n l i d k :
  (length l <= n)%nat -> 1 <= d -> d + len l < 2 ^ 31 ->
  json_prefix_scan l i d false false = Some k ->
  exists b r rest, balanced b /\ byte_is 125 r = true /\ l = b ++ r :: rest
    /\ (if d =? 1 then k = (i + S (length b))%nat
        else json_prefix_scan rest (i + S (length b)) (d - 1) false false = Some k).
Proof.
  revert l i d. induction n as [|n IH]; intros [|c l] i d Hn Hd Hlen; try done; simpl in Hn; [lia|].
  rewrite len_cons in Hlen. pose proof (len_nonneg l). cbn [json_prefix_scan].
  destruct (byte_is 34 c) eqn:E34; [|destruct (byte_is 123 c) eqn:E123; [|destruct (byte_is 125 c) eqn:E125]].
  - intros (skip & str & rest & -> & Hq & -> & Hk)%scan_in_string. simpl in *.
    rewrite len_app in Hlen. rewrite length_app in Hn. pose proof (len_nonneg str).
    apply IH in Hk as (b & r & rest' & Hb & E125 & -> & Hk); [|lia..].
    exists (c :: str ++ b), r, rest'. split; [by apply balanced_string|]. split; [done|].
    split; [by rewrite <- app_comm_cons, <- app_assoc|].
    replace (i + S (length (c :: str ++ b)))%nat with (S (i + 0 + length str) + S (length b))%nat
      by (simpl; rewrite length_app; lia). done.
  - rewrite i32_wrap_small by lia. intros Hk.
    apply IH in Hk as (b & r & rest & Hb & Er & -> & Hk); [|lia..].
    rewrite (proj2 (Z.eqb_neq _ 1)) in Hk by lia. replace (d + 1 - 1) with d in Hk by lia.
    rewrite len_app, len_cons in Hlen. rewrite length_app in Hn. simpl in Hn. pose proof (len_nonneg b).
    apply IH in Hk as (b' & r' & rest' & Hb' & Er' & -> & Hk); [|lia..].
    exists (c :: b ++ r :: b'), r', rest'. split; [by apply balanced_braces|]. split; [done|].
    split; [by rewrite <- app_comm_cons, <- app_assoc|].
    replace (i + S (length (c :: b ++ r :: b')))%nat
      with (S i + S (length b) + S (length b'))%nat by (simpl; rewrite length_app; simpl; lia). done.
  - rewrite i32_wrap_small by lia. intros Hk. exists [], c, l. split; [constructor|].
    split; [done|]. split; [done|]. destruct (Z.eqb_spec d 1) as [->|Hd1].
    + simpl in Hk. injection Hk as <-. simpl. lia.
    + rewrite (proj2 (Z.eqb_neq (d - 1) 0)) in Hk by lia. rewrite <- Hk. f_equal. simpl. lia.
  - intros (b & r & rest & Hb & Er & -> & Hk)%IH; [|lia..].
    exists (c :: b), r, rest. split; [by constructor|]. split; [done|]. split; [done|].
    replace (i + S (length (c :: b)))%nat with (S i + S (length b))%nat by (simpl; lia). done.
Qed.

(** The scan of a payload for its JSON text ends exactly behind the braced
    text the payload starts with, and fails when there is none. *)
Theorem json_prefix_len_spec bytes n :
  len bytes < 2 ^ 31 ->
  json_prefix_len bytes = Some n <-> exists text rest, bytes = text ++ rest /\ braced text /\ n = length text.
Proof.
  intros Hlen. split.
  - destruct bytes as [|c l]; [done|]. simpl. destruct (byte_is 123 c) eqn:E123; [|done].
    rewrite (byte_is_other 123 34 _ E123) by done. rewrite i32_wrap_small by lia.
    rewrite len_cons in Hlen.
    intros (b & r & rest & Hb & Er & -> & ->)%(scan_closes (length l)); [|lia..].
    exists (c :: b ++ [r]), rest. split; [by rewrite <- app_comm_cons, <- app_assoc|].
    split; [by exists c, b, r|]. simpl. rewrite length_app. simpl. lia.
  - intros (text & rest & -> & Hb & ->). rewrite len_app in Hlen. pose proof (len_nonneg rest).
    apply json_prefix_len_braced; [done|lia].
Qed.

(** ** Frames *)

Lemma byte_val_of z : byte_val (byte_of z) = z mod 256.
Proof.
  unfold byte_val, byte_of. pose proof (Z.mod_pos_bound z 256).
  rewrite Ascii.nat_ascii_embedding by lia. lia.
Qed.

Lemma u32_le_round_trip z rest :
  0 <= z < 2 ^ 32 -> u32_from_le_bytes (take 4 (u32_to_le_bytes z ++ rest)) = z.
Proof.
  intros Hz. cbn. rewrite take_0. cbn. rewrite !byte_val_of, !Z.shiftr_div_pow2 by lia.
  cbn [Z.pow Z.pow_pos Pos.iter Z.mul]. Z.to_euclidean_division_equations. lia.
Qed.

Lemma write_all_Ok bytes s s' :
  write_all bytes s = (s', Ok tt) ->
  Ses.sent s' = Ses.sent s ++ bytes /\ Ses.input s' = Ses.input s /\ Ses.wire_seq s' = Ses.wire_seq s.
Proof. unfold write_all. destruct (_ <=? _)%nat; [|done]. by intros [= <-]. Qed.

Lemma send_frame_Ok magic payload s s' :
  send_frame magic payload s = (s', Ok tt) ->
  0 <= len payload < 2 ^ 32
  /\ Ses.sent s' = Ses.sent s ++ frame_header (len payload) magic (Ses.frame_seq s) ++ payload
  /\ Ses.input s' = Ses.input s /\ Ses.wire_seq s' = Ses.wire_seq s.
Proof.
  unfold send_frame. rewrite tbind_Ok. intros (s1 & n & [-> E]%tlift_Ok & Hs).
  apply ok_or_Ok in E. unfold try_int, in_range, u32_max in E.
  destruct (_ && _) eqn:Er in E; [|done]. injection E as <-.
  rewrite tbind_Ok in Hs. destruct Hs as (s2 & q & [= <- <-] & Hs).
  rewrite tbind_Ok in Hs. destruct Hs as (s3 & [] & (E1 & I1 & W1)%write_all_Ok & (E2 & I2 & W2)%write_all_Ok).
  split; [lia|]. rewrite E2, E1, I2, I1, W2, W1. simpl. by rewrite <- app_assoc.
Qed.

Lemma header_length a b c : length (frame_header a b c) = 16%nat.
Proof. reflexivity. Qed.

Lemma header_len a b c rest : 0 <= a < 2 ^ 32 -> u32_from_le_bytes (take 4 (frame_header a b c ++ rest)) = a.
Proof. intros Ha. unfold frame_header. rewrite <- app_assoc. by apply u32_le_round_trip. Qed.

Lemma header_magic a b c rest :
  0 <= b < 2 ^ 32 -> u32_from_le_bytes (take 4 (drop 4 (frame_header a b c ++ rest))) = b.
Proof.
  intros Hb. unfold frame_header. rewrite <- !app_assoc.
  change (drop 4 (u32_to_le_bytes a ++ ?r)) with r. by apply u32_le_round_trip.
Qed.

Lemma read_exact_app n a b s :
  n = length a -> Ses.input s = a ++ b ->
  read_exact n s = (s <| Ses.input := b |>, Ok a).
Proof.
  intros -> E. unfold read_exact. rewrite E, length_app.
  rewrite (proj2 (Nat.leb_le _ _)) by lia. by rewrite take_app_length, drop_app_length.
Qed.

(** What is sent as a frame is read back as that frame, and nothing more of
    the stream is read. *)
Theorem frame_round_trip magic payload s s' :
  0 <= magic < 2 ^ 32 -> len payload <= BRTC_MAX_FRAME_PAYLOAD_SIZE ->
  send_frame magic payload s = (s', Ok tt) ->
  exists wire, Ses.sent s' = Ses.sent s ++ wire
    /\ forall peer rest, Ses.input peer = wire ++ rest ->
         read_frame peer = (peer <| Ses.input := rest |>, Ok (BrtcFrame.mk magic payload)).
Proof.
  intros Hm Hp (Hlen & E & _)%send_frame_Ok. eexists. split; [exact E|]. intros peer rest Ei.
  rewrite <- app_assoc in Ei. unfold read_frame, tbind.
  erewrite read_exact_app; [|by rewrite header_length|exact Ei].
  unfold tlift, checked_frame_payload_len.
  pose proof (header_len (len payload) magic (Ses.frame_seq s) [] Hlen) as El.
  pose proof (header_magic (len payload) magic (Ses.frame_seq s) [] Hm) as Em.
  rewrite app_nil_r in El, Em. rewrite El, Em, (proj2 (Z.ltb_ge _ _)) by lia.
  erewrite read_exact_app; [done| |reflexivity]. unfold len. lia.
Qed.

(** ** The other end

    A reference printer: it takes the stream apart into frames and a chunk
    message into its JSON text and the file bytes behind it, and puts the chunks
    together.  It takes a chunk only if the message says exactly where the file
    has got to, and is done when a chunk carries the digest of the whole file. *)

Definition peer_frame (wire : list ascii) : option (BrtcFrame.t * list ascii) :=
  let n := Z.to_nat (u32_from_le_bytes (take 4 wire)) in
  if (16 + n <=? length wire)%nat
  then Some (BrtcFrame.mk (u32_from_le_bytes (take 4 (drop 4 wire))) (take n (drop 16 wire)),
             drop (16 + n) wire)
  else None.

Fixpoint peer_frames (n : nat) (wire : list ascii) : option (list BrtcFrame.t) :=
  match wire, n with
  | [], _ => Some []
  | _, O => None
  | _, S n => '(frame, rest) ← peer_frame wire; frames ← peer_frames n rest; Some (frame :: frames)
  end.

Definition decodes (wire : list ascii) (frames : list BrtcFrame.t) : Prop :=
  peer_frames (length wire) wire = Some frames.

Module Peer.
Record t := mk { file : list ascii; next_fragment : Z; complete : bool }.
End Peer.

Section Peer.
Context `{BrtcJson} `{Md5}.

Definition peer_message (payload : list ascii) : option (json * list ascii) :=
  n ← json_prefix_len payload;
  j ← from_str (String.string_of_list_ascii (take n payload));
  Some (j, drop n payload).

Definition ctrl_message (payload : list (string * json)) : json :=
  Object (("mtype"%string, int BRTC_CTRL_JSON_MTYPE) :: payload).

Definition peer_chunk (sequence : Z) (p : Peer.t) (frame : BrtcFrame.t) : option Peer.t :=
  '(j, rest) ← peer_message (BrtcFrame.payload frame);
  let binary := drop 2 rest in
  let file := Peer.file p ++ binary in
  let message md5 := ctrl_message (upload_chunk_request sequence (Peer.next_fragment p)
                                     (len (Peer.file p)) (len binary) md5) in
  if negb (beq (BrtcFrame.magic frame) BRTC_CTRL_CLIENT_MAGIC) || Peer.complete p
     || negb (beq (take 2 rest) [newline; newline]) || beq binary []
  then None
  else if beq j (message None) then Some (Peer.mk file (Peer.next_fragment p + 1) false)
  else if beq j (message (Some (md5_lower file))) then Some (Peer.mk file (Peer.next_fragment p) true)
  else None.

Fixpoint peer_chunks (sequence : Z) (p : Peer.t) (frames : list BrtcFrame.t) : option Peer.t :=
  match frames with
  | [] => Some p
  | frame :: frames => p ← peer_chunk sequence p frame; peer_chunks sequence p frames
  end.

(** What the printer says is read the same way: [says sequence input replies rest] when
    the messages at the head of [input] are the [replies] to the request [sequence], among
    messages that answer something else, and [rest] follows them. *)
Definition peer_reply (input : list ascii) : option (Reply.t * list ascii) :=
  '(frame, rest) ← peer_frame input;
  '(j, _) ← peer_message (BrtcFrame.payload frame);
  reply ← Reply.decode j;
  Some (reply, rest).

Definition replies_to (sequence : Z) (reply : Reply.t) : bool :=
  beq (Reply.cmdtype reply) (Some BRTC_FILE_UPLOAD_CMD) && beq (Reply.sequence reply) (Some sequence).

Inductive says (sequence : Z) : list ascii -> list Reply.t -> list ascii -> Prop :=
| says_nothing input : says sequence input [] input
| says_other input reply rest replies rest' :
    peer_reply input = Some (reply, rest) -> replies_to sequence reply = false ->
    says sequence rest replies rest' -> says sequence input replies rest'
| says_reply input reply rest replies rest' :
    peer_reply input = Some (reply, rest) -> replies_to sequence reply = true ->
    says sequence rest replies rest' -> says sequence input (reply :: replies) rest'.

(** *** Frames of the stream *)

Lemma peer_frame_app len_ magic seq payload rest :
  len_ = len payload -> 0 <= len_ < 2 ^ 32 -> 0 <= magic < 2 ^ 32 ->
  peer_frame (frame_header len_ magic seq ++ payload ++ rest) = Some (BrtcFrame.mk magic payload, rest).
Proof.
  intros -> Hl Hm. unfold peer_frame. rewrite header_len, header_magic by done.
  unfold len at 1. rewrite Nat2Z.id. set (h := frame_header _ _ _).
  assert (length h = 16%nat) as Eh by done.
  rewrite (proj2 (Nat.leb_le _ _)) by (rewrite !length_app; lia).
  rewrite (drop_app_length' h) by done. unfold len. rewrite Nat2Z.id, take_app_length.
  rewrite (app_assoc h), (drop_app_length' (h ++ payload)) by (rewrite length_app; lia). done.
Qed.

Lemma peer_frames_more n m wire frames :
  peer_frames n wire = Some frames -> (n <= m)%nat -> peer_frames m wire = Some frames.
Proof.
  revert m wire frames. induction n as [|n IH]; intros m [|c wire] frames; simpl; try done.
  { by destruct m. } { by destruct m. }
  destruct m as [|m]; [lia|]. intros E Hm. simpl.
  apply bind_Some in E as ([frame rest] & Ef & E). rewrite Ef. simpl.
  apply bind_Some in E as (frames' & E' & E). by rewrite (IH m _ _ E') by lia.
Qed.

Lemma decodes_nil : decodes [] [].
Proof. done. Qed.

Lemma decodes_frame magic seq payload wire frames :
  0 <= len payload < 2 ^ 32 -> 0 <= magic < 2 ^ 32 -> decodes wire frames ->
  decodes (frame_header (len payload) magic seq ++ payload ++ wire) (BrtcFrame.mk magic payload :: frames).
Proof.
  intros Hl Hm Hd. unfold decodes.
  apply (peer_frames_more (S (length wire))); [|rewrite !length_app, header_length; lia].
  destruct (frame_header _ _ _ ++ _) as [|c w] eqn:E; [done|]. cbn [peer_frames]. rewrite <- E.
  rewrite peer_frame_app by done. cbn [mbind option_bind]. by rewrite Hd.
Qed.

(** *** Messages *)

Lemma bytes_round_trip s : String.string_of_list_ascii (bytes_of s) = s.
Proof. apply String.string_of_list_ascii_of_string. Qed.

Lemma peer_message_spec fields rest :
  exact (ctrl_message fields) = true -> len (bytes_of (wrap_ctrl_json fields)) < 2 ^ 32 ->
  peer_message (bytes_of (wrap_ctrl_json fields) ++ rest) = Some (ctrl_message fields, rest).
Proof.
  intros Hx Hl. unfold peer_message. unfold wrap_ctrl_json in *.
  rewrite json_prefix_len_braced by (done || apply to_string_braced). simpl.
  rewrite take_app_length, drop_app_length, bytes_round_trip, from_to_string by done. done.
Qed.

Lemma append_binary_Ok body binary r :
  append_binary_frame_payload body binary = Ok r -> r = body ++ [newline; newline] ++ binary.
Proof. unfold append_binary_frame_payload. rewrite rbind_Ok. by intros (? & _ & [= <-]). Qed.

Lemma send_with_binary_Ok fields binary s s' :
  send_abi_json_with_binary fields binary s = (s', Ok tt) ->
  exists seq,
    let payload := bytes_of (wrap_ctrl_json fields) ++ [newline; newline] ++ binary in
    0 <= len payload < 2 ^ 32
    /\ Ses.sent s' = Ses.sent s ++ frame_header (len payload) BRTC_CTRL_CLIENT_MAGIC seq ++ payload
    /\ Ses.input s' = Ses.input s /\ Ses.wire_seq s' = Ses.wire_seq s.
Proof.
  unfold send_abi_json_with_binary. rewrite tbind_Ok.
  intros (s1 & body & [-> ->%append_binary_Ok]%tlift_Ok & Hs). exists (Ses.frame_seq s).
  by apply send_frame_Ok in Hs.
Qed.

Lemma chunk_request_exact sequence fragment offset size md5 :
  exact (ctrl_message (upload_chunk_request sequence fragment offset size md5)) = true.
Proof. by destruct md5. Qed.

Lemma chunk_request_inj sequence fragment offset size m m' :
  ctrl_message (upload_chunk_request sequence fragment offset size m)
  = ctrl_message (upload_chunk_request sequence fragment offset size m') -> m = m'.
Proof. destruct m, m'; intros [=]; congruence. Qed.

Lemma peer_chunk_spec sequence p binary md5 :
  Peer.complete p = false -> binary <> [] ->
  (md5 = None \/ md5 = Some (md5_lower (Peer.file p ++ binary))) ->
  let fields := upload_chunk_request sequence (Peer.next_fragment p) (len (Peer.file p)) (len binary) md5 in
  len (bytes_of (wrap_ctrl_json fields)) < 2 ^ 32 ->
  peer_chunk sequence p (BrtcFrame.mk BRTC_CTRL_CLIENT_MAGIC
                           (bytes_of (wrap_ctrl_json fields) ++ [newline; newline] ++ binary))
  = Some (Peer.mk (Peer.file p ++ binary)
            (if is_some md5 then Peer.next_fragment p else Peer.next_fragment p + 1) (is_some md5)).
Proof.
  intros Hc Hb Hm fields Hl. unfold peer_chunk. simpl BrtcFrame.payload. simpl BrtcFrame.magic.
  rewrite peer_message_spec by (done || apply chunk_request_exact). cbn [mbind option_bind].
  change (drop 2 (newline :: newline :: binary)) with binary.
  change (take 2 (newline :: newline :: binary)) with [newline; newline].
  rewrite beq_refl, Hc, beq_refl, (proj2 (beq_false binary [])) by done. simpl orb.
  destruct Hm as [-> | ->]; unfold fields; simpl is_some.
  - by rewrite beq_refl.
  - rewrite (proj2 (beq_false _ _)); [by rewrite beq_refl|]. by intros ?%chunk_request_inj.
Qed.

(** *** The chunks of a file *)

Lemma slice_next (bytes : list ascii) offset end_ :
  0 <= offset <= end_ -> end_ <= len bytes ->
  take (Z.to_nat offset) bytes ++ slice bytes offset end_ = take (Z.to_nat end_) bytes
  /\ len (slice bytes offset end_) = end_ - offset.
Proof.
  unfold slice, len. intros Ho He. split; [|rewrite length_take, length_drop; lia].
  replace (Z.to_nat end_) with (Z.to_nat offset + Z.to_nat (end_ - offset))%nat by lia.
  by rewrite take_take_drop.
Qed.

Lemma len_take (bytes : list ascii) n : 0 <= n <= len bytes -> len (take (Z.to_nat n) bytes) = n.
Proof. unfold len. intros ?. rewrite length_take. lia. Qed.

Lemma checked_chunk_end_Ok offset size total e :
  0 <= offset < total -> 0 < size -> checked_chunk_end offset size total = Ok e -> offset < e <= total.
Proof.
  unfold checked_chunk_end. rewrite ok_or_Ok. intros Ho Hs. unfold usize_add, try_int.
  destruct (in_range _ _ _); [|done]. intros [= <-]. lia.
Qed.

Lemma send_chunks_done n sequence size bytes offset fragment s :
  len bytes <= offset -> send_chunks_fuel n sequence size bytes offset fragment s = (s, Ok tt).
Proof. intros Ho. destruct n; simpl; by rewrite (proj2 (Z.leb_le _ _)). Qed.

(** One turn of the loop, and what the printer makes of its frame. *)
Lemma send_chunk_step n sequence size bytes offset fragment s s' :
  0 <= offset < len bytes -> 0 < size ->
  send_chunks_fuel (S n) sequence size bytes offset fragment s = (s', Ok tt) ->
  exists e frame wire s1 fragment',
    offset < e <= len bytes
    /\ Ses.sent s1 = Ses.sent s ++ wire
    /\ (forall rest frames, decodes rest frames -> decodes (wire ++ rest) (frame :: frames))
    /\ peer_chunk sequence (Peer.mk (take (Z.to_nat offset) bytes) fragment false) frame
       = Some (Peer.mk (take (Z.to_nat e) bytes) fragment' (e =? len bytes))
    /\ send_chunks_fuel n sequence size bytes e fragment' s1 = (s', Ok tt).
Proof.
  intros Ho Hz. simpl. rewrite (proj2 (Z.leb_gt _ _)) by lia.
  rewrite tbind_Ok. intros (s1 & e & [-> Ee]%tlift_Ok & Hs). apply checked_chunk_end_Ok in Ee; [|lia..].
  destruct (slice_next bytes offset e) as [Et El]; [lia..|].
  rewrite tbind_Ok in Hs. destruct Hs as (s2 & [] & (seq & Hp & E2 & _ & _)%send_with_binary_Ok & Hs).
  rewrite tbind_Ok in Hs. destruct Hs as (s3 & fragment' & [-> Ef]%tlift_Ok & Hs).
  set (md5 := if e =? len bytes then Some _ else None) in *.
  set (chunk := slice bytes offset e) in *.
  set (fields := upload_chunk_request sequence fragment offset (len chunk) md5) in *.
  cbv zeta in Hp. set (payload := bytes_of (wrap_ctrl_json fields) ++ [newline; newline] ++ chunk) in *.
  exists e, (BrtcFrame.mk BRTC_CTRL_CLIENT_MAGIC payload), (frame_header (len payload) BRTC_CTRL_CLIENT_MAGIC seq ++ payload), s2, fragment'.
  split; [done|]. split; [done|].
  split; [intros rest frames Hd; rewrite <- app_assoc; by apply decodes_frame|]. split; [|done].
  pose proof (peer_chunk_spec sequence (Peer.mk (take (Z.to_nat offset) bytes) fragment false) chunk md5) as Hpc.
  cbn [Peer.file Peer.next_fragment Peer.complete] in Hpc.
  rewrite (len_take bytes offset) in Hpc by lia. rewrite Et in Hpc. fold fields payload in Hpc.
  rewrite Hpc; clear Hpc; [f_equal; f_equal| done| | |].
  - subst md5. destruct (Z.eqb_spec e (len bytes)); simpl; [by injection Ef as <-|].
    apply ok_or_Ok in Ef. unfold try_int in Ef. by destruct (in_range _ _ _); simplify_eq.
  - subst md5. by destruct (Z.eqb_spec e (len bytes)).
  - intros E0. rewrite E0 in El. change (len []) with 0 in El. lia.
  - subst md5. destruct (Z.eqb_spec e (len bytes)) as [->|]; [right|by left].
    by rewrite firstn_all2 by (unfold len; lia).
  - pose proof (len_nonneg ([newline; newline] ++ chunk)). unfold payload in Hp. rewrite len_app in Hp. lia.
Qed.

Lemma send_chunks_spec n sequence size bytes offset fragment s s' :
  0 <= offset <= len bytes -> 0 < size ->
  send_chunks_fuel n sequence size bytes offset fragment s = (s', Ok tt) ->
  exists wire frames p,
    Ses.sent s' = Ses.sent s ++ wire /\ decodes wire frames
    /\ peer_chunks sequence (Peer.mk (take (Z.to_nat offset) bytes) fragment false) frames = Some p
    /\ Peer.file p = bytes /\ Peer.complete p = (offset <? len bytes).
Proof.
  revert offset fragment s. induction n as [|n IH]; intros offset fragment s Ho Hz Hs;
    destruct (Z.le_gt_cases (len bytes) offset) as [Hle|Hlt].
  1, 3: rewrite send_chunks_done in Hs by done; injection Hs as <-;
    exists [], [], (Peer.mk (take (Z.to_nat offset) bytes) fragment false);
    split; [by rewrite app_nil_r|]; repeat split; simpl;
    [apply firstn_all2; unfold len in *; lia|symmetry; lia].
  { simpl in Hs. by rewrite (proj2 (Z.leb_gt _ _)) in Hs by lia. }
  apply send_chunk_step in Hs as (e & frame & wire & s1 & fragment' & He & E1 & Hd & Hc & Hs); [|lia..].
  rewrite (proj2 (Z.ltb_lt offset (len bytes))) by lia.
  destruct (Z.eqb_spec e (len bytes)) as [->|Hne].
  - rewrite send_chunks_done in Hs by done. injection Hs as <-.
    exists wire, [frame], (Peer.mk bytes fragment' true).
    split; [done|]. split; [rewrite <- (app_nil_r wire); by apply Hd|]. split; [|done].
    simpl. rewrite Hc. simpl. by rewrite firstn_all2 by (unfold len; lia).
  - apply IH in Hs as (wire' & frames & p & E' & Hd' & Hc' & Hf & Hdone); [|lia..].
    exists (wire ++ wire'), (frame :: frames), p.
    split; [by rewrite E', E1, app_assoc|]. split; [by apply Hd|]. split; [simpl; by rewrite Hc|].
    split; [done|]. rewrite Hdone. lia.
Qed.

(** Sending reads nothing. *)
Lemma send_chunks_input n sequence size bytes offset fragment s s' :
  send_chunks_fuel n sequence size bytes offset fragment s = (s', Ok tt) -> Ses.input s' = Ses.input s.
Proof.
  revert offset fragment s. induction n as [|n IH]; intros offset fragment s; simpl;
    (destruct (_ <=? _); [by intros [= <-]|]); [done|].
  rewrite tbind_Ok. intros (s1 & e & [-> _]%tlift_Ok & Hs).
  rewrite tbind_Ok in Hs. destruct Hs as (s2 & [] & (seq & _ & _ & E2 & _)%send_with_binary_Ok & Hs).
  rewrite tbind_Ok in Hs. destruct Hs as (s3 & fragment' & [-> _]%tlift_Ok & Hs).
  apply IH in Hs. by rewrite Hs, E2.
Qed.

(** ** An upload *)

Lemma opt_int_bounds lo hi value z : opt_int lo hi value = Some (Some z) -> lo <= z <= hi.
Proof.
  unfold opt_int. destruct value as [[]|]; try done;
    intros (v & Hv & E)%fmap_Some; injection E as <-; apply bind_Some in Hv as (w & _ & Hw);
    unfold try_int, in_range in Hw; destruct (_ && _) eqn:Er in Hw; simplify_eq; lia.
Qed.

Lemma reply_body_offset j b o : ReplyBody.decode j = Some b -> ReplyBody.offset b = Some o -> 0 <= o.
Proof.
  intros Hj Ho. destruct j as [fields|values| | | |]; try done; simpl in Hj.
  - apply bind_Some in Hj as (c & _ & Hj). apply bind_Some in Hj as (o' & Hb & [= <-]).
    simpl in Ho. subst o'. apply bind_Some in Hb as (v & _ & Hv). apply opt_int_bounds in Hv. lia.
  - destruct values as [|c [|o' [|]]]; try done.
    apply bind_Some in Hj as (c' & _ & Hj). apply bind_Some in Hj as (o'' & Hv & [= <-]).
    simpl in Ho. subst o''. apply (opt_int_bounds 0 u64_max (Some o')) in Hv. lia.
Qed.

Lemma reply_offset_nonneg j r : Reply.decode j = Some r -> 0 <= reply_offset r.
Proof.
  intros Hj. assert (exists v, Reply.decode_body v = Some (Reply.reply r)) as (v & Hv).
  { assert (forall c s r' v, Reply.decode_fields c s r' v = Some r -> Reply.decode_body v = Some (Reply.reply r)) as Hf.
    { intros c s r' v. unfold Reply.decode_fields.
      do 4 (intros (? & ? & E)%bind_Some; revert E). by intros [= <-]. }
    destruct j as [fields|values| | | |]; try done; simpl in Hj.
    - revert Hj. do 4 (intros (? & _ & E)%bind_Some; revert E). eauto.
    - destruct values as [|? [|? [|? [|? [|]]]]]; try done. eauto. }
  unfold reply_offset. destruct (Reply.reply r) as [b|] eqn:Er; [|done]. simpl.
  destruct (ReplyBody.offset b) as [o|] eqn:Eo; [|done]. simpl.
  destruct v as [j'|]; [|done].
  assert (exists b', ReplyBody.decode j' = Some b' /\ b' = b) as (b' & Hb & ->).
  { destruct j'; try done; apply fmap_Some in Hv as (b' & Hb & [= <-]); eauto. }
  by eapply reply_body_offset.
Qed.

(** What only reads leaves what was sent. *)
Definition reads {A} (m : brtc A) : Prop :=
  forall s s' r, m s = (s', r) -> Ses.sent s' = Ses.sent s /\ Ses.wire_seq s' = Ses.wire_seq s.

Lemma reads_bind {A B} (m : brtc A) (k : A -> brtc B) :
  reads m -> (forall a, reads (k a)) -> reads (tbind m k).
Proof.
  intros Hm Hk s s' r. unfold tbind. destruct (m s) as [s1 [a|e]] eqn:E; apply Hm in E as [E1 E2].
  - intros (E3 & E4)%Hk. by rewrite E3, E4.
  - by intros [= <- <-].
Qed.
Lemma reads_lift {A} (r : result BrtcError A) : reads (tlift r).
Proof. by intros s s' ? [= <- _]. Qed.
Lemma reads_ret {A} (a : A) : reads (tret a).
Proof. by intros s s' ? [= <- _]. Qed.
Lemma reads_fail {A} e : reads (tfail e : brtc A).
Proof. by intros s s' ? [= <- _]. Qed.
Lemma reads_exact n : reads (read_exact n).
Proof. intros s s' r. unfold read_exact. destruct (_ <=? _)%nat; by intros [= <- _]. Qed.
#[local] Hint Resolve reads_bind reads_lift reads_ret reads_fail reads_exact : brtc.

Lemma reads_frame : reads read_frame.
Proof. unfold read_frame. eauto 8 with brtc. Qed.
Lemma reads_json {A} (decode : json -> option A) : reads (read_json_frame decode).
Proof.
  unfold read_json_frame. apply reads_bind; [apply reads_frame|]. intros f. apply reads_bind; [auto with brtc|].
  intros n. simpl. destruct (utf8_valid _); auto with brtc.
Qed.
Lemma reads_reply_fuel n sequence : reads (read_matching_upload_reply_fuel n sequence).
Proof.
  induction n as [|n IH]; simpl; [auto with brtc|]. apply reads_bind; [apply reads_json|].
  intros r. destruct (upload_reply r sequence); auto with brtc.
Qed.
Lemma reads_reply sequence : reads (read_matching_upload_reply sequence).
Proof. intros s s' r. apply reads_reply_fuel. Qed.
Lemma reads_final n sequence : reads (final_result n sequence).
Proof.
  induction n as [|n IH]; simpl; [auto with brtc|]. apply reads_bind; [apply reads_reply|].
  intros r. destruct (_ || _); [auto with brtc|]. destruct (_ =? 1); auto with brtc.
Qed.

(** *** The printer's side of the reads *)

Lemma read_exact_Ok n s s' bytes : read_exact n s = (s', Ok bytes) ->
  (n <= length (Ses.input s))%nat /\ bytes = take n (Ses.input s) /\ Ses.input s' = drop n (Ses.input s).
Proof. unfold read_exact. destruct (Nat.leb_spec n (length (Ses.input s))); [|done]. by intros [= <- <-]. Qed.

Lemma read_frame_peer s s' frame :
  read_frame s = (s', Ok frame) -> peer_frame (Ses.input s) = Some (frame, Ses.input s').
Proof.
  unfold read_frame. rewrite tbind_Ok. intros (s1 & header & (L1 & -> & E1)%read_exact_Ok & Hs).
  rewrite tbind_Ok in Hs. destruct Hs as (s2 & l & [-> Hl]%tlift_Ok & Hs).
  rewrite tbind_Ok in Hs. destruct Hs as (s3 & payload & (L2 & -> & E2)%read_exact_Ok & [-> ->]%tret_Ok).
  unfold checked_frame_payload_len in Hl. destruct (_ <? _); [done|]. injection Hl as <-.
  rewrite E1 in *. rewrite E2. rewrite length_drop in L2. unfold peer_frame.
  rewrite !take_take, skipn_firstn_comm, take_take, drop_drop in *.
  change (Init.Nat.min 4 16) with 4%nat in *. change (Init.Nat.min 4 (16 - 4)) with 4%nat.
  by rewrite (proj2 (Nat.leb_le _ _)) by lia.
Qed.

Lemma read_json_Ok {A} (decode : json -> option A) s s' a :
  read_json_frame decode s = (s', Ok a) ->
  exists frame j rest, peer_frame (Ses.input s) = Some (frame, Ses.input s')
    /\ peer_message (BrtcFrame.payload frame) = Some (j, rest) /\ decode j = Some a.
Proof.
  unfold read_json_frame. rewrite tbind_Ok. intros (s1 & f & Hf%read_frame_peer & Hs).
  rewrite tbind_Ok in Hs. destruct Hs as (s2 & n & [-> Hn%ok_or_Ok]%tlift_Ok & Hs). simpl in Hs.
  destruct (utf8_valid _); [|done]. apply tlift_Ok in Hs as [-> E].
  apply ok_or_Ok, bind_Some in E as (j & Hj & E). exists f, j, (drop n (BrtcFrame.payload f)).
  split; [done|]. split; [|done]. unfold peer_message. rewrite Hn. cbn [mbind option_bind]. by rewrite Hj.
Qed.

Lemma read_reply_Ok n sequence s s' r :
  read_matching_upload_reply_fuel n sequence s = (s', Ok r) ->
  (exists j, Reply.decode j = Some r)
  /\ forall replies rest, says sequence (Ses.input s') replies rest ->
       says sequence (Ses.input s) (r :: replies) rest.
Proof.
  revert s. induction n as [|n IH]; intros s; simpl; [done|]. rewrite tbind_Ok.
  intros (s1 & r' & (frame & j & rest & Hf & Hm & Hj)%read_json_Ok & Hs).
  assert (peer_reply (Ses.input s) = Some (r', Ses.input s1)) as Hp.
  { unfold peer_reply. rewrite Hf. cbn [mbind option_bind]. rewrite Hm. cbn [mbind option_bind]. by rewrite Hj. }
  unfold upload_reply in Hs. destruct (_ && _) eqn:E.
  - apply tret_Ok in Hs as [-> ->]. split; [by eexists|]. intros replies rest'. by eapply says_reply.
  - apply IH in Hs as [Hd Hs]. split; [done|]. intros replies rest' H'%Hs. by eapply says_other.
Qed.

(** A result of zero or more is one the reply states. *)
Lemma result_stated r v : 0 <= v -> reply_result r = v -> Reply.result r = Some v.
Proof. unfold reply_result. destruct (Reply.result r); simpl; [congruence|lia]. Qed.

(** The end of an upload: replies that it goes on, and one that it is done. *)
Lemma final_result_Ok n sequence s s' :
  final_result n sequence s = (s', Ok tt) ->
  exists pending final, (length pending < n)%nat
    /\ Forall (fun r => Reply.result r = Some 1) pending
    /\ (Reply.result final = Some 0 \/ Reply.result final = Some 19)
    /\ says sequence (Ses.input s) (pending ++ [final]) (Ses.input s').
Proof.
  revert s. induction n as [|n IH]; intros s; cbn [final_result]; [done|]. rewrite tbind_Ok.
  intros (s1 & r & [_ Hr]%read_reply_Ok & Hs). cbv zeta in Hs.
  destruct (_ || _) eqn:E; [|destruct (Z.eqb_spec (reply_result r) 1) as [E1|]; [|done]].
  - apply tret_Ok in Hs as [-> _]. exists [], r. split; [simpl; lia|]. split; [done|].
    split; [|apply Hr; constructor]. apply orb_true_iff in E as [E|E]; apply Z.eqb_eq, result_stated in E; auto; lia.
  - apply result_stated in E1; [|lia]. apply IH in Hs as (pending & final & Hl & Hp & Hf & Hs). exists (r :: pending), final.
    split; [simpl; lia|]. split; [by constructor|]. split; [done|]. by apply Hr.
Qed.

Lemma chunk_size_positive r c : chunk_size_bytes r = Ok c -> 0 < c <= BRTC_MAX_UPLOAD_CHUNK_SIZE.
Proof.
  unfold chunk_size_bytes. rewrite rbind_Ok. intros (kib & Ek & Hc).
  apply ok_or_Ok, opt_filter_Some in Ek as [_ Hk].
  rewrite rbind_Ok in Hc. destruct Hc as (c' & Ec & Hc). apply ok_or_Ok in Ec.
  unfold try_int in Ec. destruct (in_range _ _ _); [|done]. injection Ec as <-.
  destruct (Z.ltb_spec BRTC_MAX_UPLOAD_CHUNK_SIZE (kib * 1024)); [done|]. injection Hc as <-. lia.
Qed.

(** C36: An upload that succeeds sent one request for the file and then chunks
    from which the printer assembles exactly the file.  The printer's first answer to the
    request accepts it and says how much of the file it has already; the chunks go on from
    exactly there, in order and without a gap, and the last one carries the digest that is
    returned - there is none only when the printer has the whole file.  After at most 31
    answers that it goes on, the printer's last answer says that it is done. *)
Theorem upload_assembles dest_name bytes s s' digest :
  upload_emmc dest_name bytes s = (s', Ok digest) ->
  digest = md5_lower bytes /\
  exists reply offset pending final wire init frames p,
    says (Ses.wire_seq s) (Ses.input s) (reply :: pending ++ [final]) (Ses.input s')
    /\ (Reply.result reply = Some 1 \/ Reply.result reply = Some 19)
    /\ (length pending < 32)%nat /\ Forall (fun r => Reply.result r = Some 1) pending
    /\ (Reply.result final = Some 0 \/ Reply.result final = Some 19)
    /\ offset = default 0 (Reply.reply reply ≫= ReplyBody.offset) /\ 0 <= offset <= len bytes
    /\ Ses.sent s' = Ses.sent s ++ wire /\ decodes wire (init :: frames)
    /\ peer_message (BrtcFrame.payload init)
       = Some (ctrl_message (upload_init_request (Ses.wire_seq s) dest_name (len bytes)), [])
    /\ peer_chunks (Ses.wire_seq s)
         (Peer.mk (take (Z.to_nat offset) bytes) 0 false) frames = Some p
    /\ Peer.file p = bytes /\ Peer.complete p = (offset <? len bytes).
Proof.
  unfold upload_emmc. destruct (beq _ _); [done|]. rewrite tbind_Ok.
  intros (s1 & sequence & [= <- <-] & Hs). set (s1 := s <| Ses.wire_seq := _ |>) in Hs.
  rewrite tbind_Ok in Hs. destruct Hs as (s2 & [] & (Hl & E2 & I2 & _)%send_frame_Ok & Hs).
  rewrite tbind_Ok in Hs. destruct Hs as (s3 & reply & Hr & Hs).
  pose proof (reads_reply _ _ _ _ Hr) as [E3 _]. apply read_reply_Ok in Hr as [[j Hj] Hr].
  destruct (_ && _) eqn:Er; [done|]. rewrite tbind_Ok in Hs.
  destruct Hs as (s4 & size & [-> Hz%chunk_size_positive]%tlift_Ok & Hs).
  destruct (Z.ltb_spec (len bytes) (reply_offset reply)) as [|Ho]; [done|].
  rewrite tbind_Ok in Hs. destruct Hs as (s5 & [] & Hc & Hs).
  rewrite tbind_Ok in Hs. destruct Hs as (s6 & [] & Hfin & [-> ->]%tret_Ok).
  pose proof (reads_final _ _ _ _ _ Hfin) as [E6 _].
  apply final_result_Ok in Hfin as (pending & final & Hn & Hpe & Hfi & Hsays).
  pose proof (reply_offset_nonneg _ _ Hj) as Hn0. pose proof (send_chunks_input _ _ _ _ _ _ _ _ Hc) as I5.
  apply send_chunks_spec in Hc as (wire & frames & p & E5 & Hd & Hp & Hf & Hdone); [|lia..].
  split; [done|]. eexists reply, (reply_offset reply), pending, final, _, _, frames, p.
  split; [change (Ses.input s) with (Ses.input s1); rewrite <- I2; apply Hr; by rewrite <- I5|].
  split; [apply andb_false_iff in Er as [Er|Er]; apply negb_false_iff, Z.eqb_eq, result_stated in Er; auto; lia|].
  split; [done|]. split; [done|]. split; [done|]. split; [done|]. split; [done|].
  split; [by rewrite E6, E5, E3, E2, <- app_assoc|].
  split; [rewrite <- app_assoc; by apply decodes_frame|]. split; [|done].
  rewrite <- (app_nil_r (bytes_of _)). apply peer_message_spec; [done|]. simpl. lia.
Qed.

(** ** Every operation ends *)

(** [m] does not run out of fuel, and leaves no more input than it found. *)
Definition ends {A} (m : brtc A) : Prop :=
  forall s, snd (m s) <> Err OutOfFuel /\ (length (Ses.input (fst (m s))) <= length (Ses.input s))%nat.

Lemma ends_bind {A B} (m : brtc A) (k : A -> brtc B) : ends m -> (forall a, ends (k a)) -> ends (tbind m k).
Proof.
  intros Hm Hk s. unfold tbind. specialize (Hm s). destruct (m s) as [s1 [a|e]]; simpl in Hm.
  - destruct (Hk a s1). split; [done|]. lia.
  - destruct Hm as [Hm Hl]. simpl. split; [congruence|done].
Qed.
Lemma ends_ret {A} (a : A) : ends (tret a).
Proof. by intros s. Qed.
Lemma ends_fail {A} e : e <> OutOfFuel -> ends (tfail e : brtc A).
Proof. intros He s. split; [simpl; congruence|done]. Qed.
Lemma ends_ok_or {A} (o : option A) e : e <> OutOfFuel -> ends (tlift (ok_or o e)).
Proof. intros He s. split; [|done]. destruct o; simpl; congruence. Qed.
Lemma ends_lift {A} (r : result BrtcError A) : r <> Err OutOfFuel -> ends (tlift r).
Proof. intros He s. by split. Qed.
Lemma ends_lift_bind {A B} (r : result BrtcError A) (k : A -> brtc B) :
  r <> Err OutOfFuel -> (forall a, r = Ok a -> ends (k a)) -> ends (tbind (tlift r) k).
Proof. intros Hr Hk s. unfold tbind, tlift. destruct r as [a|e]; [by apply Hk|]. simpl. split; [congruence|done]. Qed.
Lemma ends_read_exact n : ends (read_exact n).
Proof.
  intros s. unfold read_exact. destruct (_ <=? _)%nat; simpl; split; [done| |done|lia].
  rewrite length_drop. lia.
Qed.
Lemma ends_write bytes : ends (write_all bytes).
Proof. intros s. unfold write_all. by destruct (_ <=? _)%nat. Qed.
#[local] Hint Resolve ends_bind ends_ret ends_fail ends_ok_or ends_read_exact ends_write : ends.
#[local] Hint Extern 1 (_ <> _) => discriminate : ends.

Lemma ends_read_frame : ends read_frame.
Proof.
  unfold read_frame. apply ends_bind; [auto with ends|]. intros h. apply ends_bind; [|eauto with ends].
  apply ends_lift. unfold checked_frame_payload_len. by destruct (_ <? _).
Qed.
Lemma ends_send_frame magic payload : ends (send_frame magic payload).
Proof.
  unfold send_frame. apply ends_bind; [auto with ends|]. intros n. apply ends_bind; [by intros s|].
  intros q. auto with ends.
Qed.
#[local] Hint Resolve ends_read_frame ends_send_frame : ends.

(** A frame takes its header from the input. *)
Lemma read_frame_shrinks s s' f :
  read_frame s = (s', Ok f) -> (length (Ses.input s') < length (Ses.input s))%nat.
Proof.
  unfold read_frame. rewrite tbind_Ok. intros (s1 & h & E & Hs). pose proof (ends_read_exact 16 s) as [_ _].
  unfold read_exact in E. destruct (16 <=? length (Ses.input s))%nat eqn:El; [|done]. injection E as <- <-.
  match type of Hs with ?m ?s0 = _ => assert (ends m) as He end.
  { apply ends_bind; [|eauto with ends]. apply ends_lift.
    unfold checked_frame_payload_len. by destruct (_ <? _). }
  destruct (He (s <| Ses.input := drop 16 (Ses.input s) |>)) as [_ Hl]. rewrite Hs in Hl. simpl in Hl.
  apply Nat.leb_le in El. rewrite length_drop in Hl. lia.
Qed.

Lemma ends_read_json {A} (decode : json -> option A) : ends (read_json_frame decode).
Proof.
  unfold read_json_frame. apply ends_bind; [auto with ends|]. intros f.
  apply ends_bind; [auto with ends|]. intros n. simpl. destruct (utf8_valid _); auto with ends.
Qed.

Lemma read_json_shrinks {A} (decode : json -> option A) s s' a :
  read_json_frame decode s = (s', Ok a) -> (length (Ses.input s') < length (Ses.input s))%nat.
Proof.
  unfold read_json_frame. rewrite tbind_Ok. intros (s1 & f & Hf%read_frame_shrinks & Hs).
  match type of Hs with ?m ?s0 = _ => assert (ends m) as He end.
  { apply ends_bind; [auto with ends|]. intros n. simpl. destruct (utf8_valid _); auto with ends. }
  destruct (He s1) as [_ Hl]. rewrite Hs in Hl. simpl in Hl. lia.
Qed.

(** A loop that reads a message in every turn. *)
Lemma ends_reply_fuel n sequence s :
  (length (Ses.input s) < n)%nat ->
  snd (read_matching_upload_reply_fuel n sequence s) <> Err OutOfFuel
  /\ (length (Ses.input (fst (read_matching_upload_reply_fuel n sequence s))) <= length (Ses.input s))%nat.
Proof.
  revert s. induction n as [|n IH]; intros s Hn; [lia|]. simpl. unfold tbind.
  destruct (ends_read_json Reply.decode s) as [He Hl].
  destruct (read_json_frame Reply.decode s) as [s1 [r|e]] eqn:E; simpl in He, Hl.
  - apply read_json_shrinks in E. destruct (upload_reply r sequence); simpl; [split; [done|lia]|].
    destruct (IH s1) as [He' Hl']; [lia|]. split; [done|]. lia.
  - split; [simpl; congruence|done].
Qed.
Lemma ends_reply sequence : ends (read_matching_upload_reply sequence).
Proof. intros s. apply ends_reply_fuel. lia. Qed.

Lemma ends_ack_fuel n s :
  (length (Ses.input s) < n)%nat ->
  snd (read_setup_ack_fuel n s) <> Err OutOfFuel
  /\ (length (Ses.input (fst (read_setup_ack_fuel n s))) <= length (Ses.input s))%nat.
Proof.
  revert s. induction n as [|n IH]; intros s Hn; [lia|]. simpl. unfold tbind.
  destruct (ends_read_json Ack.decode s) as [He Hl].
  destruct (read_json_frame Ack.decode s) as [s1 [r|e]] eqn:E; simpl in He, Hl.
  - apply read_json_shrinks in E. destruct (setup_ack_success r); simpl; [split; [done|lia]|].
    destruct (IH s1) as [He' Hl']; [lia|]. split; [done|]. lia.
  - split; [simpl; congruence|done].
Qed.
Lemma ends_ack : ends read_setup_ack.
Proof. intros s. apply ends_ack_fuel. lia. Qed.
#[local] Hint Resolve ends_reply ends_ack : ends.

Lemma ends_final n sequence : ends (final_result n sequence).
Proof.
  induction n as [|n IH]; simpl; [auto with ends|]. apply ends_bind; [auto with ends|]. intros r.
  destruct (_ || _); [auto with ends|]. destruct (_ =? 1); auto with ends.
Qed.

Lemma ends_send_binary fields binary : ends (send_abi_json_with_binary fields binary).
Proof.
  unfold send_abi_json_with_binary. apply ends_bind; [|auto with ends].
  apply ends_lift. unfold append_binary_frame_payload, checked_binary_frame_payload_len.
  destruct (usize_add _ _); [|done]. simpl. destruct (usize_add _ _); [|done]. simpl.
  by destruct (try_int _ _ _).
Qed.

Lemma ends_chunks n sequence size bytes offset fragment :
  0 < size -> 0 <= offset -> len bytes - offset <= Z.of_nat n ->
  ends (send_chunks_fuel n sequence size bytes offset fragment).
Proof.
  intros Hz. revert offset fragment. induction n as [|n IH]; intros offset fragment Ho Hn; simpl;
    (destruct (Z.leb_spec (len bytes) offset); [apply ends_ret|]); [lia|].
  apply ends_lift_bind.
  { unfold checked_chunk_end. by destruct (usize_add _ _). }
  intros e Ee%checked_chunk_end_Ok; [|lia..].
  apply ends_bind; [apply ends_send_binary|]. intros [].
  apply ends_bind; [destruct (_ =? _); [by intros s|auto with ends]|]. intros f. apply IH; lia.
Qed.

Lemma reply_upload_ends dest_name bytes s : snd (upload_emmc dest_name bytes s) <> Err OutOfFuel.
Proof.
  unfold upload_emmc. generalize 32%nat. intros fuel. destruct (beq _ _); [done|]. unfold tbind at 1. simpl.
  set (s1 := s <| Ses.wire_seq := _ |>). unfold tbind at 1.
  destruct (ends_send_frame BRTC_CTRL_CLIENT_MAGIC
    (bytes_of (wrap_ctrl_json (upload_init_request (Ses.wire_seq s) dest_name (len bytes)))) s1) as [He _].
  unfold send_abi_json. destruct (send_frame _ _ s1) as [s2 [[]|e]]; [|simpl in *; congruence].
  unfold tbind at 1. destruct (ends_reply (Ses.wire_seq s) s2) as [Hr _].
  destruct (read_matching_upload_reply _ s2) as [s3 [reply|e]] eqn:E; [|simpl in *; congruence].
  apply read_reply_Ok in E as [[j Hn%reply_offset_nonneg] _]. destruct (_ && _); [done|].
  unfold tbind at 1, tlift at 1.
  destruct (chunk_size_bytes reply) as [size|e] eqn:Ez.
  - apply chunk_size_positive in Ez. destruct (_ <? _); [done|].
    assert (ends (send_chunks_fuel (length bytes) (Ses.wire_seq s) size bytes (reply_offset reply) 0)) as Hc
      by (apply ends_chunks; unfold len; lia).
    apply (ends_bind _ (fun _ => tbind (final_result fuel (Ses.wire_seq s)) (fun _ => tret (md5_lower bytes)))); [done|].
    intros _. apply ends_bind; [apply ends_final|auto with ends].
  - simpl. unfold chunk_size_bytes in Ez.
    destruct (opt_filter _ _); simpl in Ez; [|by injection Ez as <-].
    destruct (try_int _ _ _); simpl in Ez; [|by injection Ez as <-]. by destruct (_ <? _); simplify_eq.
Qed.

(** C37: Connecting and uploading always end with a result: whatever the printer
    sends, the replies, the setup answers and the chunks are worked through
    within the fuel of the loops. *)
Theorem upload_terminates access_code serial seed input room dest_name bytes :
  let '(s, r) := connect access_code serial seed input room in
  r <> Err OutOfFuel /\ snd (upload_emmc dest_name bytes s) <> Err OutOfFuel.
Proof.
  assert (ends (handshake access_code serial)) as Hh.
  { unfold handshake. apply ends_bind; [auto with ends|]. intros []. apply ends_bind; [auto with ends|].
    intros f. destruct (negb _); [auto with ends|]. unfold send_abi_json. auto with ends. }
  assert (forall s, snd (upload_emmc dest_name bytes s) <> Err OutOfFuel) as Hu.
  { intros s. apply reply_upload_ends. }
  unfold connect. specialize (Hh (Ses.mk input [] room seed 1)).
  destruct (handshake _ _ _) as [s r], Hh as [Hr _]. by split; [|apply Hu].
Qed.
End Peer.
