(* ===== verification/BrtcSamples.v ===== *)
(** * Concrete uploads

    A JSON text format in braces - the bits of an encoding of the value, one
    letter each - and a printer that answers an upload, on which the theorems of
    [BrtcSafety] are applied. *)

From stdpp Require Import countable.
From S2P Require Import Prelude RustStr Json Serde Tx Brtc BrtcSafety.

#[local] Open Scope Z_scope.

(** ** A text format *)

Fixpoint tree_of (j : json) : gen_tree (string + Z) :=
  match j with
  | Object fields => GenNode 0 (map (fun kv => GenNode 9 [GenLeaf (inl kv.1); tree_of kv.2]) fields)
  | Array values => GenNode 1 (map tree_of values)
  | Str s => GenLeaf (inl s)
  | Num (PosInt n) => GenNode 2 [GenLeaf (inr n)]
  | Num (NegInt n) => GenNode 3 [GenLeaf (inr n)]
  | Bool b => GenNode (if b then 4 else 5) []
  | Num (Float _) | Null => GenNode 6 []
  end.

Fixpoint of_tree (t : gen_tree (string + Z)) : json :=
  match t with
  | GenNode 0 entries =>
      Object (map (fun e => match e with
                            | GenNode _ [GenLeaf (inl key); v] => (key, of_tree v)
                            | _ => (EmptyString, Null)
                            end) entries)
  | GenNode 1 values => Array (map of_tree values)
  | GenLeaf (inl s) => Str s
  | GenNode 2 [GenLeaf (inr n)] => Num (PosInt n)
  | GenNode 3 [GenLeaf (inr n)] => Num (NegInt n)
  | GenNode 4 _ => Bool true
  | GenNode 5 _ => Bool false
  | _ => Null
  end.

Lemma of_tree_of j : exact j = true -> of_tree (tree_of j) = j.
Proof.
  induction j as [fields IH|values IH|s|[]|[]|] using json_nested_ind; simpl; intros Hx; try done.
  - f_equal. induction IH as [|[k v] fields Hv _ IHf]; [done|]. simpl in *.
    apply andb_true_iff in Hx as [Hv' Hf]. by rewrite Hv, IHf.
  - f_equal. induction IH as [|v values Hv _ IHv]; [done|]. simpl in *.
    apply andb_true_iff in Hx as [Hv' Hf]. by rewrite Hv, IHv.
Qed.

Fixpoint letters (p : positive) : string :=
  match p with
  | xH => "c"
  | xO p => String "a" (letters p)
  | xI p => String "b" (letters p)
  end.

Fixpoint of_letters (s : string) : positive :=
  match s with
  | String c s =>
      if Ascii.eqb c "a" then xO (of_letters s) else if Ascii.eqb c "b" then xI (of_letters s) else xH
  | EmptyString => xH
  end.

(** The letters and the brace behind them. *)
Lemma of_letters_of p : of_letters (letters p +:+ "}"%string) = p.
Proof. induction p as [p IH|p IH|]; simpl; by rewrite ?IH. Qed.

Lemma letters_balanced p : balanced (bytes_of (letters p)).
Proof. induction p; simpl; repeat (constructor; try done). Qed.

Lemma letters_utf8 p rest : utf8_valid (bytes_of (letters p) ++ rest) = utf8_valid rest.
Proof. induction p; simpl; auto. Qed.

Lemma bytes_app (a b : string) : bytes_of (a +:+ b) = bytes_of a ++ bytes_of b.
Proof. induction a as [|c a IH]; [done|]. simpl. by rewrite <- IH. Qed.

Definition print_braced (j : json) : string := String "{" (letters (encode (tree_of j)) +:+ "}"%string).
Definition parse_braced (text : string) : option json :=
  match text with
  | String _ rest => of_tree <$> decode (A := gen_tree (string + Z)) (of_letters rest)
  | EmptyString => None
  end.

Lemma print_braced_bytes j :
  bytes_of (print_braced j) = "{"%char :: bytes_of (letters (encode (tree_of j))) ++ ["}"%char].
Proof. unfold print_braced. simpl. f_equal. apply bytes_app. Qed.

Lemma print_braced_braced j : braced (bytes_of (print_braced j)).
Proof.
  rewrite print_braced_bytes. exists "{"%char, (bytes_of (letters (encode (tree_of j)))), "}"%char.
  split; [done|]. split; [apply letters_balanced|]. done.
Qed.

Lemma print_braced_utf8 j : utf8_valid (bytes_of (print_braced j)) = true.
Proof. rewrite print_braced_bytes. simpl. apply letters_utf8. Qed.

Lemma parse_print_braced j : exact j = true -> parse_braced (print_braced j) = Some j.
Proof. intros Hx. simpl. rewrite of_letters_of, decode_encode. simpl. by rewrite of_tree_of. Qed.

#[export] Instance letter_text : BrtcJson := {
  to_string := print_braced;
  from_str := parse_braced;
  to_string_braced fields := print_braced_braced _;
  to_string_utf8 := print_braced_utf8;
  from_to_string fields := parse_print_braced _;
}.

(** A digest: the first two bytes. *)
#[export] Instance two_bytes : Md5 := { md5 := take 2 }.

(** ** A printer *)

Definition answer (fields : list (string * json)) : list ascii :=
  let payload := bytes_of (wrap_ctrl_json fields) in
  frame_header (len payload) BRTC_CTRL_CLIENT_MAGIC 0 ++ payload.

(** It wants kilobytes, and keeps a thousand bytes of an earlier attempt. *)
Definition replies : list ascii :=
  answer [("cmdtype", int 5); ("sequence", int 1); ("result", int 1);
          ("reply", Object [("chunk_size", int 1); ("offset", int 1000)])]%string
  ++ answer [("cmdtype", int 5); ("sequence", int 1); ("result", int 0)]%string.

Definition session : Ses.t := Ses.mk replies [] 100000 7 1.
Definition print_file : list ascii := replicate 2500 "x"%char.

Lemma json_prefix_len_spec_witness :
  json_prefix_len (bytes_of "{}}"%string) = Some 2%nat
  <-> exists text rest, bytes_of "{}}"%string = text ++ rest /\ braced text /\ 2%nat = length text.
Proof. apply json_prefix_len_spec. done. Defined.

Lemma frame_round_trip_witness :
  exists wire,
    Ses.sent (fst (send_frame 5 (bytes_of "abc"%string) session)) = Ses.sent session ++ wire
    /\ forall peer rest, Ses.input peer = wire ++ rest ->
         read_frame peer = (peer <| Ses.input := rest |>, Ok (BrtcFrame.mk 5 (bytes_of "abc"%string))).
Proof. apply (frame_round_trip 5 (bytes_of "abc"%string) session _); [done|done|reflexivity]. Defined.

Lemma upload_assembles_witness :
  exists s' digest,
    upload_emmc "job.3mf" print_file session = (s', Ok digest)
    /\ digest = md5_lower print_file
    /\ exists reply offset pending final wire init frames p,
         says (Ses.wire_seq session) (Ses.input session) (reply :: pending ++ [final]) (Ses.input s')
         /\ (Reply.result reply = Some 1 \/ Reply.result reply = Some 19)
         /\ (length pending < 32)%nat /\ Forall (fun r => Reply.result r = Some 1) pending
         /\ (Reply.result final = Some 0 \/ Reply.result final = Some 19)
         /\ offset = default 0 (Reply.reply reply ≫= ReplyBody.offset) /\ 0 <= offset <= len print_file
         /\ Ses.sent s' = Ses.sent session ++ wire /\ decodes wire (init :: frames)
         /\ peer_message (BrtcFrame.payload init)
            = Some (ctrl_message (upload_init_request (Ses.wire_seq session) "job.3mf" (len print_file)), [])
         /\ peer_chunks (Ses.wire_seq session)
              (Peer.mk (take (Z.to_nat offset) print_file) 0 false) frames = Some p
         /\ Peer.file p = print_file /\ Peer.complete p = (offset <? len print_file).
Proof.
  destruct (upload_emmc "job.3mf" print_file session) as [s' r] eqn:E.
  assert (exists digest, r = Ok digest) as [digest ->].
  { change r with (snd (s', r)). rewrite <- E. vm_compute. eexists. reflexivity. }
  exists s', digest. split; [reflexivity|]. exact (upload_assembles _ _ _ _ _ E).
Defined.
