(* ===== verification/PrintDispatch.v ===== *)
(** * Dispatching a print to a printer

    [machine/print.rs] of the agent: the validation of a print command, the name of the
    file on the printer, the upload and the [project_file] message that starts the
    print.  The file transfer is an interface ([MachineFileTransfer]); MQTT is the link
    of [AgentOperations]. *)

From S2P Require Import Prelude RustStr RustFloat Json CoreTypes CoreRecords Compatibility PrinterOperation OperationWire ProjectFile StudioSequence MqttCommands OperationCommands AgentOperations Tx PrintCommand Brtc.

#[local] Open Scope Z_scope.
#[local] Open Scope rust_scope.
#[local] Open Scope tx_scope.

(** ** Validation *)

(** The [Debug] text of a string and the error of [prost] on an unknown enum value. *)
Class ErrorText := { debug_str : string -> string; unknown_enumeration : Z -> string }.

Definition MAX_STUDIO_MAPPING_ENTRIES : Z := 32.

Inductive StudioBedType := SuperTack | Cool | Engineering | SmoothPei | TexturedPei.

Definition StudioBedType_as_str (bed : StudioBedType) : string :=
  match bed with
  | SuperTack => "supertack_plate"
  | Cool => "cool_plate"
  | Engineering => "eng_plate"
  | SmoothPei => "hot_plate"
  | TexturedPei => "textured_plate"
  end.

Module ValidatedPrintProjectFile.
Record t := mk {
  options : PrintProjectFileOptions.t; submission_source : PrintSubmissionSource;
  task_metadata : option StudioTaskMetadata.t; bed_type : string;
  auto_bed_leveling : PrintCalibrationMode.t; auto_flow_cali : PrintCalibrationMode.t;
  auto_offset_cali : PrintCalibrationMode.t; extruder_cali_manual_mode : option Z }.
End ValidatedPrintProjectFile.

Section Validation.
Context `{ErrorText}.

Definition StudioBedType_try_from (value : string) : result AnyError StudioBedType :=
  if beq value "supertack_plate" then Ok SuperTack
  else if beq value "cool_plate" then Ok Cool
  else if beq value "eng_plate" then Ok Engineering
  else if beq value "hot_plate" then Ok SmoothPei
  else if beq value "textured_plate" then Ok TexturedPei
  else bail ("invalid Studio bed_type " +:+ debug_str value).

Definition submission_source_try_from (value : Z) : result AnyError PrintSubmissionSource :=
  if value =? 0 then Ok Unspecified
  else if value =? 1 then Ok Web
  else if value =? 2 then Ok Studio
  else Err (unknown_enumeration value).

(** The text of [CoreError::InvalidPrintCalibrationMode] for a [u8]. *)
Definition calibration_error (value : Z) : AnyError :=
  "invalid print calibration mode: " +:+ dec value.

Definition required_calibration_mode (value : option Z) (field : string)
  : result AnyError PrintCalibrationMode.t :=
  let invalid := "invalid " +:+ field +:+ " calibration mode" in
  value <-? ok_or value ("missing " +:+ field +:+ " calibration mode") ;;
  value <-? context invalid (try_from_int u8_max value) ;;
  context invalid (map_err (fun _ => calibration_error value) (PrintCalibrationMode.try_from value)).

(** The calibration modes, in the order they are required. *)
Definition calibration_modes (options : PrintProjectFileOptions.t)
  : result AnyError (PrintCalibrationMode.t * PrintCalibrationMode.t * PrintCalibrationMode.t) :=
  bed <-? required_calibration_mode (PrintProjectFileOptions.auto_bed_leveling options)
    "auto_bed_leveling" ;;
  flow <-? required_calibration_mode (PrintProjectFileOptions.auto_flow_cali options)
    "auto_flow_cali" ;;
  offset <-? required_calibration_mode (PrintProjectFileOptions.auto_offset_cali options)
    "auto_offset_cali" ;;
  Ok (bed, flow, offset).

(** What the source of the submission makes of the options: the task, the bed type and
    the manual calibration mode. *)
Definition source_fields (source : PrintSubmissionSource) (command : PrintProjectFile.t)
    (options : PrintProjectFileOptions.t)
  : option (result AnyError (option StudioTaskMetadata.t * string * option Z)) :=
  match source with
  | Studio => Some (
      task <-? ok_or (PrintProjectFile.task_metadata command) "missing Studio task metadata"%string ;;
      bed <-? StudioBedType_try_from (PrintProjectFileOptions.bed_type options) ;;
      mode <-? ok_or (PrintProjectFileOptions.extruder_cali_manual_mode options)
        "missing extruder_cali_manual_mode"%string ;;
      if negb (in_range (-1) 1 mode)
      then bail "invalid extruder_cali_manual_mode; expected -1, 0, or 1"
      else Ok (Some task, StudioBedType_as_str bed, Some mode))
  | Web => Some (
      if is_some (PrintProjectFile.task_metadata command)
      then bail "Web print command must not contain Studio task metadata"
      else if is_some (PrintProjectFileOptions.extruder_cali_manual_mode options)
      then bail "Web print command must not contain extruder_cali_manual_mode"
      else Ok (None, if blank (PrintProjectFileOptions.bed_type options) then "auto"%string
                     else PrintProjectFileOptions.bed_type options, None))
  | Unspecified => None
  end.

Definition check_mapping_len (field : string) (len : nat) : result AnyError unit :=
  if MAX_STUDIO_MAPPING_ENTRIES <? Z.of_nat len
  then bail ("invalid " +:+ field +:+ "; expected at most " +:+ dec MAX_STUDIO_MAPPING_ENTRIES
             +:+ " entries")
  else Ok tt.

Definition check_mappings (options : PrintProjectFileOptions.t) : result AnyError unit :=
  check_mapping_len "nozzle_mapping" (length (PrintProjectFileOptions.nozzle_mapping options)) ?;;
  check_mapping_len "ams_mapping" (length (PrintProjectFileOptions.ams_mapping options)) ?;;
  check_mapping_len "ams_mapping2" (length (PrintProjectFileOptions.ams_mapping2 options)) ?;;
  check_mapping_len "ams_mapping_info" (length (PrintProjectFileOptions.ams_mapping_info options)).

Definition finite_diameter (nozzle : ProtoNozzleInfo.t) : bool :=
  negb (is_some_and (fun d => negb (is_finite d)) (ProtoNozzleInfo.diameter nozzle)).

(** [None] is the [unreachable!] of an unspecified source, refused before. *)
Definition validate_print_project_file_command (command : PrintProjectFile.t)
  : option (result AnyError ValidatedPrintProjectFile.t) :=
  let i32_max_text := "; expected 1..=" +:+ dec i32_max in
  let refuse message : option (result AnyError ValidatedPrintProjectFile.t) := Some (bail message) in
  if blank (PrintProjectFile.artifact_download_path command)
  then refuse "missing artifact_download_path"%string
  else if (PrintProjectFile.plate_id command =? 0) || (i32_max <? PrintProjectFile.plate_id command)
  then refuse ("invalid plate_id" +:+ i32_max_text)
  else if (PrintProjectFile.studio_submission_id command =? 0)
          || (i32_max <? PrintProjectFile.studio_submission_id command)
  then refuse ("invalid studio_submission_id" +:+ i32_max_text)
  else
    match context "invalid print submission source"
            (submission_source_try_from (PrintProjectFile.submission_source command)) with
    | Err e => Some (Err e)
    | Ok source =>
        if beq source Unspecified then refuse "missing print submission source"%string
        else
          match PrintProjectFile.options command with
          | None => refuse "missing print project file options"%string
          | Some options =>
              fields ← source_fields source command options;
              Some (
                fields <-? fields ;;
                let '(task_metadata, bed_type, manual_mode) := fields in
                modes <-? calibration_modes options ;;
                let '(auto_bed_leveling, auto_flow_cali, auto_offset_cali) := modes in
                check_mappings options ?;;
                if negb (forallb finite_diameter (PrintProjectFileOptions.nozzles_info options))
                then bail "invalid nozzles_info diameter; expected a finite number"
                else Ok (ValidatedPrintProjectFile.mk options source task_metadata bed_type
                           auto_bed_leveling auto_flow_cali auto_offset_cali manual_mode))
          end
    end.
End Validation.

(** ** The name of the file on the printer *)

Definition is_ascii_control (c : ascii) : bool := byte_in 0 31 c || byte_is 127 c.

(** [chars().map(..)] on UTF-8 text: the control characters are the ASCII ones and
    U+0080 to U+009F, which are two bytes. *)
Fixpoint replace_controls (s : string) : string :=
  match s with
  | EmptyString => EmptyString
  | String a rest =>
      if is_ascii_control a || is_path_separator a then String "_" (replace_controls rest)
      else
        match rest with
        | String b rest' =>
            if byte_is 194 a && byte_in 128 159 b then String "_" (replace_controls rest')
            else String a (replace_controls rest)
        | EmptyString => String a EmptyString
        end
  end.

Fixpoint trim_start_chars (p : ascii -> bool) (s : string) : string :=
  match s with
  | String a rest => if p a then trim_start_chars p rest else s
  | EmptyString => EmptyString
  end.

Definition trim_end_chars (p : ascii -> bool) (s : string) : string :=
  str_rev (trim_start_chars p (str_rev s)).

Definition sanitize_remote_name (name : string) : string :=
  replace_controls
    (trim_end_chars (fun c => byte_is 32 c || byte_is 46 c)
       (trim_start_chars (fun c => byte_is 46 c || is_path_separator c || byte_is 32 c) name)).

Definition strip_3mf_extension (name : string) : string :=
  default name (opt_or (strip_suffix ".gcode.3mf" name) (strip_suffix ".3mf" name)).

Definition pick_remote_name (filename : string) : string :=
  let stripped := strip_3mf_extension (sanitize_remote_name (after_last is_path_separator filename)) in
  if beq stripped EmptyString then "print.gcode.3mf" else stripped +:+ ".gcode.3mf".

(** ** The dispatch *)

Module FileUploadResult.
Record t := mk { path : string; url : string }.
End FileUploadResult.

Module PrintProjectDispatchResult.
Record t := mk {
  topic : string; payload : json; qos : Z; uploaded_path : string; uploaded_url : string;
  md5 : string }.
End PrintProjectDispatchResult.

(** [pandar-core/src/print_transfer.rs]. *)
Inductive PrintTransferPhase :=
| Connect | Login | Protection | DataConnection | Write | Finalize | Verify | Timeout.

(** An error of the transfer: its text and the phase found in its chain of contexts. *)
Module TransferError.
Record t := mk { text : AnyError; phase : option PrintTransferPhase }.
End TransferError.

(** [MachineFileTransfer::upload_print]: path, bytes, [try_emmc_print]. *)
Class MachineFileTransfer := {
  upload_print : string -> list ascii -> bool -> result TransferError.t FileUploadResult.t }.

Inductive PrintFault := Failed (error : TransferError.t) | PrintPanicked.

(** The link to the printer and the uploads asked of the transfer. *)
Module Printing.
Record t := mk { link : Link.t; uploads : list (string * list ascii * bool) }.
End Printing.

Definition printing (A : Type) : Type := tx Printing.t PrintFault A.

Definition plain_failure (text : AnyError) : PrintFault := Failed (TransferError.mk text None).

Definition print_fail {A} (text : AnyError) : printing A := tfail (plain_failure text).

Definition on_link {A} (m : mq A) : printing A := fun s =>
  let '(l, r) := m (Printing.link s) in
  (Printing.mk l (Printing.uploads s),
   map_err (fun f => match f with Raised e => plain_failure e | Panicked => PrintPanicked end) r).

(** What a dispatch uses of a [BambuPrinterEndpoint]. *)
Module PrintEndpoint.
Record t := mk { serial : string; host : string; model : option string }.
End PrintEndpoint.

Section Dispatch.
Context `{ErrorText} `{FloatText} `{SlicerKey} `{MachineFileTransfer} `{Md5}.

Definition hex2_upper (c : ascii) : list ascii := map to_upper (hex2 c).
Definition md5_upper (bytes : list ascii) : string :=
  String.string_of_list_ascii (concat (map hex2_upper (md5 bytes))).

(** The upload under the contexts of the dispatcher, logged. *)
Definition upload (endpoint : PrintEndpoint.t) (path : string) (artifact : list ascii)
    (try_emmc_print : bool) : printing FileUploadResult.t := fun s =>
  (Printing.mk (Printing.link s) (Printing.uploads s ++ [(path, artifact, try_emmc_print)]),
   map_err (fun e => Failed (TransferError.mk
       ("upload print artifact to " +:+ PrintEndpoint.serial endpoint +:+ " at "
        +:+ PrintEndpoint.host endpoint +:+ ": " +:+ TransferError.text e) (TransferError.phase e)))
     (upload_print path artifact try_emmc_print)).

(** The calibrations the model of the printer does not support. *)
Definition unsupported_calibration (model : option string) (v : ValidatedPrintProjectFile.t)
  : option AnyError :=
  let options := ValidatedPrintProjectFile.options v in
  let refuse what := Some (what +:+ " is not supported for model " +:+ default "unknown"%string model) in
  let flow := ValidatedPrintProjectFile.auto_flow_cali v in
  if (PrintProjectFileOptions.flow_cali options || beq flow PrintCalibrationMode.On)
     && negb (flow_calibration_supported model)
  then refuse "flow calibration"%string
  else if beq flow PrintCalibrationMode.Auto && negb (auto_flow_calibration_supported model)
  then refuse "automatic flow calibration"%string
  else if beq (ValidatedPrintProjectFile.auto_bed_leveling v) PrintCalibrationMode.Auto
          && negb (auto_bed_leveling_supported model)
  then refuse "automatic bed leveling"%string
  else if negb (beq (ValidatedPrintProjectFile.auto_offset_cali v) PrintCalibrationMode.Off)
          && negb (nozzle_offset_calibration_supported model)
  then refuse "nozzle offset calibration"%string
  else None.

(** The arguments of [BambuMqttCommand::project_file]. *)
Definition project_file_of (endpoint : PrintEndpoint.t) (command : PrintProjectFile.t)
    (v : ValidatedPrintProjectFile.t) (uploaded : FileUploadResult.t) (digest : string)
  : ProjectFileCommand.t :=
  let options := ValidatedPrintProjectFile.options v in
  ProjectFileCommand.mk (PrintEndpoint.model endpoint) (FileUploadResult.path uploaded)
    (Some (FileUploadResult.url uploaded)) (Some digest) (PrintProjectFile.plate_id command)
    (PrintProjectFile.studio_submission_id command) (ValidatedPrintProjectFile.submission_source v)
    (StudioTaskMetadata.task_name <$> ValidatedPrintProjectFile.task_metadata v)
    (match ValidatedPrintProjectFile.task_metadata v with
     | Some task => StudioTaskMetadata.origin_profile_id task
     | None => 0
     end)
    (PrintProjectFileOptions.use_ams options) (PrintProjectFileOptions.bed_leveling options)
    (ValidatedPrintProjectFile.auto_bed_leveling v) (PrintProjectFileOptions.flow_cali options)
    (PrintProjectFileOptions.vibration_cali options)
    (PrintProjectFileOptions.layer_inspect options) (ValidatedPrintProjectFile.auto_flow_cali v)
    (ValidatedPrintProjectFile.auto_offset_cali v)
    (PrintProjectFileOptions.record_timelapse options)
    (PrintProjectFileOptions.timelapse_use_internal options)
    (ValidatedPrintProjectFile.bed_type v) (ValidatedPrintProjectFile.extruder_cali_manual_mode v)
    (PrintProjectFileOptions.nozzle_mapping options) (PrintProjectFileOptions.ams_mapping options)
    (PrintProjectFileOptions.ams_mapping2 options)
    (PrintProjectFileOptions.ams_mapping_info options).

Definition dispatch_print_project_file (endpoint : PrintEndpoint.t) (command : PrintProjectFile.t)
    (artifact : list ascii) : printing PrintProjectDispatchResult.t :=
  match validate_print_project_file_command command with
  | None => tfail PrintPanicked
  | Some (Err e) => print_fail ("validate print project file command: " +:+ e)
  | Some (Ok v) =>
      match unsupported_calibration (PrintEndpoint.model endpoint) v with
      | Some e => print_fail e
      | None =>
          uploaded <~ upload endpoint (pick_remote_name (PrintProjectFile.filename command)) artifact
            (PrintProjectFileOptions.try_emmc_print (ValidatedPrintProjectFile.options v)) ;;
          let topics := BambuMqttTopics.for_serial (PrintEndpoint.serial endpoint) in
          let md5 := md5_upper artifact in
          payload <~ on_link (payload_of (BambuMqttCommand.ProjectFile
                       (project_file_of endpoint command v uploaded md5))) ;;
          let payload := BambuMqttCommandPayload.payload payload in
          on_link (with_context ("publish project_file to " +:+ PrintEndpoint.serial endpoint)
                     (publish (BambuMqttTopics.request topics) payload)) ~;;
          tret (PrintProjectDispatchResult.mk (BambuMqttTopics.request topics) payload 1
                  (FileUploadResult.path uploaded) (FileUploadResult.url uploaded) md5)
      end
  end.
End Dispatch.
