(* ===== verification/PrintPipeline.v ===== *)
(** * A print from its creation to the printer

    The print command of a created job leaves the hub's queue and is what the agent
    accepts; and what the agent does with an accepted print: [PrintCommand] and
    [PrintDispatch] composed with [JobCreate]. *)

From S2P Require Import Prelude RustStr RustFloat Json BTree CoreTypes CoreRecords DeviceFeatures Compatibility Store JobRows Tx AgentSessions PrinterOperation OperationWire ProjectFile StudioSequence MqttCommands OperationCommands AgentOperations CommandTransitions JobTables JobCreate PrintCommand PrintDispatch Brtc.

#[local] Open Scope Z_scope.
#[local] Open Scope rust_scope.
#[local] Open Scope tx_scope.

(** ** Specification *)

Definition studio_bed_types : list string :=
  ["supertack_plate"; "cool_plate"; "eng_plate"; "hot_plate"; "textured_plate"]%string.

(** The Studio metadata an agent accepts; a Web submission has none. *)
Definition studio_acceptable (metadata : option StudioPrintMetadata) : bool :=
  match metadata with
  | None => true
  | Some (V1 m) =>
      bool_decide (StudioPrintMetadataV1.task_bed_type m ∈ studio_bed_types)
      && in_range (-1) 1 (StudioPrintMetadataV1.extruder_cali_manual_mode m)
      && (Z.of_nat (length (StudioPrintMetadataV1.nozzle_mapping m)) <=? 32)
      && (Z.of_nat (length (StudioPrintMetadataV1.ams_mapping m)) <=? 32)
      && (Z.of_nat (length (StudioPrintMetadataV1.ams_mapping2 m)) <=? 32)
      && (Z.of_nat (length (StudioPrintMetadataV1.ams_mapping_info m)) <=? 32)
  end.

Definition finite_nozzles (nozzles : list StudioNozzleInfo) : bool :=
  forallb (fun n => negb (is_some_and (fun d => negb (is_finite (StudioFiniteF64.get d)))
                            (CoreRecords.diameter n))) nozzles.

Definition with_nozzles (nozzles : list StudioNozzleInfo) (metadata : StudioPrintMetadata)
  : StudioPrintMetadata :=
  let 'V1 m := metadata in
  V1 (StudioPrintMetadataV1.mk
    (StudioPrintMetadataV1.task_name m) (StudioPrintMetadataV1.project_name m)
    (StudioPrintMetadataV1.preset_name m) (StudioPrintMetadataV1.config_plate_index m)
    (StudioPrintMetadataV1.nozzle_mapping m) (StudioPrintMetadataV1.ams_mapping m)
    (StudioPrintMetadataV1.ams_mapping2 m) (StudioPrintMetadataV1.ams_mapping_info m) nozzles
    (StudioPrintMetadataV1.connection_type m) (StudioPrintMetadataV1.comments m)
    (StudioPrintMetadataV1.origin_profile_id m) (StudioPrintMetadataV1.stl_design_id m)
    (StudioPrintMetadataV1.origin_model_id m) (StudioPrintMetadataV1.print_type m)
    (StudioPrintMetadataV1.submitted_device_name m) (StudioPrintMetadataV1.task_bed_leveling m)
    (StudioPrintMetadataV1.task_flow_cali m) (StudioPrintMetadataV1.task_vibration_cali m)
    (StudioPrintMetadataV1.task_layer_inspect m) (StudioPrintMetadataV1.task_record_timelapse m)
    (StudioPrintMetadataV1.task_timelapse_use_internal m) (StudioPrintMetadataV1.task_use_ams m)
    (StudioPrintMetadataV1.task_bed_type m) (StudioPrintMetadataV1.auto_bed_leveling m)
    (StudioPrintMetadataV1.auto_flow_cali m) (StudioPrintMetadataV1.auto_offset_cali m)
    (StudioPrintMetadataV1.extruder_cali_manual_mode m) (StudioPrintMetadataV1.try_emmc_print m)
    (StudioPrintMetadataV1.svc_context m) (StudioPrintMetadataV1.slicer_uid m)).

Definition with_metadata (metadata : option StudioPrintMetadata) (p : PrintProjectFilePayload.t)
  : PrintProjectFilePayload.t :=
  PrintProjectFilePayload.mk
    (PrintProjectFilePayload.job_id p) (PrintProjectFilePayload.artifact_id p)
    (PrintProjectFilePayload.printer_id p) (PrintProjectFilePayload.serial_number p)
    (PrintProjectFilePayload.filename p) (PrintProjectFilePayload.storage_path p)
    (PrintProjectFilePayload.artifact_download_path p) (PrintProjectFilePayload.size_bytes p)
    (PrintProjectFilePayload.plate_id p) (PrintProjectFilePayload.use_ams p)
    (PrintProjectFilePayload.auto_bed_leveling p) (PrintProjectFilePayload.bed_leveling p)
    (PrintProjectFilePayload.flow_cali p) (PrintProjectFilePayload.auto_flow_cali p)
    (PrintProjectFilePayload.auto_offset_cali p) (PrintProjectFilePayload.timelapse p)
    (PrintProjectFilePayload.ams_mapping_json p) (PrintProjectFilePayload.ams_mapping2_json p)
    (PrintProjectFilePayload.ams_mapping_info_json p)
    (PrintProjectFilePayload.studio_submission_id p) metadata.

(** [p'] is [p] read back from its text: only the diameters of the nozzles, which are
    floats, may differ in their last digits, and they are finite. *)
Definition reread (p p' : PrintProjectFilePayload.t) : Prop :=
  exists nozzles, finite_nozzles nozzles = true
    /\ p' = with_metadata (with_nozzles nozzles <$> PrintProjectFilePayload.studio_metadata p) p.

(** ** The agent accepts what the hub converts *)

Lemma trim_start_rev_slash s : trim_start_rev (s +:+ "/") <> EmptyString.
Proof.
  assert (forall a r, String a r +:+ "/" = String a (r +:+ "/")) as cons by done.
  induction s as [|a r IH1 IH2 IH3] using string_ind3; [done|]. rewrite cons. cbn [trim_start_rev].
  destruct (ws1 a); [done|]. destruct r as [|b r]; [done|]. rewrite cons.
  destruct (ws2 b a); [by apply (IH2 b)|]. destruct r as [|c r]; [done|]. rewrite cons.
  by destruct (ws3 c b a); [apply (IH3 b c)|].
Qed.

Lemma slash_not_blank s : blank (String "/" s) = false.
Proof.
  unfold blank. rewrite beq_false. unfold trim, trim_end.
  assert (trim_start (String "/" s) = String "/" s) as ->.
  { cbn. by destruct s as [|b [|c s]]. }
  assert (str_rev (String "/" s) = str_rev s +:+ "/") as ->.
  { unfold str_rev. cbn [String.list_ascii_of_string List.rev].
    induction (List.rev (String.list_ascii_of_string s)) as [|x l IH]; [done|]. cbn. by rewrite IH. }
  intros E. apply (trim_start_rev_slash (str_rev s)).
  apply (f_equal str_rev) in E. unfold str_rev in E at 1 2.
  rewrite String.list_ascii_of_string_of_list_ascii, rev_involutive,
    String.string_of_list_ascii_of_string in E. done.
Qed.

Lemma required_mode m field :
  required_calibration_mode (Some (PrintCalibrationMode.as_u8 m)) field = Ok m.
Proof. by destruct m. Qed.

Lemma bed_type_accepted value `{ErrorText} :
  is_ok (StudioBedType_try_from value) = bool_decide (value ∈ studio_bed_types).
Proof.
  unfold StudioBedType_try_from, studio_bed_types.
  repeat (let E := fresh in destruct (beq value _) eqn:E;
          [rewrite beq_true in E; subst value; reflexivity|rewrite beq_false in E]).
  rewrite bool_decide_eq_false_2; [done|]. rewrite !elem_of_cons, elem_of_nil. naive_solver.
Qed.

Lemma check_mappings_ok o :
  is_ok (check_mappings o)
  = (Z.of_nat (length (PrintProjectFileOptions.nozzle_mapping o)) <=? 32)
    && (Z.of_nat (length (PrintProjectFileOptions.ams_mapping o)) <=? 32)
    && (Z.of_nat (length (PrintProjectFileOptions.ams_mapping2 o)) <=? 32)
    && (Z.of_nat (length (PrintProjectFileOptions.ams_mapping_info o)) <=? 32).
Proof.
  unfold check_mappings, check_mapping_len, MAX_STUDIO_MAPPING_ENTRIES.
  repeat match goal with |- context [32 <? ?n] =>
    rewrite (Z.ltb_antisym n 32); destruct (n <=? 32); cbn [negb rbind is_ok bail andb]; try done end.
Qed.

(** The command as the agent's validator sees it, once the plain fields are in range. *)
Lemma validated_command `{ErrorText} m source fields o bed flow offset :
  blank (PrintProjectFile.artifact_download_path m) = false ->
  1 <= PrintProjectFile.plate_id m <= i32_max ->
  1 <= PrintProjectFile.studio_submission_id m <= i32_max ->
  submission_source_try_from (PrintProjectFile.submission_source m) = Ok source ->
  source <> Unspecified ->
  PrintProjectFile.options m = Some o ->
  source_fields source m o = Some fields ->
  PrintProjectFileOptions.auto_bed_leveling o = Some (PrintCalibrationMode.as_u8 bed) ->
  PrintProjectFileOptions.auto_flow_cali o = Some (PrintCalibrationMode.as_u8 flow) ->
  PrintProjectFileOptions.auto_offset_cali o = Some (PrintCalibrationMode.as_u8 offset) ->
  forallb finite_diameter (PrintProjectFileOptions.nozzles_info o) = true ->
  exists r, validate_print_project_file_command m = Some r
    /\ is_ok r = is_ok fields && is_ok (check_mappings o).
Proof.
  intros Hpath Hplate Hsid Hsource Hs Ho Hfields Hbed Hflow Hoffset Hfinite.
  unfold validate_print_project_file_command. rewrite Hpath.
  rewrite (proj2 (Z.eqb_neq _ 0)), (proj2 (Z.ltb_ge i32_max _)) by lia. cbn [orb].
  rewrite (proj2 (Z.eqb_neq _ 0)), (proj2 (Z.ltb_ge i32_max _)) by lia. cbn [orb].
  rewrite Hsource. unfold context. cbn [map_err]. rewrite (proj2 (beq_false source Unspecified) Hs), Ho, Hfields.
  eexists. split; [reflexivity|]. destruct fields as [[[task bed_type] mode]|e]; [|done].
  unfold calibration_modes. rewrite Hbed, Hflow, Hoffset, !required_mode. cbn [rbind is_ok andb].
  destruct (check_mappings o); [|done]. cbn [rbind is_ok]. by rewrite Hfinite.
Qed.

Section Converted.
Context `{UuidText} `{CommandJson} `{QueuedJson} `{ErrorText}.

Lemma mapping_reads (value : option string) (A : Type) field (from_str : string -> option (list A)) :
  (forall s, mapping_len field s = length <$> from_str s) ->
  validate_mapping_json value field = Ok tt ->
  exists l, parse_optional_json from_str value = Some l /\ (Z.of_nat (length l) <=? 32) = true.
Proof.
  intros Hlen. unfold validate_mapping_json, parse_optional_json, validate_mapping_len.
  destruct value as [s|]; [|by exists []]. rewrite Hlen. destruct (from_str s) as [l|]; [|done].
  cbn [fmap option_fmap option_map ok_or rbind]. destruct (length l <=? 32)%nat eqn:E; [|done].
  intros _. exists l. split; [done|]. apply Nat.leb_le in E. apply Z.leb_le. lia.
Qed.

Lemma proto_nozzles_finite nozzles :
  finite_nozzles nozzles = true -> forallb finite_diameter (map proto_nozzle nozzles) = true.
Proof.
  unfold finite_nozzles. rewrite !forallb_forall. intros Hn n (n' & <- & Hin)%in_map_iff.
  specialize (Hn n' Hin). unfold finite_diameter, proto_nozzle. cbn.
  by destruct (CoreRecords.diameter n').
Qed.

(** What an agent accepts of Studio metadata. *)
Lemma studio_fields_accepted m command task :
  PrintProjectFile.task_metadata command = Some task ->
  let o := fst (proto_studio_metadata (V1 m)) in
  is_ok (default (bail EmptyString) (source_fields Studio command o)) && is_ok (check_mappings o)
  = studio_acceptable (Some (V1 m)).
Proof.
  intros Ht o. cbn [source_fields default]. rewrite Ht, check_mappings_ok. cbn [ok_or rbind].
  unfold studio_acceptable. rewrite <- (bed_type_accepted (StudioPrintMetadataV1.task_bed_type m)). subst o. cbn [fst proto_studio_metadata].
  cbn [PrintProjectFileOptions.bed_type PrintProjectFileOptions.extruder_cali_manual_mode
       PrintProjectFileOptions.nozzle_mapping PrintProjectFileOptions.ams_mapping
       PrintProjectFileOptions.ams_mapping2 PrintProjectFileOptions.ams_mapping_info].
  destruct (StudioBedType_try_from _); [|done]. cbn [rbind ok_or is_ok andb].
  destruct (in_range (-1) 1 _); [|done]. cbn [negb is_ok andb]. by rewrite !andb_assoc.
Qed.

(** The conversion of a payload whose mappings were validated. *)
Lemma print_command_accepted p :
  blank (PrintProjectFilePayload.artifact_download_path p) = false ->
  1 <= PrintProjectFilePayload.plate_id p <= i32_max ->
  1 <= StudioSubmissionId.get (PrintProjectFilePayload.studio_submission_id p) <= i32_max ->
  validate_mapping_json (PrintProjectFilePayload.ams_mapping_json p) ams_mapping_field = Ok tt ->
  validate_mapping_json (PrintProjectFilePayload.ams_mapping2_json p) ams_mapping2_field = Ok tt ->
  validate_mapping_json (PrintProjectFilePayload.ams_mapping_info_json p) ams_mapping_info_field = Ok tt ->
  (forall m, PrintProjectFilePayload.studio_metadata p = Some (V1 m) ->
     finite_nozzles (StudioPrintMetadataV1.nozzles_info m) = true) ->
  exists m r, print_command p = Ok m /\ validate_print_project_file_command m = Some r
    /\ is_ok r = studio_acceptable (PrintProjectFilePayload.studio_metadata p)
    /\ PrintProjectFile.job_id m = PrintProjectFilePayload.job_id p
    /\ PrintProjectFile.plate_id m = PrintProjectFilePayload.plate_id p
    /\ PrintProjectFile.studio_submission_id m
       = StudioSubmissionId.get (PrintProjectFilePayload.studio_submission_id p).
Proof.
  intros Hpath Hplate Hsid Hm1 Hm2 Hm3 Hfinite.
  assert (wrap_u32 (StudioSubmissionId.get (PrintProjectFilePayload.studio_submission_id p))
          = StudioSubmissionId.get (PrintProjectFilePayload.studio_submission_id p)) as Hwrap.
  { unfold wrap_u32. apply Z.mod_small. unfold i32_max in Hsid. lia. }
  unfold print_command. rewrite Hpath, Hwrap.
  destruct (PrintProjectFilePayload.studio_metadata p) as [[m]|] eqn:Em.
  - cbn [proto_studio_metadata rbind]. eexists.
    edestruct validated_command as (r & Hr & Hok);
      [..|exists r; split; [reflexivity|]; split; [exact Hr|]; split; [|done]];
      try reflexivity; try done.
    + by apply proto_nozzles_finite, Hfinite.
    + rewrite Hok. by eapply (studio_fields_accepted m).
  - destruct (mapping_reads _ _ _ _ mapping_len_ams Hm1) as (l1 & E1 & L1).
    destruct (mapping_reads _ _ _ _ mapping_len_ams2 Hm2) as (l2 & E2 & L2).
    destruct (mapping_reads _ _ _ _ mapping_len_info Hm3) as (l3 & E3 & L3).
    unfold proto_web_options. rewrite E1, E2, E3. cbn [mbind option_bind ok_or rbind]. eexists.
    edestruct validated_command as (r & Hr & Hok);
      [..|exists r; split; [reflexivity|]; split; [exact Hr|]; split; [|done]];
      try reflexivity; try done.
    rewrite Hok, check_mappings_ok. cbn. by rewrite L1, L2, L3.
Qed.
End Converted.

Section Created.
Context `{Store} `{UuidText} `{Rfc3339} `{JobJson} `{AuditJson} `{CommandJson} `{QueuedJson} `{ErrorText}.

Lemma allocated_in_range t s s' sid :
  allocate t s = (s', Ok sid) -> 1 <= StudioSubmissionId.get sid <= i32_max.
Proof.
  rewrite allocate_run. cbv zeta. intros [= _ E].
  destruct (select_one _ _) as [r|]; [|done]. apply rbind_Ok in E as (v & Hv & Hsid).
  rewrite ok_or_Ok in Hv. rewrite db_err_ok in Hsid. unfold StudioSubmissionId.try_from in Hsid.
  destruct (try_int i32_min i32_max v) as [w|] eqn:Ew; [|done].
  destruct (w <=? 0) eqn:E0; [done|]. injection Hsid as <-. cbn.
  unfold try_int, in_range in Ew. destruct (_ && _) eqn:R; [|done]. injection Ew as ->.
  apply andb_true_iff in R. lia.
Qed.

(** The row of a created command reads as a queued print. *)
Lemma print_row_reads input now command_id p :
  exists c, command_from_model (print_command_row input now command_id p) = Ok c
    /\ CommandRecord.id c = command_id /\ CommandRecord.kind c = "print_project_file"%string
    /\ CommandRecord.status c = CommandStatus.Queued
    /\ CommandRecord.payload_json c = print_payload_to_string p.
Proof.
  eexists (CommandRecord.mk command_id (CreatePrintJob.tenant_id input)
    (CreatePrintJob.agent_id input) _ _ _ _ _ _ _ _).
  split; [|done]. apply command_from_model_iff. constructor; cbn; try reflexivity.
  - apply CommandId_parse_to_string.
  - apply TenantId_parse_to_string.
  - apply AgentId_parse_to_string.
Qed.

Lemma print_record_converts c p m :
  CommandRecord.kind c = "print_project_file"%string ->
  parse_print_payload (CommandRecord.payload_json c) = Some p ->
  print_command p = Ok m ->
  hub_command_from_record c
  = Ok (HubCommand.mk (CommandId_to_string (CommandRecord.id c)) (QueuedCommand.PrintProjectFile m)).
Proof.
  intros Hk Hp Hm. unfold hub_command_from_record, queued_command. rewrite Hk, Hp.
  cbn [ok_or rbind beq]. by rewrite Hm.
Qed.

(** C7: a created print leaves the queue and is what the agent expects: the command row
    that a successful creation adds converts to a message for the agent, so it never
    blocks the commands queued behind it, and the agent's validator accepts the message
    exactly if the Studio metadata has a bed type and a calibration mode the agent
    knows and mappings of at most 32 entries; a print without Studio metadata is always
    accepted. *)
Theorem created_print_dispatchable (now : string) (job_id : JobId) (command_id : CommandId)
    (input : CreatePrintJob.t) (metadata : option StudioPrintMetadata) (s s' : JobsDb.t)
    (created : JobWithArtifact.t)
    (Hok : create_print_job now job_id command_id input metadata s = (s', Ok created))
    (Hcodec : forall serial sid, snd (printer_for_agent input s) = Ok serial ->
       snd (allocate (CreatePrintJob.tenant_id input) s) = Ok sid ->
       let p := payload input job_id serial sid metadata in
       exists p', parse_print_payload (print_payload_to_string p) = Some p' /\ reread p p') :
  exists row c m r,
    In row (Db.commands (JobsDb.main s')) /\ command_from_model row = Ok c
    /\ CommandRecord.status c = CommandStatus.Queued
    /\ hub_command_from_record c
       = Ok (HubCommand.mk (CommandId_to_string command_id) (QueuedCommand.PrintProjectFile m))
    /\ PrintProjectFile.job_id m = JobId_to_string job_id
    /\ PrintProjectFile.plate_id m = PrintExecutionOptions.plate_id (CreatePrintJob.options input)
    /\ validate_print_project_file_command m = Some r
    /\ is_ok r = studio_acceptable metadata.
Proof.
  assert (validate_mappings (CreatePrintJob.options input) = Ok tt) as Hmaps.
  { unfold create_print_job in Hok. apply tbind_Ok in Hok as (s1 & [] & Hv & _).
    by apply tlift_Ok in Hv as [_ Hv]. }
  apply create_print_job_Ok in Hok as (rows & serial & sid & db' & Hserial & Ha & -> & Hq & _).
  destruct (Hcodec serial sid Hserial ltac:(by rewrite Ha)) as (p' & Hp' & nozzles & Hfinite & ->).
  apply allocated_in_range in Ha. destruct Hq as [Hcs _ _ _ _ Hplate _]. cbn in Hcs.
  set (p := payload input job_id serial sid metadata) in *.
  destruct (print_row_reads input now command_id p) as (c & Hc & Hid & Hkind & Hstatus & Hpayload).
  fold p in Hp'.
  unfold validate_mappings in Hmaps. apply rbind_Ok in Hmaps as ([] & Hm1 & Hmaps).
  apply rbind_Ok in Hmaps as ([] & Hm2 & Hm3).
  edestruct (print_command_accepted
    (with_metadata (with_nozzles nozzles <$> PrintProjectFilePayload.studio_metadata p) p))
    as (m & r & Hm & Hr & Hacc & Hjob & Hpl & _); try done.
  { apply slash_not_blank. }
  { intros m. cbn. destruct metadata as [[m0]|]; [|done]. by intros [= <-]. }
  exists (print_command_row input now command_id p), c, m, r.
  split; [cbn; rewrite Hcs, insert_row_perm; by left|]. split; [done|]. split; [done|]. split.
  { rewrite <- Hid. eapply print_record_converts; [done|by rewrite Hpayload|done]. }
  rewrite Hjob, Hpl. split_and!; [done|done|done|]. rewrite Hacc. cbn. by destruct metadata as [[m0]|].
Qed.
End Created.

(** ** What the agent does with a print *)

(** A member of the [print] section of a payload. *)
Definition print_member (name : string) (payload : json) : option json :=
  match payload with
  | Object sections =>
      match lookup_key "print" sections with
      | Some (Object members) => lookup_key name members
      | _ => None
      end
  | _ => None
  end.

(** The name of a file below the printer's directory. *)
Definition plain_name (name : string) : Prop :=
  str_forall (fun c => negb (is_path_separator c) && negb (is_ascii_control c)) name = true
  /\ (exists stem, stem <> EmptyString /\ name = stem +:+ ".gcode.3mf")
  /\ forall rest, name <> String "." rest /\ name <> String " " rest.

Lemma replace_controls_forall (p : ascii -> bool) s :
  p "_"%char = true -> (forall c, is_ascii_control c || is_path_separator c = false -> p c = true) ->
  str_forall p (replace_controls s) = true.
Proof.
  intros Hu Hc. induction s as [|a r IH1 IH2 _] using string_ind3; [done|]. cbn [replace_controls].
  destruct (is_ascii_control a || is_path_separator a) eqn:Ea; [cbn; by rewrite Hu|].
  destruct r as [|b r]; [cbn; by rewrite (Hc a Ea)|].
  destruct (byte_is 194 a && byte_in 128 159 b); [cbn; rewrite Hu; by apply (IH2 b)|].
  change (p a && str_forall p (replace_controls (String b r)) = true). by rewrite (Hc a Ea), IH1.
Qed.

Definition starts_plain (s : string) : Prop :=
  match s with String a _ => byte_is 46 a = false /\ byte_is 32 a = false | EmptyString => True end.

Lemma replace_controls_start s : starts_plain s -> starts_plain (replace_controls s).
Proof.
  destruct s as [|a r]; [done|]. intros Ha. cbn [replace_controls].
  destruct (is_ascii_control a || is_path_separator a); [done|].
  destruct r as [|b r]; [done|]. by destruct (byte_is 194 a && byte_in 128 159 b).
Qed.

Lemma str_rev_app s t : str_rev (s +:+ t) = str_rev t +:+ str_rev s.
Proof.
  unfold str_rev. assert (forall s t, String.list_ascii_of_string (s +:+ t)
    = (String.list_ascii_of_string s ++ String.list_ascii_of_string t)%list) as app.
  { intros a b. induction a as [|c a IH]; [done|]. change (String c a +:+ b) with (String c (a +:+ b)).
    cbn. by rewrite IH. }
  rewrite app, rev_app_distr. generalize (List.rev (String.list_ascii_of_string t)).
  intros l. induction l as [|c l IH]; [done|]. cbn [List.app String.string_of_list_ascii].
  by rewrite IH.
Qed.

(** Trimming at the end leaves a prefix. *)
Lemma trim_end_prefix p s : exists t, s = trim_end_chars p s +:+ t.
Proof.
  unfold trim_end_chars. assert (forall r, exists t, r = t +:+ trim_start_chars p r) as pre.
  { induction r as [|a r [t IH]]; [by exists EmptyString|]. cbn [trim_start_chars].
    destruct (p a); [|by exists EmptyString]. exists (String a t). by rewrite IH at 1. }
  destruct (pre (str_rev s)) as [t Et]. exists (str_rev t).
  rewrite <- str_rev_app, <- Et. by rewrite str_rev_involutive.
Qed.

Lemma trim_start_plain s :
  starts_plain (trim_start_chars (fun c => byte_is 46 c || is_path_separator c || byte_is 32 c) s).
Proof.
  induction s as [|a s IH]; [done|]. cbn [trim_start_chars]. destruct (_ || _) eqn:E; [done|].
  rewrite !orb_false_iff in E. cbn. tauto.
Qed.

Lemma prefix_plain s t : starts_plain (s +:+ t) -> starts_plain s.
Proof. by destruct s. Qed.

Lemma strip_suffix_app suffix s r : strip_suffix suffix s = Some r -> s = r +:+ suffix.
Proof.
  unfold strip_suffix. destruct (strip_prefix _ _) as [t|] eqn:E; [|done]. intros [= <-].
  rewrite strip_prefix_Some in E. change (_ ++ t)%string with (str_rev suffix +:+ t) in E.
  apply (f_equal str_rev) in E. by rewrite str_rev_app, !str_rev_involutive in E.
Qed.

Lemma str_forall_prefix p s t : str_forall p (s +:+ t) = true -> str_forall p s = true.
Proof. rewrite str_forall_app. by intros [E _]%andb_true_iff. Qed.

Lemma sanitized name :
  str_forall (fun c => negb (is_path_separator c) && negb (is_ascii_control c))
    (sanitize_remote_name name) = true
  /\ starts_plain (sanitize_remote_name name).
Proof.
  split.
  - apply replace_controls_forall; [done|]. intros c [-> ->]%orb_false_iff. done.
  - apply replace_controls_start. edestruct trim_end_prefix as [t Et].
    eapply prefix_plain. rewrite <- Et. apply trim_start_plain.
Qed.

Lemma stripped_prefix name : exists t, name = strip_3mf_extension name +:+ t.
Proof.
  unfold strip_3mf_extension. destruct (strip_suffix ".gcode.3mf" name) as [r|] eqn:E1.
  { exists ".gcode.3mf"%string. by apply strip_suffix_app. }
  destruct (strip_suffix ".3mf" name) as [r|] eqn:E2.
  { exists ".3mf"%string. by apply strip_suffix_app. }
  exists EmptyString. cbn. by rewrite append_nil_r.
Qed.

Lemma remote_name_plain filename : plain_name (pick_remote_name filename).
Proof.
  unfold pick_remote_name.
  destruct (sanitized (after_last is_path_separator filename)) as [Hall Hstart].
  set (name := sanitize_remote_name _) in *. destruct (stripped_prefix name) as [t Et].
  rewrite Et in Hall, Hstart. apply str_forall_prefix in Hall. apply prefix_plain in Hstart.
  set (stem := strip_3mf_extension name) in *. destruct (beq stem EmptyString) eqn:E.
  - split; [done|]. split; [by exists "print"%string|done].
  - rewrite beq_false in E. split; [by rewrite str_forall_app, Hall|]. split; [by exists stem|].
    destruct stem as [|a stem]; [done|]. destruct Hstart as [H1 H2].
    intros rest. split; intros [= -> _]; done.
Qed.

(** *** The message *)

Definition section_member (name : string) (p : ProjectFilePayloadPrint.t) : option json :=
  match sorted (Object (ProjectFilePayloadPrint.members p)) with
  | Object members => lookup_key name members
  | _ => None
  end.

Lemma section_members p :
  section_member "command" p = Some (Str "project_file")
  /\ section_member "sequence_id" p = Some (Str (ProjectFilePayloadPrint.sequence_id p))
  /\ section_member "task_id" p = Some (Str (ProjectFilePayloadPrint.task_id p))
  /\ section_member "file" p = Some (Str (ProjectFilePayloadPrint.file p))
  /\ section_member "url" p = Some (Str (ProjectFilePayloadPrint.url p))
  /\ section_member "md5" p = Some (Str (ProjectFilePayloadPrint.md5 p))
  /\ section_member "param" p = Some (Str (ProjectFilePayloadPrint.param p)).
Proof.
  destruct p as [? ? ? ? ? ? ? ? ? ? ? ? ? ? ? ? ? ? ? nozzles info ? ? ? ? manual].
  destruct nozzles, info, manual; vm_compute; split_and!; reflexivity.
Qed.

(** Signing keeps what is printed and from where. *)
Lemma print_member_signed `{SlicerKey} name p model :
  exists p', print_member name (maybe_sign_project_file_payload p model) = section_member name p'
    /\ (p' = p \/ p' = flip_nozzle_ids p).
Proof.
  unfold maybe_sign_project_file_payload. destruct (negb slicer_key); [exists p; by split; [|left]|].
  destruct (h2d_family model); destruct (sign_base64 _);
    first [exists (flip_nozzle_ids p); by split; [|right] | exists p; by split; [|left]].
Qed.

(** The members of a project file that say what is printed and from where. *)
Lemma project_file_members `{SlicerKey} sequence_id c payload :
  project_file_payload sequence_id c = Some payload ->
  print_member "command" payload = Some (Str "project_file")
  /\ print_member "sequence_id" payload = Some (Str sequence_id)
  /\ print_member "task_id" payload = Some (Str (dec (ProjectFileCommand.studio_submission_id c)))
  /\ print_member "file" payload = Some (Str (ProjectFileCommand.filename c))
  /\ print_member "url" payload
     = Some (Str (default ("ftp://" +:+ ProjectFileCommand.filename c) (ProjectFileCommand.url c)))
  /\ print_member "md5" payload = Some (Str (default EmptyString (ProjectFileCommand.md5 c)))
  /\ print_member "param" payload
     = Some (Str ("Metadata/plate_" +:+ dec (ProjectFileCommand.plate_id c) +:+ ".gcode")).
Proof.
  unfold project_file_payload. destruct (profile_id c) as [profile|]; [|done]. cbn [mbind option_bind].
  intros [= <-]. set (p := project_file_print sequence_id profile c).
  assert (forall q, q = p \/ q = flip_nozzle_ids p ->
    ProjectFilePayloadPrint.sequence_id q = sequence_id
    /\ ProjectFilePayloadPrint.task_id q = dec (ProjectFileCommand.studio_submission_id c)
    /\ ProjectFilePayloadPrint.file q = ProjectFileCommand.filename c
    /\ ProjectFilePayloadPrint.url q = default ("ftp://" +:+ ProjectFileCommand.filename c) (ProjectFileCommand.url c)
    /\ ProjectFilePayloadPrint.md5 q = default EmptyString (ProjectFileCommand.md5 c)
    /\ ProjectFilePayloadPrint.param q = "Metadata/plate_" +:+ dec (ProjectFileCommand.plate_id c) +:+ ".gcode") as Hq.
  { intros q [->| ->]; [done|]. unfold flip_nozzle_ids.
    by destruct (ProjectFilePayloadPrint.ams_mapping_info p). }
  split_and!; (edestruct print_member_signed as (q & -> & Q); apply Hq in Q;
    destruct (section_members q) as (? & ? & ? & ? & ? & ? & ?); destruct Q as (? & ? & ? & ? & ? & ?);
    congruence).
Qed.

Section PrintSafety.
Context `{ErrorText} `{FloatText} `{SlicerKey} `{MachineFileTransfer} `{Md5}.

(** What validation says of the source of the command. *)
Lemma validated_source command v :
  validate_print_project_file_command command = Some (Ok v) ->
  ValidatedPrintProjectFile.submission_source v <> Unspecified
  /\ PrintProjectFile.options command = Some (ValidatedPrintProjectFile.options v).
Proof.
  unfold validate_print_project_file_command.
  repeat (destruct (_ : bool); [done|]). destruct (context _ _) as [source|]; [|done].
  destruct (beq source Unspecified) eqn:Es; [done|]. rewrite beq_false in Es.
  destruct (PrintProjectFile.options command) as [o|]; [|done].
  destruct (source_fields source command o) as [fields|]; [|done]. cbn [mbind option_bind].
  intros [= E]. apply rbind_Ok in E as ([[task bed] mode] & _ & E).
  apply rbind_Ok in E as ([[a b] c] & _ & E). apply rbind_Ok in E as ([] & _ & E).
  destruct (negb _); [done|]. by injection E as <-.
Qed.

(** The unspecified source is refused before it is matched on. *)
Lemma validation_total command : validate_print_project_file_command command <> None.
Proof.
  unfold validate_print_project_file_command.
  repeat (destruct (_ : bool); [done|]). destruct (context _ _) as [source|]; [|done].
  destruct (beq source Unspecified) eqn:Es; [done|]. rewrite beq_false in Es.
  destruct (PrintProjectFile.options command) as [o|]; [|done]. by destruct source.
Qed.

(** The payload of an accepted print. *)
Lemma print_payload endpoint command v uploaded digest cell :
  validate_print_project_file_command command = Some (Ok v) ->
  exists payload,
    command_payload (BambuMqttCommand.ProjectFile (project_file_of endpoint command v uploaded digest)) cell
    = Some (BambuMqttCommandPayload.mk payload (Some (dec (current_sequence_id cell))), next_cell cell)
    /\ project_file_payload (dec (current_sequence_id cell))
         (project_file_of endpoint command v uploaded digest) = Some payload.
Proof.
  intros [Hs _]%validated_source. cbn [command_payload next_studio_sequence_id].
  unfold project_file_payload. destruct (profile_id _) as [profile|] eqn:E.
  - eexists. split; reflexivity.
  - unfold profile_id in E. cbn in E. by destruct (ValidatedPrintProjectFile.submission_source v).
Qed.

(** A dispatch that ends before the upload is done. *)
Ltac refused := cbn; split; [done|]; split; [apply remote_name_plain|by left].

(** C8: a print is started only after its file is on the printer: a dispatch never
    panics and publishes nothing or one message, and the message only if the command is
    valid, its calibrations are supported by the printer's model and the transfer took
    the whole artifact, under a plain name ending in [.gcode.3mf]; the message goes to
    the printer's request topic and names the command's task, the plate, the uploaded
    file and its MD5.  Over a working connection such a dispatch succeeds. *)
Theorem print_starts_after_upload (endpoint : PrintEndpoint.t) (command : PrintProjectFile.t)
    (artifact : list ascii) (s : Printing.t) :
  let '(s', r) := dispatch_print_project_file endpoint command artifact s in
  let sent_to := "device/" +:+ PrintEndpoint.serial endpoint +:+ "/request" in
  let path := pick_remote_name (PrintProjectFile.filename command) in
  r <> Err PrintPanicked /\ plain_name path
  /\ ((Link.published (Printing.link s') = Link.published (Printing.link s) /\ is_ok r = false)
      \/ exists v uploaded payload,
           validate_print_project_file_command command = Some (Ok v)
           /\ unsupported_calibration (PrintEndpoint.model endpoint) v = None
           /\ Printing.uploads s' = Printing.uploads s ++ [(path, artifact,
                PrintProjectFileOptions.try_emmc_print (ValidatedPrintProjectFile.options v))]
           /\ upload_print path artifact
                (PrintProjectFileOptions.try_emmc_print (ValidatedPrintProjectFile.options v)) = Ok uploaded
           /\ Link.published (Printing.link s') = Link.published (Printing.link s) ++ [(sent_to, payload)]
           /\ print_member "task_id" payload = Some (Str (dec (PrintProjectFile.studio_submission_id command)))
           /\ print_member "param" payload
              = Some (Str ("Metadata/plate_" +:+ dec (PrintProjectFile.plate_id command) +:+ ".gcode"))
           /\ print_member "file" payload = Some (Str (FileUploadResult.path uploaded))
           /\ print_member "url" payload = Some (Str (FileUploadResult.url uploaded))
           /\ print_member "md5" payload = Some (Str (md5_upper artifact))
           /\ (Link.faults (Printing.link s) = [] -> is_ok r = true)).
Proof.
  unfold dispatch_print_project_file. pose proof (validation_total command) as Hv.
  destruct (validate_print_project_file_command command) as [[v|e]|] eqn:Ev; [|refused|done].
  destruct (unsupported_calibration (PrintEndpoint.model endpoint) v) as [e|] eqn:Eu; [refused|].
  destruct (upload_print (pick_remote_name (PrintProjectFile.filename command)) artifact
    (PrintProjectFileOptions.try_emmc_print (ValidatedPrintProjectFile.options v)))
    as [uploaded|e] eqn:Ef; unfold upload, tbind; rewrite Ef; cbn [map_err]; [|refused].
  destruct (print_payload endpoint command v uploaded (md5_upper artifact)
    (Link.cell (Printing.link s)) Ev) as (payload & Ep & Em).
  destruct (project_file_members _ _ _ Em) as (_ & _ & Htask & Hfile & Hurl & Hmd5 & Hparam).
  destruct s as [l uploads]. cbn [Printing.link] in Ep. unfold on_link, payload_of.
  cbn [Printing.link Printing.uploads]. rewrite Ep. cbn [map_err BambuMqttCommandPayload.payload].
  unfold with_context, publish, log_publish, call_outcome, tbind.
  destruct l as [cell subs pubs faults windows].
  destruct faults as [|[e|] faults]; cbn [Link.faults Link.with_cell]; cbn;
    (split; [done|]); (split; [apply remote_name_plain|]); right;
    exists v, uploaded, payload; split_and!; done.
Qed.
End PrintSafety.
