(* ===== verification/CommandEvents.v ===== *)
(** * How the agent answers a command

    [commands.rs] of the agent with [commands/responses.rs], [operation_results.rs],
    [operations.rs], [print_project.rs], [refresh.rs], [diagnostics.rs], [link.rs] and
    [reload_connection.rs]: every command of the hub as the events it puts on the queue
    of the session.  The printers are behind an interface ([MachineGateway]). *)

From S2P Require Import Prelude RustStr RustFloat Json CoreTypes H2c DeviceFeatures PrinterOperation OperationWire ProjectFile MqttCommands OperationReports AgentOperations Tx PrintCommand PrintDispatch Redaction.

#[local] Open Scope Z_scope.
#[local] Open Scope rust_scope.
#[local] Open Scope tx_scope.

(** [serde_json::to_string] of a struct, given in declaration order. *)
Class ResultJson := { result_json_text : json -> string }.

(** ** Results ([operation_results.rs]) *)

Definition f64_value (x : float) : json := if is_finite x then Num (Float x) else Null.
Definition bool_value (b : bool) : json := Bool b.

Definition result_axis_name (axis : PrinterAxis.t) : string :=
  match axis with PrinterAxis.X => "x" | PrinterAxis.Y => "y" | PrinterAxis.Z => "z" end.

(** The fields of an operation in its result, in the order of
    [OperationResultFields]; absent fields are skipped. *)
Definition operation_result_fields (operation : PrinterOperation.t) : list (string * json) :=
  match operation with
  | PrinterOperation.SetPrintSpeed speed_mode => int_member "speed_mode" speed_mode
  | PrinterOperation.SetFanSpeed fan_index speed_percent airduct =>
      int_member "fan_index" fan_index ++ int_member "speed_percent" speed_percent
      ++ bool_member "airduct" airduct
  | PrinterOperation.SelectExtruder extruder_id => int_member "extruder_id" extruder_id
  | PrinterOperation.Home axes _ =>
      member "axes" (Array (map (fun axis => Str (result_axis_name axis)) axes))
  | PrinterOperation.MoveAxes movements feedrate_mm_per_min _ =>
      let '(x_mm, y_mm, z_mm) := OperationCommands.movement_axes movements in
      opt_member "x_mm" f64_value x_mm ++ opt_member "y_mm" f64_value y_mm
      ++ opt_member "z_mm" f64_value z_mm
      ++ opt_member "feedrate_mm_per_min" (fun f => f64_value (f64_of_Z f)) feedrate_mm_per_min
  | PrinterOperation.SetHotendTemperature temperature_celsius wait extruder_id =>
      opt_member "extruder_id" int_value extruder_id
      ++ int_member "temperature_celsius" temperature_celsius ++ bool_member "wait" wait
  | PrinterOperation.SetBedTemperature temperature_celsius wait
  | PrinterOperation.SetChamberTemperature temperature_celsius wait =>
      int_member "temperature_celsius" temperature_celsius ++ bool_member "wait" wait
  | PrinterOperation.SetChamberLight on => bool_member "light_on" on
  | PrinterOperation.AmsRereadRfid ams_id slot_id =>
      int_member "ams_id" ams_id ++ int_member "slot_id" slot_id
  | PrinterOperation.AmsStartDrying ams_id temperature_celsius duration_hours filament rotate_tray =>
      int_member "temperature_celsius" temperature_celsius ++ int_member "ams_id" ams_id
      ++ int_member "duration_hours" duration_hours ++ text_member "filament" filament
      ++ bool_member "rotate_tray" rotate_tray
  | PrinterOperation.AmsStopDrying ams_id => int_member "ams_id" ams_id
  | PrinterOperation.AmsLoadFilament ams_id slot_id global_tray_id external_id extruder_id
  | PrinterOperation.AmsUnloadFilament ams_id slot_id global_tray_id external_id extruder_id =>
      opt_member "extruder_id" int_value extruder_id
      ++ int_member "ams_id" ams_id ++ int_member "slot_id" slot_id
      ++ opt_member "global_tray_id" int_value global_tray_id
      ++ opt_member "external_id" Str external_id
  | PrinterOperation.NozzleHolderCtrl action => int_member "holder_action" action
  | PrinterOperation.NozzleInfoConfirm id | PrinterOperation.HolderNozzleRefresh id =>
      int_member "nozzle_id" id
  | PrinterOperation.Pause | PrinterOperation.Resume | PrinterOperation.Stop
  | PrinterOperation.HandlePrintError _ _ _ _ | PrinterOperation.ToggleLight
  | PrinterOperation.GcodeLine _ | PrinterOperation.GetAutoNozzleMapping _ => []
  end.

Definition operation_result (serial_number : string) (operation : PrinterOperation.t)
    (dispatch : PrinterOperationDispatchResult.t) : json :=
  let summary f := PrinterOperationDispatchResult.mqtt_summary dispatch ≫= f in
  let payload name (value : option json) := opt_member name id value in
  Object (text_member "type" "printer_operation"
    ++ text_member "action" (PrinterOperation.action operation)
    ++ text_member "serial_number" serial_number
    ++ opt_member "sequence_id" Str (PrinterOperationDispatchResult.sequence_id dispatch)
    ++ opt_member "mqtt_error" Str (PrinterOperationDispatchResult.error dispatch)
    ++ payload "mqtt_result" (summary PrinterOperationMqttSummary.result)
    ++ payload "mqtt_reason" (summary PrinterOperationMqttSummary.reason)
    ++ payload "mqtt_err_code" (summary PrinterOperationMqttSummary.err_code)
    ++ payload "mqtt_errno" (summary PrinterOperationMqttSummary.errno)
    ++ payload "mqtt_report" (PrinterOperationDispatchResult.mqtt_report dispatch)
    ++ operation_result_fields operation).

(** [PrintProjectFileResult]. *)
Definition print_result (command : PrintProjectFile.t) (dispatch : PrintProjectDispatchResult.t)
  : json :=
  Object (text_member "type" "print_project_file"
    ++ text_member "serial_number" (PrintProjectFile.serial_number command)
    ++ text_member "job_id" (PrintProjectFile.job_id command)
    ++ text_member "artifact_id" (PrintProjectFile.artifact_id command)
    ++ text_member "uploaded_path" (PrintProjectDispatchResult.uploaded_path dispatch)
    ++ text_member "uploaded_url" (PrintProjectDispatchResult.uploaded_url dispatch)
    ++ text_member "md5" (PrintProjectDispatchResult.md5 dispatch)
    ++ member "mqtt" (Object (
         text_member "topic" (PrintProjectDispatchResult.topic dispatch)
         ++ int_member "qos" (PrintProjectDispatchResult.qos dispatch)
         ++ member "payload" (PrintProjectDispatchResult.payload dispatch)))).

Definition phase_name (phase : PrintTransferPhase) : string :=
  match phase with
  | Connect => "connect" | Login => "login" | Protection => "protection"
  | DataConnection => "data_connection" | Write => "write" | Finalize => "finalize"
  | Verify => "verify" | Timeout => "timeout"
  end.

(** [PrintTransferFailure]. *)
Definition transfer_failure (phase : PrintTransferPhase) (cause : string) : json :=
  Object (text_member "phase" (phase_name phase) ++ text_member "cause" cause).

(** ** Events *)

Module AgentConfig.
Record t := mk { agent_id : string; tenant_id : string; hub_api_url : option string }.
End AgentConfig.

Module BambuPrinterEndpoint.
Record t := mk {
  host : string; serial : string; access_code : string; model : option string;
  name : option string }.
End BambuPrinterEndpoint.

(** What the events use of a [MachineSnapshot]. *)
Module MachineSnapshot.
Record t := mk { serial : string; name : string; model : option string; state : option string }.
End MachineSnapshot.

Module MaterialRefreshResult.
Record t := mk { serial : string; printer_id : option string; printer_materials_json : string }.
End MaterialRefreshResult.

Module PrinterRefreshResult.
Record t := mk { snapshot : MachineSnapshot.t; materials : option MaterialRefreshResult.t }.
End PrinterRefreshResult.

Module DiscoveredPrinter.
Record t := mk {
  serial_number : option string; host : string; name : option string; model : option string;
  source : string }.
End DiscoveredPrinter.

(** The [oneof event], as far as commands are answered with it; [RuntimeEvent] are the
    snapshots of features and firmware that a new printer connection starts with. *)
Module Event.
Inductive t :=
| CommandAck (command_id : string) (accepted : bool) (error : string)
| CommandResult (command_id : string) (success : bool) (error result_json : string)
| PrinterSnapshot (snapshot : MachineSnapshot.t) (connection_authoritative : bool)
| PrinterMaterialsSnapshot (serial printer_id printer_materials_json : string)
| RuntimeEvent (serial : string).
End Event.

Module AgentEvent.
Record t := mk { agent_id : string; tenant_id : string; event_id : string; event : Event.t }.
End AgentEvent.

(** The queue of the session: its events, and how many more it takes before its receiver
    is gone ([None]: it stays). *)
Module Queue.
Record t := mk { events : list AgentEvent.t; room : option nat }.
End Queue.

Section Events.
Context (config : AgentConfig.t).

(** [events.rs], [responses.rs]. *)
Definition event (event_id : string) (event : Event.t) : AgentEvent.t :=
  AgentEvent.mk (AgentConfig.agent_id config) (AgentConfig.tenant_id config) event_id event.

Definition command_ack_event (command_id : string) (accepted : bool) (error : string)
  : AgentEvent.t := event "ack" (Event.CommandAck command_id accepted error).
Definition ack_event (command_id : string) : AgentEvent.t :=
  command_ack_event command_id true EmptyString.
Definition rejected_ack_event (command_id error : string) : AgentEvent.t :=
  command_ack_event command_id false error.

Definition result_event (command_id : string) (success : bool) (error result_json : string)
  : AgentEvent.t :=
  event (if success then "success" else "failure")
    (Event.CommandResult command_id success error result_json).
Definition success_event (command_id : string) : AgentEvent.t :=
  result_event command_id true EmptyString EmptyString.
Definition success_event_with_result (command_id result_json : string) : AgentEvent.t :=
  result_event command_id true EmptyString result_json.
Definition failure_event (command_id error : string) : AgentEvent.t :=
  result_event command_id false error EmptyString.
Definition failure_event_with_result (command_id error result_json : string) : AgentEvent.t :=
  result_event command_id false error result_json.

Definition printer_snapshot_event (snapshot : MachineSnapshot.t) : AgentEvent.t :=
  event "printer-snapshot" (Event.PrinterSnapshot snapshot false).
Definition printer_materials_snapshot_event (materials : MaterialRefreshResult.t) : AgentEvent.t :=
  event ("printer-materials-" +:+ MaterialRefreshResult.serial materials)
    (Event.PrinterMaterialsSnapshot (MaterialRefreshResult.serial materials)
       (default EmptyString (MaterialRefreshResult.printer_id materials))
       (MaterialRefreshResult.printer_materials_json materials)).
End Events.

(** ** The printers *)

(** The machine gateway and the hub's HTTP interface, over the world [W]: what the
    handlers call.  [refresh_printers], [operate_printer] and [link_printer] also queue
    events of their own (features, firmware, the snapshot of a linked printer). *)
Class MachineGateway (W : Type) := {
  redact_error : W -> string -> string;
  discover_printers : Z -> tx W AnyError (list DiscoveredPrinter.t);
  discover_printer_at_host : string -> Z -> tx W AnyError (option DiscoveredPrinter.t);
  diagnose_printer : string -> tx W AnyError json;
  refresh_printers : tx (W * Queue.t) AnyError (list PrinterRefreshResult.t);
  refresh_printer_materials : string -> option string -> tx W AnyError MaterialRefreshResult.t;
  validate_printer : string -> tx W AnyError unit;
  validate_printer_endpoint_identity : BambuPrinterEndpoint.t -> tx W AnyError unit;
  operate_printer : string -> PrinterOperation.t
    -> tx (W * Queue.t) AnyError PrinterOperationDispatchResult.t;
  print_project_file : string -> PrintProjectFile.t -> list ascii
    -> tx W TransferError.t PrintProjectDispatchResult.t;
  link_printer : BambuPrinterEndpoint.t -> tx (W * Queue.t) AnyError MachineSnapshot.t;
  (** [link_failure_code] of the error [link_printer] returned. *)
  link_failure_code : W -> AnyError -> string;
  (** [ArtifactReader::read_artifact]; [fetch_saved_printer_connections]. *)
  read_artifact : string -> tx W AnyError (list ascii);
  fetch_saved_printer_connections : string -> tx W AnyError (list BambuPrinterEndpoint.t);
}.

Module ReloadPrinterConnection.
Record t := mk { printer_id : string; serial_number : string }.
End ReloadPrinterConnection.

Module LinkPrinter.
Record t := mk { printer_type : string; host : string; access_code : string; name : string }.
End LinkPrinter.

(** The commands of the hub: the queued ones, and those only sent live. *)
Inductive AgentCommand :=
| Queued (command : QueuedCommand.t)
| LiveLink (link : LinkPrinter.t)
| CameraStream
| Firmware.

Section Handlers.
Context {W : Type} `{MachineGateway W} `{ErrorText} `{ResultJson} (config : AgentConfig.t).

Definition handler (A : Type) : Type := tx (W * Queue.t) AnyError A.

(** [sender.send(event).await.context(..)]. *)
Definition send (message : string) (event : AgentEvent.t) : handler unit := fun s =>
  let '(w, q) := s in
  match Queue.room q with
  | Some O => (s, Err (message +:+ ": channel closed"))
  | Some (S n) => ((w, Queue.mk (Queue.events q ++ [event]) (Some n)), Ok tt)
  | None => ((w, Queue.mk (Queue.events q ++ [event]) None), Ok tt)
  end.

(** A call of the gateway whose error the handler deals with. *)
Definition try_machine {E A} (m : tx W E A) : handler (result E A) := fun s =>
  let '(w, r) := m (fst s) in ((w, snd s), Ok r).

(** The same for a call that may queue events. *)
Definition try_queueing {E A} (m : tx (W * Queue.t) E A) : handler (result E A) := fun s =>
  let '(s, r) := m s in (s, Ok r).

Definition redacted (message : AnyError) : handler string := fun s =>
  (s, Ok (redact_error (fst s) message)).

(** The failure of a command, with the redacted error. *)
Definition send_failure (message : string) (command_id : string) (error : AnyError) : handler unit :=
  error <~ redacted error ;; send message (failure_event config command_id error).

Definition reject_protocol_command (command_id reason : string) : handler unit :=
  send "queue command protocol-rejection ack" (rejected_ack_event config command_id reason).

(** ** Refreshes ([refresh.rs]) *)

Definition send_materials (materials : MaterialRefreshResult.t) : handler unit :=
  send "queue printer materials snapshot event" (printer_materials_snapshot_event config materials).

Fixpoint send_refreshes (results : list PrinterRefreshResult.t) : handler unit :=
  match results with
  | [] => tret tt
  | result :: results =>
      send "queue printer snapshot event"
        (printer_snapshot_event config (PrinterRefreshResult.snapshot result)) ~;;
      match PrinterRefreshResult.materials result with
      | Some materials => send_materials materials
      | None => tret tt
      end ~;;
      send_refreshes results
  end.

Definition emit_refresh_printers_events (command_id : string) : handler unit :=
  send "queue refresh-printers command ack" (ack_event config command_id) ~;;
  results <~ try_queueing refresh_printers ;;
  match results with
  | Ok results =>
      send_refreshes results ~;;
      send "queue refresh-printers command success" (success_event config command_id)
  | Err err => send_failure "queue refresh-printers command failure" command_id err
  end.

Definition emit_refresh_printer_materials_events (command_id printer_id serial_number : string)
  : handler unit :=
  send "queue refresh-printer-materials command ack" (ack_event config command_id) ~;;
  materials <~ try_machine (refresh_printer_materials serial_number (Some printer_id)) ;;
  match materials with
  | Ok materials =>
      send_materials materials ~;;
      send "queue refresh-printer-materials command success" (success_event config command_id)
  | Err err => send_failure "queue refresh-printer-materials command failure" command_id err
  end.

(** ** Diagnostics ([diagnostics.rs]) *)

Definition discovered_json (p : DiscoveredPrinter.t) : json :=
  Object (opt_member "serial_number" Str (DiscoveredPrinter.serial_number p)
    ++ text_member "host" (DiscoveredPrinter.host p)
    ++ opt_member "name" Str (DiscoveredPrinter.name p)
    ++ opt_member "model" Str (DiscoveredPrinter.model p)
    ++ text_member "source" (DiscoveredPrinter.source p)).

Definition discovery_json (printers : list DiscoveredPrinter.t) : json :=
  Object (text_member "type" "printer_discovery" ++ member "printers" (Array (map discovered_json printers))).

(** The common end of both: the serialized result or the failure. *)
Definition send_report (name : string) (command_id : string) (result : result AnyError json)
  : handler unit :=
  match result with
  | Ok report =>
      send ("queue " +:+ name +:+ " command success")
        (success_event_with_result config command_id (result_json_text report))
  | Err err => send_failure ("queue " +:+ name +:+ " command failure") command_id err
  end.

Definition emit_discover_events (command_id : string) (timeout_seconds : Z) : handler unit :=
  send "queue discover-printers command ack" (ack_event config command_id) ~;;
  printers <~ try_machine (discover_printers timeout_seconds) ;;
  send_report "discover-printers" command_id
    (context "run printer discovery" (printers <-? printers ;; Ok (discovery_json printers))).

Definition emit_diagnose_events (command_id serial_number : string) : handler unit :=
  send "queue diagnose-printer command ack" (ack_event config command_id) ~;;
  diagnostic <~ try_machine (diagnose_printer serial_number) ;;
  send_report "diagnose-printer" command_id (context "run printer diagnostic" diagnostic).

(** ** Printer operations ([operations.rs]) *)

Definition refresh_materials_after_operation (operation : PrinterOperation.t) : bool :=
  match operation with
  | PrinterOperation.AmsRereadRfid _ _ | PrinterOperation.AmsLoadFilament _ _ _ _ _
  | PrinterOperation.AmsUnloadFilament _ _ _ _ _ | PrinterOperation.AmsStartDrying _ _ _ _ _
  | PrinterOperation.AmsStopDrying _ => true
  | _ => false
  end.

Definition finish_operation (command_id serial_number : string) (operation : PrinterOperation.t)
    (dispatch : PrinterOperationDispatchResult.t) : handler unit :=
  let result_json := result_json_text (operation_result serial_number operation dispatch) in
  match PrinterOperationDispatchResult.error dispatch with
  | Some error =>
      send "queue printer-operation command failure"
        (failure_event_with_result config command_id error result_json)
  | None =>
      send "queue printer-operation command success"
        (success_event_with_result config command_id result_json)
  end.

Definition run_operation (command_id serial_number : string) (operation : PrinterOperation.t)
  : handler unit :=
  let action := PrinterOperation.action operation in
  let failure := "queue printer-operation command failure"%string in
  dispatch <~ try_queueing (operate_printer serial_number operation) ;;
  match dispatch with
  | Err err =>
      send_failure failure command_id
        ("dispatch printer operation " +:+ action +:+ " to " +:+ serial_number +:+ ": " +:+ err)
  | Ok dispatch =>
      if refresh_materials_after_operation operation then
        materials <~ try_machine (refresh_printer_materials serial_number None) ;;
        match materials with
        | Ok materials =>
            send_materials materials ~;;
            finish_operation command_id serial_number operation dispatch
        | Err err =>
            send_failure failure command_id
              ("refresh printer materials after " +:+ action +:+ " for " +:+ serial_number +:+ ": " +:+ err)
        end
      else finish_operation command_id serial_number operation dispatch
  end.

Definition emit_operation_events (command_id : string) (command : ProtoPrinterOperation.t)
  : handler unit :=
  match parse_printer_operation command with
  | Err err => reject_protocol_command command_id err
  | Ok operation =>
      let serial_number := ProtoPrinterOperation.serial_number command in
      valid <~ try_machine (validate_printer serial_number) ;;
      match valid with
      | Err err =>
          error <~ redacted err ;;
          send "queue printer-operation rejected ack" (rejected_ack_event config command_id error)
      | Ok _ =>
          send "queue printer-operation command ack" (ack_event config command_id) ~;;
          run_operation command_id serial_number operation
      end
  end.
(** ** Prints ([print_project.rs]) *)

(** Reading the artifact and the dispatch: an error with the phase of its chain. *)
Definition run_print (command : PrintProjectFile.t)
  : handler (result TransferError.t PrintProjectDispatchResult.t) :=
  artifact <~ try_machine (read_artifact (PrintProjectFile.artifact_download_path command)) ;;
  match context "read print artifact from hub" artifact with
  | Err err => tret (Err (TransferError.mk err None))
  | Ok artifact =>
      dispatch <~ try_machine
        (print_project_file (PrintProjectFile.serial_number command) command artifact) ;;
      tret (map_err (fun e => TransferError.mk
        ("dispatch print job " +:+ PrintProjectFile.job_id command +:+ ": " +:+ TransferError.text e)
        (TransferError.phase e)) dispatch)
  end.

Definition print_failure_event (command_id error : string) (phase : option PrintTransferPhase)
  : AgentEvent.t :=
  match phase with
  | Some phase =>
      failure_event_with_result config command_id error
        (result_json_text (transfer_failure phase error))
  | None => failure_event config command_id error
  end.

Definition finish_print (command_id : string) (command : PrintProjectFile.t) : handler unit :=
  result <~ run_print command ;;
  match result with
  | Ok dispatch =>
      send "queue print-project-file command success"
        (success_event_with_result config command_id
           (result_json_text (print_result command dispatch)))
  | Err err =>
      error <~ redacted (TransferError.text err) ;;
      send "queue print-project-file command failure"
        (print_failure_event command_id error (TransferError.phase err))
  end.

(** The validation never panics ([validation_total]); the first arm only closes the match. *)
Definition emit_print_project_file_events_with_reader (command_id : string)
    (command : PrintProjectFile.t) : handler unit :=
  match validate_print_project_file_command command with
  | None => tfail "unreachable"%string
  | Some (Err err) =>
      error <~ redacted ("validate print-project-file command: " +:+ err) ;;
      send "queue invalid print-project-file rejected ack" (rejected_ack_event config command_id error)
  | Some (Ok _) =>
      valid <~ try_machine (validate_printer (PrintProjectFile.serial_number command)) ;;
      match valid with
      | Err err =>
          error <~ redacted err ;;
          send "queue print-project-file rejected ack" (rejected_ack_event config command_id error)
      | Ok _ =>
          send "queue print-project-file command ack" (ack_event config command_id) ~;;
          finish_print command_id command
      end
  end.

(** ** Linking a printer ([link.rs]) *)

Definition non_blank_string (value : string) : option string :=
  if blank value then None else Some (trim value).

Definition endpoint_from_discovered_printer (host access_code name : string)
    (printer : DiscoveredPrinter.t) : result AnyError BambuPrinterEndpoint.t :=
  serial <-? ok_or (non_blank_string (default EmptyString (DiscoveredPrinter.serial_number printer)))
    ("printer serial could not be discovered for " +:+ host) ;;
  Ok (BambuPrinterEndpoint.mk host serial access_code
        (DiscoveredPrinter.model printer ≫= non_blank_string) (non_blank_string name)).

Definition discover_directly (host access_code name : string)
  : handler (result AnyError BambuPrinterEndpoint.t) :=
  printer <~ try_machine (discover_printer_at_host host 3) ;;
  tret (printer <-? context ("discover Bambu printer directly at " +:+ host) printer ;;
        printer <-? ok_or printer ("could not discover printer at " +:+ host) ;;
        endpoint_from_discovered_printer host access_code name printer).

Definition discover_link_printer_endpoint (host access_code name : string)
  : handler (result AnyError BambuPrinterEndpoint.t) :=
  discovery <~ try_machine (discover_printers 3) ;;
  match context ("discover Bambu printer at " +:+ host) discovery with
  | Err err => tret (Err err)
  | Ok printers =>
      match List.find (fun p => beq (trim (DiscoveredPrinter.host p)) host) printers with
      | Some printer => tret (endpoint_from_discovered_printer host access_code name printer)
      | None => discover_directly host access_code name
      end
  end.

Definition without_access_code (access_code redacted : string) : string :=
  if beq access_code EmptyString then redacted
  else str_replace access_code "[REDACTED_ACCESS_CODE]" redacted.

Definition redact_link_error (message : AnyError) (access_code : string) : handler string :=
  error <~ redacted message ;; tret (without_access_code access_code error).

Definition printer_link_failure (error_code : string) : json :=
  Object (text_member "type" "printer_link_error" ++ text_member "error_code" error_code).

Definition printer_link_result (endpoint : BambuPrinterEndpoint.t) (snapshot : MachineSnapshot.t)
  : json :=
  Object (text_member "type" "printer_link"
    ++ text_member "serial_number" (MachineSnapshot.serial snapshot)
    ++ text_member "host" (BambuPrinterEndpoint.host endpoint)
    ++ text_member "name" (MachineSnapshot.name snapshot)
    ++ opt_member "model" Str (MachineSnapshot.model snapshot)
    ++ opt_member "status" Str (MachineSnapshot.state snapshot)).

Definition link_failure_event (command_id error error_code : string) : AgentEvent.t :=
  failure_event_with_result config command_id error
    (result_json_text (printer_link_failure error_code)).

Definition finish_link (command_id : string) (endpoint : BambuPrinterEndpoint.t) : handler unit :=
  snapshot <~ try_queueing (link_printer endpoint) ;;
  match snapshot with
  | Ok snapshot =>
      send "queue link-printer command success"
        (success_event_with_result config command_id
           (result_json_text (printer_link_result endpoint snapshot)))
  | Err err =>
      error_code <~ (fun s => (s, Ok (link_failure_code (fst s) err))) ;;
      error <~ redact_link_error err (BambuPrinterEndpoint.access_code endpoint) ;;
      send "queue link-printer command failure" (link_failure_event command_id error error_code)
  end.

Definition emit_link_printer_events (command_id : string) (command : LinkPrinter.t)
  : handler unit :=
  send "queue link-printer command ack" (ack_event config command_id) ~;;
  let access_code := LinkPrinter.access_code command in
  let printer_type := trim (LinkPrinter.printer_type command) in
  if negb (beq printer_type "BambuLab") then
    send "queue link-printer unsupported type failure"
      (link_failure_event command_id ("unsupported printer type " +:+ printer_type)
         "unsupported_printer_type")
  else
    endpoint <~ discover_link_printer_endpoint (trim (LinkPrinter.host command)) access_code
      (LinkPrinter.name command) ;;
    match endpoint with
    | Ok endpoint => finish_link command_id endpoint
    | Err err =>
        error <~ redact_link_error err access_code ;;
        send "queue link-printer discovery failure"
          (link_failure_event command_id error "printer_not_found")
    end.

(** ** Reloading a saved connection ([reload_connection.rs]) *)

(** An error with the access code to hide from it. *)
Definition saved_endpoint (serial_number : string)
  : handler (result AnyError BambuPrinterEndpoint.t) :=
  let hub_api_url := trim (default EmptyString (AgentConfig.hub_api_url config)) in
  if beq hub_api_url EmptyString
  then tret (bail "PANDAR_HUB_API_URL is required to reload printer connections")
  else
    endpoints <~ try_machine (fetch_saved_printer_connections hub_api_url) ;;
    tret (endpoints <-? context "reload saved printer connections from pandar-hub" endpoints ;;
          ok_or (List.find (fun e => beq (BambuPrinterEndpoint.serial e) serial_number) endpoints)
            ("saved printer connection " +:+ serial_number
             +:+ " is no longer assigned to this agent")).

Definition reload_printer_connection (command : ReloadPrinterConnection.t)
  : handler (result (AnyError * option string) BambuPrinterEndpoint.t) :=
  endpoint <~ saved_endpoint (ReloadPrinterConnection.serial_number command) ;;
  match endpoint with
  | Err err => tret (Err (err, None))
  | Ok endpoint =>
      let with_code message r :=
        map_err (fun e : AnyError => (e, Some (BambuPrinterEndpoint.access_code endpoint)))
          (context message r) in
      identity <~ try_machine (validate_printer_endpoint_identity endpoint) ;;
      match with_code "validate reloaded printer endpoint identity"%string identity with
      | Err err => tret (Err err)
      | Ok _ =>
          linked <~ try_queueing (link_printer endpoint) ;;
          tret (match context "replace runtime printer connection" linked with
                | Ok _ => Ok endpoint
                | Err e => Err (e, Some (BambuPrinterEndpoint.access_code endpoint))
                end)
      end
  end.

Definition connection_reload_result (printer_id : string) (endpoint : BambuPrinterEndpoint.t)
  : json :=
  Object (text_member "type" "printer_connection_reload" ++ text_member "printer_id" printer_id
    ++ text_member "serial_number" (BambuPrinterEndpoint.serial endpoint)
    ++ text_member "host" (BambuPrinterEndpoint.host endpoint)).

Definition redact_reload_error (message : AnyError) (access_code : option string)
  : handler string :=
  redact_link_error message (default EmptyString access_code).

Definition emit_reload_printer_connection_events (command_id : string)
    (command : ReloadPrinterConnection.t) : handler unit :=
  send "queue reload-printer-connection command ack" (ack_event config command_id) ~;;
  result <~ reload_printer_connection command ;;
  match result with
  | Ok endpoint =>
      send "queue reload-printer-connection command success"
        (success_event_with_result config command_id
           (result_json_text
              (connection_reload_result (ReloadPrinterConnection.printer_id command) endpoint)))
  | Err (err, access_code) =>
      error <~ redact_reload_error err access_code ;;
      send "queue reload-printer-connection command failure" (failure_event config command_id error)
  end.

(** ** The dispatch ([commands.rs]) *)

Definition handle_command_with_reader (command_id : string) (command : option AgentCommand)
  : handler unit :=
  match command with
  | Some (Queued QueuedCommand.RefreshPrinters) => emit_refresh_printers_events command_id
  | Some (Queued (QueuedCommand.RefreshPrinterMaterials printer_id serial_number)) =>
      emit_refresh_printer_materials_events command_id printer_id serial_number
  | Some (Queued (QueuedCommand.PrintProjectFile print)) =>
      emit_print_project_file_events_with_reader command_id print
  | Some (Queued (QueuedCommand.DiscoverPrinters timeout_seconds)) =>
      emit_discover_events command_id timeout_seconds
  | Some (Queued (QueuedCommand.DiagnosePrinter serial_number)) =>
      emit_diagnose_events command_id serial_number
  | Some (Queued (QueuedCommand.PrinterOperation operation)) =>
      emit_operation_events command_id operation
  | Some (LiveLink link) => emit_link_printer_events command_id link
  | Some (Queued (QueuedCommand.ReloadPrinterConnection printer_id serial_number)) =>
      emit_reload_printer_connection_events command_id
        (ReloadPrinterConnection.mk printer_id serial_number)
  | Some CameraStream => tret tt
  | Some Firmware => tfail "firmware command was misrouted to non-firmware worker"%string
  | None => reject_protocol_command command_id "hub command is missing its command payload"
  end.
End Handlers.
