(* ===== verification/CommandAnswers.v ===== *)
(** * Every command is answered

    The command worker of the agent answers a command of the hub with a rejection alone,
    or with an acknowledgement, snapshots of printers, and exactly one result; it stops
    short of that only when the session's queue is gone.  Camera and firmware commands
    have workers of their own, and this one does not answer them. *)

From S2P Require Import Prelude RustStr RustFloat Json CoreTypes PrinterOperation OperationWire AgentOperations Tx PrintCommand PrintDispatch PrintPipeline CommandEvents.

#[local] Open Scope rust_scope.
#[local] Open Scope tx_scope.

(** ** What the events of a command may be *)

Section Answers.
Context (config : AgentConfig.t) (command_id : string).
(** What the result of the command may say: its success, error and JSON. *)
Context (shape : bool -> string -> string -> Prop).

(** Events that answer no command. *)
Definition informational (e : AgentEvent.t) : Prop :=
  match AgentEvent.event e with
  | Event.CommandAck _ _ _ | Event.CommandResult _ _ _ _ => False
  | _ => True
  end.

Definition result_of_command (e : AgentEvent.t) : Prop :=
  exists success error result_json, e = result_event config command_id success error result_json
    /\ shape success error result_json.

(** Snapshots and one result, the last event. *)
Definition finished (events : list AgentEvent.t) : Prop :=
  exists infos result, events = infos ++ [result] /\ Forall informational infos
    /\ result_of_command result.

Definition settled_by (events : list AgentEvent.t) : Prop :=
  (exists error, events = [rejected_ack_event config command_id error])
  \/ exists rest, events = ack_event config command_id :: rest /\ finished rest.

(** What a broken queue cut short. *)
Definition begun (events : list AgentEvent.t) : Prop :=
  events = [] \/ exists infos, events = ack_event config command_id :: infos
    /\ Forall informational infos.

(** [h] queues events of [done] when it returns, of [cut] when its queue broke, and its
    queue only breaks when it has a limit. *)
Definition emits {W A} (done cut : list AgentEvent.t -> Prop) (h : handler (W := W) A) : Prop :=
  forall w q w' q' r, h (w, q) = ((w', q'), r) ->
    exists events, Queue.events q' = Queue.events q ++ events
      /\ (Queue.room q = None -> Queue.room q' = None /\ exists a, r = Ok a)
      /\ match r with Ok _ => done events | Err _ => cut events end.

Definition nothing (events : list AgentEvent.t) : Prop := events = [].
Definition all_informational : list AgentEvent.t -> Prop := Forall informational.

(** The three kinds of code of a handler: silent, informing, and the end of a command. *)
Definition silent {W A} : handler (W := W) A -> Prop := emits nothing nothing.
Definition informs {W A} : handler (W := W) A -> Prop := emits all_informational all_informational.
Definition finishes {W A} : handler (W := W) A -> Prop := emits finished all_informational.
Definition answers {W A} : handler (W := W) A -> Prop := emits settled_by begun.

(** ** Rules *)

Lemma emits_bind {W A B} (first done cut done' cut' : list AgentEvent.t -> Prop)
    (m : handler (W := W) A) (k : A -> handler B) :
  emits first cut' m -> (forall a, emits done cut (k a)) ->
  (forall e1 e2, first e1 -> done e2 -> done' (e1 ++ e2)) ->
  (forall e1 e2, first e1 -> cut e2 -> cut' (e1 ++ e2)) ->
  emits done' cut' (tbind m k).
Proof.
  intros Hm Hk Hdone Hcut w q w' q' r. unfold tbind. destruct (m (w, q)) as [[w1 q1] [a|e]] eqn:E.
  - intros E2. destruct (Hm _ _ _ _ _ E) as (e1 & Hq1 & Hroom1 & H1).
    destruct (Hk a _ _ _ _ _ E2) as (e2 & Hq2 & Hroom2 & H2).
    exists (e1 ++ e2). split; [by rewrite Hq2, Hq1, app_assoc|]. split.
    + intros Hq. apply Hroom2, Hroom1, Hq.
    + destruct r; [by apply Hdone|by apply Hcut].
  - intros [= <- <- <-]. destruct (Hm _ _ _ _ _ E) as (e1 & Hq1 & Hroom1 & H1).
    exists e1. split; [done|]. split; [|done]. intros Hq. by destruct (Hroom1 Hq) as (_ & a & [=]).
Qed.

Lemma emits_weaken {W A} (done cut done' cut' : list AgentEvent.t -> Prop) (m : handler (W := W) A) :
  emits done cut m -> (forall e, done e -> done' e) -> (forall e, cut e -> cut' e) -> emits done' cut' m.
Proof.
  intros Hm Hdone Hcut w q w' q' r E. destruct (Hm _ _ _ _ _ E) as (e & ? & ? & He).
  exists e. repeat split; try apply H0; auto. destruct r; auto.
Qed.

Lemma emits_send {W} (done cut : list AgentEvent.t -> Prop) message e :
  done [e] -> cut [] -> emits (W := W) done cut (send message e).
Proof.
  intros Hdone Hcut w q w' q' r. unfold send. destruct (Queue.room q) as [[|n]|] eqn:Hq.
  - intros [= <- <- <-]. exists []. rewrite app_nil_r. by repeat split.
  - intros [= <- <- <-]. exists [e]. by repeat split.
  - intros [= <- <- <-]. exists [e]. repeat split; eauto.
Qed.

Lemma silent_read {W A} (f : W * Queue.t -> A) : silent (fun s => (s, Ok (f s))).
Proof. intros w q w' q' r [= <- <- <-]. exists []. rewrite app_nil_r. repeat split; eauto. Qed.

Lemma silent_ret {W A} (a : A) : silent (W := W) (tret a).
Proof. intros w q w' q' r [= <- <- <-]. exists []. rewrite app_nil_r. repeat split; eauto. Qed.

Lemma silent_machine {W E A} (m : tx W E A) : silent (try_machine m).
Proof.
  intros w q w' q' r. unfold try_machine; simpl. destruct (m w) as [w1 r1]. intros [= <- <- <-].
  exists []. rewrite app_nil_r. repeat split; eauto.
Qed.

Lemma silent_bind {W A B} (m : handler (W := W) A) (k : A -> handler B) :
  silent m -> (forall a, silent (k a)) -> silent (tbind m k).
Proof. intros Hm Hk. by apply (emits_bind nothing nothing nothing nothing nothing m k Hm Hk); intros ? ? -> ->. Qed.

Lemma emits_silent_bind {W A B} done cut (m : handler (W := W) A) (k : A -> handler B) :
  cut [] -> silent m -> (forall a, emits done cut (k a)) -> emits done cut (tbind m k).
Proof.
  intros Hcut Hm Hk. apply (emits_bind nothing done cut done cut m k); [|exact Hk|by intros ? ? ->..].
  eapply emits_weaken; [exact Hm|done|by intros ? ->].
Qed.

Lemma informs_silent {W A} (m : handler (W := W) A) : silent m -> informs m.
Proof. intros Hm. eapply emits_weaken; [exact Hm|by intros ? ->; constructor..]. Qed.

Lemma informs_send {W} message e : informational e -> informs (W := W) (send message e).
Proof. intros He. apply emits_send; [by repeat constructor|constructor]. Qed.

Lemma informs_bind {W A B} (m : handler (W := W) A) (k : A -> handler B) :
  informs m -> (forall a, informs (k a)) -> informs (tbind m k).
Proof.
  intros Hm Hk. apply (emits_bind _ _ _ _ _ _ _ Hm Hk); intros e1 e2 H1 H2; by apply Forall_app.
Qed.

Lemma finishes_send {W} message e : result_of_command e -> finishes (W := W) (send message e).
Proof. intros He. apply emits_send; [|constructor]. exists [], e. repeat split; [constructor|done]. Qed.

Lemma finishes_bind {W A B} (m : handler (W := W) A) (k : A -> handler B) :
  informs m -> (forall a, finishes (k a)) -> finishes (tbind m k).
Proof.
  intros Hm Hk. apply (emits_bind _ _ _ _ _ _ _ Hm Hk).
  - intros e1 e2 H1 (infos & result & -> & H2 & H3). exists (e1 ++ infos), result.
    rewrite app_assoc. repeat split; [by apply Forall_app|done].
  - intros e1 e2 H1 H2. by apply Forall_app.
Qed.

Lemma answers_rejection {W} message error :
  answers (W := W) (send message (rejected_ack_event config command_id error)).
Proof. apply emits_send; [left; by eexists|by left]. Qed.

Lemma answers_silent_bind {W A B} (m : handler (W := W) A) (k : A -> handler B) :
  silent m -> (forall a, answers (k a)) -> answers (tbind m k).
Proof. apply emits_silent_bind. by left. Qed.

Lemma answers_ack {W B} message (k : unit -> handler (W := W) B) :
  (forall a, finishes (k a)) ->
  answers (tbind (send message (ack_event config command_id)) k).
Proof.
  intros Hk. refine (emits_bind (fun e => e = [ack_event config command_id]) _ _ _ _ _ _ _ Hk _ _).
  - apply emits_send; [done|by left].
  - intros ? e2 -> H2. right. by exists e2.
  - intros ? e2 -> H2. right. by exists e2.
Qed.
End Answers.

(** The calls of the gateway that queue events only queue snapshots of printers, of
    features and of firmware, and fail when the queue does. *)
Class GatewayInforms (W : Type) `{MachineGateway W} := {
  refresh_informs : informs (try_queueing refresh_printers);
  operate_informs serial operation : informs (try_queueing (operate_printer serial operation));
  link_informs endpoint : informs (try_queueing (link_printer endpoint));
}.

(** Takes a handler apart along its structure. *)
Create HintDb answers.
#[export] Hint Resolve silent_ret silent_read silent_machine silent_bind informs_send
  informs_silent finishes_send answers_rejection refresh_informs operate_informs link_informs
  : answers.

Section Handlers.
Context {W : Type} `{GatewayInforms W} `{ErrorText} `{ResultJson}.
Context (config : AgentConfig.t) (id : string).

Definition any_result (success : bool) (error result_json : string) : Prop := True.

(** A failed print has no JSON, or the phase of the transfer it failed in. *)
Inductive print_shape : bool -> string -> string -> Prop :=
| print_success error result_json : print_shape true error result_json
| print_failure error : print_shape false error EmptyString
| print_transfer phase error :
    print_shape false error (result_json_text (transfer_failure phase error)).

Ltac by_cases :=
  match goal with |- context [match ?x with _ => _ end] => destruct x end.

(** The snapshots of a handler are informational, its results results of the command. *)
Ltac informing :=
  repeat first
    [ apply informs_bind; [|intros ?] | apply informs_send; exact I
    | solve [auto 3 with answers] | by_cases ].
Ltac finish :=
  repeat first
    [ solve [auto with answers]
    | apply finishes_send; by (do 3 eexists; split; [reflexivity|])
    | apply finishes_bind; [solve [informing]|intros ?]
    | by_cases ].

Lemma informs_refreshes results : informs (W := W) (send_refreshes config results).
Proof. induction results; simpl; informing. Qed.

Lemma informs_materials materials : informs (W := W) (send_materials config materials).
Proof. by apply informs_send. Qed.

Lemma finishes_failure message error : finishes config id any_result (W := W) (send_failure config message id error).
Proof. unfold send_failure, redacted. finish. Qed.

Lemma finishes_report name result : finishes config id any_result (W := W) (send_report config name id result).
Proof. destruct result; simpl; [finish|apply finishes_failure]. Qed.

#[local] Hint Resolve informs_refreshes informs_materials : answers.
#[local] Hint Resolve finishes_failure finishes_report : answers.

Lemma answers_refresh : answers config id any_result (W := W) (emit_refresh_printers_events config id).
Proof. apply answers_ack. intros _. finish. Qed.

Lemma answers_refresh_materials printer_id serial :
  answers config id any_result (W := W) (emit_refresh_printer_materials_events config id printer_id serial).
Proof. apply answers_ack. intros _. finish. Qed.

Lemma answers_discover timeout : answers config id any_result (W := W) (emit_discover_events config id timeout).
Proof. apply answers_ack. intros _. finish. Qed.

Lemma answers_diagnose serial : answers config id any_result (W := W) (emit_diagnose_events config id serial).
Proof. apply answers_ack. intros _. finish. Qed.

Lemma finishes_operation serial operation :
  finishes config id any_result (W := W) (run_operation config id serial operation).
Proof. unfold run_operation, finish_operation. finish. Qed.

Lemma answers_operation command :
  answers config id any_result (W := W) (emit_operation_events config id command).
Proof.
  unfold emit_operation_events, reject_protocol_command.
  destruct (parse_printer_operation command) as [operation|err]; [|apply answers_rejection].
  apply answers_silent_bind; [auto with answers|intros [?|err]].
  - apply answers_ack. intros _. apply finishes_operation.
  - apply answers_silent_bind; [apply silent_read|intros ?]. apply answers_rejection.
Qed.

Lemma finishes_print command : finishes config id print_shape (W := W) (finish_print config id command).
Proof.
  unfold finish_print, run_print, print_failure_event, redacted.
  repeat first
    [ apply finishes_send; do 3 eexists; split; [reflexivity|by eauto using print_shape]
    | apply finishes_bind; [solve [informing]|intros ?]
    | by_cases ].
Qed.

Lemma answers_print command :
  answers config id print_shape (W := W) (emit_print_project_file_events_with_reader config id command).
Proof.
  unfold emit_print_project_file_events_with_reader. pose proof (validation_total command) as Hv.
  destruct (validate_print_project_file_command command) as [[v|err]|]; [| |done].
  - apply answers_silent_bind; [auto with answers|intros [?|err]].
    + apply answers_ack. intros _. apply finishes_print.
    + apply answers_silent_bind; [apply silent_read|intros ?]. apply answers_rejection.
  - apply answers_silent_bind; [apply silent_read|intros ?]. apply answers_rejection.
Qed.

Lemma answers_link command : answers config id any_result (W := W) (emit_link_printer_events config id command).
Proof.
  apply answers_ack. intros _.
  unfold finish_link, redact_link_error, redacted, discover_link_printer_endpoint, discover_directly.
  finish.
Qed.

Lemma answers_reload command :
  answers config id any_result (W := W) (emit_reload_printer_connection_events config id command).
Proof.
  apply answers_ack. intros _.
  unfold reload_printer_connection, saved_endpoint, redact_reload_error, redact_link_error, redacted.
  finish.
Qed.

(** The commands this worker answers: not the camera and the firmware, which have workers
    of their own. *)
Definition answered_here (command : option AgentCommand) : Prop :=
  match command with Some CameraStream | Some Firmware => False | _ => True end.

#[export] Instance answered_here_dec command : Decision (answered_here command).
Proof. destruct command as [[]|]; apply _. Defined.

(** An answer with the two outcomes of a handler told apart. *)
Lemma answer_of_result (shape : bool -> string -> string -> Prop) (limited limited' : Prop)
    (r : result AnyError unit) (events : list AgentEvent.t) :
  (limited -> limited' /\ exists a, r = Ok a) ->
  match r with Ok _ => settled_by config id shape events | Err _ => begun config id events end ->
  (r = Ok tt -> settled_by config id shape events) /\ (r <> Ok tt -> begun config id events)
  /\ (limited -> limited' /\ r = Ok tt).
Proof.
  intros Hroom Hr. destruct r as [[]|e].
  - split_and!; [done|by intros []|]. intros Hl. by split; [apply Hroom|].
  - split_and!; [done|done|]. intros Hl. by destruct (Hroom Hl) as (_ & u & [=]).
Qed.

Definition result_shape (command : option AgentCommand) : bool -> string -> string -> Prop :=
  match command with
  | Some (Queued (QueuedCommand.PrintProjectFile _)) => print_shape
  | _ => any_result
  end.

Lemma handler_answers command : answered_here command ->
  answers config id (result_shape command) (W := W) (handle_command_with_reader config id command).
Proof.
  destruct command as [[[| | | | | |]| | |]|]; try done; intros _; simpl.
  - apply answers_refresh.
  - apply answers_discover.
  - apply answers_diagnose.
  - apply answers_refresh_materials.
  - apply answers_reload.
  - apply answers_operation.
  - apply answers_print.
  - apply answers_link.
  - apply answers_rejection.
Qed.
End Handlers.

(** C6: the handler of the agent's command worker answers a command exactly once, the
    camera and firmware commands excepted, which other workers serve.  For every other
    command, and for a message without one, when the handler returns, the events it queued
    are one rejection alone, or the acknowledgement, then snapshots only, then one result,
    all carrying the command's id; if it fails, the events are the beginning of such an
    answer, without a result; and it cannot fail while the queue of the session takes
    events, whatever the printers, the artifact store and the hub's HTTP interface
    answered.  A camera command is passed over, without an answer, a firmware command is an
    error of the worker; neither touches the printers or queues an event. *)
Theorem command_answered {W : Type} `{GatewayInforms W} `{ErrorText} `{ResultJson}
    (config : AgentConfig.t) (id : string) (command : option AgentCommand) (w w' : W)
    (q q' : Queue.t) (r : result AnyError unit)
    (Hrun : handle_command_with_reader config id command (w, q) = ((w', q'), r)) :
  match command with
  | Some CameraStream => w' = w /\ q' = q /\ r = Ok tt
  | Some Firmware => w' = w /\ q' = q /\ exists e, r = Err e
  | _ =>
      exists events, Queue.events q' = Queue.events q ++ events
        /\ (r = Ok tt -> settled_by config id (result_shape command) events)
        /\ (r <> Ok tt -> begun config id events)
        /\ (Queue.room q = None -> Queue.room q' = None /\ r = Ok tt)
  end.
Proof.
  destruct (decide (answered_here command)) as [Hc|Hc].
  - destruct (handler_answers config id command Hc w q w' q' r Hrun) as (events & Hq & Hroom & Hr).
    destruct command as [[queued|link| |]|]; try done; exists events; (split; [exact Hq|]);
      by apply answer_of_result.
  - destruct command as [[queued|link| |]|]; try done; injection Hrun as <- <- <-; by eauto.
Qed.
