(* ===== verification/HubResults.v ===== *)
(** * The hub's end of an answer

    [grpc/commands.rs] and [grpc/inbound/commands.rs] of the hub: what an
    acknowledgement and a result of the agent do to the command they answer, with the
    redaction of what is stored, the claim of a pending live command, and the fence of
    the session.  The firmware commands' own answers are an interface
    ([FirmwareAnswers]). *)

From stdpp Require Import gmap.
From S2P Require Import Prelude RustStr RustFloat Json CoreTypes CoreRecords Redaction Store JobRows Tx AgentSessions PrinterOperation CommandTransitions Sessions PrintCommand PrintDispatch CommandEvents.

#[local] Open Scope Z_scope.
#[local] Open Scope rust_scope.
#[local] Open Scope tx_scope.

(** The hub: its registry of sessions, its database, and the command results published to
    the event streams. *)
Module HubSide.
Record t := mk { registry : Reg.t; hub : Hub.t; published : list CommandRecord.t }.
End HubSide.

Definition rpc (A : Type) : Type := tx HubSide.t Status.t A.

(** ** Errors *)

(** The texts of the errors a status shows. *)
Definition repository_error_text (err : RepositoryError) : string :=
  match err with
  | MissingAgent => "agent not found"
  | MissingCommand => "command not found"
  | MissingPrinter => "printer not found"
  | MissingJob => "job not found"
  | CommandOwnershipMismatch => "command belongs to a different tenant or agent"
  | AgentSessionNotCurrent => "agent session is no longer current"
  | InvalidCommandTransition from action => "cannot " +:+ action +:+ " command from " +:+ from
  | _ => "unexpected repository error"
  end.

Definition repository_status (err : RepositoryError) : Status.t :=
  let code :=
    match err with
    | MissingAgent | MissingCommand | MissingPrinter | MissingJob => NotFound
    | CommandOwnershipMismatch => PermissionDenied
    | AgentSessionNotCurrent => Aborted
    | InvalidCommandTransition _ _ => FailedPrecondition
    | _ => Internal
    end in
  Status.mk code (repository_error_text err).

Definition is_code (code : Code) (status : Status.t) : bool :=
  match Status.code status, code with
  | Internal, Internal | FailedPrecondition, FailedPrecondition | InvalidArgument, InvalidArgument
  | NotFound, NotFound | PermissionDenied, PermissionDenied | Aborted, Aborted => true
  | _, _ => false
  end.

(** A repository call of a handler. *)
Definition repository {A} (m : hub A) : rpc A := fun s =>
  let '(h, r) := m (HubSide.hub s) in
  (HubSide.mk (HubSide.registry s) h (HubSide.published s), map_err repository_status r).

(** A computation whose error its caller deals with. *)
Definition attempt {A} (m : rpc A) : rpc (result Status.t A) := fun s =>
  let '(s, r) := m s in (s, Ok r).

Definition publish_command_result (command : option CommandRecord.t) : rpc unit := fun s =>
  (HubSide.mk (HubSide.registry s) (HubSide.hub s) (HubSide.published s ++ option_list command), Ok tt).

(** [serde_json] on [PrintTransferFailure]. *)
Class TransferFailureJson `{ResultJson} := {
  parse_transfer_failure : string -> option (PrintTransferPhase * string);
  parse_transfer_failure_text phase cause :
    parse_transfer_failure (result_json_text (transfer_failure phase cause)) = Some (phase, cause);
}.

(** ** Redaction ([grpc/commands.rs]) *)

Definition redact_command_error (kind error : string) (access_code : option string) : string :=
  if beq kind "link_printer" then
    match access_code with
    | Some access_code => redact_link_printer_secret error access_code
    | None =>
        let redacted := redact_secrets error in
        if beq redacted error && negb (beq error EmptyString) then "[redacted]" else redacted
    end
  else redact_secrets error.

Section Results.
Context `{UuidText} `{RedactJson} `{TransferFailureJson}.

Definition optional_result_json (kind result_json : string) (access_code : option string)
  : option string :=
  if beq result_json EmptyString then None
  else Some (
    if beq kind "link_printer" then
      match access_code with
      | Some access_code => redact_link_printer_result_json result_json access_code
      | None => redact_link_printer_result_json_without_secret result_json
      end
    else redact_result_json result_json).

Definition print_transfer_failure_result_json (result_json cause : string)
  : result Status.t (option string) :=
  if beq result_json EmptyString then Ok None
  else
    failure <-? ok_or (parse_transfer_failure result_json)
      (Status.mk InvalidArgument "invalid print transfer failure result") ;;
    Ok (Some (result_json_text (transfer_failure failure.1 cause))).

Definition redacted_result_json (kind result_json : string) (success : bool) (error : string)
    (access_code : option string) : result Status.t (option string) :=
  if negb success && beq kind "print_project_file"
  then print_transfer_failure_result_json result_json error
  else Ok (optional_result_json kind result_json access_code).

Definition parse_command_id (command_id : string) : result Status.t CommandId :=
  map_err (fun _ => Status.mk InvalidArgument "command_id must be a UUID")
    (CommandId_parse command_id).

(** ** Answers in the current session *)

Context `{Store} `{CommandJson}.

(** The two clock readings of a transition. *)
Definition clock : Type := string * string.

Section Session.
Context (tenant_id : TenantId) (agent_id : AgentId) (session_id : string).

Definition transition (now : clock) (command_id : CommandId) (action : session_action)
  : rpc CommandRecord.t :=
  repository (transition_current_session_command now.1 now.2 tenant_id agent_id session_id
                command_id action).

Definition load (command_id : CommandId) : rpc CommandRecord.t :=
  repository (on_main (load_owned command_id tenant_id agent_id)).

Definition handle_current_session_ack_and_job (now : clock) (command_id : CommandId)
    (accepted : bool) (error : string) (access_code : option string) : rpc unit :=
  command <~ load command_id ;;
  let error := redact_command_error (CommandRecord.kind command) error access_code in
  transition now command_id (if accepted then Acknowledge else Fail_ error None) ~;;
  tret tt.

(** The command to publish; a print has events of its own. *)
Definition handle_current_session_result_and_job (now : clock) (command_id : CommandId)
    (success : bool) (error result_json : string) (access_code : option string)
  : rpc (option CommandRecord.t) :=
  command <~ load command_id ;;
  let kind := CommandRecord.kind command in
  let error := redact_command_error kind error access_code in
  result_json <~ tlift (redacted_result_json kind result_json success error access_code) ;;
  command <~ transition now command_id
    (if success then Succeed result_json else Fail_ error result_json) ;;
  tret (if beq (CommandRecord.kind command) "print_project_file" then None else Some command).

Definition handle_result_for_command (now : clock) (command_id : CommandId) (success : bool)
    (error result_json : string) (access_code : option string) : rpc unit :=
  command <~ handle_current_session_result_and_job now command_id success error result_json
    access_code ;;
  publish_command_result command.
End Session.

(** ** Which answers are taken ([grpc/inbound/commands.rs]) *)

Definition get_for_tenant (tenant_id : TenantId) (command_id : CommandId)
  : main (option CommandRecord.t) :=
  tread (fun db => traverse_opt command_from_model
    (select_one (fun m => beq (CommandsModel.id m) (CommandId_to_string command_id)
                          && beq (CommandsModel.tenant_id m) (TenantId_to_string tenant_id))
       (Db.commands db))).

Definition command_of_agent (tenant_id : TenantId) (agent_id : AgentId) (command_id : CommandId)
  : rpc CommandRecord.t :=
  command <~ repository (on_main (get_for_tenant tenant_id command_id)) ;;
  command <~ tlift (ok_or command (Status.mk NotFound "command not found")) ;;
  if negb (beq (CommandRecord.agent_id command) agent_id)
  then tfail (Status.mk PermissionDenied "command does not belong to authenticated agent")
  else tret command.

Definition fallback_allowed (command : CommandRecord.t) : result Status.t bool :=
  let kind := CommandRecord.kind command in
  if beq kind "link_printer" || is_firmware_kind kind then Ok false
  else if beq kind "printer_operation" then
    payload <-? ok_or (parse_operation_payload (CommandRecord.payload_json command))
      (Status.internal "invalid printer operation command payload") ;;
    Ok (negb (live_only (PrinterOperationPayload.operation payload)))
  else Ok true.

Definition durable_fallback_allowed (tenant_id : TenantId) (agent_id : AgentId)
    (command_id : CommandId) : rpc bool :=
  command <~ command_of_agent tenant_id agent_id command_id ;;
  tlift (fallback_allowed command).

Definition link_printer_command_is_terminal (tenant_id : TenantId) (agent_id : AgentId)
    (command_id : CommandId) : rpc bool :=
  command <~ command_of_agent tenant_id agent_id command_id ;;
  tret (beq (CommandRecord.kind command) "link_printer"
        && match CommandRecord.status command with
           | CommandStatus.Succeeded | CommandStatus.Failed => true
           | _ => false
           end).

(** [SessionRegistry::while_current] around a call of the repositories. *)
Definition call_while_current (agent_id : AgentId) (token : SessionToken) (m : rpc unit)
  : rpc (option (result Status.t unit)) := fun s =>
  if negb (is_current agent_id token (HubSide.registry s)) then (s, Ok None)
  else
    let '(s, r) := m s in
    (s, Ok (if is_current agent_id token (HubSide.registry s) then Some r else None)).

(** An answer that arrives after its session is over is dropped. *)
Definition unless_aborted (result : option (result Status.t unit)) : rpc unit :=
  match result with
  | Some (Err err) => if is_code Aborted err then tret tt else tfail err
  | _ => tret tt
  end.

Definition forget_pending (token : SessionToken) (command_id : CommandId) : rpc unit := fun s =>
  (HubSide.mk (remove_pending token command_id (HubSide.registry s)) (HubSide.hub s)
     (HubSide.published s), Ok tt).
End Results.

(** [printer_firmware::handle_command_ack] and [handle_command_failure]: whether the answer
    was the firmware service's, which only knows the commands it has pending. *)
Class FirmwareAnswers := {
  firmware_pending : CommandId -> bool;
  firmware_ack : TenantId -> AgentId -> SessionToken -> CommandId -> bool -> string -> rpc bool;
  firmware_failure : TenantId -> AgentId -> SessionToken -> CommandId -> string -> rpc bool;
  firmware_ack_none t a token c accepted error s :
    firmware_pending c = false -> firmware_ack t a token c accepted error s = (s, Ok false);
  firmware_failure_none t a token c error s :
    firmware_pending c = false -> firmware_failure t a token c error s = (s, Ok false);
}.

Section Inbound.
Context `{UuidText} `{RedactJson} `{TransferFailureJson} `{Store} `{CommandJson} `{FirmwareAnswers}.
Context (tenant_id : TenantId) (agent_id : AgentId) (token : SessionToken).

(** The branch of a command that is not pending live: its durable row takes the answer, if
    the command is of a kind that was queued. *)
Definition durable_answer (command_id : CommandId) (answer : rpc unit) : rpc unit :=
  allowed <~ durable_fallback_allowed tenant_id agent_id command_id ;;
  if negb allowed then tret tt
  else result <~ call_while_current agent_id token answer ;; unless_aborted result.

Definition claimed_ack (now : clock) (command_id : CommandId) (accepted : bool) (error : string)
    (access_code : option string) : rpc unit :=
  result <~ attempt (handle_current_session_ack_and_job tenant_id agent_id (persisted_id token) now
                       command_id accepted error access_code) ;;
  match result with
  | Ok _ => if accepted then tret tt else forget_pending token command_id
  | Err err => unless_aborted (Some (Err err))
  end.

Definition handle_command_ack (now : clock) (command_id : string) (accepted : bool) (error : string)
  : rpc unit :=
  command_id <~ tlift (parse_command_id command_id) ;;
  firmware <~ firmware_ack tenant_id agent_id token command_id accepted error ;;
  if firmware then tret tt
  else
    claim <~ (fun s => (s, Ok (claim_current_live_command tenant_id agent_id token command_id
                                 (HubSide.registry s)))) ;;
    match claim with
    | Claim _ _ access_code => claimed_ack now command_id accepted error access_code
    | ClaimNotCurrent => tret tt
    | ClaimNotPending =>
        durable_answer command_id
          (handle_current_session_ack_and_job tenant_id agent_id (persisted_id token) now command_id
             accepted error None)
    end.

(** A result that comes after a link command has its own is only logged. *)
Definition late_link_result (access_code : option string) (command_id : CommandId) : rpc bool :=
  if is_some access_code then link_printer_command_is_terminal tenant_id agent_id command_id
  else tret false.

Definition claimed_result (now : clock) (command_id : CommandId) (success : bool)
    (error result_json : string) (access_code : option string) : rpc unit :=
  late <~ late_link_result access_code command_id ;;
  if late then tret tt
  else
    result <~ attempt (handle_result_for_command tenant_id agent_id (persisted_id token) now
                         command_id success error result_json access_code) ;;
    match result with
    | Ok _ => forget_pending token command_id
    | Err err =>
        if is_code FailedPrecondition err && is_some access_code then tret tt
        else unless_aborted (Some (Err err))
    end.

(** A result without a [firmware_result]. *)
Definition handle_command_result (now : clock) (command_id : string) (success : bool)
    (error result_json : string) : rpc unit :=
  command_id <~ tlift (parse_command_id command_id) ;;
  firmware <~ (if success then tret false
               else firmware_failure tenant_id agent_id token command_id error) ;;
  if firmware then tret tt
  else
    claim <~ (fun s => (s, Ok (claim_current_live_command tenant_id agent_id token command_id
                                 (HubSide.registry s)))) ;;
    match claim with
    | Claim _ _ access_code => claimed_result now command_id success error result_json access_code
    | ClaimNotCurrent => tret tt
    | ClaimNotPending =>
        durable_answer command_id
          (handle_result_for_command tenant_id agent_id (persisted_id token) now command_id success
             error result_json None)
    end.

(** [inbound.rs]: the identity of an event, and its dispatch; the snapshots have handlers of
    their own, which write no command. *)
Definition validate_event_identity (event : AgentEvent.t) : result Status.t unit :=
  event_tenant_id <-? map_err (fun _ => Status.mk InvalidArgument "tenant_id must be a UUID")
    (TenantId_parse (AgentEvent.tenant_id event)) ;;
  event_agent_id <-? map_err (fun _ => Status.mk InvalidArgument "agent_id must be a UUID")
    (AgentId_parse (AgentEvent.agent_id event)) ;;
  if negb (beq event_tenant_id tenant_id) || negb (beq event_agent_id agent_id)
  then Err (Status.mk PermissionDenied "event identity does not match authenticated session")
  else Ok tt.

Definition handle_command_event (now : clock) (event : AgentEvent.t) : rpc unit :=
  tlift (validate_event_identity event) ~;;
  match AgentEvent.event event with
  | Event.CommandAck command_id accepted error => handle_command_ack now command_id accepted error
  | Event.CommandResult command_id success error result_json =>
      handle_command_result now command_id success error result_json
  | _ => tret tt
  end.

(** The serial loop of [spawn_inbound] over the events of a command; the first error ends
    the stream. *)
Fixpoint handle_command_events (clocks : nat -> clock) (events : list AgentEvent.t) : rpc unit :=
  match events with
  | [] => tret tt
  | event :: rest =>
      handle_command_event (clocks (length rest)) event ~;; handle_command_events clocks rest
  end.
End Inbound.
