(* ===== verification/CommandCompletion.v ===== *)
(** * A queued command from the hub to its result

    What the hub makes of the events an agent answers a queued command with: the command's
    row is acknowledged and ends succeeded or failed, with its job. *)

From stdpp Require Import gmap.
From S2P Require Import Prelude RustStr RustFloat Json CoreTypes CoreRecords Redaction Store JobRows Tx AgentSessions PrinterOperation OperationWire CommandTransitions JobTables JobCreate Sessions PrintCommand PrintDispatch CommandEvents CommandAnswers HubResults.

#[local] Open Scope Z_scope.
#[local] Open Scope rust_scope.
#[local] Open Scope tx_scope.

(** ** The write of one transition *)

Section Writes.
Context `{Store} `{UuidText} `{Rfc3339} `{CommandJson}.

Definition command_keys (db : Db.t) : list string := map CommandsModel.id (Db.commands db).

Lemma keys_unique db : NoDup (command_keys db) -> command_ids_unique db.
Proof.
  unfold command_keys, command_ids_unique. induction (Db.commands db) as [|r l IH]; simpl; [done|].
  intros Hn m m' Hm Hm' E. apply NoDup_cons in Hn as [Hr Hn].
  assert (forall x, In x l -> CommandsModel.id x <> CommandsModel.id r) as Hx.
  { intros x Hx E'. apply Hr. rewrite <- E'. by apply list_elem_of_In, in_map. }
  destruct Hm as [<-|Hm], Hm' as [<-|Hm']; try done.
  - by destruct (Hx m').
  - by destruct (Hx m).
  - by apply IH.
Qed.

Lemma one_match (p : CommandsModel.t -> bool) l m :
  NoDup (map CommandsModel.id l) -> In m l -> p m = true ->
  (forall r, p r = true -> CommandsModel.id r = CommandsModel.id m) ->
  length (List.filter p l) = 1%nat.
Proof.
  intros Hn Hm Hp Hid. induction l as [|r l IH]; simpl in *; [done|].
  apply NoDup_cons in Hn as [Hr Hn].
  assert (CommandsModel.id r = CommandsModel.id m -> forall x, In x l -> p x = false) as Hnone.
  { intros E x Hx. destruct (p x) eqn:Ex; [|done]. exfalso. apply Hr.
    rewrite E, <- (Hid x Ex). by apply list_elem_of_In, in_map. }
  destruct Hm as [<-|Hm].
  - rewrite Hp. simpl. f_equal.
    rewrite (List.filter_ext_in p (fun _ => false)) by (by apply Hnone).
    by rewrite filter_false.
  - destruct (p r) eqn:Er; [|by apply IH]. exfalso. rewrite (Hnone (Hid r Er) m Hm) in Hp. done.
Qed.

(** The command as the hub has it; and a command that can still get its result. *)
Record stored (db : Db.t) (c : CommandId) (t : TenantId) (a : AgentId)
    (command : CommandRecord.t) : Prop := {
  stored_keys : NoDup (command_keys db);
  stored_row : exists m, select_command c db = Some m /\ owned_row c t a m /\ command_row m command;
}.

Record awaits (db : Db.t) (c : CommandId) (t : TenantId) (a : AgentId)
    (command : CommandRecord.t) : Prop := {
  awaits_stored : stored db c t a command;
  awaits_kind : is_firmware_kind (CommandRecord.kind command) = false;
  awaits_job : CommandRecord.kind command = "print_project_file"%string ->
    exists j, In j (Db.jobs db) /\ JobsModel.command_id j = CommandId_to_string c
      /\ job_is_terminal j = false;
}.

Lemma compare_and_set_hits c t a allowed kindp f db m :
  NoDup (command_keys db) -> select_command c db = Some m -> owned_row c t a m ->
  CommandsModel.status m ∈ map CommandStatus.as_str allowed -> kindp m = true ->
  (forall r, same_command r (f r)) ->
  let u := update_many (fun r => command_filter c t a allowed r && kindp r) f (Db.commands db) in
  snd u = 1 /\ select_command c (with_commands (fst u) db) = Some (f m)
  /\ command_keys (with_commands (fst u) db) = command_keys db.
Proof.
  intros Hn Hm Ho Hs Hk Hf u. pose proof (select_one_Some _ _ _ Hm) as [Hin _].
  assert (command_filter c t a allowed m && kindp m = true) as Hp.
  { rewrite Hk, andb_true_r. unfold command_filter. destruct Ho as (-> & -> & ->).
    by rewrite !beq_refl, bool_decide_true. }
  split_and!.
  - unfold u. rewrite update_many_affected, (one_match _ _ m); [done|done|done|done|].
    intros r Hr. apply andb_true_iff in Hr as [Hr _]. apply command_filter_owned in Hr as [-> _].
    by destruct Ho as [-> _].
  - unfold u. rewrite (select_command_update c _ f db m); [by rewrite Hp|by apply keys_unique|done|done].
  - unfold command_keys, u. cbn [Db.commands with_commands]. rewrite update_many_rows, map_map.
    apply map_ext. intros r. pose proof (Hf r) as [Hr _].
    destruct (command_filter c t a allowed r && kindp r); [exact Hr|done].
Qed.

(** The statuses an action may leave, and whether it ends the command. *)
Definition action_allowed (action : session_action) : list CommandStatus.t :=
  match action with
  | Send | FailQueued _ => [CommandStatus.Queued]
  | Acknowledge => [CommandStatus.Sent]
  | Succeed _ | Fail_ _ _ => [CommandStatus.Sent; CommandStatus.Acknowledged]
  end.

Definition ends (action : session_action) : bool := terminal_job_status (action_job_status action).

Lemma plan_of action : action_plan action
  = (action_status action, action_error action, action_result action, action_allowed action,
     action_name action).
Proof. by destruct action. Qed.

(** The command after the action. *)
Definition after (now : string) (action : session_action) (command : CommandRecord.t)
  : CommandRecord.t :=
  CommandRecord.mk (CommandRecord.id command) (CommandRecord.tenant_id command)
    (CommandRecord.agent_id command) (CommandRecord.printer_id command) (CommandRecord.kind command)
    (action_status action) (CommandRecord.payload_json command) (action_result action)
    (action_error action) (CommandRecord.created_at command) now.

Definition written (now : string) (action : session_action) : CommandsModel.t -> CommandsModel.t :=
  set_command (action_status action) (action_error action) (action_result action) now.

Lemma row_after now action m command :
  command_row m command -> command_row (written now action m) (after now action command).
Proof. intros []. by constructor. Qed.

Lemma owned_written now action c t a m : owned_row c t a m -> owned_row c t a (written now action m).
Proof. done. Qed.

Lemma stored_loaded db c t a command : stored db c t a command -> command_loaded db c t a command.
Proof.
  intros [_ (m & Hm & (Hid & Ht & Ha) & Hr)]. exists m. split_and!; [done|by apply command_from_model_iff|..].
  - pose proof (row_command_tenant _ _ Hr) as E. rewrite Ht, TenantId_parse_to_string in E. congruence.
  - pose proof (row_command_agent _ _ Hr) as E. rewrite Ha, AgentId_parse_to_string in E. congruence.
Qed.

Lemma stored_write db c t a command action now kindp :
  stored db c t a command -> CommandRecord.status command ∈ action_allowed action ->
  (forall m, command_row m command -> kindp m = true) ->
  let u := update_many (fun r => command_filter c t a (action_allowed action) r && kindp r)
             (written now action) (Db.commands db) in
  snd u = 1 /\ forall jobs, stored (Db.mk (fst u) jobs (Db.artifacts db) (Db.usages db)) c t a
                             (after now action command).
Proof.
  intros [Hn (m & Hm & Ho & Hr)] Hs Hk u.
  destruct (compare_and_set_hits c t a (action_allowed action) kindp (written now action) db m)
    as (Hone & Hsel & Hkeys); [done|done|done| |by apply Hk|by intros; apply set_command_same|].
  { rewrite (row_status _ _ Hr). by apply list_elem_of_fmap_2. }
  split; [exact Hone|]. intros jobs. constructor.
  - unfold command_keys in *. cbn [Db.commands with_commands] in *. fold u in Hkeys. by rewrite Hkeys.
  - exists (written now action m). split_and!; [exact Hsel|by apply owned_written|by apply row_after].
Qed.

(** What is left of a command after the action: it still awaits its result, or it has it and
    so do its jobs. *)
Record moved (db : Db.t) (c : CommandId) (t : TenantId) (a : AgentId) (action : session_action)
    (command : CommandRecord.t) : Prop := {
  moved_stored : stored db c t a command;
  moved_on : ends action = false -> awaits db c t a command;
  moved_end : ends action = true -> CommandRecord.kind command = "print_project_file"%string ->
    forall j, In j (Db.jobs db) -> JobsModel.command_id j = CommandId_to_string c ->
      job_is_terminal j = true;
}.

Lemma moving_job (tr : PrintCommandTransition.t) now j :
  terminal_job_status (PrintCommandTransition.job_status tr) = false ->
  job_is_terminal (set_job tr now j) = false.
Proof.
  intros Ht. unfold job_is_terminal.
  change (JobsModel.status (set_job tr now j))
    with (JobStatus.as_str (PrintCommandTransition.job_status tr)).
  by destruct (PrintCommandTransition.job_status tr).
Qed.

Lemma print_transition_of t a c action : print_transition t a c action
  = PrintCommandTransition.mk c t a (action_status action) (action_job_status action)
      (action_error action) (action_result action) (action_allowed action) (action_name action).
Proof. by destruct action. Qed.

Section Transition.
Context (now now' : string) (db : Db.t) (c : CommandId) (t : TenantId) (a : AgentId).
Context (command : CommandRecord.t) (action : session_action).
Context (Hw : awaits db c t a command) (Hs : CommandRecord.status command ∈ action_allowed action).

Lemma print_applies : CommandRecord.kind command = "print_project_file"%string ->
  exists db', session_print_command now now' t a c action db = (db', Ok (after now action command))
    /\ moved db' c t a action (after now action command).
Proof.
  intros Hk. destruct (awaits_job _ _ _ _ _ Hw Hk) as (j & Hj & Hjc & Hlive).
  set (tr := print_transition t a c action).
  assert (live_job_of tr j = true) as Hjl.
  { unfold live_job_of, tr. rewrite print_transition_of. cbn [PrintCommandTransition.command_id].
    by rewrite Hjc, beq_refl, Hlive. }
  destruct (stored_write db c t a command action now
    (fun m => beq (CommandsModel.kind m) "print_project_file")) as [Hone Hst];
    [apply Hw|done|intros m Hr; by rewrite (row_kind _ _ Hr), Hk|].
  eexists. split.
  - apply transition_print_Ok. cbv zeta. fold tr. unfold print_row_filter, tr.
    rewrite print_transition_of. cbn [PrintCommandTransition.command_id PrintCommandTransition.tenant_id
      PrintCommandTransition.agent_id PrintCommandTransition.command_status PrintCommandTransition.error
      PrintCommandTransition.result_json PrintCommandTransition.allowed_statuses].
    split_and!; [|exact Hk|by left| |reflexivity].
    + apply stored_loaded. apply (Hst (Db.jobs db)).
    + intros Hv. exfalso. rewrite <- (print_transition_of t a c action) in Hv. fold tr in Hv.
      by rewrite (update_many_affected_0 _ _ _ Hv j Hj) in Hjl.
  - rewrite <- (print_transition_of t a c action). fold tr. constructor; [apply Hst| |].
    + intros He. constructor; [apply Hst|apply (awaits_kind _ _ _ _ _ Hw)|]. intros _.
      exists (set_job tr now' j). split_and!.
      * cbn [Db.jobs]. apply In_update_many. exists j. by rewrite Hjl.
      * exact Hjc.
      * apply moving_job. unfold tr. by rewrite print_transition_of.
    + intros He _ j' Hj' Hc'. cbn [Db.jobs] in Hj'. apply In_update_many in Hj' as (j0 & _ & ->).
      destruct (live_job_of tr j0) eqn:L.
      * apply set_job_terminal. unfold tr. by rewrite print_transition_of.
      * unfold live_job_of, tr in L. rewrite print_transition_of in L. cbn in L.
        rewrite Hc', beq_refl in L. by apply negb_false_iff in L.
Qed.

Lemma other_applies : beq (CommandRecord.kind command) "print_project_file"%string = false ->
  exists db', transition_command now command action db = (db', Ok (after now action command))
    /\ moved db' c t a action (after now action command).
Proof.
  intros Hk. destruct (command_loaded_id _ _ _ _ _ (stored_loaded _ _ _ _ _ (awaits_stored _ _ _ _ _ Hw)))
    as (Hc & Ht & Ha).
  destruct (stored_write db c t a command action now (fun _ => true)) as [Hone Hst];
    [apply Hw|done|done|].
  rewrite (update_many_ext _ (command_filter c t a (action_allowed action))) in Hone, Hst
    by (intros; by rewrite andb_true_r).
  unfold transition_command. rewrite plan_of, (awaits_kind _ _ _ _ _ Hw), andb_false_r.
  unfold update_status_if_current_on, load_owned_command, tbind. rewrite update_commands_run.
  cbn [StatusTransition.command_id StatusTransition.tenant_id StatusTransition.agent_id
    StatusTransition.allowed_statuses StatusTransition.status StatusTransition.error
    StatusTransition.result_json tret].
  rewrite Hc, Ht, Ha. fold (written now action). rewrite Hone. cbn [Z.eqb].
  specialize (Hst (Db.jobs db)).
  unfold with_commands. rewrite (load_owned_loaded _ _ _ _ _ (stored_loaded _ _ _ _ _ Hst)).
  cbn [orb]. eexists. split; [reflexivity|]. constructor; [exact Hst| |].
  - intros He. constructor; [exact Hst|apply (awaits_kind _ _ _ _ _ Hw)|].
    intros Hk'. cbn [after CommandRecord.kind] in Hk'. by rewrite Hk', beq_refl in Hk.
  - intros _ Hk'. cbn [after CommandRecord.kind] in Hk'. by rewrite Hk', beq_refl in Hk.
Qed.

(** A transition of the current session that is allowed goes through. *)
Lemma transition_applies h session :
  Hub.main h = db -> current_session h t a (Some session) ->
  exists h', transition_current_session_command now now' t a session c action h
             = (h', Ok (after now action command))
    /\ Hub.agents h' = Hub.agents h /\ moved (Hub.main h') c t a action (after now action command).
Proof.
  intros Hdb Hcur. unfold transition_current_session_command, transaction, tbind.
  destruct (begin_current_run t a session h) as (r & E & Hr). rewrite E.
  rewrite (proj2 Hr Hcur). unfold on_main, zoom. rewrite Hdb.
  unfold transition_command_on, load_owned_command, tbind.
  rewrite (load_owned_loaded _ _ _ _ _ (stored_loaded _ _ _ _ _ (awaits_stored _ _ _ _ _ Hw))).
  destruct (beq (CommandRecord.kind command) "print_project_file") eqn:K.
  - rewrite beq_true in K. destruct (print_applies K) as (db' & -> & Hm). by eexists.
  - destruct (other_applies K) as (db' & -> & Hm). by eexists.
Qed.
End Transition.
End Writes.

(** ** What the hub takes of an answer *)

Section Delivery.
Context `{UuidText} `{RedactJson} `{TransferFailureJson} `{Store} `{Rfc3339} `{CommandJson}.
Context `{FirmwareAnswers}.
Context (t : TenantId) (a : AgentId) (token : SessionToken) (c : CommandId).

(** The session speaks for the agent, and the command is not one of its live ones. *)
Record speaks (s : HubSide.t) : Prop := {
  speaks_registry : is_some (current_session_of t a token None (HubSide.registry s)) = true;
  speaks_durable : forall session, current_session_of t a token None (HubSide.registry s) = Some session ->
    Reg.pending (HubSide.registry s) (AgentSession.token session) !! c = None;
  speaks_database : current_session (HubSide.hub s) t a (Some (persisted_id token));
  speaks_firmware : firmware_pending c = false;
}.

Definition database (s : HubSide.t) : Db.t := Hub.main (HubSide.hub s).

Lemma speaks_claim s : speaks s ->
  claim_current_live_command t a token c (HubSide.registry s) = ClaimNotPending.
Proof.
  intros [Hr Hd _ _]. unfold claim_current_live_command.
  destruct (current_session_of t a token None (HubSide.registry s)) as [session|]; [|done].
  by rewrite (Hd session eq_refl).
Qed.

Lemma speaks_current s : speaks s -> is_current a token (HubSide.registry s) = true.
Proof.
  intros [Hr _ _ _]. unfold current_session_of in Hr. unfold is_current.
  destruct (Reg.sessions (HubSide.registry s) !! a) as [session|]; [|done]. cbn in *.
  unfold opt_filter in Hr. destruct (of_tenant t session && has_token token session && true) eqn:E; [|done].
  by apply andb_true_iff in E as [[_ E]%andb_true_iff _].
Qed.

(** Writes of the command leave the session where it is. *)
Lemma speaks_after s h published : speaks s -> Hub.agents h = Hub.agents (HubSide.hub s) ->
  speaks (HubSide.mk (HubSide.registry s) h published).
Proof.
  intros [Hr Hd (m & Hm & Hs) Hf] Ha. constructor; [exact Hr|exact Hd| |exact Hf].
  exists m. cbn [HubSide.hub]. by rewrite Ha.
Qed.

Lemma load_run s command : stored (database s) c t a command -> load t a c s = (s, Ok command).
Proof.
  intros Hst. unfold load, repository, on_main, zoom. fold (database s).
  rewrite (load_owned_loaded _ _ _ _ _ (stored_loaded _ _ _ _ _ Hst)). unfold database. cbn.
  by destruct s as [reg [agents main] pub].
Qed.

Lemma transition_run s command now action :
  awaits (database s) c t a command -> CommandRecord.status command ∈ action_allowed action ->
  speaks s ->
  exists s', transition t a (persisted_id token) now c action s = (s', Ok (after now.1 action command))
    /\ speaks s' /\ moved (database s') c t a action (after now.1 action command)
    /\ HubSide.published s' = HubSide.published s.
Proof.
  intros Hw Hst Hs. destruct (transition_applies now.1 now.2 (database s) c t a command action Hw Hst
    (HubSide.hub s) (persisted_id token)) as (h' & E & Ha & Hm); [done|apply Hs|].
  unfold transition, repository. rewrite E. eexists. split; [reflexivity|].
  split_and!; [by apply speaks_after|exact Hm|done].
Qed.

Lemma get_for_tenant_run db command : stored db c t a command ->
  get_for_tenant t c db = (db, Ok (Some command)).
Proof.
  intros [Hn (m & Hm & (Hid & Ht & Ha) & Hr)]. unfold get_for_tenant, tread.
  pose proof (select_one_Some _ _ _ Hm) as [Hin _].
  rewrite (select_one_unique _ (Db.commands db) m).
  - cbn [traverse_opt option_map r_transpose]. by rewrite (proj2 (command_from_model_iff m command) Hr).
  - done.
  - by rewrite Hid, Ht, !beq_refl.
  - intros r Hr' E. apply andb_true_iff in E as [E _]. rewrite beq_true in E.
    apply (keys_unique _ Hn); [done|done|]. by rewrite E, Hid.
Qed.

Lemma durable_allowed s command : stored (database s) c t a command ->
  fallback_allowed command = Ok true -> durable_fallback_allowed t a c s = (s, Ok true).
Proof.
  intros Hst Hf.
  destruct (command_loaded_id _ _ _ _ _ (stored_loaded _ _ _ _ _ Hst)) as (_ & _ & Hagent).
  unfold durable_fallback_allowed, command_of_agent, repository, on_main, zoom, tbind.
  fold (database s). rewrite (get_for_tenant_run _ _ Hst). cbn [map_err ok_or tlift].
  rewrite Hagent, beq_refl. cbn [negb tret]. rewrite Hf.
  by destruct s as [reg [agents main] pub].
Qed.

Lemma durable_answer_run s s' command answer : stored (database s) c t a command ->
  fallback_allowed command = Ok true -> speaks s -> answer s = (s', Ok tt) -> speaks s' ->
  durable_answer t a token c answer s = (s', Ok tt).
Proof.
  intros Hst Hf Hs Ha Hs'. unfold durable_answer, tbind at 1.
  rewrite (durable_allowed s command Hst Hf). cbn [negb].
  unfold call_while_current, tbind. rewrite (speaks_current s Hs). cbn [negb].
  rewrite Ha, (speaks_current s' Hs'). done.
Qed.

(** An acknowledgement or rejection of a sent command is written. *)
Lemma ack_taken s command now accepted error (Hw : awaits (database s) c t a command)
    (Hf : fallback_allowed command = Ok true) (Hs : speaks s)
    (Hsent : CommandRecord.status command = CommandStatus.Sent) :
  exists s' action, handle_command_ack t a token now (CommandId_to_string c) accepted error s = (s', Ok tt)
    /\ speaks s' /\ moved (database s') c t a action (after now.1 action command)
    /\ HubSide.published s' = HubSide.published s
    /\ action_status action = (if accepted then CommandStatus.Acknowledged else CommandStatus.Failed)
    /\ ends action = negb accepted.
Proof.
  set (action := if accepted then Acknowledge
                 else Fail_ (redact_command_error (CommandRecord.kind command) error None) None).
  destruct (transition_run s command now action Hw) as (s' & E & Hs' & Hm & Hp);
    [rewrite Hsent; unfold action; destruct accepted; set_solver|done|].
  exists s', action. split_and!; [|done|done|done|by unfold action; destruct accepted..].
  unfold handle_command_ack, parse_command_id. rewrite CommandId_parse_to_string. cbn [map_err].
  unfold tbind at 1, tlift. unfold tbind at 1. rewrite firmware_ack_none by apply Hs.
  unfold tbind at 1. rewrite (speaks_claim s Hs).
  eapply durable_answer_run; [apply Hw|done|done| |done].
  unfold handle_current_session_ack_and_job, tbind at 1.
  rewrite (load_run s command) by apply Hw. unfold tbind. fold action. by rewrite E.
Qed.

(** What can be stored of a result; only a print's failure is read. *)
Lemma result_json_readable kind success error error' result_json access_code :
  (kind = "print_project_file"%string -> print_shape success error' result_json) ->
  exists j, redacted_result_json kind result_json success error access_code = Ok j.
Proof.
  intros Hshape. unfold redacted_result_json.
  destruct (negb success && beq kind "print_project_file") eqn:E; [|by eexists].
  apply andb_true_iff in E as [Hs Hk]. rewrite beq_true in Hk.
  unfold print_transfer_failure_result_json. destruct (Hshape Hk) as [? rj|?|phase cause]; [done|by eexists|].
  destruct (beq (result_json_text _) EmptyString); [by eexists|].
  rewrite parse_transfer_failure_text. by eexists.
Qed.

Lemma result_taken s command now success error result_json (Hw : awaits (database s) c t a command)
    (Hf : fallback_allowed command = Ok true) (Hs : speaks s)
    (Hopen : CommandRecord.status command ∈ [CommandStatus.Sent; CommandStatus.Acknowledged])
    (Hshape : CommandRecord.kind command = "print_project_file"%string ->
              print_shape success error result_json) :
  exists s' action, handle_command_result t a token now (CommandId_to_string c) success error result_json s
      = (s', Ok tt)
    /\ speaks s' /\ moved (database s') c t a action (after now.1 action command)
    /\ HubSide.published s' = HubSide.published s
         ++ (if beq (CommandRecord.kind command) "print_project_file" then []
             else [after now.1 action command])
    /\ action_status action = (if success then CommandStatus.Succeeded else CommandStatus.Failed)
    /\ ends action = true.
Proof.
  set (error' := redact_command_error (CommandRecord.kind command) error None).
  destruct (result_json_readable (CommandRecord.kind command) success error' error result_json None Hshape)
    as (j & Hj).
  set (action := if success then Succeed j else Fail_ error' j).
  destruct (transition_run s command now action Hw) as (s' & E & Hs' & Hm & Hp);
    [unfold action; by destruct success|done|].
  set (shown := if beq (CommandRecord.kind command) "print_project_file" then None
                else Some (after now.1 action command)).
  exists (HubSide.mk (HubSide.registry s') (HubSide.hub s') (HubSide.published s' ++ option_list shown)), action.
  assert (speaks (HubSide.mk (HubSide.registry s') (HubSide.hub s')
            (HubSide.published s' ++ option_list shown))) as Hs'' by by apply speaks_after.
  split_and!; [|done|done| |by unfold action; destruct success..].
  - unfold handle_command_result, parse_command_id. rewrite CommandId_parse_to_string. cbn [map_err].
    unfold tbind at 1, tlift. unfold tbind at 1.
    assert ((if success then tret false else firmware_failure t a token c error) s = (s, Ok false)) as ->.
    { destruct success; [done|]. apply firmware_failure_none, Hs. }
    unfold tbind at 1. rewrite (speaks_claim s Hs).
    eapply durable_answer_run; [apply Hw|done|done| |done].
    unfold handle_result_for_command, handle_current_session_result_and_job. unfold tbind at 1 2.
    rewrite (load_run s command) by apply Hw. fold error'. unfold tbind at 1, tlift. rewrite Hj.
    fold action. unfold tbind. rewrite E. done.
  - cbn [HubSide.published]. rewrite Hp. unfold shown. by destruct (beq _ _).
Qed.
End Delivery.

(** ** From the queue to the result *)

(** The events that answer a command, and whether the agent reported success. *)
Definition is_answer (e : AgentEvent.t) : bool :=
  match AgentEvent.event e with
  | Event.CommandAck _ _ _ | Event.CommandResult _ _ _ _ => true
  | _ => false
  end.
Definition answers_of (events : list AgentEvent.t) : list AgentEvent.t := List.filter is_answer events.

Definition reports_success (events : list AgentEvent.t) : bool :=
  existsb (fun e => match AgentEvent.event e with
                    | Event.CommandResult _ success _ _ => success
                    | _ => false
                    end) events.

Lemma informational_no_answer events : Forall informational events -> answers_of events = [].
Proof.
  unfold answers_of. induction 1 as [|e l He _ IH]; [done|]. simpl.
  unfold is_answer. unfold informational in He. by destruct (AgentEvent.event e).
Qed.

Lemma informational_no_success events : Forall informational events -> reports_success events = false.
Proof.
  unfold reports_success. induction 1 as [|e l He _ IH]; [done|]. simpl. rewrite IH.
  unfold informational in He. by destruct (AgentEvent.event e).
Qed.

Lemma settled_answers config id shape events : settled_by config id shape events ->
  (exists error, answers_of events = [rejected_ack_event config id error]
     /\ reports_success events = false)
  \/ exists success error result_json,
       answers_of events = [ack_event config id; result_event config id success error result_json]
       /\ reports_success events = success /\ shape success error result_json.
Proof.
  intros [(error & ->)|(rest & -> & infos & result & -> & Hi & success & error & rj & -> & Hs)];
    [left; by eexists|right].
  exists success, error, rj. unfold answers_of, reports_success in *. split_and!; [| |done].
  - cbn [List.filter is_answer ack_event command_ack_event event AgentEvent.event].
    rewrite List.filter_app. fold (answers_of infos). rewrite (informational_no_answer infos Hi).
    unfold result_event. by destruct success.
  - cbn [existsb ack_event command_ack_event event AgentEvent.event]. rewrite existsb_app.
    fold (reports_success infos). rewrite (informational_no_success infos Hi). cbn.
    by destruct success.
Qed.

Section Completion.
Context `{UuidText} `{RedactJson} `{TransferFailureJson} `{Store} `{Rfc3339} `{CommandJson}.
Context `{FirmwareAnswers} `{QueuedJson}.

Lemma queued_is_durable command hc : hub_command_from_record command = Ok hc ->
  fallback_allowed command = Ok true
  /\ HubCommand.command_id hc = CommandId_to_string (CommandRecord.id command)
  /\ (CommandRecord.kind command = "print_project_file"%string ->
      exists print, HubCommand.command hc = QueuedCommand.PrintProjectFile print)
  /\ answered_here (Some (Queued (HubCommand.command hc))).
Proof.
  unfold hub_command_from_record. rewrite rbind_Ok. intros (queued & Hq & [= <-]). cbn.
  unfold queued_command in Hq. split_and!; [|done| |done].
  - unfold fallback_allowed, is_firmware_kind.
    destruct (beq (CommandRecord.kind command) "link_printer") eqn:E1;
      [rewrite beq_true in E1; by rewrite E1 in Hq|].
    destruct (beq (CommandRecord.kind command) "firmware_refresh") eqn:E2;
      [rewrite beq_true in E2; by rewrite E2 in Hq|].
    destruct (beq (CommandRecord.kind command) "firmware_control") eqn:E3;
      [rewrite beq_true in E3; by rewrite E3 in Hq|].
    destruct (beq (CommandRecord.kind command) "printer_operation") eqn:E4; [|done].
    rewrite beq_true in E4. rewrite E4 in Hq. cbn [orb]. simpl in Hq.
    destruct (parse_operation_payload (CommandRecord.payload_json command)) as [payload|]; [|done].
    unfold operation_command in Hq. cbn in *.
    by destruct (live_only (PrinterOperationPayload.operation payload)).
  - intros Hk. rewrite Hk in Hq. simpl in Hq.
    destruct (parse_print_payload (CommandRecord.payload_json command)) as [payload|]; [|done].
    cbn in Hq. destruct (print_command payload) as [print|]; [|done].
    injection Hq as <-. by eexists.
Qed.

Context (t : TenantId) (a : AgentId) (token : SessionToken) (c : CommandId) (config : AgentConfig.t).
Context (Htenant : AgentConfig.tenant_id config = TenantId_to_string t).
Context (Hagent : AgentConfig.agent_id config = AgentId_to_string a).

Lemma own_event event_id body : validate_event_identity t a (event config event_id body) = Ok tt.
Proof.
  unfold validate_event_identity, event. cbn [AgentEvent.tenant_id AgentEvent.agent_id].
  rewrite Htenant, Hagent, TenantId_parse_to_string, AgentId_parse_to_string. cbn.
  by rewrite !beq_refl.
Qed.

(** The command has its result, success or failure, and a print's jobs have ended. *)
Record completed (s' : HubSide.t) (success : bool) (command : CommandRecord.t) : Prop := {
  completed_loaded : command_loaded (database s') c t a command;
  completed_status : CommandRecord.status command
    = if success then CommandStatus.Succeeded else CommandStatus.Failed;
  completed_jobs : CommandRecord.kind command = "print_project_file"%string ->
    forall j, In j (Db.jobs (database s')) -> JobsModel.command_id j = CommandId_to_string c ->
      job_is_terminal j = true;
}.

Lemma moved_completed s' action command (success : bool) :
  moved (database s') c t a action command -> ends action = true ->
  CommandRecord.status command = (if success then CommandStatus.Succeeded else CommandStatus.Failed) ->
  completed s' success command.
Proof.
  intros Hm He Hs. constructor; [by apply stored_loaded, Hm|done|]. by apply (moved_end _ _ _ _ _ _ Hm).
Qed.

Section Answered.
Context (s : HubSide.t) (command : CommandRecord.t) (clocks : nat -> clock).
Context (Hw : awaits (database s) c t a command) (Hs : speaks t a token c s).
Context (Hf : fallback_allowed command = Ok true).
Context (Hsent : CommandRecord.status command = CommandStatus.Sent).

Lemma rejection_completes error :
  exists s' command', handle_command_events t a token clocks
      [rejected_ack_event config (CommandId_to_string c) error] s = (s', Ok tt)
    /\ completed s' false command'.
Proof.
  destruct (ack_taken t a token c s command (clocks O) false error Hw Hf Hs Hsent)
    as (s' & action & E & Hs' & Hm & _ & Hstat & He).
  exists s', (after (clocks O).1 action command). split; [|by eapply moved_completed].
  cbn [handle_command_events length]. unfold handle_command_event, tbind at 1 2, tlift.
  unfold rejected_ack_event, command_ack_event. rewrite own_event. cbn [event AgentEvent.event].
  by rewrite E.
Qed.

Lemma result_completes success error result_json
    (Hshape : CommandRecord.kind command = "print_project_file"%string ->
              print_shape success error result_json) :
  exists s' command', handle_command_events t a token clocks
      [ack_event config (CommandId_to_string c);
       result_event config (CommandId_to_string c) success error result_json] s = (s', Ok tt)
    /\ completed s' success command'.
Proof.
  destruct (ack_taken t a token c s command (clocks 1%nat) true EmptyString Hw Hf Hs Hsent)
    as (s1 & action1 & E1 & Hs1 & Hm1 & _ & Hstat1 & He1).
  set (command1 := after (clocks 1%nat).1 action1 command) in *.
  destruct (result_taken t a token c s1 command1 (clocks O) success error result_json)
    as (s' & action & E & Hs' & Hm & _ & Hstat & He); [by apply Hm1|done|done| |done|].
  { unfold command1, after. cbn [CommandRecord.status]. rewrite Hstat1. set_solver. }
  exists s', (after (clocks O).1 action command1). split; [|by eapply moved_completed].
  cbn [handle_command_events length]. unfold handle_command_event at 1.
  unfold tbind at 1 2, tlift. unfold ack_event, command_ack_event. rewrite own_event.
  cbn [event AgentEvent.event]. rewrite E1. unfold handle_command_event, tbind at 1 2, tlift.
  unfold result_event. rewrite own_event. cbn [event AgentEvent.event]. by rewrite E.
Qed.
End Answered.
End Completion.

(** C5: a queued command that was sent ends with its result: when the agent's handler runs
    on the message the hub makes of the command's row, with the session's queue open, and
    the hub takes the events that answer the command in their order while the session is
    current, the hub refuses none of them and the command's row ends succeeded or failed as
    the agent reported; a print's jobs have ended with it. *)
Theorem queued_command_completes {W : Type} `{GatewayInforms W} `{ErrorText} `{UuidText}
    `{RedactJson} `{TransferFailureJson} `{Store} `{Rfc3339} `{CommandJson} `{FirmwareAnswers}
    `{QueuedJson} (t : TenantId) (a : AgentId) (token : SessionToken) (c : CommandId)
    (config : AgentConfig.t) (command : CommandRecord.t) (hc : HubCommand.t) (s : HubSide.t)
    (clocks : nat -> clock) (w w' : W) (q q' : Queue.t) (r : result AnyError unit)
    (Htenant : AgentConfig.tenant_id config = TenantId_to_string t)
    (Hagent : AgentConfig.agent_id config = AgentId_to_string a)
    (Hq : hub_command_from_record command = Ok hc)
    (Hsent : CommandRecord.status command = CommandStatus.Sent)
    (Hw : awaits (database s) c t a command) (Hs : speaks t a token c s)
    (Hroom : Queue.room q = None)
    (Hrun : handle_command_with_reader config (HubCommand.command_id hc)
              (Some (Queued (HubCommand.command hc))) (w, q) = ((w', q'), r)) :
  exists events s' command', Queue.events q' = Queue.events q ++ events
    /\ handle_command_events t a token clocks (answers_of events) s = (s', Ok tt)
    /\ completed t a c s' (reports_success events) command'.
Proof.
  destruct (queued_is_durable command hc Hq) as (Hf & Hid & Hprint & Hhere).
  destruct (command_loaded_id _ _ _ _ _ (stored_loaded _ _ _ _ _ (awaits_stored _ _ _ _ _ Hw)))
    as (Hc & _ & _). rewrite Hid, Hc in Hrun.
  destruct (handler_answers config _ _ Hhere w q w' q' r Hrun) as (events & He & Hok & Hr).
  destruct (Hok Hroom) as (_ & u & ->).
  destruct (settled_answers _ _ _ _ Hr) as [(error & Ha & Hsu)|(success & error & rj & Ha & Hsu & Hsh)].
  - destruct (rejection_completes t a token c config Htenant Hagent s command clocks Hw Hs Hf Hsent error)
      as (s' & command' & E & Hd). exists events, s', command'. by rewrite Ha, Hsu.
  - destruct (result_completes t a token c config Htenant Hagent s command clocks Hw Hs Hf Hsent
      success error rj) as (s' & command' & E & Hd).
    + intros Hk. destruct (Hprint Hk) as (print & Ep). by rewrite Ep in Hsh.
    + exists events, s', command'. by rewrite Ha, Hsu.
Qed.
