(* ===== verification/QueuedDispatch.v ===== *)
(** * Sending the queued commands

    [grpc/commands/device_features.rs] and [agent_capabilities.rs] of the hub: the oldest
    queued command of an agent goes to its session, past the gates of the features and
    capabilities it needs, or fails. *)

From stdpp Require Import gmap sorting.
From S2P Require Import Prelude RustStr CoreTypes CoreRecords DeviceFeatures Store JobRows PrinterRows Tx AgentSessions PrinterOperation OperationWire CommandTransitions JobTables JobCreate Sessions PrintCommand HubResults.

#[local] Open Scope Z_scope.
#[local] Open Scope rust_scope.
#[local] Open Scope tx_scope.

(** The hub with its table of printers and the channel of the session: the commands sent,
    and whether its receiver is still there. *)
Module Outbound.
Record t := mk {
  side : HubSide.t; printers : list PrintersModel.t; sent : list HubCommand.t; open : bool }.
End Outbound.

Definition outbound (A : Type) : Type := tx Outbound.t Status.t A.

Definition on_side {A} (m : rpc A) : outbound A := fun s =>
  let '(side, r) := m (Outbound.side s) in
  (Outbound.mk side (Outbound.printers s) (Outbound.sent s) (Outbound.open s), r).

Inductive SessionQueuedDispatch := Sent | FailedAndContinue | Empty | SessionEnded | ChannelClosed.

Definition CAPABILITY_REQUIRED_DEVICE_FEATURES : AgentCapability := 3.
Definition CAPABILITY_GCODE_LINE : AgentCapability := 4.

(** The text of a [serde_json] error on the payload of an operation. *)
Class PayloadError := { payload_error : string -> string }.

Definition token_eqb (token : SessionToken) (o : option SessionToken) : bool :=
  bool_decide (o = Some token).

(** [ORDER BY created_at ASC, id ASC]. *)
Definition command_le `{Store} (m n : CommandsModel.t) : Prop :=
  text_le (CommandsModel.created_at m) (CommandsModel.created_at n)
  && (negb (text_le (CommandsModel.created_at n) (CommandsModel.created_at m))
      || text_le (CommandsModel.id m) (CommandsModel.id n)).

#[export] Instance command_le_dec `{Store} : RelDecision command_le.
Proof. intros m n. unfold command_le. apply _. Defined.

Section Dispatch.
Context `{UuidText} `{Store} `{CommandJson} `{QueuedJson} `{PrinterJson} `{PayloadError}.
Context (tenant_id : TenantId) (agent_id : AgentId) (token : SessionToken).

(** ** Queries *)

Definition queued_for (m : CommandsModel.t) : bool :=
  beq (CommandsModel.tenant_id m) (TenantId_to_string tenant_id)
  && beq (CommandsModel.agent_id m) (AgentId_to_string agent_id)
  && beq (CommandsModel.status m) (CommandStatus.as_str CommandStatus.Queued).

Definition queued_in_order (db : Db.t) : list CommandsModel.t :=
  merge_sort command_le (select queued_for (Db.commands db)).

Definition next_queued_for_agent : rpc (option CommandRecord.t) :=
  repository (on_main (tread (fun db =>
    traverse_opt command_from_model (head (queued_in_order db))))).

Definition queued_for_agent_in_order : rpc (list CommandRecord.t) :=
  repository (on_main (tread (fun db => collect command_from_model (queued_in_order db)))).

Definition get_printer (printer_id : string) : outbound (option Printer.t) := fun s =>
  (s, map_err repository_status
        (traverse_opt printer_from_model
           (select_one (fun m => beq (PrintersModel.id m) printer_id
                                 && beq (PrintersModel.tenant_id m) (TenantId_to_string tenant_id))
              (Outbound.printers s)))).

(** ** Gates *)

Definition has_capability (capability : AgentCapability) (s : Outbound.t) : bool :=
  token_eqb token (current_token_for_capability tenant_id agent_id capability
                     (HubSide.registry (Outbound.side s))).

Definition queued_command_gate_failure (current : bool) (operation : option PrinterOperationPayload.t)
    (s : Outbound.t) : option string :=
  match PrinterOperationPayload.operation <$> operation with
  | Some (PrinterOperation.GcodeLine _) =>
      if negb current || has_capability CAPABILITY_GCODE_LINE s then None
      else Some "agent capability gate failed: current agent session does not advertise gcode-line capability"%string
  | _ => None
  end.

(** What the printer's row says of the required features, in the source's order. *)
Definition printer_features_failure (required : list RequiredDeviceFeature) (printer : Printer.t)
  : option string :=
  if negb (beq (Printer.agent_id printer) agent_id)
  then Some "owned printer belongs to a different agent"%string
  else
    match Printer.bambu_device_features_session_id printer with
    | None => Some "printer feature observation has no agent-session marker"%string
    | Some marker =>
        if negb (beq marker (persisted_id token))
        then Some "printer feature observation belongs to a different agent session"%string
        else
          match Printer.bambu_device_features printer with
          | None => Some "printer feature bitmap is missing"%string
          | Some features =>
              (fun missing => "printer feature bitmap is missing " +:+ RequiredDeviceFeature.as_str missing)
              <$> List.find (fun r => negb (BambuDeviceFeatures.contains features
                                              (RequiredDeviceFeature.bambu_feature r))) required
          end
    end.

Definition owned_printer_failure (required : list RequiredDeviceFeature) (command : CommandRecord.t)
    (operation : PrinterOperationPayload.t) : outbound (option string) :=
  match CommandRecord.printer_id command with
  | None => tret (Some "printer operation is missing its owned printer"%string)
  | Some printer_id =>
      if negb (beq printer_id (PrinterOperationPayload.printer_id operation))
      then tret (Some "printer operation payload does not match its owned printer"%string)
      else
        printer <~ get_printer printer_id ;;
        match printer with
        | None => tret (Some "owned printer no longer exists"%string)
        | Some printer => tret (printer_features_failure required printer)
        end
  end.

Definition required_feature_gate_failure (current : bool) (command : CommandRecord.t)
    (operation : option PrinterOperationPayload.t) : outbound (option string) :=
  match operation with
  | None => tret None
  | Some operation =>
      match PrinterOperation.required_device_features (PrinterOperationPayload.operation operation) with
      | [] => tret None
      | required =>
          if negb (is_ok (validate (PrinterOperationPayload.operation operation)))
          then tret (Some "persisted printer operation has invalid required-device-feature semantics"%string)
          else if negb current then tret (Some "exact agent session is no longer current"%string)
          else
            capable <~ tread (fun s => Ok (has_capability CAPABILITY_REQUIRED_DEVICE_FEATURES s)) ;;
            if negb capable
            then tret (Some "current agent session does not advertise required-device-features capability"%string)
            else owned_printer_failure required command operation
      end
  end.

(** Both gates, the cheap one first. *)
Definition gate_failure (current : bool) (command : CommandRecord.t)
    (operation : option PrinterOperationPayload.t) : outbound (option string) :=
  capability <~ tread (fun s => Ok (queued_command_gate_failure current operation s)) ;;
  match capability with
  | Some failure => tret (Some failure)
  | None =>
      failure <~ required_feature_gate_failure current command operation ;;
      tret ((fun failure => "required device feature gate failed: " +:+ failure) <$> failure)
  end.

(** ** The dispatch *)

(** Whether the failure was written: not when the session is no longer the one. *)
Definition fail_queued_command (now : clock) (command : CommandRecord.t) (current : bool)
    (failure : string) : outbound bool := on_side (
  result <~ attempt (
    if current
    then transition tenant_id agent_id (persisted_id token) now (CommandRecord.id command)
           (FailQueued failure)
    else repository (fail_queued_for_closing_session now.1 now.2 tenant_id agent_id
           (persisted_id token) (CommandRecord.id command) failure)) ;;
  match result with
  | Ok _ => tret true
  | Err err => if is_code Aborted err then tret false else tfail err
  end).

Definition refuse (now : clock) (command : CommandRecord.t) (current : bool) (failure : string)
  : outbound SessionQueuedDispatch :=
  failed <~ fail_queued_command now command current failure ;;
  tret (if failed : bool then FailedAndContinue else SessionEnded).

Definition print_command_was_cancelled (command : CommandRecord.t) : outbound bool :=
  if negb (beq (CommandRecord.kind command) "print_project_file") then tret false
  else
    persisted <~ on_side (repository (on_main (get_for_tenant tenant_id (CommandRecord.id command)))) ;;
    tret (is_some_and (fun persisted => beq (CommandRecord.agent_id persisted) agent_id
                                        && beq (CommandRecord.status persisted) CommandStatus.Cancelled)
            persisted).

Definition send_command (command : HubCommand.t) : outbound SessionQueuedDispatch := fun s =>
  if Outbound.open s
  then (Outbound.mk (Outbound.side s) (Outbound.printers s) (Outbound.sent s ++ [command]) true, Ok Sent)
  else (s, Ok ChannelClosed).

(** The command past its gates: marked sent, then sent. *)
Definition mark_and_send (now : clock) (command : CommandRecord.t) : outbound SessionQueuedDispatch :=
  hub_command <~ tlift (hub_command_from_record command) ;;
  marked <~ on_side (attempt (transition tenant_id agent_id (persisted_id token) now
                                (CommandRecord.id command) Send)) ;;
  match marked with
  | Ok _ => send_command hub_command
  | Err status =>
      if is_code Aborted status then tret SessionEnded
      else
        cancelled <~ print_command_was_cancelled command ;;
        if cancelled : bool then tret FailedAndContinue else tfail status
  end.

Definition invalid_payload (command : CommandRecord.t) : string :=
  "required device feature gate failed: persisted printer operation payload is invalid: "
  +:+ payload_error (CommandRecord.payload_json command).

(** The operation of the command, if it is one; the inner [None] does not parse. *)
Definition operation_of (command : CommandRecord.t) : option (option PrinterOperationPayload.t) :=
  match persisted_printer_operation_payload command with
  | None => Some None
  | Some None => None
  | Some (Some operation) => Some (Some operation)
  end.

Definition dispatch_command (now : clock) (current : bool) (command : CommandRecord.t)
  : outbound SessionQueuedDispatch :=
  match operation_of command with
  | None => refuse now command current (invalid_payload command)
  | Some operation =>
      failure <~ gate_failure current command operation ;;
      match failure with
      | Some failure => refuse now command current failure
      | None => if negb current then tret SessionEnded else mark_and_send now command
      end
  end.

(** It runs under the agent's lease. *)
Definition dispatch_next_queued_for_session (now : clock) : outbound SessionQueuedDispatch :=
  current <~ tread (fun s => Ok (is_current agent_id token (HubSide.registry (Outbound.side s)))) ;;
  command <~ on_side next_queued_for_agent ;;
  match command with
  | None => tret (if current : bool then Empty else SessionEnded)
  | Some command => dispatch_command now current command
  end.

(** ** The end of a session *)

(** The loop over the queued commands, with a clock reading each: those that need features
    observed in the session that ends fail. *)
Fixpoint finalize_each (clocks : nat -> clock) (commands : list CommandRecord.t) : outbound unit :=
  match commands with
  | [] => tret tt
  | command :: commands =>
      let failure :=
        match operation_of command with
        | None => Some (invalid_payload command)
        | Some (Some operation) =>
            if beq (PrinterOperation.required_device_features (PrinterOperationPayload.operation operation)) []
            then None
            else Some "required device feature gate failed: exact agent session is no longer current"%string
        | Some None => None
        end in
      match failure with
      | None => finalize_each clocks commands
      | Some failure =>
          failed <~ fail_queued_command (clocks (length commands)) command false failure ;;
          if failed : bool then finalize_each clocks commands else tret tt
      end
  end.

Definition finalize_required_features_for_closing_session (clocks : nat -> clock) : outbound unit :=
  current <~ tread (fun s => Ok (current_token tenant_id agent_id
                                   (HubSide.registry (Outbound.side s)))) ;;
  if is_some current then tret tt
  else
    commands <~ on_side queued_for_agent_in_order ;;
    finalize_each clocks commands.
End Dispatch.
