(* ===== verification/QueuedSafety.v ===== *)
(** * What the queued dispatch sends

    A session is sent the oldest queued command of its agent only, and only when the
    features and capabilities the command needs are those of this session. *)

From stdpp Require Import gmap sorting.
From S2P Require Import Prelude RustStr CoreTypes CoreRecords DeviceFeatures Store JobRows PrinterRows Tx AgentSessions PrinterOperation OperationWire CommandTransitions JobTables JobCreate ArtifactQuota Sessions PrintCommand CommandEvents HubResults CommandCompletion QueuedDispatch.

#[local] Open Scope Z_scope.
#[local] Open Scope rust_scope.
#[local] Open Scope tx_scope.

(** ** The order of the queue *)

Section Order.
Context `{BinaryCollation} `{UuidText}.

Lemma text_le_connected x y : text_le x y = false -> text_le y x = true.
Proof. rewrite !text_le_leb. destruct (String.leb_total x y); congruence. Qed.

Lemma text_le_transitive x y z : text_le x y = true -> text_le y z = true -> text_le x z = true.
Proof. rewrite !text_le_leb. apply string_leb_trans. Qed.

#[export] Instance command_le_total : Total command_le.
Proof.
  intros m n. unfold command_le.
  destruct (text_le (CommandsModel.created_at m) (CommandsModel.created_at n)) eqn:E1;
  destruct (text_le (CommandsModel.created_at n) (CommandsModel.created_at m)) eqn:E2;
    cbn [negb orb andb]; eauto.
  - destruct (text_le (CommandsModel.id m) (CommandsModel.id n)) eqn:E; [by left|right].
    by rewrite (text_le_connected _ _ E).
  - by rewrite (text_le_connected _ _ E1) in E2.
Qed.

#[export] Instance command_le_trans : Transitive command_le.
Proof.
  intros l m n. unfold command_le. rewrite !Is_true_true, !andb_true_iff, !orb_true_iff, !negb_true_iff.
  intros [L1 L2] [L3 L4]. split; [by eapply text_le_transitive|].
  destruct (text_le (CommandsModel.created_at n) (CommandsModel.created_at l)) eqn:E; [right|by left].
  destruct L2 as [L2|L2]; [by rewrite (text_le_transitive _ _ _ L3 E) in L2|].
  destruct L4 as [L4|L4]; [by rewrite (text_le_transitive _ _ _ E L1) in L4|].
  by eapply text_le_transitive.
Qed.

(** A row of the table that is queued for the agent, and before every other such row. *)
Record oldest_queued (t : TenantId) (a : AgentId) (db : Db.t) (m : CommandsModel.t) : Prop := {
  oldest_stored : In m (Db.commands db);
  oldest_tenant : CommandsModel.tenant_id m = TenantId_to_string t;
  oldest_agent : CommandsModel.agent_id m = AgentId_to_string a;
  oldest_status : CommandsModel.status m = CommandStatus.as_str CommandStatus.Queued;
  oldest_first : forall n, In n (Db.commands db) -> CommandsModel.tenant_id n = TenantId_to_string t ->
    CommandsModel.agent_id n = AgentId_to_string a ->
    CommandsModel.status n = CommandStatus.as_str CommandStatus.Queued -> command_le m n;
}.

Lemma queued_for_iff t a m : queued_for t a m = true <->
  CommandsModel.tenant_id m = TenantId_to_string t /\ CommandsModel.agent_id m = AgentId_to_string a
  /\ CommandsModel.status m = CommandStatus.as_str CommandStatus.Queued.
Proof. unfold queued_for. rewrite !andb_true_iff, !beq_true. tauto. Qed.

(** The first of the queue is the oldest queued command. *)
Lemma first_queued t a db m : head (queued_in_order t a db) = Some m -> oldest_queued t a db m.
Proof.
  unfold queued_in_order. intros Hm.
  pose proof (StronglySorted_merge_sort command_le (select (queued_for t a) (Db.commands db))) as Hs.
  assert (forall n, n ∈ merge_sort command_le (select (queued_for t a) (Db.commands db))
                    <-> In n (Db.commands db) /\ queued_for t a n = true) as Hin.
  { intros n. rewrite merge_sort_Permutation, list_elem_of_In. apply select_In. }
  destruct (merge_sort _ _) as [|x l]; [done|]. injection Hm as ->.
  destruct (proj1 (Hin m)) as [Hm1 (Ht & Ha & Hq)%queued_for_iff]; [by left|]. split; try done.
  intros n Hn1 Hn2 Hn3 Hn4. pose proof (proj2 (queued_for_iff t a n) (conj Hn2 (conj Hn3 Hn4))) as Hn5. assert (n ∈ m :: l) as Hn by by apply Hin.
  apply StronglySorted_inv in Hs as [_ Hall]. apply elem_of_cons in Hn as [->|Hn].
  - destruct (total command_le m m); done.
  - by apply (proj1 (Forall_forall _ _) Hall).
Qed.
End Order.

(** ** What the gates let through *)

Section Gates.
Context `{UuidText} `{Store} `{Rfc3339} `{CommandJson} `{QueuedJson} `{PrinterJson} `{PayloadError}.
Context (t : TenantId) (a : AgentId) (token : SessionToken).

(** A printer of the tenant and the agent whose features were observed in this session. *)
Definition observed_feature (s : Outbound.t) (printer_id : string) (feature : RequiredDeviceFeature)
  : Prop :=
  exists m printer features, In m (Outbound.printers s)
    /\ PrintersModel.id m = printer_id /\ PrintersModel.tenant_id m = TenantId_to_string t
    /\ printer_from_model m = Ok printer /\ Printer.agent_id printer = a
    /\ Printer.bambu_device_features_session_id printer = Some (persisted_id token)
    /\ Printer.bambu_device_features printer = Some features
    /\ BambuDeviceFeatures.contains features (RequiredDeviceFeature.bambu_feature feature) = true.

(** What the session must be able to do for an operation. *)
Record entitled (s : Outbound.t) (operation : PrinterOperationPayload.t) : Prop := {
  entitled_gcode : forall param, PrinterOperationPayload.operation operation = PrinterOperation.GcodeLine param ->
    has_capability t a token CAPABILITY_GCODE_LINE s = true;
  entitled_features : forall feature,
    In feature (PrinterOperation.required_device_features (PrinterOperationPayload.operation operation)) ->
    validate (PrinterOperationPayload.operation operation) = Ok tt
    /\ has_capability t a token CAPABILITY_REQUIRED_DEVICE_FEATURES s = true
    /\ observed_feature s (PrinterOperationPayload.printer_id operation) feature;
}.

Lemma printer_features_pass required printer : printer_features_failure a token required printer = None ->
  Printer.agent_id printer = a
  /\ Printer.bambu_device_features_session_id printer = Some (persisted_id token)
  /\ exists features, Printer.bambu_device_features printer = Some features
     /\ forall feature, In feature required ->
          BambuDeviceFeatures.contains features (RequiredDeviceFeature.bambu_feature feature) = true.
Proof.
  unfold printer_features_failure. destruct (beq (Printer.agent_id printer) a) eqn:E1; [|done].
  destruct (Printer.bambu_device_features_session_id printer) as [marker|]; [|done]. cbn [negb].
  destruct (beq marker (persisted_id token)) eqn:E2; [|done]. cbn [negb].
  destruct (Printer.bambu_device_features printer) as [features|]; [|done]. intros Hf.
  rewrite beq_true in E1. rewrite beq_true in E2. subst marker. split_and!; [done|done|]. exists features. split; [done|].
  intros feature Hin. destruct (List.find _ required) eqn:E; [done|].
  pose proof (find_none _ _ E feature Hin) as Hn. by apply negb_false_iff in Hn.
Qed.

Lemma owned_printer_pass required command operation s s' :
  owned_printer_failure t a token required command operation s = (s', Ok None) ->
  forall feature, In feature required ->
    observed_feature s (PrinterOperationPayload.printer_id operation) feature.
Proof.
  unfold owned_printer_failure. destruct (CommandRecord.printer_id command) as [id|]; [|done].
  destruct (beq id (PrinterOperationPayload.printer_id operation)) eqn:Eid; [|done].
  rewrite beq_true in Eid. subst id. cbn [negb].
  unfold get_printer, tbind. destruct (select_one _ _) as [m|] eqn:Em; [|done].
  cbn [traverse_opt option_map r_transpose]. destruct (printer_from_model m) as [printer|] eqn:Ep; [|done].
  cbn [map_err]. intros [= _ Hf]. intros feature Hin.
  destruct (printer_features_pass _ _ Hf) as (Hag & Hse & features & Hfe & Hc).
  apply select_one_Some in Em as [Hm Hk]. apply andb_true_iff in Hk as [Hk1 Hk2].
  rewrite beq_true in Hk1. rewrite beq_true in Hk2. exists m, printer, features. split_and!; try done. by apply Hc.
Qed.

Lemma owned_printer_state required command operation s :
  fst (owned_printer_failure t a token required command operation s) = s.
Proof.
  unfold owned_printer_failure. destruct (CommandRecord.printer_id command); [|done].
  destruct (negb _); [done|]. unfold get_printer, tbind. by destruct (map_err _ _) as [[?|]|].
Qed.

Lemma gate_state current command operation s :
  fst (gate_failure t a token current command operation s) = s.
Proof.
  unfold gate_failure, tbind, tread. destruct (queued_command_gate_failure _ _ _ _ _ _); [done|].
  unfold required_feature_gate_failure. destruct operation as [operation|]; [|done].
  destruct (PrinterOperation.required_device_features _) as [|f required]; [done|].
  destruct (negb _); [done|]. destruct (negb current); [done|]. unfold tbind, tread.
  destruct (negb (has_capability _ _ _ _ _)); [done|].
  pose proof (owned_printer_state (f :: required) command operation s) as E.
  destruct (owned_printer_failure _ _ _ _ _ _ _) as [s1 [r|e]]; exact E.
Qed.

Lemma gates_pass command operation s s' :
  gate_failure t a token true command (Some operation) s = (s', Ok None) -> entitled s operation.
Proof.
  unfold gate_failure, tbind, tread.
  destruct (queued_command_gate_failure _ _ _ _ _ _) eqn:Eg; [done|].
  destruct (required_feature_gate_failure _ _ _ _ _ _ _) as [s1 [[?|]|]] eqn:Er; try done. intros _.
  split.
  - intros param Ho. unfold queued_command_gate_failure in Eg. cbn in Eg. rewrite Ho in Eg.
    cbn [negb orb] in Eg. by destruct (has_capability _ _ _ _ _).
  - intros feature Hin. unfold required_feature_gate_failure in Er.
    destruct (PrinterOperation.required_device_features _) as [|f required]; [done|].
    destruct (validate _) as [[]|] eqn:Ev; [|done]. cbn [is_ok negb] in Er. unfold tbind, tread in Er.
    destruct (has_capability _ _ _ _ _) eqn:Eh; [|done]. cbn [negb] in Er.
    split_and!; [done|done|]. by eapply owned_printer_pass.
Qed.
End Gates.

(** ** The dispatch *)

Section Safety.
Context `{UuidText} `{BinaryCollation} `{Rfc3339} `{CommandJson} `{QueuedJson} `{PrinterJson}.
Context `{PayloadError}.
Context (t : TenantId) (a : AgentId) (token : SessionToken) (now : clock).

(** Nothing was sent, and the dispatch does not say so. *)
Definition silent_step (s s' : Outbound.t) (r : result Status.t SessionQueuedDispatch) : Prop :=
  Outbound.sent s' = Outbound.sent s /\ r <> Ok Sent.

Lemma on_side_sent {A} (m : rpc A) s : Outbound.sent (fst (on_side m s)) = Outbound.sent s.
Proof. unfold on_side. by destruct (m (Outbound.side s)). Qed.

Lemma refuse_silent command current failure s s' r :
  refuse t a token now command current failure s = (s', r) -> silent_step s s' r.
Proof.
  unfold refuse, fail_queued_command, tbind at 1.
  match goal with |- context [on_side ?m s] =>
    pose proof (on_side_sent m s) as Es; destruct (on_side m s) as [s1 [[|]|e]] end;
    cbn [fst] in Es; intros [= <- <-]; by split.
Qed.

Lemma transition_sends command s s' command' :
  transition t a (persisted_id token) now (CommandRecord.id command) Send s = (s', Ok command') ->
  current_session (HubSide.hub s) t a (Some (persisted_id token))
  /\ HubSide.registry s' = HubSide.registry s
  /\ (awaits (database s) (CommandRecord.id command) t a command ->
      CommandRecord.status command = CommandStatus.Queued ->
      awaits (database s') (CommandRecord.id command) t a (after now.1 Send command)).
Proof.
  unfold transition, repository.
  destruct (transition_current_session_command _ _ _ _ _ _ _ _) as [h' r] eqn:E.
  destruct r as [c'|e]; [|done]. intros [= <- _].
  pose proof E as E'. unfold transition_current_session_command in E'. rewrite transaction_Ok in E'.
  apply tbind_Ok in E' as (s1 & u & Eb & _). destruct u.
  destruct (begin_current_run t a (persisted_id token) (HubSide.hub s)) as (r & Er & Hr).
  rewrite Er in Eb. injection Eb as _ ->. pose proof (proj1 Hr eq_refl) as Hcur.
  split_and!; [exact Hcur|done|]. intros Hw Hq.
  destruct (transition_applies now.1 now.2 (database s) (CommandRecord.id command) t a command Send Hw)
    with (h := HubSide.hub s) (session := persisted_id token) as (h1 & E1 & _ & Hm);
    [rewrite Hq; by left|done|exact Hcur|].
  rewrite E1 in E. injection E as <- _. by apply (moved_on _ _ _ _ _ _ Hm).
Qed.

(** The command the dispatch sent, as it found it and as it left it. *)
Record dispatched (s s' : Outbound.t) (command : CommandRecord.t) (hc : HubCommand.t) : Prop := {
  dispatched_sent : Outbound.sent s' = Outbound.sent s ++ [hc];
  dispatched_message : hub_command_from_record command = Ok hc;
  dispatched_session : current_session (HubSide.hub (Outbound.side s)) t a (Some (persisted_id token));
  dispatched_awaits :
    awaits (database (Outbound.side s)) (CommandRecord.id command) t a command ->
    CommandRecord.status command = CommandStatus.Queued ->
    awaits (database (Outbound.side s')) (CommandRecord.id command) t a (after now.1 Send command);
}.

Lemma mark_and_send_cases command s s' r :
  mark_and_send t a token now command s = (s', r) ->
  silent_step s s' r \/ r = Ok Sent /\ exists hc, dispatched s s' command hc.
Proof.
  unfold mark_and_send, tbind at 1, tlift.
  destruct (hub_command_from_record command) as [hc|e] eqn:Ehc; [|intros [= <- <-]; left; by split].
  unfold tbind at 1, on_side at 1, attempt.
  destruct (transition _ _ _ _ _ _ (Outbound.side s)) as [side' [command'|e]] eqn:E.
  - destruct (transition_sends _ _ _ _ E) as (Hcur & _ & Hw). unfold send_command. cbn [Outbound.open].
    destruct (Outbound.open s); intros [= <- <-]; [right|left; by split].
    split; [done|]. exists hc. by split.
  - destruct (is_code Aborted e); [intros [= <- <-]; left; by split|].
    unfold print_command_was_cancelled. destruct (negb _); [intros [= <- <-]; left; by split|].
    unfold tbind at 1 2.
    match goal with |- context [on_side ?m ?s0] =>
      pose proof (on_side_sent m s0) as Es; destruct (on_side m s0) as [s2 [p|e']] end; cbn [fst] in Es.
    + cbn [tret]. destruct (is_some_and _ p); intros [= <- <-]; left; by split.
    + intros [= <- <-]. left. by split.
Qed.


(** The message does not depend on the status: sending leaves it as it was. *)
Lemma same_message action command :
  hub_command_from_record (after now.1 action command) = hub_command_from_record command.
Proof. done. Qed.

Lemma next_queued_run s : exists r,
  on_side (next_queued_for_agent t a) s = (s, r)
  /\ forall command, r = Ok (Some command) ->
       exists m, head (queued_in_order t a (database (Outbound.side s))) = Some m
         /\ command_from_model m = Ok command.
Proof.
  unfold on_side, next_queued_for_agent, repository, on_main, zoom, tread. fold (database (Outbound.side s)).
  assert (Outbound.mk (HubSide.mk (HubSide.registry (Outbound.side s))
      (Hub.mk (Hub.agents (HubSide.hub (Outbound.side s))) (Hub.main (HubSide.hub (Outbound.side s))))
      (HubSide.published (Outbound.side s))) (Outbound.printers s) (Outbound.sent s) (Outbound.open s) = s)
    as Es by (by destruct s as [[reg [agents main] pub] ps sent o]).
  eexists. split; [by f_equal|]. intros command.
  destruct (head _) as [m|]; [|done]. cbn [traverse_opt option_map r_transpose].
  destruct (command_from_model m) as [c|e] eqn:E; [|done]. cbn. intros [= <-]. eauto.
Qed.
End Safety.

(** The record of a queued row is of its tenant and its agent, and queued. *)
Lemma oldest_record `{UuidText} `{BinaryCollation} t a db m command :
  oldest_queued t a db m -> command_from_model m = Ok command ->
  CommandRecord.tenant_id command = t /\ CommandRecord.agent_id command = a
  /\ CommandRecord.status command = CommandStatus.Queued.
Proof.
  intros [_ Et Ea Es _] Hrow%command_from_model_iff. split_and!.
  - pose proof (row_command_tenant _ _ Hrow) as Hp. rewrite Et, TenantId_parse_to_string in Hp. by injection Hp.
  - pose proof (row_command_agent _ _ Hrow) as Hp. rewrite Ea, AgentId_parse_to_string in Hp. by injection Hp.
  - apply status_text_inj. by rewrite <- (row_status _ _ Hrow), Es.
Qed.

(** C4: a session is sent only the oldest queued command of its agent - a row of the table,
    of the session's tenant and agent and still queued - and only while it is the agent's
    session, in the registry and in the database; a raw G-code operation only if the
    session advertises that it takes it, and an operation that needs device features only
    if it is valid, the session advertises that it checks them, and every one of them is in
    the bitmap that the operation's own printer, still of this agent, reported during this
    very session.  Each dispatch sends at most one command, as the message its row converts
    to, and a command that could get its result when it was queued can get it now that it
    is sent. *)
Theorem queued_dispatch_gated `{UuidText} `{BinaryCollation} `{Rfc3339} `{CommandJson} `{QueuedJson}
    `{PrinterJson} `{PayloadError} (t : TenantId) (a : AgentId) (token : SessionToken) (now : clock)
    (s s' : Outbound.t) (r : result Status.t SessionQueuedDispatch)
    (Hrun : dispatch_next_queued_for_session t a token now s = (s', r)) :
  silent_step s s' r
  \/ r = Ok Sent /\ exists m command hc,
       oldest_queued t a (database (Outbound.side s)) m
       /\ command_from_model m = Ok command
       /\ CommandRecord.tenant_id command = t /\ CommandRecord.agent_id command = a
       /\ CommandRecord.status command = CommandStatus.Queued
       /\ is_current a token (HubSide.registry (Outbound.side s)) = true
       /\ (forall operation, operation_of command = Some (Some operation) -> entitled t a token s operation)
       /\ dispatched t a token now s s' command hc
       /\ hub_command_from_record (after now.1 Send command) = Ok hc.
Proof.
  unfold dispatch_next_queued_for_session, tbind at 1, tread in Hrun.
  destruct (next_queued_run t a s) as (rn & En & Hn). unfold tbind at 1 in Hrun. rewrite En in Hrun.
  destruct rn as [[command|]|e]; [|injection Hrun as <- <-; left; split; [done|by destruct (is_current _ _ _)]
    |injection Hrun as <- <-; left; by split].
  destruct (Hn command eq_refl) as (m & Hm & Hc). apply (first_queued t a) in Hm as Hold.
  destruct (oldest_record t a _ m command Hold Hc) as (Et & Ea & Es).
  unfold dispatch_command in Hrun.
  destruct (operation_of command) as [operation|] eqn:Eo; [|left; by eapply refuse_silent].
  unfold tbind in Hrun. set (current := is_current a token _) in *.
  pose proof (gate_state t a token current command operation s) as Hs.
  destruct (gate_failure _ _ _ _ _ _ _) as [s1 [[failure|]|e]] eqn:Eg; cbn [fst] in Hs; subst s1;
    [left; by eapply refuse_silent| |injection Hrun as <- <-; left; by split].
  destruct current eqn:Ecur; cbn [negb] in Hrun; [|injection Hrun as <- <-; left; by split].
  destruct (mark_and_send_cases t a token now command s s' r Hrun) as [Hd|(-> & hc & Hd)]; [by left|right].
  split; [done|]. exists m, command, hc. split_and!; try done.
  - intros op Hop. assert (operation = Some op) as -> by congruence. by eapply gates_pass.
  - rewrite same_message. apply Hd.
Qed.
