(* ===== verification/CommandSamples.v ===== *)
(** * Witnesses of the way of a command

    A Studio print created in the small hub of [JobSamples] and accepted by the agent; a
    print sent to an agent whose printer refuses the upload, from the command's row to its
    failure; and a homing operation that needs the printer's homing feature, dispatched
    before a younger one in a session that observed the feature. *)

From stdpp Require Import gmap.
From S2P Require Import Prelude RustStr RustFloat Json Redaction CoreTypes DeviceFeatures CoreRecords Store JobRows Tx AgentSessions PrinterRows LiveStatus PrinterOperation OperationWire ProjectFile CommandTransitions Sessions JobTables JobCreate ArtifactQuota JobSamples PrintCommand OperationCommands AgentOperations Brtc PrintDispatch PrintPipeline CommandEvents CommandAnswers HubResults CommandCompletion QueuedDispatch QueuedSafety.

(** ** A created print *)

Section Print.
#[local] Open Scope Z_scope.

#[local] Existing Instance list_store.
#[local] Existing Instance binary_uuid.
#[local] Existing Instance binary_clock.
#[local] Existing Instance no_audit_json.
#[local] Existing Instance no_command_json.

(** A task with two mapped filaments. *)
Definition sample_metadata : StudioPrintMetadata :=
  V1 (StudioPrintMetadataV1.mk "Cube" "project" "preset" (Some 1) [] [0; 1] [mkAmsEntry 0 0] []
        [mkNozzleInfo 0 None None (Some (StudioFiniteF64.mk f64_1))] "cloud" EmptyString 7 0
        EmptyString "from_normal" "X1" true false false false false false true "hot_plate"
        PrintCalibrationMode.On PrintCalibrationMode.Off PrintCalibrationMode.Off (-1) true
        EmptyString EmptyString).

#[local] Instance sample_json : JobJson := {|
  parse_studio_metadata := fun _ => Ok sample_metadata;
  studio_metadata_to_string := fun _ => "{}"%string;
  artifact_metadata_ok := fun _ => true;
|}.

(** The payload of the command that a creation in the sample hub stores. *)
Definition stored_payload : PrintProjectFilePayload.t :=
  payload sample_input (mkJobId 9) "serial" (StudioSubmissionId.mk 4) (Some sample_metadata).

#[local] Instance stored_print_json : PrintJson := {|
  mapping_len := fun _ _ => Some 0%nat;
  print_payload_to_string := fun _ => "{}"%string;
  parse_print_payload := fun _ => Some stored_payload;
|}.

#[local] Instance empty_mappings : QueuedJson := {|
  parse_discover_payload := fun _ => None;
  parse_diagnose_payload := fun _ => None;
  parse_printer_payload := fun _ => None;
  parse_ams_mapping := fun _ => Some [];
  parse_ams_mapping2 := fun _ => Some [];
  parse_ams_mapping_info := fun _ => Some [];
  mapping_len_ams := fun _ => eq_refl;
  mapping_len_ams2 := fun _ => eq_refl;
  mapping_len_info := fun _ => eq_refl;
|}.

#[local] Instance quoted_text : ErrorText := {|
  debug_str := fun s => s; unknown_enumeration := fun _ => "unknown"%string |}.

Lemma created_print_dispatchable_witness :
  exists s' created row c m,
    create_print_job "t9" (mkJobId 9) (mkCommandId 9) sample_input (Some sample_metadata) sample_tables
      = (s', Ok created)
    /\ In row (Db.commands (JobsDb.main s')) /\ command_from_model row = Ok c
    /\ hub_command_from_record c
       = Ok (HubCommand.mk (CommandId_to_string (mkCommandId 9)) (QueuedCommand.PrintProjectFile m))
    /\ exists v, validate_print_project_file_command m = Some (Ok v).
Proof.
  run_sample (create_print_job "t9" (mkJobId 9) (mkCommandId 9) sample_input (Some sample_metadata))
    s' created E.
  destruct (created_print_dispatchable "t9" (mkJobId 9) (mkCommandId 9) sample_input
    (Some sample_metadata) sample_tables s' created E)
    as (row & c & m & r & Hin & Hc & _ & Hm & _ & _ & Hr & Hok).
  - intros serial sid Hserial Hsid. vm_compute in Hserial, Hsid. injection Hserial as <-.
    injection Hsid as <-. exists stored_payload. split; [reflexivity|].
    exists (let 'V1 m := sample_metadata in StudioPrintMetadataV1.nozzles_info m).
    split; reflexivity.
  - exists s', created, row, c, m. split; [exact E|]. split; [exact Hin|]. split; [exact Hc|].
    split; [exact Hm|]. destruct r as [v|e]; [exists v; exact Hr|].
    vm_compute in Hok. discriminate Hok.
Defined.
End Print.

(** ** A print that fails *)

Section Answer.
#[local] Existing Instances list_store binary_uuid binary_clock no_command_json one_message_json stored_print_json empty_mappings quoted_text.

(** A serializer that only has to tell the failures of a transfer apart. *)
#[local] Instance failure_text : ResultJson := {|
  result_json_text := fun v =>
    match v with
    | Object [(_, Str (String initial _)); (_, Str cause)] => String initial cause
    | _ => "{}"%string
    end;
|}.

Definition read_failure (s : string) : option (PrintTransferPhase * string) :=
  match s with
  | String "c" cause => Some (Connect, cause)
  | String "l" cause => Some (Login, cause)
  | String "p" cause => Some (Protection, cause)
  | String "d" cause => Some (DataConnection, cause)
  | String "w" cause => Some (Write, cause)
  | String "f" cause => Some (Finalize, cause)
  | String "v" cause => Some (Verify, cause)
  | String "t" cause => Some (Timeout, cause)
  | _ => None
  end%char.

#[local] Instance failure_reader : TransferFailureJson.
Proof. exists read_failure. intros phase cause. by destruct phase. Defined.

#[local] Instance refusing_printer : MachineGateway unit := {|
  redact_error := fun _ message => message;
  discover_printers := fun _ => tret [];
  discover_printer_at_host := fun _ _ => tret None;
  diagnose_printer := fun _ => tfail "offline"%string;
  refresh_printers := tret [PrinterRefreshResult.mk (MachineSnapshot.mk "serial" "X1" None None) None];
  refresh_printer_materials := fun _ _ => tfail "offline"%string;
  validate_printer := fun _ => tret tt;
  validate_printer_endpoint_identity := fun _ => tret tt;
  operate_printer := fun _ _ => tfail "offline"%string;
  print_project_file := fun _ _ _ => tfail (TransferError.mk "530" (Some Login));
  link_printer := fun _ => tfail "offline"%string;
  link_failure_code := fun _ _ => "link_failed"%string;
  read_artifact := fun _ => tret [];
  fetch_saved_printer_connections := fun _ => tret [];
|}.

#[local] Instance refusing_printer_informs : GatewayInforms unit.
Proof.
  split; intros; apply informs_silent; intros w q w' q' r [= <- <- <-];
    exists []; rewrite app_nil_r; split_and!; eauto; done.
Qed.

Definition sample_config : AgentConfig.t :=
  AgentConfig.mk (AgentId_to_string A1) (TenantId_to_string T1) None.
Definition open_queue : Queue.t := Queue.mk [] None.

Lemma command_answered_witness :
  exists w' q' events,
    handle_command_with_reader sample_config "c" (Some (Queued QueuedCommand.RefreshPrinters))
      (tt, open_queue) = ((w', q'), Ok tt)
    /\ Queue.events q' = events /\ length events = 3%nat
    /\ settled_by sample_config "c" (result_shape (Some (Queued QueuedCommand.RefreshPrinters))) events.
Proof.
  destruct (handle_command_with_reader sample_config "c" (Some (Queued QueuedCommand.RefreshPrinters))
    (tt, open_queue)) as [[w' q'] r] eqn:E.
  destruct (command_answered sample_config "c" (Some (Queued QueuedCommand.RefreshPrinters)) tt w'
    open_queue q' r E) as (events & Hq & Hok & _ & Hroom).
  exists w', q', events. destruct (Hroom eq_refl) as [_ ->].
  split; [reflexivity|]. split; [exact Hq|]. split; [|by apply Hok].
  vm_compute in E. injection E as _ <-. cbn in Hq. by subst events.
Defined.

(** The print of [sent_print], in a session of the agent. *)
Definition sample_token : SessionToken := 5%N.
Definition connected_agent : AgentsModel.t :=
  AgentsModel.mk "0" "0" "garage" "online" (Some "1.0"%string) (Some "1"%string) "t0" None None None
    (Some (persisted_id sample_token)).
Definition sample_session : AgentSession.t :=
  AgentSession.mk sample_token T1 A1 "garage" "1.0" "t0" "t0" [].
Definition sample_side : HubSide.t :=
  HubSide.mk (SessionRegistry.mk {[A1 := sample_session]} ∅)
    (Hub.mk [connected_agent] (Db.mk [sent_print] [live_job] [] [])) [].
Definition sent_command : CommandRecord.t :=
  CommandRecord.mk C1 T1 A1 None "print_project_file" CommandStatus.Sent "{}" None None "t0" "0".

#[local] Instance no_firmware : FirmwareAnswers := {|
  firmware_pending := fun _ => false;
  firmware_ack := fun _ _ _ _ _ _ => tret false;
  firmware_failure := fun _ _ _ _ _ => tret false;
  firmware_ack_none := fun _ _ _ _ _ _ _ _ => eq_refl;
  firmware_failure_none := fun _ _ _ _ _ _ _ => eq_refl;
|}.

Lemma sample_awaits : awaits (database sample_side) C1 T1 A1 sent_command.
Proof.
  split; [split|reflexivity|].
  - apply NoDup_singleton.
  - exists sent_print. split_and!; [reflexivity|by split|by split].
  - intros _. exists live_job. split_and!; [by left|reflexivity..].
Qed.

Lemma sample_speaks : speaks T1 A1 sample_token C1 sample_side.
Proof.
  split; [reflexivity| | |reflexivity].
  - intros session E. vm_compute in E. injection E as <-. reflexivity.
  - exists connected_agent. by split_and!.
Qed.

Lemma queued_command_completes_witness :
  exists hc w' q' events s' command',
    hub_command_from_record sent_command = Ok hc
    /\ handle_command_with_reader sample_config (HubCommand.command_id hc)
         (Some (Queued (HubCommand.command hc))) (tt, open_queue) = ((w', q'), Ok tt)
    /\ Queue.events q' = events
    /\ handle_command_events T1 A1 sample_token (fun _ => ("t1", "t1")%string) (answers_of events) sample_side
       = (s', Ok tt)
    /\ completed T1 A1 C1 s' false command'.
Proof.
  destruct (hub_command_from_record sent_command) as [hc|e] eqn:Eh; [|vm_compute in Eh; discriminate Eh].
  destruct (handle_command_with_reader sample_config (HubCommand.command_id hc)
    (Some (Queued (HubCommand.command hc))) (tt, open_queue)) as [[w' q'] r] eqn:E.
  destruct (queued_command_completes T1 A1 sample_token C1 sample_config sent_command hc sample_side
    (fun _ => ("t1", "t1")%string) tt w' open_queue q' r eq_refl eq_refl Eh eq_refl sample_awaits
    sample_speaks eq_refl E) as (events & s' & command' & Hq & He & Hd).
  vm_compute in Eh. injection Eh as <-. vm_compute in E. injection E as <- <- <-.
  cbn in Hq. subst events. do 6 eexists. split_and!; [reflexivity|reflexivity|reflexivity|exact He|exact Hd].
Defined.
End Answer.

(** ** The queue *)

Section Queue.
#[local] Existing Instances list_store list_store_binary binary_uuid binary_clock stored_print_json empty_mappings.

Definition homing : PrinterOperationPayload.t :=
  PrinterOperationPayload.mk "p1" "serial"
    (PrinterOperation.Home [] [BambuMqttHoming]).

#[local] Instance homing_json : CommandJson := {|
  parse_uploaded_url := fun _ => None;
  parse_operation_payload := fun _ => Some homing;
  parse_refresh_payload := fun _ => None;
  parse_control_payload := fun _ => None;
  persisted_result_to_string := fun _ => "{}"%string;
|}.

#[local] Instance no_error_text : PayloadError := {| payload_error := fun _ => "invalid"%string |}.

(** Every column of a printer that is not text reads as empty. *)
#[local] Instance empty_columns : PrinterJson := {|
  parse_nozzle_temperatures := fun _ => Some [];
  parse_cooling_system := fun _ => None;
  parse_nozzle_system := fun _ => None;
  parse_firmware_modules := fun _ => None;
  firmware_modules_to_string := fun _ => EmptyString;
  parse_upgrade_state := fun _ => None;
  upgrade_state_to_string := fun _ => EmptyString;
  parse_hms := @parse_hms hms_json_codec;
  hms_to_string := @hms_to_string hms_json_codec;
  decrypt := fun _ _ _ => None;
  parse_hms_to_string := @parse_hms_to_string hms_json_codec;
|}.

Definition observed_printer : PrintersModel.t :=
  LiveStatus.stored_row <| PrintersModel.tenant_id := TenantId_to_string T1 |>
             <| PrintersModel.agent_id := AgentId_to_string A1 |>
             <| PrintersModel.bambu_fun_bits := Some "FFFFFFFFFFFFFFFF"%string |>
             <| PrintersModel.bambu_fun_session_id := Some (persisted_id sample_token) |>.

Definition queued_homing (id created_at : string) : CommandsModel.t :=
  CommandsModel.mk id "0" "0" (Some "p1"%string) "printer_operation" "queued" "{}" None None created_at "t0".

Definition capable_session : AgentSession.t :=
  AgentSession.mk sample_token T1 A1 "garage" "1.0" "t0" "t0" [CAPABILITY_REQUIRED_DEVICE_FEATURES].

Definition sample_outbound : Outbound.t :=
  Outbound.mk
    (HubSide.mk (SessionRegistry.mk {[A1 := capable_session]} ∅)
       (Hub.mk [connected_agent] (Db.mk [queued_homing "1" "t1"; queued_homing "0" "t0"] [] [] [])) [])
    [observed_printer] [] true.

Lemma queued_dispatch_gated_witness :
  exists s' hc,
    dispatch_next_queued_for_session T1 A1 sample_token ("t2", "t2")%string sample_outbound = (s', Ok Sent)
    /\ Outbound.sent s' = [hc] /\ HubCommand.command_id hc = "0"%string
    /\ entitled T1 A1 sample_token sample_outbound homing.
Proof.
  destruct (dispatch_next_queued_for_session T1 A1 sample_token ("t2", "t2")%string sample_outbound)
    as [s' r] eqn:E.
  assert (r = Ok Sent) as -> by (vm_compute in E; by injection E as _ <-).
  destruct (queued_dispatch_gated T1 A1 sample_token ("t2", "t2")%string sample_outbound s' (Ok Sent) E)
    as [[_ Hn]|(_ & m & command & hc & Hold & Hm & _ & _ & Hq & _ & Hent & Hd & _)]; [by destruct Hn|].
  exists s', hc. split; [reflexivity|]. pose proof (dispatched_sent _ _ _ _ _ _ _ _ Hd) as Hs.
  split; [exact Hs|]. vm_compute in E. injection E as E. rewrite <- E in Hs. cbn in Hs.
  injection Hs as <-. split; [reflexivity|]. apply Hent.
  pose proof (dispatched_message _ _ _ _ _ _ _ _ Hd) as Hmsg.
  unfold operation_of, persisted_printer_operation_payload.
  destruct (beq (CommandRecord.kind command) "printer_operation") eqn:K; [reflexivity|].
  exfalso. revert Hmsg. unfold hub_command_from_record. rewrite rbind_Ok.
  intros (queued & Hqc & Heq). unfold queued_command in Hqc. injection Heq as _ ->.
  rewrite K in Hqc. repeat (destruct (beq (CommandRecord.kind command) _) in Hqc; try discriminate Hqc).
Defined.
End Queue.
