(* ===== verification/PipelineSamples.v ===== *)
(** * A concrete material report

    A printer with one AMS unit whose second slot is empty, on which the theorems
    of [MaterialPipeline] are applied. *)

From S2P Require Import Prelude RustStr RustFloat CoreTypes Json Serde BTree Ams Store JobRows Tx AgentSessions PrinterRows Materials MaterialMerge MaterialCodec AgentMaterials MaterialPipeline Brtc BrtcSamples.

#[local] Open Scope Z_scope.

#[export] Instance no_floats : FloatText := { float_to_string _ := EmptyString }.

(** The text format of [BrtcSamples], for values without floats. *)
Definition print_exact (j : json) : option string := if exact j then Some (print_braced j) else None.

Lemma print_exact_round_trip j text :
  print_exact j = Some text -> exists j', parse_braced text = Some j' /\ erase j' = erase j.
Proof.
  unfold print_exact. destruct (exact j) eqn:Ex; [|done]. intros [= <-].
  exists j. by split; [apply parse_print_braced|].
Qed.

#[export] Instance exact_text : MaterialText := {
  json_from_str := parse_braced;
  json_to_string := print_exact;
  json_text_round_trip := print_exact_round_trip;
}.

(** Bits 1101: the slot 1 of the unit 0 is empty, whatever its entry says. *)
Definition report_json : json :=
  Object [("print", Object [("ams", Object [
    ("ams", Array [Object [("id", Str "0"); ("tray", Array [
       Object [("id", Str "0"); ("tray_type", Str "PLA")];
       Object [("id", Str "1"); ("tray_type", Str "PETG"); ("tray_color", Str "ff0000ff")]])]]);
    ("tray_exist_bits", Str "d")])])]%string.

Definition sample_report : MaterialsReport.t := default (MaterialsReport.mk None) (MaterialsReport.decode report_json).
Definition sample_print : Print.t :=
  default (Print.mk None None None None None None None None None) (MaterialsReport.print sample_report).
Definition sample_ams : AmsReport.t := default (AmsReport.mk [] None None None None None) (Print.ams sample_print).
Definition sample_unit : Unit_.t :=
  default (Unit_.mk None None None None None None None None []) (head (AmsReport.ams sample_ams)).
Definition sample_time : string := "1".
Definition sample_patch : option AgentPatch.t := normalize_material_patch sample_report sample_time.
Definition sample_text : string := default EmptyString (sample_patch ≫= fun p => print_exact (patch_json p)).

(** The Hub's unit still shows the red PETG and its calibration. *)
Definition shelf : list Us.t :=
  [Us.mk (Some "0"%string) [Ts.mk (Some "1"%string) [("color", Str "FF0000FF"); ("k_value", Str "0.02"); ("type", Str "PETG")]%string] []].

#[local] Existing Instances binary_clock.

(** The patch of the report, through its text. *)
Lemma sample_sent :
  exists p patch, sample_patch = Some p /\ json_from_str sample_text = Some (patch_json p)
    /\ parse_patch_result sample_text = Some patch /\ rfc_parse (AgentPatch.observed_at p) <> None.
Proof.
  assert (exists p, sample_patch = Some p) as [p Ep] by (vm_compute; eexists; reflexivity).
  assert (exists patch, parse_patch_result sample_text = Some patch) as [patch Et]
    by (vm_compute; eexists; reflexivity).
  exists p, patch. split; [exact Ep|].
  assert (exact (patch_json p) = true) as Hx.
  { change p with (default p (Some p)). rewrite <- Ep. vm_compute. reflexivity. }
  assert (sample_text = print_braced (patch_json p)) as Es.
  { unfold sample_text. rewrite Ep. simpl. unfold print_exact. rewrite Hx. reflexivity. }
  split; [rewrite Es; apply parse_print_braced; exact Hx|]. split; [exact Et|].
  change p with (default p (Some p)). rewrite <- Ep. vm_compute. discriminate.
Qed.

Lemma emptied_slot_forgotten_witness :
  exists p patch units u tray,
    normalize_material_patch sample_report sample_time = Some p
    /\ parse_patch_result sample_text = Some patch /\ Pp.ams_units patch = Some units
    /\ at_key Us.unit_id "0"%string (merge_units shelf units) = Some u
    /\ at_key Ts.tray_id "1"%string (Us.trays u) = Some tray
    /\ lookup_key "color" (Ts.fields tray) = None
    /\ lookup_key "k_value" (Ts.fields tray) = Some (Str "0.02").
Proof.
  destruct sample_sent as (p & patch & Ep & Et & Epp & _).
  destruct (emptied_slot_forgotten sample_report sample_print sample_ams sample_time p sample_text patch
              sample_unit "0" 0 Ams 13 1 shelf) as (units & u & tray & H1 & H2 & H3 & H4).
  - vm_compute. reflexivity.
  - vm_compute. reflexivity.
  - exact Ep.
  - exact Et.
  - exact Epp.
  - vm_compute. apply NoDup_singleton.
  - vm_compute. left. reflexivity.
  - vm_compute. discriminate.
  - vm_compute. apply NoDup_cons. split; [|apply NoDup_singleton]. rewrite list_elem_of_singleton. discriminate.
  - reflexivity.
  - reflexivity.
  - reflexivity.
  - reflexivity.
  - reflexivity.
  - discriminate.
  - right. left. reflexivity.
  - exists 1. split; reflexivity.
  - repeat constructor.
  - exists p, patch, units, u, tray.
    split; [exact Ep|]. split; [exact Epp|]. split; [exact H1|]. split; [exact H2|]. split; [exact H3|]. split.
    + pose proof (fg_material _ _ _ H4) as Hm. unfold material_names in Hm.
      rewrite !Forall_cons in Hm. apply Hm.
    + rewrite (fg_other _ _ _ H4); [reflexivity|]. vm_compute. intuition discriminate.
Defined.

Lemma agent_patch_accepted_witness :
  exists p patch, sample_patch = Some p /\ parse_patch_result sample_text = Some patch
    /\ Pp.observed_at patch = AgentPatch.observed_at p.
Proof.
  destruct sample_sent as (p & patch & Ep & Et & Epp & Er).
  destruct (rfc_parse (AgentPatch.observed_at p)) as [t|] eqn:E; [|contradiction].
  destruct (agent_patch_accepted p sample_text t Et E) as (patch' & Epp' & Eo & _).
  exists p, patch'. split; [exact Ep|]. split; [exact Epp'|exact Eo].
Defined.
